(* ===== verification/_CoqProject ===== *)
-Q . S2P
Prelude.v
GoString.v
GoFloat.v
FloatFacts.v
Json.v
Api.v
Crd.v
Hwinv.v
Resources.v
Policy.v
Kube.v
Fsm.v
PodCache.v
Twin.v
Env.v
GoSlices.v
Governor.v
CpuGovernor.v
GpuGovernor.v
Native.v
Host.v
NvidiaDiscovery.v
CpuDiscovery.v
GovernorLoop.v
CpuControl.v
NvidiaControl.v
AmdControl.v
HostFS.v
Dvfs.v
RaplCap.v
GpuDevices.v
GpuSysfs.v
GpuInventory.v
GovernorControl.v
GovernorLimits.v
Inventory.v
GpuCap.v
HostHardware.v
GovernorConfig.v
Caps.v
Controller.v
Publish.v
TwinSpec.v
HardwareStatus.v
GovernorContract.v
AgentReconcile.v
AgentPool.v
PromName.v
PromQuery.v
PromResult.v
PowerReader.v
Telemetry.v
NodePower.v
Twinstate.v
TwinBudget.v
Facility.v
InputsConfig.v
Powerest.v
TtlCache.v
Scheduler.v
SimGovernor.v
GpuSlots.v
SimNames.v
SimPlacement.v
SimBuild.v
SimObjects.v
SimEnergy.v
SimLedger.v
SimCpuFreq.v
SimApply.v
SimRapl.v
SimNvidia.v
SimNvClock.v
