(* ===== verification/Prelude.v ===== *)
(** * Joulie: a verification library

    Joulie is a Kubernetes operator that saves energy on a cluster. A
    controller manager (cmd/controller-manager) decides which nodes run at
    full power ("performance") and which are capped ("eco"), and writes one
    NodeTwin object per node; an agent on every node (cmd/agent) applies the
    caps and the frequency governors that object asks for and reports back;
    a scheduler extender (cmd/scheduler) steers pods by what the NodeTwin
    status says. This library models that program from its Go source and
    proves what each part promises. A definition that translates code carries
    the lines it translates, as [src/<path>:<first>-<last> [symbol]], in the
    comment above it.

    ** The parts, and the files that model them

    Foundations. Prelude.v: machine integers ([wrap64], [sat64]), lists,
    tactics and the hint databases. GoString.v: the functions of package
    strings, strconv and fmt the code uses, on bytes. GoFloat.v: float64 as
    IEEE binary64 (SpecFloat), with package math; FloatFacts.v: the order,
    rounding and monotonicity lemmas the components share. GoSlices.v:
    sorting and slices. Json.v: the JSON values a status carries. Kube.v:
    the pods and nodes of Kubernetes, with quantities behind a class
    ([QuantityOps]).

    Shared data. Api.v (pkg/api/types.go, governor.go), Crd.v (api/v1alpha1),
    Hwinv.v (pkg/hwinv: the hardware catalog, in the order a lookup ranges
    over it, cap ranges, name normalisation), Resources.v
    (pkg/api/gpuresources.go).

    Controller manager. Policy.v (pkg/controller/policy: the three policies
    and the divisor method that spreads performance nodes over hardware
    pools), Fsm.v (pkg/controller/fsm: profile states and the downgrade
    guard, over the interface [NodeOps]), PodCache.v (reader.go: the cache
    that implements [NodeOps]), Twin.v (pkg/controller/twin), Env.v,
    Inventory.v, GovernorConfig.v, Caps.v (environment, node inventory,
    governor and cap intents), Controller.v (a reconcile, from the cluster's
    objects to the guarded plan), Publish.v (the API writes of a plan, call by
    call against an API server that may fail), Twinstate.v (the status of
    each twin), TwinBudget.v (the CPU watts of a twin against those of the
    agent), GovernorContract.v (the inventory the agents report against
    the intents the controller writes).

    Inputs of the controller manager. PromName.v (pkg/otel/promname: metric
    and label names under every translation strategy), PromQuery.v
    (pkg/controller/inputs: the PromQL of every preset, the carbon
    intensity), PromResult.v (prom.go: what Prometheus answers),
    PowerReader.v (pkg/otel/otlpjson: counters of OTLP metrics turned into
    watts), Telemetry.v (the request behind it, as the agent and the
    controller send it), NodePower.v (nodepower.go: the power of each node of
    a reconcile), Facility.v (facility.go: the poll and the snapshot that
    reconciles read), InputsConfig.v (inputs_config.go: everything checked at
    start).

    Agent. Governor.v, CpuGovernor.v, GpuGovernor.v, Native.v (pkg/governor:
    the plans of every preset on a CPU, an amdgpu and an NVIDIA device, their
    reversal and their notation), Host.v (a write to the host and what its
    error means), CpuDiscovery.v, NvidiaDiscovery.v (pkg/governor/discover),
    GovernorLoop.v (cmd/agent/governor_control.go: the control loop of one
    component, over the interface [governorOps]), CpuControl.v,
    NvidiaControl.v, AmdControl.v (the three mechanisms behind that
    interface), GpuInventory.v, GovernorControl.v (the governor blocks of the
    inventory; the control of a node over the loop, with what a restart takes
    from the last status), GovernorLimits.v (restoring governors leaves the
    power limits of the node, over the interface [PowerLimits]), HostFS.v (the host's files and
    pkg/agent/control), Dvfs.v (pkg/agent/dvfs), RaplCap.v (CPU caps of
    cmd/agent/main.go), GpuDevices.v, GpuSysfs.v, GpuCap.v (GPU caps of
    main.go, amdgpu.go, intelgpu.go, and a whole cap intent over them),
    HostHardware.v (the hardware of the node), TwinSpec.v, HardwareStatus.v
    (the spec read from the API server and the status written to it),
    AgentReconcile.v (a tick of the agent), AgentPool.v (one process for a
    shard of nodes).

    Scheduler. Powerest.v (pkg/scheduler/powerest), Scheduler.v and
    TtlCache.v (cmd/scheduler/main.go: filter and score, and the caches
    behind them under interleaving).

    Simulator (simulator/pkg), the test bed the operator is run on.
    SimGovernor.v (phys/governor.go: the frequency each cpufreq governor asks
    for), GpuSlots.v, SimNames.v, SimPlacement.v, SimBuild.v, SimObjects.v
    (workload: the GPU units of a node, the names, groups, placement and
    objects of a run), SimEnergy.v (hwemu/counter.go: the energy register
    and the agent's meter over it), SimLedger.v (emulate: the ledgers and
    counters of a cluster, over restarts). The emulated hardware, each as an
    instance of the interface the agent's file is written against:
    SimCpuFreq.v (hwemu: the cpufreq and intel_pstate files, [SysfsHost]),
    SimRapl.v (the powercap tree, [HostFS]), SimNvidia.v (hwemu/smi: the
    nvidia-smi of a node, [NvidiaSmi] and [LockingSmi]), SimNvClock.v
    (hwemu: the profile, rendered state and clocks of its GPUs), SimApply.v
    (the agent's CPU apply on such a node).

    ** How the model stands to the code

    An [int] or [int64] is a [Z]; where the code's arithmetic can overflow,
    the wrap-around is written out. A float64 is a binary64 number with the
    rounding of every operation; sums over Go maps take the order of the
    visit as an argument or the plan's order. Strings are byte strings; case
    folding is ASCII. A Go map is a [gmap string], or a list of entries when
    its visiting order shows. A time is nanoseconds since the zero
    [time.Time]; the clock is an argument, read once per step. A pointer to a
    value that may be absent is an option. A catalog is the list of its
    entries in the order Go ranges over the map, which is any order; where an
    outcome must not depend on it, a theorem takes two orders of the same
    entries ([sameEntries]) that spell no two of them alike ([unambiguous]). An error is the text of an error or
    a constructor; several joined are a list. A panic is [None] of the
    function's own option. Log lines, metrics and the explanations written
    for people are left out, and numbers formatted into messages are kept as
    numbers in a constructor.

    What is not this program is an interface or a parameter. The API server
    answers each call from a state that may refuse it (Publish.v,
    GovernorLoop.v); a host's sysfs is [SysfsHost] (attributes) and [HostFS]
    (whole files, globs and links); nvidia-smi is [NvidiaSmi], and [LockingSmi] where its manual's
    word on locks is relied on (a lock command on a bus id that succeeds does
    what it says, one that fails does nothing, a query changes no lock);
    the HTTP control endpoint is [ControlEndpoint]; the wait for an amdgpu
    overdrive table is [Overdrive]; label selectors, [time.Parse],
    [strconv.ParseFloat] and the formatting of floats are arguments of the
    definitions that use them. Where a theorem relies on how such a part
    behaves, the assumption is a class law or a named hypothesis, and the
    theorem's witness runs it on a concrete instance (a file tree, a list of
    cards, a recorder of commands), or on the emulated node itself. The network of the measured inputs is
    [HTTPGet], a state that answers each GET; the codec of OTLP JSON is the
    class [DecodesMetrics]; [json.Unmarshal] of an answer, [time.ParseDuration]
    and [strconv.FormatFloat] are arguments.

    Fuel appears where the source loops until a text is used up or a number
    of attempts is spent: the text functions of GoString.v take one more than
    the text's length; the divisor method of Policy.v takes as many rounds as
    there are seats; the polls of an overdrive table are the source's own
    bound; the search for a free key of a group of jobs (SimBuild.v) takes
    one more round than there are keys in use; the steps of a conservative
    governor (SimGovernor.v) are the sampling periods of its interval; a
    class number of a powercap zone has at most 16 hexadecimal digits. The
    energy register of SimEnergy.v is 32 bits wide; its theorems take units of
    at least 1000 nJ and below 2^31 nJ ([usable]) and energies below 2^32 J.

    ** What is proved

    Reconcile of the controller manager: the plan covers every node once,
    never leaves fewer performance nodes than the policy decided, and never
    moves a node that runs performance-sensitive pods to eco; the seats are
    those of the Sainte-Lague method; publication writes exactly the specs
    and labels that differ and survives the failure of any call.

    Governors: the plans set what the preset says and nothing else, reading
    the node back inverts them, the notation of a plan reads back as its
    state; the control loop spaces its attempts on an intent, except where a
    driver reports the setting as lost, makes progress, and restores once,
    over every mechanism that keeps the laws of [Mechanism], and the three of
    the agent do; and for each
    mechanism the node comes back to its baseline: what the CPU reconcile
    wrote is put back, the NVIDIA record accounts for every lock, the AMD
    devices read as they did.

    The agent as a whole: a tick enforces what the controller planned (from
    the written spec to the zones' files), with SIMULATE_ONLY no tick of a
    run writes anything, a stale spec puts the governors back and leaves
    every power limit, a throttle over HTTP is lifted once RAPL works again;
    a baseline is taken only while no change of the agent's own is recorded,
    a restart takes back the locks of the last status, and the controller reads from
    the status exactly the hardware the agent described.

    Measured inputs: a configuration accepted at start cannot fail later; a
    power reading is the sum over components of rates between two points of
    one counter or, for a component without a rate, of gauges, and a steady
    source warms up; a round queries Prometheus once for all its nodes, a
    node's power is told only from an answer that has it, and the reader of
    an endpoint holds only what that endpoint sent; a poll replaces every facility input, and a
    reconcile sees one poll.

    Caps: every step of the DVFS throttle is explained by readings on one
    side of the margins, and throttle and restore are inverse; the RAPL cap
    is written to every zone it can be, never above the zone's maximum; a
    percentage becomes watts within the range it is of, the same watts for
    the agent and for the twin; a GPU cap fits every device it is resolved
    against, and an AMD cap settles.

    Scheduler: scores stay in range, the filter keeps exactly the nodes whose
    twins admit the pod, the caches rebuild at most once per time to live.

    Simulator: a governor's frequency stays within its policy, GPU units are
    never handed out twice, jobs are grouped into the classes of their
    templates, a performance pod keeps off eco nodes, and the controller
    manager counts a pod as performance sensitive exactly when its trace, or
    the run's node selector, says so. Energy counters never go
    back over any run of ticks, writes and restarts, and the agent's meter
    counts the joules emulated, to three counts of the register. Agent and
    emulated hardware together: every write leaves the node well formed, with
    limits and speed in range and in order, an accepted plan is what the
    node's files hold after an apply, a power cap is enforced to the unit of
    the register of each enabled package, and the locks of an apply that reports success are
    the locks the GPUs run under; a boost switched off twice is refused.

    ** What is not modelled

    The transport of HTTP, logging, gauges and hints, the YAML and JSON
    codecs, informers and the controller-runtime cache, the kubectl plugin's
    rendering and generated deep copies. Of the simulator: its servers, the
    client side of its cluster and its standalone API (cmd/simulator), which
    are I/O around the parts above; the power and throughput curves, which
    rest on [math.Pow] and [math.Exp]; the uncore domains and the AMD lane of
    the emulated hardware, with the Python argument parser of rocm-smi and
    amd-smi; the seeding of an emulated node from a tree; the generators of
    scenarios and cluster specs, and the calibration and sweeps, which are
    offline tools. *)

From Stdlib Require Export Ascii String.
From stdpp Require Export base gmap strings list sorting fin_maps.
From Stdlib Require Export ZArith Lia Bool ZifyBool.

#[export] Set Default Goal Selector "!".

Declare Scope go_scope.
Delimit Scope go_scope with go.

(** ** Machine integers: Go's [int] and [int64], 64 bits wide *)

Definition int64_min : Z := - 2 ^ 63.
Definition int64_max : Z := 2 ^ 63 - 1.

(** The wrap-around of a 64-bit two's complement result. *)
Definition wrap64 (z : Z) : Z := (z + 2 ^ 63) `mod` 2 ^ 64 - 2 ^ 63.

Definition in_int64 (z : Z) : Prop := (int64_min <= z <= int64_max)%Z.

Notation "a +ᵢ b" := (wrap64 (a + b)%Z) (at level 50, left associativity) : go_scope.
Notation "a -ᵢ b" := (wrap64 (a - b)%Z) (at level 50, left associativity) : go_scope.
Notation "a *ᵢ b" := (wrap64 (a * b)%Z) (at level 40, left associativity) : go_scope.

(** Saturation, as [time.Time.Sub] does. *)
Definition sat64 (z : Z) : Z := Z.max int64_min (Z.min int64_max z).

(** ** Strings as Go has them: byte sequences *)

Definition byte_of (a : ascii) : N := N_of_ascii a.

(** The UTF-8 spellings of the code points [unicode.IsSpace] holds of. *)
Definition space_prefixes : list (list N) :=
  [[9%N]; [10%N]; [11%N]; [12%N]; [13%N]; [32%N]; [194; 133]%N; [194; 160]%N; [225; 154; 128]%N;
   [226; 128; 128]%N; [226; 128; 129]%N; [226; 128; 130]%N; [226; 128; 131]%N; [226; 128; 132]%N;
   [226; 128; 133]%N; [226; 128; 134]%N; [226; 128; 135]%N; [226; 128; 136]%N; [226; 128; 137]%N;
   [226; 128; 138]%N; [226; 128; 168]%N; [226; 128; 169]%N; [226; 128; 175]%N; [226; 129; 159]%N;
   [227; 128; 128]%N].

Fixpoint strip_prefix (p : list N) (s : list ascii) : option (list ascii) :=
  match p, s with
  | [], _ => Some s
  | b :: p', a :: s' => if (byte_of a =? b)%N then strip_prefix p' s' else None
  | _ :: _, [] => None
  end.

Fixpoint strip_any (ps : list (list N)) (s : list ascii) : option (list ascii) :=
  match ps with
  | [] => None
  | p :: ps' => match strip_prefix p s with Some s' => Some s' | None => strip_any ps' s end
  end.

Fixpoint trim_with (ps : list (list N)) (fuel : nat) (s : list ascii) : list ascii :=
  match fuel with
  | O => s
  | S fuel' => match strip_any ps s with Some s' => trim_with ps fuel' s' | None => s end
  end.

Definition trim_left_bytes (s : list ascii) : list ascii := trim_with space_prefixes (length s) s.

Definition trim_right_bytes (s : list ascii) : list ascii :=
  rev (trim_with (map (@rev N) space_prefixes) (length s) (rev s)).

(** [strings.TrimSpace]. *)
Definition TrimSpace (s : string) : string :=
  string_of_list_ascii (trim_right_bytes (trim_left_bytes (list_ascii_of_string s))).

(** [strings.ToLower] on the ASCII letters; other bytes stay as they are. *)
Definition lower_ascii (a : ascii) : ascii :=
  let n := byte_of a in
  if ((65 <=? n) && (n <=? 90))%N then ascii_of_N (n + 32) else a.

Definition ToLower (s : string) : string :=
  string_of_list_ascii (map lower_ascii (list_ascii_of_string s)).

Definition HasPrefix (s p : string) : bool := String.prefix p s.

Definition drop_bytes (n : nat) (s : string) : string := String.substring n (String.length s - n) s.

Definition TrimPrefix (s p : string) : string :=
  if HasPrefix s p then drop_bytes (String.length p) s else s.

Definition CutPrefix (s p : string) : string * bool :=
  if HasPrefix s p then (drop_bytes (String.length p) s, true) else (s, false).

Definition HasSuffix (s p : string) : bool :=
  (String.length p <=? String.length s) &&
  String.eqb (drop_bytes (String.length s - String.length p) s) p.

Definition CutSuffix (s p : string) : string * bool :=
  if HasSuffix s p then (String.substring 0 (String.length s - String.length p) s, true)
  else (s, false).

Definition TrimSuffix (s p : string) : string := (CutSuffix s p).1.

(** [strings.Cut]: the text before and after the first [sep]. *)
Definition Cut (s sep : string) : string * string * bool :=
  match String.index 0 sep s with
  | Some i => (String.substring 0 i s, drop_bytes (i + String.length sep) s, true)
  | None => (s, ""%string, false)
  end.

(** [strings.Contains]. *)
Definition Contains (s sub : string) : bool :=
  match String.index 0 sub s with Some _ => true | None => false end.

(** [slices.Contains] on strings. *)
Definition str_mem (v : string) (l : list string) : bool := existsb (String.eqb v) l.

(** ** Maps *)

(** [m[k]] for a string-valued map: the zero value when [k] is absent. *)
Definition get_str (m : gmap string string) (k : string) : string := default ""%string (m !! k).

(** ** Sorting *)

(** [sort.Slice(l, less)]: the order is [less] read as "not after". *)
Definition not_after {A} (less : A -> A -> bool) (a b : A) : Prop := less b a = false.

#[export] Instance not_after_dec {A} (less : A -> A -> bool) : RelDecision (not_after less).
Proof. intros a b. unfold not_after. apply _. Defined.

Definition sort_slice {A} (less : A -> A -> bool) (l : list A) : list A := merge_sort (not_after less) l.

Definition str_less (a b : string) : bool := String.ltb a b.

(** [sort.Strings]. *)
Definition sort_strings (l : list string) : list string := sort_slice str_less l.

(** ** Generic tactics *)

(** Splits the first [if] or [match] whose scrutinee is a boolean test. *)
Ltac split_bool :=
  match goal with
  | |- context [if ?b then _ else _] => let E := fresh "Eb" in destruct b eqn:E
  | H : context [if ?b then _ else _] |- _ => let E := fresh "Eb" in destruct b eqn:E
  end.

(** Closes a decidable proposition by evaluation. *)
Ltac by_decide := apply (bool_decide_unpack _); vm_compute; exact I.

(** Membership in the two halves of an append. *)
Ltac in_app :=
  solve [done | apply elem_of_app; left; done |
         apply elem_of_app; right; apply list_elem_of_singleton; done].

(** Reflects the usual boolean tests into propositions. *)
Ltac reflect_bools :=
  repeat match goal with
  | H : (_ && _) = true |- _ => apply andb_true_iff in H as [? ?]
  | H : (_ || _) = false |- _ => apply orb_false_iff in H as [? ?]
  | H : negb _ = true |- _ => apply negb_true_iff in H
  | H : negb _ = false |- _ => apply negb_false_iff in H
  | H : (_ <? _)%Z = true |- _ => apply Z.ltb_lt in H
  | H : (_ <? _)%Z = false |- _ => apply Z.ltb_ge in H
  | H : (_ <=? _)%Z = true |- _ => apply Z.leb_le in H
  | H : (_ <=? _)%Z = false |- _ => apply Z.leb_gt in H
  | H : (_ =? _)%Z = true |- _ => apply Z.eqb_eq in H
  | H : (_ =? _)%Z = false |- _ => apply Z.eqb_neq in H
  | H : (_ =? _)%nat = true |- _ => apply Nat.eqb_eq in H
  | H : (_ =? _)%nat = false |- _ => apply Nat.eqb_neq in H
  | H : String.eqb _ _ = true |- _ => apply String.eqb_eq in H
  | H : String.eqb _ _ = false |- _ => apply String.eqb_neq in H
  end.

(** ** Lemmas on machine integers *)

Lemma wrap64_id (z : Z) : in_int64 z -> wrap64 z = z.
Proof.
  unfold in_int64, int64_min, int64_max, wrap64. intros H.
  rewrite Z.mod_small; lia.
Qed.

Lemma wrap64_in (z : Z) : in_int64 (wrap64 z).
Proof.
  unfold in_int64, int64_min, int64_max, wrap64.
  pose proof (Z.mod_pos_bound (z + 2 ^ 63) (2 ^ 64) ltac:(lia)). lia.
Qed.

Lemma sat64_in (z : Z) : in_int64 (sat64 z).
Proof. unfold in_int64, sat64, int64_min, int64_max. lia. Qed.

(** ** Lemmas on strings and lists *)

Lemma str_mem_In (v : string) (l : list string) : str_mem v l = true <-> v ∈ l.
Proof.
  unfold str_mem. rewrite existsb_exists. split.
  - intros [x [Hin ->%String.eqb_eq]]. by apply list_elem_of_In.
  - intros Hin. exists v. split; [by apply list_elem_of_In | apply String.eqb_refl].
Qed.

Lemma string_eqb_refl_true (s : string) : String.eqb s s = true.
Proof. apply String.eqb_refl. Qed.

(** [less] is a strict total order: the condition under which an unstable
    sort has one possible result. *)
Class StrictTotal {A} (less : A -> A -> bool) : Prop := {
  less_irrefl (a : A) : less a a = false;
  less_trans (a b c : A) : less a b = true -> less b c = true -> less a c = true;
  less_total (a b : A) : less a b = false -> less b a = false -> a = b
}.

#[export] Instance not_after_total {A} (less : A -> A -> bool) `{!StrictTotal less} :
  Total (not_after less).
Proof.
  intros a b. unfold not_after. destruct (less b a) eqn:E1, (less a b) eqn:E2; auto.
  pose proof (less_trans _ _ _ E1 E2) as E. by rewrite less_irrefl in E.
Qed.

#[export] Instance not_after_trans {A} (less : A -> A -> bool) `{!StrictTotal less} :
  Transitive (not_after less).
Proof.
  intros a b c H1 H2. unfold not_after in *. apply not_true_iff_false. intros H.
  destruct (less a b) eqn:E.
  - pose proof (less_trans _ _ _ H E). congruence.
  - pose proof (less_total _ _ E H1) as ->. congruence.
Qed.

#[export] Instance not_after_antisymm {A} (less : A -> A -> bool) `{!StrictTotal less} :
  AntiSymm (=) (not_after less).
Proof. intros a b H1 H2. by apply (less_total a b). Qed.

Lemma sort_slice_perm {A} (less : A -> A -> bool) (l : list A) : sort_slice less l ≡ₚ l.
Proof. apply merge_sort_Permutation. Qed.

Lemma sort_slice_sorted {A} (less : A -> A -> bool) `{!StrictTotal less} (l : list A) :
  StronglySorted (not_after less) (sort_slice less l).
Proof. apply StronglySorted_merge_sort; apply _. Qed.

(** Any sorted permutation is the one result, so the sort may be unstable. *)
Lemma sort_slice_unique {A} (less : A -> A -> bool) `{!StrictTotal less} (l l' : list A) :
  l' ≡ₚ l -> StronglySorted (not_after less) l' -> l' = sort_slice less l.
Proof.
  intros Hp Hs. apply (StronglySorted_unique (not_after less)).
  - exact Hs.
  - by apply sort_slice_sorted.
  - etrans; [exact Hp|]. symmetry. apply sort_slice_perm.
Qed.

Lemma sort_slice_proper {A} (less : A -> A -> bool) `{!StrictTotal less} (l l' : list A) :
  l ≡ₚ l' -> sort_slice less l = sort_slice less l'.
Proof.
  intros H. assert (sort_slice less l ≡ₚ l') as Hp by (etrans; [apply sort_slice_perm|exact H]).
  exact (sort_slice_unique less l' _ Hp (sort_slice_sorted less l)).
Qed.

#[export] Instance str_less_strict : StrictTotal str_less.
Proof.
  unfold str_less, String.ltb. split.
  - intros a. pose proof (String.compare_antisym a a) as H. by destruct (a ?= a)%string.
  - intros a b c Hab Hbc.
    assert (String.le a c) as Hac.
    { trans b; unfold String.le, String.leb.
      - revert Hab. by destruct (a ?= b)%string.
      - revert Hbc. by destruct (b ?= c)%string. }
    revert Hac. unfold String.le, String.leb. destruct (a ?= c)%string eqn:E; [intros _|done|done].
    apply String.compare_eq_iff in E as ->. rewrite String.compare_antisym in Hbc.
    revert Hab Hbc. by destruct (c ?= b)%string.
  - intros a b Hab Hba. rewrite String.compare_antisym in Hba.
    revert Hab Hba. destruct (a ?= b)%string eqn:E; try done. intros _ _. by apply String.compare_eq_iff.
Qed.

(** Sums of integers over a list. *)
Fixpoint zsum {A} (g : A -> Z) (l : list A) : Z :=
  match l with [] => 0%Z | x :: l => (g x + zsum g l)%Z end.

Lemma zsum_ext {A} (g h : A -> Z) (l : list A) :
  (forall x, x ∈ l -> g x = h x) -> zsum g l = zsum h l.
Proof.
  induction l as [|x l IH]; intros H; cbn; [done|]. rewrite (H x) by left.
  f_equal. apply IH. intros y Hy. apply H. by right.
Qed.

Lemma zsum_bump {A} `{EqDecision A} (g h : A -> Z) (l : list A) (x : A) :
  NoDup l -> x ∈ l -> h x = (g x + 1)%Z -> (forall y, y ∈ l -> y <> x -> h y = g y) ->
  zsum h l = (zsum g l + 1)%Z.
Proof.
  induction l as [|y l IH]; intros Hnd Hin Hx Ho; [by apply not_elem_of_nil in Hin|].
  apply NoDup_cons in Hnd as [Hy Hnd]. cbn. destruct (decide (x = y)) as [->|Hne].
  - rewrite Hx, (zsum_ext h g l); [lia|]. intros z Hz. apply Ho; [by right|]. by intros ->.
  - apply elem_of_cons in Hin as [|Hin]; [done|]. rewrite (Ho y) by (left || done).
    rewrite IH; [lia|done|done|done|]. intros z Hz. apply Ho. by right.
Qed.

Lemma zsum_le {A} (g h : A -> Z) (l : list A) :
  (forall x, x ∈ l -> (g x <= h x)%Z) -> (zsum g l <= zsum h l)%Z.
Proof.
  induction l as [|x l IH]; intros H; cbn; [lia|]. pose proof (H x ltac:(left)).
  assert (zsum g l <= zsum h l)%Z by (apply IH; intros y Hy; apply H; by right). lia.
Qed.

(** A sum that falls short of another does so at some element. *)
Lemma zsum_lt_exists {A} (g h : A -> Z) (l : list A) :
  (zsum g l < zsum h l)%Z -> exists x, x ∈ l /\ (g x < h x)%Z.
Proof.
  induction l as [|x l IH]; cbn; [lia|]. intros H. destruct (decide (g x < h x)%Z).
  - exists x. split; [left|done].
  - destruct IH as (y & Hy & Hlt); [lia|]. exists y. split; [by right|done].
Qed.

Lemma zsum_const {A} (l : list A) : zsum (fun _ => 1%Z) l = Z.of_nat (length l).
Proof. induction l as [|x l IH]; cbn [zsum length]; [done|]. lia. Qed.

Lemma length_concat_zsum {A B} (g : A -> list B) (l : list A) :
  Z.of_nat (length (concat (g <$> l))) = zsum (fun x => Z.of_nat (length (g x))) l.
Proof. induction l as [|x l IH]; cbn; [done|]. rewrite length_app. lia. Qed.

Lemma mapM_Some_fmap {A B} (g : A -> option B) (h : A -> B) (l : list A) :
  (forall x, x ∈ l -> g x = Some (h x)) -> mapM g l = Some (h <$> l).
Proof.
  induction l as [|x l IH]; intros H; cbn; [done|]. rewrite (H x) by left. cbn.
  rewrite IH; [done|]. intros y Hy. apply H. by right.
Qed.

Lemma elem_of_concat_fmap {A B} (g : A -> list B) (l : list A) (y : B) :
  y ∈ concat (g <$> l) <-> exists x, x ∈ l /\ y ∈ g x.
Proof.
  induction l as [|x l IH]; cbn.
  - split; [by intros ?%not_elem_of_nil|]. intros (? & ?%not_elem_of_nil & _). done.
  - rewrite elem_of_app, IH. split.
    + intros [H|(z & Hz & H)]; [exists x|exists z]; (split; [|done]); [left|by right].
    + intros (z & [->|Hz]%elem_of_cons & H); [by left|]. right. by exists z.
Qed.

Lemma elem_of_take_mono {A} (l : list A) (i j : nat) (x : A) :
  (i <= j)%nat -> x ∈ take i l -> x ∈ take j l.
Proof. rewrite !elem_of_take. intros H (n & Hn & Hlt). exists n. split; [done|lia]. Qed.

Lemma list_filter_id {A} (P : A -> Prop) `{forall x, Decision (P x)} (l : list A) :
  (forall x, x ∈ l -> P x) -> filter P l = l.
Proof.
  induction l as [|x l IH]; intros HP; [done|]. rewrite filter_cons, decide_True by (apply HP; by left).
  f_equal. apply IH. intros y Hy. apply HP. by right.
Qed.

Lemma list_filter_ext' {A} (P Q : A -> bool) (l : list A) :
  (forall x, x ∈ l -> P x = Q x) -> filter (fun x => P x = true) l = filter (fun x => Q x = true) l.
Proof.
  induction l as [|x l IH]; intros HP; [done|]. rewrite !filter_cons, IH by (intros y Hy; apply HP; by right).
  rewrite (HP x) by (by left). done.
Qed.

Create HintDb go discriminated.
#[export] Hint Resolve wrap64_in sat64_in : go.
#[export] Hint Rewrite string_eqb_refl_true : go.

Example TrimSpace_ex : TrimSpace "  eco
 " = "eco"%string.
Proof. vm_compute. reflexivity. Qed.
Example Cut_ex : Cut "cpx_nps4" "_" = ("cpx", "nps4", true)%string.
Proof. vm_compute. reflexivity. Qed.
Example CutSuffix_ex : CutSuffix "nvidia.com/gpu.shared" ".shared" = ("nvidia.com/gpu", true)%string.
Proof. vm_compute. reflexivity. Qed.
