(* ===== verification/GoString.v ===== *)
(** * More of Go's strings and strconv

    Decimal integers ([strconv.Atoi], [strconv.Itoa]) over the Standard
    Library's decimal numbers, the trimming and splitting functions the
    components share, and the rune-by-rune reading of a [range] over a string,
    with the lemmas that make parsers compute on symbolic prefixes. *)

From Stdlib Require Import DecimalString DecimalZ DecimalPos DecimalFacts DecimalN.
From S2P Require Import Prelude.

(** ** Decimal integers *)

(** [strconv.Itoa] and [strconv.FormatInt(z, 10)]. *)
Definition Itoa (z : Z) : string := NilZero.string_of_int (Z.to_int z).

(** [strconv.Atoi]: an optional sign and at least one digit, in range. *)
Definition in_range64 (z : Z) : option Z :=
  if ((int64_min <=? z) && (z <=? int64_max))%Z then Some z else None.

Definition Atoi (s : string) : option Z :=
  match s with
  | String "+" r => u ← NilZero.uint_of_string r; in_range64 (Z.of_uint u)
  | String "-" r => u ← NilZero.uint_of_string r; in_range64 (- Z.of_uint u)
  | _ => u ← NilZero.uint_of_string s; in_range64 (Z.of_uint u)
  end.

(** The number [strconv.Atoi] returns whatever its error: 0 for a malformed
    text, the nearest bound for a number out of range. *)
Definition AtoiValue (s : string) : Z :=
  sat64 (match s with
         | String "+" r => default 0%Z (Z.of_uint <$> NilZero.uint_of_string r)
         | String "-" r => default 0%Z ((fun u => - Z.of_uint u)%Z <$> NilZero.uint_of_string r)
         | _ => default 0%Z (Z.of_uint <$> NilZero.uint_of_string s)
         end).

(** [strconv.ParseUint(s, 10, 64)]. *)
Definition ParseUint (s : string) : option Z :=
  u ← NilZero.uint_of_string s; let z := Z.of_uint u in
  if (z <? 2 ^ 64)%Z then Some z else None.

(** ** Trimming and splitting *)

Fixpoint drop_while (P : ascii -> bool) (l : list ascii) : list ascii :=
  match l with a :: l' => if P a then drop_while P l' else l | [] => [] end.

Definition trim_list (P : ascii -> bool) (l : list ascii) : list ascii :=
  rev (drop_while P (rev (drop_while P l))).

(** [strings.Trim] with a set of ASCII characters. *)
Definition TrimChars (P : ascii -> bool) (s : string) : string :=
  string_of_list_ascii (trim_list P (list_ascii_of_string s)).

Definition is_digit (a : ascii) : bool := ((48 <=? byte_of a) && (byte_of a <=? 57))%N.
Definition is_lower (a : ascii) : bool := ((97 <=? byte_of a) && (byte_of a <=? 122))%N.
Definition is_upper (a : ascii) : bool := ((65 <=? byte_of a) && (byte_of a <=? 90))%N.
Definition is_dash (a : ascii) : bool := Ascii.eqb a "-".

(** [strings.EqualFold] on ASCII letters. *)
Definition EqualFold (a b : string) : bool := String.eqb (ToLower a) (ToLower b).

(** [strings.Index], and [strings.LastIndex] of a non-empty separator. *)
Definition Index (s sub : string) : option nat := String.index 0 sub s.

Fixpoint last_index_from (fuel : nat) (s sub : string) : option nat :=
  if HasPrefix (drop_bytes fuel s) sub then Some fuel
  else match fuel with O => None | S fuel' => last_index_from fuel' s sub end.

Definition LastIndex (s sub : string) : option nat := last_index_from (String.length s) s sub.

(** [strings.Split] on one byte, never empty. *)
Fixpoint split_byte (sep : ascii) (l : list ascii) : list (list ascii) :=
  match l with
  | [] => [[]]
  | a :: l' =>
      if Ascii.eqb a sep then [] :: split_byte sep l'
      else match split_byte sep l' with
           | w :: ws => (a :: w) :: ws
           | [] => [[a]]
           end
  end.

Definition Split (s : string) (sep : ascii) : list string :=
  string_of_list_ascii <$> split_byte sep (list_ascii_of_string s).

(** [strings.Join]. *)
Fixpoint Join (l : list string) (sep : string) : string :=
  match l with
  | [] => ""
  | [s] => s
  | s :: l' => s +:+ sep +:+ Join l' sep
  end.

(** ** Runes *)

(** The length in bytes of the rune at the head, as [utf8.DecodeRune] reads
    it: a malformed sequence is one replacement character of one byte. *)
Definition rune_len (l : list ascii) : nat :=
  let cont lo hi (a : ascii) := ((lo <=? byte_of a) && (byte_of a <=? hi))%N in
  match l with
  | [] => 0
  | a :: l' =>
      let b := byte_of a in
      if (b <? 128)%N then 1
      else if ((194 <=? b) && (b <=? 223))%N then
        match l' with c :: _ => if cont 128%N 191%N c then 2 else 1 | _ => 1 end
      else if ((224 <=? b) && (b <=? 239))%N then
        match l' with
        | c :: d :: _ =>
            if cont (if b =? 224 then 160 else 128)%N (if b =? 237 then 159 else 191)%N c &&
               cont 128%N 191%N d then 3 else 1
        | _ => 1
        end
      else if ((240 <=? b) && (b <=? 244))%N then
        match l' with
        | c :: d :: e :: _ =>
            if cont (if b =? 240 then 144 else 128)%N (if b =? 244 then 143 else 191)%N c &&
               cont 128%N 191%N d && cont 128%N 191%N e then 4 else 1
        | _ => 1
        end
      else 1
  end.

(** [range s], keeping of each rune the byte when it is ASCII. *)
Fixpoint runes_fuel (fuel : nat) (l : list ascii) : list (option ascii) :=
  match fuel, l with
  | S fuel', a :: _ =>
      (if (byte_of a <? 128)%N then Some a else None) :: runes_fuel fuel' (drop (rune_len l) l)
  | _, _ => []
  end.

Definition runes (l : list ascii) : list (option ascii) := runes_fuel (length l) l.

(** ** Lemmas *)

Lemma drop_while_suffix (P : ascii -> bool) (l : list ascii) : exists k, l = k ++ drop_while P l.
Proof.
  induction l as [|a l [k IH]]; cbn; [by exists []|]. destruct (P a); [|by exists []].
  exists (a :: k). cbn. by f_equal.
Qed.

Lemma app_cons_string (a : ascii) (s t : string) : String a s +:+ t = String a (s +:+ t).
Proof. reflexivity. Qed.

Lemma app_nil_string (t : string) : ""%string +:+ t = t.
Proof. reflexivity. Qed.

Lemma list_ascii_app (s t : string) :
  list_ascii_of_string (s +:+ t) = list_ascii_of_string s ++ list_ascii_of_string t.
Proof. induction s as [|a s IH]; [done|]. rewrite app_cons_string. cbn. by f_equal. Qed.

Lemma length_list_ascii (s : string) : length (list_ascii_of_string s) = String.length s.
Proof. induction s as [|a s IH]; cbn; [done|]. by f_equal. Qed.

Lemma list_ascii_inj (s t : string) : list_ascii_of_string s = list_ascii_of_string t -> s = t.
Proof.
  intros H. rewrite <- (string_of_list_ascii_of_string s), H. apply string_of_list_ascii_of_string.
Qed.

Lemma app_assoc_string (s t u : string) : (s +:+ t) +:+ u = s +:+ (t +:+ u).
Proof. apply list_ascii_inj. by rewrite !list_ascii_app, app_assoc. Qed.

Lemma length_app_string (s t : string) : String.length (s +:+ t) = (String.length s + String.length t)%nat.
Proof. rewrite <- !length_list_ascii, list_ascii_app. apply length_app. Qed.

Lemma substring_0_app (s t : string) : String.substring 0 (String.length s) (s +:+ t) = s.
Proof. induction s as [|a s IH]; [by rewrite app_nil_string; destruct t|]. rewrite app_cons_string. cbn. by rewrite IH. Qed.

Lemma substring_app_r (s t : string) (n : nat) :
  String.substring (String.length s) n (s +:+ t) = String.substring 0 n t.
Proof. induction s as [|a s IH]; [done|]. exact IH. Qed.

Lemma substring_all (s : string) : String.substring 0 (String.length s) s = s.
Proof. induction s as [|a s IH]; [done|]. cbn. by rewrite IH. Qed.

Lemma drop_bytes_app (s t : string) : drop_bytes (String.length s) (s +:+ t) = t.
Proof.
  unfold drop_bytes. rewrite length_app_string, substring_app_r.
  replace (_ + _ - _)%nat with (String.length t) by lia. apply substring_all.
Qed.

Lemma prefix_app (s t : string) : HasPrefix (s +:+ t) s = true.
Proof.
  unfold HasPrefix. induction s as [|a s IH]; [by rewrite app_nil_string; destruct t|].
  rewrite app_cons_string. cbn.
  destruct (ascii_dec a a); [exact IH|done].
Qed.

Lemma CutPrefix_app (s t : string) : CutPrefix (s +:+ t) s = (t, true).
Proof. unfold CutPrefix. by rewrite prefix_app, drop_bytes_app. Qed.

Lemma CutSuffix_app (s t : string) : CutSuffix (s +:+ t) t = (s, true).
Proof.
  unfold CutSuffix, HasSuffix. rewrite length_app_string.
  replace (String.length s + String.length t - String.length t)%nat with (String.length s) by lia.
  rewrite drop_bytes_app, String.eqb_refl, substring_0_app.
  destruct (Nat.leb_spec (String.length t) (String.length s + String.length t)); [done|lia].
Qed.

(** The first separator byte is found where the bytes before it are others. *)
Lemma index_byte (c : ascii) (s t : string) :
  Forall (fun a => a <> c) (list_ascii_of_string s) ->
  String.index 0 (String c "") (s +:+ String c t) = Some (String.length s).
Proof.
  induction s as [|a s IH]; intros H; rewrite ?app_cons_string, ?app_nil_string; cbn.
  - destruct (ascii_dec c c); [by destruct t|done].
  - apply Forall_cons in H as [Ha H]. destruct (ascii_dec c a); [by subst|].
    by rewrite (IH H).
Qed.

Lemma Cut_byte (c : ascii) (s t : string) :
  Forall (fun a => a <> c) (list_ascii_of_string s) ->
  Cut (s +:+ String c t) (String c "") = (s, t, true).
Proof.
  intros H. unfold Cut. rewrite index_byte by done. rewrite substring_0_app.
  replace (s +:+ String c t) with ((s +:+ String c "") +:+ t) by by rewrite app_assoc_string.
  replace (String.length s + String.length (String c ""))%nat with (String.length (s +:+ String c ""))
    by apply length_app_string.
  by rewrite drop_bytes_app.
Qed.

(** *** Decimals *)

Lemma Z_of_uint_of (n : N) : Z.of_uint (N.to_uint n) = Z.of_N n.
Proof. unfold Z.of_uint. change Pos.of_uint with N.of_uint. by rewrite DecimalN.Unsigned.of_to. Qed.

Definition is_digit_string (s : string) : Prop := Forall (fun a => is_digit a = true) (list_ascii_of_string s).

Lemma string_of_uint_digits (d : Decimal.uint) : is_digit_string (NilEmpty.string_of_uint d).
Proof. unfold is_digit_string. induction d; cbn; by repeat constructor. Qed.

Lemma NilZero_string_digits (d : Decimal.uint) : is_digit_string (NilZero.string_of_uint d).
Proof. destruct d; try apply string_of_uint_digits. by repeat constructor. Qed.

Lemma N_to_uint_nonnil (n : N) : N.to_uint n <> Decimal.Nil.
Proof. destruct n as [|p]; cbn; [done|]. apply DecimalPos.Unsigned.to_uint_nonnil. Qed.

Lemma Itoa_N (z : Z) : (0 <= z)%Z -> Itoa z = NilZero.string_of_uint (N.to_uint (Z.to_N z)).
Proof. intros H. destruct z; [done|done|lia]. Qed.

Lemma Itoa_digits (z : Z) : (0 <= z)%Z -> is_digit_string (Itoa z).
Proof. intros H. rewrite Itoa_N by done. apply NilZero_string_digits. Qed.

Lemma uint_Itoa (z : Z) : (0 <= z)%Z -> NilZero.uint_of_string (Itoa z) = Some (N.to_uint (Z.to_N z)).
Proof. intros H. rewrite Itoa_N by done. apply NilZero.usu, N_to_uint_nonnil. Qed.

Lemma in_range64_Some (z : Z) : in_int64 z -> in_range64 z = Some z.
Proof.
  unfold in_int64, in_range64. intros [H1 H2].
  by rewrite (proj2 (Z.leb_le _ _) H1), (proj2 (Z.leb_le _ _) H2).
Qed.

Lemma digit_head (s : string) : is_digit_string s -> s <> ""%string ->
  exists a r, s = String a r /\ is_digit a = true.
Proof. destruct s as [|a r]; [done|]. intros [H _]%Forall_cons _. by exists a, r. Qed.

Lemma Atoi_digits (s : string) : is_digit_string s ->
  Atoi s = (u ← NilZero.uint_of_string s; in_range64 (Z.of_uint u)).
Proof.
  intros Hs. destruct s as [|a r]; [done|]. apply Forall_cons in Hs as [Ha _].
  destruct a as [[] [] [] [] [] [] [] []]; done.
Qed.

Lemma Atoi_Itoa (z : Z) : in_int64 z -> Atoi (Itoa z) = Some z.
Proof.
  intros Hr. destruct (decide (0 <= z)%Z) as [H|H].
  - rewrite Atoi_digits by by apply Itoa_digits. rewrite uint_Itoa by done. cbn [mbind option_bind].
    rewrite Z_of_uint_of, Z2N.id by done. by apply in_range64_Some.
  - destruct z as [|p|p]; try lia. unfold Itoa, Z.to_int. cbn [NilZero.string_of_int Atoi].
    change (Pos.to_uint p) with (N.to_uint (N.pos p)).
    rewrite NilZero.usu by apply N_to_uint_nonnil. cbn [mbind option_bind].
    rewrite Z_of_uint_of. by apply in_range64_Some.
Qed.

Lemma Atoi_in (s : string) (z : Z) : Atoi s = Some z -> in_int64 z.
Proof.
  assert (forall w v, in_range64 w = Some v -> in_int64 v) as Hr.
  { intros w v. unfold in_range64, in_int64. split_bool; [|done]. intros [= <-]. lia. }
  unfold Atoi. intros H.
  assert (exists w v, in_range64 w = Some v /\ v = z) as (w & v & Hw & ->); [|eauto].
  repeat case_match; apply bind_Some in H as (u & _ & H); eauto.
Qed.

Lemma digit_not (c : ascii) (s : string) :
  is_digit c = false -> is_digit_string s -> Forall (fun a => a <> c) (list_ascii_of_string s).
Proof. intros Hc Hs. eapply Forall_impl; [exact Hs|]. cbn. intros a Ha ->. congruence. Qed.

(** The number a decimal text spells, read from the left. *)
Fixpoint uval (d : Decimal.uint) (acc : Z) : Z :=
  match d with
  | Decimal.Nil => acc
  | Decimal.D0 d => uval d (10 * acc)
  | Decimal.D1 d => uval d (10 * acc + 1)
  | Decimal.D2 d => uval d (10 * acc + 2)
  | Decimal.D3 d => uval d (10 * acc + 3)
  | Decimal.D4 d => uval d (10 * acc + 4)
  | Decimal.D5 d => uval d (10 * acc + 5)
  | Decimal.D6 d => uval d (10 * acc + 6)
  | Decimal.D7 d => uval d (10 * acc + 7)
  | Decimal.D8 d => uval d (10 * acc + 8)
  | Decimal.D9 d => uval d (10 * acc + 9)
  end%Z.

Lemma uval_ge (d : Decimal.uint) (acc : Z) : (0 <= acc)%Z -> (acc <= uval d acc)%Z.
Proof.
  revert acc. induction d as [|d IH|d IH|d IH|d IH|d IH|d IH|d IH|d IH|d IH|d IH]; intros acc H; cbn [uval];
    [lia|..]; (etrans; [|apply IH; lia]); lia.
Qed.

Lemma of_uint_acc_uval (d : Decimal.uint) (p : positive) : Z.pos (Pos.of_uint_acc d p) = uval d (Z.pos p).
Proof.
  revert p. induction d as [|d IH|d IH|d IH|d IH|d IH|d IH|d IH|d IH|d IH|d IH]; intros p; cbn [uval Pos.of_uint_acc];
    [done|..]; rewrite IH; f_equal; lia.
Qed.

Lemma of_uint_uval (d : Decimal.uint) : Z.of_uint d = uval d 0.
Proof.
  unfold Z.of_uint. induction d as [|d IH|d IH|d IH|d IH|d IH|d IH|d IH|d IH|d IH|d IH]; cbn [uval Pos.of_uint];
    [done|exact IH|..]; apply of_uint_acc_uval.
Qed.

Lemma Itoa_uval (n : Z) : (0 <= n)%Z ->
  exists d, list_ascii_of_string (Itoa n) = list_ascii_of_string (NilEmpty.string_of_uint d) /\
    Itoa n <> ""%string /\ uval d 0 = n.
Proof.
  intros H. exists (N.to_uint (Z.to_N n)). rewrite <- of_uint_uval, Z_of_uint_of, Z2N.id by done.
  rewrite Itoa_N by done. pose proof (N_to_uint_nonnil (Z.to_N n)) as Hn.
  by destruct (N.to_uint (Z.to_N n)).
Qed.

(** A [range] over ASCII text gives its bytes. *)
Lemma runes_ascii (l : list ascii) :
  Forall (fun a => (byte_of a < 128)%N) l -> runes l = Some <$> l.
Proof.
  unfold runes. induction 1 as [|a l Ha Hl IH]; [done|]. cbn [length runes_fuel rune_len].
  destruct (N.ltb_spec (byte_of a) 128); [|lia]. cbn [drop]. by rewrite drop_0, IH.
Qed.

Lemma digits_ascii (s : string) : is_digit_string s ->
  Forall (fun a => (byte_of a < 128)%N) (list_ascii_of_string s).
Proof. intros H. eapply Forall_impl; [exact H|]. intros a. unfold is_digit. cbn. lia. Qed.

(** Digits are not white space, so trimming leaves a number alone. *)
Definition plain_char (a : ascii) : Prop := (33 <= byte_of a < 128)%N.

Lemma strip_any_plain (ps : list (list N)) (l : list ascii) :
  Forall (fun p => match p with b :: _ => (b < 33 \/ 128 <= b)%N | [] => False end) ps ->
  Forall plain_char l -> strip_any ps l = None.
Proof.
  intros Hps Hl. induction Hps as [|p ps Hp _ IH]; [done|]. cbn [strip_any].
  destruct p as [|b p]; [done|]. destruct l as [|a l]; cbn [strip_prefix]; [exact IH|].
  apply Forall_cons in Hl as [Ha _]. unfold plain_char in Ha.
  destruct (N.eqb_spec (byte_of a) b); [lia|exact IH].
Qed.

Lemma trim_with_plain (ps : list (list N)) (n : nat) (l : list ascii) :
  Forall (fun p => match p with b :: _ => (b < 33 \/ 128 <= b)%N | [] => False end) ps ->
  Forall plain_char l -> trim_with ps n l = l.
Proof. intros Hps Hl. destruct n; cbn; [done|]. by rewrite strip_any_plain. Qed.

Lemma TrimSpace_plain (s : string) : Forall plain_char (list_ascii_of_string s) -> TrimSpace s = s.
Proof.
  intros H. unfold TrimSpace, trim_left_bytes, trim_right_bytes.
  rewrite (trim_with_plain space_prefixes); [|repeat (constructor; [cbn; lia|]); constructor|done].
  rewrite trim_with_plain.
  - by rewrite rev_involutive, string_of_list_ascii_of_string.
  - repeat (constructor; [cbn; lia|]). constructor.
  - by apply List.Forall_rev.
Qed.

Lemma strip_prefix_app p s u r : strip_prefix p s = Some r -> is_Some (strip_prefix p (s ++ u)).
Proof.
  revert s. induction p as [|b p IH]; intros s; [by eexists|]. destruct s as [|a s]; [done|].
  cbn [strip_prefix app]. destruct (_ =? _)%N; [apply IH|done].
Qed.

Lemma strip_any_app ps s u : strip_any ps (s ++ u) = None -> strip_any ps s = None.
Proof.
  induction ps as [|p ps IH]; [done|]. cbn [strip_any]. destruct (strip_prefix p s) eqn:E.
  - apply (strip_prefix_app _ _ u) in E as [? ->]. done.
  - destruct (strip_prefix p (s ++ u)); [done|exact IH].
Qed.

Lemma strip_prefix_split p s r : strip_prefix p s = Some r -> p <> [] -> exists x, s = x ++ r /\ (length r < length s)%nat.
Proof.
  revert s. induction p as [|b p IH]; intros s H Hp; [done|]. destruct s as [|a s]; [done|]. cbn [strip_prefix] in H.
  destruct (_ =? _)%N; [|done]. destruct p as [|b' p].
  - injection H as <-. exists [a]. cbn. split; [done|lia].
  - destruct (IH s H) as (x & -> & Hl); [done|]. exists (a :: x). cbn [app length] in *. split; [done|lia].
Qed.

Lemma strip_any_split ps s r : Forall (fun p => p <> []) ps -> strip_any ps s = Some r ->
  exists x, s = x ++ r /\ (length r < length s)%nat.
Proof.
  intros Hps. induction Hps as [|p ps Hp _ IH]; [done|]. cbn [strip_any]. destruct (strip_prefix p s) eqn:E; [|exact IH].
  intros [= ->]. by apply strip_prefix_split with p.
Qed.

(** What trimming leaves does not start with white space, and is what is left
    of its input. *)
Lemma trim_with_spec ps n s : Forall (fun p => p <> []) ps -> (length s <= n)%nat ->
  strip_any ps (trim_with ps n s) = None /\ exists x, s = x ++ trim_with ps n s.
Proof.
  intros Hps. revert s. induction n as [|n IH]; intros s Hn; cbn [trim_with].
  - destruct s; [|cbn in Hn; lia]. split; [|by exists []]. destruct (strip_any ps []) eqn:E; [|done].
    apply strip_any_split in E as (x & _ & Hl); [cbn in Hl; lia|done].
  - destruct (strip_any ps s) as [r|] eqn:E; [|split; [done|by exists []]].
    apply strip_any_split in E as (x & -> & Hl); [|done]. destruct (IH r) as [H1 [y Hy]]; [lia|]. split; [done|].
    exists (x ++ y). rewrite <- app_assoc. by f_equal.
Qed.

Lemma trim_with_stop ps n s : strip_any ps s = None -> trim_with ps n s = s.
Proof. intros E. destruct n; cbn [trim_with]; [done|]. by rewrite E. Qed.

Lemma space_prefixes_nonempty : Forall (fun p => p <> []) space_prefixes /\ Forall (fun p => p <> []) (map (@rev N) space_prefixes).
Proof. split; repeat (constructor; [done|]); constructor. Qed.

(** Trimming twice is trimming once. *)
Lemma TrimSpace_idem (s : string) : TrimSpace (TrimSpace s) = TrimSpace s.
Proof.
  unfold TrimSpace. rewrite list_ascii_of_string_of_list_ascii. apply (f_equal string_of_list_ascii).
  destruct space_prefixes_nonempty as [H1 H2].
  set (l := trim_left_bytes (list_ascii_of_string s)). assert (strip_any space_prefixes l = None) as Hl by (by apply trim_with_spec).
  pose proof (trim_with_spec (map (@rev N) space_prefixes) (length l) (rev l) H2 ltac:(rewrite length_rev; lia)) as [Hr [x Hx]].
  unfold trim_right_bytes at 2 3. set (r := trim_with _ _ (rev l)) in *.
  assert (l = rev r ++ rev x) as E by (rewrite <- rev_app_distr, <- Hx; by rewrite rev_involutive).
  rewrite E in Hl. apply strip_any_app in Hl. unfold trim_left_bytes. rewrite (trim_with_stop _ _ (rev r)) by done.
  unfold trim_right_bytes. rewrite rev_involutive. by rewrite trim_with_stop.
Qed.

Lemma digit_plain (s : string) : is_digit_string s -> Forall plain_char (list_ascii_of_string s).
Proof. intros H. eapply Forall_impl; [exact H|]. intros a. unfold is_digit, plain_char. cbn. lia. Qed.

(** A text ends with a suffix exactly when it is something before it. *)
Lemma split_at (k : nat) (s : string) :
  (k <= String.length s)%nat -> s = String.substring 0 k s +:+ drop_bytes k s.
Proof.
  unfold drop_bytes. revert k. induction s as [|a s IH]; intros k Hk; [by destruct k|].
  destruct k as [|k].
  - rewrite Nat.sub_0_r, substring_all. by cbn.
  - cbn [String.length] in *. cbn [String.substring Nat.sub]. rewrite app_cons_string. f_equal. apply IH. lia.
Qed.

Lemma HasSuffix_app (s p : string) : HasSuffix s p = true -> exists pre, s = pre +:+ p.
Proof.
  unfold HasSuffix. intros [Hl He%String.eqb_eq]%andb_true_iff.
  exists (String.substring 0 (String.length s - String.length p) s).
  rewrite <- He at 2. apply split_at. lia.
Qed.

Lemma HasSuffix_last (s p : string) (a b : ascii) :
  last (list_ascii_of_string s) = Some a -> last (list_ascii_of_string p) = Some b -> a <> b ->
  HasSuffix s p = false.
Proof.
  intros Hs Hp Hne. apply not_true_is_false. intros [pre ->]%HasSuffix_app.
  rewrite list_ascii_app, last_app, Hp in Hs. congruence.
Qed.

Lemma Itoa_last (n : Z) : (0 <= n)%Z ->
  exists a, last (list_ascii_of_string (Itoa n)) = Some a /\ is_digit a = true.
Proof.
  intros Hn. pose proof (Itoa_digits n Hn) as Hd. destruct (Itoa_uval n Hn) as (_ & _ & Hne & _).
  destruct (last (list_ascii_of_string (Itoa n))) as [a|] eqn:E.
  - exists a. split; [done|]. apply last_Some_elem_of in E. unfold is_digit_string in Hd.
    rewrite Forall_forall in Hd. by apply Hd.
  - apply last_None in E. by destruct (Itoa n).
Qed.

(** A decimal followed by [u] does not end with a suffix whose last byte
    differs. *)
Lemma Itoa_not_suffix (n : Z) (p : string) (b : ascii) : (0 <= n)%Z ->
  last (list_ascii_of_string p) = Some b -> is_digit b = false -> HasSuffix (Itoa n) p = false.
Proof.
  intros Hn Hp Hb. destruct (Itoa_last n Hn) as (a & Ha & Hd).
  eapply HasSuffix_last; [done|done|]. intros ->. congruence.
Qed.

Lemma HasSuffix_app_length (s t u : string) :
  String.length t = String.length u -> HasSuffix (s +:+ t) u = String.eqb t u.
Proof.
  intros Hl. unfold HasSuffix. rewrite length_app_string, Hl.
  replace (String.length s + String.length u - String.length u)%nat with (String.length s) by lia.
  rewrite drop_bytes_app. destruct (Nat.leb_spec (String.length u) (String.length s + String.length u)); [done|lia].
Qed.

Lemma HasSuffix_self (s t : string) : HasSuffix (s +:+ t) t = true.
Proof. rewrite HasSuffix_app_length by done. apply String.eqb_refl. Qed.

Lemma TrimSuffix_app (s t : string) : TrimSuffix (s +:+ t) t = s.
Proof. unfold TrimSuffix. by rewrite CutSuffix_app. Qed.
