(* ===== verification/GoFloat.v ===== *)
(** * Go's [float64]: IEEE 754 binary64 with round to nearest even

    [float64] is the Standard Library's [spec_float] at precision 53 and
    maximal exponent 1024; every operation is the exact IEEE one, so a term
    evaluates to the double the program computes (the compiler is assumed not
    to fuse a product and a sum into one rounding, which is the case on amd64
    below GOAMD64=v3). The order lemmas reduce comparisons to integer
    arithmetic, the sign lemmas say what rounding cannot change. *)

From Stdlib Require Import SpecFloat.
From Stdlib Require Export SpecFloat.
From S2P Require Import Prelude.

Abbreviation float64 := spec_float.

Definition fadd : float64 -> float64 -> float64 := SFadd 53 1024.
Definition fsub : float64 -> float64 -> float64 := SFsub 53 1024.
Definition fmul : float64 -> float64 -> float64 := SFmul 53 1024.
Definition fdiv : float64 -> float64 -> float64 := SFdiv 53 1024.
Definition fneg : float64 -> float64 := SFopp.
Definition fabs : float64 -> float64 := SFabs.

(** The comparisons [<], [<=] and [==]; [x > y] is [flt y x]. *)
Definition flt (x y : float64) : bool := SFltb x y.
Definition fle (x y : float64) : bool := SFleb x y.
Definition feq (x y : float64) : bool := SFeqb x y.

(** [float64(n)] of an integer, and the literal [n/d] (both below 2^53, so
    that the quotient is the literal's correct rounding). *)
Definition fofZ (n : Z) : float64 := binary_normalize 53 1024 n 0 false.
Definition flit (n d : Z) : float64 := fdiv (fofZ n) (fofZ d).

Definition fzero : float64 := S754_zero false.
Definition fone : float64 := fofZ 1.

Definition is_nan (x : float64) : bool := match x with S754_nan => true | _ => false end.
Definition is_pinf (x : float64) : bool := match x with S754_infinity false => true | _ => false end.
Definition is_ninf (x : float64) : bool := match x with S754_infinity true => true | _ => false end.
Definition is_finite (x : float64) : bool :=
  match x with S754_zero _ | S754_finite _ _ _ => true | _ => false end.
Definition signbit (x : float64) : bool :=
  match x with S754_zero s | S754_infinity s | S754_finite s _ _ => s | S754_nan => false end.

(** [math.Min] and [math.Max], special cases included. *)
Definition fmin (x y : float64) : float64 :=
  if is_ninf x || is_ninf y then S754_infinity true
  else if is_nan x || is_nan y then S754_nan
  else if feq x fzero && feq x y then (if signbit x then x else y)
  else if flt x y then x else y.

Definition fmax (x y : float64) : float64 :=
  if is_pinf x || is_pinf y then S754_infinity false
  else if is_nan x || is_nan y then S754_nan
  else if feq x fzero && feq x y then (if signbit x then y else x)
  else if flt y x then x else y.

(** The integer nearest below, above, towards zero and nearest (half away
    from zero) of a finite value, over its magnitude [m * 2^e]. *)
Definition floor_mag (m : positive) (e : Z) : Z :=
  if (0 <=? e)%Z then (Z.pos m * 2 ^ e)%Z else (Z.pos m / 2 ^ (- e))%Z.
Definition ceil_mag (m : positive) (e : Z) : Z :=
  if (0 <=? e)%Z then (Z.pos m * 2 ^ e)%Z else (- (- Z.pos m / 2 ^ (- e)))%Z.
Definition round_mag (m : positive) (e : Z) : Z :=
  if (0 <=? e)%Z then (Z.pos m * 2 ^ e)%Z
  else ((2 * Z.pos m + 2 ^ (- e)) / (2 * 2 ^ (- e)))%Z.

Definition with_sign (s : bool) (n : Z) : float64 :=
  binary_normalize 53 1024 (if s then - n else n)%Z 0 s.

(** [math.Ceil], [math.Floor] and [math.Round]. *)
Definition fceil (x : float64) : float64 :=
  match x with
  | S754_finite s m e => with_sign s (if s then floor_mag m e else ceil_mag m e)
  | _ => x
  end.
Definition ffloor (x : float64) : float64 :=
  match x with
  | S754_finite s m e => with_sign s (if s then ceil_mag m e else floor_mag m e)
  | _ => x
  end.
Definition fround (x : float64) : float64 :=
  match x with
  | S754_finite s m e => with_sign s (round_mag m e)
  | _ => x
  end.

(** [int64(x)]: truncation; out of range the language leaves the result to the
    machine, which on amd64 is the smallest integer. *)
Definition int_of_float (x : float64) : Z :=
  match x with
  | S754_zero _ => 0
  | S754_finite s m e =>
      let n := if s then (- floor_mag m e)%Z else floor_mag m e in
      if ((int64_min <=? n) && (n <=? int64_max))%Z then n else int64_min
  | _ => int64_min
  end.

(** [time.Duration.Seconds]: whole seconds plus the rest, in float64. *)
Definition duration_seconds (d : Z) : float64 :=
  fadd (fofZ (Z.quot d 1000000000)) (fdiv (fofZ (Z.rem d 1000000000)) (fofZ 1000000000)).

(** ** The order as integer arithmetic *)

(** A non-NaN value's place in the order: class, exponent and mantissa, each
    negated for a negative value, compared lexicographically. *)
Definition key1 (x : float64) : Z :=
  match x with
  | S754_zero _ | S754_nan => 0
  | S754_infinity s => if s then -2 else 2
  | S754_finite s _ _ => if s then -1 else 1
  end.
Definition key2 (x : float64) : Z :=
  match x with S754_finite s _ e => if s then - e else e | _ => 0 end.
Definition key3 (x : float64) : Z :=
  match x with S754_finite s m _ => if s then Z.neg m else Z.pos m | _ => 0 end.

Definition key_lt (x y : float64) : Prop :=
  (key1 x < key1 y \/ (key1 x = key1 y /\
    (key2 x < key2 y \/ (key2 x = key2 y /\ key3 x < key3 y))))%Z.
Definition key_eq (x y : float64) : Prop :=
  (key1 x = key1 y /\ key2 x = key2 y /\ key3 x = key3 y)%Z.

Lemma compare_cont_Eq (m n : positive) : Pos.compare_cont Eq m n = (m ?= n)%positive.
Proof. reflexivity. Qed.

Lemma SFcompare_nan (x y : float64) : SFcompare x y = None <-> is_nan x = true \/ is_nan y = true.
Proof.
  destruct x as [[]|[]| |[] ? ?], y as [[]|[]| |[] ? ?]; cbn; split; intros H;
    try done; try (by left); try (by right); by destruct H.
Qed.

Lemma SFcompare_Lt (x y : float64) :
  SFcompare x y = Some Lt <-> is_nan x = false /\ is_nan y = false /\ key_lt x y.
Proof.
  destruct x as [[]|[]| |[] m e], y as [[]|[]| |[] n f]; unfold key_lt; cbn -[Pos.compare_cont];
    rewrite ?compare_cont_Eq; try (split; [done || lia | lia || by intros (?&?&?)]);
    destruct (Z.compare_spec e f); destruct (Pos.compare_spec m n); cbn;
    split; intros Hx; try done; try lia; repeat split; lia.
Qed.

Lemma SFcompare_Eq (x y : float64) :
  SFcompare x y = Some Eq <-> is_nan x = false /\ is_nan y = false /\ key_eq x y.
Proof.
  destruct x as [[]|[]| |[] m e], y as [[]|[]| |[] n f]; unfold key_eq; cbn -[Pos.compare_cont];
    rewrite ?compare_cont_Eq; try (split; [done || lia | lia || by intros (?&?&?)]);
    destruct (Z.compare_spec e f); destruct (Pos.compare_spec m n); cbn;
    split; intros Hx; try done; try lia; repeat split; lia.
Qed.

Lemma flt_iff (x y : float64) : flt x y = true <-> is_nan x = false /\ is_nan y = false /\ key_lt x y.
Proof.
  rewrite <- SFcompare_Lt. unfold flt, SFltb. destruct (SFcompare x y) as [[]|]; split; congruence.
Qed.

Lemma fle_iff (x y : float64) :
  fle x y = true <-> is_nan x = false /\ is_nan y = false /\ (key_lt x y \/ key_eq x y).
Proof.
  trans (SFcompare x y = Some Lt \/ SFcompare x y = Some Eq).
  - unfold fle, SFleb. destruct (SFcompare x y) as [[]|]; split; intros; intuition congruence.
  - rewrite SFcompare_Lt, SFcompare_Eq. tauto.
Qed.

Lemma feq_iff (x y : float64) : feq x y = true <-> is_nan x = false /\ is_nan y = false /\ key_eq x y.
Proof.
  rewrite <- SFcompare_Eq. unfold feq, SFeqb. destruct (SFcompare x y) as [[]|]; split; congruence.
Qed.

Lemma flt_false (x y : float64) :
  flt x y = false <-> is_nan x = true \/ is_nan y = true \/ ~ key_lt x y.
Proof.
  rewrite <- not_true_iff_false, flt_iff. destruct (is_nan x), (is_nan y); intuition congruence.
Qed.

Lemma fle_false (x y : float64) :
  fle x y = false <-> is_nan x = true \/ is_nan y = true \/ (~ key_lt x y /\ ~ key_eq x y).
Proof.
  rewrite <- not_true_iff_false, fle_iff. destruct (is_nan x), (is_nan y); intuition congruence.
Qed.

Lemma feq_false (x y : float64) :
  feq x y = false <-> is_nan x = true \/ is_nan y = true \/ ~ key_eq x y.
Proof.
  rewrite <- not_true_iff_false, feq_iff. destruct (is_nan x), (is_nan y); intuition congruence.
Qed.

(** Turns every float comparison of the goal and the context into integer
    arithmetic over the keys, and closes what follows from the order. *)
Ltac forder :=
  repeat match goal with
  | H : context [flt _ _ = true] |- _ => rewrite flt_iff in H
  | H : context [fle _ _ = true] |- _ => rewrite fle_iff in H
  | H : context [feq _ _ = true] |- _ => rewrite feq_iff in H
  | H : context [flt _ _ = false] |- _ => rewrite flt_false in H
  | H : context [fle _ _ = false] |- _ => rewrite fle_false in H
  | H : context [feq _ _ = false] |- _ => rewrite feq_false in H
  | |- context [flt _ _ = true] => rewrite flt_iff
  | |- context [fle _ _ = true] => rewrite fle_iff
  | |- context [feq _ _ = true] => rewrite feq_iff
  | |- context [flt _ _ = false] => rewrite flt_false
  | |- context [fle _ _ = false] => rewrite fle_false
  | |- context [feq _ _ = false] => rewrite feq_false
  end; unfold key_lt, key_eq in *; lia.

Lemma fle_trans (x y z : float64) : fle x y = true -> fle y z = true -> fle x z = true.
Proof. intros. forder. Qed.

Lemma fle_refl (x : float64) : is_nan x = false -> fle x x = true.
Proof. intros. forder. Qed.

Lemma flt_fle (x y : float64) : flt x y = true -> fle x y = true.
Proof. intros. forder. Qed.

Lemma flt_not_fle (x y : float64) :
  is_nan x = false -> is_nan y = false -> flt x y = false -> fle y x = true.
Proof. intros. forder. Qed.

#[export] Hint Resolve fle_refl flt_fle : go.

(** ** What rounding keeps: the sign, and not becoming a NaN *)

(** [x] is a number with sign bit [s]. *)
Definition has_sign (s : bool) (x : float64) : Prop := is_nan x = false /\ signbit x = s.

Lemma iter_pos_ind {A} (P : A -> Prop) (f : A -> A) (n : positive) (x : A) :
  (forall a, P a -> P (f a)) -> P x -> P (SpecFloat.iter_pos f n x).
Proof.
  intros Hf. revert x. induction n as [n IH|n IH|]; cbn; intros x Hx; auto.
Qed.

Lemma shr_1_nonneg (r : shr_record) : (0 <= shr_m r)%Z -> (0 <= shr_m (shr_1 r))%Z.
Proof. destruct r as [m b s]. cbn. destruct m as [|[]|[]]; cbn; lia. Qed.

Lemma shr_nonneg (r : shr_record) (e n : Z) : (0 <= shr_m r)%Z -> (0 <= shr_m (shr r e n).1)%Z.
Proof.
  intros H. destruct n; cbn; try done. apply (iter_pos_ind (fun r => 0 <= shr_m r)%Z); [|done].
  apply shr_1_nonneg.
Qed.

Lemma shr_record_of_loc_m (m : Z) (l : location) : shr_m (shr_record_of_loc m l) = m.
Proof. by destruct l as [|[]]. Qed.

Lemma round_nearest_even_nonneg (m : Z) (l : location) : (0 <= m)%Z -> (0 <= round_nearest_even m l)%Z.
Proof. intros H. destruct l as [|[]]; cbn; try lia. destruct (Z.even m); lia. Qed.

Lemma binary_round_aux_sign (s : bool) (m e : Z) (l : location) :
  (0 <= m)%Z -> has_sign s (binary_round_aux 53 1024 s m e l).
Proof.
  intros Hm. unfold binary_round_aux, shr_fexp.
  pose proof (shr_nonneg (shr_record_of_loc m l) e (fexp 53 1024 (Zdigits2 m + e) - e)) as H1.
  rewrite shr_record_of_loc_m in H1. specialize (H1 Hm). destruct (shr _ e _) as [r1 e1]. cbn [fst] in H1.
  set (m2 := round_nearest_even _ _). assert (0 <= m2)%Z as Hm2 by by apply round_nearest_even_nonneg.
  pose proof (shr_nonneg (shr_record_of_loc m2 loc_Exact) e1
    (fexp 53 1024 (Zdigits2 m2 + e1) - e1)) as H2.
  rewrite shr_record_of_loc_m in H2. specialize (H2 Hm2). destruct (shr _ e1 _) as [r2 e2]. cbn [fst] in H2.
  destruct (shr_m r2) as [|p|p]; [done| |lia]. by destruct (Z.leb e2 _).
Qed.

Lemma binary_round_sign (s : bool) (m : positive) (e : Z) : has_sign s (binary_round 53 1024 s m e).
Proof. unfold binary_round. destruct (shl_align _ _ _). apply binary_round_aux_sign. lia. Qed.

Lemma binary_normalize_pos (m e : Z) (s : bool) :
  (0 < m)%Z -> has_sign false (binary_normalize 53 1024 m e s).
Proof. intros H. destruct m; try lia. apply binary_round_sign. Qed.

Lemma has_sign_nonneg (x : float64) : has_sign false x -> fle fzero x = true.
Proof. intros [Hn Hs]. destruct x as [[]|[]| |[] ? ?]; cbn in *; done. Qed.

Lemma fofZ_nonneg (n : Z) : (0 <= n)%Z -> fle fzero (fofZ n) = true.
Proof.
  intros H. destruct (decide (n = 0%Z)) as [->|]; [done|].
  apply has_sign_nonneg, binary_normalize_pos. lia.
Qed.

Lemma fofZ_not_nan (n : Z) : is_nan (fofZ n) = false.
Proof. destruct n; [done| |]; apply binary_round_sign. Qed.

Lemma fdiv_core_nonneg (m1 m2 : positive) (e1 e2 : Z) :
  (0 <= (SFdiv_core_binary 53 1024 (Z.pos m1) e1 (Z.pos m2) e2).1.1)%Z.
Proof.
  unfold SFdiv_core_binary.
  set (s := (e1 - e2 - Z.min _ _)%Z). set (m' := match s with Z0 => _ | _ => _ end).
  assert (0 <= m')%Z as Hm' by (subst m'; destruct s; [lia|apply Z.shiftl_nonneg; lia|lia]).
  pose proof (Z.div_pos m' (Z.pos m2) Hm' ltac:(lia)) as Hq. unfold Z.div in Hq.
  destruct (Z.div_eucl m' (Z.pos m2)) as [q r]. exact Hq.
Qed.

(** Sums, products and quotients of non-negative numbers. *)
Lemma fadd_nonneg (x y : float64) :
  fle fzero x = true -> fle fzero y = true -> fle fzero (fadd x y) = true.
Proof.
  destruct x as [[]|[]| |[] m e], y as [[]|[]| |[] n f]; cbn -[SFadd]; intros Hx Hy; try done.
  unfold fadd, SFadd. apply has_sign_nonneg, binary_normalize_pos. cbn. lia.
Qed.

Lemma fmul_nonneg (x y : float64) :
  fle fzero x = true -> flt fzero y = true -> is_finite y = true -> fle fzero (fmul x y) = true.
Proof.
  destruct x as [[]|[]| |[] m e], y as [[]|[]| |[] n f]; cbn -[SFmul]; intros Hx Hy Hf; try done.
  unfold fmul, SFmul. apply has_sign_nonneg, binary_round_aux_sign. lia.
Qed.

Lemma fmul_nonneg_fin (x y : float64) :
  fle fzero x = true -> fle fzero y = true -> is_finite x = true -> is_finite y = true ->
  fle fzero (fmul x y) = true.
Proof.
  destruct x as [[]|[]| |[] m e], y as [[]|[]| |[] n f]; cbn -[SFmul]; intros Hx Hy Hf Hg; try done.
  unfold fmul, SFmul. apply has_sign_nonneg, binary_round_aux_sign. lia.
Qed.

Lemma fdiv_nonneg (x y : float64) :
  fle fzero x = true -> is_finite x = true -> flt fzero y = true -> fle fzero (fdiv x y) = true.
Proof.
  destruct x as [[]|[]| |[] m e], y as [[]|[]| |[] n f]; cbn -[SFdiv]; intros Hx Hf Hy; try done.
  unfold fdiv, SFdiv. pose proof (fdiv_core_nonneg m n e f) as Hq.
  destruct (SFdiv_core_binary _ _ _ _ _ _) as [[q e'] l].
  apply has_sign_nonneg, binary_round_aux_sign. exact Hq.
Qed.

(** The clamp of the code, [math.Min(hi, math.Max(lo, x))] and its variants. *)
Lemma fmin_le_l (x y : float64) : is_nan x = false -> is_nan y = false -> fle (fmin x y) x = true.
Proof.
  intros Hx Hy. unfold fmin.
  destruct (is_ninf x || is_ninf y) eqn:Ei; [destruct x as [|[]| |[]]; done|].
  rewrite Hx, Hy. cbn. destruct (feq x fzero && feq x y) eqn:E; reflect_bools.
  - destruct (signbit x); forder.
  - destruct (flt x y) eqn:E2; [by apply fle_refl|]. by apply flt_not_fle.
Qed.

Lemma fmin_le_r (x y : float64) : is_nan x = false -> is_nan y = false -> fle (fmin x y) y = true.
Proof.
  intros Hx Hy. unfold fmin.
  destruct (is_ninf x || is_ninf y) eqn:Ei; [destruct y as [|[]| |[]]; done|].
  rewrite Hx, Hy. cbn. destruct (feq x fzero && feq x y) eqn:E; reflect_bools.
  - destruct (signbit x); forder.
  - destruct (flt x y) eqn:E2; [by apply flt_fle|by apply fle_refl].
Qed.

Lemma fmax_ge_l (x y : float64) : is_nan x = false -> is_nan y = false -> fle x (fmax x y) = true.
Proof.
  intros Hx Hy. unfold fmax.
  destruct (is_pinf x || is_pinf y) eqn:Ei; [destruct x as [|[]| |[]]; done|].
  rewrite Hx, Hy. cbn. destruct (feq x fzero && feq x y) eqn:E; reflect_bools.
  - destruct (signbit x); forder.
  - destruct (flt y x) eqn:E2; [by apply fle_refl|]. by apply flt_not_fle.
Qed.

Lemma fmax_ge_r (x y : float64) : is_nan x = false -> is_nan y = false -> fle y (fmax x y) = true.
Proof.
  intros Hx Hy. unfold fmax.
  destruct (is_pinf x || is_pinf y) eqn:Ei; [destruct y as [|[]| |[]]; done|].
  rewrite Hx, Hy. cbn. destruct (feq x fzero && feq x y) eqn:E; reflect_bools.
  - destruct (signbit x); forder.
  - destruct (flt y x) eqn:E2; [by apply flt_fle|by apply fle_refl].
Qed.

(** [math.Min] and [math.Max] return one of their arguments, up to the sign
    of a zero; on numbers they are the lattice operations of the order. *)
Lemma fmin_glb (x y z : float64) :
  fle z x = true -> fle z y = true -> fle z (fmin x y) = true.
Proof.
  intros Hx Hy. unfold fmin.
  destruct (is_ninf x || is_ninf y) eqn:Ei.
  { apply orb_true_iff in Ei as [E|E]; [destruct x as [|[]| |[]]|destruct y as [|[]| |[]]]; done. }
  destruct (is_nan x || is_nan y) eqn:En.
  { apply orb_true_iff in En as [E|E]; forder. }
  destruct (feq x fzero && feq x y); [by destruct (signbit x)|]. by destruct (flt x y).
Qed.

Lemma fmax_lub (x y z : float64) :
  fle x z = true -> fle y z = true -> fle (fmax x y) z = true.
Proof.
  intros Hx Hy. unfold fmax.
  destruct (is_pinf x || is_pinf y) eqn:Ei.
  { apply orb_true_iff in Ei as [E|E]; [destruct x as [|[]| |[]]|destruct y as [|[]| |[]]]; done. }
  destruct (is_nan x || is_nan y) eqn:En.
  { apply orb_true_iff in En as [E|E]; forder. }
  destruct (feq x fzero && feq x y); [by destruct (signbit x)|]. by destruct (flt y x).
Qed.

Lemma fmin_not_nan (x y : float64) : is_nan x = false -> is_nan y = false -> is_nan (fmin x y) = false.
Proof. intros Hx Hy. pose proof (fmin_le_l x y Hx Hy). forder. Qed.

Lemma fmax_not_nan (x y : float64) : is_nan x = false -> is_nan y = false -> is_nan (fmax x y) = false.
Proof. intros Hx Hy. pose proof (fmax_ge_l x y Hx Hy). forder. Qed.

#[export] Hint Resolve fadd_nonneg fmin_not_nan fmax_not_nan fofZ_nonneg fofZ_not_nan : go.

Example lit_07 : flit 7 10 = S754_finite false 6305039478318694 (-53).
Proof. vm_compute. reflexivity. Qed.
Example round_ex : int_of_float (fround (fmul (fofZ 10) (flit 45 100))) = 5%Z.
Proof. vm_compute. reflexivity. Qed.
Example ceil_ex : int_of_float (fceil (fdiv (fofZ 7) (fofZ 2))) = 4%Z.
Proof. vm_compute. reflexivity. Qed.
Example to_int_neg_ex : int_of_float (flit (-29) 10) = (-2)%Z.
Proof. vm_compute. reflexivity. Qed.
