(* ===== verification/FloatFacts.v ===== *)
(** * Rounding: what the arithmetic of [float64] guarantees

    Every finite double is an integer multiple of 2^-1074, so [sval] embeds
    the finite values into the integers (scaled by 2^[scale], which also holds
    exact products and quotients), where comparisons are integer comparisons.
    [Rounds V c R] says that [R] is a valid double that rounds the exact value
    [V / c]: it does not cross any double, so a bound that holds exactly and is
    a double holds after rounding too. *)

From Stdlib Require Zpower.
From S2P Require Import Prelude GoFloat.

Definition valid (x : float64) : Prop := valid_binary 53 1024 x = true.

Definition scale : Z := 3000.

(** The value of a finite double in units of 2^-[scale]. *)
Definition sval (x : float64) : Z :=
  match x with
  | S754_finite s m e => cond_Zopp s (Z.pos m * 2 ^ (e + scale))
  | _ => 0
  end.

(** ** Digits *)

Lemma digits2_log2 (p : positive) : Z.pos (digits2_pos p) = (Z.log2 (Z.pos p) + 1)%Z.
Proof.
  induction p as [p IH|p IH|]; cbn [digits2_pos]; [..|done].
  - rewrite Pos2Z.inj_succ, IH, Pos2Z.inj_xI, Z.log2_succ_double by lia. lia.
  - rewrite Pos2Z.inj_succ, IH, Pos2Z.inj_xO, Z.log2_double by lia. lia.
Qed.

Lemma Zdigits2_log2 (m : Z) : (0 < m)%Z -> Zdigits2 m = (Z.log2 m + 1)%Z.
Proof. destruct m; try lia. intros _. apply digits2_log2. Qed.

Lemma log2_bounds (m : Z) : (0 < m)%Z -> (2 ^ Z.log2 m <= m < 2 ^ (Z.log2 m + 1))%Z.
Proof. intros H. pose proof (Z.log2_spec m H). rewrite Z.add_1_r. lia. Qed.

Definition fexp64 (d : Z) : Z := Z.max (d - 53) (-1074).

Lemma fexp_eq (d : Z) : fexp 53 1024 d = fexp64 d.
Proof. reflexivity. Qed.

Lemma valid_finite (s : bool) (m : positive) (e : Z) :
  valid (S754_finite s m e) <->
  fexp64 (Z.log2 (Z.pos m) + 1 + e) = e /\ (e <= 971)%Z.
Proof.
  unfold valid, valid_binary, bounded, canonical_mantissa. rewrite digits2_log2, fexp_eq.
  rewrite andb_true_iff, Z.eqb_eq, Z.leb_le. reflexivity.
Qed.

Lemma valid_range (s : bool) (m : positive) (e : Z) :
  valid (S754_finite s m e) ->
  (-1074 <= e <= 971 /\ Z.pos m < 2 ^ 53 /\ (-1074 < e -> 2 ^ 52 <= Z.pos m))%Z.
Proof.
  rewrite valid_finite. unfold fexp64. intros [H1 H2].
  pose proof (log2_bounds (Z.pos m) ltac:(lia)) as [Hl Hu].
  split; [lia|]. split.
  - eapply Z.lt_le_trans; [exact Hu|]. apply Z.pow_le_mono_r; lia.
  - intros He. etrans; [|exact Hl]. apply Z.pow_le_mono_r; lia.
Qed.

Lemma pow2_pos (n : Z) : (0 <= n)%Z -> (0 < 2 ^ n)%Z.
Proof. intros. by apply Z.pow_pos_nonneg. Qed.

Lemma pow2_split (a b : Z) : (0 <= a)%Z -> (0 <= b)%Z -> (2 ^ (a + b) = 2 ^ a * 2 ^ b)%Z.
Proof. intros. by apply Z.pow_add_r. Qed.

(** ** Comparisons are integer comparisons *)

Lemma mag_lt (m1 m2 : positive) (e1 e2 : Z) :
  valid (S754_finite false m1 e1) -> valid (S754_finite false m2 e2) ->
  (e1 < e2)%Z -> (Z.pos m1 * 2 ^ (e1 + scale) < Z.pos m2 * 2 ^ (e2 + scale))%Z.
Proof.
  intros H1%valid_range H2%valid_range He. unfold scale.
  replace (e2 + 3000)%Z with ((e2 - e1 - 1) + (1 + (e1 + 3000)))%Z by lia.
  rewrite (pow2_split (e2 - e1 - 1)), (pow2_split 1) by lia. change (2 ^ 1)%Z with 2%Z.
  pose proof (pow2_pos (e1 + 3000) ltac:(lia)). pose proof (pow2_pos (e2 - e1 - 1) ltac:(lia)).
  destruct H2 as (_ & _ & H2). specialize (H2 ltac:(lia)).
  assert (2 ^ 52 * 1 <= Z.pos m2 * 2 ^ (e2 - e1 - 1))%Z by (apply Z.mul_le_mono_nonneg; lia).
  rewrite !Z.mul_assoc. apply Z.mul_lt_mono_pos_r; lia.
Qed.

Lemma valid_sign (s s' : bool) (m : positive) (e : Z) :
  valid (S754_finite s m e) -> valid (S754_finite s' m e).
Proof. done. Qed.

Lemma sval_lt_iff (x y : float64) :
  valid x -> valid y -> is_finite x = true -> is_finite y = true ->
  key_lt x y <-> (sval x < sval y)%Z.
Proof.
  assert (forall (m : positive) e, (-1074 <= e)%Z -> 0 < Z.pos m * 2 ^ (e + scale))%Z as Hpos.
  { intros m e He. pose proof (pow2_pos (e + scale) ltac:(unfold scale; lia)). nia. }
  destruct x as [[]|[]| |[] m1 e1], y as [[]|[]| |[] m2 e2]; intros Hx Hy Fx Fy; try discriminate;
    try pose proof (valid_range _ _ _ Hx) as Rx; try pose proof (valid_range _ _ _ Hy) as Ry;
    try pose proof (Hpos m1 e1 ltac:(lia)); try pose proof (Hpos m2 e2 ltac:(lia));
    unfold key_lt; cbn -[Z.pow Z.mul scale]; try lia.
  all: apply (valid_sign _ false) in Hx; apply (valid_sign _ false) in Hy.
  all: destruct (Z.lt_trichotomy e1 e2) as [He|[->|He]];
    [pose proof (mag_lt m1 m2 e1 e2 Hx Hy He); lia
    |pose proof (pow2_pos (e2 + scale) ltac:(unfold scale; lia)); nia
    |pose proof (mag_lt m2 m1 e2 e1 Hy Hx He); lia].
Qed.

Lemma is_finite_not_nan (x : float64) : is_finite x = true -> is_nan x = false.
Proof. by destruct x. Qed.

Lemma flt_sval (x y : float64) :
  valid x -> valid y -> is_finite x = true -> is_finite y = true ->
  flt x y = true <-> (sval x < sval y)%Z.
Proof.
  intros Hx Hy Fx Fy. rewrite flt_iff, sval_lt_iff by done.
  rewrite !is_finite_not_nan by done. tauto.
Qed.

Lemma fle_sval (x y : float64) :
  valid x -> valid y -> is_finite x = true -> is_finite y = true ->
  fle x y = true <-> (sval x <= sval y)%Z.
Proof.
  intros Hx Hy Fx Fy. pose proof (flt_sval y x Hy Hx Fy Fx) as H.
  pose proof (is_finite_not_nan x Fx). pose proof (is_finite_not_nan y Fy).
  destruct (flt y x) eqn:E.
  - split; [intros; forder|lia].
  - split; [lia|intros _; by apply flt_not_fle].
Qed.

(** ** Shifting the mantissa: quotient and inexactness *)

Lemma iter_pos_nat {A} (f : A -> A) (p : positive) (x : A) :
  SpecFloat.iter_pos f p x = Nat.iter (Pos.to_nat p) f x.
Proof.
  revert x. induction p as [p IH|p IH|]; intros x; cbn [SpecFloat.iter_pos].
  - rewrite !IH, Pos2Nat.inj_xI, <- Nat.iter_add, <- Nat.iter_succ_r. f_equal. lia.
  - rewrite !IH, Pos2Nat.inj_xO, <- Nat.iter_add. f_equal. lia.
  - done.
Qed.

Definition inexact (r : shr_record) : bool := shr_r r || shr_s r.

Lemma shr_1_spec (r : shr_record) : (0 <= shr_m r)%Z ->
  shr_m (shr_1 r) = (shr_m r / 2)%Z /\ inexact (shr_1 r) = (Z.odd (shr_m r) || inexact r)%bool.
Proof.
  destruct r as [m b s]. unfold inexact. cbn [shr_m shr_1]. intros Hm. rewrite <- Z.div2_div.
  destruct m as [|[p|p|]|]; cbn; try lia; split; try done; by destruct b, s.
Qed.

Lemma shr_iter_spec (n : nat) (r : shr_record) : (0 <= shr_m r)%Z ->
  shr_m (Nat.iter n shr_1 r) = (shr_m r / 2 ^ Z.of_nat n)%Z /\
  inexact (Nat.iter n shr_1 r) = (negb (shr_m r mod 2 ^ Z.of_nat n =? 0)%Z || inexact r)%bool.
Proof.
  intros Hr. induction n as [|n [IHm IHi]].
  - cbn. rewrite Z.div_1_r, Z.mod_1_r. done.
  - change (Nat.iter (S n) shr_1 r) with (shr_1 (Nat.iter n shr_1 r)).
    pose proof (pow2_pos (Z.of_nat n) ltac:(lia)) as Hp.
    destruct (shr_1_spec (Nat.iter n shr_1 r)) as [-> ->].
    { rewrite IHm. apply Z.div_pos; lia. }
    rewrite IHm, IHi, Nat2Z.inj_succ, Z.pow_succ_r by lia. split.
    + rewrite Z.mul_comm, Z.div_div by lia. done.
    + rewrite Z.mul_comm, Z.rem_mul_r, <- Z.bit0_mod, Z.bit0_odd by lia.
      destruct (Z.odd (shr_m r / 2 ^ Z.of_nat n)); cbn [Z.b2z];
        pose proof (Z.mod_pos_bound (shr_m r) (2 ^ Z.of_nat n) Hp);
        destruct (Z.eqb_spec (shr_m r mod 2 ^ Z.of_nat n) 0) as [->|];
        destruct (inexact r); cbn; try lia;
        destruct (Z.eqb_spec (shr_m r mod 2 ^ Z.of_nat n + 2 ^ Z.of_nat n * _) 0); try done; nia.
Qed.

Lemma shr_spec (r : shr_record) (e n : Z) : (0 <= shr_m r)%Z -> (0 <= n)%Z ->
  shr_m (shr r e n).1 = (shr_m r / 2 ^ n)%Z /\ (shr r e n).2 = (e + n)%Z /\
  inexact (shr r e n).1 = (negb (shr_m r mod 2 ^ n =? 0)%Z || inexact r)%bool.
Proof.
  intros Hr Hn. destruct n as [|p|p]; [|cbn [shr fst snd]|lia].
  - cbn [shr fst snd]. rewrite Z.pow_0_r, Z.div_1_r, Z.mod_1_r, Z.add_0_r. done.
  - rewrite iter_pos_nat. destruct (shr_iter_spec (Pos.to_nat p) r Hr) as [-> ->].
    rewrite positive_nat_Z. done.
Qed.

Definition loc_inexact (l : location) : bool := match l with loc_Exact => false | _ => true end.

Lemma shr_record_of_loc_inexact (m : Z) (l : location) : inexact (shr_record_of_loc m l) = loc_inexact l.
Proof. by destruct l as [|[]]. Qed.

Lemma loc_of_shr_inexact (r : shr_record) : loc_inexact (loc_of_shr_record r) = inexact r.
Proof. by destruct r as [m [] []]. Qed.

Lemma round_nearest_even_cases (m : Z) (l : location) :
  round_nearest_even m l = m \/ (round_nearest_even m l = (m + 1)%Z /\ loc_inexact l = true).
Proof. destruct l as [|[]]; cbn; auto. destruct (Z.even m); auto. Qed.

(** A mantissa shifted onto the grid of its exponent. *)
Lemma shr_fexp_spec (m e : Z) (l : location) :
  (0 <= m)%Z -> (e <= fexp64 (Zdigits2 m + e))%Z ->
  let E := fexp64 (Zdigits2 m + e) in
  let r := (shr_fexp 53 1024 m e l).1 in
  (shr_fexp 53 1024 m e l).2 = E /\ shr_m r = (m / 2 ^ (E - e))%Z /\
  inexact r = (negb (m mod 2 ^ (E - e) =? 0)%Z || loc_inexact l)%bool.
Proof.
  intros Hm He. unfold shr_fexp. rewrite fexp_eq. cbv zeta.
  destruct (shr_spec (shr_record_of_loc m l) e (fexp64 (Zdigits2 m + e) - e)) as (H1 & H2 & H3).
  - rewrite shr_record_of_loc_m. lia.
  - lia.
  - rewrite H1, H2, H3, shr_record_of_loc_m, shr_record_of_loc_inexact. split; [lia|done].
Qed.

(** ** Rounding a mantissa *)

(** The grid cell of the exact value [V / c] at exponent [E]: [q] is its lower
    end, and the value is the end itself where [exact]. *)
Definition cell (V c q E : Z) (exact : bool) : Prop :=
  (c * (q * 2 ^ (E + scale)) <= V < c * ((q + 1) * 2 ^ (E + scale)))%Z /\
  (if exact then V = c * (q * 2 ^ (E + scale)) else c * (q * 2 ^ (E + scale)) < V)%Z.

Lemma cell_shift (V c m e E : Z) (x : bool) :
  (0 < c)%Z -> (0 <= m)%Z -> (e <= E)%Z -> (0 <= e + scale)%Z ->
  cell V c m e x ->
  cell V c (m / 2 ^ (E - e)) E (x && (m mod 2 ^ (E - e) =? 0)%Z).
Proof.
  intros Hc Hm He Hs [[H1 H2] H3]. unfold cell.
  replace (E + scale)%Z with ((E - e) + (e + scale))%Z by lia. rewrite pow2_split by lia.
  pose proof (pow2_pos (E - e) ltac:(lia)) as Hp. pose proof (pow2_pos (e + scale) Hs) as Hu.
  set (p := (2 ^ (E - e))%Z) in *. set (u := (2 ^ (e + scale))%Z) in *.
  pose proof (Z.div_mod m p ltac:(lia)) as Hd. pose proof (Z.mod_pos_bound m p Hp) as Hr.
  set (q := (m / p)%Z) in *. set (r := (m mod p)%Z) in *.
  assert (c * (q * (p * u)) = c * ((m - r) * u))%Z as Eq1 by (rewrite Hd; ring).
  assert (c * ((q + 1) * (p * u)) = c * ((m - r + p) * u))%Z as Eq2 by (rewrite Hd; ring).
  rewrite Eq1, Eq2.
  assert (c * ((m - r) * u) <= c * (m * u))%Z by (apply Z.mul_le_mono_nonneg_l; [lia|]; apply Z.mul_le_mono_nonneg_r; lia).
  assert (c * ((m + 1) * u) <= c * ((m - r + p) * u))%Z by (apply Z.mul_le_mono_nonneg_l; [lia|]; apply Z.mul_le_mono_nonneg_r; lia).
  split; [lia|]. destruct (Z.eqb_spec r 0) as [->|Hne].
  - rewrite Z.sub_0_r, andb_true_r. destruct x; lia.
  - rewrite andb_false_r.
    assert (c * ((m - r) * u) < c * (m * u))%Z; [|destruct x; lia].
    apply Z.mul_lt_mono_pos_l; [lia|]. apply Z.mul_lt_mono_pos_r; lia.
Qed.

(** The result of rounding a magnitude: a mantissa on the grid that is zero,
    or a canonical pair. *)
Definition packs (m2 E : Z) (s : bool) (R : float64) : Prop :=
  match R with
  | S754_zero s' => s' = s /\ m2 = 0%Z
  | S754_infinity s' => s' = s /\ (2 ^ (1024 + scale) <= m2 * 2 ^ (E + scale))%Z
  | S754_finite s' m e =>
      s' = s /\ valid R /\ (Z.pos m * 2 ^ (e + scale) = m2 * 2 ^ (E + scale))%Z
  | S754_nan => False
  end.

Lemma Zdigits2_bounds (m : Z) : (0 < m)%Z -> (2 ^ (Zdigits2 m - 1) <= m < 2 ^ Zdigits2 m)%Z.
Proof.
  intros H. rewrite Zdigits2_log2 by done. pose proof (log2_bounds m H).
  replace (Z.log2 m + 1 - 1)%Z with (Z.log2 m) by lia. lia.
Qed.

Lemma Zdigits2_le (m k : Z) : (0 < m)%Z -> (m < 2 ^ k)%Z -> (0 <= k)%Z -> (Zdigits2 m <= k)%Z.
Proof. intros Hm Hk H0. rewrite Zdigits2_log2 by done. apply Z.log2_lt_pow2 in Hk; lia. Qed.

Lemma Zdigits2_ge (m k : Z) : (0 <= k)%Z -> (2 ^ k <= m)%Z -> (k + 1 <= Zdigits2 m)%Z.
Proof.
  intros H0 Hk. pose proof (pow2_pos k H0). rewrite Zdigits2_log2 by lia.
  apply Z.log2_le_pow2 in Hk; lia.
Qed.

Lemma pack_spec (s : bool) (m2 E : Z) :
  (0 <= m2 <= 2 ^ 53)%Z -> (-1074 <= E)%Z -> (-1074 < E -> 2 ^ 52 <= m2)%Z ->
  let r := shr_fexp 53 1024 m2 E loc_Exact in
  packs m2 E s (match shr_m r.1 with
                | Z0 => S754_zero s
                | Zpos m => if (r.2 <=? 971)%Z then S754_finite s m r.2 else S754_infinity s
                | Zneg _ => S754_nan
                end).
Proof.
  intros Hm HE Hn. cbv zeta.
  destruct (decide (m2 = 2 ^ 53)%Z) as [->|Hne].
  - destruct (shr_fexp_spec (2 ^ 53) E loc_Exact) as (H2 & H1 & _); [lia| |].
    { change (Zdigits2 (2 ^ 53)) with 54%Z. unfold fexp64. lia. }
    change (Zdigits2 (2 ^ 53)) with 54%Z in *. unfold fexp64 in H1, H2.
    replace (Z.max (54 + E - 53) (-1074))%Z with (E + 1)%Z in * by lia.
    replace (E + 1 - E)%Z with 1%Z in H1 by lia. rewrite H1, H2.
    change (2 ^ 53 / 2 ^ 1)%Z with 4503599627370496%Z. destruct (Z.leb_spec (E + 1) 971).
    + cbn [packs]. split; [done|]. split.
      * apply valid_finite. change (Z.log2 4503599627370496) with 52%Z. unfold fexp64. lia.
      * replace (E + 1 + scale)%Z with (1 + (E + scale))%Z by lia.
        rewrite pow2_split by (unfold scale; lia). change (2 ^ 1)%Z with 2%Z. lia.
    + cbn [packs]. split; [done|]. replace (1024 + scale)%Z with (53 + (971 + scale))%Z by lia.
      rewrite pow2_split by (unfold scale; lia). apply Z.mul_le_mono_nonneg_l; [lia|].
      apply Z.pow_le_mono_r; lia.
  - assert (Zdigits2 m2 <= 53)%Z as Hd.
    { destruct (decide (m2 = 0)%Z) as [->|]; [done|]. apply Zdigits2_le; lia. }
    assert (fexp64 (Zdigits2 m2 + E) = E) as Hf.
    { unfold fexp64. destruct (decide (E = -1074)%Z) as [->|]; [lia|].
      pose proof (Zdigits2_ge m2 52 ltac:(lia) ltac:(lia)). lia. }
    destruct (shr_fexp_spec m2 E loc_Exact) as (H2 & H1 & _); [lia|lia|].
    rewrite Hf in H1, H2. rewrite Z.sub_diag, Z.div_1_r in H1. rewrite H1, H2.
    destruct m2 as [|p|p]; [done| |lia]. destruct (Z.leb_spec E 971).
    + cbn [packs]. split; [done|]. split; [|done]. apply valid_finite.
      rewrite Zdigits2_log2 in Hf by lia. split; [exact Hf|done].
    + cbn [packs]. split; [done|]. replace (1024 + scale)%Z with (52 + (972 + scale))%Z by lia.
      rewrite pow2_split by (unfold scale; lia). apply Z.mul_le_mono_nonneg; try lia.
      apply Z.pow_le_mono_r; unfold scale; lia.
Qed.

(** Rounding the value [V / c], found in a cell of its own exponent, packs one
    of the two ends of its cell on the result's grid. *)
Lemma binary_round_aux_packs (V c m e : Z) (l : location) (s : bool) :
  (0 < c)%Z -> (0 <= m)%Z -> (e <= fexp64 (Zdigits2 m + e))%Z -> (0 <= e + scale)%Z ->
  cell V c m e (negb (loc_inexact l)) ->
  exists q m2 E x, cell V c q E x /\ (0 <= q)%Z /\ (-1074 <= E)%Z /\ (-1074 < E -> 2 ^ 52 <= q)%Z /\
    (m2 = q \/ (m2 = (q + 1)%Z /\ x = false)) /\ packs m2 E s (binary_round_aux 53 1024 s m e l).
Proof.
  intros Hc Hm He Hs Hcell. destruct (shr_fexp_spec m e l Hm He) as (H2 & H1 & H3).
  pose proof (cell_shift _ _ _ _ _ _ Hc Hm He Hs Hcell) as Hq.
  set (E := fexp64 (Zdigits2 m + e)) in *. set (q := (m / 2 ^ (E - e))%Z) in *.
  pose proof (pow2_pos (E - e) ltac:(lia)) as Hp.
  assert (0 <= q)%Z as Hq0 by (apply Z.div_pos; lia).
  assert (-1074 <= E)%Z as HE by (unfold E, fexp64; lia).
  assert (q < 2 ^ 53)%Z as Hq53.
  { apply Z.div_lt_upper_bound; [done|]. rewrite <- pow2_split by lia.
    destruct (decide (m = 0)%Z) as [->|]; [apply pow2_pos; lia|].
    eapply Z.lt_le_trans; [apply Zdigits2_bounds; lia|]. apply Z.pow_le_mono_r; unfold E, fexp64; lia. }
  assert (-1074 < E -> 2 ^ 52 <= q)%Z as Hq52.
  { intros HE'. assert (E = Zdigits2 m + e - 53)%Z as EE by (unfold E, fexp64 in *; lia).
    assert (0 < m)%Z by (destruct (decide (m = 0)%Z) as [->|]; [change (Zdigits2 0) with 0%Z in *; lia|lia]).
    apply Z.div_le_lower_bound; [done|]. rewrite Z.mul_comm, <- pow2_split by lia.
    etrans; [|apply Zdigits2_bounds; lia]. apply Z.pow_le_mono_r; lia. }
  exists q, (round_nearest_even q (loc_of_shr_record (shr_fexp 53 1024 m e l).1)), E,
    (negb (loc_inexact l) && (m mod 2 ^ (E - e) =? 0)%Z).
  split; [done|]. split; [done|]. split; [done|]. split; [done|].
  assert (forall b, b = q \/ (b = (q + 1)%Z /\ negb (loc_inexact l) && (m mod 2 ^ (E - e) =? 0)%Z = false) ->
    packs b E s (let r := shr_fexp 53 1024 b E loc_Exact in
      match shr_m r.1 with
      | Z0 => S754_zero s
      | Zpos m => if (r.2 <=? 971)%Z then S754_finite s m r.2 else S754_infinity s
      | Zneg _ => S754_nan
      end)) as Hpack.
  { intros b Hb. apply pack_spec; lia. }
  destruct (round_nearest_even_cases q (loc_of_shr_record (shr_fexp 53 1024 m e l).1)) as [Hr|[Hr Hx]].
  - split; [by left|]. rewrite Hr. specialize (Hpack q ltac:(by left)).
    unfold binary_round_aux. destruct (shr_fexp 53 1024 m e l) as [r1 e1]. cbn [fst snd] in *. subst e1.
    rewrite H1, Hr. by destruct (shr_fexp 53 1024 q E loc_Exact).
  - rewrite loc_of_shr_inexact, H3 in Hx.
    assert (negb (loc_inexact l) && (m mod 2 ^ (E - e) =? 0)%Z = false) as Hx'.
    { destruct (loc_inexact l), (m mod 2 ^ (E - e) =? 0)%Z; done. }
    split; [by right|]. rewrite Hr. specialize (Hpack (q + 1)%Z ltac:(by right)).
    unfold binary_round_aux. destruct (shr_fexp 53 1024 m e l) as [r1 e1]. cbn [fst snd] in *. subst e1.
    rewrite H1, Hr. by destruct (shr_fexp 53 1024 (q + 1) E loc_Exact).
Qed.

(** ** Rounding does not cross a double *)

(** [R] is a non-negative double that rounds [V / c], in units of 2^-[scale]. *)
Record Rounds (V c : Z) (R : float64) : Prop := {
  Rounds_valid : valid R;
  Rounds_sign : fle fzero R = true;
  Rounds_le z : valid z -> is_finite z = true -> (V <= c * sval z)%Z -> fle R z = true;
  Rounds_ge z : valid z -> is_finite z = true -> (c * sval z <= V)%Z -> fle z R = true
}.

Lemma mag_pos (s : bool) (m : positive) (e : Z) :
  valid (S754_finite s m e) -> (0 < Z.pos m * 2 ^ (e + scale))%Z.
Proof.
  intros (He & _ & _)%valid_range. apply Z.mul_pos_pos; [lia|]. apply pow2_pos. unfold scale. lia.
Qed.

Lemma sval_bound (z : float64) : valid z -> is_finite z = true -> (sval z < 2 ^ (1024 + scale))%Z.
Proof.
  destruct z as [|[]| |[] m e]; intros Hz Hf; try done; unfold sval, cond_Zopp;
    pose proof (pow2_pos (1024 + scale) ltac:(unfold scale; lia)); try lia;
    pose proof (valid_range _ _ _ Hz) as (He & Hm & _);
    pose proof (pow2_pos (e + scale) ltac:(unfold scale; lia)).
  replace (1024 + scale)%Z with (53 + (971 + scale))%Z by lia.
  rewrite (pow2_split 53) by (unfold scale; lia).
  assert (2 ^ (e + scale) <= 2 ^ (971 + scale))%Z as Hle by (apply Z.pow_le_mono_r; lia).
  eapply Z.lt_le_trans; [apply Z.mul_lt_mono_pos_r; [lia|exact Hm]|].
  apply Z.mul_le_mono_nonneg_l; lia.
Qed.

(** A non-negative double against the two ends of a cell of a normal grid. *)
Lemma double_in_cell (V c q E : Z) (x : bool) (z : float64) :
  (0 < c)%Z -> (0 <= q)%Z -> (-1074 <= E)%Z -> (-1074 < E -> 2 ^ 52 <= q)%Z ->
  cell V c q E x -> valid z -> is_finite z = true -> (0 <= sval z)%Z ->
  let u := (2 ^ (E + scale))%Z in
  ((c * sval z <= V -> sval z <= q * u) /\
   (V <= c * sval z -> (if x then q else q + 1) * u <= sval z))%Z.
Proof.
  intros Hc Hq HE Hn [[H1 H2] H3] Hz Hf Hp. cbv zeta.
  pose proof (pow2_pos (E + scale) ltac:(unfold scale; lia)) as Hu.
  set (u := (2 ^ (E + scale))%Z) in *.
  assert (exists k, sval z = k * u \/ ((-1074 < E)%Z /\ sval z < q * u))%Z as [k [Hk|[HE' Hlt]]].
  { destruct z as [|[]| |s m e]; try done; [exists 0%Z; by left|].
    destruct s; [unfold sval, cond_Zopp in Hp; pose proof (mag_pos _ _ _ Hz); lia|].
    pose proof (valid_range _ _ _ Hz) as (He & Hm & _).
    unfold sval, cond_Zopp. destruct (Z.le_gt_cases E e).
    - exists (Z.pos m * 2 ^ (e - E))%Z. left. replace (e + scale)%Z with ((e - E) + (E + scale))%Z by lia.
      rewrite pow2_split by (unfold scale; lia). fold u. ring.
    - exists 0%Z. right. split; [lia|]. specialize (Hn ltac:(lia)).
      assert (2 ^ 1 * 2 ^ (e + scale) <= u)%Z as Hle.
      { rewrite <- pow2_split by (unfold scale; lia). apply Z.pow_le_mono_r; unfold scale; lia. }
      change (2 ^ 1)%Z with 2%Z in Hle.
      pose proof (pow2_pos (e + scale) ltac:(unfold scale; lia)). nia. }
  - rewrite Hk in *. split; intros HV.
    + assert (c * (k * u) < c * ((q + 1) * u))%Z as Hl by lia.
      apply Z.mul_lt_mono_pos_l in Hl; [|lia]. apply Z.mul_lt_mono_pos_r in Hl; [|lia].
      apply Z.mul_le_mono_nonneg_r; lia.
    + apply Z.mul_le_mono_nonneg_r; [lia|]. destruct x.
      * assert (c * (q * u) <= c * (k * u))%Z as Hl by lia.
        apply Z.mul_le_mono_pos_l in Hl; [|lia]. by apply Z.mul_le_mono_pos_r in Hl.
      * assert (c * (q * u) < c * (k * u))%Z as Hl by lia.
        apply Z.mul_lt_mono_pos_l in Hl; [|lia]. apply Z.mul_lt_mono_pos_r in Hl; lia.
  - split; [lia|]. intros HV. exfalso.
    assert (c * sval z < c * (q * u))%Z by (apply Z.mul_lt_mono_pos_l; lia). destruct x; lia.
Qed.

Lemma sval_neg_fle (z R : float64) :
  is_finite z = true -> (sval z < 0)%Z -> valid z -> fle fzero R = true -> fle z R = true.
Proof.
  intros Hf Hz Hv Hn. destruct z as [|[]| |[] m e]; try done; cbn [sval cond_Zopp] in Hz; [|lia].
  by destruct R as [[]|[]| |[] ? ?].
Qed.

Lemma packs_Rounds (V c q m2 E : Z) (x : bool) (R : float64) :
  (0 < c)%Z -> (0 <= V)%Z -> (0 <= q)%Z -> (-1074 <= E)%Z -> (-1074 < E -> 2 ^ 52 <= q)%Z ->
  cell V c q E x -> (m2 = q \/ (m2 = (q + 1)%Z /\ x = false)) -> packs m2 E false R ->
  Rounds V c R.
Proof.
  intros Hc HV Hq HE Hn Hcell Hm2 Hp.
  pose proof (pow2_pos (E + scale) ltac:(unfold scale; lia)) as Hu.
  assert (valid R /\ fle fzero R = true) as [HRv HRs].
  { destruct R; cbn in Hp; [destruct Hp as [-> _]; done|destruct Hp as [-> _]; done|done|].
    destruct Hp as (-> & Hv & _). done. }
  assert (is_finite R = true -> sval R = m2 * 2 ^ (E + scale))%Z as HR.
  { destruct R; cbn in Hp |- *; try done; [destruct Hp as [_ ->]; lia|].
    destruct Hp as (-> & _ & ->). done. }
  split; [done|done| |]; intros z Hz Hf Hle.
  - assert (0 <= sval z)%Z as H0 by nia.
    destruct (double_in_cell V c q E x z) as [_ Hb]; try done. specialize (Hb Hle).
    assert (m2 * 2 ^ (E + scale) <= sval z)%Z as Hm.
    { etrans; [|exact Hb]. apply Z.mul_le_mono_nonneg_r; [lia|]. destruct x, Hm2 as [->|[-> ?]]; lia || done. }
    destruct (is_finite R) eqn:EF.
    + apply fle_sval; try done. rewrite HR by done. done.
    + destruct R; try done. destruct Hp as [_ Hp]. pose proof (sval_bound z Hz Hf). lia.
  - destruct (Z.lt_ge_cases (sval z) 0) as [Hneg|H0]; [by apply sval_neg_fle|].
    destruct (double_in_cell V c q E x z) as [Ha _]; try done. specialize (Ha Hle).
    destruct (is_finite R) eqn:EF.
    + apply fle_sval; try done. rewrite HR by done. etrans; [exact Ha|].
      apply Z.mul_le_mono_nonneg_r; [lia|]. destruct Hm2 as [->|[-> _]]; lia.
    + destruct R as [|s| |]; try done. destruct Hp as [-> _]. by destruct z as [[]|[]| |[] ? ?].
Qed.

Lemma binary_round_aux_Rounds (V c m e : Z) (l : location) :
  (0 < c)%Z -> (0 <= m)%Z -> (e <= fexp64 (Zdigits2 m + e))%Z -> (0 <= e + scale)%Z ->
  cell V c m e (negb (loc_inexact l)) ->
  Rounds V c (binary_round_aux 53 1024 false m e l).
Proof.
  intros Hc Hm He Hs Hcell.
  assert (0 <= V)%Z as HV.
  { destruct Hcell as [[H1 _] _]. etrans; [|exact H1].
    pose proof (pow2_pos (e + scale) Hs). apply Z.mul_nonneg_nonneg; [lia|]. apply Z.mul_nonneg_nonneg; lia. }
  destruct (binary_round_aux_packs V c m e l false Hc Hm He Hs Hcell)
    as (q & m2 & E & x & Hq & H0 & HE & Hn & Hm2 & Hp).
  by apply (packs_Rounds V c q m2 E x).
Qed.

(** ** The operations round *)

(** Numbers the arithmetic below is about: valid, finite, not below zero. *)
Definition nonneg (x : float64) : Prop := valid x /\ is_finite x = true /\ fle fzero x = true.

Lemma nonneg_sval (x : float64) : nonneg x -> (0 <= sval x)%Z.
Proof.
  intros (Hv & Hf & Hn). change 0%Z with (sval fzero). by apply fle_sval.
Qed.

Lemma Rounds_exact (x : float64) : nonneg x -> Rounds (sval x) 1 x.
Proof.
  intros (Hv & Hf & Hn). split; try done; intros z Hz Fz Hle; apply fle_sval; (done || lia).
Qed.

Lemma Rounds_scale (V c k : Z) (R : float64) :
  (0 < k)%Z -> Rounds (k * V) (k * c) R -> Rounds V c R.
Proof.
  intros Hk [Hv Hs Hl Hg]. split; try done; intros z Hz Fz H; [apply Hl|apply Hg]; try done;
    rewrite <- Z.mul_assoc; by apply Z.mul_le_mono_nonneg_l; [lia|].
Qed.

Lemma shl_align_spec (m : positive) (e e' : Z) :
  let r := shl_align m e e' in
  (r.2 = Z.min e e' /\ Z.pos r.1 = Z.pos m * 2 ^ (e - r.2))%Z.
Proof.
  unfold shl_align. destruct (e' - e)%Z as [|d|d] eqn:Hd; cbv zeta; cbn [fst snd].
  - split; [lia|]. rewrite Z.sub_diag. lia.
  - split; [lia|]. rewrite Z.sub_diag. lia.
  - split; [lia|]. change (Pos.iter xO m d) with (Zpower.shift_pos d m).
    rewrite Zpower.shift_pos_correct, Z.mul_comm. change (Z.pow_pos 2 d) with (2 ^ Z.pos d)%Z.
    do 2 f_equal. lia.
Qed.

Lemma Zdigits2_shift (m n : Z) : (0 < m)%Z -> (0 <= n)%Z -> Zdigits2 (m * 2 ^ n) = (Zdigits2 m + n)%Z.
Proof.
  intros Hm Hn. pose proof (pow2_pos n Hn). rewrite !Zdigits2_log2 by nia.
  rewrite Z.log2_mul_pow2 by lia. lia.
Qed.

Lemma cell_exact (m e : Z) : (0 <= e + scale)%Z -> cell (m * 2 ^ (e + scale)) 1 m e true.
Proof. intros Hs. pose proof (pow2_pos (e + scale) Hs). unfold cell. lia. Qed.

Lemma binary_normalize_Rounds (m e : Z) (s : bool) :
  (0 < m)%Z -> (-1074 <= e)%Z -> Rounds (m * 2 ^ (e + scale)) 1 (binary_normalize 53 1024 m e s).
Proof.
  intros Hm He. destruct m as [|m|m]; try lia. unfold binary_normalize, binary_round.
  pose proof (shl_align_spec m e (fexp 53 1024 (Z.pos (digits2_pos m) + e))) as [H2 H1]. cbv zeta in *.
  destruct (shl_align m e _) as [mz ez]. cbn [fst snd] in *.
  rewrite fexp_eq in H2. change (Z.pos (digits2_pos m)) with (Zdigits2 (Z.pos m)) in H2.
  assert (-1074 <= ez)%Z by (unfold fexp64 in H2; lia).
  assert (Z.pos m * 2 ^ (e + scale) = Z.pos mz * 2 ^ (ez + scale))%Z as ->.
  { rewrite H1, <- Z.mul_assoc, <- pow2_split by (unfold scale; lia). do 2 f_equal. lia. }
  apply binary_round_aux_Rounds; [lia|lia| |unfold scale; lia|apply cell_exact; unfold scale; lia].
  rewrite H1, Zdigits2_shift by lia. unfold fexp64 in *. lia.
Qed.

Lemma fadd_Rounds (x y : float64) : nonneg x -> nonneg y -> Rounds (sval x + sval y) 1 (fadd x y).
Proof.
  intros Hx Hy. pose proof Hx as (Vx & Fx & Nx). pose proof Hy as (Vy & Fy & Ny).
  destruct x as [sx|[]| |[] m1 e1]; try done.
  - assert (sval (S754_zero sx) + sval y = sval y)%Z as -> by by cbn; lia.
    destruct y as [sy|[]| |[] m2 e2]; try done; [|by apply Rounds_exact].
    destruct sx, sy; (exact (Rounds_exact (S754_zero false) Hx) || exact (Rounds_exact (S754_zero false) Hy) ||
      exact (Rounds_exact (S754_zero true) Hx)).
  - destruct y as [sy|[]| |[] m2 e2]; try done.
    + rewrite Z.add_0_r. by apply Rounds_exact.
    + unfold fadd, SFadd. cbn [cond_Zopp].
      pose proof (valid_range _ _ _ Vx) as [Hx1 _]. pose proof (valid_range _ _ _ Vy) as [Hy1 _].
      destruct (shl_align_spec m1 e1 (Z.min e1 e2)) as [E1 M1].
      destruct (shl_align_spec m2 e2 (Z.min e1 e2)) as [E2 M2].
      cbv zeta in *. rewrite E1 in M1. rewrite E2 in M2.
      set (a := (shl_align m1 e1 _).1) in *. set (b := (shl_align m2 e2 _).1) in *.
      replace (sval _ + sval _)%Z with ((Z.pos a + Z.pos b) * 2 ^ (Z.min e1 e2 + scale))%Z.
      * apply binary_normalize_Rounds; lia.
      * cbn [sval cond_Zopp]. rewrite M1, M2, Z.mul_add_distr_r, <- !Z.mul_assoc, <- !pow2_split by (unfold scale; lia).
        do 3 f_equal; lia.
Qed.

Lemma product_grid (m1 m2 : positive) (e1 e2 : Z) (s1 s2 : bool) :
  valid (S754_finite s1 m1 e1) -> valid (S754_finite s2 m2 e2) ->
  (e1 + e2 <= fexp64 (Zdigits2 (Z.pos (m1 * m2)) + (e1 + e2)))%Z.
Proof.
  rewrite !valid_finite. unfold fexp64. intros [H1 B1] [H2 B2]. rewrite Zdigits2_log2, Pos2Z.inj_mul by lia.
  pose proof (Z.log2_mul_below (Z.pos m1) (Z.pos m2) ltac:(lia) ltac:(lia)).
  pose proof (Z.log2_nonneg (Z.pos m1)). pose proof (Z.log2_nonneg (Z.pos m2)). lia.
Qed.

Lemma fmul_Rounds (x y : float64) :
  nonneg x -> nonneg y -> Rounds (sval x * sval y) (2 ^ scale) (fmul x y).
Proof.
  intros Hx Hy. pose proof Hx as (Vx & Fx & Nx). pose proof Hy as (Vy & Fy & Ny).
  assert (forall s, Rounds 0 (2 ^ scale) (S754_zero s)) as Hz.
  { intros s.
    pose proof (pow2_pos scale ltac:(unfold scale; lia)).
    split; try done; intros z Vz Fz Hle.
    - assert (0 <= sval z)%Z by nia. by apply fle_sval.
    - assert (sval z <= 0)%Z by nia. by apply fle_sval. }
  destruct x as [sx|[]| |[] m1 e1]; try done; [destruct y as [sy|[]| |[] m2 e2]; try done; apply Hz|].
  destruct y as [sy|[]| |[] m2 e2]; try done; [rewrite Z.mul_0_r; apply Hz|].
  pose proof (valid_range _ _ _ Vx) as [Hx1 _]. pose proof (valid_range _ _ _ Vy) as [Hy1 _].
  unfold fmul, SFmul. cbn [xorb sval cond_Zopp].
  apply binary_round_aux_Rounds; [apply pow2_pos; unfold scale; lia|lia| |unfold scale; lia|].
  - exact (product_grid _ _ _ _ _ _ Vx Vy).
  - replace (Z.pos m1 * 2 ^ (e1 + scale) * (Z.pos m2 * 2 ^ (e2 + scale)))%Z
      with (2 ^ scale * (Z.pos (m1 * m2) * 2 ^ (e1 + e2 + scale)))%Z.
    + pose proof (cell_exact (Z.pos (m1 * m2)) (e1 + e2) ltac:(unfold scale; lia)) as [[H1 H2] H3].
      pose proof (pow2_pos scale ltac:(unfold scale; lia)).
      unfold cell. cbn [negb loc_inexact]. rewrite !Z.mul_1_l in *. split; [|done]. split; [lia|].
      apply Z.mul_lt_mono_pos_l; lia.
    + rewrite Pos2Z.inj_mul.
      transitivity (Z.pos m1 * Z.pos m2 * (2 ^ scale * 2 ^ (e1 + e2 + scale)))%Z; [ring|].
      transitivity (Z.pos m1 * Z.pos m2 * (2 ^ (e1 + scale) * 2 ^ (e2 + scale)))%Z; [|ring].
      f_equal. rewrite <- !pow2_split by (unfold scale; lia). f_equal. lia.
Qed.

(** The quotient of two mantissas, with its remainder as the location. *)
Lemma div_core_spec (m1 m2 : positive) (e1 e2 : Z) :
  let D := (Zdigits2 (Z.pos m1) + e1 - (Zdigits2 (Z.pos m2) + e2))%Z in
  let e := Z.min (fexp64 D) (e1 - e2) in
  let M := (Z.pos m1 * 2 ^ (e1 - e2 - e))%Z in
  SFdiv_core_binary 53 1024 (Z.pos m1) e1 (Z.pos m2) e2 =
    ((M / Z.pos m2)%Z, e, new_location (Z.pos m2) (M mod Z.pos m2)).
Proof.
  cbv zeta. unfold SFdiv_core_binary. rewrite fexp_eq.
  set (e := Z.min _ (e1 - e2)). assert (0 <= e1 - e2 - e)%Z as Hs by lia.
  destruct (e1 - e2 - e)%Z as [|p|p] eqn:Ep; [|clear Hs|lia].
  - rewrite Z.mul_1_r. unfold Z.div, Z.modulo. by destruct (Z.div_eucl _ _).
  - rewrite Z.shiftl_mul_pow2 by lia. unfold Z.div, Z.modulo. by destruct (Z.div_eucl _ _).
Qed.

Lemma new_location_exact (n r : Z) : loc_inexact (new_location n r) = negb (r =? 0)%Z.
Proof.
  unfold new_location, new_location_even, new_location_odd.
  by destruct (Z.even n), (r =? 0)%Z.
Qed.

Lemma quotient_grid (m1 m2 : positive) (e1 e2 : Z) :
  let D := (Zdigits2 (Z.pos m1) + e1 - (Zdigits2 (Z.pos m2) + e2))%Z in
  let e := Z.min (fexp64 D) (e1 - e2) in
  let q := (Z.pos m1 * 2 ^ (e1 - e2 - e) / Z.pos m2)%Z in
  (e <= fexp64 (Zdigits2 q + e))%Z.
Proof.
  cbv zeta. set (D := (_ - _)%Z). set (e := Z.min (fexp64 D) (e1 - e2)).
  assert (0 <= e1 - e2 - e)%Z as Hs by lia. set (s := (e1 - e2 - e)%Z) in *.
  pose proof (Zdigits2_bounds (Z.pos m1) ltac:(lia)) as [B1 _].
  pose proof (Zdigits2_bounds (Z.pos m2) ltac:(lia)) as [_ B2].
  set (d1 := Zdigits2 (Z.pos m1)) in *. set (d2 := Zdigits2 (Z.pos m2)) in *.
  assert (1 <= d1 /\ 1 <= d2)%Z as [P1 P2].
  { unfold d1, d2. rewrite !Zdigits2_log2 by lia.
    pose proof (Z.log2_nonneg (Z.pos m1)). pose proof (Z.log2_nonneg (Z.pos m2)). lia. }
  set (q := (_ / _)%Z).
  assert (d1 + s - d2 <= Zdigits2 q)%Z as Hq.
  { destruct (Z.le_gt_cases (d1 + s - d2) 0) as [Hle|Hgt].
    - etrans; [exact Hle|]. destruct q as [|p|p]; [done|..]; unfold Zdigits2; lia.
    - assert (2 ^ (d1 + s - d2 - 1) <= q)%Z as Hp.
      { apply Z.div_le_lower_bound; [lia|].
        etrans; [|apply Z.mul_le_mono_nonneg_r; [apply Z.pow_nonneg; lia|exact B1]].
        rewrite <- pow2_split by lia.
        etrans; [apply Z.mul_le_mono_nonneg_r; [apply Z.pow_nonneg; lia|apply Z.lt_le_incl; exact B2]|].
        rewrite <- pow2_split by lia. apply Z.pow_le_mono_r; lia. }
      pose proof (Zdigits2_ge q (d1 + s - d2 - 1) ltac:(lia) Hp). lia. }
  unfold s, e, D, fexp64 in *. lia.
Qed.

(** The cell of a quotient of mantissas. *)
Lemma div_core_round (m1 m2 : positive) (e1 e2 : Z) :
  (-1074 <= e1 <= 971)%Z -> (-1074 <= e2 <= 971)%Z ->
  let D := (Zdigits2 (Z.pos m1) + e1 - (Zdigits2 (Z.pos m2) + e2))%Z in
  let e := Z.min (fexp64 D) (e1 - e2) in
  let M := (Z.pos m1 * 2 ^ (e1 - e2 - e))%Z in
  let V := (Z.pos m1 * 2 ^ (e1 + scale) * 2 ^ scale)%Z in
  let c := (Z.pos m2 * 2 ^ (e2 + scale))%Z in
  let l := new_location (Z.pos m2) (M mod Z.pos m2) in
  (0 < c /\ 0 <= M / Z.pos m2 /\ e <= fexp64 (Zdigits2 (M / Z.pos m2) + e) /\ 0 <= e + scale)%Z /\
  cell V c (M / Z.pos m2) e (negb (loc_inexact l)).
Proof.
  intros Hx1 Hy1. pose proof (quotient_grid m1 m2 e1 e2) as Hg. cbv zeta in *.
  set (e := Z.min (fexp64 _) (e1 - e2)) in *.
  assert (0 <= e + scale)%Z as Hes by (unfold e, fexp64, scale; lia).
  set (M := (Z.pos m1 * 2 ^ (e1 - e2 - e))%Z) in *.
  assert (0 <= M)%Z as HM by (apply Z.mul_nonneg_nonneg; [lia|apply Z.pow_nonneg; lia]).
  pose proof (Z.div_mod M (Z.pos m2) ltac:(lia)) as Hdm.
  pose proof (Z.mod_pos_bound M (Z.pos m2) ltac:(lia)) as Hr.
  set (u := (2 ^ (e + scale))%Z). set (w := (2 ^ (e2 + scale))%Z) in *.
  assert (0 < w)%Z by (apply pow2_pos; unfold scale; lia).
  assert (0 < u)%Z by (apply pow2_pos; lia).
  split; [split; [by apply Z.mul_pos_pos|]; split; [apply Z.div_pos; lia|done]|].
  assert (Z.pos m1 * 2 ^ (e1 + scale) * 2 ^ scale = M * w * u)%Z as ->.
  { unfold M, w, u. rewrite <- !Z.mul_assoc, <- !pow2_split by (unfold scale in *; lia).
    do 2 f_equal. lia. }
  rewrite new_location_exact, negb_involutive. unfold cell. fold u.
  set (q := (M / Z.pos m2)%Z) in *. set (r := (M mod Z.pos m2)%Z) in *.
  replace (Z.pos m2 * w * (q * u))%Z with ((M - r) * (w * u))%Z by (rewrite Hdm; ring).
  replace (Z.pos m2 * w * ((q + 1) * u))%Z with ((M - r + Z.pos m2) * (w * u))%Z by (rewrite Hdm; ring).
  rewrite <- (Z.mul_assoc M w u). assert (0 < w * u)%Z by (by apply Z.mul_pos_pos).
  split; [split|].
  - apply Z.mul_le_mono_nonneg_r; lia.
  - apply Z.mul_lt_mono_pos_r; lia.
  - destruct (Z.eqb_spec r 0) as [->|]; [by rewrite Z.sub_0_r|]. apply Z.mul_lt_mono_pos_r; lia.
Qed.

Lemma fdiv_Rounds (x y : float64) :
  nonneg x -> nonneg y -> (0 < sval y)%Z -> Rounds (sval x * 2 ^ scale) (sval y) (fdiv x y).
Proof.
  intros Hx Hy Hp. pose proof Hx as (Vx & Fx & Nx). pose proof Hy as (Vy & Fy & Ny).
  pose proof (pow2_pos scale ltac:(unfold scale; lia)) as Hsc.
  destruct y as [sy|[]| |[] m2 e2]; try done. destruct x as [sx|[]| |[] m1 e1]; try done.
  - change (sval (S754_zero sx) * 2 ^ scale)%Z with 0%Z.
    split; try done; intros z Vz Fz Hle.
    + assert (0 <= sval z)%Z by nia. by apply fle_sval.
    + assert (sval z <= 0)%Z by nia. by apply fle_sval.
  - pose proof (valid_range _ _ _ Vx) as [Hx1 _]. pose proof (valid_range _ _ _ Vy) as [Hy1 _].
    unfold fdiv, SFdiv. rewrite div_core_spec. cbn [xorb].
    destruct (div_core_round m1 m2 e1 e2 Hx1 Hy1) as [(Hc & Hq & Hg & Hs) Hcell].
    by apply binary_round_aux_Rounds.
Qed.

(** ** Validity of every result *)

Lemma packs_valid (m2 E : Z) (s : bool) (R : float64) : packs m2 E s R -> valid R /\ is_nan R = false.
Proof. destruct R; cbn; [done|done|done|]. by intros (_ & ? & _). Qed.

Lemma binary_round_aux_valid (V c m e : Z) (l : location) (s : bool) :
  (0 < c)%Z -> (0 <= m)%Z -> (e <= fexp64 (Zdigits2 m + e))%Z -> (0 <= e + scale)%Z ->
  cell V c m e (negb (loc_inexact l)) ->
  valid (binary_round_aux 53 1024 s m e l) /\ is_nan (binary_round_aux 53 1024 s m e l) = false.
Proof.
  intros Hc Hm He Hs Hcell.
  destruct (binary_round_aux_packs V c m e l s Hc Hm He Hs Hcell) as (q & m2 & E & x & _ & _ & _ & _ & _ & Hp).
  by eapply packs_valid.
Qed.

Lemma binary_round_valid (s : bool) (m : positive) (e : Z) :
  (-1074 <= e)%Z -> valid (binary_round 53 1024 s m e).
Proof.
  intros He. unfold binary_round.
  pose proof (shl_align_spec m e (fexp 53 1024 (Z.pos (digits2_pos m) + e))) as [H2 H1]. cbv zeta in *.
  destruct (shl_align m e _) as [mz ez]. cbn [fst snd] in *.
  rewrite fexp_eq in H2. change (Z.pos (digits2_pos m)) with (Zdigits2 (Z.pos m)) in H2.
  assert (-1074 <= ez)%Z by (unfold fexp64 in H2; lia).
  apply (binary_round_aux_valid (Z.pos mz * 2 ^ (ez + scale)) 1);
    [lia|lia| |unfold scale; lia|apply cell_exact; unfold scale; lia].
  rewrite H1, Zdigits2_shift by lia. unfold fexp64 in *. lia.
Qed.

Lemma binary_normalize_valid (m e : Z) (s : bool) :
  (-1074 <= e)%Z -> valid (binary_normalize 53 1024 m e s).
Proof. intros He. destruct m; [done|..]; by apply binary_round_valid. Qed.

Lemma fofZ_valid (n : Z) : valid (fofZ n).
Proof. by apply binary_normalize_valid. Qed.

Lemma fadd_valid (x y : float64) : valid x -> valid y -> valid (fadd x y).
Proof.
  intros Hx Hy. destruct x as [[]|[]| |s1 m1 e1], y as [[]|[]| |s2 m2 e2]; try done.
  apply valid_range in Hx, Hy. apply binary_normalize_valid. lia.
Qed.

Lemma fsub_valid (x y : float64) : valid x -> valid y -> valid (fsub x y).
Proof.
  intros Hx Hy. destruct x as [[]|[]| |s1 m1 e1], y as [[]|[]| |s2 m2 e2]; try done.
  apply valid_range in Hx, Hy. apply binary_normalize_valid. lia.
Qed.

Lemma fmul_finite_valid (s1 s2 : bool) (m1 m2 : positive) (e1 e2 : Z) :
  valid (S754_finite s1 m1 e1) -> valid (S754_finite s2 m2 e2) ->
  let R := fmul (S754_finite s1 m1 e1) (S754_finite s2 m2 e2) in valid R /\ is_nan R = false.
Proof.
  intros Hx Hy. pose proof (product_grid _ _ _ _ _ _ Hx Hy) as Hg.
  apply valid_range in Hx, Hy. unfold fmul, SFmul. cbv zeta.
  apply (binary_round_aux_valid (Z.pos (m1 * m2) * 2 ^ (e1 + e2 + scale)) 1);
    [lia|lia|done|unfold scale; lia|apply cell_exact; unfold scale; lia].
Qed.

Lemma fmul_valid (x y : float64) : valid x -> valid y -> valid (fmul x y).
Proof.
  intros Hx Hy. destruct x as [|[]| |s1 m1 e1], y as [|[]| |s2 m2 e2]; try done.
  by apply fmul_finite_valid.
Qed.

Lemma fdiv_valid (x y : float64) : valid x -> valid y -> valid (fdiv x y).
Proof.
  intros Hx Hy. destruct x as [|[]| |s1 m1 e1], y as [|[]| |s2 m2 e2]; try done.
  apply valid_range in Hx as [Hx _], Hy as [Hy _].
  unfold fdiv, SFdiv. rewrite div_core_spec.
  destruct (div_core_round m1 m2 e1 e2 Hx Hy) as [(Hc & Hq & Hg & Hs) Hcell].
  by eapply binary_round_aux_valid.
Qed.

(** Results that are numbers. *)
Lemma fsub_not_nan (x y : float64) :
  is_nan x = false -> is_nan y = false -> is_finite x || is_finite y = true -> is_nan (fsub x y) = false.
Proof.
  intros Hx Hy Hf. destruct x as [[]|[]| |s1 m1 e1], y as [[]|[]| |s2 m2 e2]; try done.
  unfold fsub, SFsub. destruct (_ - _)%Z; [done|..]; apply binary_round_sign.
Qed.

Lemma fadd_not_nan (x y : float64) :
  is_nan x = false -> is_nan y = false -> is_finite x || is_finite y = true -> is_nan (fadd x y) = false.
Proof.
  intros Hx Hy Hf. destruct x as [[]|[]| |s1 m1 e1], y as [[]|[]| |s2 m2 e2]; try done.
  unfold fadd, SFadd. destruct (_ + _)%Z; [done|..]; apply binary_round_sign.
Qed.

Lemma fmul_not_nan (x y : float64) :
  is_nan x = false -> is_finite y = true -> feq y fzero = false -> is_nan (fmul x y) = false.
Proof.
  intros Hx Hy H0. destruct x as [[]|[]| |s1 m1 e1], y as [[]|[]| |s2 m2 e2]; try done;
    apply binary_round_aux_sign; lia.
Qed.

Lemma fmul_not_nan_fin (x y : float64) :
  is_finite x = true -> is_finite y = true -> is_nan (fmul x y) = false.
Proof.
  intros Hx Hy. destruct x as [[]|[]| |s1 m1 e1], y as [[]|[]| |s2 m2 e2]; try done;
    apply binary_round_aux_sign; lia.
Qed.

Lemma fdiv_not_nan (x y : float64) :
  is_nan x = false -> is_finite y = true -> feq y fzero = false -> is_nan (fdiv x y) = false.
Proof.
  intros Hx Hy H0. destruct x as [[]|[]| |s1 m1 e1], y as [[]|[]| |s2 m2 e2]; try done;
    unfold fdiv, SFdiv; pose proof (fdiv_core_nonneg m1 m2 e1 e2) as Hq;
    destruct (SFdiv_core_binary _ _ _ _ _ _) as [[q e'] l]; by apply binary_round_aux_sign.
Qed.

(** A valid number is finite below a finite bound. *)
Lemma finite_between (x lo hi : float64) :
  fle lo x = true -> fle x hi = true -> is_finite lo = true -> is_finite hi = true -> is_finite x = true.
Proof. by destruct x as [|[]| |], lo as [|[]| |], hi as [|[]| |]. Qed.

Lemma Rounds_not_nan (V c : Z) (R : float64) : Rounds V c R -> is_nan R = false.
Proof. intros [_ H _ _]. by destruct R. Qed.

Lemma Rounds_nonneg (V c : Z) (R hi : float64) :
  Rounds V c R -> fle R hi = true -> is_finite hi = true -> nonneg R.
Proof.
  intros [Hv Hs _ _] Hh Hf. split; [done|]. split; [|done]. by eapply (finite_between R fzero hi).
Qed.

(** An exact value that is a double is the result. *)
Lemma valid_key_eq (x y : float64) :
  key_eq x y -> is_nan x = false -> is_nan y = false -> feq x fzero = false -> x = y.
Proof.
  destruct x as [[]|[]| |[] m e], y as [[]|[]| |[] n f]; unfold key_eq; cbn; intros (H1 & H2 & H3) Hx Hy H0;
    try done; try (injection H3 as ->); f_equal; lia.
Qed.

Lemma Rounds_double (V c : Z) (R z : float64) :
  Rounds V c R -> V = (c * sval z)%Z -> valid z -> is_finite z = true -> feq z fzero = false -> R = z.
Proof.
  intros HR -> Hv Hf Hz. pose proof (Rounds_not_nan _ _ _ HR). destruct HR as [_ _ Hl Hg].
  specialize (Hl z Hv Hf ltac:(lia)). specialize (Hg z Hv Hf ltac:(lia)).
  symmetry. apply valid_key_eq; [|by destruct z|done|done]. forder.
Qed.

(** The usual steps: a share, a product with a share, a sum. *)
Lemma sval_one : sval fone = (2 ^ scale)%Z.
Proof. by vm_compute. Qed.

Lemma fdiv_le_one (x y : float64) :
  nonneg x -> nonneg y -> flt fzero y = true -> fle x y = true ->
  nonneg (fdiv x y) /\ fle (fdiv x y) fone = true.
Proof.
  intros Hx Hy Hp Hle.
  assert (0 < sval y)%Z as Hp' by (change 0%Z with (sval fzero); apply flt_sval; try done; apply Hy).
  assert (sval x <= sval y)%Z as Hle' by (apply fle_sval; try done; first [apply Hx|apply Hy]).
  pose proof (fdiv_Rounds x y Hx Hy Hp') as HR.
  assert (fle (fdiv x y) fone = true) as H1.
  { apply (Rounds_le _ _ _ HR); try done. rewrite sval_one. apply Z.mul_le_mono_nonneg_r; [|done].
    apply Z.pow_nonneg. lia. }
  split; [by eapply Rounds_nonneg|done].
Qed.

Lemma fmul_le (x y z : float64) :
  nonneg x -> nonneg y -> nonneg z -> (sval x * sval y <= 2 ^ scale * sval z)%Z ->
  nonneg (fmul x y) /\ fle (fmul x y) z = true.
Proof.
  intros Hx Hy Hz Hle. pose proof (fmul_Rounds x y Hx Hy) as HR.
  assert (fle (fmul x y) z = true) as H1 by (apply (Rounds_le _ _ _ HR); [apply Hz..|done]).
  split; [|done]. eapply Rounds_nonneg; [done|done|apply Hz].
Qed.

Lemma fmul_le_l (x y : float64) :
  nonneg x -> nonneg y -> fle y fone = true -> nonneg (fmul x y) /\ fle (fmul x y) x = true.
Proof.
  intros Hx Hy Hle. apply fmul_le; try done.
  assert (sval y <= 2 ^ scale)%Z by (rewrite <- sval_one; apply fle_sval; try done; apply Hy).
  pose proof (nonneg_sval x Hx). rewrite (Z.mul_comm (2 ^ scale)). by apply Z.mul_le_mono_nonneg_l.
Qed.

Lemma fadd_le (x y z : float64) :
  nonneg x -> nonneg y -> nonneg z -> (sval x + sval y <= sval z)%Z ->
  nonneg (fadd x y) /\ fle (fadd x y) z = true.
Proof.
  intros Hx Hy Hz Hle. pose proof (fadd_Rounds x y Hx Hy) as HR.
  assert (fle (fadd x y) z = true) as H1 by (apply (Rounds_le _ _ _ HR); [apply Hz..|lia]).
  split; [|done]. eapply Rounds_nonneg; [done|done|apply Hz].
Qed.

Lemma fadd_ge_l (x y : float64) : nonneg x -> nonneg y -> fle x (fadd x y) = true.
Proof.
  intros Hx Hy. apply (Rounds_ge _ _ _ (fadd_Rounds x y Hx Hy)); [apply Hx..|].
  pose proof (nonneg_sval y Hy). lia.
Qed.

Lemma one_mul (x : float64) : nonneg x -> flt fzero x = true -> fmul fone x = x.
Proof.
  intros Hx Hp. eapply Rounds_double; [by apply fmul_Rounds| |apply Hx|apply Hx|].
  - by rewrite sval_one.
  - forder.
Qed.

(** ** The sign of a difference *)

Lemma binary_normalize_nonpos (m e : Z) : (m <= 0)%Z -> fle (binary_normalize 53 1024 m e false) fzero = true.
Proof.
  intros H. destruct m as [|p|p]; [done|lia|]. cbn [binary_normalize].
  destruct (binary_round_sign true p e) as [Hn Hs].
  by destruct (binary_round 53 1024 true p e) as [[]|[]| |[] ? ?].
Qed.

Lemma binary_normalize_nonneg (m e : Z) : (0 <= m)%Z -> fle fzero (binary_normalize 53 1024 m e false) = true.
Proof.
  intros H. destruct (decide (m = 0)%Z) as [->|]; [done|].
  apply has_sign_nonneg, binary_normalize_pos. lia.
Qed.

Lemma sval_aligned (s : bool) (m : positive) (e e' : Z) :
  (e' <= e)%Z -> (0 <= e' + scale)%Z ->
  sval (S754_finite s m e) = (cond_Zopp s (Z.pos (shl_align m e e').1) * 2 ^ (e' + scale))%Z.
Proof.
  intros He Hs. destruct (shl_align_spec m e e') as [E M]. cbv zeta in *.
  rewrite E in M. replace (Z.min e e') with e' in M by lia.
  assert (Z.pos m * 2 ^ (e + scale) = Z.pos (shl_align m e e').1 * 2 ^ (e' + scale))%Z as Hv.
  { rewrite M, <- Z.mul_assoc, <- pow2_split by lia. do 2 f_equal. lia. }
  cbn [sval]. rewrite Hv. destruct s; cbn [cond_Zopp]; lia.
Qed.

Lemma sval_zero_sign (s : bool) (m : positive) (e : Z) :
  valid (S754_finite s m e) -> if s then (sval (S754_finite s m e) < 0)%Z else (0 < sval (S754_finite s m e))%Z.
Proof. intros H%mag_pos. destruct s; cbn [sval cond_Zopp]; lia. Qed.

Lemma fsub_sign (x y : float64) :
  valid x -> valid y -> is_finite x = true -> is_finite y = true ->
  ((sval x <= sval y)%Z -> fle (fsub x y) fzero = true) /\
  ((sval y <= sval x)%Z -> fle fzero (fsub x y) = true).
Proof.
  intros Vx Vy Fx Fy.
  destruct x as [sx|[]| |sx m1 e1], y as [sy|[]| |sy m2 e2]; try done.
  - by destruct sx, sy.
  - apply sval_zero_sign in Vy. destruct sy; cbn -[sval Z.lt Z.le] in *; change (sval (S754_zero sx)) with 0%Z;
      split; intros; (done || lia).
  - apply sval_zero_sign in Vx. destruct sx; cbn -[sval Z.lt Z.le] in *; change (sval (S754_zero sy)) with 0%Z;
      split; intros; (done || lia).
  - apply valid_range in Vx as [Hx _], Vy as [Hy _].
    rewrite (sval_aligned sx m1 e1 (Z.min e1 e2)), (sval_aligned sy m2 e2 (Z.min e1 e2)) by (unfold scale; lia).
    pose proof (pow2_pos (Z.min e1 e2 + scale) ltac:(unfold scale; lia)) as Hp.
    unfold fsub, SFsub. split; intros H; apply Z.mul_le_mono_pos_r in H; try done.
    + apply binary_normalize_nonpos. lia.
    + apply binary_normalize_nonneg. lia.
Qed.

Lemma fsub_nonpos (x y : float64) :
  valid x -> valid y -> is_finite x = true -> is_finite y = true ->
  fle x y = true -> fle (fsub x y) fzero = true.
Proof. intros Vx Vy Fx Fy H. apply fsub_sign; try done. by apply fle_sval. Qed.

Lemma fsub_nonneg (x y : float64) :
  valid x -> valid y -> is_finite x = true -> is_finite y = true ->
  fle y x = true -> fle fzero (fsub x y) = true.
Proof. intros Vx Vy Fx Fy H. apply fsub_sign; try done. by apply fle_sval. Qed.

Lemma fsub_zero_r (x : float64) : flt fzero x = true -> fsub x fzero = x.
Proof. by destruct x as [[]|[]| |[] ? ?]. Qed.

Lemma fdiv_nonpos (x y : float64) :
  fle x fzero = true -> flt fzero y = true -> is_finite y = true -> fle (fdiv x y) fzero = true.
Proof.
  destruct x as [[]|[]| |[] m e], y as [[]|[]| |[] n f]; cbn -[SFdiv]; intros Hx Hy Hf; try done.
  unfold fdiv, SFdiv. pose proof (fdiv_core_nonneg m n e f) as Hq.
  destruct (SFdiv_core_binary _ _ _ _ _ _) as [[q e'] l].
  destruct (binary_round_aux_sign true q e' l Hq) as [Hn Hs]. cbn [xorb].
  by destruct (binary_round_aux _ _ _ _ _ _) as [[]|[]| |[] ? ?].
Qed.

Lemma fdiv_nonneg_inf (x y : float64) :
  fle fzero x = true -> flt fzero y = true -> is_finite y = true -> fle fzero (fdiv x y) = true.
Proof.
  intros Hx Hy Hf. destruct (is_finite x) eqn:E; [by apply fdiv_nonneg|].
  by destruct x as [|[]| |], y as [|[]| |[] ? ?].
Qed.

Lemma fmul_nonpos (x y : float64) :
  fle x fzero = true -> flt fzero y = true -> is_finite y = true -> fle (fmul x y) fzero = true.
Proof.
  destruct x as [[]|[]| |[] m e], y as [[]|[]| |[] n f]; cbn -[SFmul]; intros Hx Hy Hf; try done.
  unfold fmul, SFmul.
  destruct (binary_round_aux_sign true (Z.pos (m * n)) (e + f) loc_Exact ltac:(lia)) as [Hn Hs]. cbn [xorb].
  by destruct (binary_round_aux _ _ _ _ _ _) as [[]|[]| |[] ? ?].
Qed.

Lemma fdiv_self (x : float64) : nonneg x -> flt fzero x = true -> fdiv x x = fone.
Proof.
  intros Hx Hp. eapply Rounds_double; [apply fdiv_Rounds; try done| |done|done|done].
  - change 0%Z with (sval fzero). apply flt_sval; try done; apply Hx.
  - by rewrite sval_one.
Qed.

Lemma fmin_valid (x y : float64) : valid x -> valid y -> valid (fmin x y).
Proof. intros Hx Hy. unfold fmin. repeat case_match; (exact Hx || exact Hy || reflexivity). Qed.

Lemma fmax_valid (x y : float64) : valid x -> valid y -> valid (fmax x y).
Proof. intros Hx Hy. unfold fmax. repeat case_match; (exact Hx || exact Hy || reflexivity). Qed.

Lemma fmax_finite (x y : float64) :
  is_finite x = true -> is_finite y = true -> is_finite (fmax x y) = true.
Proof. by destruct x as [[]|[]| |[] ? ?], y as [[]|[]| |[] ? ?]; intros; unfold fmax; cbn; repeat case_match. Qed.

(** A clamp to [lo, hi] of a number is in the interval. *)
Lemma clamp_between (x lo hi : float64) :
  is_nan x = false -> fle lo hi = true ->
  fle lo (fmin hi (fmax lo x)) = true /\ fle (fmin hi (fmax lo x)) hi = true.
Proof.
  intros Hx Hlh. assert (is_nan lo = false /\ is_nan hi = false) as [Hl Hh] by forder.
  split; [apply fmin_glb; [done|by apply fmax_ge_l]|]. apply fmin_le_l; [done|by apply fmax_not_nan].
Qed.

(** A number a meter can read: valid and finite, of any sign. *)
Definition real (x : float64) : Prop := valid x /\ is_finite x = true.

Lemma nonneg_real (x : float64) : nonneg x -> real x.
Proof. by intros (? & ? & ?). Qed.

Lemma real_pos_nonneg (x : float64) : real x -> flt fzero x = true -> nonneg x.
Proof. intros [Hv Hf] H. split; [done|]. split; [done|]. forder. Qed.

(** ** Integers are exact *)

Definition exact_int (n : Z) : Prop := (0 <= n < 2 ^ 53)%Z.

(** An integer of 53 bits, times or divided by a power of two, is a double. *)
Lemma dyadic_double (n k : Z) :
  (0 < n < 2 ^ 53)%Z -> (-900 <= k <= 1000)%Z ->
  exists z, nonneg z /\ sval z = (n * 2 ^ (scale - k))%Z /\ feq z fzero = false.
Proof.
  intros Hn Hk. set (d := Zdigits2 n).
  assert (1 <= d <= 53)%Z as Hd.
  { unfold d. split; [rewrite Zdigits2_log2 by lia; pose proof (Z.log2_nonneg n); lia|]. apply Zdigits2_le; lia. }
  assert (0 < n * 2 ^ (53 - d))%Z as Hm by (apply Z.mul_pos_pos; [lia|apply pow2_pos; lia]).
  destruct (n * 2 ^ (53 - d))%Z as [|m|m] eqn:Em; try lia.
  set (z := S754_finite false m (d - 53 - k)).
  assert (Z.log2 (Z.pos m) = 52)%Z as Hl.
  { rewrite <- Em. rewrite Z.log2_mul_pow2 by lia. unfold d in *. rewrite Zdigits2_log2 in * by lia. lia. }
  assert (valid z) as Vz by (apply valid_finite; rewrite Hl; unfold fexp64; lia).
  exists z. split; [done|]. split; [|done].
  cbn [sval z cond_Zopp]. rewrite <- Em, <- Z.mul_assoc, <- pow2_split by (unfold scale; lia).
  do 2 f_equal. lia.
Qed.

Lemma fofZ_exact (n : Z) :
  (0 < n < 2 ^ 53)%Z -> nonneg (fofZ n) /\ sval (fofZ n) = (n * 2 ^ scale)%Z /\ feq (fofZ n) fzero = false.
Proof.
  intros Hn. destruct (dyadic_double n 0 Hn ltac:(lia)) as (z & Nz & Sz & Fz). rewrite Z.sub_0_r in Sz.
  assert (fofZ n = z) as ->; [|done].
  eapply Rounds_double; [apply (binary_normalize_Rounds n 0 false); lia| |apply Nz|apply Nz|done].
  rewrite Sz. by rewrite Z.mul_1_l.
Qed.

Lemma fofZ_sval (n : Z) : exact_int n -> nonneg (fofZ n) /\ sval (fofZ n) = (n * 2 ^ scale)%Z.
Proof.
  intros H. destruct (decide (n = 0)%Z) as [->|Hne]; [done|].
  destruct (fofZ_exact n) as (? & ? & _); [unfold exact_int in H; lia|done].
Qed.

Lemma fadd_int (a b : Z) :
  exact_int a -> exact_int b -> exact_int (a + b) -> fadd (fofZ a) (fofZ b) = fofZ (a + b).
Proof.
  intros Ha Hb Hc. destruct (decide (a + b = 0)%Z) as [H0|H0].
  { assert (a = 0 /\ b = 0)%Z as [-> ->] by (unfold exact_int in *; lia). done. }
  destruct (fofZ_sval a Ha) as [Na Sa], (fofZ_sval b Hb) as [Nb Sb].
  destruct (fofZ_exact (a + b)) as (Nc & Sc & Hz); [unfold exact_int in *; lia|].
  eapply Rounds_double; [by apply fadd_Rounds| |apply Nc|apply Nc|done]. rewrite Sa, Sb, Sc. ring.
Qed.

Lemma fmul_int (a b : Z) :
  exact_int a -> exact_int b -> exact_int (a * b) -> fmul (fofZ a) (fofZ b) = fofZ (a * b).
Proof.
  intros Ha Hb Hc. destruct (fofZ_sval a Ha) as [Na Sa], (fofZ_sval b Hb) as [Nb Sb].
  destruct (decide (a = 0)%Z) as [->|Ha0].
  { change (0 * b)%Z with 0%Z. change (fofZ 0) with fzero in *. destruct (decide (b = 0)%Z) as [->|Hb0]; [done|].
    destruct (fofZ_exact b) as ((_ & F & N) & _ & Hz); [unfold exact_int in *; lia|].
    by destruct (fofZ b) as [[]|[]| |[] ? ?]. }
  destruct (decide (b = 0)%Z) as [->|Hb0].
  { rewrite Z.mul_0_r. change (fofZ 0) with fzero.
    destruct (fofZ_exact a) as ((_ & F & N) & _ & Hz); [unfold exact_int in *; lia|].
    by destruct (fofZ a) as [[]|[]| |[] ? ?]. }
  destruct (fofZ_exact (a * b)) as (Nc & Sc & Hz); [unfold exact_int in *; nia|].
  eapply Rounds_double; [by apply fmul_Rounds| |apply Nc|apply Nc|done]. rewrite Sa, Sb, Sc. ring.
Qed.

(** *** Truncation *)

Lemma floor_mag_sval (m : positive) (e : Z) :
  (-1074 <= e)%Z -> floor_mag m e = (Z.pos m * 2 ^ (e + scale) / 2 ^ scale)%Z.
Proof.
  intros He. unfold floor_mag. pose proof (pow2_pos scale ltac:(unfold scale; lia)).
  destruct (Z.leb_spec 0 e).
  - rewrite pow2_split, Z.mul_assoc, Z.div_mul by (unfold scale in *; lia). done.
  - pose proof (pow2_pos (e + scale) ltac:(unfold scale; lia)).
    replace (2 ^ scale)%Z with (2 ^ (- e) * 2 ^ (e + scale))%Z.
    + rewrite Z.div_mul_cancel_r; [done|apply Z.pow_nonzero; lia|lia].
    + rewrite <- pow2_split by (unfold scale; lia). f_equal. lia.
Qed.

Lemma int_of_float_spec (x : float64) (n : Z) :
  nonneg x -> fle x (fofZ n) = true -> exact_int n ->
  int_of_float x = (sval x / 2 ^ scale)%Z /\ (0 <= int_of_float x <= n)%Z.
Proof.
  intros Hx Hle Hn. pose proof Hx as (Vx & Fx & Px). destruct (fofZ_sval n Hn) as [Nn Sn].
  assert (sval x <= n * 2 ^ scale)%Z as Hs by (rewrite <- Sn; apply fle_sval; try done; apply Nn).
  pose proof (nonneg_sval x Hx) as H0. pose proof (pow2_pos scale ltac:(unfold scale; lia)) as Hp.
  assert (0 <= sval x / 2 ^ scale <= n)%Z as Hd.
  { split; [apply Z.div_pos; lia|]. apply Z.div_le_upper_bound; lia. }
  assert (int_of_float x = sval x / 2 ^ scale)%Z as ->; [|done].
  destruct x as [s|s| |[] m e]; [|discriminate Fx|discriminate Fx|discriminate Px|].
  { change (sval (S754_zero s)) with 0%Z. rewrite Z.div_0_l by lia. reflexivity. }
  apply valid_range in Vx as [He _]. cbn [int_of_float sval cond_Zopp] in *.
  rewrite floor_mag_sval by lia. unfold exact_int, int64_min, int64_max in *.
  destruct (Z.leb_spec (- 2 ^ 63) (Z.pos m * 2 ^ (e + scale) / 2 ^ scale)); [|lia].
  destruct (Z.leb_spec (Z.pos m * 2 ^ (e + scale) / 2 ^ scale) (2 ^ 63 - 1)); [done|lia].
Qed.

Lemma int_of_float_int (n : Z) : exact_int n -> int_of_float (fofZ n) = n.
Proof.
  intros Hn. destruct (fofZ_sval n Hn) as [Nn Sn].
  destruct (int_of_float_spec (fofZ n) n Nn (fle_refl _ (fofZ_not_nan n)) Hn) as [-> _].
  rewrite Sn. apply Z.div_mul. unfold scale. by apply Z.pow_nonzero.
Qed.

(** [int64(math.Round(x))] of a number between 0 and [n] is too. *)
Lemma round_mag_sval (m : positive) (e : Z) :
  (-1074 <= e)%Z ->
  round_mag m e = ((2 * (Z.pos m * 2 ^ (e + scale)) + 2 ^ scale) / (2 * 2 ^ scale))%Z.
Proof.
  intros He. unfold round_mag. pose proof (pow2_pos scale ltac:(unfold scale; lia)) as Hp.
  destruct (Z.leb_spec 0 e).
  - rewrite pow2_split by (unfold scale in *; lia).
    replace (2 * (Z.pos m * (2 ^ e * 2 ^ scale)) + 2 ^ scale)%Z
      with ((Z.pos m * 2 ^ e) * (2 * 2 ^ scale) + 2 ^ scale)%Z by ring.
    rewrite Z.div_add_l by lia. rewrite (Z.div_small (2 ^ scale)) by lia. lia.
  - pose proof (pow2_pos (e + scale) ltac:(unfold scale; lia)) as Hq.
    assert (2 ^ scale = 2 ^ (- e) * 2 ^ (e + scale))%Z as Hs
      by (rewrite <- pow2_split by (unfold scale; lia); f_equal; lia).
    pose proof (pow2_pos (- e) ltac:(lia)) as Hr.
    replace (2 * (Z.pos m * 2 ^ (e + scale)) + 2 ^ scale)%Z
      with ((2 * Z.pos m + 2 ^ (- e)) * 2 ^ (e + scale))%Z by (rewrite Hs; ring).
    replace (2 * 2 ^ scale)%Z with ((2 * 2 ^ (- e)) * 2 ^ (e + scale))%Z by (rewrite Hs; ring).
    rewrite Z.div_mul_cancel_r by lia. done.
Qed.

Lemma round_between (x : float64) (n : Z) :
  nonneg x -> fle x (fofZ n) = true -> exact_int n ->
  int_of_float (fround x) = ((2 * sval x + 2 ^ scale) / (2 * 2 ^ scale))%Z /\
  (0 <= int_of_float (fround x) <= n)%Z.
Proof.
  intros Hx Hle Hn. pose proof Hx as (Vx & Fx & Px). destruct (fofZ_sval n Hn) as [Nn Sn].
  assert (sval x <= n * 2 ^ scale)%Z as Hs by (rewrite <- Sn; apply fle_sval; try done; apply Nn).
  pose proof (nonneg_sval x Hx) as H0. pose proof (pow2_pos scale ltac:(unfold scale; lia)) as Hp.
  assert (0 <= (2 * sval x + 2 ^ scale) / (2 * 2 ^ scale) <= n)%Z as Hd.
  { split; [apply Z.div_pos; lia|]. apply Z.lt_succ_r, Z.div_lt_upper_bound; lia. }
  assert (int_of_float (fround x) = (2 * sval x + 2 ^ scale) / (2 * 2 ^ scale))%Z as ->; [|done].
  destruct x as [s|s| |[] m e]; [|discriminate Fx|discriminate Fx|discriminate Px|].
  - cbn [fround int_of_float sval]. rewrite Z.mul_0_r, Z.add_0_l. symmetry. apply Z.div_small. lia.
  - apply valid_range in Vx as [He _]. cbn [fround sval cond_Zopp with_sign] in *.
    rewrite <- round_mag_sval in * by lia. apply int_of_float_int. unfold exact_int in *. lia.
Qed.

(** [int64(math.Ceil(x))]. *)
Lemma ceil_mag_sval (m : positive) (e : Z) :
  (-1074 <= e)%Z -> ceil_mag m e = (- (- (Z.pos m * 2 ^ (e + scale)) / 2 ^ scale))%Z.
Proof.
  intros He. unfold ceil_mag. pose proof (pow2_pos scale ltac:(unfold scale; lia)).
  destruct (Z.leb_spec 0 e).
  - rewrite pow2_split, Z.mul_assoc, <- Z.mul_opp_l, Z.div_mul by (unfold scale in *; lia). lia.
  - pose proof (pow2_pos (e + scale) ltac:(unfold scale; lia)).
    replace (2 ^ scale)%Z with (2 ^ (- e) * 2 ^ (e + scale))%Z.
    + rewrite <- Z.mul_opp_l, Z.div_mul_cancel_r; [done|apply Z.pow_nonzero; lia|lia].
    + rewrite <- pow2_split by (unfold scale; lia). f_equal. lia.
Qed.

Lemma ceil_between (x : float64) (n : Z) :
  nonneg x -> fle x (fofZ n) = true -> exact_int n ->
  int_of_float (fceil x) = (- (- sval x / 2 ^ scale))%Z.
Proof.
  intros Hx Hle Hn. pose proof Hx as (Vx & Fx & Px). destruct (fofZ_sval n Hn) as [Nn Sn].
  assert (sval x <= n * 2 ^ scale)%Z as Hs by (rewrite <- Sn; apply fle_sval; try done; apply Nn).
  pose proof (nonneg_sval x Hx) as H0. pose proof (pow2_pos scale ltac:(unfold scale; lia)) as Hp.
  assert (0 <= - (- sval x / 2 ^ scale) <= n)%Z as Hd.
  { assert (- n <= - sval x / 2 ^ scale)%Z by (apply Z.div_le_lower_bound; lia).
    assert (- sval x / 2 ^ scale <= 0)%Z by (apply Z.div_le_upper_bound; lia). lia. }
  destruct x as [s|s| |[] m e]; [|discriminate Fx|discriminate Fx|discriminate Px|].
  - cbn [fceil int_of_float sval]. by rewrite Z.opp_0, Z.div_0_l by lia.
  - apply valid_range in Vx as [He _]. cbn [fceil sval cond_Zopp with_sign] in *.
    rewrite <- ceil_mag_sval in * by lia. apply int_of_float_int. unfold exact_int in *. lia.
Qed.

(** The ceiling of a quotient of integers in doubles is the exact one, for
    the divisors and sizes where a fraction cannot round up to an integer. *)
Lemma ceil_quotient (a b : Z) :
  (0 <= a < 2 ^ 45)%Z -> (0 < b <= 128)%Z ->
  int_of_float (fceil (fdiv (fofZ a) (fofZ b))) = (- (- a / b))%Z.
Proof.
  intros Ha Hb. destruct (fofZ_sval a) as [Na Sa]; [unfold exact_int; lia|].
  destruct (fofZ_exact b) as (Nb & Sb & _); [lia|]. pose proof (pow2_pos scale ltac:(unfold scale; lia)) as Hp.
  set (k := (- (- a / b))%Z). assert (b * (k - 1) < a <= b * k)%Z as Hk.
  { pose proof (Z.mul_div_le (- a) b ltac:(lia)). pose proof (Z.mul_succ_div_gt (- a) b ltac:(lia)). unfold k. lia. }
  assert (0 <= k)%Z as H0 by nia. assert (k < 2 ^ 45 + 1)%Z as Hk45 by nia.
  pose proof (fdiv_Rounds (fofZ a) (fofZ b) Na Nb ltac:(rewrite Sb; nia)) as HR. rewrite Sa, Sb in HR.
  set (x := fdiv (fofZ a) (fofZ b)) in *. destruct (fofZ_sval k) as [Nk Sk]; [unfold exact_int; lia|].
  assert (fle x (fofZ k) = true) as Hle by (apply (Rounds_le _ _ _ HR); [apply Nk..|rewrite Sk; nia]).
  pose proof (Rounds_nonneg _ _ _ _ HR Hle ltac:(apply Nk)) as Nx.
  rewrite (ceil_between x k Nx Hle) by (unfold exact_int; lia).
  assert (sval x <= k * 2 ^ scale)%Z as Hx by (rewrite <- Sk; apply fle_sval; (apply Nx || apply Nk || done)).
  assert (k = 0 \/ 0 < k)%Z as [->|Hpos] by lia.
  { pose proof (nonneg_sval x Nx). replace (sval x) with 0%Z by lia. by rewrite Z.opp_0, Z.div_0_l by lia. }
  destruct (dyadic_double (128 * (k - 1) + 1) 7) as (z & Nz & Sz & _); [lia..|].
  assert (2 ^ scale = 128 * 2 ^ (scale - 7))%Z as Es.
  { change 128%Z with (2 ^ 7)%Z. rewrite <- pow2_split by (unfold scale; lia). f_equal. }
  pose proof (pow2_pos (scale - 7) ltac:(unfold scale; lia)) as Hq.
  assert (fle z x = true) as Hz.
  { apply (Rounds_ge _ _ _ HR); [apply Nz..|]. rewrite Sz. rewrite !Es.
    assert (b * (128 * (k - 1) + 1) <= 128 * a)%Z by nia. nia. }
  assert (sval z <= sval x)%Z as Hzx by (apply fle_sval; (apply Nx || apply Nz || done)). rewrite Sz in Hzx.
  assert (- sval x / 2 ^ scale = - k)%Z as ->; [|lia]. symmetry.
  apply (Z.div_unique _ _ _ (k * 2 ^ scale - sval x)); [|ring]. left. nia.
Qed.

(** A positive duration is a positive number of seconds. *)
Lemma duration_seconds_pos (d : Z) : (0 < d <= int64_max)%Z -> fle (duration_seconds d) fzero = false.
Proof.
  intros Hd. unfold duration_seconds, int64_max in *. rewrite Z.quot_div_nonneg, Z.rem_mod_nonneg by lia.
  set (q := (d / 1000000000)%Z). set (r := (d mod 1000000000)%Z).
  assert (d = 1000000000 * q + r /\ 0 <= r < 1000000000)%Z as [Ed Hr].
  { split; [apply Z.div_mod; lia|apply Z.mod_pos_bound; lia]. }
  destruct (fofZ_sval q) as [Nq Sq]; [unfold exact_int; nia|]. destruct (fofZ_sval r) as [Nr Sr]; [unfold exact_int; lia|].
  destruct (fofZ_exact 1000000000) as (Ng & Sg & _); [lia|]. pose proof (pow2_pos scale ltac:(unfold scale; lia)) as Hp.
  pose proof (fdiv_Rounds _ _ Nr Ng ltac:(rewrite Sg; nia)) as HR. rewrite Sr, Sg in HR.
  assert (nonneg (fdiv (fofZ r) (fofZ 1000000000))) as Nf.
  { apply (Rounds_nonneg _ _ _ fone HR); [|done]. apply (Rounds_le _ _ _ HR); [done..|]. rewrite sval_one. nia. }
  pose proof (fadd_Rounds _ _ Nq Nf) as HA. set (x := fdiv _ _) in *.
  assert (exists z, nonneg z /\ (0 < sval z)%Z /\ (sval z <= sval (fofZ q) + sval x)%Z) as (z & Nz & Pz & Lz).
  { pose proof (nonneg_sval x Nf). destruct (decide (q = 0)%Z) as [Hq|Hq].
    - destruct (dyadic_double 1 30) as (z & Nz & Sz & _); [lia..|]. exists z. rewrite Sz.
      pose proof (pow2_pos (scale - 30) ltac:(unfold scale; lia)). split; [done|]. split; [lia|].
      assert (fle z x = true) as Hz.
      { apply (Rounds_ge _ _ _ HR); [apply Nz..|]. rewrite Sz.
        assert (2 ^ scale = 2 ^ 30 * 2 ^ (scale - 30))%Z as -> by (rewrite <- pow2_split by (unfold scale; lia); f_equal).
        nia. }
      apply fle_sval in Hz; [|apply Nz|apply Nf..|apply Nz|apply Nf]. rewrite Sz in Hz. rewrite Sq. nia.
    - exists (fofZ q). rewrite Sq. split; [done|]. nia. }
  assert (fle z (fadd (fofZ q) x) = true) as Hz by (apply (Rounds_ge _ _ _ HA); [apply Nz..|lia]).
  assert (flt fzero z = true) as Hpos by (apply flt_sval; (apply Nz || done)).
  forder.
Qed.

(** ** Sums and differences of any sign *)

Lemma fadd_Rounds_pos (x y : float64) :
  real x -> real y -> (0 < sval x + sval y)%Z -> Rounds (sval x + sval y) 1 (fadd x y).
Proof.
  intros [Vx Fx] [Vy Fy] Hp.
  assert (forall z, valid z -> is_finite z = true -> (0 < sval z)%Z -> Rounds (sval z) 1 z) as Hone.
  { intros z V F P. apply Rounds_exact. split; [done|]. split; [done|]. apply flt_fle.
    change 0%Z with (sval fzero) in P. by apply flt_sval. }
  destruct x as [sx|sx| |sx m1 e1]; [|discriminate Fx|discriminate Fx|];
    destruct y as [sy|sy| |sy m2 e2]; try discriminate Fy.
  - cbn in Hp. lia.
  - change (sval (S754_zero sx)) with 0%Z in *. rewrite Z.add_0_l in *. by apply Hone.
  - change (sval (S754_zero sy)) with 0%Z in *. rewrite Z.add_0_r in *. by apply Hone.
  - apply valid_range in Vx as [Hx _], Vy as [Hy _].
    rewrite (sval_aligned sx m1 e1 (Z.min e1 e2)), (sval_aligned sy m2 e2 (Z.min e1 e2)) in * by (unfold scale; lia).
    rewrite <- Z.mul_add_distr_r in *.
    pose proof (pow2_pos (Z.min e1 e2 + scale) ltac:(unfold scale; lia)) as Hq.
    apply binary_normalize_Rounds; [|lia]. by apply Z.mul_pos_cancel_r in Hp.
Qed.

Lemma fadd_nonpos (x y : float64) :
  real x -> real y -> (sval x + sval y <= 0)%Z -> fle (fadd x y) fzero = true.
Proof.
  intros [Vx Fx] [Vy Fy] Hp.
  assert (forall z, valid z -> is_finite z = true -> (sval z <= 0)%Z -> fle z fzero = true) as Hone.
  { intros z V F P. change 0%Z with (sval fzero) in P. by apply fle_sval. }
  destruct x as [sx|sx| |sx m1 e1]; [|discriminate Fx|discriminate Fx|];
    destruct y as [sy|sy| |sy m2 e2]; try discriminate Fy.
  - by destruct sx, sy.
  - change (sval (S754_zero sx)) with 0%Z in *. rewrite Z.add_0_l in *. by apply Hone.
  - change (sval (S754_zero sy)) with 0%Z in *. rewrite Z.add_0_r in *. by apply Hone.
  - apply valid_range in Vx as [Hx _], Vy as [Hy _].
    rewrite (sval_aligned sx m1 e1 (Z.min e1 e2)), (sval_aligned sy m2 e2 (Z.min e1 e2)) in * by (unfold scale; lia).
    rewrite <- Z.mul_add_distr_r in *.
    pose proof (pow2_pos (Z.min e1 e2 + scale) ltac:(unfold scale; lia)) as Hq.
    unfold fadd, SFadd. apply binary_normalize_nonpos.
    destruct (Z.le_gt_cases (cond_Zopp sx (Z.pos (shl_align m1 e1 (Z.min e1 e2)).1) +
      cond_Zopp sy (Z.pos (shl_align m2 e2 (Z.min e1 e2)).1)) 0); [done|].
    pose proof (Z.mul_pos_pos _ _ H Hq). lia.
Qed.

(** A number at most an integer, minus infinity included. *)
Definition at_most (n : Z) (x : float64) : Prop := valid x /\ fle x (fofZ n) = true.

Lemma at_most_not_nan (n : Z) (x : float64) : at_most n x -> is_nan x = false.
Proof. intros [_ H]. by destruct x. Qed.

Lemma at_most_cases (n : Z) (x : float64) : exact_int n -> at_most n x -> x = S754_infinity true \/ real x.
Proof.
  intros Hn [V H]. destruct (fofZ_sval n Hn) as [(_ & F & _) _].
  destruct x as [s|[]| |s m e]; [by right|by left| | |by right]; by destruct (fofZ n).
Qed.

Lemma at_most_sval (n : Z) (x : float64) : exact_int n -> at_most n x -> real x -> (sval x <= n * 2 ^ scale)%Z.
Proof.
  intros Hn [V H] [_ F]. destruct (fofZ_sval n Hn) as [(Vn & Fn & _) <-]. by apply fle_sval.
Qed.

Lemma fadd_at_most (a b : Z) (x y : float64) :
  exact_int a -> exact_int b -> exact_int (a + b) -> at_most a x -> at_most b y ->
  at_most (a + b) (fadd x y).
Proof.
  intros Ea Eb Eab Hx Hy. pose proof (fofZ_sval (a + b) Eab) as [Nab Sab].
  split; [apply fadd_valid; [apply Hx|apply Hy]|].
  assert (fle fzero (fofZ (a + b)) = true) as H0 by apply Nab.
  destruct (at_most_cases a x Ea Hx) as [->|Rx], (at_most_cases b y Eb Hy) as [->|Ry].
  - cbn. by destruct (fofZ (a + b)) as [|[]| |].
  - destruct y as [s|s| |s m e]; [|by destruct Ry|by destruct Ry|]; cbn; by destruct (fofZ (a + b)) as [|[]| |].
  - destruct x as [s|s| |s m e]; [|by destruct Rx|by destruct Rx|]; cbn; by destruct (fofZ (a + b)) as [|[]| |].
  - pose proof (at_most_sval a x Ea Hx Rx). pose proof (at_most_sval b y Eb Hy Ry).
    destruct (Z.le_gt_cases (sval x + sval y) 0) as [Hle|Hgt].
    + eapply fle_trans; [by apply fadd_nonpos|done].
    + apply (Rounds_le _ _ _ (fadd_Rounds_pos x y Rx Ry Hgt)); [apply Nab|apply Nab|]. rewrite Sab. lia.
Qed.

(** A product of a number at most [n] with a positive factor. *)
Lemma fmul_at_most (a b : Z) (x f : float64) :
  exact_int a -> exact_int b -> at_most a x -> nonneg f -> flt fzero f = true ->
  (a * sval f <= b * 2 ^ scale)%Z -> at_most b (fmul x f).
Proof.
  intros Ea Eb Hx Hf Pf Hle. destruct (fofZ_sval b Eb) as [Nb Sb]. pose proof Hf as (Vf & Ff & _).
  split; [apply fmul_valid; [apply Hx|done]|].
  destruct (at_most_cases a x Ea Hx) as [->|Rx].
  { destruct f as [|[]| |[] m e]; try done. cbn. destruct Nb as (_ & F & _). by destruct (fofZ b) as [|[]| |]. }
  destruct (fle x fzero) eqn:E.
  - eapply fle_trans; [by apply fmul_nonpos|apply Nb].
  - assert (nonneg x) as Nx.
    { apply real_pos_nonneg; [done|]. destruct Rx as [_ F]. by destruct x as [|[]| |[]]. }
    apply fmul_le; [done|done|done|]. rewrite Sb. pose proof (at_most_sval a x Ea Hx Rx) as Hs.
    pose proof (nonneg_sval f Hf) as H0.
    transitivity (a * 2 ^ scale * sval f)%Z; [by apply Z.mul_le_mono_nonneg_r|].
    replace (a * 2 ^ scale * sval f)%Z with (2 ^ scale * (a * sval f))%Z by ring.
    apply Z.mul_le_mono_nonneg_l; [|done]. apply Z.pow_nonneg. lia.
Qed.

Lemma at_most_mono (a b : Z) (x : float64) : fle (fofZ a) (fofZ b) = true -> at_most a x -> at_most b x.
Proof. intros H [V Hx]. split; [done|]. by eapply fle_trans. Qed.

Lemma fsub_le_l (x y : float64) : real x -> nonneg y -> fle fzero x = true -> fle (fsub x y) x = true.
Proof.
  intros [Vx Fx] (Vy & Fy & Py) Px.
  destruct x as [sx|sx| |[] m1 e1]; [|discriminate Fx|discriminate Fx|discriminate Px|];
    destruct y as [sy|sy| |[] m2 e2]; try discriminate Fy; try discriminate Py; try (by apply fle_refl).
  - by destruct sx, sy.
  - by destruct sx.
  - pose proof (mag_pos _ _ _ Vx) as P1. pose proof (mag_pos _ _ _ Vy) as P2.
    pose proof Vx as Vx'. apply valid_range in Vx' as [Hx _], Vy as [Hy _].
    pose proof (sval_aligned false m1 e1 (Z.min e1 e2) ltac:(lia) ltac:(unfold scale; lia)) as S1.
    pose proof (sval_aligned false m2 e2 (Z.min e1 e2) ltac:(lia) ltac:(unfold scale; lia)) as S2.
    pose proof (pow2_pos (Z.min e1 e2 + scale) ltac:(unfold scale; lia)) as Hq.
    unfold fsub, SFsub. cbn [cond_Zopp] in *.
    set (a := Z.pos (shl_align m1 e1 _).1) in *. set (b := Z.pos (shl_align m2 e2 _).1) in *.
    destruct (Z.le_gt_cases (a - b) 0) as [Hle|Hgt].
    + eapply fle_trans; [by apply binary_normalize_nonpos|done].
    + apply (Rounds_le _ _ _ (binary_normalize_Rounds (a - b) (Z.min e1 e2) false ltac:(lia) ltac:(lia)));
        [done|done|]. rewrite S1, Z.mul_1_l. apply Z.mul_le_mono_nonneg_r; lia.
Qed.

Lemma fneg_le (a b : float64) : is_nan a = false -> is_nan b = false -> fle a b = true -> fle (fneg b) (fneg a) = true.
Proof.
  intros Ha Hb H. rewrite fle_iff in *. unfold key_lt, key_eq in *.
  destruct a as [[]|[]| |[] m e], b as [[]|[]| |[] n f]; try discriminate Ha; try discriminate Hb;
    cbn in *; (split; [done|]); (split; [done|]); lia.
Qed.

(** ** How far rounding moves a value *)

(** A value between two neighbours of a grid of 53-bit multiples is rounded to
    a number between them. *)
Lemma Rounds_near (V c n g : Z) (R : float64) :
  (0 < c)%Z -> (0 <= n < 2 ^ 53 - 1)%Z -> (0 <= g <= 900)%Z ->
  (c * (n * 2 ^ (scale + g)) <= V <= c * ((n + 1) * 2 ^ (scale + g)))%Z -> Rounds V c R ->
  nonneg R /\ (n * 2 ^ (scale + g) <= sval R <= (n + 1) * 2 ^ (scale + g))%Z.
Proof.
  intros Hc Hn Hg HV HR.
  destruct (dyadic_double (n + 1) (- g) ltac:(lia) ltac:(lia)) as (hi & Nhi & Shi & _).
  rewrite Z.sub_opp_r in Shi.
  assert (exists lo, nonneg lo /\ sval lo = n * 2 ^ (scale + g))%Z as (lo & Nlo & Slo).
  { destruct (decide (n = 0)%Z) as [->|Hne]; [by exists fzero|].
    destruct (dyadic_double n (- g) ltac:(lia) ltac:(lia)) as (lo & Nlo & Slo & _). rewrite Z.sub_opp_r in Slo. by exists lo. }
  assert (fle R hi = true) as Hhi by (apply (Rounds_le _ _ _ HR); [apply Nhi..|rewrite Shi; lia]).
  assert (fle lo R = true) as Hlo by (apply (Rounds_ge _ _ _ HR); [apply Nlo..|rewrite Slo; lia]).
  assert (nonneg R) as NR by (eapply Rounds_nonneg; [done|exact Hhi|apply Nhi]).
  split; [done|]. rewrite fle_sval in Hhi, Hlo by (first [apply NR|apply Nhi|apply Nlo]). lia.
Qed.

(** A value below [2^53] steps of the grid, and by how much rounding moves it. *)
Lemma Rounds_close (V c g : Z) (R : float64) :
  (0 < c)%Z -> (0 <= g <= 900)%Z -> (0 <= V < c * ((2 ^ 53 - 1) * 2 ^ (scale + g)))%Z -> Rounds V c R ->
  nonneg R /\ (V - c * 2 ^ (scale + g) < c * sval R < V + c * 2 ^ (scale + g))%Z /\
  (V / (c * 2 ^ (scale + g)) * 2 ^ (scale + g) <= sval R)%Z.
Proof.
  intros Hc Hg HV HR. pose proof (pow2_pos (scale + g) ltac:(unfold scale; lia)) as HG.
  set (G := (2 ^ (scale + g))%Z) in *. set (n := (V / (c * G))%Z).
  assert (0 < c * G)%Z as HcG by (by apply Z.mul_pos_pos).
  pose proof (Z.div_mod V (c * G) ltac:(lia)) as Hd. pose proof (Z.mod_pos_bound V (c * G) HcG) as Hm. fold n in Hd.
  assert (0 <= n < 2 ^ 53 - 1)%Z as Hn.
  { split; [apply Z.div_pos; lia|]. apply Z.div_lt_upper_bound; [done|]. rewrite <- Z.mul_assoc, (Z.mul_comm G). lia. }
  destruct (decide (V mod (c * G) = 0)%Z) as [E|E].
  - destruct (Rounds_near V c n g R Hc Hn Hg) as [NR [Hl Hu]]; [fold G; nia|done|]. fold G in Hl, Hu.
    assert (sval R <= n * G)%Z as Hu'.
    { destruct (decide (n = 0)%Z) as [E0|Hne].
      - assert (fle R fzero = true) as Hz by (apply (Rounds_le _ _ _ HR); [done..|]; change (sval fzero) with 0%Z; nia).
        apply fle_sval in Hz; [|apply NR|done|apply NR|done]. change (sval fzero) with 0%Z in Hz. lia.
      - destruct (dyadic_double n (- g) ltac:(lia) ltac:(lia)) as (z & Nz & Sz & _). rewrite Z.sub_opp_r in Sz. fold G in Sz.
        assert (fle R z = true) as Hz by (apply (Rounds_le _ _ _ HR); [apply Nz..|rewrite Sz; nia]).
        apply fle_sval in Hz; [lia|apply NR|apply Nz|apply NR|apply Nz]. }
    split; [done|]. split; [nia|done].
  - destruct (Rounds_near V c n g R Hc Hn Hg) as [NR [Hl Hu]]; [fold G; nia|done|]. fold G in Hl, Hu.
    split; [done|]. split; [nia|done].
Qed.

(** [math.Floor] of a number below [2^53]. *)
Lemma ffloor_int (x : float64) : nonneg x -> (sval x < 2 ^ 53 * 2 ^ scale)%Z ->
  ffloor x = fofZ (sval x / 2 ^ scale) \/ (exists s, x = S754_zero s).
Proof.
  intros Hx Hlt. destruct Hx as (Vx & Fx & Px). destruct x as [s|s| |[] m e]; try done; [right; by eexists|left].
  cbn [ffloor]. unfold with_sign. apply valid_range in Vx as [He _]. rewrite floor_mag_sval by lia. done.
Qed.
