(* ===== verification/Json.v ===== *)
(** * Values of encoding/json

    The dynamic values the components decode and build. *)

From S2P Require Import Prelude GoFloat.

#[local] Open Scope string_scope.

(** The dynamic types a decoded value can have; an object is the list of its
    members, keys distinct. [JInt] is a value a caller built in Go as an
    [int] or [int64]. *)
Inductive json :=
| JNull
| JBool (b : bool)
| JNum (x : float64)
| JInt (n : Z)
| JStr (s : string)
| JArr (l : list json)
| JObj (m : list (string * json)).

Definition asObj (v : option json) : option (list (string * json)) :=
  match v with Some (JObj m) => Some m | _ => None end.
Definition asArr (v : option json) : list json :=
  match v with Some (JArr l) => l | _ => [] end.
Definition asStr (v : option json) : string :=
  match v with Some (JStr s) => s | _ => "" end.

Fixpoint jget (m : list (string * json)) (k : string) : option json :=
  match m with
  | [] => None
  | (k', v) :: m' => if String.eqb k' k then Some v else jget m' k
  end.
