(* ===== verification/Api.v ===== *)
(** * The shared data model: pkg/api and the types other packages exchange

    The in-memory structs of pkg/api/types.go and pkg/api/governor.go, with
    the constants the components compare. Optional JSON fields that are Go
    pointers are [option]; fields no modelled component reads are left out and
    named where the type is declared. *)

From S2P Require Import Prelude GoFloat.

(** src/pkg/api/governor.go:163-166 [CPUGovernorIntent] *)
Record CPUGovernorIntent := {
  cgi_Preset : string;
  cgi_Boost : string
}.

(** src/pkg/api/governor.go:169-172 [GPUGovernorIntent] *)
Record GPUGovernorIntent := {
  ggi_Preset : string;
  ggi_ComputeClockCeilingPctOfMax : option float64
}.

(** src/pkg/api/governor.go:10-23 [CPUGovernorPresetPerformance, CPUGovernorPresetBalanced, CPUGovernorPresetEfficiency, CPUGovernorPresetValues] *)
Definition CPUGovernorPresetPerformance : string := "performance".
Definition CPUGovernorPresetBalanced : string := "balanced".
Definition CPUGovernorPresetEfficiency : string := "efficiency".
Definition CPUGovernorPresetValues : list string :=
  [CPUGovernorPresetPerformance; CPUGovernorPresetBalanced; CPUGovernorPresetEfficiency].

(** src/pkg/api/governor.go:27-33 [CPUGovernorBoostOn, CPUGovernorBoostOff, CPUGovernorBoostValues] *)
Definition CPUGovernorBoostOn : string := "on".
Definition CPUGovernorBoostOff : string := "off".
Definition CPUGovernorBoostValues : list string := [CPUGovernorBoostOn; CPUGovernorBoostOff].

(** src/pkg/api/governor.go:36-57 [GPUGovernorPresetAuto, GPUGovernorPresetSustained, GPUGovernorPresetEfficient, GPUGovernorPresetLow, GPUGovernorPresetPeak, GPUGovernorPresetValues] *)
Definition GPUGovernorPresetAuto : string := "auto".
Definition GPUGovernorPresetSustained : string := "sustained".
Definition GPUGovernorPresetEfficient : string := "efficient".
Definition GPUGovernorPresetLow : string := "low".
Definition GPUGovernorPresetPeak : string := "peak".
Definition GPUGovernorPresetValues : list string :=
  [GPUGovernorPresetAuto; GPUGovernorPresetSustained; GPUGovernorPresetEfficient;
   GPUGovernorPresetLow; GPUGovernorPresetPeak].

(** src/pkg/controller/fsm/fsm.go:26-27 [ProfilePerformance, ProfileEco] *)
Definition ProfilePerformance : string := "performance".
Definition ProfileEco : string := "eco".

(** src/pkg/api/types.go:266-269 [CapState] *)
Record CapState := { CPUPct : float64; GPUPct : float64 }.

(** src/pkg/api/types.go:95-99 [CPUCapRange] *)
Record CPUCapRange := { MinWattsPerSocket : float64; MaxWattsPerSocket : float64 }.

(** src/pkg/api/types.go:119-123 [GPUCapRange] *)
Record GPUCapRange := { gcr_MinWatts : float64; gcr_MaxWatts : float64; gcr_DefaultWatts : float64 }.

(** The CPU facts the twin, the controller manager and the scheduler read
    (vendor, landmark and warning strings play no part in any).
    src/pkg/api/types.go:72-86 [NodeHardwareCPU] *)
Record NodeHardwareCPU := {
  cpu_RawModel : string;
  cpu_Model : string;
  cpu_Sockets : Z;
  cpu_TotalCores : Z;
  cpu_CapRange : CPUCapRange
}.

(** src/pkg/api/types.go:101-117 [NodeHardwareGPU] *)
Record NodeHardwareGPU := {
  gpu_Present : bool;
  gpu_RawModel : string;
  gpu_Model : string;
  gpu_Count : Z;
  gpu_PowerDomains : Z;
  gpu_CapRange : GPUCapRange;
  gpu_ControlAvailable : bool
}.

(** src/pkg/api/types.go:61-70 [NodeHardware] *)
Record NodeHardware := {
  hw_NodeName : string;
  hw_CPU : NodeHardwareCPU;
  hw_GPU : NodeHardwareGPU
}.

(** The measured power with its breakdown, as the scheduler reads it back.
    src/pkg/api/types.go:185-195 [PowerMeasurement] *)
Record PowerMeasurement := {
  pm_Source : string;
  pm_MeasuredNodePowerW : float64;
  pm_CpuCappedPowerW : float64;
  pm_GpuCappedPowerW : float64;
  pm_NodeCappedPowerW : float64;
  pm_CpuTdpW : float64;
  pm_GpuTdpW : float64;
  pm_NodeTdpW : float64;
  pm_PowerTrendWPerMin : float64
}.

(** src/pkg/api/types.go:250-257 [ControlResult] *)
Record ControlResult := {
  cr_Backend : string;
  cr_Result : string;
  cr_Message : string;
  cr_Applied : string
}.

(** src/pkg/api/types.go:236-245 [CapResult constants] *)
Definition CapResultApplied : string := "applied".
Definition CapResultBlocked : string := "blocked".
Definition CapResultError : string := "error".
Definition CapResultNone : string := "none".

(** src/pkg/api/gpuresources.go:194-199 [GPUPowerDomains] *)
Definition GPUPowerDomains (count powerDomains : Z) : Z :=
  if ((0 <? powerDomains) && (powerDomains <? count))%Z then powerDomains else count.
