(* ===== verification/Crd.v ===== *)
(** * The custom resources as stored: api/v1alpha1

    The status and spec fields of NodeHardware and NodeTwin that the scheduler
    and the controller manager read; a JSON field behind a pointer is an
    [option], its absence nil. Times are the RFC 3339 texts of the objects. *)

From S2P Require Import Prelude GoFloat Api.

(** src/api/v1alpha1/nodehardware_types.go:129-134 [CPUCapRange] *)
Record CrdCPUCapRange := { ccr_MinWattsPerSocket : float64; ccr_MaxWattsPerSocket : float64 }.

(** A governor inventory: the presets listed by name, whether a boost control
    was found, the mechanism (GPU) and whether a baseline is kept.
    src/api/v1alpha1/nodehardware_types.go:50-75 [CPUGovernorInventory] *)
Record CrdGovernor := {
  cg_Presets : list string;
  cg_Boost : bool;
  cg_Mechanism : string;
  cg_Baseline : bool
}.

(** src/api/v1alpha1/nodehardware_types.go:30-46 [NodeHardwareCPU] *)
Record CrdCPU := {
  cc_RawModel : string;
  cc_Model : string;
  cc_Sockets : Z;
  cc_TotalCores : Z;
  cc_CapRange : option CrdCPUCapRange;
  cc_ControlAvailable : bool;
  cc_Governor : option CrdGovernor
}.

(** src/api/v1alpha1/nodehardware_types.go:145-167 [NodeHardwareGPU] *)
Record CrdGPU := {
  cgp_Present : bool;
  cgp_RawModel : string;
  cgp_Model : string;
  cgp_Vendor : string;
  cgp_Count : Z;
  cgp_PowerDomains : Z;
  cgp_CapRangePerGPU : option GPUCapRange;
  cgp_ControlAvailable : bool;
  cgp_Governor : option CrdGovernor
}.

(** src/api/v1alpha1/nodehardware_types.go:17-27 [NodeHardwareStatus] *)
Record CrdNodeHardware := {
  cnh_Name : string;
  cnh_NodeName : string;
  cnh_CPU : option CrdCPU;
  cnh_GPU : option CrdGPU;
  cnh_MemoryTotalBytes : option Z;
  cnh_QualityWarnings : option (list string);
  cnh_UpdatedAt : string
}.

(** src/api/v1alpha1/nodetwin_types.go:109-136 [NodeTwinStatus] *)
Record CrdNodeTwin := {
  cnt_NodeName : string;
  cnt_SchedulableClass : string;
  cnt_PowerMeasurement : option PowerMeasurement;
  cnt_PowerHeadroomScore : float64;
  cnt_CoolingStressScore : float64;
  cnt_PsuStressScore : float64;
  cnt_EffectiveCapState : option CapState;
  cnt_EstimatedPUE : float64;
  cnt_GPUControl : option ControlResult;
  cnt_LastUpdated : string
}.
