(* ===== verification/Hwinv.v ===== *)
(** * The hardware catalog: pkg/hwinv/catalog.go

    Power cap ranges, the normal form of a hardware model name and the lookup
    of a model in the catalog. The two regular expressions are matched by
    derivatives. The catalog's two maps are only ever ranged over, and Go
    ranges over a map in an order of its own each time: a catalog holds each
    map as the list of its entries in the order a range visits them, so a
    theorem about two ranges takes two catalogs with the same entries
    ([sameEntries]). *)

From S2P Require Import Prelude GoString GoFloat FloatFacts.

(** ** Cap ranges *)

(** src/pkg/hwinv/catalog.go:44-48 [SocketCapMinFractionOfTDP] *)
Definition SocketCapMinFractionOfTDP : float64 := flit 55 100.

(** src/pkg/hwinv/catalog.go:35-42 [CPUOfficialSpec] *)
Record CPUOfficialSpec := {
  cos_Vendor : string;
  cos_BaseGHz : float64;
  cos_BoostGHz : float64;
  cos_TDPW : float64;
  cos_CTdpRangeW : list float64;
  cos_DriverFamily : string
}.

(** src/pkg/hwinv/catalog.go:50-61 [SocketCapRangeW] *)
Definition SocketCapRangeW (o : CPUOfficialSpec) : float64 * float64 * bool :=
  if fle (cos_TDPW o) fzero then (fzero, fzero, false)
  else
    let maxW := cos_TDPW o in
    (fmul SocketCapMinFractionOfTDP maxW, maxW, true).

(** src/pkg/hwinv/catalog.go:63-75 [CapForPctW] *)
Definition CapForPctW (pct minW maxW : float64) : float64 :=
  let target := fmul (fdiv pct (fofZ 100)) maxW in
  let target := if flt target minW then minW else target in
  if flt maxW target then maxW else target.

(** src/pkg/hwinv/catalog.go:92-98 [NodeCPUCapRange] *)
Record NodeCPUCapRange := {
  ncr_Key : string;
  ncr_Sockets : Z;
  ncr_SocketMinW : float64;
  ncr_SocketMaxW : float64
}.

(** src/pkg/hwinv/catalog.go:100-102 [MinW, MaxW] *)
Definition ncr_MinW (r : NodeCPUCapRange) : float64 := fmul (ncr_SocketMinW r) (fofZ (ncr_Sockets r)).
Definition ncr_MaxW (r : NodeCPUCapRange) : float64 := fmul (ncr_SocketMaxW r) (fofZ (ncr_Sockets r)).

(** src/pkg/hwinv/catalog.go:104-107 [CapForPctW] *)
Definition ncr_CapForPctW (r : NodeCPUCapRange) (pct : float64) : float64 :=
  CapForPctW pct (ncr_MinW r) (ncr_MaxW r).

(** ** Names *)

(** Regular expressions over bytes, matched against a whole text. *)
Inductive regex :=
| REmpty
| REps
| RChar (P : ascii -> bool)
| RCat (r1 r2 : regex)
| RAlt (r1 r2 : regex)
| RStar (r : regex).

Fixpoint nullable (r : regex) : bool :=
  match r with
  | REmpty | RChar _ => false
  | REps | RStar _ => true
  | RCat r1 r2 => nullable r1 && nullable r2
  | RAlt r1 r2 => nullable r1 || nullable r2
  end.

Fixpoint deriv (a : ascii) (r : regex) : regex :=
  match r with
  | REmpty | REps => REmpty
  | RChar P => if P a then REps else REmpty
  | RCat r1 r2 =>
      if nullable r1 then RAlt (RCat (deriv a r1) r2) (deriv a r2) else RCat (deriv a r1) r2
  | RAlt r1 r2 => RAlt (deriv a r1) (deriv a r2)
  | RStar r' => RCat (deriv a r') r
  end.

Fixpoint rmatch (r : regex) (l : list ascii) : bool :=
  match l with [] => nullable r | a :: l' => rmatch (deriv a r) l' end.

Definition RPlus (r : regex) : regex := RCat r (RStar r).
Definition ROpt (r : regex) : regex := RAlt REps r.
Fixpoint RLit (s : string) : regex :=
  match s with
  | EmptyString => REps
  | String a s' => RCat (RChar (Ascii.eqb a)) (RLit s')
  end.

(** The class [\s]: tab, line feed, form feed, carriage return, space. *)
Definition is_re_space (a : ascii) : bool :=
  let b := byte_of a in ((b =? 9) || (b =? 10) || (b =? 12) || (b =? 13) || (b =? 32))%N.
Definition RSpace : regex := RChar is_re_space.
Definition is_g_or_m (a : ascii) : bool := Ascii.eqb a "g" || Ascii.eqb a "m".

(** src/pkg/hwinv/catalog.go:356-358 [cpuClockSuffixRE] *)
Definition cpuClockSuffixRE : regex :=
  RCat (ROpt (RCat (RPlus RSpace) (RLit "cpu")))
  (RCat (RPlus RSpace) (RCat (RLit "@") (RCat (RStar RSpace)
  (RCat (RPlus (RChar (fun a => is_digit a || Ascii.eqb a "."))) (RCat (RStar RSpace)
  (RCat (RChar is_g_or_m) (RCat (RLit "hz") (RStar RSpace)))))))).

(** src/pkg/hwinv/catalog.go:360-361 [cpuClockTokenRE] *)
Definition cpuClockTokenRE : regex :=
  RCat (RPlus (RChar is_digit))
  (RCat (ROpt (RCat (RLit ".") (RPlus (RChar is_digit))))
  (RCat (RChar is_g_or_m) (RLit "hz"))).

(** [re.ReplaceAllString(s, "")] of an expression anchored at the end: what
    precedes the leftmost match. *)
Fixpoint cut_suffix_match (r : regex) (l : list ascii) : list ascii :=
  if rmatch r l then []
  else match l with [] => [] | a :: l' => a :: cut_suffix_match r l' end.

(** [strings.NewReplacer(...).Replace]: at each position the first pair in
    argument order whose old text is there. *)
Fixpoint replace_fuel (fuel : nat) (pairs : list (list N * list ascii)) (l : list ascii) : list ascii :=
  match fuel, l with
  | S fuel', a :: l' =>
      match list_find (fun p => is_Some (strip_prefix p.1 l)) pairs with
      | Some (_, (old, new)) => new ++ replace_fuel fuel' pairs (drop (length old) l)
      | None => a :: replace_fuel fuel' pairs l'
      end
  | _, _ => []
  end.

Definition bytes_of (s : string) : list N := byte_of <$> list_ascii_of_string s.

Definition nameReplacer : list (list N * list ascii) :=
  [(bytes_of "(r)", []); ([194; 174]%N, []); ([226; 132; 162]%N, []);
   (bytes_of "(", [" "%char]); (bytes_of ")", [" "%char]); (bytes_of "-", [" "%char]);
   (bytes_of "_", [" "%char]); (bytes_of "/", [" "%char]); (bytes_of ",", [" "%char])].

(** [strings.Fields]: the words between runs of white space. *)
Fixpoint fields_fuel (fuel : nat) (word : list ascii) (l : list ascii) : list (list ascii) :=
  let close := if bool_decide (word = []) then [] else [rev word] in
  match fuel, l with
  | S fuel', a :: l' =>
      match strip_any space_prefixes l with
      | Some rest => close ++ fields_fuel fuel' [] rest
      | None => fields_fuel fuel' (a :: word) l'
      end
  | _, _ => close
  end.

Definition Fields (s : string) : list string :=
  let l := list_ascii_of_string s in string_of_list_ascii <$> fields_fuel (S (length l)) [] l.

(** src/pkg/hwinv/catalog.go:312-352 [normalizeName] *)
Definition normalizeName (raw : string) : string :=
  let s := ToLower (TrimSpace raw) in
  if String.eqb s "" then ""
  else
    let l := cut_suffix_match cpuClockSuffixRE (list_ascii_of_string s) in
    let s := string_of_list_ascii (replace_fuel (length l) nameReplacer l) in
    let kept := base.filter (fun tok => negb (String.eqb tok "r") && negb (String.eqb tok "tm") = true) (Fields s) in
    let kept :=
      match last kept with
      | Some tok =>
          if rmatch cpuClockTokenRE (list_ascii_of_string tok) then
            let kept := removelast kept in
            match last kept with
            | Some tok => if String.eqb tok "cpu" then removelast kept else kept
            | None => kept
            end
          else kept
      | None => kept
      end in
    Join kept " ".

Example normalizeName_ex1 :
  normalizeName "Intel(R) Xeon(R) Gold 6530 CPU @ 2.10GHz" = "intel xeon gold 6530"%string.
Proof. vm_compute. reflexivity. Qed.
Example normalizeName_ex2 :
  normalizeName "Intel-R-Xeon-R-CPU-E5-2680-v4-CPU---2.40GHz" = "intel xeon cpu e5 2680 v4"%string.
Proof. vm_compute. reflexivity. Qed.

(** ** The catalog *)

(** src/pkg/hwinv/catalog.go:27-33 [CPUModelSpec] *)
Record CPUModelSpec := {
  cms_Aliases : list string;
  cms_Provenance : string;
  cms_Official : CPUOfficialSpec;
  (** [measuredCurves.node2S.points], where both pointers are set. *)
  cms_Node2SPoints : option (list (float64 * float64))
}.

(** src/pkg/hwinv/catalog.go:158-162 [GPUOfficialSpec] *)
Record GPUOfficialSpec := {
  gos_Vendor : string;
  gos_MaxBoardPowerW : float64;
  gos_MinBoardPowerW : float64
}.

(** src/pkg/hwinv/catalog.go:150-156 [GPUModelSpec] *)
Record GPUModelSpec := {
  gms_Aliases : list string;
  gms_Provenance : string;
  gms_Official : GPUOfficialSpec
}.

(** The entries of each map, in the order a range visits them.
    src/pkg/hwinv/catalog.go:17-21 [Catalog] *)
Record Catalog := {
  CatalogVersion : string;
  CPUModels : list (string * CPUModelSpec);
  GPUModels : list (string * GPUModelSpec)
}.

(** The same maps, ranged over in another order. *)
Definition sameEntries (c c' : Catalog) : Prop :=
  CPUModels c ≡ₚ CPUModels c' /\ GPUModels c ≡ₚ GPUModels c'.

(** Whether an entry's key or one of its aliases is spelled like [needle]. *)
Definition entryMatches {A} (aliases : A -> list string) (needle : string) (e : string * A) : bool :=
  String.eqb (normalizeName e.1) needle ||
  existsb (fun alias => String.eqb (normalizeName alias) needle) (aliases e.2).

(** The loop over a map, its entries in the order [entries] of this run. *)
Definition matchEntries {A} (aliases : A -> list string) (entries : list (string * A)) (raw : string)
    : option (string * A) :=
  let needle := normalizeName raw in
  if String.eqb needle "" then None
  else snd <$> list_find (fun e => entryMatches aliases needle e = true) entries.

(** src/pkg/hwinv/catalog.go:266-287 [MatchCPU] *)
Definition MatchCPU (c : option Catalog) (raw : string) : option (string * CPUModelSpec) :=
  match c with
  | None => None
  | Some c => matchEntries cms_Aliases (CPUModels c) raw
  end.

(** src/pkg/hwinv/catalog.go:289-310 [MatchGPU] *)
Definition MatchGPU (c : option Catalog) (raw : string) : option (string * GPUModelSpec) :=
  match c with
  | None => None
  | Some c => matchEntries gms_Aliases (GPUModels c) raw
  end.

(** src/pkg/hwinv/catalog.go:164-172 [NodeDescriptor] *)
Record NodeDescriptor := {
  nd_CPUModelRaw : string;
  nd_CPUVendor : string;
  nd_CPUSockets : Z;
  nd_CPUCores : Z;
  nd_GPUModelRaw : string;
  nd_GPUVendor : string;
  nd_GPUCount : Z
}.

(** src/pkg/hwinv/catalog.go:174-180 [MatchResult] *)
Record MatchResult := {
  mr_CPU : option (string * CPUModelSpec);
  mr_GPU : option (string * GPUModelSpec);
  mr_Warnings : list string
}.

(** src/pkg/hwinv/catalog.go:240-264 [MatchNode] *)
Definition MatchNode (c : option Catalog) (desc : NodeDescriptor) : MatchResult :=
  match c with
  | None =>
      {| mr_CPU := None; mr_GPU := None;
         mr_Warnings :=
           (if negb (String.eqb (nd_CPUModelRaw desc) "") then ["catalog unavailable for cpu matching"%string] else []) ++
           (if negb (String.eqb (nd_GPUModelRaw desc) "") then ["catalog unavailable for gpu matching"%string] else []) |}
  | Some _ =>
      let cpu := MatchCPU c (nd_CPUModelRaw desc) in
      let gpu := MatchGPU c (nd_GPUModelRaw desc) in
      {| mr_CPU := cpu; mr_GPU := gpu;
         mr_Warnings :=
           (match cpu with
            | Some _ => []
            | None => if negb (String.eqb (TrimSpace (nd_CPUModelRaw desc)) "")
                      then [("cpu model not recognized: " +:+ nd_CPUModelRaw desc)%string] else []
            end) ++
           (match gpu with
            | Some _ => []
            | None => if negb (String.eqb (TrimSpace (nd_GPUModelRaw desc)) "")
                      then [("gpu model not recognized: " +:+ nd_GPUModelRaw desc)%string] else []
            end) |}
  end.

(** Why a catalog is refused, in the order of the checks on one entry. *)
Inductive CatalogError :=
| CatalogVersionRequired
| CPUKeyEmpty
| CPUTDPNotPositive (key : string)
| CPUGHzNotPositive (key : string)
| CPUCurveWithoutPoints (key : string)
| GPUKeyEmpty
| GPUBoardPowerNotPositive (key : string).

Definition checkCPU (e : string * CPUModelSpec) : option CatalogError :=
  let o := cms_Official e.2 in
  if String.eqb (TrimSpace e.1) "" then Some CPUKeyEmpty
  else if fle (cos_TDPW o) fzero then Some (CPUTDPNotPositive e.1)
  else if fle (cos_BaseGHz o) fzero || fle (cos_BoostGHz o) fzero then Some (CPUGHzNotPositive e.1)
  else if match cms_Node2SPoints e.2 with Some [] => true | _ => false end
       then Some (CPUCurveWithoutPoints e.1)
  else None.

Definition checkGPU (e : string * GPUModelSpec) : option CatalogError :=
  if String.eqb (TrimSpace e.1) "" then Some GPUKeyEmpty
  else if fle (gos_MaxBoardPowerW (gms_Official e.2)) fzero then Some (GPUBoardPowerNotPositive e.1)
  else None.

Fixpoint firstError {A} (check : A -> option CatalogError) (l : list A) : option CatalogError :=
  match l with
  | [] => None
  | e :: rest => match check e with Some err => Some err | None => firstError check rest end
  end.

(** src/pkg/hwinv/catalog.go:208-238 [ValidateCatalog] *)
Definition ValidateCatalog (c : option Catalog) : option CatalogError :=
  match c with
  | None => None
  | Some c =>
      if String.eqb (TrimSpace (CatalogVersion c)) "" then Some CatalogVersionRequired
      else match firstError checkCPU (CPUModels c) with
           | Some err => Some err
           | None => firstError checkGPU (GPUModels c)
           end
  end.

(** src/pkg/hwinv/catalog.go:363-366 [ParseIntString] *)
Definition ParseIntString (raw : string) : Z := AtoiValue (TrimSpace raw).

(** src/pkg/hwinv/catalog.go:77-90 [SimulatedNodeCPU] *)
Definition SimulatedNodeCPU (labels : gmap string string) : string * Z :=
  let fix first (keys : list string) : string :=
    match keys with
    | [] => ""%string
    | k :: rest =>
        let v := TrimSpace (get_str labels k) in
        if negb (String.eqb v "") then v else first rest
    end in
  (first ["joulie.io/hw.cpu-model"; "feature.node.kubernetes.io/cpu-model.name"]%string,
   ParseIntString (get_str labels "joulie.io/hw.cpu-sockets")).

(** Why a node has no cap range. *)
Inductive CapRangeError :=
| ModelNotInCatalog (raw : string)
| NoTDP (key : string)
| SocketsUnknown (key : string).

(** src/pkg/hwinv/catalog.go:109-129 [NodeCPUCapRangeW] *)
Definition NodeCPUCapRangeW (c : option Catalog) (rawModel : string) (sockets : Z)
    : NodeCPUCapRange + CapRangeError :=
  match MatchCPU c rawModel with
  | None => inr (ModelNotInCatalog rawModel)
  | Some (key, spec) =>
      match SocketCapRangeW (cms_Official spec) with
      | (_, _, false) => inr (NoTDP key)
      | (minW, maxW, true) =>
          if (sockets <=? 0)%Z then inr (SocketsUnknown key)
          else inl {| ncr_Key := key; ncr_Sockets := sockets; ncr_SocketMinW := minW; ncr_SocketMaxW := maxW |}
      end
  end.

(** ** Cap ranges are respected *)

Lemma CapForPctW_between (pct minW maxW : float64) :
  is_nan pct = false -> is_finite maxW = true -> flt fzero maxW = true -> fle minW maxW = true ->
  fle minW (CapForPctW pct minW maxW) = true /\ fle (CapForPctW pct minW maxW) maxW = true.
Proof.
  intros Hp Hf Hmax Hle. unfold CapForPctW.
  assert (is_nan (fmul (fdiv pct (fofZ 100)) maxW) = false) as Ht.
  { apply fmul_not_nan; [|done|forder]. by apply fdiv_not_nan. }
  set (target := fmul _ _) in *. destruct (flt target minW) eqn:E1.
  - destruct (flt maxW minW) eqn:E2; forder.
  - destruct (flt maxW target) eqn:E2; forder.
Qed.

Lemma CapForPctW_full (minW maxW : float64) :
  nonneg maxW -> flt fzero maxW = true -> fle minW maxW = true ->
  CapForPctW (fofZ 100) minW maxW = maxW.
Proof.
  intros Hm Hmax Hle. unfold CapForPctW. change (fdiv (fofZ 100) (fofZ 100)) with fone.
  rewrite one_mul by done. destruct (flt maxW minW) eqn:E; [forder|].
  by destruct (flt maxW maxW) eqn:E2; [forder|].
Qed.

(** A percent cap resolved against a cap range lies in the range whatever
    the percentage, infinities included; 100 percent is exactly the maximum;
    and inside the range the cap is the percentage of the maximum. *)
Theorem CapForPctW_correct (pct minW maxW : float64) :
  is_nan pct = false -> nonneg maxW -> flt fzero maxW = true -> fle minW maxW = true ->
  let cap := CapForPctW pct minW maxW in
  let target := fmul (fdiv pct (fofZ 100)) maxW in
  fle minW cap = true /\ fle cap maxW = true /\
  CapForPctW (fofZ 100) minW maxW = maxW /\
  (fle minW target = true -> fle target maxW = true -> cap = target).
Proof.
  intros Hp Hm Hmax Hle. cbv zeta.
  destruct (CapForPctW_between pct minW maxW) as [H1 H2]; try done; [apply Hm|].
  split; [done|]. split; [done|]. split.
  - by apply CapForPctW_full.
  - intros Ha Hb. unfold CapForPctW. set (target := fmul _ _) in *.
    destruct (flt target minW) eqn:E; [forder|]. by destruct (flt maxW target) eqn:E2; [forder|].
Qed.

Example CapForPctW_correct_witness :
  fle (fofZ 154) (CapForPctW (fofZ 60) (fofZ 154) (fofZ 280)) = true /\
  CapForPctW (fofZ 60) (fofZ 154) (fofZ 280) = fofZ 168.
Proof.
  destruct (CapForPctW_correct (fofZ 60) (fofZ 154) (fofZ 280)) as (H & _ & _ & Ht); try reflexivity.
  - by repeat split.
  - split; [exact H|]. etrans; [apply Ht; reflexivity|]. by vm_compute.
Defined.

(** ** Lookups *)

Lemma matchEntries_Some {A} (aliases : A -> list string) (l : list (string * A)) (raw : string) e :
  matchEntries aliases l raw = Some e ->
  e ∈ l /\ entryMatches aliases (normalizeName raw) e = true /\ normalizeName raw <> ""%string.
Proof.
  unfold matchEntries. destruct (String.eqb_spec (normalizeName raw) "") as [|Hn]; [done|].
  intros ([i e'] & H & Hs)%fmap_Some. cbn in Hs. subst e'.
  apply list_find_Some in H as (Hl & He & _). split; [by eapply list_elem_of_lookup_2|done].
Qed.

Lemma matchEntries_None {A} (aliases : A -> list string) (l : list (string * A)) (raw : string) :
  matchEntries aliases l raw = None <->
  normalizeName raw = ""%string \/ forall e, e ∈ l -> entryMatches aliases (normalizeName raw) e = false.
Proof.
  unfold matchEntries. destruct (String.eqb_spec (normalizeName raw) "") as [Hn|Hn]; [tauto|].
  rewrite fmap_None, list_find_None, Forall_forall. split.
  - intros H. right. intros e He. apply not_true_is_false. by apply H.
  - intros [|H]; [done|]. intros e He. rewrite H by done. done.
Qed.

(** No two entries are spelled alike, and no key is blank once normalised. *)
Definition unambiguous {A} (aliases : A -> list string) (entries : list (string * A)) : Prop :=
  (forall name e e', e ∈ entries -> e' ∈ entries ->
     entryMatches aliases name e = true -> entryMatches aliases name e' = true -> e = e') /\
  (forall e, e ∈ entries -> normalizeName e.1 <> ""%string).

Lemma matchEntries_order {A} (aliases : A -> list string) (l l' : list (string * A)) (raw : string) :
  l ≡ₚ l' ->
  (forall e e', e ∈ l -> e' ∈ l -> entryMatches aliases (normalizeName raw) e = true ->
     entryMatches aliases (normalizeName raw) e' = true -> e = e') ->
  matchEntries aliases l raw = matchEntries aliases l' raw.
Proof.
  intros Hp Hu. destruct (matchEntries aliases l' raw) as [e|] eqn:E2.
  - destruct (matchEntries aliases l raw) as [e'|] eqn:E1.
    + apply matchEntries_Some in E1 as (H1 & M1 & _), E2 as (H2 & M2 & _).
      f_equal. apply Hu; try done. by rewrite Hp.
    + apply matchEntries_Some in E2 as (H2 & M2 & Hn).
      apply matchEntries_None in E1 as [|H]; [done|]. rewrite <- Hp in H2. by rewrite H in M2.
  - apply matchEntries_None. apply matchEntries_None in E2 as [|H]; [by left|right].
    intros e He. apply H. by rewrite <- Hp.
Qed.

Lemma entryMatches_key {A} (aliases : A -> list string) (e : string * A) : entryMatches aliases (normalizeName e.1) e = true.
Proof. unfold entryMatches. by rewrite String.eqb_refl. Qed.

(** The key of a match matches the same entry, whatever the order. *)
Lemma matchEntries_key {A} (aliases : A -> list string) (l l' : list (string * A)) (raw : string) e :
  unambiguous aliases l -> l ≡ₚ l' -> matchEntries aliases l raw = Some e -> matchEntries aliases l' e.1 = Some e.
Proof.
  intros [Hu Hk] Hp (He & _ & _)%matchEntries_Some. destruct (matchEntries aliases l' e.1) as [e'|] eqn:E.
  - apply matchEntries_Some in E as (He' & Hm & _). rewrite <- Hp in He'. f_equal.
    by apply (Hu (normalizeName e.1)); [..|apply entryMatches_key].
  - apply matchEntries_None in E as [H|H]; [by destruct (Hk e He)|]. rewrite Hp in He. specialize (H e He).
    by rewrite entryMatches_key in H.
Qed.

(** The lookup of a model name does not depend on the order in which a range
    visits the catalog, provided at most one entry is spelled like the name:
    every order gives the same answer, which is an entry of the catalog whose
    key or alias has the name's normal form, and none exactly when the name
    is blank or no entry has it. *)
Theorem MatchCPU_order_independent (c c' : Catalog) (raw : string) :
  sameEntries c c' ->
  (forall e e', e ∈ CPUModels c -> e' ∈ CPUModels c ->
     entryMatches cms_Aliases (normalizeName raw) e = true ->
     entryMatches cms_Aliases (normalizeName raw) e' = true -> e = e') ->
  MatchCPU (Some c) raw = MatchCPU (Some c') raw /\
  (forall e, MatchCPU (Some c) raw = Some e ->
     e ∈ CPUModels c /\ entryMatches cms_Aliases (normalizeName raw) e = true) /\
  (MatchCPU (Some c) raw = None <->
     normalizeName raw = ""%string \/
     forall e, e ∈ CPUModels c -> entryMatches cms_Aliases (normalizeName raw) e = false).
Proof.
  intros [Hp _] Hu. cbn [MatchCPU]. split; [by apply matchEntries_order|]. split; [|apply matchEntries_None].
  intros e (He & Hm & _)%matchEntries_Some. done.
Qed.

(** Where several entries match, the answer is the run's: two orders of one
    catalog may name different models. *)
Example MatchCPU_ambiguous :
  let spec tdp := {| cms_Aliases := ["x"]; cms_Provenance := "";
    cms_Official := {| cos_Vendor := ""; cos_BaseGHz := fone; cos_BoostGHz := fone; cos_TDPW := fofZ tdp; cos_CTdpRangeW := [];
                       cos_DriverFamily := "" |}; cms_Node2SPoints := None |} in
  let catalog l := Some {| CatalogVersion := "v1"; CPUModels := l; GPUModels := [] |} in
  (fst <$> MatchCPU (catalog [("A", spec 100%Z); ("B", spec 200%Z)]) "X" = Some "A" /\
   fst <$> MatchCPU (catalog [("B", spec 200%Z); ("A", spec 100%Z)]) "X" = Some "B")%string.
Proof. vm_compute. split; reflexivity. Qed.

(** A catalog of two CPUs. *)
Definition sampleCPU (alias : string) (tdp : Z) : CPUModelSpec := {|
  cms_Aliases := [alias]; cms_Provenance := "vendor";
  cms_Official := {| cos_Vendor := "v"; cos_BaseGHz := fofZ 2; cos_BoostGHz := fofZ 3; cos_TDPW := fofZ tdp;
                     cos_CTdpRangeW := []; cos_DriverFamily := "" |};
  cms_Node2SPoints := None |}%string.

Definition sampleCatalog : Catalog := {|
  CatalogVersion := "v1";
  CPUModels := [("AMD_EPYC_9654", sampleCPU "AMD EPYC 9654 96-Core Processor" 360);
                ("INTEL_XEON_6530", sampleCPU "Intel(R) Xeon(R) Gold 6530" 270)];
  GPUModels := [] |}%string.

Definition reversedCatalog : Catalog := {|
  CatalogVersion := "v1"; CPUModels := rev (CPUModels sampleCatalog); GPUModels := [] |}%string.

Example MatchCPU_order_independent_witness :
  fst <$> MatchCPU (Some reversedCatalog) "Intel(R) Xeon(R) Gold 6530 CPU @ 2.10GHz" = Some "INTEL_XEON_6530"%string.
Proof.
  assert (sameEntries reversedCatalog sampleCatalog) as Hs by (split; [symmetry; apply Permutation_rev|done]).
  assert (forall e, e ∈ CPUModels reversedCatalog ->
    entryMatches cms_Aliases (normalizeName "Intel(R) Xeon(R) Gold 6530 CPU @ 2.10GHz") e = true ->
    e = ("INTEL_XEON_6530", sampleCPU "Intel(R) Xeon(R) Gold 6530" 270)%string) as H.
  { intros e [->|[->|[]%elem_of_nil]%elem_of_cons]%elem_of_cons Hm; [done|vm_compute in Hm; done]. }
  destruct (MatchCPU_order_independent reversedCatalog sampleCatalog "Intel(R) Xeon(R) Gold 6530 CPU @ 2.10GHz" Hs) as [-> _].
  - intros e e' He He' Hm Hm'. by rewrite (H e), (H e').
  - vm_compute. reflexivity.
Defined.
