(* ===== verification/Resources.v ===== *)
(** * GPU resource names and node object names: pkg/api/gpuresources.go

    How a device plugin's resource name says what kind of GPU unit it is and
    what share of a physical GPU it stands for, which label states a node's
    GPU count, and the object name a node's custom resources carry. Letter
    case is folded on ASCII letters. *)

From S2P Require Import Prelude GoString GoFloat Api.

#[local] Open Scope string_scope.

(** src/pkg/api/gpuresources.go:18-27 [GPUResourceWhole, GPUResourcePartition, GPUResourceShared] *)
Definition GPUResourceWhole : string := "whole".
Definition GPUResourcePartition : string := "partition".
Definition GPUResourceShared : string := "shared".

(** src/pkg/api/gpuresources.go:30-33 [migSlicesPerGPU] *)
Definition migSlicesPerGPU : Z := 7.

(** The map's lookup: 0 for a mode it does not hold.
    src/pkg/api/gpuresources.go:35-38 [amdComputePartitions] *)
Definition amdComputePartitions (compute : string) : Z :=
  if String.eqb compute "spx" then 1%Z
  else if String.eqb compute "dpx" then 2%Z
  else if String.eqb compute "tpx" then 3%Z
  else if String.eqb compute "qpx" then 4%Z
  else if String.eqb compute "cpx" then 8%Z
  else 0%Z.

(** src/pkg/api/gpuresources.go:97-115 [amdPartitionsPerGPU] *)
Definition amdPartitionsPerGPU (name : string) : Z :=
  match CutPrefix name "amd.com/" with
  | (_, false) => 0%Z
  | (rest, true) =>
      match Cut rest "_" with
      | (_, _, false) => 0%Z
      | (compute, memory, true) =>
          let '(nps, ok) := CutPrefix memory "nps" in
          if negb ok || String.eqb nps "" || negb (String.eqb (TrimChars is_digit nps) "") then 0%Z
          else amdComputePartitions compute
      end
  end.

(** [base] and [renamed]: the name trimmed and folded, without ".shared". *)
Definition sharedBase (name : string) : string * bool := CutSuffix (ToLower (TrimSpace name)) ".shared".

(** [strings.Index(base, "/") > 0]. *)
Definition slashInside (base : string) : bool :=
  match Index base "/" with Some (S _) => true | _ => false end.

(** src/pkg/api/gpuresources.go:40-61 [GPUResourceKind] *)
Definition GPUResourceKind (name : string) : string :=
  let '(base, renamed) := sharedBase name in
  let kind :=
    if String.eqb base "gpu.intel.com/i915" || String.eqb base "gpu.intel.com/xe" then GPUResourceWhole
    else if HasSuffix base "/gpu" && slashInside base then GPUResourceWhole
    else if HasPrefix base "nvidia.com/mig-" && (String.length "nvidia.com/mig-" <? String.length base)%nat
    then GPUResourcePartition
    else if (0 <? amdPartitionsPerGPU base)%Z then GPUResourcePartition
    else "" in
  if negb (String.eqb kind "") && renamed then GPUResourceShared else kind.

(** One number with a letter after it, [<n><letter>], positive. *)
Definition positiveCount (first letter : string) : option Z :=
  match CutSuffix first letter with
  | (digits, true) => v ← Atoi digits; if (0 <? v)%Z then Some v else None
  | (_, false) => None
  end.

(** src/pkg/api/gpuresources.go:117-134 [migComputeSlices] *)
Definition migComputeSlices (profile : string) : Z :=
  let '(first, rest, _) := Cut profile "." in
  let '(v, first) :=
    if (CutSuffix first "c").2
    then match positiveCount first "c" with
         | Some v => (Some v, first)
         | None => (None, (Cut rest ".").1.1)
         end
    else (None, first) in
  match v with
  | Some v => v
  | None => default 1%Z (positiveCount first "g")
  end.

(** src/pkg/api/gpuresources.go:79-95 [GPUResourceShare] *)
Definition GPUResourceShare (name : string) : float64 :=
  let base := (sharedBase name).1 in
  let kind := GPUResourceKind base in
  if String.eqb kind GPUResourceWhole then fone
  else if String.eqb kind GPUResourcePartition then
    let n := amdPartitionsPerGPU base in
    if (0 <? n)%Z then fdiv fone (fofZ n)
    else
      let slices := migComputeSlices (TrimPrefix base "nvidia.com/mig-") in
      let slices := if (migSlicesPerGPU <? slices)%Z then migSlicesPerGPU else slices in
      fdiv (fofZ slices) (fofZ migSlicesPerGPU)
  else fzero.

(** src/pkg/api/gpuresources.go:136-161 [LabelHWGPUCount, LabelGFDGPUCount, LabelGFDMIGStrategy, LabelGFDGPUProduct] *)
Definition LabelHWGPUCount : string := "joulie.io/hw.gpu-count".
Definition LabelGFDGPUCount : string := "nvidia.com/gpu.count".
Definition LabelGFDMIGStrategy : string := "nvidia.com/mig.strategy".
Definition LabelGFDGPUProduct : string := "nvidia.com/gpu.product".
Definition LabelIntelGPUDeviceCount : string := "gpu.intel.com/device.count".

(** The positive integer a label states. *)
Definition labelCount (labels : gmap string string) (key : string) : option Z :=
  v ← Atoi (TrimSpace (get_str labels key)); if (0 <? v)%Z then Some v else None.

(** src/pkg/api/gpuresources.go:163-184 [GPUCountFromLabels] *)
Definition GPUCountFromLabels (labels : gmap string string) : Z * bool :=
  match labelCount labels LabelHWGPUCount with
  | Some v => (v, true)
  | None =>
      if EqualFold (TrimSpace (get_str labels LabelGFDMIGStrategy)) "single" &&
         Contains (get_str labels LabelGFDGPUProduct) "-MIG-" then (0%Z, false)
      else match labelCount labels LabelGFDGPUCount with
           | Some v => (v, true)
           | None => match labelCount labels LabelIntelGPUDeviceCount with
                     | Some v => (v, true)
                     | None => (0%Z, false)
                     end
           end
  end.

(** src/pkg/api/gpuresources.go:201-213 [GPUProductBase] *)
Definition GPUProductBase (product : string) : string :=
  let p := TrimSuffix (TrimSpace product) "-SHARED" in
  match LastIndex p "-MIG-" with
  | Some (S i) => String.substring 0 (S i) p
  | _ => p
  end.

(** A rune the object name keeps. *)
Definition object_rune (r : option ascii) : ascii :=
  match r with
  | Some a => if is_lower a || is_digit a || is_dash a then a else "-"%char
  | None => "-"%char
  end.

(** src/pkg/api/types.go:40-55 [ObjectNameForNode] *)
Definition ObjectNameForNode (nodeName : string) : string :=
  let rs := runes (list_ascii_of_string (ToLower (TrimSpace nodeName))) in
  string_of_list_ascii (trim_list is_dash (object_rune <$> rs)).

(** ** Shares *)

Lemma amdComputePartitions_cases (c : string) : amdComputePartitions c ∈ [0; 1; 2; 3; 4; 8]%Z.
Proof. unfold amdComputePartitions. repeat case_match; by_decide. Qed.

Lemma amdPartitionsPerGPU_cases (name : string) : amdPartitionsPerGPU name ∈ [0; 1; 2; 3; 4; 8]%Z.
Proof.
  unfold amdPartitionsPerGPU. repeat case_match; try by_decide. apply amdComputePartitions_cases.
Qed.

Lemma positiveCount_pos (first letter : string) (v : Z) :
  positiveCount first letter = Some v -> (0 < v)%Z /\ in_int64 v.
Proof.
  unfold positiveCount. destruct (CutSuffix first letter) as [d []]; [|done].
  intros (w & Hw & H)%bind_Some. revert H. split_bool; [|done]. intros [= <-].
  split; [lia|by eapply Atoi_in].
Qed.

Lemma migComputeSlices_pos (profile : string) : (1 <= migComputeSlices profile)%Z.
Proof.
  unfold migComputeSlices. destruct (Cut profile ".") as [[first rest] ok].
  assert (forall f l, 1 <= default 1 (positiveCount f l))%Z as Hd.
  { intros f l. destruct (positiveCount f l) eqn:E; cbn; [|lia].
    apply positiveCount_pos in E. lia. }
  destruct ((CutSuffix first "c").2); [|apply Hd].
  destruct (positiveCount first "c") eqn:E; [|apply Hd]. apply positiveCount_pos in E. lia.
Qed.

(** The share of a MIG device of [g] of the seven slices. *)
Definition migShare (g : Z) : float64 := fdiv (fofZ (Z.min g 7)) (fofZ 7).

Definition unit_interval (x : float64) : bool := flt fzero x && fle x fone.

Lemma migShare_unit (g : Z) : (1 <= g)%Z -> unit_interval (migShare g) = true.
Proof.
  intros H. unfold migShare.
  assert (Z.min g 7 ∈ [1; 2; 3; 4; 5; 6; 7]%Z) as Hin by (rewrite !elem_of_cons; lia).
  revert Hin. generalize (Z.min g 7). intros k Hk.
  repeat (apply elem_of_cons in Hk as [->|Hk]; [by vm_compute|]). by apply not_elem_of_nil in Hk.
Qed.

Lemma amdShare_unit (name : string) : (0 < amdPartitionsPerGPU name)%Z ->
  unit_interval (fdiv fone (fofZ (amdPartitionsPerGPU name))) = true.
Proof.
  intros H. pose proof (amdPartitionsPerGPU_cases name) as Hk. revert H Hk.
  generalize (amdPartitionsPerGPU name). intros k H Hk.
  repeat (apply elem_of_cons in Hk as [->|Hk]; [try lia; by vm_compute|]).
  by apply not_elem_of_nil in Hk.
Qed.

Lemma GPUResourceShare_eq (name : string) :
  let base := (sharedBase name).1 in
  let n := amdPartitionsPerGPU base in
  GPUResourceShare name =
    (if String.eqb (GPUResourceKind base) GPUResourceWhole then fone
     else if String.eqb (GPUResourceKind base) GPUResourcePartition then
       if (0 <? n)%Z then fdiv fone (fofZ n)
       else migShare (migComputeSlices (TrimPrefix base "nvidia.com/mig-"))
     else fzero).
Proof.
  cbv zeta. unfold GPUResourceShare, migShare, migSlicesPerGPU.
  destruct (String.eqb (GPUResourceKind _) GPUResourceWhole); [done|].
  destruct (String.eqb (GPUResourceKind _) GPUResourcePartition); [|done].
  destruct (0 <? amdPartitionsPerGPU _)%Z; [done|]. do 2 f_equal. split_bool; lia.
Qed.

Lemma partitionShare_unit (base : string) :
  unit_interval (if (0 <? amdPartitionsPerGPU base)%Z then fdiv fone (fofZ (amdPartitionsPerGPU base))
                 else migShare (migComputeSlices (TrimPrefix base "nvidia.com/mig-"))) = true.
Proof.
  split_bool; reflect_bools; [by apply amdShare_unit|]. apply migShare_unit, migComputeSlices_pos.
Qed.

Lemma GPUResourceShare_unit (name : string) :
  GPUResourceShare name = fzero \/ unit_interval (GPUResourceShare name) = true.
Proof.
  rewrite GPUResourceShare_eq. destruct (String.eqb (GPUResourceKind _) GPUResourceWhole); [right; by vm_compute|].
  destruct (String.eqb (GPUResourceKind _) GPUResourcePartition); [right; apply partitionShare_unit|by left].
Qed.

(** The share of one resource unit: a whole GPU counts 1, an AMD
    partition one over its mode's partitions, a MIG device its compute slices
    out of seven (never more than one GPU), anything that is not a GPU
    resource 0; every share of a GPU resource lies above 0 and at most 1. *)
Theorem GPUResourceShare_correct (name : string) :
  let base := (sharedBase name).1 in
  let n := amdPartitionsPerGPU base in
  GPUResourceShare name =
    (if String.eqb (GPUResourceKind base) GPUResourceWhole then fone
     else if String.eqb (GPUResourceKind base) GPUResourcePartition then
       if (0 <? n)%Z then fdiv fone (fofZ n)
       else migShare (migComputeSlices (TrimPrefix base "nvidia.com/mig-"))
     else fzero) /\
  (GPUResourceShare name = fzero \/ unit_interval (GPUResourceShare name) = true) /\
  (unit_interval (GPUResourceShare name) = true <->
   GPUResourceKind base = GPUResourceWhole \/ GPUResourceKind base = GPUResourcePartition).
Proof.
  cbv zeta. split; [apply GPUResourceShare_eq|]. split; [apply GPUResourceShare_unit|].
  rewrite GPUResourceShare_eq.
  destruct (String.eqb_spec (GPUResourceKind (sharedBase name).1) GPUResourceWhole) as [->|Hw].
  { split; [by left|by vm_compute]. }
  destruct (String.eqb_spec (GPUResourceKind (sharedBase name).1) GPUResourcePartition) as [->|Hp].
  - split; [by right|]. intros _. apply partitionShare_unit.
  - split; [done|]. intros [|]; done.
Qed.

(** ** Reading a MIG profile back *)

Lemma positiveCount_Itoa (n : Z) (letter : string) :
  (0 < n)%Z -> in_int64 n -> positiveCount (Itoa n +:+ letter) letter = Some n.
Proof.
  intros Hp Hr. unfold positiveCount. rewrite CutSuffix_app, Atoi_Itoa by done. cbn.
  by rewrite (proj2 (Z.ltb_lt _ _) Hp).
Qed.

Lemma Itoa_no_dot (n : Z) (letter : ascii) : (0 <= n)%Z -> letter <> "."%char ->
  Forall (fun a => a <> "."%char) (list_ascii_of_string (Itoa n +:+ String letter "")).
Proof.
  intros Hn Hl. rewrite list_ascii_app. apply Forall_app. split; [|by repeat constructor].
  apply digit_not; [done|by apply Itoa_digits].
Qed.

(** A MIG profile name gives back the slices it was written with:
    <g>g.<memory> is g slices and <c>c.<g>g.<memory> is c slices, for all
    positive counts and any memory suffix. *)
Theorem migComputeSlices_roundtrip (c g : Z) (memory : string) :
  (0 < c)%Z -> in_int64 c -> (0 < g)%Z -> in_int64 g ->
  migComputeSlices (Itoa g +:+ "g." +:+ memory) = g /\
  migComputeSlices (Itoa c +:+ "c." +:+ Itoa g +:+ "g." +:+ memory) = c.
Proof.
  intros Hc Rc Hg Rg. split; unfold migComputeSlices.
  - change ("g." +:+ memory) with ("g" +:+ String "." memory). rewrite <- app_assoc_string.
    rewrite Cut_byte by (apply Itoa_no_dot; [lia|done]).
    unfold CutSuffix at 1. rewrite HasSuffix_app_length by done.
    change (String.eqb "g" "c") with false. cbv iota beta. cbn [snd].
    by rewrite positiveCount_Itoa.
  - change ("c." +:+ Itoa g +:+ "g." +:+ memory) with ("c" +:+ String "." (Itoa g +:+ "g." +:+ memory)).
    rewrite <- app_assoc_string. rewrite Cut_byte by (apply Itoa_no_dot; [lia|done]).
    by rewrite CutSuffix_app, positiveCount_Itoa.
Qed.

Example migComputeSlices_roundtrip_witness :
  migComputeSlices (Itoa 3 +:+ "g." +:+ "47gb") = 3%Z /\
  migComputeSlices (Itoa 1 +:+ "c." +:+ Itoa 3 +:+ "g." +:+ "40gb") = 1%Z.
Proof.
  split.
  - apply (migComputeSlices_roundtrip 1 3 "47gb"); unfold in_int64, int64_min, int64_max; lia.
  - apply (migComputeSlices_roundtrip 1 3 "40gb"); unfold in_int64, int64_min, int64_max; lia.
Defined.

(** ** Node object names *)

#[local] Open Scope list_scope.

(** A character of an object name. *)
Definition object_char (a : ascii) : bool := is_lower a || is_digit a || is_dash a.

(** Neither end of [l] satisfies [P]. *)
Definition trimmed (P : ascii -> bool) (l : list ascii) : Prop :=
  drop_while P l = l /\ drop_while P (rev l) = rev l.

Lemma drop_while_idem (P : ascii -> bool) (l : list ascii) :
  drop_while P (drop_while P l) = drop_while P l.
Proof. induction l as [|a l IH]; cbn; [done|]. destruct (P a) eqn:E; [done|]. cbn. by rewrite E. Qed.

Lemma drop_while_app_fixed (P : ascii -> bool) (k l : list ascii) :
  drop_while P (k ++ l) = k ++ l -> drop_while P k = k.
Proof.
  destruct k as [|a k]; cbn; [done|]. destruct (P a); [|done]. intros H.
  destruct (drop_while_suffix P (k ++ l)) as [m Hm]. rewrite H in Hm.
  apply (f_equal length) in Hm. rewrite !length_app in Hm. cbn in Hm. rewrite length_app in Hm. lia.
Qed.

Lemma trim_list_trimmed (P : ascii -> bool) (l : list ascii) : trimmed P (trim_list P l).
Proof.
  unfold trimmed, trim_list. rewrite rev_involutive. split; [|apply drop_while_idem].
  destruct (drop_while_suffix P (rev (drop_while P l))) as [k Hk].
  apply (f_equal (@rev _)) in Hk. rewrite rev_involutive, rev_app_distr in Hk.
  apply (drop_while_app_fixed P _ (rev k)). rewrite <- Hk. apply drop_while_idem.
Qed.

Lemma trimmed_id (P : ascii -> bool) (l : list ascii) : trimmed P l -> trim_list P l = l.
Proof. intros [H1 H2]. unfold trim_list. by rewrite H1, H2, rev_involutive. Qed.

Lemma drop_while_Forall (P : ascii -> bool) (Q : ascii -> Prop) (l : list ascii) :
  Forall Q l -> Forall Q (drop_while P l).
Proof. induction 1; cbn; [constructor|]. destruct (P x); [done|by constructor]. Qed.

(** Bytes the object name keeps are not white space, and are single runes. *)
Lemma object_char_bounds (a : ascii) : object_char a = true -> (45 <= byte_of a < 128)%N.
Proof. unfold object_char. destruct a as [[] [] [] [] [] [] [] []]; vm_compute; intuition congruence. Qed.

Lemma object_char_lower (a : ascii) : object_char a = true -> lower_ascii a = a.
Proof. destruct a as [[] [] [] [] [] [] [] []]; vm_compute; intuition congruence. Qed.

Lemma object_plain (l : list ascii) : Forall (fun a => object_char a = true) l -> Forall plain_char l.
Proof. intros H. eapply Forall_impl; [exact H|]. intros a Ha%object_char_bounds. unfold plain_char. lia. Qed.

Lemma ToLower_object (s : string) :
  Forall (fun a => object_char a = true) (list_ascii_of_string s) -> ToLower s = s.
Proof.
  intros H. unfold ToLower. rewrite <- (string_of_list_ascii_of_string s) at 2. f_equal.
  induction H as [|a l Ha Hl IH]; cbn; [done|]. by rewrite object_char_lower, IH.
Qed.

Lemma runes_object (l : list ascii) :
  Forall (fun a => object_char a = true) l -> object_rune <$> runes l = l.
Proof.
  intros H. rewrite runes_ascii.
  - induction H as [|a l Ha Hl IH]; [done|]. cbn [fmap list_fmap object_rune].
    fold (object_char a). rewrite Ha. f_equal. exact IH.
  - eapply Forall_impl; [exact H|]. intros a Ha%object_char_bounds. lia.
Qed.

Lemma object_rune_char (r : option ascii) : object_char (object_rune r) = true.
Proof. destruct r as [a|]; [|done]. cbn. fold (object_char a). by destruct (object_char a) eqn:E. Qed.

Lemma ObjectNameForNode_bytes (n : string) :
  let l := list_ascii_of_string (ObjectNameForNode n) in
  Forall (fun a => object_char a = true) l /\ trimmed is_dash l.
Proof.
  unfold ObjectNameForNode. cbv zeta. rewrite list_ascii_of_string_of_list_ascii.
  split; [|apply trim_list_trimmed]. unfold trim_list.
  apply List.Forall_rev, drop_while_Forall, List.Forall_rev, drop_while_Forall, Forall_fmap.
  apply Forall_true. intros r. apply object_rune_char.
Qed.

(** The agent and the controller manager name a node's objects alike: the
    object name holds only lower-case letters, digits and dashes, neither
    starts nor ends with a dash, and is the object name of itself, so a name
    that went through the function once is never changed again. *)
Theorem ObjectNameForNode_normal_form (n : string) :
  let l := list_ascii_of_string (ObjectNameForNode n) in
  Forall (fun a => object_char a = true) l /\
  head l <> Some "-"%char /\ last l <> Some "-"%char /\
  ObjectNameForNode (ObjectNameForNode n) = ObjectNameForNode n.
Proof.
  cbv zeta. destruct (ObjectNameForNode_bytes n) as [Hc [Ht1 Ht2]]. split; [done|].
  assert (forall l, drop_while is_dash l = l -> head l <> Some "-"%char) as Hh.
  { intros [|a l]; [done|]. cbn. intros H [= ->]. destruct (drop_while_suffix is_dash l) as [k Hk].
    cbn in H. rewrite H in Hk. apply (f_equal length) in Hk. rewrite length_app in Hk. cbn in Hk. lia. }
  split; [by apply Hh|]. split.
  { apply Hh in Ht2. rewrite <- head_reverse. unfold reverse. by rewrite <- rev_alt. }
  unfold ObjectNameForNode at 1. rewrite TrimSpace_plain by by apply object_plain.
  rewrite ToLower_object, runes_object by done.
  rewrite trimmed_id by done. apply string_of_list_ascii_of_string.
Qed.
