(* ===== verification/Policy.v ===== *)
(** * Power-profile policies: pkg/controller/policy

    The policies choose, for a list of node names, which nodes stay uncapped
    ("performance") and which are capped ("eco"). [PerformanceSet] splits the
    slots over hardware families by the Sainte-Lague divisor method; the plan
    builders turn a fraction or the queue's demand into a slot count. [None]
    stands for a Go panic (a slice bound past the length). *)

From S2P Require Import Prelude GoFloat Api.

(** src/pkg/controller/policy/policy.go:50-54 [GPUCapIntent] *)
Record GPUCapIntent := {
  gci_Scope : string;
  gci_CapWattsPerGPU : option float64;
  gci_CapPctOfMax : option float64
}.

(** src/pkg/controller/policy/policy.go:30-47 [NodeAssignment] *)
Record NodeAssignment := {
  na_NodeName : string;
  na_Profile : string;
  na_CapWatts : float64;
  na_CPUCapPctOfMax : option float64;
  na_GPU : option GPUCapIntent;
  na_CPUGovernor : option CPUGovernorIntent;
  na_GPUGovernor : option GPUGovernorIntent;
  na_ManagedBy : string;
  na_SourceProfile : string;
  na_SourceDrain : bool;
  na_Draining : bool;
  na_State : string
}.

(** src/pkg/controller/policy/policy.go:57-63 [NodeHardwareInfo] *)
Record NodeHardwareInfo := {
  nhi_CPUModel : string;
  nhi_CPURawModel : string;
  nhi_GPUModel : string;
  nhi_GPURawModel : string;
  nhi_GPUCount : Z
}.

(** src/pkg/controller/policy/policy.go:279-287 [clamp01] *)
Definition clamp01 (v : float64) : float64 :=
  if flt v fzero then fzero
  else if flt fone v then fone
  else v.

(** src/pkg/controller/policy/policy.go:289-297 [clampInt] *)
Definition clampInt (v min max : Z) : Z :=
  if (v <? min)%Z then min
  else if (max <? v)%Z then max
  else v.

(** src/pkg/controller/policy/policy.go:269-277 [firstNonEmpty] *)
Fixpoint firstNonEmpty (values : list string) : string :=
  match values with
  | [] => ""
  | v :: rest =>
      let v := TrimSpace v in
      if String.eqb v "" then firstNonEmpty rest else v
  end.

(** src/pkg/controller/policy/policy.go:256-267 [NodeFamily] *)
Definition NodeFamily (node : string) (hw : gmap string NodeHardwareInfo) : string :=
  match hw !! node with
  | None => "unknown:" +:+ node
  | Some nh =>
      if (0 <? nhi_GPUCount nh)%Z
      then "gpu:" +:+ firstNonEmpty [nhi_GPUModel nh; nhi_GPURawModel nh; "unknown-gpu"]
      else "cpu:" +:+ firstNonEmpty [nhi_CPUModel nh; nhi_CPURawModel nh; "unknown-cpu"]
  end.

(** src/pkg/controller/policy/policy.go:250-252 [deservesNextSlot] *)
Definition deservesNextSlot (na qa nb qb : Z) : bool :=
  (wrap64 (nb * wrap64 (wrap64 (2 * qa) + 1)) <? wrap64 (na * wrap64 (wrap64 (2 * qb) + 1)))%Z.

(** The [less] of the sort inside a family: nodes labelled performance first,
    then by name.
    src/pkg/controller/policy/policy.go:209-215 [sort.Slice] *)
Definition lessNode (current : gmap string string) (a b : string) : bool :=
  let pi := String.eqb (get_str current a) ProfilePerformance in
  let pj := String.eqb (get_str current b) ProfilePerformance in
  if negb (Bool.eqb pi pj) then pi else str_less a b.

(** The nodes of each family, in the order they are given.
    src/pkg/controller/policy/policy.go:201-205 [members] *)
Definition membersOf (nodes : list string) (hw : gmap string NodeHardwareInfo) :
    gmap string (list string) :=
  foldl (fun members node =>
    let family := NodeFamily node hw in
    <[family := default [] (members !! family) ++ [node]]> members) ∅ nodes.

Definition slot_count (slots : gmap string Z) (f : string) : Z := default 0%Z (slots !! f).

Definition family_size (members : gmap string (list string)) (f : string) : Z :=
  Z.of_nat (length (default [] (members !! f))).

(** One scan over the families for the next slot's owner; "" when every family
    is full.
    src/pkg/controller/policy/policy.go:225-233 [next] *)
Definition nextFamily (members : gmap string (list string)) (families : list string)
    (slots : gmap string Z) : string :=
  foldl (fun next family =>
    if (slot_count slots family =? family_size members family)%Z then next
    else if String.eqb next "" ||
            deservesNextSlot (family_size members family) (slot_count slots family)
              (family_size members next) (slot_count slots next)
    then family
    else next) "" families.

(** One iteration of the slot loop: [slots[next]++].
    src/pkg/controller/policy/policy.go:224-235 [slots] *)
Definition giveSlot (members : gmap string (list string)) (families : list string)
    (slots : gmap string Z) : gmap string Z :=
  let next := nextFamily members families slots in
  <[next := wrap64 (slot_count slots next + 1)]> slots.

(** The slots of every family: one each, then the rest one at a time.
    src/pkg/controller/policy/policy.go:219-235 [slots] *)
Definition splitSlots (members : gmap string (list string)) (families : list string)
    (hpCount : Z) : gmap string Z :=
  let slots := foldl (fun m f => <[f := 1%Z]> m) ∅ families in
  Nat.iter (Z.to_nat (hpCount - Z.of_nat (length families))) (giveSlot members families) slots.

(** [l[:n]]; [None] is the panic of a bound outside the slice. *)
Definition slice_to {A} (l : list A) (n : Z) : option (list A) :=
  if ((0 <=? n) && (n <=? Z.of_nat (length l)))%Z then Some (take (Z.to_nat n) l) else None.

(** src/pkg/controller/policy/policy.go:206-217 [families] *)
Definition familiesOf (members : gmap string (list string)) : list string :=
  sort_strings (map_to_list members).*1.

(** src/pkg/controller/policy/policy.go:200-244 [PerformanceSet] *)
Definition PerformanceSet (nodes : list string) (hw : gmap string NodeHardwareInfo)
    (current : gmap string string) (hpCount : Z) : option (gset string) :=
  let members := sort_slice (lessNode current) <$> membersOf nodes hw in
  let families := familiesOf members in
  let hpCount := clampInt hpCount (Z.of_nat (length families)) (Z.of_nat (length nodes)) in
  let slots := splitSlots members families hpCount in
  taken ← mapM (fun family => slice_to (default [] (members !! family)) (slot_count slots family)) families;
  Some (list_to_set (concat taken)).

(** src/pkg/controller/policy/policy.go:86-91 [NodeAssignment] *)
Definition assignment (node profile : string) (cap : float64) (managedBy : string) : NodeAssignment := {|
  na_NodeName := node; na_Profile := profile; na_CapWatts := cap;
  na_CPUCapPctOfMax := None; na_GPU := None; na_CPUGovernor := None; na_GPUGovernor := None;
  na_ManagedBy := managedBy; na_SourceProfile := ""; na_SourceDrain := false;
  na_Draining := false; na_State := ""
|}.

(** The plan of both slot-based policies, given the performance set.
    src/pkg/controller/policy/policy.go:78-93 [plan] *)
Definition planOf (nodes : list string) (perfNodes : gset string) (perfCap ecoCap : float64)
    (managedBy : string) : list NodeAssignment :=
  (fun node => if bool_decide (node ∈ perfNodes)
               then assignment node "performance" perfCap managedBy
               else assignment node "eco" ecoCap managedBy) <$> nodes.

(** [int(math.Round(float64(n) * frac))].
    src/pkg/controller/policy/policy.go:74-75 [hpCount] *)
Definition baseCount (n : nat) (frac : float64) : Z :=
  int_of_float (fround (fmul (fofZ (Z.of_nat n)) (clamp01 frac))).

(** src/pkg/controller/policy/policy.go:69-94 [BuildStaticPlan] *)
Definition BuildStaticPlan (nodes : list string) (hw : gmap string NodeHardwareInfo)
    (current : gmap string string) (perfCap ecoCap hpFrac : float64) : option (list NodeAssignment) :=
  match nodes with
  | [] => Some []
  | _ =>
      perfNodes ← PerformanceSet nodes hw current (baseCount (length nodes) hpFrac);
      Some (planOf nodes perfNodes perfCap ecoCap "static-partition-v1")
  end.

(** The slot count queue_aware_v1 asks for.
    src/pkg/controller/policy/policy.go:104-123 [hpBaseFrac] *)
Definition queueAwareCount (n : nat) (hpBaseFrac : float64) (hpMin hpMax perfPerHPNode perfIntentPods : Z) : Z :=
  let hpMin := if (hpMin <? 0)%Z then 0%Z else hpMin in
  let hpMax := if (hpMax <=? 0)%Z then Z.of_nat n else hpMax in
  let hpMax := if (hpMax <? hpMin)%Z then hpMin else hpMax in
  let perfPerHPNode := if (perfPerHPNode <=? 0)%Z then 1%Z else perfPerHPNode in
  let baseCount := baseCount n hpBaseFrac in
  let queueNeed := int_of_float (fceil (fdiv (fofZ perfIntentPods) (fofZ perfPerHPNode))) in
  let hpCount := if (baseCount <? queueNeed)%Z then queueNeed else baseCount in
  clampInt hpCount hpMin hpMax.

(** src/pkg/controller/policy/policy.go:99-141 [BuildQueueAwarePlan] *)
Definition BuildQueueAwarePlan (nodes : list string) (hw : gmap string NodeHardwareInfo)
    (current : gmap string string) (perfCap ecoCap hpBaseFrac : float64)
    (hpMin hpMax perfPerHPNode perfIntentPods : Z) : option (list NodeAssignment) :=
  match nodes with
  | [] => Some []
  | _ =>
      perfNodes ← PerformanceSet nodes hw current
        (queueAwareCount (length nodes) hpBaseFrac hpMin hpMax perfPerHPNode perfIntentPods);
      Some (planOf nodes perfNodes perfCap ecoCap "queue-aware-v1")
  end.

(** src/pkg/controller/policy/policy.go:151-155 [phase] *)
Definition swapPhase (interval now : Z) : Z :=
  let intervalSec := int_of_float (duration_seconds interval) in
  let intervalSec := if (intervalSec <=? 0)%Z then 60%Z else intervalSec in
  Z.rem (Z.quot now intervalSec) 2.

(** The entry of the [i]-th node.
    src/pkg/controller/policy/policy.go:157-169 [NodeAssignment] *)
Definition swapEntry (phase : Z) (perfCap ecoCap : float64) (i : nat) (n : string) : NodeAssignment :=
  if ((i =? 0)%nat && (Z.rem phase 2 =? 0)%Z) || ((i =? 1)%nat && (Z.rem phase 2 =? 1)%Z)
  then assignment n "eco" ecoCap "rule-swap-v1"
  else assignment n "performance" perfCap "rule-swap-v1".

(** [now] is the Unix time in seconds. The last assignments to [plan[0]]
    rewrite the profile and cap of the only entry.
    src/pkg/controller/policy/policy.go:150-180 [BuildRuleSwapPlanAt] *)
Definition BuildRuleSwapPlanAt (nodes : list string) (interval : Z) (perfCap ecoCap : float64)
    (now : Z) : list NodeAssignment :=
  let phase := swapPhase interval now in
  let plan := imap (swapEntry phase perfCap ecoCap) nodes in
  match plan with
  | [a] =>
      if (Z.rem phase 2 =? 0)%Z then [assignment (na_NodeName a) "eco" ecoCap (na_ManagedBy a)]
      else [assignment (na_NodeName a) "performance" perfCap (na_ManagedBy a)]
  | _ => plan
  end.

(** ** Families and their members *)

#[export] Instance lessNode_strict current : StrictTotal (lessNode current).
Proof.
  unfold lessNode. set (perf := fun n => String.eqb (get_str current n) ProfilePerformance). split.
  - intros a. fold (perf a). destruct (perf a); cbn; apply less_irrefl.
  - intros a b c. fold (perf a) (perf b) (perf c).
    destruct (perf a), (perf b), (perf c); cbn; try done; apply less_trans.
  - intros a b. fold (perf a) (perf b). destruct (perf a), (perf b); cbn; try done; apply less_total.
Qed.

(** The members of [f], in the order the nodes are given. *)
Definition family_nodes (nodes : list string) (hw : gmap string NodeHardwareInfo) (f : string) :
    list string :=
  filter (fun n => NodeFamily n hw = f) nodes.

Lemma membersOf_snoc nodes hw n :
  membersOf (nodes ++ [n]) hw =
  <[NodeFamily n hw := default [] (membersOf nodes hw !! NodeFamily n hw) ++ [n]]> (membersOf nodes hw).
Proof. unfold membersOf. by rewrite foldl_app. Qed.

Lemma family_nodes_snoc nodes hw f n :
  family_nodes (nodes ++ [n]) hw f =
  family_nodes nodes hw f ++ (if decide (NodeFamily n hw = f) then [n] else []).
Proof. unfold family_nodes. by rewrite filter_app, filter_cons, filter_nil. Qed.

Lemma membersOf_lookup nodes hw f :
  membersOf nodes hw !! f =
  match family_nodes nodes hw f with [] => None | l => Some l end.
Proof.
  induction nodes as [|n nodes IH] using rev_ind; [done|].
  rewrite membersOf_snoc, family_nodes_snoc. case_decide as E.
  - subst f. rewrite lookup_insert_eq, IH. by destruct (family_nodes _ _ _).
  - rewrite lookup_insert_ne, IH by done. by rewrite app_nil_r.
Qed.

Section Split.
Context (nodes : list string) (hw : gmap string NodeHardwareInfo) (current : gmap string string).

Let members : gmap string (list string) := sort_slice (lessNode current) <$> membersOf nodes hw.
Let families : list string := familiesOf members.

Lemma members_lookup f :
  default [] (members !! f) = sort_slice (lessNode current) (family_nodes nodes hw f).
Proof.
  unfold members. rewrite lookup_fmap, membersOf_lookup.
  by destruct (family_nodes nodes hw f).
Qed.

Lemma families_spec f : f ∈ families <-> family_nodes nodes hw f <> [].
Proof.
  unfold families, familiesOf, sort_strings. rewrite sort_slice_perm, list_elem_of_fmap. split.
  - intros [[f' l] [-> Hin]]. apply elem_of_map_to_list in Hin. unfold members in Hin.
    rewrite lookup_fmap, membersOf_lookup in Hin. cbn in *. by destruct (family_nodes _ _ _).
  - intros Hne. exists (f, sort_slice (lessNode current) (family_nodes nodes hw f)). split; [done|].
    apply elem_of_map_to_list. unfold members. rewrite lookup_fmap, membersOf_lookup.
    by destruct (family_nodes _ _ _).
Qed.

Lemma families_NoDup : NoDup families.
Proof.
  unfold families, familiesOf, sort_strings. rewrite sort_slice_perm. apply NoDup_fst_map_to_list.
Qed.

Lemma family_size_eq f : family_size members f = Z.of_nat (length (family_nodes nodes hw f)).
Proof. unfold family_size. rewrite members_lookup. by rewrite sort_slice_perm. Qed.

Lemma family_size_pos f : f ∈ families -> (1 <= family_size members f)%Z.
Proof.
  intros H%families_spec. rewrite family_size_eq. destruct (family_nodes _ _ _); [done|]. cbn. lia.
Qed.

Lemma family_size_le f : (family_size members f <= Z.of_nat (length nodes))%Z.
Proof.
  rewrite family_size_eq. apply Nat2Z.inj_le. unfold family_nodes.
  apply length_filter.
Qed.

Lemma families_nonempty_name : "" ∉ families.
Proof.
  rewrite families_spec. intros Hne.
  destruct (family_nodes nodes hw "") as [|n l] eqn:E; [done|].
  assert (n ∈ family_nodes nodes hw "") as [Hf _]%list_elem_of_filter by (rewrite E; left).
  revert Hf. unfold NodeFamily.
  destruct (hw !! n) as [nh|]; [destruct (0 <? nhi_GPUCount nh)%Z|]; done.
Qed.

Lemma families_cover n : n ∈ nodes -> NodeFamily n hw ∈ families.
Proof.
  intros H. apply families_spec. intros E.
  assert (n ∈ family_nodes nodes hw (NodeFamily n hw)) as Hin by (apply list_elem_of_filter; done).
  rewrite E in Hin. by apply not_elem_of_nil in Hin.
Qed.

(** The nodes, regrouped by family. *)
Lemma families_partition_aux l :
  NoDup l -> (forall n, n ∈ nodes -> NodeFamily n hw ∈ l) ->
  concat (family_nodes nodes hw <$> l) ≡ₚ nodes.
Proof.
  intros Hl. unfold family_nodes. clear members families. induction nodes as [|n ns IH]; intros Hc.
  - clear. induction l as [|f l IH]; [done|]. done.
  - assert (concat ((fun f => filter (fun m => NodeFamily m hw = f) (n :: ns)) <$> l) ≡ₚ
            n :: concat ((fun f => filter (fun m => NodeFamily m hw = f) ns) <$> l)) as ->.
    { assert (NodeFamily n hw ∈ l) as Hin by (apply Hc; left).
      clear IH Hc. induction l as [|f l IHl]; [by apply not_elem_of_nil in Hin|].
      apply NoDup_cons in Hl as [Hf Hl]. cbn [fmap list_fmap concat]. rewrite filter_cons.
      case_decide as E.
      - cbn. f_equiv. f_equiv. apply reflexive_eq. f_equal. apply list_fmap_ext. intros i x Hx.
        cbn. case_decide as E2; [|done]. exfalso. apply Hf.
        rewrite <- E, E2. by eapply list_elem_of_lookup_2.
      - apply elem_of_cons in Hin as [|Hin]; [done|]. rewrite IHl by done.
        by rewrite Permutation_middle. }
    f_equiv. apply IH. intros m Hm. apply Hc. by right.
Qed.

Lemma families_partition : concat (family_nodes nodes hw <$> families) ≡ₚ nodes.
Proof. apply families_partition_aux; [apply families_NoDup|apply families_cover]. Qed.
End Split.

(** ** The slot loop *)

Section Slots.
Context (members : gmap string (list string)) (families : list string).
Context (Hnd : NoDup families) (Hname : "" ∉ families).
Context (Hpos : forall f, f ∈ families -> (1 <= family_size members f)%Z).
Context (Hsmall : forall f, (family_size members f <= 2 ^ 30)%Z).

Let size := family_size members.
Let slot (slots : gmap string Z) f := slot_count slots f.

(** Every family holds at least one slot and no more than it has nodes. *)
Definition slots_ok (slots : gmap string Z) : Prop :=
  forall f, f ∈ families -> (1 <= slot_count slots f <= family_size members f)%Z.

(** The divisor property: no family with a free node has a larger quotient
    size/(2*slots+1) than the one at which another received its last slot. *)
Definition sainte_lague (slots : gmap string Z) : Prop :=
  forall f g, f ∈ families -> g ∈ families ->
    (1 < slot_count slots f)%Z -> (slot_count slots g < family_size members g)%Z ->
    (family_size members g * (2 * (slot_count slots f - 1) + 1) <=
     family_size members f * (2 * slot_count slots g + 1))%Z.

Lemma deserves_spec na qa nb qb :
  (0 <= na <= 2 ^ 30)%Z -> (0 <= nb <= 2 ^ 30)%Z -> (0 <= qa <= 2 ^ 30)%Z -> (0 <= qb <= 2 ^ 30)%Z ->
  deservesNextSlot na qa nb qb = (nb * (2 * qa + 1) <? na * (2 * qb + 1))%Z.
Proof.
  intros Ha Hb Hqa Hqb. unfold deservesNextSlot.
  assert (forall n q, (0 <= n <= 2 ^ 30)%Z -> (0 <= q <= 2 ^ 30)%Z ->
    (wrap64 (n * wrap64 (wrap64 (2 * q) + 1)))%Z = (n * (2 * q + 1))%Z) as E.
  { intros n q Hn Hq. assert (0 <= n * (2 * q + 1) <= 2 ^ 30 * (2 ^ 31 + 1))%Z by nia.
    rewrite (wrap64_id (2 * q)), (wrap64_id (2 * q + 1)), wrap64_id; try done;
      unfold in_int64, int64_min, int64_max; lia. }
  by rewrite !E.
Qed.

(** What one scan chooses among the families of [l]. *)
Lemma nextFamily_scan slots l :
  slots_ok slots -> (forall f, f ∈ l -> f ∈ families) ->
  let next := nextFamily members l slots in
  (next = "" /\ forall f, f ∈ l -> slot slots f = size f) \/
  (next ∈ l /\ (slot slots next < size next)%Z /\
   forall g, g ∈ l -> (slot slots g < size g)%Z ->
     (size g * (2 * slot slots next + 1) <= size next * (2 * slot slots g + 1))%Z).
Proof.
  intros Hok. induction l as [|f l IH] using rev_ind; intros Hsub.
  { left. split; [done|]. intros f Hf. by apply not_elem_of_nil in Hf. }
  unfold nextFamily. rewrite foldl_app. fold (nextFamily members l slots). cbn.
  assert (f ∈ families) as Hf by (apply Hsub; in_app).
  pose proof (Hok f Hf) as Hokf. pose proof (Hsmall f) as Hsmf.
  specialize (IH ltac:(intros g Hg; apply Hsub; in_app)). cbn in IH.
  set (next := nextFamily members l slots) in *.
  subst size slot. cbn in *.
  destruct (slot_count slots f =? family_size members f)%Z eqn:E; reflect_bools.
  - destruct IH as [[-> Hfull]|(Hin & Hopen & Hmax)]; [left|right].
    + split; [done|]. intros g [Hg| ->%list_elem_of_singleton]%elem_of_app; [by apply Hfull|done].
    + repeat split; [in_app|done|].
      intros g [Hg| ->%list_elem_of_singleton]%elem_of_app; [by apply Hmax|lia].
  - destruct IH as [[-> Hfull]|(Hin & Hopen & Hmax)].
    + right. cbn. repeat split; [in_app|lia|].
      intros g [Hg| ->%list_elem_of_singleton]%elem_of_app; [|lia]. rewrite Hfull by done. lia.
    + right. assert (next <> "") as Hnn.
      { intros ->. apply Hname, Hsub. in_app. }
      apply String.eqb_neq in Hnn as ->. cbn.
      assert (next ∈ families) as Hnf by (apply Hsub; in_app).
      pose proof (Hok next Hnf) as Hokn. pose proof (Hsmall next) as Hsmn.
      rewrite deserves_spec by lia.
      destruct (_ <? _)%Z eqn:E2; reflect_bools; repeat split; try lia; try in_app.
      * intros g [Hg| ->%list_elem_of_singleton]%elem_of_app Hgo; [|lia].
        pose proof (Hmax g Hg Hgo). assert (g ∈ families) as Hgf by (apply Hsub; in_app).
        pose proof (Hok g Hgf). nia.
      * intros g [Hg| ->%list_elem_of_singleton]%elem_of_app Hgo; [by apply Hmax|lia].
Qed.

Definition total_slots (slots : gmap string Z) : Z := zsum (slot_count slots) families.
Definition total_size : Z := zsum (family_size members) families.

Lemma giveSlot_spec slots :
  slots_ok slots -> (total_slots slots < total_size)%Z ->
  exists next, next ∈ families /\ (slot slots next < size next)%Z /\
    giveSlot members families slots = <[next := (slot_count slots next + 1)%Z]> slots /\
    forall g, g ∈ families -> (slot slots g < size g)%Z ->
      (size g * (2 * slot slots next + 1) <= size next * (2 * slot slots g + 1))%Z.
Proof.
  intros Hok Hlt. apply zsum_lt_exists in Hlt as (f & Hf & Hflt).
  destruct (nextFamily_scan slots families Hok ltac:(done)) as [[_ Hfull]|(Hin & Hopen & Hmax)].
  { specialize (Hfull f Hf). subst size slot. cbn in *. lia. }
  eexists. split; [exact Hin|]. split; [done|]. split; [|exact Hmax].
  unfold giveSlot. do 2 f_equal. apply wrap64_id. subst size slot. cbn in *.
  pose proof (Hok _ Hin). pose proof (Hsmall (nextFamily members families slots)).
  unfold in_int64, int64_min, int64_max. lia.
Qed.

Lemma slot_count_insert slots f n g :
  slot_count (<[f := n]> slots) g = if decide (f = g) then n else slot_count slots g.
Proof. unfold slot_count. rewrite lookup_insert. by case_decide. Qed.

Lemma giveSlot_inv slots :
  slots_ok slots -> sainte_lague slots -> (total_slots slots < total_size)%Z ->
  let slots' := giveSlot members families slots in
  slots_ok slots' /\ sainte_lague slots' /\ total_slots slots' = (total_slots slots + 1)%Z /\
  (forall f, (slot_count slots f <= slot_count slots' f)%Z).
Proof.
  intros Hok Hsl Hlt. destruct (giveSlot_spec slots Hok Hlt) as (nx & Hin & Hopen & Heq & Hmax).
  cbn. rewrite Heq. subst size slot. cbn in *. split; [|split; [|split]].
  - intros f Hf. rewrite slot_count_insert. pose proof (Hok f Hf). case_decide; subst; lia.
  - intros f g Hf Hg. rewrite !slot_count_insert. pose proof (Hok f Hf). pose proof (Hok g Hg).
    do 2 case_decide; subst; intros Hlt1 Hlt2.
    + nia.
    + specialize (Hmax g Hg Hlt2). nia.
    + specialize (Hsl f g Hf Hg Hlt1 ltac:(lia)). nia.
    + by apply Hsl.
  - apply (zsum_bump _ _ _ nx); [done|done| |].
    + rewrite slot_count_insert. by case_decide.
    + intros y _ Hne. rewrite slot_count_insert. by case_decide.
  - intros f. rewrite slot_count_insert. case_decide; subst; lia.
Qed.

Definition slots_init : gmap string Z := foldl (fun m f => <[f := 1%Z]> m) ∅ families.

Lemma slots_init_count f : f ∈ families -> slot_count slots_init f = 1%Z.
Proof.
  unfold slots_init. generalize (∅ : gmap string Z) as m. clear. intros m Hin. revert m.
  induction families as [|g l IH]; intros m; [by apply not_elem_of_nil in Hin|]. cbn.
  destruct (decide (f ∈ l)) as [Hl|Hl]; [by apply IH|].
  apply elem_of_cons in Hin as [->|]; [|done].
  assert (forall m, slot_count (foldl (fun m f => <[f := 1%Z]> m) m l) g = slot_count m g) as E.
  { clear IH. induction l as [|h l IHl]; intros m'; [done|]. cbn.
    apply not_elem_of_cons in Hl as [Hh Hl]. rewrite IHl by done.
    rewrite slot_count_insert. by case_decide. }
  rewrite E, slot_count_insert. by case_decide.
Qed.

Lemma slots_init_inv :
  slots_ok slots_init /\ sainte_lague slots_init /\
  total_slots slots_init = Z.of_nat (length families).
Proof.
  split; [|split].
  - intros f Hf. rewrite slots_init_count by done. pose proof (Hpos f Hf). lia.
  - intros f g Hf Hg. rewrite !slots_init_count by done. lia.
  - unfold total_slots. rewrite <- zsum_const. apply zsum_ext. intros f Hf. by apply slots_init_count.
Qed.

(** The loop, after [n] of its iterations. *)
Lemma giveSlot_iter (n : nat) :
  (Z.of_nat n <= total_size - Z.of_nat (length families))%Z ->
  let slots := Nat.iter n (giveSlot members families) slots_init in
  slots_ok slots /\ sainte_lague slots /\
  total_slots slots = (Z.of_nat (length families) + Z.of_nat n)%Z.
Proof.
  induction n as [|n IH]; intros Hn.
  - cbn [Nat.iter nat_rect]. destruct slots_init_inv as (H1 & H2 & ->). split; [exact H1|].
    split; [exact H2|]. lia.
  - cbv zeta in *. destruct IH as (Hok & Hsl & Ht); [lia|].
    destruct (giveSlot_inv _ Hok Hsl ltac:(rewrite Ht; lia)) as (? & ? & Ht' & _).
    split; [done|]. split; [done|]. etrans; [exact Ht'|]. rewrite Ht. lia.
Qed.

Lemma giveSlot_iter_mono (n : nat) f :
  (Z.of_nat (S n) <= total_size - Z.of_nat (length families))%Z ->
  (slot_count (Nat.iter n (giveSlot members families) slots_init) f <=
   slot_count (Nat.iter (S n) (giveSlot members families) slots_init) f)%Z.
Proof.
  intros Hn. destruct (giveSlot_iter n ltac:(lia)) as (Hok & Hsl & Ht).
  apply giveSlot_inv; [exact Hok|exact Hsl|]. rewrite Ht. lia.
Qed.
End Slots.

(** ** The performance set *)

Definition ps_members nodes hw current : gmap string (list string) :=
  sort_slice (lessNode current) <$> membersOf nodes hw.
Definition ps_families nodes hw current : list string := familiesOf (ps_members nodes hw current).
Definition ps_count nodes hw current k : Z :=
  clampInt k (Z.of_nat (length (ps_families nodes hw current))) (Z.of_nat (length nodes)).
Definition ps_slots nodes hw current k : gmap string Z :=
  splitSlots (ps_members nodes hw current) (ps_families nodes hw current) (ps_count nodes hw current k).

(** The nodes of family [f] the set keeps. *)
Definition ps_taken nodes hw current k f : list string :=
  take (Z.to_nat (slot_count (ps_slots nodes hw current k) f))
    (sort_slice (lessNode current) (family_nodes nodes hw f)).

Lemma clampInt_spec v lo hi : (lo <= hi)%Z -> clampInt v lo hi = Z.max lo (Z.min hi v).
Proof. unfold clampInt. intros H. repeat split_bool; reflect_bools; lia. Qed.

Section PerformanceSet.
Context (nodes : list string) (hw : gmap string NodeHardwareInfo).
Context (Hnodes : NoDup nodes) (Hlen : (Z.of_nat (length nodes) <= 2 ^ 30)%Z).

Lemma ps_total_size current :
  total_size (ps_members nodes hw current) (ps_families nodes hw current) = Z.of_nat (length nodes).
Proof.
  unfold total_size. rewrite <- (Permutation_length (families_partition nodes hw current)).
  rewrite length_concat_zsum. apply zsum_ext. intros f _. apply family_size_eq.
Qed.

Lemma ps_families_le current :
  (Z.of_nat (length (ps_families nodes hw current)) <= Z.of_nat (length nodes))%Z.
Proof.
  rewrite <- (ps_total_size current), <- zsum_const. apply zsum_le.
  intros f Hf. by apply family_size_pos.
Qed.

Lemma ps_count_eq current k :
  ps_count nodes hw current k =
  Z.max (Z.of_nat (length (ps_families nodes hw current))) (Z.min (Z.of_nat (length nodes)) k).
Proof. apply clampInt_spec, ps_families_le. Qed.

Lemma ps_slots_inv current k :
  slots_ok (ps_members nodes hw current) (ps_families nodes hw current) (ps_slots nodes hw current k) /\
  sainte_lague (ps_members nodes hw current) (ps_families nodes hw current) (ps_slots nodes hw current k) /\
  total_slots (ps_families nodes hw current) (ps_slots nodes hw current k) = ps_count nodes hw current k.
Proof.
  pose proof (ps_families_le current) as Hle. pose proof (ps_count_eq current k) as Hc.
  unfold ps_slots, splitSlots. edestruct (giveSlot_iter (ps_members nodes hw current)
    (ps_families nodes hw current)) as (H1 & H2 & H3).
  - apply families_NoDup.
  - apply families_nonempty_name.
  - apply family_size_pos.
  - intros f. etrans; [apply family_size_le|exact Hlen].
  - rewrite ps_total_size.
    instantiate (1 := Z.to_nat (ps_count nodes hw current k - Z.of_nat (length (ps_families nodes hw current)))).
    lia.
  - split; [exact H1|]. split; [exact H2|]. etrans; [exact H3|]. lia.
Qed.

Lemma ps_slots_range current k f : f ∈ ps_families nodes hw current ->
  (1 <= slot_count (ps_slots nodes hw current k) f <= Z.of_nat (length (family_nodes nodes hw f)))%Z.
Proof.
  intros Hf. destruct (ps_slots_inv current k) as [Hok _]. specialize (Hok f Hf).
  unfold ps_members in Hok. rewrite family_size_eq in Hok. exact Hok.
Qed.

Lemma PerformanceSet_eq current k :
  PerformanceSet nodes hw current k =
  Some (list_to_set (concat (ps_taken nodes hw current k <$> ps_families nodes hw current))).
Proof.
  unfold PerformanceSet. fold (ps_members nodes hw current) (ps_families nodes hw current).
  fold (ps_count nodes hw current k) (ps_slots nodes hw current k).
  rewrite (mapM_Some_fmap _ (ps_taken nodes hw current k)); [done|].
  intros f Hf. unfold slice_to, ps_members. rewrite members_lookup.
  pose proof (ps_slots_range current k f Hf) as Hr.
  rewrite (Permutation_length (sort_slice_perm _ _)).
  destruct (_ && _) eqn:E; [done|]. apply andb_false_iff in E as [E|E]; reflect_bools; lia.
Qed.

Lemma ps_taken_family current k f n : n ∈ ps_taken nodes hw current k f -> NodeFamily n hw = f /\ n ∈ nodes.
Proof.
  intros H. apply (subseteq_take) in H. rewrite sort_slice_perm in H.
  by apply list_elem_of_filter in H.
Qed.

Lemma ps_elem current k S n :
  PerformanceSet nodes hw current k = Some S ->
  n ∈ S <-> n ∈ ps_taken nodes hw current k (NodeFamily n hw).
Proof.
  rewrite PerformanceSet_eq. intros [= <-]. rewrite elem_of_list_to_set, elem_of_concat_fmap. split.
  - intros (f & _ & Hn). by destruct (ps_taken_family _ _ _ _ Hn) as [<- _].
  - intros Hn. exists (NodeFamily n hw). split; [|done]. apply families_cover.
    by eapply ps_taken_family.
Qed.

Lemma ps_taken_NoDup current k f : NoDup (ps_taken nodes hw current k f).
Proof.
  unfold ps_taken. eapply sublist_NoDup; [|apply sublist_take].
  rewrite sort_slice_perm. by apply NoDup_filter.
Qed.

Lemma ps_taken_length current k f : f ∈ ps_families nodes hw current ->
  length (ps_taken nodes hw current k f) = Z.to_nat (slot_count (ps_slots nodes hw current k) f).
Proof.
  intros Hf. unfold ps_taken. rewrite length_take, (Permutation_length (sort_slice_perm _ _)).
  pose proof (ps_slots_range current k f Hf). lia.
Qed.

Lemma ps_concat_NoDup current k :
  NoDup (concat (ps_taken nodes hw current k <$> ps_families nodes hw current)).
Proof.
  pose proof (families_NoDup nodes hw current) as Hnd. unfold ps_families, ps_members.
  revert Hnd. generalize (familiesOf (sort_slice (lessNode current) <$> membersOf nodes hw)) as l.
  induction l as [|f l IH]; intros Hnd; cbn; [by constructor|].
  apply NoDup_cons in Hnd as [Hf Hnd]. apply NoDup_app. split; [apply ps_taken_NoDup|].
  split; [|by apply IH]. intros n Hn (g & Hg & Hng)%elem_of_concat_fmap.
  apply ps_taken_family in Hn as [<- _]. by apply ps_taken_family in Hng as [<- _].
Qed.
End PerformanceSet.

(** ** What the split does not depend on: labels and the order of the nodes *)

Lemma foldl_ext {A B} (g h : A -> B -> A) (l : list B) (a : A) :
  (forall a b, g a b = h a b) -> foldl g a l = foldl h a l.
Proof. intros H. revert a. induction l as [|b l IH]; intros a; cbn; [done|]. by rewrite H. Qed.

Lemma splitSlots_ext m1 m2 families k :
  (forall f, family_size m1 f = family_size m2 f) -> splitSlots m1 families k = splitSlots m2 families k.
Proof.
  intros H. assert (forall slots, giveSlot m1 families slots = giveSlot m2 families slots) as E.
  { intros slots. unfold giveSlot. assert (nextFamily m1 families slots = nextFamily m2 families slots) as ->;
      [|done]. apply foldl_ext. intros next f. by rewrite !H. }
  unfold splitSlots. induction (Z.to_nat _) as [|n IH]; [done|]. cbn [Nat.iter nat_rect].
  etrans; [apply E|]. by f_equal.
Qed.

Lemma family_nodes_proper nodes nodes' hw f :
  nodes ≡ₚ nodes' -> family_nodes nodes hw f ≡ₚ family_nodes nodes' hw f.
Proof. intros H. unfold family_nodes. by rewrite H. Qed.

Lemma ps_families_proper nodes nodes' hw current current' :
  nodes ≡ₚ nodes' -> ps_families nodes hw current = ps_families nodes' hw current'.
Proof.
  intros Hp. unfold ps_families. apply (StronglySorted_unique (not_after str_less)).
  - apply sort_slice_sorted, _.
  - apply sort_slice_sorted, _.
  - apply NoDup_Permutation; [apply families_NoDup|apply families_NoDup|]. intros f.
    unfold ps_members. rewrite !families_spec.
    split; intros H E; apply H, Permutation_nil_r; rewrite <- E; by apply family_nodes_proper.
Qed.

Lemma ps_slots_proper nodes nodes' hw current current' k :
  nodes ≡ₚ nodes' -> ps_slots nodes hw current k = ps_slots nodes' hw current' k.
Proof.
  intros Hp. unfold ps_slots, ps_count.
  rewrite (ps_families_proper nodes nodes' hw current current' Hp), (Permutation_length Hp).
  apply splitSlots_ext. intros f. unfold ps_members. rewrite !family_size_eq.
  by rewrite (Permutation_length (family_nodes_proper nodes nodes' hw f Hp)).
Qed.

(** In a list sorted with the labelled nodes first, the labelled ones are a
    prefix. *)
Lemma sorted_split (current : gmap string string) (l : list string) :
  let perf n := String.eqb (get_str current n) ProfilePerformance = true in
  StronglySorted (not_after (lessNode current)) l ->
  l = filter perf l ++ filter (fun n => ~ perf n) l.
Proof.
  intros perf. induction 1 as [|n l Hs IH Hall]; [done|].
  rewrite !filter_cons. case_decide as E; case_decide as E2; try done; cbn; [by f_equal|].
  assert (filter perf l = []) as ->; [|cbn].
  - destruct (filter perf l) as [|m l'] eqn:El; [done|].
    assert (m ∈ filter perf l) as [Hm Hin]%list_elem_of_filter by (rewrite El; left).
    rewrite Forall_forall in Hall. specialize (Hall m Hin).
    unfold not_after, lessNode in Hall. unfold perf in *. apply not_true_is_false in E.
    rewrite Hm, E in Hall. done.
  - f_equal. rewrite IH at 1. assert (filter perf l = []) as ->; [|done].
    destruct (filter perf l) as [|m l'] eqn:El; [done|].
    assert (m ∈ filter perf l) as [Hm Hin]%list_elem_of_filter by (rewrite El; left).
    rewrite Forall_forall in Hall. specialize (Hall m Hin).
    unfold not_after, lessNode in Hall. unfold perf in *. apply not_true_is_false in E.
    rewrite Hm, E in Hall. done.
Qed.

(** The first [k] of a list sorted under labels that mark exactly [k] of its
    nodes are those nodes. *)
Lemma take_labelled (current : gmap string string) (l marked : list string) :
  NoDup l -> NoDup marked -> (forall n, n ∈ marked -> n ∈ l) ->
  (forall n, n ∈ l -> get_str current n = ProfilePerformance <-> n ∈ marked) ->
  take (length marked) (sort_slice (lessNode current) l) ≡ₚ marked.
Proof.
  intros Hl Hm Hsub Hlab. set (sl := sort_slice (lessNode current) l).
  assert (filter (fun n => String.eqb (get_str current n) ProfilePerformance = true) sl ≡ₚ marked) as Hp.
  { apply NoDup_Permutation; [|done|].
    - apply NoDup_filter. unfold sl. by rewrite sort_slice_perm.
    - intros n. rewrite list_elem_of_filter, String.eqb_eq. unfold sl. rewrite sort_slice_perm.
      split; [intros [? ?]; by apply Hlab|]. intros Hin. split; [|by apply Hsub].
      apply Hlab; [by apply Hsub|done]. }
  rewrite (sorted_split current sl); [|apply sort_slice_sorted, _].
  rewrite <- (Permutation_length Hp), take_app_length. exact Hp.
Qed.

(** ** Properties of the performance set *)

Lemma ps_sized nodes hw current k :
  NoDup nodes -> (Z.of_nat (length nodes) <= 2 ^ 30)%Z ->
  exists S, PerformanceSet nodes hw current k = Some S /\ S ⊆ list_to_set nodes /\
    Z.of_nat (size S) = clampInt k (Z.of_nat (length (ps_families nodes hw current)))
                                   (Z.of_nat (length nodes)).
Proof.
  intros Hnd Hlen. eexists. split; [by apply PerformanceSet_eq|]. split.
  - intros n. rewrite !elem_of_list_to_set, elem_of_concat_fmap.
    intros (f & _ & Hn). by eapply ps_taken_family.
  - rewrite size_list_to_set by by apply ps_concat_NoDup.
    destruct (ps_slots_inv nodes hw Hlen current k) as (_ & _ & Ht).
    fold (ps_count nodes hw current k). rewrite <- Ht, length_concat_zsum.
    apply zsum_ext. intros f Hf. rewrite ps_taken_length by done.
    pose proof (ps_slots_range nodes hw Hlen current k f Hf). lia.
Qed.

(** [PerformanceSet] never panics on a list of distinct nodes: it keeps
    nodes of the list only, and exactly as many as [hpCount] raised to the
    number of families and capped at the number of nodes. *)
Theorem PerformanceSet_size nodes hw current k :
  NoDup nodes -> (Z.of_nat (length nodes) <= 2 ^ 30)%Z ->
  exists S, PerformanceSet nodes hw current k = Some S /\ S ⊆ list_to_set nodes /\
    Z.of_nat (size S) = clampInt k (Z.of_nat (length (ps_families nodes hw current)))
                                   (Z.of_nat (length nodes)).
Proof. apply ps_sized. Qed.

(** How many nodes of family [f] a set holds. *)
Definition kept (hw : gmap string NodeHardwareInfo) (f : string) (S : gset string) : Z :=
  Z.of_nat (size (filter (fun n => NodeFamily n hw = f) S)).

Lemma kept_slots nodes hw current k S f :
  NoDup nodes -> (Z.of_nat (length nodes) <= 2 ^ 30)%Z ->
  PerformanceSet nodes hw current k = Some S -> f ∈ ps_families nodes hw current ->
  kept hw f S = slot_count (ps_slots nodes hw current k) f.
Proof.
  intros Hnd Hlen HS Hf. unfold kept.
  assert (filter (fun n => NodeFamily n hw = f) S = list_to_set (ps_taken nodes hw current k f)) as ->.
  { apply set_eq. intros n. rewrite elem_of_filter, elem_of_list_to_set, ps_elem by done. split.
    - by intros [<- ?].
    - intros Hn. by destruct (ps_taken_family _ _ _ _ _ _ Hn) as [<- _]. }
  rewrite size_list_to_set by by apply ps_taken_NoDup.
  rewrite ps_taken_length by done. pose proof (ps_slots_range nodes hw Hlen current k f Hf). lia.
Qed.

(** C3. The split is Sainte-Lague started from one slot per family: every
    family keeps at least one node and at most all of them, and no family
    with a capped node has a larger quotient size/(2*kept+1) than the one at
    which another family received its last slot. *)
Theorem PerformanceSet_sainte_lague nodes hw current k S :
  NoDup nodes -> (Z.of_nat (length nodes) <= 2 ^ 30)%Z ->
  PerformanceSet nodes hw current k = Some S ->
  let size f := Z.of_nat (length (family_nodes nodes hw f)) in
  (forall n, n ∈ nodes -> let f := NodeFamily n hw in (1 <= kept hw f S <= size f)%Z) /\
  (forall n m, n ∈ nodes -> m ∈ nodes ->
    let f := NodeFamily n hw in let g := NodeFamily m hw in
    (1 < kept hw f S)%Z -> (kept hw g S < size g)%Z ->
    (size g * (2 * (kept hw f S - 1) + 1) <= size f * (2 * kept hw g S + 1))%Z).
Proof.
  intros Hnd Hlen HS size. split.
  - intros n Hn f. assert (f ∈ ps_families nodes hw current) as Hf by by apply families_cover.
    rewrite (kept_slots nodes hw current k S f) by done. by apply ps_slots_range.
  - intros n m Hn Hm f g.
    assert (f ∈ ps_families nodes hw current) as Hf by by apply families_cover.
    assert (g ∈ ps_families nodes hw current) as Hg by by apply families_cover.
    rewrite (kept_slots nodes hw current k S f), (kept_slots nodes hw current k S g) by done.
    destruct (ps_slots_inv nodes hw Hlen current k) as (_ & Hsl & _).
    specialize (Hsl f g Hf Hg). unfold ps_members in Hsl. rewrite !family_size_eq in Hsl. exact Hsl.
Qed.

Lemma ps_count_mono nodes hw current k k' : (k <= k')%Z ->
  (ps_count nodes hw current k <= ps_count nodes hw current k')%Z.
Proof. intros H. rewrite !ps_count_eq. lia. Qed.

Lemma ps_slots_mono nodes hw current k k' f :
  (Z.of_nat (length nodes) <= 2 ^ 30)%Z -> (k <= k')%Z ->
  (slot_count (ps_slots nodes hw current k) f <= slot_count (ps_slots nodes hw current k') f)%Z.
Proof.
  intros Hlen Hk. unfold ps_slots, splitSlots.
  pose proof (ps_count_mono nodes hw current k k' Hk) as Hc.
  pose proof (ps_count_eq nodes hw current k') as Hc'.
  pose proof (ps_families_le nodes hw current) as Hle.
  set (fam := ps_families nodes hw current) in *. set (mem := ps_members nodes hw current).
  assert (exists d, Z.to_nat (ps_count nodes hw current k' - Z.of_nat (length fam)) =
    d + Z.to_nat (ps_count nodes hw current k - Z.of_nat (length fam)))%nat as [d Hd].
  { eexists (_ - _)%nat. rewrite Nat.sub_add; [done|]. lia. }
  rewrite Hd. assert (Z.of_nat (d + Z.to_nat (ps_count nodes hw current k - Z.of_nat (length fam))) <=
    total_size mem fam - Z.of_nat (length fam))%Z as Hb.
  { unfold mem, fam. rewrite ps_total_size. fold fam. lia. }
  clear Hd. induction d as [|d IH]; [rewrite Nat.add_0_l; lia|]. etrans; [apply IH; lia|].
  rewrite Nat.add_succ_l. apply giveSlot_iter_mono; try done.
  - apply families_NoDup.
  - apply families_nonempty_name.
  - apply family_size_pos.
  - intros g. etrans; [apply family_size_le|exact Hlen].
Qed.

(** House monotonicity: at the same labels, more slots keep every node
    fewer slots kept, and each further slot adds at most one node. *)
Theorem PerformanceSet_house_monotone nodes hw current k k' S T :
  NoDup nodes -> (Z.of_nat (length nodes) <= 2 ^ 30)%Z -> (k <= k')%Z ->
  PerformanceSet nodes hw current k = Some S ->
  PerformanceSet nodes hw current k' = Some T ->
  S ⊆ T /\ (Z.of_nat (size T) <= Z.of_nat (size S) + (k' - k))%Z.
Proof.
  intros Hnd Hlen Hk HS HT. split.
  - intros n Hn. apply (ps_elem nodes hw Hlen current k' T n HT).
    apply (ps_elem nodes hw Hlen current k S n HS) in Hn. revert n Hn.
    assert (forall n f, n ∈ ps_taken nodes hw current k f -> n ∈ ps_taken nodes hw current k' f) as Hmono.
    { intros n f. unfold ps_taken. apply elem_of_take_mono.
      pose proof (ps_slots_mono nodes hw current k k' f Hlen Hk). lia. }
    intros n. apply Hmono.
  - destruct (ps_sized nodes hw current k Hnd Hlen) as (S' & HS' & _ & Hs).
    destruct (ps_sized nodes hw current k' Hnd Hlen) as (T' & HT' & _ & Ht).
    rewrite HS in HS'. rewrite HT in HT'. injection HS' as <-. injection HT' as <-.
    pose proof (ps_families_le nodes hw current) as Hle. rewrite Hs, Ht, !clampInt_spec by done. lia.
Qed.

(** The labels a reconcile leaves behind: performance on the nodes of [S]. *)
Definition labels_match (nodes : list string) (current : gmap string string) (S : gset string) : Prop :=
  forall n, n ∈ nodes -> get_str current n = ProfilePerformance <-> n ∈ S.

(** The nodes of a family the set keeps are the first of the family once the
    labels follow the set. *)
Lemma ps_taken_relabelled nodes hw current current' k S f :
  NoDup nodes -> (Z.of_nat (length nodes) <= 2 ^ 30)%Z ->
  PerformanceSet nodes hw current k = Some S -> labels_match nodes current' S ->
  f ∈ ps_families nodes hw current ->
  take (Z.to_nat (slot_count (ps_slots nodes hw current' k) f))
    (sort_slice (lessNode current') (family_nodes nodes hw f)) ≡ₚ ps_taken nodes hw current k f.
Proof.
  intros Hnd Hlen HS Hlab Hf.
  rewrite (ps_slots_proper nodes nodes hw current' current k (reflexivity _)).
  rewrite <- (ps_taken_length nodes hw Hlen current k f Hf).
  apply take_labelled; [by apply NoDup_filter|by apply ps_taken_NoDup| |].
  - intros n Hn. apply list_elem_of_filter. by eapply ps_taken_family.
  - intros n [Hfam Hn]%list_elem_of_filter. rewrite (Hlab n Hn), ps_elem by done. by rewrite Hfam.
Qed.

(** A reconcile moves nothing it need not: with the labels of the last
    set [S], the same demand gives [S] again, more demand only adds nodes to
    it and less demand only removes some. *)
Theorem PerformanceSet_reconcile nodes hw current current' k k' S T :
  NoDup nodes -> (Z.of_nat (length nodes) <= 2 ^ 30)%Z ->
  PerformanceSet nodes hw current k = Some S -> labels_match nodes current' S ->
  PerformanceSet nodes hw current' k' = Some T ->
  ((k <= k')%Z -> S ⊆ T) /\ ((k' <= k)%Z -> T ⊆ S) /\ (k' = k -> T = S).
Proof.
  intros Hnd Hlen HS Hlab HT.
  assert ((k <= k')%Z -> S ⊆ T) as Hup.
  { intros Hk n Hn. assert (n ∈ S) as HnS by done.
    apply (ps_elem nodes hw Hlen current k S n HS) in Hn.
    apply (ps_elem nodes hw Hlen current' k' T n HT).
    destruct (ps_taken_family _ _ _ _ _ _ Hn) as [_ Hin].
    rewrite <- (ps_taken_relabelled nodes hw current current' k S) in Hn;
      [|done..|by apply families_cover].
    revert Hn. apply elem_of_take_mono.
    pose proof (ps_slots_mono nodes hw current' k k' (NodeFamily n hw) Hlen Hk). lia. }
  assert ((k' <= k)%Z -> T ⊆ S) as Hdown.
  { intros Hk n Hn. apply (ps_elem nodes hw Hlen current' k' T n HT) in Hn.
    apply (ps_elem nodes hw Hlen current k S n HS).
    destruct (ps_taken_family _ _ _ _ _ _ Hn) as [_ Hin].
    rewrite <- (ps_taken_relabelled nodes hw current current' k S);
      [|done..|by apply families_cover].
    revert Hn. apply elem_of_take_mono.
    pose proof (ps_slots_mono nodes hw current' k' k (NodeFamily n hw) Hlen Hk). lia. }
  split; [done|]. split; [done|]. intros ->. apply set_eq. intros n. split; [apply Hdown|apply Hup]; lia.
Qed.

(** The set does not depend on the order the nodes are listed in. *)
Theorem PerformanceSet_order nodes nodes' hw current k :
  (Z.of_nat (length nodes) <= 2 ^ 30)%Z -> nodes ≡ₚ nodes' ->
  PerformanceSet nodes hw current k = PerformanceSet nodes' hw current k.
Proof.
  intros Hlen Hp. assert (Z.of_nat (length nodes') <= 2 ^ 30)%Z as Hlen' by by rewrite <- Hp.
  rewrite !PerformanceSet_eq by done. f_equal. f_equal. f_equal.
  rewrite (ps_families_proper nodes nodes' hw current current Hp). apply list_fmap_ext. intros i f _.
  unfold ps_taken. rewrite (ps_slots_proper nodes nodes' hw current current k Hp).
  by rewrite (sort_slice_proper (lessNode current) _ _ (family_nodes_proper nodes nodes' hw f Hp)).
Qed.

(** ** The plans *)

Lemma planOf_names nodes S pc ec m : na_NodeName <$> planOf nodes S pc ec m = nodes.
Proof.
  unfold planOf. rewrite <- list_fmap_compose. etrans; [|apply list_fmap_id].
  apply list_fmap_ext. intros i n _. cbn. by case_bool_decide.
Qed.

Lemma planOf_perf_count nodes S pc ec m :
  NoDup nodes -> S ⊆ list_to_set nodes ->
  length (filter (fun a => na_Profile a = ProfilePerformance) (planOf nodes S pc ec m)) = size S.
Proof.
  intros Hnd Hsub. trans (length (filter (fun n => n ∈ S) nodes)).
  - clear Hnd Hsub. unfold planOf. induction nodes as [|n l IH]; [done|]. cbn [fmap list_fmap].
    rewrite !filter_cons. destruct (decide (n ∈ S)) as [H|H].
    + rewrite bool_decide_eq_true_2 by done. cbn. rewrite decide_True by done. cbn. by f_equal.
    + rewrite bool_decide_eq_false_2 by done. cbn. by rewrite decide_False.
  - rewrite <- (size_list_to_set (C := gset string)) by by apply NoDup_filter. f_equal.
    apply set_eq. intros n. rewrite elem_of_list_to_set, list_elem_of_filter. split; [by intros []|].
    intros Hn. split; [done|]. apply Hsub, elem_of_list_to_set in Hn. done.
Qed.

(** [BuildStaticPlan] plans every node once, in the order given; an entry
    is performance at the performance cap or eco at the eco cap, and the
    number of performance entries is the rounded fraction of the nodes,
    raised to one per family. *)
Theorem BuildStaticPlan_correct nodes hw current perfCap ecoCap hpFrac :
  NoDup nodes -> (Z.of_nat (length nodes) <= 2 ^ 30)%Z ->
  exists plan, BuildStaticPlan nodes hw current perfCap ecoCap hpFrac = Some plan /\
    na_NodeName <$> plan = nodes /\
    (forall a, a ∈ plan ->
      (na_Profile a = ProfilePerformance /\ na_CapWatts a = perfCap) \/
      (na_Profile a = ProfileEco /\ na_CapWatts a = ecoCap)) /\
    Z.of_nat (length (filter (fun a => na_Profile a = ProfilePerformance) plan)) =
      clampInt (baseCount (length nodes) hpFrac)
        (Z.of_nat (length (ps_families nodes hw current))) (Z.of_nat (length nodes)).
Proof.
  intros Hnd Hlen. destruct nodes as [|n0 l] eqn:En; [exists []; split; [done|]; split; [done|]; split|].
  - intros a Ha. by apply not_elem_of_nil in Ha.
  - rewrite clampInt_spec by apply ps_families_le.
    pose proof (ps_families_le [] hw current) as H. cbn [length] in *. cbn. lia.
  - rewrite <- En in *. destruct (ps_sized nodes hw current (baseCount (length nodes) hpFrac))
      as (S & HS & Hsub & Hsz); [done..|].
    eexists. split; [|split; [apply planOf_names|split]].
    + unfold BuildStaticPlan. rewrite HS. subst nodes. reflexivity.
    + intros a (n & -> & _)%list_elem_of_fmap. case_bool_decide; [left|right]; done.
    + rewrite planOf_perf_count by done. exact Hsz.
Qed.

(** [BuildQueueAwarePlan] plans every node once; the number of performance
    entries is [queueAwareCount] raised to one per family and capped at the
    nodes, and [queueAwareCount] stays between the minimum and the maximum the
    configuration gives (an unset maximum is the number of nodes) and, within
    them, is at least the configured share and the queue's need. *)
Theorem BuildQueueAwarePlan_correct nodes hw current perfCap ecoCap frac hpMin hpMax per pods :
  NoDup nodes -> (Z.of_nat (length nodes) <= 2 ^ 30)%Z ->
  let lo := Z.max 0 hpMin in
  let hi := Z.max lo (if (hpMax <=? 0)%Z then Z.of_nat (length nodes) else hpMax) in
  let need := int_of_float (fceil (fdiv (fofZ pods) (fofZ (if (per <=? 0)%Z then 1 else per)%Z))) in
  let count := queueAwareCount (length nodes) frac hpMin hpMax per pods in
  (exists plan, BuildQueueAwarePlan nodes hw current perfCap ecoCap frac hpMin hpMax per pods = Some plan /\
    na_NodeName <$> plan = nodes /\
    Z.of_nat (length (filter (fun a => na_Profile a = ProfilePerformance) plan)) =
      clampInt count (Z.of_nat (length (ps_families nodes hw current))) (Z.of_nat (length nodes))) /\
  (lo <= count <= hi)%Z /\
  (Z.min hi (baseCount (length nodes) frac) <= count)%Z /\ (Z.min hi need <= count)%Z.
Proof.
  intros Hnd Hlen lo hi need count. split.
  - destruct nodes as [|n0 l] eqn:En; [exists []; split; [done|]; split; [done|]|].
    + rewrite clampInt_spec by apply ps_families_le.
      pose proof (ps_families_le [] hw current) as H. cbn [length] in *. cbn. lia.
    + rewrite <- En in *. destruct (ps_sized nodes hw current count) as (S & HS & Hsub & Hsz);
        [done..|].
      eexists. split; [|split; [apply planOf_names|]].
      * subst nodes. unfold BuildQueueAwarePlan. unfold count in HS. rewrite HS. reflexivity.
      * rewrite planOf_perf_count by done. exact Hsz.
  - assert (count = Z.max lo (Z.min hi (Z.max (baseCount (length nodes) frac) need))) as ->.
    { subst count need hi lo. unfold queueAwareCount.
      rewrite clampInt_spec; repeat split_bool; reflect_bools; lia. }
    subst hi lo. lia.
Qed.

Lemma swapPhase_spec interval now :
  (0 <= now)%Z -> exists s, (0 < s)%Z /\ swapPhase interval now = ((now / s) `mod` 2)%Z /\
    s = (let s := int_of_float (duration_seconds interval) in if (s <=? 0)%Z then 60%Z else s).
Proof.
  intros Hn. set (s0 := int_of_float (duration_seconds interval)).
  set (s := if (s0 <=? 0)%Z then 60%Z else s0).
  assert (0 < s)%Z as Hs by (subst s; split_bool; reflect_bools; lia).
  exists s. split; [exact Hs|split; [|reflexivity]].
  - unfold swapPhase. fold s0. fold s.
    rewrite Z.quot_div_nonneg, Z.rem_mod_nonneg by (try apply Z.div_pos; lia). done.
Qed.

(** The rule swap keeps one node of two or more eco: the first in even
    intervals of the clock, the second in odd ones, every other node at
    performance, so the eco node alternates from one interval to the next. *)
Theorem BuildRuleSwapPlanAt_alternates nodes interval perfCap ecoCap now :
  (0 <= now)%Z -> (2 <= length nodes)%nat ->
  let s := int_of_float (duration_seconds interval) in
  let s := if (s <=? 0)%Z then 60%Z else s in
  let plan := BuildRuleSwapPlanAt nodes interval perfCap ecoCap now in
  na_NodeName <$> plan = nodes /\
  (forall i a, plan !! i = Some a ->
    na_Profile a = (if (Z.of_nat i =? (now / s) `mod` 2)%Z then ProfileEco else ProfilePerformance) /\
    na_CapWatts a = (if (Z.of_nat i =? (now / s) `mod` 2)%Z then ecoCap else perfCap)) /\
  swapPhase interval (now + s) = (1 - swapPhase interval now)%Z.
Proof.
  intros Hnow Hlen s0 s plan. destruct (swapPhase_spec interval now Hnow) as (s1 & Hs & Hph & Hs1).
  change (s1 = s) in Hs1. subst s1.
  destruct (swapPhase_spec interval (now + s) ltac:(lia)) as (s2 & _ & Hph2 & Hs2).
  change (s2 = s) in Hs2. subst s2.
  pose proof (Z.mod_pos_bound (now / s) 2 ltac:(lia)) as Hmod.
  assert (plan = imap (swapEntry (swapPhase interval now) perfCap ecoCap) nodes) as Hplan.
  { subst plan. unfold BuildRuleSwapPlanAt. by destruct nodes as [|n [|m l]]; cbn in Hlen; [lia|lia|]. }
  split; [|split].
  - rewrite Hplan. etrans; [|apply list_fmap_id]. rewrite fmap_imap, <- imap_const.
    apply imap_ext. intros i x _. cbn. unfold swapEntry. by destruct (_ || _).
  - intros i a. rewrite Hplan, list_lookup_imap, fmap_Some. intros (x & _ & ->).
    unfold swapEntry. rewrite Hph, Z.rem_mod_nonneg by lia.
    rewrite (Z.mod_small ((now / s) `mod` 2)) by lia.
    destruct i as [|[|i]]; cbn [Nat.eqb]; repeat split_bool; reflect_bools; cbn; try done; lia.
  - rewrite Hph, Hph2. replace (now + s)%Z with (now + 1 * s)%Z by lia. rewrite Z.div_add by lia.
    Z.div_mod_to_equations. lia.
Qed.

(** ** What the caller of a policy relies on *)

(** An entry as a policy leaves it, caps and governors unset. *)
Definition plannedEntry (a : NodeAssignment) : Prop :=
  exists n p c m, a = assignment n p c m /\ (p = ProfilePerformance \/ p = ProfileEco).

(** A plan over [nodes]: every node once, in their order. *)
Definition plansOver (nodes : list string) (plan : list NodeAssignment) : Prop :=
  na_NodeName <$> plan = nodes /\ forall a, a ∈ plan -> plannedEntry a.

Lemma planOf_over nodes S pc ec m : plansOver nodes (planOf nodes S pc ec m).
Proof.
  split; [apply planOf_names|]. intros a (n & -> & _)%list_elem_of_fmap.
  case_bool_decide; [exists n, "performance", pc, m|exists n, "eco", ec, m]; auto.
Qed.

Lemma BuildStaticPlan_over nodes hw current pc ec frac :
  NoDup nodes -> (Z.of_nat (length nodes) <= 2 ^ 30)%Z ->
  exists plan, BuildStaticPlan nodes hw current pc ec frac = Some plan /\ plansOver nodes plan.
Proof.
  intros Hnd Hlen. unfold BuildStaticPlan. destruct nodes as [|n l].
  { exists []. split; [done|]. split; [done|]. by intros a ?%not_elem_of_nil. }
  destruct (ps_sized (n :: l) hw current (baseCount (length (n :: l)) frac) Hnd Hlen) as (S & -> & _).
  eexists. split; [reflexivity|]. apply planOf_over.
Qed.

Lemma BuildQueueAwarePlan_over nodes hw current pc ec frac hpMin hpMax per pods :
  NoDup nodes -> (Z.of_nat (length nodes) <= 2 ^ 30)%Z ->
  exists plan, BuildQueueAwarePlan nodes hw current pc ec frac hpMin hpMax per pods = Some plan /\ plansOver nodes plan.
Proof.
  intros Hnd Hlen. unfold BuildQueueAwarePlan. destruct nodes as [|n l].
  { exists []. split; [done|]. split; [done|]. by intros a ?%not_elem_of_nil. }
  destruct (ps_sized (n :: l) hw current (queueAwareCount (length (n :: l)) frac hpMin hpMax per pods) Hnd Hlen)
    as (S & -> & _).
  eexists. split; [reflexivity|]. apply planOf_over.
Qed.

Lemma BuildRuleSwapPlanAt_over nodes interval pc ec now :
  plansOver nodes (BuildRuleSwapPlanAt nodes interval pc ec now).
Proof.
  unfold BuildRuleSwapPlanAt. set (phase := swapPhase interval now).
  assert (plansOver nodes (imap (swapEntry phase pc ec) nodes)) as Hover.
  { split.
    - etrans; [|apply list_fmap_id]. rewrite fmap_imap, <- imap_const. apply imap_ext.
      intros i x _. cbn. unfold swapEntry. by destruct (_ || _).
    - intros a Ha. apply list_elem_of_lookup in Ha as [i Hi].
      rewrite list_lookup_imap, fmap_Some in Hi. destruct Hi as (n & _ & ->). unfold swapEntry.
      destruct (_ || _); [exists n, "eco", ec, "rule-swap-v1"|exists n, "performance", pc, "rule-swap-v1"]; auto. }
  destruct (imap _ nodes) as [|a [|b l]] eqn:E; [done| |done]. destruct Hover as [Hn Ha].
  destruct (Z.rem phase 2 =? 0)%Z; (split; [exact Hn|]); intros c ->%list_elem_of_singleton;
    eexists _, _, _, _; (split; [reflexivity|]); auto.
Qed.

(** ** Witnesses *)

Definition demo_info (cpu gpu : string) (n : Z) : NodeHardwareInfo :=
  {| nhi_CPUModel := cpu; nhi_CPURawModel := ""; nhi_GPUModel := gpu; nhi_GPURawModel := "";
     nhi_GPUCount := n |}.
Definition demo_nodes : list string := ["c1"; "c2"; "c3"; "g1"; "g2"].
Definition demo_hw : gmap string NodeHardwareInfo :=
  list_to_map [("c1", demo_info "EPYC" "" 0); ("c2", demo_info "EPYC" "" 0);
               ("c3", demo_info " EPYC" "" 0); ("g1", demo_info "EPYC" "H100" 8);
               ("g2", demo_info "EPYC" "H100 " 8)].
Definition demo_labels : gmap string string := {["c2" := "performance"]}.

Example PerformanceSet_demo :
  PerformanceSet demo_nodes demo_hw demo_labels 3 = Some {["c1"; "c2"; "g1"]}.
Proof. vm_compute. reflexivity. Qed.

Lemma PerformanceSet_size_witness :
  exists S, PerformanceSet demo_nodes demo_hw demo_labels 3 = Some S /\ S ⊆ list_to_set demo_nodes /\
    Z.of_nat (size S) = clampInt 3 (Z.of_nat (length (ps_families demo_nodes demo_hw demo_labels)))
                                   (Z.of_nat (length demo_nodes)).
Proof. apply (PerformanceSet_size demo_nodes demo_hw demo_labels 3); [by_decide|by_decide]. Defined.

Lemma PerformanceSet_sainte_lague_witness :
  (1 <= kept demo_hw (NodeFamily "g1" demo_hw) {["c1"; "c2"; "g1"]} <=
   Z.of_nat (length (family_nodes demo_nodes demo_hw (NodeFamily "g1" demo_hw))))%Z.
Proof.
  apply (PerformanceSet_sainte_lague demo_nodes demo_hw demo_labels 3 {["c1"; "c2"; "g1"]});
    [by_decide|by_decide|vm_compute; reflexivity|by_decide].
Defined.

Lemma PerformanceSet_house_monotone_witness :
  ({["c2"; "g1"]} : gset string) ⊆ {["c1"; "c2"; "g1"]} /\
  (Z.of_nat (size ({["c1"; "c2"; "g1"]} : gset string)) <=
   Z.of_nat (size ({["c2"; "g1"]} : gset string)) + (3 - 2))%Z.
Proof.
  apply (PerformanceSet_house_monotone demo_nodes demo_hw demo_labels 2 3);
    [by_decide|by_decide|lia|vm_compute; reflexivity|vm_compute; reflexivity].
Defined.

Definition demo_labels' : gmap string string :=
  list_to_map [("c1", "performance"); ("c2", "performance"); ("g1", "performance")].

Lemma PerformanceSet_reconcile_witness :
  ({["c1"; "c2"; "g1"]} : gset string) ⊆ {["c1"; "c2"; "g1"; "g2"]}.
Proof.
  refine (proj1 (PerformanceSet_reconcile demo_nodes demo_hw demo_labels demo_labels' 3 4 _ _ _ _ _ _ _) _);
    [by_decide|by_decide|vm_compute; reflexivity| |vm_compute; reflexivity|lia].
  refine (proj1 (Forall_forall _ _) _). by_decide.
Defined.

Lemma PerformanceSet_order_witness :
  PerformanceSet demo_nodes demo_hw demo_labels 3 =
  PerformanceSet ["g2"; "c3"; "c1"; "g1"; "c2"] demo_hw demo_labels 3.
Proof. apply PerformanceSet_order; [by_decide|by_decide]. Defined.

Lemma BuildStaticPlan_correct_witness :
  exists plan, BuildStaticPlan demo_nodes demo_hw demo_labels (fofZ 500) (fofZ 300) (flit 1 2) = Some plan /\
    na_NodeName <$> plan = demo_nodes.
Proof.
  destruct (BuildStaticPlan_correct demo_nodes demo_hw demo_labels (fofZ 500) (fofZ 300) (flit 1 2))
    as (plan & H1 & H2 & _); [by_decide|by_decide|]. exists plan. split; [exact H1|exact H2].
Defined.

Lemma BuildQueueAwarePlan_correct_witness :
  (0 <= queueAwareCount 5 (flit 2 10) 1 4 2 7 <= 4)%Z.
Proof.
  destruct (BuildQueueAwarePlan_correct demo_nodes demo_hw demo_labels (fofZ 500) (fofZ 300)
    (flit 2 10) 1 4 2 7) as (_ & H & _); [by_decide|by_decide|]. cbn -[queueAwareCount] in H. lia.
Defined.

Lemma BuildRuleSwapPlanAt_alternates_witness :
  swapPhase 60000000000 (120 + 60) = (1 - swapPhase 60000000000 120)%Z.
Proof.
  apply (BuildRuleSwapPlanAt_alternates ["a"; "b"] 60000000000 (fofZ 500) (fofZ 300) 120); cbn; lia.
Defined.
