(* ===== verification/Kube.v ===== *)
(** * The Kubernetes objects the components read

    Records with the fields of the API types the modelled code uses (the
    types come from k8s.io/api). A [Quantity] is the API library's opaque
    number: [QuantityOps] has its documented readings. The cluster state a
    component lists from is an explicit value. *)

From S2P Require Import Prelude.

(** [resource.Quantity], with [Value()]: the integer it rounds up to. *)
Class QuantityOps := {
  Quantity : Type;
  Value : Quantity -> Z
}.

Section Objects.
Context `{QuantityOps}.

Abbreviation ResourceList := (gmap string Quantity).

Record Container := {
  c_Requests : ResourceList;
  c_Limits : ResourceList;
  c_RestartPolicy : option string
}.

Record NodeSelectorRequirement := {
  nsr_Key : string;
  nsr_Operator : string;
  nsr_Values : list string
}.

Definition NodeSelectorTerm : Type := list NodeSelectorRequirement.

Record Pod := {
  p_NodeName : string;
  p_Annotations : gmap string string;
  p_NodeSelector : gmap string string;
  (** The terms of the required node affinity, [None] where any of the
      pointers on the way is nil. *)
  p_RequiredTerms : option (list NodeSelectorTerm);
  p_Containers : list Container;
  p_InitContainers : list Container;
  p_DeletionTimestamp : option Z;
  p_Phase : string
}.

Record Node := {
  n_Name : string;
  n_Labels : gmap string string;
  n_Unschedulable : bool;
  n_Allocatable : ResourceList;
  n_Capacity : ResourceList
}.
End Objects.

(** A quantity that is an integer already. *)
#[export] Instance integer_quantity : QuantityOps := {| Quantity := Z; Value := fun q => q |}.
Remove Hints integer_quantity : typeclass_instances.

Definition PodPending : string := "Pending".
Definition PodRunning : string := "Running".
Definition PodSucceeded : string := "Succeeded".
Definition PodFailed : string := "Failed".
Definition OpIn : string := "In".
Definition OpNotIn : string := "NotIn".
Definition RestartAlways : string := "Always".
