(* ===== verification/Fsm.v ===== *)
(** * The node power-profile state machine: pkg/controller/fsm/fsm.go

    How a planned profile and the pods of a node give the profile, draining
    flag and state a node is labelled with, which pods ask for a performance
    node, and what GPU units a pod requests. [NodeOps] is the interface of the
    same name: an answer or an error per node. *)

From S2P Require Import Prelude GoFloat Api Resources Kube Policy.

#[local] Open Scope string_scope.

(** ** States *)

(** src/pkg/controller/fsm/fsm.go:29-32 [StateActivePerformance, StateDrainingPerformance, StateActiveEco, StateUnknown] *)
Definition StateActivePerformance : string := "ActivePerformance".
Definition StateDrainingPerformance : string := "DrainingPerformance".
Definition StateActiveEco : string := "ActiveEco".
Definition StateUnknown : string := "Unknown".

(** src/pkg/controller/fsm/fsm.go:34-39 [PowerProfileLabelKey, WorkloadClassAnnotation, WorkloadClassPerfOnly, WorkloadClassEcoOnly, WorkloadClassGeneral] *)
Definition PowerProfileLabelKey : string := "joulie.io/power-profile".
Definition WorkloadClassAnnotation : string := "joulie.io/workload-class".
Definition WorkloadClassPerfOnly : string := "performance-only".
Definition WorkloadClassEcoOnly : string := "eco-only".
Definition WorkloadClassGeneral : string := "general".

(** src/pkg/controller/fsm/fsm.go:42-47 [NodeOps] *)
Class NodeOps := {
  RunningPerformanceSensitivePodCount : string -> option Z
}.

(** src/pkg/controller/fsm/fsm.go:49-62 [AssignmentState] *)
Definition AssignmentState (profile : string) (draining : bool) : string :=
  if draining then StateDrainingPerformance
  else if String.eqb profile ProfilePerformance then StateActivePerformance
  else if String.eqb profile ProfileEco then StateActiveEco
  else StateUnknown.

(** src/pkg/controller/fsm/fsm.go:64-71 [CurrentProfileOrDefault] *)
Definition CurrentProfileOrDefault (in_ : string) : string :=
  if String.eqb in_ ProfilePerformance || String.eqb in_ ProfileEco then in_ else "unknown".

(** src/pkg/controller/fsm/fsm.go:73-89 [ComputeDesiredLabels] *)
Definition ComputeDesiredLabels (desiredProfile : string) (perfPods : Z) : string * bool :=
  let p := CurrentProfileOrDefault desiredProfile in
  if String.eqb p ProfilePerformance then (ProfilePerformance, false)
  else if String.eqb p ProfileEco then (ProfileEco, (0 <? perfPods)%Z)
  else ("unknown", false).

(** The entry with the profile and draining flag of [pd] and their state. *)
Definition withLabels (a : NodeAssignment) (pd : string * bool) : NodeAssignment :=
  {| na_NodeName := na_NodeName a; na_Profile := pd.1; na_CapWatts := na_CapWatts a;
     na_CPUCapPctOfMax := na_CPUCapPctOfMax a; na_GPU := na_GPU a;
     na_CPUGovernor := na_CPUGovernor a; na_GPUGovernor := na_GPUGovernor a;
     na_ManagedBy := na_ManagedBy a; na_SourceProfile := na_SourceProfile a;
     na_SourceDrain := na_SourceDrain a; na_Draining := pd.2;
     na_State := AssignmentState pd.1 pd.2 |}.

(** The body of the loop; the plan is updated in place, so the loop is a map.
    src/pkg/controller/fsm/fsm.go:100-117 [ComputeDesiredLabels] *)
Definition guardEntry `{NodeOps} (a : NodeAssignment) : NodeAssignment :=
  if negb (String.eqb (na_Profile a) ProfileEco) then
    withLabels a (ComputeDesiredLabels (na_Profile a) 0)
  else
    match RunningPerformanceSensitivePodCount (na_NodeName a) with
    | None => a
    | Some count => withLabels a (ComputeDesiredLabels (na_Profile a) count)
    end.

(** [currentProfiles] is not read.
    src/pkg/controller/fsm/fsm.go:91-118 [ApplyDowngradeGuards] *)
Definition ApplyDowngradeGuards `{NodeOps} (plan : list NodeAssignment)
    (currentProfiles : gmap string string) : list NodeAssignment :=
  guardEntry <$> plan.

(** ** Pods *)

Section Pods.
Context `{QuantityOps}.

(** src/pkg/controller/fsm/fsm.go:300-307 [containsString] *)
Definition containsString (in_ : list string) (v : string) : bool :=
  existsb (fun x => String.eqb (TrimSpace x) v) in_.

(** src/pkg/controller/fsm/fsm.go:151-167 [NodeSelectorTerms] *)
Definition exprExcludesEco (e : NodeSelectorRequirement) : bool :=
  String.eqb (nsr_Key e) PowerProfileLabelKey &&
  (if String.eqb (nsr_Operator e) OpNotIn then containsString (nsr_Values e) ProfileEco
   else if String.eqb (nsr_Operator e) OpIn then
     (0 <? length (nsr_Values e))%nat && negb (containsString (nsr_Values e) ProfileEco)
   else false).

(** src/pkg/controller/fsm/fsm.go:138-169 [PodExcludesEco] *)
Definition PodExcludesEco (p : Pod) : bool :=
  if String.eqb (TrimSpace (get_str (p_Annotations p) WorkloadClassAnnotation)) ProfilePerformance then true
  else if String.eqb (TrimSpace (get_str (p_NodeSelector p) PowerProfileLabelKey)) ProfilePerformance then true
  else match p_RequiredTerms p with
       | None => false
       | Some terms => existsb (existsb exprExcludesEco) terms
       end.

(** src/pkg/controller/fsm/fsm.go:180-189 [NodeSelectorTerms] *)
Definition exprEcoOnly (e : NodeSelectorRequirement) : bool :=
  String.eqb (nsr_Key e) PowerProfileLabelKey &&
  (String.eqb (nsr_Operator e) OpIn && (0 <? length (nsr_Values e))%nat &&
   negb (containsString (nsr_Values e) ProfilePerformance) && containsString (nsr_Values e) ProfileEco).

(** src/pkg/controller/fsm/fsm.go:171-191 [PodIsEcoOnly] *)
Definition PodIsEcoOnly (p : Pod) : bool :=
  if String.eqb (TrimSpace (get_str (p_NodeSelector p) PowerProfileLabelKey)) ProfileEco then true
  else match p_RequiredTerms p with
       | None => false
       | Some terms => existsb (existsb exprEcoOnly) terms
       end.

(** src/pkg/controller/fsm/fsm.go:120-124 [IsPerformanceSensitivePod] *)
Definition IsPerformanceSensitivePod (p : Pod) : bool := PodExcludesEco p.

(** src/pkg/controller/fsm/fsm.go:126-136 [ClassifyPodByScheduling] *)
Definition ClassifyPodByScheduling (p : Pod) : string :=
  if PodExcludesEco p then WorkloadClassPerfOnly
  else if PodIsEcoOnly p then WorkloadClassEcoOnly
  else WorkloadClassGeneral.

(** A pod the counting loop of each function skips. *)
Definition deleted (p : Pod) : bool := match p_DeletionTimestamp p with Some _ => true | None => false end.

(** src/pkg/controller/fsm/fsm.go:193-211 [CountPerformanceSensitivePods] *)
Fixpoint CountPerformanceSensitivePods (pods : list Pod) : Z :=
  match pods with
  | [] => 0
  | p :: rest =>
      let count := CountPerformanceSensitivePods rest in
      if deleted p then count
      else if String.eqb (p_Phase p) PodSucceeded || String.eqb (p_Phase p) PodFailed ||
              String.eqb (p_Phase p) PodPending then count
      else if negb (IsPerformanceSensitivePod p) then count
      else (count + 1)%Z
  end.

(** src/pkg/controller/fsm/fsm.go:213-235 [CountPerformanceDemand] *)
Fixpoint CountPerformanceDemand (pods : list Pod) : Z :=
  match pods with
  | [] => 0
  | p :: rest =>
      let count := CountPerformanceDemand rest in
      if deleted p then count
      else if String.eqb (p_Phase p) PodSucceeded || String.eqb (p_Phase p) PodFailed then count
      else if negb (IsPerformanceSensitivePod p) then count
      else (count + 1)%Z
  end.

(** The inner loop over one map, its entries in the order [l]; [seen] holds
    the names counted so far.
    src/pkg/controller/fsm/fsm.go:268-274 [GPUResourceKind] *)
Fixpoint unitsOf (l : list (string * Quantity)) (seen : list string) (units : Z) : list string * Z :=
  match l with
  | [] => (seen, units)
  | (name, q) :: rest =>
      if str_mem name seen || String.eqb (GPUResourceKind name) "" then unitsOf rest seen units
      else unitsOf rest (name :: seen) (wrap64 (units + Value q))
  end.

(** [requests] and [limits] are the two maps in the order the run visits them.
    src/pkg/controller/fsm/fsm.go:264-277 [containerGPUUnits] *)
Definition containerGPUUnits_order (requests limits : list (string * Quantity)) : Z :=
  let '(seen, units) := unitsOf requests [] 0 in
  (unitsOf limits seen units).2.

Definition containerGPUUnits (c : Container) : Z :=
  containerGPUUnits_order (map_to_list (c_Requests c)) (map_to_list (c_Limits c)).

(** src/pkg/controller/fsm/fsm.go:237-239 [MultiGPUPodMinGPUs] *)
Definition MultiGPUPodMinGPUs : Z := 2.

(** src/pkg/controller/fsm/fsm.go:241-262 [PodGPUUnits] *)
Definition PodGPUUnits (p : Pod) : Z :=
  let sum := foldl (fun s c => wrap64 (s + containerGPUUnits c)) 0%Z (p_Containers p) in
  let '(sum, initMax) :=
    foldl (fun '(s, m) c =>
      let units := containerGPUUnits c in
      if match c_RestartPolicy c with Some r => String.eqb r RestartAlways | None => false end
      then (wrap64 (s + units), m)
      else if (m <? units)%Z then (s, units) else (s, m)) (sum, 0%Z) (p_InitContainers p) in
  Z.max sum initMax.

(** src/pkg/controller/fsm/fsm.go:279-292 [HasRunningMultiGPUPod] *)
Definition HasRunningMultiGPUPod (pods : list Pod) : bool :=
  existsb (fun p =>
    if deleted p || negb (String.eqb (p_Phase p) PodRunning) then false
    else (MultiGPUPodMinGPUs <=? PodGPUUnits p)%Z) pods.

(** ** The implementation of [NodeOps] over the pod cache *)

(** The cache lists the pods of one node by its index, or fails.
    src/cmd/controller-manager/main.go:61-73 [RunningPerformanceSensitivePodCount] *)
Definition cacheNodeOps (listPods : string -> option (list Pod)) : NodeOps := {|
  RunningPerformanceSensitivePodCount nodeName :=
    match listPods nodeName with
    | None => None
    | Some items => Some (CountPerformanceSensitivePods items)
    end
|}.
End Pods.

(** ** The downgrade guard *)

(** A pod that keeps its node draining. *)
Definition runsPerformance `{QuantityOps} (p : Pod) : bool :=
  negb (deleted p) &&
  negb (String.eqb (p_Phase p) PodSucceeded || String.eqb (p_Phase p) PodFailed ||
        String.eqb (p_Phase p) PodPending) &&
  IsPerformanceSensitivePod p.

(** A pod that asks for a performance node, running or waiting for one. *)
Definition demandsPerformance `{QuantityOps} (p : Pod) : bool :=
  negb (deleted p) &&
  negb (String.eqb (p_Phase p) PodSucceeded || String.eqb (p_Phase p) PodFailed) &&
  IsPerformanceSensitivePod p.

Lemma CountPerformanceSensitivePods_zsum `{QuantityOps} (pods : list Pod) :
  CountPerformanceSensitivePods pods = zsum (fun p => Z.b2z (runsPerformance p)) pods.
Proof.
  induction pods as [|p pods IH]; cbn; [done|]. rewrite IH. unfold runsPerformance.
  destruct (deleted p), (_ || _ || _), (IsPerformanceSensitivePod p); cbn; lia.
Qed.

Lemma CountPerformanceDemand_zsum `{QuantityOps} (pods : list Pod) :
  CountPerformanceDemand pods = zsum (fun p => Z.b2z (demandsPerformance p)) pods.
Proof.
  induction pods as [|p pods IH]; cbn; [done|]. rewrite IH. unfold demandsPerformance.
  destruct (deleted p), (_ || _), (IsPerformanceSensitivePod p); cbn; lia.
Qed.

Lemma zsum_b2z_pos {A} (P : A -> bool) (l : list A) :
  (0 < zsum (fun x => Z.b2z (P x)) l)%Z <-> exists x, x ∈ l /\ P x = true.
Proof.
  assert (0 <= zsum (fun x => Z.b2z (P x)) l)%Z as H0.
  { induction l as [|x l IH]; cbn; [done|]. destruct (P x); cbn; lia. }
  split.
  - intros H. destruct (zsum_lt_exists (fun _ => 0%Z) (fun x => Z.b2z (P x)) l) as (x & Hx & Hp).
    + replace (zsum (fun _ => 0%Z) l) with 0%Z; [done|]. clear. induction l; cbn; lia.
    + exists x. split; [done|]. by destruct (P x).
  - intros (x & Hx & Hp). clear H0. induction l as [|y l IH]; [by apply not_elem_of_nil in Hx|]. cbn.
    assert (0 <= zsum (fun x => Z.b2z (P x)) l)%Z as H0.
    { clear. induction l as [|z l IH]; cbn; [done|]. destruct (P z); cbn; lia. }
    apply elem_of_cons in Hx as [<-|Hx]; [rewrite Hp; cbn; lia|].
    specialize (IH Hx). destruct (P y); cbn; lia.
Qed.

(** The parts of a plan entry the guard leaves alone. *)
Definition sameAssignment (a b : NodeAssignment) : Prop :=
  withLabels a ("", false) = withLabels b ("", false).

(** C25. The downgrade guard over the pod cache, entry by entry, in the plan's
    order: nothing but profile, draining flag and state changes; a performance
    entry is confirmed as ActivePerformance without looking at pods; an eco
    entry stays eco and is DrainingPerformance exactly when a pod of the node
    still runs performance work (not deleted, neither finished nor pending),
    else ActiveEco; an entry whose pods could not be listed is left as it was;
    any other profile becomes unknown. *)
Theorem ApplyDowngradeGuards_correct `{QuantityOps} (listPods : string -> option (list Pod))
    (plan : list NodeAssignment) (currentProfiles : gmap string string) :
  let out := @ApplyDowngradeGuards (cacheNodeOps listPods) plan currentProfiles in
  length out = length plan /\
  forall i a, plan !! i = Some a -> exists b, out !! i = Some b /\ sameAssignment a b /\
    (na_Profile a = ProfilePerformance ->
       na_Profile b = ProfilePerformance /\ na_Draining b = false /\ na_State b = StateActivePerformance) /\
    (na_Profile a = ProfileEco ->
       match listPods (na_NodeName a) with
       | None => b = a
       | Some pods =>
           na_Profile b = ProfileEco /\
           (na_Draining b = true <-> exists p, p ∈ pods /\ runsPerformance p = true) /\
           na_State b = (if na_Draining b then StateDrainingPerformance else StateActiveEco)
       end) /\
    (na_Profile a <> ProfilePerformance -> na_Profile a <> ProfileEco ->
       na_Profile b = "unknown" /\ na_Draining b = false /\ na_State b = StateUnknown).
Proof.
  cbv zeta. unfold ApplyDowngradeGuards. split; [apply length_fmap|].
  intros i a Hi. rewrite list_lookup_fmap, Hi. eexists. split; [done|]. unfold guardEntry.
  split; [by repeat case_match|]. cbn [RunningPerformanceSensitivePodCount cacheNodeOps].
  split; [|split].
  - intros ->. done.
  - intros Ha. rewrite Ha. cbn [String.eqb Ascii.eqb Bool.eqb negb ProfileEco].
    destruct (listPods (na_NodeName a)) as [pods|]; [|done].
    rewrite CountPerformanceSensitivePods_zsum, <- zsum_b2z_pos. cbn.
    split; [done|]. split; [lia|]. by destruct (0 <? _)%Z.
  - intros Hp He. destruct (String.eqb_spec (na_Profile a) ProfileEco) as [|_]; [done|].
    unfold ComputeDesiredLabels, CurrentProfileOrDefault.
    apply String.eqb_neq in Hp, He. rewrite Hp, He. done.
Qed.

(** Demand and guard look at the same pods but for the waiting ones: the
    cluster's performance demand is the count of running performance pods plus
    the pending ones, so it is never less than what keeps nodes draining, and
    both counts are non-negative and at most the number of pods. *)
Theorem CountPerformanceDemand_pending `{QuantityOps} (pods : list Pod) :
  let pending := filter (fun p => String.eqb (p_Phase p) PodPending = true) pods in
  CountPerformanceDemand pods =
    (CountPerformanceSensitivePods pods + CountPerformanceDemand pending)%Z /\
  (0 <= CountPerformanceSensitivePods pods <= CountPerformanceDemand pods)%Z /\
  (CountPerformanceDemand pods <= Z.of_nat (length pods))%Z.
Proof.
  cbv zeta. rewrite !CountPerformanceDemand_zsum, !CountPerformanceSensitivePods_zsum.
  induction pods as [|p pods IH]; [done|]. rewrite filter_cons.
  cbn [zsum length]. unfold runsPerformance, demandsPerformance in *.
  destruct (String.eqb_spec (p_Phase p) PodPending) as [Hp|Hp]; case_decide as Hd; try done;
    cbn [zsum]; rewrite ?Hp;
    cbn [String.eqb Ascii.eqb Bool.eqb PodPending PodSucceeded PodFailed orb negb];
    destruct (deleted p), (IsPerformanceSensitivePod p); cbn [negb andb orb Z.b2z] in *;
    try destruct (String.eqb (p_Phase p) PodSucceeded || String.eqb (p_Phase p) PodFailed);
    cbn in *; lia.
Qed.

(** ** GPU units *)

Section Units.
Context `{QuantityOps}.

Definition isGPU (name : string) : bool := negb (String.eqb (GPUResourceKind name) "").

(** What one entry counts, given the names counted before it. *)
Definition entryUnits (seen : list string) (e : string * Quantity) : Z :=
  if isGPU e.1 && negb (str_mem e.1 seen) then Value e.2 else 0.

Lemma wrap64_add_l (a b : Z) : wrap64 (wrap64 a + b) = wrap64 (a + b).
Proof.
  unfold wrap64. f_equal.
  replace ((a + 2 ^ 63) `mod` 2 ^ 64 - 2 ^ 63 + b + 2 ^ 63)%Z
    with ((a + 2 ^ 63) `mod` 2 ^ 64 + b)%Z by lia.
  rewrite Zplus_mod_idemp_l. f_equal. lia.
Qed.

Lemma entryUnits_fresh (seen : list string) (n : string) (e : string * Quantity) :
  e.1 <> n -> entryUnits (n :: seen) e = entryUnits seen e.
Proof.
  intros Hne. unfold entryUnits. cbn [str_mem existsb]. fold (str_mem e.1 seen).
  apply String.eqb_neq in Hne. by rewrite Hne.
Qed.

Lemma unitsOf_spec (l : list (string * Quantity)) (seen : list string) (units : Z) :
  NoDup l.*1 -> in_int64 units ->
  (unitsOf l seen units).2 = wrap64 (units + zsum (entryUnits seen) l) /\
  forall n, n ∈ (unitsOf l seen units).1 <-> n ∈ seen \/ (n ∈ l.*1 /\ isGPU n = true).
Proof.
  revert seen units. induction l as [|[n q] l IH]; intros seen units Hnd Hu; cbn [unitsOf zsum fmap list_fmap].
  - rewrite Z.add_0_r, wrap64_id by done. split; [done|]. intros n.
    split; [by left|]. by intros [|[?%not_elem_of_nil _]].
  - apply NoDup_cons in Hnd as [Hn Hnd]. unfold entryUnits at 1. cbn [fst snd].
    assert (String.eqb (GPUResourceKind n) "" = negb (isGPU n)) as ->
      by by unfold isGPU; rewrite negb_involutive.
    destruct (isGPU n) eqn:Eg; cbn [negb andb]; rewrite ?orb_true_r, ?orb_false_r.
    + destruct (str_mem n seen) eqn:Es; cbn [negb].
      * destruct (IH seen units Hnd Hu) as [H1 H2]. split; [done|]. intros m. rewrite H2, elem_of_cons.
        apply str_mem_In in Es. split; [tauto|]. intros [?|[[->|?] ?]]; tauto.
      * destruct (IH (n :: seen) (wrap64 (units + Value q)) Hnd (wrap64_in _)) as [H1 H2]. split.
        -- rewrite H1, wrap64_add_l. f_equal. rewrite <- Z.add_assoc. do 2 f_equal. apply zsum_ext.
           intros e He. apply entryUnits_fresh. intros <-.
           apply Hn, list_elem_of_fmap. by exists e.
        -- intros m. rewrite H2, !elem_of_cons. split; [|tauto].
           intros [[->|?]|[? ?]]; tauto.
    + destruct (IH seen units Hnd Hu) as [H1 H2]. split; [done|]. intros m. rewrite H2, elem_of_cons.
      split; [tauto|]. intros [?|[[->|?] ?]]; [tauto|congruence|tauto].
Qed.

Lemma zsum_perm {A} (g : A -> Z) (l l' : list A) : l ≡ₚ l' -> zsum g l = zsum g l'.
Proof. induction 1; cbn; lia. Qed.

(** A container's units without any order: each GPU resource of the requests
    counts with its request, each GPU resource only the limits name with its
    limit. *)
Definition gpuUnitsSpec (c : Container) : Z :=
  wrap64 (zsum (fun e => if isGPU e.1 then Value e.2 else 0%Z) (map_to_list (c_Requests c)) +
          zsum (fun e => if isGPU e.1 && negb (bool_decide (is_Some (c_Requests c !! e.1)))
                         then Value e.2 else 0%Z) (map_to_list (c_Limits c))).

Lemma containerGPUUnits_order_spec (c : Container) (r l : list (string * Quantity)) :
  r ≡ₚ map_to_list (c_Requests c) -> l ≡ₚ map_to_list (c_Limits c) ->
  containerGPUUnits_order r l = gpuUnitsSpec c.
Proof.
  intros Hr Hl. unfold containerGPUUnits_order.
  assert (NoDup r.*1 /\ NoDup l.*1) as [Nr Nl].
  { split; [rewrite Hr|rewrite Hl]; apply NoDup_fst_map_to_list. }
  destruct (unitsOf_spec r [] 0 Nr) as [H1 H2]; [by unfold in_int64, int64_min, int64_max; lia|].
  destruct (unitsOf r [] 0) as [seen units]. cbn [fst snd] in *.
  destruct (unitsOf_spec l seen units Nl) as [-> _]; [rewrite H1; apply wrap64_in|].
  rewrite H1, wrap64_add_l. unfold gpuUnitsSpec. f_equal.
  rewrite Z.add_0_l. f_equal.
  - rewrite (zsum_perm _ _ _ Hr). apply zsum_ext. intros e _. unfold entryUnits. by rewrite andb_true_r.
  - rewrite (zsum_perm _ _ _ Hl). apply zsum_ext. intros e _. unfold entryUnits.
    destruct (isGPU e.1) eqn:Eg; [|done]. cbn [andb].
    assert (str_mem e.1 seen = bool_decide (is_Some (c_Requests c !! e.1))) as ->; [|done].
    apply eq_true_iff_eq. rewrite str_mem_In, bool_decide_eq_true, H2, Hr. split.
    + intros [?%not_elem_of_nil|[Hin _]]; [done|]. apply list_elem_of_fmap in Hin as ([n q] & -> & Hin).
      apply elem_of_map_to_list in Hin. cbn. by rewrite Hin.
    + intros [q Hq]. right. split; [|done]. apply list_elem_of_fmap. exists (e.1, q).
      split; [done|]. by apply elem_of_map_to_list.
Qed.

Lemma containerGPUUnits_spec (c : Container) : containerGPUUnits c = gpuUnitsSpec c.
Proof. by apply containerGPUUnits_order_spec. Qed.

(** The GPU units of a container do not depend on the order in which the
    run visits its requests and limits: whatever the order, the result is the
    sum, in 64-bit arithmetic, of each GPU resource's request, or of its limit
    where there is no request, each resource once. *)
Theorem containerGPUUnits_order_independent (c : Container) (requests limits : list (string * Quantity)) :
  requests ≡ₚ map_to_list (c_Requests c) -> limits ≡ₚ map_to_list (c_Limits c) ->
  containerGPUUnits_order requests limits = gpuUnitsSpec c /\ containerGPUUnits c = gpuUnitsSpec c.
Proof.
  intros Hr Hl. split; [by apply containerGPUUnits_order_spec|]. apply containerGPUUnits_spec.
Qed.

(** A pod's GPU units are never negative, even where a sum wraps around. *)
Lemma PodGPUUnits_nonneg (p : Pod) : (0 <= PodGPUUnits p)%Z.
Proof.
  unfold PodGPUUnits. set (s0 := foldl _ _ (p_Containers p)).
  assert (forall l s m, (0 <= m)%Z -> (0 <= (foldl (fun '(s, m) c =>
      let units := containerGPUUnits c in
      if match c_RestartPolicy c with Some r => String.eqb r RestartAlways | None => false end
      then (wrap64 (s + units), m)
      else if (m <? units)%Z then (s, units) else (s, m)) (s, m) l).2)%Z) as Hm.
  { induction l as [|c l IH]; cbn; intros s m H0; [done|].
    destruct (match c_RestartPolicy c with Some r => _ | None => _ end); [by apply IH|].
    destruct (Z.ltb_spec m (containerGPUUnits c)); apply IH; lia. }
  specialize (Hm (p_InitContainers p) s0 0%Z ltac:(lia)). cbv zeta in *.
  destruct (foldl _ (s0, 0%Z) _) as [sum m]. cbn in Hm. lia.
Qed.
End Units.

(** A container with whole GPUs requested and a MIG device only limited. *)
Definition sampleContainer : @Container integer_quantity :=
  @Build_Container integer_quantity
    {["nvidia.com/gpu" := 2%Z; "cpu" := 4%Z]} {["nvidia.com/gpu" := 8%Z; "nvidia.com/mig-1g.5gb" := 3%Z]} None.

Example containerGPUUnits_order_independent_witness :
  @containerGPUUnits_order integer_quantity
    (rev (map_to_list (c_Requests sampleContainer))) (rev (map_to_list (c_Limits sampleContainer))) = 5%Z.
Proof.
  etrans.
  - refine (proj1 (@containerGPUUnits_order_independent integer_quantity sampleContainer _ _ _ _));
      symmetry; apply Permutation_rev.
  - vm_compute. reflexivity.
Defined.

(** A pod that runs on a performance node, a pending one and a finished one. *)
Definition samplePod (phase : string) : @Pod integer_quantity :=
  @Build_Pod integer_quantity "node-a" {[WorkloadClassAnnotation := "performance"]} ∅ None [sampleContainer] []
    None phase.

Example PodGPUUnits_ex : @PodGPUUnits integer_quantity (samplePod PodRunning) = 5%Z.
Proof. vm_compute. reflexivity. Qed.
Example demand_ex :
  (@CountPerformanceSensitivePods integer_quantity (samplePod <$> [PodRunning; PodPending; PodFailed]),
   @CountPerformanceDemand integer_quantity (samplePod <$> [PodRunning; PodPending; PodFailed])) = (1, 2)%Z.
Proof. vm_compute. reflexivity. Qed.
