(* ===== verification/PodCache.v ===== *)
(** * The pod cache: cmd/controller-manager/reader.go

    What the controller manager keeps of a pod before its cache stores it,
    and the index that answers the pods of one node. *)

From S2P Require Import Prelude GoString GoFloat Api Resources Policy Kube Fsm.

Section Cache.
Context `{QuantityOps}.

(** src/cmd/controller-manager/reader.go:17-23 [podNodeNameIndex] *)
Definition podNodeNameIndex (pod : Pod) : list string :=
  if String.eqb (p_NodeName pod) "" then [] else [p_NodeName pod].

(** The pods the index answers for a node name. *)
Definition podsByIndex (pods : list Pod) (nodeName : string) : list Pod :=
  filter (fun p => str_mem nodeName (podNodeNameIndex p) = true) pods.

(** [None] is the nil map, no GPU entry.
    src/cmd/controller-manager/reader.go:92-104 [gpuEntries] *)
Definition gpuEntries (in_ : gmap string Quantity) : option (gmap string Quantity) :=
  let out := filter (fun e => isGPU e.1 = true) in_ in
  match map_to_list out with [] => None | _ => Some out end.

(** src/cmd/controller-manager/reader.go:76-90 [gpuResourcesOnly] *)
Fixpoint gpuResourcesOnly (containers : list Container) : list Container :=
  match containers with
  | [] => []
  | c :: rest =>
      match gpuEntries (c_Requests c), gpuEntries (c_Limits c) with
      | None, None => gpuResourcesOnly rest
      | requests, limits =>
          {| c_Requests := default ∅ requests; c_Limits := default ∅ limits;
             c_RestartPolicy := c_RestartPolicy c |} :: gpuResourcesOnly rest
      end
  end.

(** src/cmd/controller-manager/reader.go:43-71 [podTransform] *)
Definition podTransform (pod : Pod) : Pod := {|
  p_NodeName := p_NodeName pod;
  p_Annotations := p_Annotations pod;
  p_NodeSelector := p_NodeSelector pod;
  p_RequiredTerms := p_RequiredTerms pod;
  p_Containers := gpuResourcesOnly (p_Containers pod);
  p_InitContainers := gpuResourcesOnly (p_InitContainers pod);
  p_DeletionTimestamp := p_DeletionTimestamp pod;
  p_Phase := p_Phase pod
|}.

(** ** The transform is invisible to the state machine *)

Lemma gpuEntries_default (m : gmap string Quantity) :
  default ∅ (gpuEntries m) = filter (fun e => isGPU e.1 = true) m.
Proof.
  unfold gpuEntries. destruct (map_to_list _) eqn:E; cbn; [|done].
  by apply map_to_list_empty_iff in E as ->.
Qed.

Lemma map_to_list_filter_perm (P : string * Quantity -> Prop) `{forall e, Decision (P e)} (m : gmap string Quantity) :
  map_to_list (filter P m) ≡ₚ filter P (map_to_list m).
Proof.
  apply NoDup_Permutation; [apply NoDup_map_to_list|apply NoDup_filter, NoDup_map_to_list|].
  intros [k q]. rewrite list_elem_of_filter, !elem_of_map_to_list, map_lookup_filter_Some. tauto.
Qed.

Lemma zsum_filter {A} (g : A -> Z) (P : A -> bool) (l : list A) :
  (forall x, P x = false -> g x = 0%Z) -> zsum g (filter (fun x => P x = true) l) = zsum g l.
Proof.
  intros H0. induction l as [|x l IH]; [done|]. rewrite filter_cons.
  destruct (decide (P x = true)) as [E|E]; cbn; rewrite IH; [done|]. by rewrite H0; [|apply not_true_is_false].
Qed.

Lemma zsum_gpuEntries (g : string * Quantity -> Z) (m : gmap string Quantity) :
  (forall e, isGPU e.1 = false -> g e = 0%Z) ->
  zsum g (map_to_list (filter (fun e => isGPU e.1 = true) m)) = zsum g (map_to_list m).
Proof. intros H0. rewrite (zsum_perm _ _ _ (map_to_list_filter_perm _ m)). by apply zsum_filter. Qed.

(** The container the transform keeps. *)
Definition strip (c : Container) : Container := {|
  c_Requests := filter (fun e => isGPU e.1 = true) (c_Requests c);
  c_Limits := filter (fun e => isGPU e.1 = true) (c_Limits c);
  c_RestartPolicy := c_RestartPolicy c |}.

Lemma strip_units (c : Container) : containerGPUUnits (strip c) = containerGPUUnits c.
Proof.
  rewrite !containerGPUUnits_spec. unfold gpuUnitsSpec. cbn [strip c_Requests c_Limits].
  rewrite !zsum_gpuEntries by (intros e ->; done). do 2 f_equal. apply zsum_ext. intros e _.
  destruct (isGPU e.1) eqn:Eg; [|done]. cbn [andb].
  assert (filter (fun e => isGPU e.1 = true) (c_Requests c) !! e.1 = c_Requests c !! e.1) as ->; [|done].
  destruct (c_Requests c !! e.1) as [q|] eqn:E.
  - apply map_lookup_filter_Some. done.
  - apply map_lookup_filter_None. by left.
Qed.

(** Containers are kept stripped, or dropped for having no GPU units. *)
Lemma gpuResourcesOnly_cons (c : Container) (l : list Container) :
  (gpuResourcesOnly (c :: l) = strip c :: gpuResourcesOnly l) \/
  (gpuResourcesOnly (c :: l) = gpuResourcesOnly l /\ containerGPUUnits c = 0%Z).
Proof.
  pose proof (gpuEntries_default (c_Requests c)) as Hr. pose proof (gpuEntries_default (c_Limits c)) as Hl.
  cbn. destruct (gpuEntries (c_Requests c)), (gpuEntries (c_Limits c)); [left..|right].
  1-3: unfold strip; by rewrite <- Hr, <- Hl.
  split; [done|]. rewrite <- strip_units. unfold strip. by rewrite <- Hr, <- Hl.
Qed.

Lemma sum_gpuResourcesOnly (l : list Container) (s : Z) : in_int64 s ->
  foldl (fun s c => wrap64 (s + containerGPUUnits c)) s (gpuResourcesOnly l) =
  foldl (fun s c => wrap64 (s + containerGPUUnits c)) s l.
Proof.
  revert s. induction l as [|c l IH]; intros s Hs; [done|].
  destruct (gpuResourcesOnly_cons c l) as [->|[-> Hz]]; cbn [foldl].
  - rewrite strip_units. apply IH, wrap64_in.
  - rewrite Hz, Z.add_0_r, wrap64_id by done. by apply IH.
Qed.

Lemma sum_in_int64 (l : list Container) (s : Z) : in_int64 s ->
  in_int64 (foldl (fun s c => wrap64 (s + containerGPUUnits c)) s l).
Proof. revert s. induction l as [|c l IH]; intros s Hs; [done|]. apply IH, wrap64_in. Qed.

(** One step over the init containers: the sidecars' sum, the others' maximum. *)
Definition initStep : Z * Z -> Container -> Z * Z := fun '(s, m) c =>
  let units := containerGPUUnits c in
  if match c_RestartPolicy c with Some r => String.eqb r RestartAlways | None => false end
  then (wrap64 (s + units), m)
  else if (m <? units)%Z then (s, units) else (s, m).

Lemma init_gpuResourcesOnly (l : list Container) (s m : Z) : (0 <= m)%Z -> in_int64 s ->
  foldl initStep (s, m) (gpuResourcesOnly l) = foldl initStep (s, m) l.
Proof.
  revert s m. induction l as [|c l IH]; intros s m Hm Hs; [done|].
  assert (initStep (s, m) (strip c) = initStep (s, m) c) as Hstrip
    by (unfold initStep; by rewrite strip_units).
  assert (exists s' m', initStep (s, m) c = (s', m') /\ (0 <= m')%Z /\ in_int64 s') as (s' & m' & E & Hm' & Hs').
  { unfold initStep. repeat split_bool; eexists _, _; (split; [reflexivity|]); reflect_bools;
      (split; [lia|]); (done || apply wrap64_in). }
  destruct (gpuResourcesOnly_cons c l) as [->|[-> Hz]]; cbn [foldl].
  - rewrite Hstrip, E. by apply IH.
  - rewrite E. replace s' with s; [replace m' with m; [by apply IH|]|];
      unfold initStep in E; rewrite Hz, Z.add_0_r, wrap64_id in E by done;
      (destruct (Z.ltb_spec m 0); [lia|]); revert E; split_bool; by intros [= <- <-].
Qed.

Lemma podTransform_units (p : Pod) : PodGPUUnits (podTransform p) = PodGPUUnits p.
Proof.
  assert (in_int64 0) as H0 by (unfold in_int64, int64_min, int64_max; lia).
  unfold PodGPUUnits. cbn [podTransform p_Containers p_InitContainers]. rewrite sum_gpuResourcesOnly by done.
  pose proof (sum_in_int64 (p_Containers p) 0 H0) as Hs.
  pose proof (init_gpuResourcesOnly (p_InitContainers p) _ 0 ltac:(done) Hs) as E.
  exact (f_equal (fun '(sum, initMax) => Z.max sum initMax) E).
Qed.

(** Keeping so little of a pod is invisible to the controller: every pod is
    classified the same and asks for the same GPU units, so the counts that
    drive the guard, the demand and the multi-GPU rule are those of the pods
    as the API server holds them. *)
Theorem podTransform_transparent (pods : list Pod) :
  (forall p, ClassifyPodByScheduling (podTransform p) = ClassifyPodByScheduling p /\
             PodGPUUnits (podTransform p) = PodGPUUnits p) /\
  CountPerformanceSensitivePods (podTransform <$> pods) = CountPerformanceSensitivePods pods /\
  CountPerformanceDemand (podTransform <$> pods) = CountPerformanceDemand pods /\
  HasRunningMultiGPUPod (podTransform <$> pods) = HasRunningMultiGPUPod pods /\
  forall nodeName, podsByIndex (podTransform <$> pods) nodeName = podTransform <$> podsByIndex pods nodeName.
Proof.
  split; [intros p; split; [done|apply podTransform_units]|].
  induction pods as [|p l (IH1 & IH2 & IH3 & IH4)]; [done|].
  split; [|split; [|split]].
  - cbn. rewrite IH1. done.
  - cbn. rewrite IH2. done.
  - unfold HasRunningMultiGPUPod in *. cbn [fmap list_fmap existsb]. rewrite IH3, podTransform_units. done.
  - intros nodeName. unfold podsByIndex in *. cbn [fmap list_fmap]. rewrite !filter_cons.
    change (podNodeNameIndex (podTransform p)) with (podNodeNameIndex p).
    destruct (decide _); cbn [fmap list_fmap]; by rewrite IH4.
Qed.
End Cache.
