(* ===== verification/Twin.v ===== *)
(** * The digital twin: pkg/controller/twin/twin.go

    [Compute] derives a node's schedulable class, cap state, power budget and
    scores from its hardware, profile and measured power. Only [LastUpdated],
    the time of the call, is left out of the output. *)

From S2P Require Import Prelude GoFloat FloatFacts Api Hwinv.

#[local] Open Scope string_scope.

(** src/pkg/controller/twin/twin.go:29-60 [Input] *)
Record Input := {
  in_NodeName : string;
  in_Hardware : NodeHardware;
  in_Profile : string;
  in_CPUCapPct : float64;
  in_GPUCapPct : float64;
  in_GPUCapNotApplied : bool;
  in_Draining : bool;
  in_MeasuredNodePowerW : float64;
  in_PowerTrendWPerMin : float64;
  in_ClusterTotalPowerW : float64;
  in_OutsideTempC : float64;
  in_OutsideTempKnown : bool;
  in_Rack : string;
  in_CoolingZone : string;
  in_RackTotalPowerW : float64
}.

(** src/pkg/controller/twin/twin.go:62-74 [PowerMeasurementOutput] *)
Record PowerMeasurementOutput := {
  pmo_Source : string;
  pmo_MeasuredNodePowerW : float64;
  pmo_CpuCappedPowerW : float64;
  pmo_GpuCappedPowerW : float64;
  pmo_NodeCappedPowerW : float64;
  pmo_CpuTdpW : float64;
  pmo_GpuTdpW : float64;
  pmo_NodeTdpW : float64;
  pmo_PowerTrendWPerMin : float64
}.

(** src/pkg/controller/twin/twin.go:76-89 [Output] *)
Record Output := {
  SchedulableClass : string;
  PredictedPowerHeadroomScore : float64;
  PredictedCoolingStressScore : float64;
  PredictedPsuStressScore : float64;
  EffectiveCapState : CapState;
  EstimatedPUE : float64;
  out_PowerMeasurement : PowerMeasurementOutput
}.

(** src/pkg/controller/twin/twin.go:205-219 [computePowerHeadroom] *)
Definition computePowerHeadroom (measuredPowerW nodeCappedPowerW : float64) : float64 :=
  if fle nodeCappedPowerW fzero then fofZ 100
  else
    let headroom := fmul (fdiv (fsub nodeCappedPowerW measuredPowerW) nodeCappedPowerW) (fofZ 100) in
    fmin (fofZ 100) headroom.

(** src/pkg/controller/twin/twin.go:221-245 [computeCoolingStress] *)
Definition computeCoolingStress (measuredPowerW nodeTDPW ambientTempC : float64) (ambientKnown : bool) : float64 :=
  if fle nodeTDPW fzero then fzero
  else
    let tempMultiplier :=
      if negb ambientKnown then fone
      else
        let denominator := fsub fone (fmul (fsub ambientTempC (fofZ 20)) (flit 2 100)) in
        fdiv fone (fmax (flit 5 10) denominator) in
    let stress := fmul (fmul (fdiv measuredPowerW nodeTDPW) tempMultiplier) (fofZ 100) in
    fmin (fofZ 100) (fmax fzero stress).

(** src/pkg/controller/twin/twin.go:247-266 [computePSUStress] *)
Definition computePSUStress (i : Input) : float64 :=
  let powerW := in_RackTotalPowerW i in
  let powerW := if fle powerW fzero then in_ClusterTotalPowerW i else powerW in
  if fle powerW fzero then fzero
  else
    let stress := fmul (fdiv powerW (fofZ 50000)) (fofZ 100) in
    fmin (fofZ 100) (fmax fzero stress).

(** src/pkg/controller/twin/twin.go:97-106 [SchedulableClass] *)
Definition schedulableClass (draining : bool) (profile : string) : string :=
  if draining then "draining"
  else if String.eqb profile "eco" then "eco"
  else if String.eqb profile "performance" then "performance"
  else "unknown".

(** src/pkg/controller/twin/twin.go:91-183 [Compute] *)
Definition Compute (i : Input) : Output :=
  let cpuPct := in_CPUCapPct i in
  let cpuPct := if fle cpuPct fzero then fofZ 100 else cpuPct in
  let gpuPct := in_GPUCapPct i in
  let gpuPct := if fle gpuPct fzero then fofZ 100 else gpuPct in
  let cpu := hw_CPU (in_Hardware i) in
  let gpu := hw_GPU (in_Hardware i) in
  let cpuSockets := cpu_Sockets cpu in
  let cpuSockets :=
    if (cpuSockets <=? 0)%Z && flt fzero (MaxWattsPerSocket (cpu_CapRange cpu)) then 1%Z else cpuSockets in
  let cpuTDP := fmul (MaxWattsPerSocket (cpu_CapRange cpu)) (fofZ cpuSockets) in
  let gpuTDP :=
    if gpu_Present gpu
    then fmul (gcr_MaxWatts (gpu_CapRange gpu)) (fofZ (GPUPowerDomains (gpu_Count gpu) (gpu_PowerDomains gpu)))
    else fzero in
  let nodeTDP := fadd cpuTDP gpuTDP in
  let cpuCappedPower :=
    CapForPctW cpuPct (fmul (MinWattsPerSocket (cpu_CapRange cpu)) (fofZ cpuSockets)) cpuTDP in
  let gpuCappedPower := fdiv (fmul gpuTDP gpuPct) (fofZ 100) in
  let gpuCappedPower := if in_GPUCapNotApplied i then gpuTDP else gpuCappedPower in
  let nodeCappedPower := fadd cpuCappedPower gpuCappedPower in
  let cooling :=
    computeCoolingStress (in_MeasuredNodePowerW i) nodeTDP (in_OutsideTempC i)
      (in_OutsideTempKnown i || flt fzero (in_OutsideTempC i)) in
  {| SchedulableClass := schedulableClass (in_Draining i) (in_Profile i);
     PredictedPowerHeadroomScore := computePowerHeadroom (in_MeasuredNodePowerW i) nodeCappedPower;
     PredictedCoolingStressScore := cooling;
     PredictedPsuStressScore := computePSUStress i;
     EffectiveCapState := {| CPUPct := cpuPct; GPUPct := gpuPct |};
     EstimatedPUE := fadd (flit 105 100) (fmul (fdiv cooling (fofZ 100)) (flit 35 100));
     out_PowerMeasurement := {|
       pmo_Source := "";
       pmo_MeasuredNodePowerW := in_MeasuredNodePowerW i;
       pmo_CpuCappedPowerW := cpuCappedPower;
       pmo_GpuCappedPowerW := gpuCappedPower;
       pmo_NodeCappedPowerW := nodeCappedPower;
       pmo_CpuTdpW := cpuTDP;
       pmo_GpuTdpW := gpuTDP;
       pmo_NodeTdpW := nodeTDP;
       pmo_PowerTrendWPerMin := in_PowerTrendWPerMin i |} |}.

(** src/pkg/controller/twin/twin.go:185-203 [GPUCapApplies] *)
Definition GPUCapApplies (gpu : NodeHardwareGPU) (last : option ControlResult) : bool :=
  let fallback := (gpu_Count gpu <=? 0)%Z || gpu_ControlAvailable gpu in
  match last with
  | Some last =>
      if String.eqb (cr_Result last) CapResultBlocked || String.eqb (cr_Result last) CapResultError then false
      else if String.eqb (cr_Result last) CapResultApplied then true
      else fallback
  | None => fallback
  end.

(** ** Scores stay in their ranges *)

(** The multiplier of an ambient temperature is at most 2, whatever the
    reading: the denominator never falls below one half. *)
Lemma temp_multiplier (t : float64) :
  real t ->
  nonneg (fdiv fone (fmax (flit 5 10) (fsub fone (fmul (fsub t (fofZ 20)) (flit 2 100))))).
Proof.
  intros [Vt Ft]. set (d := fsub fone _).
  assert (is_nan (fmul (fsub t (fofZ 20)) (flit 2 100)) = false) as Hm.
  { apply fmul_not_nan; [apply fsub_not_nan|done|done]; [by destruct t|done|by rewrite orb_true_r]. }
  assert (is_nan d = false) as Hd by (apply fsub_not_nan; done).
  assert (valid d) as Vd by (apply fsub_valid; [done|apply fmul_valid; [by apply fsub_valid|done]]).
  set (D := fmax (flit 5 10) d).
  assert (fle (flit 5 10) D = true) as H5 by (apply fmax_ge_l; done).
  assert (valid D) as VD by (unfold D, fmax; by repeat case_match).
  destruct (is_finite D) eqn:FD.
  - assert (nonneg D) as HD by (split; [done|]; split; [done|]; by apply (fle_trans _ (flit 5 10))).
    assert (sval (flit 5 10) <= sval D)%Z as Hs by (by apply fle_sval).
    assert (0 < sval (flit 5 10))%Z as H0 by by vm_compute.
    apply (Rounds_nonneg _ _ _ (fofZ 2) (fdiv_Rounds fone D ltac:(by repeat split) HD ltac:(lia))); [|done].
    apply (Rounds_le _ _ _ (fdiv_Rounds fone D ltac:(by repeat split) HD ltac:(lia))); [done|done|].
    rewrite sval_one. assert (2 ^ scale * 2 ^ scale = sval (flit 5 10) * sval (fofZ 2))%Z as -> by by vm_compute.
    apply Z.mul_le_mono_nonneg_r; [by vm_compute|done].
  - clear Vd. destruct D as [|[]| |]; try done.
Qed.

Lemma cooling_bounds (m tdp t : float64) (known : bool) :
  real m -> real tdp -> real t -> is_finite (fdiv m tdp) = true ->
  fle fzero (computeCoolingStress m tdp t known) = true /\
  fle (computeCoolingStress m tdp t known) (fofZ 100) = true.
Proof.
  intros Hm Ht Ha Hq. unfold computeCoolingStress. destruct (fle tdp fzero) eqn:E; [done|].
  apply clamp_between; [|done].
  apply fmul_not_nan; [|done|done]. apply fmul_not_nan_fin; [done|].
  destruct (negb known); [done|]. by apply temp_multiplier.
Qed.

Lemma psu_bounds (i : Input) :
  is_nan (in_RackTotalPowerW i) = false -> is_nan (in_ClusterTotalPowerW i) = false ->
  fle fzero (computePSUStress i) = true /\ fle (computePSUStress i) (fofZ 100) = true.
Proof.
  intros Hr Hc. unfold computePSUStress.
  set (p := if fle _ _ then in_ClusterTotalPowerW i else in_RackTotalPowerW i).
  assert (is_nan p = false) as Hp by (unfold p; by case_match).
  destruct (fle p fzero); [done|]. apply clamp_between; [|done].
  apply fmul_not_nan; [|done|done]. by apply fdiv_not_nan.
Qed.

(** The double after 1.4: the exact sum of the doubles 1.05 and 0.35 lies
    between the two. *)
Definition maxPUE : float64 := S754_finite false 6305039478318695 (-52).

Lemma PUE_bounds (c : float64) :
  fle fzero c = true -> fle c (fofZ 100) = true -> valid c ->
  let pue := fadd (flit 105 100) (fmul (fdiv c (fofZ 100)) (flit 35 100)) in
  fle (flit 105 100) pue = true /\ fle pue (maxPUE) = true.
Proof.
  intros H0 H1 Vc. cbv zeta.
  assert (nonneg c) as Hc by (split; [done|]; split; [by eapply (finite_between c fzero (fofZ 100))|done]).
  destruct (fdiv_le_one c (fofZ 100) Hc ltac:(by repeat split) ltac:(done) H1) as [Hq Hq1].
  assert (sval (fdiv c (fofZ 100)) <= 2 ^ scale)%Z as Hs by (rewrite <- sval_one; apply fle_sval; try done; apply Hq).
  pose proof (nonneg_sval _ Hq) as Hs0.
  destruct (fmul_le (fdiv c (fofZ 100)) (flit 35 100) (flit 35 100) Hq ltac:(by repeat split) ltac:(by repeat split))
    as [Hp Hp1].
  { apply Z.mul_le_mono_nonneg_r; [by vm_compute|done]. }
  split.
  - apply fadd_ge_l; [by repeat split|done].
  - apply fadd_le; [by repeat split|done|by repeat split|].
    assert (sval (fmul (fdiv c (fofZ 100)) (flit 35 100)) <= sval (flit 35 100))%Z as Hl
      by (apply fle_sval; try done; apply Hp).
    etrans; [apply Z.add_le_mono_l; exact Hl|]. by apply Z.leb_le; vm_compute.
Qed.

(** Readings under which every score is a number. *)
Record goodInput (i : Input) : Prop := {
  gi_measured : real (in_MeasuredNodePowerW i);
  gi_temp : real (in_OutsideTempC i);
  gi_rack : is_nan (in_RackTotalPowerW i) = false;
  gi_cluster : is_nan (in_ClusterTotalPowerW i) = false
}.

(** The twin's scores stay in their documented ranges for every node,
    profile and temperature: the cooling and PSU stress are between 0 and 100
    and the estimated PUE between 1.05 and 1.4 (up to the double next to it),
    for finite readings on a node whose TDP is a finite number and not so
    small that the measured power over it overflows. *)
Theorem Compute_score_ranges (i : Input) :
  goodInput i ->
  let o := Compute i in
  real (pmo_NodeTdpW (out_PowerMeasurement o)) ->
  is_finite (fdiv (in_MeasuredNodePowerW i) (pmo_NodeTdpW (out_PowerMeasurement o))) = true ->
  (fle fzero (PredictedCoolingStressScore o) = true /\ fle (PredictedCoolingStressScore o) (fofZ 100) = true) /\
  (fle fzero (PredictedPsuStressScore o) = true /\ fle (PredictedPsuStressScore o) (fofZ 100) = true) /\
  (fle (flit 105 100) (EstimatedPUE o) = true /\ fle (EstimatedPUE o) maxPUE = true).
Proof.
  intros [Hm Ht Hr Hc]. cbv zeta. cbn [Compute out_PowerMeasurement pmo_NodeTdpW PredictedCoolingStressScore
    PredictedPsuStressScore EstimatedPUE].
  intros Htdp Hq. destruct (cooling_bounds _ _ _ (in_OutsideTempKnown i || flt fzero (in_OutsideTempC i)) Hm Htdp Ht Hq)
    as [H1 H2].
  split; [done|]. split; [by apply psu_bounds|]. apply PUE_bounds; [done|done|].
  unfold computeCoolingStress. destruct (fle _ fzero); [done|].
  apply fmin_valid; [done|]. apply fmax_valid; [done|]. apply fmul_valid; [|done].
  apply fmul_valid; [apply fdiv_valid; [apply Hm|apply Htdp]|]. destruct (negb _); [done|].
  by apply temp_multiplier.
Qed.

(** The headroom score is never above 100, is 100 for an unknown budget
    and for a node that draws nothing, is not negative while the node draws at
    most its budget and not positive once it draws its budget or more. *)
Theorem computePowerHeadroom_correct (measured capped : float64) :
  real measured -> real capped ->
  let score := computePowerHeadroom measured capped in
  fle score (fofZ 100) = true /\
  (fle capped fzero = true -> score = fofZ 100) /\
  computePowerHeadroom fzero capped = fofZ 100 /\
  (flt fzero capped = true ->
     (fle measured capped = true -> fle fzero score = true) /\
     (fle capped measured = true -> fle score fzero = true)).
Proof.
  intros [Vm Fm] Hc. pose proof Hc as [Vc Fc]. cbv zeta. unfold computePowerHeadroom.
  destruct (fle capped fzero) eqn:E; [split; [done|]; split; [done|]; split; [done|]; intros; forder|].
  assert (flt fzero capped = true) as Hp by by destruct capped as [|[]| |[]].
  pose proof (real_pos_nonneg capped Hc Hp) as Nc.
  assert (is_nan (fdiv (fsub capped measured) capped) = false) as Hd.
  { apply fdiv_not_nan; [|done|forder]. apply fsub_not_nan; [by destruct capped|by destruct measured|by rewrite Fc]. }
  assert (is_nan (fmul (fdiv (fsub capped measured) capped) (fofZ 100)) = false) as Hs by by apply fmul_not_nan.
  split; [by apply fmin_le_l|]. split; [done|]. split.
  { rewrite fsub_zero_r, fdiv_self by done. by vm_compute. }
  intros _. split; intros Hle.
  - apply fmin_glb; [done|].
    assert (fle fzero (fdiv (fsub capped measured) capped) = true) as H0
      by (apply fdiv_nonneg_inf; [by apply fsub_nonneg|done|done]).
    destruct (is_finite (fdiv (fsub capped measured) capped)) eqn:EF; [by apply fmul_nonneg|].
    destruct (fdiv (fsub capped measured) capped) as [|[]| |]; done.
  - eapply fle_trans; [by apply fmin_le_r|]. apply fmul_nonpos; [|done|done].
    apply fdiv_nonpos; [by apply fsub_nonpos|done|done].
Qed.

Example computePowerHeadroom_correct_witness :
  computePowerHeadroom fzero (fofZ 400) = fofZ 100 /\ fle (computePowerHeadroom (fofZ 500) (fofZ 400)) fzero = true.
Proof.
  destruct (computePowerHeadroom_correct (fofZ 500) (fofZ 400)) as (_ & _ & H0 & H); [by repeat split..|].
  split; [exact H0|]. apply H; by vm_compute.
Defined.

(** The CPU side of a node, whole. *)
Definition cpuSocketsAssumed (cpu : NodeHardwareCPU) : Z :=
  if (cpu_Sockets cpu <=? 0)%Z && flt fzero (MaxWattsPerSocket (cpu_CapRange cpu)) then 1%Z else cpu_Sockets cpu.

(** The CPU power budget of a node lies between its cap range's ends, both
    times the sockets (one socket where the count is unknown but the maximum
    is not), whatever percentage is planned; without a CPU cap, planned as 100
    or as not set, it is the CPU TDP; and a GPU cap that does not reach the
    GPUs leaves the GPU budget at their TDP. *)
Theorem Compute_power_budget (i : Input) :
  let cpu := hw_CPU (in_Hardware i) in
  let n := fofZ (cpuSocketsAssumed cpu) in
  let minW := fmul (MinWattsPerSocket (cpu_CapRange cpu)) n in
  let maxW := fmul (MaxWattsPerSocket (cpu_CapRange cpu)) n in
  let p := out_PowerMeasurement (Compute i) in
  is_nan (in_CPUCapPct i) = false -> nonneg maxW -> flt fzero maxW = true -> fle minW maxW = true ->
  pmo_CpuTdpW p = maxW /\
  fle minW (pmo_CpuCappedPowerW p) = true /\ fle (pmo_CpuCappedPowerW p) maxW = true /\
  (fle (in_CPUCapPct i) fzero = true \/ in_CPUCapPct i = fofZ 100 -> pmo_CpuCappedPowerW p = maxW) /\
  (in_GPUCapNotApplied i = true -> pmo_GpuCappedPowerW p = pmo_GpuTdpW p).
Proof.
  cbv zeta. unfold cpuSocketsAssumed.
  cbn [Compute out_PowerMeasurement pmo_CpuTdpW pmo_CpuCappedPowerW pmo_GpuCappedPowerW pmo_GpuTdpW].
  intros Hp Hn Hmax Hle. split; [done|].
  set (pct := if fle (in_CPUCapPct i) fzero then fofZ 100 else in_CPUCapPct i).
  assert (is_nan pct = false) as Hpct by (unfold pct; destruct (fle (in_CPUCapPct i) fzero); [by vm_compute|exact Hp]).
  destruct (CapForPctW_between pct _ _ Hpct (proj1 (proj2 Hn)) Hmax Hle) as [H1 H2].
  split; [done|]. split; [done|]. split; [|by intros ->].
  intros Hc. assert (pct = fofZ 100) as ->; [|by apply CapForPctW_full].
  unfold pct. destruct Hc as [->| ->]; [done|]. by destruct (fle (fofZ 100) fzero).
Qed.

(** A two-socket node with four GPUs, eco at 60 percent, on a warm day. *)
Definition sampleInput : Input := {|
  in_NodeName := "node-a";
  in_Hardware := {|
    hw_NodeName := "node-a";
    hw_CPU := {| cpu_RawModel := ""; cpu_Model := ""; cpu_Sockets := 2; cpu_TotalCores := 128;
                 cpu_CapRange := {| MinWattsPerSocket := fofZ 198; MaxWattsPerSocket := fofZ 360 |} |};
    hw_GPU := {| gpu_Present := true; gpu_RawModel := ""; gpu_Model := ""; gpu_Count := 4; gpu_PowerDomains := 0;
                 gpu_CapRange := {| gcr_MinWatts := fofZ 200; gcr_MaxWatts := fofZ 700; gcr_DefaultWatts := fofZ 700 |};
                 gpu_ControlAvailable := true |} |};
  in_Profile := "eco"; in_CPUCapPct := fofZ 60; in_GPUCapPct := fofZ 60; in_GPUCapNotApplied := false;
  in_Draining := false; in_MeasuredNodePowerW := fofZ 1500; in_PowerTrendWPerMin := fzero;
  in_ClusterTotalPowerW := fofZ 20000; in_OutsideTempC := fofZ 35; in_OutsideTempKnown := true;
  in_Rack := ""; in_CoolingZone := ""; in_RackTotalPowerW := fzero |}.

Example Compute_score_ranges_witness :
  fle (PredictedCoolingStressScore (Compute sampleInput)) (fofZ 100) = true /\
  flt (fofZ 50) (PredictedCoolingStressScore (Compute sampleInput)) = true.
Proof.
  split; [|by vm_compute].
  refine (proj2 (proj1 (Compute_score_ranges sampleInput _ _ _))).
  - split; by repeat split.
  - split; by vm_compute.
  - by vm_compute.
Defined.

Example Compute_power_budget_witness :
  fle (pmo_CpuCappedPowerW (out_PowerMeasurement (Compute sampleInput))) (fofZ 720) = true /\
  pmo_CpuCappedPowerW (out_PowerMeasurement (Compute sampleInput)) = fofZ 432.
Proof.
  split; [|by vm_compute].
  eapply fle_trans.
  - refine (proj1 (proj2 (proj2 (Compute_power_budget sampleInput _ _ _ _)))); by vm_compute.
  - by vm_compute.
Defined.
