(* ===== verification/Env.v ===== *)
(** * Environment variables: the readers of cmd/controller-manager/main.go

    The environment is a map from names to values. [strconv.ParseFloat] is a
    parameter of the readers that call it: what they promise holds for any. *)

From S2P Require Import Prelude GoString GoFloat.

#[local] Open Scope string_scope.

(** [os.Getenv] and [os.LookupEnv]. *)
Definition Environ : Type := gmap string string.
Definition Getenv (env : Environ) (key : string) : string := get_str env key.
Definition LookupEnv (env : Environ) (key : string) : option string := env !! key.

(** src/cmd/controller-manager/main.go:1313-1320 [floatEnv] *)
Definition floatEnv (ParseFloat : string -> option float64) (env : Environ) (key : string) (def : float64) : float64 :=
  let s := TrimSpace (Getenv env key) in
  if negb (String.eqb s "") then match ParseFloat s with Some v => v | None => def end else def.

(** src/cmd/controller-manager/main.go:1322-1329 [intEnv] *)
Definition intEnv (env : Environ) (key : string) (def : Z) : Z :=
  let s := TrimSpace (Getenv env key) in
  if negb (String.eqb s "") then match Atoi s with Some v => v | None => def end else def.

(** src/cmd/controller-manager/main.go:1331-1335 [boolEnvWords] *)
Definition boolEnvWords : gmap string bool :=
  list_to_map [("true", true); ("1", true); ("yes", true); ("on", true);
               ("false", false); ("0", false); ("no", false); ("off", false)].

(** src/cmd/controller-manager/main.go:1340-1355 [boolEnv] *)
Definition boolEnv (env : Environ) (key : string) (def : bool) : bool :=
  let raw := TrimSpace (Getenv env key) in
  if String.eqb raw "" then def
  else match boolEnvWords !! ToLower raw with Some v => v | None => def end.

(** src/cmd/controller-manager/main.go:1357-1363 [envOrDefault] *)
Definition envOrDefault (env : Environ) (key def : string) : string :=
  let v := TrimSpace (Getenv env key) in
  if String.eqb v "" then def else v.

(** ** What a reader answers *)

(** A value that is not one of the words leaves the default. *)
Lemma boolEnv_typo (env : Environ) (key : string) (def : bool) :
  boolEnvWords !! ToLower (TrimSpace (Getenv env key)) = None -> boolEnv env key def = def.
Proof. unfold boolEnv. intros ->. by destruct (String.eqb _ _). Qed.

Lemma boolEnv_flips (env : Environ) (key : string) (def : bool) :
  boolEnv env key def <> def ->
  boolEnvWords !! ToLower (TrimSpace (Getenv env key)) = Some (negb def).
Proof.
  unfold boolEnv. destruct (String.eqb _ _); [done|].
  destruct (boolEnvWords !! _) as [v|]; [|done]. by destruct v, def.
Qed.

Lemma envOrDefault_cases (env : Environ) (key def : string) :
  envOrDefault env key def = def \/ envOrDefault env key def = TrimSpace (Getenv env key).
Proof. unfold envOrDefault. destruct (String.eqb _ _); [by left|by right]. Qed.

Example boolEnv_words :
  boolEnv {["A" := " YES "]} "A" false = true /\ boolEnv {["A" := "yse"]} "A" false = false /\
  boolEnv {["A" := "Off"]} "A" true = false /\ boolEnv ∅ "A" true = true.
Proof. vm_compute. done. Qed.
