(* ===== verification/GoSlices.v ===== *)
(** * Go's slices package on integers and words, and strings.Fields

    Sorting and compacting integers ([slices.Sort], [slices.Compact]) with
    the lemmas that make the result one strictly increasing list, and the
    splitting of a line into words with the lemmas that let a parser compute
    on a line built from words. *)

From Stdlib Require Import DecimalString DecimalZ.
From S2P Require Import Prelude GoString.

(** ** Sorted, distinct integers *)

(** [slices.Compact]: of each run of equal elements one is kept. *)
Fixpoint Compact {A} (eqb : A -> A -> bool) (l : list A) : list A :=
  match l with
  | x :: (y :: _) as rest => if eqb x y then Compact eqb rest else x :: Compact eqb rest
  | _ => l
  end.

(** [slices.Sort] on integers. *)
Definition sort_ints (l : list Z) : list Z := sort_slice Z.ltb l.

#[export] Instance Zltb_strict : StrictTotal Z.ltb.
Proof. split; intros; lia. Qed.

Definition increasing (l : list Z) : Prop := StronglySorted Z.lt l.

Lemma elem_of_Compact (l : list Z) x : x ∈ Compact Z.eqb l <-> x ∈ l.
Proof.
  induction l as [|a [|b l] IH]; [done|done|]. cbn [Compact]. destruct (Z.eqb_spec a b) as [->|]; rewrite ?elem_of_cons in *.
  - rewrite IH. tauto.
  - rewrite IH. tauto.
Qed.

Lemma Compact_increasing (l : list Z) : StronglySorted (not_after Z.ltb) l -> increasing (Compact Z.eqb l).
Proof.
  unfold increasing. induction 1 as [|a l Hl IH Ha]; [constructor|]. destruct l as [|b l].
  - repeat constructor.
  - cbn [Compact]. destruct (Z.eqb_spec a b) as [->|Hab]; [exact IH|].
    constructor; [exact IH|]. apply Forall_forall. intros x Hx.
    apply (elem_of_Compact (b :: l)) in Hx.
    inversion Hl as [|? ? _ Hb]; subst. unfold not_after in *. rewrite Forall_forall in Ha, Hb.
    pose proof (Ha b ltac:(left)). apply elem_of_cons in Hx as [->|Hx]; [lia|]. pose proof (Hb x Hx). lia.
Qed.

(** The distinct elements of a list of integers, in increasing order. *)
Definition sorted_distinct (l : list Z) : list Z := Compact Z.eqb (sort_ints l).

Lemma sorted_distinct_increasing l : increasing (sorted_distinct l).
Proof. apply Compact_increasing, sort_slice_sorted. apply _. Qed.

Lemma elem_of_sorted_distinct l x : x ∈ sorted_distinct l <-> x ∈ l.
Proof. unfold sorted_distinct. rewrite elem_of_Compact. unfold sort_ints. by rewrite sort_slice_perm. Qed.

Lemma increasing_NoDup l : increasing l -> NoDup l.
Proof.
  induction 1 as [|a l _ IH Ha]; constructor; [|exact IH]. rewrite Forall_forall in Ha.
  intros H%Ha. lia.
Qed.

(** The first element is the least and the last the greatest. *)
Lemma increasing_head l lo : increasing l -> head l = Some lo -> lo ∈ l /\ forall x, x ∈ l -> (lo <= x)%Z.
Proof.
  destruct 1 as [|a l _ Ha]; [done|]. intros [= <-]. split; [left|].
  rewrite Forall_forall in Ha. intros x [->|Hx]%elem_of_cons; [lia|]. pose proof (Ha x Hx). lia.
Qed.

Lemma increasing_last l hi : increasing l -> last l = Some hi -> hi ∈ l /\ forall x, x ∈ l -> (x <= hi)%Z.
Proof.
  intros Hl Hh. split; [by apply last_Some_elem_of|]. induction Hl as [|a l Hl IH Ha]; [done|].
  destruct l as [|b l].
  - injection Hh as <-. intros x [->|H%not_elem_of_nil]%elem_of_cons; [lia|done].
  - change (last (a :: b :: l)) with (last (b :: l)) in Hh. specialize (IH Hh).
    rewrite Forall_forall in Ha. pose proof (IH b ltac:(left)). pose proof (Ha b ltac:(left)).
    intros x [->|Hx]%elem_of_cons; [lia|by apply IH].
Qed.

(** The scan that keeps the last element of an increasing list with a
    property true of a lower set finds the greatest such. *)
Lemma scan_last (P : Z -> bool) l c0 :
  increasing l ->
  let c := foldl (fun c x => if P x then x else c) c0 l in
  (c ∈ l /\ P c = true /\ forall x, x ∈ l -> P x = true -> (x <= c)%Z) \/
  (c = c0 /\ forall x, x ∈ l -> P x = false).
Proof.
  intros Hl. revert c0. induction Hl as [|a l Hl IH Ha]; intros c0; cbn [foldl].
  - right. split; [done|]. by intros x ?%not_elem_of_nil.
  - rewrite Forall_forall in Ha. destruct (IH (if P a then a else c0)) as [(Hin & HP & Hm)|[-> Hno]].
    + left. split; [by right|]. split; [exact HP|]. intros x [->|Hx]%elem_of_cons HPx; [|by apply Hm].
      pose proof (Ha _ Hin). lia.
    + destruct (P a) eqn:E.
      * left. split; [left|]. split; [done|]. intros x [->|Hx]%elem_of_cons HPx; [lia|].
        pose proof (Hno x Hx). congruence.
      * right. split; [done|]. intros x [->|Hx]%elem_of_cons; [done|by apply Hno].
Qed.

(** ** Words *)

Fixpoint fields_fuel (fuel : nat) (l cur : list ascii) : list (list ascii) :=
  let flush ws := match cur with [] => ws | _ => rev cur :: ws end in
  match fuel, l with
  | S fuel', a :: l' =>
      match strip_any space_prefixes l with
      | Some rest => flush (fields_fuel fuel' rest [])
      | None => fields_fuel fuel' l' (a :: cur)
      end
  | _, _ => flush []
  end.

(** [strings.Fields]: the maximal runs of bytes that are not white space. *)
Definition Fields (s : string) : list string :=
  string_of_list_ascii <$> fields_fuel (String.length s) (list_ascii_of_string s) [].

Definition plain (s : string) : Prop := Forall plain_char (list_ascii_of_string s).

Lemma strip_any_plain_cons a l : plain_char a -> strip_any space_prefixes (a :: l) = None.
Proof.
  intros Ha. assert (Forall (fun p => match p with b :: _ => (b < 33 \/ 128 <= b)%N | [] => False end) space_prefixes) as Hs
    by (repeat (constructor; [cbn; lia|]); constructor).
  induction Hs as [|p ps Hp _ IH]; [done|]. cbn [strip_any]. destruct p as [|b p]; [done|]. cbn [strip_prefix].
  unfold plain_char in Ha. destruct (N.eqb_spec (byte_of a) b); [lia|exact IH].
Qed.

Lemma fields_word n w l cur :
  Forall plain_char w -> fields_fuel (length w + n) (w ++ l) cur = fields_fuel n l (rev w ++ cur).
Proof.
  intros Hw. revert cur. induction Hw as [|a w Ha Hw IH]; intros cur; [done|].
  cbn [length app Nat.add fields_fuel]. rewrite strip_any_plain_cons by done. rewrite IH.
  cbn [rev]. by rewrite <- app_assoc.
Qed.

Lemma Fields_nil : Fields "" = [].
Proof. reflexivity. Qed.

Lemma string_of_app l1 l2 : string_of_list_ascii (l1 ++ l2) = string_of_list_ascii l1 +:+ string_of_list_ascii l2.
Proof. apply list_ascii_inj. by rewrite list_ascii_app, !list_ascii_of_string_of_list_ascii. Qed.

(** A word and a space before a line put the word before its words. *)
Lemma Fields_word w s : plain w -> w <> ""%string -> Fields (w +:+ String " " s) = w :: Fields s.
Proof.
  intros Hw Hne. unfold Fields. rewrite list_ascii_app, length_app_string. cbn [list_ascii_of_string String.length].
  rewrite <- (length_list_ascii w), fields_word by done. rewrite app_nil_r. cbn [fields_fuel].
  change (strip_any space_prefixes (" "%char :: list_ascii_of_string s)) with (Some (list_ascii_of_string s)).
  cbn iota. destruct (rev (list_ascii_of_string w)) as [|a r] eqn:E.
  - assert (list_ascii_of_string w = []) as E' by (rewrite <- (rev_involutive (list_ascii_of_string w)), E; done).
    by destruct w.
  - rewrite <- E, rev_involutive. cbn [fmap list_fmap]. by rewrite string_of_list_ascii_of_string.
Qed.

Lemma Fields_last w : plain w -> w <> ""%string -> Fields w = [w].
Proof.
  intros Hw Hne. unfold Fields. rewrite <- length_list_ascii.
  rewrite <- (Nat.add_0_r (length _)). rewrite <- (app_nil_r (list_ascii_of_string w)) at 2.
  rewrite fields_word by done. rewrite app_nil_r. cbn [fields_fuel].
  destruct (rev (list_ascii_of_string w)) as [|a r] eqn:E.
  - assert (list_ascii_of_string w = []) as E' by (rewrite <- (rev_involutive (list_ascii_of_string w)), E; done).
    by destruct w.
  - rewrite <- E, rev_involutive. cbn [fmap list_fmap]. by rewrite string_of_list_ascii_of_string.
Qed.

(** The words of words joined by spaces are the words. *)
Lemma Fields_Join ws : Forall (fun w => plain w /\ w <> ""%string) ws -> Fields (Join ws " ") = ws.
Proof.
  induction 1 as [|w ws [Hw Hne] Hws IH]; [done|]. destruct ws as [|v ws].
  - by apply Fields_last.
  - change (Join (w :: v :: ws) " ") with (w +:+ String " " (Join (v :: ws) " ")).
    rewrite Fields_word by done. by f_equal.
Qed.

Lemma plain_app s t : plain s -> plain t -> plain (s +:+ t).
Proof. intros. unfold plain. rewrite list_ascii_app. by apply Forall_app. Qed.

Lemma plain_Itoa n : plain (Itoa n).
Proof.
  destruct (decide (0 <= n)%Z) as [H|H]; [by apply digit_plain, Itoa_digits|].
  destruct n as [|p|p]; try lia. unfold plain, Itoa, Z.to_int. cbn [NilZero.string_of_int list_ascii_of_string].
  constructor; [unfold plain_char; cbn; lia|]. apply digit_plain, NilZero_string_digits.
Qed.

Lemma Itoa_nonempty n : Itoa n <> ""%string.
Proof.
  destruct n as [|p|p]; unfold Itoa, Z.to_int; cbn [NilZero.string_of_int]; try done.
  intros E. pose proof (Itoa_uval (Z.pos p) ltac:(lia)) as (_ & _ & Hne & _). by apply Hne.
Qed.

(** Distinct numbers in range have distinct spellings. *)
Lemma Itoa_inj a b : in_int64 a -> in_int64 b -> Itoa a = Itoa b -> a = b.
Proof. intros Ha Hb E. pose proof (Atoi_Itoa a Ha) as H. rewrite E, Atoi_Itoa in H by done. congruence. Qed.

Ltac plain_word := unfold plain; repeat (constructor; [unfold plain_char; vm_compute; split; congruence|]); constructor.

(** An append whose first part is known is injective in the rest. *)
Lemma app_string_inj_l s t u : s +:+ t = s +:+ u -> t = u.
Proof. intros H. apply (f_equal list_ascii_of_string) in H. rewrite !list_ascii_app in H. apply app_inv_head in H. by apply list_ascii_inj. Qed.

Lemma app_string_inj_r s t u : s +:+ u = t +:+ u -> s = t.
Proof. intros H. apply (f_equal list_ascii_of_string) in H. rewrite !list_ascii_app in H. apply app_inv_tail in H. by apply list_ascii_inj. Qed.

Example Fields_ex : Fields " powersave  epp=balance_power
" = ["powersave"; "epp=balance_power"]%string.
Proof. vm_compute. reflexivity. Qed.
Example sorted_distinct_ex : sorted_distinct [5; 1; 5; 3; 1]%Z = [1; 3; 5]%Z.
Proof. vm_compute. reflexivity. Qed.
