(* ===== verification/Governor.v ===== *)
(** * Governor presets: the vocabulary and the plans of pkg/governor

    The governor words of pkg/api, the facts discovery hands a planner, and
    what a plan is: writes to sysfs attributes or nvidia-smi invocations,
    with the native state they set. The planners are in CpuGovernor.v and
    GpuGovernor.v. A plan is run by [writeAll], the attribute tree with every
    write taken in order. *)

From S2P Require Import Prelude GoString GoFloat GoSlices Api.

#[local] Open Scope string_scope.

(** ** The words of pkg/api *)

(** src/pkg/api/governor.go:62-92 [GovernorResultApplied, GovernorResultAppliedUnverified, GovernorResultEquivalent, GovernorResultUnsupported, GovernorResultNotApplied, GovernorResultRefused, GovernorResultDrift, GovernorResultContended, GovernorResultDisabled, GovernorResultRestored, GovernorResultError] *)
Definition GovernorResultApplied : string := "applied".
Definition GovernorResultAppliedUnverified : string := "applied-unverified".
Definition GovernorResultEquivalent : string := "equivalent".
Definition GovernorResultUnsupported : string := "unsupported".
Definition GovernorResultNotApplied : string := "not-applied".
Definition GovernorResultRefused : string := "refused".
Definition GovernorResultDrift : string := "drift".
Definition GovernorResultContended : string := "contended".
Definition GovernorResultDisabled : string := "disabled".
Definition GovernorResultRestored : string := "restored".
Definition GovernorResultError : string := "error".

(** src/pkg/api/governor.go:95-100 [GovernorResultValues] *)
Definition GovernorResultValues : list string :=
  [GovernorResultApplied; GovernorResultAppliedUnverified; GovernorResultEquivalent;
   GovernorResultUnsupported; GovernorResultNotApplied; GovernorResultRefused;
   GovernorResultDrift; GovernorResultContended; GovernorResultDisabled;
   GovernorResultRestored; GovernorResultError].

(** src/pkg/api/governor.go:108-115 [GovernorBackendCPUFreq, GovernorBackendAMDGPUSysfs, GovernorBackendNvidiaSMI] *)
Definition GovernorBackendCPUFreq : string := "cpufreq".
Definition GovernorBackendAMDGPUSysfs : string := "amdgpu-sysfs".
Definition GovernorBackendNvidiaSMI : string := "nvidia-smi".

(** src/pkg/api/governor.go:127-133 [CPUDriverModeActive, CPUDriverModePassive, CPUDriverModeGuided, CPUDriverModeValues] *)
Definition CPUDriverModeActive : string := "active".
Definition CPUDriverModePassive : string := "passive".
Definition CPUDriverModeGuided : string := "guided".
Definition CPUDriverModeValues : list string := [CPUDriverModeActive; CPUDriverModePassive; CPUDriverModeGuided].

(** src/pkg/api/governor.go:137-144 [CPUBoostScopeGlobal, CPUBoostScopePerCPU, CPUBoostScopeNoTurbo] *)
Definition CPUBoostScopeGlobal : string := "global".
Definition CPUBoostScopePerCPU : string := "per-cpu".
Definition CPUBoostScopeNoTurbo : string := "no-turbo".

(** src/pkg/api/governor.go:150-160 [GovernorCurrentMixed, GovernorStateUnknown, GovernorStateUnlocked] *)
Definition GovernorCurrentMixed : string := "mixed".
Definition GovernorStateUnknown : string := "unknown".
Definition GovernorStateUnlocked : string := "unlocked".

(** ** Facts *)

(** src/pkg/governor/types.go:15-22 [AMDFamilyNavi31, AMDFamilyAldebaran, AMDFamilyMI300] *)
Definition AMDFamilyNavi31 : string := "navi31".
Definition AMDFamilyAldebaran : string := "aldebaran".
Definition AMDFamilyMI300 : string := "mi300".

(** src/pkg/governor/types.go:26-31 [NVArchAmpere, NVArchAda, NVArchHopper, NVArchBlackwell] *)
Definition NVArchAmpere : string := "ampere".
Definition NVArchAda : string := "ada".
Definition NVArchHopper : string := "hopper".
Definition NVArchBlackwell : string := "blackwell".

(** The driver's mode is reported, never planned with.
    src/pkg/governor/types.go:50-71 [CPUFacts] *)
Record CPUFacts := {
  cf_Driver : string;
  cf_DriverMode : string;
  cf_HWP : bool;
  cf_Governors : list string;
  cf_EPPs : list string;
  cf_BoostScope : string;
  cf_Policies : list Z
}.

(** A Go [\[2\]int] is a pair.
    src/pkg/governor/types.go:76-93 [AMDFacts] *)
Record AMDFacts := {
  af_BusID : string;
  af_DeviceID : string;
  af_Family : string;
  af_Level : string;
  af_OD : bool;
  af_SclkMHz : Z * Z;
  af_MclkMHz : Z * Z;
  af_FclkMHz : Z * Z
}.

(** src/pkg/governor/types.go:96-109 [NVFacts] *)
Record NVFacts := {
  nf_Arch : string;
  nf_SupportedSMMHz : list Z;
  nf_SupportedMemMHz : list Z;
  nf_MemLockRuntime : bool;
  nf_LockedGPU : bool;
  nf_LockedMem : bool
}.

(** ** Plans *)

(** src/pkg/governor/types.go:114-116 [Write] *)
Record Write := mkWrite { w_RelPath : string; w_Value : string }.

#[export] Instance Write_eq_dec : EqDecision Write.
Proof. solve_decision. Defined.

(** The nil pointers of the locks are [None].
    src/pkg/governor/types.go:121-134 [State] *)
Record State := mkState {
  st_Governor : string;
  st_EPP : string;
  st_Boost : string;
  st_Level : string;
  st_SclkMaxMHz : Z;
  st_GPULockMHz : option (Z * Z);
  st_MemLockMHz : option (Z * Z)
}.

Definition noState : State := mkState "" "" "" "" 0 None None.

(** src/pkg/governor/types.go:160-166 [Plan] *)
Record Plan := mkPlan {
  p_Writes : list Write;
  p_Args : list (list string);
  p_State : State;
  p_Native : string;
  p_Result : string
}.

Definition unsupportedPlan : Plan := mkPlan [] [] noState "" GovernorResultUnsupported.

(** ** Paths *)

(** src/pkg/governor/paths.go:11-25 [CPUFreqRelDir, IntelPstateRelDir, AMDPstateRelDir, PCIDevicesRelDir, GlobalBoostRelPath, NoTurboRelPath] *)
Definition CPUFreqRelDir : string := "devices/system/cpu/cpufreq".
Definition IntelPstateRelDir : string := "devices/system/cpu/intel_pstate".
Definition AMDPstateRelDir : string := "devices/system/cpu/amd_pstate".
Definition PCIDevicesRelDir : string := "bus/pci/devices".
Definition GlobalBoostRelPath : string := CPUFreqRelDir +:+ "/boost".
Definition NoTurboRelPath : string := IntelPstateRelDir +:+ "/no_turbo".

(** src/pkg/governor/paths.go:28-41 [PolicyGovernorFile, PolicyEPPFile, PolicyBoostFile, AMDLevelFile, AMDODFile, AMDLevelAuto] *)
Definition PolicyGovernorFile : string := "scaling_governor".
Definition PolicyEPPFile : string := "energy_performance_preference".
Definition PolicyBoostFile : string := "boost".
Definition AMDLevelFile : string := "power_dpm_force_performance_level".
Definition AMDODFile : string := "pp_od_clk_voltage".
Definition AMDLevelAuto : string := "auto".

(** src/pkg/governor/paths.go:44-46 [PolicyRelPath] *)
Definition PolicyRelPath (n : Z) (file : string) : string :=
  CPUFreqRelDir +:+ "/policy" +:+ Itoa n +:+ "/" +:+ file.

(** src/pkg/governor/paths.go:50-52 [AMDDeviceRelPath] *)
Definition AMDDeviceRelPath (busID file : string) : string :=
  PCIDevicesRelDir +:+ "/" +:+ ToLower busID +:+ "/" +:+ file.

(** src/pkg/governor/paths.go:57-59 [IsODWrite] *)
Definition IsODWrite (w : Write) : bool := HasSuffix (w_RelPath w) ("/" +:+ AMDODFile).

(** ** Lemmas on paths *)

Lemma slash_free s : plain s -> Forall (fun a => a <> "/"%char) (list_ascii_of_string s) ->
  forall t, Cut (s +:+ String "/" t) "/" = (s, t, true).
Proof. intros _ H t. by apply Cut_byte. Qed.

Lemma Itoa_no_slash n : Forall (fun a => a <> "/"%char) (list_ascii_of_string (Itoa n)).
Proof.
  destruct (decide (0 <= n)%Z) as [H|H]; [by apply digit_not, Itoa_digits|].
  destruct n as [|p|p]; try lia. unfold Itoa, Z.to_int. cbn [DecimalString.NilZero.string_of_int list_ascii_of_string].
  constructor; [done|]. apply digit_not; [done|]. apply NilZero_string_digits.
Qed.

Lemma PolicyRelPath_inj n m f g : in_int64 n -> in_int64 m ->
  PolicyRelPath n f = PolicyRelPath m g -> n = m /\ f = g.
Proof.
  unfold PolicyRelPath. intros Hn Hm H%app_string_inj_l%app_string_inj_l.
  change ("/" +:+ f) with (String "/" f) in H. change ("/" +:+ g) with (String "/" g) in H.
  pose proof (Cut_byte "/" (Itoa n) f (Itoa_no_slash n)) as E. rewrite H in E.
  rewrite (Cut_byte "/" (Itoa m) g (Itoa_no_slash m)) in E. injection E as E ->.
  split; [|done]. symmetry. by apply Itoa_inj.
Qed.

(** ** Running writes *)

(** The attribute tree after the writes, each taken as written, in order. *)
Definition writeAll (files : gmap string string) (ws : list Write) : gmap string string :=
  foldl (fun files w => <[w_RelPath w := w_Value w]> files) files ws.

Lemma writeAll_other files ws path :
  path ∉ (w_RelPath <$> ws) -> writeAll files ws !! path = files !! path.
Proof.
  unfold writeAll. revert files. induction ws as [|w ws IH]; intros files; [done|].
  cbn [fmap list_fmap foldl]. intros [Hne Hin]%not_elem_of_cons. rewrite IH by done. by apply lookup_insert_ne.
Qed.

Lemma writeAll_app files ws ws' : writeAll files (ws ++ ws') = writeAll (writeAll files ws) ws'.
Proof. apply foldl_app. Qed.

Lemma writeAll_elem files ws w :
  NoDup (w_RelPath <$> ws) -> w ∈ ws -> writeAll files ws !! w_RelPath w = Some (w_Value w).
Proof.
  unfold writeAll. revert files. induction ws as [|v ws IH]; intros files Hnd; [by intros ?%not_elem_of_nil|].
  cbn [fmap list_fmap] in Hnd. apply NoDup_cons in Hnd as [Hv Hnd]. cbn [foldl].
  intros [->|Hw]%elem_of_cons; [|by apply IH].
  rewrite (writeAll_other _ ws (w_RelPath v)) by done. apply lookup_insert_eq.
Qed.

(** Every write of a path agreeing on its value leaves that value. *)
Lemma writeAll_agree files ws path v :
  path ∈ (w_RelPath <$> ws) -> (forall w, w ∈ ws -> w_RelPath w = path -> w_Value w = v) ->
  writeAll files ws !! path = Some v.
Proof.
  induction ws as [|w ws IH] using rev_ind; [by intros ?%not_elem_of_nil|]. intros Hin Hv.
  rewrite writeAll_app. unfold writeAll at 1. cbn [foldl]. destruct (decide (w_RelPath w = path)) as [<-|Hne].
  - rewrite lookup_insert_eq. f_equal. apply Hv; [|done]. apply elem_of_app. right. by left.
  - rewrite lookup_insert_ne by done. apply IH.
    + rewrite fmap_app in Hin. apply elem_of_app in Hin as [|Hin%list_elem_of_singleton]; [done|]. by destruct Hne.
    + intros u Hu. apply Hv. apply elem_of_app. by left.
Qed.
