(* ===== verification/CpuGovernor.v ===== *)
(** * CPU governor presets: pkg/governor/cpu.go

    Which cpufreq governor and energy-performance preference a preset is on a
    node, the writes that set it, the groups a baseline restore writes, and
    the preset a native state is read back as. Errors of the planner are
    [None]: an unknown preset or boost word. *)

From S2P Require Import Prelude GoString GoFloat GoSlices Api Governor.

#[local] Open Scope string_scope.

(** src/pkg/governor/cpu.go:12-21 [govPerformance, govPowersave, govSchedutil, govOndemand, govConservative, eppBalancePerformance, eppBalancePower] *)
Definition govPerformance : string := "performance".
Definition govPowersave : string := "powersave".
Definition govSchedutil : string := "schedutil".
Definition govOndemand : string := "ondemand".
Definition govConservative : string := "conservative".
Definition eppBalancePerformance : string := "balance_performance".
Definition eppBalancePower : string := "balance_power".

(** src/pkg/governor/cpu.go:26-28 [cpuChoice] *)
Record cpuChoice := mkChoice { cc_governor : string; cc_epp : string; cc_result : string }.

(** src/pkg/governor/cpu.go:34-36 [cpuActiveDriver] *)
Definition cpuActiveDriver (driver : string) : bool :=
  String.eqb driver "intel_pstate" || String.eqb driver "amd-pstate-epp".

(** src/pkg/governor/cpu.go:41-49 [cpuRowHasEPP] *)
Definition cpuRowHasEPP (f : CPUFacts) : bool :=
  if String.eqb (cf_Driver f) "amd-pstate-epp" then true
  else if String.eqb (cf_Driver f) "intel_pstate" || String.eqb (cf_Driver f) "intel_cpufreq" then cf_HWP f
  else false.

(** src/pkg/governor/cpu.go:54-65 [cpuGovernorWords] *)
Definition cpuGovernorWords (driver preset : string) : list string :=
  if String.eqb preset CPUGovernorPresetPerformance then [govPerformance]
  else if cpuActiveDriver driver then [govPowersave]
  else if String.eqb preset CPUGovernorPresetBalanced then [govSchedutil; govOndemand]
  else [govConservative; govSchedutil].

(** src/pkg/governor/cpu.go:70-78 [cpuEPPWord] *)
Definition cpuEPPWord (preset : string) : string :=
  if String.eqb preset CPUGovernorPresetBalanced then eppBalancePerformance
  else if String.eqb preset CPUGovernorPresetEfficiency then eppBalancePower
  else "".

(** The first word the node lists; any but the first is a fallback.
    src/pkg/governor/cpu.go:86-94 [cpuGovernorWords] *)
Fixpoint firstListed (listed words : list string) (first : bool) : string * string :=
  match words with
  | [] => ("", GovernorResultApplied)
  | w :: rest =>
      if str_mem w listed then (w, if first then GovernorResultApplied else GovernorResultEquivalent)
      else firstListed listed rest false
  end.

Definition unsupportedChoice : cpuChoice := mkChoice "" "" GovernorResultUnsupported.

(** src/pkg/governor/cpu.go:81-111 [chooseCPU] *)
Definition chooseCPU (f : CPUFacts) (preset : string) : cpuChoice :=
  if String.eqb (cf_Driver f) "" || match cf_Policies f with [] => true | _ => false end then unsupportedChoice
  else
    let '(governor, result) := firstListed (cf_Governors f) (cpuGovernorWords (cf_Driver f) preset) true in
    if String.eqb governor "" then unsupportedChoice
    else
      let want := cpuEPPWord preset in
      let '(epp, result) :=
        if negb (String.eqb want "") && cpuRowHasEPP f then
          if str_mem want (cf_EPPs f) then (want, result) else ("", GovernorResultEquivalent)
        else ("", result) in
      let result :=
        if cpuActiveDriver (cf_Driver f) && String.eqb preset CPUGovernorPresetEfficiency && String.eqb epp ""
        then GovernorResultEquivalent else result in
      mkChoice governor epp result.

(** src/pkg/governor/cpu.go:114-118 [sortedPolicies] *)
Definition sortedPolicies (ps : list Z) : list Z := sorted_distinct ps.

(** src/pkg/governor/cpu.go:122-127 [boostBit] *)
Definition boostBit (boost : string) (inverted : bool) : string :=
  if xorb (String.eqb boost CPUGovernorBoostOn) inverted then "1" else "0".

(** A nil slice and an empty one are told apart by [PlanCPU], so nil is
    [None]; no policy appends nothing to a nil slice.
    src/pkg/governor/cpu.go:132-146 [CPUBoostWrites] *)
Definition CPUBoostWrites (f : CPUFacts) (policies : list Z) (boost : string) : option (list Write) :=
  if String.eqb (cf_BoostScope f) CPUBoostScopeGlobal then Some [mkWrite GlobalBoostRelPath (boostBit boost false)]
  else if String.eqb (cf_BoostScope f) CPUBoostScopeNoTurbo then Some [mkWrite NoTurboRelPath (boostBit boost true)]
  else if String.eqb (cf_BoostScope f) CPUBoostScopePerCPU then
    match policies with
    | [] => None
    | _ => Some ((fun n => mkWrite (PolicyRelPath n PolicyBoostFile) (boostBit boost false)) <$> policies)
    end
  else None.

(** src/pkg/governor/cpu.go:150-155 [boostNative] *)
Definition boostNative (scope boost : string) : string :=
  if String.eqb scope CPUBoostScopeNoTurbo then "no_turbo=" +:+ boostBit boost true
  else "boost=" +:+ boostBit boost false.

(** src/pkg/governor/cpu.go:159-164 [NativeCPU] *)
Definition NativeCPU (governor epp : string) : string :=
  if String.eqb epp "" then governor else governor +:+ " epp=" +:+ epp.

(** src/pkg/governor/cpu.go:174-206 [PlanCPU] *)
Definition PlanCPU (f : CPUFacts) (preset boost : string) : option Plan :=
  if negb (str_mem preset CPUGovernorPresetValues) then None
  else if negb (String.eqb boost "") && negb (str_mem boost CPUGovernorBoostValues) then None
  else
    let c := chooseCPU f preset in
    if String.eqb (cc_result c) GovernorResultUnsupported then Some unsupportedPlan
    else
      let policies := sortedPolicies (cf_Policies f) in
      let plan (boostWrites : list Write) (suffix : string) :=
        mkPlan
          ((((fun n => mkWrite (PolicyRelPath n PolicyGovernorFile) (cc_governor c)) <$> policies) ++
            (if String.eqb (cc_epp c) "" then []
             else (fun n => mkWrite (PolicyRelPath n PolicyEPPFile) (cc_epp c)) <$> policies) ++
            boostWrites)%list)
          []
          (mkState (cc_governor c) (cc_epp c) boost "" 0 None None)
          (NativeCPU (cc_governor c) (cc_epp c) +:+ suffix)
          (cc_result c) in
      if String.eqb boost "" then Some (plan [] "")
      else match CPUBoostWrites f policies boost with
           | None => Some unsupportedPlan
           | Some ws => Some (plan ws (" " +:+ boostNative (cf_BoostScope f) boost))
           end.

(** src/pkg/governor/cpu.go:211-214 [CPUGroup] *)
Record CPUGroup := {
  gr_Policies : list Z;
  gr_Governor : string;
  gr_EPP : string;
  gr_Boost : string
}.

(** The writes of one attribute of a group, none for an empty word.
    src/pkg/governor/cpu.go:224-231 [PolicyRelPath] *)
Definition groupWrites (file : string) (word : CPUGroup -> string) (g : CPUGroup) : list Write :=
  if String.eqb (word g) "" then []
  else (fun n => mkWrite (PolicyRelPath n file) (word g)) <$> sortedPolicies (gr_Policies g).

(** Here nil and empty boost writes are the same to the callers, which only
    run them.
    src/pkg/governor/cpu.go:222-247 [PlanCPUGroups] *)
Definition PlanCPUGroups (f : CPUFacts) (groups : list CPUGroup) : list Write * list Write * list Write :=
  let boosted := filter (fun g => String.eqb (gr_Boost g) "" = false) groups in
  (concat (groupWrites PolicyGovernorFile gr_Governor <$> groups),
   concat (groupWrites PolicyEPPFile gr_EPP <$> groups),
   if String.eqb (cf_BoostScope f) CPUBoostScopePerCPU then
     concat ((fun g => default [] (CPUBoostWrites f (sortedPolicies (gr_Policies g)) (gr_Boost g))) <$> boosted)
   else match boosted with
        | g :: _ => default [] (CPUBoostWrites f [] (gr_Boost g))
        | [] => []
        end).

(** Whether the plan of a preset gives the native words.
    src/pkg/governor/cpu.go:256-262 [chooseCPU] *)
Definition cpuMatches (f : CPUFacts) (governor epp preset : string) : bool :=
  let c := chooseCPU f preset in
  if String.eqb (cc_result c) GovernorResultUnsupported || negb (String.eqb (cc_governor c) governor) then false
  else negb (negb (String.eqb (cc_epp c) "") && negb (String.eqb (cc_epp c) epp)).

(** src/pkg/governor/cpu.go:253-270 [ReverseCPU] *)
Definition ReverseCPU (f : CPUFacts) (governor epp : string) : option string :=
  match filter (fun p => cpuMatches f governor epp p = true) CPUGovernorPresetValues with
  | [p] => Some p
  | _ => None
  end.

(** src/pkg/governor/cpu.go:274-282 [PresetsCPU] *)
Definition PresetsCPU (f : CPUFacts) : list string :=
  filter (fun p => String.eqb (cc_result (chooseCPU f p)) GovernorResultUnsupported = false) CPUGovernorPresetValues.

(** src/pkg/governor/cpu.go:286-286 [AMDPstateEPPPreferences] *)
Definition AMDPstateEPPPreferences : list string :=
  ["default"; "performance"; "balance_performance"; "balance_power"; "power"].

(** src/pkg/governor/cpu.go:296-301 [EPPSupport] *)
Definition EPPSupport (driver gov : string) (listed : list string) : list string :=
  if String.eqb driver "amd-pstate-epp" && String.eqb gov govPerformance && bool_decide (listed = [govPerformance])
  then AMDPstateEPPPreferences else listed.

(** ** What a choice is *)

(** The words of a choice come from the mapping table. *)
Definition cpuWord (g : string) : Prop :=
  g ∈ [govPerformance; govPowersave; govSchedutil; govOndemand; govConservative].

Lemma firstListed_spec listed words first :
  let '(g, r) := firstListed listed words first in
  (g = "" /\ Forall (fun w => str_mem w listed = false) words) \/
  exists before after, words = (before ++ g :: after)%list /\ str_mem g listed = true /\
    Forall (fun w => str_mem w listed = false) before /\
    r = (if first && (match before with [] => true | _ => false end) then GovernorResultApplied else GovernorResultEquivalent).
Proof.
  revert first. induction words as [|w words IH]; intros first; cbn [firstListed]; [left; auto|].
  destruct (str_mem w listed) eqn:E.
  - right. exists [], words. rewrite andb_true_r. auto.
  - specialize (IH false). destruct (firstListed listed words false) as [g r].
    destruct IH as [[-> H]|(b & a & -> & Hg & Hb & ->)]; [left; by split; [|constructor]|].
    right. exists (w :: b), a. rewrite andb_false_r. auto.
Qed.

Lemma cpuGovernorWords_words driver preset : Forall cpuWord (cpuGovernorWords driver preset).
Proof.
  unfold cpuGovernorWords, cpuWord. repeat case_match; repeat constructor; set_solver.
Qed.

Lemma cpuWord_nonempty g : cpuWord g -> g <> "".
Proof. unfold cpuWord. set_solver. Qed.

(** A supported choice: its governor is a word of the preset the node lists,
    and its preference, if any, the preset's on a row that has one. *)
Lemma chooseCPU_supported f preset :
  let c := chooseCPU f preset in
  cc_result c <> GovernorResultUnsupported ->
  cf_Policies f <> [] /\ cc_governor c ∈ cpuGovernorWords (cf_Driver f) preset /\
  str_mem (cc_governor c) (cf_Governors f) = true /\
  (cc_epp c = "" \/ (cc_epp c = cpuEPPWord preset /\ cpuRowHasEPP f = true /\ str_mem (cc_epp c) (cf_EPPs f) = true)).
Proof.
  cbv zeta. unfold chooseCPU. destruct (_ || _) eqn:E0; [done|]. apply orb_false_iff in E0 as [_ Ep].
  pose proof (firstListed_spec (cf_Governors f) (cpuGovernorWords (cf_Driver f) preset) true) as H.
  destruct (firstListed _ _ _) as [g r]. destruct (String.eqb_spec g "") as [->|Hg]; [done|].
  destruct H as [[? _]|(b & a & Hw & Hm & _)]; [done|].
  assert (cf_Policies f <> []) as Hp by (by destruct (cf_Policies f)).
  assert (g ∈ cpuGovernorWords (cf_Driver f) preset) as Hin by (rewrite Hw; set_solver).
  destruct (negb _ && _) eqn:E1; [apply andb_true_iff in E1 as [_ Er]; destruct (str_mem (cpuEPPWord preset) _) eqn:E2|];
    cbn [cc_result cc_governor cc_epp]; intros _; auto 10.
Qed.

Lemma chooseCPU_result f preset :
  let c := chooseCPU f preset in
  c = unsupportedChoice \/ cc_result c = GovernorResultApplied \/ cc_result c = GovernorResultEquivalent.
Proof.
  cbv zeta. unfold chooseCPU. destruct (_ || _); [by left|].
  pose proof (firstListed_spec (cf_Governors f) (cpuGovernorWords (cf_Driver f) preset) true) as H.
  destruct (firstListed _ _ _) as [g r]. destruct (String.eqb_spec g "") as [->|Hg]; [by left|].
  destruct H as [[? _]|(b & a & Hw & Hm & _ & ->)]; [done|]. right.
  repeat case_match; simplify_eq; cbn [cc_result]; auto.
Qed.

(** ** Running policy writes *)

Definition policyWrites (file v : string) (ns : list Z) : list Write :=
  (fun n => mkWrite (PolicyRelPath n file) v) <$> ns.

Lemma policyWrites_in files file v ns n :
  n ∈ ns -> writeAll files (policyWrites file v ns) !! PolicyRelPath n file = Some v.
Proof.
  intros Hn. apply writeAll_agree.
  - unfold policyWrites. rewrite <- list_fmap_compose. apply list_elem_of_fmap. by exists n.
  - intros w (m & -> & _)%list_elem_of_fmap _. done.
Qed.

Lemma policyWrites_out files file v ns path :
  (forall n, n ∈ ns -> path <> PolicyRelPath n file) ->
  writeAll files (policyWrites file v ns) !! path = files !! path.
Proof.
  intros H. apply writeAll_other. unfold policyWrites. rewrite <- list_fmap_compose.
  intros (n & -> & Hin)%list_elem_of_fmap. by apply (H n Hin).
Qed.

Lemma PolicyRelPath_not_global n file : PolicyRelPath n file <> GlobalBoostRelPath.
Proof. unfold PolicyRelPath, GlobalBoostRelPath. intros H%app_string_inj_l. discriminate H. Qed.

Lemma PolicyRelPath_not_noturbo n file : PolicyRelPath n file <> NoTurboRelPath.
Proof. unfold PolicyRelPath, NoTurboRelPath. discriminate. Qed.

Lemma PolicyRelPath_file n m f g : in_int64 n -> in_int64 m -> f <> g -> PolicyRelPath n f <> PolicyRelPath m g.
Proof. intros Hn Hm Hne H. apply PolicyRelPath_inj in H as [_ ?]; done. Qed.

(** ** The plan of a preset *)

(** The files a plan may write: the three attributes of a policy, and the two
    node-wide boost files. *)
Definition governorFile (f : CPUFacts) (path : string) : Prop :=
  path = GlobalBoostRelPath \/ path = NoTurboRelPath \/
  exists n, n ∈ cf_Policies f /\ (path = PolicyRelPath n PolicyGovernorFile \/
    path = PolicyRelPath n PolicyEPPFile \/ path = PolicyRelPath n PolicyBoostFile).

(** What a boost write leaves in each boost file: the word's bit in the
    file of the node's scope, inverted in no_turbo, and nothing elsewhere. *)
Definition boostLeft (f : CPUFacts) (boost scope : string) (inverted : bool) (before : option string) : option string :=
  if negb (String.eqb boost "") && String.eqb (cf_BoostScope f) scope then Some (boostBit boost inverted) else before.

Lemma CPUBoostWrites_run files f boost ws ns :
  CPUBoostWrites f ns boost = Some ws -> boost <> "" ->
  (forall n, n ∈ ns -> writeAll files ws !! PolicyRelPath n PolicyBoostFile =
     boostLeft f boost CPUBoostScopePerCPU false (files !! PolicyRelPath n PolicyBoostFile)) /\
  writeAll files ws !! GlobalBoostRelPath = boostLeft f boost CPUBoostScopeGlobal false (files !! GlobalBoostRelPath) /\
  writeAll files ws !! NoTurboRelPath = boostLeft f boost CPUBoostScopeNoTurbo true (files !! NoTurboRelPath) /\
  (forall path, path <> GlobalBoostRelPath -> path <> NoTurboRelPath ->
     (forall n, n ∈ ns -> path <> PolicyRelPath n PolicyBoostFile) -> writeAll files ws !! path = files !! path).
Proof.
  intros Hw Hb%String.eqb_neq. unfold boostLeft. rewrite Hb. cbn [negb andb]. unfold CPUBoostWrites in Hw.
  destruct (String.eqb_spec (cf_BoostScope f) CPUBoostScopeGlobal) as [E|_];
    [rewrite E|destruct (String.eqb_spec (cf_BoostScope f) CPUBoostScopeNoTurbo) as [E|_];
      [rewrite E|destruct (String.eqb_spec (cf_BoostScope f) CPUBoostScopePerCPU) as [E|_]; [|done]]].
  1, 2: injection Hw as <-; cbn [String.eqb Ascii.eqb Bool.eqb]; unfold writeAll; cbn [foldl w_RelPath w_Value].
  - split; [|split; [apply lookup_insert_eq|split]].
    + intros n _. rewrite lookup_insert_ne; [done|]. apply not_eq_sym, PolicyRelPath_not_global.
    + by rewrite lookup_insert_ne.
    + intros path H1 H2 _. by rewrite lookup_insert_ne.
  - split; [|split; [|split; [apply lookup_insert_eq|]]].
    + intros n _. rewrite lookup_insert_ne; [done|]. apply not_eq_sym, PolicyRelPath_not_noturbo.
    + by rewrite lookup_insert_ne.
    + intros path H1 H2 _. by rewrite lookup_insert_ne.
  - assert (ws = policyWrites PolicyBoostFile (boostBit boost false) ns) as -> by (destruct ns; [done|by injection Hw]).
    split; [|split; [|split]].
    + intros n Hn. by apply policyWrites_in.
    + apply policyWrites_out. intros n _. apply not_eq_sym, PolicyRelPath_not_global.
    + apply policyWrites_out. intros n _. apply not_eq_sym, PolicyRelPath_not_noturbo.
    + intros path _ _ Hp. by apply policyWrites_out.
Qed.

(** A plan that is supported: its choice and its boost writes. *)
Lemma PlanCPU_shape f preset boost p :
  PlanCPU f preset boost = Some p -> p_Result p <> GovernorResultUnsupported ->
  let c := chooseCPU f preset in
  let ns := sortedPolicies (cf_Policies f) in
  preset ∈ CPUGovernorPresetValues /\ cc_result c <> GovernorResultUnsupported /\
  exists ws, p_Writes p = (policyWrites PolicyGovernorFile (cc_governor c) ns ++
      (if String.eqb (cc_epp c) "" then [] else policyWrites PolicyEPPFile (cc_epp c) ns) ++ ws)%list /\
    p_Args p = [] /\
    p_State p = mkState (cc_governor c) (cc_epp c) boost "" 0 None None /\ p_Result p = cc_result c /\
    p_Native p = NativeCPU (cc_governor c) (cc_epp c) +:+
      (if String.eqb boost "" then "" else " " +:+ boostNative (cf_BoostScope f) boost) /\
    ((boost = "" /\ ws = []) \/
     (boost ∈ CPUGovernorBoostValues /\ CPUBoostWrites f ns boost = Some ws)).
Proof.
  unfold PlanCPU. destruct (str_mem preset _) eqn:Ep; [|done]. apply str_mem_In in Ep. cbn [negb].
  destruct (_ && negb (str_mem boost _)) eqn:Eb; [done|]. cbv zeta.
  destruct (String.eqb_spec (cc_result (chooseCPU f preset)) GovernorResultUnsupported) as [E|E].
  { by intros [= <-]. }
  destruct (String.eqb_spec boost "") as [->|Hb].
  - intros [= <-] _. split; [done|]. split; [done|]. exists []. cbn [p_Writes p_Args p_State p_Result p_Native].
    auto 10.
  - destruct (CPUBoostWrites _ _ _) as [ws|] eqn:Ew; intros [= <-]; [|done]. intros _.
    split; [done|]. split; [done|]. exists ws. cbn [p_Writes p_Args p_State p_Result p_Native].
    cbn [negb andb] in Eb. apply negb_false_iff, str_mem_In in Eb. auto 10.
Qed.

Lemma boost_phase files f boost ws ns :
  (boost = "" /\ ws = []) \/ (boost ∈ CPUGovernorBoostValues /\ CPUBoostWrites f ns boost = Some ws) ->
  (forall n, n ∈ ns -> writeAll files ws !! PolicyRelPath n PolicyBoostFile =
     boostLeft f boost CPUBoostScopePerCPU false (files !! PolicyRelPath n PolicyBoostFile)) /\
  writeAll files ws !! GlobalBoostRelPath = boostLeft f boost CPUBoostScopeGlobal false (files !! GlobalBoostRelPath) /\
  writeAll files ws !! NoTurboRelPath = boostLeft f boost CPUBoostScopeNoTurbo true (files !! NoTurboRelPath) /\
  (forall path, path <> GlobalBoostRelPath -> path <> NoTurboRelPath ->
     (forall n, n ∈ ns -> path <> PolicyRelPath n PolicyBoostFile) -> writeAll files ws !! path = files !! path).
Proof.
  intros [[-> ->]|[Hv Hw]]; [done|]. apply CPUBoostWrites_run; [done|]. intros ->. revert Hv. by_decide.
Qed.

(** The plan of a preset sets exactly what it says: on every policy the
    governor, a word the node lists, then the preference where the plan has
    one, then boost in the one file (or the policies' files) of the node's
    scope; every other attribute of the node keeps its value. *)
Theorem PlanCPU_sets f preset boost p files :
  Forall in_int64 (cf_Policies f) ->
  PlanCPU f preset boost = Some p -> p_Result p <> GovernorResultUnsupported ->
  let files' := writeAll files (p_Writes p) in
  let st := p_State p in
  (st_Governor st ∈ cpuGovernorWords (cf_Driver f) preset /\ st_Governor st ∈ cf_Governors f) /\
  (st_EPP st <> "" -> st_EPP st ∈ cf_EPPs f) /\ st_Boost st = boost /\
  (forall n, n ∈ cf_Policies f ->
     files' !! PolicyRelPath n PolicyGovernorFile = Some (st_Governor st) /\
     files' !! PolicyRelPath n PolicyEPPFile =
       (if String.eqb (st_EPP st) "" then files !! PolicyRelPath n PolicyEPPFile else Some (st_EPP st)) /\
     files' !! PolicyRelPath n PolicyBoostFile =
       boostLeft f boost CPUBoostScopePerCPU false (files !! PolicyRelPath n PolicyBoostFile)) /\
  files' !! GlobalBoostRelPath = boostLeft f boost CPUBoostScopeGlobal false (files !! GlobalBoostRelPath) /\
  files' !! NoTurboRelPath = boostLeft f boost CPUBoostScopeNoTurbo true (files !! NoTurboRelPath) /\
  (forall path, ~ governorFile f path -> files' !! path = files !! path).
Proof.
  intros Hn Hp Hr. destruct (PlanCPU_shape f preset boost p Hp Hr) as (_ & Hc & ws & Hw & _ & Hst & _ & _ & Hb).
  pose proof (chooseCPU_supported f preset Hc) as (_ & Hg & Hm & He).
  set (c := chooseCPU f preset) in *. cbv zeta. rewrite Hst, Hw. cbn [st_Governor st_EPP st_Boost].
  rewrite !writeAll_app. set (ns := sortedPolicies (cf_Policies f)) in *.
  assert (forall n, n ∈ ns <-> n ∈ cf_Policies f) as Hns by (intros n; apply elem_of_sorted_distinct).
  assert (forall n, n ∈ cf_Policies f -> in_int64 n) as Hi by (by apply Forall_forall).
  set (m1 := writeAll files (policyWrites _ _ ns)). set (m2 := writeAll m1 (if String.eqb (cc_epp c) "" then [] else _)).
  assert (forall path, (forall n, n ∈ ns -> path <> PolicyRelPath n PolicyEPPFile) -> m2 !! path = m1 !! path) as Hm2.
  { intros path Hpath. unfold m2. destruct (String.eqb _ _); [done|]. by apply policyWrites_out. }
  assert (forall path, (forall n, n ∈ ns -> path <> PolicyRelPath n PolicyGovernorFile) -> m1 !! path = files !! path) as Hm1
    by (intros path Hpath; by apply policyWrites_out).
  pose proof (fun n k f g Hn Hk => PolicyRelPath_file n k f g (Hi n Hn) (Hi k (proj1 (Hns k) Hk))) as Hfile.
  destruct (boost_phase m2 f boost ws ns Hb) as (Hb1 & Hb2 & Hb3 & Hb4).
  split; [split; [done|by apply str_mem_In]|]. split.
  { intros Hne. destruct He as [|(_ & _ & Hin)]; [done|by apply str_mem_In]. }
  split; [done|]. split; [|split; [|split]].
  - intros n Hin. split; [|split].
    + rewrite Hb4; [|apply PolicyRelPath_not_global|apply PolicyRelPath_not_noturbo|intros k Hk; by apply Hfile].
      rewrite Hm2 by (intros k Hk; by apply Hfile). apply policyWrites_in. by apply Hns.
    + rewrite Hb4; [|apply PolicyRelPath_not_global|apply PolicyRelPath_not_noturbo|intros k Hk; by apply Hfile].
      unfold m2. destruct (String.eqb (cc_epp c) ""); [apply Hm1; intros k Hk; by apply Hfile|].
      apply policyWrites_in. by apply Hns.
    + rewrite Hb1 by by apply Hns. rewrite Hm2, Hm1 by (intros k Hk; by apply Hfile). done.
  - rewrite Hb2, Hm2, Hm1; [done|..]; intros n _; apply not_eq_sym, PolicyRelPath_not_global.
  - rewrite Hb3, Hm2, Hm1; [done|..]; intros n _; apply not_eq_sym, PolicyRelPath_not_noturbo.
  - intros path Hp'. unfold governorFile in Hp'.
    assert (forall n, n ∈ ns -> path <> PolicyRelPath n PolicyGovernorFile /\ path <> PolicyRelPath n PolicyEPPFile /\
      path <> PolicyRelPath n PolicyBoostFile) as Hno by (intros n Hin%Hns; split_and!; intros ->; apply Hp'; eauto 10).
    rewrite Hb4, Hm2, Hm1; [done|..]; try (intros n Hin; by apply Hno); intros ->; apply Hp'; auto.
Qed.

(** ** Reading a state back *)

Lemma ReverseCPU_Some f governor epp q :
  ReverseCPU f governor epp = Some q <->
  q ∈ CPUGovernorPresetValues /\ cpuMatches f governor epp q = true /\
  forall q', q' ∈ CPUGovernorPresetValues -> cpuMatches f governor epp q' = true -> q' = q.
Proof.
  unfold ReverseCPU. assert (NoDup CPUGovernorPresetValues) as Hnd by by_decide.
  set (P := fun p => cpuMatches f governor epp p = true).
  assert (forall x, x ∈ filter P CPUGovernorPresetValues <-> P x /\ x ∈ CPUGovernorPresetValues) as Hf
    by (intros x; apply list_elem_of_filter).
  pose proof (NoDup_filter P _ Hnd) as Hnf. split.
  - intros H. destruct (filter P _) as [|p [|]] eqn:E; [done| |done]. injection H as ->.
    pose proof (proj1 (Hf q) ltac:(left)) as [HP Hq]. split; [done|]. split; [done|].
    intros q' Hq' HP'. pose proof (proj2 (Hf q') (conj HP' Hq')) as Hin. by apply list_elem_of_singleton in Hin.
  - intros (Hq & HP & Hu). assert (q ∈ filter P CPUGovernorPresetValues) as Hin by by apply Hf.
    destruct (filter P _) as [|p [|p' l]]; [by apply not_elem_of_nil in Hin|by apply list_elem_of_singleton in Hin as ->|].
    exfalso. assert (p = q) as -> by (apply Hu; apply (Hf p); by left).
    assert (p' = q) as -> by (apply Hu; apply (Hf p'); right; by left).
    apply NoDup_cons in Hnf as [Hn _]. apply Hn. by left.
Qed.

Lemma cpuMatches_true f governor epp q :
  cpuMatches f governor epp q = true <->
  cc_result (chooseCPU f q) <> GovernorResultUnsupported /\ cc_governor (chooseCPU f q) = governor /\
  (cc_epp (chooseCPU f q) = "" \/ cc_epp (chooseCPU f q) = epp).
Proof.
  unfold cpuMatches. destruct (String.eqb_spec (cc_result (chooseCPU f q)) GovernorResultUnsupported),
    (String.eqb_spec (cc_governor (chooseCPU f q)) governor); cbn [orb negb]; try (split; [done|tauto]).
  destruct (String.eqb_spec (cc_epp (chooseCPU f q)) ""), (String.eqb_spec (cc_epp (chooseCPU f q)) epp);
    cbn [andb negb]; intuition congruence.
Qed.

(** Presets that a node expresses as their own differ in their states, the
    governor or the preference. *)
Lemma chooseCPU_applied_inj f p q :
  p ∈ CPUGovernorPresetValues -> q ∈ CPUGovernorPresetValues ->
  cc_result (chooseCPU f p) = GovernorResultApplied -> cc_result (chooseCPU f q) = GovernorResultApplied ->
  cc_governor (chooseCPU f p) = cc_governor (chooseCPU f q) ->
  cc_epp (chooseCPU f q) = "" \/ cc_epp (chooseCPU f p) = "" \/ cc_epp (chooseCPU f q) = cc_epp (chooseCPU f p) -> p = q.
Proof.
  intros Hp Hq. unfold chooseCPU. destruct (_ || match _ with [] => _ | _ => _ end); [done|].
  repeat (apply elem_of_cons in Hp as [->|Hp]); try by apply not_elem_of_nil in Hp.
  all: repeat (apply elem_of_cons in Hq as [->|Hq]); try by apply not_elem_of_nil in Hq.
  all: try done.
  all: unfold cpuGovernorWords, cpuEPPWord; cbn [String.eqb Ascii.eqb Bool.eqb negb andb].
  all: repeat match goal with
       | |- context [cpuActiveDriver ?d] => destruct (cpuActiveDriver d); cbn
       | |- context [str_mem ?w ?l] => destruct (str_mem w l); cbn
       end; try done.
  all: match goal with |- context [cpuRowHasEPP ?f] => destruct (cpuRowHasEPP f) | _ => idtac end; cbn; try done.
  all: intros; destruct_or?; done.
Qed.

Lemma PlanCPU_supported f preset :
  preset ∈ CPUGovernorPresetValues -> cc_result (chooseCPU f preset) <> GovernorResultUnsupported ->
  exists p, PlanCPU f preset "" = Some p /\ p_Result p <> GovernorResultUnsupported /\
    st_Governor (p_State p) = cc_governor (chooseCPU f preset) /\ st_EPP (p_State p) = cc_epp (chooseCPU f preset).
Proof.
  intros Hp%str_mem_In Hc%String.eqb_neq. unfold PlanCPU. rewrite Hp, Hc. cbn. eexists. split; [done|].
  cbn. split; [by apply String.eqb_neq|done].
Qed.

(** Reading back. A preset named for a native state has a plan that gives
    it, and no other preset has one. Conversely, where every preset the node
    supports is its own state (none is equivalent), the state each plan sets
    names its preset again, whatever preference the kernel shows where the
    plan writes none. *)
Theorem ReverseCPU_reads_back f :
  (forall governor epp q, ReverseCPU f governor epp = Some q ->
     exists p, PlanCPU f q "" = Some p /\ p_Result p <> GovernorResultUnsupported /\
       st_Governor (p_State p) = governor /\ (st_EPP (p_State p) = "" \/ st_EPP (p_State p) = epp)) /\
  ((forall q, q ∈ CPUGovernorPresetValues -> cc_result (chooseCPU f q) <> GovernorResultEquivalent) ->
   forall preset boost p epp, PlanCPU f preset boost = Some p -> p_Result p <> GovernorResultUnsupported ->
     st_EPP (p_State p) = "" \/ epp = st_EPP (p_State p) ->
     ReverseCPU f (st_Governor (p_State p)) epp = Some preset).
Proof.
  split.
  - intros governor epp q (Hq & Hm%cpuMatches_true & _)%ReverseCPU_Some. destruct Hm as (Hr & Hg & He).
    destruct (PlanCPU_supported f q Hq Hr) as (p & Hp & Hpr & Hpg & Hpe). exists p.
    rewrite Hpg, Hpe. auto.
  - intros Hown preset boost p epp Hp Hr. destruct (PlanCPU_shape f preset boost p Hp Hr)
      as (Hv & Hc & ws & _ & _ & Hst & _). rewrite Hst. cbn [st_EPP st_Governor]. intros He.
    assert (forall q, q ∈ CPUGovernorPresetValues -> cc_result (chooseCPU f q) <> GovernorResultUnsupported ->
      cc_result (chooseCPU f q) = GovernorResultApplied) as Happ.
    { intros q Hq Hu. pose proof (Hown q Hq). destruct (chooseCPU_result f q) as [E|[E|E]]; [by rewrite E in Hu|done|done]. }
    apply ReverseCPU_Some. split; [done|]. split.
    + apply cpuMatches_true. split; [done|]. split; [done|]. destruct He as [|<-]; auto.
    + intros q Hq (Hqr & Hqg & Hqe)%cpuMatches_true. symmetry. apply (chooseCPU_applied_inj f); auto.
      destruct Hqe as [|Hqe]; [by left|]. destruct He as [|He]; [by right; left|]. right. right. congruence.
Qed.

(** ** A node with hardware P-states *)

Definition sampleCPU : CPUFacts := {|
  cf_Driver := "intel_pstate"; cf_DriverMode := "active"; cf_HWP := true;
  cf_Governors := ["performance"; "powersave"];
  cf_EPPs := ["default"; "performance"; "balance_performance"; "balance_power"; "power"];
  cf_BoostScope := CPUBoostScopeNoTurbo; cf_Policies := [1; 0; 1]%Z
|}.

Definition samplePlanCPU : Plan :=
  default unsupportedPlan (PlanCPU sampleCPU CPUGovernorPresetEfficiency CPUGovernorBoostOff).

Example samplePlanCPU_eq :
  PlanCPU sampleCPU CPUGovernorPresetEfficiency CPUGovernorBoostOff = Some samplePlanCPU /\
  p_Native samplePlanCPU = "powersave epp=balance_power no_turbo=1" /\
  length (p_Writes samplePlanCPU) = 5%nat /\ p_Result samplePlanCPU = GovernorResultApplied.
Proof. split; [vm_compute; reflexivity|]. split_and!; vm_compute; reflexivity. Qed.

Example PlanCPU_sets_witness :
  writeAll ∅ (p_Writes samplePlanCPU) !! PolicyRelPath 1 PolicyEPPFile = Some eppBalancePower /\
  writeAll ∅ (p_Writes samplePlanCPU) !! NoTurboRelPath = Some "1".
Proof.
  destruct (PlanCPU_sets sampleCPU CPUGovernorPresetEfficiency CPUGovernorBoostOff samplePlanCPU ∅)
    as (_ & _ & _ & Hp & _ & Ht & _).
  - apply Forall_forall. intros n Hn. unfold in_int64, int64_min, int64_max. cbn in Hn. set_unfold in Hn. lia.
  - vm_compute. reflexivity.
  - vm_compute. discriminate.
  - split; [|exact Ht]. destruct (Hp 1%Z) as (_ & He & _); [left|]. exact He.
Defined.

Example ReverseCPU_reads_back_witness : ReverseCPU sampleCPU "powersave" "balance_power" = Some CPUGovernorPresetEfficiency.
Proof.
  apply (proj2 (ReverseCPU_reads_back sampleCPU) ltac:(intros q Hq; cbn in Hq; set_unfold in Hq;
    destruct_or! Hq; subst; vm_compute; discriminate) CPUGovernorPresetEfficiency CPUGovernorBoostOff samplePlanCPU).
  - vm_compute. reflexivity.
  - vm_compute. discriminate.
  - right. vm_compute. reflexivity.
Defined.

(** A node without preferences runs balanced for efficiency, so powersave
    names neither. *)
Example ReverseCPU_ambiguous :
  let f := {| cf_Driver := "intel_pstate"; cf_DriverMode := "active"; cf_HWP := false;
              cf_Governors := ["performance"; "powersave"]; cf_EPPs := []; cf_BoostScope := "";
              cf_Policies := [0]%Z |} in
  cc_result (chooseCPU f CPUGovernorPresetEfficiency) = GovernorResultEquivalent /\
  ReverseCPU f "powersave" "" = None /\ ReverseCPU f "performance" "" = Some CPUGovernorPresetPerformance.
Proof. split_and!; vm_compute; reflexivity. Qed.
