(* ===== verification/GpuGovernor.v ===== *)
(** * GPU governor presets: pkg/governor/amdgpu.go and nvidia.go

    The performance level and overdrive ceiling of a preset on an amdgpu
    device, the clock locks of a preset on an NVIDIA GPU, and the presets a
    native state is read back as. A planner's error (an unknown preset, a
    ceiling out of range, no bus id) is [None]. *)

From S2P Require Import Prelude GoString GoFloat FloatFacts GoSlices Api Governor.

#[local] Open Scope string_scope.

(** src/pkg/governor/types.go:46-46 [DefaultCeilingPctOfMax] *)
Definition DefaultCeilingPctOfMax : float64 := fofZ 80.

(** [ceilingPct * float64(maxMHz) / 100]. *)
Definition pctOfMax (ceilingPct : float64) (maxMHz : Z) : float64 := fdiv (fmul ceilingPct (fofZ maxMHz)) (fofZ 100).

(** Whether the preset and, for efficient, the ceiling are accepted.
    src/pkg/governor/amdgpu.go:77-85 [checkGPUPreset] *)
Definition checkGPUPreset (preset : string) (ceilingPct : float64) : bool :=
  if negb (str_mem preset GPUGovernorPresetValues) then false
  else negb (String.eqb preset GPUGovernorPresetEfficient && negb (flt fzero ceilingPct && fle ceilingPct (fofZ 100))).

(** ** amdgpu *)

(** src/pkg/governor/amdgpu.go:13-18 [amdLevelHigh, amdLevelLow, amdLevelManual, amdLevelProfilePeak] *)
Definition amdLevelHigh : string := "high".
Definition amdLevelLow : string := "low".
Definition amdLevelManual : string := "manual".
Definition amdLevelProfilePeak : string := "profile_peak".

(** The families with the full table, and its words.
    src/pkg/governor/amdgpu.go:24-40 [amdLevels] *)
Definition amdLevels (family preset : string) : option string :=
  if String.eqb family AMDFamilyNavi31 || String.eqb family AMDFamilyAldebaran then
    if String.eqb preset GPUGovernorPresetAuto then Some AMDLevelAuto
    else if String.eqb preset GPUGovernorPresetSustained then Some amdLevelHigh
    else if String.eqb preset GPUGovernorPresetLow then Some amdLevelLow
    else if String.eqb preset GPUGovernorPresetPeak then Some amdLevelProfilePeak
    else None
  else if String.eqb family AMDFamilyMI300 then
    if String.eqb preset GPUGovernorPresetAuto then Some AMDLevelAuto else None
  else None.

(** src/pkg/governor/amdgpu.go:47-50 [amdODCeiling] *)
Definition amdODCeiling (family : string) : bool :=
  String.eqb family AMDFamilyAldebaran || String.eqb family AMDFamilyMI300.

(** The level and the ceiling, [None] for a device that cannot express the
    preset.
    src/pkg/governor/amdgpu.go:62-73 [chooseAMD] *)
Definition chooseAMD (f : AMDFacts) (preset : string) (ceilingPct : float64) : option (string * Z) :=
  if negb (String.eqb preset GPUGovernorPresetEfficient) then
    (fun level => (level, 0%Z)) <$> amdLevels (af_Family f) preset
  else
    let '(minMHz, maxMHz) := af_SclkMHz f in
    if negb (amdODCeiling (af_Family f)) || negb (af_OD f) || (maxMHz <=? 0)%Z then None
    else Some (amdLevelManual, Z.max (int_of_float (ffloor (pctOfMax ceilingPct maxMHz))) minMHz).

(** src/pkg/governor/amdgpu.go:125-127 [PlanAMDLevel] *)
Definition PlanAMDLevel (busID level : string) : Write := mkWrite (AMDDeviceRelPath busID AMDLevelFile) level.

(** src/pkg/governor/amdgpu.go:132-135 [PlanAMDODReset] *)
Definition PlanAMDODReset (busID : string) : list Write :=
  let od := AMDDeviceRelPath busID AMDODFile in [mkWrite od "r"; mkWrite od "c"].

(** src/pkg/governor/amdgpu.go:97-121 [PlanAMD] *)
Definition PlanAMD (f : AMDFacts) (preset : string) (ceilingPct : float64) : option Plan :=
  if negb (checkGPUPreset preset ceilingPct) then None
  else if String.eqb (af_BusID f) "" then None
  else match chooseAMD f preset ceilingPct with
       | None => Some unsupportedPlan
       | Some (level, sclkMax) =>
           let p := mkPlan [PlanAMDLevel (af_BusID f) level] [] (mkState "" "" "" level sclkMax None None)
                      level GovernorResultApplied in
           if (0 <? sclkMax)%Z then
             let mhz := Itoa sclkMax in
             let od := AMDDeviceRelPath (af_BusID f) AMDODFile in
             Some (mkPlan (p_Writes p ++ [mkWrite od ("s 1 " +:+ mhz); mkWrite od "c"]) (p_Args p) (p_State p)
                     (p_Native p +:+ " sclk_max=" +:+ mhz) (p_Result p))
           else Some p
       end.

(** The presets of the first loop, in their order.
    src/pkg/governor/amdgpu.go:144-151 [GPUGovernorPresetValues] *)
Definition presetsButEfficient : list string :=
  filter (fun p => String.eqb p GPUGovernorPresetEfficient = false) GPUGovernorPresetValues.

(** src/pkg/governor/amdgpu.go:143-158 [ReverseAMD] *)
Definition ReverseAMD (f : AMDFacts) (level : string) (odSclkMHz : Z * Z) : option string :=
  let named p := match chooseAMD f p DefaultCeilingPctOfMax with Some (l, _) => String.eqb l level | None => false end in
  match find named presetsButEfficient with
  | Some p => Some p
  | None =>
      let '(lo, hi) := af_SclkMHz f in
      match chooseAMD f GPUGovernorPresetEfficient (fofZ 100) with
      | Some (l, _) =>
          if String.eqb l level && (odSclkMHz.1 <=? lo)%Z && (lo <=? odSclkMHz.2)%Z && (odSclkMHz.2 <=? hi)%Z
          then Some GPUGovernorPresetEfficient else None
      | None => None
      end
  end.

(** ** NVIDIA *)

(** The locks are [None] for a domain left to the driver.
    src/pkg/governor/nvidia.go:15-18 [nvChoice] *)
Record nvChoice := mkNV { nv_gpu : option (Z * Z); nv_mem : option (Z * Z); nv_result : string }.

(** src/pkg/governor/nvidia.go:21-27 [nvKnownArch] *)
Definition nvKnownArch (arch : string) : bool := str_mem arch [NVArchAmpere; NVArchAda; NVArchHopper; NVArchBlackwell].

(** src/pkg/governor/nvidia.go:31-33 [nvMemLockable] *)
Definition nvMemLockable (f : NVFacts) : bool :=
  nf_MemLockRuntime f && (String.eqb (nf_Arch f) NVArchAmpere || String.eqb (nf_Arch f) NVArchAda).

(** src/pkg/governor/nvidia.go:37-46 [distinctMHz] *)
Definition distinctMHz (xs : list Z) : list Z := sorted_distinct (filter (fun x => (0 <? x)%Z = true) xs).

Definition nvUnsupported : nvChoice := mkNV None None GovernorResultUnsupported.

(** [xs\[0\]] and [xs\[len(xs)-1\]], read only of non-empty lists. *)
Definition lowest (xs : list Z) : Z := default 0%Z (head xs).
Definition highest (xs : list Z) : Z := default 0%Z (last xs).

(** The last supported clock at or below the target, scanned upwards.
    src/pkg/governor/nvidia.go:78-84 [target] *)
Definition ceilingClock (sm : list Z) (ceilingPct : float64) : Z :=
  let target := pctOfMax ceilingPct (highest sm) in
  foldl (fun ceil c => if fle (fofZ c) target then c else ceil) (lowest sm) sm.

(** src/pkg/governor/nvidia.go:49-101 [chooseNvidia] *)
Definition chooseNvidia (f : NVFacts) (preset : string) (ceilingPct : float64) : nvChoice :=
  if negb (nvKnownArch (nf_Arch f)) then nvUnsupported
  else
    let sm := distinctMHz (nf_SupportedSMMHz f) in
    let mem := distinctMHz (nf_SupportedMemMHz f) in
    let memLock := nvMemLockable f && (1 <? length mem)%nat in
    let memUnknown := nvMemLockable f && (length mem =? 0)%nat in
    if String.eqb preset GPUGovernorPresetAuto then mkNV None None GovernorResultApplied
    else if String.eqb preset GPUGovernorPresetSustained then
      if memLock then mkNV None (Some (highest mem, highest mem)) GovernorResultApplied
      else if memUnknown then nvUnsupported
      else mkNV None None GovernorResultEquivalent
    else if String.eqb preset GPUGovernorPresetEfficient then
      if (length sm =? 0)%nat then nvUnsupported
      else mkNV (Some (lowest sm, ceilingClock sm ceilingPct)) None GovernorResultApplied
    else if String.eqb preset GPUGovernorPresetLow || String.eqb preset GPUGovernorPresetPeak then
      if (length sm =? 0)%nat || memUnknown then nvUnsupported
      else
        let pick xs := if String.eqb preset GPUGovernorPresetLow then lowest xs else highest xs in
        mkNV (Some (pick sm, pick sm)) (if memLock then Some (pick mem, pick mem) else None) GovernorResultApplied
    else nvUnsupported.

(** src/pkg/governor/nvidia.go:149-151 [lockArg] *)
Definition lockArg (l : Z * Z) : string := Itoa l.1 +:+ "," +:+ Itoa l.2.

(** src/pkg/governor/nvidia.go:165-174 [nvidiaNative] *)
Definition nvidiaNative (s : State) : string :=
  Join ((match st_GPULockMHz s with Some l => ["-lgc " +:+ lockArg l] | None => [] end) ++
        (match st_MemLockMHz s with Some l => ["-lmc " +:+ lockArg l] | None => [] end))%list " ".

(** src/pkg/governor/nvidia.go:156-161 [NativeNvidia] *)
Definition NativeNvidia (s : State) : string :=
  let n := nvidiaNative s in if String.eqb n "" then GovernorStateUnlocked else n.

(** src/pkg/governor/nvidia.go:111-146 [PlanNvidia] *)
Definition PlanNvidia (f : NVFacts) (busID preset : string) (ceilingPct : float64) : option Plan :=
  if negb (checkGPUPreset preset ceilingPct) then None
  else if String.eqb busID "" then None
  else
    let c := chooseNvidia f preset ceilingPct in
    if String.eqb (nv_result c) GovernorResultUnsupported then Some unsupportedPlan
    else
      let cmd a := ("-i" :: busID :: a)%list in
      let args :=
        ((match nv_gpu c with
          | Some l => [cmd ["-lgc"; lockArg l]]
          | None => if nf_LockedGPU f then [cmd ["-rgc"]] else []
          end) ++
         (match nv_mem c with
          | Some l => [cmd ["-lmc"; lockArg l]]
          | None => if nf_LockedMem f && nvMemLockable f then [cmd ["-rmc"]] else []
          end))%list in
      let st := mkState "" "" "" "" 0 (nv_gpu c) (nv_mem c) in
      let native := nvidiaNative st in
      Some (mkPlan [] args st
        (if String.eqb native "" then
           match args with [] => GovernorStateUnknown | _ => GovernorStateUnlocked end
         else native)
        (if String.eqb preset GPUGovernorPresetAuto && match args with [] => true | _ => false end
         then GovernorResultEquivalent else nv_result c)).

(** The first preset that sets the locks as its own, else the first that falls
    back to them.
    src/pkg/governor/nvidia.go:186-204 [equivalent] *)
Definition namesLocks (f : NVFacts) (gpu mem : option (Z * Z)) (p : string) : bool :=
  let c := chooseNvidia f p DefaultCeilingPctOfMax in
  negb (String.eqb (nv_result c) GovernorResultUnsupported) &&
  bool_decide (nv_gpu c = gpu) && bool_decide (nv_mem c = mem).

(** src/pkg/governor/nvidia.go:184-210 [ReverseNvidia] *)
Definition ReverseNvidia (f : NVFacts) (gpu mem : option (Z * Z)) : option string :=
  let applied p := String.eqb (nv_result (chooseNvidia f p DefaultCeilingPctOfMax)) GovernorResultApplied in
  match find (fun p => namesLocks f gpu mem p && applied p) presetsButEfficient with
  | Some p => Some p
  | None =>
      match find (namesLocks f gpu mem) presetsButEfficient with
      | Some p => Some p
      | None =>
          let sm := distinctMHz (nf_SupportedSMMHz f) in
          match gpu, mem with
          | Some (lo, hi), None =>
              if nvKnownArch (nf_Arch f) && (0 <? length sm)%nat && (lo =? lowest sm)%Z && bool_decide (hi ∈ sm)
              then Some GPUGovernorPresetEfficient else None
          | _, _ => None
          end
      end
  end.

(** ** A percentage of a clock *)

Definition validPct (pct : float64) : Prop := valid pct /\ flt fzero pct = true /\ fle pct (fofZ 100) = true.

(** A clock in MHz, far below where [float64] stops counting. *)
Definition clock (n : Z) : Prop := (0 < n < 2 ^ 40)%Z.

Lemma validPct_nonneg pct : validPct pct -> nonneg pct /\ (sval pct <= 100 * 2 ^ scale)%Z.
Proof.
  intros (Hv & Hp & Hle). assert (is_finite pct = true) as Hf.
  { destruct pct as [|[]| |]; done. }
  destruct (fofZ_sval 100 ltac:(unfold exact_int; lia)) as [N100 <-].
  split; [split; [done|split; [done|by apply flt_fle]]|]. apply fle_sval; try done; apply N100.
Qed.

(** It is a number between 0 and the clock. *)
Lemma pctOfMax_bounds pct n : validPct pct -> clock n ->
  nonneg (pctOfMax pct n) /\ fle (pctOfMax pct n) (fofZ n) = true.
Proof.
  intros Hp Hn. unfold clock in Hn. destruct (validPct_nonneg pct Hp) as [Np Sp]. unfold pctOfMax.
  destruct (fofZ_sval n ltac:(unfold exact_int; lia)) as [Nn Sn].
  destruct (fofZ_sval 100 ltac:(unfold exact_int; lia)) as [N100 S100].
  destruct (fofZ_sval (100 * n) ltac:(unfold exact_int; lia)) as [Nx Sx].
  pose proof (pow2_pos scale ltac:(unfold scale; lia)) as Hs.
  destruct (fmul_le pct (fofZ n) (fofZ (100 * n)) Np Nn Nx) as [Nm Lm].
  { rewrite Sn, Sx. nia. }
  pose proof (fdiv_Rounds (fmul pct (fofZ n)) (fofZ 100) Nm N100 ltac:(lia)) as HR.
  assert (sval (fmul pct (fofZ n)) <= sval (fofZ (100 * n)))%Z as Hle by (apply fle_sval; try done; first [apply Nm|apply Nx]).
  assert (fle (fdiv (fmul pct (fofZ n)) (fofZ 100)) (fofZ n) = true) as H1.
  { apply (Rounds_le _ _ _ HR); [apply Nn..|]. rewrite Sn, S100. rewrite Sx in Hle. nia. }
  split; [|done]. eapply Rounds_nonneg; [exact HR|exact H1|apply Nn].
Qed.

Lemma int_floor x n : nonneg x -> fle x (fofZ n) = true -> exact_int n ->
  int_of_float (ffloor x) = (sval x / 2 ^ scale)%Z /\ (0 <= sval x / 2 ^ scale <= n)%Z.
Proof.
  intros Hx Hle Hn. destruct (int_of_float_spec x n Hx Hle Hn) as [E Hb]. rewrite E in Hb. split; [|done].
  destruct Hx as (Vx & Fx & Px). destruct x as [s|s| |[] m e]; try done.
  cbn [ffloor]. unfold with_sign. apply valid_range in Vx as [He _]. rewrite floor_mag_sval by lia.
  cbn [sval cond_Zopp] in *. fold (fofZ (Z.pos m * 2 ^ (e + scale) / 2 ^ scale)).
  rewrite int_of_float_int; [done|]. unfold exact_int in *. lia.
Qed.

(** The integers not above a number are those not above its floor. *)
Lemma le_floor x n k : nonneg x -> fle x (fofZ n) = true -> exact_int n -> exact_int k ->
  fle (fofZ k) x = true <-> (k <= int_of_float (ffloor x))%Z.
Proof.
  intros Hx Hle Hn Hk. destruct (int_floor x n Hx Hle Hn) as [-> Hb].
  destruct (fofZ_sval k Hk) as [Nk Sk]. rewrite fle_sval by (first [apply Nk|apply Hx]). rewrite Sk.
  pose proof (pow2_pos scale ltac:(unfold scale; lia)) as Hs. split; intros H.
  - apply Z.div_le_lower_bound; lia.
  - pose proof (Z.mul_div_le (sval x) (2 ^ scale) Hs). nia.
Qed.

(** ** Plans for amdgpu *)

Lemma checkGPUPreset_true preset pct :
  checkGPUPreset preset pct = true <->
  preset ∈ GPUGovernorPresetValues /\
  (preset = GPUGovernorPresetEfficient -> flt fzero pct = true /\ fle pct (fofZ 100) = true).
Proof.
  unfold checkGPUPreset. destruct (str_mem preset _) eqn:E; cbn [negb].
  - apply str_mem_In in E. destruct (String.eqb_spec preset GPUGovernorPresetEfficient); cbn [andb negb].
    + rewrite negb_involutive, andb_true_iff. tauto.
    + tauto.
  - split; [done|]. intros [H _]. apply str_mem_In in H. congruence.
Qed.

Lemma amdLevels_not_manual family preset level : amdLevels family preset = Some level -> level <> amdLevelManual.
Proof. unfold amdLevels. repeat case_match; intros [= <-]; done. Qed.

Lemma amdLevels_inj family p q level :
  amdLevels family p = Some level -> amdLevels family q = Some level -> p = q.
Proof.
  unfold amdLevels. destruct (String.eqb family AMDFamilyNavi31 || String.eqb family AMDFamilyAldebaran);
    [|destruct (String.eqb family AMDFamilyMI300)]; try done.
  - destruct (String.eqb_spec p GPUGovernorPresetAuto) as [->|]; [|destruct (String.eqb_spec p GPUGovernorPresetSustained) as [->|];
      [|destruct (String.eqb_spec p GPUGovernorPresetLow) as [->|]; [|destruct (String.eqb_spec p GPUGovernorPresetPeak) as [->|]; [|done]]]];
      intros [= <-];
      destruct (String.eqb_spec q GPUGovernorPresetAuto); [done|try done..];
      (destruct (String.eqb_spec q GPUGovernorPresetSustained); [done|try done]);
      (destruct (String.eqb_spec q GPUGovernorPresetLow); [done|try done]);
      (destruct (String.eqb_spec q GPUGovernorPresetPeak); done).
  - destruct (String.eqb_spec p GPUGovernorPresetAuto) as [->|]; [|done]. intros [= <-].
    by destruct (String.eqb_spec q GPUGovernorPresetAuto).
Qed.

Lemma find_unique {A} (P : A -> bool) (l : list A) x :
  x ∈ l -> P x = true -> (forall y, y ∈ l -> P y = true -> y = x) -> find P l = Some x.
Proof.
  intros Hx HP Hu. destruct (find P l) as [y|] eqn:E.
  - apply find_some in E as [Hy%list_elem_of_In HPy]. by rewrite (Hu y Hy HPy).
  - pose proof (find_none P l E x ltac:(by apply list_elem_of_In)). congruence.
Qed.

Lemma presetsButEfficient_elem p :
  p ∈ presetsButEfficient <-> p ∈ GPUGovernorPresetValues /\ p <> GPUGovernorPresetEfficient.
Proof. unfold presetsButEfficient. rewrite list_elem_of_filter, String.eqb_neq. tauto. Qed.

(** The clocks of a device's table, where it has one. *)
Definition sclkTable (f : AMDFacts) : Prop :=
  (0 < (af_SclkMHz f).2)%Z -> (0 < (af_SclkMHz f).1 <= (af_SclkMHz f).2)%Z /\ clock (af_SclkMHz f).2.

Lemma chooseAMD_efficient f pct level mhz :
  validPct pct -> sclkTable f -> chooseAMD f GPUGovernorPresetEfficient pct = Some (level, mhz) ->
  let '(lo, hi) := af_SclkMHz f in
  level = amdLevelManual /\ (0 < lo <= mhz)%Z /\ (mhz <= hi)%Z /\
  (forall k, exact_int k -> fle (fofZ k) (pctOfMax pct hi) = true -> (k <= mhz)%Z) /\
  (mhz = lo \/ fle (fofZ mhz) (pctOfMax pct hi) = true).
Proof.
  unfold chooseAMD, sclkTable. cbn [String.eqb Ascii.eqb Bool.eqb negb]. destruct (af_SclkMHz f) as [lo hi].
  cbn [fst snd]. intros Hp Ht. destruct (_ || _) eqn:E; [done|]. intros [= <- <-].
  apply orb_false_iff in E as [_ E%Z.leb_gt]. destruct (Ht E) as [Hlo Hc].
  destruct (pctOfMax_bounds pct hi Hp Hc) as [Nx Lx]. unfold clock in Hc.
  assert (exact_int hi) as Hx by (unfold exact_int; lia).
  destruct (int_floor _ hi Nx Lx Hx) as [Ef Hf].
  pose proof (fun k Hk => le_floor _ hi k Nx Lx Hx Hk) as Hl. rewrite Ef in *.
  set (m := (sval (pctOfMax pct hi) / 2 ^ scale)%Z) in *.
  split; [done|]. split; [lia|]. split; [lia|]. split.
  - intros k Hk Hle. apply (Hl k Hk) in Hle. lia.
  - destruct (Z.max_spec m lo) as [[? ->]|[? ->]]; [by left|]. right. apply Hl; [unfold exact_int in *; lia|lia].
Qed.

(** A plan for an amdgpu device is refused exactly for an unknown preset, a
    ceiling outside (0, 100] where it is used, or a device without a bus id,
    and unsupported where the family's table has no word for it. Otherwise a
    preset is one write of its level; efficient is the manual level, then the
    ceiling, then its commit, and the ceiling is the greatest whole MHz of
    the percentage that the device's table holds, never below its lowest
    clock. *)
Theorem PlanAMD_correct f preset pct :
  valid pct -> sclkTable f ->
  let '(lo, hi) := af_SclkMHz f in
  match PlanAMD f preset pct with
  | None => preset ∉ GPUGovernorPresetValues \/
            (preset = GPUGovernorPresetEfficient /\ (flt fzero pct && fle pct (fofZ 100)) = false) \/ af_BusID f = ""
  | Some p =>
      (p = unsupportedPlan /\
       if String.eqb preset GPUGovernorPresetEfficient
       then amdODCeiling (af_Family f) = false \/ af_OD f = false \/ (hi <= 0)%Z
       else amdLevels (af_Family f) preset = None) \/
      (p_Result p = GovernorResultApplied /\
       if String.eqb preset GPUGovernorPresetEfficient
       then exists mhz, p_State p = mkState "" "" "" amdLevelManual mhz None None /\
         p_Writes p = [PlanAMDLevel (af_BusID f) amdLevelManual;
                       mkWrite (AMDDeviceRelPath (af_BusID f) AMDODFile) ("s 1 " +:+ Itoa mhz);
                       mkWrite (AMDDeviceRelPath (af_BusID f) AMDODFile) "c"] /\
         (lo <= mhz <= hi)%Z /\
         (forall k, exact_int k -> fle (fofZ k) (pctOfMax pct hi) = true -> (k <= mhz)%Z) /\
         (mhz = lo \/ fle (fofZ mhz) (pctOfMax pct hi) = true)
       else exists level, amdLevels (af_Family f) preset = Some level /\
         p_State p = mkState "" "" "" level 0 None None /\ p_Writes p = [PlanAMDLevel (af_BusID f) level])
  end.
Proof.
  intros Hv Ht. destruct (af_SclkMHz f) as [lo hi] eqn:Es. unfold PlanAMD.
  destruct (checkGPUPreset preset pct) eqn:Ec; cbn [negb].
  2:{ apply not_true_iff_false in Ec. rewrite checkGPUPreset_true in Ec.
      destruct (decide (preset ∈ GPUGovernorPresetValues)) as [Hin|]; [|by left]. right. left.
      destruct (decide (preset = GPUGovernorPresetEfficient)) as [->|Hne]; [|exfalso; apply Ec; by split].
      split; [done|]. apply not_true_iff_false. rewrite andb_true_iff. intros H. apply Ec. by split. }
  apply checkGPUPreset_true in Ec as [_ Hp].
  destruct (String.eqb_spec (af_BusID f) "") as [|_]; [by right; right|].
  destruct (String.eqb_spec preset GPUGovernorPresetEfficient) as [->|Hne].
  - assert (validPct pct) as Hpct by (split; [done|by apply Hp]). destruct (chooseAMD f _ pct) as [[level mhz]|] eqn:E.
    + apply (chooseAMD_efficient f pct level mhz Hpct Ht) in E. rewrite Es in E. destruct E as (-> & Hlo & Hhi & Hk & Hm).
      destruct (Z.ltb_spec 0 mhz); [|lia]. right. split; [done|]. exists mhz. cbn. split_and!; try done; lia.
    + left. split; [done|]. unfold chooseAMD in E. rewrite Es in E. cbn [String.eqb Ascii.eqb Bool.eqb negb] in E.
      destruct (amdODCeiling _), (af_OD f), (Z.leb_spec hi 0); cbn in E; try done; auto.
  - unfold chooseAMD. apply String.eqb_neq in Hne. rewrite Hne. cbn [negb].
    destruct (amdLevels _ preset) as [level|]; cbn; [right|by left]. split; [done|]. by exists level.
Qed.

(** The level and the range a plan leaves on a device name its preset again,
    and no other. *)
Theorem ReverseAMD_reads_back f preset pct p od :
  valid pct -> sclkTable f ->
  PlanAMD f preset pct = Some p -> p_Result p <> GovernorResultUnsupported ->
  (preset = GPUGovernorPresetEfficient -> od = ((af_SclkMHz f).1, st_SclkMaxMHz (p_State p))) ->
  ReverseAMD f (st_Level (p_State p)) od = Some preset.
Proof.
  intros Hv Ht Hp Hr Hod. pose proof (PlanAMD_correct f preset pct Hv Ht) as H.
  destruct (af_SclkMHz f) as [lo hi] eqn:Es. rewrite Hp in H. destruct H as [[-> _]|[_ H]]; [done|].
  assert (preset ∈ GPUGovernorPresetValues) as Hin.
  { unfold PlanAMD in Hp. destruct (checkGPUPreset preset pct) eqn:E; [|done]. by apply checkGPUPreset_true in E as [? _]. }
  unfold ReverseAMD. destruct (String.eqb_spec preset GPUGovernorPresetEfficient) as [->|Hne].
  - destruct H as (mhz & Hst & _ & Hb & _). rewrite Hst in *. cbn [st_Level st_SclkMaxMHz fst] in *.
    rewrite (Hod eq_refl). clear Hod.
    assert (find (fun p => match chooseAMD f p DefaultCeilingPctOfMax with
      | Some (l, _) => String.eqb l amdLevelManual | None => false end) presetsButEfficient = None) as ->.
    { destruct (find _ _) as [q|] eqn:E; [|done]. apply find_some in E as [Hq%list_elem_of_In Hm].
      apply presetsButEfficient_elem in Hq as [_ Hq]. unfold chooseAMD in Hm. apply String.eqb_neq in Hq.
      rewrite Hq in Hm. cbn [negb] in Hm. destruct (amdLevels _ q) as [l|] eqn:E; cbn in Hm; [|done].
      apply amdLevels_not_manual in E. by apply String.eqb_eq in Hm. }
    rewrite Es. unfold PlanAMD in Hp.
    assert (chooseAMD f GPUGovernorPresetEfficient (fofZ 100) <> None) as Hc.
    { destruct (negb _); [done|]. destruct (String.eqb _ ""); [done|]. unfold chooseAMD in *. rewrite Es in *.
      cbn [String.eqb Ascii.eqb Bool.eqb negb] in *. by destruct (_ || _); [injection Hp as <-|]. }
    destruct (chooseAMD f _ (fofZ 100)) as [[l m]|] eqn:E; [|done].
    unfold chooseAMD in E. rewrite Es in E. cbn [String.eqb Ascii.eqb Bool.eqb negb] in E.
    destruct (_ || _); [done|]. injection E as <- _. cbn [fst snd].
    destruct (Z.leb_spec lo lo), (Z.leb_spec lo mhz), (Z.leb_spec mhz hi); try lia. done.
  - destruct H as (level & Hl & Hst & _). rewrite Hst. cbn [st_Level].
    assert (forall q, q <> GPUGovernorPresetEfficient -> chooseAMD f q DefaultCeilingPctOfMax =
      (fun l => (l, 0%Z)) <$> amdLevels (af_Family f) q) as Hch.
    { intros q Hq. unfold chooseAMD. apply String.eqb_neq in Hq. by rewrite Hq. }
    rewrite (find_unique _ presetsButEfficient preset); [done|by apply presetsButEfficient_elem| |].
    + rewrite Hch, Hl by done. apply String.eqb_refl.
    + intros q [_ Hq]%presetsButEfficient_elem. rewrite Hch by done. destruct (amdLevels _ q) as [l|] eqn:E; [|done].
      cbn. intros ->%String.eqb_eq. by apply (amdLevels_inj (af_Family f) q preset level).
Qed.

(** ** Plans for NVIDIA *)

Lemma elem_of_distinctMHz xs x : x ∈ distinctMHz xs <-> x ∈ xs /\ (0 < x)%Z.
Proof. unfold distinctMHz. rewrite elem_of_sorted_distinct, list_elem_of_filter, Z.ltb_lt. tauto. Qed.

Lemma distinctMHz_increasing xs : increasing (distinctMHz xs).
Proof. apply sorted_distinct_increasing. Qed.

Lemma lowest_spec xs : increasing xs -> xs <> [] -> lowest xs ∈ xs /\ forall x, x ∈ xs -> (lowest xs <= x)%Z.
Proof.
  intros Hi Hne. unfold lowest. destruct (head xs) as [lo|] eqn:E; [|by destruct xs].
  by apply increasing_head.
Qed.

Lemma highest_spec xs : increasing xs -> xs <> [] -> highest xs ∈ xs /\ forall x, x ∈ xs -> (x <= highest xs)%Z.
Proof.
  intros Hi Hne. unfold highest. destruct (last xs) as [hi|] eqn:E; [by apply increasing_last|].
  by apply last_None in E.
Qed.

(** The ceiling of a list of clocks: one of them, the greatest not above the
    percentage of the highest, or the lowest when that is above it too. *)
Lemma ceilingClock_spec sm pct : increasing sm -> sm <> [] ->
  let target := pctOfMax pct (highest sm) in
  let c := ceilingClock sm pct in
  c ∈ sm /\ (forall x, x ∈ sm -> fle (fofZ x) target = true -> (x <= c)%Z) /\
  (fle (fofZ c) target = true \/ (c = lowest sm /\ forall x, x ∈ sm -> fle (fofZ x) target = false)).
Proof.
  intros Hi Hne. cbv zeta. unfold ceilingClock.
  destruct (scan_last (fun c => fle (fofZ c) (pctOfMax pct (highest sm))) sm (lowest sm) Hi) as [(H1 & H2 & H3)|[-> H]].
  - auto.
  - split; [by apply lowest_spec|]. split; [|auto]. intros x Hx E. rewrite H in E; done.
Qed.

Lemma length_nonempty {A} (l : list A) : (length l =? 0)%nat = false <-> l <> [].
Proof. destruct l; cbn; split; done. Qed.

(** The locks of a choice are supported clocks of the domain, and memory is
    locked only where that takes effect. *)
Lemma chooseNvidia_locks f preset pct :
  let c := chooseNvidia f preset pct in
  let sm := distinctMHz (nf_SupportedSMMHz f) in
  let mem := distinctMHz (nf_SupportedMemMHz f) in
  (forall lo hi, nv_gpu c = Some (lo, hi) -> lo ∈ sm /\ hi ∈ sm /\ (lo <= hi)%Z) /\
  (forall lo hi, nv_mem c = Some (lo, hi) ->
     lo ∈ mem /\ hi = lo /\ nvMemLockable f = true /\ (1 < length mem)%nat /\ (lo = lowest mem \/ lo = highest mem)).
Proof.
  cbv zeta. set (sm := distinctMHz _). set (mem := distinctMHz _).
  assert (increasing sm) as Hsm by apply distinctMHz_increasing.
  assert (increasing mem) as Hmem by apply distinctMHz_increasing.
  assert ((1 < length mem)%nat -> mem <> []) as Hne by (destruct mem; cbn; [lia|done]).
  unfold chooseNvidia. fold sm mem. cbv zeta.
  destruct (negb (nvKnownArch _)); [done|]. destruct (String.eqb preset GPUGovernorPresetAuto); [done|].
  destruct (String.eqb preset GPUGovernorPresetSustained).
  { destruct (nvMemLockable f && (1 <? length mem)%nat) eqn:E; [|by destruct (nvMemLockable f && (length mem =? 0)%nat)]. cbn.
    apply andb_true_iff in E as [? E%Nat.ltb_lt]. split; [done|]. intros lo hi [= <- <-].
    destruct (highest_spec mem Hmem (Hne E)) as [? _]. auto 10. }
  destruct (String.eqb preset GPUGovernorPresetEfficient).
  { destruct (length sm =? 0)%nat eqn:E; [done|]. apply length_nonempty in E. cbn. split; [|done].
    intros lo hi [= <- <-]. destruct (lowest_spec sm Hsm E) as [H1 H2].
    destruct (ceilingClock_spec sm pct Hsm E) as [H3 _]. auto. }
  destruct (_ || String.eqb preset GPUGovernorPresetPeak); [|done].
  destruct (length sm =? 0)%nat eqn:E; [done|]. apply length_nonempty in E. cbn [orb].
  destruct (nvMemLockable f && (length mem =? 0)%nat); [done|]. cbn [nv_gpu nv_mem]. split.
  - intros lo hi [= <- <-]. destruct (lowest_spec sm Hsm E), (highest_spec sm Hsm E).
    destruct (String.eqb preset GPUGovernorPresetLow); cbn beta iota; split_and!; try done; lia.
  - destruct (nvMemLockable f && (1 <? length mem)%nat) eqn:Em; [|done].
    apply andb_true_iff in Em as [? Em%Nat.ltb_lt]. destruct (lowest_spec mem Hmem (Hne Em)), (highest_spec mem Hmem (Hne Em)).
    intros lo hi. destruct (String.eqb preset GPUGovernorPresetLow); intros [= <- <-]; auto 10.
Qed.

(** Only the efficient preset depends on the ceiling. *)
Lemma chooseNvidia_ceiling f preset pct pct' :
  preset <> GPUGovernorPresetEfficient -> chooseNvidia f preset pct = chooseNvidia f preset pct'.
Proof. intros H%String.eqb_neq. unfold chooseNvidia. by rewrite H. Qed.

Lemma namesLocks_true f gpu mem p :
  namesLocks f gpu mem p = true <->
  nv_result (chooseNvidia f p DefaultCeilingPctOfMax) <> GovernorResultUnsupported /\
  nv_gpu (chooseNvidia f p DefaultCeilingPctOfMax) = gpu /\ nv_mem (chooseNvidia f p DefaultCeilingPctOfMax) = mem.
Proof.
  unfold namesLocks. rewrite !andb_true_iff, negb_true_iff, String.eqb_neq, !bool_decide_eq_true. tauto.
Qed.

Lemma chooseNvidia_efficient f pct :
  chooseNvidia f GPUGovernorPresetEfficient pct =
  let sm := distinctMHz (nf_SupportedSMMHz f) in
  if negb (nvKnownArch (nf_Arch f)) || (length sm =? 0)%nat then nvUnsupported
  else mkNV (Some (lowest sm, ceilingClock sm pct)) None GovernorResultApplied.
Proof. unfold chooseNvidia. by destruct (nvKnownArch (nf_Arch f)). Qed.

(** Reading locks back. The preset named for the locks of a plan is one whose
    plan, at the same ceiling, sets the same locks; it is the plan's own
    preset unless another one sets them. *)
Theorem ReverseNvidia_reads_back f preset pct :
  let c := chooseNvidia f preset pct in
  preset ∈ GPUGovernorPresetValues -> nv_result c <> GovernorResultUnsupported ->
  exists q, ReverseNvidia f (nv_gpu c) (nv_mem c) = Some q /\ q ∈ GPUGovernorPresetValues /\
    let c' := chooseNvidia f q pct in
    nv_result c' <> GovernorResultUnsupported /\ nv_gpu c' = nv_gpu c /\ nv_mem c' = nv_mem c.
Proof.
  cbv zeta. intros Hin Hr. unfold ReverseNvidia.
  assert (forall q, q ∈ presetsButEfficient -> namesLocks f (nv_gpu (chooseNvidia f preset pct))
      (nv_mem (chooseNvidia f preset pct)) q = true ->
    q ∈ GPUGovernorPresetValues /\ nv_result (chooseNvidia f q pct) <> GovernorResultUnsupported /\
    nv_gpu (chooseNvidia f q pct) = nv_gpu (chooseNvidia f preset pct) /\
    nv_mem (chooseNvidia f q pct) = nv_mem (chooseNvidia f preset pct)) as Hnamed.
  { intros q [Hq Hne]%presetsButEfficient_elem Hm%namesLocks_true.
    by rewrite (chooseNvidia_ceiling f q pct DefaultCeilingPctOfMax). }
  destruct (find (fun p => namesLocks _ _ _ p && _) _) as [q|] eqn:E1.
  { apply find_some in E1 as [Hq%list_elem_of_In [Hm _]%andb_true_iff]. exists q. split; [done|]. by apply Hnamed. }
  destruct (find (namesLocks _ _ _) _) as [q|] eqn:E2.
  { apply find_some in E2 as [Hq%list_elem_of_In Hm]. exists q. split; [done|]. by apply Hnamed. }
  assert (preset = GPUGovernorPresetEfficient) as ->.
  { destruct (decide (preset = GPUGovernorPresetEfficient)) as [|Hne]; [done|]. exfalso.
    assert (preset ∈ presetsButEfficient) as Hp by by apply presetsButEfficient_elem.
    pose proof (find_none _ _ E2 preset ltac:(by apply list_elem_of_In)) as Hm. apply not_true_iff_false in Hm.
    apply Hm, namesLocks_true. by rewrite (chooseNvidia_ceiling f preset DefaultCeilingPctOfMax pct). }
  pose proof (chooseNvidia_locks f GPUGovernorPresetEfficient pct) as [Hl _]. clear E1 E2 Hnamed.
  exists GPUGovernorPresetEfficient. split; [|done]. rewrite chooseNvidia_efficient in *. cbv zeta in *.
  destruct (nvKnownArch (nf_Arch f)); [|done]. cbn [negb orb] in *.
  destruct (length (distinctMHz (nf_SupportedSMMHz f)) =? 0)%nat eqn:En; [done|]. cbn [nv_gpu nv_mem] in *.
  destruct (Hl _ _ eq_refl) as (_ & Hhi & _). rewrite Z.eqb_refl, bool_decide_true by done.
  apply Nat.eqb_neq in En. destruct (Nat.ltb_spec 0 (length (distinctMHz (nf_SupportedSMMHz f)))); [done|lia].
Qed.

(** ** Two devices *)

Definition sampleMI210 : AMDFacts := {|
  af_BusID := "0000:C1:00.0"; af_DeviceID := "0x740f"; af_Family := AMDFamilyAldebaran; af_Level := "auto";
  af_OD := true; af_SclkMHz := (500, 1700)%Z; af_MclkMHz := (400, 1600)%Z; af_FclkMHz := (0, 0)%Z
|}.

Definition samplePlanAMD : Plan :=
  default unsupportedPlan (PlanAMD sampleMI210 GPUGovernorPresetEfficient (fofZ 75)).

Example samplePlanAMD_eq :
  PlanAMD sampleMI210 GPUGovernorPresetEfficient (fofZ 75) = Some samplePlanAMD /\
  p_Native samplePlanAMD = "manual sclk_max=1275" /\
  w_RelPath <$> p_Writes samplePlanAMD =
    ["bus/pci/devices/0000:c1:00.0/power_dpm_force_performance_level";
     "bus/pci/devices/0000:c1:00.0/pp_od_clk_voltage"; "bus/pci/devices/0000:c1:00.0/pp_od_clk_voltage"].
Proof. split_and!; vm_compute; reflexivity. Qed.

Lemma sampleMI210_table : sclkTable sampleMI210.
Proof. unfold sclkTable, clock. cbn. lia. Qed.

Example PlanAMD_correct_witness :
  exists mhz, st_SclkMaxMHz (p_State samplePlanAMD) = mhz /\ (500 <= mhz <= 1700)%Z.
Proof.
  pose proof (PlanAMD_correct sampleMI210 GPUGovernorPresetEfficient (fofZ 75) (fofZ_valid 75) sampleMI210_table) as H.
  rewrite (proj1 samplePlanAMD_eq) in H. cbv beta iota delta [af_SclkMHz sampleMI210] in H.
  exists (st_SclkMaxMHz (p_State samplePlanAMD)). split; [reflexivity|].
  destruct H as [[H _]|[_ H]]; [vm_compute in H; discriminate H|].
  change (String.eqb GPUGovernorPresetEfficient GPUGovernorPresetEfficient) with true in H. cbv iota in H.
  destruct H as (mhz & Hst & _ & Hb & _). rewrite Hst. exact Hb.
Defined.

Example ReverseAMD_reads_back_witness :
  ReverseAMD sampleMI210 (st_Level (p_State samplePlanAMD)) (500, 1275)%Z = Some GPUGovernorPresetEfficient.
Proof.
  refine (ReverseAMD_reads_back sampleMI210 GPUGovernorPresetEfficient (fofZ 75) samplePlanAMD (500, 1275)%Z
    (fofZ_valid 75) sampleMI210_table _ _ _).
  - vm_compute. reflexivity.
  - vm_compute. discriminate.
  - intros _. vm_compute. reflexivity.
Defined.

Definition sampleA100 : NVFacts := {|
  nf_Arch := NVArchAmpere; nf_SupportedSMMHz := [1410; 210; 1095; 1080; 1410]%Z; nf_SupportedMemMHz := [1593; 1215]%Z;
  nf_MemLockRuntime := true; nf_LockedGPU := false; nf_LockedMem := true
|}.

Example samplePlanNvidia :
  exists p, PlanNvidia sampleA100 "00000000:18:00.0" GPUGovernorPresetEfficient (fofZ 77) = Some p /\
    p_Args p = [["-i"; "00000000:18:00.0"; "-lgc"; "210,1080"]; ["-i"; "00000000:18:00.0"; "-rmc"]] /\
    p_Native p = "-lgc 210,1080".
Proof. eexists. split; [vm_compute; reflexivity|]. split; reflexivity. Qed.

Example ReverseNvidia_reads_back_witness :
  exists q, ReverseNvidia sampleA100 (Some (210, 1080)%Z) None = Some q.
Proof.
  destruct (ReverseNvidia_reads_back sampleA100 GPUGovernorPresetEfficient (fofZ 77)) as (q & H & _).
  - by_decide.
  - vm_compute. discriminate.
  - exists q. vm_compute in H |- *. exact H.
Defined.
