(* ===== verification/Native.v ===== *)
(** * Native spellings: pkg/governor/native.go

    [ParseNative] reads back the state a plan's native text spells, and
    [InForce] spells the part of a plan that a run put in force. The theorems:
    the text of every plan reads back as the plan's state, and the text of a
    run cut short claims exactly the fields whose writes were all taken. *)

From S2P Require Import Prelude GoString GoFloat FloatFacts GoSlices Api Governor CpuGovernor GpuGovernor.

#[local] Open Scope string_scope.

(** ** path.Base *)

Definition is_slash (a : ascii) : bool := Ascii.eqb a "/".

Fixpoint take_while (P : ascii -> bool) (l : list ascii) : list ascii :=
  match l with a :: l' => if P a then a :: take_while P l' else [] | [] => [] end.

(** [path.Base]. *)
Definition path_Base (s : string) : string :=
  if String.eqb s "" then "."
  else match drop_while is_slash (rev (list_ascii_of_string s)) with
       | [] => "/"
       | r => string_of_list_ascii (rev (take_while (fun a => negb (is_slash a)) r))
       end.

Lemma take_while_all P l r : Forall (fun a => P a = true) l -> take_while P (l ++ r) = (l ++ take_while P r)%list.
Proof. induction 1 as [|a l Ha _ IH]; [done|]. cbn. by rewrite Ha, IH. Qed.

Lemma path_Base_app s t : t <> "" -> Forall (fun a => is_slash a = false) (list_ascii_of_string t) ->
  path_Base (s +:+ String "/" t) = t.
Proof.
  intros Hne Ht. unfold path_Base.
  assert (String.eqb (s +:+ String "/" t) "" = false) as ->.
  { apply String.eqb_neq. intros H. apply (f_equal String.length) in H. rewrite length_app_string in H. cbn in H. lia. }
  rewrite list_ascii_app. cbn [list_ascii_of_string]. rewrite rev_app_distr. cbn [rev]. rewrite <- app_assoc.
  assert (Forall (fun a => is_slash a = false) (rev (list_ascii_of_string t))) as Hr by by apply List.Forall_rev.
  assert (rev (list_ascii_of_string t) <> []) as Hrn.
  { intros E. apply Hne. rewrite <- (string_of_list_ascii_of_string t), <- (rev_involutive (list_ascii_of_string t)), E. done. }
  assert (forall m, drop_while is_slash (rev (list_ascii_of_string t) ++ m) = (rev (list_ascii_of_string t) ++ m)%list) as Hd.
  { intros m. destruct (rev (list_ascii_of_string t)) as [|a r]; [done|]. apply Forall_cons in Hr as [Ha _]. cbn. by rewrite Ha. }
  rewrite Hd. destruct (rev (list_ascii_of_string t) ++ _)%list eqn:E; [by destruct (rev (list_ascii_of_string t))|].
  rewrite <- E. rewrite take_while_all by (eapply Forall_impl; [exact Hr|]; cbn; intros b ->; done).
  cbn [app take_while is_slash Ascii.eqb Bool.eqb negb].
  rewrite app_nil_r, rev_involutive. apply string_of_list_ascii_of_string.
Qed.

(** ** Reading a state back *)

(** src/pkg/governor/native.go:67-75 [parseLockArg] *)
Definition parseLockArg (v : string) : option (Z * Z) :=
  let '(lo, hi, ok) := Cut v "," in
  match Atoi (TrimSpace lo), Atoi (TrimSpace hi) with
  | Some a, Some b => if ok : bool then Some (a, b) else None
  | _, _ => None
  end.

(** One word after the governor.
    src/pkg/governor/native.go:26-40 [words] *)
Definition cpuWordStep (s : State) (w : string) : State :=
  let '(key, value, _) := Cut w "=" in
  if String.eqb key "epp" then
    mkState (st_Governor s) value (st_Boost s) (st_Level s) (st_SclkMaxMHz s) (st_GPULockMHz s) (st_MemLockMHz s)
  else if String.eqb key "boost" || String.eqb key "no_turbo" then
    let on := xorb (String.eqb key "no_turbo") (String.eqb value "1") in
    mkState (st_Governor s) (st_EPP s) (if on then CPUGovernorBoostOn else CPUGovernorBoostOff)
      (st_Level s) (st_SclkMaxMHz s) (st_GPULockMHz s) (st_MemLockMHz s)
  else s.

(** One word after the level.
    src/pkg/governor/native.go:46-50 [sclk_max] *)
Definition amdWordStep (s : State) (w : string) : State :=
  match CutPrefix w "sclk_max=" with
  | (v, true) =>
      mkState (st_Governor s) (st_EPP s) (st_Boost s) (st_Level s) (AtoiValue v) (st_GPULockMHz s) (st_MemLockMHz s)
  | _ => s
  end.

(** The pairs of neighbouring words, left to right.
    src/pkg/governor/native.go:52-59 [parseLockArg] *)
Fixpoint nvidiaWords (s : State) (words : list string) : State :=
  match words with
  | a :: (b :: _) as rest =>
      nvidiaWords
        (if String.eqb a "-lgc" then
           mkState (st_Governor s) (st_EPP s) (st_Boost s) (st_Level s) (st_SclkMaxMHz s) (parseLockArg b) (st_MemLockMHz s)
         else if String.eqb a "-lmc" then
           mkState (st_Governor s) (st_EPP s) (st_Boost s) (st_Level s) (st_SclkMaxMHz s) (st_GPULockMHz s) (parseLockArg b)
         else s) rest
  | _ => s
  end.

(** src/pkg/governor/native.go:17-63 [ParseNative] *)
Definition ParseNative (backend native : string) : State :=
  let words := Fields native in
  if String.eqb backend GovernorBackendCPUFreq then
    match words with
    | [] => noState
    | w :: rest => foldl cpuWordStep (mkState w "" "" "" 0 None None) rest
    end
  else if String.eqb backend GovernorBackendAMDGPUSysfs then
    match words with
    | [] => noState
    | w :: rest => foldl amdWordStep (mkState "" "" "" w 0 None None) rest
    end
  else if String.eqb backend GovernorBackendNvidiaSMI then nvidiaWords noState words
  else noState.

(** ** What a run put in force *)

(** src/pkg/governor/native.go:124-138 [writeField] *)
Definition writeField (w : Write) : string :=
  let base := path_Base (w_RelPath w) in
  if String.eqb base PolicyGovernorFile then "governor"
  else if String.eqb base PolicyEPPFile then "epp"
  else if String.eqb base PolicyBoostFile || String.eqb base (path_Base NoTurboRelPath) then "boost"
  else if String.eqb base AMDLevelFile then "level"
  else if String.eqb base AMDODFile then "sclk_max"
  else "".

(** The writes of a plan that set a field: how many, and how many of them
    were taken.
    src/pkg/governor/native.go:85-96 [writeField] *)
Definition fieldAll (p : Plan) (f : string) : nat := length (filter (fun w => writeField w = f) (p_Writes p)).
Definition fieldDone (p : Plan) (taken : list Write) (f : string) : nat :=
  length (filter (fun w => writeField w = f /\ w ∈ taken) (p_Writes p)).

(** src/pkg/governor/native.go:84-119 [InForce] *)
Definition InForce (p : Plan) (taken : list Write) : string :=
  let words := Fields (p_Native p) in
  let head := if (0 <? fieldAll p "level")%nat then "level" else "governor" in
  match words with
  | [] => ""
  | w0 :: rest =>
      if (fieldDone p taken head =? 0)%nat then ""
      else
        let first := if (fieldDone p taken head <? fieldAll p head)%nat then GovernorCurrentMixed else w0 in
        let kept := filter (fun w =>
          let f := (Cut w "=").1.1 in
          let f := if String.eqb f "no_turbo" then "boost" else f in
          (0 <? fieldAll p f)%nat && (fieldDone p taken f =? fieldAll p f)%nat = true) rest in
        Join (first :: kept) " "
  end.

(** ** The text of a plan *)

(** The words of a CPU plan's text after its governor. *)
Definition cpuTail (f : CPUFacts) (c : cpuChoice) (boost : string) : list string :=
  ((if String.eqb (cc_epp c) "" then [] else ["epp=" +:+ cc_epp c]) ++
   (if String.eqb boost "" then [] else [boostNative (cf_BoostScope f) boost]))%list.

Lemma cpuWord_plain g : cpuWord g -> plain g /\ g <> "".
Proof.
  intros H. unfold cpuWord in H. repeat (apply elem_of_cons in H as [->|H]); [..|by apply not_elem_of_nil in H].
  all: split; [plain_word|done].
Qed.

Lemma epp_plain f preset : cc_epp (chooseCPU f preset) = "" \/ cc_epp (chooseCPU f preset) = cpuEPPWord preset.
Proof.
  destruct (chooseCPU_result f preset) as [->|H]; [by left|].
  destruct (chooseCPU_supported f preset) as (_ & _ & _ & [He|[He _]]); [|by left|by right].
  intros E. rewrite E in H. by destruct H.
Qed.

Lemma cpuEPPWord_plain preset : plain ("epp=" +:+ cpuEPPWord preset).
Proof. unfold cpuEPPWord. repeat case_match; plain_word. Qed.

Lemma boostNative_plain scope boost : plain (boostNative scope boost) /\ boostNative scope boost <> "".
Proof. unfold boostNative, boostBit. repeat case_match; (split; [plain_word|done]). Qed.

Lemma NativeCPU_words f preset boost :
  let c := chooseCPU f preset in
  cc_result c <> GovernorResultUnsupported ->
  NativeCPU (cc_governor c) (cc_epp c) +:+ (if String.eqb boost "" then "" else " " +:+ boostNative (cf_BoostScope f) boost) =
  Join (cc_governor c :: cpuTail f c boost) " " /\
  Forall (fun w => plain w /\ w <> "") (cc_governor c :: cpuTail f c boost).
Proof.
  cbv zeta. intros Hc. destruct (chooseCPU_supported f preset Hc) as (_ & Hg & _ & _).
  pose proof (epp_plain f preset) as He. set (c := chooseCPU f preset) in *. unfold cpuTail, NativeCPU.
  pose proof (cpuGovernorWords_words (cf_Driver f) preset) as Hw. rewrite Forall_forall in Hw.
  pose proof (cpuWord_plain _ (Hw _ Hg)) as [Hp Hn].
  split.
  - destruct (String.eqb (cc_epp c) ""), (String.eqb boost ""); cbn [app Join];
      rewrite ?app_assoc_string, ?app_nil_string; try done.
    + apply list_ascii_inj. by rewrite list_ascii_app, app_nil_r.
    + f_equal. apply list_ascii_inj. by rewrite !list_ascii_app, app_nil_r.
  - constructor; [done|]. apply Forall_app. split.
    + destruct (String.eqb_spec (cc_epp c) "") as [|Hne]; [constructor|]. destruct He as [|He]; [done|]. rewrite He.
      constructor; [|constructor]. split; [apply cpuEPPWord_plain|done].
    + destruct (String.eqb boost ""); [constructor|]. constructor; [|constructor]. apply boostNative_plain.
Qed.

(** ** Every plan's text reads back as its state *)

Lemma Cut_eq w v : Forall (fun a => a <> "="%char) (list_ascii_of_string w) -> Cut (w +:+ String "=" v) "=" = (w, v, true).
Proof. apply Cut_byte. Qed.

Lemma boost_word f boost ws (s : State) :
  boost ∈ CPUGovernorBoostValues -> CPUBoostWrites f ws boost <> None ->
  cpuWordStep s (boostNative (cf_BoostScope f) boost) =
  mkState (st_Governor s) (st_EPP s) boost (st_Level s) (st_SclkMaxMHz s) (st_GPULockMHz s) (st_MemLockMHz s).
Proof.
  intros Hb _. unfold boostNative.
  repeat (apply elem_of_cons in Hb as [->|Hb]); [..|by apply not_elem_of_nil in Hb].
  all: by destruct (String.eqb (cf_BoostScope _) CPUBoostScopeNoTurbo).
Qed.

Lemma epp_word preset (s : State) :
  cpuWordStep s ("epp=" +:+ cpuEPPWord preset) =
  mkState (st_Governor s) (cpuEPPWord preset) (st_Boost s) (st_Level s) (st_SclkMaxMHz s) (st_GPULockMHz s) (st_MemLockMHz s).
Proof. unfold cpuEPPWord. by repeat case_match. Qed.

Lemma ParseNative_CPU f preset boost p :
  PlanCPU f preset boost = Some p -> p_Result p <> GovernorResultUnsupported ->
  ParseNative GovernorBackendCPUFreq (p_Native p) = p_State p.
Proof.
  intros Hp Hr. destruct (PlanCPU_shape f preset boost p Hp Hr) as (_ & Hc & ws & _ & _ & -> & _ & -> & Hb).
  destruct (NativeCPU_words f preset boost Hc) as [-> Hw].
  unfold ParseNative. rewrite Fields_Join by done. cbn [String.eqb Ascii.eqb Bool.eqb].
  change (String.eqb GovernorBackendCPUFreq GovernorBackendCPUFreq) with true. cbv iota.
  unfold cpuTail. rewrite foldl_app.
  assert (foldl cpuWordStep (mkState (cc_governor (chooseCPU f preset)) "" "" "" 0 None None)
    (if String.eqb (cc_epp (chooseCPU f preset)) "" then [] else ["epp=" +:+ cc_epp (chooseCPU f preset)]) =
    mkState (cc_governor (chooseCPU f preset)) (cc_epp (chooseCPU f preset)) "" "" 0 None None) as ->.
  { destruct (String.eqb_spec (cc_epp (chooseCPU f preset)) "") as [->|Hne]; [done|].
    destruct (epp_plain f preset) as [|He]; [done|]. rewrite He. cbn [foldl]. by rewrite epp_word. }
  destruct Hb as [[-> _]|[Hb Hw']]; [done|].
  destruct (String.eqb_spec boost "") as [->|Hne]; [done|]. cbn [foldl].
  rewrite (boost_word f boost (sortedPolicies (cf_Policies f))); [done|done|congruence].
Qed.

Lemma AtoiValue_Itoa n : (0 <= n)%Z -> in_int64 n -> AtoiValue (Itoa n) = n.
Proof.
  intros Hn Hr. destruct (digit_head (Itoa n) (Itoa_digits n Hn) (Itoa_nonempty n)) as (a & r & E & Ha).
  assert (AtoiValue (Itoa n) = sat64 (default 0%Z (Z.of_uint <$> DecimalString.NilZero.uint_of_string (Itoa n)))) as ->.
  { rewrite E. unfold AtoiValue. f_equal. destruct a as [[] [] [] [] [] [] [] []]; done. }
  rewrite uint_Itoa by done. cbn [fmap option_fmap option_map default from_option id].
  rewrite Z_of_uint_of, Z2N.id by done. unfold sat64, in_int64 in *. lia.
Qed.

Lemma ParseNative_AMD f preset pct p :
  valid pct -> sclkTable f -> PlanAMD f preset pct = Some p -> p_Result p <> GovernorResultUnsupported ->
  ParseNative GovernorBackendAMDGPUSysfs (p_Native p) = p_State p.
Proof.
  intros Hv Ht Hp Hr. pose proof (PlanAMD_correct f preset pct Hv Ht) as H.
  destruct (af_SclkMHz f) as [lo hi] eqn:Es. rewrite Hp in H. destruct H as [[-> _]|[_ H]]; [done|].
  unfold PlanAMD in Hp. destruct (negb _); [done|]. destruct (String.eqb (af_BusID f) ""); [done|].
  destruct (chooseAMD f preset pct) as [[level m]|] eqn:Ec; [|injection Hp as <-; done].
  assert (plain level /\ level <> "") as [Hl Hln].
  { unfold chooseAMD in Ec. destruct (negb (String.eqb preset _)).
    - destruct (amdLevels _ _) as [l|] eqn:El; [|done]. injection Ec as <- _. unfold amdLevels in El.
      repeat case_match; simplify_eq; (split; [plain_word|done]).
    - rewrite Es in Ec. destruct (_ || _); [done|]. injection Ec as <- _. split; [plain_word|done]. }
  destruct (Z.ltb_spec 0 m) as [Hm|Hm].
  - injection Hp as <-. cbn [p_Native p_State] in *.
    assert (in_int64 m) as Hi.
    { destruct (String.eqb_spec preset GPUGovernorPresetEfficient) as [->|Hne].
      - destruct H as (mhz & [= -> ->] & _ & Hb & _). unfold sclkTable, clock in Ht. rewrite Es in Ht. cbn in Ht.
        unfold in_int64, int64_min, int64_max. destruct (Z.lt_ge_cases 0 hi); lia.
      - destruct H as (l & _ & [= -> ->] & _). lia. }
    change (" sclk_max=" +:+ Itoa m) with (String " " ("sclk_max=" +:+ Itoa m)).
    unfold ParseNative. rewrite Fields_word by done.
    rewrite Fields_last; [|apply plain_app; [plain_word|apply plain_Itoa]|done].
    change (String.eqb GovernorBackendAMDGPUSysfs GovernorBackendCPUFreq) with false.
    change (String.eqb GovernorBackendAMDGPUSysfs GovernorBackendAMDGPUSysfs) with true. cbv iota. cbn [foldl].
    unfold amdWordStep. rewrite CutPrefix_app, AtoiValue_Itoa by (done || lia). done.
  - injection Hp as <-. cbn [p_Native p_State] in *. unfold ParseNative. rewrite Fields_last by done.
    change (String.eqb GovernorBackendAMDGPUSysfs GovernorBackendCPUFreq) with false.
    change (String.eqb GovernorBackendAMDGPUSysfs GovernorBackendAMDGPUSysfs) with true. cbv iota. cbn [foldl].
    destruct (String.eqb_spec preset GPUGovernorPresetEfficient) as [->|Hne].
    + destruct H as (mhz & [= -> ->] & _ & Hb & _). unfold sclkTable in Ht. rewrite Es in Ht. cbn in Ht.
      destruct (Z.lt_ge_cases 0 hi); [lia|]. unfold chooseAMD in Ec. rewrite Es in Ec.
      destruct (Z.leb_spec hi 0); [|lia]. rewrite orb_true_r in Ec. done.
    + destruct H as (l & _ & [= -> ->] & _). done.
Qed.

Lemma Itoa_no_comma n : Forall (fun a => a <> ","%char) (list_ascii_of_string (Itoa n)).
Proof.
  destruct (decide (0 <= n)%Z) as [H|H]; [by apply digit_not, Itoa_digits|].
  destruct n as [|p|p]; try lia. unfold Itoa, Z.to_int. cbn [DecimalString.NilZero.string_of_int list_ascii_of_string].
  constructor; [done|]. apply digit_not; [done|]. apply NilZero_string_digits.
Qed.

Definition lock64 (l : option (Z * Z)) : Prop :=
  match l with Some (lo, hi) => in_int64 lo /\ in_int64 hi | None => True end.

Lemma lockArg_cut a b : Cut (lockArg (a, b)) "," = (Itoa a, Itoa b, true).
Proof. apply (Cut_byte "," (Itoa a) (Itoa b)), Itoa_no_comma. Qed.

Lemma parseLockArg_lockArg a b : lock64 (Some (a, b)) -> parseLockArg (lockArg (a, b)) = Some (a, b).
Proof.
  intros [Ha Hb]. unfold parseLockArg. rewrite lockArg_cut.
  rewrite !TrimSpace_plain by apply plain_Itoa. by rewrite !Atoi_Itoa.
Qed.

Lemma lockArg_plain a b : plain (lockArg (a, b)) /\ lockArg (a, b) <> "".
Proof.
  split; [apply plain_app; [apply plain_Itoa|apply plain_app; [plain_word|apply plain_Itoa]]|].
  intros E. pose proof (lockArg_cut a b) as H. rewrite E in H. discriminate H.
Qed.

Lemma lockArg_not_flag a b flag : Cut flag "," = (flag, "", false) -> String.eqb (lockArg (a, b)) flag = false.
Proof. intros Hf. apply String.eqb_neq. intros E. pose proof (lockArg_cut a b) as H. rewrite E, Hf in H. congruence. Qed.

(** The words that spell a pair of locks. *)
Definition lockWords (gpu mem : option (Z * Z)) : list string :=
  ((match gpu with Some l => ["-lgc"; lockArg l] | None => [] end) ++
   (match mem with Some l => ["-lmc"; lockArg l] | None => [] end))%list.

Lemma nvidiaNative_words s : nvidiaNative s = Join (lockWords (st_GPULockMHz s) (st_MemLockMHz s)) " " /\
  Forall (fun w => plain w /\ w <> "") (lockWords (st_GPULockMHz s) (st_MemLockMHz s)).
Proof.
  unfold nvidiaNative, lockWords.
  destruct (st_GPULockMHz s) as [[a b]|], (st_MemLockMHz s) as [[c d]|]; cbn [app Join];
    rewrite ?app_assoc_string; (split; [done|]);
    repeat (constructor; [first [apply lockArg_plain|split; [plain_word|done]]|]); constructor.
Qed.

Lemma nvidiaWords_lockWords gpu mem : lock64 gpu -> lock64 mem ->
  nvidiaWords noState (lockWords gpu mem) = mkState "" "" "" "" 0 gpu mem.
Proof.
  assert (forall l, String.eqb (lockArg l) "-lgc" = false /\ String.eqb (lockArg l) "-lmc" = false) as Hf
    by (intros [a b]; split; by apply lockArg_not_flag).
  intros Hg Hm. unfold lockWords. destruct gpu as [[a b]|], mem as [[c d]|]; cbn [app nvidiaWords String.eqb Ascii.eqb Bool.eqb noState];
    rewrite ?parseLockArg_lockArg by done; repeat rewrite ?(proj1 (Hf _)), ?(proj2 (Hf _)); done.
Qed.

(** The locks of a preset are on supported clocks, so in range. *)
Lemma chooseNvidia_lock64 f preset pct :
  Forall clock (nf_SupportedSMMHz f) -> Forall clock (nf_SupportedMemMHz f) ->
  lock64 (nv_gpu (chooseNvidia f preset pct)) /\ lock64 (nv_mem (chooseNvidia f preset pct)).
Proof.
  intros Hsm Hmem. destruct (chooseNvidia_locks f preset pct) as [Hg Hm]. set (c := chooseNvidia f preset pct) in *.
  assert (forall l n, Forall clock l -> n ∈ distinctMHz l -> in_int64 n) as Hc.
  { intros l n Hl [Hin _]%elem_of_distinctMHz. rewrite Forall_forall in Hl. pose proof (Hl n Hin) as H.
    unfold clock in H. unfold in_int64, int64_min, int64_max. lia. }
  split.
  - destruct (nv_gpu c) as [[lo hi]|]; [|done]. destruct (Hg lo hi eq_refl) as (H1 & H2 & _). split; by apply (Hc _ _ Hsm).
  - destruct (nv_mem c) as [[lo hi]|]; [|done]. destruct (Hm lo hi eq_refl) as (H1 & -> & _). split; by apply (Hc _ _ Hmem).
Qed.

Lemma ParseNative_NVIDIA f bus preset pct p :
  Forall clock (nf_SupportedSMMHz f) -> Forall clock (nf_SupportedMemMHz f) ->
  PlanNvidia f bus preset pct = Some p -> p_Result p <> GovernorResultUnsupported ->
  ParseNative GovernorBackendNvidiaSMI (p_Native p) = p_State p.
Proof.
  intros Hsm Hmem Hp Hr. unfold PlanNvidia in Hp. destruct (negb _); [done|]. destruct (String.eqb bus ""); [done|].
  destruct (chooseNvidia_lock64 f preset pct Hsm Hmem) as [Hg64 Hm64]. set (c := chooseNvidia f preset pct) in *.
  destruct (String.eqb (nv_result c) _); [by injection Hp as <-|]. injection Hp as <-. cbn [p_Native p_State p_Result] in *.
  set (st := mkState "" "" "" "" 0 (nv_gpu c) (nv_mem c)).
  destruct (nvidiaNative_words st) as [Hn Hw].
  unfold ParseNative. change (String.eqb GovernorBackendNvidiaSMI GovernorBackendCPUFreq) with false.
  change (String.eqb GovernorBackendNvidiaSMI GovernorBackendAMDGPUSysfs) with false.
  change (String.eqb GovernorBackendNvidiaSMI GovernorBackendNvidiaSMI) with true. cbv iota.
  destruct (String.eqb_spec (nvidiaNative st) "") as [E|E].
  - assert (st = noState) as ->.
    { unfold st, noState. rewrite Hn in E. cbn [st_GPULockMHz st_MemLockMHz st] in E. unfold lockWords in E.
      destruct (nv_gpu c) as [[]|], (nv_mem c) as [[]|]; done. }
    by destruct (_ ++ _)%list.
  - rewrite Hn, Fields_Join by done. by apply nvidiaWords_lockWords.
Qed.

(** C39. The native text of one plan reads back as the state the plan sets:
    for every planner's plan that is not unsupported, the governor, preference
    and boost of a CPU for every preset; the level and ceiling of an AMD GPU
    whose clock table, where it has one, is a range of positive MHz below
    [2^40]; and the clock locks of an NVIDIA GPU whose supported clocks are
    positive and below [2^40] MHz. This is per plan: what a node publishes for
    GPUs whose plans differ is another text. *)
Theorem ParseNative_reads_plans :
  (forall f preset boost p, PlanCPU f preset boost = Some p -> p_Result p <> GovernorResultUnsupported ->
     ParseNative GovernorBackendCPUFreq (p_Native p) = p_State p) /\
  (forall f preset pct p, valid pct -> sclkTable f ->
     PlanAMD f preset pct = Some p -> p_Result p <> GovernorResultUnsupported ->
     ParseNative GovernorBackendAMDGPUSysfs (p_Native p) = p_State p) /\
  (forall f bus preset pct p, Forall clock (nf_SupportedSMMHz f) -> Forall clock (nf_SupportedMemMHz f) ->
     PlanNvidia f bus preset pct = Some p -> p_Result p <> GovernorResultUnsupported ->
     ParseNative GovernorBackendNvidiaSMI (p_Native p) = p_State p).
Proof. split; [exact ParseNative_CPU|]. split; [exact ParseNative_AMD|exact ParseNative_NVIDIA]. Qed.

(** ** A run cut short *)

Lemma path_Base_policy n file : file <> "" -> Forall (fun a => is_slash a = false) (list_ascii_of_string file) ->
  path_Base (PolicyRelPath n file) = file.
Proof.
  intros Hne Hf. unfold PolicyRelPath. change ("/" +:+ file) with (String "/" file).
  rewrite <- !app_assoc_string. by apply path_Base_app.
Qed.

Definition hasField (fld : string) (ws : list Write) : Prop := Forall (fun w => writeField w = fld) ws.

Lemma filter_field_same fld ws : hasField fld ws -> filter (fun w => writeField w = fld) ws = ws.
Proof. intros H. apply list_filter_id. by apply Forall_forall. Qed.

Lemma filter_field_other fld fld' ws : hasField fld ws -> fld <> fld' -> filter (fun w => writeField w = fld') ws = [].
Proof.
  intros H Hne. induction H as [|w ws Hw _ IH]; [done|]. rewrite filter_cons, decide_False by congruence. done.
Qed.

Lemma policyWrites_field file fld v ns :
  (forall n, writeField (mkWrite (PolicyRelPath n file) v) = fld) -> hasField fld (policyWrites file v ns).
Proof. intros H. apply Forall_fmap, Forall_forall. intros n _. apply H. Qed.

Ltac policy_field :=
  intros n; unfold writeField; cbn [w_RelPath]; rewrite path_Base_policy; [reflexivity|done|repeat constructor].

Lemma governor_field v ns : hasField "governor" (policyWrites PolicyGovernorFile v ns).
Proof. apply policyWrites_field. policy_field. Qed.

Lemma epp_field v ns : hasField "epp" (policyWrites PolicyEPPFile v ns).
Proof. apply policyWrites_field. policy_field. Qed.

Lemma boost_field f ns boost ws : CPUBoostWrites f ns boost = Some ws -> hasField "boost" ws /\ ws <> [].
Proof.
  unfold CPUBoostWrites. repeat case_match; intros [= <-]; (split; [|done]).
  - repeat constructor.
  - repeat constructor.
  - change (hasField "boost" (policyWrites PolicyBoostFile (boostBit boost false) (z :: l))).
    apply policyWrites_field. policy_field.
Qed.

(** Whether every write of a field was taken. *)
Definition took (p : Plan) (taken : list Write) (fld : string) : Prop :=
  Forall (fun w => w ∈ taken) (filter (fun w => writeField w = fld) (p_Writes p)).

Lemma fieldDone_filter p taken fld :
  fieldDone p taken fld = length (filter (fun w => w ∈ taken) (filter (fun w => writeField w = fld) (p_Writes p))).
Proof.
  unfold fieldDone. f_equal. induction (p_Writes p) as [|w ws IH]; [done|]. rewrite !filter_cons, IH.
  destruct (decide (writeField w = fld)) as [E|E].
  - rewrite filter_cons. destruct (decide (w ∈ taken)); [by rewrite decide_True|by rewrite decide_False by tauto].
  - by rewrite decide_False by tauto.
Qed.

Lemma fieldDone_took p taken fld : (fieldDone p taken fld =? fieldAll p fld)%nat = bool_decide (took p taken fld).
Proof.
  rewrite fieldDone_filter. unfold fieldAll, took. induction (filter _ (p_Writes p)) as [|w ws IH]; [done|].
  pose proof (length_filter (fun w => w ∈ taken) ws) as Hl.
  rewrite filter_cons. destruct (decide (w ∈ taken)) as [Hw|Hw]; cbn [length].
  - change (S (length (filter (fun w => w ∈ taken) ws)) =? S (length ws))%nat
      with (length (filter (fun w => w ∈ taken) ws) =? length ws)%nat.
    rewrite IH. apply bool_decide_ext. rewrite Forall_cons. tauto.
  - rewrite bool_decide_false; [|by intros [? _]%Forall_cons]. apply Nat.eqb_neq. lia.
Qed.

Lemma fieldDone_le p taken fld : (fieldDone p taken fld <= fieldAll p fld)%nat.
Proof. rewrite fieldDone_filter. apply length_filter. Qed.

Lemma fieldDone_zero p taken fld :
  fieldDone p taken fld = 0%nat <-> forall w, w ∈ p_Writes p -> writeField w = fld -> w ∉ taken.
Proof.
  unfold fieldDone. rewrite length_zero_iff_nil. split.
  - intros H w Hw Hf Ht. assert (w ∈ filter (fun w => writeField w = fld /\ w ∈ taken) (p_Writes p)) as Hin
      by by apply list_elem_of_filter. rewrite H in Hin. by apply not_elem_of_nil in Hin.
  - intros H. destruct (filter _ _) as [|w l] eqn:E; [done|]. exfalso.
    assert (w ∈ filter (fun w => writeField w = fld /\ w ∈ taken) (p_Writes p)) as Hin by (rewrite E; left).
    apply list_elem_of_filter in Hin as [[Hf Ht] Hw]. by apply (H w).
Qed.

(** The fields of a CPU plan's writes. *)
Lemma PlanCPU_fields f preset boost p :
  PlanCPU f preset boost = Some p -> p_Result p <> GovernorResultUnsupported ->
  fieldAll p "level" = 0%nat /\ (0 < fieldAll p "governor")%nat /\
  (0 <? fieldAll p "epp")%nat = negb (String.eqb (cc_epp (chooseCPU f preset)) "") /\
  (0 <? fieldAll p "boost")%nat = negb (String.eqb boost "").
Proof.
  intros Hp Hr. destruct (PlanCPU_shape f preset boost p Hp Hr) as (_ & Hc & ws & Hw & _ & _ & _ & _ & Hb).
  destruct (chooseCPU_supported f preset Hc) as (Hne & _). unfold fieldAll. rewrite Hw.
  set (ns := sortedPolicies (cf_Policies f)).
  assert (forall file v, (0 < length (policyWrites file v ns))%nat) as Hpos.
  { intros file v. unfold policyWrites. rewrite length_fmap. destruct (cf_Policies f) as [|n l] eqn:E; [done|].
    assert (n ∈ ns) as Hn by (apply elem_of_sorted_distinct; left).
    destruct ns; [by apply not_elem_of_nil in Hn|cbn; lia]. }
  assert (hasField "boost" ws /\ (ws <> [] <-> boost <> "")) as [Hbf Hbn].
  { destruct Hb as [[-> ->]|[Hv Hbw]]; [by split; [constructor|]|]. apply boost_field in Hbw as [? ?].
    split; [done|]. split; [|done]. intros _ ->. revert Hv. by_decide. }
  set (c := chooseCPU f preset) in *. set (eppw := if String.eqb (cc_epp c) "" then _ else _).
  assert (hasField "epp" eppw) as Hef by (unfold eppw; destruct (String.eqb _ _); [constructor|apply epp_field]).
  pose proof (governor_field (cc_governor c) ns) as Hgf.
  rewrite !filter_app. rewrite (filter_field_other _ "level" _ Hgf), (filter_field_other _ "level" _ Hef), (filter_field_other _ "level" _ Hbf) by done.
  rewrite (filter_field_same _ _ Hgf), (filter_field_other _ "governor" _ Hef), (filter_field_other _ "governor" _ Hbf) by done.
  rewrite (filter_field_other _ "epp" _ Hgf), (filter_field_same _ _ Hef), (filter_field_other _ "epp" _ Hbf) by done.
  rewrite (filter_field_other _ "boost" _ Hgf), (filter_field_other _ "boost" _ Hef), (filter_field_same _ _ Hbf) by done.
  rewrite !app_nil_r. cbn [app length]. split; [done|]. split; [apply Hpos|]. split.
  - unfold eppw. destruct (String.eqb _ _); [done|]. apply Nat.ltb_lt, Hpos.
  - destruct (String.eqb_spec boost "") as [E|E]; cbn [negb].
    + destruct ws; [done|]. by destruct (proj1 Hbn).
    + apply Nat.ltb_lt. destruct ws; [by destruct (proj2 Hbn E)|cbn; lia].
Qed.

(** A status names of a CPU plan that was cut short exactly what is in force:
    nothing while no policy took the governor; then the governor, or mixed
    when only some policies took it, and each of the preference and boost
    exactly when every write of it was taken. A plan run to its end reads as
    its own text. *)
Theorem InForce_correct f preset boost p taken :
  PlanCPU f preset boost = Some p -> p_Result p <> GovernorResultUnsupported ->
  InForce p (p_Writes p) = p_Native p /\
  ((forall w, w ∈ p_Writes p -> writeField w = "governor" -> w ∉ taken) -> InForce p taken = "") /\
  ((exists w, w ∈ p_Writes p /\ writeField w = "governor" /\ w ∈ taken) ->
   ParseNative GovernorBackendCPUFreq (InForce p taken) =
   mkState (if bool_decide (took p taken "governor") then st_Governor (p_State p) else GovernorCurrentMixed)
     (if bool_decide (took p taken "epp") then st_EPP (p_State p) else "")
     (if bool_decide (took p taken "boost") then st_Boost (p_State p) else "") "" 0 None None).
Proof.
  intros Hp Hr. destruct (PlanCPU_fields f preset boost p Hp Hr) as (Hl & Hg & He & Hbo).
  destruct (PlanCPU_shape f preset boost p Hp Hr) as (_ & Hc & ws & _ & _ & Hst & _ & Hn & Hb).
  destruct (NativeCPU_words f preset boost Hc) as [Hnat Hw]. rewrite Hnat in Hn. clear Hnat.
  set (c := chooseCPU f preset) in *.
  assert (forall taken, InForce p taken = if (fieldDone p taken "governor" =? 0)%nat then "" else
    Join ((if bool_decide (took p taken "governor") then cc_governor c else GovernorCurrentMixed) ::
          ((if String.eqb (cc_epp c) "" then [] else if bool_decide (took p taken "epp") then ["epp=" +:+ cc_epp c] else []) ++
           (if String.eqb boost "" then [] else if bool_decide (took p taken "boost")
            then [boostNative (cf_BoostScope f) boost] else []))%list) " ") as HI.
  { intros tk. unfold InForce. rewrite Hn, Fields_Join, Hl by done. change (0 <? 0)%nat with false. cbv iota zeta.
    destruct (fieldDone p tk "governor" =? 0)%nat; [done|]. f_equal. f_equal.
    - rewrite <- fieldDone_took. pose proof (fieldDone_le p tk "governor").
      destruct (Nat.eqb_spec (fieldDone p tk "governor") (fieldAll p "governor")),
        (Nat.ltb_spec (fieldDone p tk "governor") (fieldAll p "governor")); done || lia.
    - unfold cpuTail. rewrite filter_app. f_equal.
      + destruct (String.eqb (cc_epp c) ""); [done|]. rewrite filter_cons.
        change ("epp=" +:+ cc_epp c) with ("epp" +:+ String "=" (cc_epp c)). rewrite Cut_eq by (repeat constructor; done).
        cbn [fst]. change (String.eqb "epp" "no_turbo") with false. cbv iota.
        rewrite He, fieldDone_took. cbn [negb andb].
        by destruct (bool_decide (took p tk "epp")).
      + destruct (String.eqb boost ""); [done|]. rewrite filter_cons.
        assert ((let fld := (Cut (boostNative (cf_BoostScope f) boost) "=").1.1 in
           if String.eqb fld "no_turbo" then "boost" else fld) = "boost") as Hf.
        { unfold boostNative, boostBit. by repeat case_match. }
        cbv zeta in Hf. rewrite Hf, Hbo, fieldDone_took. cbn [negb andb].
        by destruct (bool_decide (took p tk "boost")). }
  split; [|split].
  - assert (forall fld, took p (p_Writes p) fld) as Ht.
    { intros fld. apply Forall_forall. intros w [_ Hin]%list_elem_of_filter. done. }
    rewrite HI. rewrite !bool_decide_true by apply Ht.
    destruct (Nat.eqb_spec (fieldDone p (p_Writes p) "governor") 0) as [E|_]; [|by rewrite Hn].
    pose proof (fieldDone_took p (p_Writes p) "governor") as H. rewrite bool_decide_true in H by apply Ht.
    apply Nat.eqb_eq in H. lia.
  - intros Hno%fieldDone_zero. by rewrite HI, Hno.
  - intros (w & Hw1 & Hw2 & Hw3). rewrite HI.
    destruct (Nat.eqb_spec (fieldDone p taken "governor") 0) as [E|_].
    { exfalso. by apply (proj1 (fieldDone_zero p taken "governor") E w). }
    rewrite Hst. cbn [st_Governor st_EPP st_Boost]. set (g := if bool_decide (took p taken "governor") then _ else _).
    assert (plain g /\ g <> "") as Hgp.
    { unfold g. destruct (bool_decide _); [by apply Forall_cons in Hw as [? _]|split; [plain_word|done]]. }
    apply Forall_cons in Hw as [_ Hw]. unfold cpuTail in Hw. apply Forall_app in Hw as [Hwe Hwb].
    unfold ParseNative. rewrite Fields_Join.
    2:{ constructor; [done|]. apply Forall_app. split.
        - revert Hwe. destruct (String.eqb (cc_epp c) ""); [by intros|].
          destruct (bool_decide (took p taken "epp")); [by intros|constructor].
        - revert Hwb. destruct (String.eqb boost ""); [by intros|].
          destruct (bool_decide (took p taken "boost")); [by intros|constructor]. }
    change (String.eqb GovernorBackendCPUFreq GovernorBackendCPUFreq) with true. cbv iota. rewrite foldl_app.
    assert (foldl cpuWordStep (mkState g "" "" "" 0 None None)
      (if String.eqb (cc_epp c) "" then [] else if bool_decide (took p taken "epp") then ["epp=" +:+ cc_epp c] else []) =
      mkState g (if bool_decide (took p taken "epp") then cc_epp c else "") "" "" 0 None None) as ->.
    { destruct (String.eqb_spec (cc_epp c) "") as [E0|Hne]; [rewrite E0; by destruct (bool_decide (took p taken "epp"))|].
      destruct (bool_decide (took p taken "epp")); [|done]. destruct (epp_plain f preset) as [|E]; [done|]. fold c in E. rewrite E.
      cbn [foldl]. by rewrite epp_word. }
    destruct Hb as [[-> _]|[Hv Hbw]]; [by destruct (bool_decide (took p taken "boost"))|].
    destruct (String.eqb_spec boost "") as [->|Hne]; [by destruct (bool_decide (took p taken "boost"))|].
    destruct (bool_decide (took p taken "boost")); [|done]. cbn [foldl].
    rewrite (boost_word f boost (sortedPolicies (cf_Policies f))); [done|done|congruence].
Qed.

(** ** Clock locks, as nvidia-smi sets them *)

(** A successful run on one GPU, over its graphics and memory locks: -lgc and
    -lmc lock a domain to the range they are told, -rgc and -rmc reset it. *)
Class ClockLocks (busID : string) := {
  smi : list string -> option (Z * Z) * option (Z * Z) -> option (Z * Z) * option (Z * Z);
  smi_lgc lo hi gpu mem : lock64 (Some (lo, hi)) ->
    smi ["-i"; busID; "-lgc"; lockArg (lo, hi)] (gpu, mem) = (Some (lo, hi), mem);
  smi_lmc lo hi gpu mem : lock64 (Some (lo, hi)) ->
    smi ["-i"; busID; "-lmc"; lockArg (lo, hi)] (gpu, mem) = (gpu, Some (lo, hi));
  smi_rgc gpu mem : smi ["-i"; busID; "-rgc"] (gpu, mem) = (None, mem);
  smi_rmc gpu mem : smi ["-i"; busID; "-rmc"] (gpu, mem) = (gpu, None)
}.

(** A tool that reads its arguments. *)
Definition textRun (args : list string) (locks : option (Z * Z) * option (Z * Z)) :=
  match args with
  | [_; _; flag] =>
      if String.eqb flag "-rgc" then (None, locks.2) else if String.eqb flag "-rmc" then (locks.1, None) else locks
  | [_; _; flag; v] =>
      if String.eqb flag "-lgc" then (parseLockArg v, locks.2)
      else if String.eqb flag "-lmc" then (locks.1, parseLockArg v) else locks
  | _ => locks
  end.

#[export] Instance textSmi (busID : string) : ClockLocks busID.
Proof.
  refine {| smi := textRun |}; unfold textRun; [| |done|done]; intros lo hi gpu mem H;
    cbn [fst snd String.eqb Ascii.eqb Bool.eqb]; by rewrite parseLockArg_lockArg.
Defined.

(** Running a plan on a GPU with any locks leaves: in a domain the preset
    locks, that lock, on supported clocks; in a domain it leaves to the
    driver, no lock where the agent's record holds one, and otherwise the
    lock that was there, so a lock an operator set is never reset. With
    nothing recorded, auto runs no command at all. *)
Theorem PlanNvidia_locks f bus `{!ClockLocks bus} preset pct p gpu mem :
  Forall clock (nf_SupportedSMMHz f) -> Forall clock (nf_SupportedMemMHz f) ->
  PlanNvidia f bus preset pct = Some p -> p_Result p <> GovernorResultUnsupported ->
  let st := p_State p in
  foldl (fun locks args => smi args locks) (gpu, mem) (p_Args p) =
    (match st_GPULockMHz st with
     | Some l => Some l
     | None => if nf_LockedGPU f then None else gpu
     end,
     match st_MemLockMHz st with
     | Some l => Some l
     | None => if nf_LockedMem f && nvMemLockable f then None else mem
     end) /\
  (forall lo hi, st_GPULockMHz st = Some (lo, hi) ->
     lo ∈ nf_SupportedSMMHz f /\ hi ∈ nf_SupportedSMMHz f /\ (lo <= hi)%Z) /\
  (forall lo hi, st_MemLockMHz st = Some (lo, hi) -> lo ∈ nf_SupportedMemMHz f /\ lo = hi /\ nvMemLockable f = true) /\
  (preset = GPUGovernorPresetAuto ->
     st_GPULockMHz st = None /\ st_MemLockMHz st = None /\
     (nf_LockedGPU f = false -> nf_LockedMem f = false -> p_Args p = [] /\ p_Result p = GovernorResultEquivalent)).
Proof.
  intros Hsm Hmem Hp Hr. unfold PlanNvidia in Hp. destruct (negb _); [done|]. destruct (String.eqb bus ""); [done|].
  destruct (chooseNvidia_locks f preset pct) as [Hg Hm].
  assert (preset = GPUGovernorPresetAuto -> nv_gpu (chooseNvidia f preset pct) = None /\
    nv_mem (chooseNvidia f preset pct) = None) as Hauto.
  { intros ->. unfold chooseNvidia. by destruct (negb _). }
  set (c := chooseNvidia f preset pct) in *.
  destruct (String.eqb (nv_result c) _); [by injection Hp as <-|]. injection Hp as <-.
  cbn [p_Native p_State p_Result p_Args st_GPULockMHz st_MemLockMHz] in *. clear Hr.
  assert (forall l n, Forall clock l -> n ∈ distinctMHz l -> in_int64 n /\ n ∈ l) as Hc.
  { intros l n Hl [Hin _]%elem_of_distinctMHz. split; [|done]. rewrite Forall_forall in Hl. pose proof (Hl n Hin) as H.
    unfold clock in H. unfold in_int64, int64_min, int64_max. lia. }
  split; [|split; [|split]].
  - rewrite foldl_app. destruct (nv_gpu c) as [[lo hi]|], (nv_mem c) as [[lo' hi']|]; cbn [foldl];
      try (destruct (Hg lo hi eq_refl) as (H1%(Hc _ _ Hsm) & H2%(Hc _ _ Hsm) & _); rewrite smi_lgc by (split; [apply H1|apply H2]));
      try (destruct (nf_LockedGPU f); cbn [foldl]; rewrite ?smi_rgc);
      try (destruct (Hm lo' hi' eq_refl) as (H3%(Hc _ _ Hmem) & -> & _); rewrite smi_lmc by (split; apply H3));
      try (destruct (_ && _); cbn [foldl]; rewrite ?smi_rmc); done.
  - intros lo hi E. destruct (Hg lo hi E) as (H1%(Hc _ _ Hsm) & H2%(Hc _ _ Hsm) & ?). split; [apply H1|]. by split; [apply H2|].
  - intros lo hi E. destruct (Hm lo hi E) as (H1%(Hc _ _ Hmem) & -> & ? & _). by split; [apply H1|].
  - intros E. destruct (Hauto E) as [-> ->]. split; [done|]. split; [done|]. intros -> ->. cbn. split; [done|].
    by rewrite E.
Qed.

(** ** Witnesses *)

Example ParseNative_reads_plans_witness :
  ParseNative GovernorBackendCPUFreq (p_Native samplePlanCPU) = p_State samplePlanCPU.
Proof.
  apply (proj1 ParseNative_reads_plans sampleCPU CPUGovernorPresetEfficiency CPUGovernorBoostOff).
  - apply samplePlanCPU_eq.
  - vm_compute. discriminate.
Defined.

(** The governor on both policies, then one of two preferences. *)
Example InForce_correct_witness :
  InForce samplePlanCPU (take 3 (p_Writes samplePlanCPU)) = "powersave" /\
  st_EPP (ParseNative GovernorBackendCPUFreq (InForce samplePlanCPU (take 3 (p_Writes samplePlanCPU)))) = "".
Proof.
  split; [vm_compute; reflexivity|].
  destruct (InForce_correct sampleCPU CPUGovernorPresetEfficiency CPUGovernorBoostOff samplePlanCPU
    (take 3 (p_Writes samplePlanCPU))) as (_ & _ & H).
  - apply samplePlanCPU_eq.
  - vm_compute. discriminate.
  - rewrite H; [vm_compute; reflexivity|]. exists (mkWrite (PolicyRelPath 0 PolicyGovernorFile) govPowersave).
    vm_compute. split; [left|]. split; [reflexivity|left].
Defined.

Definition samplePlanA100 : Plan :=
  default unsupportedPlan (PlanNvidia sampleA100 "00000000:18:00.0" GPUGovernorPresetEfficient (fofZ 77)).

Lemma samplePlanA100_eq :
  PlanNvidia sampleA100 "00000000:18:00.0" GPUGovernorPresetEfficient (fofZ 77) = Some samplePlanA100.
Proof. vm_compute. reflexivity. Qed.

Example PlanNvidia_locks_witness :
  foldl (fun locks args => smi (busID := "00000000:18:00.0") args locks) (None, Some (1593, 1593)%Z) (p_Args samplePlanA100)
  = (Some (210, 1080)%Z, None).
Proof.
  assert (Forall clock (nf_SupportedSMMHz sampleA100) /\ Forall clock (nf_SupportedMemMHz sampleA100)) as [H1 H2]
    by (unfold clock; split; repeat (constructor; [lia|]); constructor).
  assert (p_Result samplePlanA100 <> GovernorResultUnsupported) as H3 by (vm_compute; discriminate).
  destruct (PlanNvidia_locks sampleA100 "00000000:18:00.0" GPUGovernorPresetEfficient (fofZ 77) samplePlanA100
    None (Some (1593, 1593)%Z) H1 H2 samplePlanA100_eq H3) as (-> & _).
  vm_compute. reflexivity.
Defined.
