(* ===== verification/Host.v ===== *)
(** * The host a governor is written to: pkg/governor/classify.go and the agent's writes

    A failed write as [Classify] tells it apart, the tree of attributes the
    agent reads and writes as an interface ([SysfsHost]: the kernel decides
    what a write does and what a read shows), the agent's verified writes over
    it, and the plain file tree as one instance. Message texts are left out. *)

From S2P Require Import Prelude GoString GoFloat GoSlices Api Governor.

#[local] Open Scope string_scope.

(** ** Outcomes of a write *)

(** The errnos [errnoNames] holds; any other one.
    src/pkg/governor/classify.go:14-21 [errnoNames] *)
Inductive Errno := EACCES | EPERM | EROFS | EINVAL | EOPNOTSUPP | EBUSY | OtherErrno.

(** [strconv.Quote]: printable ASCII as it is, the quote and the backslash
    escaped, control characters by their escape; other bytes are taken to be
    printable text. *)
Definition hexDigit (n : N) : ascii := ascii_of_N (if (n <? 10)%N then 48 + n else 87 + n)%N.

Definition quoteByte (a : ascii) : list ascii :=
  let n := byte_of a in
  if (n =? 34)%N || (n =? 92)%N then ["\"%char; a]
  else if (n =? 7)%N then ["\"; "a"]%char
  else if (n =? 8)%N then ["\"; "b"]%char
  else if (n =? 9)%N then ["\"; "t"]%char
  else if (n =? 10)%N then ["\"; "n"]%char
  else if (n =? 11)%N then ["\"; "v"]%char
  else if (n =? 12)%N then ["\"; "f"]%char
  else if (n =? 13)%N then ["\"; "r"]%char
  else if (n <? 32)%N || (n =? 127)%N then ["\"%char; "x"%char; hexDigit (n / 16); hexDigit (n mod 16)]
  else [a].

Definition quoteMark : ascii := "034".

Definition Quote (s : string) : string :=
  string_of_list_ascii (quoteMark :: concat (quoteByte <$> list_ascii_of_string s) ++ [quoteMark])%list.

(** An error as [errors.As] and [errors.Is] see it: an errno in its chain, a
    missing tool, an exit code, and its text. *)
Record WriteError := {
  we_errno : option Errno;
  we_notFound : bool;
  we_exitCode : option Z;
  we_text : string
}.

(** src/pkg/governor/classify.go:29-34 [smiExitResults] *)
Definition smiExitResults (code : Z) : option string :=
  if (code =? 4)%Z then Some GovernorResultRefused
  else if ((code =? 2) || (code =? 3) || (code =? 13))%Z then Some GovernorResultUnsupported
  else None.

(** src/pkg/governor/classify.go:50-53 [refusedPhrases, unsupportedPhrases] *)
Definition refusedPhrases : list string :=
  ["insufficient permission"; "permission denied"; "no permission"; "not permitted"; "requires root"; "requires elevation"].
Definition unsupportedPhrases : list string :=
  ["not supported"; "unsupported"; "does not work"; "invalid argument"; "invalid combination"].

(** src/pkg/governor/classify.go:14-21 [errnoNames] *)
Definition errnoName (e : Errno) : string :=
  match e with
  | EACCES => "EACCES" | EPERM => "EPERM" | EROFS => "EROFS"
  | EINVAL => "EINVAL" | EOPNOTSUPP => "EOPNOTSUPP" | EBUSY => "EBUSY" | OtherErrno => ""
  end.

(** The result and the message; [None] is the nil error.
    src/pkg/governor/classify.go:65-106 [Classify] *)
Definition Classify (writeErr : option WriteError) (want readback : string) : string * string :=
  match writeErr with
  | None =>
      let w := TrimSpace want in
      let r := TrimSpace readback in
      if String.eqb w r then (GovernorResultApplied, "")
      else (GovernorResultNotApplied, "wrote " +:+ Quote w +:+ " but read back " +:+ Quote r)
  | Some e =>
      match we_errno e with
      | Some errno =>
          let msg := errnoName errno +:+ ": " +:+ we_text e in
          match errno with
          | OtherErrno => (GovernorResultError, we_text e)
          | EACCES | EPERM | EROFS => (GovernorResultRefused, msg)
          | _ => (GovernorResultUnsupported, msg)
          end
      | None =>
          if we_notFound e then (GovernorResultError, we_text e)
          else match (code ← we_exitCode e; smiExitResults code) with
               | Some result => (result, we_text e)
               | None =>
                   let text := ToLower (we_text e) in
                   if existsb (Contains text) refusedPhrases then (GovernorResultRefused, we_text e)
                   else if existsb (Contains text) unsupportedPhrases then (GovernorResultUnsupported, we_text e)
                   else (GovernorResultError, we_text e)
               end
      end
  end.

#[global] Arguments Classify : simpl never.

Definition newline : ascii := "010".

(** src/pkg/governor/classify.go:115-125 [ClassifyRun] *)
Definition ClassifyRun (command : string) (runErr : option WriteError) (out : string) : string * string :=
  match runErr with
  | Some _ => Classify runErr "" ""
  | None =>
      match find (fun line => Contains (ToLower line) "not supported") (Split out newline) with
      | Some line => (GovernorResultUnsupported, command +:+ ": " +:+ TrimSpace line)
      | None => (GovernorResultApplied, "")
      end
  end.

(** A write counts as applied exactly when it succeeded and reads back. *)
Lemma Classify_applied err want got :
  (Classify err want got).1 = GovernorResultApplied <-> err = None /\ TrimSpace want = TrimSpace got.
Proof.
  unfold Classify. destruct err as [e|].
  - split; [|by intros [? _]]. destruct (we_errno e) as [[]|]; try done. destruct (we_notFound e); [done|].
    assert (forall code r, smiExitResults code = Some r -> r <> GovernorResultApplied) as Hs
      by (intros code r; unfold smiExitResults; repeat case_match; intros; simplify_eq; done).
    destruct (we_exitCode e) as [code|]; cbn [mbind option_bind];
      [destruct (smiExitResults code) eqn:E; [cbn; intros ->; by apply Hs in E|]|]; repeat case_match; done.
  - destruct (String.eqb_spec (TrimSpace want) (TrimSpace got)); split; intros H; try done; by destruct H.
Qed.

(** The results of a write. *)
Definition writeResults : list string :=
  [GovernorResultApplied; GovernorResultUnsupported; GovernorResultNotApplied; GovernorResultRefused; GovernorResultError].

Lemma Classify_values err want got : (Classify err want got).1 ∈ writeResults.
Proof.
  unfold Classify, writeResults. destruct err as [e|]; [|case_match; set_solver].
  destruct (we_errno e) as [[]|]; try set_solver. destruct (we_notFound e); [set_solver|].
  destruct (we_exitCode e) as [code|]; cbn [mbind option_bind];
    [unfold smiExitResults; repeat case_match; simplify_eq; set_solver|]; repeat case_match; set_solver.
Qed.

Lemma Classify_nonempty err want got : (Classify err want got).1 <> "".
Proof. intros E. pose proof (Classify_values err want got) as H. rewrite E in H. revert H. by_decide. Qed.

Lemma ClassifyRun_values cmd err out : (ClassifyRun cmd err out).1 ∈ writeResults.
Proof. unfold ClassifyRun, writeResults. destruct err as [e|]; [apply Classify_values|]. destruct (find _ _); set_solver. Qed.

(** ** Attributes *)

(** What the agent asks of the attribute tree: to write an attribute in place
    ([None] for success), and its trimmed content, empty for a file that
    cannot be read. *)
Class SysfsHost (H : Type) := {
  attr_write : string -> string -> H -> option WriteError * H;
  attr_read : H -> string -> string
}.

Section Writes.
Context {H : Type} `{!SysfsHost H}.

(** The count of successful writes, the writes read back as written, the
    failure's result and message (empty for none), and the host after.
    src/cmd/agent/governor_control.go:692-707 [writeVerified] *)
Fixpoint writeVerified (writes : list Write) (h : H) : nat * list Write * (string * string) * H :=
  match writes with
  | [] => (0%nat, [], ("", ""), h)
  | w :: rest =>
      let '(err, h) := attr_write (w_RelPath w) (w_Value w) h in
      match err with
      | Some _ => (0%nat, [], Classify err (w_Value w) "", h)
      | None =>
          let '(result, message) := Classify None (w_Value w) (attr_read h (w_RelPath w)) in
          if negb (String.eqb result GovernorResultApplied)
          then (1%nat, [], (result, w_RelPath w +:+ ": " +:+ message), h)
          else
            let '(wrote, taken, failure, h) := writeVerified rest h in
            (S wrote, w :: taken, failure, h)
      end
  end.

(** The first attribute that does not read what was written to it.
    src/cmd/agent/governor_control.go:711-719 [checkWrites] *)
Fixpoint checkWrites (writes : list Write) (h : H) : bool * string :=
  match writes with
  | [] => (true, "")
  | w :: rest =>
      let got := attr_read h (w_RelPath w) in
      if negb (String.eqb got (w_Value w))
      then (false, w_RelPath w +:+ " reads " +:+ Quote got +:+ ", the agent wrote " +:+ Quote (w_Value w))
      else checkWrites rest h
  end.

(** src/cmd/agent/governor_control.go:818-826 [differing] *)
Definition differing (writes : list Write) (h : H) : list Write :=
  filter (fun w => String.eqb (attr_read h (w_RelPath w)) (w_Value w) = false) writes.

(** What was taken is what comes before the first failure, and a failure is
    told apart from the end. *)
Lemma writeVerified_prefix writes h :
  let '(wrote, taken, (result, _), h') := writeVerified writes h in
  exists n, taken = take n writes /\ (n <= length writes)%nat /\ (n <= wrote <= S n)%nat /\
    (result = "" -> n = length writes /\ wrote = n) /\ (result <> "" -> (n < length writes)%nat) /\
    result <> GovernorResultApplied.
Proof.
  revert h. induction writes as [|w ws IH]; intros h; cbn [writeVerified].
  { exists 0%nat. split_and!; done || lia. }
  destruct (attr_write _ _ h) as [err h1]. destruct err as [e|].
  { pose proof (Classify_nonempty (Some e) (w_Value w) "") as Hne. pose proof (Classify_applied (Some e) (w_Value w) "") as Ha.
    destruct (Classify (Some e) _ _) as [r m]. cbn [fst] in *. exists 0%nat. cbn. split_and!; try done; try lia.
    intros E. by apply Ha in E as [? _]. }
  pose proof (Classify_nonempty None (w_Value w) (attr_read h1 (w_RelPath w))) as Hnn.
  destruct (Classify None _ _) as [r m]. cbn [fst] in Hnn.
  destruct (String.eqb_spec r GovernorResultApplied) as [_|Hne]; cbn [negb].
  2:{ exists 0%nat. cbn. split_and!; try done; lia. }
  specialize (IH h1). destruct (writeVerified ws h1) as [[[wrote taken] [result m']] h2].
  destruct IH as (n & -> & Hn & Hw & Hr & Hr' & Ha). exists (S n). cbn [take length]. split_and!; try done; try lia.
  - intros E. destruct (Hr E). lia.
  - intros E. specialize (Hr' E). lia.
Qed.
End Writes.

(** ** A tree of plain files *)

Definition missingAttr : WriteError :=
  {| we_errno := Some OtherErrno; we_notFound := false; we_exitCode := None; we_text := "no such file or directory" |}.

(** Every attribute takes what is written to it; a missing one is never
    created.
    src/pkg/governor/discover/discover.go:68-78 [WriteAttr] *)
Definition WriteAttr (path value : string) (files : gmap string string) : option WriteError * gmap string string :=
  match files !! path with
  | None => (Some missingAttr, files)
  | Some _ => (None, <[path := value]> files)
  end.

(** src/pkg/governor/discover/discover.go:45-57 [ReadWord, word] *)
Definition ReadWord (files : gmap string string) (path : string) : option string := TrimSpace <$> files !! path.
Definition word (files : gmap string string) (path : string) : string := default "" (ReadWord files path).

#[export] Instance fileTree : SysfsHost (gmap string string) := {
  attr_write := WriteAttr;
  attr_read := word
}.

Lemma TrimSpace_empty : TrimSpace "" = "".
Proof. reflexivity. Qed.

(** Writes of trimmed values to attributes that exist all succeed. *)
Lemma writeVerified_tree ws (files : gmap string string) :
  Forall (fun w => is_Some (files !! w_RelPath w) /\ TrimSpace (w_Value w) = w_Value w) ws ->
  writeVerified ws files = (length ws, ws, ("", ""), writeAll files ws).
Proof.
  intros Hws. revert files Hws. induction ws as [|w ws IH]; intros files Hws; [done|].
  apply Forall_cons in Hws as [[[v Hv] Ht] Hws]. cbn [writeVerified attr_write fileTree]. unfold WriteAttr at 1. rewrite Hv.
  assert (Classify None (w_Value w) (attr_read (<[w_RelPath w := w_Value w]> files) (w_RelPath w)) = (GovernorResultApplied, "")) as ->.
  { cbn [attr_read fileTree]. unfold word, ReadWord. rewrite lookup_insert_eq. cbn [fmap option_fmap option_map default from_option id].
    unfold Classify. cbv zeta. by rewrite !Ht, String.eqb_refl. }
  change (negb (String.eqb GovernorResultApplied GovernorResultApplied)) with false. cbv iota.
  rewrite IH; [done|]. eapply Forall_impl; [exact Hws|]. cbn. intros u [Hu Hut]. split; [|done].
  destruct (decide (w_RelPath w = w_RelPath u)) as [->|Hne]; [by rewrite lookup_insert_eq|by rewrite lookup_insert_ne].
Qed.

(** On plain files what is left are the writes that succeeded, and no file
    comes or goes. *)
Lemma writeVerified_files ws (files : gmap string string) :
  let '(wrote, _, _, files') := writeVerified ws files in
  files' = writeAll files (take wrote ws) /\ forall p, is_Some (files' !! p) <-> is_Some (files !! p).
Proof.
  revert files. induction ws as [|w ws IH]; intros files; cbn [writeVerified]; [done|].
  cbn [attr_write fileTree]. unfold WriteAttr. destruct (files !! w_RelPath w) as [v|] eqn:E.
  2:{ by rewrite take_0. }
  assert (forall p, is_Some (<[w_RelPath w := w_Value w]> files !! p) <-> is_Some (files !! p)) as Hdom.
  { intros p. destruct (decide (w_RelPath w = p)) as [<-|Hne]; [rewrite lookup_insert_eq, E; split; eauto|by rewrite lookup_insert_ne]. }
  destruct (Classify None _ _) as [r m]. destruct (negb _); [done|].
  specialize (IH (<[w_RelPath w := w_Value w]> files)).
  destruct (writeVerified ws _) as [[[wrote taken] failure] files']. destruct IH as [-> IH]. split; [done|].
  intros p. by rewrite IH, Hdom.
Qed.

(** Writes that agree on each file leave their values, whether or not the
    files that read them already are written. *)
Definition consistent (ws : list Write) : Prop :=
  forall w w', w ∈ ws -> w' ∈ ws -> w_RelPath w = w_RelPath w' -> w_Value w = w_Value w'.

Definition trimmed (w : Write) : Prop := TrimSpace (w_Value w) = w_Value w.

Lemma word_lookup (files files' : gmap string string) p : files' !! p = files !! p -> word files' p = word files p.
Proof. unfold word, ReadWord. by intros ->. Qed.

Lemma word_Some (files : gmap string string) p v : files !! p = Some v -> word files p = TrimSpace v.
Proof. unfold word, ReadWord. by intros ->. Qed.

Lemma differing_run ws (files files0 : gmap string string) w :
  consistent ws -> Forall trimmed ws ->
  (forall v, v ∈ ws -> word files0 (w_RelPath v) = word files (w_RelPath v)) ->
  w ∈ ws -> word (writeAll files0 (differing ws files)) (w_RelPath w) = w_Value w.
Proof.
  intros Hc Ht Hsame Hw. destruct (decide (w_RelPath w ∈ (w_RelPath <$> differing ws files))) as [Hin|Hout].
  - erewrite word_Some; [|apply writeAll_agree; [exact Hin|]].
    + by apply (proj1 (Forall_forall _ _) Ht).
    + intros v [_ Hv]%list_elem_of_filter Hp. by apply Hc.
  - rewrite (word_lookup files0) by by apply writeAll_other. rewrite Hsame by done.
    destruct (String.eqb_spec (word files (w_RelPath w)) (w_Value w)) as [->|Hne]; [done|]. destruct Hout.
    apply list_elem_of_fmap. exists w. split; [done|]. apply list_elem_of_filter. split; [|done].
    by apply String.eqb_neq.
Qed.

Lemma differing_paths ws (files : gmap string string) p :
  p ∉ (w_RelPath <$> ws) -> p ∉ (w_RelPath <$> differing ws files).
Proof.
  intros Hp (w & -> & [_ Hw]%list_elem_of_filter)%list_elem_of_fmap. apply Hp. apply list_elem_of_fmap. eauto.
Qed.

(** Putting files to given words, writing those that differ. *)
Lemma writeVerified_differing ws (files : gmap string string) :
  consistent ws -> Forall trimmed ws -> Forall (fun w => is_Some (files !! w_RelPath w)) ws ->
  exists n taken files', writeVerified (differing ws files) files = (n, taken, ("", ""), files') /\
    (forall w, w ∈ ws -> word files' (w_RelPath w) = w_Value w) /\
    (forall p, p ∉ (w_RelPath <$> ws) -> files' !! p = files !! p) /\
    (forall p, is_Some (files' !! p) <-> is_Some (files !! p)).
Proof.
  intros Hc Ht He.
  assert (Forall (fun w => is_Some (files !! w_RelPath w) /\ trimmed w) (differing ws files)) as Hd.
  { apply Forall_forall. intros w [_ Hw]%list_elem_of_filter. rewrite Forall_forall in Ht, He. auto. }
  pose proof (writeVerified_files (differing ws files) files) as Hf. rewrite writeVerified_tree in Hf by exact Hd.
  eexists _, _, _. split; [by apply writeVerified_tree|]. split; [|split; [|by apply Hf]].
  - intros w Hw. by apply differing_run.
  - intros p Hp. apply writeAll_other. by apply differing_paths.
Qed.

Example ClassifyRun_warning :
  ClassifyRun "nvidia-smi -i 0 -lmc 405,405" None "Setting locked memory clocks is not supported for GPU 00000000:18:00.0.
Treating as warning and moving on." =
  (GovernorResultUnsupported,
   "nvidia-smi -i 0 -lmc 405,405: Setting locked memory clocks is not supported for GPU 00000000:18:00.0.") /\
  (ClassifyRun "" (Some {| we_errno := None; we_notFound := false; we_exitCode := Some 4%Z; we_text := "exit status 4" |}) "").1
  = GovernorResultRefused.
Proof. split; vm_compute; reflexivity. Qed.
