(* ===== verification/NvidiaDiscovery.v ===== *)
(** * NVIDIA discovery: pkg/governor/discover/nvidia.go

    What the agent reads of its NVIDIA GPUs: the architecture from labels and
    product name ([NvidiaArch]), the clock query and the supported clocks from
    nvidia-smi's text, and the facts the planner uses ([ReadNvidia]); and the
    agent's cache of the static facts ([read]). nvidia-smi is an interface
    ([NvidiaSmi]) that gives a run's error, its text, and what it changed. *)

From S2P Require Import Prelude GoString GoFloat GoSlices Api Governor GpuGovernor Host.

#[local] Open Scope string_scope.

(** ** Architecture *)

(** [strings.ToUpper] on the ASCII letters. *)
Definition upper_ascii (a : ascii) : ascii :=
  let n := byte_of a in if ((97 <=? n) && (n <=? 122))%N then ascii_of_N (n - 32) else a.
Definition ToUpper (s : string) : string := string_of_list_ascii (map upper_ascii (list_ascii_of_string s)).

(** [strings.FieldsFunc] with a set of ASCII characters. *)
Fixpoint fields_by (P : ascii -> bool) (l cur : list ascii) : list (list ascii) :=
  let flush ws := match cur with [] => ws | _ => rev cur :: ws end in
  match l with
  | [] => flush []
  | a :: l => if P a then flush (fields_by P l []) else fields_by P l (a :: cur)
  end.

Definition FieldsFunc (P : ascii -> bool) (s : string) : list string :=
  string_of_list_ascii <$> fields_by P (list_ascii_of_string s) [].

(** src/pkg/governor/discover/nvidia.go:40-49 [NVArchAmpere] *)
Definition archOfToken (tok : string) : option string :=
  if str_mem tok ["A100"; "A800"; "A40"; "A30"; "A10"; "A16"; "A2"] then Some NVArchAmpere
  else if str_mem tok ["L4"; "L40"; "L40S"; "L20"; "ADA"] then Some NVArchAda
  else if str_mem tok ["H100"; "H200"; "H800"; "H20"; "GH200"] then Some NVArchHopper
  else if str_mem tok ["B100"; "B200"; "B300"; "GB200"; "GB300"; "BLACKWELL"] then Some NVArchBlackwell
  else None.

(** src/pkg/governor/discover/nvidia.go:51-61 [gpu.family] *)
Definition archOfFamily (family : string) : string :=
  let family := ToLower family in
  if String.eqb family "ampere" then NVArchAmpere
  else if String.eqb family "ada" || String.eqb family "ada-lovelace" then NVArchAda
  else if String.eqb family "hopper" then NVArchHopper
  else if String.eqb family "blackwell" then NVArchBlackwell
  else "".

(** src/pkg/governor/discover/nvidia.go:24-62 [NvidiaArch] *)
Definition NvidiaArch (nodeLabels : gmap string string) (product : string) : string :=
  match Atoi (get_str nodeLabels "nvidia.com/gpu.compute.major") with
  | Some major =>
      let minor := AtoiValue (get_str nodeLabels "nvidia.com/gpu.compute.minor") in
      if ((major =? 8) && (minor =? 9))%Z then NVArchAda
      else if (major =? 8)%Z then NVArchAmpere
      else if (major =? 9)%Z then NVArchHopper
      else if ((major =? 10) || (major =? 12))%Z then NVArchBlackwell
      else ""
  | None =>
      let toks := FieldsFunc (fun a => Ascii.eqb a " " || Ascii.eqb a "-") (ToUpper product) in
      match omap archOfToken toks with
      | arch :: _ => arch
      | [] => archOfFamily (get_str nodeLabels "nvidia.com/gpu.family")
      end
  end.

(** ** nvidia-smi *)

(** A run: its error, its combined output (empty after an error), and the
    world it leaves. *)
Class NvidiaSmi (W : Type) := smi_run : list string -> W -> option WriteError * string * W.

(** src/pkg/governor/discover/nvidia.go:71-96 [clockQueryFields, reasonsFieldThrottle, reasonsFieldEvent, invalidFieldText, clockQueryFormat, supportedClocksSelect, clockQueryArgs, NvidiaClockQueryArgs, NvidiaClockQueryFallbackArgs, NvidiaSupportedClocksArgs] *)
Definition clockQueryFields : string := "pci.bus_id,clocks.sm,clocks.mem,clocks.max.sm,clocks.max.mem,pstate,".
Definition reasonsFieldThrottle : string := "clocks_throttle_reasons.active".
Definition reasonsFieldEvent : string := "clocks_event_reasons.active".
Definition invalidFieldText : string := "is not a valid field to query".
Definition clockQueryFormat : string := "--format=csv,noheader,nounits".
Definition supportedClocksSelect : string := "SUPPORTED_CLOCKS".
Definition clockQueryArgs (reasonsField : string) : list string :=
  ["--query-gpu=" +:+ clockQueryFields +:+ reasonsField; clockQueryFormat].
Definition NvidiaClockQueryArgs : list string := clockQueryArgs reasonsFieldThrottle.
Definition NvidiaClockQueryFallbackArgs : list string := clockQueryArgs reasonsFieldEvent.
Definition NvidiaSupportedClocksArgs : list string := ["-q"; "-d"; supportedClocksSelect].

(** src/pkg/governor/discover/nvidia.go:102-108 [NvidiaClocks] *)
Record NvidiaClocks := {
  nc_BusID : string;
  nc_SMMHz : float64;
  nc_MemMHz : float64;
  nc_MaxSMMHz : float64;
  nc_MaxMemMHz : float64;
  nc_Reasons : Z;
  nc_ClocksOK : bool;
  nc_ReasonsOK : bool
}.

Definition is_quote (a : ascii) : bool := Ascii.eqb a quoteMark.

(** src/pkg/governor/discover/nvidia.go:111-117 [splitCSV] *)
Definition splitCSV (line : string) : list string :=
  (fun p => TrimSpace (TrimChars is_quote (TrimSpace p))) <$> Split line ",".

(** [strconv.ParseUint(s, 16, 64)] on lower case. *)
Definition hexValue (a : ascii) : option Z :=
  if is_digit a then Some (Z.of_N (byte_of a) - 48)%Z
  else if ((97 <=? byte_of a) && (byte_of a <=? 102))%N then Some (Z.of_N (byte_of a) - 87)%Z
  else None.

Definition ParseHex (s : string) : option Z :=
  match list_ascii_of_string s with
  | [] => None
  | l =>
      v ← foldl (fun acc a => x ← acc; d ← hexValue a; Some (x * 16 + d)%Z) (Some 0%Z) l;
      if (v <? 2 ^ 64)%Z then Some v else None
  end.

(** src/pkg/governor/discover/nvidia.go:135-137 [FieldRejected] *)
Definition FieldRejected (err : option WriteError) : bool :=
  match err with Some e => Contains (we_text e) invalidFieldText | None => false end.

(** src/pkg/governor/discover/nvidia.go:173-175 [NvidiaSupported] *)
Record NvidiaSupported := mkSupported { ns_SM : list Z; ns_Mem : list Z }.

(** src/pkg/governor/discover/nvidia.go:211-215 [NvidiaGPU] *)
Record NvidiaGPU := mkGPU { ngp_BusID : string; ngp_Facts : NVFacts; ngp_MaxSMMHz : float64; ngp_MaxMemMHz : float64 }.

(** The agent's record of locks is not discovered.
    src/pkg/governor/discover/nvidia.go:220-228 [NvidiaFacts] *)
Definition NvidiaFacts (arch : string) (smMHz memMHz : list Z) : NVFacts := {|
  nf_Arch := arch;
  nf_SupportedSMMHz := smMHz;
  nf_SupportedMemMHz := memMHz;
  nf_MemLockRuntime := negb (String.eqb arch NVArchHopper);
  nf_LockedGPU := false;
  nf_LockedMem := false
|}.

Inductive NvidiaError := ErrNvidiaClockQuery | ErrNvidiaSupportedClocks.

Section Read.
Context (ParseFloat : string -> option float64).

(** src/pkg/governor/discover/nvidia.go:120-130 [parseMHz] *)
Definition parseMHz (s : string) : option Z :=
  match Fields s with
  | [] => None
  | w :: _ => v ← ParseFloat w; if fle v fzero then None else Some (int_of_float v)
  end.

(** One row, with a bus id and five fields at least.
    src/pkg/governor/discover/nvidia.go:150-166 [NvidiaClocks] *)
Definition clockRow (ln : string) : option NvidiaClocks :=
  match splitCSV ln with
  | bus :: sm :: mem :: maxSM :: maxMem :: rest =>
      if String.eqb bus "" then None
      else
        let mhz s := default 0%Z (parseMHz s) in
        let ok s := match parseMHz s with Some _ => true | None => false end in
        let reasons := match rest with
                       | _ :: r :: _ => ParseHex (TrimPrefix (ToLower r) "0x")
                       | _ => None
                       end in
        Some {|
          nc_BusID := bus;
          nc_SMMHz := fofZ (mhz sm);
          nc_MemMHz := fofZ (mhz mem);
          nc_MaxSMMHz := fofZ (mhz maxSM);
          nc_MaxMemMHz := fofZ (mhz maxMem);
          nc_Reasons := default 0%Z reasons;
          nc_ClocksOK := ok sm && ok mem;
          nc_ReasonsOK := match reasons with Some _ => true | None => false end
        |}
  | _ => None
  end.

Definition clockRows (out : string) : list NvidiaClocks := omap clockRow (Split (TrimSpace out) newline).

(** A line of the supported clocks: a new GPU, a clock, or nothing. The
    current GPU is its key, in lower case.
    src/pkg/governor/discover/nvidia.go:184-205 [ParseNvidiaSupportedClocks] *)
Definition supportedLine (acc : gmap string NvidiaSupported * option string) (line : string)
    : gmap string NvidiaSupported * option string :=
  let '(res, cur) := acc in
  let t := TrimSpace line in
  let '(rest, isGPU) := CutPrefix t "GPU " in
  if isGPU && Contains rest ":" && negb (Contains (TrimSpace rest) " ") && negb (Contains (TrimSpace rest) (String "009" ""))
  then (<[ToLower (TrimSpace rest) := mkSupported [] []]> res, Some (ToLower (TrimSpace rest)))
  else
    let '(key, value, ok) := Cut t ":" in
    match (if ok : bool then cur else None), parseMHz value with
    | Some bus, Some mhz =>
        let s := default (mkSupported [] []) (res !! bus) in
        let key := TrimSpace key in
        (if String.eqb key "Memory" then <[bus := mkSupported (ns_SM s) (ns_Mem s ++ [mhz])]> res
         else if String.eqb key "Graphics" then <[bus := mkSupported (ns_SM s ++ [mhz]) (ns_Mem s)]> res
         else res, cur)
    | _, _ => (res, cur)
    end.

(** src/pkg/governor/discover/nvidia.go:181-207 [ParseNvidiaSupportedClocks] *)
Definition ParseNvidiaSupportedClocks (out : string) : gmap string NvidiaSupported :=
  (foldl supportedLine (∅, None) (Split out newline)).1.

Context {W : Type} `{!NvidiaSmi W}.

(** [None] is the error of the run.
    src/pkg/governor/discover/nvidia.go:141-169 [QueryNvidiaClocks] *)
Definition QueryNvidiaClocks (w : W) : option (list NvidiaClocks) * W :=
  let '(err, out, w) := smi_run NvidiaClockQueryArgs w in
  let '(err, out, w) := if FieldRejected err then smi_run NvidiaClockQueryFallbackArgs w else (err, out, w) in
  match err with
  | Some _ => (None, w)
  | None => (Some (clockRows out), w)
  end.

(** src/pkg/governor/discover/nvidia.go:241-268 [ReadNvidia] *)
Definition ReadNvidia (arch : string) (w : W) : (NvidiaError + list NvidiaGPU) * W :=
  let '(rows, w) := QueryNvidiaClocks w in
  match rows with
  | None | Some [] => (inl ErrNvidiaClockQuery, w)
  | Some rows =>
      let '(err, out, w) := smi_run NvidiaSupportedClocksArgs w in
      match err with
      | Some _ => (inl ErrNvidiaSupportedClocks, w)
      | None =>
          let supported := ParseNvidiaSupportedClocks out in
          (inr ((fun r =>
             let s := default (mkSupported [] []) (supported !! ToLower (nc_BusID r)) in
             mkGPU (nc_BusID r) (NvidiaFacts arch (ns_SM s) (ns_Mem s)) (nc_MaxSMMHz r) (nc_MaxMemMHz r)) <$> rows), w)
      end
  end.
End Read.

Example NvidiaArch_ex :
  NvidiaArch ∅ "NVIDIA A100-SXM4-80GB" = NVArchAmpere /\ NvidiaArch ∅ "Tesla V100" = "" /\
  NvidiaArch {["nvidia.com/gpu.compute.major" := "8"; "nvidia.com/gpu.compute.minor" := "9"]} "A100" = NVArchAda.
Proof. vm_compute. auto. Qed.
