(* ===== verification/CpuDiscovery.v ===== *)
(** * CPU governor discovery: pkg/governor/discover and cmd/agent/governor_discovery.go

    What the agent reads of the cpufreq governors of its node: the facts the
    planners use and the state of every policy ([ReadCPU]), the inventory it
    publishes, and the baseline it restores, policies grouped by state with
    their numbers in the kernel's list form ([formatCPUList], read back by
    [cpuListHas]). *)

From Stdlib Require Import DecimalString.
From S2P Require Import Prelude GoString GoFloat GoSlices Api Governor CpuGovernor Host.

#[local] Open Scope string_scope.

(** ** The tree that is read *)

(** The attributes that can be read, by path, and the names in the cpufreq
    directory. *)
Record Sys := mkSys { sy_files : gmap string string; sy_cpufreqNames : list string }.

(** src/pkg/governor/discover/discover.go:22-41 [policyDriverFile, policyAvailableGovsFile, policyAvailableEPPsFile, policyMinFreqFile, policyMaxFreqFile, policyBaseFreqFile, pstateStatusFile, cpuinfoFlagsKey, cpuinfoHWPFlag] *)
Definition policyDriverFile : string := "scaling_driver".
Definition policyAvailableGovsFile : string := "scaling_available_governors".
Definition policyAvailableEPPsFile : string := "energy_performance_available_preferences".
Definition policyMinFreqFile : string := "cpuinfo_min_freq".
Definition policyMaxFreqFile : string := "cpuinfo_max_freq".
Definition policyBaseFreqFile : string := "base_frequency".
Definition pstateStatusFile : string := "status".
Definition cpuinfoFlagsKey : string := "flags".
Definition cpuinfoHWPFlag : string := "hwp".

(** src/pkg/governor/discover/discover.go:59-62 [exists] *)
Definition existsFile (files : gmap string string) (path : string) : bool := bool_decide (is_Some (files !! path)).

(** src/pkg/governor/discover/discover.go:98-108 [PolicyIDs] *)
Definition PolicyIDs (names : list string) : list Z :=
  sort_ints (omap (fun name => Atoi (TrimPrefix name "policy")) (filter (fun name => HasPrefix name "policy" = true) names)).

(** src/pkg/governor/discover/discover.go:112-115 [Policy] *)
Record Policy := mkPolicy { pol_ID : Z; pol_Governor : string; pol_EPP : string; pol_Boost : string }.

(** src/pkg/governor/discover/discover.go:118-128 [CPU] *)
Record CPU := {
  cpu_Facts : CPUFacts;
  cpu_Policies : list Policy;
  cpu_HasEPP : bool;
  cpu_Files : list string
}.

(** src/pkg/governor/discover/discover.go:131-133 [IsIntelPstate] *)
Definition IsIntelPstate (driver : string) : bool :=
  String.eqb driver "intel_pstate" || String.eqb driver "intel_cpufreq".

(** The first line whose key is flags decides.
    src/pkg/governor/discover/discover.go:142-147 [hasHWP] *)
Fixpoint flagsLine (lines : list string) : bool :=
  match lines with
  | [] => false
  | line :: rest =>
      let '(key, value, ok) := Cut line ":" in
      if (ok : bool) && String.eqb (TrimSpace key) cpuinfoFlagsKey then str_mem cpuinfoHWPFlag (Fields value)
      else flagsLine rest
  end.

(** [None] is a file that cannot be read.
    src/pkg/governor/discover/discover.go:137-149 [hasHWP] *)
Definition hasHWP (cpuinfo : option string) : bool :=
  match cpuinfo with
  | None => false
  | Some text => flagsLine (Split text newline)
  end.

(** src/pkg/governor/discover/discover.go:153-165 [driverMode] *)
Definition driverMode (files : gmap string string) (driver : string) : string :=
  let status :=
    if IsIntelPstate driver then word files (IntelPstateRelDir +:+ "/" +:+ pstateStatusFile)
    else if HasPrefix driver "amd-pstate" then word files (AMDPstateRelDir +:+ "/" +:+ pstateStatusFile)
    else "" in
  if str_mem status CPUDriverModeValues then status else "".

(** src/pkg/governor/discover/discover.go:170-183 [boostScope] *)
Definition boostScope (files : gmap string string) (driver : string) (firstPolicy : Z) : string :=
  let perCPU := existsFile files (PolicyRelPath firstPolicy PolicyBoostFile) in
  if IsIntelPstate driver && existsFile files NoTurboRelPath then CPUBoostScopeNoTurbo
  else if HasPrefix driver "amd-pstate" && perCPU then CPUBoostScopePerCPU
  else if existsFile files GlobalBoostRelPath then CPUBoostScopeGlobal
  else if perCPU then CPUBoostScopePerCPU
  else "".

(** src/pkg/governor/discover/discover.go:187-195 [boostWord] *)
Definition boostWord (v : string) (inverted : bool) : string :=
  if negb (String.eqb v "0") && negb (String.eqb v "1") then ""
  else if xorb (String.eqb v "1") inverted then CPUGovernorBoostOn
  else CPUGovernorBoostOff.

(** The policies with a governor word, in order.
    src/pkg/governor/discover/discover.go:203-208 [states] *)
Definition policyStates (files : gmap string string) (ids : list Z) : list Policy :=
  omap (fun id =>
    let gov := word files (PolicyRelPath id PolicyGovernorFile) in
    if String.eqb gov "" then None else Some (mkPolicy id gov "" "")) ids.

(** The node-wide boost word, empty when boost is set per policy or not at all.
    src/pkg/governor/discover/discover.go:231-237 [globalBoost] *)
Definition globalBoost (files : gmap string string) (scope : string) : string :=
  if String.eqb scope CPUBoostScopeGlobal then boostWord (word files GlobalBoostRelPath) false
  else if String.eqb scope CPUBoostScopeNoTurbo then boostWord (word files NoTurboRelPath) true
  else "".

(** One policy with its preference and boost words, and its attributes.
    src/pkg/governor/discover/discover.go:239-252 [states] *)
Definition fillPolicy (files : gmap string string) (hasEPP : bool) (scope : string) (s : Policy) : Policy :=
  mkPolicy (pol_ID s) (pol_Governor s)
    (if hasEPP then word files (PolicyRelPath (pol_ID s) PolicyEPPFile) else pol_EPP s)
    (if String.eqb scope CPUBoostScopePerCPU then boostWord (word files (PolicyRelPath (pol_ID s) PolicyBoostFile)) false
     else globalBoost files scope).

Definition policyFiles (hasEPP : bool) (scope : string) (id : Z) : list string :=
  (PolicyRelPath id PolicyGovernorFile :: (if hasEPP then [PolicyRelPath id PolicyEPPFile] else []) ++
   (if String.eqb scope CPUBoostScopePerCPU then [PolicyRelPath id PolicyBoostFile] else []))%list.

(** Where node-wide boost is written.
    src/pkg/governor/discover/discover.go:253-258 [Files] *)
Definition boostFiles (scope : string) : list string :=
  if String.eqb scope CPUBoostScopeGlobal then [GlobalBoostRelPath]
  else if String.eqb scope CPUBoostScopeNoTurbo then [NoTurboRelPath]
  else [].

(** src/pkg/governor/discover/discover.go:201-261 [ReadCPU] *)
Definition ReadCPU (sys : Sys) (cpuinfo : option string) : option CPU :=
  let files := sy_files sys in
  let states := policyStates files (PolicyIDs (sy_cpufreqNames sys)) in
  match states with
  | [] => None
  | s0 :: _ =>
      let first := pol_ID s0 in
      let driver := word files (PolicyRelPath first policyDriverFile) in
      let hasEPP := existsFile files (PolicyRelPath first PolicyEPPFile) in
      let scope := boostScope files driver first in
      Some {|
        cpu_Facts := {|
          cf_Driver := driver;
          cf_DriverMode := driverMode files driver;
          cf_HWP := hasHWP cpuinfo || (IsIntelPstate driver && hasEPP);
          cf_Governors := Fields (word files (PolicyRelPath first policyAvailableGovsFile));
          cf_EPPs := if hasEPP then EPPSupport driver (pol_Governor s0) (Fields (word files (PolicyRelPath first policyAvailableEPPsFile)))
                     else [];
          cf_BoostScope := scope;
          cf_Policies := pol_ID <$> states
        |};
        cpu_Policies := fillPolicy files hasEPP scope <$> states;
        cpu_HasEPP := hasEPP;
        cpu_Files := (concat (policyFiles hasEPP scope <$> (pol_ID <$> states)) ++ boostFiles scope)%list
      |}
  end.

(** ** Frequency landmarks *)

(** src/pkg/governor/discover/discover.go:266-268 [Landmarks] *)
Record Landmarks := mkLandmarks { lm_MinMHz : float64; lm_MaxBoostMHz : float64; lm_NominalMHz : float64 }.

Section Landmarks.
Context (ParseFloat : string -> option float64).

(** src/pkg/governor/discover/discover.go:272-282 [readMHz] *)
Definition readMHz (files : gmap string string) (path : string) : option float64 :=
  s ← ReadWord files path;
  khz ← ParseFloat s;
  if fle khz fzero then None else Some (fdiv khz (fofZ 1000)).

(** src/pkg/governor/discover/discover.go:287-298 [ReadLandmarks] *)
Definition addLandmark (files : gmap string string) (lm : Landmarks) (id : Z) : Landmarks :=
  let read file := readMHz files (PolicyRelPath id file) in
  let higher old file := match read file with Some mhz => if flt old mhz then mhz else old | None => old end in
  mkLandmarks
    (match read policyMinFreqFile with
     | Some mhz => if feq (lm_MinMHz lm) fzero || flt mhz (lm_MinMHz lm) then mhz else lm_MinMHz lm
     | None => lm_MinMHz lm
     end)
    (higher (lm_MaxBoostMHz lm) policyMaxFreqFile)
    (higher (lm_NominalMHz lm) policyBaseFreqFile).

(** src/pkg/governor/discover/discover.go:285-300 [ReadLandmarks] *)
Definition ReadLandmarks (sys : Sys) : Landmarks :=
  foldl (addLandmark (sy_files sys)) (mkLandmarks fzero fzero fzero) (PolicyIDs (sy_cpufreqNames sys)).
End Landmarks.

(** ** The published block *)

(** src/api/v1alpha1/nodehardware_types.go:118-126 [CPUGovernorState] *)
Record CPUGovernorState := mkCPUState { cs_Policies : string; cs_Governor : string; cs_EPP : string; cs_Boost : string }.

#[export] Instance CPUGovernorState_eq_dec : EqDecision CPUGovernorState.
Proof. solve_decision. Defined.

(** src/api/v1alpha1/nodehardware_types.go:111-115 [CPUGovernorBaseline] *)
Record CPUGovernorBaseline := mkCPUBaseline { cb_Groups : list CPUGovernorState; cb_RecordedAt : string }.

(** src/api/v1alpha1/nodehardware_types.go:102-107 [GovernorPresetSupport] *)
Record GovernorPresetSupport := mkSupport { gps_Preset : string; gps_Result : string; gps_Native : string }.

(** The optional blocks are pairs of current and available, state and scope.
    src/api/v1alpha1/nodehardware_types.go:50-75 [CPUGovernorInventory] *)
Record CPUGovernorInventory := {
  ci_Driver : string;
  ci_DriverMode : string;
  ci_Current : string;
  ci_Available : list string;
  ci_EPP : option (string * list string);
  ci_Boost : option (string * string);
  ci_Presets : list GovernorPresetSupport;
  ci_Baseline : option CPUGovernorBaseline;
  ci_Writable : bool
}.

(** src/cmd/agent/governor_discovery.go:66-73 [cpuGovernorDiscovery] *)
Record cpuGovernorDiscovery := {
  cd_Facts : CPUFacts;
  cd_Policies : list Policy;
  cd_Inventory : CPUGovernorInventory
}.

(** src/cmd/agent/governor_discovery.go:205-215 [uniformOrMixed] *)
Definition uniformOrMixed (values : list string) : string :=
  match values with
  | [] => ""
  | v0 :: rest => if forallb (fun v => String.eqb v v0) rest then v0 else GovernorCurrentMixed
  end.

(** src/cmd/agent/governor_discovery.go:254-264 [cpuPresetSupport] *)
Definition cpuPresetSupport (f : CPUFacts) : list GovernorPresetSupport :=
  omap (fun p =>
    match PlanCPU f p "" with
    | Some plan => if String.eqb (p_Result plan) GovernorResultUnsupported then None
                   else Some (mkSupport p (p_Result plan) (p_Native plan))
    | None => None
    end) (PresetsCPU f).

(** [access] answers the access(2) probe of a path.
    src/pkg/governor/discover/discover.go:84-94 [Writable] *)
Definition Writable (access : string -> bool) (paths : list string) : bool :=
  match paths with [] => false | _ => forallb access paths end.

(** src/cmd/agent/governor_discovery.go:219-250 [discoverCPUGovernor] *)
Definition discoverCPUGovernor (access : string -> bool) (sys : Sys) (cpuinfo : option string) : option cpuGovernorDiscovery :=
  c ← ReadCPU sys cpuinfo;
  let f := cpu_Facts c in
  let state := uniformOrMixed (pol_Boost <$> cpu_Policies c) in
  Some {|
    cd_Facts := f;
    cd_Policies := cpu_Policies c;
    cd_Inventory := {|
      ci_Driver := cf_Driver f;
      ci_DriverMode := cf_DriverMode f;
      ci_Current := uniformOrMixed (pol_Governor <$> cpu_Policies c);
      ci_Available := cf_Governors f;
      ci_EPP := if cpu_HasEPP c then Some (uniformOrMixed (pol_EPP <$> cpu_Policies c), cf_EPPs f) else None;
      ci_Boost := if String.eqb (cf_BoostScope f) "" then None
                  else Some (if String.eqb state GovernorCurrentMixed then "" else state, cf_BoostScope f);
      ci_Presets := cpuPresetSupport f;
      ci_Baseline := None;
      ci_Writable := Writable access (cpu_Files c)
    |}
  |}.

(** ** The baseline *)

(** The numbers that follow the first one by one, and the rest. *)
Fixpoint run (last : Z) (ids : list Z) : Z * list Z :=
  match ids with
  | id :: rest => if (id =? wrap64 (last + 1))%Z then run id rest else (last, ids)
  | [] => (last, [])
  end.

(** src/cmd/agent/governor_discovery.go:292-304 [parts] *)
Fixpoint formatParts (fuel : nat) (ids : list Z) : list string :=
  match fuel, ids with
  | S fuel', first :: ids' =>
      let '(last, rest) := run first ids' in
      (if (length rest <? length ids')%nat then Itoa first +:+ "-" +:+ Itoa last else Itoa first) :: formatParts fuel' rest
  | _, _ => []
  end.

(** A step of the loop takes one number or more, so their count is fuel
    enough.
    src/cmd/agent/governor_discovery.go:290-305 [formatCPUList] *)
Definition formatCPUList (ids : list Z) : string := Join (formatParts (length ids) ids) ",".

(** One part of a list, [a] or [a-b].
    src/cmd/agent/governor_control.go:798-811 [cpuListHas] *)
Definition partHas (id : Z) (part : string) : bool :=
  let '(lo, hi, isRange) := Cut (TrimSpace part) "-" in
  match Atoi lo with
  | None => false
  | Some a =>
      match (if isRange : bool then Atoi hi else Some a) with
      | None => false
      | Some b => ((a <=? id) && (id <=? b))%Z
      end
  end.

(** src/cmd/agent/governor_control.go:796-814 [cpuListHas] *)
Definition cpuListHas (s : string) (id : Z) : bool := existsb (partHas id) (Split s ",").

(** A group's key and the groups found so far.
    src/cmd/agent/governor_discovery.go:269-278 [members] *)
Definition groupKey : Type := string * string * string.
Definition policyKey (s : Policy) : groupKey := (pol_Governor s, pol_EPP s, pol_Boost s).

Definition addMember (acc : list groupKey * gmap groupKey (list Z)) (s : Policy) : list groupKey * gmap groupKey (list Z) :=
  let '(order, members) := acc in
  let k := policyKey s in
  ((if members !! k is Some _ then order else order ++ [k])%list,
   <[k := (default [] (members !! k) ++ [pol_ID s])%list]> members).

(** The time is stamped by the caller.
    src/cmd/agent/governor_discovery.go:268-286 [baseline] *)
Definition baseline (policies : list Policy) : CPUGovernorBaseline :=
  let '(order, members) := foldl addMember ([], ∅) policies in
  mkCPUBaseline
    ((fun k => mkCPUState (formatCPUList (default [] (members !! k))) k.1.1 k.1.2 k.2) <$> order) "".

(** ** Lists of policies in the kernel's form *)

Lemma Cut_none (c : ascii) (s : string) :
  Forall (fun a => a <> c) (list_ascii_of_string s) -> Cut s (String c "") = (s, "", false).
Proof.
  intros H. unfold Cut. assert (String.index 0 (String c "") s = None) as ->; [|done].
  induction s as [|a s IH]; [done|]. cbn. apply Forall_cons in H as [Ha H].
  destruct (ascii_dec c a); [by subst|]. by rewrite (IH H).
Qed.

Lemma split_byte_free sep w : Forall (fun a => a <> sep) w -> split_byte sep w = [w].
Proof.
  induction 1 as [|a w Ha _ IH]; [done|]. cbn [split_byte]. destruct (Ascii.eqb_spec a sep); [done|]. by rewrite IH.
Qed.

Lemma split_byte_app sep w l : Forall (fun a => a <> sep) w -> split_byte sep (w ++ sep :: l)%list = w :: split_byte sep l.
Proof.
  induction 1 as [|a w Ha _ IH]; cbn [app split_byte].
  - by destruct (Ascii.eqb_spec sep sep).
  - destruct (Ascii.eqb_spec a sep); [done|]. by rewrite IH.
Qed.

(** Splitting undoes joining when no part holds the separator. *)
Lemma Split_Join sep ws : ws <> [] -> Forall (fun w => Forall (fun a => a <> sep) (list_ascii_of_string w)) ws ->
  Split (Join ws (String sep "")) sep = ws.
Proof.
  intros Hne H. unfold Split. induction H as [|w ws Hw Hws IH]; [done|]. destruct ws as [|v ws].
  - cbn [Join]. rewrite split_byte_free by done. cbn. by rewrite string_of_list_ascii_of_string.
  - change (Join (w :: v :: ws) (String sep "")) with (w +:+ String sep (Join (v :: ws) (String sep ""))).
    rewrite list_ascii_app. cbn [list_ascii_of_string]. rewrite split_byte_app by done.
    cbn [fmap list_fmap]. rewrite string_of_list_ascii_of_string. f_equal. by apply IH.
Qed.

(** A part stands for the numbers between two numbers. *)
Definition part_of (lo hi : Z) : string := if (lo <? hi)%Z then Itoa lo +:+ "-" +:+ Itoa hi else Itoa lo.

(** Numbers of policies are not negative. *)
Definition isID (n : Z) : Prop := (0 <= n <= int64_max)%Z.

Lemma isID_in n : isID n -> in_int64 n.
Proof. unfold isID, in_int64, int64_min. lia. Qed.

Lemma Itoa_not c n : is_digit c = false -> isID n -> Forall (fun a => a <> c) (list_ascii_of_string (Itoa n)).
Proof. intros Hc [Hn _]. apply digit_not; [done|]. by apply Itoa_digits. Qed.

Lemma partHas_part lo hi id : isID lo -> isID hi -> (lo <= hi)%Z ->
  partHas id (part_of lo hi) = ((lo <=? id) && (id <=? hi))%Z.
Proof.
  intros Hlo Hhi Hle. unfold partHas, part_of. destruct (Z.ltb_spec lo hi) as [Hlt|Hge].
  - rewrite TrimSpace_plain by (apply plain_app; [apply plain_Itoa|apply plain_app; [plain_word|apply plain_Itoa]]).
    change ("-" +:+ Itoa hi) with (String "-" (Itoa hi)). rewrite Cut_byte by (by apply Itoa_not).
    by rewrite !Atoi_Itoa by (by apply isID_in).
  - rewrite TrimSpace_plain by apply plain_Itoa. rewrite Cut_none by (by apply Itoa_not).
    rewrite Atoi_Itoa by (by apply isID_in). assert (lo = hi) as -> by lia. done.
Qed.

(** A run is the numbers from its first to its last. *)
Lemma run_spec last ids : isID last -> Forall isID ids ->
  let '(hi, rest) := run last ids in
  (last <= hi)%Z /\ isID hi /\ (last < hi <-> (length rest < length ids)%nat)%Z /\ (length rest <= length ids)%nat /\
  Forall isID rest /\ forall id, id ∈ ids <-> (last < id <= hi)%Z \/ id ∈ rest.
Proof.
  intros Hl Hids. revert last Hl. induction Hids as [|n ids Hn Hids IH]; intros last Hl; cbn [run].
  - split_and!; try done; try lia. intros id. rewrite elem_of_nil. lia.
  - destruct (Z.eqb_spec n (wrap64 (last + 1))) as [E|E].
    + assert (n = last + 1)%Z as Hn'.
      { destruct (decide (last = int64_max)) as [->|Hne]; [|rewrite E; apply wrap64_id; unfold isID, in_int64, int64_min, int64_max in *; lia].
        exfalso. change (wrap64 (int64_max + 1)) with int64_min in E. subst n. destruct Hn as [Hn _]. by vm_compute in Hn. }
      specialize (IH n Hn). destruct (run n ids) as [hi rest]. destruct IH as (H1 & H2 & H3 & H4 & H5 & H6).
      cbn [length]. split_and!; try done; try lia.
      intros id. rewrite elem_of_cons, H6. split.
      * intros [->|[?|?]]; [left; lia|left; lia|by right].
      * intros [?|?]; [|by right; right]. destruct (decide (id = n)); [by left|right; left; lia].
    + assert (Forall isID (n :: ids)) by (by constructor). split_and!; try done; try lia.
      intros id. split; [by right|intros [?|?]; [lia|done]].
Qed.

Lemma formatParts_spec fuel ids id : (length ids <= fuel)%nat -> Forall isID ids ->
  Forall (fun w => exists lo hi, w = part_of lo hi /\ isID lo /\ isID hi /\ (lo <= hi)%Z) (formatParts fuel ids) /\
  (existsb (partHas id) (formatParts fuel ids) = true <-> id ∈ ids).
Proof.
  revert ids. induction fuel as [|fuel IH]; intros ids Hf Hids; cbn [formatParts].
  - destruct ids; [|cbn in Hf; lia]. split; [constructor|]. cbn. by rewrite elem_of_nil.
  - destruct ids as [|first ids]; [split; [constructor|]; cbn; by rewrite elem_of_nil|].
    apply Forall_cons in Hids as [H0 Hids]. pose proof (run_spec first ids H0 Hids) as Hr.
    destruct (run first ids) as [hi rest]. destruct Hr as (H1 & H2 & H3 & H4 & H5 & H6).
    destruct (IH rest) as [IH1 IH2]; [cbn in Hf; lia|done|].
    assert ((if (length rest <? length ids)%nat then Itoa first +:+ "-" +:+ Itoa hi else Itoa first) = part_of first hi) as ->.
    { unfold part_of. destruct (Z.ltb_spec first hi), (Nat.ltb_spec (length rest) (length ids)); try done; lia. }
    split.
    + constructor; [by exists first, hi|exact IH1].
    + cbn [existsb]. rewrite orb_true_iff, IH2, partHas_part by done. rewrite elem_of_cons, H6, andb_true_iff, !Z.leb_le.
      split.
      * intros [?|?]; [|by right; right]. destruct (decide (id = first)); [by left|right; left; lia].
      * intros [->|[?|?]]; [left; lia|left; lia|by right].
Qed.

(** The list form of a set of policies reads back as the set: the agent finds
    in a stored baseline exactly the policies it grouped there. *)
Lemma cpuListHas_format ids id :
  Forall isID ids -> (cpuListHas (formatCPUList ids) id = true <-> id ∈ ids).
Proof.
  intros Hids. destruct (formatParts_spec (length ids) ids id (le_n _) Hids) as [H1 H2].
  unfold cpuListHas, formatCPUList. destruct ids as [|n ids]; [cbn; by rewrite elem_of_nil|].
  rewrite (Split_Join ","); [done| |].
  - cbn [length formatParts]. by destruct (run n ids).
  - eapply Forall_impl; [exact H1|]. cbn. intros w (lo & hi & -> & Hlo & Hhi & _). unfold part_of.
    destruct (_ <? _)%Z; [|by apply Itoa_not]. rewrite !list_ascii_app. apply Forall_app. split; [by apply Itoa_not|].
    constructor; [done|]. by apply Itoa_not.
Qed.

Example formatCPUList_ex :
  formatCPUList [0; 1; 2; 3; 8; 10; 11]%Z = "0-3,8,10-11" /\ cpuListHas "0-3,8,10-11" 11 = true /\
  cpuListHas "0-99999999999" 7 = true /\ cpuListHas "a-3, 4-" 4 = false.
Proof. vm_compute. auto. Qed.

(** ** Groups of the baseline *)

Definition membersOf (ps : list Policy) (k : groupKey) : list Z := pol_ID <$> filter (fun t => policyKey t = k) ps.

Lemma addMember_fold ps :
  let '(order, members) := foldl addMember ([], ∅) ps in
  (forall k, k ∈ order <-> exists s, s ∈ ps /\ policyKey s = k) /\
  (forall k, members !! k = if decide (k ∈ order) then Some (membersOf ps k) else None).
Proof.
  induction ps as [|s ps IH] using rev_ind.
  { cbn. split; [|by intros k]. intros k. rewrite elem_of_nil. split; [done|]. by intros (s & ?%not_elem_of_nil & _). }
  rewrite foldl_snoc. destruct (foldl addMember ([], ∅) ps) as [order members]. destruct IH as [IH1 IH2].
  cbn [addMember]. set (k0 := policyKey s).
  assert (forall k, membersOf (ps ++ [s]) k = (membersOf ps k ++ (if decide (k = k0) then [pol_ID s] else []))%list) as Hm.
  { intros k. unfold membersOf. rewrite filter_app, fmap_app. f_equal. rewrite filter_cons, filter_nil.
    destruct (decide (policyKey s = k)) as [E|E], (decide (k = k0)) as [E'|E']; subst k0; congruence || done. }
  assert (forall k, k ∉ order -> membersOf ps k = []) as Hno.
  { intros k Hk. unfold membersOf. destruct (filter _ ps) as [|t l] eqn:E; [done|]. destruct Hk. apply IH1. exists t.
    assert (t ∈ filter (fun t => policyKey t = k) ps) as Ht by (rewrite E; left). by apply list_elem_of_filter in Ht as [? ?]. }
  assert (default [] (members !! k0) = membersOf ps k0) as Hd.
  { rewrite IH2. destruct (decide (k0 ∈ order)) as [|Hk]; [done|]. by rewrite Hno. }
  rewrite Hd. assert (forall k, k ∈ (if members !! k0 is Some _ then order else (order ++ [k0])%list) <-> k ∈ order \/ k = k0) as Ho.
  { intros k. rewrite IH2. destruct (decide (k0 ∈ order)) as [Hin|]; [|set_solver]. split; [by left|]. by intros [?| ->]. }
  split.
  - intros k. rewrite Ho, IH1. set_solver.
  - intros k. destruct (decide (k = k0)) as [->|Hne].
    + rewrite lookup_insert_eq. rewrite decide_True by (apply Ho; by right). by rewrite Hm, decide_True.
    + rewrite lookup_insert_ne by done. rewrite IH2, Hm, (decide_False (P := k = k0)), app_nil_r by done.
      destruct (decide (k ∈ order)) as [Hk|Hk].
      * rewrite decide_True; [done|]. apply Ho. by left.
      * rewrite decide_False; [done|]. rewrite Ho. by intros [?|?].
Qed.

(** The groups of a baseline are the states the policies have, each with the
    list of the policies in it. *)
Lemma baseline_groups ps g :
  g ∈ cb_Groups (baseline ps) <->
  exists s, s ∈ ps /\ g = mkCPUState (formatCPUList (membersOf ps (policyKey s))) (pol_Governor s) (pol_EPP s) (pol_Boost s).
Proof.
  unfold baseline. pose proof (addMember_fold ps) as H. destruct (foldl addMember ([], ∅) ps) as [order members].
  destruct H as [H1 H2]. cbn [cb_Groups]. rewrite list_elem_of_fmap. split.
  - intros (k & -> & Hk). pose proof (proj1 (H1 k) Hk) as (s & Hs & <-). exists s. split; [done|].
    rewrite H2, decide_True by done. done.
  - intros (s & Hs & ->). exists (policyKey s). assert (policyKey s ∈ order) as Hk by (apply H1; eauto).
    split; [|done]. rewrite H2, decide_True by done. done.
Qed.

(** ** What discovery finds *)

Lemma policyStates_elem files ids s :
  s ∈ policyStates files ids <->
  exists id, id ∈ ids /\ s = mkPolicy id (word files (PolicyRelPath id PolicyGovernorFile)) "" "" /\ pol_Governor s <> "".
Proof.
  unfold policyStates. rewrite list_elem_of_omap. split.
  - intros (id & Hid & E). destruct (String.eqb_spec (word files (PolicyRelPath id PolicyGovernorFile)) "") as [|Hne]; [done|].
    injection E as <-. eauto.
  - intros (id & Hid & -> & Hne). exists id. split; [done|]. cbn [pol_Governor] in Hne.
    by destruct (String.eqb_spec (word files (PolicyRelPath id PolicyGovernorFile)) "").
Qed.

Lemma ReadCPU_Some sys cpuinfo c :
  ReadCPU sys cpuinfo = Some c ->
  let files := sy_files sys in
  let scope := cf_BoostScope (cpu_Facts c) in
  cf_Policies (cpu_Facts c) = pol_ID <$> cpu_Policies c /\ cpu_Policies c <> [] /\
  (scope = CPUBoostScopePerCPU -> exists s, s ∈ cpu_Policies c /\ existsFile files (PolicyRelPath (pol_ID s) PolicyBoostFile) = true) /\
  (cpu_HasEPP c = false -> cf_EPPs (cpu_Facts c) = []) /\
  (forall s, s ∈ cpu_Policies c <-> exists id, id ∈ PolicyIDs (sy_cpufreqNames sys) /\ pol_Governor s <> "" /\
    s = fillPolicy files (cpu_HasEPP c) scope (mkPolicy id (word files (PolicyRelPath id PolicyGovernorFile)) "" "")).
Proof.
  unfold ReadCPU. destruct (policyStates _ _) as [|s0 states] eqn:E; [done|]. intros [= <-].
  cbn [cpu_Facts cf_BoostScope cf_Policies cpu_Policies cpu_HasEPP cf_EPPs]. cbv zeta.
  set (files := sy_files sys) in *. set (scope := boostScope _ _ _). set (hasEPP := existsFile _ _).
  split_and!.
  - cbn [fmap list_fmap pol_ID fillPolicy]. f_equal. by rewrite <- list_fmap_compose.
  - done.
  - intros Hs. exists (fillPolicy files hasEPP scope s0). split; [left|]. cbn [pol_ID fillPolicy].
    subst scope. revert Hs. unfold boostScope. repeat case_match; try done;
      repeat match goal with H : _ && _ = true |- _ => apply andb_true_iff in H as [? ?] end; done.
  - intros ->. done.
  - intros s. change (s ∈ fillPolicy files hasEPP scope <$> (s0 :: states) <-> exists id, id ∈ PolicyIDs (sy_cpufreqNames sys) /\
      pol_Governor s <> "" /\ s = fillPolicy files hasEPP scope (mkPolicy id (word files (PolicyRelPath id PolicyGovernorFile)) "" "")).
    rewrite <- E, list_elem_of_fmap. split.
    + intros (t & -> & Ht). apply policyStates_elem in Ht as (id & Hid & -> & Hne). exists id. done.
    + intros (id & Hid & Hne & ->). eexists. split; [done|]. apply policyStates_elem. exists id. done.
Qed.
