(* ===== verification/GovernorLoop.v ===== *)
(** * The governor control loop: cmd/agent/governor_control.go

    The state machine of one component (the CPU or the GPU governor): when
    the agent applies an intent, checks it, applies it again, stops writing,
    and puts the baseline back; and how it reports, through a throttle that
    remembers the last payload of each object. What applying, checking and
    restoring do to the node is left to the mechanism ([governorOps]), over a
    state [W] of its own: CpuControl.v, NvidiaControl.v and AmdControl.v give the mechanisms.

    Times are nanoseconds, 0 the zero [time.Time]; one reconcile reads one
    time. Metrics and log lines are left out. *)

From S2P Require Import Prelude GoString GoFloat GoSlices Api Governor.

#[local] Open Scope string_scope.

(** ** State *)

(** src/cmd/agent/governor_control.go:166-168 [governorStatus] *)
Record governorStatus := mkStatus { gst_backend : string; gst_result : string; gst_message : string; gst_applied : string }.

#[export] Instance governorStatus_eq_dec : EqDecision governorStatus.
Proof. solve_decision. Defined.

Definition noStatus : governorStatus := mkStatus "" "" "" "".

(** src/cmd/agent/governor_control.go:173-177 [governorOutcome] *)
Record governorOutcome := mkOutcome { out_status : governorStatus; out_wrote : nat; out_attempted : bool }.

(** src/cmd/agent/governor_control.go:184-186 [nvidiaRecord] *)
Record nvidiaRecord := mkRecord { nr_gpu : option (Z * Z); nr_mem : option (Z * Z) }.

(** The names are not read here; nil maps are empty ones.
    src/cmd/agent/governor_control.go:189-232 [governorComponent] *)
Record governorComponent := mkComponent {
  c_name : string;
  c_intent : string;
  c_preset : string;
  c_expect : list Write;
  c_od : gmap string Z;
  c_odDevices : gset string;
  c_nv : gmap string nvidiaRecord;
  c_nvGood : gmap string Z;
  c_nvSeed : option State;
  c_changed : bool;
  c_boostWritten : bool;
  c_globalBoostSeen : string;
  c_verified : bool;
  c_drifted : bool;
  c_drifts : list Z;
  c_contended : bool;
  c_refused : bool;
  c_retryAt : Z;
  c_lastApply : Z;
  c_status : governorStatus;
  c_good : governorStatus;
  c_statusWritten : bool
}.

(** One field of a component replaced, the others kept; [c ▷ f ▷ g] is the
    sequence of updates. *)
Notation "c ▷ f" := (f c) (at level 50, left associativity, only parsing).

Definition set_intent x (c : governorComponent) : governorComponent :=
  mkComponent (c_name c) x (c_preset c) (c_expect c) (c_od c) (c_odDevices c) (c_nv c) (c_nvGood c) (c_nvSeed c)
    (c_changed c) (c_boostWritten c) (c_globalBoostSeen c) (c_verified c) (c_drifted c) (c_drifts c) (c_contended c)
    (c_refused c) (c_retryAt c) (c_lastApply c) (c_status c) (c_good c) (c_statusWritten c) .
Definition set_preset x (c : governorComponent) : governorComponent :=
  mkComponent (c_name c) (c_intent c) x (c_expect c) (c_od c) (c_odDevices c) (c_nv c) (c_nvGood c) (c_nvSeed c)
    (c_changed c) (c_boostWritten c) (c_globalBoostSeen c) (c_verified c) (c_drifted c) (c_drifts c) (c_contended c)
    (c_refused c) (c_retryAt c) (c_lastApply c) (c_status c) (c_good c) (c_statusWritten c) .
Definition set_expect x (c : governorComponent) : governorComponent :=
  mkComponent (c_name c) (c_intent c) (c_preset c) x (c_od c) (c_odDevices c) (c_nv c) (c_nvGood c) (c_nvSeed c)
    (c_changed c) (c_boostWritten c) (c_globalBoostSeen c) (c_verified c) (c_drifted c) (c_drifts c) (c_contended c)
    (c_refused c) (c_retryAt c) (c_lastApply c) (c_status c) (c_good c) (c_statusWritten c) .
Definition set_od x (c : governorComponent) : governorComponent :=
  mkComponent (c_name c) (c_intent c) (c_preset c) (c_expect c) x (c_odDevices c) (c_nv c) (c_nvGood c) (c_nvSeed c)
    (c_changed c) (c_boostWritten c) (c_globalBoostSeen c) (c_verified c) (c_drifted c) (c_drifts c) (c_contended c)
    (c_refused c) (c_retryAt c) (c_lastApply c) (c_status c) (c_good c) (c_statusWritten c) .
Definition set_odDevices x (c : governorComponent) : governorComponent :=
  mkComponent (c_name c) (c_intent c) (c_preset c) (c_expect c) (c_od c) x (c_nv c) (c_nvGood c) (c_nvSeed c)
    (c_changed c) (c_boostWritten c) (c_globalBoostSeen c) (c_verified c) (c_drifted c) (c_drifts c) (c_contended c)
    (c_refused c) (c_retryAt c) (c_lastApply c) (c_status c) (c_good c) (c_statusWritten c) .
Definition set_nv x (c : governorComponent) : governorComponent :=
  mkComponent (c_name c) (c_intent c) (c_preset c) (c_expect c) (c_od c) (c_odDevices c) x (c_nvGood c) (c_nvSeed c)
    (c_changed c) (c_boostWritten c) (c_globalBoostSeen c) (c_verified c) (c_drifted c) (c_drifts c) (c_contended c)
    (c_refused c) (c_retryAt c) (c_lastApply c) (c_status c) (c_good c) (c_statusWritten c) .
Definition set_nvGood x (c : governorComponent) : governorComponent :=
  mkComponent (c_name c) (c_intent c) (c_preset c) (c_expect c) (c_od c) (c_odDevices c) (c_nv c) x (c_nvSeed c)
    (c_changed c) (c_boostWritten c) (c_globalBoostSeen c) (c_verified c) (c_drifted c) (c_drifts c) (c_contended c)
    (c_refused c) (c_retryAt c) (c_lastApply c) (c_status c) (c_good c) (c_statusWritten c) .
Definition set_nvSeed x (c : governorComponent) : governorComponent :=
  mkComponent (c_name c) (c_intent c) (c_preset c) (c_expect c) (c_od c) (c_odDevices c) (c_nv c) (c_nvGood c) x
    (c_changed c) (c_boostWritten c) (c_globalBoostSeen c) (c_verified c) (c_drifted c) (c_drifts c) (c_contended c)
    (c_refused c) (c_retryAt c) (c_lastApply c) (c_status c) (c_good c) (c_statusWritten c) .
Definition set_changed x (c : governorComponent) : governorComponent :=
  mkComponent (c_name c) (c_intent c) (c_preset c) (c_expect c) (c_od c) (c_odDevices c) (c_nv c) (c_nvGood c)
    (c_nvSeed c) x (c_boostWritten c) (c_globalBoostSeen c) (c_verified c) (c_drifted c) (c_drifts c) (c_contended c)
    (c_refused c) (c_retryAt c) (c_lastApply c) (c_status c) (c_good c) (c_statusWritten c) .
Definition set_boostWritten x (c : governorComponent) : governorComponent :=
  mkComponent (c_name c) (c_intent c) (c_preset c) (c_expect c) (c_od c) (c_odDevices c) (c_nv c) (c_nvGood c)
    (c_nvSeed c) (c_changed c) x (c_globalBoostSeen c) (c_verified c) (c_drifted c) (c_drifts c) (c_contended c)
    (c_refused c) (c_retryAt c) (c_lastApply c) (c_status c) (c_good c) (c_statusWritten c) .
Definition set_globalBoostSeen x (c : governorComponent) : governorComponent :=
  mkComponent (c_name c) (c_intent c) (c_preset c) (c_expect c) (c_od c) (c_odDevices c) (c_nv c) (c_nvGood c)
    (c_nvSeed c) (c_changed c) (c_boostWritten c) x (c_verified c) (c_drifted c) (c_drifts c) (c_contended c)
    (c_refused c) (c_retryAt c) (c_lastApply c) (c_status c) (c_good c) (c_statusWritten c) .
Definition set_verified x (c : governorComponent) : governorComponent :=
  mkComponent (c_name c) (c_intent c) (c_preset c) (c_expect c) (c_od c) (c_odDevices c) (c_nv c) (c_nvGood c)
    (c_nvSeed c) (c_changed c) (c_boostWritten c) (c_globalBoostSeen c) x (c_drifted c) (c_drifts c) (c_contended c)
    (c_refused c) (c_retryAt c) (c_lastApply c) (c_status c) (c_good c) (c_statusWritten c) .
Definition set_drifted x (c : governorComponent) : governorComponent :=
  mkComponent (c_name c) (c_intent c) (c_preset c) (c_expect c) (c_od c) (c_odDevices c) (c_nv c) (c_nvGood c)
    (c_nvSeed c) (c_changed c) (c_boostWritten c) (c_globalBoostSeen c) (c_verified c) x (c_drifts c) (c_contended c)
    (c_refused c) (c_retryAt c) (c_lastApply c) (c_status c) (c_good c) (c_statusWritten c) .
Definition set_drifts x (c : governorComponent) : governorComponent :=
  mkComponent (c_name c) (c_intent c) (c_preset c) (c_expect c) (c_od c) (c_odDevices c) (c_nv c) (c_nvGood c)
    (c_nvSeed c) (c_changed c) (c_boostWritten c) (c_globalBoostSeen c) (c_verified c) (c_drifted c) x
    (c_contended c) (c_refused c) (c_retryAt c) (c_lastApply c) (c_status c) (c_good c) (c_statusWritten c) .
Definition set_contended x (c : governorComponent) : governorComponent :=
  mkComponent (c_name c) (c_intent c) (c_preset c) (c_expect c) (c_od c) (c_odDevices c) (c_nv c) (c_nvGood c)
    (c_nvSeed c) (c_changed c) (c_boostWritten c) (c_globalBoostSeen c) (c_verified c) (c_drifted c) (c_drifts c) x
    (c_refused c) (c_retryAt c) (c_lastApply c) (c_status c) (c_good c) (c_statusWritten c) .
Definition set_refused x (c : governorComponent) : governorComponent :=
  mkComponent (c_name c) (c_intent c) (c_preset c) (c_expect c) (c_od c) (c_odDevices c) (c_nv c) (c_nvGood c)
    (c_nvSeed c) (c_changed c) (c_boostWritten c) (c_globalBoostSeen c) (c_verified c) (c_drifted c) (c_drifts c)
    (c_contended c) x (c_retryAt c) (c_lastApply c) (c_status c) (c_good c) (c_statusWritten c) .
Definition set_retryAt x (c : governorComponent) : governorComponent :=
  mkComponent (c_name c) (c_intent c) (c_preset c) (c_expect c) (c_od c) (c_odDevices c) (c_nv c) (c_nvGood c)
    (c_nvSeed c) (c_changed c) (c_boostWritten c) (c_globalBoostSeen c) (c_verified c) (c_drifted c) (c_drifts c)
    (c_contended c) (c_refused c) x (c_lastApply c) (c_status c) (c_good c) (c_statusWritten c) .
Definition set_lastApply x (c : governorComponent) : governorComponent :=
  mkComponent (c_name c) (c_intent c) (c_preset c) (c_expect c) (c_od c) (c_odDevices c) (c_nv c) (c_nvGood c)
    (c_nvSeed c) (c_changed c) (c_boostWritten c) (c_globalBoostSeen c) (c_verified c) (c_drifted c) (c_drifts c)
    (c_contended c) (c_refused c) (c_retryAt c) x (c_status c) (c_good c) (c_statusWritten c) .
Definition set_status x (c : governorComponent) : governorComponent :=
  mkComponent (c_name c) (c_intent c) (c_preset c) (c_expect c) (c_od c) (c_odDevices c) (c_nv c) (c_nvGood c)
    (c_nvSeed c) (c_changed c) (c_boostWritten c) (c_globalBoostSeen c) (c_verified c) (c_drifted c) (c_drifts c)
    (c_contended c) (c_refused c) (c_retryAt c) (c_lastApply c) x (c_good c) (c_statusWritten c) .
Definition set_good x (c : governorComponent) : governorComponent :=
  mkComponent (c_name c) (c_intent c) (c_preset c) (c_expect c) (c_od c) (c_odDevices c) (c_nv c) (c_nvGood c)
    (c_nvSeed c) (c_changed c) (c_boostWritten c) (c_globalBoostSeen c) (c_verified c) (c_drifted c) (c_drifts c)
    (c_contended c) (c_refused c) (c_retryAt c) (c_lastApply c) (c_status c) x (c_statusWritten c) .
Definition set_statusWritten x (c : governorComponent) : governorComponent :=
  mkComponent (c_name c) (c_intent c) (c_preset c) (c_expect c) (c_od c) (c_odDevices c) (c_nv c) (c_nvGood c)
    (c_nvSeed c) (c_changed c) (c_boostWritten c) (c_globalBoostSeen c) (c_verified c) (c_drifted c) (c_drifts c)
    (c_contended c) (c_refused c) (c_retryAt c) (c_lastApply c) (c_status c) (c_good c) x.

(** A component at the start of the process.
    src/cmd/agent/governor_control.go:263-271 [newGovernorControl] *)
Definition newComponent (name : string) : governorComponent := {|
  c_name := name; c_intent := ""; c_preset := ""; c_expect := []; c_od := ∅; c_odDevices := ∅; c_nv := ∅;
  c_nvGood := ∅; c_nvSeed := None; c_changed := false; c_boostWritten := false; c_globalBoostSeen := "";
  c_verified := false; c_drifted := false; c_drifts := []; c_contended := false; c_refused := false;
  c_retryAt := 0; c_lastApply := 0; c_status := noStatus; c_good := noStatus; c_statusWritten := false
|}.

(** src/cmd/agent/governor_control.go:59-64 [governorReapplyEvery, governorDriftWindow, governorDriftLimit, governorRetryAfter] *)
Definition minute : Z := 60 * 10 ^ 9.
Definition governorReapplyEvery : Z := 5 * minute.
Definition governorDriftWindow : Z := 30 * minute.
Definition governorDriftLimit : nat := 3.
Definition governorRetryAfter : Z := 30 * minute.

(** [a.Sub(b)]. *)
Definition tsub (a b : Z) : Z := sat64 (a - b).

(** src/cmd/agent/governor_control.go:235-241 [startIntent] *)
Definition startIntent (c : governorComponent) (key preset : string) : governorComponent :=
  (c ▷ set_intent key ▷ set_preset preset ▷ set_expect [] ▷ set_od ∅ ▷ set_verified false ▷ set_drifted false
      ▷ set_contended false ▷ set_drifts [] ▷ set_retryAt 0%Z ▷ set_nvGood ∅).

(** Whether a status means the agent may have changed the node.
    src/cmd/agent/governor_control.go:286-294 [governorResultWrote] *)
Definition governorResultWrote (result applied : string) : bool :=
  if String.eqb result "" || String.eqb result GovernorResultDisabled || String.eqb result GovernorResultRestored then false
  else if String.eqb result GovernorResultUnsupported then negb (String.eqb applied "")
  else true.

(** ** Reports *)

(** The controlStatus entries of the NodeTwin, the last payload written for
    each, and how many patches were asked for.
    src/cmd/agent/main.go:2077-2082 [lastWrites, lastWrite] *)
Record Reports := mkReports {
  r_entries : gmap string governorStatus;
  r_lastWrites : gmap string (string * Z);
  r_patches : nat
}.

(** What the API server makes of a patch (with its fallback): done, no such
    NodeTwin, or an error. *)
Inductive PatchAnswer := Patched | TwinNotFound | PatchFailed.

(** src/pkg/api/conditions.go:9-9 [StatusRewriteInterval] *)
Definition StatusRewriteInterval : Z := 5 * minute.

Section Reports.
Context (answer : nat -> PatchAnswer).

(** The payload is recorded before it is written.
    src/cmd/agent/main.go:2089-2098 [shouldWrite] *)
Definition shouldWrite (key payload : string) (now : Z) (r : Reports) : bool * Reports :=
  let record := mkReports (r_entries r) (<[key := (payload, now)]> (r_lastWrites r)) (r_patches r) in
  match r_lastWrites r !! key with
  | Some (p, at_) =>
      if String.eqb p payload && (tsub now at_ <? StatusRewriteInterval)%Z then (false, r) else (true, record)
  | None => (true, record)
  end.

(** The patch of one component; [true] is the nil error.
    src/cmd/agent/main.go:2132-2170 [patchNodeTwinControlStatus] *)
Definition patchNodeTwinControlStatus (component fingerprint : string) (entry : option governorStatus) (now : Z)
    (r : Reports) : bool * Reports :=
  let '(write, r) := shouldWrite ("controlStatus|" +:+ component) fingerprint now r in
  if negb write then (true, r)
  else
    let r' := mkReports (r_entries r) (r_lastWrites r) (S (r_patches r)) in
    match answer (r_patches r) with
    | Patched =>
        (true, mkReports (match entry with
                          | Some s => <[component := s]> (r_entries r')
                          | None => delete component (r_entries r')
                          end) (r_lastWrites r') (r_patches r'))
    | TwinNotFound => (true, r')
    | PatchFailed => (false, r')
    end.

(** src/cmd/agent/main.go:2112-2126 [updateNodeTwinGovernorStatus] *)
Definition updateNodeTwinGovernorStatus (component : string) (s : option governorStatus) (now : Z) (r : Reports) : bool * Reports :=
  match s with
  | None => patchNodeTwinControlStatus component "removed" None now r
  | Some s =>
      patchNodeTwinControlStatus component
        (gst_backend s +:+ "|" +:+ gst_result s +:+ "|" +:+ gst_message s +:+ "|" +:+ gst_applied s) (Some s) now r
  end.

(** src/cmd/agent/governor_control.go:652-659 [publish] *)
Definition publish (c : governorComponent) (now : Z) (r : Reports) : governorComponent * Reports :=
  let '(ok, r) := updateNodeTwinGovernorStatus (c_name c) (Some (c_status c)) now r in
  (if ok : bool then (c ▷ set_statusWritten true) else c, r).

(** ** The loop *)

Context {W : Type}.

(** The parts of a step the mechanism gives. Applying and checking may change
    the component's own records and the world.
    src/cmd/agent/governor_control.go:464-474 [governorOps] *)
Record governorOps := {
  op_apply : governorComponent -> W -> governorOutcome * governorComponent * W;
  op_check : governorComponent -> W -> bool * bool * string * governorComponent * W;
  op_reissue : option (Z -> governorComponent -> W -> bool * W)
}.

Definition nothingToVerify (c : governorComponent) : bool :=
  match c_expect c with [] => bool_decide (c_od c = ∅) | _ => false end.

(** src/cmd/agent/governor_control.go:512-533 [applyNow] *)
Definition applyNow (ops : governorOps) (now : Z) (c : governorComponent) (w : W) : governorComponent * W :=
  let '(out, c, w) := op_apply ops c w in
  let c := (c ▷ set_lastApply now) in
  let c := if (0 <? out_wrote out)%nat then (c ▷ set_changed true) else c in
  let c := (c ▷ set_status (out_status out) ▷ set_good (out_status out) ▷ set_verified (nothingToVerify c)
      ▷ set_drifted false ▷ set_retryAt 0%Z) in
  let result := gst_result (out_status out) in
  let c :=
    if String.eqb result GovernorResultRefused then (c ▷ set_refused true)
    else if String.eqb result GovernorResultUnsupported || String.eqb result GovernorResultNotApplied
    then (c ▷ set_retryAt ((now + governorRetryAfter)%Z))
    else c in
  (c, w).

(** The status of a change that did not hold, over the last good one.
    src/cmd/agent/governor_control.go:550-550 [governorStatus] *)
Definition lapsed (c : governorComponent) (result msg : string) : governorStatus :=
  mkStatus (gst_backend (c_good c)) result msg (gst_applied (c_good c)).

(** src/cmd/agent/governor_control.go:564-572 [contended] *)
Definition contendedMessage (n : nat) (msg : string) : string :=
  Itoa (Z.of_nat n) +:+ " drifts within 30m0s: another writer holds the setting; no more writes for this intent (" +:+
  msg +:+ ")".

(** src/cmd/agent/governor_control.go:535-581 [checkNow] *)
Definition checkNow (ops : governorOps) (now : Z) (c : governorComponent) (w : W) : governorComponent * W :=
  let '(ok, reset, msg, c, w) := op_check ops c w in
  let reapply c := if (governorReapplyEvery <=? tsub now (c_lastApply c))%Z then applyNow ops now c w else (c, w) in
  if ok then
    let c := (c ▷ set_verified true ▷ set_drifted false) in
    (if String.eqb (gst_result (c_status c)) GovernorResultDrift then (c ▷ set_status (c_good c)) else c, w)
  else if negb (c_verified c) then
    ((c ▷ set_status (lapsed c GovernorResultNotApplied msg) ▷ set_retryAt ((now + governorRetryAfter)%Z)), w)
  else if reset : bool then applyNow ops now c w
  else if negb (c_drifted c) then
    let kept := filter (fun t => (tsub now t <? governorDriftWindow)%Z = true) (c_drifts c) in
    let c := (c ▷ set_drifted true ▷ set_drifts ((kept ++ [now])%list)) in
    if (governorDriftLimit <=? length (c_drifts c))%nat then
      ((c ▷ set_contended true
          ▷ set_status (lapsed c GovernorResultContended (contendedMessage (length (c_drifts c)) msg))), w)
    else reapply (c ▷ set_status (lapsed c GovernorResultDrift msg))
  else reapply c.

(** What a step does before it publishes.
    src/cmd/agent/governor_control.go:487-508 [step] *)
Definition act (key preset : string) (ops : governorOps) (now : Z) (c : governorComponent) (w : W) : governorComponent * W :=
  if c_refused c then (c, w)
  else if negb (String.eqb key (c_intent c)) then applyNow ops now (startIntent c key preset) w
  else if c_contended c then (c, w)
  else if negb (c_retryAt c =? 0)%Z then
    if negb (now <? c_retryAt c)%Z then applyNow ops now c w else (c, w)
  else if String.eqb (gst_result (c_status c)) GovernorResultError then
    if (governorReapplyEvery <=? tsub now (c_lastApply c))%Z then applyNow ops now c w else (c, w)
  else match op_reissue ops with
       | Some reissue =>
           let '(due, w) := reissue now c w in
           if due : bool then
             let '(c, w) := applyNow ops now c w in checkNow ops now c w
           else checkNow ops now c w
       | None => checkNow ops now c w
       end.

(** src/cmd/agent/governor_control.go:486-510 [step] *)
Definition step (key preset : string) (ops : governorOps) (now : Z) (c : governorComponent) (w : W) (r : Reports)
    : governorComponent * W * Reports :=
  let '(c, w) := act key preset ops now c w in
  let '(c, r) := publish c now r in
  (c, w, r).

(** src/cmd/agent/governor_control.go:477-482 [hold] *)
Definition hold (preset : string) (st : governorStatus) (now : Z) (c : governorComponent) (r : Reports)
    : governorComponent * Reports :=
  publish (c ▷ set_intent "" ▷ set_preset preset ▷ set_status st) now r.

(** How the node is controlled: the switches of the environment, whether the
    agent runs off the node, and the simulate-only and HTTP modes. *)
Record Mode := { md_simulateOnly : bool; md_writes : bool; md_remote : bool; md_http : bool }.

(** src/cmd/agent/governor_control.go:587-589 [mayRestore] *)
Definition mayRestore (m : Mode) (c : governorComponent) : bool :=
  negb (md_simulateOnly m) && negb (md_remote m) && negb (c_refused c).

(** src/cmd/agent/governor_control.go:595-597 [restoreWritesOff] *)
Definition restoreWritesOff (m : Mode) (c : governorComponent) : bool :=
  negb (md_writes m) && c_changed c && negb (c_contended c) && mayRestore m c.

(** [restore] is [None] when the node cannot be planned with now.
    src/cmd/agent/governor_control.go:603-649 [release] *)
Definition release (m : Mode) (restore : option (governorComponent -> W -> governorOutcome * governorComponent * W))
    (now : Z) (c : governorComponent) (w : W) (r : Reports) : governorComponent * W * Reports :=
  let canWrite := mayRestore m c in
  let c := if c_contended c then (c ▷ set_changed false ▷ set_contended false) else c in
  if c_changed c && canWrite then
    match restore with
    | None => (c, w, r)
    | Some restore =>
        if negb (c_retryAt c =? 0)%Z && (now <? c_retryAt c)%Z then (c, w, r)
        else
          let '(out, c, w) := restore c w in
          let c := (c ▷ set_intent "" ▷ set_preset "" ▷ set_expect [] ▷ set_od ∅ ▷ set_drifts []
              ▷ set_drifted false ▷ set_lastApply now ▷ set_status (out_status out) ▷ set_good (out_status out)
                  ▷ set_retryAt 0%Z) in
          let result := gst_result (out_status out) in
          let c :=
            if String.eqb result GovernorResultRestored then
              (c ▷ set_changed false ▷ set_boostWritten false ▷ set_globalBoostSeen "" ▷ set_odDevices ∅)
            else if String.eqb result GovernorResultRefused then (c ▷ set_refused true)
            else (c ▷ set_retryAt ((now + governorRetryAfter)%Z)) in
          let '(c, r) := publish c now r in (c, w, r)
    end
  else
    let c := (c ▷ set_intent "" ▷ set_preset "" ▷ set_expect [] ▷ set_od ∅ ▷ set_retryAt 0%Z) in
    if c_statusWritten c && negb (String.eqb (gst_result (c_status c)) GovernorResultRestored) then
      let '(ok, r) := updateNodeTwinGovernorStatus (c_name c) None now r in
      (if ok : bool then (c ▷ set_statusWritten false ▷ set_status noStatus) else c, w, r)
    else (c, w, r).

(** Why an intent is not written, if it is not: [missing] says why there is no
    mechanism, with [missingResult].
    src/cmd/agent/governor_control.go:444-461 [blocked] *)
Definition blocked (m : Mode) (missing missingResult : string) : option governorStatus :=
  if md_simulateOnly m then Some (mkStatus "none" GovernorResultDisabled "simulate-only mode: no governor write" "")
  else if negb (md_writes m) then Some (mkStatus "none" GovernorResultDisabled "GOVERNOR_WRITES is false: discovery only" "")
  else if md_remote m then Some (mkStatus "none" GovernorResultUnsupported "pool mode: the agent does not run on this node" "")
  else if md_http m then Some (mkStatus "http" GovernorResultUnsupported "the HTTP control backend has no governor action" "")
  else if negb (String.eqb missing "") then Some (mkStatus "none" missingResult missing "")
  else None.

(** ** When the agent stops writing *)

(** A refused component writes nothing more, whatever the intent; a contended
    one nothing more for its intent. *)
Lemma act_quiet key preset ops now c w :
  c_refused c = true \/ (key = c_intent c /\ c_contended c = true) -> act key preset ops now c w = (c, w).
Proof.
  unfold act. intros [->|[-> ->]]; [done|]. destruct (c_refused c); [done|]. by rewrite String.eqb_refl.
Qed.

Lemma tsub_ge a b d : (0 <= d)%Z -> (d <=? tsub a b)%Z = true -> (d <= a - b)%Z.
Proof. unfold tsub, sat64, int64_min, int64_max. lia. Qed.

Lemma tsub_lt a b d : (0 < d <= int64_max)%Z -> (b <= a)%Z -> (d <=? tsub a b)%Z = false -> (a - b < d)%Z.
Proof. unfold tsub, sat64, int64_min, int64_max. lia. Qed.

(** ** What mechanisms leave alone *)

(** The fields of the loop, which mechanisms leave alone. *)
Definition sameControl (c c' : governorComponent) : Prop :=
  c_intent c' = c_intent c /\ c_verified c' = c_verified c /\ c_drifted c' = c_drifted c /\
  c_drifts c' = c_drifts c /\ c_contended c' = c_contended c /\ c_refused c' = c_refused c /\
  c_retryAt c' = c_retryAt c /\ c_lastApply c' = c_lastApply c /\ c_changed c' = c_changed c.

#[export] Instance sameControl_preorder : PreOrder sameControl.
Proof. split; [intros c; by unfold sameControl|]. unfold sameControl. intros c1 c2 c3. intuition congruence. Qed.

Lemma publish_same c now r : exists b, (publish c now r).1 = c \/ (publish c now r).1 = (c ▷ set_statusWritten b).
Proof.
  unfold publish. destruct (updateNodeTwinGovernorStatus _ _ _ _) as [ok r']. exists true. destruct ok; auto.
Qed.

(** ** When the agent tries again *)

(** Whether an intent waits to be written again after a write that failed. *)
Definition pending (c : governorComponent) : Prop :=
  c_retryAt c <> 0%Z \/ gst_result (c_status c) = GovernorResultError.

(** An intent that is new is written at once, and one whose write failed is
    written again once its wait is over: at the retry time, or five minutes
    after an error. Only a refusal, until the agent restarts, and contention,
    until the intent changes, end that: they leave the component and the node
    as they are, whatever the mechanism. The third drift within half an hour
    is what makes a verified setting contended, and writes nothing. *)
Theorem act_progress key preset ops now c w :
  (c_refused c = false -> key <> c_intent c -> act key preset ops now c w = applyNow ops now (startIntent c key preset) w) /\
  (c_refused c = false -> key = c_intent c -> c_contended c = false -> pending c ->
   (c_retryAt c <= now)%Z -> (c_lastApply c + governorReapplyEvery <= now)%Z ->
   act key preset ops now c w = applyNow ops now c w) /\
  (c_refused c = true \/ (key = c_intent c /\ c_contended c = true) -> act key preset ops now c w = (c, w)) /\
  (forall msg c1 w1, op_check ops c w = (false, false, msg, c1, w1) -> sameControl c c1 ->
   c_verified c = true -> c_drifted c = false ->
   (2 <= length (filter (fun t => (tsub now t <? governorDriftWindow)%Z = true) (c_drifts c)))%nat ->
   let '(c', w') := checkNow ops now c w in
   w' = w1 /\ c_contended c' = true /\ gst_result (c_status c') = GovernorResultContended).
Proof.
  split; [|split; [|split]].
  - unfold act. intros -> Hne%String.eqb_neq. by rewrite Hne.
  - unfold act. intros -> -> -> Hp Hr Hl. rewrite String.eqb_refl. cbn [negb].
    destruct (Z.eqb_spec (c_retryAt c) 0) as [E|E]; cbn [negb].
    + destruct Hp as [|Hp]; [done|]. rewrite Hp, String.eqb_refl.
      assert ((governorReapplyEvery <=? tsub now (c_lastApply c))%Z = true) as ->; [|done].
      unfold tsub, sat64, int64_min, int64_max. change governorReapplyEvery with (300 * 10 ^ 9)%Z in *. lia.
    + destruct (Z.ltb_spec now (c_retryAt c)); [lia|done].
  - apply act_quiet.
  - intros msg c1 w1 Hck (Hi & Hv & Hd & Hds & _) Ev Ed Hlen. unfold checkNow. rewrite Hck, Hv, Ev, Hd, Ed. cbn [negb].
    rewrite Hds. cbn [c_drifts set_drifts set_drifted]. rewrite length_app. cbn [length].
    destruct (Nat.leb_spec governorDriftLimit (length (filter (fun t => (tsub now t <? governorDriftWindow)%Z = true) (c_drifts c)) + 1));
      [done|unfold governorDriftLimit in *; lia].
Qed.

(** ** Putting the baseline back *)

Lemma release_idle m restore now c w r :
  c_changed c = false -> (release m restore now c w r).1.2 = w /\ c_changed (release m restore now c w r).1.1 = false.
Proof.
  intros Hc. unfold release. assert (c_changed (if c_contended c then c ▷ set_changed false
      ▷ set_contended false else c) = false) as E
    by by destruct (c_contended c).
  set (c1 := if c_contended c then _ else c) in *. rewrite E. cbn [andb].
  destruct (_ && _); [|done]. destruct (updateNodeTwinGovernorStatus _ _ _ _) as [ok r']. cbn. destruct ok; done.
Qed.

(** What a release comes to: the restore's own outcome, when the agent
    changed the node, may write it and does not wait; else nothing. *)
Definition putBackBy (m : Mode) (restore : option (governorComponent -> W -> governorOutcome * governorComponent * W)) (now : Z)
    (c : governorComponent) (w : W) (c' : governorComponent) (w' : W) : Prop :=
  match restore with
  | Some f =>
      if c_changed c && negb (c_contended c) && mayRestore m c && ((c_retryAt c =? 0) || (c_retryAt c <=? now))%Z then
        let '(out, _, w1) := f c w in
        w' = w1 /\ c_status c' = out_status out /\
        (gst_result (out_status out) = GovernorResultRestored -> c_changed c' = false /\ c_intent c' = "")
      else w' = w
  | None => w' = w
  end.

Lemma release_putBack m restore now c w r :
  let '(c', w', _) := release m restore now c w r in putBackBy m restore now c w c' w'.
Proof.
  assert (forall c0 : governorComponent, let '(c', w', _) := (let c1 := (c0 ▷ set_intent "" ▷ set_preset "" ▷ set_expect [] ▷ set_od ∅ ▷ set_retryAt 0%Z) in
    if c_statusWritten c1 && negb (String.eqb (gst_result (c_status c1)) GovernorResultRestored) then
      let '(ok, r) := updateNodeTwinGovernorStatus (c_name c1) None now r in
      (if ok : bool then (c1 ▷ set_statusWritten false ▷ set_status noStatus) else c1, w, r)
    else (c1, w, r)) in w' = w) as Hidle.
  { intros c0. cbv zeta. destruct (_ && _); [|done]. by destruct (updateNodeTwinGovernorStatus _ _ _ _). }
  unfold release, putBackBy. destruct (c_contended c) eqn:Hcon.
  { rewrite andb_false_r. cbn [negb andb c_changed set_changed set_contended]. specialize (Hidle (c ▷ set_changed false ▷ set_contended false)). cbv zeta in Hidle.
    repeat case_match; simplify_eq; done. }
  cbn [negb]. rewrite andb_true_r. destruct (c_changed c && mayRestore m c).
  2:{ specialize (Hidle c). cbv zeta in Hidle. destruct (if _ : bool then _ else _) as [[c' w'] r'] eqn:Ei in Hidle. rewrite Ei. rewrite Hidle.
      by destruct restore. }
  destruct restore as [f|]; [|done]. cbn [andb].
  assert (negb (c_retryAt c =? 0)%Z && (now <? c_retryAt c)%Z = negb ((c_retryAt c =? 0)%Z || (c_retryAt c <=? now)%Z)) as ->
    by (destruct (Z.eqb_spec (c_retryAt c) 0), (Z.ltb_spec now (c_retryAt c)), (Z.leb_spec (c_retryAt c) now); cbn; lia || done).
  destruct (_ || _); cbn [negb andb]; [|done]. destruct (f c w) as [[out c1] w1].
  match goal with |- context [publish ?x now r] => set (c2 := x); destruct (publish_same c2 now r) as [b Hp]; destruct (publish c2 now r) as [c3 r3] end.
  cbn [fst] in Hp. split; [done|].
  assert (c_status c3 = c_status c2 /\ c_changed c3 = c_changed c2 /\ c_intent c3 = c_intent c2) as (-> & -> & ->) by (by destruct Hp as [-> | ->]).
  subst c2. split; [by repeat match goal with |- context [if ?x then _ else _] => destruct x end|]. intros ->. by rewrite String.eqb_refl.
Qed.

(** C24. When an intent disappears from a node the agent changed, the baseline goes
    back at the first reconcile that may write and is not waiting for a
    retry; once restored, nothing is left to restore, and no later release
    touches the node. A contended node, which another writer owns, is never
    restored, nor one the agent does not run on, only simulates, or was
    refused by. *)
Theorem release_restores_once m restore now c w r :
  (forall out c1 w1, c_changed c = true -> c_contended c = false -> mayRestore m c = true -> (c_retryAt c <= now)%Z ->
     restore c w = (out, c1, w1) -> gst_result (out_status out) = GovernorResultRestored ->
     let '(c', w', _) := release m (Some restore) now c w r in
     w' = w1 /\ c_changed c' = false /\ c_intent c' = "" /\ c_expect c' = [] /\
     gst_result (c_status c') = GovernorResultRestored /\
     forall m' restore' now' r', (release m' restore' now' c' w' r').1.2 = w') /\
  (c_contended c = true \/ mayRestore m c = false -> forall restore', (release m restore' now c w r).1.2 = w).
Proof.
  split.
  - intros out c1 w1 Hch Hcon Hmay Hr Hres Hout. unfold release. rewrite Hcon, Hch, Hmay. cbn [andb].
    assert (negb (c_retryAt c =? 0)%Z && (now <? c_retryAt c)%Z = false) as -> by lia.
    rewrite Hres, Hout, String.eqb_refl.
    match goal with |- context [publish ?c0 now r] => pose proof (publish_same c0 now r) as [b Hp];
      destruct (publish c0 now r) as [c2 r2]; set (c3 := c0) in * end.
    cbn [fst] in Hp.
    assert (c_changed c2 = false /\ c_intent c2 = "" /\ c_expect c2 = [] /\ c_status c2 = out_status out) as (E1 & E2 & E3 & E4)
      by (destruct Hp as [-> | ->]; done).
    rewrite E1, E2, E3, E4, Hout. split_and!; try done. intros. by apply release_idle.
  - intros Hno restore'. unfold release.
    assert (c_changed (if c_contended c then c ▷ set_changed false
        ▷ set_contended false else c) && mayRestore m c = false) as ->.
    { destruct Hno as [-> | ->]; [done|by rewrite andb_false_r]. }
    destruct (_ && _); [|done]. by destruct (updateNodeTwinGovernorStatus _ _ _ _).
Qed.

(** ** What mechanisms keep *)

(** The records of the mechanisms, which the loop leaves alone but for a
    restore. *)
Definition sameMechanism (c c' : governorComponent) : Prop :=
  c_boostWritten c' = c_boostWritten c /\ c_globalBoostSeen c' = c_globalBoostSeen c /\ c_nv c' = c_nv c /\
  c_nvSeed c' = c_nvSeed c /\ c_odDevices c' = c_odDevices c.

Lemma publish_mechanism c now r : sameMechanism c (publish c now r).1.
Proof. by destruct (publish_same c now r) as [x [-> | ->]]. Qed.

(** A property of the mechanism's records and the world that its parts keep
    holds after every step of the loop. *)
Section Kept.
Context (P : governorComponent -> W -> Prop) (ops : governorOps).
Context (Pext : forall c c' w, P c w -> sameMechanism c c' -> P c' w).
Context (Papply : forall c w, P c w -> let '(_, c', w') := op_apply ops c w in P c' w').
Context (Pcheck : forall c w, P c w -> let '(_, _, _, c', w') := op_check ops c w in P c' w').
Context (Preissue : forall f now c w, op_reissue ops = Some f -> P c w -> P c (f now c w).2).

Lemma applyNow_kept now c w : P c w -> let '(c', w') := applyNow ops now c w in P c' w'.
Proof.
  intros HP. unfold applyNow. pose proof (Papply c w HP) as Ha. destruct (op_apply ops c w) as [[out c1] w1].
  apply (Pext c1); [done|]. by repeat match goal with |- context [if ?x then _ else _] => destruct x end.
Qed.

Lemma checkNow_kept now c w : P c w -> let '(c', w') := checkNow ops now c w in P c' w'.
Proof.
  intros HP. unfold checkNow. pose proof (Pcheck c w HP) as Hc. destruct (op_check ops c w) as [[[[ok reset] msg] c1] w1].
  assert (forall c2, sameMechanism c1 c2 ->
    let '(c', w') := if (governorReapplyEvery <=? tsub now (c_lastApply c2))%Z then applyNow ops now c2 w1 else (c2, w1) in
    P c' w') as Hre.
  { intros c2 Hs. destruct (_ <=? _)%Z; [apply applyNow_kept|]; by apply (Pext c1). }
  destruct ok; [apply (Pext c1); [done|by destruct (String.eqb _ _)]|].
  destruct (c_verified c1); cbn [negb]; [|by apply (Pext c1)]. destruct reset; [by apply applyNow_kept|].
  destruct (c_drifted c1); cbn [negb]; [by apply Hre|]. destruct (_ <=? _)%nat; [by apply (Pext c1)|by apply Hre].
Qed.

Lemma act_kept key preset now c w : P c w -> let '(c', w') := act key preset ops now c w in P c' w'.
Proof.
  intros HP. unfold act. destruct (c_refused c); [done|].
  destruct (negb (String.eqb key _)); [apply applyNow_kept; by apply (Pext c)|].
  destruct (c_contended c); [done|]. destruct (negb (_ =? 0)%Z); [destruct (negb _); [by apply applyNow_kept|done]|].
  destruct (String.eqb _ _); [destruct (_ <=? _)%Z; [by apply applyNow_kept|done]|].
  pose proof (fun f => Preissue f now c w) as Hr0.
  destruct (op_reissue ops) as [f|]; [|by apply checkNow_kept]. pose proof (Hr0 f eq_refl HP) as Hr. clear Hr0.
  destruct (f now c w) as [due w1]. cbn [snd] in Hr. destruct due; [|by apply checkNow_kept].
  pose proof (applyNow_kept now c w1 Hr) as Ha. destruct (applyNow ops now c w1) as [c2 w2]. by apply checkNow_kept.
Qed.

Lemma step_kept key preset now c w r : P c w -> let '(c', w', _) := step key preset ops now c w r in P c' w'.
Proof.
  intros HP. unfold step. pose proof (act_kept key preset now c w HP) as Ha. destruct (act key preset ops now c w) as [c1 w1].
  pose proof (publish_mechanism c1 now r) as Hp. destruct (publish c1 now r) as [c2 r2]. by apply (Pext c1).
Qed.
End Kept.

(** ** What the reports lose *)

(** A payload is remembered as written before the API server takes it. When
    the patch that removes a component's entry fails, the next release within
    the rewrite interval skips it as written already, and the component
    forgets it had an entry: the entry of an intent that is gone stays on
    the NodeTwin, and no later release removes it. *)
Theorem release_removal_lost m now now' c (w : W) r st :
  c_changed c = false -> c_contended c = false -> c_statusWritten c = true ->
  gst_result (c_status c) <> GovernorResultRestored ->
  r_entries r !! c_name c = Some st ->
  (forall p t, r_lastWrites r !! ("controlStatus|" +:+ c_name c) = Some (p, t) -> p <> "removed") ->
  answer (r_patches r) = PatchFailed -> (now <= now' < now + StatusRewriteInterval)%Z ->
  let '(c1, _, r1) := release m None now c w r in
  let '(c2, _, r2) := release m None now' c1 w r1 in
  r_entries r2 !! c_name c = Some st /\ c_statusWritten c2 = false /\
  forall m' now'' r', release m' None now'' c2 w r' = (c2, w, r').
Proof.
  intros Hch Hcon Hsw Hres Hst Hlw Hans Hnow. apply String.eqb_neq in Hres.
  set (key := "controlStatus|" +:+ c_name c) in *.
  assert (shouldWrite key "removed" now r =
    (true, mkReports (r_entries r) (<[key := ("removed", now)]> (r_lastWrites r)) (r_patches r))) as Hs1.
  { unfold shouldWrite. destruct (r_lastWrites r !! key) as [[p t]|]; [|done].
    destruct (String.eqb_spec p "removed") as [->|]; [|done]. by destruct (Hlw "removed" t eq_refl). }
  assert (forall rr, r_lastWrites rr = <[key := ("removed", now)]> (r_lastWrites r) -> shouldWrite key "removed" now' rr = (false, rr)) as Hs2.
  { intros rr E. unfold shouldWrite. rewrite E, lookup_insert_eq.
    assert ((tsub now' now <? StatusRewriteInterval)%Z = true) as ->; [|done].
    unfold tsub, sat64, int64_min, int64_max. change StatusRewriteInterval with (300 * 10 ^ 9)%Z in *. lia. }
  assert (release m None now c w r =
    (c ▷ set_intent "" ▷ set_preset "" ▷ set_expect [] ▷ set_od ∅ ▷ set_retryAt 0%Z, w,
     mkReports (r_entries r) (<[key := ("removed", now)]> (r_lastWrites r)) (S (r_patches r)))) as ->.
  { unfold release. rewrite Hcon, Hch. cbn. rewrite Hsw, Hres. cbn.
    unfold patchNodeTwinControlStatus. fold key. rewrite Hs1. cbn. by rewrite Hans. }
  set (r1 := mkReports _ _ _). set (c1 := c ▷ set_intent "" ▷ _ ▷ _ ▷ _ ▷ _).
  assert (release m None now' c1 w r1 =
    (c1 ▷ set_intent "" ▷ set_preset "" ▷ set_expect [] ▷ set_od ∅ ▷ set_retryAt 0%Z ▷ set_statusWritten false
        ▷ set_status noStatus, w, r1)) as ->.
  { unfold release. change (c_contended c1) with (c_contended c). rewrite Hcon.
    change (c_changed c1) with (c_changed c). rewrite Hch.
    cbn. rewrite Hsw, Hres. cbn. unfold patchNodeTwinControlStatus. fold key. by rewrite (Hs2 r1 eq_refl). }
  split; [done|]. split; [done|]. intros m' now'' r'. set (c2 := set_status noStatus _). unfold release.
  change (c_contended c2) with (c_contended c). rewrite Hcon.
  change (c_changed c2) with (c_changed c). rewrite Hch. change (c_statusWritten _) with false. cbn [andb].
  assert (c2 ▷ set_intent "" ▷ set_preset "" ▷ set_expect [] ▷ set_od ∅ ▷ set_retryAt 0%Z = c2) as ->; [|reflexivity].
  subst c2 c1. destruct c. vm_compute. reflexivity.
Qed.
End Reports.

(** ** How often the agent writes *)

(** What an apply leaves: its time, and a retry no sooner than
    [governorRetryAfter]. *)
Definition settled (now : Z) (c : governorComponent) : Prop :=
  c_lastApply c = now /\ (c_retryAt c = 0%Z \/ (now + governorRetryAfter <= c_retryAt c)%Z).

(** What a step that does not apply leaves. *)
Definition waiting (c c' : governorComponent) (now : Z) : Prop :=
  c_intent c' = c_intent c /\ c_lastApply c' = c_lastApply c /\
  (c_retryAt c' = c_retryAt c \/ c_retryAt c' = (now + governorRetryAfter)%Z).

Section Spaced.
Context {W : Type}.
Implicit Types (ops : governorOps (W := W)).

(** A mechanism leaves the fields of the loop alone, and one that issues a
    setting again on its own never reports a device back at its default. *)
Class Mechanism ops : Prop := {
  apply_same c w : let '(_, c', _) := op_apply ops c w in sameControl c c';
  check_same c w : let '(_, _, _, c', _) := op_check ops c w in sameControl c c';
  reissue_alone f c w : op_reissue ops = Some f -> let '(_, reset, _, _, _) := op_check ops c w in reset = false
}.

(** The mechanism with its attempts counted beside the world. *)
Definition logged ops : governorOps (W := W * nat) := {|
  op_apply c w := let '(out, c, w') := op_apply ops c w.1 in (out, c, (w', S w.2));
  op_check c w := let '(ok, reset, msg, c, w') := op_check ops c w.1 in (ok, reset, msg, c, (w', w.2));
  op_reissue := (fun f now c w => let '(due, w') := f now c w.1 in (due, (w', w.2))) <$> op_reissue ops
|}.

(** What lets an attempt come before five minutes have passed: the driver
    lost the setting, by its own account. *)
Definition forced ops (now : Z) (c : governorComponent) (w : W) : bool :=
  match op_reissue ops with
  | Some f => (f now c w).1 && (tsub now (c_lastApply c) <? governorReapplyEvery)%Z
  | None => let '(_, reset, _, _, _) := op_check ops c w in reset
  end.

(** Counting does not change what is done. *)
Lemma applyNow_logged ops now c w n :
  let '(c', w') := applyNow (logged ops) now c (w, n) in applyNow ops now c w = (c', w'.1).
Proof. unfold applyNow. cbn. by destruct (op_apply ops c w) as [[out c1] w1]. Qed.

Lemma checkNow_logged ops now c w n :
  let '(c', w') := checkNow (logged ops) now c (w, n) in checkNow ops now c w = (c', w'.1).
Proof.
  unfold checkNow. cbn [logged op_check fst snd]. destruct (op_check ops c w) as [[[[ok reset] msg] c1] w1].
  assert (forall c2, let '(c', w') := applyNow (logged ops) now c2 (w1, n) in applyNow ops now c2 w1 = (c', w'.1)) as Ha
    by (intros c2; apply applyNow_logged).
  repeat match goal with
  | |- let '(_, _) := (if ?b then _ else _) in _ => destruct b
  | |- let '(_, _) := applyNow _ _ ?c2 _ in _ => exact (Ha c2)
  end; done.
Qed.

Lemma act_logged key preset ops now c w n :
  let '(c', w') := act key preset (logged ops) now c (w, n) in act key preset ops now c w = (c', w'.1).
Proof.
  assert (forall c2, let '(c', w') := applyNow (logged ops) now c2 (w, n) in applyNow ops now c2 w = (c', w'.1)) as Ha
    by (intros c2; apply applyNow_logged).
  unfold act. destruct (c_refused c); [done|]. destruct (negb (String.eqb key _)); [apply Ha|].
  destruct (c_contended c); [done|]. destruct (negb (_ =? 0)%Z); [destruct (negb _); [apply Ha|done]|].
  destruct (String.eqb _ _); [destruct (_ <=? _)%Z; [apply Ha|done]|]. cbn [logged op_reissue].
  destruct (op_reissue ops) as [f|]; cbn [fmap option_fmap option_map fst snd]; [|apply checkNow_logged].
  destruct (f now c w) as [due w1]. destruct due; [|apply checkNow_logged].
  pose proof (applyNow_logged ops now c w1 n) as H1. destruct (applyNow (logged ops) now c (w1, n)) as [c2 [w2 n2]]. rewrite H1.
  apply checkNow_logged.
Qed.

Lemma step_logged answer key preset ops now c w n r :
  let '(c', w', r') := step answer key preset (logged ops) now c (w, n) r in step answer key preset ops now c w r = (c', w'.1, r').
Proof.
  unfold step. pose proof (act_logged key preset ops now c w n) as H. destruct (act key preset (logged ops) now c (w, n)) as [c1 w1].
  rewrite H. by destruct (publish answer c1 now r).
Qed.

Lemma applyNow_settled ops `{!Mechanism ops} now c w n :
  let '(c', w') := applyNow (logged ops) now c (w, n) in
  w'.2 = S n /\ c_intent c' = c_intent c /\ settled now c'.
Proof.
  unfold applyNow. cbn [logged op_apply fst snd]. pose proof (apply_same (ops := ops) c w) as Ha.
  destruct (op_apply ops c w) as [[out c1] w1]. destruct Ha as (Hi & _).
  unfold settled. destruct (0 <? out_wrote out)%nat; cbn;
    (destruct (String.eqb _ GovernorResultRefused); cbn; [|destruct (_ || _); cbn]); split_and!; try done;
    first [by left|by right].
Qed.

(** One attempt at most, and why. *)
Definition attempted (why : Prop) (key : string) (now : Z) (c c' : governorComponent) (n n' : nat) : Prop :=
  (n' = n /\ waiting c c' now) \/ (n' = S n /\ c_intent c' = key /\ settled now c' /\ why).

Lemma checkNow_spaced ops `{!Mechanism ops} now c w n :
  let '(c', w') := checkNow (logged ops) now c (w, n) in
  attempted ((governorReapplyEvery <= now - c_lastApply c)%Z \/ (let '(_, reset, _, _, _) := op_check ops c w in reset) = true)
    (c_intent c) now c c' n w'.2.
Proof.
  unfold checkNow, attempted. cbn [logged op_check fst snd]. pose proof (check_same (ops := ops) c w) as Hck.
  destruct (op_check ops c w) as [[[[ok reset] msg] c1] w1]. destruct Hck as (Hi & Hv & Hd & Hds & Hcon & Href & Hr & Hl & _).
  set (why := (_ <= _)%Z \/ _).
  assert (forall c2, c_intent c2 = c_intent c -> why ->
    let '(c', w') := applyNow (logged ops) now c2 (w1, n) in attempted why (c_intent c) now c c' n w'.2) as Happ.
  { intros c2 Ei Hwhy. pose proof (applyNow_settled ops now c2 w1 n) as Ha. destruct (applyNow (logged ops) now c2 (w1, n)) as [c3 w3].
    destruct Ha as (Hc3 & Hi3 & Hs). right. rewrite Hi3, Ei. done. }
  assert (forall c2, c_intent c2 = c_intent c -> c_lastApply c2 = c_lastApply c -> c_retryAt c2 = c_retryAt c ->
    let '(c', w') := if (governorReapplyEvery <=? tsub now (c_lastApply c2))%Z then applyNow (logged ops) now c2 (w1, n) else (c2, (w1, n)) in
    attempted why (c_intent c) now c c' n w'.2) as Hre.
  { intros c2 Ei El Er. destruct (governorReapplyEvery <=? tsub now (c_lastApply c2))%Z eqn:E.
    - apply Happ; [done|]. left. apply tsub_ge in E; [|by vm_compute]. by rewrite El in E.
    - left. unfold waiting. split_and!; try done. by left. }
  destruct ok.
  { left. unfold waiting. destruct (String.eqb _ _); cbn; split_and!; try done; by left. }
  destruct (c_verified c1); cbn [negb].
  2:{ left. unfold waiting. cbn. split_and!; try done; by right. }
  destruct reset; [apply Happ; [done|by right]|].
  destruct (c_drifted c1); cbn [negb]; [by apply Hre|].
  destruct (governorDriftLimit <=? _)%nat; [|by apply Hre].
  left. unfold waiting. cbn. split_and!; try done; by left.
Qed.

Lemma act_spaced key preset ops `{!Mechanism ops} now c w n :
  let '(c', w') := act key preset (logged ops) now c (w, n) in
  attempted (c_intent c = key ->
    (governorReapplyEvery <= now - c_lastApply c)%Z \/ (c_retryAt c <> 0 /\ c_retryAt c <= now)%Z \/ forced ops now c w = true)
    key now c c' n w'.2.
Proof.
  set (why := _ -> _).
  assert (forall c2 w2, c_intent c2 = key -> why ->
    let '(c', w') := applyNow (logged ops) now c2 (w2, n) in attempted why key now c c' n w'.2) as Happ.
  { intros c2 w2 Ei Hwhy. pose proof (applyNow_settled ops now c2 w2 n) as Ha. destruct (applyNow (logged ops) now c2 (w2, n)) as [c3 w3].
    destruct Ha as (Hc3 & Hi3 & Hs). right. rewrite Hi3. done. }
  assert (attempted why key now c c n n) as Hsame by (left; unfold waiting; auto).
  unfold act. destruct (c_refused c); [done|].
  destruct (String.eqb_spec key (c_intent c)) as [Ek|Hne]; cbn [negb].
  2:{ apply Happ; [done|]. intros E. by destruct Hne. }
  destruct (c_contended c); [done|].
  destruct (Z.eqb_spec (c_retryAt c) 0) as [Hr|Hr]; cbn [negb].
  2:{ destruct (Z.ltb_spec now (c_retryAt c)); cbn [negb]; [done|]. apply Happ; [done|]. intros _. right. left. lia. }
  destruct (String.eqb (gst_result (c_status c)) GovernorResultError).
  { destruct (governorReapplyEvery <=? _)%Z eqn:E; [|done]. apply Happ; [done|]. intros _. left.
    apply tsub_ge in E; [done|by vm_compute]. }
  cbn [logged op_reissue]. destruct (op_reissue ops) as [f|] eqn:Ef; cbn [fmap option_fmap option_map fst snd].
  2:{ pose proof (checkNow_spaced ops now c w n) as Hk. destruct (checkNow (logged ops) now c (w, n)) as [c3 w3].
      destruct Hk as [Hk|(H1 & H2 & H3 & H4)]; [by left|right]. split; [done|]. split; [congruence|]. split; [done|]. intros _.
      unfold forced. rewrite Ef. destruct H4; auto. }
  destruct (f now c w) as [due w2] eqn:Efw. destruct due.
  - pose proof (applyNow_settled ops now c w2 n) as Ha. destruct (applyNow (logged ops) now c (w2, n)) as [c3 [w3 n3]].
    destruct Ha as (Hc3 & Hi3 & [Hl3 Hr3]). cbn in Hc3. subst n3. pose proof (checkNow_spaced ops now c3 w3 (S n)) as Hk.
    pose proof (reissue_alone (ops := ops) f c3 w3 Ef) as Hno.
    destruct (checkNow (logged ops) now c3 (w3, S n)) as [c4 w4]. destruct Hk as [[Hc4 (Hi4 & Hl4 & Hr4)]|(_ & _ & _ & Hbad)].
    + right. split; [done|]. split; [congruence|]. split.
      * split; [congruence|]. destruct Hr4 as [->| ->]; [done|right; lia].
      * intros _. destruct (governorReapplyEvery <=? tsub now (c_lastApply c))%Z eqn:E; [left; apply tsub_ge in E; [done|by vm_compute]|].
        right. right. unfold forced. rewrite Ef, Efw. cbn [fst andb]. apply Z.ltb_lt. apply Z.leb_gt in E. lia.
    + exfalso. destruct Hbad as [Hbad|Hbad].
      * rewrite Hl3, Z.sub_diag in Hbad. vm_compute in Hbad. by apply Hbad.
      * destruct (op_check ops c3 w3) as [[[[ok reset] msg] c5] w5]. congruence.
  - pose proof (checkNow_spaced ops now c w2 n) as Hk. pose proof (reissue_alone (ops := ops) f c w2 Ef) as Hno.
    destruct (checkNow (logged ops) now c (w2, n)) as [c3 w3].
    destruct Hk as [Hk|(H1 & H2 & H3 & [H4|H4])]; [by left|right|].
    + split; [done|]. split; [congruence|]. split; [done|]. intros _. by left.
    + destruct (op_check ops c w2) as [[[[ok reset] msg] c5] w5]. congruence.
Qed.

(** ** What ends a change *)

(** A step on an intent never forgets that the agent changed the node. *)
Lemma applyNow_changed ops `{!Mechanism ops} now c w : c_changed c = true -> c_changed (applyNow ops now c w).1 = true.
Proof.
  intros Hc. unfold applyNow. pose proof (apply_same c w) as Ha. destruct (op_apply ops c w) as [[out c1] w1].
  destruct Ha as (_ & _ & _ & _ & _ & _ & _ & _ & Ha). rewrite Hc in Ha.
  by repeat match goal with |- context [if ?x then _ else _] => destruct x end.
Qed.

Lemma checkNow_changed ops `{!Mechanism ops} now c w : c_changed c = true -> c_changed (checkNow ops now c w).1 = true.
Proof.
  intros Hc. unfold checkNow. pose proof (check_same c w) as Ha. destruct (op_check ops c w) as [[[[ok reset] msg] c1] w1].
  destruct Ha as (_ & _ & _ & _ & _ & _ & _ & _ & Ha). rewrite Hc in Ha.
  repeat match goal with |- context [if ?x then _ else _] => destruct x end; try done; by apply applyNow_changed.
Qed.

Lemma step_changed answer key preset ops `{!Mechanism ops} now c w r :
  c_changed c = true -> c_changed (step answer key preset ops now c w r).1.1 = true.
Proof.
  intros Hc. unfold step. assert (c_changed (act key preset ops now c w).1 = true) as Ha.
  { unfold act. repeat match goal with |- context [if ?x then _ else _] => destruct x end; try done; try by apply applyNow_changed.
    destruct (op_reissue ops) as [f|]; [|by apply checkNow_changed]. destruct (f now c w) as [due w1]. destruct due; [|by apply checkNow_changed].
    pose proof (applyNow_changed ops now c w1 Hc) as H1. destruct (applyNow ops now c w1) as [c2 w2]. by apply checkNow_changed. }
  destruct (act key preset ops now c w) as [c1 w1]. destruct (publish_same answer c1 now r) as [b Hp].
  destruct (publish answer c1 now r) as [c2 r2]. cbn [fst] in *. by destruct Hp as [-> | ->].
Qed.

(** Only a restore that succeeded ends it, or the release of a contended
    setting, which is the other writer's by then. *)
Definition changeEnds (c c' : governorComponent) : Prop :=
  c_changed c = true -> c_changed c' = true \/ gst_result (c_status c') = GovernorResultRestored \/ c_contended c = true.

Lemma release_changed answer m (restore : option (governorComponent -> W -> governorOutcome * governorComponent * W)) now c w r :
  (forall f, restore = Some f -> let '(_, c', _) := f c w in c_changed c' = c_changed c) ->
  changeEnds c (release answer m restore now c w r).1.1.
Proof.
  intros Hf Hc. destruct (c_contended c) eqn:Hcon; [by right; right|]. unfold release. rewrite Hcon, Hc. cbn [andb].
  destruct (mayRestore m c).
  - destruct restore as [f|]; [|by left]. destruct (_ && _); [by left|]. specialize (Hf f eq_refl). destruct (f c w) as [[out c1] w1].
    match goal with |- context [publish answer ?x now r] => set (c2 := x); destruct (publish_same answer c2 now r) as [b Hp];
      destruct (publish answer c2 now r) as [c3 r3] end. cbn [fst] in *.
    assert (c_changed c3 = c_changed c2 /\ c_status c3 = c_status c2) as [-> ->] by (by destruct Hp as [-> | ->]). subst c2.
    destruct (String.eqb_spec (gst_result (out_status out)) GovernorResultRestored) as [E|]; [by right; left|].
    left. destruct (String.eqb _ _); cbn; congruence.
  - destruct (_ && _); [|by left]. destruct (updateNodeTwinGovernorStatus _ _ _ _ _) as [ok r']. left. by destruct ok.
Qed.

(** ** What happens to a component over time *)

(** What happens to a component: an attempt on an intent, forced by the
    driver or not, or the intent dropped, when it is released or held. *)
Inductive Event := Attempt (t : Z) (key : string) (byDriver : bool) | Dropped.

(** Reconciles of one component at non-decreasing times, each with an intent
    of its own, held or released: the state, the world, the clock and the
    events, latest first. Between reconciles the world may change at will,
    and so may the records the loop does not keep. *)
Record Run := { run_c : governorComponent; run_w : W; run_now : Z; run_events : list Event }.

Definition dropIf (c : governorComponent) (l : list Event) : list Event := if String.eqb (c_intent c) "" then Dropped :: l else l.

Inductive runs (answer : nat -> PatchAnswer) : Run -> Prop :=
| runs_start name w : runs answer {| run_c := newComponent name; run_w := w; run_now := 0; run_events := [] |}
| runs_world s c w : runs answer s ->
    c_intent c = c_intent (run_c s) -> c_retryAt c = c_retryAt (run_c s) -> c_lastApply c = c_lastApply (run_c s) ->
    runs answer {| run_c := c; run_w := w; run_now := run_now s; run_events := run_events s |}
| runs_step s key preset ops now r c w n r' :
    runs answer s -> Mechanism ops -> key <> "" -> (run_now s <= now)%Z ->
    step answer key preset (logged ops) now (run_c s) (run_w s, 0%nat) r = (c, (w, n), r') ->
    runs answer {| run_c := c; run_w := w; run_now := now;
                   run_events := (repeat (Attempt now key (forced ops now (run_c s) (run_w s))) n ++ run_events s)%list |}
| runs_hold s preset st now r c r' :
    runs answer s -> (run_now s <= now)%Z -> hold answer preset st now (run_c s) r = (c, r') ->
    runs answer {| run_c := c; run_w := run_w s; run_now := now; run_events := dropIf c (run_events s) |}
| runs_release s m (restore : option (governorComponent -> W -> governorOutcome * governorComponent * W)) now r c w r' :
    runs answer s -> (run_now s <= now)%Z -> release answer m restore now (run_c s) (run_w s) r = (c, w, r') ->
    runs answer {| run_c := c; run_w := w; run_now := now; run_events := dropIf c (run_events s) |}.

Fixpoint spaced (l : list Event) : Prop :=
  match l with
  | Attempt t key byDriver :: ((Attempt t' key' _ :: _) as rest) =>
      (t' <= t)%Z /\ (key = key' -> (t' + governorReapplyEvery <= t)%Z \/ byDriver = true) /\ spaced rest
  | _ :: rest => spaced rest
  | [] => True
  end.

(** What the loop's fields say of the last event. *)
Definition lastEvent (now : Z) (c : governorComponent) (l : list Event) : Prop :=
  match l with
  | Attempt t key _ :: _ =>
      c_intent c = key /\ (t <= now)%Z /\ c_lastApply c = t /\ (c_retryAt c = 0%Z \/ (t + governorRetryAfter <= c_retryAt c)%Z)
  | _ => c_intent c = ""
  end.

Lemma publish_control answer c now r : let c' := (publish answer c now r).1 in
  c_intent c' = c_intent c /\ c_lastApply c' = c_lastApply c /\ c_retryAt c' = c_retryAt c.
Proof. by destruct (publish_same answer c now r) as [b [-> | ->]]. Qed.

(** A release forgets the intent, or leaves the component as it is. *)
Lemma release_control answer m (restore : option (governorComponent -> W -> governorOutcome * governorComponent * W)) now c w r :
  let c' := (release answer m restore now c w r).1.1 in
  c_intent c' = "" \/ (c_intent c' = c_intent c /\ c_lastApply c' = c_lastApply c /\ c_retryAt c' = c_retryAt c).
Proof.
  unfold release. set (c0 := if c_contended c then _ else c).
  assert (c_intent c0 = c_intent c /\ c_lastApply c0 = c_lastApply c /\ c_retryAt c0 = c_retryAt c) as H0 by (unfold c0; by destruct (c_contended c)).
  destruct (c_changed c0 && mayRestore m c).
  - destruct restore as [f|]; [|by right]. destruct (_ && _); [by right|]. left. destruct (f c0 w) as [[out c1] w1].
    match goal with |- context [publish answer ?x now r] => pose proof (publish_control answer x now r) as (Hp & _ & _); destruct (publish answer x now r) as [c2 r2] end.
    cbn [fst snd] in *. rewrite Hp. by repeat match goal with |- context [if ?b then _ else _] => destruct b end.
  - left. destruct (_ && _); [|done]. destruct (updateNodeTwinGovernorStatus _ _ _ _ _) as [ok r']. by destruct ok.
Qed.

Lemma dropIf_spaced c l : spaced l -> spaced (dropIf c l).
Proof. unfold dropIf. by destruct (String.eqb _ _). Qed.

(** C23. The agent does not hammer a node: over any run of the loop, with
    intents held and released in between and the world changing at will, a
    reconcile makes at most one attempt, and two successive attempts on one
    intent that was not dropped in between lie at least five minutes apart,
    unless the driver said at the second one that the setting was lost: an
    AMD device back at its vendor default, or a locked NVIDIA GPU with
    persistence mode off. The CPU mechanism never says so. *)
Theorem attempts_spaced answer (s : Run) : runs answer s -> spaced (run_events s) /\
  forall key preset ops now r, Mechanism ops -> ((step answer key preset (logged ops) now (run_c s) (run_w s, 0%nat) r).1.2.2 <= 1)%nat.
Proof.
  intros Hruns. split.
  2: { intros key preset ops now r HM. unfold step. pose proof (act_spaced key preset ops now (run_c s) (run_w s) 0) as H.
       destruct (act _ _ _ _ _ _) as [c1 [w1 n1]]. destruct (publish answer c1 now r) as [c2 r2]. cbn in *. destruct H as [[-> _]|[-> _]]; lia. }
  enough (spaced (run_events s) /\ lastEvent (run_now s) (run_c s) (run_events s)) as [? _] by done.
  induction Hruns as [name w|s c w _ IH Hi Hr Hl|s key preset ops now r c w n r' _ IH HM Hkey Hnow Hstep|s preset st now r c r' _ IH Hnow Hh
    |s m restore now r c w r' _ IH Hnow Hrel]; [done|..]; cbn [run_c run_w run_now run_events]; destruct IH as [Hsp Hlast].
  - split; [done|]. unfold lastEvent in *. by rewrite Hi, Hr, Hl.
  - unfold step in Hstep. pose proof (act_spaced key preset ops now (run_c s) (run_w s) 0) as Hact.
    destruct (act key preset (logged ops) now (run_c s) (run_w s, 0%nat)) as [c1 [w1 n1]].
    pose proof (publish_control answer c1 now r) as (Hi2 & Hl2 & Hr2). destruct (publish answer c1 now r) as [c2 r2].
    injection Hstep as <- <- <- <-. cbn [fst snd] in *.
    destruct Hact as [[-> (Hi & Hl & Hr)]|(-> & Hi & [Hl Hr] & Hwhy)].
    + split; [done|]. cbn [repeat app]. unfold lastEvent in *. rewrite Hi2, Hi. destruct (run_events s) as [|[t k b|] l]; [done| |done].
      destruct Hlast as (-> & Ht & E & Hrt). rewrite Hl2, Hl, Hr2. split; [done|]. split; [lia|]. split; [done|].
      destruct Hr as [->| ->]; [done|]. right. lia.
    + cbn [repeat app]. split.
      * cbn [spaced]. destruct (run_events s) as [|[t k b|] l]; [done| |exact Hsp]. destruct Hlast as (Hk & Hle & Ht & Hrt).
        split; [lia|]. split; [|done]. intros E. rewrite <- Hk in E. specialize (Hwhy (eq_sym E)). rewrite Ht in Hwhy.
        assert (governorReapplyEvery <= governorRetryAfter)%Z by (by vm_compute).
        destruct Hwhy as [?|[?|?]]; [left; lia|left; lia|by right].
      * unfold lastEvent. rewrite Hi2, Hl2, Hr2. split; [done|]. split; [lia|done].
  - split; [by apply dropIf_spaced|]. unfold hold in Hh.
    match type of Hh with publish answer ?x now r = _ => pose proof (publish_control answer x now r) as (Hi & _ & _) end.
    rewrite Hh in Hi. cbn in Hi. unfold dropIf. by rewrite Hi.
  - split; [by apply dropIf_spaced|]. pose proof (release_control answer m restore now (run_c s) (run_w s) r) as Hc. rewrite Hrel in Hc. cbn [fst] in Hc.
    unfold dropIf. destruct (String.eqb_spec (c_intent c) "") as [E|Hne]; [done|]. destruct Hc as [|(Hi & Hl & Hr)]; [done|].
    unfold lastEvent in *. rewrite Hi, Hl, Hr.
    destruct (run_events s) as [|[t k b|] l]; [done| |done]. destruct Hlast as (? & ? & ?). split; [done|]. split; [lia|done].
Qed.
End Spaced.

(** ** A driver that drops every write *)

Lemma triple_eta {A B C} (x : A * B * C) : x = (x.1.1, x.1.2, x.2).
Proof. by destruct x as [[? ?] ?]. Qed.

Definition anAnswer (n : nat) : PatchAnswer := match n with 0%nat => PatchFailed | _ => Patched end.

Definition droppingOps : governorOps (W := nat) := {|
  op_apply c w := (mkOutcome (mkStatus GovernorBackendCPUFreq GovernorResultNotApplied "" "") 1 true, c, S w);
  op_check c w := (true, false, "", c, w);
  op_reissue := None
|}.

#[export] Instance droppingOps_mechanism : Mechanism droppingOps.
Proof. split; by repeat intro. Qed.

Definition noReports : Reports := mkReports ∅ ∅ 0.

Definition dropStep (now : Z) (s : governorComponent * (nat * nat) * Reports) : governorComponent * (nat * nat) * Reports :=
  step anAnswer "performance|" "performance" (logged droppingOps) now s.1.1 (s.1.2.1, 0%nat) s.2.

Definition drop1 := dropStep 1 (newComponent "cpuGovernor", (0%nat, 0%nat), noReports).
Definition drop2 := dropStep (2 * minute) drop1.
Definition drop3 := dropStep (31 * minute) drop2.

Example attempts_spaced_witness :
  spaced [Attempt (31 * minute) "performance|" false; Attempt 1 "performance|" false] /\
  (1 + governorReapplyEvery <= 31 * minute)%Z.
Proof.
  pose proof (runs_step anAnswer {| run_c := newComponent "cpuGovernor"; run_w := 0%nat; run_now := 0; run_events := [] |}
    "performance|" "performance" droppingOps 1 noReports drop1.1.1 drop1.1.2.1 drop1.1.2.2 drop1.2 (runs_start _ _ _) _
    ltac:(discriminate) ltac:(vm_compute; discriminate) ltac:(vm_compute; reflexivity)) as H1.
  apply (runs_step anAnswer _ "performance|" "performance" droppingOps (2 * minute) drop1.2 drop2.1.1 drop2.1.2.1 drop2.1.2.2 drop2.2) in H1;
    [|apply _|discriminate|vm_compute; discriminate|vm_compute; reflexivity].
  apply (runs_step anAnswer _ "performance|" "performance" droppingOps (31 * minute) drop2.2 drop3.1.1 drop3.1.2.1 drop3.1.2.2 drop3.2) in H1;
    [|apply _|discriminate|vm_compute; discriminate|vm_compute; reflexivity].
  split; [exact (proj1 (attempts_spaced anAnswer _ H1))|vm_compute; discriminate].
Defined.

Example act_progress_witness : act "performance|" "performance" droppingOps (31 * minute) drop2.1.1 1%nat =
  applyNow droppingOps (31 * minute) drop2.1.1 1%nat.
Proof.
  destruct (act_progress (W := nat) "performance|" "performance" droppingOps (31 * minute) drop2.1.1 1%nat) as (_ & H & _).
  apply H.
  - vm_compute. reflexivity.
  - vm_compute. reflexivity.
  - vm_compute. reflexivity.
  - left. vm_compute. discriminate.
  - vm_compute. discriminate.
  - vm_compute. discriminate.
Defined.

Definition changedComponent : governorComponent := newComponent "cpuGovernor" ▷ set_changed true
    ▷ set_intent "performance|".

Definition agentMode : Mode := {| md_simulateOnly := false; md_writes := true; md_remote := false; md_http := false |}.

Definition putBack (c : governorComponent) (w : nat) : governorOutcome * governorComponent * nat :=
  (mkOutcome (mkStatus GovernorBackendCPUFreq GovernorResultRestored "baseline restored" "powersave") 1 true, c, S w).

Example release_restores_once_witness :
  (release anAnswer agentMode (Some putBack) 5 changedComponent 7%nat noReports).1.2 = 8%nat.
Proof.
  destruct (release_restores_once anAnswer agentMode putBack 5 changedComponent 7%nat noReports) as [H _].
  specialize (H _ changedComponent 8%nat eq_refl eq_refl eq_refl ltac:(vm_compute; discriminate) eq_refl eq_refl).
  destruct (release _ _ _ _ _ _ _) as [[c' w'] r']. exact (proj1 H).
Defined.

Definition reportedComponent : governorComponent :=
  newComponent "cpuGovernor" ▷ set_statusWritten true
      ▷ set_status (mkStatus GovernorBackendCPUFreq GovernorResultEquivalent "" "powersave").

Definition reportedReports : Reports :=
  mkReports {[ "cpuGovernor" := c_status reportedComponent ]} ∅ 0.

Example release_removal_lost_witness :
  let '(c1, _, r1) := release anAnswer agentMode None 5 reportedComponent 0%nat reportedReports in
  let '(_, _, r2) := release anAnswer agentMode None (5 + minute) c1 0%nat r1 in
  r_entries r2 !! "cpuGovernor" = Some (c_status reportedComponent).
Proof.
  pose proof (release_removal_lost anAnswer agentMode 5 (5 + minute) reportedComponent 0%nat reportedReports
    (c_status reportedComponent)) as H.
  specialize (H eq_refl eq_refl eq_refl ltac:(vm_compute; discriminate) eq_refl ltac:(intros p t E; vm_compute in E; discriminate)
    eq_refl ltac:(vm_compute; split; [discriminate|reflexivity])).
  destruct (release _ _ _ _ _ _ reportedReports) as [[c1 w1] r1].
  destruct (release _ _ _ _ c1 _ r1) as [[c2 w2] r2]. exact (proj1 H).
Defined.
