(* ===== verification/CpuControl.v ===== *)
(** * CPU governor control: the CPU part of cmd/agent/governor_control.go

    What applying a preset and putting the baseline back do to the cpufreq
    attributes of a node, over any [SysfsHost], and the reconcile of the CPU
    governor that runs them through the control loop. The planner's error
    texts are spelled out where a status carries them; "unsupported" texts
    too. *)

From S2P Require Import Prelude GoString GoFloat GoSlices Api Governor CpuGovernor Native Host Env CpuDiscovery GovernorLoop.

#[local] Open Scope string_scope.

(** ** The agent's switches *)

(** src/cmd/agent/governor_control.go:107-113 [governorConfig] *)
Record governorConfig := { gc_writes : bool; gc_restoreOnExit : bool }.

(** [boolEnv] of the agent is the controller manager's, word for word.
    src/cmd/agent/governor_control.go:115-120 [governorConfigFromEnv] *)
Definition governorConfigFromEnv (env : Environ) : governorConfig :=
  {| gc_writes := boolEnv env "GOVERNOR_WRITES" false;
     gc_restoreOnExit := boolEnv env "GOVERNOR_RESTORE_ON_EXIT" true |}.

(** ** Baselines as groups and writes *)

(** src/cmd/agent/governor_control.go:830-847 [cpuBaselineGroups] *)
Definition cpuBaselineGroups (f : CPUFacts) (b : option CPUGovernorBaseline) : list CPUGroup :=
  match b with
  | None => []
  | Some b =>
      omap (fun grp =>
        let members := filter (fun id => cpuListHas (cs_Policies grp) id = true) (cf_Policies f) in
        match members with
        | [] => None
        | _ => Some {| gr_Policies := members; gr_Governor := cs_Governor grp; gr_EPP := cs_EPP grp; gr_Boost := cs_Boost grp |}
        end) (cb_Groups b)
  end.

(** src/cmd/agent/governor_control.go:897-903 [cpuBaselineNative] *)
Definition cpuBaselineNative (b : CPUGovernorBaseline) : string :=
  uniformOrMixed (Compact String.eqb ((fun g => NativeCPU (cs_Governor g) (cs_EPP g)) <$> cb_Groups b)).

Section Control.
Context {H : Type} `{!SysfsHost H}.

(** The writes before those a file already reads are left out.
    src/cmd/agent/governor_control.go:853-859 [cpuBaselineBoostWrites] *)
Definition baselineBoostWrites (f : CPUFacts) (b : option CPUGovernorBaseline) (globalSeen : string) : list Write :=
  ((PlanCPUGroups f (cpuBaselineGroups f b)).2 ++
   (if negb (String.eqb globalSeen "") && String.eqb (cf_BoostScope f) CPUBoostScopePerCPU
    then [mkWrite GlobalBoostRelPath globalSeen] else []))%list.

(** src/cmd/agent/governor_control.go:853-860 [cpuBaselineBoostWrites] *)
Definition cpuBaselineBoostWrites (f : CPUFacts) (b : option CPUGovernorBaseline) (globalSeen : string) (h : H) : list Write :=
  differing (baselineBoostWrites f b globalSeen) h.

(** The text of the planner's error.
    src/pkg/governor/cpu.go:175-180 [PlanCPU] *)
Definition planCPUError (preset boost : string) : string :=
  if negb (str_mem preset CPUGovernorPresetValues) then "governor: unknown CPU preset " +:+ Quote preset
  else "governor: unknown CPU boost " +:+ Quote boost.

(** The writes of a plan with what boost asks around them, and the record of
    the global boost file.
    src/cmd/agent/governor_control.go:762-778 [writes] *)
Definition cpuWrites (f : CPUFacts) (b : option CPUGovernorBaseline) (boost : string) (planned : list Write)
    (c : governorComponent) (h : H) : list Write * governorComponent :=
  if String.eqb boost CPUGovernorBoostOn && String.eqb (cf_BoostScope f) CPUBoostScopePerCPU then
    if String.eqb (attr_read h GlobalBoostRelPath) "0" then
      (mkWrite GlobalBoostRelPath "1" :: planned,
       if String.eqb (c_globalBoostSeen c) "" then (c ▷ set_globalBoostSeen "0") else c)
    else (planned, c)
  else if String.eqb boost "" && c_boostWritten c then
    ((planned ++ cpuBaselineBoostWrites f b (c_globalBoostSeen c) h)%list, c)
  else (planned, c).

(** src/cmd/agent/governor_control.go:750-791 [applyCPU] *)
Definition applyCPU (f : CPUFacts) (b : option CPUGovernorBaseline) (intent : CPUGovernorIntent)
    (c : governorComponent) (h : H) : governorOutcome * governorComponent * H :=
  let backend := GovernorBackendCPUFreq in
  let preset := cgi_Preset intent in
  let boost := cgi_Boost intent in
  match PlanCPU f preset boost with
  | None => (mkOutcome (mkStatus backend GovernorResultError (planCPUError preset boost) "") 0 false, c, h)
  | Some plan =>
      if String.eqb (p_Result plan) GovernorResultUnsupported then
        (mkOutcome (mkStatus backend GovernorResultUnsupported
           ("preset " +:+ Quote preset +:+ " (boost " +:+ Quote boost +:+ ") is not supported by the " +:+ cf_Driver f +:+
            " driver of this node") "") 0 false, c, h)
      else
        let '(writes, c) := cpuWrites f b boost (p_Writes plan) c h in
        let '(wrote, taken, (result, msg), h) := writeVerified writes h in
        let c := if (0 <? wrote)%nat && negb (String.eqb boost "") then (c ▷ set_boostWritten true) else c in
        if negb (String.eqb result "") then
          (mkOutcome (mkStatus backend result msg (InForce plan taken)) wrote true, c, h)
        else
          let c := if String.eqb boost "" && c_boostWritten c
                   then (c ▷ set_boostWritten false ▷ set_globalBoostSeen "") else c in
          (mkOutcome (mkStatus backend (p_Result plan) "" (p_Native plan)) wrote true, (c ▷ set_expect writes), h)
  end.

(** The phases of a restore, each computed when it is run; the writes that
    succeeded, and the failure that stopped them.
    src/cmd/agent/governor_control.go:884-890 [phases] *)
Fixpoint runPhases (phases : list (H -> list Write)) (h : H) : nat * (string * string) * H :=
  match phases with
  | [] => (0%nat, ("", ""), h)
  | phase :: rest =>
      let '(wrote, _, (result, msg), h) := writeVerified (phase h) h in
      if negb (String.eqb result "") then (wrote, (result, msg), h)
      else let '(total, failure, h) := runPhases rest h in ((wrote + total)%nat, failure, h)
  end.

(** src/cmd/agent/governor_control.go:865-893 [restoreCPU] *)
Definition restoreCPU (f : CPUFacts) (b : option CPUGovernorBaseline) (c : governorComponent) (h : H)
    : governorOutcome * governorComponent * H :=
  let backend := GovernorBackendCPUFreq in
  match b with
  | None => (mkOutcome (mkStatus backend GovernorResultError "no baseline to restore" "") 0 false, c, h)
  | Some base =>
      let '(governors, epps, _) := PlanCPUGroups f (cpuBaselineGroups f b) in
      let boost h :=
        if negb (c_boostWritten c) && String.eqb (c_globalBoostSeen c) "" then []
        else cpuBaselineBoostWrites f b (c_globalBoostSeen c) h in
      let '(total, (result, msg), h) := runPhases [differing governors; differing epps; boost] h in
      if negb (String.eqb result "") then
        (mkOutcome (mkStatus backend result ("restore: " +:+ msg) "") total true, c, h)
      else
        (mkOutcome (mkStatus backend GovernorResultRestored "baseline restored" (cpuBaselineNative base)) total
           (0 <? total)%nat, c, h)
  end.

(** ** The reconcile *)

(** src/cmd/agent/governor_control.go:741-747 [governorOps] *)
Definition cpuOps (f : CPUFacts) (b : option CPUGovernorBaseline) (intent : CPUGovernorIntent) : governorOps := {|
  op_apply := applyCPU f b intent;
  op_check c h := let '(ok, msg) := checkWrites (c_expect c) h in (ok, false, msg, c, h);
  op_reissue := None
|}.

(** The CPU mechanism is one of the loop's, and no driver forces it. *)
Lemma applyCPU_control f b intent c h : let '(_, c', _) := applyCPU f b intent c h in sameControl c c'.
Proof.
  unfold applyCPU. destruct (PlanCPU f _ _) as [plan|]; [|done]. destruct (String.eqb (p_Result plan) _); [done|].
  assert (forall ws c1, cpuWrites f b (cgi_Boost intent) (p_Writes plan) c h = (ws, c1) -> sameControl c c1) as Hw.
  { unfold cpuWrites. intros ws c1. repeat case_match; intros [= <- <-]; by unfold sameControl. }
  destruct (cpuWrites f b _ _ c h) as [ws c1] eqn:E. pose proof (Hw ws c1 eq_refl) as Hc.
  destruct (writeVerified ws h) as [[[wrote taken] [result msg]] h'].
  destruct (String.eqb (cgi_Boost intent) ""), (negb (String.eqb result "")), (0 <? wrote)%nat; cbn;
    destruct (c_boostWritten c1); exact Hc.
Qed.

#[export] Instance cpuOps_mechanism f b intent : Mechanism (cpuOps f b intent).
Proof.
  split; [apply applyCPU_control| |done]. intros c h. cbn. by destruct (checkWrites _ _).
Qed.

Lemma cpuOps_forced f b intent now c h : forced (cpuOps f b intent) now c h = false.
Proof. unfold forced. cbn. by destruct (checkWrites _ _). Qed.

(** The last case does not arise: without a discovery the intent is blocked
    ([blocked_missing]).
    src/cmd/agent/governor_control.go:723-748 [reconcileCPU] *)
Definition reconcileCPU (answer : nat -> PatchAnswer) (m : Mode) (d : option CPUFacts) (b : option CPUGovernorBaseline)
    (intent : option CPUGovernorIntent) (now : Z) (c : governorComponent) (h : H) (r : Reports)
    : governorComponent * H * Reports :=
  let released := release answer m ((fun f => restoreCPU f b) <$> d) now c h r in
  match intent with
  | None => released
  | Some i =>
      if restoreWritesOff m c then released
      else
        let missing := match d with None => "no cpufreq governor on this node" | Some _ => "" end in
        match blocked m missing GovernorResultUnsupported, d with
        | Some st, _ => let '(c, r) := hold answer (cgi_Preset i) st now c r in (c, h, r)
        | None, Some f => step answer (cgi_Preset i +:+ "|" +:+ cgi_Boost i) (cgi_Preset i) (cpuOps f b i) now c h r
        | None, None => (c, h, r)
        end
  end.

End Control.

Lemma blocked_missing m missing result : missing <> "" -> blocked m missing result <> None.
Proof.
  intros Hm%String.eqb_neq. unfold blocked. rewrite Hm. destruct (md_simulateOnly m), (md_writes m), (md_remote m), (md_http m); done.
Qed.

(** ** The baseline as writes *)

(** Facts of the node whose policies and boost discovery found: the lists of
    governors and preferences may differ from one discovery to the next. *)
Record sameNode (cpu : CPU) (f : CPUFacts) : Prop := {
  sn_policies : cf_Policies f = cf_Policies (cpu_Facts cpu);
  sn_scope : cf_BoostScope f = cf_BoostScope (cpu_Facts cpu);
  sn_epps : cpu_HasEPP cpu = false -> cf_EPPs f = []
}.

(** A write that puts a word of a policy back. *)
Definition putsBack (ps : list Policy) (file : string) (word : Policy -> string) (w : Write) : Prop :=
  exists s, s ∈ ps /\ word s <> "" /\ w = mkWrite (PolicyRelPath (pol_ID s) file) (word s).

Section Baseline.
Context (ps : list Policy) (f : CPUFacts) (b : CPUGovernorBaseline).
Context (Hids : Forall (fun s => isID (pol_ID s)) ps).
Context (Hps : forall id, id ∈ cf_Policies f <-> exists s, s ∈ ps /\ pol_ID s = id).
Context (Hb : cb_Groups b = cb_Groups (baseline ps)).

Lemma membersOf_ids k : Forall isID (membersOf ps k).
Proof.
  unfold membersOf. apply Forall_forall. intros id (s & -> & [_ Hs]%list_elem_of_filter)%list_elem_of_fmap.
  rewrite Forall_forall in Hids. by apply Hids.
Qed.

Lemma elem_of_membersOf id k : id ∈ membersOf ps k <-> exists s, s ∈ ps /\ pol_ID s = id /\ policyKey s = k.
Proof.
  unfold membersOf. rewrite list_elem_of_fmap. split.
  - intros (s & -> & [? ?]%list_elem_of_filter). eauto.
  - intros (s & Hs & <- & Hk). exists s. split; [done|]. by apply list_elem_of_filter.
Qed.

(** The groups of the stored baseline on the node: one per state, with the
    policies in that state. *)
Lemma cpuBaselineGroups_elem g :
  g ∈ cpuBaselineGroups f (Some b) <->
  exists s, s ∈ ps /\ gr_Governor g = pol_Governor s /\ gr_EPP g = pol_EPP s /\ gr_Boost g = pol_Boost s /\
    gr_Policies g = filter (fun id => cpuListHas (formatCPUList (membersOf ps (policyKey s))) id = true) (cf_Policies f).
Proof.
  unfold cpuBaselineGroups. rewrite list_elem_of_omap, Hb. split.
  - intros (grp & (s & Hs & ->)%baseline_groups & E). exists s. split; [done|]. cbn [cs_Policies cs_Governor cs_EPP cs_Boost] in E.
    destruct (filter _ _) eqn:Ef; [done|]. by injection E as <-.
  - intros (s & Hs & E1 & E2 & E3 & E4). eexists. split; [apply baseline_groups; exists s; done|].
    cbn [cs_Policies cs_Governor cs_EPP cs_Boost]. rewrite <- E4. destruct g as [gp gg ge gb]. cbn in *. subst gg ge gb.
    destruct gp; [|done]. exfalso.
    assert (pol_ID s ∈ filter (fun id => cpuListHas (formatCPUList (membersOf ps (policyKey s))) id = true) (cf_Policies f)) as Hin.
    { apply list_elem_of_filter. split; [apply cpuListHas_format; [apply membersOf_ids|apply elem_of_membersOf; eauto]|].
      apply Hps. eauto. }
    rewrite <- E4 in Hin. by apply not_elem_of_nil in Hin.
Qed.

(** A policy of a group has the group's words. *)
Lemma group_member g id :
  g ∈ cpuBaselineGroups f (Some b) ->
  (id ∈ gr_Policies g <-> exists s, s ∈ ps /\ pol_ID s = id /\ gr_Governor g = pol_Governor s /\ gr_EPP g = pol_EPP s /\
    gr_Boost g = pol_Boost s).
Proof.
  intros (s & Hs & E1 & E2 & E3 & E4)%cpuBaselineGroups_elem. rewrite E1, E2, E3, E4, list_elem_of_filter.
  rewrite cpuListHas_format by apply membersOf_ids. rewrite elem_of_membersOf. split.
  - intros [(t & Ht & Hid & Hk) _]. injection Hk as ? ? ?. exists t. auto.
  - intros (t & Ht & Hid & Eg & Ee & Eb). split; [|apply Hps; eauto]. exists t. split; [done|]. split; [done|].
    unfold policyKey. congruence.
Qed.

Lemma group_of s : s ∈ ps -> exists g, g ∈ cpuBaselineGroups f (Some b) /\ pol_ID s ∈ gr_Policies g /\
  gr_Governor g = pol_Governor s /\ gr_EPP g = pol_EPP s /\ gr_Boost g = pol_Boost s.
Proof.
  intros Hs. exists {| gr_Policies := filter (fun id => cpuListHas (formatCPUList (membersOf ps (policyKey s))) id = true) (cf_Policies f);
    gr_Governor := pol_Governor s; gr_EPP := pol_EPP s; gr_Boost := pol_Boost s |}.
  match goal with |- ?g ∈ _ /\ _ => assert (g ∈ cpuBaselineGroups f (Some b)) as Hg by (apply cpuBaselineGroups_elem; exists s; done) end.
  split; [done|]. split; [|done]. apply (group_member _ _ Hg). exists s. done.
Qed.

(** The writes of one word of every group put that word of every policy back. *)
Lemma groupWrites_elem file gword pword w :
  (forall g s, g ∈ cpuBaselineGroups f (Some b) -> gr_Governor g = pol_Governor s -> gr_EPP g = pol_EPP s ->
     gr_Boost g = pol_Boost s -> gword g = pword s) ->
  (w ∈ concat (groupWrites file gword <$> cpuBaselineGroups f (Some b)) <-> putsBack ps file pword w).
Proof.
  intros Hword. rewrite elem_of_concat_fmap. unfold putsBack, groupWrites. split.
  - intros (g & Hg & Hw). destruct (String.eqb_spec (gword g) "") as [|Hne]; [by apply not_elem_of_nil in Hw|].
    apply list_elem_of_fmap in Hw as (id & -> & Hid). unfold sortedPolicies in Hid. rewrite elem_of_sorted_distinct in Hid.
    apply (group_member g id Hg) in Hid as (s & Hs & <- & E1 & E2 & E3). exists s. rewrite <- (Hword g s) by done. done.
  - intros (s & Hs & Hne & ->). destruct (group_of s Hs) as (g & Hg & Hid & E1 & E2 & E3). exists g. split; [done|].
    rewrite (Hword g s) by done. destruct (String.eqb_spec (pword s) ""); [done|].
    apply list_elem_of_fmap. exists (pol_ID s). split; [done|]. unfold sortedPolicies. by rewrite elem_of_sorted_distinct.
Qed.
End Baseline.

(** ** Boost attributes *)

(** The attribute that holds the boost of a policy, and whether it is
    inverted. *)
Definition boostAttr (scope : string) (id : Z) : option (string * bool) :=
  if String.eqb scope CPUBoostScopeGlobal then Some (GlobalBoostRelPath, false)
  else if String.eqb scope CPUBoostScopeNoTurbo then Some (NoTurboRelPath, true)
  else if String.eqb scope CPUBoostScopePerCPU then Some (PolicyRelPath id PolicyBoostFile, false)
  else None.

Lemma boostAttr_nodewide scope id id' : scope <> CPUBoostScopePerCPU -> boostAttr scope id = boostAttr scope id'.
Proof. unfold boostAttr. intros Hs%String.eqb_neq. rewrite Hs. by repeat case_match. Qed.

Lemma boostBit_word v inv : boostWord v inv <> "" -> boostBit (boostWord v inv) inv = v.
Proof.
  unfold boostWord. destruct (String.eqb_spec v "0") as [->|]; [by destruct inv|].
  destruct (String.eqb_spec v "1") as [->|]; [by destruct inv|done].
Qed.

Lemma CPUBoostWrites_elem f ns boost ws w :
  CPUBoostWrites f ns boost = Some ws ->
  (w ∈ ws <-> exists id p inv, (cf_BoostScope f = CPUBoostScopePerCPU -> id ∈ ns) /\
    boostAttr (cf_BoostScope f) id = Some (p, inv) /\ w = mkWrite p (boostBit boost inv)).
Proof.
  unfold CPUBoostWrites, boostAttr. destruct (String.eqb_spec (cf_BoostScope f) CPUBoostScopeGlobal) as [->|_].
  { intros [= <-]. rewrite list_elem_of_singleton. split; [intros ->; by exists 0%Z, GlobalBoostRelPath, false|].
    by intros (? & ? & ? & _ & [= <- <-] & ->). }
  destruct (String.eqb_spec (cf_BoostScope f) CPUBoostScopeNoTurbo) as [->|_].
  { intros [= <-]. rewrite list_elem_of_singleton. split; [intros ->; by exists 0%Z, NoTurboRelPath, true|].
    by intros (? & ? & ? & _ & [= <- <-] & ->). }
  destruct (String.eqb_spec (cf_BoostScope f) CPUBoostScopePerCPU) as [->|_]; [|done].
  intros Hws. assert (ws = (fun n => mkWrite (PolicyRelPath n PolicyBoostFile) (boostBit boost false)) <$> ns) as ->
    by (destruct ns; [done|by injection Hws]).
  rewrite list_elem_of_fmap. split.
  - intros (id & -> & Hid). exists id, (PolicyRelPath id PolicyBoostFile), false. done.
  - intros (id & ? & ? & Hid & [= <- <-] & ->). exists id. auto.
Qed.

Lemma publish_status answer c now r : c_status (publish answer c now r).1 = c_status c.
Proof. by destruct (publish_same answer c now r) as [x [-> | ->]]. Qed.

Section Node.
Context (sys : Sys) (cpuinfo : option string) (cpu : CPU) (Hread : ReadCPU sys cpuinfo = Some cpu).
Context (Hnames : Forall isID (PolicyIDs (sy_cpufreqNames sys))).
Context (b : CPUGovernorBaseline) (Hb : cb_Groups b = cb_Groups (baseline (cpu_Policies cpu))).
Context (f : CPUFacts) (Hnode : sameNode cpu f).

Notation ps := (cpu_Policies cpu).
Notation found := (word (sy_files sys)).

Lemma policy_words s : s ∈ ps ->
  isID (pol_ID s) /\ pol_Governor s = found (PolicyRelPath (pol_ID s) PolicyGovernorFile) /\ pol_Governor s <> "" /\
  pol_EPP s = (if cpu_HasEPP cpu then found (PolicyRelPath (pol_ID s) PolicyEPPFile) else "") /\
  pol_Boost s = match boostAttr (cf_BoostScope f) (pol_ID s) with Some (p, inv) => boostWord (found p) inv | None => "" end.
Proof.
  destruct (ReadCPU_Some sys cpuinfo cpu Hread) as (_ & _ & _ & _ & He). intros (id & Hid & Hne & ->)%He.
  rewrite Forall_forall in Hnames. cbn [fillPolicy pol_ID pol_Governor pol_EPP pol_Boost] in *.
  split; [by apply Hnames|]. split_and!; [done|done|done|]. rewrite (sn_scope _ _ Hnode). unfold boostAttr, globalBoost.
  destruct (String.eqb_spec (cf_BoostScope (cpu_Facts cpu)) CPUBoostScopePerCPU) as [->|]; [done|]. by repeat case_match.
Qed.

Lemma node_ids : Forall (fun s => isID (pol_ID s)) ps.
Proof. apply Forall_forall. intros s Hs. by apply policy_words. Qed.

Lemma node_policies id : id ∈ cf_Policies f <-> exists s, s ∈ ps /\ pol_ID s = id.
Proof.
  rewrite (sn_policies _ _ Hnode). destruct (ReadCPU_Some sys cpuinfo cpu Hread) as (-> & _). rewrite list_elem_of_fmap.
  split; intros (s & ? & ?); exists s; auto.
Qed.

(** A write of what discovery found in the file. *)
Definition asFound (w : Write) : Prop := w_Value w = found (w_RelPath w) /\ w_Value w <> "".

(** The attribute [file] of a policy of the node, and a boost attribute of
    the node. *)
Definition policyFile (file p : string) : Prop := exists s, s ∈ ps /\ p = PolicyRelPath (pol_ID s) file.
Definition boostPath (p : string) : Prop :=
  exists s inv, s ∈ ps /\ boostAttr (cf_BoostScope (cpu_Facts cpu)) (pol_ID s) = Some (p, inv).

Lemma governors_back w :
  w ∈ (PlanCPUGroups f (cpuBaselineGroups f (Some b))).1.1 ->
  asFound w /\ policyFile PolicyGovernorFile (w_RelPath w).
Proof.
  intros (s & Hs & Hne & ->)%(groupWrites_elem ps f b node_ids node_policies Hb _ _ pol_Governor); [|done].
  destruct (policy_words s Hs) as (_ & Eg & _). split; [done|]. by exists s.
Qed.

Lemma governors_cover p :
  policyFile PolicyGovernorFile p -> p ∈ (w_RelPath <$> (PlanCPUGroups f (cpuBaselineGroups f (Some b))).1.1).
Proof.
  intros (s & Hs & ->). apply list_elem_of_fmap.
  exists (mkWrite (PolicyRelPath (pol_ID s) PolicyGovernorFile) (pol_Governor s)). split; [done|].
  apply (groupWrites_elem ps f b node_ids node_policies Hb _ _ pol_Governor); [done|].
  exists s. split_and!; try done. by apply policy_words.
Qed.

Lemma epps_back w :
  w ∈ (PlanCPUGroups f (cpuBaselineGroups f (Some b))).1.2 ->
  asFound w /\ cpu_HasEPP cpu = true /\ policyFile PolicyEPPFile (w_RelPath w).
Proof.
  intros (s & Hs & Hne & ->)%(groupWrites_elem ps f b node_ids node_policies Hb _ _ pol_EPP); [|done].
  destruct (policy_words s Hs) as (_ & _ & _ & Ee & _). destruct (cpu_HasEPP cpu); [|done]. split; [done|]. split; [done|].
  by exists s.
Qed.

Lemma epps_cover s :
  s ∈ ps -> pol_EPP s <> "" ->
  PolicyRelPath (pol_ID s) PolicyEPPFile ∈ (w_RelPath <$> (PlanCPUGroups f (cpuBaselineGroups f (Some b))).1.2).
Proof.
  intros Hs Hne. apply list_elem_of_fmap. exists (mkWrite (PolicyRelPath (pol_ID s) PolicyEPPFile) (pol_EPP s)).
  split; [done|]. apply (groupWrites_elem ps f b node_ids node_policies Hb _ _ pol_EPP); [done|].
  exists s. done.
Qed.

(** The groups whose boost goes back, and how. *)
Lemma boosts_elem w :
  w ∈ (PlanCPUGroups f (cpuBaselineGroups f (Some b))).2 ->
  exists g ns ws, g ∈ cpuBaselineGroups f (Some b) /\ gr_Boost g <> "" /\
    (cf_BoostScope f = CPUBoostScopePerCPU -> ns = sortedPolicies (gr_Policies g)) /\
    CPUBoostWrites f ns (gr_Boost g) = Some ws /\ w ∈ ws.
Proof.
  unfold PlanCPUGroups. cbn [snd]. set (boosted := filter _ _).
  assert (forall g, g ∈ boosted -> g ∈ cpuBaselineGroups f (Some b) /\ gr_Boost g <> "") as Hbo.
  { intros g [Hne Hg]%list_elem_of_filter. split; [done|]. by apply String.eqb_neq in Hne. }
  destruct (String.eqb_spec (cf_BoostScope f) CPUBoostScopePerCPU) as [Hs|Hs].
  - rewrite elem_of_concat_fmap. intros (g & [Hg Hne]%Hbo & Hw). destruct (CPUBoostWrites _ _ _) as [ws|] eqn:E.
    + exists g, (sortedPolicies (gr_Policies g)), ws. done.
    + by apply not_elem_of_nil in Hw.
  - destruct boosted as [|g l]; [by intros ?%not_elem_of_nil|]. destruct (Hbo g ltac:(left)) as [Hg Hne].
    destruct (CPUBoostWrites f [] _) as [ws|] eqn:E; [|by intros ?%not_elem_of_nil]. intros Hw. exists g, [], ws.
    split_and!; try done.
Qed.

Lemma boosts_back w :
  w ∈ (PlanCPUGroups f (cpuBaselineGroups f (Some b))).2 -> asFound w /\ boostPath (w_RelPath w).
Proof.
  intros (g & ns & ws & Hg & Hne & Hns & Hws & Hw)%boosts_elem.
  apply (CPUBoostWrites_elem _ _ _ _ _ Hws) in Hw as (id & p & inv & Hid & Ha & ->).
  pose proof (group_member ps f b node_ids node_policies Hb g) as Hmem.
  assert (exists s, s ∈ ps /\ gr_Boost g = pol_Boost s /\ boostAttr (cf_BoostScope f) (pol_ID s) = Some (p, inv)) as (s & Hs & Eb & Ea).
  { destruct (decide (cf_BoostScope f = CPUBoostScopePerCPU)) as [Hper|Hwide].
    - specialize (Hid Hper). rewrite (Hns Hper) in Hid. unfold sortedPolicies in Hid. rewrite elem_of_sorted_distinct in Hid.
      apply (Hmem id Hg) in Hid as (s & Hs & <- & _ & _ & Eb). eauto.
    - apply (cpuBaselineGroups_elem ps f b node_ids node_policies Hb) in Hg as (s & Hs & _ & _ & Eb & _). exists s.
      split; [done|]. split; [done|]. by rewrite (boostAttr_nodewide _ _ id). }
  destruct (policy_words s Hs) as (_ & _ & _ & _ & Ew). rewrite Ea in Ew. rewrite Eb, Ew in *.
  unfold asFound. cbn [w_Value w_RelPath]. rewrite boostBit_word by done. split.
  - split; [done|]. intros E0. rewrite E0 in Hne. by destruct inv.
  - exists s, inv. split; [done|]. by rewrite <- (sn_scope _ _ Hnode).
Qed.

Lemma boosts_cover p :
  Forall (fun s => pol_Boost s <> "") ps -> boostPath p ->
  p ∈ (w_RelPath <$> (PlanCPUGroups f (cpuBaselineGroups f (Some b))).2).
Proof.
  intros Hall (s & inv & Hs & Ha). rewrite <- (sn_scope _ _ Hnode) in Ha. rewrite Forall_forall in Hall. pose proof (Hall s Hs) as Hne.
  destruct (group_of ps f b node_ids node_policies Hb s Hs) as (g & Hg & Hid & _ & _ & Eb).
  assert (String.eqb (gr_Boost g) "" = false) as Hgb by (apply String.eqb_neq; by rewrite Eb).
  unfold PlanCPUGroups. cbn [snd]. set (boosted := filter _ _).
  assert (g ∈ boosted) as Hin by (by apply list_elem_of_filter). unfold boostAttr in Ha. apply list_elem_of_fmap.
  destruct (String.eqb_spec (cf_BoostScope f) CPUBoostScopePerCPU) as [Hper|Hwide].
  - rewrite Hper in Ha. injection Ha as <- <-.
    exists (mkWrite (PolicyRelPath (pol_ID s) PolicyBoostFile) (boostBit (gr_Boost g) false)). split; [done|].
    apply elem_of_concat_fmap. exists g. split; [done|]. unfold CPUBoostWrites. rewrite Hper. cbn [String.eqb Ascii.eqb Bool.eqb].
    assert (pol_ID s ∈ sortedPolicies (gr_Policies g)) as Hso by (unfold sortedPolicies; by rewrite elem_of_sorted_distinct).
    destruct (sortedPolicies (gr_Policies g)) as [|n l]; [by apply not_elem_of_nil in Hso|]. cbn [default from_option].
    apply list_elem_of_fmap. eauto.
  - destruct boosted as [|g0 l]; [by apply not_elem_of_nil in Hin|]. unfold CPUBoostWrites.
    destruct (String.eqb_spec (cf_BoostScope f) CPUBoostScopeGlobal) as [Hgl|];
      [|destruct (String.eqb_spec (cf_BoostScope f) CPUBoostScopeNoTurbo); [|done]];
      injection Ha as <- <-; eexists; (split; [|by left]); done.
Qed.

(** ** Restoring *)

Lemma differing_nil (h : gmap string string) : differing [] h = [].
Proof. reflexivity. Qed.

Lemma asFound_writes ws : (forall w, w ∈ ws -> asFound w) -> consistent ws /\ Forall trimmed ws.
Proof.
  intros H. split.
  - intros v w Hv Hw E. destruct (H v Hv) as [-> _], (H w Hw) as [-> _]. by rewrite E.
  - apply Forall_forall. intros w Hw. unfold trimmed. destruct (H w Hw) as [-> _]. unfold word, ReadWord.
    destruct (sy_files sys !! w_RelPath w); [apply TrimSpace_idem|done].
Qed.

Definition sameFiles (files : gmap string string) : Prop := forall p, is_Some (files !! p) <-> is_Some (sy_files sys !! p).

Lemma asFound_exists files w : sameFiles files -> asFound w -> is_Some (files !! w_RelPath w).
Proof.
  intros Hf [E Hne]. apply Hf. rewrite E in Hne. unfold word, ReadWord in Hne. by destruct (sy_files sys !! w_RelPath w).
Qed.

(** Phases that write what discovery found succeed, and leave it in every
    file they name, and nothing else. *)
Lemma runPhases_back Ls files :
  sameFiles files -> (forall w, w ∈ concat Ls -> asFound w) ->
  exists n files', runPhases (differing <$> Ls) files = (n, ("", ""), files') /\ sameFiles files' /\
    (forall p, p ∈ (w_RelPath <$> concat Ls) -> word files' p = found p) /\
    (forall p, p ∉ (w_RelPath <$> concat Ls) -> files' !! p = files !! p).
Proof.
  revert files. induction Ls as [|L Ls IH]; intros files Hf H.
  { exists 0%nat, files. split_and!; try done. intros p Hp. by apply not_elem_of_nil in Hp. }
  cbn [concat] in *. assert (forall w, w ∈ L -> asFound w) as HL by (intros w Hw; apply H, elem_of_app; by left).
  destruct (asFound_writes L HL) as [Hc Ht].
  destruct (writeVerified_differing L files Hc Ht) as (n & taken & files1 & E & H1 & H2 & H3).
  { apply Forall_forall. intros w Hw. apply asFound_exists; auto. }
  destruct (IH files1) as (n' & files' & E' & H4 & H5 & H6).
  { intros p. rewrite H3. apply Hf. }
  { intros w Hw. apply H, elem_of_app. by right. }
  exists (n + n')%nat, files'. cbn [fmap list_fmap runPhases]. rewrite E, E'. cbn.
  split; [done|]. split; [done|]. rewrite fmap_app. split.
  - intros p Hp. destruct (decide (p ∈ (w_RelPath <$> concat Ls))) as [Hin|Hout]; [by apply H5|].
    rewrite (word_lookup files1) by by apply H6. apply elem_of_app in Hp as [Hp|]; [|done].
    apply list_elem_of_fmap in Hp as (w & -> & Hw). rewrite H1 by done. by apply HL.
  - intros p Hp. rewrite elem_of_app in Hp. rewrite H6, H2; [done|..]; intros ?; apply Hp; auto.
Qed.

(** The writes of a restore: boost goes back only when the agent wrote it. *)
Definition backWrites (c : governorComponent) : list (list Write) :=
  [(PlanCPUGroups f (cpuBaselineGroups f (Some b))).1.1; (PlanCPUGroups f (cpuBaselineGroups f (Some b))).1.2;
   if negb (c_boostWritten c) && String.eqb (c_globalBoostSeen c) "" then []
   else baselineBoostWrites f (Some b) (c_globalBoostSeen c)].

Definition seenFound (c : governorComponent) : Prop :=
  c_globalBoostSeen c <> "" -> cf_BoostScope f = CPUBoostScopePerCPU -> c_globalBoostSeen c = found GlobalBoostRelPath.

Lemma boostWrites_back c w : seenFound c -> w ∈ baselineBoostWrites f (Some b) (c_globalBoostSeen c) ->
  asFound w /\ (boostPath (w_RelPath w) \/ (c_globalBoostSeen c <> "" /\ cf_BoostScope f = CPUBoostScopePerCPU /\ w_RelPath w = GlobalBoostRelPath)).
Proof.
  intros Hseen. unfold baselineBoostWrites. rewrite elem_of_app. intros [Hw|Hw].
  - apply boosts_back in Hw as [? ?]. auto.
  - destruct (String.eqb_spec (c_globalBoostSeen c) "") as [|Hne]; [by apply not_elem_of_nil in Hw|].
    destruct (String.eqb_spec (cf_BoostScope f) CPUBoostScopePerCPU) as [Hs|]; [|by apply not_elem_of_nil in Hw].
    apply list_elem_of_singleton in Hw as ->. split; [|by right]. split; [|done]. by apply Hseen.
Qed.

Lemma restoreCPU_back c files :
  sameFiles files -> seenFound c ->
  exists n files', restoreCPU f (Some b) c files =
    (mkOutcome (mkStatus GovernorBackendCPUFreq GovernorResultRestored "baseline restored" (cpuBaselineNative b)) n (0 <? n)%nat, c, files') /\
    sameFiles files' /\
    (forall p, p ∈ (w_RelPath <$> concat (backWrites c)) -> word files' p = found p) /\
    (forall p, p ∉ (w_RelPath <$> concat (backWrites c)) -> files' !! p = files !! p).
Proof.
  intros Hf Hseen. assert (forall w, w ∈ concat (backWrites c) -> asFound w) as Hall.
  { intros w. unfold backWrites. cbn [concat]. rewrite !elem_of_app. intros [Hw|[Hw|[Hw|Hw]]].
    - by apply governors_back.
    - by apply epps_back.
    - destruct (_ && _); [by apply not_elem_of_nil in Hw|]. by apply (boostWrites_back c).
    - by apply not_elem_of_nil in Hw. }
  destruct (runPhases_back (backWrites c) files Hf Hall) as (n & files' & E & H1 & H2 & H3). exists n, files'.
  split; [|done]. unfold restoreCPU. revert E. unfold backWrites, cpuBaselineBoostWrites.
  destruct (PlanCPUGroups f (cpuBaselineGroups f (Some b))) as [[governors epps] boosts] eqn:EP. cbn [fst snd fmap list_fmap].
  destruct (negb (c_boostWritten c) && _); [change (differing []) with (fun _ : gmap string string => @nil Write)|];
    cbn [runPhases]; intros E; by rewrite E.
Qed.

(** ** Applying *)

Definition scopePerCPU : Prop := cf_BoostScope f = CPUBoostScopePerCPU.

(** The files a plan writes, without and with boost. *)
Definition wordPath (p : string) : Prop :=
  policyFile PolicyGovernorFile p \/ (cpu_HasEPP cpu = true /\ policyFile PolicyEPPFile p).

Lemma policyWrites_path file v w : w ∈ policyWrites file v (sortedPolicies (cf_Policies f)) -> policyFile file (w_RelPath w).
Proof.
  intros (n & -> & Hn)%list_elem_of_fmap. unfold sortedPolicies in Hn. rewrite elem_of_sorted_distinct in Hn.
  apply node_policies in Hn as (s & Hs & <-). by exists s.
Qed.

Lemma plan_paths preset boost plan w :
  PlanCPU f preset boost = Some plan -> p_Result plan <> GovernorResultUnsupported -> w ∈ p_Writes plan ->
  wordPath (w_RelPath w) \/ (boost <> "" /\ boostPath (w_RelPath w)).
Proof.
  intros Hp Hr Hw. destruct (PlanCPU_shape f preset boost plan Hp Hr) as (_ & Hc & ws & Ew & _ & _ & _ & _ & Hboost).
  rewrite Ew, !elem_of_app in Hw. destruct Hw as [Hw|[Hw|Hw]].
  - left. left. by apply policyWrites_path in Hw.
  - left. right. destruct (chooseCPU_supported f preset Hc) as (_ & _ & _ & He).
    destruct (String.eqb_spec (cc_epp (chooseCPU f preset)) "") as [|Hne]; [by apply not_elem_of_nil in Hw|].
    destruct He as [?|(_ & _ & Hin)]; [done|]. split; [|by apply policyWrites_path in Hw].
    destruct (cpu_HasEPP cpu) eqn:EH; [done|]. by rewrite (sn_epps _ _ Hnode EH) in Hin.
  - right. destruct Hboost as [[-> ->]|[Hv Hws]]; [by apply not_elem_of_nil in Hw|].
    split; [intros ->; revert Hv; by_decide|].
    apply (CPUBoostWrites_elem _ _ _ _ _ Hws) in Hw as (id & p & inv & Hid & Ha & ->). cbn [w_RelPath].
    destruct (decide scopePerCPU) as [Hper|Hwide].
    + specialize (Hid Hper). unfold sortedPolicies in Hid. rewrite elem_of_sorted_distinct in Hid.
      apply node_policies in Hid as (s & Hs & <-). exists s, inv. split; [done|]. by rewrite <- (sn_scope _ _ Hnode).
    + destruct (ReadCPU_Some sys cpuinfo cpu Hread) as (_ & Hne & _). destruct ps as [|s l] eqn:Eps; [done|].
      exists s, inv. rewrite Eps. split; [left|]. rewrite <- (sn_scope _ _ Hnode). rewrite <- Ha.
      by apply boostAttr_nodewide.
Qed.

(** Governor and preference files are not boost files. *)
Lemma wordPath_not_boost p : wordPath p -> ~ boostPath p /\ p <> GlobalBoostRelPath.
Proof.
  assert (forall file, file <> PolicyBoostFile -> policyFile file p -> ~ boostPath p /\ p <> GlobalBoostRelPath) as H.
  { intros file Hfile (s & Hs & ->). split; [|apply PolicyRelPath_not_global].
    intros (t & inv & Ht & Ha). unfold boostAttr in Ha.
    repeat case_match; try done.
    assert (PolicyRelPath (pol_ID t) PolicyBoostFile = PolicyRelPath (pol_ID s) file) as E by congruence. revert E.
    destruct (policy_words s Hs) as [His _], (policy_words t Ht) as [Hit _].
    apply PolicyRelPath_file; [by apply isID_in|by apply isID_in|by apply not_eq_sym]. }
  intros [Hg|[_ He]]; [by apply (H PolicyGovernorFile)|by apply (H PolicyEPPFile)].
Qed.

Lemma boostPath_global p : scopePerCPU -> boostPath p -> p <> GlobalBoostRelPath.
Proof.
  unfold scopePerCPU. rewrite (sn_scope _ _ Hnode). intros Hs (s & inv & _ & Ha). rewrite Hs in Ha. injection Ha as <- <-.
  apply PolicyRelPath_not_global.
Qed.

#[local] Instance policyFile_dec file p : Decision (policyFile file p).
Proof.
  destruct (decide (Exists (fun s => p = PolicyRelPath (pol_ID s) file) ps)) as [H|H]; rewrite Exists_exists in H; [left|right]; exact H.
Defined.

#[local] Instance boostPath_dec p : Decision (boostPath p).
Proof.
  destruct (decide (Exists (fun s => fst <$> boostAttr (cf_BoostScope (cpu_Facts cpu)) (pol_ID s) = Some p) ps)) as [H|H];
    rewrite Exists_exists in H; [left|right].
  - destruct H as (s & Hs & ([q inv] & Ha & ->)%fmap_Some). by exists s, inv.
  - intros (s & inv & Hs & Ha). apply H. exists s. by rewrite Ha.
Defined.

(** What holds of the node between the agent's reconciles: no file came or
    went; only governor files differ from what discovery found; the boost
    files only while the agent remembers it wrote boost; and the global boost
    file of a node with a per-policy boost only while it remembers what the
    file read. *)
Definition Touched (p : string) : Prop := wordPath p \/ boostPath p \/ (scopePerCPU /\ p = GlobalBoostRelPath).

#[local] Instance Touched_dec p : Decision (Touched p).
Proof. unfold Touched, wordPath, scopePerCPU. apply _. Defined.

Record Held (c : governorComponent) (files : gmap string string) : Prop := {
  h_files : sameFiles files;
  h_untouched p : ~ Touched p -> word files p = found p;
  h_boost p : c_boostWritten c = false -> boostPath p -> word files p = found p;
  h_unseen : scopePerCPU -> c_globalBoostSeen c = "" -> word files GlobalBoostRelPath = found GlobalBoostRelPath;
  h_seen : c_globalBoostSeen c <> "" -> scopePerCPU /\ c_globalBoostSeen c = "0" /\ found GlobalBoostRelPath = "0"
}.

Lemma Held_seenFound c files : Held c files -> seenFound c.
Proof. intros HH Hne _. destruct (h_seen c files HH Hne) as (_ & -> & ->). done. Qed.

(** A node discovery can put back: its preferences and boost are words. *)
Definition restorable : Prop :=
  forall s, s ∈ ps -> (cpu_HasEPP cpu = true -> pol_EPP s <> "") /\ (cf_BoostScope (cpu_Facts cpu) <> "" -> pol_Boost s <> "").

Lemma restorable_boost p : restorable -> boostPath p -> Forall (fun s => pol_Boost s <> "") ps.
Proof.
  intros Hr (s & inv & _ & Ha). apply Forall_forall. intros t Ht. apply Hr; [done|].
  intros E. by rewrite E in Ha.
Qed.

(** After a restore every attribute of the node reads what discovery found. *)
Lemma restoreCPU_found c files p :
  restorable -> Held c files ->
  let '(out, c', files') := restoreCPU f (Some b) c files in
  gst_result (out_status out) = GovernorResultRestored /\ c' = c /\ sameFiles files' /\ word files' p = found p.
Proof.
  intros Hr HH. destruct (restoreCPU_back c files (h_files c files HH) (Held_seenFound c files HH)) as (n & files' & -> & H1 & H2 & H3).
  split; [done|]. split; [done|]. split; [done|].
  destruct (decide (p ∈ (w_RelPath <$> concat (backWrites c)))) as [Hin|Hout]; [by apply H2|].
  rewrite (word_lookup files) by by apply H3. clear H2 H3. unfold backWrites in Hout. cbn [concat] in Hout.
  rewrite !fmap_app, !elem_of_app in Hout.
  destruct (decide (c_boostWritten c = false /\ c_globalBoostSeen c = "")) as [[Hw Hs]|Hdirty].
  - destruct (decide (Touched p)) as [Ht|Ht]; [|by apply (h_untouched c files HH)].
    destruct Ht as [[Hg|[He (s & Hs' & ->)]]|[Hbp|[Hper ->]]].
    + destruct Hout. left. by apply governors_cover.
    + destruct Hout. right. left. apply epps_cover; [done|]. by apply Hr.
    + by apply (h_boost c files HH).
    + by apply (h_unseen c files HH).
  - assert (negb (c_boostWritten c) && String.eqb (c_globalBoostSeen c) "" = false) as Ed.
    { destruct (c_boostWritten c); [done|]. cbn. apply String.eqb_neq. intros ?. by apply Hdirty. }
    rewrite Ed in Hout. unfold baselineBoostWrites in Hout. rewrite fmap_app, elem_of_app in Hout.
    destruct (decide (Touched p)) as [Ht|Ht]; [|by apply (h_untouched c files HH)].
    destruct Ht as [[Hg|[He (s & Hs' & ->)]]|[Hbp|[Hper ->]]].
    + destruct Hout. left. by apply governors_cover.
    + destruct Hout. right. left. apply epps_cover; [done|]. by apply Hr.
    + destruct Hout. right. right. left. left. apply boosts_cover; [by apply (restorable_boost p)|done].
    + destruct (decide (c_globalBoostSeen c = "")) as [Es|Es]; [by apply (h_unseen c files HH)|].
      destruct Hout. right. right. left. right. apply String.eqb_neq in Es. rewrite Es, Hper. cbn. set_solver.
Qed.

(** Writes of touched files keep what does not depend on boost. *)
Lemma held_written c files ws n :
  Held c files -> sameFiles (writeAll files (take n ws)) ->
  (forall w, w ∈ ws -> Touched (w_RelPath w)) ->
  forall p, ~ Touched p -> word (writeAll files (take n ws)) p = found p.
Proof.
  intros HH Hf Hws p Hp. rewrite <- (h_untouched c files HH p Hp). apply word_lookup, writeAll_other.
  intros (w & -> & Hw)%list_elem_of_fmap. apply Hp, Hws. by apply elem_of_take in Hw as (i & Hw & _); apply list_elem_of_lookup_2 in Hw.
Qed.

Lemma writeAll_keeps files ws n p :
  (forall w, w ∈ ws -> w_RelPath w <> p) -> word (writeAll files (take n ws)) p = word files p.
Proof.
  intros H. apply word_lookup, writeAll_other. intros (w & -> & Hw)%list_elem_of_fmap.
  apply elem_of_take in Hw as (i & Hw & _). apply list_elem_of_lookup_2 in Hw. by apply (H w).
Qed.

Section Apply.
Context (preset boost : string) (plan : Plan).
Context (Hplan : PlanCPU f preset boost = Some plan) (Hres : p_Result plan <> GovernorResultUnsupported).
Context (c : governorComponent) (files : gmap string string) (Hheld : Held c files).

Lemma planned_touched w : w ∈ p_Writes plan -> Touched (w_RelPath w).
Proof. intros Hw. destruct (plan_paths _ _ _ _ Hplan Hres Hw) as [?|[_ ?]]; unfold Touched; auto. Qed.

Lemma planned_global w : scopePerCPU -> w ∈ p_Writes plan -> w_RelPath w <> GlobalBoostRelPath.
Proof.
  intros Hs Hw. destruct (plan_paths _ _ _ _ Hplan Hres Hw) as [Hp|[_ Hp]]; [by apply wordPath_not_boost|by apply boostPath_global].
Qed.

(** A plan that turns a per-policy boost on, after the global boost. *)
Lemma held_on c' n :
  scopePerCPU -> word files GlobalBoostRelPath = "0" -> c_globalBoostSeen c' = "0" ->
  (n <> 0%nat -> c_boostWritten c' = true) -> (n = 0%nat -> c_boostWritten c' = c_boostWritten c) ->
  let files' := writeAll files (take n (mkWrite GlobalBoostRelPath "1" :: p_Writes plan)) in
  sameFiles files' -> Held c' files'.
Proof.
  intros Hs Hg Eseen Hn Hn0 files' Hf. subst files'. split.
  - done.
  - apply (held_written c); [done..|]. intros w [->|Hw]%elem_of_cons; [right; right; done|by apply planned_touched].
  - intros p Hb0 Hp. destruct (decide (n = 0%nat)) as [->|Hne]; [|by rewrite (Hn Hne) in Hb0].
    rewrite take_0. apply (h_boost c files Hheld); [|done]. by rewrite <- Hn0.
  - intros _ E. by rewrite E in Eseen.
  - intros _. split; [done|]. split; [done|]. destruct (decide (c_globalBoostSeen c = "")) as [E|E].
    + by rewrite <- (h_unseen c files Hheld Hs E).
    + by apply (h_seen c files Hheld).
Qed.

(** A plan as it is. *)
Lemma held_planned c' n :
  c_globalBoostSeen c' = c_globalBoostSeen c -> boost <> "" \/ c_boostWritten c = false ->
  (boost <> "" -> n <> 0%nat -> c_boostWritten c' = true) ->
  (boost = "" \/ n = 0%nat -> c_boostWritten c' = c_boostWritten c) ->
  let files' := writeAll files (take n (p_Writes plan)) in
  sameFiles files' -> Held c' files'.
Proof.
  intros Eseen Hcase Hn Hn0 files' Hf. subst files'. split.
  - done.
  - apply (held_written c); [done..|]. apply planned_touched.
  - intros p Hb0 Hp. destruct (decide (boost = "")) as [Eb|Eb].
    + rewrite writeAll_keeps; [apply (h_boost c files Hheld); [|done]; by rewrite <- Hn0; [|left]|].
      intros w Hw E. destruct (plan_paths _ _ _ _ Hplan Hres Hw) as [Hq|[? _]]; [|done]. rewrite E in Hq.
      by apply wordPath_not_boost in Hq as [? _].
    + destruct (decide (n = 0%nat)) as [->|Hne]; [|by rewrite (Hn Eb Hne) in Hb0].
      rewrite take_0. apply (h_boost c files Hheld); [|done]. rewrite <- Hn0; [done|by right].
  - intros Hs E. rewrite Eseen in E. rewrite writeAll_keeps; [by apply (h_unseen c files Hheld)|].
    intros w Hw. by apply planned_global.
  - rewrite Eseen. apply (h_seen c files Hheld).
Qed.

(** A plan without boost that puts the boost the agent wrote back. *)
Lemma held_back c' n :
  restorable -> boost = "" ->
  let ws := (p_Writes plan ++ cpuBaselineBoostWrites f (Some b) (c_globalBoostSeen c) files)%list in
  (c_globalBoostSeen c' = c_globalBoostSeen c /\ c_boostWritten c' = true) \/
  (n = length ws /\ c_globalBoostSeen c' = "" /\ c_boostWritten c' = false) ->
  let files' := writeAll files (take n ws) in
  sameFiles files' -> Held c' files'.
Proof.
  intros Hr Eb ws Hcase files' Hf. subst files'. pose proof (Held_seenFound c files Hheld) as Hseen.
  assert (forall w, w ∈ p_Writes plan -> wordPath (w_RelPath w)) as Hword.
  { intros w Hw. by destruct (plan_paths _ _ _ _ Hplan Hres Hw) as [?|[? _]]. }
  assert (forall w, w ∈ baselineBoostWrites f (Some b) (c_globalBoostSeen c) -> asFound w) as Hback
    by (intros w Hw; by apply (boostWrites_back c)).
  destruct (asFound_writes _ Hback) as [Hc Ht].
  assert (forall p, p ∈ (w_RelPath <$> baselineBoostWrites f (Some b) (c_globalBoostSeen c)) ->
    word (writeAll files ws) p = found p) as Hput.
  { intros p (w & -> & Hw)%list_elem_of_fmap. unfold ws. rewrite writeAll_app.
    rewrite <- (proj1 (Hback w Hw)). apply differing_run; [done|done| |done]. intros v Hv. apply word_lookup, writeAll_other.
    intros (u & Eu & Hu)%list_elem_of_fmap. apply Hword, wordPath_not_boost in Hu as [Hu1 Hu2]. rewrite <- Eu in *.
    apply (boostWrites_back c) in Hv as [_ [?|(_ & _ & ?)]]; [done|done|done]. }
  split.
  - done.
  - apply (held_written c); [done..|]. intros w [Hw|Hw]%elem_of_app; [by apply planned_touched|].
    apply list_elem_of_filter in Hw as [_ Hw]. unfold Touched, scopePerCPU.
    apply (boostWrites_back c) in Hw as [_ [?|(_ & ? & ?)]]; [auto|auto|done].
  - intros p Hb0 Hp. destruct Hcase as [[_ E]|(-> & _ & _)]; [by rewrite E in Hb0|].
    rewrite firstn_all. apply Hput. unfold baselineBoostWrites. rewrite fmap_app, elem_of_app. left.
    apply boosts_cover; [by apply (restorable_boost p)|done].
  - intros Hs E. destruct Hcase as [[Es _]|(-> & _ & _)].
    + rewrite Es in E. rewrite writeAll_keeps; [by apply (h_unseen c files Hheld)|].
      intros w [Hw|Hw]%elem_of_app; [by apply planned_global|]. apply list_elem_of_filter in Hw as [_ Hw].
      apply (boostWrites_back c) in Hw as [_ [?|(? & _ & _)]]; [by apply boostPath_global|done|done].
    + destruct (decide (c_globalBoostSeen c = "")) as [E0|E0].
      * rewrite firstn_all. rewrite <- (h_unseen c files Hheld Hs E0). rewrite <- (firstn_all ws).
        apply writeAll_keeps. intros w [Hw|Hw]%elem_of_app; [by apply planned_global|].
        apply list_elem_of_filter in Hw as [_ Hw].
        apply (boostWrites_back c) in Hw as [_ [?|(? & _ & _)]]; [by apply boostPath_global|done|done].
      * rewrite firstn_all. apply Hput. unfold baselineBoostWrites. rewrite fmap_app, elem_of_app. right.
        apply String.eqb_neq in E0. rewrite E0, Hs. cbn. left.
  - intros Hne. destruct Hcase as [[E _]|(_ & E & _)]; [rewrite E in *; by apply (h_seen c files Hheld)|done].
Qed.
End Apply.

Lemma Held_ext c c' files :
  Held c files -> c_boostWritten c' = c_boostWritten c -> c_globalBoostSeen c' = c_globalBoostSeen c -> Held c' files.
Proof. intros [H1 H2 H3 H4 H5] Eb Es. split; rewrite ?Eb, ?Es; auto. Qed.

Lemma applyCPU_held intent c files :
  restorable -> Held c files ->
  let '(_, c', files') := applyCPU f (Some b) intent c files in Held c' files'.
Proof.
  intros Hr HH. unfold applyCPU. set (boost := cgi_Boost intent).
  destruct (PlanCPU f (cgi_Preset intent) boost) as [plan|] eqn:Hplan; [|done].
  destruct (String.eqb_spec (p_Result plan) GovernorResultUnsupported) as [|Hres]; [done|].
  destruct (cpuWrites f (Some b) boost (p_Writes plan) c files) as [writes c1] eqn:Ew.
  pose proof (writeVerified_files writes files) as Hfiles. pose proof (writeVerified_prefix writes files) as Hpre.
  destruct (writeVerified writes files) as [[[wrote taken] [result msg]] files']. destruct Hfiles as [-> Hdom].
  destruct Hpre as (n & _ & Hn & Hwn & Hok & _ & _).
  assert (sameFiles (writeAll files (take wrote writes))) as Hsame
    by (intros p; rewrite Hdom; apply (h_files c files HH)).
  set (c2 := if (0 <? wrote)%nat && negb (String.eqb boost "") then c1 ▷ set_boostWritten true else c1).
  assert (c_globalBoostSeen c2 = c_globalBoostSeen c1) as Es2 by (subst c2; by destruct (_ && _)).
  assert (boost <> "" -> wrote <> 0%nat -> c_boostWritten c2 = true) as Hb2.
  { intros Hne%String.eqb_neq Hw. subst c2. rewrite Hne. by destruct wrote. }
  assert (boost = "" \/ wrote = 0%nat -> c_boostWritten c2 = c_boostWritten c1) as Hb20.
  { subst c2. intros [-> | ->]; [by rewrite andb_false_r|done]. }
  unfold cpuWrites in Ew.
  destruct (String.eqb_spec boost CPUGovernorBoostOn) as [Eon|Eon], (String.eqb_spec (cf_BoostScope f) CPUBoostScopePerCPU) as [Hs|Hs];
    cbn [andb] in Ew; [destruct (String.eqb_spec (attr_read files GlobalBoostRelPath) "0") as [Eg|Eg]|..].
  { (* boost on, the global boost off *)
    assert (String.eqb boost "" = false) as Ebn by (by rewrite Eon).
    assert (writes = mkWrite GlobalBoostRelPath "1" :: p_Writes plan /\ c_globalBoostSeen c1 = "0" /\
      c_boostWritten c1 = c_boostWritten c) as (-> & Es1 & Eb1).
    { destruct (String.eqb_spec (c_globalBoostSeen c) "") as [E0|E0]; injection Ew as <- <-; [done|].
      split; [done|]. split; [|done]. by apply (h_seen c files HH). }
    assert (Held c2 (writeAll files (take wrote (mkWrite GlobalBoostRelPath "1" :: p_Writes plan)))) as H2.
    { apply (held_on _ _ plan Hplan Hres c files HH); [done|done|congruence| | |done].
      - apply Hb2. by rewrite Eon.
      - intros Ez. rewrite <- Eb1. apply Hb20. by right. }
    destruct (negb (String.eqb result "")); [done|]. rewrite Ebn. cbn [andb]. by apply (Held_ext c2). }
  all: destruct (String.eqb_spec boost "") as [Eb|Eb]; try (rewrite Eb in Eon; done); cbn [andb] in Ew.
  all: try (destruct (c_boostWritten c) eqn:Ebw).
  all: injection Ew as <- <-.
  (* the plan as it is *)
  all: try (assert (Held c2 (writeAll files (take wrote (p_Writes plan)))) as H2
    by (apply (held_planned _ _ plan Hplan Hres c files HH); auto);
    destruct (negb (String.eqb result "")); [done|]; cbn [andb];
    try (assert (c_boostWritten c2 = false) as -> by (rewrite Hb20; auto));
    by apply (Held_ext c2)).
  (* boost goes back *)
  all: assert (c_boostWritten c2 = true) as Ew2 by (rewrite Hb20; auto).
  all: destruct (String.eqb_spec result "") as [Er|Er]; cbn [negb].
  all: try (apply (held_back _ _ plan Hplan Hres c files HH); auto; fail).
  all: destruct (Hok Er) as [-> ->]; rewrite Ew2; cbn [andb].
  all: apply (held_back _ _ plan Hplan Hres c files HH); auto.
Qed.

(** ** Reconciling *)

Lemma step_held answer key preset intent now c files r :
  restorable -> Held c files ->
  let '(c', files', _) := step answer key preset (cpuOps f (Some b) intent) now c files r in Held c' files'.
Proof.
  intros Hr. apply (step_kept answer Held (cpuOps f (Some b) intent)).
  - intros c1 c2 files1 H1 (? & ? & _). by apply (Held_ext c1).
  - intros c1 files1 H1. by apply (applyCPU_held intent).
  - intros c1 files1 H1. cbn [op_check cpuOps]. by destruct (checkWrites _ _).
  - done.
Qed.

Lemma publish_held answer now c r files :
  Held c files -> Held (publish answer c now r).1 files.
Proof.
  intros HH. unfold publish. destruct (updateNodeTwinGovernorStatus _ _ _ _ _) as [ok r']. apply (Held_ext c); [done|by destruct ok..].
Qed.

(** A restore that the loop runs puts every attribute back. *)
Lemma release_held answer m d now c files r :
  restorable -> Held c files -> (d = None \/ d = Some f) ->
  let '(c', files', _) := release answer m ((fun f => restoreCPU f (Some b)) <$> d) now c files r in
  Held c' files' /\
  (d = Some f -> c_changed c = true -> c_contended c = false -> mayRestore m c = true -> (c_retryAt c <= now)%Z ->
   gst_result (c_status c') = GovernorResultRestored /\ forall p, word files' p = found p).
Proof.
  intros Hr HH Hd. unfold release. set (c0 := if c_contended c then _ else c).
  assert (Held c0 files) as HH0 by (apply (Held_ext c); [done|subst c0; by destruct (c_contended c)..]).
  assert (c_retryAt c0 = c_retryAt c) as Er0 by (subst c0; by destruct (c_contended c)).
  destruct (c_changed c0 && mayRestore m c) eqn:Eg.
  2:{ match goal with |- context [if ?x then (let '(_, _) := ?u in _) else _] => destruct x; [destruct u as [ok r']|] end.
      all: (split; [apply (Held_ext c0); first [done|by destruct ok]|]).
      all: intros _ Hc Hcon Hm; subst c0; rewrite Hcon, Hc, Hm in Eg; done. }
  destruct Hd as [-> | ->]; [by split; [|done]|]. cbn [fmap option_fmap option_map]. rewrite Er0.
  destruct (negb (c_retryAt c =? 0)%Z && (now <? c_retryAt c)%Z) eqn:Ew.
  { split; [done|]. intros _ _ _ _ Hle. apply andb_true_iff in Ew as [_ Ew]. apply Z.ltb_lt in Ew. lia. }
  pose proof (fun p => restoreCPU_found c0 files p Hr HH0) as Hrest.
  destruct (restoreCPU f (Some b) c0 files) as [[out c1] files']. destruct (Hrest "") as (Eout & -> & Hf & _).
  assert (forall p, word files' p = found p) as Hall by (intros p; by destruct (Hrest p) as (_ & _ & _ & ?)). clear Hrest.
  rewrite Eout. cbn [String.eqb Ascii.eqb Bool.eqb]. rewrite (String.eqb_refl GovernorResultRestored).
  match goal with |- context [publish answer ?c2 now r] => set (c3 := c2) end.
  assert (Held c3 files') as H3 by (subst c3; split; cbn; auto; done).
  pose proof (publish_held answer now c3 r files' H3) as H4. pose proof (publish_status answer c3 now r) as Es.
  destruct (publish answer c3 now r) as [c4 r4]. cbn [fst] in *. split; [done|]. rewrite Es. done.
Qed.
End Node.

(** ** Reconciles of one node *)

Lemma sameNode_found sys cpuinfo cpu : ReadCPU sys cpuinfo = Some cpu -> sameNode cpu (cpu_Facts cpu).
Proof. intros H. destruct (ReadCPU_Some sys cpuinfo cpu H) as (_ & _ & _ & He & _). by split. Qed.

Lemma Held_same sys cpu f f' c files : sameNode cpu f -> sameNode cpu f' -> Held sys cpu f c files -> Held sys cpu f' c files.
Proof.
  intros Hf Hf'. assert (scopePerCPU f = scopePerCPU f') as E.
  { unfold scopePerCPU. by rewrite (sn_scope _ _ Hf), (sn_scope _ _ Hf'). }
  intros [H1 H2 H3 H4 H5]. split; unfold Touched in *; rewrite <- ?E; auto.
Qed.

(** The states an agent that starts on the node it discovered can be in: any
    reconciles, with any intents, modes and times, with this baseline and
    facts of the node. *)
Inductive reconciled (sys : Sys) (cpu : CPU) (b : CPUGovernorBaseline) : governorComponent -> gmap string string -> Prop :=
| reconciled_start name : reconciled sys cpu b (newComponent name) (sy_files sys)
| reconciled_step c files answer m d intent now r c' files' r' :
    reconciled sys cpu b c files -> (forall f, d = Some f -> sameNode cpu f) ->
    reconcileCPU answer m d (Some b) intent now c files r = (c', files', r') ->
    reconciled sys cpu b c' files'.

Lemma reconcileCPU_held sys cpuinfo cpu b answer m d intent now c files r :
  ReadCPU sys cpuinfo = Some cpu -> Forall isID (PolicyIDs (sy_cpufreqNames sys)) ->
  cb_Groups b = cb_Groups (baseline (cpu_Policies cpu)) -> restorable cpu ->
  (forall f, d = Some f -> sameNode cpu f) -> Held sys cpu (cpu_Facts cpu) c files ->
  let '(c', files', _) := reconcileCPU answer m d (Some b) intent now c files r in Held sys cpu (cpu_Facts cpu) c' files'.
Proof.
  intros HR Hids Hb Hr Hd HH. pose proof (sameNode_found sys cpuinfo cpu HR) as H0.
  set (f := default (cpu_Facts cpu) d). assert (sameNode cpu f) as Hf by (destruct d; [by apply Hd|done]).
  apply (Held_same sys cpu _ f) in HH; [|done..].
  assert (d = None \/ d = Some f) as Hdf by (destruct d; auto).
  pose proof (release_held sys cpuinfo cpu HR Hids b Hb f Hf answer m d now c files r Hr HH Hdf) as Hrel.
  assert (forall c' files', Held sys cpu f c' files' -> Held sys cpu (cpu_Facts cpu) c' files') as Hback
    by (intros c' files'; by apply Held_same).
  unfold reconcileCPU. destruct (release _ _ _ _ _ _ _) as [[c1 files1] r1]. destruct Hrel as [Hrel _].
  destruct intent as [i|]; [|by apply Hback]. destruct (restoreWritesOff m c); [by apply Hback|].
  destruct (blocked _ _ _) as [st|].
  - pose proof (publish_held sys cpu f answer now (c ▷ set_intent "" ▷ set_preset (cgi_Preset i) ▷ set_status st) r files) as Hp.
    unfold hold. destruct (publish answer _ now r) as [c2 r2]. apply Hback, Hp. by apply (Held_ext sys cpu f c).
  - destruct d as [f'|]; [|by apply Hback]. change f' with f.
    pose proof (step_held sys cpuinfo cpu HR Hids b Hb f Hf answer (cgi_Preset i +:+ "|" +:+ cgi_Boost i) (cgi_Preset i) i now c files r Hr HH) as Ha.
    destruct (step _ _ _ _ _ _ _) as [[c2 files2] r2]. by apply Hback.
Qed.

(** C1. Whatever the reconciles before it asked of the CPU governor, the
    reconcile that lets go of it leaves every attribute of the node reading
    what discovery found before the agent's first write: the governor and the
    preference of each policy, and boost where it is set. Until then only
    those files differ. *)
Theorem reconciles_put_back sys cpuinfo cpu b c files :
  ReadCPU sys cpuinfo = Some cpu -> Forall isID (PolicyIDs (sy_cpufreqNames sys)) ->
  cb_Groups b = cb_Groups (baseline (cpu_Policies cpu)) -> restorable cpu -> reconciled sys cpu b c files ->
  (forall p, ~ Touched cpu (cpu_Facts cpu) p -> word files p = word (sy_files sys) p) /\
  (forall answer m f now r, sameNode cpu f -> c_changed c = true -> c_contended c = false -> mayRestore m c = true ->
   (c_retryAt c <= now)%Z ->
   let '(c', files', _) := reconcileCPU answer m (Some f) (Some b) None now c files r in
   gst_result (c_status c') = GovernorResultRestored /\ forall p, word files' p = word (sy_files sys) p).
Proof.
  intros HR Hids Hb Hr Hrec. pose proof (sameNode_found sys cpuinfo cpu HR) as H0.
  assert (Held sys cpu (cpu_Facts cpu) c files) as HH.
  { induction Hrec as [name|c files answer m d intent now r c' files' r' _ IH Hd E]; [by split|].
    pose proof (reconcileCPU_held sys cpuinfo cpu b answer m d intent now c files r HR Hids Hb Hr Hd IH) as Hs.
    by rewrite E in Hs. }
  split; [apply (h_untouched _ _ _ _ _ HH)|]. intros answer m f now r Hf Hc Hcon Hm Hle.
  apply (Held_same sys cpu _ f) in HH; [|done..].
  pose proof (release_held sys cpuinfo cpu HR Hids b Hb f Hf answer m (Some f) now c files r Hr HH ltac:(by right)) as Hrel.
  unfold reconcileCPU. cbn [fmap option_fmap option_map] in *.
  destruct (release _ _ _ _ _ _ _) as [[c1 files1] r1]. destruct Hrel as [_ Hrel]. by apply Hrel.
Qed.

(** ** When the node is left alone *)

Lemma release_quiet {W} answer m (restore : option (governorComponent -> W -> governorOutcome * governorComponent * W)) now c w r :
  mayRestore m c = false \/ c_changed c = false \/ c_contended c = true -> (release answer m restore now c w r).1.2 = w.
Proof.
  intros Hno. unfold release.
  assert (c_changed (if c_contended c then c ▷ set_changed false ▷ set_contended false else c) && mayRestore m c = false) as ->.
  { destruct (c_contended c) eqn:E; [done|]. destruct Hno as [->|[->|?]]; [by rewrite andb_false_r|done|done]. }
  destruct (_ && _); [|done]. by destruct (updateNodeTwinGovernorStatus _ _ _ _ _).
Qed.

(** What a release does to the host is the restore, of a component that was
    changed. *)
Lemma release_restores {H} `{!SysfsHost H} answer m d b now c (h : H) r :
  let h' := (release answer m ((fun f => restoreCPU f b) <$> d) now c h r).1.2 in
  h' = h \/ (c_changed c = true /\ exists f, d = Some f /\ h' = (restoreCPU f b c h).2).
Proof.
  cbv zeta. destruct (decide (mayRestore m c = false \/ c_changed c = false \/ c_contended c = true)) as [Hno|Hyes].
  - left. by apply release_quiet.
  - assert (mayRestore m c = true /\ c_changed c = true /\ c_contended c = false) as (Em & Ec & Econ).
    { destruct (mayRestore m c), (c_changed c), (c_contended c); split_and!; try done; destruct Hyes; auto. }
    unfold release. rewrite Econ, Ec, Em. cbn [andb]. destruct d as [f|]; [|by left]. cbn [fmap option_fmap option_map].
    destruct (negb _ && _); [by left|]. right. split; [done|]. exists f. split; [done|].
    destruct (restoreCPU f b c h) as [[out c1] h1]. by destruct (publish _ _ _ _).
Qed.

(** The agent leaves the host alone when it only simulates, does not run on
    the node, or was refused; and with writes off, unless an earlier run
    changed the CPU governor: then the only thing it does is restore. *)
Theorem reconcileCPU_quiet {H} `{!SysfsHost H} answer m d b intent now c (h : H) r :
  (md_simulateOnly m = true \/ md_remote m = true \/ c_refused c = true ->
   (reconcileCPU answer m d b intent now c h r).1.2 = h) /\
  (md_writes m = false ->
   let h' := (reconcileCPU answer m d b intent now c h r).1.2 in
   h' = h \/ (c_changed c = true /\ exists f, d = Some f /\ h' = (restoreCPU f b c h).2)).
Proof.
  split.
  - intros Hq. assert (mayRestore m c = false) as Hm.
    { unfold mayRestore. destruct Hq as [->|[->| ->]]; [done|by destruct (md_simulateOnly m)|by rewrite andb_false_r]. }
    unfold reconcileCPU. destruct intent as [i|]; [|by apply release_quiet; left].
    assert (restoreWritesOff m c = false) as -> by (unfold restoreWritesOff; by rewrite Hm, andb_false_r).
    destruct (blocked _ _ _) as [st|] eqn:Eb.
    + unfold hold. by destruct (publish _ _ _ _).
    + destruct d as [f|]; [|done]. unfold step. rewrite act_quiet.
      * by destruct (publish _ _ _ _).
      * left. unfold blocked in Eb. destruct (md_simulateOnly m); [done|]. destruct (md_writes m); [|done].
        destruct (md_remote m); [done|]. by destruct Hq as [?|[?|?]].
  - intros Hw. cbv zeta. unfold reconcileCPU.
    assert (forall missing result, exists st, blocked m missing result = Some st) as Hbl
      by (intros; unfold blocked; destruct (md_simulateOnly m); [eauto|]; rewrite Hw; eauto).
    pose proof (release_restores answer m d b now c h r) as Hrel.
    destruct intent as [i|]; [|exact Hrel]. destruct (restoreWritesOff m c); [exact Hrel|]. left.
    destruct (Hbl (match d with None => "no cpufreq governor on this node" | Some _ => "" end) GovernorResultUnsupported) as [st ->].
    unfold hold. by destruct (publish _ _ _ _).
Qed.

(** ** A node with a boost per policy *)

Definition sampleFiles : gmap string string := list_to_map [
  (PolicyRelPath 0 policyDriverFile, "amd-pstate-epp
"); (PolicyRelPath 0 PolicyGovernorFile, "powersave
"); (PolicyRelPath 0 policyAvailableGovsFile, "performance powersave
"); (PolicyRelPath 0 PolicyEPPFile, "balance_performance
"); (PolicyRelPath 0 policyAvailableEPPsFile, "default performance balance_performance balance_power power
"); (PolicyRelPath 0 PolicyBoostFile, "0
"); (PolicyRelPath 1 PolicyGovernorFile, "performance
"); (PolicyRelPath 1 PolicyEPPFile, "performance
"); (PolicyRelPath 1 PolicyBoostFile, "1
"); (GlobalBoostRelPath, "0
")].

Definition sampleSys : Sys := mkSys sampleFiles ["policy1"; "boost"; "policy0"].
Definition noFacts : CPUFacts := {| cf_Driver := ""; cf_DriverMode := ""; cf_HWP := false; cf_Governors := [];
  cf_EPPs := []; cf_BoostScope := ""; cf_Policies := [] |}.
Definition sampleCPU : CPU :=
  default {| cpu_Facts := noFacts; cpu_Policies := []; cpu_HasEPP := false; cpu_Files := [] |} (ReadCPU sampleSys None).
Definition sampleBaseline : CPUGovernorBaseline := baseline (cpu_Policies sampleCPU).

Definition sampleStep (intent : option CPUGovernorIntent) (now : Z) (s : governorComponent * gmap string string * Reports) :=
  reconcileCPU (fun _ => Patched) agentMode (Some (cpu_Facts sampleCPU)) (Some sampleBaseline) intent now s.1.1 s.1.2 s.2.

Definition boosted : governorComponent * gmap string string * Reports :=
  reconcileCPU (fun _ => Patched) agentMode (Some (cpu_Facts sampleCPU)) (Some sampleBaseline)
    (Some {| cgi_Preset := "performance"; cgi_Boost := "on" |}) 1 (newComponent "cpuGovernor") sampleFiles noReports.

Example reconciles_put_back_witness :
  word boosted.1.2 GlobalBoostRelPath = "1" /\ word boosted.1.2 (PolicyRelPath 0 PolicyGovernorFile) = "performance" /\
  let '(_, files', _) := sampleStep None 2 boosted in
  word files' GlobalBoostRelPath = "0" /\ word files' (PolicyRelPath 0 PolicyGovernorFile) = "powersave".
Proof.
  split; [vm_compute; reflexivity|]. split; [vm_compute; reflexivity|].
  assert (ReadCPU sampleSys None = Some sampleCPU) as HR by (vm_compute; reflexivity).
  assert (restorable sampleCPU) as Hr.
  { intros s Hs. assert (Forall (fun s => pol_EPP s <> "" /\ pol_Boost s <> "") (cpu_Policies sampleCPU)) as HF
      by (vm_compute; repeat constructor; discriminate). rewrite Forall_forall in HF.
    destruct (HF s Hs) as [H1 H2]. split; intros _; assumption. }
  destruct (reconciles_put_back sampleSys None sampleCPU sampleBaseline boosted.1.1 boosted.1.2) as [_ H].
  - exact HR.
  - assert (PolicyIDs (sy_cpufreqNames sampleSys) = [0; 1]%Z) as -> by (vm_compute; reflexivity).
    repeat (constructor; [split; discriminate|]). constructor.
  - reflexivity.
  - exact Hr.
  - eapply (reconciled_step _ _ _ (newComponent "cpuGovernor") sampleFiles (fun _ => Patched) agentMode (Some (cpu_Facts sampleCPU))
      (Some {| cgi_Preset := "performance"; cgi_Boost := "on" |}) 1 noReports _ _ boosted.2).
    + apply (reconciled_start sampleSys).
    + intros f E. assert (f = cpu_Facts sampleCPU) as -> by congruence. apply (sameNode_found sampleSys None). exact HR.
    + apply triple_eta.
  - assert (c_changed boosted.1.1 = true) as H1 by (vm_compute; reflexivity).
    assert (c_contended boosted.1.1 = false) as H2 by (vm_compute; reflexivity).
    assert (mayRestore agentMode boosted.1.1 = true) as H3 by (vm_compute; reflexivity).
    assert (c_retryAt boosted.1.1 <= 2)%Z as H4 by (vm_compute; discriminate).
    pose proof (sameNode_found sampleSys None sampleCPU HR) as H5.
    specialize (H (fun _ => Patched) agentMode (cpu_Facts sampleCPU) 2%Z boosted.2 H5 H1 H2 H3 H4).
    unfold sampleStep. destruct (reconcileCPU _ _ _ _ None 2 _ _ _) as [[c' files'] r']. destruct H as [_ H].
    rewrite !H. split; vm_compute; reflexivity.
Defined.

Example reconcileCPU_quiet_witness :
  (reconcileCPU (fun _ => Patched) {| md_simulateOnly := true; md_writes := true; md_remote := false; md_http := false |}
     (Some (cpu_Facts sampleCPU)) (Some sampleBaseline) (Some {| cgi_Preset := "performance"; cgi_Boost := "on" |}) 1
     (newComponent "cpuGovernor") sampleFiles noReports).1.2 = sampleFiles.
Proof. apply reconcileCPU_quiet. by left. Defined.
