(* ===== verification/NvidiaControl.v ===== *)
(** * NVIDIA governor control: the nvidia-smi part of cmd/agent/governor_control.go

    Clock locks are set and reset by nvidia-smi commands and cannot be read
    back, so the agent keeps a record of the locks it set per GPU. Here are
    the record, the runs of plans with the undo of one cut short, applying,
    verifying in use, issuing again and restoring; and the proof that the
    record tells the truth whatever commands fail ([accounted]). *)

From S2P Require Import Prelude GoString GoFloat GoSlices Api Governor GpuGovernor Native Host CpuDiscovery NvidiaDiscovery GovernorLoop.

#[local] Open Scope string_scope.

(** src/cmd/agent/governor_discovery.go:92-95 [nvidiaGovernorFacts] *)
Record nvidiaGovernorFacts := { ng_BusID : string; ng_Facts : NVFacts }.

(** src/cmd/agent/governor_control.go:70-75 [nvidiaVerifySamples, nvidiaVerifyTolerance, nvidiaReasonGPUIdle] *)
Definition nvidiaVerifySamples : Z := 3.
Definition nvidiaVerifyTolerance : float64 := flit 102 100.
Definition nvidiaReasonGPUIdle : Z := 1.

Definition noRecord : nvidiaRecord := mkRecord None None.
Definition noPlan : Plan := mkPlan [] [] noState "" "".

(** Whether a record holds a lock. *)
Definition holdsLock (r : nvidiaRecord) : bool :=
  match nr_gpu r, nr_mem r with None, None => false | _, _ => true end.

(** ** The record *)

(** src/cmd/agent/governor_control.go:1197-1209 [seedNvidia] *)
Definition seedNvidia (gpus : list nvidiaGovernorFacts) (c : governorComponent) : governorComponent :=
  match c_nvSeed c with
  | None => c
  | Some st =>
      (c ▷ set_nv (foldl (fun nv n => <[ng_BusID n := mkRecord (st_GPULockMHz st) (st_MemLockMHz st)]> nv) (c_nv c) gpus)
         ▷ set_nvSeed None)
  end.

(** src/cmd/agent/governor_control.go:1212-1219 [nvidiaLocked] *)
Definition nvidiaLocked (c : governorComponent) : bool := existsb (fun kv => holdsLock kv.2) (map_to_list (c_nv c)).

(** src/cmd/agent/governor_control.go:1222-1228 [nvidiaFacts] *)
Definition nvidiaFacts (c : governorComponent) (n : nvidiaGovernorFacts) : NVFacts :=
  let f := ng_Facts n in
  match c_nv c !! ng_BusID n with
  | None => f
  | Some r =>
      let set {A} (l : option A) := match l with Some _ => true | None => false end in
      {| nf_Arch := nf_Arch f; nf_SupportedSMMHz := nf_SupportedSMMHz f; nf_SupportedMemMHz := nf_SupportedMemMHz f;
         nf_MemLockRuntime := nf_MemLockRuntime f; nf_LockedGPU := set (nr_gpu r); nf_LockedMem := set (nr_mem r) |}
  end.

(** One argument of a command.
    src/cmd/agent/governor_control.go:1243-1254 [args] *)
Definition recordArg (plan : Plan) (r : nvidiaRecord) (a : string) : nvidiaRecord :=
  if String.eqb a "-lgc" then mkRecord (st_GPULockMHz (p_State plan)) (nr_mem r)
  else if String.eqb a "-lmc" then mkRecord (nr_gpu r) (st_MemLockMHz (p_State plan))
  else if String.eqb a "-rgc" then mkRecord None (nr_mem r)
  else if String.eqb a "-rmc" then mkRecord (nr_gpu r) None
  else r.

(** src/cmd/agent/governor_control.go:1233-1255 [recordNvidia] *)
Definition recordNvidia (bus : string) (args : list string) (plan : Plan) (c : governorComponent) : governorComponent :=
  (c ▷ set_nv (<[bus := foldl (recordArg plan) (default noRecord (c_nv c !! bus)) args]> (c_nv c))).

(** src/cmd/agent/governor_control.go:1293-1293 [nvidiaLockResets] *)
Definition nvidiaLockResets (a : string) : option string :=
  if String.eqb a "-lgc" then Some "-rgc" else if String.eqb a "-lmc" then Some "-rmc" else None.

(** The lock a command set and the reset that clears it.
    src/cmd/agent/governor_control.go:1303-1308 [nvidiaLockResets] *)
Definition lockOf (args : list string) : option (string * string) :=
  foldl (fun acc a => match nvidiaLockResets a with Some r => Some (a, r) | None => acc end) None args.

Definition isReset (args : list string) : bool := str_mem "-rgc" args || str_mem "-rmc" args.

Section Run.
Context {W : Type} `{!NvidiaSmi W}.

(** The commands, last first; the resets that succeeded, whether one failed,
    and the note.
    src/cmd/agent/governor_control.go:1301-1324 [undoNvidiaLocks] *)
Fixpoint undoLocks (bus : string) (rdone : list (list string)) (c : governorComponent) (w : W)
    : nat * bool * string * governorComponent * W :=
  match rdone with
  | [] => (0%nat, false, "", c, w)
  | d :: rest =>
      match lockOf d with
      | None => undoLocks bus rest c w
      | Some (lock, reset) =>
          let args := ["-i"; bus; reset] in
          let '(err, out, w) := smi_run args w in
          let '(res, msg) := ClassifyRun ("nvidia-smi " +:+ Join args " ") err out in
          if negb (String.eqb res GovernorResultApplied) then
            let '(undone, _, note, c, w) := undoLocks bus rest c w in
            (undone, true, "; the " +:+ lock +:+ " lock set before stays, its reset failed: " +:+ msg +:+ note, c, w)
          else
            let '(undone, kept, note, c, w) := undoLocks bus rest (recordNvidia bus args noPlan c) w in
            (S undone, kept, "; the " +:+ lock +:+ " lock set before was reset with " +:+ reset +:+ note, c, w)
      end
  end.

(** src/cmd/agent/governor_control.go:1301-1324 [undoNvidiaLocks] *)
Definition undoNvidiaLocks (bus : string) (done : list (list string)) (c : governorComponent) (w : W)
    : nat * bool * string * governorComponent * W := undoLocks bus (rev done) c w.

(** The commands of one GPU's plan: how many succeeded, and the failure with
    the commands that ran before it.
    src/cmd/agent/governor_control.go:1268-1287 [plans] *)
Fixpoint runArgs (bus : string) (plan : Plan) (todo done : list (list string)) (c : governorComponent) (w : W)
    : nat * option (string * string * list (list string)) * governorComponent * W :=
  match todo with
  | [] => (0%nat, None, c, w)
  | args :: rest =>
      let '(err, out, w) := smi_run args w in
      let '(result, message) := ClassifyRun ("nvidia-smi " +:+ Join args " ") err out in
      if negb (String.eqb result GovernorResultApplied) then (0%nat, Some (result, message, done), c, w)
      else
        let '(issued, failure, c, w) := runArgs bus plan rest (done ++ [args]) (recordNvidia bus args plan c) w in
        (S issued, failure, c, w)
  end.

(** What stays in force on the GPU whose plan was cut short.
    src/cmd/agent/governor_control.go:1273-1280 [stayed] *)
Definition stayedLocks (kept : bool) (done : list (list string)) (bus : string) (c : governorComponent) : string :=
  if kept || existsb isReset done then
    let r := default noRecord (c_nv c !! bus) in
    NativeNvidia (mkState "" "" "" "" 0 (nr_gpu r) (nr_mem r))
  else "".

(** The GPUs in order; the natives of those done before. The result is empty
    when every command succeeded.
    src/cmd/agent/governor_control.go:1265-1290 [runNvidiaPlans] *)
Fixpoint runNvidiaPlans (plans : gmap string Plan) (order natives : list string) (c : governorComponent) (w : W)
    : nat * (string * string * string) * governorComponent * W :=
  match order with
  | [] => (0%nat, ("", "", ""), c, w)
  | bus :: rest =>
      let plan := default noPlan (plans !! bus) in
      let '(issued, failure, c, w) := runArgs bus plan (p_Args plan) [] c w in
      match failure with
      | Some (result, message, done) =>
          let '(undone, kept, note, c, w) := undoNvidiaLocks bus done c w in
          ((issued + undone)%nat,
           (result, message +:+ note, uniformOrMixed (natives ++ [stayedLocks kept done bus c])), c, w)
      | None =>
          let '(issued', failure, c, w) := runNvidiaPlans plans rest (natives ++ [p_Native plan]) c w in
          ((issued + issued')%nat, failure, c, w)
      end
  end.

(** ** Verifying a lock in use *)

(** Every locked GPU has its samples.
    src/cmd/agent/governor_control.go:1359-1367 [nvidiaVerified] *)
Definition nvidiaVerified (c : governorComponent) : bool :=
  forallb (fun kv => negb (holdsLock kv.2 && (default 0 (c_nvGood c !! kv.1) <? nvidiaVerifySamples)%Z)) (map_to_list (c_nv c)).

(** src/cmd/agent/governor_control.go:1370-1373 [nvidiaSample] *)
Record nvidiaSample := { sm_smMHz : float64; sm_memMHz : float64; sm_busy : bool }.

Context (ParseFloat : string -> option float64).

(** A failed query gives no samples.
    src/cmd/agent/governor_control.go:1378-1390 [nvidiaSamples] *)
Definition nvidiaSamples (w : W) : gmap string nvidiaSample * W :=
  let '(rows, w) := QueryNvidiaClocks ParseFloat w in
  (foldl (fun res r =>
     if nc_ClocksOK r && nc_ReasonsOK r
     then <[nc_BusID r := {| sm_smMHz := nc_SMMHz r; sm_memMHz := nc_MemMHz r;
                             sm_busy := (Z.land (nc_Reasons r) nvidiaReasonGPUIdle =? 0)%Z |}]> res
     else res) ∅ (default [] rows), w).

(** src/cmd/agent/governor_control.go:1407-1412 [within] *)
Definition atMost (v : float64) (hi : Z) : bool := fle v (fmul (fofZ hi) nvidiaVerifyTolerance).

Definition withinLock (l : option (Z * Z)) (v : float64) : bool :=
  match l with
  | None => true
  | Some (lo, hi) => atMost v hi && fle (fdiv (fofZ lo) nvidiaVerifyTolerance) v
  end.

(** The samples counted for one GPU; each GPU's count is its own, so the
    order of the map does not matter.
    src/cmd/agent/governor_control.go:1402-1418 [samples] *)
Definition countSample (samples : gmap string nvidiaSample) (bus : string) (r : nvidiaRecord) (good : gmap string Z)
    : gmap string Z :=
  match samples !! bus with
  | None => good
  | Some s =>
      if negb (sm_busy s) || negb (holdsLock r) then good
      else
        let gpuOK := match nr_gpu r with None => true | Some (_, hi) => atMost (sm_smMHz s) hi end in
        if gpuOK && withinLock (nr_mem r) (sm_memMHz s)
        then <[bus := (default 0 (good !! bus) + 1)%Z]> good
        else <[bus := 0%Z]> good
  end.

(** It always reports the setting as holding.
    src/cmd/agent/governor_control.go:1396-1426 [verifyNvidia] *)
Definition verifyNvidia (c : governorComponent) (w : W) : governorComponent * W :=
  if negb (String.eqb (gst_result (c_status c)) GovernorResultAppliedUnverified) then (c, w)
  else
    let '(samples, w) := nvidiaSamples w in
    let c := (c ▷ set_nvGood (map_fold (countSample samples) (c_nvGood c) (c_nv c))) in
    if nvidiaVerified c then
      let st := mkStatus (gst_backend (c_status c)) GovernorResultApplied
                  ("verified by " +:+ Itoa nvidiaVerifySamples +:+ " busy samples per GPU") (gst_applied (c_status c)) in
      ((c ▷ set_status st ▷ set_good st), w)
    else (c, w).

(** ** Issuing locks again *)

(** src/cmd/agent/main.go:1528-1535 [splitCSVLine] *)
Definition splitCSVLine (ln : string) : list string := (fun p => TrimSpace (TrimChars is_quote p)) <$> Split ln ",".

(** src/cmd/agent/governor_control.go:1430-1443 [nvidiaPersistenceOff] *)
Definition persistenceRow (ln : string) : option string :=
  match splitCSVLine ln with
  | bus :: mode :: _ => if EqualFold mode "Disabled" then Some bus else None
  | _ => None
  end.

(** src/cmd/agent/governor_control.go:1430-1443 [nvidiaPersistenceOff] *)
Definition nvidiaPersistenceOff (w : W) : option (list string) * W :=
  let '(err, out, w) := smi_run ["--query-gpu=pci.bus_id,persistence_mode"; "--format=csv,noheader"] w in
  match err with
  | Some _ => (None, w)
  | None => (Some (omap persistenceRow (Split (TrimSpace out) newline)), w)
  end.

(** src/cmd/agent/governor_control.go:1448-1465 [nvidiaReissueDue] *)
Definition nvidiaReissueDue (now : Z) (c : governorComponent) (w : W) : bool * W :=
  if negb (nvidiaLocked c) then (false, w)
  else if (governorReapplyEvery <=? tsub now (c_lastApply c))%Z then (true, w)
  else
    let '(off, w) := nvidiaPersistenceOff w in
    match off with
    | None => (false, w)
    | Some off => (existsb (fun kv => holdsLock kv.2 && str_mem kv.1 off) (map_to_list (c_nv c)), w)
    end.

(** ** Applying and restoring *)

(** The text of a planner error; the percentage is spelled by [FormatG].
    src/pkg/governor/amdgpu.go:77-85 [checkGPUPreset] *)
Definition gpuPlanError (FormatG : float64 -> string) (preset : string) (ceiling : float64) (noBus : string) : string :=
  if negb (str_mem preset GPUGovernorPresetValues) then "governor: unknown GPU preset " +:+ Quote preset
  else if negb (checkGPUPreset preset ceiling)
  then "governor: compute clock ceiling " +:+ FormatG ceiling +:+ "% of max is outside (0, 100]"
  else noBus.

Context (FormatG : float64 -> string).

(** The plans of the GPUs in order, or the outcome that stops the apply.
    src/cmd/agent/governor_control.go:1331-1346 [NVIDIA] *)
Fixpoint planNvidias (c : governorComponent) (gpus : list nvidiaGovernorFacts) (preset : string) (ceiling : float64)
    (plans : gmap string Plan) (order natives : list string) (result : string)
    : governorOutcome + (gmap string Plan * list string * list string * string) :=
  let backend := GovernorBackendNvidiaSMI in
  match gpus with
  | [] => inr (plans, order, natives, result)
  | n :: rest =>
      match PlanNvidia (nvidiaFacts c n) (ng_BusID n) preset ceiling with
      | None =>
          inl (mkOutcome (mkStatus backend GovernorResultError
            (gpuPlanError FormatG preset ceiling "governor: NVIDIA GPU without a bus id") "") 0 false)
      | Some plan =>
          if String.eqb (p_Result plan) GovernorResultUnsupported then
            inl (mkOutcome (mkStatus backend GovernorResultUnsupported
              ("preset " +:+ Quote preset +:+ " is not supported by the GPU at " +:+ ng_BusID n) "") 0 false)
          else
            planNvidias c rest preset ceiling (<[ng_BusID n := plan]> plans) (order ++ [ng_BusID n]) (natives ++ [p_Native plan])
              (if String.eqb (p_Result plan) GovernorResultEquivalent then GovernorResultEquivalent else result)
      end
  end.

(** src/cmd/agent/governor_control.go:1326-1356 [applyNvidia] *)
Definition applyNvidia (gpus : list nvidiaGovernorFacts) (preset : string) (ceiling : float64)
    (c : governorComponent) (w : W) : governorOutcome * governorComponent * W :=
  let backend := GovernorBackendNvidiaSMI in
  match planNvidias c gpus preset ceiling ∅ [] [] GovernorResultApplied with
  | inl out => (out, c, w)
  | inr (plans, order, natives, result) =>
      let native := uniformOrMixed natives in
      let '(issued, (res, msg, inForce), c, w) := runNvidiaPlans plans order [] c w in
      if negb (String.eqb res "") then (mkOutcome (mkStatus backend res msg inForce) issued true, c, w)
      else
        let result := if String.eqb result GovernorResultApplied && nvidiaLocked c && negb (nvidiaVerified c)
                      then GovernorResultAppliedUnverified else result in
        (mkOutcome (mkStatus backend result "" native) issued true, c, w)
  end.

(** The GPUs with something to reset.
    src/cmd/agent/governor_control.go:1473-1480 [NVIDIA] *)
Definition resetPlans (c : governorComponent) (gpus : list nvidiaGovernorFacts) : gmap string Plan * list string :=
  foldl (fun '(plans, order) n =>
    match PlanNvidia (nvidiaFacts c n) (ng_BusID n) GPUGovernorPresetAuto fzero with
    | Some plan => match p_Args plan with
                   | [] => (plans, order)
                   | _ => (<[ng_BusID n := plan]> plans, (order ++ [ng_BusID n])%list)
                   end
    | None => (plans, order)
    end) (∅, []) gpus.

(** src/cmd/agent/governor_control.go:1469-1487 [restoreNvidia] *)
Definition restoreNvidia (gpus : list nvidiaGovernorFacts) (c : governorComponent) (w : W)
    : governorOutcome * governorComponent * W :=
  let backend := GovernorBackendNvidiaSMI in
  let '(plans, order) := resetPlans c gpus in
  let '(issued, (res, msg, _), c, w) := runNvidiaPlans plans order [] c w in
  if negb (String.eqb res "") then (mkOutcome (mkStatus backend res ("restore: " +:+ msg) "") issued true, c, w)
  else (mkOutcome (mkStatus backend GovernorResultRestored "the agent's clock locks reset" GovernorStateUnlocked) issued
          (0 <? issued)%nat, c, w).

(** src/cmd/agent/governor_control.go:945-949 [governorOps] *)
Definition nvidiaOps (gpus : list nvidiaGovernorFacts) (preset : string) (ceiling : float64) : governorOps := {|
  op_apply := applyNvidia gpus preset ceiling;
  op_check c w := let '(c, w) := verifyNvidia c w in (true, false, "", c, w);
  op_reissue := Some nvidiaReissueDue
|}.

(** The NVIDIA mechanism is one of the loop's: the commands change its record
    of locks alone. *)
Lemma undoLocks_control bus rdone : forall c w, let '(_, _, _, c', _) := undoLocks bus rdone c w in sameControl c c'.
Proof.
  induction rdone as [|d rest IH]; intros c w; cbn [undoLocks]; [done|]. destruct (lockOf d) as [[lock reset]|]; [|apply IH].
  destruct (smi_run _ w) as [[err out] w1]. destruct (ClassifyRun _ err out) as [res msg]. destruct (negb _).
  - pose proof (IH c w1) as H. by destruct (undoLocks bus rest c w1) as [[[[? ?] ?] ?] ?].
  - set (c1 := recordNvidia _ _ _ c). pose proof (IH c1 w1) as H. destruct (undoLocks bus rest c1 w1) as [[[[? ?] ?] ?] ?].
    by etrans; [|exact H].
Qed.

Lemma runArgs_control bus plan todo : forall done_ c w, let '(_, _, c', _) := runArgs bus plan todo done_ c w in sameControl c c'.
Proof.
  induction todo as [|args rest IH]; intros done_ c w; cbn [runArgs]; [done|].
  destruct (smi_run args w) as [[err out] w1]. destruct (ClassifyRun _ err out) as [res msg]. destruct (negb _); [done|].
  set (c1 := recordNvidia _ _ _ c). pose proof (IH (done_ ++ [args])%list c1 w1) as H.
  destruct (runArgs bus plan rest _ c1 w1) as [[[? ?] ?] ?]. by etrans; [|exact H].
Qed.

Lemma runNvidiaPlans_control plans order : forall natives c w,
  let '(_, _, c', _) := runNvidiaPlans plans order natives c w in sameControl c c'.
Proof.
  induction order as [|bus rest IH]; intros natives c w; cbn [runNvidiaPlans]; [done|]. set (plan := default noPlan (plans !! bus)).
  pose proof (runArgs_control bus plan (p_Args plan) [] c w) as Hr.
  destruct (runArgs bus plan (p_Args plan) [] c w) as [[[issued failure] c1] w1]. destruct failure as [[[result message] ran]|].
  - pose proof (undoLocks_control bus (rev ran) c1 w1) as Hu. unfold undoNvidiaLocks.
    destruct (undoLocks bus (rev ran) c1 w1) as [[[[undone kept] note] c2] w2]. by etrans.
  - pose proof (IH (natives ++ [p_Native plan])%list c1 w1) as Hn.
    destruct (runNvidiaPlans plans rest _ c1 w1) as [[[n out] c2] w2]. by etrans.
Qed.

#[export] Instance nvidiaOps_mechanism gpus preset ceiling : Mechanism (nvidiaOps gpus preset ceiling).
Proof.
  split; intros c w; cbn [op_apply op_check op_reissue nvidiaOps].
  - unfold applyNvidia. destruct (planNvidias _ _ _ _ _ _ _ _) as [out|[[[plans order] natives] result]]; [done|].
    pose proof (runNvidiaPlans_control plans order [] c w) as H.
    destruct (runNvidiaPlans plans order [] c w) as [[[issued [[res msg] inForce]] c1] w1]. cbn. by destruct (negb _).
  - unfold verifyNvidia. destruct (negb _); [done|]. destruct (nvidiaSamples w) as [samples w1]. by destruct (nvidiaVerified _).
  - intros w'. by destruct (verifyNvidia _ _).
Qed.

(** What forces it is a GPU with a lock of the agent's that nvidia-smi lists
    with persistence mode off. *)
Lemma nvidiaOps_forced gpus preset ceiling now c w : forced (nvidiaOps gpus preset ceiling) now c w = true ->
  exists off bus r, (nvidiaPersistenceOff w).1 = Some off /\ c_nv c !! bus = Some r /\ holdsLock r = true /\ str_mem bus off = true.
Proof.
  unfold forced. cbn [op_reissue nvidiaOps]. intros [Hd Ht]%andb_prop. unfold nvidiaReissueDue in Hd.
  destruct (negb (nvidiaLocked c)); [done|]. destruct (Z.leb_spec governorReapplyEvery (tsub now (c_lastApply c))); [lia|].
  destruct (nvidiaPersistenceOff w) as [[off|] w1]; [|done]. cbn [fst] in *. apply existsb_exists in Hd as ([bus r] & Hin & Hb).
  apply andb_prop in Hb as [Hl Hm]. exists off, bus, r. split; [done|].
  split; [by apply elem_of_map_to_list, list_elem_of_In|done].
Qed.
End Run.

(** ** What nvidia-smi does to locks *)

(** A PCI bus id as nvidia-smi prints it, in upper case and with colons: not
    an index, a list, a UUID or an option. *)
Definition busChar (a : ascii) : bool :=
  is_digit a || ((65 <=? byte_of a) && (byte_of a <=? 70))%N || Ascii.eqb a ":" || Ascii.eqb a ".".
Definition isBus (bus : string) : Prop :=
  Forall (fun a => busChar a = true) (list_ascii_of_string bus) /\ ":"%char ∈ list_ascii_of_string bus.

(** The commands of a plan. *)
Inductive lockCommand (bus : string) (st : State) : list string -> Prop :=
| lgc_command l : st_GPULockMHz st = Some l -> lock64 (Some l) -> lockCommand bus st ["-i"; bus; "-lgc"; lockArg l]
| lmc_command l : st_MemLockMHz st = Some l -> lock64 (Some l) -> lockCommand bus st ["-i"; bus; "-lmc"; lockArg l]
| rgc_command : lockCommand bus st ["-i"; bus; "-rgc"]
| rmc_command : lockCommand bus st ["-i"; bus; "-rmc"].

(** A query of fields or of the supported clocks. *)
Definition isQuery (args : list string) : bool :=
  match args with a :: _ => HasPrefix a "--query-gpu=" || String.eqb a "-q" | [] => false end.

(** nvidia-smi as its manual describes it: a lock or reset command on a bus id
    that succeeds changes the locks of that GPU as it says, one that fails
    changes nothing, and a query changes no lock. The locks of a GPU are what
    no command can read; they are in the world all the same. *)
Class LockingSmi (W : Type) `{!NvidiaSmi W} := {
  gpuLocks : W -> string -> option (Z * Z) * option (Z * Z);
  smi_command bus st args w : isBus bus -> lockCommand bus st args ->
    let '(err, out, w') := smi_run args w in
    gpuLocks w' bus = (if String.eqb (ClassifyRun "" err out).1 GovernorResultApplied
                       then textRun args (gpuLocks w bus) else gpuLocks w bus) /\
    forall bus', bus' <> bus -> gpuLocks w' bus' = gpuLocks w bus';
  smi_query args w : isQuery args = true -> forall bus, gpuLocks (smi_run args w).2 bus = gpuLocks w bus
}.

Lemma ClassifyRun_result cmd err out : (ClassifyRun cmd err out).1 = (ClassifyRun "" err out).1.
Proof. unfold ClassifyRun. destruct err; [done|]. by destruct (find _ _). Qed.

(** A bus id is none of the words of a command. *)
Definition notFlag (a : string) : Prop := a ∉ ["-lgc"; "-lmc"; "-rgc"; "-rmc"].

Lemma isBus_notFlag bus : isBus bus -> notFlag bus.
Proof.
  intros [Hb _] Hf. repeat (apply elem_of_cons in Hf as [Hf|Hf]; [rewrite Hf in Hb; by apply Forall_cons in Hb as [? _]|]).
  by apply not_elem_of_nil in Hf.
Qed.

Lemma recordArg_other plan r a : notFlag a -> recordArg plan r a = r.
Proof.
  unfold notFlag, recordArg. intros H. repeat match goal with |- context [String.eqb a ?s] => destruct (String.eqb_spec a s) as [->|] end;
    try done; destruct H; set_solver.
Qed.

Lemma notFlag_lockArg l : notFlag (lockArg l).
Proof.
  destruct l as [a b]. unfold notFlag. intros H.
  assert (forall flag, Cut flag "," = (flag, "", false) -> lockArg (a, b) <> flag) as Hf
    by (intros flag Hc; by apply String.eqb_neq, lockArg_not_flag).
  repeat (apply elem_of_cons in H as [H|H]; [revert H; by apply Hf|]). by apply not_elem_of_nil in H.
Qed.

(** What a command makes of a record is what it makes of the locks. *)
Lemma recordArgs_command bus plan args r : isBus bus -> lockCommand bus (p_State plan) args ->
  let r' := foldl (recordArg plan) r args in
  (nr_gpu r', nr_mem r') = textRun args (nr_gpu r, nr_mem r).
Proof.
  intros Hb [[lo hi] Hl H64|[lo hi] Hl H64| |]; cbn [foldl];
    rewrite (recordArg_other _ _ "-i") by (unfold notFlag; by_decide); rewrite (recordArg_other _ _ bus) by (by apply isBus_notFlag);
    try (rewrite (recordArg_other _ _ (lockArg _)) by apply notFlag_lockArg);
    unfold recordArg, textRun; cbn [String.eqb Ascii.eqb Bool.eqb nr_gpu nr_mem fst snd]; rewrite ?Hl;
    try rewrite parseLockArg_lockArg by done; done.
Qed.

(** ** The record tells the truth *)

(** A domain of a GPU: where the record holds a lock it is the lock in force;
    where it holds none, the domain has the lock found at the start, or none. *)
Definition told (recorded inForce start : option (Z * Z)) : Prop :=
  match recorded with Some l => inForce = Some l | None => inForce = start \/ inForce = None end.

Definition recordOf (c : governorComponent) (bus : string) : nvidiaRecord := default noRecord (c_nv c !! bus).

Section Accounted.
Context {W : Type} `{!NvidiaSmi W} `{!LockingSmi W}.
Context (start : string -> option (Z * Z) * option (Z * Z)).

Definition accounted (c : governorComponent) (w : W) : Prop :=
  forall bus, told (nr_gpu (recordOf c bus)) (gpuLocks w bus).1 (start bus).1 /\
              told (nr_mem (recordOf c bus)) (gpuLocks w bus).2 (start bus).2.

Lemma accounted_ext c c' w w' :
  accounted c w -> c_nv c' = c_nv c -> (forall bus, gpuLocks w' bus = gpuLocks w bus) -> accounted c' w'.
Proof. intros H En Ew bus. unfold recordOf. rewrite En, Ew. apply H. Qed.

Lemma recordOf_recordNvidia bus args plan c bus' :
  recordOf (recordNvidia bus args plan c) bus' =
    if decide (bus' = bus) then foldl (recordArg plan) (recordOf c bus) args else recordOf c bus'.
Proof.
  unfold recordOf, recordNvidia. cbn [c_nv set_nv]. destruct (decide (bus' = bus)) as [->|Hne].
  - by rewrite lookup_insert_eq.
  - by rewrite lookup_insert_ne.
Qed.

Lemma accounted_command bus plan args c w w' :
  isBus bus -> lockCommand bus (p_State plan) args -> gpuLocks w' bus = textRun args (gpuLocks w bus) ->
  (forall bus', bus' <> bus -> gpuLocks w' bus' = gpuLocks w bus') ->
  accounted c w -> accounted (recordNvidia bus args plan c) w'.
Proof.
  intros Hb Hcmd Hw Hother Hacc bus'. rewrite recordOf_recordNvidia. destruct (decide (bus' = bus)) as [->|Hne].
  2:{ rewrite Hother by done. apply Hacc. }
  pose proof (recordArgs_command bus plan args (recordOf c bus) Hb Hcmd) as Hr. cbv zeta in Hr.
  set (r' := foldl _ _ _) in *. clearbody r'. rewrite Hw. specialize (Hacc bus). destruct Hacc as [Hg Hm].
  destruct (gpuLocks w bus) as [g m]. cbn [fst snd] in *.
  destruct Hcmd as [[lo hi] Hl H64|[lo hi] Hl H64| |]; unfold textRun in *; cbn [String.eqb Ascii.eqb Bool.eqb fst snd] in *;
    try (rewrite parseLockArg_lockArg in * by done); apply pair_equal_spec in Hr as [-> ->]; cbn [told]; auto.
Qed.

(** A command of a plan: it fails, or the record follows it. *)
Lemma run_accounted bus plan args c w cmd :
  isBus bus -> lockCommand bus (p_State plan) args -> accounted c w ->
  let '(err, out, w') := smi_run args w in
  accounted (if String.eqb (ClassifyRun cmd err out).1 GovernorResultApplied then recordNvidia bus args plan c else c) w'.
Proof.
  intros Hb Hcmd Hacc. pose proof (smi_command bus (p_State plan) args w Hb Hcmd) as Hs. destruct (smi_run _ w) as [[err out] w'].
  rewrite (ClassifyRun_result cmd). destruct Hs as [Hs Ho]. destruct (String.eqb _ _).
  - by apply (accounted_command _ _ _ _ w).
  - apply (accounted_ext c _ w); [done|done|]. intros bus'. destruct (decide (bus' = bus)) as [->|]; auto.
Qed.

(** A reset the undo runs. *)
Lemma lockOf_command bus st args : isBus bus -> lockCommand bus st args ->
  lockOf args = None \/ exists lock reset, lockOf args = Some (lock, reset) /\ lockCommand bus noState ["-i"; bus; reset].
Proof.
  intros Hb. assert (forall a, notFlag a -> nvidiaLockResets a = None) as Hno.
  { intros a Ha. unfold nvidiaLockResets. destruct (String.eqb_spec a "-lgc") as [->|]; [by destruct Ha; by_decide|].
    destruct (String.eqb_spec a "-lmc") as [->|]; [by destruct Ha; by_decide|done]. }
  intros [l _ _|l _ _| |]; unfold lockOf; cbn [foldl]; rewrite (Hno bus) by (by apply isBus_notFlag); rewrite ?(Hno (lockArg l)) by apply notFlag_lockArg;
    cbn; [right; exists "-lgc", "-rgc"; split; [done|constructor]|right; exists "-lmc", "-rmc"; split; [done|constructor]|by left|by left].
Qed.

Lemma undoLocks_accounted bus st rdone c w :
  isBus bus -> Forall (lockCommand bus st) rdone -> accounted c w ->
  let '(_, _, _, c', w') := undoLocks bus rdone c w in accounted c' w'.
Proof.
  intros Hb Hdone. revert c w. induction Hdone as [|d rest Hd _ IH]; intros c w Hacc; cbn [undoLocks]; [done|].
  destruct (lockOf_command bus st d Hb Hd) as [->|(lock & reset & -> & Hcmd)]; [by apply IH|].
  pose proof (run_accounted bus noPlan ["-i"; bus; reset] c w ("nvidia-smi " +:+ Join ["-i"; bus; reset] " ") Hb Hcmd Hacc) as Hr.
  destruct (smi_run _ w) as [[err out] w1]. destruct (ClassifyRun _ err out) as [res msg]. cbn [fst] in Hr.
  destruct (String.eqb res GovernorResultApplied); cbn [negb].
  - specialize (IH _ _ Hr). destruct (undoLocks bus rest _ _) as [[[[undone kept] note] c2] w2]. done.
  - specialize (IH _ _ Hr). destruct (undoLocks bus rest _ _) as [[[[undone kept] note] c2] w2]. done.
Qed.

Lemma runArgs_accounted bus plan todo done c w :
  isBus bus -> Forall (lockCommand bus (p_State plan)) todo -> Forall (lockCommand bus (p_State plan)) done -> accounted c w ->
  let '(_, failure, c', w') := runArgs bus plan todo done c w in
  accounted c' w' /\ forall res msg d, failure = Some (res, msg, d) -> Forall (lockCommand bus (p_State plan)) d /\ res <> GovernorResultApplied.
Proof.
  intros Hb Htodo. revert done c w. induction Htodo as [|args rest Hargs _ IH]; intros done c w Hdone Hacc; cbn [runArgs]; [by split|].
  pose proof (run_accounted bus plan args c w ("nvidia-smi " +:+ Join args " ") Hb Hargs Hacc) as Hr.
  destruct (smi_run _ w) as [[err out] w1]. destruct (ClassifyRun _ err out) as [res msg]. cbn [fst] in Hr.
  destruct (String.eqb_spec res GovernorResultApplied) as [|Hne]; cbn [negb].
  - specialize (IH (done ++ [args])%list _ w1 ltac:(apply Forall_app; split; [done|by constructor]) Hr).
    destruct (runArgs bus plan rest _ _ _) as [[[issued failure] c2] w2]. done.
  - split; [done|]. intros ? ? ? [= <- <- <-]. done.
Qed.

Definition lockPlan (bus : string) (plan : Plan) : Prop := isBus bus /\ Forall (lockCommand bus (p_State plan)) (p_Args plan).

Lemma runNvidiaPlans_accounted plans order natives c w :
  Forall (fun bus => lockPlan bus (default noPlan (plans !! bus))) order -> accounted c w ->
  let '(_, _, c', w') := runNvidiaPlans plans order natives c w in accounted c' w'.
Proof.
  intros Horder. revert natives c w. induction Horder as [|bus rest [Hb Hp] _ IH]; intros natives c w Hacc; cbn [runNvidiaPlans]; [done|].
  pose proof (runArgs_accounted bus (default noPlan (plans !! bus)) (p_Args (default noPlan (plans !! bus))) [] c w Hb Hp
    ltac:(constructor) Hacc) as Hr.
  destruct (runArgs _ _ _ _ _ _) as [[[issued failure] c1] w1]. destruct Hr as [Hacc1 Hf].
  destruct failure as [[[res msg] dn]|].
  - destruct (Hf _ _ _ eq_refl) as [Hd _]. unfold undoNvidiaLocks.
    pose proof (undoLocks_accounted bus _ (rev dn) c1 w1 Hb ltac:(by apply List.Forall_rev) Hacc1) as Hu.
    destruct (undoLocks _ _ _ _) as [[[[undone kept] note] c2] w2]. done.
  - specialize (IH (natives ++ [p_Native (default noPlan (plans !! bus))])%list c1 w1 Hacc1).
    destruct (runNvidiaPlans _ _ _ _ _) as [[[issued' failure'] c2] w2]. done.
Qed.
End Accounted.

(** ** Plans of the agent *)

Definition clocksOf (n : nvidiaGovernorFacts) : Prop :=
  isBus (ng_BusID n) /\ Forall clock (nf_SupportedSMMHz (ng_Facts n)) /\ Forall clock (nf_SupportedMemMHz (ng_Facts n)).

Lemma nvidiaFacts_same c n :
  nf_SupportedSMMHz (nvidiaFacts c n) = nf_SupportedSMMHz (ng_Facts n) /\
  nf_SupportedMemMHz (nvidiaFacts c n) = nf_SupportedMemMHz (ng_Facts n) /\
  nvMemLockable (nvidiaFacts c n) = nvMemLockable (ng_Facts n).
Proof. unfold nvidiaFacts. by destruct (c_nv c !! _). Qed.

Lemma PlanNvidia_lockPlan c n preset pct plan :
  clocksOf n -> PlanNvidia (nvidiaFacts c n) (ng_BusID n) preset pct = Some plan -> lockPlan (ng_BusID n) plan.
Proof.
  intros (Hb & Hsm & Hmem) Hp. split; [done|]. destruct (nvidiaFacts_same c n) as (E1 & E2 & _). rewrite <- E1 in Hsm. rewrite <- E2 in Hmem.
  unfold PlanNvidia in Hp. destruct (negb _); [done|]. destruct (String.eqb _ ""); [done|].
  destruct (chooseNvidia_lock64 _ preset pct Hsm Hmem) as [Hg64 Hm64]. set (ch := chooseNvidia _ preset pct) in *.
  destruct (String.eqb (nv_result ch) _); injection Hp as <-; cbn [p_Args p_State]; [constructor|].
  apply Forall_app. split.
  - destruct (nv_gpu ch) as [l|] eqn:El; [constructor; [|constructor]; by apply lgc_command|].
    destruct (nf_LockedGPU _); [constructor; [|constructor]|constructor]. apply rgc_command.
  - destruct (nv_mem ch) as [l|] eqn:El; [constructor; [|constructor]; by apply lmc_command|].
    destruct (_ && _); [constructor; [|constructor]|constructor]. apply rmc_command.
Qed.

Lemma planNvidias_lockPlan FormatG c gpus preset ceiling plans order natives result :
  Forall clocksOf gpus -> (forall bus plan, plans !! bus = Some plan -> lockPlan bus plan) ->
  Forall (fun bus => is_Some (plans !! bus)) order ->
  match planNvidias FormatG c gpus preset ceiling plans order natives result with
  | inl _ => True
  | inr (plans', order', _, _) => Forall (fun bus => lockPlan bus (default noPlan (plans' !! bus))) order'
  end.
Proof.
  intros Hg. revert plans order natives result. induction Hg as [|n gpus Hn _ IH]; intros plans order natives result Hp Ho; cbn [planNvidias].
  - eapply Forall_impl; [exact Ho|]. cbn. intros bus [plan E]. rewrite E. by apply Hp.
  - destruct (PlanNvidia _ _ _ _) as [plan|] eqn:E; [|done]. destruct (String.eqb (p_Result plan) GovernorResultUnsupported); [done|].
    apply IH.
    + intros bus plan'. destruct (decide (ng_BusID n = bus)) as [<-|Hne]; [rewrite lookup_insert_eq|rewrite lookup_insert_ne by done; apply Hp].
      intros [= <-]. by apply (PlanNvidia_lockPlan c n preset ceiling).
    + apply Forall_app. split; [|constructor; [|constructor]; by rewrite lookup_insert_eq].
      eapply Forall_impl; [exact Ho|]. cbn. intros bus Hs. destruct (decide (ng_BusID n = bus)) as [<-|Hne];
        [by rewrite lookup_insert_eq|by rewrite lookup_insert_ne].
Qed.

(** ** Restoring *)

(** One domain of a record, and its reset. *)
Definition lockIn (gpu : bool) (r : nvidiaRecord) : option (Z * Z) := if gpu then nr_gpu r else nr_mem r.
Definition resetFlag (gpu : bool) : string := if gpu then "-rgc" else "-rmc".

Definition unlocking (plan : Plan) : Prop := st_GPULockMHz (p_State plan) = None /\ st_MemLockMHz (p_State plan) = None.

Lemma reset_record dom bus plan args c bus' :
  isBus bus -> unlocking plan -> lockCommand bus (p_State plan) args ->
  (lockIn dom (recordOf c bus') = None -> lockIn dom (recordOf (recordNvidia bus args plan c) bus') = None) /\
  (args = ["-i"; bus; resetFlag dom] -> lockIn dom (recordOf (recordNvidia bus args plan c) bus) = None).
Proof.
  intros Hb [Hg Hm] Hcmd. rewrite !recordOf_recordNvidia. rewrite (decide_True (P := bus = bus)) by done.
  pose proof (recordArgs_command bus plan args (recordOf c bus) Hb Hcmd) as Hr. cbv zeta in Hr.
  set (r' := foldl _ _ _) in *. clearbody r'. destruct Hcmd as [l Hl _|l Hl _| |]; [congruence|congruence|..];
    unfold textRun in Hr; cbn [String.eqb Ascii.eqb Bool.eqb fst snd] in Hr; apply pair_equal_spec in Hr as [E1 E2];
    (split; [destruct (decide (bus' = bus)) as [->|]; [|done]; destruct dom; cbn [lockIn]; congruence|]);
    intros [= E]; by destruct dom.
Qed.

Definition runRecord (plan : Plan) (bus : string) (c : governorComponent) : governorComponent :=
  foldl (fun c args => recordNvidia bus args plan c) c (p_Args plan).

Lemma runRecord_keeps dom bus plan args_list c bus' :
  isBus bus -> unlocking plan -> Forall (lockCommand bus (p_State plan)) args_list ->
  lockIn dom (recordOf c bus') = None ->
  lockIn dom (recordOf (foldl (fun c args => recordNvidia bus args plan c) c args_list) bus') = None.
Proof.
  intros Hb Hu Hargs. revert c. induction Hargs as [|args rest Hcmd _ IH]; intros c H0; cbn [foldl]; [done|].
  apply IH. by apply (reset_record dom bus plan args c bus' Hb Hu Hcmd).
Qed.

Lemma runRecord_clears dom bus plan c :
  lockPlan bus plan -> unlocking plan -> ["-i"; bus; resetFlag dom] ∈ p_Args plan ->
  lockIn dom (recordOf (runRecord plan bus c) bus) = None.
Proof.
  intros [Hb Hargs] Hu. unfold runRecord. revert c. induction Hargs as [|args rest Hcmd Hrest IH]; intros c; cbn [foldl].
  - by intros ?%not_elem_of_nil.
  - intros [E|Hin]%elem_of_cons; [|by apply IH]. apply runRecord_keeps; [done..|].
    by apply (reset_record dom bus plan args c bus Hb Hu Hcmd).
Qed.

Section Restore.
Context {W : Type} `{!NvidiaSmi W}.

Lemma runArgs_success bus plan todo dn c (w : W) :
  let '(_, failure, c', _) := runArgs bus plan todo dn c w in
  match failure with
  | None => c' = foldl (fun c args => recordNvidia bus args plan c) c todo
  | Some (res, _, _) => res ∈ writeResults
  end.
Proof.
  revert dn c w. induction todo as [|args rest IH]; intros dn c w; cbn [runArgs]; [done|].
  destruct (smi_run args w) as [[err out] w1].
  pose proof (ClassifyRun_values ("nvidia-smi " +:+ Join args " ") err out) as Hne.
  destruct (ClassifyRun _ err out) as [res msg]. cbn [fst] in Hne. destruct (negb _); [done|].
  specialize (IH (dn ++ [args])%list (recordNvidia bus args plan c) w1).
  by destruct (runArgs bus plan rest _ _ _) as [[[issued failure] c2] w2].
Qed.

(** A run without a failure leaves the record of every command. *)
Lemma runNvidiaPlans_success plans order natives c (w : W) :
  let '(_, (res, _, _), c', _) := runNvidiaPlans plans order natives c w in
  (res = "" -> c' = foldl (fun c bus => runRecord (default noPlan (plans !! bus)) bus c) c order) /\
  (res = "" \/ res ∈ writeResults).
Proof.
  revert natives c w. induction order as [|bus rest IH]; intros natives c w; cbn [runNvidiaPlans]; [by split; [|left]|].
  pose proof (runArgs_success bus (default noPlan (plans !! bus)) (p_Args (default noPlan (plans !! bus))) [] c w) as Hr.
  destruct (runArgs _ _ _ _ _ _) as [[[issued failure] c1] w1]. destruct failure as [[[res msg] dn]|].
  - destruct (undoNvidiaLocks _ _ _ _) as [[[[undone kept] note] c2] w2]. split; [|by right].
    intros E. exfalso. rewrite E in Hr. revert Hr. unfold writeResults. by_decide.
  - specialize (IH (natives ++ [p_Native (default noPlan (plans !! bus))])%list c1 w1).
    destruct (runNvidiaPlans _ rest _ _ _) as [[[issued' [[res msg] inForce]] c2] w2]. destruct IH as [IH IH'].
    split; [|done]. intros E. rewrite (IH E), Hr. done.
Qed.

(** The reset plans of the GPUs: auto plans, for every GPU with a lock to
    reset. *)
Lemma resetPlans_spec c gpus :
  NoDup (ng_BusID <$> gpus) ->
  let '(plans, order) := resetPlans c gpus in
  (forall bus, bus ∈ order <-> is_Some (plans !! bus)) /\
  (forall bus plan, plans !! bus = Some plan <-> exists n, n ∈ gpus /\ ng_BusID n = bus /\
     PlanNvidia (nvidiaFacts c n) bus GPUGovernorPresetAuto fzero = Some plan /\ p_Args plan <> []).
Proof.
  unfold resetPlans. induction gpus as [|n gpus IH] using rev_ind; intros Hnd.
  { cbn. split; [intros bus; rewrite elem_of_nil, lookup_empty; split; [done|by intros [? ?]]|].
    intros bus plan. rewrite lookup_empty. split; [done|]. by intros (n & ?%not_elem_of_nil & _). }
  rewrite fmap_app in Hnd. apply NoDup_app in Hnd as (Hnd & Hno & _). rewrite foldl_snoc. specialize (IH Hnd).
  destruct (foldl _ _ gpus) as [plans order]. destruct IH as [IH1 IH2].
  assert (forall m, m ∈ gpus -> ng_BusID m <> ng_BusID n) as Hdiff.
  { intros m Hm E. apply (Hno (ng_BusID m)); [apply list_elem_of_fmap; eauto|]. rewrite E. left. }
  assert (forall bus plan, (exists m, m ∈ (gpus ++ [n])%list /\ ng_BusID m = bus /\
      PlanNvidia (nvidiaFacts c m) bus GPUGovernorPresetAuto fzero = Some plan /\ p_Args plan <> []) <->
    (bus <> ng_BusID n /\ plans !! bus = Some plan) \/
    (bus = ng_BusID n /\ PlanNvidia (nvidiaFacts c n) bus GPUGovernorPresetAuto fzero = Some plan /\ p_Args plan <> [])) as Hiff.
  { intros bus plan. split.
    - intros (m & [Hm|Hm%list_elem_of_singleton]%elem_of_app & <- & HP); [left|right; by subst m].
      split; [by apply Hdiff|]. apply IH2. by exists m.
    - intros [[Hne (m & Hm & HP)%IH2]|(-> & HP)]; [exists m|exists n]; (split; [|done]); apply elem_of_app; [by left|right; left]. }
  assert (plans !! ng_BusID n = None) as Hnone.
  { destruct (plans !! ng_BusID n) as [plan|] eqn:E; [|done]. apply IH2 in E as (m & Hm & Em & _). by apply Hdiff in Em. }
  destruct (PlanNvidia (nvidiaFacts c n) (ng_BusID n) GPUGovernorPresetAuto fzero) as [plan|] eqn:EP.
  - destruct (p_Args plan) as [|a l] eqn:Ea.
    + split; [done|]. intros bus p. rewrite Hiff. split; [|intros [[_ ?]|(-> & E & ?)]; [done|congruence]].
      intros E. left. split; [|done]. intros ->. congruence.
    + split.
      * intros bus. rewrite elem_of_app, list_elem_of_singleton, IH1.
        destruct (decide (bus = ng_BusID n)) as [->|Hne]; [rewrite lookup_insert_eq; split; eauto|].
        rewrite lookup_insert_ne by done. split; [by intros [?|?]|by left].
      * intros bus p. rewrite Hiff. destruct (decide (bus = ng_BusID n)) as [->|Hne].
        -- rewrite lookup_insert_eq. rewrite EP. split; [intros [= <-]; right; split_and!; congruence|].
           intros [[? _]|(_ & ? & _)]; done.
        -- rewrite lookup_insert_ne by done. split; [by left|]. by intros [[_ ?]|[? _]].
  - split; [done|]. intros bus p. rewrite Hiff. split; [|intros [[_ ?]|(-> & E & ?)]; [done|congruence]].
    intros E. left. split; [|done]. intros ->. congruence.
Qed.
End Restore.

Lemma auto_unlocking f bus plan : PlanNvidia f bus GPUGovernorPresetAuto fzero = Some plan -> unlocking plan.
Proof.
  unfold PlanNvidia, chooseNvidia. destruct (negb _); [done|]. destruct (String.eqb bus ""); [done|].
  destruct (negb (nvKnownArch _)); [by intros [= <-]|]. rewrite String.eqb_refl. cbn [nv_result nv_gpu nv_mem].
  change (String.eqb GovernorResultApplied GovernorResultUnsupported) with false. by intros [= <-].
Qed.

Lemma runRecords_keep dom (plans : gmap string Plan) order c bus' :
  Forall (fun bus => lockPlan bus (default noPlan (plans !! bus)) /\ unlocking (default noPlan (plans !! bus))) order ->
  lockIn dom (recordOf c bus') = None ->
  lockIn dom (recordOf (foldl (fun c bus => runRecord (default noPlan (plans !! bus)) bus c) c order) bus') = None.
Proof.
  intros Ho. revert c. induction Ho as [|bus rest [[Hb Hargs] Hu] _ IH]; intros c H0; cbn [foldl]; [done|].
  apply IH. by apply runRecord_keeps.
Qed.

Lemma runRecords_clear dom (plans : gmap string Plan) order c bus :
  Forall (fun bus => lockPlan bus (default noPlan (plans !! bus)) /\ unlocking (default noPlan (plans !! bus))) order ->
  bus ∈ order -> ["-i"; bus; resetFlag dom] ∈ p_Args (default noPlan (plans !! bus)) ->
  lockIn dom (recordOf (foldl (fun c bus => runRecord (default noPlan (plans !! bus)) bus c) c order) bus) = None.
Proof.
  intros Ho Hin Hargs. revert c. induction Ho as [|b rest [Hl Hu] Hrest IH]; intros c; cbn [foldl]; [by apply not_elem_of_nil in Hin|].
  apply elem_of_cons in Hin as [<-|Hin]; [|by apply IH]. apply runRecords_keep; [done|]. by apply runRecord_clears.
Qed.

(** The reset of a recorded lock is in the GPU's auto plan. *)
Lemma auto_resets dom c n plan :
  lockIn dom (recordOf c (ng_BusID n)) <> None -> dom = true \/ nvMemLockable (ng_Facts n) = true ->
  nvKnownArch (nf_Arch (ng_Facts n)) = true ->
  PlanNvidia (nvidiaFacts c n) (ng_BusID n) GPUGovernorPresetAuto fzero = Some plan ->
  ["-i"; ng_BusID n; resetFlag dom] ∈ p_Args plan.
Proof.
  intros Hl Hdom Ha. unfold PlanNvidia, chooseNvidia. destruct (negb (checkGPUPreset _ _)); [done|]. destruct (String.eqb _ ""); [done|].
  destruct (nvidiaFacts_same c n) as (_ & _ & Em). unfold recordOf in Hl.
  assert (nf_Arch (nvidiaFacts c n) = nf_Arch (ng_Facts n)) as -> by (unfold nvidiaFacts; by destruct (c_nv c !! _)).
  rewrite Ha, String.eqb_refl. cbn [negb nv_result nv_gpu nv_mem].
  change (String.eqb GovernorResultApplied GovernorResultUnsupported) with false. cbv iota. intros [= <-]. cbn [p_Args].
  rewrite Em. unfold nvidiaFacts. destruct (c_nv c !! ng_BusID n) as [[g m]|]; [|by destruct dom]. cbn [nf_LockedGPU nf_LockedMem].
  rewrite elem_of_app. destruct dom; cbn [lockIn default from_option nr_gpu nr_mem id resetFlag] in *.
  - left. destruct g; [by left|done].
  - right. destruct Hdom as [|Hm]; [done|]. rewrite Hm. destruct m; [by left|done].
Qed.

(** A restore that says so holds no lock any more on any GPU it knows. *)
Lemma restoreNvidia_clears {W} `{!NvidiaSmi W} gpus c (w : W) :
  Forall clocksOf gpus -> NoDup (ng_BusID <$> gpus) ->
  let '(out, c', _) := restoreNvidia gpus c w in
  gst_result (out_status out) = GovernorResultRestored ->
  forall n dom, n ∈ gpus -> dom = true \/ nvMemLockable (ng_Facts n) = true -> nvKnownArch (nf_Arch (ng_Facts n)) = true ->
    ng_BusID n <> "" -> lockIn dom (recordOf c' (ng_BusID n)) = None.
Proof.
  intros Hg Hnd. unfold restoreNvidia. pose proof (resetPlans_spec c gpus Hnd) as Hs.
  destruct (resetPlans c gpus) as [plans order]. destruct Hs as [Ho Hp].
  assert (Forall (fun bus => lockPlan bus (default noPlan (plans !! bus)) /\ unlocking (default noPlan (plans !! bus))) order) as Hall.
  { apply Forall_forall. intros bus [plan E]%Ho. rewrite E. apply Hp in E as (n & Hn & <- & EP & _). rewrite Forall_forall in Hg.
    split; [by eapply PlanNvidia_lockPlan; [apply Hg|]|by eapply auto_unlocking]. }
  pose proof (runNvidiaPlans_success plans order [] c w) as Hrun.
  destruct (runNvidiaPlans plans order [] c w) as [[[issued [[res msg] inForce]] c'] w']. destruct Hrun as [Hrun Hres].
  destruct (String.eqb_spec res "") as [E|Hne]; cbn [negb out_status gst_result].
  2:{ intros E. exfalso. destruct Hres as [|Hin]; [done|]. rewrite E in Hin. revert Hin. unfold writeResults. by_decide. }
  intros _ n dom Hn Hdom Ha Hbus. rewrite (Hrun E). destruct (decide (lockIn dom (recordOf c (ng_BusID n)) = None)) as [E0|E0];
    [by apply runRecords_keep|].
  assert (exists plan, PlanNvidia (nvidiaFacts c n) (ng_BusID n) GPUGovernorPresetAuto fzero = Some plan) as [plan EP].
  { unfold PlanNvidia. change (negb (checkGPUPreset GPUGovernorPresetAuto fzero)) with false. cbv iota.
    apply String.eqb_neq in Hbus. rewrite Hbus. by destruct (String.eqb _ GovernorResultUnsupported); eauto. }
  pose proof (auto_resets dom c n plan E0 Hdom Ha EP) as Hin.
  assert (plans !! ng_BusID n = Some plan) as Epl.
  { apply Hp. exists n. split_and!; try done. intros En. rewrite En in Hin. by apply not_elem_of_nil in Hin. }
  apply runRecords_clear; [done|apply Ho; by rewrite Epl|by rewrite Epl].
Qed.

(** ** Every run of the loop *)

Section Runs.
Context (ParseFloat : string -> option float64) (FormatG : float64 -> string).
Context {W : Type} `{!NvidiaSmi W} `{!LockingSmi W}.

Lemma query_keeps args (w : W) err out w' :
  smi_run args w = (err, out, w') -> isQuery args = true -> forall bus, gpuLocks w' bus = gpuLocks w bus.
Proof. intros E Hh bus. pose proof (smi_query args w Hh bus) as H. by rewrite E in H. Qed.

Lemma QueryNvidiaClocks_keeps w bus : gpuLocks (QueryNvidiaClocks ParseFloat w).2 bus = gpuLocks w bus.
Proof.
  unfold QueryNvidiaClocks. destruct (smi_run NvidiaClockQueryArgs w) as [[err out] w1] eqn:E1.
  pose proof (query_keeps _ _ _ _ _ E1 eq_refl) as H1.
  destruct (FieldRejected err); [destruct (smi_run NvidiaClockQueryFallbackArgs w1) as [[err2 out2] w2] eqn:E2|].
  - rewrite <- H1, <- (query_keeps _ _ _ _ _ E2 eq_refl). by destruct err2.
  - rewrite <- H1. by destruct err.
Qed.

Lemma verifyNvidia_keeps c w : let '(c', w') := verifyNvidia ParseFloat c w in
  c_nv c' = c_nv c /\ forall bus, gpuLocks w' bus = gpuLocks w bus.
Proof.
  unfold verifyNvidia. destruct (negb _); [done|]. unfold nvidiaSamples. pose proof (QueryNvidiaClocks_keeps w) as Hq.
  destruct (QueryNvidiaClocks ParseFloat w) as [rows w1]. by destruct (nvidiaVerified _).
Qed.

Lemma nvidiaReissueDue_keeps now c w bus : gpuLocks (nvidiaReissueDue now c w).2 bus = gpuLocks w bus.
Proof.
  unfold nvidiaReissueDue. destruct (negb _); [done|]. destruct (_ <=? _)%Z; [done|]. unfold nvidiaPersistenceOff.
  destruct (smi_run _ w) as [[err out] w1] eqn:E. pose proof (query_keeps _ _ _ _ _ E eq_refl bus) as H. by destruct err.
Qed.

Context (start : string -> option (Z * Z) * option (Z * Z)).

Lemma applyNvidia_accounted gpus preset ceiling c w :
  Forall clocksOf gpus -> accounted start c w ->
  let '(_, c', w') := applyNvidia FormatG gpus preset ceiling c w in accounted start c' w'.
Proof.
  intros Hg Hacc. unfold applyNvidia.
  pose proof (planNvidias_lockPlan FormatG c gpus preset ceiling ∅ [] [] GovernorResultApplied Hg
    ltac:(intros bus plan; by rewrite lookup_empty) ltac:(constructor)) as Hp.
  destruct (planNvidias _ _ _ _ _ _ _ _ _) as [out|[[[plans order] natives] result]]; [done|].
  pose proof (runNvidiaPlans_accounted start plans order [] c w Hp Hacc) as Hr.
  destruct (runNvidiaPlans plans order [] c w) as [[[issued [[res msg] inForce]] c1] w1]. cbn. by destruct (negb _).
Qed.

Lemma restoreNvidia_accounted gpus c w :
  Forall clocksOf gpus -> NoDup (ng_BusID <$> gpus) -> accounted start c w ->
  let '(_, c', w') := restoreNvidia gpus c w in accounted start c' w'.
Proof.
  intros Hg Hnd Hacc. unfold restoreNvidia. pose proof (resetPlans_spec c gpus Hnd) as Hs.
  destruct (resetPlans c gpus) as [plans order]. destruct Hs as [Ho Hp].
  assert (Forall (fun bus => lockPlan bus (default noPlan (plans !! bus))) order) as Hall.
  { apply Forall_forall. intros bus [plan E]%Ho. rewrite E. apply Hp in E as (n & Hn & <- & EP & _). rewrite Forall_forall in Hg.
    eapply PlanNvidia_lockPlan; [by apply Hg|exact EP]. }
  pose proof (runNvidiaPlans_accounted start plans order [] c w Hall Hacc) as Hr.
  destruct (runNvidiaPlans plans order [] c w) as [[[issued [[res msg] inForce]] c1] w1]. cbn. by destruct (negb _).
Qed.

Lemma release_accounted answer m restore now c w r :
  (forall f, restore = Some f -> forall c w, accounted start c w -> let '(_, c', w') := f c w in accounted start c' w') ->
  accounted start c w -> let '(c', w', _) := release answer m restore now c w r in accounted start c' w'.
Proof.
  intros Hf Hacc. unfold release. set (c0 := if c_contended c then _ else c).
  assert (accounted start c0 w) as H0 by (apply (accounted_ext start c _ w); [done|subst c0; by destruct (c_contended c)|done]).
  destruct (_ && _).
  - destruct restore as [f|]; [|done]. destruct (_ && _); [done|]. pose proof (Hf f eq_refl c0 w H0) as Ha.
    destruct (f c0 w) as [[out c1] w1]. match goal with |- context [publish answer ?c2 now r] => set (c3 := c2) end.
    assert (accounted start c3 w1) as H3
      by (apply (accounted_ext start c1 _ w1); [done| |done]; subst c3; by repeat match goal with |- context [if ?x then _ else _] => destruct x end).
    pose proof (publish_mechanism answer c3 now r) as (_ & _ & Hm & _). destruct (publish answer c3 now r) as [c4 r4].
    by apply (accounted_ext start c3 _ w1).
  - destruct (_ && _); [|by apply (accounted_ext start c0 _ w)].
    destruct (updateNodeTwinGovernorStatus _ _ _ _ _) as [ok r']. apply (accounted_ext start c0 _ w); [done|by destruct ok|done].
Qed.
End Runs.

(** The reconciles of an agent that starts without a record of its own: steps
    on any intent and ceiling, and releases, with the GPUs each discovered. *)
Inductive nvidiaRuns {W} `{!NvidiaSmi W} (ParseFloat : string -> option float64) (FormatG : float64 -> string) (w0 : W) :
  governorComponent -> W -> Prop :=
| nvidia_start name : nvidiaRuns ParseFloat FormatG w0 (newComponent name) w0
| nvidia_step answer gpus key preset ceiling now c w r c' w' r' :
    nvidiaRuns ParseFloat FormatG w0 c w -> Forall clocksOf gpus ->
    step answer key preset (nvidiaOps ParseFloat FormatG gpus preset ceiling) now c w r = (c', w', r') ->
    nvidiaRuns ParseFloat FormatG w0 c' w'
| nvidia_release answer m gpus now c w r c' w' r' :
    nvidiaRuns ParseFloat FormatG w0 c w -> Forall clocksOf gpus -> NoDup (ng_BusID <$> gpus) ->
    release answer m (Some (restoreNvidia gpus)) now c w r = (c', w', r') ->
    nvidiaRuns ParseFloat FormatG w0 c' w'.

(** C5. The agent always knows which clock locks are its own, whichever commands
    nvidia-smi refused on the way: where its record holds a lock, that lock is
    in force; where it holds none, the GPU has the lock the agent found at its
    start, or none. A restore that reports restored leaves no lock of the
    agent on the GPUs it knows. *)
Theorem nvidia_locks_accounted {W} `{!NvidiaSmi W} `{!LockingSmi W} ParseFloat FormatG (w0 : W) c w :
  nvidiaRuns ParseFloat FormatG w0 c w ->
  accounted (gpuLocks w0) c w /\
  forall gpus, Forall clocksOf gpus -> NoDup (ng_BusID <$> gpus) ->
    let '(out, _, w') := restoreNvidia gpus c w in
    gst_result (out_status out) = GovernorResultRestored ->
    forall n, n ∈ gpus -> nvKnownArch (nf_Arch (ng_Facts n)) = true -> ng_BusID n <> "" ->
      ((gpuLocks w' (ng_BusID n)).1 = (gpuLocks w0 (ng_BusID n)).1 \/ (gpuLocks w' (ng_BusID n)).1 = None) /\
      (nvMemLockable (ng_Facts n) = true ->
       (gpuLocks w' (ng_BusID n)).2 = (gpuLocks w0 (ng_BusID n)).2 \/ (gpuLocks w' (ng_BusID n)).2 = None).
Proof.
  intros Hruns. enough (accounted (gpuLocks w0) c w) as Hacc.
  { split; [done|]. intros gpus Hg Hnd. pose proof (restoreNvidia_accounted (gpuLocks w0) gpus c w Hg Hnd Hacc) as Ha.
    pose proof (restoreNvidia_clears gpus c w Hg Hnd) as Hc. destruct (restoreNvidia gpus c w) as [[out c'] w'].
    intros Hres n Hn Harch Hbus. destruct (Ha (ng_BusID n)) as [H1 H2]. specialize (Hc Hres n).
    pose proof (Hc true Hn ltac:(by left) Harch Hbus) as E1. cbn [lockIn] in E1. rewrite E1 in H1. split; [exact H1|].
    intros Hm. pose proof (Hc false Hn ltac:(by right) Harch Hbus) as E2. cbn [lockIn] in E2. by rewrite E2 in H2. }
  induction Hruns as [name|answer gpus key preset ceiling now c w r c' w' r' _ IH Hg E|answer m gpus now c w r c' w' r' _ IH Hg Hnd E].
  - intros bus. unfold recordOf. cbn [c_nv newComponent]. rewrite lookup_empty. cbn. auto.
  - pose proof (step_kept answer (accounted (gpuLocks w0)) (nvidiaOps ParseFloat FormatG gpus preset ceiling)) as Hk.
    cbn [op_apply op_check op_reissue nvidiaOps] in Hk.
    assert (let '(c', w', _) := step answer key preset (nvidiaOps ParseFloat FormatG gpus preset ceiling) now c w r in
      accounted (gpuLocks w0) c' w') as Hs; [|by rewrite E in Hs].
    apply Hk; clear Hk; [| | | |done].
    + intros c1 c2 w1 H1 (_ & _ & Hm & _). by apply (accounted_ext _ c1 _ w1).
    + intros c1 w1. by apply applyNvidia_accounted.
    + intros c1 w1 H1. pose proof (verifyNvidia_keeps ParseFloat c1 w1) as Hv. destruct (verifyNvidia ParseFloat c1 w1) as [c2 w2].
      destruct Hv as [Ev Ew]. by apply (accounted_ext _ c1 _ w1).
    + intros f now1 c1 w1 [= <-] H1. apply (accounted_ext _ c1 _ w1); [done|done|]. intros bus. apply nvidiaReissueDue_keeps.
  - pose proof (release_accounted (gpuLocks w0) answer m (Some (restoreNvidia gpus)) now c w r) as Hr. rewrite E in Hr.
    apply Hr; [|done]. intros f [= <-] c1 w1. by apply restoreNvidia_accounted.
Qed.

(** ** A tool that fails now and then *)

(** The locks of each GPU, and which of the runs to come fail. *)
Record Tool := mkTool { tool_locks : gmap string (option (Z * Z) * option (Z * Z)); tool_fails : list bool }.

Definition toolFailure : WriteError :=
  {| we_errno := None; we_notFound := false; we_exitCode := Some 255%Z; we_text := "exit status 255" |}.

Definition locksIn (t : Tool) (bus : string) : option (Z * Z) * option (Z * Z) := default (None, None) (tool_locks t !! bus).

#[export] Instance toolSmi : NvidiaSmi Tool := fun args t =>
  let fails := match tool_fails t with f :: _ => f | [] => false end in
  let rest := tail (tool_fails t) in
  if fails then (Some toolFailure, "", mkTool (tool_locks t) rest)
  else match args with
       | "-i" :: bus :: _ => (None, "", mkTool (<[bus := textRun args (locksIn t bus)]> (tool_locks t)) rest)
       | _ => (None, "", mkTool (tool_locks t) rest)
       end.

#[export] Instance toolLocking : LockingSmi Tool.
Proof.
  refine {| gpuLocks := locksIn |}.
  - intros bus st args t _ Hcmd. assert (exists rest, args = "-i" :: bus :: rest) as [rest ->] by (destruct Hcmd; eauto).
    unfold smi_run, toolSmi. destruct (match tool_fails t with f :: _ => f | [] => false end).
    + change (String.eqb (ClassifyRun "" (Some toolFailure) "").1 GovernorResultApplied) with false. done.
    + change (String.eqb (ClassifyRun "" None "").1 GovernorResultApplied) with true. unfold locksIn at 1. cbn [tool_locks].
      rewrite lookup_insert_eq. split; [done|]. intros bus' Hne. unfold locksIn. cbn [tool_locks]. by rewrite lookup_insert_ne.
  - intros args t Hq bus. unfold smi_run, toolSmi. destruct (match tool_fails t with f :: _ => f | [] => false end); [done|].
    destruct args as [|a [|b l]]; [done|by repeat case_match|]. destruct (decide (a = "-i")) as [->|Hne]; [done|].
    by repeat case_match.
Defined.

Definition sampleGPU : nvidiaGovernorFacts := {| ng_BusID := "00000000:18:00.0"; ng_Facts := sampleA100 |}.

(** The graphics lock is set, the memory lock fails, the graphics lock is
    reset. *)
Definition cutShort : governorComponent * Tool * Reports :=
  step (fun _ => Patched) "peak|" "peak" (nvidiaOps (fun _ => None) (fun _ => "") [sampleGPU] "peak" DefaultCeilingPctOfMax) 1
    (newComponent "gpuGovernor") (mkTool ∅ [false; true; false]) noReports.

Lemma cutShort_eq :
  step (fun _ => Patched) "peak|" "peak" (nvidiaOps (fun _ => None) (fun _ => "") [sampleGPU] "peak" DefaultCeilingPctOfMax) 1
    (newComponent "gpuGovernor") (mkTool ∅ [false; true; false]) noReports = (cutShort.1.1, cutShort.1.2, cutShort.2).
Proof. unfold cutShort. apply triple_eta. Qed.

Example nvidia_locks_accounted_witness :
  gst_message (c_status cutShort.1.1) = "exit status 255; the -lgc lock set before was reset with -rgc" /\
  locksIn cutShort.1.2 "00000000:18:00.0" = (None, None) /\
  accounted (gpuLocks (mkTool ∅ [false; true; false])) cutShort.1.1 cutShort.1.2.
Proof.
  split; [vm_compute; reflexivity|]. split; [vm_compute; reflexivity|].
  assert (clocksOf sampleGPU) as Hg.
  { split; [unfold isBus; by_decide|]. split; apply Forall_forall; intros n Hn; apply list_elem_of_In in Hn; cbn in Hn;
      unfold clock; lia. }
  destruct (nvidia_locks_accounted (fun _ => None) (fun _ => "") (mkTool ∅ [false; true; false]) cutShort.1.1 cutShort.1.2) as [H _].
  - apply (nvidia_step _ _ _ (fun _ => Patched) [sampleGPU] "peak|" "peak" DefaultCeilingPctOfMax 1 (newComponent "gpuGovernor")
      (mkTool ∅ [false; true; false]) noReports _ _ cutShort.2).
    + apply nvidia_start.
    + constructor; [exact Hg|constructor].
    + exact cutShort_eq.
  - exact H.
Defined.
