(* ===== verification/AmdControl.v ===== *)
(** * AMD governor discovery and control: discover/amd.go and cmd/agent/governor_control.go

    The amdgpu devices of a node ([ReadAMD]) and what applying a preset and
    restoring the baseline do to them. A plan is a list of writes per device,
    run in lockstep; an overdrive command is not read back as written, since
    the file prints a table, so each step waits until the driver printed its
    table again. The driver's part is an interface ([Overdrive]): what a wait
    of one poll changes, and how many polls fit before the deadline. *)

From S2P Require Import Prelude GoString GoFloat GoSlices Api Governor GpuGovernor Native Host CpuDiscovery NvidiaControl GovernorLoop.

#[local] Open Scope string_scope.

(** ** Discovery *)

(** src/pkg/governor/discover/amd.go:14-24 [amdFamilies] *)
Definition amdFamilies : gmap string string := list_to_map [
  ("0x7448", AMDFamilyNavi31); ("0x744c", AMDFamilyNavi31); ("0x745e", AMDFamilyNavi31);
  ("0x7408", AMDFamilyAldebaran); ("0x740c", AMDFamilyAldebaran); ("0x740f", AMDFamilyAldebaran);
  ("0x74a0", AMDFamilyMI300); ("0x74a1", AMDFamilyMI300); ("0x74a5", AMDFamilyMI300)].

(** src/pkg/governor/discover/amd.go:29-31 [AMDFamily] *)
Definition AMDFamily (deviceID : string) : string := get_str amdFamilies (ToLower deviceID).

(** The clock of a numbered line of a table.
    src/pkg/governor/discover/amd.go:43-55 [key] *)
Definition dpmLevel (line : string) : option Z :=
  let '(key, value, ok) := Cut line ":" in
  if negb ok then None
  else
    _ ← Atoi (TrimSpace key);
    match Fields value with
    | [] => None
    | w :: _ =>
        mhz ← Atoi (TrimSuffix (TrimSuffix w "Mhz") "MHz");
        if (mhz <=? 0)%Z then None else Some mhz
    end.

(** src/pkg/governor/discover/amd.go:58-61 [mhz] *)
Definition widenDPM (r : Z * Z) (mhz : Z) : Z * Z :=
  ((if (r.1 =? 0)%Z || (mhz <? r.1)%Z then mhz else r.1), Z.max r.2 mhz).

(** src/pkg/governor/discover/amd.go:36-64 [DPMRangeMHz] *)
Definition DPMRangeMHz (files : gmap string string) (path : string) : Z * Z :=
  match ReadWord files path with
  | None => (0, 0)%Z
  | Some s => foldl widenDPM (0, 0)%Z (omap dpmLevel (Split s newline))
  end.

(** src/pkg/governor/discover/amd.go:68-71 [AMDDevice] *)
Record AMDDevice := { ad_Facts : AMDFacts; ad_Files : list string }.

(** src/pkg/governor/discover/discover.go:30-37 [amdVendorID, amdgpuDriver, pciVendorFile, pciDeviceFile, amdDPMSclkFile, amdDPMMclkFile, amdDPMFclkFile] *)
Definition amdVendorID : string := "0x1002".
Definition amdgpuDriver : string := "amdgpu".
Definition pciVendorFile : string := "vendor".
Definition pciDeviceFile : string := "device".
Definition amdDPMSclkFile : string := "pp_dpm_sclk".
Definition amdDPMMclkFile : string := "pp_dpm_mclk".
Definition amdDPMFclkFile : string := "pp_dpm_fclk".

(** One entry of bus/pci/devices; [driver] is what its driver link names, if
    it has one.
    src/pkg/governor/discover/amd.go:86-117 [dev] *)
Definition readAMDDevice (files : gmap string string) (driver : string -> option string) (name : string) : option AMDDevice :=
  let dev file := PCIDevicesRelDir +:+ "/" +:+ name +:+ "/" +:+ file in
  let level := word files (dev AMDLevelFile) in
  if negb (String.eqb (word files (dev pciVendorFile)) amdVendorID) then None
  else if String.eqb level "" then None
  else if (match driver name with Some target => negb (String.eqb (path_Base target) amdgpuDriver) | None => false end) then None
  else
    let deviceID := ToLower (word files (dev pciDeviceFile)) in
    let od := existsFile files (dev AMDODFile) in
    Some {|
      ad_Facts := {|
        af_BusID := ToLower name;
        af_DeviceID := deviceID;
        af_Family := AMDFamily deviceID;
        af_Level := level;
        af_OD := od;
        af_SclkMHz := DPMRangeMHz files (dev amdDPMSclkFile);
        af_MclkMHz := DPMRangeMHz files (dev amdDPMMclkFile);
        af_FclkMHz := DPMRangeMHz files (dev amdDPMFclkFile)
      |};
      ad_Files := dev AMDLevelFile :: (if od then [dev AMDODFile] else [])
    |}.

(** The entries in the order the directory lists them, by name.
    src/pkg/governor/discover/amd.go:78-119 [ReadAMD] *)
Definition ReadAMD (files : gmap string string) (driver : string -> option string) (entries : list string) : list AMDDevice :=
  omap (readAMDDevice files driver) entries.

(** ** Overdrive *)

(** The maximum of the compute clock in an overdrive table: the 1: line of
    its OD_SCLK section. A malformed one reads 0 and is not ok.
    src/cmd/agent/governor_control.go:960-978 [odSclkMax] *)
Fixpoint odScan (lines : list string) (inSection : bool) : Z * bool :=
  match lines with
  | [] => (0%Z, false)
  | line :: rest =>
      let t := TrimSpace line in
      if HasSuffix t ":" then odScan rest (String.eqb t "OD_SCLK:")
      else
        let '(key, value, ok) := Cut t ":" in
        if negb inSection || negb ok || negb (String.eqb (TrimSpace key) "1") then odScan rest inSection
        else
          let v := TrimSpace (TrimSuffix (TrimSuffix (TrimSpace value) "Mhz") "MHz") in
          (AtoiValue v, match Atoi v with Some _ => true | None => false end)
  end.

(** src/cmd/agent/governor_control.go:960-978 [odSclkMax] *)
Definition odSclkMax (text : string) : Z * bool := odScan (Split text newline) false.

(** What the time between two polls makes of the host, and how many polls
    there are before the deadline. *)
Class Overdrive (H : Type) := { od_poll : H -> H; od_polls : nat }.

Section Control.
Context {H : Type} `{!SysfsHost H} `{!Overdrive H}.

Definition stillReads (h : H) (w : Write) : bool := String.eqb (attr_read h (w_RelPath w)) (TrimSpace (w_Value w)).

Definition odTimeout (pending : nat) (writes : list Write) : string :=
  Itoa (Z.of_nat pending) +:+ " pp_od_clk_voltage file(s) did not print the table again within 5s after " +:+
  Quote (match writes with w :: _ => w_Value w | [] => "" end).

(** [None] once every file prints its table again. The agent stopping is left
    out.
    src/cmd/agent/governor_control.go:982-1003 [waitODReadback] *)
Fixpoint waitODReadback (polls : nat) (writes : list Write) (h : H) : option string * H :=
  let pending := length (filter (fun w => stillReads h w = true) writes) in
  if (pending =? 0)%nat then (None, h)
  else match polls with
       | O => (Some (odTimeout pending writes), h)
       | S polls => waitODReadback polls writes (od_poll h)
       end.

(** One step over the devices: the writes read back as written, those and
    the overdrive commands not waited for yet, the successful ones, and the
    failure.
    src/cmd/agent/governor_control.go:1017-1037 [steps] *)
Fixpoint stepWrites (ws : list Write) (h : H) : list Write * list Write * nat * (string * string) * H :=
  match ws with
  | [] => ([], [], 0%nat, ("", ""), h)
  | w :: rest =>
      if IsODWrite w then
        let '(err, h) := attr_write (w_RelPath w) (w_Value w) h in
        match err with
        | Some _ =>
            let '(result, message) := Classify err (w_Value w) "" in
            ([], [], 0%nat, (result, w_RelPath w +:+ ": " +:+ message), h)
        | None =>
            let '(expect, od, wrote, failure, h) := stepWrites rest h in
            (expect, w :: od, S wrote, failure, h)
        end
      else
        let '(n, _, (res, msg), h) := writeVerified [w] h in
        if negb (String.eqb res "") then ([], [], n, (res, msg), h)
        else
          let '(expect, od, wrote, failure, h) := stepWrites rest h in
          (w :: expect, od, (n + wrote)%nat, failure, h)
  end.

(** The writes of every device in lockstep, from the [k]-th on: read back
    equal, those and the overdrive commands whose table printed again, the
    successful ones, and the failure.
    src/cmd/agent/governor_control.go:1013-1050 [writeAMDSteps] *)
Fixpoint amdRounds (fuel k : nat) (steps : list (list Write)) (h : H)
    : list Write * list Write * nat * (string * string) * H :=
  match fuel with
  | O => ([], [], 0%nat, ("", ""), h)
  | S fuel =>
      match omap (fun writes => writes !! k) steps with
      | [] => ([], [], 0%nat, ("", ""), h)
      | ws =>
          let '(expect, od, wrote, (res, msg), h) := stepWrites ws h in
          if negb (String.eqb res "") then (expect, expect, wrote, (res, msg), h)
          else
            let '(err, h) := match od with [] => (None, h) | _ => waitODReadback od_polls od h end in
            match err with
            | Some text => (expect, expect, wrote, (GovernorResultError, text), h)
            | None =>
                let '(expect', taken', wrote', failure, h) := amdRounds fuel (S k) steps h in
                ((expect ++ expect')%list, (expect ++ od ++ taken')%list, (wrote + wrote')%nat, failure, h)
            end
      end
  end.

(** No device has more writes than the longest list, so the loop ends within
    their lengths.
    src/cmd/agent/governor_control.go:1013-1050 [writeAMDSteps] *)
Definition writeAMDSteps (steps : list (list Write)) (h : H) : list Write * list Write * nat * (string * string) * H :=
  amdRounds (S (max_list (length <$> steps))) 0 steps h.

(** src/cmd/agent/governor_control.go:1055-1061 [amdInForce] *)
Definition amdInForce (plans : list Plan) (taken : list Write) : string :=
  uniformOrMixed ((fun p => InForce p taken) <$> plans).

(** src/cmd/agent/governor_control.go:1116-1123 [checkODCeiling] *)
Definition checkODCeiling (h : H) (bus : string) (mhz : Z) : bool * string :=
  let rel := AMDDeviceRelPath bus AMDODFile in
  let '(got, ok) := odSclkMax (attr_read h rel) in
  if negb ok || negb (got =? mhz)%Z
  then (false, rel +:+ ": OD_SCLK maximum reads " +:+ Itoa got +:+ ", the agent set " +:+ Itoa mhz)
  else (true, "").

(** The first ceiling that does not hold, in the order the map is visited.
    src/cmd/agent/governor_control.go:1102-1108 [od] *)
Fixpoint badCeiling (h : H) (od : list (string * Z)) : option (string * string) :=
  match od with
  | [] => None
  | (bus, mhz) :: rest =>
      let '(ok, msg) := checkODCeiling h bus mhz in
      if ok : bool then badCeiling h rest else Some (bus, msg)
  end.

Context (FormatG : float64 -> string).

(** The plans of the devices, or the outcome that stops the apply.
    src/cmd/agent/governor_control.go:1071-1089 [AMD] *)
Fixpoint planAMDs (devices : list AMDFacts) (preset : string) (ceiling : float64) : governorOutcome + list (AMDFacts * Plan) :=
  let backend := GovernorBackendAMDGPUSysfs in
  match devices with
  | [] => inr []
  | f :: rest =>
      match PlanAMD f preset ceiling with
      | None =>
          inl (mkOutcome (mkStatus backend GovernorResultError
            (gpuPlanError FormatG preset ceiling "governor: amdgpu device without a bus id") "") 0 false)
      | Some plan =>
          if String.eqb (p_Result plan) GovernorResultUnsupported then
            inl (mkOutcome (mkStatus backend GovernorResultUnsupported
              ("preset " +:+ Quote preset +:+ " is not supported by the GPU at " +:+ af_BusID f +:+ " (device " +:+
               af_DeviceID f +:+ ")") "") 0 false)
          else match planAMDs rest preset ceiling with
               | inl out => inl out
               | inr plans => inr ((f, plan) :: plans)
               end
      end
  end.

(** The compute ceilings of the plans, by bus id.
    src/cmd/agent/governor_control.go:1086-1088 [SclkMaxMHz] *)
Definition ceilingsOf (plans : list (AMDFacts * Plan)) : gmap string Z :=
  foldl (fun od '(f, p) => if (0 <? st_SclkMaxMHz (p_State p))%Z then <[af_BusID f := st_SclkMaxMHz (p_State p)]> od else od) ∅ plans.

(** src/cmd/agent/governor_control.go:1063-1112 [applyAMD] *)
Definition applyAMD (devices : list AMDFacts) (preset : string) (ceiling : float64) (c : governorComponent) (h : H)
    : governorOutcome * governorComponent * H :=
  let backend := GovernorBackendAMDGPUSysfs in
  match planAMDs devices preset ceiling with
  | inl out => (out, c, h)
  | inr fps =>
      let plans := snd <$> fps in
      let od := ceilingsOf fps in
      let result := if existsb (fun p => String.eqb (p_Result p) GovernorResultEquivalent) plans
                    then GovernorResultEquivalent else GovernorResultApplied in
      let native := uniformOrMixed (p_Native <$> plans) in
      let '(expect, taken, wrote, (res, msg), h) := writeAMDSteps (p_Writes <$> plans) h in
      let c := if (0 <? wrote)%nat then (c ▷ set_odDevices (c_odDevices c ∪ dom od)) else c in
      if negb (String.eqb res "") then (mkOutcome (mkStatus backend res msg (amdInForce plans taken)) wrote true, c, h)
      else match badCeiling h (map_to_list od) with
           | Some (bus, msg) =>
               let odFile := AMDDeviceRelPath bus AMDODFile in
               let kept := filter (fun w => String.eqb (w_RelPath w) odFile = false) taken in
               (mkOutcome (mkStatus backend GovernorResultNotApplied msg (amdInForce plans kept)) wrote true, c, h)
           | None =>
               (mkOutcome (mkStatus backend result "" native) wrote true, (c ▷ set_expect expect ▷ set_od od), h)
           end
  end.

(** The first attribute that does not read what the agent wrote.
    src/cmd/agent/governor_control.go:1129-1134 [expect] *)
Definition badLevel (h : H) (expect : list Write) : option Write :=
  find (fun w => negb (String.eqb (attr_read h (w_RelPath w)) (w_Value w))) expect.

(** src/cmd/agent/governor_control.go:1127-1141 [checkAMD] *)
Definition checkAMD (c : governorComponent) (h : H) : bool * bool * string :=
  match badLevel h (c_expect c) with
  | Some w =>
      let got := attr_read h (w_RelPath w) in
      (false, String.eqb got AMDLevelAuto,
       w_RelPath w +:+ " reads " +:+ Quote got +:+ ", the agent wrote " +:+ Quote (w_Value w))
  | None =>
      match badCeiling h (map_to_list (c_od c)) with
      | Some (_, msg) => (false, false, msg)
      | None => (true, false, "")
      end
  end.

(** src/api/v1alpha1/nodehardware_types.go:221-226 [GPUGovernorDeviceState] *)
Record GPUGovernorDeviceState := mkDeviceState { ds_BusID : string; ds_Level : string }.

(** src/api/v1alpha1/nodehardware_types.go:212-216 [GPUGovernorBaseline] *)
Record GPUGovernorBaseline := mkGPUBaseline { gb_Devices : list GPUGovernorDeviceState; gb_RecordedAt : string }.

(** The discovered devices by bus id.
    src/cmd/agent/governor_control.go:1161-1164 [present] *)
Definition presentByBus (devices : list AMDFacts) : gmap string AMDFacts :=
  foldl (fun m f => <[ToLower (af_BusID f) := f]> m) ∅ devices.

(** What a device of the baseline asks: its overdrive reset, if any, its
    level write, if it differs, and its level.
    src/cmd/agent/governor_control.go:1167-1179 [Devices] *)
Definition restoreDevice (present : gmap string AMDFacts) (c : governorComponent) (h : H) (dev : GPUGovernorDeviceState)
    : list (list Write) * list (list Write) * list string :=
  match present !! ToLower (ds_BusID dev) with
  | None => ([], [], [])
  | Some f =>
      if String.eqb (ds_Level dev) "" then ([], [], [])
      else
        (if af_OD f && negb (String.eqb (ds_Level dev) AMDLevelAuto) &&
            (bool_decide (af_BusID f ∈ c_odDevices c) || bool_decide ("*" ∈ c_odDevices c))
         then [PlanAMDODReset (af_BusID f)] else [],
         match differing [PlanAMDLevel (af_BusID f) (ds_Level dev)] h with [] => [] | w => [w] end,
         [ds_Level dev])
  end.

(** src/cmd/agent/governor_control.go:1154-1190 [restoreAMD] *)
Definition restoreAMD (devices : list AMDFacts) (b : option GPUGovernorBaseline) (c : governorComponent) (h : H)
    : governorOutcome * governorComponent * H :=
  let backend := GovernorBackendAMDGPUSysfs in
  match b with
  | None => (mkOutcome (mkStatus backend GovernorResultError "no baseline to restore" "") 0 false, c, h)
  | Some b =>
      let present := presentByBus devices in
      let parts := restoreDevice present c h <$> gb_Devices b in
      let odSteps := concat ((fun p => p.1.1) <$> parts) in
      let levels := concat ((fun p => p.1.2) <$> parts) in
      let natives := concat (snd <$> parts) in
      let '(_, _, wrote, (res, msg), h) := writeAMDSteps odSteps h in
      if negb (String.eqb res "") then
        (mkOutcome (mkStatus backend res ("restore: " +:+ msg) "") wrote true, c, h)
      else
        let '(_, _, wrote', (res, msg), h) := writeAMDSteps levels h in
        let total := (wrote + wrote')%nat in
        if negb (String.eqb res "") then
          (mkOutcome (mkStatus backend res ("restore: " +:+ msg) "") total true, c, h)
        else
          (mkOutcome (mkStatus backend GovernorResultRestored "baseline restored" (uniformOrMixed natives)) total
             (0 <? total)%nat, c, h)
  end.

(** src/cmd/agent/governor_control.go:952-955 [governorOps] *)
Definition amdOps (devices : list AMDFacts) (preset : string) (ceiling : float64) : governorOps := {|
  op_apply := applyAMD devices preset ceiling;
  op_check c h := let '(ok, reset, msg) := checkAMD c h in (ok, reset, msg, c, h);
  op_reissue := None
|}.

(** The AMD mechanism is one of the loop's. What forces it is a level file
    that reads the vendor default, auto, where the agent wrote another
    level. *)
#[export] Instance amdOps_mechanism devices preset ceiling : Mechanism (amdOps devices preset ceiling).
Proof.
  split; [|intros c h; cbn; by destruct (checkAMD c h) as [[ok reset] msg]|done]. intros c h. cbn. unfold applyAMD.
  destruct (planAMDs _ _ _) as [out|fps]; [done|]. destruct (writeAMDSteps _ h) as [[[[expect taken] wrote] [res msg]] h'].
  destruct (negb _); [by destruct (0 <? wrote)%nat|]. destruct (badCeiling _ _) as [[bus m]|]; by destruct (0 <? wrote)%nat.
Qed.

Lemma amdOps_forced devices preset ceiling now c h : forced (amdOps devices preset ceiling) now c h = true <->
  exists w, badLevel h (c_expect c) = Some w /\ attr_read h (w_RelPath w) = AMDLevelAuto /\ w_Value w <> AMDLevelAuto.
Proof.
  unfold forced. cbn. unfold checkAMD. destruct (badLevel h (c_expect c)) as [w|] eqn:E.
  - assert (attr_read h (w_RelPath w) <> w_Value w) as Hne.
    { unfold badLevel in E. apply find_some in E as [_ E]. by apply negb_true_iff, String.eqb_neq in E. }
    split.
    + intros Hr%String.eqb_eq. exists w. split; [done|]. split; [done|]. congruence.
    + intros (w' & [= <-] & Hr & _). by rewrite Hr, String.eqb_refl.
  - destruct (badCeiling h _) as [[bus msg]|]; split; try done; by intros (w' & [=] & _).
Qed.
End Control.

(** ** An amdgpu node *)

(** The attributes, and every write in order. An overdrive command changes no
    attribute that is read here: its file prints a table. *)
Record Node := mkNode { nd_files : gmap string string; nd_log : list Write }.

#[export] Instance nodeHost : SysfsHost Node := {
  attr_write path value h :=
    match nd_files h !! path with
    | None => (Some missingAttr, h)
    | Some _ =>
        (None, mkNode (if IsODWrite (mkWrite path value) then nd_files h else <[path := value]> (nd_files h))
                 (nd_log h ++ [mkWrite path value]))
    end;
  attr_read h path := word (nd_files h) path
}.

#[export] Instance nodeOverdrive : Overdrive Node := {| od_poll h := h; od_polls := 250 |}.

(** A write the node takes: a command to an overdrive file that prints
    something else, or a trimmed word to another attribute. *)
Definition takenBy (files : gmap string string) (w : Write) : Prop :=
  is_Some (files !! w_RelPath w) /\
  if IsODWrite w then word files (w_RelPath w) <> TrimSpace (w_Value w) else trimmed w.

Definition runWrite (h : Node) (w : Write) : Node :=
  mkNode (if IsODWrite w then nd_files h else <[w_RelPath w := w_Value w]> (nd_files h)) (nd_log h ++ [w]).

(** The writes of the devices in lockstep. *)
Definition round (steps : list (list Write)) (k : nat) : list Write := omap (fun writes => writes !! k) steps.
Definition lockstep (steps : list (list Write)) (from n : nat) : list Write := concat (round steps <$> seq from n).

Lemma IsODWrite_path w w' : w_RelPath w = w_RelPath w' -> IsODWrite w = IsODWrite w'.
Proof. unfold IsODWrite. by intros ->. Qed.

Lemma takenBy_run h w w' : takenBy (nd_files h) w -> takenBy (nd_files h) w' -> takenBy (nd_files (runWrite h w)) w'.
Proof.
  intros [Hw Hw1] [Hv Hv1]. unfold takenBy, runWrite. cbn [nd_files]. destruct (IsODWrite w) eqn:Ew; [done|].
  destruct (decide (w_RelPath w = w_RelPath w')) as [E|Hne].
  - rewrite <- E, lookup_insert_eq. split; [done|]. rewrite <- (IsODWrite_path w w' E), Ew in *. done.
  - rewrite lookup_insert_ne by done. split; [done|]. destruct (IsODWrite w'); [|done]. intros E'. apply Hv1.
    rewrite <- E'. symmetry. by apply word_lookup, lookup_insert_ne.
Qed.

Lemma attr_write_taken h w : takenBy (nd_files h) w -> attr_write (w_RelPath w) (w_Value w) h = (None, runWrite h w).
Proof. destruct w as [path value]. intros [[v Hv] _]. cbn [w_RelPath w_Value] in *. unfold attr_write, nodeHost. by rewrite Hv. Qed.

Lemma writeVerified_taken h w :
  takenBy (nd_files h) w -> IsODWrite w = false ->
  writeVerified [w] h = (1%nat, [w], ("", ""), runWrite h w).
Proof.
  intros Hw Eo. cbn [writeVerified]. rewrite (attr_write_taken _ _ Hw). destruct Hw as [_ Hw]. rewrite Eo in Hw.
  cbn [attr_read nodeHost]. unfold runWrite at 1. rewrite Eo. cbn [nd_files].
  erewrite word_Some by apply lookup_insert_eq. unfold Classify. unfold trimmed in Hw. by rewrite !Hw, String.eqb_refl.
Qed.

Lemma stepWrites_node ws h :
  Forall (takenBy (nd_files h)) ws ->
  stepWrites ws h = (filter (fun w => IsODWrite w = false) ws, filter (fun w => IsODWrite w = true) ws, length ws, ("", ""),
    foldl runWrite h ws).
Proof.
  revert h. induction ws as [|w ws IH]; intros h Hws; [done|]. apply Forall_cons in Hws as [Hw Hws].
  assert (Forall (takenBy (nd_files (runWrite h w))) ws) as Hws'
    by (eapply Forall_impl; [exact Hws|]; cbn; intros v; by apply takenBy_run).
  specialize (IH _ Hws'). cbn [stepWrites foldl length]. rewrite !filter_cons, (attr_write_taken _ _ Hw).
  destruct (IsODWrite w) eqn:Eo.
  - rewrite IH. done.
  - rewrite (writeVerified_taken _ _ Hw Eo). cbn. rewrite IH. done.
Qed.

Lemma takenBy_foldl ws h w :
  Forall (takenBy (nd_files h)) ws -> takenBy (nd_files h) w -> takenBy (nd_files (foldl runWrite h ws)) w.
Proof.
  revert h. induction ws as [|v ws IH]; intros h Hws Hw; [done|]. apply Forall_cons in Hws as [Hv Hws]. cbn [foldl].
  apply IH; [eapply Forall_impl; [exact Hws|]; intros u|]; by apply takenBy_run.
Qed.

Lemma waitODReadback_node polls ws h :
  Forall (takenBy (nd_files h)) ws -> Forall (fun w => IsODWrite w = true) ws -> waitODReadback polls ws h = (None, h).
Proof.
  intros Hws Ho. destruct polls; cbn [waitODReadback].
  all: assert (filter (fun w => stillReads h w = true) ws = []) as ->; [|done].
  all: apply elem_of_nil_inv; intros w [Hr Hw]%list_elem_of_filter; rewrite Forall_forall in Hws, Ho; revert Hr.
  all: destruct (Hws w Hw) as [_ Ht]; rewrite (Ho w Hw) in Ht; unfold stillReads; cbn [attr_read nodeHost].
  all: by intros E%String.eqb_eq.
Qed.

Lemma round_taken (P : Write -> Prop) steps k : Forall (Forall P) steps -> Forall P (round steps k).
Proof.
  intros Hs. apply Forall_forall. intros w (ws & Hws & Hk)%list_elem_of_omap. rewrite Forall_forall in Hs.
  apply Hs in Hws. rewrite Forall_forall in Hws. by apply Hws, list_elem_of_lookup_2 with k.
Qed.

Lemma round_done steps k k' : round steps k = [] -> (k <= k')%nat -> round steps k' = [].
Proof.
  intros Hk Hle. destruct (round steps k') as [|w ws] eqn:E; [done|]. exfalso.
  assert (w ∈ round steps k') as (l & Hl & Hw)%list_elem_of_omap by (rewrite E; apply elem_of_cons; by left).
  apply lookup_lt_Some in Hw. destruct (lookup_lt_is_Some_2 l k) as [v Hv]; [lia|].
  assert (v ∈ round steps k) as Hin by (apply list_elem_of_omap; eauto). rewrite Hk in Hin. by apply elem_of_nil in Hin.
Qed.

Lemma lockstep_done steps k n : round steps k = [] -> lockstep steps k n = [].
Proof.
  intros Hk. unfold lockstep. apply elem_of_nil_inv. intros w (j & [Hj _]%elem_of_seq & Hw)%elem_of_concat_fmap.
  rewrite (round_done _ k j Hk Hj) in Hw. by apply elem_of_nil in Hw.
Qed.

Lemma lockstep_S steps k n : lockstep steps k (S n) = (round steps k ++ lockstep steps (S k) n)%list.
Proof. done. Qed.

Lemma amdRounds_node fuel k steps h :
  Forall (Forall (takenBy (nd_files h))) steps ->
  exists e t, amdRounds fuel k steps h =
    (e, t, length (lockstep steps k fuel), ("", ""), foldl runWrite h (lockstep steps k fuel)).
Proof.
  revert k h. induction fuel as [|fuel IH]; intros k h Hs; [by eexists _, _|]. cbn [amdRounds].
  fold (round steps k). pose proof (round_taken _ _ k Hs) as Hr.
  destruct (round steps k) as [|w ws] eqn:E; [rewrite lockstep_done by done; by eexists _, _|]. rewrite <- E in Hr.
  rewrite lockstep_S, E, <- E. rewrite stepWrites_node by done. cbn [negb String.eqb].
  set (od := filter (fun w => IsODWrite w = true) (round steps k)). set (h' := foldl runWrite h (round steps k)).
  assert ((match od with [] => (None, h') | _ => waitODReadback od_polls od h' end) = (None, h')) as ->.
  { assert (Forall (takenBy (nd_files h')) od) as Ht.
    { apply Forall_forall. intros v [_ Hv]%list_elem_of_filter. apply takenBy_foldl; [done|]. rewrite Forall_forall in Hr. auto. }
    pose proof (waitODReadback_node od_polls od h' Ht) as Hw. destruct od eqn:Eod; [done|]. rewrite <- Eod in *. apply Hw.
    apply Forall_forall. by intros v [Hv _]%list_elem_of_filter. }
  edestruct (IH (S k) h') as (e & t & ->).
  { eapply Forall_impl; [exact Hs|]. intros l Hl. eapply Forall_impl; [exact Hl|]. intros v. by apply takenBy_foldl. }
  rewrite length_app, foldl_app. by eexists _, _.
Qed.

(** ** Restoring an amdgpu node *)

(** The cards whose overdrive range the agent edited and has to reset, and
    the level writes of the baseline, in its order. *)
Definition resetBuses (devices : list AMDFacts) (edited : gset string) (devs : list GPUGovernorDeviceState) : list string :=
  omap (fun d => f ← presentByBus devices !! ToLower (ds_BusID d);
          if negb (String.eqb (ds_Level d) "") && (af_OD f && negb (String.eqb (ds_Level d) AMDLevelAuto) &&
             (bool_decide (af_BusID f ∈ edited) || bool_decide ("*" ∈ edited)))
          then Some (af_BusID f) else None) devs.

Definition baselineLevels (devices : list AMDFacts) (devs : list GPUGovernorDeviceState) : list Write :=
  omap (fun d => f ← presentByBus devices !! ToLower (ds_BusID d);
          if String.eqb (ds_Level d) "" then None else Some (PlanAMDLevel (af_BusID f) (ds_Level d))) devs.

Definition odWrite (value bus : string) : Write := mkWrite (AMDDeviceRelPath bus AMDODFile) value.

Lemma restore_odSteps devices c (h : Node) devs :
  concat ((fun p => p.1.1) <$> (restoreDevice (presentByBus devices) c h <$> devs)) =
  PlanAMDODReset <$> resetBuses devices (c_odDevices c) devs.
Proof.
  unfold resetBuses. induction devs as [|d devs IH]; [done|]. rewrite !fmap_cons. cbn [concat omap list_omap]. rewrite IH.
  unfold restoreDevice at 1. destruct (presentByBus devices !! _) as [f|] eqn:E; cbn [mbind option_bind]; [|done].
  destruct (String.eqb (ds_Level d) ""); cbn [negb andb fst snd]; [done|]. by destruct (af_OD f && _ && _).
Qed.

Lemma restore_levels devices c (h : Node) devs :
  concat ((fun p => p.1.2) <$> (restoreDevice (presentByBus devices) c h <$> devs)) =
  (fun w => [w]) <$> differing (baselineLevels devices devs) h.
Proof.
  unfold baselineLevels. induction devs as [|d devs IH]; [done|]. rewrite !fmap_cons. cbn [concat omap list_omap]. rewrite IH.
  unfold restoreDevice at 1. destruct (presentByBus devices !! _) as [f|] eqn:E; cbn [mbind option_bind]; [|done].
  destruct (String.eqb (ds_Level d) ""); cbn [fst snd]; [done|]. unfold differing. rewrite !filter_cons, filter_nil.
  by destruct (decide _).
Qed.




Lemma lockstep_resets buses n : (2 <= n)%nat ->
  lockstep (PlanAMDODReset <$> buses) 0 n = ((odWrite "r" <$> buses) ++ (odWrite "c" <$> buses))%list.
Proof.
  destruct n as [|[|n]]; [lia..|]. intros _. rewrite !lockstep_S.
  assert (forall k, round (PlanAMDODReset <$> buses) k = omap (fun b => PlanAMDODReset b !! k) buses) as Hr
    by (intros k; unfold round; induction buses as [|b l IH]; [done|]; rewrite fmap_cons; cbn; by rewrite IH).
  rewrite (lockstep_done _ 2), app_nil_r, !Hr by (rewrite Hr; clear Hr; by induction buses).
  clear Hr.
  f_equal; (induction buses as [|b l IH]; [done|]); cbn; by f_equal.
Qed.

Lemma lockstep_singles ws n : (1 <= n)%nat -> lockstep ((fun w => [w]) <$> ws) 0 n = ws.
Proof.
  destruct n as [|n]; [lia|]. intros _.
  assert (round ((fun w => [w]) <$> ws) 1 = [] /\ round ((fun w => [w]) <$> ws) 0 = ws) as [H1 H0].
  { unfold round. induction ws as [|w ws [IH1 IH2]]; [done|]. rewrite fmap_cons. cbn. split; [done|by f_equal]. }
  by rewrite lockstep_S, (lockstep_done _ 1), app_nil_r.
Qed.

Lemma IsODWrite_od value bus : IsODWrite (odWrite value bus) = true.
Proof.
  unfold IsODWrite, odWrite, AMDDeviceRelPath. cbn [w_RelPath].
  assert (forall a b c : string, a +:+ "/" +:+ b +:+ c = (a +:+ "/" +:+ b) +:+ c) as -> by (intros; by rewrite <- !app_assoc_string).
  apply HasSuffix_self.
Qed.

Lemma IsODWrite_level bus level : IsODWrite (PlanAMDLevel bus level) = false.
Proof.
  unfold IsODWrite, PlanAMDLevel, AMDDeviceRelPath. cbn [w_RelPath].
  eapply (HasSuffix_last _ _ "l" "e"); [|done|done]. by rewrite !list_ascii_app, !last_app.
Qed.

Lemma run_od ws h : Forall (fun w => IsODWrite w = true) ws -> foldl runWrite h ws = mkNode (nd_files h) (nd_log h ++ ws).
Proof.
  revert h. induction ws as [|w ws IH]; intros h Hws; [by destruct h; rewrite app_nil_r|].
  apply Forall_cons in Hws as [Hw Hws]. cbn [foldl]. rewrite (IH _ Hws). unfold runWrite. rewrite Hw. cbn [nd_files nd_log].
  by rewrite <- app_assoc.
Qed.

Lemma run_attr ws h :
  Forall (fun w => IsODWrite w = false) ws -> foldl runWrite h ws = mkNode (writeAll (nd_files h) ws) (nd_log h ++ ws).
Proof.
  revert h. induction ws as [|w ws IH]; intros h Hws; [by destruct h; rewrite app_nil_r|].
  apply Forall_cons in Hws as [Hw Hws]. cbn [foldl]. rewrite (IH _ Hws). unfold runWrite. rewrite Hw. cbn [nd_files nd_log].
  by rewrite <- app_assoc.
Qed.

Lemma odWrite_od value buses : Forall (fun w => IsODWrite w = true) (odWrite value <$> buses).
Proof. apply Forall_fmap, Forall_forall. intros b _. apply IsODWrite_od. Qed.

Lemma writeAMDSteps_resets buses h :
  Forall (fun b => takenBy (nd_files h) (odWrite "r" b) /\ takenBy (nd_files h) (odWrite "c" b)) buses ->
  exists e t n, writeAMDSteps (PlanAMDODReset <$> buses) h =
    (e, t, n, ("", ""), mkNode (nd_files h) (nd_log h ++ (odWrite "r" <$> buses) ++ (odWrite "c" <$> buses))).
Proof.
  intros Hb. unfold writeAMDSteps. set (n := max_list _).
  destruct (amdRounds_node (S n) 0 (PlanAMDODReset <$> buses) h) as (e & t & ->).
  { apply Forall_fmap. eapply Forall_impl; [exact Hb|]. intros b [H1 H2].
    constructor; [exact H1|]. constructor; [exact H2|constructor]. }
  exists e, t. eexists. assert (lockstep (PlanAMDODReset <$> buses) 0 (S n) = ((odWrite "r" <$> buses) ++ (odWrite "c" <$> buses))%list) as ->.
  { destruct buses as [|b buses]; [done|]. apply lockstep_resets. subst n. cbn. lia. }
  rewrite run_od by (apply Forall_app; split; apply odWrite_od). done.
Qed.

Lemma writeAMDSteps_singles ws h :
  Forall (takenBy (nd_files h)) ws -> Forall (fun w => IsODWrite w = false) ws ->
  exists e t n, writeAMDSteps ((fun w => [w]) <$> ws) h = (e, t, n, ("", ""), mkNode (writeAll (nd_files h) ws) (nd_log h ++ ws)).
Proof.
  intros Hw Ho. unfold writeAMDSteps. set (n := max_list _).
  destruct (amdRounds_node (S n) 0 ((fun w => [w]) <$> ws) h) as (e & t & ->).
  { apply Forall_fmap. eapply Forall_impl; [exact Hw|]. intros b H1.
    constructor; [exact H1|constructor]. }
  exists e, t. eexists. rewrite lockstep_singles by lia. by rewrite run_attr.
Qed.

Lemma baselineLevels_od devices devs : Forall (fun w => IsODWrite w = false) (baselineLevels devices devs).
Proof.
  apply Forall_forall. intros w (d & _ & Hw)%list_elem_of_omap. destruct (presentByBus devices !! _) as [f|]; [|done].
  cbn in Hw. destruct (String.eqb _ _); [done|]. injection Hw as <-. apply IsODWrite_level.
Qed.

Lemma baselineLevels_in devices devs d f :
  d ∈ devs -> presentByBus devices !! ToLower (ds_BusID d) = Some f -> ds_Level d <> "" ->
  PlanAMDLevel (af_BusID f) (ds_Level d) ∈ baselineLevels devices devs.
Proof.
  intros Hd Hf Hl%String.eqb_neq. apply list_elem_of_omap. exists d. split; [done|]. rewrite Hf. cbn. by rewrite Hl.
Qed.

(** Restoring an amdgpu node whose files take what is written: the overdrive
    range of every card the agent edited is reset and then committed, all
    before the first level write; afterwards every card of the baseline that
    is still there reads its baseline level, no other attribute changed, and
    a card already at its level is not written. *)
Theorem restoreAMD_back devices b c h :
  let levels := baselineLevels devices (gb_Devices b) in
  let edited := resetBuses devices (c_odDevices c) (gb_Devices b) in
  consistent levels -> Forall trimmed levels ->
  Forall (fun w => is_Some (nd_files h !! w_RelPath w)) levels ->
  Forall (fun bus => is_Some (nd_files h !! AMDDeviceRelPath bus AMDODFile) /\
                     word (nd_files h) (AMDDeviceRelPath bus AMDODFile) ∉ ["r"; "c"]) edited ->
  let '(out, c', h') := restoreAMD devices (Some b) c h in
  gst_result (out_status out) = GovernorResultRestored /\ c' = c /\
  (forall d f, d ∈ gb_Devices b -> presentByBus devices !! ToLower (ds_BusID d) = Some f -> ds_Level d <> "" ->
     word (nd_files h') (AMDDeviceRelPath (af_BusID f) AMDLevelFile) = ds_Level d) /\
  (forall p, p ∉ (w_RelPath <$> levels) -> nd_files h' !! p = nd_files h !! p) /\
  nd_log h' = (nd_log h ++ (odWrite "r" <$> edited) ++ (odWrite "c" <$> edited) ++ differing levels h)%list.
Proof.
  intros levels edited Hc Ht He Hod. unfold restoreAMD. rewrite restore_odSteps, restore_levels. fold levels edited.
  destruct (writeAMDSteps_resets edited h) as (e & t & n & ->).
  { eapply Forall_impl; [exact Hod|]. intros bus [Hf Hw]. split; (split; [exact Hf|]); rewrite IsODWrite_od; intros E.
    all: apply Hw; cbn [odWrite w_RelPath] in E; rewrite E; vm_compute; repeat (left || right). }
  set (h1 := mkNode _ _).
  assert (Forall (fun w => IsODWrite w = false) levels) as Ho by apply baselineLevels_od.
  destruct (writeAMDSteps_singles (differing levels h) h1) as (e' & t' & n' & ->).
  { apply Forall_forall. intros w [_ Hw]%list_elem_of_filter. rewrite Forall_forall in Ht, He, Ho.
    split; [by apply He|]. rewrite (Ho w Hw). by apply Ht. }
  { apply Forall_forall. intros w [_ Hw]%list_elem_of_filter. rewrite Forall_forall in Ho. by apply Ho. }
  cbn [negb String.eqb]. split; [done|]. split; [done|]. split; [|split].
  - intros d f Hd Hf Hl. cbn [nd_files].
    apply (differing_run levels (nd_files h) (nd_files h) (PlanAMDLevel (af_BusID f) (ds_Level d))); [done..|].
    by apply baselineLevels_in.
  - intros p Hp. cbn [nd_files]. apply writeAll_other. by apply (differing_paths levels (nd_files h)).
  - cbn [nd_log h1]. by rewrite <- !app_assoc.
Qed.

(** Two cards: one whose overdrive range an earlier run of the agent edited,
    to go back to high, and one at its baseline already. *)
Definition card (bus : string) (od : bool) : AMDFacts := {|
  af_BusID := bus; af_DeviceID := "0x744c"; af_Family := AMDFamilyNavi31; af_Level := "manual"; af_OD := od;
  af_SclkMHz := (500, 2100)%Z; af_MclkMHz := (96, 1249)%Z; af_FclkMHz := (0, 0)%Z |}.
Definition sampleCards : list AMDFacts := [card "0000:03:00.0" true; card "0000:83:00.0" false].
Definition sampleNode : Node := mkNode (list_to_map [
  (AMDDeviceRelPath "0000:03:00.0" AMDLevelFile, "manual"); (AMDDeviceRelPath "0000:03:00.0" AMDODFile, "OD_SCLK:");
  (AMDDeviceRelPath "0000:83:00.0" AMDLevelFile, "auto")]) [].
Definition sampleGPUBaseline : GPUGovernorBaseline :=
  mkGPUBaseline [mkDeviceState "0000:03:00.0" "high"; mkDeviceState "0000:83:00.0" "auto"; mkDeviceState "0000:c3:00.0" "auto"] "".
Definition editedComponent : governorComponent := newComponent "gpuGovernor" ▷ set_odDevices {["*"]}.

Example restoreAMD_back_witness :
  nd_log (restoreAMD sampleCards (Some sampleGPUBaseline) editedComponent sampleNode).2 =
    [odWrite "r" "0000:03:00.0"; odWrite "c" "0000:03:00.0"; PlanAMDLevel "0000:03:00.0" "high"].
Proof.
  assert (baselineLevels sampleCards (gb_Devices sampleGPUBaseline) =
    [PlanAMDLevel "0000:03:00.0" "high"; PlanAMDLevel "0000:83:00.0" "auto"]) as Hl by (vm_compute; reflexivity).
  assert (resetBuses sampleCards (c_odDevices editedComponent) (gb_Devices sampleGPUBaseline) = ["0000:03:00.0"]) as He
    by (vm_compute; reflexivity).
  pose proof (restoreAMD_back sampleCards sampleGPUBaseline editedComponent sampleNode) as H. cbv zeta in H.
  rewrite Hl, He in H. specialize (H ltac:(intros w w' [->| [->|[]%elem_of_nil]%elem_of_cons]%elem_of_cons
    [->| [->|[]%elem_of_nil]%elem_of_cons]%elem_of_cons; vm_compute; intros; (reflexivity || discriminate))
    ltac:(repeat constructor) ltac:(repeat constructor; vm_compute; eexists; reflexivity)
    ltac:(repeat constructor; [vm_compute; eexists; reflexivity|apply (bool_decide_unpack _); vm_compute; exact I])).
  destruct (restoreAMD _ _ _ _) as [[out c'] h']. destruct H as (_ & _ & _ & _ & H). cbn [snd]. rewrite H.
  vm_compute. reflexivity.
Defined.
