(* ===== verification/HostFS.v ===== *)
(** * The agent's host: its files and its control endpoint

    What the agent's power capping asks of the node: the files of the host's
    /sys, read and written whole, the paths a glob pattern matches there, and
    the links they resolve to ([HostFS]); and the HTTP endpoint that takes
    power commands instead of the host (pkg/agent/control/http.go,
    [ControlEndpoint]). Both are interfaces: the kernel and the endpoint
    decide what a write does. A file tree that takes every write is the
    instance. *)

From S2P Require Import Prelude GoString GoFloat Native Governor Host.

#[local] Open Scope string_scope.

(** ** Paths *)

(** [filepath.Dir] of a clean path: what comes before its last slash. *)
Definition path_Dir (s : string) : string :=
  match drop_while (fun a => negb (is_slash a)) (rev (list_ascii_of_string s)) with
  | [] => "."
  | [_] => "/"
  | _ :: r => string_of_list_ascii (rev r)
  end.

(** [filepath.Join] of a clean directory and a name. *)
Definition path_Join (dir name : string) : string := dir +:+ "/" +:+ name.

Definition noSlash (s : string) : Prop := Forall (fun a => is_slash a = false) (list_ascii_of_string s).

Lemma path_Base_join dir name : name <> "" -> noSlash name -> path_Base (path_Join dir name) = name.
Proof. intros. by apply path_Base_app. Qed.

Lemma drop_while_all P l r : Forall (fun a => P a = true) l -> drop_while P (l ++ r) = drop_while P r.
Proof. induction 1 as [|a l Ha _ IH]; [done|]. cbn. by rewrite Ha. Qed.

Lemma path_Dir_join dir name : dir <> "" -> noSlash name -> path_Dir (path_Join dir name) = dir.
Proof.
  intros Hne Hn. unfold path_Dir, path_Join. rewrite !list_ascii_app. cbn [list_ascii_of_string app].
  rewrite rev_app_distr. cbn [rev]. rewrite <- app_assoc, drop_while_all.
  2:{ apply Forall_rev. eapply Forall_impl; [exact Hn|]. cbn. by intros a ->. }
  cbn [app drop_while is_slash Ascii.eqb Bool.eqb negb].
  destruct (rev (list_ascii_of_string dir)) as [|a r] eqn:E.
  - destruct Hne. by destruct dir; [|apply (f_equal length) in E; cbn in E; rewrite length_app in E; cbn in E; lia].
  - rewrite <- E, rev_involutive. apply string_of_list_ascii_of_string.
Qed.

(** [filepath.Match] of a pattern whose only special character is the star,
    which stands for any bytes but a slash. *)
Fixpoint globMatch (pat s : list ascii) : bool :=
  match pat with
  | [] => match s with [] => true | _ => false end
  | c :: pat' =>
      if Ascii.eqb c "*" then
        (fix star s := globMatch pat' s ||
           match s with a :: s' => negb (Ascii.eqb a "/") && star s' | [] => false end) s
      else match s with a :: s' => Ascii.eqb a c && globMatch pat' s' | [] => false end
  end.

(** [strings.Count] of one byte. *)
Definition CountByte (s : string) (b : ascii) : nat :=
  length (filter (fun a => Ascii.eqb a b = true) (list_ascii_of_string s)).

(** [strings.ReplaceAll] of a non-empty text. *)
Fixpoint replace_fuel (fuel : nat) (s old new : string) : string :=
  match fuel with
  | O => s
  | S fuel =>
      let '(before, after, found) := Cut s old in
      if found : bool then before +:+ new +:+ replace_fuel fuel after old new else s
  end.
Definition ReplaceAll (s old new : string) : string := replace_fuel (S (String.length s)) s old new.

(** ** Files *)

(** [os.ReadFile], no text for an error; [os.WriteFile] with the error's
    text; every path of the tree, directory by directory in the order of
    their names, as [filepath.Glob] visits them; and
    [filepath.EvalSymlinks], no text for an error. *)
Class HostFS (H : Type) := {
  fs_read : string -> H -> option string;
  fs_write : string -> string -> H -> option string * H;
  fs_walk : H -> list string;
  fs_resolve : string -> H -> option string;
  fs_readlink : string -> H -> option string
}.

Section Files.
Context {H : Type} `{!HostFS H}.

(** [filepath.Glob]: the paths that exist and match. *)
Definition Glob (pattern : string) (h : H) : list string :=
  filter (fun p => globMatch (list_ascii_of_string pattern) (list_ascii_of_string p) = true) (fs_walk h).

(** [os.Stat] without an error. *)
Definition fileExists (path : string) (h : H) : bool := bool_decide (path ∈ fs_walk h).

(** [os.ReadDir]: the names in a directory, sorted; no names for an error. *)
Definition ReadDir (root : string) (h : H) : option (list string) :=
  if fileExists root h
  then Some (path_Base <$> filter (fun p => String.eqb (path_Dir p) root && negb (String.eqb p root) = true) (fs_walk h))
  else None.

(** src/pkg/agent/dvfs/dvfs.go:566-572 [readInt64] *)
Definition readInt64 (path : string) (h : H) : option Z := s ← fs_read path h; Atoi (TrimSpace s).

(** A path kept once per place it resolves to, the first one found.
    src/pkg/agent/dvfs/dvfs.go:446-460 [seen] *)
Fixpoint dedupResolved (key : string -> string) (seen : gset string) (paths : list string) : list string :=
  match paths with
  | [] => []
  | p :: rest =>
      if bool_decide (key p ∈ seen) then dedupResolved key seen rest
      else p :: dedupResolved key ({[key p]} ∪ seen) rest
  end.

Definition resolved (h : H) (p : string) : string := default p (fs_resolve p h).
End Files.

(** ** The HTTP control endpoint *)

(** src/pkg/agent/control/http.go:22-26 [HTTPControlClient] *)
Record HTTPControlClient := mkClient { cl_Endpoint : string; cl_NodeName : string }.

(** The body of a request, but its time.
    src/pkg/agent/control/http.go:94-100 [reqBody] *)
Inductive ControlCommand :=
| CPUCommand (node action : string) (capWatts : float64) (throttlePct : Z)
| GPUCommand (node action : string) (capWattsPerGPU : float64).

(** What a response says: its status, and of its body what decodes.
    src/pkg/agent/control/http.go:154-158 [body] *)
Record ControlResponse := mkResponse { rsp_StatusCode : Z; rsp_Decoded : bool; rsp_OK : option bool; rsp_Result : string; rsp_Message : string }.

(** A POST of a command to a URL: the transport's error, or the response. *)
Class ControlEndpoint (H : Type) := {
  http_post : string -> ControlCommand -> H -> (string + ControlResponse) * H
}.

Section Control.
Context {H : Type} `{!ControlEndpoint H}.

(** src/pkg/agent/control/http.go:150-163 [controlResponseError] *)
Definition controlResponseError (resp : ControlResponse) : option string :=
  if (rsp_StatusCode resp <? 200)%Z || (300 <=? rsp_StatusCode resp)%Z then
    Some ("control endpoint status=" +:+ Itoa (rsp_StatusCode resp))
  else if negb (rsp_Decoded resp) || bool_decide (rsp_OK resp = None) || bool_decide (rsp_OK resp = Some true) then None
  else Some ("control endpoint did not apply the command: " +:+ rsp_Result resp +:+ ": " +:+ rsp_Message resp).

(** [json.Marshal] refuses a number that is not finite. *)
Definition marshalError (x : float64) : option string :=
  if is_finite x then None
  else Some ("json: unsupported value: " +:+ (if is_nan x then "NaN" else if is_pinf x then "+Inf" else "-Inf")).

Definition postCommand (c : HTTPControlClient) (watts : float64) (cmd : ControlCommand) (h : H) : option string * H :=
  match marshalError watts with
  | Some err => (Some err, h)
  | None =>
      match http_post (ReplaceAll (cl_Endpoint c) "{node}" (cl_NodeName c)) cmd h with
      | (inl err, h) => (Some err, h)
      | (inr resp, h) => (controlResponseError resp, h)
      end
  end.

(** src/pkg/agent/control/http.go:92-116 [ApplyCPUControl] *)
Definition ApplyCPUControl (c : HTTPControlClient) (action : string) (capWatts : float64) (throttlePct : Z) (h : H) : option string * H :=
  postCommand c capWatts (CPUCommand (cl_NodeName c) action capWatts throttlePct) h.

(** src/pkg/agent/control/http.go:119-142 [ApplyGPUControl] *)
Definition ApplyGPUControl (c : HTTPControlClient) (action : string) (capWattsPerGPU : float64) (h : H) : option string * H :=
  postCommand c capWattsPerGPU (GPUCommand (cl_NodeName c) action capWattsPerGPU) h.
End Control.

(** ** A plain tree *)

(** Every file takes what is written to it; a path that is not a file yet
    becomes one. No path is a link. *)
Record Tree := mkTree { tr_files : gmap string string; tr_walk : list string }.

#[export] Instance treeFS : HostFS Tree := {
  fs_read path t := tr_files t !! path;
  fs_write path value t := (None, mkTree (<[path := value]> (tr_files t)) (tr_walk t));
  fs_walk := tr_walk;
  fs_resolve path _ := Some path;
  fs_readlink _ _ := None
}.

Example globs :
  (globMatch (list_ascii_of_string "/sys/*:*/energy_uj") (list_ascii_of_string "/sys/intel-rapl:0/energy_uj"),
   globMatch (list_ascii_of_string "/sys/*:*/energy_uj") (list_ascii_of_string "/sys/intel/rapl:0/energy_uj"),
   path_Dir "/sys/intel-rapl:0/energy_uj", CountByte "intel-rapl:0:1" ":",
   ReplaceAll "http://sim/control/{node}?n={node}" "{node}" "n1") =
  (true, false, "/sys/intel-rapl:0", 2%nat, "http://sim/control/n1?n=n1").
Proof. reflexivity. Qed.
