(* ===== verification/Dvfs.v ===== *)
(** * Frequency throttling: pkg/agent/dvfs/dvfs.go

    The agent's fallback power cap: it reads the packages' power from the RAPL
    energy counters (or an HTTP reader), smooths it, and after enough readings
    above or below the cap's margins lowers or raises the highest frequency
    of a share of the cpufreq policies. [Controller] is the state,
    [Reconcile] one turn of the loop; metrics are left out, and the action a
    turn reports is a constructor in place of its text. *)

From S2P Require Import Prelude GoString GoFloat FloatFacts Native HostFS.

#[local] Open Scope string_scope.

(** src/pkg/agent/dvfs/dvfs.go:25-31 [CPU] *)
Record CPU := mkCPU { cpu_Index : Z; cpu_MaxFile : string; cpu_CurFile : string; cpu_MinKHz : Z; cpu_MaxKHz : Z }.

(** src/pkg/agent/dvfs/dvfs.go:33-37 [energySample] *)
Record energySample := mkSample { es_LastUJ : Z; es_LastTime : Z; es_RangeUJ : Z }.

(** Times and the cooldown are nanoseconds; [d_Metrics] and [d_PowerReader]
    tell whether the pointer and the interface are set.
    src/pkg/agent/dvfs/dvfs.go:61-86 [Controller] *)
Record Controller := mkController {
  d_Cpus : list CPU;
  d_Samples : gmap string energySample;
  d_EmaAlpha : float64;
  d_EmaPowerW : float64;
  d_EmaInit : bool;
  d_HighMarginW : float64;
  d_LowMarginW : float64;
  d_StepPct : Z;
  d_ThrottlePct : Z;
  d_MinFreqKHz : Z;
  d_Cooldown : Z;
  d_LastAction : Z;
  d_AboveCount : Z;
  d_BelowCount : Z;
  d_TripCount : Z;
  d_Warned : bool;
  d_Metrics : bool;
  d_PowerReader : bool
}.

Definition set_Samples x d := mkController (d_Cpus d) x (d_EmaAlpha d) (d_EmaPowerW d) (d_EmaInit d) (d_HighMarginW d) (d_LowMarginW d)
  (d_StepPct d) (d_ThrottlePct d) (d_MinFreqKHz d) (d_Cooldown d) (d_LastAction d) (d_AboveCount d) (d_BelowCount d) (d_TripCount d)
  (d_Warned d) (d_Metrics d) (d_PowerReader d).
Definition set_Ema x d := mkController (d_Cpus d) (d_Samples d) (d_EmaAlpha d) x true (d_HighMarginW d) (d_LowMarginW d)
  (d_StepPct d) (d_ThrottlePct d) (d_MinFreqKHz d) (d_Cooldown d) (d_LastAction d) (d_AboveCount d) (d_BelowCount d) (d_TripCount d)
  (d_Warned d) (d_Metrics d) (d_PowerReader d).
Definition set_Throttle x d := mkController (d_Cpus d) (d_Samples d) (d_EmaAlpha d) (d_EmaPowerW d) (d_EmaInit d) (d_HighMarginW d) (d_LowMarginW d)
  (d_StepPct d) x (d_MinFreqKHz d) (d_Cooldown d) (d_LastAction d) (d_AboveCount d) (d_BelowCount d) (d_TripCount d)
  (d_Warned d) (d_Metrics d) (d_PowerReader d).
Definition set_LastAction x d := mkController (d_Cpus d) (d_Samples d) (d_EmaAlpha d) (d_EmaPowerW d) (d_EmaInit d) (d_HighMarginW d) (d_LowMarginW d)
  (d_StepPct d) (d_ThrottlePct d) (d_MinFreqKHz d) (d_Cooldown d) x (d_AboveCount d) (d_BelowCount d) (d_TripCount d)
  (d_Warned d) (d_Metrics d) (d_PowerReader d).
Definition set_Counts a b d := mkController (d_Cpus d) (d_Samples d) (d_EmaAlpha d) (d_EmaPowerW d) (d_EmaInit d) (d_HighMarginW d) (d_LowMarginW d)
  (d_StepPct d) (d_ThrottlePct d) (d_MinFreqKHz d) (d_Cooldown d) (d_LastAction d) a b (d_TripCount d)
  (d_Warned d) (d_Metrics d) (d_PowerReader d).
Definition set_Warned x d := mkController (d_Cpus d) (d_Samples d) (d_EmaAlpha d) (d_EmaPowerW d) (d_EmaInit d) (d_HighMarginW d) (d_LowMarginW d)
  (d_StepPct d) (d_ThrottlePct d) (d_MinFreqKHz d) (d_Cooldown d) (d_LastAction d) (d_AboveCount d) (d_BelowCount d) (d_TripCount d)
  x (d_Metrics d) (d_PowerReader d).
Definition set_PowerReader x d := mkController (d_Cpus d) (d_Samples d) (d_EmaAlpha d) (d_EmaPowerW d) (d_EmaInit d) (d_HighMarginW d) (d_LowMarginW d)
  (d_StepPct d) (d_ThrottlePct d) (d_MinFreqKHz d) (d_Cooldown d) (d_LastAction d) (d_AboveCount d) (d_BelowCount d) (d_TripCount d)
  (d_Warned d) (d_Metrics d) x.

(** src/pkg/agent/dvfs/dvfs.go:89-97 [Config] *)
Record Config := mkConfig {
  cfg_EMAAlpha : float64; cfg_HighMarginW : float64; cfg_LowMarginW : float64; cfg_StepPct : Z; cfg_MinFreqKHz : Z;
  cfg_Cooldown : Z; cfg_TripCount : Z
}.

(** src/pkg/agent/dvfs/dvfs.go:123-125 [Active] *)
Definition Active (d : Controller) : bool := (0 <? d_ThrottlePct d)%Z.

(** src/pkg/agent/dvfs/dvfs.go:128-130 [HasHostControl] *)
Definition HasHostControl (d : Controller) : bool := (0 <? length (d_Cpus d))%nat.

(** ** Finding the policies and the counters *)

(** src/pkg/agent/dvfs/dvfs.go:365-365 [HostSysRoot] *)
Definition HostSysRoot : string := "/host-sys".

(** src/pkg/agent/dvfs/dvfs.go:451-451 [PowercapRoot] *)
Definition PowercapRoot : string := "/host-sys/class/powercap".

Section Host.
Context {H : Type} `{!HostFS H}.

(** src/pkg/agent/dvfs/dvfs.go:369-374 [cpuFreqGlobs] *)
Definition cpuFreqGlobs : list string := [
  HostSysRoot +:+ "/devices/system/cpu/cpu*/cpufreq/scaling_max_freq";
  HostSysRoot +:+ "/devices/system/cpu/cpufreq/policy*/scaling_max_freq"].

(** src/pkg/agent/dvfs/dvfs.go:427-447 [CPUIndexFromPath] *)
Definition CPUIndexFromPath (cpufreqDir : string) : option Z :=
  let base := path_Base cpufreqDir in
  if HasPrefix base "policy" then Atoi (TrimPrefix base "policy")
  else
    let base := if HasPrefix base "cpufreq" then path_Base (path_Dir cpufreqDir) else base in
    if negb (HasPrefix base "cpu") then None else Atoi (TrimPrefix base "cpu").

(** src/pkg/agent/dvfs/dvfs.go:406-421 [maxf] *)
Definition readCPU (h : H) (maxf : string) : option CPU :=
  let dir := path_Dir maxf in
  idx ← CPUIndexFromPath dir;
  minKHz ← readInt64 (path_Join dir "cpuinfo_min_freq") h;
  maxKHz ← readInt64 (path_Join dir "cpuinfo_max_freq") h;
  Some (mkCPU idx maxf (path_Join dir "scaling_cur_freq") minKHz maxKHz).

(** src/pkg/agent/dvfs/dvfs.go:384-424 [CPUFreqList] *)
Definition CPUFreqList (h : H) : list CPU :=
  let matches := dedupResolved (fun maxf => resolved h (path_Dir maxf)) ∅
                   (concat ((fun p => Glob p h) <$> cpuFreqGlobs)) in
  sort_slice (fun a b => (cpu_Index a <? cpu_Index b)%Z) (omap (readCPU h) matches).

(** src/pkg/agent/dvfs/dvfs.go:100-120 [New] *)
Definition New (cfg : Config) (metrics : bool) (h : H) : Controller :=
  mkController (CPUFreqList h) ∅ (cfg_EMAAlpha cfg) fzero false (cfg_HighMarginW cfg) (cfg_LowMarginW cfg)
    (cfg_StepPct cfg) 0 (cfg_MinFreqKHz cfg) (cfg_Cooldown cfg) 0 0 0 (cfg_TripCount cfg) false metrics false.

(** src/pkg/agent/dvfs/dvfs.go:454-462 [energyFileGlobs] *)
Definition energyFileGlobs : list string := [
  PowercapRoot +:+ "/*/energy_uj";
  PowercapRoot +:+ "/*:*/energy_uj";
  PowercapRoot +:+ "/*:*:*/energy_uj";
  HostSysRoot +:+ "/devices/virtual/powercap/intel-rapl/*/energy_uj";
  HostSysRoot +:+ "/devices/virtual/powercap/intel-rapl/*/*/energy_uj"].

(** src/pkg/agent/dvfs/dvfs.go:501-504 [IsPackageEnergyFile] *)
Definition IsPackageEnergyFile (path : string) : bool := (CountByte (path_Base (path_Dir path)) ":" =? 1)%nat.

(** src/pkg/agent/dvfs/dvfs.go:470-498 [EnergyFiles] *)
Definition EnergyFiles (h : H) : list string :=
  filter (fun f => IsPackageEnergyFile f = true)
    (sort_strings (dedupResolved (resolved h) ∅ (concat ((fun p => Glob p h) <$> energyFileGlobs)))).

(** The zones with a package name, those with one colon, and whether a name
    was read.
    src/pkg/agent/dvfs/dvfs.go:526-540 [entries] *)
Definition scanZone (h : H) (acc : list string * list string * bool) (dir : string) : list string * list string * bool :=
  let '(named, fallback, sawName) := acc in
  let fallback := if (CountByte (path_Base dir) ":" =? 1)%nat then (fallback ++ [dir])%list else fallback in
  match fs_read (path_Join dir "name") h with
  | None => (named, fallback, sawName)
  | Some raw => ((if HasPrefix (TrimSpace raw) "package-" then (named ++ [dir])%list else named), fallback, true)
  end.

(** src/pkg/agent/dvfs/dvfs.go:517-545 [RAPLPackageZones] *)
Definition RAPLPackageZones (h : H) : list string :=
  let entries := sort_strings (Glob (PowercapRoot +:+ "/*") h) in
  let '(named, fallback, sawName) := foldl (scanZone h) ([], [], false) entries in
  if sawName : bool then named else fallback.

(** src/pkg/agent/dvfs/dvfs.go:549-564 [RAPLCapFiles] *)
Definition RAPLCapFiles (h : H) : list string :=
  sort_strings (filter (fun f => fileExists f h = true)
    ((fun z => path_Join z "constraint_0_power_limit_uw") <$> RAPLPackageZones h)).
End Host.

(** ** Reading the power *)

(** What [PowerReader.ReadPowerWatts] answers. *)
Record PowerReading := mkReading { pr_Watts : float64; pr_OK : bool; pr_Err : option string }.

(** The power reader of the telemetry endpoint, when one is set. *)
Class PowerSource (H : Type) := { read_power : H -> PowerReading * H }.

Section Power.
Context {H : Type} `{!HostFS H} `{!PowerSource H}.

Definition duration_since (t now : Z) : float64 := duration_seconds (sat64 (now - t)).

(** One counter: the samples after it and the watts since the last sample of
    it, if there was one and they can be told.
    src/pkg/agent/dvfs/dvfs.go:318-351 [f] *)
Definition sampleCounter (now : Z) (f : string) (h : H) (samples : gmap string energySample)
    : gmap string energySample * option float64 :=
  match readInt64 f h with
  | None => (samples, None)
  | Some currentUJ =>
      match samples !! f with
      | None =>
          let rangeUJ := default 0%Z (readInt64 (path_Join (path_Dir f) "max_energy_range_uj") h) in
          (<[f := mkSample currentUJ now rangeUJ]> samples, None)
      | Some s =>
          let deltaUJ := wrap64 (currentUJ - es_LastUJ s) in
          let deltaUJ := if (deltaUJ <? 0)%Z && (0 <? es_RangeUJ s)%Z then wrap64 (deltaUJ + es_RangeUJ s) else deltaUJ in
          let dt := duration_since (es_LastTime s) now in
          let samples := <[f := mkSample currentUJ now (es_RangeUJ s)]> samples in
          if fle dt fzero || (deltaUJ <? 0)%Z then (samples, None)
          else (samples, Some (fdiv (fdiv (fofZ deltaUJ) (fofZ 1000000)) dt))
      end
  end.

(** The samples after the counters, the watts summed and how many counted.
    src/pkg/agent/dvfs/dvfs.go:318-351 [totalW] *)
Fixpoint sampleCounters (now : Z) (files : list string) (h : H) (samples : gmap string energySample) (totalW : float64) (count : nat)
    : gmap string energySample * float64 * nat :=
  match files with
  | [] => (samples, totalW, count)
  | f :: rest =>
      let '(samples, w) := sampleCounter now f h samples in
      match w with
      | None => sampleCounters now rest h samples totalW count
      | Some w => sampleCounters now rest h samples (fadd totalW w) (S count)
      end
  end.

(** src/pkg/agent/dvfs/dvfs.go:303-359 [readPowerWatts] *)
Definition readPowerWatts (d : Controller) (now : Z) (h : H) : PowerReading * Controller * H :=
  if d_PowerReader d then let '(r, h) := read_power h in (r, d, h)
  else match EnergyFiles h with
  | [] => (mkReading fzero false None, d, h)
  | files =>
      let '(samples, totalW, count) := sampleCounters now files h (d_Samples d) fzero 0 in
      let d := set_Samples samples d in
      if (count =? 0)%nat then (mkReading fzero false None, d, h) else (mkReading totalW true None, d, h)
  end.
End Power.

(** ** Throttling *)

(** [math.Ceil(float64(count) * float64(pct) / 100.0)] as an int.
    src/pkg/agent/dvfs/dvfs.go:273-273 [throttleCount] *)
Definition throttleCount (count : nat) (pct : Z) : Z :=
  int_of_float (fceil (fdiv (fmul (fofZ (Z.of_nat count)) (fofZ pct)) (fofZ 100))).

(** The highest frequency written for the [i]-th policy.
    src/pkg/agent/dvfs/dvfs.go:276-279 [target] *)
Definition target (d : Controller) (pct : Z) (i : nat) (c : CPU) : Z :=
  if (Z.of_nat i <? throttleCount (length (d_Cpus d)) pct)%Z
  then Z.max (cpu_MinKHz c) (Z.min (cpu_MaxKHz c) (d_MinFreqKHz d)) else cpu_MaxKHz c.

(** What an action did: what it wrote, and the first error. *)
Record Applied := mkApplied { ap_Written : nat; ap_Err : option string }.

Section Throttle.
Context {H : Type} `{!HostFS H} `{!ControlEndpoint H} `{!PowerSource H}.

(** src/pkg/agent/dvfs/dvfs.go:275-284 [c] *)
Fixpoint writeTargets (d : Controller) (pct : Z) (i : nat) (cpus : list CPU) (written : nat) (h : H) : Applied * H :=
  match cpus with
  | [] => (mkApplied written None, h)
  | c :: rest =>
      match fs_write (cpu_MaxFile c) (Itoa (target d pct i c)) h with
      | (Some err, h) => (mkApplied written (Some ("write " +:+ cpu_MaxFile c +:+ ": " +:+ err)), h)
      | (None, h) => writeTargets d pct (S i) rest (S written) h
      end
  end.

(** src/pkg/agent/dvfs/dvfs.go:259-286 [applyThrottlePct] *)
Definition applyThrottlePct (pct : Z) (controlClient : option HTTPControlClient) (capWatts : float64) (d : Controller) (h : H)
    : Applied * H :=
  if (pct <? 0)%Z || (100 <? pct)%Z then (mkApplied 0 (Some ("invalid throttle pct " +:+ Itoa pct)), h)
  else match controlClient with
  | Some c =>
      match ApplyCPUControl c "dvfs.set_throttle_pct" capWatts pct h with
      | (Some err, h) => (mkApplied 0 (Some err), h)
      | (None, h) => (mkApplied 1 None, h)
      end
  | None =>
      if (length (d_Cpus d) =? 0)%nat
      then (mkApplied 0 (Some ("no cpufreq scaling_max_freq files found under " +:+ HostSysRoot +:+ "/devices/system/cpu")), h)
      else writeTargets d pct 0 (d_Cpus d) 0 h
  end.

(** src/pkg/agent/dvfs/dvfs.go:247-257 [RestoreAllMax] *)
Definition RestoreAllMax (d : Controller) (h : H) : Applied * Controller * H :=
  let '(a, h) := applyThrottlePct 0 None fzero d h in
  match ap_Err a with
  | None => (a, set_Throttle 0%Z d, h)
  | Some _ => (a, d, h)
  end.

(** The action of a turn, in place of the text that reports it; [NoAction]
    is the empty text.
    src/pkg/agent/dvfs/dvfs.go:194-244 [Sprintf] *)
Inductive Action :=
| NoAction
| HoldCooldown (observed ema : float64) (throttlePct : Z)
| Hold (observed ema : float64) (throttlePct : Z)
| ThrottleUp (observed ema upper : float64) (oldPct newPct : Z) (cpus : nat)
| ThrottleDown (observed ema lower : float64) (oldPct newPct : Z) (cpus : nat).

(** The smoothed power after a reading.
    src/pkg/agent/dvfs/dvfs.go:179-184 [EmaPowerW] *)
Definition observe (powerW : float64) (d : Controller) : Controller :=
  set_Ema (if d_EmaInit d then fadd (fmul (d_EmaAlpha d) powerW) (fmul (fsub fone (d_EmaAlpha d)) (d_EmaPowerW d)) else powerW) d.

(** The trip counters after the smoothed power is compared with the margins.
    src/pkg/agent/dvfs/dvfs.go:197-208 [upper, lower] *)
Definition countTrips (capWatts : float64) (d : Controller) : Controller :=
  if flt (fadd capWatts (d_HighMarginW d)) (d_EmaPowerW d) then set_Counts (wrap64 (d_AboveCount d + 1)) 0 d
  else if flt (d_EmaPowerW d) (fsub capWatts (d_LowMarginW d)) then set_Counts 0 (wrap64 (d_BelowCount d + 1)) d
  else set_Counts 0 0 d.

(** One turn with a power reading; one clock serves it.
    src/pkg/agent/dvfs/dvfs.go:179-244 [Reconcile] *)
Definition control (capWatts : float64) (controlClient : option HTTPControlClient) (now : Z) (powerW : float64)
    (d : Controller) (h : H) : (string + Action) * Controller * H :=
  let d := observe powerW d in
  if (sat64 (now - d_LastAction d) <? d_Cooldown d)%Z
  then (inr (HoldCooldown powerW (d_EmaPowerW d) (d_ThrottlePct d)), d, h)
  else
    let upper := fadd capWatts (d_HighMarginW d) in
    let lower := fsub capWatts (d_LowMarginW d) in
    let d := countTrips capWatts d in
    if (d_TripCount d <=? d_AboveCount d)%Z then
      let oldPct := d_ThrottlePct d in
      let d := set_LastAction now (set_Counts 0 (d_BelowCount d) (set_Throttle (Z.min 100 (wrap64 (oldPct + d_StepPct d))) d)) in
      let '(a, h) := applyThrottlePct (d_ThrottlePct d) controlClient capWatts d h in
      match ap_Err a with
      | Some err => (inl err, d, h)
      | None => (inr (ThrottleUp powerW (d_EmaPowerW d) upper oldPct (d_ThrottlePct d) (ap_Written a)), d, h)
      end
    else if (d_TripCount d <=? d_BelowCount d)%Z then
      let oldPct := d_ThrottlePct d in
      let d := set_LastAction now (set_Counts (d_AboveCount d) 0 (set_Throttle (Z.max 0 (wrap64 (oldPct - d_StepPct d))) d)) in
      let '(a, h) := applyThrottlePct (d_ThrottlePct d) controlClient capWatts d h in
      match ap_Err a with
      | Some err => (inl err, d, h)
      | None => (inr (ThrottleDown powerW (d_EmaPowerW d) lower oldPct (d_ThrottlePct d) (ap_Written a)), d, h)
      end
    else (inr (Hold powerW (d_EmaPowerW d) (d_ThrottlePct d)), d, h).

(** src/pkg/agent/dvfs/dvfs.go:165-244 [Reconcile] *)
Definition Reconcile (capWatts : float64) (controlClient : option HTTPControlClient) (now : Z) (d : Controller) (h : H)
    : (string + Action) * Controller * H :=
  if fle capWatts fzero then (inr NoAction, d, h)
  else if negb (d_Metrics d) then (inl "dvfs: Metrics not initialized", d, h)
  else
    let '(r, d, h) := readPowerWatts d now h in
    match pr_Err r with
    | Some err => (inl err, d, h)
    | None => if negb (pr_OK r) then (inr NoAction, d, h) else control capWatts controlClient now (pr_Watts r) d h
    end.
End Throttle.

(** ** What moves the throttle *)

(** A turn of the loop that was not held back, as it is seen from outside:
    where the smoothed power was, whether it acted, and the throttle around
    it. *)
Inductive Reading := High | Low | Within.
#[export] Instance Reading_eq_dec : EqDecision Reading.
Proof. solve_decision. Defined.

Record Turn := mkTurn { tn_Now : Z; tn_Reading : Reading; tn_Acted : bool; tn_Before : Z; tn_After : Z }.

Definition classify (capWatts : float64) (d : Controller) : Reading :=
  if flt (fadd capWatts (d_HighMarginW d)) (d_EmaPowerW d) then High
  else if flt (d_EmaPowerW d) (fsub capWatts (d_LowMarginW d)) then Low
  else Within.

(** How many turns in a row, up to the last one and since the last action,
    read [r]. Turns are listed newest first. *)
Fixpoint streak (r : Reading) (l : list Turn) : Z :=
  match l with
  | [] => 0
  | t :: l => if tn_Acted t then 0 else if decide (tn_Reading t = r) then 1 + streak r l else 0
  end.

Definition lastAction (l : list Turn) : option Z := tn_Now <$> find tn_Acted l.

(** What a throttle step is allowed: it needs the trip count of readings on
    one side of the margins in a row, and the cooldown since the step before;
    it moves by the step, up for a power above, within 0 and 100. *)
Fixpoint explained (cfg : Config) (l : list Turn) : Prop :=
  match l with
  | [] => True
  | t :: l =>
      (tn_Acted t = true <-> tn_Reading t <> Within /\ (cfg_TripCount cfg <= 1 + streak (tn_Reading t) l)%Z) /\
      tn_After t = (if tn_Acted t then match tn_Reading t with
                    | High => Z.min 100 (tn_Before t + cfg_StepPct cfg)
                    | _ => Z.max 0 (tn_Before t - cfg_StepPct cfg)
                    end else tn_Before t) /\
      (tn_Acted t = true -> forall last, lastAction l = Some last -> (last + cfg_Cooldown cfg <= tn_Now t)%Z) /\
      explained cfg l
  end.

Record sane (cfg : Config) : Prop := {
  sane_trip : (0 < cfg_TripCount cfg <= int64_max)%Z;
  sane_step : (0 <= cfg_StepPct cfg <= int64_max - 100)%Z;
  sane_cooldown : (0 <= cfg_Cooldown cfg <= int64_max)%Z
}.

Definition configured (cfg : Config) (d : Controller) : Prop :=
  d_StepPct d = cfg_StepPct cfg /\ d_Cooldown d = cfg_Cooldown cfg /\ d_TripCount d = cfg_TripCount cfg.

Record Tracks (cfg : Config) (d : Controller) (l : list Turn) : Prop := {
  tk_cfg : configured cfg d;
  tk_pct : (0 <= d_ThrottlePct d <= 100)%Z;
  tk_above : d_AboveCount d = streak High l;
  tk_below : d_BelowCount d = streak Low l;
  tk_last : forall t, lastAction l = Some t -> d_LastAction d = t;
  tk_explained : explained cfg l
}.

Lemma streak_nonneg r l : (0 <= streak r l)%Z.
Proof. induction l as [|t l IH]; cbn [streak]; [lia|]. destruct (tn_Acted t); [lia|]. destruct (decide _); lia. Qed.

(** Between actions no run of readings is as long as the trip count. *)
Lemma streak_below_trip cfg r l : (0 < cfg_TripCount cfg)%Z -> explained cfg l -> r <> Within -> (streak r l < cfg_TripCount cfg)%Z.
Proof.
  intros Ht Hl Hr. destruct l as [|t l]; [done|]. destruct Hl as (Ha & _). cbn [streak].
  destruct (tn_Acted t) eqn:E; [done|]. destruct (decide (tn_Reading t = r)) as [<-|]; [|done].
  destruct (decide (cfg_TripCount cfg <= 1 + streak (tn_Reading t) l)%Z) as [Hle|]; [|lia].
  by assert (false = true) by by apply Ha.
Qed.

Lemma sat64_lt x c : (int64_min < c <= int64_max)%Z -> (sat64 x <? c)%Z = (x <? c)%Z.
Proof. intros Hc. unfold sat64, int64_min, int64_max in *. destruct (Z.ltb_spec x c), (Z.ltb_spec (Z.max (-2 ^ 63) (Z.min (2 ^ 63 - 1) x)) c); lia. Qed.

Section Steps.
Context {H : Type} `{!HostFS H} `{!ControlEndpoint H} `{!PowerSource H}.

(** Whether a turn that was not held back acted: an error comes from the
    writes of an action. *)
Definition actedOn (out : string + Action) : option bool :=
  match out with
  | inl _ | inr (ThrottleUp _ _ _ _ _ _) | inr (ThrottleDown _ _ _ _ _ _) => Some true
  | inr (Hold _ _ _) => Some false
  | _ => None
  end.

Definition controlTurn (capWatts : float64) (client : option HTTPControlClient) (now : Z) (powerW : float64) (d : Controller) (h : H)
    : list Turn :=
  let '(out, d', _) := control capWatts client now powerW d h in
  match actedOn out with
  | None => []
  | Some acted => [mkTurn now (classify capWatts (observe powerW d)) acted (d_ThrottlePct d) (d_ThrottlePct d')]
  end.

Lemma countTrips_classify capWatts d :
  countTrips capWatts d = match classify capWatts d with
    | High => set_Counts (wrap64 (d_AboveCount d + 1)) 0 d
    | Low => set_Counts 0 (wrap64 (d_BelowCount d + 1)) d
    | Within => set_Counts 0 0 d
    end.
Proof. unfold countTrips, classify. by repeat case_match. Qed.

(** A turn that does not act keeps the throttle and the time of the last
    action. *)
Lemma held_tracks cfg l now r d d' :
  Tracks cfg d l -> configured cfg d' -> d_ThrottlePct d' = d_ThrottlePct d -> d_LastAction d' = d_LastAction d ->
  d_AboveCount d' = (if decide (r = High) then 1 + streak High l else 0)%Z ->
  d_BelowCount d' = (if decide (r = Low) then 1 + streak Low l else 0)%Z ->
  (r <> Within -> 1 + streak r l < cfg_TripCount cfg)%Z ->
  Tracks cfg d' (mkTurn now r false (d_ThrottlePct d) (d_ThrottlePct d') :: l).
Proof.
  intros [_ Hpct _ _ Hlast Hex] Hc Ht Hla Ha Hb Htrip. split; try done.
  - by rewrite Ht.
  - intros t E. rewrite Hla. by apply Hlast.
  - cbn [explained tn_Acted tn_Reading tn_After tn_Before]. split_and!; try done.
    split; [done|]. intros [Hr Hle]. specialize (Htrip Hr). lia.
Qed.

(** A turn that acts clears the counters and starts the cooldown. *)
Lemma acted_tracks cfg l now r d d' :
  Tracks cfg d l -> configured cfg d' -> r <> Within -> (cfg_TripCount cfg <= 1 + streak r l)%Z ->
  (forall last, lastAction l = Some last -> (last + cfg_Cooldown cfg <= now)%Z) -> (0 <= cfg_StepPct cfg)%Z ->
  d_ThrottlePct d' = match r with High => Z.min 100 (d_ThrottlePct d + cfg_StepPct cfg)
                     | _ => Z.max 0 (d_ThrottlePct d - cfg_StepPct cfg) end ->
  d_LastAction d' = now -> d_AboveCount d' = 0%Z -> d_BelowCount d' = 0%Z ->
  Tracks cfg d' (mkTurn now r true (d_ThrottlePct d) (d_ThrottlePct d') :: l).
Proof.
  intros [_ Hpct _ _ Hlast Hex] Hc Hr Htrip Hsp Hstep Ht Hla Ha Hb. split; try done.
  - rewrite Ht. destruct r; lia.
  - intros t [= <-]. done.
Qed.

Ltac settle lem := cbn [actedOn fst snd app]; apply lem; first [assumption | done | cbn; intros; repeat case_decide; (lia || congruence)].

Lemma control_tracks cfg capWatts client now powerW d h l :
  sane cfg -> Tracks cfg d l ->
  Tracks cfg (control capWatts client now powerW d h).1.2 (controlTurn capWatts client now powerW d h ++ l).
Proof.
  intros [Htrip Hstep Hcool] HT. pose proof HT as [(Es & Ec & Et) Hpct Hab Hbe Hlast Hex]. unfold controlTurn, control.
  set (d1 := observe powerW d). change (d_LastAction d1) with (d_LastAction d). change (d_Cooldown d1) with (d_Cooldown d).
  rewrite Ec, sat64_lt by (unfold int64_min in *; lia).
  destruct (Z.ltb_spec (now - d_LastAction d) (cfg_Cooldown cfg)) as [|Hnow]; [by split|].
  rewrite countTrips_classify. 
  pose proof (streak_nonneg High l). pose proof (streak_nonneg Low l).
  pose proof (streak_below_trip cfg High l ltac:(lia) Hex ltac:(done)).
  pose proof (streak_below_trip cfg Low l ltac:(lia) Hex ltac:(done)).
  assert (forall last, lastAction l = Some last -> (last + cfg_Cooldown cfg <= now)%Z) as Hspace
    by (intros last Hl; rewrite <- (Hlast last Hl); lia).
  assert (d_AboveCount d1 = d_AboveCount d) as Ea by done. assert (d_BelowCount d1 = d_BelowCount d) as Eb by done.
  assert (d_TripCount d1 = cfg_TripCount cfg) as Et1 by done. assert (d_StepPct d1 = cfg_StepPct cfg) as Es1 by done.
  assert (d_ThrottlePct d1 = d_ThrottlePct d) as Ep1 by done. assert (configured cfg d1) as Hc1 by done.
  destruct (classify capWatts d1) eqn:Er; cbn [d_TripCount d_AboveCount d_BelowCount set_Counts].
  - rewrite Et1, Ea, Hab, wrap64_id by (unfold in_int64, int64_min, int64_max in *; lia).
    destruct (Z.leb_spec (cfg_TripCount cfg) (streak High l + 1)) as [Hle|Hgt].
    2:{ destruct (Z.leb_spec (cfg_TripCount cfg) 0); [lia|]. settle held_tracks. }
    cbn [d_ThrottlePct d_StepPct set_Counts set_LastAction set_Throttle]. rewrite Es1, Ep1.
    rewrite wrap64_id by (unfold in_int64, int64_min, int64_max in *; lia).
    destruct (applyThrottlePct _ _ _ _ _) as [a h']. destruct (ap_Err a); settle acted_tracks.
  - rewrite Et1, Eb, Hbe, wrap64_id by (unfold in_int64, int64_min, int64_max in *; lia).
    destruct (Z.leb_spec (cfg_TripCount cfg) 0); [lia|].
    destruct (Z.leb_spec (cfg_TripCount cfg) (streak Low l + 1)) as [Hle|Hgt]; [|settle held_tracks].
    cbn [d_ThrottlePct d_StepPct set_Counts set_LastAction set_Throttle]. rewrite Es1, Ep1.
    rewrite wrap64_id by (unfold in_int64, int64_min, int64_max in *; lia).
    destruct (applyThrottlePct _ _ _ _ _) as [a h']. destruct (ap_Err a); settle acted_tracks.
  - rewrite Et1. destruct (Z.leb_spec (cfg_TripCount cfg) 0); [lia|]. settle held_tracks.
Qed.

(** The turn of one call of the loop, if there was a reading to act on. *)
Definition turnOf (capWatts : float64) (client : option HTTPControlClient) (now : Z) (d : Controller) (h : H) : list Turn :=
  if fle capWatts fzero || negb (d_Metrics d) then []
  else
    let '(r, d, h) := readPowerWatts d now h in
    if bool_decide (pr_Err r = None) && pr_OK r then controlTurn capWatts client now (pr_Watts r) d h else [].

Lemma Tracks_kept cfg d d' l :
  Tracks cfg d l -> configured cfg d' -> (0 <= d_ThrottlePct d' <= 100)%Z -> d_LastAction d' = d_LastAction d ->
  d_AboveCount d' = d_AboveCount d -> d_BelowCount d' = d_BelowCount d -> Tracks cfg d' l.
Proof. intros [] ? ? Hl Ha Hb. split; try done; [by rewrite Ha|by rewrite Hb|]. intros t E. rewrite Hl. eauto. Qed.

Lemma readPowerWatts_tracks cfg d now h l : Tracks cfg d l -> Tracks cfg (readPowerWatts d now h).1.2 l.
Proof.
  intros HT. unfold readPowerWatts. destruct (d_PowerReader d); [by destruct (read_power h)|].
  destruct (EnergyFiles h); [done|]. destruct (sampleCounters _ _ _ _ _ _) as [[samples w] n].
  assert (Tracks cfg (set_Samples samples d) l) by (eapply Tracks_kept; [exact HT|apply HT|apply HT|done..]).
  by destruct (n =? 0)%nat.
Qed.

Lemma Reconcile_tracks cfg capWatts client now d h l :
  sane cfg -> Tracks cfg d l ->
  Tracks cfg (Reconcile capWatts client now d h).1.2 (turnOf capWatts client now d h ++ l).
Proof.
  intros Hs HT. unfold Reconcile, turnOf. destruct (fle capWatts fzero); [done|]. destruct (d_Metrics d); [|done].
  cbn [negb orb]. pose proof (readPowerWatts_tracks cfg d now h l HT) as HT1.
  destruct (readPowerWatts d now h) as [[r d1] h1]. cbn [fst snd] in HT1.
  destruct (pr_Err r); [done|]. destruct (pr_OK r); [|done]. cbn. by apply control_tracks.
Qed.

(** Everything that happens to a controller from [New] on: its turns, with
    any cap, client, clock and host, the restore to the maximum, a throttle
    set from outside, the reader the telemetry profile names. *)
Inductive history (cfg : Config) : Controller -> list Turn -> Prop :=
| history_new metrics h : history cfg (New cfg metrics h) []
| history_turn d l capWatts client now h :
    history cfg d l -> history cfg (Reconcile capWatts client now d h).1.2 (turnOf capWatts client now d h ++ l)
| history_restore d l h : history cfg d l -> history cfg (RestoreAllMax d h).1.2 l
| history_read d l now h : history cfg d l -> history cfg (readPowerWatts d now h).1.2 l
| history_set d l pct : history cfg d l -> (0 <= pct <= 100)%Z -> history cfg (set_Throttle pct d) l
| history_reader d l b : history cfg d l -> history cfg (set_PowerReader b d) l
| history_warned d l b : history cfg d l -> history cfg (set_Warned b d) l.

(** C12. The throttle moves for a reason: whatever the host, the clock, the caps
    and the other callers do, the loop takes a step exactly at the reading
    that completes a trip count of readings on the same side of the margins,
    none of them used for a step before; a step comes no sooner than the
    cooldown after the step before, moves the throttle by the configured
    percentage, down in power for readings above, and the throttle stays
    within 0 and 100. *)
Theorem throttle_explained cfg d l :
  sane cfg -> history cfg d l -> explained cfg l /\ (0 <= d_ThrottlePct d <= 100)%Z.
Proof.
  intros Hs Hh. assert (Tracks cfg d l) as []; [|done].
  induction Hh as [m h|d l cap client now h _ IH|d l h _ IH|d l now h _ IH|d l pct _ IH Hp|d l b _ IH|d l b _ IH].
  - by split.
  - by apply Reconcile_tracks.
  - unfold RestoreAllMax. destruct (applyThrottlePct _ _ _ _ _) as [a h']. destruct (ap_Err a); [done|].
    by eapply Tracks_kept; [exact IH|apply IH|..].
  - by apply readPowerWatts_tracks.
  - by eapply Tracks_kept; [exact IH|apply IH|..].
  - by eapply Tracks_kept; [exact IH|apply IH|apply IH|..].
  - by eapply Tracks_kept; [exact IH|apply IH|apply IH|..].
Qed.
End Steps.

(** ** What a throttle writes *)

Lemma throttleCount_spec n pct :
  (Z.of_nat n < 2 ^ 38)%Z -> (0 <= pct <= 100)%Z -> throttleCount n pct = (- (- (Z.of_nat n * pct) / 100))%Z.
Proof.
  intros Hn Hp. unfold throttleCount. rewrite fmul_int by (unfold exact_int; nia). apply ceil_quotient; nia.
Qed.

Section Tree.
Context `{!ControlEndpoint Tree}.

Lemma writeTargets_tree d pct cpus i w t :
  NoDup (cpu_MaxFile <$> cpus) ->
  exists t', writeTargets d pct i cpus w t = (mkApplied (w + length cpus) None, t') /\
    (forall j c, cpus !! j = Some c -> tr_files t' !! cpu_MaxFile c = Some (Itoa (target d pct (i + j) c))) /\
    (forall p, p ∉ (cpu_MaxFile <$> cpus) -> tr_files t' !! p = tr_files t !! p).
Proof.
  revert i w t. induction cpus as [|c cpus IH]; intros i w t Hnd; cbn [writeTargets].
  { exists t. cbn [length]. by rewrite Nat.add_0_r. }
  rewrite fmap_cons in Hnd. apply NoDup_cons in Hnd as [Hc Hnd]. cbn [fs_write treeFS].
  destruct (IH (S i) (S w) (mkTree (<[cpu_MaxFile c := Itoa (target d pct i c)]> (tr_files t)) (tr_walk t)) Hnd) as (t' & -> & Hin & Hout).
  exists t'. cbn [length]. rewrite Nat.add_succ_r. split; [done|]. split.
  - intros [|j] c' Hj; cbn in Hj.
    + injection Hj as <-. rewrite Hout by done. cbn [tr_files]. by rewrite lookup_insert_eq, Nat.add_0_r.
    + rewrite Nat.add_succ_r. by apply (Hin j).
  - intros p [Hp1 Hp2]%not_elem_of_cons. rewrite Hout by done. cbn [tr_files]. by rewrite lookup_insert_ne.
Qed.

Lemma applyThrottlePct_tree d pct capWatts t :
  NoDup (cpu_MaxFile <$> d_Cpus d) -> d_Cpus d <> [] -> (0 <= pct <= 100)%Z ->
  exists t', applyThrottlePct pct None capWatts d t = (mkApplied (length (d_Cpus d)) None, t') /\
    (forall j c, d_Cpus d !! j = Some c -> tr_files t' !! cpu_MaxFile c = Some (Itoa (target d pct j c))) /\
    (forall p, p ∉ (cpu_MaxFile <$> d_Cpus d) -> tr_files t' !! p = tr_files t !! p).
Proof.
  intros Hnd Hne Hp. destruct (writeTargets_tree d pct (d_Cpus d) 0 0 t Hnd) as (t' & E & H). exists t'. split; [|done].
  unfold applyThrottlePct. destruct (Z.ltb_spec pct 0); [lia|]. destruct (Z.ltb_spec 100 pct); [lia|]. cbn [orb].
  destruct (d_Cpus d) eqn:Ec; [done|]. exact E.
Qed.

(** C13. A throttle of [pct] percent puts exactly the first [ceil(n * pct / 100)]
    of the [n] policies at the floor frequency, kept within each policy's own
    range, and every other one at its maximum; the restore then puts every
    policy at its maximum and nothing is throttled. No other file changes. *)
Theorem throttle_then_restore d pct capWatts t :
  let n := Z.of_nat (length (d_Cpus d)) in
  NoDup (cpu_MaxFile <$> d_Cpus d) -> d_Cpus d <> [] -> (n < 2 ^ 38)%Z -> (0 <= pct <= 100)%Z ->
  let '(a, t1) := applyThrottlePct pct None capWatts d t in
  let '(b, d2, t2) := RestoreAllMax (set_Throttle pct d) t1 in
  ap_Err a = None /\ ap_Err b = None /\ Active d2 = false /\
  (forall j c, d_Cpus d !! j = Some c ->
     tr_files t1 !! cpu_MaxFile c = Some (Itoa (if bool_decide (100 * Z.of_nat j < n * pct)%Z
       then Z.max (cpu_MinKHz c) (Z.min (cpu_MaxKHz c) (d_MinFreqKHz d)) else cpu_MaxKHz c)) /\
     tr_files t2 !! cpu_MaxFile c = Some (Itoa (cpu_MaxKHz c))) /\
  (forall p, p ∉ (cpu_MaxFile <$> d_Cpus d) -> tr_files t1 !! p = tr_files t !! p /\ tr_files t2 !! p = tr_files t !! p).
Proof.
  intros n Hnd Hne Hn Hp. destruct (applyThrottlePct_tree d pct capWatts t Hnd Hne Hp) as (t1 & -> & Hin & Hout).
  unfold RestoreAllMax.
  destruct (applyThrottlePct_tree (set_Throttle pct d) 0 fzero t1 Hnd Hne ltac:(lia)) as (t2 & -> & Hin2 & Hout2).
  cbn [ap_Err]. split_and!; try done.
  - intros j c Hj. rewrite (Hin j c Hj), (Hin2 j c Hj). unfold target. cbn [d_Cpus set_Throttle d_MinFreqKHz].
    rewrite !throttleCount_spec by (fold n; lia). fold n. rewrite Z.mul_0_r. change (- (- 0 / 100))%Z with 0%Z.
    destruct (Z.ltb_spec (Z.of_nat j) 0); [lia|]. split; [|done]. do 2 f_equal.
    pose proof (Z.mul_div_le (- (n * pct)) 100 ltac:(lia)). pose proof (Z.mul_succ_div_gt (- (n * pct)) 100 ltac:(lia)).
    case_bool_decide; destruct (Z.ltb_spec (Z.of_nat j) (- (- (n * pct) / 100))); (done || lia).
  - intros p Hp0. rewrite (Hout2 p) by done. by rewrite (Hout p).
Qed.
End Tree.

(** ** Energy counters *)

Lemma dedupResolved_keys (key : string -> string) (seen : gset string) l p :
  p ∈ dedupResolved key seen l -> key p ∉ seen.
Proof.
  revert seen. induction l as [|q l IH]; intros seen; cbn [dedupResolved]; [by intros ?%elem_of_nil|].
  case_bool_decide as Hq; [apply IH|]. intros [->|Hp]%elem_of_cons; [done|]. apply IH in Hp. set_solver.
Qed.

Lemma dedupResolved_NoDup (key : string -> string) (seen : gset string) l : NoDup (dedupResolved key seen l).
Proof.
  revert seen. induction l as [|q l IH]; intros seen; cbn [dedupResolved]; [constructor|].
  case_bool_decide as Hq; [apply IH|]. constructor; [|apply IH]. intros Hp%dedupResolved_keys. set_solver.
Qed.

Lemma EnergyFiles_NoDup {H : Type} `{!HostFS H} (h : H) : NoDup (EnergyFiles h).
Proof.
  unfold EnergyFiles, sort_strings. apply NoDup_filter. rewrite sort_slice_perm. apply dedupResolved_NoDup.
Qed.

(** The watts of [e] microjoules between two clocks. *)
Definition wattsOf (e : Z) (dt : float64) : float64 := fdiv (fdiv (fofZ e) (fofZ 1000000)) dt.

Section Energy.
Context {H : Type} `{!HostFS H} `{!PowerSource H}.

(** A counter that read [last] at [t0] and has counted [e] microjoules since,
    wrapping at its range. *)
Definition counted (d : Controller) (h : H) (t0 : Z) (e : string -> Z) (f : string) : Prop :=
  exists last R, d_Samples d !! f = Some (mkSample last t0 R) /\ (0 <= last < R)%Z /\ (R <= int64_max)%Z /\ (0 <= e f < R)%Z /\
    readInt64 f h = Some ((last + e f) mod R)%Z.

Lemma wrapped_delta last R e : (0 <= last < R)%Z -> (R <= int64_max)%Z -> (0 <= e < R)%Z ->
  let cur := ((last + e) mod R)%Z in
  let d := wrap64 (cur - last) in
  (if (d <? 0)%Z && (0 <? R)%Z then wrap64 (d + R) else d) = e.
Proof.
  intros Hl HR He. cbv zeta.
  assert (0 <= (last + e) mod R < R)%Z as Hm by (apply Z.mod_pos_bound; lia).
  rewrite (wrap64_id (_ - _)) by (unfold in_int64, int64_min, int64_max in *; lia).
  destruct (decide (last + e < R)%Z) as [Hs|Hs].
  - rewrite Z.mod_small by lia. destruct (Z.ltb_spec (last + e - last) 0); [lia|]. cbn [andb]. lia.
  - assert ((last + e) mod R = last + e - R)%Z as -> by (symmetry; apply (Z.mod_unique _ _ 1); lia).
    destruct (Z.ltb_spec (last + e - R - last) 0); [|lia]. destruct (Z.ltb_spec 0 R); [|lia]. cbn [andb].
    rewrite wrap64_id by (unfold in_int64, int64_min, int64_max in *; lia). lia.
Qed.

Lemma sampleCounter_counted d h t0 now e f samples :
  counted d h t0 e f -> samples !! f = d_Samples d !! f -> (t0 < now <= t0 + int64_max)%Z ->
  exists s, sampleCounter now f h samples = (<[f := s]> samples, Some (wattsOf (e f) (duration_seconds (now - t0)))) /\
    es_LastTime s = now /\ readInt64 f h = Some (es_LastUJ s).
Proof.
  intros (last & R & Hs & Hl & HR & He & Hread) E Hnow. unfold sampleCounter. rewrite Hread, E, Hs. cbn [es_LastUJ es_RangeUJ es_LastTime].
  pose proof (wrapped_delta last R (e f) Hl HR He) as Hd. cbv zeta in Hd. rewrite Hd. unfold duration_since.
  assert (sat64 (now - t0) = now - t0)%Z as -> by (unfold sat64, int64_min, int64_max in *; lia).
  rewrite duration_seconds_pos by lia. destruct (Z.ltb_spec (e f) 0); [lia|]. cbn [orb].
  eexists. split; [reflexivity|]. done.
Qed.

Lemma sampleCounters_counted d h t0 now e fs samples total n :
  Forall (counted d h t0 e) fs -> NoDup fs -> (forall f, f ∈ fs -> samples !! f = d_Samples d !! f) ->
  (t0 < now <= t0 + int64_max)%Z ->
  exists samples', sampleCounters now fs h samples total n =
      (samples', foldl (fun w f => fadd w (wattsOf (e f) (duration_seconds (now - t0)))) total fs, (n + length fs)%nat) /\
    (forall f, f ∈ fs -> exists s, samples' !! f = Some s /\ es_LastTime s = now /\ readInt64 f h = Some (es_LastUJ s)) /\
    (forall f, f ∉ fs -> samples' !! f = samples !! f).
Proof.
  intros Hc Hnd Hsame Hnow. revert samples total n Hsame. induction fs as [|f fs IH]; intros samples total n Hsame; cbn [sampleCounters foldl].
  { exists samples. cbn [length]. rewrite Nat.add_0_r. split; [done|]. split; [by intros f ?%elem_of_nil|done]. }
  apply Forall_cons in Hc as [Hf Hc]. apply NoDup_cons in Hnd as [Hnf Hnd].
  destruct (sampleCounter_counted d h t0 now e f samples Hf) as (s & -> & Hs1 & Hs2); [apply Hsame; set_solver|done|].
  destruct (IH Hc Hnd (<[f := s]> samples) (fadd total (wattsOf (e f) (duration_seconds (now - t0)))) (S n)) as (samples' & -> & Hin & Hout).
  { intros g Hg. rewrite lookup_insert_ne by (intros ->; done). apply Hsame. set_solver. }
  exists samples'. cbn [length]. rewrite Nat.add_succ_r. split; [done|]. split.
  - intros g [->|Hg]%elem_of_cons; [|by apply Hin]. exists s. by rewrite Hout, lookup_insert_eq.
  - intros g [Hg1 Hg2]%not_elem_of_cons. rewrite Hout by done. by rewrite lookup_insert_ne.
Qed.

(** The packages' power is each package's energy since the last reading over
    the time since, also when a counter has wrapped around at its range, and
    every package counts once; the next reading starts from this one. *)
Theorem readPowerWatts_counts d h t0 now e :
  d_PowerReader d = false -> EnergyFiles h <> [] -> Forall (counted d h t0 e) (EnergyFiles h) ->
  (t0 < now <= t0 + int64_max)%Z ->
  let '(r, d', h') := readPowerWatts d now h in
  r = mkReading (foldl (fun w f => fadd w (wattsOf (e f) (duration_seconds (now - t0)))) fzero (EnergyFiles h)) true None /\
  h' = h /\ NoDup (EnergyFiles h) /\
  (forall f, f ∈ EnergyFiles h -> exists s, d_Samples d' !! f = Some s /\ es_LastTime s = now /\ readInt64 f h = Some (es_LastUJ s)) /\
  (forall f, f ∉ EnergyFiles h -> d_Samples d' !! f = d_Samples d !! f).
Proof.
  intros Hr Hne Hc Hnow. unfold readPowerWatts. rewrite Hr. pose proof (EnergyFiles_NoDup h) as Hnd.
  destruct (sampleCounters_counted d h t0 now e (EnergyFiles h) (d_Samples d) fzero 0 Hc Hnd) as (samples' & E & Hin & Hout); [done..|].
  destruct (EnergyFiles h) as [|f fs] eqn:Ef; [done|]. rewrite E. cbn [length]. by split_and!.
Qed.
End Energy.

(** ** A node with two policies and two packages *)

#[local] Instance takingEndpoint : ControlEndpoint Tree := {| http_post _ _ t := (inr (mkResponse 200 true (Some true) "" ""), t) |}.
#[local] Instance steadyPower : PowerSource Tree := {| read_power t := (mkReading (fofZ 250) true None, t) |}.

Definition policyFile (i : Z) (file : string) : string := "/host-sys/devices/system/cpu/cpufreq/policy" +:+ Itoa i +:+ "/" +:+ file.
Definition zoneFile (zone file : string) : string := PowercapRoot +:+ "/" +:+ zone +:+ "/" +:+ file.
Definition sampleEntries : list (string * string) := [
  (zoneFile "intel-rapl:0" "energy_uj", "900");
  (zoneFile "intel-rapl:0" "max_energy_range_uj", "1000"); (zoneFile "intel-rapl:0:0" "energy_uj", "77");
  (zoneFile "intel-rapl:1" "energy_uj", "40"); (zoneFile "intel-rapl:1" "max_energy_range_uj", "1000");
  (policyFile 0 "cpuinfo_max_freq", "3000000"); (policyFile 0 "cpuinfo_min_freq", "800000"); (policyFile 0 "scaling_max_freq", "3000000");
  (policyFile 1 "cpuinfo_max_freq", "2000000"); (policyFile 1 "cpuinfo_min_freq", "1600000"); (policyFile 1 "scaling_max_freq", "2000000")].
Definition sampleTree : Tree := mkTree (list_to_map sampleEntries) (fst <$> sampleEntries).
Definition dvfsConfig : Config := mkConfig (flit 3 10) (fofZ 10) (fofZ 15) 50 1500000 20000000000 2.
Definition fresh : Controller := New dvfsConfig true sampleTree.
Definition second : Z := 1000000000.
Definition remote : Controller := set_PowerReader true fresh.
Definition afterTurn (now : Z) (d : Controller) : Controller := (Reconcile (fofZ 200) None now d sampleTree).1.2.
Definition turnAt (now : Z) (d : Controller) : list Turn := turnOf (fofZ 200) None now d sampleTree.

Example sample_found :
  (cpu_MaxFile <$> d_Cpus fresh, EnergyFiles sampleTree) =
  ([policyFile 0 "scaling_max_freq"; policyFile 1 "scaling_max_freq"],
   [zoneFile "intel-rapl:0" "energy_uj"; zoneFile "intel-rapl:1" "energy_uj"]).
Proof. vm_compute. reflexivity. Qed.

(** Two readings of 250 W over a cap of 200 W: the second one steps. *)
Example throttle_explained_witness :
  explained dvfsConfig [mkTurn (61 * second) High true 0 50; mkTurn (60 * second) High false 0 0].
Proof.
  assert (sane dvfsConfig) as Hs by (split; vm_compute; by split).
  pose proof (history_turn dvfsConfig remote [] (fofZ 200) None (60 * second) sampleTree
    (history_reader dvfsConfig fresh [] true (history_new dvfsConfig true sampleTree))) as H1.
  assert (turnOf (fofZ 200) None (60 * second) remote sampleTree = [mkTurn (60 * second) High false 0 0]) as E1 by (vm_compute; reflexivity).
  rewrite E1, app_nil_r in H1.
  apply (history_turn dvfsConfig _ _ (fofZ 200) None (61 * second) sampleTree) in H1.
  assert (turnOf (fofZ 200) None (61 * second) (Reconcile (fofZ 200) None (60 * second) remote sampleTree).1.2 sampleTree =
    [mkTurn (61 * second) High true 0 50]) as E2 by (vm_compute; reflexivity).
  rewrite E2 in H1. exact (proj1 (throttle_explained dvfsConfig _ _ Hs H1)).
Defined.

Example throttle_then_restore_witness :
  (tr_files (applyThrottlePct 50 None fzero fresh sampleTree).2 !! policyFile 0 "scaling_max_freq") = Some "1500000".
Proof.
  assert (d_Cpus fresh = [mkCPU 0 (policyFile 0 "scaling_max_freq") (policyFile 0 "scaling_cur_freq") 800000 3000000;
    mkCPU 1 (policyFile 1 "scaling_max_freq") (policyFile 1 "scaling_cur_freq") 1600000 2000000]) as Ec by (vm_compute; reflexivity).
  pose proof (throttle_then_restore fresh 50 fzero sampleTree) as Ht. cbv zeta in Ht.
  specialize (Ht ltac:(apply (bool_decide_unpack _); vm_compute; exact I) ltac:(rewrite Ec; discriminate)
    ltac:(rewrite Ec; reflexivity) ltac:(lia)).
  destruct (applyThrottlePct 50 None fzero fresh sampleTree) as [a t1]. destruct (RestoreAllMax _ t1) as [[b d2] t2].
  destruct Ht as (_ & _ & _ & Hin & _). cbn [snd]. rewrite Ec in Hin.
  exact (proj1 (Hin 0%nat _ eq_refl)).
Defined.

(** The first package wraps around: 300 microjoules after 900 of 1000. *)
Definition wrappedTree : Tree := mkTree (<[zoneFile "intel-rapl:0" "energy_uj" := "200"]> (tr_files sampleTree)) (tr_walk sampleTree).

Example readPowerWatts_counts_witness :
  (readPowerWatts (readPowerWatts fresh second sampleTree).1.2 (2 * second) wrappedTree).1.1 =
    mkReading (fadd (fadd fzero (wattsOf 300 fone)) (wattsOf 0 fone)) true None.
Proof.
  set (d := (readPowerWatts fresh second sampleTree).1.2).
  assert (EnergyFiles wrappedTree = [zoneFile "intel-rapl:0" "energy_uj"; zoneFile "intel-rapl:1" "energy_uj"]) as Ef
    by (vm_compute; reflexivity).
  pose proof (readPowerWatts_counts d wrappedTree second (2 * second)
    (fun f => if String.eqb f (zoneFile "intel-rapl:0" "energy_uj") then 300%Z else 0%Z)) as Hr.
  specialize (Hr ltac:(vm_compute; reflexivity) ltac:(rewrite Ef; discriminate)).
  assert (Forall (counted d wrappedTree second
    (fun f => if String.eqb f (zoneFile "intel-rapl:0" "energy_uj") then 300%Z else 0%Z)) (EnergyFiles wrappedTree)) as Hc.
  { rewrite Ef. constructor; [exists 900%Z, 1000%Z|constructor; [exists 40%Z, 1000%Z|constructor]].
    all: split; [vm_compute; reflexivity|]; split; [lia|]; split; [apply Z.leb_le; vm_compute; reflexivity|].
    all: split; [split; [apply Z.leb_le|apply Z.ltb_lt]; vm_compute; reflexivity|vm_compute; reflexivity]. }
  specialize (Hr Hc ltac:(split; [apply Z.ltb_lt|apply Z.leb_le]; vm_compute; reflexivity)). destruct (readPowerWatts d _ _) as [[r d'] h'].
  destruct Hr as (-> & _). rewrite Ef. vm_compute. reflexivity.
Defined.
