(* ===== verification/RaplCap.v ===== *)
(** * CPU power caps: the RAPL part of cmd/agent/main.go

    A cap in watts written to every package's power limit
    ([applyRAPLPackageCap]), the range a percent cap resolves against
    ([resolveCPUCapFromPct]: the node's own files, or the hardware catalog
    for a node behind an HTTP endpoint), and the percent cap as a frequency
    throttle when there is no range ([applyCPUPercentIntent]). *)

From S2P Require Import Prelude GoString GoFloat FloatFacts Hwinv Native HostFS Dvfs.

#[local] Open Scope string_scope.

Section Rapl.
Context {H : Type} `{!HostFS H}.

(** src/cmd/agent/main.go:928-938 [raplConstraintMaxUW] *)
Definition raplConstraintMaxUW (limitFile : string) (h : H) : option Z :=
  let '(base, ok) := CutSuffix (path_Base limitFile) "_power_limit_uw" in
  if negb ok then None
  else
    v ← readInt64 (path_Join (path_Dir limitFile) (base +:+ "_max_power_uw")) h;
    if (v <=? 0)%Z then None else Some v.

(** The limit a package gets: the cap, at most the package's own maximum.
    src/cmd/agent/main.go:903-907 [capUW] *)
Definition packageCap (uw : Z) (f : string) (h : H) : Z :=
  match raplConstraintMaxUW f h with
  | Some maxUW => if (maxUW <? uw)%Z then maxUW else uw
  | None => uw
  end.

(** How many packages took the cap, and what the others said.
    src/cmd/agent/main.go:898-915 [failures] *)
Fixpoint capPackages (uw : Z) (files : list string) (h : H) : nat * list string * H :=
  match files with
  | [] => (0%nat, [], h)
  | f :: rest =>
      match fs_write f (Itoa (packageCap uw f h)) h with
      | (Some err, h) =>
          let '(count, failures, h) := capPackages uw rest h in (count, (f +:+ ": " +:+ err) :: failures, h)
      | (None, h) =>
          let '(count, failures, h) := capPackages uw rest h in (S count, failures, h)
      end
  end.

(** What [applyRAPLPackageCap] answers: whether the cap is in place, how
    many files took it, the error. *)
Record RaplResult := mkRapl { rr_Applied : bool; rr_Files : nat; rr_Err : option string }.

(** src/cmd/agent/main.go:880-923 [applyRAPLPackageCap] *)
Definition applyRAPLPackageCap (cpuVendor : string) (watts : float64) (h : H) : RaplResult * H :=
  if negb (String.eqb cpuVendor "AuthenticAMD") && negb (String.eqb cpuVendor "GenuineIntel")
  then (mkRapl false 0 None, h)
  else if fle watts fzero then (mkRapl false 0 (Some "power cap watts must be > 0"), h)
  else match RAPLCapFiles h with
  | [] => (mkRapl false 0 None, h)
  | files =>
      let '(count, failures, h) := capPackages (int_of_float (fmul watts (fofZ 1000000))) files h in
      if (count =? 0)%nat then (mkRapl false 0 (Some ("write rapl cap: " +:+ Join failures "; ")), h)
      else (mkRapl true count None, h)
  end.

(** The watts a file of microwatts holds, if it is positive.
    src/cmd/agent/main.go:1091-1100 [v] *)
Definition positiveWatts (h : H) (path : string) : option float64 :=
  v ← readInt64 path h; if (0 <? v)%Z then Some (fdiv (fofZ v) (fofZ 1000000)) else None.

Definition smallest (first : float64) (vals : list float64) : float64 :=
  foldl (fun m v => if flt v m then v else m) first vals.
Definition largest (first : float64) (vals : list float64) : float64 :=
  foldl (fun m v => if flt m v then v else m) first vals.

(** The smallest of the packages' maxima and the largest of their minima,
    which is 0 without one.
    src/cmd/agent/main.go:1078-1127 [readRAPLPackageCapRangeWatts] *)
Definition readRAPLPackageCapRangeWatts (h : H) : option (float64 * float64) :=
  let zones := RAPLPackageZones h in
  let maxVals := omap (fun z => positiveWatts h (path_Join z "constraint_0_max_power_uw")) zones in
  let minVals := omap (fun z => positiveWatts h (path_Join z "constraint_0_min_power_uw")) zones in
  match maxVals with
  | [] => None
  | m :: _ => Some (smallest m maxVals, match minVals with [] => fzero | m :: _ => largest m minVals end)
  end.

(** Where a range comes from, in place of its text.
    src/cmd/agent/main.go:963-979 [source] *)
Inductive capSource :=
| SourceFiles (minW maxW : float64)
| SourcePackages (zones : nat) (minW maxW : float64)
| SourceCatalog (nr : NodeCPUCapRange)
| SourceBadPct
| SourceNoFiles
| SourceNoFilesNorCatalog (err : CapRangeError).

(** src/cmd/agent/main.go:944-948 [cpuCapRange] *)
Record cpuCapRange := mkCapRange { cr_minW : float64; cr_maxW : float64; cr_source : capSource; cr_catalog : bool }.

(** src/cmd/agent/main.go:990-1002 [cpuCapRangeFromCatalog] *)
Definition cpuCapRangeFromCatalog (catalog : option Catalog) (nodeLabels : gmap string string) : cpuCapRange + CapRangeError :=
  let '(model, sockets) := SimulatedNodeCPU nodeLabels in
  match NodeCPUCapRangeW catalog model sockets with
  | inr err => inr err
  | inl nr => inl (mkCapRange (ncr_MinW nr) (ncr_MaxW nr) (SourceCatalog nr) true)
  end.

(** A cap in watts, or why there is no range to resolve it against.
    src/cmd/agent/main.go:960-980 [resolveCPUCapFromPct] *)
Definition resolveCPUCapFromPct (catalog : option Catalog) (pct : float64) (nodeLabels : gmap string string) (httpRAPL : bool) (h : H)
    : (float64 * cpuCapRange) + capSource :=
  if fle pct fzero then inr SourceBadPct
  else
    let resolve r := inl (CapForPctW pct (cr_minW r) (cr_maxW r), r) in
    let fromFiles maxW minW :=
      let n := length (RAPLPackageZones h) in
      if httpRAPL && (1 <? n)%nat then
        mkCapRange (fmul minW (fofZ (Z.of_nat n))) (fmul maxW (fofZ (Z.of_nat n))) (SourcePackages n minW maxW) false
      else mkCapRange minW maxW (SourceFiles minW maxW) false in
    let without :=
      if negb httpRAPL then inr SourceNoFiles
      else match cpuCapRangeFromCatalog catalog nodeLabels with
           | inr err => inr (SourceNoFilesNorCatalog err)
           | inl r => resolve r
           end in
    match readRAPLPackageCapRangeWatts h with
    | Some (maxW, minW) => if flt fzero maxW then resolve (fromFiles maxW minW) else without
    | None => without
    end.
End Rapl.

(** ** A percent cap as a throttle *)

Section Percent.
Context {H : Type} `{!HostFS H} `{!ControlEndpoint H} `{!PowerSource H}.

(** What a control status says, its message left to a constructor where it
    formats numbers.
    src/cmd/agent/main.go:1022-1074 [msg] *)
Inductive CapMessage :=
| MsgText (text : string)
| MsgPercent (pct : float64) (throttlePct : Z) (targetWatts : float64) (cpus : option nat).

(** src/cmd/agent/main.go:1021-1074 [backend, result, msg] *)
Record CapStatus := mkCapStatus { cst_backend : string; cst_result : string; cst_msg : CapMessage; cst_err : option string }.

(** The power a percent cap stands for, 0 without a reading.
    src/cmd/agent/main.go:1030-1037 [targetWatts] *)
Definition targetWattsOf (pct : float64) (dvfsCtl : option Controller) (now : Z) (h : H) : float64 * option Controller * H :=
  match dvfsCtl with
  | None => (fzero, None, h)
  | Some d =>
      let '(r, d, h) := readPowerWatts d now h in
      (if bool_decide (pr_Err r = None) && pr_OK r then fmul (fdiv pct (fofZ 100)) (pr_Watts r) else fzero, Some d, h)
  end.

(** The throttle on the host's own files.
    src/cmd/agent/main.go:1061-1074 [written] *)
Definition throttleHost (pct : float64) (throttlePct : Z) (targetWatts : float64) (dvfsCtl : option Controller) (h : H)
    : CapStatus * option Controller * H :=
  match dvfsCtl with
  | Some d =>
      if negb (HasHostControl d)
      then (mkCapStatus "none" "blocked" (MsgText "pct intent unresolved and no dvfs backend available") None, dvfsCtl, h)
      else
        let '(a, h) := applyThrottlePct throttlePct None targetWatts d h in
        match ap_Err a with
        | Some err => (mkCapStatus "dvfs" "error" (MsgText err) (Some err), dvfsCtl, h)
        | None =>
            (mkCapStatus "dvfs" "applied" (MsgPercent pct throttlePct targetWatts (Some (ap_Written a))) None,
             Some (set_Throttle throttlePct d), h)
        end
  | None => (mkCapStatus "none" "blocked" (MsgText "pct intent unresolved and no dvfs backend available") None, None, h)
  end.

(** src/cmd/agent/main.go:1016-1075 [applyCPUPercentIntent] *)
Definition applyCPUPercentIntent (pct : float64) (controlClient : option HTTPControlClient) (dvfsCtl : option Controller) (now : Z) (h : H)
    : CapStatus * option Controller * H :=
  if fle pct fzero then (mkCapStatus "none" "blocked" (MsgText "cpu cap pct must be > 0") None, dvfsCtl, h)
  else
    let pct := if flt (fofZ 100) pct then fofZ 100 else pct in
    let throttlePct := int_of_float (fround (fsub (fofZ 100) pct)) in
    let '(targetWatts, dvfsCtl, h) := targetWattsOf pct dvfsCtl now h in
    match controlClient with
    | Some c =>
        match ApplyCPUControl c "dvfs.set_throttle_pct" targetWatts throttlePct h with
        | (Some err, h) =>
            if match dvfsCtl with Some d => negb (HasHostControl d) | None => true end
            then (mkCapStatus "none" "error" (MsgText ("dvfs http control failed: " +:+ err)) (Some err), dvfsCtl, h)
            else throttleHost pct throttlePct targetWatts dvfsCtl h
        | (None, h) =>
            (mkCapStatus "dvfs" "applied" (MsgPercent pct throttlePct targetWatts None) None, set_Throttle throttlePct <$> dvfsCtl, h)
        end
    | None => throttleHost pct throttlePct targetWatts dvfsCtl h
    end.
End Percent.

(** ** What a cap in watts reaches *)

(** A tree some of whose files refuse every write. *)
Record Zones := mkZones { zn_files : gmap string string; zn_walk : list string; zn_refused : gset string }.

Definition refusal : string := "no data available".

#[export] Instance zonesFS : HostFS Zones := {
  fs_read path z := zn_files z !! path;
  fs_write path value z :=
    if bool_decide (path ∈ zn_refused z) then (Some refusal, z)
    else (None, mkZones (<[path := value]> (zn_files z)) (zn_walk z) (zn_refused z));
  fs_walk := zn_walk;
  fs_resolve path _ := Some path;
  fs_readlink _ _ := None
}.

Definition limitName : string := "constraint_0_power_limit_uw".
Definition maxName : string := "constraint_0_max_power_uw".
Definition isCapFile (f : string) : Prop := exists dir, dir <> "" /\ f = path_Join dir limitName.


Section Walk.
Context {H : Type} `{!HostFS H}.

Lemma scanZone_in h entries acc z :
  let '(named, fallback, _) := foldl (scanZone h) acc entries in
  (z ∈ named \/ z ∈ fallback -> z ∈ acc.1.1 \/ z ∈ acc.1.2 \/ z ∈ entries).
Proof.
  revert acc. induction entries as [|e entries IH]; intros [[named fallback] saw]; cbn [foldl fst snd]; [tauto|].
  specialize (IH (scanZone h (named, fallback, saw) e)). destruct (foldl _ _ entries) as [[n' f'] s']. intros Hz.
  apply IH in Hz. unfold scanZone in Hz. rewrite elem_of_cons.
  destruct (fs_read _ h) as [raw|]; cbn [fst snd] in Hz; repeat case_match; rewrite ?elem_of_app, ?list_elem_of_singleton in Hz; tauto.
Qed.

Lemma RAPLPackageZones_in h z : z ∈ RAPLPackageZones h -> z ∈ fs_walk h /\ z <> "".
Proof.
  unfold RAPLPackageZones. set (entries := sort_strings _).
  pose proof (scanZone_in h entries ([], [], false) z) as Hs. destruct (foldl _ _ entries) as [[named fallback] saw].
  intros Hz. assert (z ∈ entries) as He.
  { destruct Hs as [Hn|[Hf|He]]; [destruct saw; tauto|by apply elem_of_nil in Hn|by apply elem_of_nil in Hf|done]. }
  unfold entries, sort_strings in He. rewrite sort_slice_perm in He. apply list_elem_of_filter in He as [Hm He].
  split; [done|]. intros ->. by vm_compute in Hm.
Qed.

Lemma RAPLCapFiles_in h f : f ∈ RAPLCapFiles h -> isCapFile f.
Proof.
  unfold RAPLCapFiles, sort_strings. rewrite sort_slice_perm.
  intros [_ (z & -> & Hz)%list_elem_of_fmap]%list_elem_of_filter. exists z. split; [by apply (RAPLPackageZones_in h)|done].
Qed.

Lemma raplConstraintMaxUW_cap dir h : dir <> "" ->
  raplConstraintMaxUW (path_Join dir limitName) h =
    (v ← readInt64 (path_Join dir maxName) h; if (v <=? 0)%Z then None else Some v).
Proof.
  intros Hd. unfold raplConstraintMaxUW. rewrite path_Base_join, path_Dir_join; [done..|by repeat constructor|done|by repeat constructor].
Qed.
End Walk.

Lemma limit_not_max dir dir' : path_Join dir limitName <> path_Join dir' maxName.
Proof.
  intros E. apply (f_equal path_Base) in E. rewrite !path_Base_join in E; [done|done|by repeat constructor|done|by repeat constructor].
Qed.

(** Writing a limit changes no package's maximum. *)
Lemma packageCap_kept uw f g v z : isCapFile f -> isCapFile g ->
  packageCap uw f (mkZones (<[g := v]> (zn_files z)) (zn_walk z) (zn_refused z)) = packageCap uw f z.
Proof.
  intros (dir & Hd & ->) (dir' & Hd' & ->). unfold packageCap. rewrite !raplConstraintMaxUW_cap by done.
  unfold readInt64. cbn [fs_read zonesFS zn_files]. rewrite lookup_insert_ne by apply limit_not_max. done.
Qed.

Definition takes (z : Zones) (f : string) : Prop := f ∉ zn_refused z.
#[export] Instance takes_dec z f : Decision (takes z f).
Proof. unfold takes. apply _. Defined.

Lemma capPackages_zones uw files z :
  Forall isCapFile files ->
  exists failures z', capPackages uw files z = (length (filter (takes z) files), failures, z') /\
    zn_refused z' = zn_refused z /\
    (forall f, f ∈ filter (takes z) files -> zn_files z' !! f = Some (Itoa (packageCap uw f z))) /\
    (forall p, p ∉ filter (takes z) files -> zn_files z' !! p = zn_files z !! p).
Proof.
  revert z. induction files as [|f files IH]; intros z Hc; cbn [capPackages]; [exists [], z; split_and!; [done|done| |done]; by intros f Hf%elem_of_nil|].
  apply Forall_cons in Hc as [Hf Hc]. cbn [fs_write zonesFS]. rewrite filter_cons. case_bool_decide as Hr.
  - destruct (IH z Hc) as (failures & z' & -> & Hz). exists ((f +:+ ": " +:+ refusal) :: failures), z'.
    destruct (decide (takes z f)) as [Ht|]; [by destruct Ht|]. done.
  - destruct (decide (takes z f)) as [_|Ht]; [|by destruct Ht].
    set (z1 := mkZones _ _ _). destruct (IH z1 Hc) as (failures & z' & -> & Hr' & Hin & Hout).
    assert (filter (takes z1) files = filter (takes z) files) as Ef by (by apply list_filter_iff). rewrite Ef in *.
    assert (forall g, g ∈ files -> packageCap uw g z1 = packageCap uw g z) as Hk.
    { intros g Hg. apply packageCap_kept; [|done]. rewrite Forall_forall in Hc. by apply Hc. }
    exists failures, z'. split; [done|]. split; [done|]. split.
    + intros g Hg. destruct (decide (g ∈ filter (takes z) files)) as [Hg'|Hg'].
      * rewrite Hin by done. rewrite Hk; [done|]. by apply list_elem_of_filter in Hg' as [_ ?].
      * apply elem_of_cons in Hg as [->|]; [|done]. rewrite Hout by done. apply lookup_insert_eq.
    + intros p [Hp1 Hp2]%not_elem_of_cons. rewrite Hout by done. by apply lookup_insert_ne.
Qed.

(** A cap in watts reaches every package that takes a write, whichever others
    refuse: each of them ends at the cap, or at its own maximum when that is
    lower, and nothing else changes. The cap counts as applied exactly when
    one package took it. *)
Theorem applyRAPLPackageCap_reaches vendor watts z :
  vendor ∈ ["AuthenticAMD"; "GenuineIntel"] -> flt fzero watts = true -> RAPLCapFiles z <> [] ->
  let uw := int_of_float (fmul watts (fofZ 1000000)) in
  let taken := filter (takes z) (RAPLCapFiles z) in
  let '(r, z') := applyRAPLPackageCap vendor watts z in
  rr_Files r = length taken /\ (rr_Applied r = true <-> taken <> []) /\ (rr_Err r = None <-> taken <> []) /\
  (forall f, f ∈ taken -> zn_files z' !! f =
     Some (Itoa (match raplConstraintMaxUW f z with Some maxUW => Z.min uw maxUW | None => uw end))) /\
  (forall p, p ∉ taken -> zn_files z' !! p = zn_files z !! p).
Proof.
  intros Hv Hw Hne uw taken. unfold applyRAPLPackageCap.
  assert (negb (String.eqb vendor "AuthenticAMD") && negb (String.eqb vendor "GenuineIntel") = false) as ->.
  { apply elem_of_cons in Hv as [->|Hv]; [done|]. by apply list_elem_of_singleton in Hv as ->. }
  assert (fle watts fzero = false) as -> by (assert (is_nan fzero = false) by done; forder).
  destruct (capPackages_zones uw (RAPLCapFiles z) z) as (failures & z' & E & _ & Hin & Hout).
  { apply Forall_forall. intros f. apply RAPLCapFiles_in. }
  fold taken in E, Hin, Hout. destruct (RAPLCapFiles z) as [|f fs] eqn:Ef; [done|]. unfold uw in E. rewrite E. fold uw.
  assert (forall f, f ∈ taken -> zn_files z' !! f =
     Some (Itoa (match raplConstraintMaxUW f z with Some maxUW => Z.min uw maxUW | None => uw end))) as Hin'.
  { intros g Hg. rewrite (Hin g Hg). unfold packageCap. destruct (raplConstraintMaxUW g z) as [m|]; [|done].
    destruct (Z.ltb_spec m uw); do 2 f_equal; lia. }
  destruct (Nat.eqb_spec (length taken) 0) as [H0|H0]; cbn [rr_Files rr_Applied rr_Err].
  - apply length_zero_iff_nil in H0. rewrite H0 in *. by split_and!.
  - assert (taken <> []) by (intros E0; by rewrite E0 in H0). by split_and!.
Qed.

(** ** A percent cap stays within every package's range *)

Lemma fofZ_int64 (v : Z) : (0 < v <= int64_max)%Z ->
  nonneg (fofZ v) /\ fle (fofZ v) (fofZ (2 ^ 63)) = true /\ (2 ^ scale <= sval (fofZ v))%Z.
Proof.
  intros Hv. pose proof (binary_normalize_Rounds v 0 false ltac:(lia) ltac:(lia)) as HR. fold (fofZ v) in HR.
  assert (valid (fofZ (2 ^ 63)) /\ is_finite (fofZ (2 ^ 63)) = true /\ sval (fofZ (2 ^ 63)) = (2 ^ 63 * 2 ^ scale)%Z) as (V & F & S)
    by (vm_compute; by split_and!).
  pose proof (pow2_pos scale ltac:(unfold scale; lia)) as Hp. change (0 + scale)%Z with scale in HR.
  assert (fle (fofZ v) (fofZ (2 ^ 63)) = true) as Hle.
  { apply (Rounds_le _ _ _ HR); [done..|]. rewrite S. unfold int64_max in Hv. nia. }
  pose proof (Rounds_nonneg _ _ _ _ HR Hle F) as Hn. split; [done|]. split; [done|].
  assert (fle fone (fofZ v) = true) as H1 by (apply (Rounds_ge _ _ _ HR); [done..|]; rewrite sval_one; nia).
  rewrite <- sval_one. apply fle_sval; (apply Hn || done).
Qed.

Lemma microwatts_pos (v : Z) : (0 < v <= int64_max)%Z ->
  real (fdiv (fofZ v) (fofZ 1000000)) /\ flt fzero (fdiv (fofZ v) (fofZ 1000000)) = true.
Proof.
  intros Hv. destruct (fofZ_int64 v Hv) as (Nv & Lv & Sv). destruct (fofZ_exact 1000000) as (Nm & Sm & _); [lia|].
  pose proof (pow2_pos scale ltac:(unfold scale; lia)) as Hp.
  pose proof (fdiv_Rounds _ _ Nv Nm ltac:(rewrite Sm; lia)) as HR. rewrite Sm in HR.
  assert (valid (fofZ (2 ^ 63)) /\ is_finite (fofZ (2 ^ 63)) = true) as (V & F) by (vm_compute; by split).
  assert (nonneg (fdiv (fofZ v) (fofZ 1000000))) as Nx.
  { apply (Rounds_nonneg _ _ _ (fofZ (2 ^ 63)) HR); [|done]. apply (Rounds_le _ _ _ HR); [done..|].
    apply fle_sval in Lv; [|apply Nv|done|apply Nv|done]. nia. }
  split; [by apply nonneg_real|]. destruct (dyadic_double 1 20) as (z & Nz & Sz & _); [lia..|].
  assert (2 ^ scale = 2 ^ 20 * 2 ^ (scale - 20))%Z as Es by (rewrite <- pow2_split by (unfold scale; lia); f_equal).
  pose proof (pow2_pos (scale - 20) ltac:(unfold scale; lia)) as Hq.
  assert (fle z (fdiv (fofZ v) (fofZ 1000000)) = true) as Hz.
  { apply (Rounds_ge _ _ _ HR); [apply Nz..|]. rewrite Sz. rewrite Es at 2.
    assert (1000000 * 2 ^ scale <= sval (fofZ v) * 2 ^ 20)%Z by lia. nia. }
  assert (flt fzero z = true) as Hpos by (apply flt_sval; [done|apply Nz|done|apply Nz|rewrite Sz; cbn [sval fzero]; lia]).
  assert (is_nan fzero = false) by done. forder.
Qed.

Lemma positiveWatts_pos {H : Type} `{!HostFS H} (h : H) path w :
  positiveWatts h path = Some w -> real w /\ flt fzero w = true.
Proof.
  unfold positiveWatts, readInt64. destruct (fs_read path h) as [s|]; [|done]. cbn. destruct (Atoi (TrimSpace s)) as [v|] eqn:E; [|done].
  cbn. destruct (Z.ltb_spec 0 v); [|done]. intros [= <-]. apply microwatts_pos. apply Atoi_in in E. unfold in_int64 in E. lia.
Qed.

Lemma smallest_le first vals :
  is_nan first = false -> Forall (fun v => is_nan v = false) vals ->
  is_nan (smallest first vals) = false /\ fle (smallest first vals) first = true /\ Forall (fun v => fle (smallest first vals) v = true) vals.
Proof.
  unfold smallest. revert first. induction vals as [|v vals IH]; intros m Hm Hv; cbn [foldl].
  { split; [done|]. split; [by apply fle_refl|constructor]. }
  apply Forall_cons in Hv as [Hnv Hv].
  destruct (IH (if flt v m then v else m)) as (Hn & Hle & Hall); [by destruct (flt v m)|done|]. split; [done|].
  set (s := foldl _ _ vals) in *. assert (fle s m = true /\ fle s v = true) as [H1 H2] by (destruct (flt v m) eqn:E; split; forder).
  split; [done|]. by constructor.
Qed.

Lemma CapForPctW_at_most pct minW maxW :
  is_nan pct = false -> real maxW -> flt fzero maxW = true -> is_nan minW = false ->
  fle (CapForPctW pct minW maxW) maxW = true.
Proof.
  intros Hp [Vx Fx] Hx Hm. unfold CapForPctW.
  assert (is_nan (fmul (fdiv pct (fofZ 100)) maxW) = false) as Ht.
  { apply fmul_not_nan; [|done|forder]. by apply fdiv_not_nan. }
  set (target := fmul _ _) in *. set (t := if flt target minW then minW else target).
  assert (is_nan t = false) as Hn by (unfold t; by destruct (flt target minW)). assert (is_nan maxW = false) by forder.
  destruct (flt maxW t) eqn:E; [by apply fle_refl|]. by apply flt_not_fle.
Qed.

Section Range.
Context {H : Type} `{!HostFS H}.

Definition packageMax (h : H) (zone : string) : option float64 := positiveWatts h (path_Join zone "constraint_0_max_power_uw").
Definition packageMin (h : H) (zone : string) : option float64 := positiveWatts h (path_Join zone "constraint_0_min_power_uw").

Lemma readRange_max h maxW minW :
  readRAPLPackageCapRangeWatts h = Some (maxW, minW) ->
  real maxW /\ flt fzero maxW = true /\ is_nan minW = false /\
  (forall z m, z ∈ RAPLPackageZones h -> packageMax h z = Some m -> fle maxW m = true).
Proof.
  unfold readRAPLPackageCapRangeWatts. fold (packageMax h) (packageMin h).
  set (maxVals := omap _ _). set (minVals := omap _ _).
  assert (Forall (fun v => real v /\ flt fzero v = true) maxVals /\ Forall (fun v => real v /\ flt fzero v = true) minVals) as [Hmax Hmin].
  { split; apply Forall_forall; intros v (z & _ & Hv)%list_elem_of_omap; by apply positiveWatts_pos in Hv. }
  destruct maxVals as [|m ms] eqn:Em; [done|]. intros [= <- <-].
  assert (forall P : float64 -> Prop, Forall P (m :: ms) -> P (smallest m (m :: ms))) as Hin.
  { intros P [Hm Hms]%Forall_cons. unfold smallest. cbn [foldl].
    assert (P (if flt m m then m else m)) as H0 by by destruct (flt m m).
    revert H0. generalize (if flt m m then m else m). clear Hm Em Hmax. induction ms as [|x ms IH]; intros a Ha; cbn [foldl]; [done|].
    apply Forall_cons in Hms as [Hx Hms]. apply IH; [done|]. by destruct (flt x a). }
  destruct (Hin _ Hmax) as [Hr Hp]. split; [done|]. split; [done|]. split.
  - destruct minVals as [|n ns]; [done|]. unfold largest.
    assert (Forall (fun v => is_nan v = false) (n :: ns)) as Hn.
    { eapply Forall_impl; [exact Hmin|]. intros v [[_ Fv] _]. by apply is_finite_not_nan. }
    assert (is_nan n = false) as H0 by (by apply Forall_cons in Hn as [? _]).
    generalize dependent n. intros n _ Hn. generalize (n :: ns) Hn. clear. intros l. revert n.
    induction l as [|v l IH]; intros n Hl Hn0; cbn [foldl]; [done|]. apply Forall_cons in Hl as [Hv Hl].
    apply IH; [done|]. by destruct (flt n v).
  - intros z w Hz Hw. assert (is_nan m = false /\ Forall (fun v => is_nan v = false) (m :: ms)) as [Hm Hms].
    { assert (Forall (fun v => is_nan v = false) (m :: ms)) as Hn; [|split; [by apply Forall_cons in Hn as [? _]|done]].
      eapply Forall_impl; [exact Hmax|]. intros v [[_ Fv] _]. by apply is_finite_not_nan. }
    destruct (smallest_le m (m :: ms) Hm Hms) as (_ & _ & Hall). rewrite Forall_forall in Hall. apply Hall.
    rewrite <- Em. apply list_elem_of_omap. eauto.
Qed.

(** A percent cap written to the node's own files never asks a package for
    more than its own maximum, also when the packages differ. *)
Theorem resolveCPUCapFromPct_within catalog pct labels h w r :
  resolveCPUCapFromPct catalog pct labels false h = inl (w, r) -> is_nan pct = false ->
  cr_catalog r = false /\
  (forall zone m, zone ∈ RAPLPackageZones h -> packageMax h zone = Some m -> fle w m = true).
Proof.
  unfold resolveCPUCapFromPct. destruct (fle pct fzero); [done|]. cbn [negb andb].
  destruct (readRAPLPackageCapRangeWatts h) as [[maxW minW]|] eqn:E; [|done].
  destruct (readRange_max h maxW minW E) as (Hr & Hp & Hn & Hall). rewrite Hp.
  intros [= <- <-] Hpct. cbn [cr_minW cr_maxW cr_catalog]. split; [done|]. intros zone m Hz Hm.
  eapply fle_trans; [|by eapply Hall]. by apply CapForPctW_at_most.
Qed.
End Range.

(** ** A percent cap moves the throttle only when it is applied *)

Definition percentThrottle (pct : float64) : Z := int_of_float (fround (fsub (fofZ 100) (if flt (fofZ 100) pct then fofZ 100 else pct))).

Lemma percentThrottle_range pct : valid pct -> flt fzero pct = true -> (0 <= percentThrottle pct <= 100)%Z.
Proof.
  intros Vp Hp. unfold percentThrottle. set (q := if flt (fofZ 100) pct then fofZ 100 else pct).
  assert (is_nan (fofZ 100) = false) as H100 by done.
  assert (valid q /\ fle q (fofZ 100) = true /\ fle fzero q = true) as (Vq & Lq & Pq).
  { unfold q. destruct (flt (fofZ 100) pct) eqn:E; [by vm_compute|]. split; [done|]. split; forder. }
  assert (is_finite q = true) as Fq by (by apply (finite_between q fzero (fofZ 100))).
  destruct (fofZ_sval 100) as [N100 _]; [unfold exact_int; lia|].
  assert (fle fzero (fsub (fofZ 100) q) = true) as H0 by (apply fsub_nonneg; (done || apply N100)).
  assert (fle (fsub (fofZ 100) q) (fofZ 100) = true) as H1 by (apply fsub_le_l; [by apply nonneg_real|by split_and!|apply N100]).
  assert (nonneg (fsub (fofZ 100) q)) as Nx.
  { split; [apply fsub_valid; (done || apply N100)|]. split; [|done]. by apply (finite_between _ fzero (fofZ 100)). }
  by destruct (round_between (fsub (fofZ 100) q) 100 Nx H1) as [_ ?].
Qed.

Section Moves.
Context {H : Type} `{!HostFS H} `{!ControlEndpoint H} `{!PowerSource H}.

Definition outcomeOf (cfg : Config) (l : list Turn) (pct : float64) (before : Z) (out : CapStatus * option Controller * H) : Prop :=
  exists d2, out.1.2 = Some d2 /\ history (H := H) cfg d2 l /\
    (cst_result out.1.1 = "applied" -> d_ThrottlePct d2 = percentThrottle pct) /\
    (cst_result out.1.1 <> "applied" -> d_ThrottlePct d2 = before).

Lemma throttleHost_outcome cfg l pct shown watts before d h :
  history (H := H) cfg d l -> (0 <= percentThrottle pct <= 100)%Z -> d_ThrottlePct d = before ->
  outcomeOf cfg l pct before (throttleHost shown (percentThrottle pct) watts (Some d) h).
Proof.
  intros Hh Hp Hb. unfold throttleHost, outcomeOf. destruct (negb (HasHostControl d)); [by exists d|].
  destruct (applyThrottlePct _ _ _ _ _) as [a h']. destruct (ap_Err a); [by exists d|].
  exists (set_Throttle (percentThrottle pct) d). split; [done|]. split; [by apply history_set|]. by split.
Qed.

(** A percent cap sets the throttle to what is left of it to 100, rounded
    and within 0 and 100, when the endpoint or the files took it, and leaves
    it where it was otherwise; it is one of the things that may happen to the
    throttling loop, which explains its own steps as before. *)
Theorem applyCPUPercentIntent_moves cfg pct client d l now h :
  valid pct -> is_nan pct = false -> history (H := H) cfg d l ->
  outcomeOf cfg l pct (d_ThrottlePct d) (applyCPUPercentIntent pct client (Some d) now h) /\
  (flt fzero pct = true -> (0 <= percentThrottle pct <= 100)%Z).
Proof.
  intros Vp Np Hh. split; [|by apply percentThrottle_range]. unfold applyCPUPercentIntent.
  destruct (fle pct fzero) eqn:E0; [by exists d|]. cbn [targetWattsOf].
  assert (flt fzero pct = true) as Hp%percentThrottle_range by (assert (is_nan fzero = false) by done; forder); [|done].
  fold (percentThrottle pct). pose proof (history_read cfg d l now h Hh) as Hr.
  assert (d_ThrottlePct (readPowerWatts d now h).1.2 = d_ThrottlePct d) as Ht.
  { unfold readPowerWatts. destruct (d_PowerReader d); [by destruct (read_power h)|]. destruct (EnergyFiles h); [done|].
    destruct (sampleCounters _ _ _ _ _ _) as [[? ?] n]. by destruct (n =? 0)%nat. }
  destruct (readPowerWatts d now h) as [[r d1] h1]. cbn [fst snd] in Hr, Ht.
  destruct client as [c|]; [|by apply throttleHost_outcome].
  destruct (ApplyCPUControl _ _ _ _ _) as [[err|] h2].
  - destruct (negb (HasHostControl d1)); [by exists d1|]. by apply throttleHost_outcome.
  - exists (set_Throttle (percentThrottle pct) d1). split; [done|]. split; [by apply history_set|]. by split.
Qed.
End Moves.

(** ** A node of three packages, one of which refuses every write *)

Definition pkg (i : Z) : string := PowercapRoot +:+ "/intel-rapl:" +:+ Itoa i.
Definition pkgEntries (i maxUW : Z) : list (string * string) := [
  (path_Join (pkg i) maxName, Itoa maxUW); (path_Join (pkg i) limitName, "0"); (path_Join (pkg i) "name", "package-" +:+ Itoa i)].
Definition threePackages : Zones :=
  let entries := (pkgEntries 0 200000000 ++ pkgEntries 1 150000000 ++ pkgEntries 2 250000000)%list in
  mkZones (list_to_map entries) (pkg 0 :: pkg 1 :: pkg 2 :: (fst <$> entries)) {[path_Join (pkg 2) limitName]}.

Example sampleFiles : RAPLCapFiles threePackages = [path_Join (pkg 0) limitName; path_Join (pkg 1) limitName; path_Join (pkg 2) limitName].
Proof. vm_compute. reflexivity. Qed.

Example applyRAPLPackageCap_reaches_witness :
  let z' := (applyRAPLPackageCap "GenuineIntel" (fofZ 180) threePackages).2 in
  zn_files z' !! path_Join (pkg 0) limitName = Some "180000000" /\ zn_files z' !! path_Join (pkg 1) limitName = Some "150000000" /\
  zn_files z' !! path_Join (pkg 2) limitName = Some "0".
Proof.
  pose proof (applyRAPLPackageCap_reaches "GenuineIntel" (fofZ 180) threePackages) as H. cbv zeta in H.
  specialize (H ltac:(apply (bool_decide_unpack _); vm_compute; exact I) ltac:(reflexivity) ltac:(rewrite sampleFiles; discriminate)).
  assert (filter (takes threePackages) (RAPLCapFiles threePackages) = [path_Join (pkg 0) limitName; path_Join (pkg 1) limitName]) as E
    by (rewrite sampleFiles; vm_compute; reflexivity).
  rewrite E in H. destruct (applyRAPLPackageCap _ _ threePackages) as [r z']. destruct H as (_ & _ & _ & Hin & Hout). cbn [snd].
  split; [rewrite Hin; [vm_compute; reflexivity|by left]|].
  split; [rewrite Hin; [vm_compute; reflexivity|by right; left]|].
  rewrite Hout; [vm_compute; reflexivity|]. apply (bool_decide_unpack _). vm_compute. exact I.
Defined.

(** Half of the smallest package's 150 W. *)
Example resolveCPUCapFromPct_within_witness :
  exists w r, resolveCPUCapFromPct None (fofZ 50) ∅ false threePackages = inl (w, r) /\ w = fofZ 75 /\
    fle w (fofZ 200) = true.
Proof.
  destruct (resolveCPUCapFromPct None (fofZ 50) ∅ false threePackages) as [[w r]|] eqn:E; [|vm_compute in E; discriminate E].
  exists w, r. split; [reflexivity|]. pose proof (resolveCPUCapFromPct_within None (fofZ 50) ∅ threePackages w r E eq_refl) as [_ H].
  split; [vm_compute in E; injection E as <- _; reflexivity|].
  apply (H (pkg 0)); [|vm_compute; reflexivity].
  assert (RAPLPackageZones threePackages = [pkg 0; pkg 1; pkg 2]) as -> by (vm_compute; reflexivity). by left.
Defined.

#[export] Instance zonesEndpoint : ControlEndpoint Zones := {| http_post _ _ z := (inr (mkResponse 200 true None "" ""), z) |}.
#[export] Instance zonesPower : PowerSource Zones := {| read_power z := (mkReading fzero false None, z) |}.

Definition throttled : Controller := New dvfsConfig true threePackages.

Example applyCPUPercentIntent_moves_witness :
  exists d2, (applyCPUPercentIntent (fofZ 65) (Some (mkClient "http://sim" "n1")) (Some throttled) 0 threePackages).1.2 = Some d2 /\
    d_ThrottlePct d2 = 35%Z.
Proof.
  destruct (applyCPUPercentIntent_moves dvfsConfig (fofZ 65) (Some (mkClient "http://sim" "n1")) throttled [] 0
    threePackages ltac:(reflexivity) ltac:(reflexivity) (history_new dvfsConfig true threePackages)) as [(d2 & Hd & _ & Happ & _) _].
  exists d2. split; [exact Hd|]. rewrite Happ; vm_compute; reflexivity.
Defined.
