(* ===== verification/GpuDevices.v ===== *)
(** * GPU power caps: the devices and the NVIDIA tool (cmd/agent/main.go)

    A GPU as the agent lists it, the cap an intent stands for on a list of
    them ([resolveGPUCapPerDevice]), and NVIDIA's listing and cap through
    nvidia-smi. A number that is 0 is unknown. Number formatting and parsing
    are parameters; several errors are joined in a list. *)

From S2P Require Import Prelude GoString GoFloat FloatFacts GoSlices Host NvidiaDiscovery HostFS.

#[local] Open Scope string_scope.

(** src/cmd/agent/main.go:181-209 [GPUDevice] *)
Record GPUDevice := mkGPU {
  g_Index : Z;
  g_Vendor : string;
  g_Product : string;
  g_PowerWatts : float64;
  g_CurrentCapWatts : float64;
  g_MinCapWatts : float64;
  g_MaxCapWatts : float64;
  g_DefaultCapWatts : float64;
  g_BusID : string;
  g_HwmonDir : string;
  g_CapUnknown : bool;
  g_CapUnsupported : string
}.

(** src/cmd/agent/main.go:145-149 [GPUPowerCap] *)
Record GPUPowerCap := mkPowerCap { gpc_Scope : string; gpc_CapWattsPerGPU : option float64; gpc_CapPctOfMax : option float64 }.

Definition positive (x : float64) : bool := flt fzero x.

Section Resolve.
Context (FormatF1 : float64 -> string).

(** The first device the watts are out of range on.
    src/cmd/agent/main.go:1298-1305 [w] *)
Fixpoint outOfRange (w : float64) (devices : list GPUDevice) : option string :=
  match devices with
  | [] => None
  | d :: rest =>
      if positive (g_MinCapWatts d) && flt w (g_MinCapWatts d) then
        Some ("requested cap " +:+ FormatF1 w +:+ "W below min " +:+ FormatF1 (g_MinCapWatts d) +:+ "W on gpu " +:+ Itoa (g_Index d))
      else if positive (g_MaxCapWatts d) && flt (g_MaxCapWatts d) w then
        Some ("requested cap " +:+ FormatF1 w +:+ "W above max " +:+ FormatF1 (g_MaxCapWatts d) +:+ "W on gpu " +:+ Itoa (g_Index d))
      else outOfRange w rest
  end.

(** What a percentage is on one device.
    src/cmd/agent/main.go:1317-1320 [w] *)
Definition pctWatts (pct : float64) (d : GPUDevice) : float64 :=
  let w := fmul (fdiv pct (fofZ 100)) (g_MaxCapWatts d) in
  if positive (g_MinCapWatts d) && flt w (g_MinCapWatts d) then g_MinCapWatts d else w.

(** The least of them, [None] when a maximum is unknown.
    src/cmd/agent/main.go:1313-1324 [minResolved] *)
Fixpoint leastPctWatts (pct minResolved : float64) (devices : list GPUDevice) : option float64 :=
  match devices with
  | [] => Some minResolved
  | d :: rest =>
      if fle (g_MaxCapWatts d) fzero then None
      else
        let w := pctWatts pct d in
        leastPctWatts pct (if feq minResolved fzero || flt w minResolved then w else minResolved) rest
  end.

(** The cap per device, or why there is none.
    src/cmd/agent/main.go:1295-1329 [resolveGPUCapPerDevice] *)
Definition resolveGPUCapPerDevice (intent : GPUPowerCap) (devices : list GPUDevice) : float64 + string :=
  let byPct :=
    match gpc_CapPctOfMax intent with
    | None => inr "missing capWattsPerGpu or capPctOfMax"
    | Some pct =>
        if fle pct fzero then inr "missing capWattsPerGpu or capPctOfMax"
        else match leastPctWatts pct fzero devices with
             | None => inr "cannot resolve capPctOfMax without device max power limits"
             | Some m => if fle m fzero then inr "failed to resolve cap from percentage" else inl m
             end
    end in
  match gpc_CapWattsPerGPU intent with
  | Some w =>
      if positive w then match outOfRange w devices with Some msg => inr msg | None => inl w end else byPct
  | None => byPct
  end.
End Resolve.

(** ** NVIDIA *)

(** src/cmd/agent/main.go:1528-1534 [splitCSVLine] *)
Definition splitCSVLine (s : string) : list string :=
  (fun p => TrimSpace (TrimChars (fun a => (byte_of a =? 34)%N) p)) <$> Split s ",".

Section Nvidia.
Context (ParseFloat : string -> option float64).

(** src/cmd/agent/main.go:1439-1445 [nvidiaWatts] *)
Definition nvidiaWatts (s : string) : option float64 :=
  v ← ParseFloat (TrimSpace s);
  if is_nan v || negb (is_finite v) || flt v fzero then None else Some v.

(** src/cmd/agent/main.go:1426-1432 [nvidiaDefaultLimit] *)
Definition nvidiaDefaultLimit (parts : list string) : float64 := default fzero (p ← parts !! 6; nvidiaWatts p).

(** The token a limit field printed in place of a number.
    src/cmd/agent/main.go:1402-1412 [token] *)
Definition limitToken (field part : string) : list string :=
  match nvidiaWatts part with
  | Some _ => []
  | None => [field +:+ " " +:+ (if String.eqb part "" then "(empty)" else part)]
  end.

(** One line of the listing; a short one is skipped.
    src/cmd/agent/main.go:1385-1417 [parts] *)
Definition nvidiaLine (ln : string) : option GPUDevice :=
  let parts := splitCSVLine ln in
  match parts with
  | index :: minL :: maxL :: limit :: draw :: name :: _ =>
      Some (mkGPU (AtoiValue (TrimSpace index)) "nvidia" (TrimSpace name) (default fzero (nvidiaWatts draw))
        (default fzero (nvidiaWatts limit)) (default fzero (nvidiaWatts minL)) (default fzero (nvidiaWatts maxL))
        (nvidiaDefaultLimit parts) "" "" false
        (Join (limitToken "power.min_limit" minL ++ limitToken "power.max_limit" maxL ++ limitToken "power.limit" limit)%list ", "))
  | _ => None
  end.

(** src/cmd/agent/main.go:1376-1376 [nvidiaInventoryQuery] *)
Definition nvidiaInventoryQuery : string :=
  "--query-gpu=index,power.min_limit,power.max_limit,power.limit,power.draw,name,power.default_limit".

(** src/cmd/agent/main.go:1378-1420 [listNvidiaDevices] *)
Definition listNvidiaDevices {W : Type} `{!NvidiaSmi W} (w : W) : (string + list GPUDevice) * W :=
  match smi_run [nvidiaInventoryQuery; "--format=csv,noheader,nounits"] w with
  | (Some err, _, w) => (inl (we_text err), w)
  | (None, out, w) => (inr (omap nvidiaLine (Split (TrimSpace out) newline)), w)
  end.
End Nvidia.

(** src/cmd/agent/main.go:1451-1460 [nvidiaCapSets] *)
Definition nvidiaCapSets (devices : list GPUDevice) : list GPUDevice * list GPUDevice :=
  (filter (fun d => String.eqb (g_CapUnsupported d) "" = true) devices,
   filter (fun d => String.eqb (g_CapUnsupported d) "" = false) devices).

(** The tokens in the order first met, and the devices that printed each.
    src/cmd/agent/main.go:1467-1474 [order] *)
Fixpoint tokenGroups (unsupported : list GPUDevice) (groups : list (string * list string)) : list (string * list string) :=
  match unsupported with
  | [] => groups
  | d :: rest =>
      let groups :=
        if existsb (fun g => String.eqb g.1 (g_CapUnsupported d)) groups
        then (fun g => if String.eqb g.1 (g_CapUnsupported d) then (g.1, g.2 ++ [Itoa (g_Index d)])%list else g) <$> groups
        else (groups ++ [(g_CapUnsupported d, [Itoa (g_Index d)])])%list in
      tokenGroups rest groups
  end.

(** src/cmd/agent/main.go:1466-1480 [nvidiaUnsupportedNote] *)
Definition nvidiaUnsupportedNote (unsupported : list GPUDevice) : string :=
  "no settable power limit on " +:+
  Join ((fun g => "gpu " +:+ Join g.2 "," +:+ ": nvidia-smi prints " +:+ g.1) <$> tokenGroups unsupported []) "; ".

(** The line of an output that says the limit is not supported.
    src/cmd/agent/main.go:1504-1509 [line] *)
Definition unsupportedLine (out : string) : option string :=
  find (fun line => Contains (ToLower line) "not supported") (Split out newline).

(** A device the cap is written to.
    src/cmd/agent/main.go:1496-1498 [d] *)
Definition nvidiaNeeds (target : float64) (d : GPUDevice) : bool :=
  String.eqb (g_CapUnsupported d) "" && negb (feq (fround (g_CurrentCapWatts d)) target).

(** The errors, device by device.
    src/cmd/agent/main.go:1492-1512 [applyNvidiaGPUCap] *)
Fixpoint nvidiaCaps {W : Type} `{!NvidiaSmi W} (target : float64) (devices : list GPUDevice) (w : W) : list string * W :=
  match devices with
  | [] => ([], w)
  | d :: rest =>
      if negb (nvidiaNeeds target d) then nvidiaCaps target rest w
      else
        let gpu := Itoa (g_Index d) in
        let '(err, out, w) := smi_run ["-i"; gpu; "-pl"; Itoa (int_of_float target)] w in
        let '(errs, w') := nvidiaCaps target rest w in
        match err with
        | Some e => (("nvidia-smi set cap gpu=" +:+ gpu +:+ ": " +:+ we_text e) :: errs, w')
        | None =>
            match unsupportedLine out with
            | Some line => (("nvidia-smi set cap gpu=" +:+ gpu +:+ ": " +:+ TrimSpace line) :: errs, w')
            | None => (errs, w')
            end
        end
  end.

(** src/cmd/agent/main.go:1492-1512 [applyNvidiaGPUCap] *)
Definition applyNvidiaGPUCap {W : Type} `{!NvidiaSmi W} (devices : list GPUDevice) (capWatts : float64) (w : W) : list string * W :=
  nvidiaCaps (fround capWatts) devices w.

(** ** The cap an intent stands for *)

(** What a listing promises of its numbers: they are not negative, and a
    known minimum is not above a known maximum. *)
Record listed (d : GPUDevice) : Prop := {
  ls_min : nonneg (g_MinCapWatts d);
  ls_max : nonneg (g_MaxCapWatts d);
  ls_order : flt fzero (g_MaxCapWatts d) = true -> fle (g_MinCapWatts d) (g_MaxCapWatts d) = true
}.

Lemma outOfRange_None F w devices :
  is_nan w = false -> Forall listed devices -> outOfRange F w devices = None ->
  Forall (fun d => (flt fzero (g_MinCapWatts d) = true -> fle (g_MinCapWatts d) w = true) /\
                   (flt fzero (g_MaxCapWatts d) = true -> fle w (g_MaxCapWatts d) = true)) devices.
Proof.
  intros Hw. induction 1 as [|d ds Hd _ IH]; cbn [outOfRange]; [done|]. unfold positive.
  destruct Hd as [(_ & Fm%is_finite_not_nan & _) (_ & Fx%is_finite_not_nan & _) _].
  destruct (flt fzero (g_MinCapWatts d)) eqn:E1, (flt w (g_MinCapWatts d)) eqn:E2; cbn [andb]; try done.
  all: destruct (flt fzero (g_MaxCapWatts d)) eqn:E3, (flt (g_MaxCapWatts d) w) eqn:E4; cbn [andb]; try done.
  all: intros E%IH; constructor; [|exact E]; rewrite ?E1, ?E3; split; intros Hp; try discriminate Hp; by apply flt_not_fle.
Qed.

Lemma pctWatts_at_most pct d :
  nonneg pct -> fle pct (fofZ 100) = true -> listed d -> flt fzero (g_MaxCapWatts d) = true ->
  nonneg (pctWatts pct d) /\ fle (pctWatts pct d) (g_MaxCapWatts d) = true.
Proof.
  intros Np Hp [Nm Nx Ho] Hx. specialize (Ho Hx). destruct (fofZ_sval 100) as [N100 _]; [unfold exact_int; lia|].
  destruct (fdiv_le_one pct (fofZ 100) Np N100 ltac:(done) Hp) as [Nf Lf].
  assert (sval (fdiv pct (fofZ 100)) <= 2 ^ scale)%Z as Sf by (rewrite <- sval_one; apply fle_sval; (apply Nf || done)).
  pose proof (nonneg_sval _ Nx) as S0.
  destruct (fmul_le (fdiv pct (fofZ 100)) (g_MaxCapWatts d) (g_MaxCapWatts d) Nf Nx Nx) as [Nw Lw]; [nia|].
  unfold pctWatts. by destruct (positive (g_MinCapWatts d) && flt _ (g_MinCapWatts d)).
Qed.

Lemma pos_not_zero x : flt fzero x = true -> feq x fzero = false.
Proof. intros. assert (is_nan fzero = false) by done. forder. Qed.

Lemma nonzero_pos x : nonneg x -> feq x fzero = false -> flt fzero x = true.
Proof. intros (_ & Fx%is_finite_not_nan & Px) Hx. assert (is_nan fzero = false) by done. forder. Qed.

Lemma not_below_zero x : nonneg x -> fle x fzero = false -> flt fzero x = true.
Proof. intros (_ & Fx%is_finite_not_nan & Px) Hx. assert (is_nan fzero = false) by done. forder. Qed.

Lemma leastPctWatts_least pct m0 devices m :
  nonneg m0 -> Forall (fun d => nonneg (pctWatts pct d) /\ flt fzero (pctWatts pct d) = true) devices ->
  leastPctWatts pct m0 devices = Some m ->
  nonneg m /\ (flt fzero m0 = true -> fle m m0 = true) /\
  Forall (fun d => fle (g_MaxCapWatts d) fzero = false /\ fle m (pctWatts pct d) = true) devices.
Proof.
  revert m0. induction devices as [|d ds IH]; intros m0 Hm Hds; cbn [leastPctWatts].
  { intros [= <-]. split; [done|]. split; [|constructor]. intros _. apply fle_refl, is_finite_not_nan, Hm. }
  apply Forall_cons in Hds as [[Nw Pw] Hds]. destruct (fle (g_MaxCapWatts d) fzero) eqn:Ex; [done|].
  set (w := pctWatts pct d) in *. set (m1 := if feq m0 fzero || flt w m0 then w else m0). intros E.
  assert (nonneg m1) as N1 by (unfold m1; by destruct (_ || _)).
  destruct (IH m1 N1 Hds E) as (Nm & Hle & Hall). clear IH E.
  assert (flt fzero m1 = true) as P1.
  { unfold m1. destruct (feq m0 fzero) eqn:E0; [done|]. destruct (flt w m0); [done|]. by apply nonzero_pos. }
  specialize (Hle P1). split; [done|]. pose proof (is_finite_not_nan m0 (proj1 (proj2 Hm))) as Z1.
  pose proof (is_finite_not_nan w (proj1 (proj2 Nw))) as Z2. unfold m1 in Hle. split.
  - intros P0%pos_not_zero. rewrite P0 in Hle. cbn [orb] in Hle. destruct (flt w m0) eqn:E1; [|done].
    eapply fle_trans; [exact Hle|]. by apply flt_fle.
  - constructor; [|done]. split; [done|]. destruct (feq m0 fzero); cbn [orb] in Hle; [done|].
    destruct (flt w m0) eqn:E1; [done|]. eapply fle_trans; [exact Hle|]. by apply flt_not_fle.
Qed.

(** A resolved cap fits every device it was resolved against: an absolute
    cap is the requested watts, inside every range that is known; a
    percentage of at most 100 is the least of the devices' own shares, so it
    is above no device's maximum. *)
Theorem resolveGPUCapPerDevice_fits F intent devices w :
  Forall listed devices -> resolveGPUCapPerDevice F intent devices = inl w ->
  (forall a, gpc_CapWattsPerGPU intent = Some a -> is_nan a = false) ->
  (forall p, gpc_CapPctOfMax intent = Some p -> nonneg p /\ fle p (fofZ 100) = true /\
     Forall (fun d => flt fzero (g_MaxCapWatts d) = true -> flt fzero (pctWatts p d) = true) devices) ->
  flt fzero w = true /\
  Forall (fun d => flt fzero (g_MaxCapWatts d) = true -> fle w (g_MaxCapWatts d) = true) devices /\
  (gpc_CapWattsPerGPU intent = Some w \/
   exists p, gpc_CapPctOfMax intent = Some p /\
     Forall (fun d => flt fzero (g_MaxCapWatts d) = true /\ fle w (pctWatts p d) = true) devices).
Proof.
  intros Hds. unfold resolveGPUCapPerDevice. set (byPct := match gpc_CapPctOfMax intent with None => _ | Some _ => _ end).
  assert (byPct = inl w ->
    (forall p, gpc_CapPctOfMax intent = Some p -> nonneg p /\ fle p (fofZ 100) = true /\
       Forall (fun d => flt fzero (g_MaxCapWatts d) = true -> flt fzero (pctWatts p d) = true) devices) ->
    flt fzero w = true /\ exists p, gpc_CapPctOfMax intent = Some p /\ nonneg p /\ fle p (fofZ 100) = true /\
      Forall (fun d => flt fzero (g_MaxCapWatts d) = true /\ fle w (pctWatts p d) = true) devices) as Hpct.
  { unfold byPct. destruct (gpc_CapPctOfMax intent) as [p|]; [|done]. intros E Hp. destruct (Hp p eq_refl) as (Np & Lp & Pos).
    destruct (fle p fzero); [done|]. destruct (leastPctWatts p fzero devices) as [m|] eqn:El; [|done].
    destruct (fle m fzero) eqn:Em; [done|]. injection E as ->.
    assert (Forall (fun d => fle (g_MaxCapWatts d) fzero = false) devices) as Hpos.
    { clear -El. revert El. generalize fzero at 1. induction devices as [|d ds IH]; intros m0; cbn [leastPctWatts]; [constructor|].
      destruct (fle (g_MaxCapWatts d) fzero) eqn:E; [done|]. intros El. constructor; [done|]. by eapply IH. }
    assert (Forall (fun d => flt fzero (g_MaxCapWatts d) = true) devices) as Hmax.
    { apply Forall_forall. intros d Hd. rewrite Forall_forall in Hpos, Hds. apply not_below_zero; [apply (Hds d Hd)|by apply Hpos]. }
    destruct (leastPctWatts_least p fzero devices w ltac:(by split_and!)) as (Nw & _ & Hall); [|exact El|].
    { apply Forall_forall. intros d Hd. rewrite Forall_forall in Hmax, Hds, Pos. split; [|by apply Pos, Hmax].
      apply pctWatts_at_most; auto. }
    split.
    - by apply not_below_zero.
    - exists p. split_and!; try done. apply Forall_forall. intros d Hd. rewrite Forall_forall in Hmax, Hall. split; [auto|]. by apply Hall. }
  intros E Ha Hp. assert (byPct = inl w -> flt fzero w = true /\
    Forall (fun d => flt fzero (g_MaxCapWatts d) = true -> fle w (g_MaxCapWatts d) = true) devices /\
    (gpc_CapWattsPerGPU intent = Some w \/ exists p, gpc_CapPctOfMax intent = Some p /\
       Forall (fun d => flt fzero (g_MaxCapWatts d) = true /\ fle w (pctWatts p d) = true) devices)) as Hby.
  { intros Eb. destruct (Hpct Eb Hp) as (Pw & p & Ep & Np & Lp & Hall). split; [done|]. split; [|right; by exists p].
    apply Forall_forall. intros d Hd _. rewrite Forall_forall in Hall, Hds. destruct (Hall d Hd) as [Px Lw].
    eapply fle_trans; [exact Lw|]. by apply pctWatts_at_most; auto. }
  destruct (gpc_CapWattsPerGPU intent) as [a|] eqn:Ea in E; [|by apply Hby]. destruct (positive a) eqn:Pa; [|by apply Hby].
  destruct (outOfRange F a devices) eqn:Eo; [done|]. injection E as ->. split; [done|]. split; [|by left].
  eapply Forall_impl; [by apply (outOfRange_None F w devices (Ha w Ea))|]. by intros d [_ ?].
Qed.

(** ** Every device is tried *)

(** A tool that answers each command its own way and remembers them all. *)
Record Recorder := mkRecorder { rec_answer : list string -> option WriteError * string; rec_log : list (list string) }.
#[export] Instance recorderSmi : NvidiaSmi Recorder := fun args r =>
  (rec_answer r args, mkRecorder (rec_answer r) (rec_log r ++ [args])).

Definition capCommand (target : float64) (d : GPUDevice) : list string := ["-i"; Itoa (g_Index d); "-pl"; Itoa (int_of_float target)].

(** The tool took a command: no error, and no line of warning. *)
Definition took (r : Recorder) (args : list string) : bool :=
  match rec_answer r args with
  | (None, out) => match unsupportedLine out with None => true | Some _ => false end
  | _ => false
  end.

Lemma nvidiaCaps_log target devices r :
  let '(errs, r') := nvidiaCaps target devices r in
  rec_answer r' = rec_answer r /\
  rec_log r' = (rec_log r ++ (capCommand target <$> filter (fun d => nvidiaNeeds target d = true) devices))%list /\
  length errs = length (filter (fun d => nvidiaNeeds target d = true /\ took r (capCommand target d) = false) devices).
Proof.
  revert r. induction devices as [|d ds IH]; intros r; cbn [nvidiaCaps]; [by rewrite app_nil_r|]. rewrite !filter_cons.
  destruct (nvidiaNeeds target d) eqn:En; cbn [negb].
  2:{ rewrite !decide_False by (by intros [? _] || done). apply IH. }
  rewrite (decide_True (P := true = true)) by done. unfold smi_run at 1, recorderSmi at 1. unfold took, capCommand in *.
  set (args := ["-i"; Itoa (g_Index d); "-pl"; Itoa (int_of_float target)]).
  destruct (rec_answer r args) as [err out] eqn:Ea. specialize (IH (mkRecorder (rec_answer r) (rec_log r ++ [args]))).
  destruct (nvidiaCaps target ds _) as [errs r'] eqn:Er. cbn [rec_answer rec_log] in IH. destruct IH as (H1 & H2 & H3).
  rewrite fmap_cons, <- app_assoc in *. cbn [app] in *.
  destruct err as [e|]; [|destruct (unsupportedLine out)].
  - rewrite decide_True by done. cbn [length]. by rewrite H1, H2, H3.
  - rewrite decide_True by done. cbn [length]. by rewrite H1, H2, H3.
  - rewrite decide_False by (by intros [_ ?]). by rewrite H1, H2, H3.
Qed.

(** A cap goes to exactly the settable GPUs whose listed limit is not at the
    rounded watts yet, each once and in listing order, whichever of them the
    tool refuses; there is an error for each refusal and no other. *)
Theorem applyNvidiaGPUCap_tries_all devices capWatts r :
  let '(errs, r') := applyNvidiaGPUCap devices capWatts r in
  let needed := filter (fun d => g_CapUnsupported d = "" /\ feq (fround (g_CurrentCapWatts d)) (fround capWatts) = false) devices in
  rec_log r' = (rec_log r ++ (capCommand (fround capWatts) <$> needed))%list /\
  length errs = length (filter (fun d => took r (capCommand (fround capWatts) d) = false) needed).
Proof.
  unfold applyNvidiaGPUCap. set (target := fround capWatts). pose proof (nvidiaCaps_log target devices r) as H.
  destruct (nvidiaCaps target devices r) as [errs r']. destruct H as (_ & H2 & H3).
  assert (forall d, nvidiaNeeds target d = true <-> g_CapUnsupported d = "" /\ feq (fround (g_CurrentCapWatts d)) target = false) as Hn.
  { intros d. unfold nvidiaNeeds. rewrite andb_true_iff, String.eqb_eq, negb_true_iff. done. }
  assert (filter (fun d => nvidiaNeeds target d = true) devices =
    filter (fun d => g_CapUnsupported d = "" /\ feq (fround (g_CurrentCapWatts d)) target = false) devices) as E
    by (apply list_filter_iff; exact Hn).
  cbv zeta. rewrite <- E. split; [done|]. rewrite H3. f_equal. rewrite list_filter_filter.
  apply list_filter_iff. intros d. tauto.
Qed.

(** ** Two models on one node *)

Definition gpuOf (i : Z) (minW maxW : Z) : GPUDevice :=
  mkGPU i "nvidia" "" fzero (fofZ maxW) (fofZ minW) (fofZ maxW) fzero "" "" false "".
Definition mixedNode : list GPUDevice := [gpuOf 0 200 700; gpuOf 1 100 300].
Definition halfCap : GPUPowerCap := mkPowerCap "perGpu" None (Some (fofZ 50)).

Example resolveGPUCapPerDevice_fits_witness :
  resolveGPUCapPerDevice (fun _ => "") halfCap mixedNode = inl (fofZ 150) /\ fle (fofZ 150) (fofZ 300) = true.
Proof.
  assert (resolveGPUCapPerDevice (fun _ => "") halfCap mixedNode = inl (fofZ 150)) as E by (vm_compute; reflexivity).
  split; [exact E|].
  destruct (resolveGPUCapPerDevice_fits (fun _ => "") halfCap mixedNode (fofZ 150)) as (_ & Hall & _); [..|exact E|intros a Ha; discriminate Ha| |].
  - repeat constructor; vm_compute; (reflexivity || (intros; reflexivity)).
  - intros p [= <-]. split; [repeat constructor; vm_compute; reflexivity|]. split; [vm_compute; reflexivity|].
    repeat constructor; vm_compute; reflexivity.
  - rewrite Forall_forall in Hall. apply (Hall (gpuOf 1 100 300)); [by right; left|vm_compute; reflexivity].
Defined.

(** The least share fits the smaller GPU and is below what the larger one
    accepts. *)
Example mixed_models_below_minimum : fle (g_MinCapWatts (gpuOf 0 200 700)) (fofZ 150) = false.
Proof. vm_compute. reflexivity. Qed.
