(* ===== verification/GpuSysfs.v ===== *)
(** * GPU power caps: the hwmon files of AMD and Intel GPUs

    cmd/agent/amdgpu.go and cmd/agent/intelgpu.go: how the agent finds the
    hwmon directory of each GPU under the host's /sys, what it reads there,
    and the caps it writes and reads back. Files are read and listed through
    [HostFS], written through [SysfsHost] (an attribute is written in place
    and never created). What the agent remembers of an AMD device that
    refuses to be read is a map the operations pass on. *)

From S2P Require Import Prelude GoString GoSlices GoFloat FloatFacts Governor Host NvidiaDiscovery Native HostFS Dvfs GpuDevices.

#[local] Open Scope string_scope.

(** src/cmd/agent/governor_discovery.go:189-191 [hostSysPath] *)
Definition hostSysPath (rel : string) : string := path_Join HostSysRoot rel.

(** src/cmd/agent/amdgpu.go:37-43 [amdgpuName, amdgpuCapFile, amdgpuCapMinFile, amdgpuCapMaxFile, amdgpuPCIDevicesDir, amdgpuPCIVendor, microwattsPerWatt] *)
Definition amdgpuName : string := "amdgpu".
Definition amdgpuCapFile : string := "power1_cap".
Definition amdgpuCapMinFile : string := "power1_cap_min".
Definition amdgpuCapMaxFile : string := "power1_cap_max".
Definition amdgpuPCIDevicesDir : string := "bus/pci/devices".
Definition amdgpuPCIVendor : string := "0x1002".
Definition microwattsPerWatt : Z := 1000000.

(** src/cmd/agent/amdgpu.go:95-95 [amdgpuCaps] *)
Record amdgpuCaps := mkCaps { ac_cap : float64; ac_min : float64; ac_max : float64 }.

(** What the agent last read or wrote, by hwmon directory. *)
Notation CapMemory := (gmap string amdgpuCaps).

Section Sysfs.
Context {H : Type} `{!HostFS H} `{!SysfsHost H}.

(** [discover.ReadWord] without its second result. *)
Definition wordAt (path : string) (h : H) : string := attr_read h path.

(** src/cmd/agent/amdgpu.go:81-91 [readHwmonWatts] *)
Definition readHwmonWatts (path : string) (h : H) : option float64 :=
  b ← fs_read path h;
  Some (match Atoi (TrimSpace b) with
        | Some v => if (v <? 0)%Z then fzero else fdiv (fofZ v) (fofZ microwattsPerWatt)
        | None => fzero
        end).

(** ** AMD *)

(** The first hwmon directory of the driver's name, if it has a cap.
    src/cmd/agent/amdgpu.go:66-75 [d] *)
Fixpoint amdgpuFirst (dirs : list string) (h : H) : option string :=
  match dirs with
  | [] => None
  | d :: rest =>
      if negb (String.eqb (wordAt (path_Join d "name") h) amdgpuName) then amdgpuFirst rest h
      else if fileExists (path_Join d amdgpuCapFile) h then Some d else None
  end.

Definition hwmonDirs (dev : string) (h : H) : list string := sort_strings (Glob (path_Join dev "hwmon/hwmon*") h).

(** src/cmd/agent/amdgpu.go:57-76 [amdgpuHwmonDir] *)
Definition amdgpuHwmonDir (dev : string) (h : H) : option string :=
  if negb (String.eqb (wordAt (path_Join dev "vendor") h) amdgpuPCIVendor) then None
  else if match fs_readlink (path_Join dev "driver") h with
          | Some target => negb (String.eqb (path_Base target) amdgpuName)
          | None => false
          end then None
  else amdgpuFirst (hwmonDirs dev h) h.

(** src/cmd/agent/amdgpu.go:119-123 [readAmdgpuRange] *)
Definition readAmdgpuRange (dir : string) (h : H) : float64 * float64 :=
  (default fzero (readHwmonWatts (path_Join dir amdgpuCapMinFile) h),
   default fzero (readHwmonWatts (path_Join dir amdgpuCapMaxFile) h)).

(** What a device shows: its cap and range as they read, else as the agent
    last knew them, else unknown.
    src/cmd/agent/amdgpu.go:146-155 [capW] *)
Definition amdgpuShown (hw : string) (mem : CapMemory) (h : H) : option amdgpuCaps * CapMemory :=
  match readHwmonWatts (path_Join hw amdgpuCapFile) h with
  | Some capW =>
      let '(minW, maxW) := readAmdgpuRange hw h in
      let c := mkCaps capW minW maxW in (Some c, <[hw := c]> mem)
  | None => (mem !! hw, mem)
  end.

(** src/cmd/agent/amdgpu.go:135-157 [e] *)
Fixpoint listAmdEntries (names : list string) (index : Z) (mem : CapMemory) (h : H) : list GPUDevice * CapMemory :=
  match names with
  | [] => ([], mem)
  | name :: rest =>
      match amdgpuHwmonDir (path_Join (hostSysPath amdgpuPCIDevicesDir) name) h with
      | None => listAmdEntries rest index mem h
      | Some hw =>
          let '(shown, mem) := amdgpuShown hw mem h in
          let get f := match shown with Some c => f c | None => fzero end in
          let d := mkGPU index "amd" "" fzero (get ac_cap) (get ac_min) (get ac_max) fzero (ToLower name) hw
                     (match shown with Some _ => false | None => true end) "" in
          let '(ds, mem) := listAmdEntries rest (index + 1) mem h in
          (d :: ds, mem)
      end
  end.

(** No devices is an error.
    src/cmd/agent/amdgpu.go:129-163 [listAmdDevices] *)
Definition listAmdDevices (mem : CapMemory) (h : H) : option (list GPUDevice) * CapMemory :=
  match ReadDir (hostSysPath amdgpuPCIDevicesDir) h with
  | None => (None, mem)
  | Some names =>
      match listAmdEntries names 0 mem h with
      | ([], mem) => (None, mem)
      | (ds, mem) => (Some ds, mem)
      end
  end.

(** src/cmd/agent/amdgpu.go:167-170 [amdgpuSysfsPresent] *)
Definition amdgpuSysfsPresent (mem : CapMemory) (h : H) : bool * CapMemory :=
  let '(ds, mem) := listAmdDevices mem h in (match ds with Some _ => true | None => false end, mem).
End Sysfs.

(** src/cmd/agent/amdgpu.go:173-175 [amdgpuOwnCap] *)
Definition amdgpuOwnCap (d : GPUDevice) : bool :=
  negb (String.eqb (g_HwmonDir d) "") && (positive (g_CurrentCapWatts d) || g_CapUnknown d).

(** src/cmd/agent/amdgpu.go:178-186 [amdgpuCapDevices] *)
Definition amdgpuCapDevices (devices : list GPUDevice) : list GPUDevice := filter (fun d => amdgpuOwnCap d = true) devices.

(** src/cmd/agent/amdgpu.go:192-203 [amdgpuCapSets] *)
Definition amdgpuCapSets (devices : list GPUDevice) : list GPUDevice * list GPUDevice :=
  let capped := amdgpuCapDevices devices in
  let ranged := filter (fun d => g_CapUnknown d = false) capped in
  (capped, match ranged with [] => capped | _ => ranged end).

Section Apply.
Context {H : Type} `{!HostFS H} `{!SysfsHost H}.

(** A device the cap is written to.
    src/cmd/agent/amdgpu.go:216-218 [d] *)
Definition amdNeeds (target : Z) (d : GPUDevice) : bool :=
  amdgpuOwnCap d && (g_CapUnknown d || negb (int_of_float (fround (g_CurrentCapWatts d)) =? target)%Z).

(** The error of a write that was refused or does not read back.
    src/cmd/agent/amdgpu.go:219-227 [f] *)
Definition writeCap (gpu file path want : string) (h : H) : option string * H :=
  match attr_write path want h with
  | (Some err, h) => (Some ("gpu " +:+ gpu +:+ ": write " +:+ file +:+ ": " +:+ we_text err), h)
  | (None, h) =>
      let got := attr_read h path in
      (if String.eqb got want then None
       else Some ("gpu " +:+ gpu +:+ ": " +:+ file +:+ " reads " +:+ Quote got +:+ " after writing " +:+ want), h)
  end.

(** src/cmd/agent/amdgpu.go:211-235 [applyAmdGPUCap] *)
Fixpoint amdCaps (target : Z) (devices : list GPUDevice) (mem : CapMemory) (h : H) : list string * CapMemory * H :=
  match devices with
  | [] => ([], mem, h)
  | d :: rest =>
      if negb (amdNeeds target d) then amdCaps target rest mem h
      else
        let want := Itoa (wrap64 (target * microwattsPerWatt)) in
        match writeCap (g_BusID d) amdgpuCapFile (path_Join (g_HwmonDir d) amdgpuCapFile) want h with
        | (Some err, h) => let '(errs, mem, h) := amdCaps target rest mem h in (err :: errs, mem, h)
        | (None, h) =>
            let '(minW, maxW) := if g_CapUnknown d then readAmdgpuRange (g_HwmonDir d) h else (g_MinCapWatts d, g_MaxCapWatts d) in
            amdCaps target rest (<[g_HwmonDir d := mkCaps (fofZ target) minW maxW]> mem) h
        end
  end.

(** src/cmd/agent/amdgpu.go:211-235 [applyAmdGPUCap] *)
Definition applyAmdGPUCap (devices : list GPUDevice) (capWatts : float64) (mem : CapMemory) (h : H) : list string * CapMemory * H :=
  amdCaps (int_of_float (fround capWatts)) devices mem h.

(** ** Intel *)

(** src/cmd/agent/intelgpu.go:54-59 [intelPCIVendor, intelDriverI915, intelDriverXe, intelBackend] *)
Definition intelPCIVendor : string := "0x8086".
Definition intelDriverI915 : string := "i915".
Definition intelDriverXe : string := "xe".
Definition intelBackend : string := "host-intel".

(** src/cmd/agent/intelgpu.go:68-68 [intelPCIClasses] *)
Definition intelPCIClass (c : Z) : bool := (c =? 3)%Z || (c =? 18)%Z.

(** src/cmd/agent/intelgpu.go:74-88 [intelGPUModels] *)
Definition intelGPUModels : gmap string string := list_to_map [
  ("0x56c0", "Intel Data Center GPU Flex 170"); ("0x56c1", "Intel Data Center GPU Flex 140"); ("0x56c2", "Intel Data Center GPU Flex 170V");
  ("0x0b69", "Intel Data Center GPU Max 1450"); ("0x0b6e", "Intel Data Center GPU Max 1100C"); ("0x0bd4", "Intel Data Center GPU Max 1550VG");
  ("0x0bd5", "Intel Data Center GPU Max 1550"); ("0x0bd6", "Intel Data Center GPU Max 1550"); ("0x0bd7", "Intel Data Center GPU Max 1350");
  ("0x0bd8", "Intel Data Center GPU Max 1350"); ("0x0bd9", "Intel Data Center GPU Max 1100"); ("0x0bda", "Intel Data Center GPU Max 1100");
  ("0x0bdb", "Intel Data Center GPU Max 1100")].

(** src/cmd/agent/intelgpu.go:99-110 [intelGPUCapFile] *)
Definition intelGPUCapFile (dir name : string) (h : H) : string :=
  if fileExists (path_Join dir "power1_max") h then "power1_max"
  else if String.eqb name intelDriverXe && fileExists (path_Join dir "power2_max") h then "power2_max" else "".

(** src/cmd/agent/intelgpu.go:114-116 [intelRatedFile] *)
Definition intelRatedFile (capFile : string) : string := TrimSuffix capFile "_max" +:+ "_rated_max".

Definition intelDriver (name : string) : bool := String.eqb name intelDriverI915 || String.eqb name intelDriverXe.

(** [strconv.ParseInt] in base 16: an optional sign. *)
Definition ParseHexInt (s : string) : option Z :=
  match s with
  | String "-" r => v ← ParseHex (ToLower r); in_range64 (- v)
  | String "+" r => v ← ParseHex (ToLower r); in_range64 v
  | _ => v ← ParseHex (ToLower s); in_range64 v
  end.

(** src/cmd/agent/intelgpu.go:140-150 [d] *)
Fixpoint intelFirst (dirs : list string) (h : H) : option (string * string) :=
  match dirs with
  | [] => None
  | d :: rest =>
      let n := wordAt (path_Join d "name") h in
      if negb (intelDriver n) then intelFirst rest h
      else let f := intelGPUCapFile d n h in if negb (String.eqb f "") then Some (d, f) else None
  end.

(** The hwmon directory and its cap file.
    src/cmd/agent/intelgpu.go:124-151 [intelGPUHwmon] *)
Definition intelGPUHwmon (dev : string) (h : H) : option (string * string) :=
  if negb (String.eqb (wordAt (path_Join dev "vendor") h) intelPCIVendor) then None
  else
    c ← ParseHexInt (TrimPrefix (wordAt (path_Join dev "class") h) "0x");
    if negb (intelPCIClass (Z.shiftr c 16)) then None
    else if match fs_readlink (path_Join dev "driver") h with
            | Some target => negb (intelDriver (path_Base target))
            | None => false
            end then None
    else intelFirst (hwmonDirs dev h) h.

(** src/cmd/agent/intelgpu.go:155-161 [intelGPUCap] *)
Definition intelGPUCap (d : GPUDevice) (h : H) : string :=
  if String.eqb (g_HwmonDir d) "" then ""
  else intelGPUCapFile (g_HwmonDir d) (wordAt (path_Join (g_HwmonDir d) "name") h) h.

(** src/cmd/agent/intelgpu.go:174-197 [e] *)
Fixpoint listIntelEntries (names : list string) (index : Z) (h : H) : list GPUDevice :=
  match names with
  | [] => []
  | name :: rest =>
      let dev := path_Join (hostSysPath amdgpuPCIDevicesDir) name in
      match intelGPUHwmon dev h with
      | None => listIntelEntries rest index h
      | Some (hw, capFile) =>
          let id := wordAt (path_Join dev "device") h in
          let shown := readHwmonWatts (path_Join hw capFile) h in
          mkGPU index "intel" (get_str intelGPUModels (ToLower id)) fzero (default fzero shown) fzero
            (default fzero (readHwmonWatts (path_Join hw (intelRatedFile capFile)) h)) fzero (ToLower name) hw
            (match shown with Some _ => false | None => true end) "" :: listIntelEntries rest (index + 1) h
      end
  end.

(** src/cmd/agent/intelgpu.go:168-202 [listIntelDevices] *)
Definition listIntelDevices (h : H) : option (list GPUDevice) :=
  names ← ReadDir (hostSysPath amdgpuPCIDevicesDir) h;
  match listIntelEntries names 0 h with [] => None | ds => Some ds end.

(** src/cmd/agent/intelgpu.go:205-208 [intelGPUSysfsPresent] *)
Definition intelGPUSysfsPresent (h : H) : bool := match listIntelDevices h with Some _ => true | None => false end.

(** src/cmd/agent/intelgpu.go:223-232 [intelGPULabelled] *)
Definition intelGPULabelled (labels : gmap string string) (h : H) : bool :=
  let family := get_str labels "gpu.intel.com/family" in
  if String.eqb family "Flex_Series" || String.eqb family "Max_Series" then true
  else
    (String.eqb (get_str labels "intel.feature.node.kubernetes.io/gpu") "true" ||
     existsb (fun k => String.eqb (get_str labels ("feature.node.kubernetes.io/" +:+ k +:+ ".present")) "true")
       ["pci-8086"; "pci-0300_8086"; "pci-0380_8086"; "pci-1200_8086"]) && intelGPUSysfsPresent h.

(** src/cmd/agent/intelgpu.go:236-244 [intelGPURanged] *)
Definition intelGPURanged (devices : list GPUDevice) : list GPUDevice := filter (fun d => positive (g_MaxCapWatts d) = true) devices.

(** src/cmd/agent/intelgpu.go:248-255 [intelGPUUnknownRange] *)
Definition intelGPUUnknownRange (devices : list GPUDevice) (h : H) : string :=
  match devices with
  | [] => "no Intel GPU with a power limit"
  | d :: _ => "the power limit range of the Intel GPUs is unknown: gpu " +:+ g_BusID d +:+ " has no " +:+
              intelRatedFile (intelGPUCap d h) +:+ ", so no cap is written"
  end.

(** src/cmd/agent/intelgpu.go:276-276 [target] *)
Definition intelTarget (capWatts : float64) (d : GPUDevice) : float64 := fmin (fround capWatts) (ffloor (g_MaxCapWatts d)).

(** src/cmd/agent/intelgpu.go:264-291 [applyIntelGPUCap] *)
Fixpoint applyIntelGPUCap (devices : list GPUDevice) (capWatts : float64) (h : H) : list string * H :=
  match devices with
  | [] => ([], h)
  | d :: rest =>
      let f := intelGPUCap d h in
      let failed err h := let '(errs, h) := applyIntelGPUCap rest capWatts h in (err :: errs, h) in
      if String.eqb f "" then failed ("gpu " +:+ g_BusID d +:+ ": no power1_max or power2_max") h
      else if fle (g_MaxCapWatts d) fzero then
        failed ("gpu " +:+ g_BusID d +:+ ": no " +:+ intelRatedFile f +:+ ", the power limit range is unknown, not written") h
      else
        let target := intelTarget capWatts d in
        if negb (g_CapUnknown d) && feq (fround (g_CurrentCapWatts d)) target then applyIntelGPUCap rest capWatts h
        else match writeCap (g_BusID d) f (path_Join (g_HwmonDir d) f) (Itoa (wrap64 (int_of_float target * microwattsPerWatt))) h with
             | (Some err, h) => failed err h
             | (None, h) => applyIntelGPUCap rest capWatts h
             end
  end.
End Apply.

(** ** Cards *)

(** The files that read, every path that exists, the attributes that refuse
    a write, and the writes that were taken. Writing an attribute that did
    not read wakes its card: it reads afterwards. *)
Record Cards := mkCards { cd_files : gmap string string; cd_walk : list string; cd_refused : gset string; cd_links : gmap string string;
  cd_log : list Write }.

#[export] Instance cardsFS : HostFS Cards := {
  fs_read path c := cd_files c !! path;
  fs_write path value c :=
    (None, mkCards (<[path := value]> (cd_files c)) (cd_walk c) (cd_refused c) (cd_links c) (cd_log c));
  fs_walk := cd_walk;
  fs_resolve path _ := Some path;
  fs_readlink path c := cd_links c !! path
}.

#[export] Instance cardsHost : SysfsHost Cards := {
  attr_write path value c :=
    if bool_decide (path ∈ cd_walk c) && negb (bool_decide (path ∈ cd_refused c))
    then (None, mkCards (<[path := value]> (cd_files c)) (cd_walk c) (cd_refused c) (cd_links c) (cd_log c ++ [mkWrite path value]))
    else (Some missingAttr, c);
  attr_read c path := word (cd_files c) path
}.

(** The cap a card shows: as it reads, else as the agent remembers it. *)
Definition shownCap (hw : string) (mem : CapMemory) (c : Cards) : option float64 :=
  match readHwmonWatts (path_Join hw amdgpuCapFile) c with
  | Some w => Some w
  | None => ac_cap <$> mem !! hw
  end.

(** A card the cap need not be written to. *)
Definition quiet (target : Z) (mem : CapMemory) (c : Cards) (hw : string) : Prop :=
  match shownCap hw mem c with
  | None => False
  | Some w => positive w = true -> int_of_float (fround w) = target
  end.

Lemma amdgpuShown_kept hw hw' mem c : shownCap hw (amdgpuShown hw' mem c).2 c = shownCap hw mem c.
Proof.
  unfold shownCap, amdgpuShown. destruct (readHwmonWatts (path_Join hw' amdgpuCapFile) c) eqn:E; [|done].
  destruct (readAmdgpuRange hw' c) as [minW maxW]. cbn [snd].
  destruct (readHwmonWatts (path_Join hw amdgpuCapFile) c) eqn:E'; [done|].
  destruct (decide (hw' = hw)) as [->|Hne]; [congruence|]. by rewrite lookup_insert_ne.
Qed.

(** A listing shows every card as [shownCap] does. *)
Lemma listAmdEntries_shows target names i mem c :
  let '(ds, mem') := listAmdEntries names i mem c in
  (forall hw, shownCap hw mem' c = shownCap hw mem c) /\
  (forall d, d ∈ ds -> (exists name, name ∈ names /\ amdgpuHwmonDir (path_Join (hostSysPath amdgpuPCIDevicesDir) name) c = Some (g_HwmonDir d)) /\
     (g_HwmonDir d <> "" -> amdNeeds target d = false <-> quiet target mem c (g_HwmonDir d))) /\
  (forall name hw, name ∈ names -> amdgpuHwmonDir (path_Join (hostSysPath amdgpuPCIDevicesDir) name) c = Some hw ->
     exists d, d ∈ ds /\ g_HwmonDir d = hw).
Proof.
  revert i mem. induction names as [|name names IH]; intros i mem; cbn [listAmdEntries].
  { split; [done|]. split; [by intros d ?%elem_of_nil|by intros ? ? ?%elem_of_nil]. }
  destruct (amdgpuHwmonDir _ c) as [hw|] eqn:Ed.
  - pose proof (fun hw' => amdgpuShown_kept hw' hw mem c) as Hk. destruct (amdgpuShown hw mem c) as [shown mem1] eqn:Es. cbn [snd] in Hk.
    specialize (IH (i + 1)%Z mem1). destruct (listAmdEntries names (i + 1) mem1 c) as [ds mem2]. destruct IH as (H1 & H2 & H3).
    split; [intros hw'; by rewrite H1, Hk|]. split.
    + intros d [->|Hd]%elem_of_cons.
      * cbn [g_HwmonDir]. split; [exists name; split; [by left|done]|]. intros Hne%String.eqb_neq.
        unfold quiet, shownCap, amdNeeds, amdgpuOwnCap. cbn [g_HwmonDir g_CurrentCapWatts g_CapUnknown]. rewrite Hne. cbn [negb andb].
        unfold amdgpuShown in Es. destruct (readHwmonWatts (path_Join hw amdgpuCapFile) c) as [w|] eqn:Er.
        -- destruct (readAmdgpuRange hw c). injection Es as <- <-. cbn [ac_cap]. rewrite orb_false_r. cbn [orb].
           destruct (positive w); cbn [andb]; [|done]. rewrite negb_false_iff, Z.eqb_eq. naive_solver.
        -- injection Es as <- <-. destruct (mem !! hw) as [m|]; cbn [fmap option_fmap option_map].
           ++ rewrite orb_false_r. cbn [orb]. destruct (positive (ac_cap m)); cbn [andb]; [|done].
              rewrite negb_false_iff, Z.eqb_eq. naive_solver.
           ++ rewrite orb_true_r. done.
      * destruct (H2 d Hd) as ((n & Hn & En) & Hq). split; [exists n; split; [by right|done]|]. intros Hne. rewrite (Hq Hne).
        unfold quiet. by rewrite Hk.
    + intros n hw' [->|Hn]%elem_of_cons En.
      * rewrite Ed in En. injection En as <-. eexists. split; [by left|done].
      * destruct (H3 n hw' Hn En) as (d & Hd & Eh). exists d. split; [by right|done].
  - specialize (IH i mem). destruct (listAmdEntries names i mem c) as [ds mem2]. destruct IH as (H1 & H2 & H3).
    split; [done|]. split.
    + intros d Hd. destruct (H2 d Hd) as ((n & Hn & En) & Hq). split; [|done]. exists n. split; [by right|done].
    + intros n hw' [->|Hn]%elem_of_cons En; [congruence|]. by apply (H3 n).
Qed.

(** Whole watts survive the microwatts they are written in. *)
Lemma microwatts_exact t : (0 < t < 2 ^ 33)%Z -> fdiv (fofZ (t * 1000000)) (fofZ 1000000) = fofZ t.
Proof.
  intros Ht. destruct (fofZ_exact (t * 1000000)) as (Na & Sa & _); [lia|]. destruct (fofZ_exact 1000000) as (Nb & Sb & _); [lia|].
  destruct (fofZ_exact t) as (Nt & St & Zt); [lia|]. pose proof (pow2_pos scale ltac:(unfold scale; lia)).
  eapply Rounds_double; [apply fdiv_Rounds; [done|done|rewrite Sb; lia]| |apply Nt|apply Nt|done].
  rewrite Sa, Sb, St. ring.
Qed.

Lemma round_int t : exact_int t -> int_of_float (fround (fofZ t)) = t.
Proof.
  intros Ht. destruct (fofZ_sval t Ht) as [Nt St]. pose proof (pow2_pos scale ltac:(unfold scale; lia)).
  destruct (round_between (fofZ t) t Nt (fle_refl _ (fofZ_not_nan t)) Ht) as [-> _]. rewrite St. symmetry.
  apply (Z.div_unique _ _ _ (2 ^ scale)); lia.
Qed.

Lemma writeCap_taken gpu file path want c c' :
  writeCap gpu file path want c = (None, c') ->
  c' = mkCards (<[path := want]> (cd_files c)) (cd_walk c) (cd_refused c) (cd_links c) (cd_log c ++ [mkWrite path want]) .
Proof. unfold writeCap. cbn [attr_write cardsHost]. destruct (_ && _); [|done]. intros [= _ <-]. done. Qed.

Definition cappedFile (hw : string) : string := path_Join hw amdgpuCapFile.

Lemma cappedFile_inj hw hw' : hw <> "" -> hw' <> "" -> cappedFile hw = cappedFile hw' -> hw = hw'.
Proof.
  intros H H' E. apply (f_equal path_Dir) in E. unfold cappedFile in E. rewrite !path_Dir_join in E; [done|done|by repeat constructor|done|by repeat constructor].
Qed.

Lemma readHwmonWatts_written t path c :
  (0 < t < 2 ^ 33)%Z -> cd_files c !! path = Some (Itoa (wrap64 (t * microwattsPerWatt))) -> readHwmonWatts path c = Some (fofZ t).
Proof.
  intros Ht E. unfold readHwmonWatts. cbn [fs_read cardsFS]. rewrite E. cbn [mbind option_bind]. f_equal.
  unfold microwattsPerWatt. rewrite wrap64_id by (unfold in_int64, int64_min, int64_max; lia).
  rewrite (TrimSpace_plain (Itoa _)) by apply plain_Itoa. rewrite Atoi_Itoa by (unfold in_int64, int64_min, int64_max; lia).
  destruct (Z.ltb_spec (t * 1000000) 0); [lia|]. by apply microwatts_exact.
Qed.

(** A cap that failed nowhere leaves every card it needed quiet, and keeps
    the ones that were. *)
Lemma amdCaps_quiet target ds mem c :
  (0 < target < 2 ^ 33)%Z ->
  let '(errs, mem', c') := amdCaps target ds mem c in
  errs = [] ->
  (forall hw, hw <> "" -> quiet target mem c hw \/ (exists d, d ∈ ds /\ g_HwmonDir d = hw /\ amdNeeds target d = true) ->
     quiet target mem' c' hw) /\
  cd_walk c' = cd_walk c /\ cd_links c' = cd_links c /\
  (forall p, path_Base p <> amdgpuCapFile -> cd_files c' !! p = cd_files c !! p).
Proof.
  intros Ht. revert mem c. induction ds as [|d ds IH]; intros mem c; cbn [amdCaps].
  { intros _. split; [|done]. intros hw _ [Hq|(d & Hd & _)]; [done|]. by apply elem_of_nil in Hd. }
  destruct (amdNeeds target d) eqn:En; cbn [negb].
  2:{ specialize (IH mem c). destruct (amdCaps target ds mem c) as [[errs mem'] c']. intros He. destruct (IH He) as (Hq & Hrest).
      split; [|done]. intros hw Hne [H|(d' & [->|Hd']%elem_of_cons & Eh & Hn)]; apply Hq; auto; [congruence|right; eauto]. }
  destruct (writeCap _ _ _ _ c) as [[err|] c1] eqn:Ew; [by destruct (amdCaps target ds mem c1) as [[errs mem'] c']|].
  apply writeCap_taken in Ew. set (caps := if g_CapUnknown d then _ else _). destruct caps as [minW maxW].
  set (mem1 := <[g_HwmonDir d := mkCaps (fofZ target) minW maxW]> mem). specialize (IH mem1 c1).
  destruct (amdCaps target ds mem1 c1) as [[errs mem'] c']. intros He. destruct (IH He) as (Hq & Hw & Hl & Hf). clear IH.
  assert (g_HwmonDir d <> "") as Hd.
  { intros E. unfold amdNeeds, amdgpuOwnCap in En. by rewrite E in En. }
  assert (quiet target mem1 c1 (g_HwmonDir d)) as Hqd.
  { unfold quiet, shownCap. erewrite readHwmonWatts_written; [|exact Ht|rewrite Ew; apply lookup_insert_eq].
    intros _. apply round_int. unfold exact_int. lia. }
  assert (forall hw, hw <> "" -> quiet target mem c hw -> quiet target mem1 c1 hw) as Hkeep.
  { intros hw Hne Hold. destruct (decide (hw = g_HwmonDir d)) as [->|Hneq]; [done|]. unfold quiet, shownCap in *.
    assert (readHwmonWatts (path_Join hw amdgpuCapFile) c1 = readHwmonWatts (path_Join hw amdgpuCapFile) c) as ->.
    { unfold readHwmonWatts. cbn [fs_read cardsFS]. rewrite Ew. cbn [cd_files]. rewrite lookup_insert_ne; [done|].
      intros E. by apply Hneq, (cappedFile_inj hw (g_HwmonDir d)). }
    unfold mem1. by rewrite lookup_insert_ne. }
  split.
  - intros hw Hne [H|(d' & [->|Hd']%elem_of_cons & Eh & Hn)]; apply Hq; auto; [left; by rewrite <- Eh|right; eauto].
  - rewrite Hw, Hl, Ew. cbn. split; [done|]. split; [done|]. intros p Hp. rewrite Hf, Ew by done. cbn [cd_files].
    rewrite lookup_insert_ne; [done|]. intros E. apply Hp. rewrite <- E. by apply path_Base_join; [|repeat constructor].
Qed.

Lemma amdgpuFirst_in dirs (c : Cards) hw : amdgpuFirst dirs c = Some hw -> hw ∈ dirs.
Proof.
  induction dirs as [|d dirs IH]; cbn [amdgpuFirst]; [done|]. destruct (negb _); [right; by apply IH|].
  destruct (fileExists _ _); [|done]. intros [= ->]. by left.
Qed.

Lemma amdgpuHwmonDir_nonempty name (c : Cards) hw :
  amdgpuHwmonDir (path_Join (hostSysPath amdgpuPCIDevicesDir) name) c = Some hw -> hw <> "".
Proof.
  unfold amdgpuHwmonDir. destruct (negb _); [done|]. destruct (fs_readlink _ c) as [target|]; [destruct (negb _); [done|]|].
  all: intros Hhw%amdgpuFirst_in ->; revert Hhw; unfold hwmonDirs, sort_strings, Glob; rewrite sort_slice_perm.
  all: intros [Hm _]%list_elem_of_filter; by cbn in Hm.
Qed.

Definition sameTree (c c' : Cards) : Prop :=
  cd_walk c' = cd_walk c /\ cd_links c' = cd_links c /\
  (forall p, path_Base p <> amdgpuCapFile -> cd_files c' !! p = cd_files c !! p).

Lemma wordAt_same c c' dir name :
  sameTree c c' -> name <> "" -> noSlash name -> name <> amdgpuCapFile ->
  wordAt (path_Join dir name) c' = wordAt (path_Join dir name) c.
Proof.
  intros (_ & _ & Hf) Hn Hs Hne. unfold wordAt. cbn [attr_read cardsHost]. apply word_lookup, Hf. by rewrite path_Base_join.
Qed.

Lemma amdgpuHwmonDir_same dev c c' : sameTree c c' -> amdgpuHwmonDir dev c' = amdgpuHwmonDir dev c.
Proof.
  intros Hs. pose proof Hs as (Hw & Hl & Hf). unfold amdgpuHwmonDir. rewrite (wordAt_same c c') by (done || by repeat constructor).
  destruct (negb _); [done|]. cbn [fs_readlink cardsFS]. rewrite Hl.
  assert (forall dirs, amdgpuFirst dirs c' = amdgpuFirst dirs c) as Hfirst.
  { induction dirs as [|d dirs IH]; cbn [amdgpuFirst]; [done|]. rewrite (wordAt_same c c') by (done || by repeat constructor).
    rewrite IH. unfold fileExists. cbn [fs_walk cardsFS]. by rewrite Hw. }
  assert (hwmonDirs dev c' = hwmonDirs dev c) as -> by (unfold hwmonDirs, Glob; cbn [fs_walk cardsFS]; by rewrite Hw).
  by rewrite Hfirst.
Qed.

Lemma amdCaps_idle target ds mem (c : Cards) :
  Forall (fun d => amdNeeds target d = false) ds -> amdCaps target ds mem c = ([], mem, c).
Proof. induction 1 as [|d ds Hd _ IH]; cbn [amdCaps]; [done|]. rewrite Hd. exact IH. Qed.

(** An AMD cap settles: once an apply has gone through, the next listing
    shows every card at the cap, or with no cap of its own, and the next
    apply writes nothing; so does a card that is asleep, whose cap the agent
    remembers. *)
Theorem applyAmdGPUCap_settles ds mem mem1 mem2 capWatts c c2 :
  listAmdDevices mem c = (Some ds, mem1) -> (0 < int_of_float (fround capWatts) < 2 ^ 33)%Z ->
  applyAmdGPUCap ds capWatts mem1 c = ([], mem2, c2) ->
  exists ds2 mem3, listAmdDevices mem2 c2 = (Some ds2, mem3) /\ ds2 <> [] /\
    applyAmdGPUCap ds2 capWatts mem3 c2 = ([], mem3, c2).
Proof.
  intros Hl Ht Ha. set (t := int_of_float (fround capWatts)) in *. unfold applyAmdGPUCap in *. fold t in Ha |- *.
  unfold listAmdDevices in *. destruct (ReadDir _ c) as [names|] eqn:Er; [|done].
  pose proof (listAmdEntries_shows t names 0 mem c) as H1. destruct (listAmdEntries names 0 mem c) as [ds1 m1].
  destruct H1 as (Hk1 & Hs1 & Hn1). assert (ds1 = ds /\ m1 = mem1 /\ ds <> []) as (-> & -> & Hne).
  { destruct ds1; [done|]. injection Hl as <- <-. done. }
  pose proof (amdCaps_quiet t ds mem1 c Ht) as H2. rewrite Ha in H2. destruct (H2 eq_refl) as (Hq & Hsame).
  assert (ReadDir (hostSysPath amdgpuPCIDevicesDir) c2 = Some names) as ->.
  { rewrite <- Er. unfold ReadDir, fileExists. cbn [fs_walk cardsFS]. by rewrite (proj1 Hsame). }
  pose proof (listAmdEntries_shows t names 0 mem2 c2) as H3. destruct (listAmdEntries names 0 mem2 c2) as [ds2 mem3].
  destruct H3 as (Hk3 & Hs3 & Hn3).
  assert (ds2 <> []) as Hne2.
  { destruct ds as [|d ds']; [done|]. destruct (Hs1 d ltac:(by left)) as ((n & Hn & En) & _).
    rewrite <- (amdgpuHwmonDir_same _ c c2) in En by done. destruct (Hn3 n _ Hn En) as (d' & Hd' & _). intros ->. by apply elem_of_nil in Hd'. }
  exists ds2, mem3. split; [by destruct ds2|]. split; [done|]. apply amdCaps_idle, Forall_forall. intros d Hd.
  destruct (Hs3 d Hd) as ((n & Hn & En) & Hiff). pose proof (amdgpuHwmonDir_nonempty n c2 _ En) as Hhw.
  apply (Hiff Hhw), Hq; [done|]. rewrite (amdgpuHwmonDir_same _ c c2) in En by done.
  destruct (Hn1 n _ Hn En) as (d1 & Hd1 & Ed1). destruct (Hs1 d1 Hd1) as (_ & Hiff1). rewrite Ed1 in Hiff1.
  destruct (amdNeeds t d1) eqn:En1.
  - right. by exists d1.
  - left. unfold quiet in *. rewrite Hk1. by apply (Hiff1 Hhw).
Qed.

Definition sampleCard (name : string) : string := "/host-sys/bus/pci/devices/" +:+ name.

Definition sampleHwmon (name : string) : string := sampleCard name +:+ "/hwmon/hwmon0".

(** Two cards under the driver: one at 300 W, one asleep, whose cap does not
    read. *)
Definition sampleCards : Cards :=
  mkCards
    (list_to_map [
       (sampleCard "0000:03:00.0" +:+ "/vendor", "0x1002"); (sampleCard "0000:83:00.0" +:+ "/vendor", "0x1002");
       (sampleHwmon "0000:03:00.0" +:+ "/name", "amdgpu"); (sampleHwmon "0000:83:00.0" +:+ "/name", "amdgpu");
       (sampleHwmon "0000:03:00.0" +:+ "/power1_cap", "300000000")])
    ["/host-sys/bus/pci/devices"; sampleCard "0000:03:00.0"; sampleCard "0000:83:00.0";
     sampleHwmon "0000:03:00.0"; sampleHwmon "0000:83:00.0";
     sampleHwmon "0000:03:00.0" +:+ "/power1_cap"; sampleHwmon "0000:83:00.0" +:+ "/power1_cap"]
    ∅ ∅ [].

Definition sampleListing : list GPUDevice := default [] (listAmdDevices ∅ sampleCards).1.

Definition sampleCapped : list string * CapMemory * Cards :=
  applyAmdGPUCap sampleListing (fofZ 250) (listAmdDevices ∅ sampleCards).2 sampleCards.

Lemma applyAmdGPUCap_settles_witness :
  cd_log sampleCapped.2 =
    [mkWrite (sampleHwmon "0000:03:00.0" +:+ "/power1_cap") "250000000"; mkWrite (sampleHwmon "0000:83:00.0" +:+ "/power1_cap") "250000000"] /\
  exists ds2 mem3, listAmdDevices sampleCapped.1.2 sampleCapped.2 = (Some ds2, mem3) /\ ds2 <> [] /\
    applyAmdGPUCap ds2 (fofZ 250) mem3 sampleCapped.2 = ([], mem3, sampleCapped.2).
Proof.
  assert (listAmdDevices ∅ sampleCards = (Some sampleListing, (listAmdDevices ∅ sampleCards).2)) as Hl by (vm_compute; reflexivity).
  assert (applyAmdGPUCap sampleListing (fofZ 250) (listAmdDevices ∅ sampleCards).2 sampleCards = ([], sampleCapped.1.2, sampleCapped.2)) as Ha
    by (vm_compute; reflexivity).
  split; [vm_compute; reflexivity|].
  exact (applyAmdGPUCap_settles sampleListing ∅ _ sampleCapped.1.2 (fofZ 250) sampleCards sampleCapped.2 Hl
    ltac:(vm_compute; split; reflexivity) Ha).
Defined.
