(* ===== verification/GpuInventory.v ===== *)
(** * Governor discovery of the GPUs and its publication: cmd/agent/governor_discovery.go

    What the agent makes of the GPUs' clocks: the presets every GPU accepts,
    the clock ranges, the state of each device; the cache that keeps
    nvidia-smi's static answers between reconciles; and the governor blocks
    of NodeHardware, with the baseline that is published. Formatting of
    floats in the cache's key is a parameter. *)

From S2P Require Import Prelude GoString GoSlices GoFloat Api Governor CpuGovernor GpuGovernor Host NvidiaDiscovery CpuDiscovery NvidiaControl AmdControl GpuDevices.

#[local] Open Scope string_scope.

(** ** The block *)

(** src/api/v1alpha1/nodehardware_types.go:205-208 [ClockRangeMHz] *)
Record ClockRangeMHz := mkClockRange { cr_Min : float64; cr_Max : float64 }.

(** src/api/v1alpha1/nodehardware_types.go:198-202 [GPUClockRanges] *)
Record GPUClockRanges := mkRanges { rg_Graphics : option ClockRangeMHz; rg_Memory : option ClockRangeMHz; rg_Fabric : option ClockRangeMHz }.

Definition noRanges : GPUClockRanges := mkRanges None None None.

(** src/api/v1alpha1/nodehardware_types.go:171-194 [GPUGovernorInventory] *)
Record GPUGovernorInventory := {
  gi_Mechanism : string;
  gi_Current : string;
  gi_Presets : list GovernorPresetSupport;
  gi_ClockRangesMHz : option GPUClockRanges;
  gi_Baseline : option GPUGovernorBaseline;
  gi_Writable : bool;
  gi_Uniform : bool
}.

(** src/cmd/agent/governor_discovery.go:77-88 [gpuGovernorDiscovery] *)
Record gpuGovernorDiscovery := {
  gd_AMD : list AMDFacts;
  gd_NVIDIA : list nvidiaGovernorFacts;
  gd_Devices : list GPUGovernorDeviceState;
  gd_Inventory : GPUGovernorInventory
}.

(** ** Ranges and presets *)

(** src/cmd/agent/governor_discovery.go:309-323 [widenRange] *)
Definition widenRange (r : option ClockRangeMHz) (lo hi : float64) : option ClockRangeMHz :=
  if fle lo fzero && fle hi fzero then r
  else
    let r := default (mkClockRange fzero fzero) r in
    Some (mkClockRange (if flt fzero lo && (feq (cr_Min r) fzero || flt lo (cr_Min r)) then lo else cr_Min r)
                       (if flt (cr_Max r) hi then hi else cr_Max r)).

(** src/cmd/agent/governor_discovery.go:326-331 [gpuClockRanges] *)
Definition gpuClockRanges (r : GPUClockRanges) : option GPUClockRanges :=
  match r with mkRanges None None None => None | _ => Some r end.

(** What one more GPU does to a preset: whether it is still accepted, and
    with what result.
    src/cmd/agent/governor_discovery.go:376-385 [ok] *)
Fixpoint presetOn (plans : list (option Plan)) (result : string) : option string :=
  match plans with
  | [] => Some result
  | None :: _ => None
  | Some pl :: rest =>
      if String.eqb (p_Result pl) GovernorResultUnsupported then None
      else presetOn rest (if String.eqb (p_Result pl) GovernorResultEquivalent then GovernorResultEquivalent else result)
  end.

(** [plans p] are the plans of preset [p], GPU by GPU.
    src/cmd/agent/governor_discovery.go:371-393 [gpuPresetSupport] *)
Definition gpuPresetSupport (plans : string -> list (option Plan)) : list GovernorPresetSupport :=
  omap (fun p =>
    match plans p with
    | Some first :: _ => (fun result => mkSupport p result (p_Native first)) <$> presetOn (plans p) GovernorResultApplied
    | _ => None
    end) GPUGovernorPresetValues.

(** ** AMD *)

(** src/cmd/agent/governor_discovery.go:343-352 [ranges] *)
Definition widenAMD (r : GPUClockRanges) (dev : AMDDevice) : GPUClockRanges :=
  let f := ad_Facts dev in
  let widen r (x : Z * Z) := widenRange r (fofZ x.1) (fofZ x.2) in
  mkRanges (widen (rg_Graphics r) (af_SclkMHz f)) (widen (rg_Memory r) (af_MclkMHz f)) (widen (rg_Fabric r) (af_FclkMHz f)).

Definition amdPlans (facts : list AMDFacts) (p : string) : list (option Plan) := (fun f => PlanAMD f p DefaultCeilingPctOfMax) <$> facts.

(** src/cmd/agent/governor_discovery.go:335-365 [discoverAMDGovernor] *)
Definition discoverAMDGovernor (access : string -> bool) (devices : list AMDDevice) : option gpuGovernorDiscovery :=
  match devices with
  | [] => None
  | _ =>
      let facts := ad_Facts <$> devices in
      let current := uniformOrMixed (af_Level <$> facts) in
      Some {| gd_AMD := facts; gd_NVIDIA := [];
              gd_Devices := (fun f => mkDeviceState (af_BusID f) (af_Level f)) <$> facts;
              gd_Inventory := {|
                gi_Mechanism := GovernorBackendAMDGPUSysfs; gi_Current := current;
                gi_Presets := gpuPresetSupport (amdPlans facts);
                gi_ClockRangesMHz := gpuClockRanges (foldl widenAMD noRanges devices);
                gi_Baseline := None;
                gi_Writable := Writable access (devices ≫= ad_Files);
                gi_Uniform := negb (String.eqb current GovernorCurrentMixed) |} |}
  end.

(** ** NVIDIA *)

(** src/cmd/agent/governor_discovery.go:401-406 [minMaxMHz] *)
Definition minMaxMHz (xs : list Z) : float64 * float64 :=
  match xs with
  | [] => (fzero, fzero)
  | x :: rest => (fofZ (foldl Z.min x rest), fofZ (foldl Z.max x rest))
  end.

(** src/cmd/agent/governor_discovery.go:430-437 [ranges] *)
Definition widenNvidia (r : GPUClockRanges) (g : NvidiaGPU) : GPUClockRanges :=
  let '(smLo, smHi) := minMaxMHz (nf_SupportedSMMHz (ngp_Facts g)) in
  let '(memLo, memHi) := minMaxMHz (nf_SupportedMemMHz (ngp_Facts g)) in
  mkRanges (widenRange (rg_Graphics r) smLo (fmax smHi (ngp_MaxSMMHz g)))
           (widenRange (rg_Memory r) memLo (fmax memHi (ngp_MaxMemMHz g))) (rg_Fabric r).

Definition nvidiaPlans (facts : list nvidiaGovernorFacts) (p : string) : list (option Plan) :=
  (fun g => PlanNvidia (ng_Facts g) (ng_BusID g) p DefaultCeilingPctOfMax) <$> facts.

(** The discovery of GPUs that answered.
    src/cmd/agent/governor_discovery.go:428-451 [d] *)
Definition nvidiaDiscovery (gpus : list NvidiaGPU) : gpuGovernorDiscovery :=
  let facts := (fun g => {| ng_BusID := ngp_BusID g; ng_Facts := ngp_Facts g |}) <$> gpus in
  {| gd_AMD := []; gd_NVIDIA := facts;
     gd_Devices := (fun g => mkDeviceState (ngp_BusID g) GovernorStateUnknown) <$> gpus;
     gd_Inventory := {|
       gi_Mechanism := GovernorBackendNvidiaSMI; gi_Current := GovernorStateUnknown;
       gi_Presets := gpuPresetSupport (nvidiaPlans facts);
       gi_ClockRangesMHz := gpuClockRanges (foldl widenNvidia noRanges gpus);
       gi_Baseline := None; gi_Writable := true; gi_Uniform := false |} |}.

(** The agent's count of failed nvidia-smi runs, which the tool's runner
    keeps: a query of a field the driver does not know does not count.
    src/cmd/agent/main.go:1518-1524 [nvidiaToolFailures] *)
Definition countedFailure (err : option WriteError) : bool :=
  match err with Some _ => negb (FieldRejected err) | None => false end.

Class ToolFailures (W : Type) := { nvidiaToolFailures : W -> Z }.
Class CountsFailures (W : Type) `{!NvidiaSmi W} `{!ToolFailures W} : Prop := {
  counts_run args (w : W) : let '(err, _, w') := smi_run args w in
    nvidiaToolFailures w' = if countedFailure err then wrap64 (nvidiaToolFailures w + 1) else nvidiaToolFailures w
}.

(** src/cmd/agent/governor_discovery.go:133-141 [nvidiaFactsCache] *)
Record nvidiaFactsCache := mkCache { nc_key : string; nc_failures : Z; nc_at : Z; nc_gpus : option (list NvidiaGPU) }.

(** src/cmd/agent/governor_discovery.go:124-124 [nvidiaFactsTTL] *)
Definition nvidiaFactsTTL : Z := 600000000000.

(** src/cmd/agent/governor_discovery.go:182-186 [forget] *)
Definition forget (c : option nvidiaFactsCache) : option nvidiaFactsCache :=
  (fun c => mkCache "" (nc_failures c) (nc_at c) None) <$> c.

Section Read.
Context {W : Type} `{!NvidiaSmi W} `{!ToolFailures W} (FormatG : float64 -> string) (ParseFloat : string -> option float64).

(** src/cmd/agent/governor_discovery.go:148-155 [nvidiaFactsKey] *)
Definition nvidiaFactsKey (arch : string) (devices : list GPUDevice) : string :=
  foldl (fun b d => b +:+ "|" +:+ Itoa (g_Index d) +:+ "," +:+ g_Product d +:+ "," +:+ FormatG (g_MinCapWatts d) +:+ "," +:+
    FormatG (g_MaxCapWatts d)) arch devices.

(** The answer a read may reuse.
    src/cmd/agent/governor_discovery.go:168-168 [gpus] *)
Definition cached (key : string) (now : Z) (c : nvidiaFactsCache) (w : W) : option (list NvidiaGPU) :=
  if String.eqb (nc_key c) key && (nc_failures c =? nvidiaToolFailures w)%Z && (sat64 (now - nc_at c) <? nvidiaFactsTTL)%Z
  then nc_gpus c else None.

(** A nil cache reads every time.
    src/cmd/agent/governor_discovery.go:159-179 [read] *)
Definition read (arch : string) (devices : list GPUDevice) (now : Z) (c : option nvidiaFactsCache) (w : W)
    : (NvidiaError + list NvidiaGPU) * option nvidiaFactsCache * W :=
  match c with
  | None => let '(r, w) := ReadNvidia ParseFloat arch w in (r, None, w)
  | Some c0 =>
      let key := nvidiaFactsKey arch devices in
      match cached key now c0 w with
      | Some gpus => (inr gpus, c, w)
      | None =>
          let failures := nvidiaToolFailures w in
          match ReadNvidia ParseFloat arch w with
          | (inl err, w) => (inl err, forget c, w)
          | (inr gpus, w) => (inr gpus, Some (mkCache key failures now (Some gpus)), w)
          end
      end
  end.

(** src/cmd/agent/governor_discovery.go:39-42 [warnNvidiaClockQuery, warnNvidiaSupportedClocks] *)
Definition warnNvidiaClockQuery : string := "gpu governor not discovered: the nvidia-smi clock query failed".
Definition warnNvidiaSupportedClocks : string := "gpu governor not discovered: nvidia-smi -q -d SUPPORTED_CLOCKS failed".

(** src/cmd/agent/governor_discovery.go:414-452 [discoverNvidiaGovernor] *)
Definition discoverNvidiaGovernor (nodeLabels : gmap string string) (product : string) (devices : list GPUDevice) (now : Z)
    (facts : option nvidiaFactsCache) (w : W) : option gpuGovernorDiscovery * string * option nvidiaFactsCache * W :=
  let arch := NvidiaArch nodeLabels product in
  if String.eqb arch "" then (None, "", facts, w)
  else match read arch devices now facts w with
       | (inl ErrNvidiaSupportedClocks, facts, w) => (None, warnNvidiaSupportedClocks, facts, w)
       | (inl _, facts, w) => (None, warnNvidiaClockQuery, facts, w)
       | (inr gpus, facts, w) => (Some (nvidiaDiscovery gpus), "", facts, w)
       end.

(** ** The node *)

(** src/cmd/agent/governor_discovery.go:45-63 [governorDiscovery] *)
Record governorDiscovery := {
  gv_CPU : option cpuGovernorDiscovery;
  gv_GPU : option gpuGovernorDiscovery;
  gv_GPUWarnings : list string;
  gv_GPUKept : option gpuGovernorDiscovery;
  gv_CPUBaseline : option CPUGovernorBaseline;
  gv_GPUBaseline : option GPUGovernorBaseline
}.

(** The files discovery reads, what driver an entry of bus/pci/devices is
    bound to, and those entries. *)
Record GovernorFiles := {
  gf_sys : Sys;
  gf_cpuinfo : option string;
  gf_access : string -> bool;
  gf_driver : string -> option string;
  gf_pci : list string
}.

(** src/cmd/agent/governor_discovery.go:101-119 [discoverGovernors] *)
Definition discoverGovernors (files : GovernorFiles) (nodeLabels : gmap string string) (vendor rawModel : string)
    (devices : list GPUDevice) (now : Z) (facts : option nvidiaFactsCache) (w : W) : governorDiscovery * option nvidiaFactsCache * W :=
  let d gpu warnings := {| gv_CPU := discoverCPUGovernor (gf_access files) (gf_sys files) (gf_cpuinfo files);
    gv_GPU := gpu; gv_GPUWarnings := warnings; gv_GPUKept := None; gv_CPUBaseline := None; gv_GPUBaseline := None |} in
  let listed := negb (bool_decide (devices = [])) in
  let facts := if negb (String.eqb vendor "nvidia") || negb listed then forget facts else facts in
  if String.eqb vendor "amd" then
    (d (discoverAMDGovernor (gf_access files) (ReadAMD (sy_files (gf_sys files)) (gf_driver files) (gf_pci files))) [], facts, w)
  else if String.eqb vendor "nvidia" && listed then
    let '(gpu, warning, facts, w) := discoverNvidiaGovernor nodeLabels rawModel devices now facts w in
    (d gpu (if String.eqb warning "" then [] else [warning]), facts, w)
  else (d None [], facts, w).
End Read.

(** ** Publication *)

(** The governor blocks an object stores, where it has a status that
    decodes. *)
Record StoredGovernors := mkStored { sg_CPU : option CPUGovernorInventory; sg_GPU : option GPUGovernorInventory }.

(** src/cmd/agent/governor_discovery.go:487-498 [storedGovernorBaselines] *)
Definition storedGovernorBaselines (obj : StoredGovernors) : option CPUGovernorBaseline * option GPUGovernorBaseline :=
  (c ← sg_CPU obj; b ← ci_Baseline c; if bool_decide (cb_Groups b = []) then None else Some b,
   g ← sg_GPU obj; b ← gi_Baseline g; if bool_decide (gb_Devices b = []) then None else Some b).

(** [cmp.Or] of pointers. *)
Definition first_some {A} (l : list (option A)) : option A := foldr (fun x acc => match x with Some _ => x | None => acc end) None l.

Definition withCPUBaseline (b : option CPUGovernorBaseline) (i : CPUGovernorInventory) : CPUGovernorInventory := {|
  ci_Driver := ci_Driver i; ci_DriverMode := ci_DriverMode i; ci_Current := ci_Current i; ci_Available := ci_Available i;
  ci_EPP := ci_EPP i; ci_Boost := ci_Boost i; ci_Presets := ci_Presets i; ci_Baseline := b; ci_Writable := ci_Writable i |}.

Definition withGPUBaseline (b : option GPUGovernorBaseline) (i : GPUGovernorInventory) : GPUGovernorInventory := {|
  gi_Mechanism := gi_Mechanism i; gi_Current := gi_Current i; gi_Presets := gi_Presets i; gi_ClockRangesMHz := gi_ClockRangesMHz i;
  gi_Baseline := b; gi_Writable := gi_Writable i; gi_Uniform := gi_Uniform i |}.

Definition emptyGPUInventory : GPUGovernorInventory := {|
  gi_Mechanism := ""; gi_Current := ""; gi_Presets := []; gi_ClockRangesMHz := None; gi_Baseline := None; gi_Writable := false; gi_Uniform := false |}.

(** The blocks that are put into the status.
    src/cmd/agent/governor_discovery.go:508-556 [addGovernorStatus] *)
Definition governorBlocks (g : governorDiscovery) (obj : StoredGovernors) : option CPUGovernorInventory * option GPUGovernorInventory :=
  let '(storedCPU, storedGPU) := storedGovernorBaselines obj in
  ((fun c => withCPUBaseline (first_some [gv_CPUBaseline g; storedCPU; Some (baseline (cd_Policies c))]) (cd_Inventory c)) <$> gv_CPU g,
   match first_some [gv_GPU g; gv_GPUKept g] with
   | Some d => Some (withGPUBaseline (first_some [gv_GPUBaseline g; storedGPU; Some (mkGPUBaseline (gd_Devices d) "")]) (gd_Inventory d))
   | None =>
       match first_some [gv_GPUBaseline g; storedGPU] with
       | Some kept => Some (withGPUBaseline (Some kept) (default emptyGPUInventory (sg_GPU obj)))
       | None => None
       end
   end).

(** ** A published preset is one the agent can plan *)

(** A plan that sets something, or the driver's own state. *)
Definition accepted (p : option Plan) : Prop := exists pl, p = Some pl /\ p_Result pl <> GovernorResultUnsupported.

Lemma presetOn_accepted plans r r' : presetOn plans r = Some r' -> Forall accepted plans.
Proof.
  revert r. induction plans as [|[pl|] plans IH]; intros r; cbn [presetOn]; [constructor| |done].
  destruct (String.eqb_spec (p_Result pl) GovernorResultUnsupported) as [|Hne]; [done|]. intros H%IH. constructor; [by exists pl|done].
Qed.

(** The presets published for the GPUs are those of the schema that every
    one of them accepts. *)
Lemma gpuPresetSupport_accepted plans preset :
  preset ∈ (gps_Preset <$> gpuPresetSupport plans) ->
  preset ∈ GPUGovernorPresetValues /\ plans preset <> [] /\ Forall accepted (plans preset).
Proof.
  intros (s & -> & (p & Hp & Hs)%list_elem_of_omap)%list_elem_of_fmap. destruct (plans p) as [|[pl|] rest] eqn:E; [done| |done].
  destruct (presetOn (Some pl :: rest) GovernorResultApplied) as [r|] eqn:Er; [|done]. injection Hs as <-. cbn. rewrite E.
  split; [done|]. split; [done|]. by eapply presetOn_accepted.
Qed.

Lemma checkGPUPreset_default preset : preset ∈ GPUGovernorPresetValues -> checkGPUPreset preset DefaultCeilingPctOfMax = true.
Proof. intros H. unfold checkGPUPreset. rewrite (proj2 (str_mem_In _ _) H). by destruct (String.eqb preset GPUGovernorPresetEfficient). Qed.

Lemma unsupported_not_accepted : ~ accepted (Some unsupportedPlan).
Proof. by intros (pl & [= <-] & ?). Qed.

(** A device expresses a preset at every ceiling or at none. *)
Lemma PlanAMD_ceiling f preset pct :
  accepted (PlanAMD f preset DefaultCeilingPctOfMax) -> checkGPUPreset preset pct = true -> accepted (PlanAMD f preset pct).
Proof.
  unfold PlanAMD. intros Ha Hc. rewrite Hc. destruct (checkGPUPreset preset DefaultCeilingPctOfMax); [|by destruct Ha as (? & ? & _)]. cbn [negb] in *.
  destruct (String.eqb (af_BusID f) ""); [done|].
  assert (chooseAMD f preset DefaultCeilingPctOfMax = None <-> chooseAMD f preset pct = None) as Hn.
  { unfold chooseAMD. destruct (negb (String.eqb preset GPUGovernorPresetEfficient)); [done|]. destruct (af_SclkMHz f). by destruct (_ || _). }
  destruct (chooseAMD f preset pct) as [[level mhz]|].
  - destruct (0 <? mhz)%Z; by eexists.
  - rewrite (proj2 Hn eq_refl) in Ha. by apply unsupported_not_accepted in Ha.
Qed.

Lemma PlanNvidia_ceiling f bus preset pct :
  accepted (PlanNvidia f bus preset DefaultCeilingPctOfMax) -> checkGPUPreset preset pct = true -> accepted (PlanNvidia f bus preset pct).
Proof.
  intros Ha Hc. assert (nv_result (chooseNvidia f preset pct) = nv_result (chooseNvidia f preset DefaultCeilingPctOfMax)) as Hr.
  { destruct (decide (preset = GPUGovernorPresetEfficient)) as [->|Hne]; [|by rewrite (chooseNvidia_ceiling f preset pct DefaultCeilingPctOfMax)].
    rewrite !chooseNvidia_efficient. cbv zeta. by destruct (_ || _). }
  unfold PlanNvidia in *. rewrite Hc. destruct (checkGPUPreset preset DefaultCeilingPctOfMax); [|by destruct Ha as (? & ? & _)]. cbn [negb] in *.
  destruct (String.eqb bus ""); [done|]. cbv zeta in *. rewrite Hr.
  destruct (String.eqb_spec (nv_result (chooseNvidia f preset DefaultCeilingPctOfMax)) GovernorResultUnsupported) as [E|Hne].
  { by apply unsupported_not_accepted in Ha. }
  clear Ha. eexists. split; [reflexivity|]. cbn [p_Result]. destruct (String.eqb preset GPUGovernorPresetAuto && _); [apply String.eqb_neq; reflexivity|exact Hne].
Qed.

(** A preset the CPU facts support is planned with a boost word wherever
    boost can be set. *)
Lemma PlanCPU_boost f preset boost :
  preset ∈ PresetsCPU f -> boost = "" \/ (boost ∈ CPUGovernorBoostValues /\ cf_BoostScope f ∈ [CPUBoostScopeGlobal; CPUBoostScopeNoTurbo; CPUBoostScopePerCPU] /\
    cf_Policies f <> []) -> accepted (PlanCPU f preset boost).
Proof.
  unfold PresetsCPU. intros [Hc Hp]%list_elem_of_filter Hb. unfold PlanCPU. rewrite (proj2 (str_mem_In _ _) Hp). cbn [negb]. cbv zeta. rewrite Hc.
  apply String.eqb_neq in Hc. destruct Hb as [->|(Hb & Hs & Hn)]; [cbn; by eexists|].
  rewrite (proj2 (str_mem_In _ _) Hb), andb_false_r. destruct (String.eqb_spec boost "") as [->|_]; [by eexists|].
  assert (sortedPolicies (cf_Policies f) <> []) as Hn'.
  { intros E. destruct (cf_Policies f) as [|n ns] eqn:En; [done|]. assert (n ∈ sortedPolicies (n :: ns)) as Hin by (apply elem_of_sorted_distinct; by left).
    rewrite E in Hin. by apply elem_of_nil in Hin. }
  unfold CPUBoostWrites. repeat (apply elem_of_cons in Hs as [->|Hs]; [cbn; destruct (sortedPolicies (cf_Policies f)); [done|by eexists]|]).
  by apply elem_of_nil in Hs.
Qed.
