(* ===== verification/GovernorControl.v ===== *)
(** * The governor control of a node: cmd/agent/governor_control.go

    The two components of a node over one run of the agent: what a restarted
    agent takes from the status its predecessor left, the baselines that
    restores put back, the reconcile of the GPU component over its two
    mechanisms, and the restore on exit. The mechanisms are those of
    CpuControl.v, NvidiaControl.v and AmdControl.v, the loop that of
    GovernorLoop.v. A discovery is an argument of the tick; [FormatCeiling]
    writes a ceiling the shortest way. *)

From S2P Require Import Prelude GoString GoFloat Api Governor CpuGovernor GpuGovernor Native Host NvidiaDiscovery.
From S2P Require Import CpuDiscovery GovernorLoop CpuControl NvidiaControl AmdControl GpuDevices GpuInventory.

#[local] Open Scope string_scope.

(** src/cmd/agent/governor_control.go:243-261 [governorControl] *)
Record governorControl := mkControl {
  gc_cfg : governorConfig;
  gc_remote : bool;
  gc_loaded : bool;
  gc_cpuBaseline : option CPUGovernorBaseline;
  gc_gpuBaseline : option GPUGovernorBaseline;
  gc_cpu : governorComponent;
  gc_gpu : governorComponent;
  gc_last : governorDiscovery;
  gc_lastGPU : option gpuGovernorDiscovery
}.

Definition nothingDiscovered : governorDiscovery := {| gv_CPU := None; gv_GPU := None; gv_GPUWarnings := []; gv_GPUKept := None;
  gv_CPUBaseline := None; gv_GPUBaseline := None |}.

(** src/cmd/agent/governor_control.go:263-271 [newGovernorControl] *)
Definition newGovernorControl (env : Env.Environ) : governorControl :=
  mkControl (governorConfigFromEnv env) false false None None (newComponent "cpuGovernor") (newComponent "gpuGovernor") nothingDiscovered None.

Definition withComponents (cpu gpu : governorComponent) (g : governorControl) : governorControl :=
  mkControl (gc_cfg g) (gc_remote g) (gc_loaded g) (gc_cpuBaseline g) (gc_gpuBaseline g) cpu gpu (gc_last g) (gc_lastGPU g).

(** ** What an earlier run left *)

(** src/cmd/agent/governor_control.go:388-396 [last] *)
Definition seedStatus (r : option ControlResult) (c : governorComponent) : governorComponent :=
  match r with
  | None => c
  | Some r => (c ▷ set_status (mkStatus (cr_Backend r) (cr_Result r) (cr_Message r) (cr_Applied r)) ▷ set_statusWritten true)
  end.

(** src/cmd/agent/governor_control.go:397-400 [LastCPUGovernor] *)
Definition seedCPU (r : option ControlResult) (c : governorComponent) : governorComponent :=
  match r with
  | Some r =>
      if governorResultWrote (cr_Result r) (cr_Applied r) then
        (c ▷ set_changed true ▷ set_boostWritten (negb (String.eqb (st_Boost (ParseNative (cr_Backend r) (cr_Applied r))) "")))
      else c
  | None => c
  end.

(** src/cmd/agent/governor_control.go:401-412 [LastGPUGovernor] *)
Definition seedGPU (r : option ControlResult) (c : governorComponent) : governorComponent :=
  match r with
  | Some r =>
      if governorResultWrote (cr_Result r) (cr_Applied r) then
        let st := ParseNative (cr_Backend r) (cr_Applied r) in
        let c := (c ▷ set_changed true) in
        if String.eqb (cr_Backend r) GovernorBackendNvidiaSMI then (c ▷ set_nvSeed (Some st))
        else if String.eqb (cr_Backend r) GovernorBackendAMDGPUSysfs && (0 <? st_SclkMaxMHz st)%Z then (c ▷ set_odDevices {["*"]})
        else c
      else c
  | None => c
  end.

(** The two results of the NodeTwin status.
    src/cmd/agent/governor_control.go:387-413 [seed] *)
Definition seed (lastCPU lastGPU : option ControlResult) (g : governorControl) : governorControl :=
  withComponents (seedCPU lastCPU (seedStatus lastCPU (gc_cpu g))) (seedGPU lastGPU (seedStatus lastGPU (gc_gpu g))) g.

(** ** The baselines *)

#[export] Instance CPUGovernorState_eq_dec : EqDecision CPUGovernorState.
Proof. solve_decision. Defined.
#[export] Instance GPUGovernorDeviceState_eq_dec : EqDecision GPUGovernorDeviceState.
Proof. solve_decision. Defined.

(** src/cmd/agent/governor_control.go:335-348 [b] *)
Definition followCPU (now : string) (d : option cpuGovernorDiscovery) (c : governorComponent) (base : option CPUGovernorBaseline)
    : option CPUGovernorBaseline :=
  match d with
  | None => base
  | Some d =>
      if bool_decide (base = None) || negb (c_changed c) then
        let b := baseline (cd_Policies d) in
        match base with
        | Some old => if bool_decide (cb_Groups b = cb_Groups old) then base else Some (mkCPUBaseline (cb_Groups b) now)
        | None => Some (mkCPUBaseline (cb_Groups b) now)
        end
      else base
  end.

(** A device whose state is known takes the vendor default. *)
Definition vendorDefault (d : GPUGovernorDeviceState) : GPUGovernorDeviceState :=
  if String.eqb (ds_Level d) GovernorStateUnknown then d else mkDeviceState (ds_BusID d) AMDLevelAuto.

(** src/cmd/agent/governor_control.go:349-365 [b] *)
Definition followGPU (now : string) (d : option gpuGovernorDiscovery) (c : governorComponent) (base : option GPUGovernorBaseline)
    : option GPUGovernorBaseline :=
  match d with
  | None => base
  | Some d =>
      match base with
      | None => Some (mkGPUBaseline (if c_changed c then vendorDefault <$> gd_Devices d else gd_Devices d) now)
      | Some old =>
          if c_changed c then base
          else if bool_decide (gd_Devices d = gb_Devices old) then base else Some (mkGPUBaseline (gd_Devices d) now)
      end
  end.

(** What is published of a CPU that refused a write, and of GPUs that did or
    hold locks of the agent's.
    src/cmd/agent/governor_control.go:367-380 [d] *)
Definition publishedCPU (c : governorComponent) (d : cpuGovernorDiscovery) : cpuGovernorDiscovery :=
  if c_refused c then {| cd_Facts := cd_Facts d; cd_Policies := cd_Policies d; cd_Inventory :=
    let i := cd_Inventory d in {| ci_Driver := ci_Driver i; ci_DriverMode := ci_DriverMode i; ci_Current := ci_Current i; ci_Available := ci_Available i;
      ci_EPP := ci_EPP i; ci_Boost := ci_Boost i; ci_Presets := ci_Presets i; ci_Baseline := ci_Baseline i; ci_Writable := false |} |}
  else d.

Definition publishedGPU (c : governorComponent) (d : gpuGovernorDiscovery) : gpuGovernorDiscovery :=
  let i := gd_Inventory d in
  {| gd_AMD := gd_AMD d; gd_NVIDIA := gd_NVIDIA d; gd_Devices := gd_Devices d; gd_Inventory := {|
       gi_Mechanism := gi_Mechanism i;
       gi_Current := if negb (bool_decide (gd_NVIDIA d = [])) && nvidiaLocked c && negb (String.eqb (gst_applied (c_status c)) "")
                     then gst_applied (c_status c) else gi_Current i;
       gi_Presets := gi_Presets i; gi_ClockRangesMHz := gi_ClockRangesMHz i; gi_Baseline := gi_Baseline i;
       gi_Writable := if c_refused c then false else gi_Writable i; gi_Uniform := gi_Uniform i |} |}.

(** What reading NodeHardware answers: its governor blocks, none, or an
    error. *)
Inductive BaselineRead := ReadStored (obj : StoredGovernors) | ReadNone | ReadFailed.

(** The stored baselines, read once; [None] when they could not be.
    src/cmd/agent/governor_control.go:311-325 [obj] *)
Definition loadBaselines (read : BaselineRead) (last : option (option ControlResult * option ControlResult)) (g : governorControl)
    : option governorControl :=
  if gc_loaded g then Some g
  else
    let loaded cpu gpu := mkControl (gc_cfg g) (gc_remote g) true cpu gpu (gc_cpu g) (gc_gpu g) (gc_last g) (gc_lastGPU g) in
    let seeded g := match last with Some (cpu, gpu) => seed cpu gpu g | None => g end in
    match read with
    | ReadStored obj => let '(cpu, gpu) := storedGovernorBaselines obj in Some (seeded (loaded cpu gpu))
    | ReadNone => Some (seeded (loaded (gc_cpuBaseline g) (gc_gpuBaseline g)))
    | ReadFailed => None
    end.

(** [last] are the results the NodeTwin carries, when there is one. The
    latest GPU discovery is shared with what is published of it; a kept one
    is a copy.
    src/cmd/agent/governor_control.go:310-382 [prepare] *)
Definition prepare (read : BaselineRead) (last : option (option ControlResult * option ControlResult)) (now : string)
    (d : governorDiscovery) (g : governorControl) : governorDiscovery * governorControl :=
  match loadBaselines read last g with
  | None => (d, g)
  | Some g =>
      let cpuB := followCPU now (gv_CPU d) (gc_cpu g) (gc_cpuBaseline g) in
      let gpuB := followGPU now (gv_GPU d) (gc_gpu g) (gc_gpuBaseline g) in
      let gpu := publishedGPU (gc_gpu g) <$> gv_GPU d in
      let kept := match gv_GPU d with Some _ => None | None => publishedGPU (gc_gpu g) <$> gc_lastGPU g end in
      let d := {| gv_CPU := publishedCPU (gc_cpu g) <$> gv_CPU d; gv_GPU := gpu; gv_GPUWarnings := gv_GPUWarnings d;
                  gv_GPUKept := kept; gv_CPUBaseline := cpuB; gv_GPUBaseline := gpuB |} in
      (d, mkControl (gc_cfg g) (gc_remote g) (gc_loaded g) cpuB gpuB (gc_cpu g) (gc_gpu g) d
            (match gpu with Some _ => gpu | None => gc_lastGPU g end))
  end.

(** ** The reconcile *)

(** src/cmd/agent/governor_control.go:416-424 [governorEnv] *)
Record governorEnv := mkGovernorEnv { ge_simulateOnly : bool; ge_cpuHTTP : bool; ge_gpuHTTP : bool; ge_nodeLabels : gmap string string }.

Definition modeOf (g : governorControl) (env : governorEnv) (http : bool) : Mode :=
  {| md_simulateOnly := ge_simulateOnly env; md_writes := gc_writes (gc_cfg g); md_remote := gc_remote g; md_http := http |}.

(** Why there is no GPU mechanism, if there is none.
    src/cmd/agent/governor_control.go:922-934 [missing, missingResult] *)
Definition missingGPU (d : governorDiscovery) (vendor rawModel : string) (nodeLabels : gmap string string) : string * string :=
  match gv_GPU d with
  | Some _ => ("", GovernorResultUnsupported)
  | None =>
      match gv_GPUWarnings d with
      | [] =>
          if String.eqb vendor "nvidia" && negb (String.eqb (NvidiaArch nodeLabels rawModel) "")
          then ("nvidia-smi listed no GPU: NVIDIA governor presets need nvidia-smi in the agent", GovernorResultError)
          else ("no GPU governor on this node", GovernorResultUnsupported)
      | ws => (Join ws "; ", GovernorResultError)
      end
  end.

Section Reconcile.
Context {H : Type} `{!SysfsHost H} `{!Overdrive H} `{!NvidiaSmi H}.
Context (ParseFloat : string -> option float64) (FormatG FormatCeiling : float64 -> string) (answer : nat -> PatchAnswer).

(** src/cmd/agent/governor_control.go:1144-1149 [restoreGPU] *)
Definition restoreGPU (d : gpuGovernorDiscovery) (b : option GPUGovernorBaseline) (c : governorComponent) (h : H)
    : governorOutcome * governorComponent * H :=
  if negb (bool_decide (gd_NVIDIA d = [])) then restoreNvidia (gd_NVIDIA d) c h else restoreAMD (gd_AMD d) b c h.

(** src/cmd/agent/governor_control.go:907-956 [reconcileGPU] *)
Definition reconcileGPU (m : Mode) (gov : governorDiscovery) (vendor rawModel : string) (nodeLabels : gmap string string)
    (b : option GPUGovernorBaseline) (intent : option GPUGovernorIntent) (now : Z) (c : governorComponent) (h : H) (r : Reports)
    : governorComponent * H * Reports :=
  let d := gv_GPU gov in
  let c := match d with Some d => if bool_decide (gd_NVIDIA d = []) then c else seedNvidia (gd_NVIDIA d) c | None => c end in
  let released := release answer m ((fun d c h => restoreGPU d b c h) <$> d) now c h r in
  match intent with
  | None => released
  | Some intent =>
      if restoreWritesOff m c then released
      else
        let '(missing, missingResult) := missingGPU gov vendor rawModel nodeLabels in
        match blocked m missing missingResult, d with
        | Some st, _ => let '(c, r) := hold answer (ggi_Preset intent) st now c r in (c, h, r)
        | None, None => (c, h, r)
        | None, Some d =>
            let ceiling := default DefaultCeilingPctOfMax (ggi_ComputeClockCeilingPctOfMax intent) in
            let key := ggi_Preset intent +:+ "|" +:+ FormatCeiling ceiling in
            if negb (bool_decide (gd_NVIDIA d = []))
            then step answer key (ggi_Preset intent) (nvidiaOps ParseFloat FormatG (gd_NVIDIA d) (ggi_Preset intent) ceiling) now c h r
            else step answer key (ggi_Preset intent) (amdOps FormatG (gd_AMD d) (ggi_Preset intent) ceiling) now c h r
        end
  end.

(** The CPU governor, then the GPU's.
    src/cmd/agent/governor_control.go:428-439 [reconcile] *)
Definition reconcile (env : governorEnv) (gov : governorDiscovery) (vendor rawModel : string)
    (intents : option CPUGovernorIntent * option GPUGovernorIntent) (now : Z) (g : governorControl) (h : H) (r : Reports)
    : governorControl * H * Reports :=
  if negb (gc_loaded g) then (g, h, r)
  else
    let '(cpu, h, r) := reconcileCPU answer (modeOf g env (ge_cpuHTTP env)) (cd_Facts <$> gv_CPU gov) (gc_cpuBaseline g) intents.1 now (gc_cpu g) h r in
    let '(gpu, h, r) := reconcileGPU (modeOf g env (ge_gpuHTTP env)) gov vendor rawModel (ge_nodeLabels env) (gc_gpuBaseline g) intents.2 now
                          (gc_gpu g) h r in
    (withComponents cpu gpu g, h, r).

(** One component put back on exit, whatever its retry said.
    src/cmd/agent/governor_control.go:1539-1548 [p] *)
Definition exitComponent (m : Mode) (restore : option (governorComponent -> H -> governorOutcome * governorComponent * H)) (now : Z)
    (c : governorComponent) (h : H) (r : Reports) : governorComponent * H * Reports :=
  if c_changed c then release answer m restore now (c ▷ set_retryAt 0%Z) h r else (c, h, r).

(** src/cmd/agent/governor_control.go:1526-1549 [restoreOnExit] *)
Definition restoreOnExit (now : Z) (g : governorControl) (h : H) (r : Reports) : governorControl * H * Reports :=
  if negb (gc_restoreOnExit (gc_cfg g)) || negb (gc_loaded g) then (g, h, r)
  else
    let m := modeOf g (mkGovernorEnv false false false ∅) false in
    let d := gc_last g in
    let '(cpu, h, r) := exitComponent m ((fun d c h => restoreCPU (cd_Facts d) (gc_cpuBaseline g) c h) <$> gv_CPU d) now (gc_cpu g) h r in
    let '(gpu, h, r) := exitComponent m ((fun d c h => restoreGPU d (gc_gpuBaseline g) c h) <$> gv_GPU d) now (gc_gpu g) h r in
    (withComponents cpu gpu g, h, r).

(** One tick of the agent's governors: what it was told, found and asked. *)
Record Tick := mkTick {
  tk_read : BaselineRead;
  tk_last : option (option ControlResult * option ControlResult);
  tk_stamp : string;
  tk_found : governorDiscovery;
  tk_vendor : string;
  tk_rawModel : string;
  tk_env : governorEnv;
  tk_intents : option CPUGovernorIntent * option GPUGovernorIntent;
  tk_now : Z
}.

Definition tick (t : Tick) (s : governorControl * H * Reports) : governorControl * H * Reports :=
  let '(g, h, r) := s in
  let '(gov, g) := prepare (tk_read t) (tk_last t) (tk_stamp t) (tk_found t) g in
  reconcile (tk_env t) gov (tk_vendor t) (tk_rawModel t) (tk_intents t) (tk_now t) g h r.
End Reconcile.

(** ** What a restarted agent does to its predecessor's locks *)

Lemma foldl_records r gpus (nv : gmap string nvidiaRecord) bus :
  foldl (fun nv n => <[ng_BusID n := r]> nv) nv gpus !! bus = if decide (bus ∈ ng_BusID <$> gpus) then Some r else nv !! bus.
Proof.
  revert nv. induction gpus as [|n gpus IH]; intros nv; [done|]. cbn [foldl fmap list_fmap]. rewrite IH.
  destruct (decide (bus ∈ ng_BusID <$> gpus)) as [Hin|Hno]; [by rewrite decide_True by by right|].
  destruct (decide (bus = ng_BusID n)) as [->|Hne].
  - rewrite decide_True by left. by rewrite lookup_insert_eq.
  - rewrite decide_False by by intros [?|?]%elem_of_cons. by rewrite lookup_insert_ne.
Qed.

(** The component of a restarted agent, before it knows its GPUs. *)
Lemma prepare_restart env t cpu cr :
  tk_read t <> ReadFailed -> tk_last t = Some (cpu, Some cr) ->
  let g := (prepare (tk_read t) (tk_last t) (tk_stamp t) (tk_found t) (newGovernorControl env)).2 in
  gc_gpu g = seedGPU (Some cr) (seedStatus (Some cr) (newComponent "gpuGovernor")) /\ gc_remote g = false /\ gc_loaded g = true.
Proof.
  intros Hr Hl. unfold prepare, loadBaselines. cbn [gc_loaded newGovernorControl]. rewrite Hl.
  destruct (tk_read t) as [obj| |]; [destruct (storedGovernorBaselines obj)| |]; done.
Qed.

Section Restart.
Context {H : Type} `{!SysfsHost H} `{!Overdrive H} `{!NvidiaSmi H} `{!LockingSmi H}.

(** nvidia-smi takes every command. *)
Definition smiTakesAll : Prop := forall args (w : H), let '(err, out, _) := smi_run args w in
  (ClassifyRun "" err out).1 = GovernorResultApplied.

Lemma runArgs_takesAll bus plan todo dn c (w : H) : smiTakesAll -> (runArgs bus plan todo dn c w).1.1.2 = None.
Proof.
  intros Hall. revert dn c w. induction todo as [|args rest IH]; intros dn c w; cbn [runArgs]; [done|].
  specialize (Hall args w). destruct (smi_run args w) as [[err out] w1].
  pose proof (ClassifyRun_result ("nvidia-smi " +:+ Join args " ") err out) as Hc. rewrite Hall in Hc. clear Hall.
  destruct (ClassifyRun _ err out) as [res msg]. cbn [fst] in Hc. subst res. rewrite String.eqb_refl. cbn [negb].
  specialize (IH (dn ++ [args])%list (recordNvidia bus args plan c) w1).
  by destruct (runArgs bus plan rest _ _ _) as [[[issued failure] c2] w2].
Qed.

Lemma restoreNvidia_takesAll gpus c (w : H) : smiTakesAll ->
  gst_result (out_status (restoreNvidia gpus c w).1.1) = GovernorResultRestored.
Proof.
  intros Hall. unfold restoreNvidia. destruct (resetPlans c gpus) as [plans order].
  enough (forall natives c (w : H), (runNvidiaPlans plans order natives c w).1.1.2.1.1 = "") as Hr.
  { specialize (Hr [] c w). destruct (runNvidiaPlans _ _ _ _ _) as [[[issued [[res msg] inForce]] c1] w1]. cbn in Hr. by subst res. }
  clear c w. induction order as [|bus rest IH]; intros natives c w; cbn [runNvidiaPlans]; [done|].
  pose proof (runArgs_takesAll bus (default noPlan (plans !! bus)) (p_Args (default noPlan (plans !! bus))) [] c w Hall) as Hf.
  destruct (runArgs _ _ _ _ _ _) as [[[issued failure] c1] w1]. cbn in Hf. subst failure.
  specialize (IH (natives ++ [p_Native (default noPlan (plans !! bus))])%list c1 w1).
  by destruct (runNvidiaPlans _ rest _ _ _) as [[[issued' failure] c2] w2].
Qed.

(** Without an intent, a component that changed the GPUs restores them. *)
Lemma reconcileGPU_release ParseFloat FormatG FormatCeiling answer m gov vendor model labels b now c (h : H) r d :
  gv_GPU gov = Some d -> gd_NVIDIA d <> [] -> c_changed (seedNvidia (gd_NVIDIA d) c) = true ->
  c_contended (seedNvidia (gd_NVIDIA d) c) = false -> mayRestore m (seedNvidia (gd_NVIDIA d) c) = true ->
  c_retryAt (seedNvidia (gd_NVIDIA d) c) = 0%Z ->
  let '(out, _, h1) := restoreNvidia (gd_NVIDIA d) (seedNvidia (gd_NVIDIA d) c) h in
  let '(c', h', _) := reconcileGPU ParseFloat FormatG FormatCeiling answer m gov vendor model labels b None now c h r in
  h' = h1 /\ c_status c' = out_status out.
Proof.
  intros Hd Hne Hch Hcon Hmay Hretry. unfold reconcileGPU. rewrite Hd, bool_decide_false by done.
  set (c0 := seedNvidia _ c) in *. unfold release. rewrite Hcon, Hch, Hmay, Hretry. cbn [andb negb Z.eqb fmap option_fmap option_map].
  unfold restoreGPU. rewrite bool_decide_false by done. cbn [negb].
  destruct (restoreNvidia _ c0 h) as [[out c1] h1].
  match goal with |- context [publish answer ?c2 now r] =>
    pose proof (publish_same answer c2 now r) as [b' Hp]; destruct (publish answer c2 now r) as [c4 r4] end.
  cbn [fst] in Hp. destruct Hp as [-> | ->]; split; try done;
    destruct (String.eqb _ GovernorResultRestored); [done|destruct (String.eqb _ _); done|done|destruct (String.eqb _ _); done].
Qed.

(** The record a restarted agent takes from a status tells the truth when the
    status does. *)
Lemma seeded_accounted gpus st c (h : H) :
  c_nvSeed c = Some st -> c_nv c = ∅ ->
  (forall n, n ∈ gpus -> gpuLocks h (ng_BusID n) = (st_GPULockMHz st, st_MemLockMHz st)) ->
  accounted (fun bus => if decide (bus ∈ ng_BusID <$> gpus) then (None, None) else gpuLocks h bus) (seedNvidia gpus c) h.
Proof.
  intros Hs Hnv Hl bus. unfold seedNvidia, recordOf. rewrite Hs. cbn [c_nv set_nv set_nvSeed]. rewrite foldl_records, Hnv.
  destruct (decide (bus ∈ ng_BusID <$> gpus)) as [(n & -> & Hn)%list_elem_of_fmap|Hno].
  - rewrite (Hl n Hn). cbn [default from_option nr_gpu nr_mem id fst snd].
    split; [destruct (st_GPULockMHz st)|destruct (st_MemLockMHz st)]; cbn [told]; auto.
  - rewrite lookup_empty. cbn. auto.
Qed.

(** Without locks on record there is nothing to reset. *)
Lemma resetPlans_none c gpus :
  (forall n, n ∈ gpus -> c_nv c !! ng_BusID n = Some noRecord) -> resetPlans c gpus = (∅, []).
Proof.
  intros Hno. unfold resetPlans. induction gpus as [|n gpus IH] using rev_ind; [done|].
  rewrite foldl_snoc, IH by (intros m Hm; apply Hno, elem_of_app; by left).
  assert (forall plan, PlanNvidia (nvidiaFacts c n) (ng_BusID n) GPUGovernorPresetAuto fzero = Some plan -> p_Args plan = []) as Hp.
  { intros plan. unfold PlanNvidia, chooseNvidia. destruct (negb (checkGPUPreset _ _)); [done|]. destruct (String.eqb _ ""); [done|].
    unfold nvidiaFacts. rewrite Hno by (apply elem_of_app; right; left).
    cbn [nf_Arch nf_LockedGPU nf_LockedMem nr_gpu nr_mem noRecord].
    destruct (nvKnownArch _); [|by intros [= <-]]. cbn [negb]. rewrite String.eqb_refl. cbn [nv_result].
    change (String.eqb GovernorResultApplied GovernorResultUnsupported) with false. cbv iota. intros [= <-]. cbn [p_Args]. done. }
  destruct (PlanNvidia _ _ _ _) as [plan|]; [|done]. by rewrite (Hp plan eq_refl).
Qed.

(** The first GPU reconcile of a restarted agent whose node has no GPU
    intent. *)
Definition restarted ParseFloat FormatG FormatCeiling answer env (t : Tick) (h : H) (r : Reports) : governorComponent * H * Reports :=
  let '(gov, g) := prepare (tk_read t) (tk_last t) (tk_stamp t) (tk_found t) (newGovernorControl env) in
  reconcileGPU ParseFloat FormatG FormatCeiling answer (modeOf g (tk_env t) (ge_gpuHTTP (tk_env t))) gov (tk_vendor t) (tk_rawModel t)
    (ge_nodeLabels (tk_env t)) (gc_gpuBaseline g) None (tk_now t) (gc_gpu g) h r.

(** It restores what its predecessor's status names. *)
Lemma restarted_restores ParseFloat FormatG FormatCeiling answer env t h r cpu cr d :
  tk_read t <> ReadFailed -> tk_last t = Some (cpu, Some cr) -> ge_simulateOnly (tk_env t) = false ->
  gv_GPU (tk_found t) = Some d -> gd_NVIDIA d <> [] ->
  cr_Backend cr = GovernorBackendNvidiaSMI -> governorResultWrote (cr_Result cr) (cr_Applied cr) = true ->
  exists c, c_nvSeed c = Some (ParseNative GovernorBackendNvidiaSMI (cr_Applied cr)) /\ c_nv c = ∅ /\
    let '(out, _, h1) := restoreNvidia (gd_NVIDIA d) (seedNvidia (gd_NVIDIA d) c) h in
    let '(c', h', _) := restarted ParseFloat FormatG FormatCeiling answer env t h r in
    h' = h1 /\ c_status c' = out_status out.
Proof.
  intros Hr Hl Hsim Hd Hne Hb Hw. pose proof (prepare_restart env t cpu cr Hr Hl) as Hp. unfold restarted.
  assert (exists d', gd_NVIDIA d' = gd_NVIDIA d /\
    gv_GPU (prepare (tk_read t) (tk_last t) (tk_stamp t) (tk_found t) (newGovernorControl env)).1 = Some d') as (d' & Ed & Ed').
  { unfold prepare. destruct (loadBaselines _ _ _) as [g0|]; cbn [fst gv_GPU]; rewrite Hd; cbn [fmap option_fmap option_map]; (eexists; split; [|reflexivity]; reflexivity). }
  destruct (prepare _ _ _ _ _) as [gov g]. cbn [fst snd] in *. destruct Hp as (Hc & Hrem & _).
  exists (gc_gpu g). assert (gc_gpu g = (newComponent "gpuGovernor" ▷ set_status (mkStatus (cr_Backend cr) (cr_Result cr) (cr_Message cr) (cr_Applied cr))
    ▷ set_statusWritten true ▷ set_changed true ▷ set_nvSeed (Some (ParseNative GovernorBackendNvidiaSMI (cr_Applied cr))))) as Eg.
  { rewrite Hc. unfold seedGPU, seedStatus. rewrite Hw, Hb, String.eqb_refl. done. }
  split; [by rewrite Eg|]. split; [by rewrite Eg|]. rewrite <- Ed in *.
  apply (reconcileGPU_release _ _ _ _ _ _ _ _ _ _ _ _ _ _ d'); try done; unfold seedNvidia; rewrite Eg; try done.
  unfold mayRestore, modeOf. cbn. by rewrite Hsim, Hrem.
Qed.

(** C10. A restarted agent takes back what its predecessor locked. When the
    status left in the NodeTwin names the NVIDIA plan in force on every GPU,
    and the node has no GPU intent any more, the first reconcile reads the
    locks back out of the status and resets them: once it reports restored,
    no GPU holds one; and it reports so when nvidia-smi takes every
    command. *)
Theorem restart_restores_locks ParseFloat FormatG FormatCeiling answer env t h r f bus preset pct plan cpu cr d :
  Forall clock (nf_SupportedSMMHz f) -> Forall clock (nf_SupportedMemMHz f) ->
  PlanNvidia f bus preset pct = Some plan -> p_Result plan <> GovernorResultUnsupported ->
  tk_read t <> ReadFailed -> tk_last t = Some (cpu, Some cr) -> ge_simulateOnly (tk_env t) = false ->
  cr_Backend cr = GovernorBackendNvidiaSMI -> cr_Applied cr = p_Native plan ->
  governorResultWrote (cr_Result cr) (cr_Applied cr) = true ->
  gv_GPU (tk_found t) = Some d -> gd_NVIDIA d <> [] -> Forall clocksOf (gd_NVIDIA d) -> NoDup (ng_BusID <$> gd_NVIDIA d) ->
  (forall n, n ∈ gd_NVIDIA d -> gpuLocks h (ng_BusID n) = (st_GPULockMHz (p_State plan), st_MemLockMHz (p_State plan))) ->
  let '(c', h', _) := restarted ParseFloat FormatG FormatCeiling answer env t h r in
  (smiTakesAll -> gst_result (c_status c') = GovernorResultRestored) /\
  (gst_result (c_status c') = GovernorResultRestored ->
   forall n, n ∈ gd_NVIDIA d -> nvKnownArch (nf_Arch (ng_Facts n)) = true -> ng_BusID n <> "" ->
     (gpuLocks h' (ng_BusID n)).1 = None /\ (nvMemLockable (ng_Facts n) = true -> (gpuLocks h' (ng_BusID n)).2 = None)).
Proof.
  intros Hsm Hmem HP Hres Hr Hl Hsim Hb Happ Hw Hd Hne Hg Hnd Hlocks.
  destruct (restarted_restores ParseFloat FormatG FormatCeiling answer env t h r cpu cr d Hr Hl Hsim Hd Hne Hb Hw) as (c & Hseed & Hnv & Hst).
  rewrite Happ, (ParseNative_NVIDIA f bus preset pct plan Hsm Hmem HP Hres) in Hseed.
  pose proof (seeded_accounted (gd_NVIDIA d) _ c h Hseed Hnv Hlocks) as Hacc.
  pose proof (restoreNvidia_accounted _ (gd_NVIDIA d) _ h Hg Hnd Hacc) as Ha.
  pose proof (restoreNvidia_clears (gd_NVIDIA d) (seedNvidia (gd_NVIDIA d) c) h Hg Hnd) as Hc.
  pose proof (restoreNvidia_takesAll (gd_NVIDIA d) (seedNvidia (gd_NVIDIA d) c) h) as Hall.
  destruct (restoreNvidia _ _ h) as [[out c1] h1]. destruct (restarted _ _ _ _ _ _ _ _) as [[c' h'] r'].
  destruct Hst as [-> ->]. split; [exact Hall|]. intros Hout n Hn Harch Hbus. destruct (Ha (ng_BusID n)) as [H1 H2].
  rewrite decide_True in H1, H2 by (apply list_elem_of_fmap; eauto). specialize (Hc Hout n). split.
  - pose proof (Hc true Hn ltac:(by left) Harch Hbus) as E. cbn [lockIn] in E. rewrite E in H1. by destruct H1.
  - intros Hm. pose proof (Hc false Hn ltac:(by right) Harch Hbus) as E. cbn [lockIn] in E. rewrite E in H2. by destruct H2.
Qed.

(** But it forgets locks that differ. GPUs of two models, or an apply cut
    short after some of the GPUs, leave a status whose applied field is the
    word mixed, which names no lock: the restarted agent issues no command,
    every lock stays, and it reports that the agent's locks were reset. *)
Theorem restart_forgets_mixed ParseFloat FormatG FormatCeiling answer env t h r cpu cr d :
  tk_read t <> ReadFailed -> tk_last t = Some (cpu, Some cr) -> ge_simulateOnly (tk_env t) = false ->
  cr_Backend cr = GovernorBackendNvidiaSMI -> cr_Applied cr = GovernorCurrentMixed ->
  governorResultWrote (cr_Result cr) (cr_Applied cr) = true ->
  gv_GPU (tk_found t) = Some d -> gd_NVIDIA d <> [] ->
  let '(c', h', _) := restarted ParseFloat FormatG FormatCeiling answer env t h r in
  h' = h /\ gst_result (c_status c') = GovernorResultRestored.
Proof.
  intros Hr Hl Hsim Hb Happ Hw Hd Hne.
  destruct (restarted_restores ParseFloat FormatG FormatCeiling answer env t h r cpu cr d Hr Hl Hsim Hd Hne Hb Hw) as (c & Hseed & Hnv & Hst).
  rewrite Happ in Hseed. change (ParseNative GovernorBackendNvidiaSMI GovernorCurrentMixed) with noState in Hseed.
  assert (resetPlans (seedNvidia (gd_NVIDIA d) c) (gd_NVIDIA d) = (∅, [])) as E.
  { apply resetPlans_none. intros n Hn. unfold seedNvidia. rewrite Hseed. cbn [c_nv set_nv set_nvSeed]. rewrite foldl_records.
    rewrite decide_True by (apply list_elem_of_fmap; eauto). done. }
  unfold restoreNvidia in Hst. rewrite E in Hst. cbn [runNvidiaPlans] in Hst.
  destruct (restarted _ _ _ _ _ _ _ _) as [[c' h'] r']. by destruct Hst as [-> ->].
Qed.
End Restart.

(** ** Where a baseline comes from *)

Section Baselines.
Context {H : Type} `{!SysfsHost H} `{!Overdrive H} `{!NvidiaSmi H}.
Context (ParseFloat : string -> option float64) (FormatG FormatCeiling : float64 -> string) (answer : nat -> PatchAnswer).

(** The ticks of one run of the agent, latest first, each with the control it
    found once the stored baselines were read; the node and the reports may
    change between two ticks. *)
Inductive governorRuns : list (Tick * governorControl) -> governorControl -> Prop :=
| runs_new env : governorRuns [] (newGovernorControl env)
| runs_waiting past t g (h : H) r : governorRuns past g -> loadBaselines (tk_read t) (tk_last t) g = None ->
    governorRuns past (tick ParseFloat FormatG FormatCeiling answer t (g, h, r)).1.1
| runs_tick past t g g1 (h : H) r : governorRuns past g -> loadBaselines (tk_read t) (tk_last t) g = Some g1 ->
    governorRuns ((t, g1) :: past) (tick ParseFloat FormatG FormatCeiling answer t (g, h, r)).1.1.

(** What a tick's discovery makes a baseline of, without and with a change of
    the agent's on the node. *)
Definition cpuTaken (changed : bool) (t : Tick) : option CPUGovernorBaseline :=
  (fun d => mkCPUBaseline (cb_Groups (baseline (cd_Policies d))) (tk_stamp t)) <$> gv_CPU (tk_found t).

Definition gpuTaken (changed : bool) (t : Tick) : option GPUGovernorBaseline :=
  (fun d => mkGPUBaseline (if changed then vendorDefault <$> gd_Devices d else gd_Devices d) (tk_stamp t)) <$> gv_GPU (tk_found t).

(** What NodeHardware held of a component when the run began. *)
Definition storedBy {B} (stored : StoredGovernors -> option B) (past : list (Tick * governorControl)) : option B :=
  match last past with Some (t, _) => match tk_read t with ReadStored obj => stored obj | _ => None end | None => None end.

Inductive baselineFrom {B} (stored : StoredGovernors -> option B) (changed : governorControl -> bool)
  (taken : bool -> Tick -> option B) (past : list (Tick * governorControl)) (b : B) : Prop :=
| from_store : storedBy stored past = Some b -> baselineFrom stored changed taken past b
| from_untouched t g : (t, g) ∈ past -> changed g = false -> taken false t = Some b -> baselineFrom stored changed taken past b
| from_lost t g : (t, g) ∈ past -> changed g = true -> taken true t = Some b -> storedBy stored past = None ->
    baselineFrom stored changed taken past b.

(** What a run says of a component's baseline. *)
Definition traced {B} (stored : StoredGovernors -> option B) (changed : governorControl -> bool) (taken : bool -> Tick -> option B)
    (past : list (Tick * governorControl)) (base : option B) : Prop :=
  (forall b, base = Some b -> baselineFrom stored changed taken past b) /\ (base = None -> storedBy stored past = None).

Lemma storedBy_cons {B} (stored : StoredGovernors -> option B) e past : past <> [] -> storedBy stored (e :: past) = storedBy stored past.
Proof. by destruct past. Qed.

(** A later tick keeps what a baseline was traced to, and may take one when
    there is none or the node is as the agent found it. *)
Lemma traced_tick {B} (stored : StoredGovernors -> option B) changed taken past t g base base' :
  past <> [] -> traced stored changed taken past base ->
  base' = base \/ ((base = None \/ changed g = false) /\ base' = taken (changed g) t /\ is_Some base') ->
  traced stored changed taken ((t, g) :: past) base'.
Proof.
  intros Hne [Hf Hn] Hb. unfold traced. rewrite storedBy_cons by done. destruct Hb as [->|(Hwhy & Hb & [b' E])].
  - split; [|done]. intros b Eb. destruct (Hf b Eb) as [Hs|t' g' Hin Hc Ht|t' g' Hin Hc Ht Hs].
    + apply from_store. by rewrite storedBy_cons.
    + eapply from_untouched; [right; exact Hin|done|done].
    + eapply from_lost; [right; exact Hin|done|done|by rewrite storedBy_cons].
  - split; [|congruence]. intros b Eb. rewrite Hb in Eb. destruct (changed g) eqn:Hc.
    + destruct Hwhy as [Hbase|]; [|done]. eapply from_lost; [left|done|done|]. rewrite storedBy_cons by done. by apply Hn.
    + eapply from_untouched; [left|done|done].
Qed.

(** The first tick starts from what was stored. *)
Lemma traced_first {B} (stored : StoredGovernors -> option B) changed taken t g base base' :
  base = match tk_read t with ReadStored obj => stored obj | _ => None end ->
  base' = base \/ ((base = None \/ changed g = false) /\ base' = taken (changed g) t /\ is_Some base') ->
  traced stored changed taken [(t, g)] base'.
Proof.
  intros Hbase Hb. assert (storedBy stored [(t, g)] = base) as Hs by (by rewrite Hbase). unfold traced. rewrite Hs.
  destruct Hb as [->|(Hwhy & Hb & [b' E])].
  - split; [|done]. intros b Eb. apply from_store. by rewrite Hs.
  - split; [|congruence]. intros b Eb. rewrite Hb in Eb. destruct (changed g) eqn:Hc.
    + destruct Hwhy as [Hn|]; [|done]. eapply from_lost; [left|done|done|]. by rewrite Hs.
    + eapply from_untouched; [left|done|done].
Qed.

Lemma followCPU_cases t c base :
  let base' := followCPU (tk_stamp t) (gv_CPU (tk_found t)) c base in
  base' = base \/ ((base = None \/ c_changed c = false) /\ base' = cpuTaken (c_changed c) t /\ is_Some base').
Proof.
  unfold followCPU, cpuTaken. destruct (gv_CPU (tk_found t)) as [d|]; [|by left]. cbn [fmap option_fmap option_map].
  destruct base as [old|]; [|right; split; [by left|by split]]. rewrite bool_decide_false by done. cbn [orb].
  destruct (c_changed c); [by left|]. cbn [negb]. destruct (bool_decide _); [by left|right; split; [by right|by split]].
Qed.

Lemma followGPU_cases t c base :
  let base' := followGPU (tk_stamp t) (gv_GPU (tk_found t)) c base in
  base' = base \/ ((base = None \/ c_changed c = false) /\ base' = gpuTaken (c_changed c) t /\ is_Some base').
Proof.
  unfold followGPU, gpuTaken. destruct (gv_GPU (tk_found t)) as [d|]; [|by left]. cbn [fmap option_fmap option_map].
  destruct base as [old|]; [|right; split; [by left|by split]].
  destruct (c_changed c); [by left|]. destruct (bool_decide _); [by left|right; split; [by right|by split]].
Qed.

Lemma reconcile_baselines env gov vendor model intents now g (h : H) r :
  let g' := (reconcile ParseFloat FormatG FormatCeiling answer env gov vendor model intents now g h r).1.1 in
  gc_cpuBaseline g' = gc_cpuBaseline g /\ gc_gpuBaseline g' = gc_gpuBaseline g /\ gc_loaded g' = gc_loaded g.
Proof.
  unfold reconcile. destruct (gc_loaded g) eqn:El; [|cbn; by rewrite El]. cbn [negb].
  destruct (reconcileCPU _ _ _ _ _ _ _ _ _) as [[cpu h1] r1]. by destruct (reconcileGPU _ _ _ _ _ _ _ _ _ _ _ _ _ _ _) as [[gpu h2] r2].
Qed.

Lemma tick_waiting t g (h : H) r : loadBaselines (tk_read t) (tk_last t) g = None ->
  (tick ParseFloat FormatG FormatCeiling answer t (g, h, r)).1.1 = g /\ gc_loaded g = false.
Proof.
  intros E. assert (gc_loaded g = false) as Hl.
  { unfold loadBaselines in E. destruct (gc_loaded g); [done|done]. }
  split; [|done]. unfold tick, prepare. rewrite E. unfold reconcile. by rewrite Hl.
Qed.

Lemma tick_baselines t g g1 (h : H) r : loadBaselines (tk_read t) (tk_last t) g = Some g1 ->
  let g' := (tick ParseFloat FormatG FormatCeiling answer t (g, h, r)).1.1 in
  gc_cpuBaseline g' = followCPU (tk_stamp t) (gv_CPU (tk_found t)) (gc_cpu g1) (gc_cpuBaseline g1) /\
  gc_gpuBaseline g' = followGPU (tk_stamp t) (gv_GPU (tk_found t)) (gc_gpu g1) (gc_gpuBaseline g1) /\ gc_loaded g' = gc_loaded g1.
Proof.
  intros E. unfold tick, prepare. rewrite E. cbv zeta.
  match goal with |- context [reconcile _ _ _ _ ?e ?gov ?v ?m ?i ?n ?g2 h r] =>
    pose proof (reconcile_baselines e gov v m i n g2 h r) as (-> & -> & ->) end. done.
Qed.

Lemma loadBaselines_spec read last g g1 : loadBaselines read last g = Some g1 ->
  gc_loaded g1 = true /\
  (gc_loaded g = true -> g1 = g) /\
  (gc_loaded g = false -> gc_cpuBaseline g = None -> gc_gpuBaseline g = None ->
   gc_cpuBaseline g1 = match read with ReadStored obj => (storedGovernorBaselines obj).1 | _ => None end /\
   gc_gpuBaseline g1 = match read with ReadStored obj => (storedGovernorBaselines obj).2 | _ => None end).
Proof.
  unfold loadBaselines. destruct (gc_loaded g) eqn:El; [by intros [= <-]|].
  destruct read as [obj| |]; [destruct (storedGovernorBaselines obj) as [cpu gpu]| |done]; intros [= <-];
    destruct last as [[lc lg]|]; (split; [done|]); (split; [done|]); intros _ Ec Eg; split; try done.
Qed.

(** ** What ends a change *)

Lemma restoreCPU_changed f b c (h : H) : let '(_, c', _) := restoreCPU f b c h in c_changed c' = c_changed c.
Proof.
  unfold restoreCPU. destruct b as [b|]; [|done]. destruct (PlanCPUGroups _ _) as [[gov epp] x].
  destruct (runPhases _ h) as [[total [result msg]] h']. by destruct (negb _).
Qed.

Lemma restoreGPU_changed d b c (h : H) : let '(_, c', _) := restoreGPU d b c h in c_changed c' = c_changed c.
Proof.
  unfold restoreGPU. destruct (negb _).
  - unfold restoreNvidia. destruct (resetPlans c _) as [plans order]. pose proof (runNvidiaPlans_control plans order [] c h) as Hc.
    destruct (runNvidiaPlans plans order [] c h) as [[[issued [[res msg] inForce]] c1] h1].
    destruct Hc as (_ & _ & _ & _ & _ & _ & _ & _ & Hc). by destruct (negb _).
  - unfold restoreAMD. destruct b as [b|]; [|done]. destruct (writeAMDSteps _ h) as [[[[? ?] ?] [res msg]] h1]. destruct (negb _); [done|].
    destruct (writeAMDSteps _ h1) as [[[[? ?] ?] [res' msg']] h2]. by destruct (negb _).
Qed.

Lemma hold_changed preset st now c r : c_changed c = true -> c_changed (hold answer preset st now c r).1 = true.
Proof.
  intros Hc. unfold hold. match goal with |- context [publish answer ?x now r] => destruct (publish_same answer x now r) as [b Hp] end.
  by destruct Hp as [-> | ->].
Qed.

Lemma reconcileCPU_changeEnds m d b intent now c (h : H) r : changeEnds c (reconcileCPU answer m d b intent now c h r).1.1.
Proof.
  assert (changeEnds c (release answer m ((fun f => restoreCPU f b) <$> d) now c h r).1.1) as Hrel.
  { apply release_changed. intros f Hf. destruct d as [d|]; [|done]. injection Hf as <-. apply restoreCPU_changed. }
  unfold reconcileCPU. destruct intent as [i|]; [|done]. destruct (restoreWritesOff m c); [done|].
  destruct (blocked _ _ _) as [st|].
  - intros Hc. left. pose proof (hold_changed (cgi_Preset i) st now c r Hc) as Hh. by destruct (hold _ _ _ _ _ _).
  - destruct d as [f|]; intros Hc; left; [|done]. by apply (step_changed _ _ _ (cpuOps f b i)).
Qed.

Lemma seedNvidia_control gpus c : sameControl c (seedNvidia gpus c) /\ c_status (seedNvidia gpus c) = c_status c.
Proof. unfold seedNvidia. by destruct (c_nvSeed c). Qed.

Lemma reconcileGPU_changeEnds m gov vendor model labels b intent now c (h : H) r :
  changeEnds c (reconcileGPU ParseFloat FormatG FormatCeiling answer m gov vendor model labels b intent now c h r).1.1.
Proof.
  unfold reconcileGPU. set (c0 := match gv_GPU gov with Some d => _ | None => c end).
  assert (c_changed c0 = c_changed c /\ c_contended c0 = c_contended c) as [E1 E2].
  { unfold c0. destruct (gv_GPU gov) as [d|]; [|done]. destruct (bool_decide _); [done|].
    by destruct (seedNvidia_control (gd_NVIDIA d) c) as [(_ & _ & _ & _ & E & _ & _ & _ & E') _]. }
  enough (changeEnds c0 (let released := release answer m ((fun d c h => restoreGPU d b c h) <$> gv_GPU gov) now c0 h r in
    match intent with
    | None => released
    | Some intent =>
        if restoreWritesOff m c0 then released
        else
          let '(missing, missingResult) := missingGPU gov vendor model labels in
          match blocked m missing missingResult, gv_GPU gov with
          | Some st, _ => let '(c, r) := hold answer (ggi_Preset intent) st now c0 r in (c, h, r)
          | None, None => (c0, h, r)
          | None, Some d =>
              let ceiling := default DefaultCeilingPctOfMax (ggi_ComputeClockCeilingPctOfMax intent) in
              let key := ggi_Preset intent +:+ "|" +:+ FormatCeiling ceiling in
              if negb (bool_decide (gd_NVIDIA d = []))
              then step answer key (ggi_Preset intent) (nvidiaOps ParseFloat FormatG (gd_NVIDIA d) (ggi_Preset intent) ceiling) now c0 h r
              else step answer key (ggi_Preset intent) (amdOps FormatG (gd_AMD d) (ggi_Preset intent) ceiling) now c0 h r
          end
    end).1.1) as He by (unfold changeEnds in *; rewrite E1, E2 in He; exact He).
  clearbody c0. clear E1 E2 c. cbv zeta.
  assert (changeEnds c0 (release answer m ((fun d c h => restoreGPU d b c h) <$> gv_GPU gov) now c0 h r).1.1) as Hrel.
  { apply release_changed. intros f Hf. destruct (gv_GPU gov) as [d|]; [|done]. injection Hf as <-. apply restoreGPU_changed. }
  destruct intent as [i|]; [|done]. destruct (restoreWritesOff m c0); [done|]. destruct (missingGPU gov vendor model labels) as [missing result].
  destruct (blocked _ _ _) as [st|].
  - intros Hc. left. pose proof (hold_changed (ggi_Preset i) st now c0 r Hc) as Hh. by destruct (hold _ _ _ _ _ _).
  - destruct (gv_GPU gov) as [d|]; intros Hc; left; [|done].
    destruct (negb _); [by apply (step_changed _ _ _ (nvidiaOps ParseFloat FormatG _ _ _))|by apply (step_changed _ _ _ (amdOps FormatG _ _ _))].
Qed.

(** Over a tick of an agent that has loaded its baselines. *)
Lemma tick_changeEnds t g (h : H) r : gc_loaded g = true ->
  let g' := (tick ParseFloat FormatG FormatCeiling answer t (g, h, r)).1.1 in
  changeEnds (gc_cpu g) (gc_cpu g') /\ changeEnds (gc_gpu g) (gc_gpu g').
Proof.
  intros Hl. unfold tick, prepare, loadBaselines. rewrite Hl. unfold reconcile. cbn [gc_loaded gc_cpu gc_gpu gc_cpuBaseline gc_gpuBaseline]. rewrite Hl. cbn [negb].
  match goal with |- context [reconcileCPU answer ?m ?d ?b ?i ?n ?c h r] =>
    pose proof (reconcileCPU_changeEnds m d b i n c h r) as H1; destruct (reconcileCPU answer m d b i n c h r) as [[cpu h1] r1] end.
  match goal with |- context [reconcileGPU _ _ _ answer ?m ?gov ?v ?mo ?l ?b ?i ?n ?c h1 r1] =>
    pose proof (reconcileGPU_changeEnds m gov v mo l b i n c h1 r1) as H2;
    destruct (reconcileGPU _ _ _ answer m gov v mo l b i n c h1 r1) as [[gpu h2] r2] end.
  cbn in *. by split.
Qed.

(** C9. The agent takes a baseline only while it records no change of its own
    on the node. Over every run of the agent, whatever ticks, discoveries,
    statuses and writes: the state a restore puts back was read from
    NodeHardware when the run began, or is what a tick found on the node
    while the agent recorded no change of the component; only when
    NodeHardware had none although an earlier run changed the node is it
    taken from what is there, and then a GPU's level is the vendor's default.
    While a change is recorded, a baseline does not move, and the record of a
    change ends only with a restore that succeeded, or for a setting another
    writer held ([c_contended]), which the agent gives up without a
    restore. *)
Theorem baselines_predate_writes past g :
  governorRuns past g ->
  traced (fun obj => (storedGovernorBaselines obj).1) (fun g => c_changed (gc_cpu g)) cpuTaken past (gc_cpuBaseline g) /\
  traced (fun obj => (storedGovernorBaselines obj).2) (fun g => c_changed (gc_gpu g)) gpuTaken past (gc_gpuBaseline g) /\
  forall t (h : H) r, gc_loaded g = true ->
    let g' := (tick ParseFloat FormatG FormatCeiling answer t (g, h, r)).1.1 in
    (c_changed (gc_cpu g) = true -> is_Some (gc_cpuBaseline g) -> gc_cpuBaseline g' = gc_cpuBaseline g) /\
    (c_changed (gc_gpu g) = true -> is_Some (gc_gpuBaseline g) -> gc_gpuBaseline g' = gc_gpuBaseline g) /\
    changeEnds (gc_cpu g) (gc_cpu g') /\ changeEnds (gc_gpu g) (gc_gpu g').
Proof.
  intros Hruns.
  enough (traced (fun obj => (storedGovernorBaselines obj).1) (fun g => c_changed (gc_cpu g)) cpuTaken past (gc_cpuBaseline g) /\
    traced (fun obj => (storedGovernorBaselines obj).2) (fun g => c_changed (gc_gpu g)) gpuTaken past (gc_gpuBaseline g) /\
    (past = [] <-> gc_loaded g = false) /\ (past = [] -> gc_cpuBaseline g = None /\ gc_gpuBaseline g = None)) as (Hc & Hg & _).
  { split; [done|]. split; [done|]. intros t h r Hl. cbv zeta.
    assert (loadBaselines (tk_read t) (tk_last t) g = Some g) as E by (unfold loadBaselines; by rewrite Hl).
    destruct (tick_baselines t g g h r E) as (-> & -> & _). split; [|split]; [intros Hch [b Eb]; rewrite Eb..|by apply tick_changeEnds].
    - unfold followCPU. destruct (gv_CPU _); [|done]. rewrite bool_decide_false by done. by rewrite Hch.
    - unfold followGPU. destruct (gv_GPU _); [|done]. by rewrite Hch. }
  induction Hruns as [env|past t g h r _ IH E|past t g g1 h r _ IH E].
  - split_and!; [by split|by split|done|done].
  - by destruct (tick_waiting t g h r E) as [-> _].
  - destruct (tick_baselines t g g1 h r E) as (Ec & Eg & El). rewrite Ec, Eg, El. destruct IH as (IHc & IHg & IHl & IHn).
    destruct (loadBaselines_spec _ _ _ _ E) as (Hl1 & Hsame & Hfirst). rewrite Hl1.
    destruct past as [|e past].
    + destruct (IHn eq_refl) as [Nc Ng]. destruct (Hfirst (proj1 IHl eq_refl) Nc Ng) as [Fc Fg].
      split; [|split; [|split; [by split|done]]].
      * eapply traced_first; [exact Fc|apply (followCPU_cases t (gc_cpu g1))].
      * eapply traced_first; [exact Fg|apply (followGPU_cases t (gc_gpu g1))].
    + assert (gc_loaded g = true) as Hl by (destruct (gc_loaded g); [done|by pose proof (proj2 IHl eq_refl)]).
      rewrite (Hsame Hl). split; [|split; [|split; [by split|done]]].
      * eapply traced_tick; [done|exact IHc|apply (followCPU_cases t (gc_cpu g))].
      * eapply traced_tick; [done|exact IHg|apply (followGPU_cases t (gc_gpu g))].
Qed.
End Baselines.

(** ** Two ticks on one A100 *)

#[export] Instance toolHost : SysfsHost Tool := {| attr_write _ _ h := (None, h); attr_read _ _ := "" |}.
#[export] Instance toolOverdrive : Overdrive Tool := {| od_poll h := h; od_polls := 1 |}.

Definition sampleNvidia (level : string) : gpuGovernorDiscovery := {|
  gd_AMD := []; gd_NVIDIA := [sampleGPU]; gd_Devices := [mkDeviceState "00000000:18:00.0" level];
  gd_Inventory := {| gi_Mechanism := GovernorBackendNvidiaSMI; gi_Current := ""; gi_Presets := []; gi_ClockRangesMHz := None;
    gi_Baseline := None; gi_Writable := true; gi_Uniform := true |}
|}.

Definition sampleTick (last : option ControlResult) (level : string) (preset : option GPUGovernorIntent) (now : Z) : Tick := {|
  tk_read := ReadNone; tk_last := Some (None, last); tk_stamp := Itoa now;
  tk_found := {| gv_CPU := None; gv_GPU := Some (sampleNvidia level); gv_GPUWarnings := []; gv_GPUKept := None;
    gv_CPUBaseline := None; gv_GPUBaseline := None |};
  tk_vendor := "nvidia"; tk_rawModel := "NVIDIA A100-SXM4-40GB"; tk_env := mkGovernorEnv false false false ∅;
  tk_intents := (None, preset); tk_now := now
|}.

Definition sampleParse (s : string) : option float64 := None.
Definition sampleFormat (x : float64) : string := "80".
Definition writesOn : Env.Environ := {["GOVERNOR_WRITES" := "true"]}.
Definition sampleStart : governorControl := newGovernorControl writesOn.
Definition efficient : GPUGovernorIntent := {| ggi_Preset := GPUGovernorPresetEfficient; ggi_ComputeClockCeilingPctOfMax := None |}.
Definition noLocks : Tool := mkTool ∅ [].
Definition tickOne : Tick := sampleTick None GovernorStateUnlocked (Some efficient) 1.
Definition tickTwo : Tick := sampleTick None GovernorStateUnknown (Some efficient) 2.

Definition tickTool := tick sampleParse sampleFormat sampleFormat (fun _ => Patched).
Definition afterOne : governorControl * Tool * Reports := tickTool tickOne (sampleStart, noLocks, noReports).
Definition afterTwo : governorControl * Tool * Reports := tickTool tickTwo afterOne.

(** The first tick locks the clocks; the second finds other levels and keeps
    the baseline. *)
Example baselines_predate_writes_witness :
  c_changed (gc_gpu afterOne.1.1) = true /\
  gc_gpuBaseline afterTwo.1.1 = Some (mkGPUBaseline [mkDeviceState "00000000:18:00.0" GovernorStateUnlocked] "1").
Proof.
  assert (governorRuns sampleParse sampleFormat sampleFormat (fun _ => Patched)
    [(tickOne, default sampleStart (loadBaselines ReadNone (Some (None, None)) sampleStart))] afterOne.1.1) as Hr.
  { unfold afterOne, tickTool. apply runs_tick; [apply runs_new|]. reflexivity. }
  destruct (baselines_predate_writes sampleParse sampleFormat sampleFormat (fun _ => Patched) _ _ Hr) as (_ & _ & Hk).
  assert (c_changed (gc_gpu afterOne.1.1) = true) as Hch by (vm_compute; reflexivity). split; [exact Hch|].
  assert (gc_gpuBaseline afterOne.1.1 = Some (mkGPUBaseline [mkDeviceState "00000000:18:00.0" GovernorStateUnlocked] "1")) as E
    by (vm_compute; reflexivity).
  destruct (Hk tickTwo afterOne.1.2 afterOne.2 ltac:(vm_compute; reflexivity)) as (_ & Hg & _).
  rewrite <- E. rewrite <- Hg; [|exact Hch|rewrite E; eauto].
  unfold afterTwo, tickTool. destruct afterOne as [[g h] r]. reflexivity.
Defined.

(** The locks of a predecessor that applied the efficient preset. *)
Definition lockedTool : Tool := mkTool {["00000000:18:00.0" := (Some (210, 1080)%Z, None)]} [].
Definition leftApplied (applied : string) : ControlResult :=
  {| cr_Backend := GovernorBackendNvidiaSMI; cr_Result := GovernorResultApplied; cr_Message := ""; cr_Applied := applied |}.
Definition restartTick (applied : string) : Tick := sampleTick (Some (leftApplied applied)) GovernorStateUnknown None 1.

Definition efficientPlan : Plan :=
  Eval vm_compute in default noPlan (PlanNvidia sampleA100 "00000000:18:00.0" GPUGovernorPresetEfficient (fofZ 77)).

Lemma sampleClocks gpus : gpus = [sampleGPU] -> Forall clocksOf gpus.
Proof.
  intros ->. constructor; [|constructor]. split; [unfold isBus; by_decide|].
  split; apply Forall_forall; intros n Hn; apply list_elem_of_In in Hn; cbn in Hn; unfold clock; lia.
Qed.

Example restart_restores_locks_witness :
  let '(c', h', _) := restarted sampleParse sampleFormat sampleFormat (fun _ => Patched) writesOn (restartTick "-lgc 210,1080")
    lockedTool noReports in
  gst_result (c_status c') = GovernorResultRestored /\ (gpuLocks h' "00000000:18:00.0").1 = None.
Proof.
  assert (PlanNvidia sampleA100 "00000000:18:00.0" GPUGovernorPresetEfficient (fofZ 77) = Some efficientPlan) as HP by (vm_compute; reflexivity).
  assert (let '(c', _, _) := restarted sampleParse sampleFormat sampleFormat (fun _ => Patched) writesOn (restartTick "-lgc 210,1080")
    lockedTool noReports in gst_result (c_status c') = GovernorResultRestored) as Hres by (vm_compute; reflexivity).
  assert (clocksOf sampleGPU) as (_ & Hsm & Hmem) by exact (Forall_inv (sampleClocks [sampleGPU] eq_refl)).
  assert (forall n, n ∈ gd_NVIDIA (sampleNvidia GovernorStateUnknown) ->
    gpuLocks lockedTool (ng_BusID n) = (st_GPULockMHz (p_State efficientPlan), st_MemLockMHz (p_State efficientPlan))) as Hl
    by (intros n ->%list_elem_of_singleton; reflexivity).
  pose proof (restart_restores_locks sampleParse sampleFormat sampleFormat (fun _ => Patched) writesOn (restartTick "-lgc 210,1080")
    lockedTool noReports sampleA100 "00000000:18:00.0" GPUGovernorPresetEfficient (fofZ 77) efficientPlan None (leftApplied "-lgc 210,1080")
    (sampleNvidia GovernorStateUnknown) Hsm Hmem HP ltac:(discriminate) ltac:(discriminate) eq_refl eq_refl eq_refl eq_refl eq_refl eq_refl
    ltac:(discriminate) (sampleClocks _ eq_refl) (NoDup_singleton _) Hl) as Ht.
  destruct (restarted _ _ _ _ _ _ _ _) as [[c' h'] r']. split; [exact Hres|].
  by destruct (proj2 Ht Hres sampleGPU ltac:(left) eq_refl ltac:(discriminate)).
Defined.

Example restart_forgets_mixed_witness :
  let '(c', h', _) := restarted sampleParse sampleFormat sampleFormat (fun _ => Patched) writesOn (restartTick GovernorCurrentMixed)
    lockedTool noReports in
  gst_result (c_status c') = GovernorResultRestored /\ gpuLocks h' "00000000:18:00.0" = (Some (210, 1080)%Z, None).
Proof.
  pose proof (restart_forgets_mixed sampleParse sampleFormat sampleFormat (fun _ => Patched) writesOn (restartTick GovernorCurrentMixed)
    lockedTool noReports None (leftApplied GovernorCurrentMixed) (sampleNvidia GovernorStateUnknown)
    ltac:(discriminate) eq_refl eq_refl eq_refl eq_refl eq_refl eq_refl ltac:(discriminate)) as Ht.
  destruct (restarted _ _ _ _ _ _ _ _) as [[c' h'] r']. destruct Ht as [-> Hr]. split; [exact Hr|reflexivity].
Defined.

(** The exit does not ask for simulate-only mode: a tick that only simulates
    keeps the locks an earlier run left, and the exit resets them. *)
Definition simulateTick : Tick :=
  let t := restartTick "-lgc 210,1080" in
  mkTick (tk_read t) (tk_last t) (tk_stamp t) (tk_found t) (tk_vendor t) (tk_rawModel t) (mkGovernorEnv true false false ∅) (tk_intents t) (tk_now t).

Example exit_writes_after_simulating :
  let '(g, h, r) := tickTool simulateTick (sampleStart, lockedTool, noReports) in
  gpuLocks h "00000000:18:00.0" = (Some (210, 1080)%Z, None) /\
  gpuLocks (restoreOnExit (fun _ => Patched) 2 g h r).1.2 "00000000:18:00.0" = (None, None).
Proof. vm_compute. split; reflexivity. Qed.
