(* ===== verification/GovernorLimits.v ===== *)
(** * Governors and power limits

    The governor half of a reconcile and the power limits of the node are
    kept apart: what puts governors back writes the attributes of the CPU
    policies, of boost and of the amdgpu levels, and runs nvidia-smi to reset
    clocks. An observation of a node's power limits that none of these moves
    ([PowerLimits]) is the same after any release. *)

From S2P Require Import Prelude GoString GoFloat GoSlices Api Governor CpuGovernor GpuGovernor Host NvidiaDiscovery CpuDiscovery GovernorLoop CpuControl.
From S2P Require Import NvidiaControl AmdControl GpuInventory GovernorControl.

#[local] Open Scope string_scope.

(** An attribute of a governor or of boost. *)
Definition governorFileNames : list string :=
  [PolicyGovernorFile; PolicyEPPFile; PolicyBoostFile; "no_turbo"; AMDLevelFile; AMDODFile].

Definition governorPath (path : string) : Prop := exists dir file, path = dir +:+ "/" +:+ file /\ file ∈ governorFileNames.

(** The power limits of a node, as nothing but a power-limit file or command
    moves them. *)
Class PowerLimits (H : Type) `{!SysfsHost H} `{!Overdrive H} `{!NvidiaSmi H} := {
  limits : Type;
  limitsOf : H -> limits;
  limits_attr path value h : governorPath path -> limitsOf (attr_write path value h).2 = limitsOf h;
  limits_poll h : limitsOf (od_poll h) = limitsOf h;
  limits_clocks bus command h : "-pl" ∉ command -> limitsOf (smi_run ("-i" :: bus :: command) h).2 = limitsOf h
}.

(** ** The paths a baseline is put back through *)

Definition governed (ws : list Write) : Prop := Forall (fun w => governorPath (w_RelPath w)) ws.

Lemma policy_governed i file : file ∈ governorFileNames -> governorPath (PolicyRelPath i file).
Proof. intros Hf. exists (CPUFreqRelDir +:+ "/policy" +:+ Itoa i), file. split; [|done]. unfold PolicyRelPath. by rewrite !app_assoc_string. Qed.

Lemma device_governed bus file : file ∈ governorFileNames -> governorPath (AMDDeviceRelPath bus file).
Proof.
  intros Hf. exists (PCIDevicesRelDir +:+ "/" +:+ ToLower bus), file. split; [|done]. unfold AMDDeviceRelPath. by rewrite !app_assoc_string.
Qed.

Lemma boost_governed : governorPath GlobalBoostRelPath /\ governorPath NoTurboRelPath.
Proof.
  split; [exists CPUFreqRelDir, PolicyBoostFile|exists IntelPstateRelDir, "no_turbo"]; (split; [reflexivity|]);
    apply (bool_decide_unpack _); vm_compute; exact I.
Qed.

Lemma governed_concat {A} (f : A -> list Write) (l : list A) : (forall x, governed (f x)) -> governed (concat (f <$> l)).
Proof. intros Hf. induction l as [|x l IH]; [by constructor|]. cbn. apply Forall_app. split; [apply Hf|exact IH]. Qed.

Lemma groupWrites_governed file word g : file ∈ governorFileNames -> governed (groupWrites file word g).
Proof.
  intros Hf. unfold governed, groupWrites. destruct (String.eqb _ _); [by constructor|]. apply Forall_fmap, Forall_forall. intros n _.
  by apply policy_governed.
Qed.

Lemma CPUBoostWrites_governed f ns boost : governed (default [] (CPUBoostWrites f ns boost)).
Proof.
  assert (governed []) as Hnil by by constructor. unfold CPUBoostWrites.
  destruct (String.eqb _ _); [constructor; [apply boost_governed|done]|].
  destruct (String.eqb _ _); [constructor; [apply boost_governed|done]|]. destruct (String.eqb _ _); [|done].
  assert (forall l, governed ((fun n => mkWrite (PolicyRelPath n PolicyBoostFile) (boostBit boost false)) <$> l)) as Hl.
  { intros l. apply Forall_fmap, Forall_forall. intros n _. apply policy_governed. apply (bool_decide_unpack _). vm_compute. exact I. }
  destruct ns as [|n ns]; [done|apply (Hl (n :: ns))].
Qed.

Lemma PlanCPUGroups_governed f groups : let '(gov, epp, boost) := PlanCPUGroups f groups in governed gov /\ governed epp /\ governed boost.
Proof.
  unfold PlanCPUGroups. split; [|split].
  - apply governed_concat. intros g. apply groupWrites_governed. apply (bool_decide_unpack _). vm_compute. exact I.
  - apply governed_concat. intros g. apply groupWrites_governed. apply (bool_decide_unpack _). vm_compute. exact I.
  - destruct (String.eqb _ _); [apply governed_concat; intros g; apply CPUBoostWrites_governed|].
    destruct (filter _ groups) as [|g l]; [by constructor|apply CPUBoostWrites_governed].
Qed.

Section Limits.
Context {H : Type} `{!SysfsHost H} `{!Overdrive H} `{!NvidiaSmi H} {PL : PowerLimits H}.

Lemma writeVerified_limits ws (h : H) : governed ws -> limitsOf (writeVerified ws h).2 = limitsOf h.
Proof.
  intros Hws. revert h. induction Hws as [|w ws Hw _ IH]; intros h; cbn [writeVerified]; [done|].
  pose proof (limits_attr (w_RelPath w) (w_Value w) h Hw) as Hl. destruct (attr_write _ _ h) as [[e|] h1]; cbn [snd] in Hl; [done|].
  destruct (Classify None _ _) as [result message]. destruct (negb _); [done|]. specialize (IH h1).
  destruct (writeVerified ws h1) as [[[wrote taken] failure] h2]. cbn [snd] in *. congruence.
Qed.

Lemma differing_governed ws (h : H) : governed ws -> governed (differing ws h).
Proof. intros Hws. unfold governed, differing. apply Forall_forall. intros w [_ Hw]%list_elem_of_filter. by apply (proj1 (Forall_forall _ _) Hws). Qed.

Lemma runPhases_limits phases (h : H) : Forall (fun phase => forall h, governed (phase h)) phases -> limitsOf (runPhases phases h).2 = limitsOf h.
Proof.
  intros Hp. revert h. induction Hp as [|phase phases Hph _ IH]; intros h; cbn [runPhases]; [done|].
  pose proof (writeVerified_limits (phase h) h (Hph h)) as Hl. destruct (writeVerified (phase h) h) as [[[wrote taken] [result msg]] h1].
  cbn [snd] in Hl. destruct (negb _); [done|]. specialize (IH h1). destruct (runPhases phases h1) as [[total failure] h2]. cbn [snd] in *. congruence.
Qed.

Lemma restoreCPU_limits f b c (h : H) : limitsOf (restoreCPU f b c h).2 = limitsOf h.
Proof.
  unfold restoreCPU. destruct b as [base|]; [|done]. pose proof (PlanCPUGroups_governed f (cpuBaselineGroups f (Some base))) as Hg.
  destruct (PlanCPUGroups f _) as [[gov epp] bo] eqn:E. destruct Hg as (Hg & He & Hb).
  match goal with |- context [runPhases ?p h] => pose proof (runPhases_limits p h) as Hr; destruct (runPhases p h) as [[total [result msg]] h1] end.
  cbn [snd] in Hr. rewrite <- Hr; [by destruct (negb (String.eqb result ""))|]. repeat constructor; intros h0; [by apply differing_governed..|].
  destruct (negb _ && _); [by constructor|]. unfold cpuBaselineBoostWrites. apply differing_governed. unfold baselineBoostWrites. rewrite E.
  apply Forall_app. split; [exact Hb|]. destruct (_ && _); [|by constructor]. constructor; [apply boost_governed|by constructor].
Qed.

Lemma waitODReadback_limits polls ws (h : H) : limitsOf (waitODReadback polls ws h).2 = limitsOf h.
Proof.
  revert h. induction polls as [|polls IH]; intros h; cbn [waitODReadback]; destruct (_ =? 0)%nat; try done. by rewrite IH, limits_poll.
Qed.

Lemma stepWrites_limits ws (h : H) : governed ws -> limitsOf (stepWrites ws h).2 = limitsOf h.
Proof.
  intros Hws. revert h. induction Hws as [|w ws Hw _ IH]; intros h; cbn [stepWrites]; [done|]. destruct (IsODWrite w).
  - pose proof (limits_attr (w_RelPath w) (w_Value w) h Hw) as Hl. destruct (attr_write _ _ h) as [[e|] h1]; cbn [snd] in Hl.
    + by destruct (Classify _ _ _).
    + specialize (IH h1). destruct (stepWrites ws h1) as [[[[? ?] ?] ?] h2]. cbn [snd] in *. congruence.
  - pose proof (writeVerified_limits [w] h ltac:(constructor; [exact Hw|constructor])) as Hl.
    destruct (writeVerified [w] h) as [[[n taken] [res msg]] h1]. cbn [snd] in Hl. destruct (negb _); [done|].
    specialize (IH h1). destruct (stepWrites ws h1) as [[[[? ?] ?] ?] h2]. cbn [snd] in *. congruence.
Qed.

Lemma amdRounds_limits fuel k steps (h : H) : Forall governed steps -> limitsOf (amdRounds fuel k steps h).2 = limitsOf h.
Proof.
  intros Hs. revert k h. induction fuel as [|fuel IH]; intros k h; cbn [amdRounds]; [done|].
  assert (governed (omap (fun writes => writes !! k) steps)) as Hg.
  { apply Forall_forall. intros w (ws & Hws & Hw)%list_elem_of_omap. rewrite Forall_forall in Hs. specialize (Hs ws Hws).
    unfold governed in Hs. rewrite Forall_forall in Hs. apply Hs. by eapply list_elem_of_lookup_2. }
  destruct (omap _ steps) as [|w ws]; [done|]. pose proof (stepWrites_limits (w :: ws) h Hg) as Hl.
  destruct (stepWrites (w :: ws) h) as [[[[expect od] wrote] [res msg]] h1]. cbn [snd] in Hl. destruct (negb _); [done|].
  assert (limitsOf (match od with [] => (None, h1) | _ => waitODReadback od_polls od h1 end).2 = limitsOf h1) as Hw
    by (destruct od; [done|apply waitODReadback_limits]).
  destruct (match od with [] => (None, h1) | _ => waitODReadback od_polls od h1 end) as [[text|] h2]; cbn [snd] in Hw; [cbn [snd]; congruence|].
  specialize (IH (S k) h2). destruct (amdRounds fuel (S k) steps h2) as [[[[? ?] ?] ?] h3]. cbn [snd] in *. congruence.
Qed.

Lemma restoreAMD_limits devices b c (h : H) : limitsOf (restoreAMD devices b c h).2 = limitsOf h.
Proof.
  unfold restoreAMD. destruct b as [b|]; [|done]. set (parts := restoreDevice _ c h <$> _).
  assert (forall p, p ∈ parts -> Forall governed p.1.1 /\ Forall governed p.1.2) as Hp.
  { intros p (dev & -> & _)%list_elem_of_fmap. unfold restoreDevice. destruct (_ !! _) as [f|]; [|by split; constructor].
    destruct (String.eqb _ _); [by split; constructor|]. cbn [fst snd]. split.
    - destruct (_ && _); [|by constructor]. constructor; [|by constructor]. unfold PlanAMDODReset, governed.
      repeat constructor; apply device_governed; apply (bool_decide_unpack _); vm_compute; exact I.
    - assert (governed (differing [PlanAMDLevel (af_BusID f) (ds_Level dev)] h)) as Hd.
      { apply differing_governed. constructor; [|by constructor]. apply device_governed. apply (bool_decide_unpack _). vm_compute. exact I. }
      destruct (differing _ h); constructor; [done|by constructor]. }
  assert (Forall governed (concat ((fun p => p.1.1) <$> parts)) /\ Forall governed (concat ((fun p => p.1.2) <$> parts))) as [H1 H2].
  { clearbody parts. split; induction parts as [|p parts IH]; cbn; try (by constructor); apply Forall_app;
      (split; [by apply Hp; left|]); apply IH; intros q Hq; apply Hp; by right. }
  unfold writeAMDSteps. pose proof (amdRounds_limits (S (max_list (length <$> concat ((fun p => p.1.1) <$> parts)))) 0 _ h H1) as Hl1.
  destruct (amdRounds _ 0 _ h) as [[[[? ?] wrote] [res msg]] h1]. cbn [snd] in Hl1. destruct (negb _); [done|].
  pose proof (amdRounds_limits (S (max_list (length <$> concat ((fun p => p.1.2) <$> parts)))) 0 _ h1 H2) as Hl2.
  destruct (amdRounds _ 0 _ h1) as [[[[? ?] wrote'] [res' msg']] h2]. cbn [snd] in Hl2. destruct (negb _); cbn [snd]; congruence.
Qed.

(** ** Resets *)

Definition clockCommand (args : list string) : Prop := exists bus command, args = ("-i" :: bus :: command)%list /\ "-pl" ∉ command.

Lemma command_limits args (h : H) : clockCommand args -> limitsOf (smi_run args h).2 = limitsOf h.
Proof. intros (bus & command & -> & Hno). by apply limits_clocks. Qed.

Lemma reset_command bus d lock reset : lockOf d = Some (lock, reset) -> clockCommand ["-i"; bus; reset].
Proof.
  intros E. exists bus, [reset]. split; [done|]. assert (reset = "-rgc" \/ reset = "-rmc") as Hr.
  { unfold lockOf in E. assert (forall acc, (forall l r, acc = Some (l, r) -> r = "-rgc" \/ r = "-rmc") ->
      foldl (fun acc a => match nvidiaLockResets a with Some r => Some (a, r) | None => acc end) acc d = Some (lock, reset) ->
      reset = "-rgc" \/ reset = "-rmc") as Hf; [|by apply (Hf None)].
    clear E. induction d as [|a d IH]; intros acc Hacc; cbn [foldl]; [by apply Hacc|]. apply IH. intros l r.
    unfold nvidiaLockResets. destruct (String.eqb a "-lgc"); [intros [= _ <-]; by left|].
    destruct (String.eqb a "-lmc"); [intros [= _ <-]; by right|apply Hacc]. }
  intros Hin%list_elem_of_singleton. destruct Hr as [-> | ->]; discriminate Hin.
Qed.

Lemma undoLocks_limits bus rdone : forall c (h : H), limitsOf (undoLocks bus rdone c h).2 = limitsOf h.
Proof.
  induction rdone as [|d rest IH]; intros c h; cbn [undoLocks]; [done|]. destruct (lockOf d) as [[lock reset]|] eqn:E; [|apply IH].
  pose proof (command_limits _ h (reset_command bus d lock reset E)) as Hl. destruct (smi_run _ h) as [[err out] h1]. cbn [snd] in Hl.
  destruct (ClassifyRun _ err out) as [res msg]. destruct (negb _); rewrite <- Hl.
  - rewrite <- (IH c h1). by destruct (undoLocks bus rest c h1) as [[[[? ?] ?] ?] ?].
  - set (c1 := recordNvidia _ _ _ c). rewrite <- (IH c1 h1). by destruct (undoLocks bus rest c1 h1) as [[[[? ?] ?] ?] ?].
Qed.

Lemma runArgs_limits bus plan todo : Forall clockCommand todo -> forall ran c (h : H), limitsOf (runArgs bus plan todo ran c h).2 = limitsOf h.
Proof.
  induction 1 as [|args rest Ha _ IH]; intros ran c h; cbn [runArgs]; [done|]. pose proof (command_limits args h Ha) as Hl.
  destruct (smi_run args h) as [[err out] h1]. cbn [snd] in Hl. destruct (ClassifyRun _ err out) as [res msg]. destruct (negb _); [done|].
  rewrite <- Hl. set (c1 := recordNvidia _ _ _ c). rewrite <- (IH (ran ++ [args])%list c1 h1). by destruct (runArgs bus plan rest _ c1 h1) as [[[? ?] ?] ?].
Qed.

Lemma runNvidiaPlans_limits plans order : map_Forall (fun _ plan => Forall clockCommand (p_Args plan)) plans ->
  forall natives c (h : H), limitsOf (runNvidiaPlans plans order natives c h).2 = limitsOf h.
Proof.
  intros Hp. induction order as [|bus rest IH]; intros natives c h; cbn [runNvidiaPlans]; [done|]. set (plan := default noPlan (plans !! bus)).
  assert (Forall clockCommand (p_Args plan)) as Hargs.
  { unfold plan. destruct (plans !! bus) as [p|] eqn:E; [by apply (Hp bus)|by constructor]. }
  pose proof (runArgs_limits bus plan (p_Args plan) Hargs [] c h) as Hr.
  destruct (runArgs bus plan (p_Args plan) [] c h) as [[[issued failure] c1] h1]. cbn [snd] in Hr. rewrite <- Hr.
  destruct failure as [[[result message] ran]|].
  - unfold undoNvidiaLocks. rewrite <- (undoLocks_limits bus (rev ran) c1 h1). by destruct (undoLocks bus (rev ran) c1 h1) as [[[[? ?] ?] ?] ?].
  - rewrite <- (IH (natives ++ [p_Native plan])%list c1 h1). by destruct (runNvidiaPlans plans rest _ c1 h1) as [[[? ?] ?] ?].
Qed.

Lemma auto_commands f bus ceiling plan : PlanNvidia f bus GPUGovernorPresetAuto ceiling = Some plan -> Forall clockCommand (p_Args plan).
Proof.
  unfold PlanNvidia. destruct (negb _); [done|]. destruct (String.eqb bus ""); [done|]. unfold chooseNvidia.
  destruct (negb (nvKnownArch _)); [by intros [= <-]; constructor|]. rewrite String.eqb_refl. cbn [nv_result nv_gpu nv_mem]. destruct (String.eqb _ _); intros [= <-]; [by constructor|]. cbn [p_Args].
  apply Forall_app. split; [destruct (nf_LockedGPU f)|destruct (_ && _)]; try (by constructor); (constructor; [|by constructor]);
    eexists bus, _; (split; [reflexivity|]); by intros E%list_elem_of_singleton.
Qed.

Lemma resetPlans_commands c gpus : map_Forall (fun _ plan => Forall clockCommand (p_Args plan)) (resetPlans c gpus).1.
Proof.
  unfold resetPlans. induction gpus as [|n gpus IH] using rev_ind; [apply map_Forall_empty|]. rewrite foldl_snoc.
  destruct (foldl _ _ gpus) as [plans order]. cbn [fst] in *. destruct (PlanNvidia _ _ _ _) as [plan|] eqn:E; [|done].
  apply auto_commands in E. destruct (p_Args plan) eqn:Ea; [done|]. apply map_Forall_insert_2; [by rewrite Ea|done].
Qed.

Lemma restoreGPU_limits d b c (h : H) : limitsOf (restoreGPU d b c h).2 = limitsOf h.
Proof.
  unfold restoreGPU. destruct (negb _); [|apply restoreAMD_limits]. unfold restoreNvidia. pose proof (resetPlans_commands c (gd_NVIDIA d)) as Hp.
  destruct (resetPlans c (gd_NVIDIA d)) as [plans order]. pose proof (runNvidiaPlans_limits plans order Hp [] c h) as Hl.
  destruct (runNvidiaPlans plans order [] c h) as [[[issued [[res msg] inForce]] c1] h1]. cbn [snd] in Hl. by destruct (negb _).
Qed.
End Limits.
