(* ===== verification/Inventory.v ===== *)
(** * Hardware facts of the controller manager: cmd/controller-manager/main.go

    The controller manager's view of a node's hardware, read from the agent's
    NodeHardware object or, without one, from the node's labels and resources,
    and resolved against the hardware catalog. *)

From S2P Require Import Prelude GoString GoFloat Api Crd Hwinv Resources Kube.

#[local] Open Scope string_scope.

(** src/cmd/controller-manager/main.go:80-110 [NodeHardware] *)
Record NodeHW := {
  nh_Name : string;
  nh_NodeName : string;
  nh_CPUModel : string;
  nh_CPURawModel : string;
  nh_CPUSockets : Z;
  nh_CPUTotalCores : Z;
  nh_GPUModel : string;
  nh_GPURawModel : string;
  nh_GPUCount : Z;
  nh_GPUPowerDomains : Z;
  nh_CPUCapMinWatts : float64;
  nh_CPUCapMaxWatts : float64;
  nh_CPUCapKnown : bool;
  nh_GPUCapMinWatts : float64;
  nh_GPUCapMaxWatts : float64;
  nh_GPUCapKnown : bool;
  nh_CPUControlAvailable : bool;
  nh_GPUControlAvailable : bool;
  nh_GPUReported : bool;
  nh_Warnings : list string;
  nh_CPUGovernorPresets : list string;
  nh_GPUGovernorPresets : list string;
  nh_CPUBoostAvailable : bool;
  nh_GPUGovernorGap : bool
}.

(** The zero value [NodeHardware{}]. *)
Definition noHardware : NodeHW := {|
  nh_Name := ""; nh_NodeName := ""; nh_CPUModel := ""; nh_CPURawModel := "";
  nh_CPUSockets := 0; nh_CPUTotalCores := 0; nh_GPUModel := ""; nh_GPURawModel := "";
  nh_GPUCount := 0; nh_GPUPowerDomains := 0;
  nh_CPUCapMinWatts := fzero; nh_CPUCapMaxWatts := fzero; nh_CPUCapKnown := false;
  nh_GPUCapMinWatts := fzero; nh_GPUCapMaxWatts := fzero; nh_GPUCapKnown := false;
  nh_CPUControlAvailable := false; nh_GPUControlAvailable := false; nh_GPUReported := false;
  nh_Warnings := []; nh_CPUGovernorPresets := []; nh_GPUGovernorPresets := [];
  nh_CPUBoostAvailable := false; nh_GPUGovernorGap := false
|}.

(** src/cmd/controller-manager/main.go:1300-1302 [sanitizeName] *)
Definition sanitizeName (in_ : string) : string := ObjectNameForNode in_.

(** src/cmd/controller-manager/main.go:1227-1234 [firstNonEmpty] *)
Fixpoint firstNonEmpty (values : list string) : string :=
  match values with
  | [] => ""
  | v :: rest => if negb (String.eqb (TrimSpace v) "") then TrimSpace v else firstNonEmpty rest
  end.

(** src/cmd/controller-manager/main.go:1077-1087 [parseCSVList] *)
Definition parseCSVList (in_ : string) : list string :=
  filter (fun v => v <> "") (TrimSpace <$> Split in_ ",").

(** src/cmd/controller-manager/main.go:1051-1062 [resolveGPUProduct] *)
Fixpoint resolveGPUProduct (nodeLabels : gmap string string) (keys : list string) : string :=
  match keys with
  | [] => ""
  | k :: rest =>
      let key := TrimSpace k in
      if String.eqb key "" then resolveGPUProduct nodeLabels rest
      else
        let v := GPUProductBase (get_str nodeLabels key) in
        if negb (String.eqb v "") then v else resolveGPUProduct nodeLabels rest
  end.

(** src/cmd/controller-manager/main.go:1181-1189 [governorPresetNames] *)
Definition governorPresetNames (presets : list string) : list string :=
  filter (fun p => p <> "") presets.

(** The CPU, GPU and quality blocks, each copied where it is present.
    src/cmd/controller-manager/main.go:1139-1178 [parseNodeHardware] *)
Definition parseNodeHardware (obj : CrdNodeHardware) : NodeHW :=
  let cpu {A} (f : CrdCPU -> A) (z : A) := match cnh_CPU obj with Some c => f c | None => z end in
  let gpu {A} (f : CrdGPU -> A) (z : A) := match cnh_GPU obj with Some g => f g | None => z end in
  let cpuRange {A} (f : CrdCPUCapRange -> A) (z : A) :=
    cpu (fun c => match cc_CapRange c with Some r => f r | None => z end) z in
  let gpuRange {A} (f : GPUCapRange -> A) (z : A) :=
    gpu (fun g => match cgp_CapRangePerGPU g with Some r => f r | None => z end) z in
  let cpuGov {A} (f : CrdGovernor -> A) (z : A) :=
    cpu (fun c => match cc_Governor c with Some g => f g | None => z end) z in
  let gpuGov {A} (f : CrdGovernor -> A) (z : A) :=
    gpu (fun g => match cgp_Governor g with Some g => f g | None => z end) z in
  {| nh_Name := cnh_Name obj;
     nh_NodeName := cnh_NodeName obj;
     nh_CPUModel := cpu cc_Model "";
     nh_CPURawModel := cpu cc_RawModel "";
     nh_CPUSockets := cpu cc_Sockets 0%Z;
     nh_CPUTotalCores := cpu cc_TotalCores 0%Z;
     nh_GPUModel := gpu cgp_Model "";
     nh_GPURawModel := gpu cgp_RawModel "";
     nh_GPUCount := gpu cgp_Count 0%Z;
     nh_GPUPowerDomains := gpu cgp_PowerDomains 0%Z;
     nh_CPUCapMinWatts := cpuRange ccr_MinWattsPerSocket fzero;
     nh_CPUCapMaxWatts := cpuRange ccr_MaxWattsPerSocket fzero;
     nh_CPUCapKnown := cpuRange (fun _ => true) false;
     nh_GPUCapMinWatts := gpuRange gcr_MinWatts fzero;
     nh_GPUCapMaxWatts := gpuRange gcr_MaxWatts fzero;
     nh_GPUCapKnown := gpuRange (fun _ => true) false;
     nh_CPUControlAvailable := cpu cc_ControlAvailable false;
     nh_GPUControlAvailable := gpu cgp_ControlAvailable false;
     nh_GPUReported := gpu (fun _ => true) false;
     nh_Warnings := default [] (cnh_QualityWarnings obj);
     nh_CPUGovernorPresets := cpuGov (fun g => governorPresetNames (cg_Presets g)) [];
     nh_GPUGovernorPresets := gpuGov (fun g => governorPresetNames (cg_Presets g)) [];
     nh_CPUBoostAvailable := cpuGov cg_Boost false;
     nh_GPUGovernorGap := gpuGov (fun g => String.eqb (cg_Mechanism g) "" && cg_Baseline g) false |}.

(** The catalog keys replace the models the descriptor matches.
    src/cmd/controller-manager/main.go:1113-1127 [MatchNode] *)
Definition resolveModels (catalog : option Catalog) (nh : NodeHW) : NodeHW :=
  match catalog with
  | None => nh
  | Some _ =>
      let m := MatchNode catalog {|
        nd_CPUModelRaw := nh_CPURawModel nh; nd_CPUVendor := "";
        nd_CPUSockets := nh_CPUSockets nh; nd_CPUCores := nh_CPUTotalCores nh;
        nd_GPUModelRaw := nh_GPURawModel nh; nd_GPUVendor := "";
        nd_GPUCount := nh_GPUCount nh |} in
      {| nh_Name := nh_Name nh; nh_NodeName := nh_NodeName nh;
         nh_CPUModel := match mr_CPU m with Some (key, _) => key | None => nh_CPUModel nh end;
         nh_CPURawModel := nh_CPURawModel nh; nh_CPUSockets := nh_CPUSockets nh;
         nh_CPUTotalCores := nh_CPUTotalCores nh;
         nh_GPUModel := match mr_GPU m with Some (key, _) => key | None => nh_GPUModel nh end;
         nh_GPURawModel := nh_GPURawModel nh; nh_GPUCount := nh_GPUCount nh;
         nh_GPUPowerDomains := nh_GPUPowerDomains nh;
         nh_CPUCapMinWatts := nh_CPUCapMinWatts nh; nh_CPUCapMaxWatts := nh_CPUCapMaxWatts nh;
         nh_CPUCapKnown := nh_CPUCapKnown nh;
         nh_GPUCapMinWatts := nh_GPUCapMinWatts nh; nh_GPUCapMaxWatts := nh_GPUCapMaxWatts nh;
         nh_GPUCapKnown := nh_GPUCapKnown nh;
         nh_CPUControlAvailable := nh_CPUControlAvailable nh;
         nh_GPUControlAvailable := nh_GPUControlAvailable nh;
         nh_GPUReported := nh_GPUReported nh;
         nh_Warnings := nh_Warnings nh ++ mr_Warnings m;
         nh_CPUGovernorPresets := nh_CPUGovernorPresets nh;
         nh_GPUGovernorPresets := nh_GPUGovernorPresets nh;
         nh_CPUBoostAvailable := nh_CPUBoostAvailable nh;
         nh_GPUGovernorGap := nh_GPUGovernorGap nh |}
  end.

(** What listing the NodeHardware objects answers: the objects, no such kind
    in the cluster (not found or no match), or another error. *)
Inductive HardwareList := Listed (items : list CrdNodeHardware) | NoCRD | ListFailed.

(** The map by node name; a later object of the same node replaces an earlier
    one. [None] is the error.
    src/cmd/controller-manager/main.go:1102-1133 [listNodeHardware] *)
Definition listNodeHardware (answer : HardwareList) (catalog : option Catalog) : option (gmap string NodeHW) :=
  match answer with
  | NoCRD => Some ∅
  | ListFailed => None
  | Listed items =>
      Some (foldl (fun out obj =>
        let nh := resolveModels catalog (parseNodeHardware obj) in <[nh_NodeName nh := nh]> out) ∅ items)
  end.

Section Labels.
Context `{QuantityOps}.

(** The entries of the allocatable map in the order this run visits them.
    src/cmd/controller-manager/main.go:1040-1046 [total] *)
Definition allocatableGPUs (entries : list (string * Quantity)) : Z :=
  foldl (fun total e =>
    if negb (String.eqb (GPUResourceKind e.1) "") then wrap64 (total + Value e.2) else total) 0%Z entries.

(** src/cmd/controller-manager/main.go:1036-1047 [discoverGPUCount] *)
Definition discoverGPUCount (node : Node) : Z :=
  match GPUCountFromLabels (n_Labels node) with
  | (n, true) => n
  | (_, false) => allocatableGPUs (map_to_list (n_Allocatable node))
  end.

(** src/cmd/controller-manager/main.go:1191-1225 [nodeHardwareFromLabels] *)
Definition nodeHardwareFromLabels (node : Node) (catalog : option Catalog) (gpuProductLabelKeys : list string) : NodeHW :=
  let label := get_str (n_Labels node) in
  resolveModels catalog {|
    nh_Name := sanitizeName (n_Name node);
    nh_NodeName := n_Name node;
    nh_CPUModel := "";
    nh_CPURawModel := firstNonEmpty [label "joulie.io/hw.cpu-model"; label "feature.node.kubernetes.io/cpu-model.name"];
    nh_CPUSockets := ParseIntString (firstNonEmpty [label "joulie.io/hw.cpu-sockets"; label "feature.node.kubernetes.io/cpu-sockets"]);
    nh_CPUTotalCores := match n_Capacity node !! "cpu" with Some qty => Value qty | None => 0%Z end;
    nh_GPUModel := "";
    nh_GPURawModel := resolveGPUProduct (n_Labels node) ("joulie.io/hw.gpu-model" :: gpuProductLabelKeys);
    nh_GPUCount := discoverGPUCount node;
    nh_GPUPowerDomains := 0;
    nh_CPUCapMinWatts := fzero; nh_CPUCapMaxWatts := fzero; nh_CPUCapKnown := false;
    nh_GPUCapMinWatts := fzero; nh_GPUCapMaxWatts := fzero; nh_GPUCapKnown := false;
    nh_CPUControlAvailable := false; nh_GPUControlAvailable := false; nh_GPUReported := false;
    nh_Warnings := []; nh_CPUGovernorPresets := []; nh_GPUGovernorPresets := [];
    nh_CPUBoostAvailable := false; nh_GPUGovernorGap := false |}.
End Labels.

(** src/cmd/controller-manager/main.go:872-878 [agentReportsNoGPUControl] *)
Definition agentReportsNoGPUControl (nh : NodeHW) : bool := nh_GPUReported nh && negb (nh_GPUControlAvailable nh).
