(* ===== verification/GpuCap.v ===== *)
(** * GPU power caps: from the intent to the devices (cmd/agent/main.go)

    Whether a node has GPUs, whose they are, and how the agent applies a cap
    intent: over the HTTP control endpoint, or with the vendor's own means on
    the devices it listed. The listing, the resolution and the writes are
    those of GpuDevices.v and GpuSysfs.v. The text of a listing error that
    comes from the file system, and numbers in messages, are kept as
    constructors; the context's deadline is the interfaces' business. *)

From S2P Require Import Prelude GoString GoSlices GoFloat FloatFacts Json Kube Resources Inventory Host NvidiaDiscovery HostFS Dvfs GpuDevices GpuSysfs.

#[local] Open Scope string_scope.

(** src/cmd/agent/main.go:1911-1911 [nfdGPUClasses] *)
Definition nfdGPUClasses : list string := ["0300"; "0302"; "0380"; "1200"].

(** src/cmd/agent/main.go:1917-1927 [hasNFDGPUVendor] *)
Definition hasNFDGPUVendor (nodeLabels : gmap string string) (vendorHex : string) : bool :=
  String.eqb (get_str nodeLabels ("feature.node.kubernetes.io/pci-" +:+ vendorHex +:+ ".present")) "true" ||
  existsb (fun class => String.eqb (get_str nodeLabels ("feature.node.kubernetes.io/pci-" +:+ class +:+ "_" +:+ vendorHex +:+ ".present")) "true")
    nfdGPUClasses.

(** rocm-smi, as [NvidiaSmi]. *)
Class RocmSmi (W : Type) := { rocm_run : list string -> W -> option WriteError * string * W }.

Section Counts.
Context `{QuantityOps}.

(** src/cmd/agent/main.go:1268-1279 [allocatableGPUCount] *)
Definition allocatableGPUCount (node : option Node) : Z :=
  match node with
  | None => 0
  | Some node => allocatableGPUs (map_to_list (n_Allocatable node))
  end.

(** src/cmd/agent/main.go:1285-1293 [nodeGPUCount] *)
Definition nodeGPUCount (node : option Node) : Z :=
  match node with
  | None => 0
  | Some n =>
      match GPUCountFromLabels (n_Labels n) with
      | (count, true) => count
      | (_, false) => allocatableGPUCount node
      end
  end.
End Counts.

(** Why a listing failed: the tool's text, or no device with a cap. *)
Inductive ListError :=
| ToolFailed (text : string)
| NothingListed.

(** src/cmd/agent/main.go:1123-1127 [gpuInventory] *)
Record gpuInventory := mkInventory { gi_vendor : string; gi_devices : list GPUDevice; gi_err : option ListError }.

(** What a status says, with its numbers. *)
Inductive GPUMessage :=
| GText (text : string)
| GListing (err : ListError)
| GApplied (capPerGPU : float64) (devices : option nat)
| GErrors (errs : list string)
| GNoted (m : GPUMessage) (note : string).

(** src/cmd/agent/main.go:1146-1146 [map] *)
Record GPUStatus := mkGPUStatus { gs_backend : string; gs_result : string; gs_msg : GPUMessage; gs_observed : list (string * json) }.

(** src/cmd/agent/main.go:1784-1784 [nvidiaControlDevicePath] *)
Definition nvidiaControlDevicePath : string := "/dev/nvidiactl".

Section Vendor.
Context {H : Type} `{!HostFS H} `{!SysfsHost H} `{!NvidiaSmi H} `{!RocmSmi H}.

(** src/cmd/agent/main.go:1331-1357 [detectGPUVendor] *)
Definition detectGPUVendor (nodeLabels : gmap string string) (mem : CapMemory) (h : H) : string * CapMemory * H :=
  if hasNFDGPUVendor nodeLabels "10de" then ("nvidia", mem, h)
  else if hasNFDGPUVendor nodeLabels "1002" then ("amd", mem, h)
  else if intelGPULabelled nodeLabels h then ("intel", mem, h)
  else if fileExists nvidiaControlDevicePath h then ("nvidia", mem, h)
  else
    let '(err, _, h) := smi_run ["-L"] h in
    if bool_decide (err = None) then ("nvidia", mem, h)
    else
      let '(err, _, h) := rocm_run ["--showproductname"] h in
      if bool_decide (err = None) then ("amd", mem, h)
      else
        let '(present, mem) := amdgpuSysfsPresent mem h in
        if present : bool then ("amd", mem, h)
        else if intelGPUSysfsPresent h then ("intel", mem, h)
        else ("none", mem, h).
Context (ParseFloat : string -> option float64) (FormatF1 : float64 -> string).

(** src/cmd/agent/main.go:1359-1370 [listGPUDevices] *)
Definition listGPUDevices (vendor : string) (mem : CapMemory) (h : H) : list GPUDevice * option ListError * CapMemory * H :=
  if String.eqb vendor "nvidia" then
    match listNvidiaDevices ParseFloat h with
    | (inl err, h) => ([], Some (ToolFailed err), mem, h)
    | (inr devices, h) => (devices, None, mem, h)
    end
  else if String.eqb vendor "amd" then
    match listAmdDevices mem h with
    | (None, mem) => ([], Some NothingListed, mem, h)
    | (Some devices, mem) => (devices, None, mem, h)
    end
  else if String.eqb vendor "intel" then
    match listIntelDevices h with
    | None => ([], Some NothingListed, mem, h)
    | Some devices => (devices, None, mem, h)
    end
  else ([], None, mem, h).

(** The listing a reconcile took, or a new one.
    src/cmd/agent/main.go:1180-1185 [inv] *)
Definition inventoryOf (inv : option gpuInventory) (nodeLabels : gmap string string) (mem : CapMemory) (h : H)
    : gpuInventory * CapMemory * H :=
  match inv with
  | Some inv => (inv, mem, h)
  | None =>
      let '(vendor, mem, h) := detectGPUVendor nodeLabels mem h in
      if String.eqb vendor "none" then (mkInventory vendor [] None, mem, h)
      else let '(devices, err, mem, h) := listGPUDevices vendor mem h in (mkInventory vendor devices err, mem, h)
  end.

(** The devices a cap is written to, the devices it is resolved against and
    the note on those left out; or why there is none.
    src/cmd/agent/main.go:1196-1221 [resolveFrom, skippedNote] *)
Definition capTargets (vendor : string) (devices : list GPUDevice) (h : H) : (list GPUDevice * list GPUDevice * string) + (string * list (string * json)) :=
  let named := [("vendor", JStr vendor)] in
  if String.eqb vendor "nvidia" then
    let '(settable, unsupported) := nvidiaCapSets devices in
    let note := match unsupported with [] => "" | _ => nvidiaUnsupportedNote unsupported end in
    match settable with
    | [] => inr (note, (named ++ [("deviceCount", JInt (Z.of_nat (length devices)))])%list)
    | _ => inl (settable, settable, note)
    end
  else if String.eqb vendor "amd" then
    let '(capped, ranged) := amdgpuCapSets devices in
    match capped with
    | [] => inr ("no amdgpu device has a power cap of its own", named)
    | _ => inl (capped, ranged, "")
    end
  else if String.eqb vendor "intel" then
    match intelGPURanged devices with
    | [] => inr (intelGPUUnknownRange devices h, named)
    | ranged => inl (devices, ranged, "")
    end
  else inl (devices, devices, "").

Definition appliedOr (errs : list string) (capPerGPU : float64) (count : nat) : string * GPUMessage :=
  match errs with
  | [] => ("applied", GApplied capPerGPU (Some count))
  | _ => ("error", GErrors errs)
  end.

(** The cap written with the vendor's means.
    src/cmd/agent/main.go:1240-1262 [vendor] *)
Definition applyVendorCap (vendor : string) (devices : list GPUDevice) (capPerGPU : float64) (skippedNote : string)
    (observed : list (string * json)) (mem : CapMemory) (h : H) : GPUStatus * CapMemory * H :=
  let n := length devices in
  if String.eqb vendor "nvidia" then
    let '(errs, h) := applyNvidiaGPUCap devices capPerGPU h in
    let '(result, msg) := appliedOr errs capPerGPU n in
    (mkGPUStatus "host-nvidia" result (if String.eqb skippedNote "" then msg else GNoted msg skippedNote) observed, mem, h)
  else if String.eqb vendor "amd" then
    let '(errs, mem, h) := applyAmdGPUCap devices capPerGPU mem h in
    let '(result, msg) := appliedOr errs capPerGPU n in
    (mkGPUStatus "host-amd" result msg observed, mem, h)
  else if String.eqb vendor "intel" then
    let '(errs, h) := applyIntelGPUCap devices capPerGPU h in
    let '(result, msg) := appliedOr errs capPerGPU n in
    (mkGPUStatus intelBackend result msg observed, mem, h)
  else (mkGPUStatus "none" "blocked" (GText ("unsupported gpu vendor " +:+ Quote vendor)) observed, mem, h).

Context `{!ControlEndpoint H}.

(** src/cmd/agent/main.go:1233-1238 [httpClient] *)
Definition applyHTTPCap (c : HTTPControlClient) (capPerGPU : float64) (count : option nat) (observed : list (string * json)) (h : H) : GPUStatus * H :=
  match ApplyGPUControl c "gpu.set_power_cap_watts" capPerGPU h with
  | (Some err, h) => (mkGPUStatus "http" "error" (GText err) observed, h)
  | (None, h) => (mkGPUStatus "http" "applied" (GApplied capPerGPU count) observed, h)
  end.

(** What is done with the listing at hand.
    src/cmd/agent/main.go:1186-1262 [vendor] *)
Definition applyToInventory (intent : GPUPowerCap) (httpClient : option HTTPControlClient) (inv : gpuInventory) (mem : CapMemory) (h : H)
    : GPUStatus * CapMemory * H :=
  let vendor := gi_vendor inv in
  let named := [("vendor", JStr vendor)] in
  let blocked msg observed := (mkGPUStatus "none" "blocked" (GText msg) observed, mem, h) in
  if String.eqb vendor "none" then blocked "no supported GPU backend detected" [("vendor", JStr "none")]
  else match gi_err inv with
  | Some err => (mkGPUStatus "none" "error" (GListing err) named, mem, h)
  | None =>
      match gi_devices inv with
      | [] => blocked "no GPU devices discovered" named
      | _ =>
          match capTargets vendor (gi_devices inv) h with
          | inr (msg, observed) => blocked msg observed
          | inl (devices, resolveFrom, skippedNote) =>
              let counted := (named ++ [("deviceCount", JInt (Z.of_nat (length devices)))])%list in
              match resolveGPUCapPerDevice FormatF1 intent resolveFrom with
              | inr msg => blocked msg counted
              | inl capPerGPU =>
                  let observed := (counted ++ [("capWattsPerGpu", JNum capPerGPU)])%list in
                  match httpClient with
                  | Some c => let '(st, h) := applyHTTPCap c capPerGPU (Some (length devices)) observed h in (st, mem, h)
                  | None => applyVendorCap vendor devices capPerGPU skippedNote observed mem h
                  end
              end
          end
      end
  end.

(** src/cmd/agent/main.go:1158-1158 [listed] *)
Definition listedGPUs (inv : option gpuInventory) : bool :=
  match inv with
  | Some i => bool_decide (gi_err i = None) && negb (bool_decide (gi_devices i = []))
  | None => false
  end.

Context `{QuantityOps}.

(** src/cmd/agent/main.go:1140-1262 [applyGPUIntentFrom] *)
Definition applyGPUIntentFrom (node : option Node) (intent : option GPUPowerCap) (httpClient : option HTTPControlClient)
    (inv : option gpuInventory) (mem : CapMemory) (h : H) : GPUStatus * CapMemory * H :=
  match intent with
  | None => (mkGPUStatus "none" "none" (GText "no GPU cap intent") [], mem, h)
  | Some intent =>
      let nodeName := from_option n_Name "" node in
      let nodeLabels := from_option n_Labels ∅ node in
      if (nodeGPUCount node <=? 0)%Z && negb (listedGPUs inv) then
        (mkGPUStatus "none" "blocked" (GText "node has no allocatable GPU resources")
           [("node", JStr nodeName); ("allocatableGPUs", JInt 0); ("requestedGPUIntent", JBool true)], mem, h)
      else
        match httpClient, gpc_CapWattsPerGPU intent with
        | Some c, Some capPerGPU =>
            if positive capPerGPU then
              let '(st, h) := applyHTTPCap c capPerGPU None [("capWattsPerGpu", JNum capPerGPU)] h in (st, mem, h)
            else let '(inv, mem, h) := inventoryOf inv nodeLabels mem h in applyToInventory intent httpClient inv mem h
        | _, _ => let '(inv, mem, h) := inventoryOf inv nodeLabels mem h in applyToInventory intent httpClient inv mem h
        end
  end.

(** src/cmd/agent/main.go:1129-1136 [applyGPUIntent] *)
Definition applyGPUIntent (node : option Node) (intent : option GPUPowerCap) (httpClient : option HTTPControlClient) (mem : CapMemory) (h : H) :=
  applyGPUIntentFrom node intent httpClient None mem h.
End Vendor.

(** ** A cap within what the devices take *)

Lemma nvidiaCapSets_settable devices : (nvidiaCapSets devices).1 ⊆ devices.
Proof. intros d. cbn. rewrite list_elem_of_filter. tauto. Qed.

Lemma amdgpuCapSets_sub devices :
  let '(capped, ranged) := amdgpuCapSets devices in
  capped ⊆ devices /\ ranged ⊆ devices /\ (forall d, d ∈ capped -> g_CapUnknown d = false -> d ∈ ranged).
Proof.
  unfold amdgpuCapSets. set (capped := amdgpuCapDevices devices).
  assert (capped ⊆ devices) as Hc by (intros d; unfold capped, amdgpuCapDevices; rewrite list_elem_of_filter; tauto).
  destruct (filter (fun d => g_CapUnknown d = false) capped) as [|r rs] eqn:E; cbn.
  - by split_and!.
  - split; [done|]. rewrite <- E. split; intros d; rewrite list_elem_of_filter; [intros [_ ?]; by apply Hc|done].
Qed.

(** Whoever is written to and could be checked was checked. *)
Lemma capTargets_checked {H : Type} `{!HostFS H} `{!SysfsHost H} vendor devices (h : H) targets from note :
  capTargets vendor devices h = inl (targets, from, note) ->
  targets ⊆ devices /\ from ⊆ devices /\
  (forall d, d ∈ targets -> g_CapUnknown d = false -> flt fzero (g_MaxCapWatts d) = true -> d ∈ from).
Proof.
  unfold capTargets. destruct (String.eqb vendor "nvidia").
  { pose proof (nvidiaCapSets_settable devices) as Hs. destruct (nvidiaCapSets devices) as [settable unsupported]. cbn [fst] in Hs.
    destruct settable; [done|]. intros [= <- <- _]. by split_and!. }
  destruct (String.eqb vendor "amd").
  { pose proof (amdgpuCapSets_sub devices) as Hs. destruct (amdgpuCapSets devices) as [capped ranged].
    destruct capped; [done|]. destruct Hs as (H1 & H2 & H3). intros [= <- <- _]. split_and!; auto. }
  destruct (String.eqb vendor "intel"); [|by intros [= <- <- _]; split_and!].
  destruct (intelGPURanged devices) eqn:E; [done|]. intros [= <- <- _]. rewrite <- E. split; [done|].
  unfold intelGPURanged. split; intros d; rewrite list_elem_of_filter; tauto.
Qed.

(** What an intent has to be for its percentage to mean something: a share
    of at most 100 that is watts on every device. *)
Definition sensible (intent : GPUPowerCap) (devices : list GPUDevice) : Prop :=
  (forall a, gpc_CapWattsPerGPU intent = Some a -> is_nan a = false) /\
  (forall p, gpc_CapPctOfMax intent = Some p -> nonneg p /\ fle p (fofZ 100) = true /\
     Forall (fun d => flt fzero (g_MaxCapWatts d) = true -> flt fzero (pctWatts p d) = true) devices).

Lemma Forall_sub {A} (P : A -> Prop) (l l' : list A) : l' ⊆ l -> Forall P l -> Forall P l'.
Proof. rewrite !Forall_forall. auto. Qed.

Section Within.
Context {H : Type} `{!HostFS H} `{!SysfsHost H} `{!NvidiaSmi H} `{!RocmSmi H} `{!ControlEndpoint H} `{QuantityOps}.
Context (FormatF1 : float64 -> string) (ParseFloat : string -> option float64).

(** The cap an apply went out with: within what each device it is meant for
    takes, where the agent knows that. *)
Definition within (targets : list GPUDevice) (w : float64) : Prop :=
  flt fzero w = true /\
  forall d, d ∈ targets -> g_CapUnknown d = false -> flt fzero (g_MaxCapWatts d) = true -> fle w (g_MaxCapWatts d) = true.

(** The agent left the host alone and says that it did, posted one command,
    or wrote one cap to devices it listed. *)
Inductive Outcome (intent : GPUPowerCap) (client : option HTTPControlClient) (inv : gpuInventory) (mem : CapMemory) (h : H) :
    GPUStatus * CapMemory * H -> Prop :=
| LeftAlone st : gs_backend st = "none" -> gs_result st <> "applied" -> Outcome intent client inv mem h (st, mem, h)
| PostedAsked c w st h' :
    client = Some c -> gpc_CapWattsPerGPU intent = Some w -> flt fzero w = true ->
    h' = (ApplyGPUControl c "gpu.set_power_cap_watts" w h).2 ->
    (gs_result st = "applied" <-> (ApplyGPUControl c "gpu.set_power_cap_watts" w h).1 = None) ->
    Outcome intent client inv mem h (st, mem, h')
| PostedResolved c w targets st h' :
    client = Some c -> targets ⊆ gi_devices inv -> within targets w ->
    h' = (ApplyGPUControl c "gpu.set_power_cap_watts" w h).2 ->
    (gs_result st = "applied" <-> (ApplyGPUControl c "gpu.set_power_cap_watts" w h).1 = None) ->
    Outcome intent client inv mem h (st, mem, h')
| Written w targets note observed :
    client = None -> gi_err inv = None -> targets <> [] -> targets ⊆ gi_devices inv -> within targets w ->
    Outcome intent client inv mem h (applyVendorCap (gi_vendor inv) targets w note observed mem h).

Lemma applyHTTPCap_posts c w count observed (h : H) :
  let '(st, h') := applyHTTPCap c w count observed h in
  h' = (ApplyGPUControl c "gpu.set_power_cap_watts" w h).2 /\
  (gs_result st = "applied" <-> (ApplyGPUControl c "gpu.set_power_cap_watts" w h).1 = None).
Proof. unfold applyHTTPCap. by destruct (ApplyGPUControl _ _ _ h) as [[err|] h']. Qed.

Lemma capTargets_some vendor devices (h : H) targets from note :
  devices <> [] -> capTargets vendor devices h = inl (targets, from, note) -> targets <> [].
Proof.
  intros Hd. unfold capTargets. destruct (String.eqb vendor "nvidia").
  { destruct (nvidiaCapSets devices) as [[|s ss] u]; [done|]. by intros [= <- _ _]. }
  destruct (String.eqb vendor "amd").
  { destruct (amdgpuCapSets devices) as [[|s ss] u]; [done|]. by intros [= <- _ _]. }
  destruct (String.eqb vendor "intel"); [|by intros [= <- _ _]].
  destruct (intelGPURanged devices); [done|]. by intros [= <- _ _].
Qed.

Lemma applyToInventory_outcome intent client inv mem (h : H) :
  Forall listed (gi_devices inv) -> sensible intent (gi_devices inv) ->
  Outcome intent client inv mem h (applyToInventory FormatF1 intent client inv mem h).
Proof.
  intros Hl [Ha Hp]. unfold applyToInventory. destruct (String.eqb (gi_vendor inv) "none"); [by constructor|].
  destruct (gi_err inv) eqn:Eerr; [by constructor|].
  destruct (decide (gi_devices inv = [])) as [E|Hd]; [rewrite E; by constructor|].
  assert (forall A (a b : A), match gi_devices inv with [] => a | _ => b end = b) as -> by (intros; by destruct (gi_devices inv)).
  destruct (capTargets _ (gi_devices inv) h) as [[[targets from] note]|[msg obs]] eqn:Et; [|by constructor].
  pose proof (capTargets_some _ _ h _ _ _ Hd Et) as Hne.
  destruct (capTargets_checked _ _ h _ _ _ Et) as (Ht & Hf & Hc).
  destruct (resolveGPUCapPerDevice FormatF1 intent from) as [w|msg] eqn:Ew; [|by constructor].
  assert (within targets w) as Hw.
  { destruct (resolveGPUCapPerDevice_fits FormatF1 intent from w) as (Hpos & Hall & _); [by eapply Forall_sub|done|done| |].
    - intros p Ep. destruct (Hp p Ep) as (? & ? & Hpos). split_and!; [done|done|]. by eapply Forall_sub.
    - split; [done|]. intros d' Hin Hu Hm. rewrite Forall_forall in Hall. auto. }
  destruct client as [c|]; [|by econstructor].
  pose proof (applyHTTPCap_posts c w (Some (length targets)) (([("vendor", JStr (gi_vendor inv))] ++
    [("deviceCount", JInt (Z.of_nat (length targets)))]) ++ [("capWattsPerGpu", JNum w)])%list h) as Hpost.
  destruct (applyHTTPCap _ _ _ _ h) as [st h']. destruct Hpost. by apply (PostedResolved _ _ _ _ _ c w targets).
Qed.

(** C20. A GPU cap intent, on the listing of this reconcile, does one of three
    things: it leaves the host alone and says so; it posts one command to
    the control endpoint; or it writes one cap to devices of the listing. A
    cap resolved against devices is positive and above the known maximum of
    none of them; the endpoint alone may get watts that no listing was asked
    about, and then they are those of the intent. *)
Theorem applyGPUIntentFrom_outcome node intent client inv mem h :
  Forall listed (gi_devices inv) -> sensible intent (gi_devices inv) ->
  Outcome intent client inv mem h (applyGPUIntentFrom ParseFloat FormatF1 node (Some intent) client (Some inv) mem h).
Proof.
  intros Hl Hs. unfold applyGPUIntentFrom. destruct (_ && _); [by constructor|]. cbn [inventoryOf].
  pose proof (applyToInventory_outcome intent client inv mem h Hl Hs) as Hinv.
  destruct client as [c|]; [|done]. destruct (gpc_CapWattsPerGPU intent) as [w|] eqn:Ew; [|done]. destruct (positive w) eqn:Ep; [|done].
  pose proof (applyHTTPCap_posts c w None [("capWattsPerGpu", JNum w)] h) as Hpost.
  destruct (applyHTTPCap _ _ _ _ h) as [st h']. destruct Hpost. by apply (PostedAsked _ _ _ _ _ c w).
Qed.
End Within.

(** ** Two AMD cards, one asleep *)

#[local] Existing Instance integer_quantity.
#[local] Instance cardsSmi : NvidiaSmi Cards := fun _ c => (Some missingAttr, "", c).
#[local] Instance cardsRocm : RocmSmi Cards := {| rocm_run _ c := (Some missingAttr, "", c) |}.
#[local] Instance cardsEndpoint : ControlEndpoint Cards := {| http_post _ _ c := (inl "no endpoint", c) |}.

Definition watts250 : GPUPowerCap := mkPowerCap "perGpu" (Some (fofZ 250)) None.

Definition sampleInventory : gpuInventory := mkInventory "amd" sampleListing None.

Lemma applyGPUIntentFrom_outcome_witness :
  let mem := (listAmdDevices ∅ sampleCards).2 in
  let run := applyGPUIntentFrom (fun _ => None) (fun _ => "") None (Some watts250) None (Some sampleInventory) mem sampleCards in
  gs_result run.1.1 = "applied" /\ cd_log run.2 = cd_log sampleCapped.2 /\
  Outcome watts250 None sampleInventory mem sampleCards run.
Proof.
  cbv zeta. split; [vm_compute; reflexivity|]. split; [vm_compute; reflexivity|].
  apply (applyGPUIntentFrom_outcome (fun _ => "") (fun _ => None) None watts250 None sampleInventory).
  - repeat constructor; vm_compute; (reflexivity || (intros; reflexivity)).
  - split; [|by intros p Hp]. intros a [= <-]. vm_compute. reflexivity.
Defined.

(** With no listing of its own, the agent finds the cards' driver itself. *)
Example detected : (detectGPUVendor ∅ ∅ sampleCards).1.1 = "amd".
Proof. vm_compute. reflexivity. Qed.
