(* ===== verification/HostHardware.v ===== *)
(** * What the agent finds on its node: cmd/agent/main.go

    [discoverHardwareWith]: the CPU from node labels, /proc/cpuinfo and the
    RAPL zones, the GPUs through their vendor, the models the catalog knows,
    and the governors. The files governor discovery reads are a view of the
    host ([governorFiles]). What the run of a tool changes is the tool's, and
    the order of the runs is the code's. *)

From S2P Require Import Prelude GoString GoFloat Api Kube Resources Hwinv Inventory Host NvidiaDiscovery CpuDiscovery.
From S2P Require Import HostFS Dvfs RaplCap GpuDevices GpuSysfs GpuInventory GpuCap.

#[local] Open Scope string_scope.

(** src/cmd/agent/main.go:69-110 [HardwareInfo] *)
Record HardwareInfo := {
  hi_CPUVendor : string;
  hi_CPURawModel : string;
  hi_CPUModel : string;
  hi_CPUSockets : Z;
  hi_CPUTotalCores : Z;
  hi_CPUCoresPerSock : Z;
  hi_CPUDriverFamily : string;
  hi_CPUCapMinWatts : float64;
  hi_CPUCapMaxWatts : float64;
  hi_CPUCapKnown : bool;
  hi_CPUControl : bool;
  hi_CPUTelemetry : bool;
  hi_GPUVendors : list string;
  hi_GPUVendor : string;
  hi_GPURawModel : string;
  hi_GPUModel : string;
  hi_GPUCount : Z;
  hi_GPUPowerDomains : Z;
  hi_GPUCapMinWatts : float64;
  hi_GPUCapMaxWatts : float64;
  hi_GPUCapDefaultW : float64;
  hi_GPUCurrentCapW : float64;
  hi_GPUCapKnown : bool;
  hi_GPUControl : bool;
  hi_GPUTelemetry : bool;
  hi_GPUWarnings : list string;
  hi_Warnings : list string;
  hi_CPULandmarks : option Landmarks;
  hi_Governors : governorDiscovery;
  hi_GPUDevices : list GPUDevice;
  hi_GPUListErr : option ListError
}.

(** ** The CPU *)

(** src/cmd/agent/main.go:1873-1886 [normalizeCPUVendor] *)
Definition normalizeCPUVendor (raw : string) : string :=
  let v := TrimSpace raw in
  if String.eqb v "" then ""
  else if str_mem (ToUpper v) ["AUTHENTICAMD"; "AMD"] then "AuthenticAMD"
  else if str_mem (ToUpper v) ["GENUINEINTEL"; "INTEL"] then "GenuineIntel"
  else v.

(** src/cmd/agent/main.go:1863-1871 [discoverCPUVendor] *)
Definition discoverCPUVendor (nodeLabels : gmap string string) : string :=
  let v := normalizeCPUVendor (get_str nodeLabels "feature.node.kubernetes.io/cpu-vendor") in
  if negb (String.eqb v "") then v else normalizeCPUVendor (get_str nodeLabels "feature.node.kubernetes.io/cpu-model.vendor_id").

(** One line of cpuinfo: the first model name, and the sockets' ids.
    src/cmd/agent/main.go:1799-1812 [line] *)
Definition cpuinfoLine (acc : string * gset string) (line : string) : string * gset string :=
  let '(model, socketIDs) := acc in
  let '(key, value, found) := Cut line ":" in
  if negb found then acc
  else
    let key := TrimSpace key in
    let value := TrimSpace value in
    if String.eqb key "model name" then (if String.eqb model "" then value else model, socketIDs)
    else if String.eqb key "physical id" then (model, {[value]} ∪ socketIDs)
    else acc.

(** src/cmd/agent/main.go:1782-1786 [procCPUInfoPath, cpufreqDriverPath] *)
Definition procCPUInfoPath : string := "/proc/cpuinfo".
Definition cpufreqDriverPath : string := "/host-sys/devices/system/cpu/cpufreq/policy0/scaling_driver".

Section Cpu.
Context {H : Type} `{!HostFS H}.

(** src/cmd/agent/main.go:1792-1815 [readProcCPUInfo] *)
Definition readProcCPUInfo (h : H) : string * Z :=
  match fs_read procCPUInfoPath h with
  | None => ("", 0%Z)
  | Some data => let '(model, socketIDs) := foldl cpuinfoLine ("", ∅) (Split data newline) in (model, Z.of_nat (size socketIDs))
  end.

(** src/cmd/agent/main.go:1821-1831 [discoverCPURawModel] *)
Definition discoverCPURawModel (nodeLabels : gmap string string) (h : H) : string :=
  let v := firstNonEmpty (get_str nodeLabels <$>
    ["feature.node.kubernetes.io/cpu-model.name"; "joulie.io/hw.cpu-model"; "beta.kubernetes.io/instance-type"]) in
  if negb (String.eqb v "") then v else (readProcCPUInfo h).1.

(** src/cmd/agent/main.go:1833-1852 [discoverCPUSockets] *)
Definition discoverCPUSockets (nodeLabels : gmap string string) (h : H) : Z :=
  let labelled := filter (fun v => (0 < v)%Z) (ParseIntString ∘ get_str nodeLabels <$>
    ["feature.node.kubernetes.io/cpu-sockets"; "joulie.io/hw.cpu-sockets"]) in
  match labelled with
  | v :: _ => v
  | [] =>
      let sockets := (readProcCPUInfo h).2 in
      if (0 <? sockets)%Z then sockets else Z.of_nat (length (RAPLPackageZones h))
  end.

(** src/cmd/agent/main.go:2367-2373 [detectCPUDriverFamily] *)
Definition detectCPUDriverFamily (h : H) : string := match fs_read cpufreqDriverPath h with Some b => TrimSpace b | None => "" end.
End Cpu.

Section Node.
Context {Q : QuantityOps}.

(** src/cmd/agent/main.go:1766-1774 [cpuCoresFromNode] *)
Definition cpuCoresFromNode (node : Node) : Z := match n_Capacity node !! "cpu" with Some qty => Value qty | None => 0%Z end.

(** ** The GPUs *)

(** The first of the labels that name the board.
    src/cmd/agent/main.go:1684-1692 [labelModel] *)
Definition labelModel (nodeLabels : gmap string string) : string :=
  let label := get_str nodeLabels in
  firstNonEmpty [label "joulie.io/gpu.product"; GPUProductBase (label "nvidia.com/gpu.product"); label "amd.com/gpu.product-name";
    label "beta.amd.com/gpu.product-name"; label "amd.com/gpu.product"; label "gpu.intel.com/product"; label "amd.com/gpu.family"].

(** The zero value [GPUDevice{}]. *)
Definition noDevice : GPUDevice := mkGPU 0 "" "" fzero fzero fzero fzero fzero "" "" false "".

(** The device the range, the cap and control come from, and what is said of
    the others.
    src/cmd/agent/main.go:1694-1727 [ref] *)
Definition referenceGPU (vendor : string) (first : GPUDevice) (devices : list GPUDevice) : GPUDevice * list string :=
  if String.eqb vendor "amd" then
    (match (amdgpuCapSets devices).2 with d :: _ => d | [] => noDevice end, [])
  else if String.eqb vendor "intel" then
    (match intelGPURanged devices with d :: _ => d | [] => noDevice end, [])
  else if String.eqb vendor "nvidia" then
    let '(settable, unsupported) := nvidiaCapSets devices in
    (match settable with d :: _ => d | [] => mkGPU 0 "" "" fzero (g_CurrentCapWatts first) fzero fzero fzero "" "" false "" end,
     match unsupported with [] => [] | _ => [nvidiaUnsupportedNote unsupported] end)
  else (first, []).

Context {H : Type} `{!HostFS H} `{!SysfsHost H} `{!NvidiaSmi H} `{!RocmSmi H}.
Context {TF : ToolFailures H}.
Context (ParseFloat : string -> option float64) (FormatG : float64 -> string) (catalog : option Catalog) (governorFiles : H -> GovernorFiles).

(** The vendors the labels name, else the one that is detected.
    src/cmd/agent/main.go:1654-1670 [GPUVendors] *)
Definition gpuVendors (nodeLabels : gmap string string) (mem : CapMemory) (h : H) : list string * CapMemory * H :=
  let named := concat ((fun vh => if hasNFDGPUVendor nodeLabels vh.2 then [vh.1] else []) <$>
    [("nvidia", "10de"); ("amd", "1002"); ("intel", "8086")]) in
  match named with
  | [] =>
      let '(vendor, mem, h) := detectGPUVendor nodeLabels mem h in
      (if str_mem vendor ["nvidia"; "amd"] then [vendor] else [], mem, h)
  | _ => (named, mem, h)
  end.

(** src/cmd/agent/governor_discovery.go:195-201 [discoverCPULandmarks] *)
Definition discoverCPULandmarks (sys : Sys) : option Landmarks :=
  let lm := ReadLandmarks ParseFloat sys in
  if feq (lm_MinMHz lm) fzero && feq (lm_MaxBoostMHz lm) fzero && feq (lm_NominalMHz lm) fzero then None else Some lm.

(** The GPU half of a description. *)
Record GPUPart := mkGPUPart { gp_raw : string; gp_ref : GPUDevice; gp_warnings : list string; gp_known : bool; gp_telemetry : bool; gp_domains : Z }.

(** src/cmd/agent/main.go:1693-1745 [gpuDevices] *)
Definition gpuPart (nodeLabels : gmap string string) (vendor : string) (devices : list GPUDevice) (count : Z) : GPUPart :=
  match devices with
  | first :: _ =>
      let '(ref, warnings) := referenceGPU vendor first devices in
      mkGPUPart (firstNonEmpty [g_Product first; labelModel nodeLabels]) ref warnings (positive (g_MaxCapWatts ref)) true
        (if String.eqb vendor "amd" then Z.of_nat (length (amdgpuCapDevices devices)) else 0)
  | [] => mkGPUPart (labelModel nodeLabels) noDevice [] false (0 <? count)%Z 0
  end.

(** What the discovery of one tick leaves: the description, what the agent
    remembers of AMD caps, the cached facts and the host after its tools. *)
Record Found := mkFound { fd_hw : HardwareInfo; fd_mem : CapMemory; fd_facts : option nvidiaFactsCache; fd_host : H }.

(** src/cmd/agent/main.go:1628-1758 [discoverHardwareWith] *)
Definition discoverHardwareWith (node : Node) (now : Z) (gpuFacts : option nvidiaFactsCache) (mem : CapMemory) (h : H) : Found :=
  let nodeLabels := n_Labels node in
  let sockets := discoverCPUSockets nodeLabels h in
  let cores := cpuCoresFromNode node in
  let rawModel := discoverCPURawModel nodeLabels h in
  let family := detectCPUDriverFamily h in
  let range := readRAPLPackageCapRangeWatts h in
  let model := match MatchCPU catalog rawModel with Some (key, _) => key | None => "" end in
  let '(vendors, mem, h) := gpuVendors nodeLabels mem h in
  let '(vendor, mem, h) := detectGPUVendor nodeLabels mem h in
  let '(devices, listErr, mem, h) := listGPUDevices ParseFloat vendor mem h in
  let count := if bool_decide (devices = []) then nodeGPUCount (Some node) else Z.of_nat (length devices) in
  let g := gpuPart nodeLabels vendor devices count in
  let gpuModel := match MatchGPU catalog (gp_raw g) with Some (key, _) => key | None => "" end in
  let warn (cond : bool) w := if cond then [w] else [] in
  let files := governorFiles h in
  let '(governors, facts, h') := discoverGovernors FormatG ParseFloat files nodeLabels vendor (gp_raw g) devices now gpuFacts h in
  mkFound {|
    hi_CPUVendor := discoverCPUVendor nodeLabels; hi_CPURawModel := rawModel; hi_CPUModel := model;
    hi_CPUSockets := sockets; hi_CPUTotalCores := cores;
    hi_CPUCoresPerSock := if (0 <? sockets)%Z && (0 <? cores)%Z then cores `quot` sockets else 0;
    hi_CPUDriverFamily := family;
    hi_CPUCapMinWatts := match range with Some (_, minW) => minW | None => fzero end;
    hi_CPUCapMaxWatts := match range with Some (maxW, _) => maxW | None => fzero end;
    hi_CPUCapKnown := match range with Some _ => true | None => false end;
    hi_CPUControl := match range with Some _ => true | None => negb (String.eqb family "") end;
    hi_CPUTelemetry := true;
    hi_GPUVendors := vendors; hi_GPUVendor := vendor; hi_GPURawModel := gp_raw g; hi_GPUModel := gpuModel;
    hi_GPUCount := count; hi_GPUPowerDomains := gp_domains g;
    hi_GPUCapMinWatts := g_MinCapWatts (gp_ref g); hi_GPUCapMaxWatts := g_MaxCapWatts (gp_ref g);
    hi_GPUCapDefaultW := g_DefaultCapWatts (gp_ref g); hi_GPUCurrentCapW := g_CurrentCapWatts (gp_ref g);
    hi_GPUCapKnown := gp_known g; hi_GPUControl := gp_known g; hi_GPUTelemetry := gp_telemetry g;
    hi_GPUWarnings := gp_warnings g;
    hi_Warnings := (warn (String.eqb model "" && negb (String.eqb rawModel "")) "cpu model not recognized" ++
                    warn ((0 <? count)%Z && String.eqb gpuModel "" && negb (String.eqb (gp_raw g) "")) "gpu model not recognized")%list;
    hi_CPULandmarks := discoverCPULandmarks (gf_sys files);
    hi_Governors := governors; hi_GPUDevices := devices; hi_GPUListErr := listErr |}
  mem facts h'.
End Node.
