(* ===== verification/GovernorConfig.v ===== *)
(** * The governor policy: cmd/controller-manager/governor_config.go

    How the environment gives the governor configuration, and which CPU and
    GPU governor presets the controller manager writes for a node. The decoder
    of the JSON variable and [strconv.ParseFloat] are parameters; warnings are
    left out. *)

From S2P Require Import Prelude GoString GoFloat FloatFacts Api Env Inventory.

#[local] Open Scope string_scope.

(** src/cmd/controller-manager/governor_config.go:24-29 [governorControlOff, governorControlCPU, governorControlGPU, governorControlAll] *)
Definition governorControlOff : string := "off".
Definition governorControlCPU : string := "cpu".
Definition governorControlGPU : string := "gpu".
Definition governorControlAll : string := "all".

(** src/cmd/controller-manager/governor_config.go:35-39 [gpuGovernorModelPresets] *)
Record gpuGovernorModelPresets := {
  gmp_Performance : option string;
  gmp_Eco : option string;
  gmp_EcoCeilingPctOfMax : option float64
}.

(** src/cmd/controller-manager/governor_config.go:43-61 [governorConfig] *)
Record governorConfig := {
  control : string;
  cpuPerformancePreset : string;
  cpuEcoPreset : string;
  cpuEcoBoost : string;
  cpuOnGPUNodes : bool;
  gpuPerformancePreset : string;
  gpuEcoPreset : string;
  gpuCeilingPctOfMax : float64;
  gpuModelPresets : gmap string gpuGovernorModelPresets;
  gpuSustainedOnlyMultiGPU : bool
}.

(** src/pkg/governor/types.go:46-46 [DefaultCeilingPctOfMax] *)
Definition DefaultCeilingPctOfMax : float64 := fofZ 80.

(** src/cmd/controller-manager/governor_config.go:65-75 [defaultGovernorConfig] *)
Definition defaultGovernorConfig : governorConfig := {|
  control := governorControlOff;
  cpuPerformancePreset := CPUGovernorPresetPerformance;
  cpuEcoPreset := CPUGovernorPresetEfficiency;
  cpuEcoBoost := "";
  cpuOnGPUNodes := false;
  gpuPerformancePreset := "";
  gpuEcoPreset := GPUGovernorPresetEfficient;
  gpuCeilingPctOfMax := DefaultCeilingPctOfMax;
  gpuModelPresets := ∅;
  gpuSustainedOnlyMultiGPU := false
|}.

(** src/cmd/controller-manager/governor_config.go:132-134 [gpuGovernorPresetChoices] *)
Definition gpuGovernorPresetChoices : list string := "" :: GPUGovernorPresetValues.

(** The name of the variable only reaches the warning.
    src/cmd/controller-manager/governor_config.go:138-145 [checkGovernorPreset] *)
Definition checkGovernorPreset (value def : string) (accepted : list string) : string :=
  let v := ToLower (TrimSpace value) in
  if str_mem v accepted then v else def.

(** src/cmd/controller-manager/governor_config.go:159-161 [validCeilingPct] *)
Definition validCeilingPct (pct : float64) : bool := flt fzero pct && fle pct (fofZ 100).

(** One preset field of an entry: an invalid value reads as left out.
    src/cmd/controller-manager/governor_config.go:178-193 [preset] *)
Definition sanitizePreset (preset : option string) : option string :=
  p ← preset; let v := ToLower (TrimSpace p) in
  if str_mem v gpuGovernorPresetChoices then Some v else None.

(** src/cmd/controller-manager/governor_config.go:177-200 [model] *)
Definition sanitizeModel (m : gpuGovernorModelPresets) : gpuGovernorModelPresets := {|
  gmp_Performance := sanitizePreset (gmp_Performance m);
  gmp_Eco := sanitizePreset (gmp_Eco m);
  gmp_EcoCeilingPctOfMax :=
    pct ← gmp_EcoCeilingPctOfMax m; if validCeilingPct pct then Some pct else None
|}.

Section Load.
(** [strconv.ParseFloat(s, 64)] and [json.Unmarshal] into the map, [None] on
    an error. *)
Variable ParseFloat : string -> option float64.
Variable Unmarshal : string -> option (gmap string gpuGovernorModelPresets).

(** src/cmd/controller-manager/governor_config.go:163-202 [parseGPUGovernorModelPresets] *)
Definition parseGPUGovernorModelPresets (raw : string) : gmap string gpuGovernorModelPresets :=
  let raw := TrimSpace raw in
  if String.eqb raw "" then ∅
  else match Unmarshal raw with
       | None => ∅
       | Some out => sanitizeModel <$> out
       end.

(** src/cmd/controller-manager/governor_config.go:82-128 [loadGovernorConfig] *)
Definition loadGovernorConfig (env : Environ) : governorConfig :=
  let cfg := defaultGovernorConfig in
  let ctl := ToLower (envOrDefault env "GOVERNOR_CONTROL" (control cfg)) in
  let boost := ToLower (envOrDefault env "CPU_GOVERNOR_ECO_BOOST" "") in
  let ceiling := envOrDefault env "GPU_GOVERNOR_ECO_CEILING_PCT_OF_MAX" "" in
  {| control :=
       if str_mem ctl [governorControlOff; governorControlCPU; governorControlGPU; governorControlAll]
       then ctl else control cfg;
     cpuPerformancePreset :=
       checkGovernorPreset (envOrDefault env "CPU_GOVERNOR_PERFORMANCE_PRESET" (cpuPerformancePreset cfg))
         (cpuPerformancePreset cfg) CPUGovernorPresetValues;
     cpuEcoPreset :=
       checkGovernorPreset (envOrDefault env "CPU_GOVERNOR_ECO_PRESET" (cpuEcoPreset cfg))
         (cpuEcoPreset cfg) CPUGovernorPresetValues;
     cpuEcoBoost :=
       if negb (String.eqb boost "") then
         if str_mem boost CPUGovernorBoostValues then boost else cpuEcoBoost cfg
       else cpuEcoBoost cfg;
     cpuOnGPUNodes := boolEnv env "CPU_GOVERNOR_ON_GPU_NODES" (cpuOnGPUNodes cfg);
     gpuPerformancePreset :=
       match LookupEnv env "GPU_GOVERNOR_PERFORMANCE_PRESET" with
       | Some v => checkGovernorPreset v (gpuPerformancePreset cfg) gpuGovernorPresetChoices
       | None => gpuPerformancePreset cfg
       end;
     gpuEcoPreset :=
       match LookupEnv env "GPU_GOVERNOR_ECO_PRESET" with
       | Some v => checkGovernorPreset v (gpuEcoPreset cfg) gpuGovernorPresetChoices
       | None => gpuEcoPreset cfg
       end;
     gpuCeilingPctOfMax :=
       if negb (String.eqb ceiling "") then
         match ParseFloat ceiling with
         | Some pct => if validCeilingPct pct then pct else gpuCeilingPctOfMax cfg
         | None => gpuCeilingPctOfMax cfg
         end
       else gpuCeilingPctOfMax cfg;
     gpuModelPresets := parseGPUGovernorModelPresets (envOrDefault env "GPU_GOVERNOR_MODEL_PRESETS_JSON" "{}");
     gpuSustainedOnlyMultiGPU :=
       boolEnv env "GPU_GOVERNOR_SUSTAINED_ONLY_MULTI_GPU" (gpuSustainedOnlyMultiGPU cfg) |}.
End Load.

(** src/cmd/controller-manager/governor_config.go:204-206 [cpuEnabled] *)
Definition cpuEnabled (c : governorConfig) : bool :=
  String.eqb (control c) governorControlCPU || String.eqb (control c) governorControlAll.

(** src/cmd/controller-manager/governor_config.go:208-210 [gpuEnabled] *)
Definition gpuEnabled (c : governorConfig) : bool :=
  String.eqb (control c) governorControlGPU || String.eqb (control c) governorControlAll.

(** The entry of the first key the model map holds.
    src/cmd/controller-manager/governor_config.go:259-263 [gpuModelPresets] *)
Fixpoint modelEntry (c : governorConfig) (keys : list string) : option gpuGovernorModelPresets :=
  match keys with
  | [] => None
  | k :: rest =>
      match gpuModelPresets c !! TrimSpace k with
      | Some m => if String.eqb (TrimSpace k) "" then modelEntry c rest else Some m
      | None => modelEntry c rest
      end
  end.

(** src/cmd/controller-manager/governor_config.go:253-277 [gpuPresetFor] *)
Definition gpuPresetFor (c : governorConfig) (profile : string) (keys : list string) : string * float64 :=
  let perf := String.eqb profile ProfilePerformance in
  let preset := if perf then gpuPerformancePreset c else gpuEcoPreset c in
  match modelEntry c keys with
  | None => (preset, gpuCeilingPctOfMax c)
  | Some m =>
      let override := if perf then gmp_Performance m else gmp_Eco m in
      (default preset override, default (gpuCeilingPctOfMax c) (gmp_EcoCeilingPctOfMax m))
  end.

(** The CPU half.
    src/cmd/controller-manager/governor_config.go:293-315 [cpu] *)
Definition cpuGovernorIntent (c : governorConfig) (profile : string) (hasGPU : bool) (nh : NodeHW)
    : option CPUGovernorIntent :=
  if cpuEnabled c && (negb hasGPU || cpuOnGPUNodes c) then
    let '(preset, boost) :=
      if String.eqb profile ProfilePerformance then (cpuPerformancePreset c, "")
      else (cpuEcoPreset c, cpuEcoBoost c) in
    if String.eqb preset "" then None
    else if negb (str_mem preset (nh_CPUGovernorPresets nh)) then None
    else Some {| cgi_Preset := preset;
                 cgi_Boost := if negb (String.eqb boost "") && nh_CPUBoostAvailable nh then boost else "" |}
  else None.

(** The GPU half. [multiGPUPod] is the answer of the function of that name,
    [None] for nil; the code calls it for a sustained preset only.
    src/cmd/controller-manager/governor_config.go:317-342 [gpu] *)
Definition gpuGovernorIntent (c : governorConfig) (profile : string) (hasGPU : bool) (nh : NodeHW)
    (gpuProduct : string) (multiGPUPod : option bool) : option GPUGovernorIntent :=
  if gpuEnabled c && hasGPU then
    let '(preset, ceiling) := gpuPresetFor c profile [gpuProduct; nh_GPUModel nh; nh_GPURawModel nh] in
    let preset :=
      if String.eqb preset GPUGovernorPresetSustained && gpuSustainedOnlyMultiGPU c &&
         negb (default false multiGPUPod) then "" else preset in
    if String.eqb preset "" then None
    else if negb (str_mem preset (nh_GPUGovernorPresets nh)) && negb (nh_GPUGovernorGap nh) then None
    else Some {| ggi_Preset := preset;
                 ggi_ComputeClockCeilingPctOfMax :=
                   if String.eqb preset GPUGovernorPresetEfficient then Some ceiling else None |}
  else None.

(** src/cmd/controller-manager/governor_config.go:292-343 [governorIntents] *)
Definition governorIntents (c : governorConfig) (profile : string) (hasGPU : bool) (nh : NodeHW)
    (gpuProduct : string) (multiGPUPod : option bool) : option CPUGovernorIntent * option GPUGovernorIntent :=
  (cpuGovernorIntent c profile hasGPU nh, gpuGovernorIntent c profile hasGPU nh gpuProduct multiGPUPod).

(** ** The configuration the environment gives *)

(** Every field holds a value the NodeTwin schema accepts. *)
Record WellFormed (c : governorConfig) : Prop := {
  wf_control : control c ∈ [governorControlOff; governorControlCPU; governorControlGPU; governorControlAll];
  wf_cpuPerf : cpuPerformancePreset c ∈ CPUGovernorPresetValues;
  wf_cpuEco : cpuEcoPreset c ∈ CPUGovernorPresetValues;
  wf_boost : cpuEcoBoost c ∈ "" :: CPUGovernorBoostValues;
  wf_gpuPerf : gpuPerformancePreset c ∈ gpuGovernorPresetChoices;
  wf_gpuEco : gpuEcoPreset c ∈ gpuGovernorPresetChoices;
  wf_ceiling : validCeilingPct (gpuCeilingPctOfMax c) = true;
  wf_models m e : gpuModelPresets c !! m = Some e ->
    (forall p, gmp_Performance e = Some p -> p ∈ gpuGovernorPresetChoices) /\
    (forall p, gmp_Eco e = Some p -> p ∈ gpuGovernorPresetChoices) /\
    (forall pct, gmp_EcoCeilingPctOfMax e = Some pct -> validCeilingPct pct = true)
}.

Lemma checkGovernorPreset_in (value def : string) (accepted : list string) :
  def ∈ accepted -> checkGovernorPreset value def accepted ∈ accepted.
Proof. intros Hd. unfold checkGovernorPreset. destruct (str_mem _ _) eqn:E; [by apply str_mem_In|done]. Qed.

Lemma sanitizePreset_in (preset : option string) (p : string) :
  sanitizePreset preset = Some p -> p ∈ gpuGovernorPresetChoices.
Proof.
  destruct preset as [q|]; [|done]. cbn -[str_mem]. destruct (str_mem _ _) eqn:E; [|done].
  intros [= <-]. by apply str_mem_In.
Qed.

Lemma sanitizeModel_wf (m : gpuGovernorModelPresets) :
  (forall p, gmp_Performance (sanitizeModel m) = Some p -> p ∈ gpuGovernorPresetChoices) /\
  (forall p, gmp_Eco (sanitizeModel m) = Some p -> p ∈ gpuGovernorPresetChoices) /\
  (forall pct, gmp_EcoCeilingPctOfMax (sanitizeModel m) = Some pct -> validCeilingPct pct = true).
Proof.
  split; [|split]; [by apply sanitizePreset_in|by apply sanitizePreset_in|].
  intros pct. cbn. destruct (gmp_EcoCeilingPctOfMax m) as [v|]; [|done]. cbn.
  destruct (validCeilingPct v) eqn:E; [|done]. by intros [= <-].
Qed.

Lemma loadGovernorConfig_wf PF UM (env : Environ) : WellFormed (loadGovernorConfig PF UM env).
Proof.
  unfold loadGovernorConfig. split; cbn [control cpuPerformancePreset cpuEcoPreset cpuEcoBoost
    gpuPerformancePreset gpuEcoPreset gpuCeilingPctOfMax gpuModelPresets].
  - destruct (str_mem _ _) eqn:E; [by apply str_mem_In|by left].
  - apply checkGovernorPreset_in. by_decide.
  - apply checkGovernorPreset_in. by_decide.
  - destruct (negb _); [|by left]. destruct (str_mem _ _) eqn:E; [right; by apply str_mem_In|by left].
  - destruct (LookupEnv _ _); [|by left]. apply checkGovernorPreset_in. by_decide.
  - destruct (LookupEnv _ _); [apply checkGovernorPreset_in|]; by_decide.
  - destruct (negb _); [|by vm_compute]. destruct (PF _) as [pct|]; [|by vm_compute].
    destruct (validCeilingPct pct) eqn:E; [done|by vm_compute].
  - intros m e. unfold parseGPUGovernorModelPresets. destruct (String.eqb _ _); [by rewrite lookup_empty|].
    destruct (UM _) as [out|]; [|by rewrite lookup_empty].
    rewrite lookup_fmap, fmap_Some. intros (x & _ & ->). apply sanitizeModel_wf.
Qed.

Lemma modelEntry_Some (c : governorConfig) (keys : list string) e :
  modelEntry c keys = Some e -> exists k, k ∈ keys /\ TrimSpace k <> "" /\ gpuModelPresets c !! TrimSpace k = Some e.
Proof.
  induction keys as [|k keys IH]; cbn; [done|]. destruct (gpuModelPresets c !! TrimSpace k) as [m|] eqn:E.
  - destruct (String.eqb (TrimSpace k) "") eqn:Ek.
    + intros H. destruct (IH H) as (k' & ? & ?). exists k'. split; [by right|done].
    + intros [= ->]. exists k. apply String.eqb_neq in Ek. split; [by left|done].
  - intros H. destruct (IH H) as (k' & ? & ?). exists k'. split; [by right|done].
Qed.

Lemma gpuPresetFor_wf (c : governorConfig) (profile : string) (keys : list string) :
  WellFormed c ->
  (gpuPresetFor c profile keys).1 ∈ gpuGovernorPresetChoices /\
  validCeilingPct (gpuPresetFor c profile keys).2 = true.
Proof.
  intros W. unfold gpuPresetFor. destruct (modelEntry c keys) as [m|] eqn:E; cbn.
  - apply modelEntry_Some in E as (k & _ & _ & Hm). destruct (wf_models c W _ _ Hm) as (Hp & He & Hc).
    split; [|destruct (gmp_EcoCeilingPctOfMax m); cbn; [by apply Hc|apply W]].
    destruct (String.eqb profile ProfilePerformance); cbn.
    + destruct (gmp_Performance m); cbn; [by apply Hp|apply W].
    + destruct (gmp_Eco m); cbn; [by apply He|apply W].
  - destruct (String.eqb profile ProfilePerformance); split; apply W.
Qed.

(** Governor control is turned on only by the words that say so, in any case:
    unset, empty or a typo leaves it off, and then no governor is written. *)
Theorem loadGovernorConfig_switch PF UM (env : Environ) :
  let c := loadGovernorConfig PF UM env in
  let word := ToLower (TrimSpace (Getenv env "GOVERNOR_CONTROL")) in
  (cpuEnabled c = true <-> word = "cpu" \/ word = "all") /\
  (gpuEnabled c = true <-> word = "gpu" \/ word = "all") /\
  forall profile hasGPU nh product multi,
    word ∉ ["cpu"; "gpu"; "all"] -> governorIntents c profile hasGPU nh product multi = (None, None).
Proof.
  intros c word.
  assert (control c = word \/ (control c = "off" /\ word ∉ ["cpu"; "gpu"; "all"])) as Hc.
  { unfold c, loadGovernorConfig. cbn [control]. unfold envOrDefault. fold word.
    destruct (String.eqb (TrimSpace (Getenv env "GOVERNOR_CONTROL")) "") eqn:E.
    - right. apply String.eqb_eq in E. unfold word. rewrite E. split; [done|by_decide].
    - fold word. destruct (str_mem word _) eqn:Em; [by left|right]. split; [done|].
      intros H. apply not_true_iff_false in Em. apply Em, str_mem_In. by right. }
  assert (cpuEnabled c = true <-> word = "cpu" \/ word = "all") as H1.
  { unfold cpuEnabled. rewrite orb_true_iff, !String.eqb_eq. destruct Hc as [->|[-> Hw]]; [done|].
    split; [by intros [?|?]|]. intros [-> | ->]; exfalso; apply Hw; by_decide. }
  assert (gpuEnabled c = true <-> word = "gpu" \/ word = "all") as H2.
  { unfold gpuEnabled. rewrite orb_true_iff, !String.eqb_eq. destruct Hc as [->|[-> Hw]]; [done|].
    split; [by intros [?|?]|]. intros [-> | ->]; exfalso; apply Hw; by_decide. }
  split; [exact H1|]. split; [exact H2|]. intros profile hasGPU nh product multi Hw.
  unfold governorIntents, cpuGovernorIntent, gpuGovernorIntent.
  destruct (cpuEnabled c) eqn:E1; [exfalso; apply Hw; destruct (proj1 H1 eq_refl) as [-> | ->]; by_decide|].
  destruct (gpuEnabled c) eqn:E2; [exfalso; apply Hw; destruct (proj1 H2 eq_refl) as [-> | ->]; by_decide|].
  done.
Qed.

(** ** What is written for a node *)

Lemma cpuGovernorIntent_Some (c : governorConfig) profile hasGPU nh i :
  cpuGovernorIntent c profile hasGPU nh = Some i <->
  let perf := String.eqb profile ProfilePerformance in
  let preset := if perf then cpuPerformancePreset c else cpuEcoPreset c in
  let boost := if perf then "" else cpuEcoBoost c in
  cpuEnabled c = true /\ (hasGPU = true -> cpuOnGPUNodes c = true) /\
  preset <> "" /\ preset ∈ nh_CPUGovernorPresets nh /\
  i = {| cgi_Preset := preset; cgi_Boost := if nh_CPUBoostAvailable nh then boost else "" |}.
Proof.
  unfold cpuGovernorIntent. cbv zeta.
  set (perf := String.eqb profile ProfilePerformance).
  transitivity (
    let preset := if perf then cpuPerformancePreset c else cpuEcoPreset c in
    let boost := if perf then "" else cpuEcoBoost c in
    (if cpuEnabled c && (negb hasGPU || cpuOnGPUNodes c) then
      if String.eqb preset "" then None
      else if negb (str_mem preset (nh_CPUGovernorPresets nh)) then None
      else Some {| cgi_Preset := preset;
                   cgi_Boost := if negb (String.eqb boost "") && nh_CPUBoostAvailable nh then boost else "" |}
     else None) = Some i); [by destruct perf|].
  cbv zeta. generalize (if perf then cpuPerformancePreset c else cpuEcoPreset c) as preset.
  generalize (if perf then "" else cpuEcoBoost c) as boost. intros boost preset.
  rewrite <- str_mem_In, <- (String.eqb_neq preset "").
  assert ((if negb (String.eqb boost "") && nh_CPUBoostAvailable nh then boost else "") =
          (if nh_CPUBoostAvailable nh then boost else "")) as ->.
  { destruct (String.eqb boost "") eqn:E; [|by destruct (nh_CPUBoostAvailable nh)].
    apply String.eqb_eq in E as ->. by destruct (nh_CPUBoostAvailable nh). }
  destruct (cpuEnabled c), hasGPU, (cpuOnGPUNodes c), (String.eqb preset ""),
    (str_mem preset (nh_CPUGovernorPresets nh)); cbn; (split; [try done|]); naive_solver.
Qed.

Lemma gpuGovernorIntent_Some (c : governorConfig) profile hasGPU nh product multi i :
  gpuGovernorIntent c profile hasGPU nh product multi = Some i <->
  let pc := gpuPresetFor c profile [product; nh_GPUModel nh; nh_GPURawModel nh] in
  gpuEnabled c = true /\ hasGPU = true /\ pc.1 <> "" /\
  (pc.1 = GPUGovernorPresetSustained -> gpuSustainedOnlyMultiGPU c = true -> multi = Some true) /\
  (pc.1 ∈ nh_GPUGovernorPresets nh \/ nh_GPUGovernorGap nh = true) /\
  i = {| ggi_Preset := pc.1;
         ggi_ComputeClockCeilingPctOfMax :=
           if String.eqb pc.1 GPUGovernorPresetEfficient then Some pc.2 else None |}.
Proof.
  unfold gpuGovernorIntent. cbv zeta. destruct (gpuPresetFor _ _ _) as [preset ceiling]. cbn [fst snd].
  rewrite <- str_mem_In, <- (String.eqb_neq preset ""), <- (String.eqb_eq preset GPUGovernorPresetSustained).
  destruct (gpuEnabled c), hasGPU; cbn [andb]; try by intuition congruence.
  destruct (String.eqb preset GPUGovernorPresetSustained), (gpuSustainedOnlyMultiGPU c), multi as [[|]|];
    cbn [default from_option id andb negb String.eqb]; try by intuition congruence.
  all: destruct (String.eqb preset ""); try by intuition congruence.
  all: destruct (str_mem preset _), (nh_GPUGovernorGap nh); cbn [andb negb]; intuition congruence.
Qed.

(** Whatever the environment holds and whatever a node reports, a CPU governor
    is written only with a preset of the schema that the node lists, on a GPU
    node only when CPU_GOVERNOR_ON_GPU_NODES says so, and with a boost word
    only for a node that has a boost control and does not run performance; a
    GPU governor only on a GPU node, with a preset of the schema the node
    lists (or in a discovery gap), with a ceiling in (0, 100] exactly when the
    preset is efficient, and sustained under the multi-GPU rule only while
    such a pod runs. *)
Theorem governorIntents_safe PF UM (env : Environ) profile hasGPU nh product multi :
  let c := loadGovernorConfig PF UM env in
  let '(cpu, gpu) := governorIntents c profile hasGPU nh product multi in
  (forall i, cpu = Some i ->
     cgi_Preset i ∈ CPUGovernorPresetValues /\ cgi_Preset i ∈ nh_CPUGovernorPresets nh /\
     (hasGPU = true -> cpuOnGPUNodes c = true) /\
     (cgi_Boost i <> "" ->
        cgi_Boost i ∈ CPUGovernorBoostValues /\ nh_CPUBoostAvailable nh = true /\ profile <> ProfilePerformance)) /\
  (forall i, gpu = Some i ->
     hasGPU = true /\ ggi_Preset i ∈ GPUGovernorPresetValues /\
     (ggi_Preset i ∈ nh_GPUGovernorPresets nh \/ nh_GPUGovernorGap nh = true) /\
     (match ggi_ComputeClockCeilingPctOfMax i with
      | Some pct => ggi_Preset i = GPUGovernorPresetEfficient /\ validCeilingPct pct = true
      | None => ggi_Preset i <> GPUGovernorPresetEfficient
      end) /\
     (ggi_Preset i = GPUGovernorPresetSustained -> gpuSustainedOnlyMultiGPU c = true -> multi = Some true)).
Proof.
  intros c. pose proof (loadGovernorConfig_wf PF UM env) as W. fold c in W. clearbody c.
  unfold governorIntents. split; intros i H.
  - apply cpuGovernorIntent_Some in H. cbv zeta in H.
    destruct H as (_ & Hg & _ & Hl & ->). cbn [cgi_Preset cgi_Boost].
    destruct (String.eqb profile ProfilePerformance) eqn:E.
    + split; [apply W|]. split; [done|]. split; [done|]. by destruct (nh_CPUBoostAvailable nh).
    + apply String.eqb_neq in E. split; [apply W|]. split; [done|]. split; [done|].
      destruct (nh_CPUBoostAvailable nh); [|done]. intros Hb.
      pose proof (wf_boost c W) as [?|?]%elem_of_cons; done.
  - apply gpuGovernorIntent_Some in H. cbv zeta in H.
    destruct (gpuPresetFor_wf c profile [product; nh_GPUModel nh; nh_GPURawModel nh] W) as [Hp Hc].
    destruct H as (_ & Hg & Hn & Hs & Hl & ->). cbn [ggi_Preset ggi_ComputeClockCeilingPctOfMax].
    destruct (gpuPresetFor _ _ _) as [preset ceiling]. cbn [fst snd] in *.
    apply elem_of_cons in Hp as [->|Hp]; [done|].
    split; [done|]. split; [done|]. split; [done|]. split; [|done].
    destruct (String.eqb preset _) eqn:E; reflect_bools; done.
Qed.

(** A configured preset that the node lists is written: the profile's CPU
    preset with the eco boost word where the node has a boost control, and the
    GPU preset of the profile, from the first key the model map holds or else
    the environment, with its ceiling. *)
Theorem governorIntents_written (c : governorConfig) profile hasGPU nh product multi :
  let '(cpu, gpu) := governorIntents c profile hasGPU nh product multi in
  let perf := bool_decide (profile = ProfilePerformance) in
  (forall preset, preset = (if perf then cpuPerformancePreset c else cpuEcoPreset c) ->
     cpuEnabled c = true -> hasGPU = false \/ cpuOnGPUNodes c = true ->
     preset <> "" -> preset ∈ nh_CPUGovernorPresets nh ->
     cpu = Some {| cgi_Preset := preset;
                   cgi_Boost := if nh_CPUBoostAvailable nh && negb perf then cpuEcoBoost c else "" |}) /\
  (forall preset ceiling k e before after,
     [product; nh_GPUModel nh; nh_GPURawModel nh] = (before ++ k :: after)%list ->
     (forall k', k' ∈ before -> TrimSpace k' = "" \/ gpuModelPresets c !! TrimSpace k' = None) ->
     TrimSpace k <> "" -> gpuModelPresets c !! TrimSpace k = Some e ->
     preset = (if perf then default (gpuPerformancePreset c) (gmp_Performance e)
               else default (gpuEcoPreset c) (gmp_Eco e)) ->
     ceiling = default (gpuCeilingPctOfMax c) (gmp_EcoCeilingPctOfMax e) ->
     gpuEnabled c = true -> hasGPU = true -> preset <> "" ->
     preset ∈ nh_GPUGovernorPresets nh \/ nh_GPUGovernorGap nh = true ->
     multi = Some true \/ gpuSustainedOnlyMultiGPU c = false ->
     gpu = Some {| ggi_Preset := preset;
                   ggi_ComputeClockCeilingPctOfMax :=
                     if bool_decide (preset = GPUGovernorPresetEfficient) then Some ceiling else None |}).
Proof.
  assert (forall a b : string, bool_decide (a = b) = String.eqb a b) as Hbd.
  { intros a b. destruct (String.eqb a b) eqn:E; reflect_bools; [by apply bool_decide_eq_true|by apply bool_decide_eq_false]. }
  unfold governorIntents. rewrite Hbd. split.
  - intros preset -> He Hg Hn Hl. apply cpuGovernorIntent_Some. cbv zeta.
    repeat split; try done; [naive_solver|].
    by destruct (nh_CPUBoostAvailable nh), (String.eqb profile ProfilePerformance).
  - intros preset ceiling k e before after Hk Hb Hk0 Hm Hp Hc He Hg Hn Hl Hmulti.
    assert (modelEntry c [product; nh_GPUModel nh; nh_GPURawModel nh] = Some e) as Hent.
    { rewrite Hk. clear Hk. induction before as [|k' before IH]; cbn.
      - rewrite Hm. by apply String.eqb_neq in Hk0 as ->.
      - rewrite IH by (intros; apply Hb; by right). destruct (Hb k' ltac:(by left)) as [->| ->]; [|done].
        by destruct (gpuModelPresets c !! ""). }
    apply gpuGovernorIntent_Some. cbv zeta.
    assert (gpuPresetFor c profile [product; nh_GPUModel nh; nh_GPURawModel nh] = (preset, ceiling)) as ->.
    { unfold gpuPresetFor. rewrite Hent, Hp, Hc. by destruct (String.eqb profile ProfilePerformance). }
    cbn [fst snd]. rewrite Hbd. split; [done|]. split; [done|]. split; [done|]. split; [|by split].
    intros _ Hs. destruct Hmulti; congruence.
Qed.

(** A two-GPU node under a configuration that turns governors on everywhere
    and holds data paths only for multi-GPU pods. *)
Definition sampleEnv : Environ :=
  {["GOVERNOR_CONTROL" := " All"; "CPU_GOVERNOR_ON_GPU_NODES" := "yes"; "CPU_GOVERNOR_ECO_BOOST" := "off";
    "GPU_GOVERNOR_PERFORMANCE_PRESET" := "sustained"; "GPU_GOVERNOR_SUSTAINED_ONLY_MULTI_GPU" := "1";
    "GPU_GOVERNOR_MODEL_PRESETS_JSON" := "{...}"]}.

Definition sampleModels : gmap string gpuGovernorModelPresets :=
  {["NVIDIA-H100" := {| gmp_Performance := Some "Peak "; gmp_Eco := Some "bogus";
                        gmp_EcoCeilingPctOfMax := Some (fofZ 70) |}]}.

Definition sampleConfig : governorConfig :=
  loadGovernorConfig (fun _ => None) (fun _ => Some sampleModels) sampleEnv.

Definition sampleHW : NodeHW := parseNodeHardware {|
  Crd.cnh_Name := "n1"; Crd.cnh_NodeName := "n1";
  Crd.cnh_CPU := Some {| Crd.cc_RawModel := ""; Crd.cc_Model := ""; Crd.cc_Sockets := 2; Crd.cc_TotalCores := 64;
    Crd.cc_CapRange := None; Crd.cc_ControlAvailable := true;
    Crd.cc_Governor := Some {| Crd.cg_Presets := ["performance"; "efficiency"]; Crd.cg_Boost := true;
                               Crd.cg_Mechanism := ""; Crd.cg_Baseline := false |} |};
  Crd.cnh_GPU := Some {| Crd.cgp_Present := true; Crd.cgp_RawModel := "NVIDIA-H100"; Crd.cgp_Model := "";
    Crd.cgp_Vendor := "nvidia"; Crd.cgp_Count := 2; Crd.cgp_PowerDomains := 0; Crd.cgp_CapRangePerGPU := None;
    Crd.cgp_ControlAvailable := true;
    Crd.cgp_Governor := Some {| Crd.cg_Presets := ["auto"; "efficient"; "sustained"]; Crd.cg_Boost := false;
                                Crd.cg_Mechanism := "nvidia-smi"; Crd.cg_Baseline := true |} |};
  Crd.cnh_MemoryTotalBytes := None; Crd.cnh_QualityWarnings := None; Crd.cnh_UpdatedAt := "" |}.

Example governorIntents_written_witness :
  (governorIntents sampleConfig ProfileEco true sampleHW "" (Some false)).1 =
    Some {| cgi_Preset := "efficiency"; cgi_Boost := "off" |} /\
  (governorIntents sampleConfig ProfileEco true sampleHW "" (Some true)).2 =
    Some {| ggi_Preset := "efficient"; ggi_ComputeClockCeilingPctOfMax := Some (fofZ 70) |}.
Proof.
  split.
  - apply (governorIntents_written sampleConfig ProfileEco true sampleHW "" (Some false))
      with (preset := "efficiency"); [reflexivity|reflexivity|right; reflexivity|discriminate|by_decide].
  - apply (governorIntents_written sampleConfig ProfileEco true sampleHW "" (Some true))
      with (preset := "efficient") (ceiling := fofZ 70) (k := "NVIDIA-H100") (e := sanitizeModel {| gmp_Performance := Some "Peak "; gmp_Eco := Some "bogus";
                        gmp_EcoCeilingPctOfMax := Some (fofZ 70) |}) (before := [""; ""]) (after := []);
      try (vm_compute; reflexivity).
    + intros k' Hk'. left. apply elem_of_cons in Hk' as [->|Hk']; [reflexivity|].
      apply elem_of_cons in Hk' as [->|Hk']; [reflexivity|]. by apply not_elem_of_nil in Hk'.
    + discriminate.
    + discriminate.
    + left. by_decide.
    + left. reflexivity.
Defined.
