(* ===== verification/Caps.v ===== *)
(** * Cap intents of a node: cmd/controller-manager/main.go

    The watt cap of a CPU and the cap intent of the GPUs at a profile, from
    the ranges the agent reports, the hardware catalog or the configured model
    caps, and the power estimate the rack totals use. *)

From S2P Require Import Prelude GoString GoFloat FloatFacts Api Crd Hwinv Resources Policy Kube Env Inventory.

#[local] Open Scope string_scope.

(** src/cmd/controller-manager/main.go:75-78 [GPUModelCaps] *)
Record GPUModelCaps := { MinCapWatts : float64; MaxCapWatts : float64 }.

(** src/cmd/controller-manager/main.go:841-846 [capOptions] *)
Record capOptions := { cpuCapsOnUncappableGPUNodes : bool }.

(** src/cmd/controller-manager/main.go:848-852 [loadCapOptions] *)
Definition loadCapOptions (env : Environ) : capOptions := {|
  cpuCapsOnUncappableGPUNodes := boolEnv env "CPU_ECO_CAP_ON_UNCAPPABLE_GPU_NODES" false
|}.

(** [json.Unmarshal] into the map, [None] on an error.
    src/cmd/controller-manager/main.go:1064-1075 [parseGPUModelCaps] *)
Definition parseGPUModelCaps (Unmarshal : string -> option (gmap string GPUModelCaps)) (raw : string)
    : gmap string GPUModelCaps :=
  let raw := TrimSpace raw in
  if String.eqb raw "" then ∅ else default ∅ (Unmarshal raw).

(** The two assignments of a clamp, in the order they are written. *)
Definition raiseTo (lo x : float64) : float64 := if flt x lo then lo else x.
Definition lowerTo (hi x : float64) : float64 := if flt hi x then hi else x.

Definition byProfile {A} (profile : string) (perf eco : A) : A :=
  if String.eqb profile ProfilePerformance then perf else eco.

(** src/cmd/controller-manager/main.go:880-924 [computeAbsoluteCPUCap] *)
Definition computeAbsoluteCPUCap (profile : string) (nh : NodeHW) (catalog : option Catalog)
    (perfCap ecoCap : float64) : option float64 :=
  if nh_CPUCapKnown nh && flt fzero (nh_CPUCapMaxWatts nh) then
    let target := byProfile profile perfCap ecoCap in
    let target := raiseTo (nh_CPUCapMinWatts nh) target in
    Some (lowerTo (nh_CPUCapMaxWatts nh) target)
  else
    match catalog with
    | None => None
    | Some _ =>
        let m := MatchNode catalog {|
          nd_CPUModelRaw := nh_CPURawModel nh; nd_CPUVendor := "";
          nd_CPUSockets := nh_CPUSockets nh; nd_CPUCores := nh_CPUTotalCores nh;
          nd_GPUModelRaw := ""; nd_GPUVendor := ""; nd_GPUCount := 0 |} in
        match mr_CPU m with
        | None => None
        | Some (_, spec) =>
            let maxW := cos_TDPW (cms_Official spec) in
            let maxW := if (0 <? nh_CPUSockets nh)%Z then fmul maxW (fofZ (nh_CPUSockets nh)) else maxW in
            if fle maxW fzero then None
            else
              let target := byProfile profile perfCap ecoCap in
              let target := lowerTo maxW target in
              let minW := fmul maxW SocketCapMinFractionOfTDP in
              Some (raiseTo minW target)
        end
    end.

(** src/cmd/controller-manager/main.go:991-1029 [computeInventoryGPUCap] *)
Definition computeInventoryGPUCap (profile : string) (nh : NodeHW) (catalog : option Catalog)
    (gpuPerfCapPct gpuEcoCapPct : float64) : option float64 :=
  let capPct := byProfile profile gpuPerfCapPct gpuEcoCapPct in
  if fle capPct fzero then None
  else if nh_GPUCapKnown nh && flt fzero (nh_GPUCapMaxWatts nh) then
    let abs := fmul (fdiv capPct (fofZ 100)) (nh_GPUCapMaxWatts nh) in
    let abs := if flt abs (nh_GPUCapMinWatts nh) && flt fzero (nh_GPUCapMinWatts nh)
               then nh_GPUCapMinWatts nh else abs in
    Some (lowerTo (nh_GPUCapMaxWatts nh) abs)
  else
    match catalog with
    | None => None
    | Some _ =>
        let m := MatchNode catalog {|
          nd_CPUModelRaw := ""; nd_CPUVendor := ""; nd_CPUSockets := 0; nd_CPUCores := 0;
          nd_GPUModelRaw := nh_GPURawModel nh; nd_GPUVendor := ""; nd_GPUCount := nh_GPUCount nh |} in
        match mr_GPU m with
        | None => None
        | Some (_, spec) =>
            let maxW := gos_MaxBoardPowerW (gms_Official spec) in
            if fle maxW fzero then None
            else
              let minW := gos_MinBoardPowerW (gms_Official spec) in
              let minW := if fle minW fzero then fmul maxW (flit 5 10) else minW in
              let abs := fmul (fdiv capPct (fofZ 100)) maxW in
              Some (lowerTo maxW (raiseTo minW abs))
        end
    end.

(** src/cmd/controller-manager/main.go:1239-1248 [estimateNodePowerW] *)
Definition estimateNodePowerW (nh : NodeHW) (cpuCapPct gpuCapPct : float64) : float64 :=
  let powerW := fzero in
  let powerW :=
    if flt fzero (nh_CPUCapMaxWatts nh)
    then fadd powerW (fmul (fmul (nh_CPUCapMaxWatts nh) (fofZ (nh_CPUSockets nh))) (fdiv cpuCapPct (fofZ 100)))
    else powerW in
  if flt fzero (nh_GPUCapMaxWatts nh)
  then fadd powerW (fmul (fmul (nh_GPUCapMaxWatts nh)
         (fofZ (GPUPowerDomains (nh_GPUCount nh) (nh_GPUPowerDomains nh)))) (fdiv gpuCapPct (fofZ 100)))
  else powerW.

Section Intent.
Context `{QuantityOps}.

(** The cap from the configured model caps, when the product has one.
    src/cmd/controller-manager/main.go:970-987 [gpuModelCaps] *)
Definition modelGPUCap (capPct : float64) (gpuModelCaps : gmap string GPUModelCaps) (product : string) : option float64 :=
  if String.eqb product "" then None
  else
    match gpuModelCaps !! product with
    | None => None
    | Some caps =>
        if flt fzero (MaxCapWatts caps) then
          let minW := MinCapWatts caps in
          let minW := if fle minW fzero then fone else minW in
          let abs := fmul (fdiv capPct (fofZ 100)) (MaxCapWatts caps) in
          Some (lowerTo (MaxCapWatts caps) (raiseTo minW abs))
        else None
    end.

(** src/cmd/controller-manager/main.go:938-989 [computeGPUIntentForNodeWithHardware] *)
Definition computeGPUIntentForNodeWithHardware (node : Node) (profile : string)
    (gpuPerfCapPct gpuEcoCapPct : float64) (gpuWriteAbsolute : bool)
    (gpuModelCaps : gmap string GPUModelCaps) (gpuProductLabelKeys : list string)
    (nh : NodeHW) (catalog : option Catalog) : option GPUCapIntent :=
  if (nh_GPUCount nh <=? 0)%Z && (discoverGPUCount node <=? 0)%Z then None
  else
    let capPct := byProfile profile gpuPerfCapPct gpuEcoCapPct in
    if fle capPct fzero then None
    else
      let intent watts := {| gci_Scope := "perGpu"; gci_CapWattsPerGPU := watts; gci_CapPctOfMax := Some capPct |} in
      if negb gpuWriteAbsolute then Some (intent None)
      else
        match computeInventoryGPUCap profile nh catalog gpuPerfCapPct gpuEcoCapPct with
        | Some abs => Some (intent (Some abs))
        | None => Some (intent (modelGPUCap capPct gpuModelCaps (resolveGPUProduct (n_Labels node) gpuProductLabelKeys)))
        end.
End Intent.

(** ** Clamping *)

Section Clamp.
Context (lo hi : float64) (Hlh : fle lo hi = true).

Lemma raise_lower (x : float64) : is_nan x = false -> raiseTo lo (lowerTo hi x) = lowerTo hi (raiseTo lo x).
Proof.
  intros Hx. unfold raiseTo, lowerTo.
  destruct (flt hi x) eqn:E1, (flt x lo) eqn:E2; [forder| | |].
  - rewrite E1. by destruct (flt hi lo) eqn:E3; [forder|].
  - by destruct (flt hi lo) eqn:E3; [forder|].
  - by rewrite E1.
Qed.

Lemma clamp_lo (x : float64) : is_nan x = false -> fle lo (lowerTo hi (raiseTo lo x)) = true.
Proof. intros Hx. unfold raiseTo, lowerTo. destruct (flt x lo) eqn:E1; repeat split_bool; forder. Qed.

Lemma clamp_hi (x : float64) : is_nan x = false -> fle (lowerTo hi (raiseTo lo x)) hi = true.
Proof. intros Hx. unfold raiseTo, lowerTo. destruct (flt x lo) eqn:E1; repeat split_bool; forder. Qed.

Lemma clamp_id (x : float64) : fle lo x = true -> fle x hi = true -> lowerTo hi (raiseTo lo x) = x.
Proof. intros H1 H2. unfold raiseTo, lowerTo. destruct (flt x lo) eqn:E1; [forder|].
  by destruct (flt hi x) eqn:E2; [forder|].
Qed.

Lemma clamp_mono (x y : float64) :
  fle x y = true -> fle (lowerTo hi (raiseTo lo x)) (lowerTo hi (raiseTo lo y)) = true.
Proof.
  intros H. unfold raiseTo, lowerTo.
  destruct (flt x lo) eqn:E1, (flt y lo) eqn:E2; repeat split_bool; forder.
Qed.
End Clamp.

(** The power range a CPU cap is kept in: the range the agent reports for one
    socket, else the catalog's for all sockets of the matched model. *)
Definition cpuWattRange (nh : NodeHW) (catalog : option Catalog) : option (float64 * float64) :=
  if nh_CPUCapKnown nh && flt fzero (nh_CPUCapMaxWatts nh)
  then Some (nh_CPUCapMinWatts nh, nh_CPUCapMaxWatts nh)
  else
    '(_, spec) ← MatchCPU catalog (nh_CPURawModel nh);
    let maxW := cos_TDPW (cms_Official spec) in
    let maxW := if (0 <? nh_CPUSockets nh)%Z then fmul maxW (fofZ (nh_CPUSockets nh)) else maxW in
    if fle maxW fzero then None else Some (fmul maxW SocketCapMinFractionOfTDP, maxW).

Lemma computeAbsoluteCPUCap_range profile nh catalog perfCap ecoCap :
  (forall lo hi, cpuWattRange nh catalog = Some (lo, hi) -> fle lo hi = true) ->
  is_nan perfCap = false -> is_nan ecoCap = false ->
  computeAbsoluteCPUCap profile nh catalog perfCap ecoCap =
  (fun '(lo, hi) => lowerTo hi (raiseTo lo (byProfile profile perfCap ecoCap))) <$> cpuWattRange nh catalog.
Proof.
  intros Hr Hp He. unfold computeAbsoluteCPUCap, cpuWattRange in *.
  destruct (_ && _); [done|]. destruct catalog as [c|]; [|done].
  cbn [MatchNode mr_CPU nd_CPUModelRaw]. destruct (MatchCPU (Some c) _) as [[key spec]|]; [|done].
  cbn [mbind option_bind] in *. destruct (fle _ fzero); [done|]. cbn. f_equal.
  apply raise_lower; [by apply Hr|]. unfold byProfile. by destruct (String.eqb _ _).
Qed.

(** The absolute CPU cap of a node: known exactly when the agent reports a
    range or the catalog matches the model; then, for every profile, inside
    the range, equal to the configured watts where they lie in the range, and
    never higher in eco than in performance when the configured caps are
    not. *)
Theorem computeAbsoluteCPUCap_correct nh catalog perfCap ecoCap :
  is_nan perfCap = false -> is_nan ecoCap = false ->
  (forall lo hi, cpuWattRange nh catalog = Some (lo, hi) -> fle lo hi = true) ->
  let cap profile := computeAbsoluteCPUCap profile nh catalog perfCap ecoCap in
  match cpuWattRange nh catalog with
  | None => forall profile, cap profile = None
  | Some (lo, hi) =>
      exists perf eco, cap ProfilePerformance = Some perf /\
        (forall profile, profile <> ProfilePerformance -> cap profile = Some eco) /\
        (fle lo perf = true /\ fle perf hi = true) /\ (fle lo eco = true /\ fle eco hi = true) /\
        (fle lo perfCap = true -> fle perfCap hi = true -> perf = perfCap) /\
        (fle lo ecoCap = true -> fle ecoCap hi = true -> eco = ecoCap) /\
        (fle ecoCap perfCap = true -> fle eco perf = true)
  end.
Proof.
  intros Hp He Hr. cbv zeta.
  assert (forall profile, computeAbsoluteCPUCap profile nh catalog perfCap ecoCap = _) as Hc
    by (intros profile; exact (computeAbsoluteCPUCap_range profile nh catalog perfCap ecoCap Hr Hp He)).
  destruct (cpuWattRange nh catalog) as [[lo hi]|]; [|exact Hc].
  pose proof (Hr lo hi eq_refl) as Hlh.
  exists (lowerTo hi (raiseTo lo perfCap)), (lowerTo hi (raiseTo lo ecoCap)).
  split; [by rewrite Hc|]. split.
  - intros profile Hn. rewrite Hc. unfold byProfile. by apply String.eqb_neq in Hn as ->.
  - repeat split; first [by apply clamp_lo|by apply clamp_hi|by apply clamp_id|by apply clamp_mono].
Qed.

(** The power range a GPU cap is kept in: the agent's, else the catalog's, and
    the configured one of the product where neither is known. *)
Definition inventoryGPURange (nh : NodeHW) (catalog : option Catalog) : option (float64 * float64) :=
  if nh_GPUCapKnown nh && flt fzero (nh_GPUCapMaxWatts nh)
  then Some (if flt fzero (nh_GPUCapMinWatts nh) then nh_GPUCapMinWatts nh else fzero, nh_GPUCapMaxWatts nh)
  else
    '(_, spec) ← MatchGPU catalog (nh_GPURawModel nh);
    let maxW := gos_MaxBoardPowerW (gms_Official spec) in
    let minW := gos_MinBoardPowerW (gms_Official spec) in
    if fle maxW fzero then None
    else Some (if fle minW fzero then fmul maxW (flit 5 10) else minW, maxW).

Definition modelGPURange (gpuModelCaps : gmap string GPUModelCaps) (product : string) : option (float64 * float64) :=
  if String.eqb product "" then None
  else
    caps ← gpuModelCaps !! product;
    if flt fzero (MaxCapWatts caps)
    then Some (if fle (MinCapWatts caps) fzero then fone else MinCapWatts caps, MaxCapWatts caps)
    else None.

Definition gpuWattRange (nh : NodeHW) (catalog : option Catalog) (gpuModelCaps : gmap string GPUModelCaps)
    (product : string) : option (float64 * float64) :=
  match inventoryGPURange nh catalog with
  | Some r => Some r
  | None => modelGPURange gpuModelCaps product
  end.

(** The percentage of the range's top, clamped to the range. *)
Definition pctOfRange (capPct : float64) (r : float64 * float64) : float64 :=
  lowerTo r.2 (raiseTo r.1 (fmul (fdiv capPct (fofZ 100)) r.2)).

Lemma pct_of_positive (pct hi : float64) :
  flt fzero pct = true -> is_finite pct = true -> flt fzero hi = true -> is_finite hi = true ->
  fle fzero (fmul (fdiv pct (fofZ 100)) hi) = true.
Proof. intros ? ? ? ?. apply fmul_nonneg; [|done|done]. apply fdiv_nonneg; [forder|done|by vm_compute]. Qed.

Lemma computeInventoryGPUCap_range profile nh catalog perfPct ecoPct :
  let pct := byProfile profile perfPct ecoPct in
  flt fzero pct = true -> is_finite pct = true ->
  (forall lo hi, inventoryGPURange nh catalog = Some (lo, hi) -> is_finite hi = true) ->
  computeInventoryGPUCap profile nh catalog perfPct ecoPct = pctOfRange pct <$> inventoryGPURange nh catalog.
Proof.
  intros pct Hp Hf Hr. unfold computeInventoryGPUCap, inventoryGPURange in *. fold pct.
  destruct (fle pct fzero) eqn:E0; [forder|].
  destruct (_ && _) eqn:E.
  - apply andb_true_iff in E as [_ Hmax]. pose proof (Hr _ _ eq_refl) as Hfin.
    pose proof (pct_of_positive pct _ Hp Hf Hmax Hfin) as H0. unfold pctOfRange, raiseTo. cbn. f_equal. f_equal.
    set (abs := fmul _ _) in *. destruct (flt fzero (nh_GPUCapMinWatts nh)); rewrite ?andb_true_r, ?andb_false_r; [done|].
    destruct (flt abs fzero) eqn:E; [forder|done].
  - destruct catalog as [c|]; [|done]. cbn [MatchNode mr_GPU nd_GPUModelRaw].
    destruct (MatchGPU (Some c) _) as [[key spec]|]; [|done]. cbn. by destruct (fle (gos_MaxBoardPowerW (gms_Official spec)) fzero).
Qed.

Section IntentFacts.
Context `{QuantityOps}.

Lemma modelGPUCap_range pct caps product :
  modelGPUCap pct caps product = pctOfRange pct <$> modelGPURange caps product.
Proof.
  unfold modelGPUCap, modelGPURange. destruct (String.eqb product ""); [done|].
  destruct (caps !! product) as [c|]; [|done]. cbn. by destruct (flt fzero (MaxCapWatts c)).
Qed.

Lemma gpuWattRange_pos nh catalog caps product lo hi :
  is_finite hi = true -> gpuWattRange nh catalog caps product = Some (lo, hi) -> flt fzero hi = true.
Proof.
  intros Hf. unfold gpuWattRange, inventoryGPURange, modelGPURange.
  assert (is_nan hi = false) as Hn by by apply is_finite_not_nan. assert (is_nan fzero = false) by done.
  destruct (nh_GPUCapKnown nh && flt fzero (nh_GPUCapMaxWatts nh)) eqn:E.
  { intros [= _ <-]. by apply andb_true_iff in E as [_ E]. }
  destruct (MatchGPU _ _) as [[key spec]|]; cbn [mbind option_bind].
  - destruct (fle (gos_MaxBoardPowerW _) fzero) eqn:E1; [|intros [= _ <-]; forder].
    destruct (String.eqb _ _); [done|]. destruct (caps !! _) as [c|]; [|done]. cbn.
    destruct (flt fzero (MaxCapWatts c)) eqn:E2; [|done]. by intros [= _ <-].
  - destruct (String.eqb _ _); [done|]. destruct (caps !! _) as [c|]; [|done]. cbn.
    destruct (flt fzero (MaxCapWatts c)) eqn:E2; [|done]. by intros [= _ <-].
Qed.

(** The GPU cap intent of a node: written exactly for a node with GPUs whose
    profile has a positive percentage, always with that percentage; watts are
    added exactly when they are asked for and a range is known, and they lie
    in the range, equal to the percentage of its top where that does. *)
Theorem computeGPUIntent_correct node profile perfPct ecoPct abs caps keys nh catalog :
  let pct := byProfile profile perfPct ecoPct in
  let range := gpuWattRange nh catalog caps (resolveGPUProduct (n_Labels node) keys) in
  is_finite pct = true ->
  (forall lo hi, range = Some (lo, hi) -> fle lo hi = true /\ is_finite hi = true) ->
  match computeGPUIntentForNodeWithHardware node profile perfPct ecoPct abs caps keys nh catalog with
  | None => (nh_GPUCount nh <= 0 /\ discoverGPUCount node <= 0)%Z \/ fle pct fzero = true
  | Some i =>
      (0 < nh_GPUCount nh \/ 0 < discoverGPUCount node)%Z /\ flt fzero pct = true /\
      gci_Scope i = "perGpu" /\ gci_CapPctOfMax i = Some pct /\
      (gci_CapWattsPerGPU i = None <-> abs = false \/ range = None) /\
      forall w lo hi, gci_CapWattsPerGPU i = Some w -> range = Some (lo, hi) ->
        fle lo w = true /\ fle w hi = true /\
        let target := fmul (fdiv pct (fofZ 100)) hi in
        (fle lo target = true -> fle target hi = true -> w = target)
  end.
Proof.
  intros pct range Hf Hr. unfold computeGPUIntentForNodeWithHardware.
  destruct (_ && _) eqn:E.
  { apply andb_true_iff in E as [E1 E2]. left. lia. }
  fold pct. destruct (fle pct fzero) eqn:E0; [by right|].
  assert (flt fzero pct = true) as Hp by (apply is_finite_not_nan in Hf; assert (is_nan fzero = false) by done; forder).
  assert ((0 < nh_GPUCount nh \/ 0 < discoverGPUCount node)%Z) as Hg by lia.
  assert (forall f : option float64 -> GPUCapIntent,
    match computeInventoryGPUCap profile nh catalog perfPct ecoPct with
    | Some w => Some (f (Some w))
    | None => Some (f (modelGPUCap pct caps (resolveGPUProduct (n_Labels node) keys)))
    end = Some (f (pctOfRange pct <$> range))) as Hw.
  { intros f. unfold range, gpuWattRange in *. rewrite computeInventoryGPUCap_range by
      (try done; intros lo hi E'; apply (Hr lo hi); by rewrite E').
    fold pct. destruct (inventoryGPURange nh catalog); [done|]. by rewrite modelGPUCap_range. }
  rewrite (Hw (fun w => {| gci_Scope := _; gci_CapWattsPerGPU := w; gci_CapPctOfMax := _ |})).
  destruct abs; cbn [negb gci_Scope gci_CapWattsPerGPU gci_CapPctOfMax]; repeat (split; [done|]).
  - split; [destruct range; cbn; naive_solver|]. intros w lo hi Hi Hlh.
    rewrite Hlh in Hi. injection Hi as <-. destruct (Hr lo hi Hlh) as [Hle Hfin].
    assert (is_nan (fmul (fdiv pct (fofZ 100)) hi) = false) as Hn.
    { apply (gpuWattRange_pos _ _ _ _ _ _ Hfin) in Hlh. pose proof (pct_of_positive pct hi Hp Hf Hlh Hfin). forder. }
    split; [by apply clamp_lo|]. split; [by apply clamp_hi|]. by apply clamp_id.
  - split; [naive_solver|]. done.
Qed.
End IntentFacts.

(** ** Concrete nodes *)

Definition sampleCatalog : Catalog := {|
  CatalogVersion := "v1";
  CPUModels := [("AMD_EPYC_9654", {| cms_Aliases := ["AMD EPYC 9654 96-Core Processor"]; cms_Provenance := "";
    cms_Official := {| cos_Vendor := "amd"; cos_BaseGHz := flit 24 10; cos_BoostGHz := flit 37 10;
                       cos_TDPW := fofZ 360; cos_CTdpRangeW := []; cos_DriverFamily := "" |};
    cms_Node2SPoints := None |})];
  GPUModels := [("NVIDIA_H100", {| gms_Aliases := ["NVIDIA-H100-80GB-HBM3"]; gms_Provenance := "";
    gms_Official := {| gos_Vendor := "nvidia"; gos_MaxBoardPowerW := fofZ 700; gos_MinBoardPowerW := fofZ 200 |} |})]
|}.

(** A node known from its labels: two sockets, four GPUs. *)
Definition sampleNode : Node (H := integer_quantity) := {|
  n_Name := "node.b";
  n_Labels := {["joulie.io/hw.cpu-model" := "AMD EPYC 9654"; "joulie.io/hw.cpu-sockets" := "2";
                "joulie.io/hw.gpu-count" := "4"; "joulie.io/hw.gpu-model" := "NVIDIA-H100-80GB-HBM3"]};
  n_Unschedulable := false; n_Allocatable := ∅; n_Capacity := {["cpu" := 192%Z]} |}.

Definition sampleFromLabels : NodeHW :=
  @nodeHardwareFromLabels integer_quantity sampleNode (Some sampleCatalog) [].

(** The same node, its range published by the agent. *)
Definition sampleReported : NodeHW := parseNodeHardware {|
  cnh_Name := "node-b"; cnh_NodeName := "node.b";
  cnh_CPU := Some {| cc_RawModel := "AMD EPYC 9654"; cc_Model := ""; cc_Sockets := 2; cc_TotalCores := 192;
    cc_CapRange := Some {| ccr_MinWattsPerSocket := fofZ 198; ccr_MaxWattsPerSocket := fofZ 360 |};
    cc_ControlAvailable := true; cc_Governor := None |};
  cnh_GPU := None; cnh_MemoryTotalBytes := None; cnh_QualityWarnings := None; cnh_UpdatedAt := "" |}.

Example computeAbsoluteCPUCap_correct_witness :
  exists perf eco,
    computeAbsoluteCPUCap ProfilePerformance sampleReported None (fofZ 5000) (fofZ 120) = Some perf /\
    computeAbsoluteCPUCap ProfileEco sampleReported None (fofZ 5000) (fofZ 120) = Some eco /\
    fle eco perf = true /\ perf = fofZ 360 /\ eco = fofZ 198.
Proof.
  destruct (computeAbsoluteCPUCap_correct sampleReported None (fofZ 5000) (fofZ 120))
    as (perf & eco & Hp & He & _ & _ & _ & _ & Hle); [reflexivity|reflexivity| |].
  - intros lo hi [= <- <-]. by vm_compute.
  - exists perf, eco. split; [exact Hp|]. split; [by apply He|]. split; [by apply Hle; vm_compute|].
    split; [injection Hp as <-; by vm_compute|]. pose proof (He ProfileEco ltac:(done)) as H.
    injection H as <-. by vm_compute.
Defined.

(** The watts of the two branches are in different units: the agent's range
    is one socket's, the catalog's is multiplied by the sockets, and the same
    configured eco watts give 198 and 396 for one node. *)
Example computeAbsoluteCPUCap_units :
  computeAbsoluteCPUCap ProfileEco sampleReported (Some sampleCatalog) (fofZ 5000) (fofZ 120) = Some (fofZ 198) /\
  fmap (fun w => flt (flit 3959 10) w && flt w (flit 3961 10))
    (computeAbsoluteCPUCap ProfileEco sampleFromLabels (Some sampleCatalog) (fofZ 5000) (fofZ 120)) = Some true.
Proof. split; vm_compute; reflexivity. Qed.

Example computeGPUIntent_correct_witness :
  computeGPUIntentForNodeWithHardware (H := integer_quantity) sampleNode ProfileEco (fofZ 100) (fofZ 20) true ∅ []
    sampleFromLabels (Some sampleCatalog) =
    Some {| gci_Scope := "perGpu"; gci_CapWattsPerGPU := Some (fofZ 200); gci_CapPctOfMax := Some (fofZ 20) |} /\
  fle (fofZ 200) (fofZ 200) = true.
Proof.
  split; [vm_compute; reflexivity|].
  pose proof (computeGPUIntent_correct (H := integer_quantity) sampleNode ProfileEco (fofZ 100) (fofZ 20) true ∅ []
    sampleFromLabels (Some sampleCatalog)) as H.
  cbv zeta in H. specialize (H ltac:(reflexivity)).
  assert (computeGPUIntentForNodeWithHardware (H := integer_quantity) sampleNode ProfileEco (fofZ 100) (fofZ 20) true ∅ []
    sampleFromLabels (Some sampleCatalog) =
    Some {| gci_Scope := "perGpu"; gci_CapWattsPerGPU := Some (fofZ 200); gci_CapPctOfMax := Some (fofZ 20) |})
    as E by (vm_compute; reflexivity).
  rewrite E in H. destruct H as (_ & _ & _ & _ & _ & H).
  - intros lo hi Hr. vm_compute in Hr. injection Hr as <- <-. split; reflexivity.
  - apply (H (fofZ 200) (fofZ 200) (fofZ 700)); vm_compute; reflexivity.
Defined.
