(* ===== verification/Controller.v ===== *)
(** * The reconcile of the controller manager: cmd/controller-manager/main.go

    One reconcile from the listed nodes to the plan it publishes: which nodes
    are eligible, the hardware they are planned with, the plan of the policy,
    the downgrade guard, then the caps and governors of every entry. What the
    cache lists is a [Cluster]; the label selector is a parameter. Writing
    the plan out is in Twinstate. *)

From S2P Require Import Prelude GoString GoFloat Api Crd Hwinv Resources Policy Kube Fsm Env Inventory.
From S2P Require Import GovernorConfig Caps.

#[local] Open Scope string_scope.

(** The arguments of [reconcileWithCatalog] and the installed options.
    src/cmd/controller-manager/main.go:349-375 [reconcileWithCatalog] *)
Record Settings := {
  selector : gmap string string -> bool;
  reservedLabel : string;
  profileLabel : string;
  interval : Z;
  perfCap : float64;
  ecoCap : float64;
  policyType : string;
  staticHPFrac : float64;
  queueHPBaseFrac : float64;
  queueHPMin : Z;
  queueHPMax : Z;
  queuePerfPerHPNode : Z;
  cpuPerfCapPct : float64;
  cpuEcoCapPct : float64;
  cpuWriteAbsolute : bool;
  gpuPerfCapPct : float64;
  gpuEcoCapPct : float64;
  gpuWriteAbsolute : bool;
  gpuModelCaps : gmap string GPUModelCaps;
  gpuProductLabelKeys : list string;
  hardwareCatalog : option Catalog;
  govCfg : governorConfig;
  capOpts : capOptions
}.

Section Reconcile.
Context `{QuantityOps}.

(** The answers of the cache during one reconcile: the nodes, the
    NodeHardware objects, every pod, and the pods by the node index, [None]
    for a failed list; [now] is the Unix time the rule swap reads. *)
Record Cluster := {
  cl_nodes : option (list Node);
  cl_hardware : HardwareList;
  cl_pods : option (list Pod);
  cl_podsOn : string -> option (list Pod);
  cl_now : Z
}.

Context (S : Settings).

(** ** Eligible nodes and their hardware *)

(** src/cmd/controller-manager/main.go:388-396 [Unschedulable] *)
Definition isEligible (n : Node) : bool :=
  if n_Unschedulable n then false
  else if String.eqb (get_str (n_Labels n) (reservedLabel S)) "true" then false
  else selector S (n_Labels n).

(** src/cmd/controller-manager/main.go:381-399 [eligible] *)
Definition eligibleNodes (nodes : list Node) : list string :=
  sort_strings (n_Name <$> filter (fun n => isEligible n = true) nodes).

(** src/cmd/controller-manager/main.go:383-386 [nodeObjs] *)
Definition nodeObjsOf (nodes : list Node) : gmap string Node :=
  foldl (fun m n => <[n_Name n := n]> m) ∅ nodes.

(** src/cmd/controller-manager/main.go:382-387 [nodesByName] *)
Definition profilesOf (nodes : list Node) : gmap string string :=
  foldl (fun m n => <[n_Name n := CurrentProfileOrDefault (get_str (n_Labels n) (profileLabel S))]> m) ∅ nodes.

Definition withGPUCount (nh : NodeHW) (count : Z) : NodeHW := {|
  nh_Name := nh_Name nh; nh_NodeName := nh_NodeName nh;
  nh_CPUModel := nh_CPUModel nh; nh_CPURawModel := nh_CPURawModel nh;
  nh_CPUSockets := nh_CPUSockets nh; nh_CPUTotalCores := nh_CPUTotalCores nh;
  nh_GPUModel := nh_GPUModel nh; nh_GPURawModel := nh_GPURawModel nh;
  nh_GPUCount := count; nh_GPUPowerDomains := nh_GPUPowerDomains nh;
  nh_CPUCapMinWatts := nh_CPUCapMinWatts nh; nh_CPUCapMaxWatts := nh_CPUCapMaxWatts nh;
  nh_CPUCapKnown := nh_CPUCapKnown nh;
  nh_GPUCapMinWatts := nh_GPUCapMinWatts nh; nh_GPUCapMaxWatts := nh_GPUCapMaxWatts nh;
  nh_GPUCapKnown := nh_GPUCapKnown nh;
  nh_CPUControlAvailable := nh_CPUControlAvailable nh; nh_GPUControlAvailable := nh_GPUControlAvailable nh;
  nh_GPUReported := nh_GPUReported nh; nh_Warnings := nh_Warnings nh;
  nh_CPUGovernorPresets := nh_CPUGovernorPresets nh; nh_GPUGovernorPresets := nh_GPUGovernorPresets nh;
  nh_CPUBoostAvailable := nh_CPUBoostAvailable nh; nh_GPUGovernorGap := nh_GPUGovernorGap nh
|}.

(** src/cmd/controller-manager/main.go:415-427 [nodeHardwareByName] *)
Definition completeHardware (nodeObjs : gmap string Node) (hw : gmap string NodeHW) (nodeName : string)
    : gmap string NodeHW :=
  match nodeObjs !! nodeName with
  | None => hw
  | Some n =>
      match hw !! nodeName with
      | None => <[nodeName := nodeHardwareFromLabels n (hardwareCatalog S) (gpuProductLabelKeys S)]> hw
      | Some nh =>
          if (nh_GPUCount nh <=? 0)%Z then <[nodeName := withGPUCount nh (discoverGPUCount n)]> hw else hw
      end
  end.

(** src/cmd/controller-manager/main.go:414-428 [eligible] *)
Definition hardwareOf (nodeObjs : gmap string Node) (eligible : list string) (hw : gmap string NodeHW)
    : gmap string NodeHW :=
  foldl (completeHardware nodeObjs) hw eligible.

(** ** The plan of the policy *)

(** src/cmd/controller-manager/main.go:690-702 [toHardwareInfoMap] *)
Definition toHardwareInfoMap (hw : gmap string NodeHW) : gmap string NodeHardwareInfo :=
  (fun v => {| nhi_CPUModel := nh_CPUModel v; nhi_CPURawModel := nh_CPURawModel v;
               nhi_GPUModel := nh_GPUModel v; nhi_GPURawModel := nh_GPURawModel v;
               nhi_GPUCount := nh_GPUCount v |}) <$> hw.

(** src/cmd/controller-manager/main.go:778-787 [performancePodDemand] *)
Definition performancePodDemand (cl : Cluster) : option Z := CountPerformanceDemand <$> cl_pods cl.

(** src/cmd/controller-manager/main.go:745-774 [buildPlanByPolicy] *)
Definition buildPlanByPolicy (cl : Cluster) (nodes : list string) (hardware : gmap string NodeHW)
    (currentProfiles : gmap string string) : option (list NodeAssignment) :=
  let hw := toHardwareInfoMap hardware in
  if String.eqb (policyType S) "static_partition" || String.eqb (policyType S) "" then
    BuildStaticPlan nodes hw currentProfiles (perfCap S) (ecoCap S) (staticHPFrac S)
  else if String.eqb (policyType S) "queue_aware_v1" then
    match performancePodDemand cl with
    | None => BuildStaticPlan nodes hw currentProfiles (perfCap S) (ecoCap S) (queueHPBaseFrac S)
    | Some perfIntentPods =>
        BuildQueueAwarePlan nodes hw currentProfiles (perfCap S) (ecoCap S) (queueHPBaseFrac S)
          (queueHPMin S) (queueHPMax S) (queuePerfPerHPNode S) perfIntentPods
    end
  else if String.eqb (policyType S) "rule_swap_v1" then
    Some (BuildRuleSwapPlanAt nodes (interval S) (perfCap S) (ecoCap S) (cl_now cl))
  else BuildStaticPlan nodes hw currentProfiles (perfCap S) (ecoCap S) (staticHPFrac S).

(** src/cmd/controller-manager/main.go:433-437 [SourceProfile] *)
Definition initEntry (nodesByName : gmap string string) (a : NodeAssignment) : NodeAssignment := {|
  na_NodeName := na_NodeName a; na_Profile := na_Profile a; na_CapWatts := na_CapWatts a;
  na_CPUCapPctOfMax := na_CPUCapPctOfMax a; na_GPU := na_GPU a;
  na_CPUGovernor := na_CPUGovernor a; na_GPUGovernor := na_GPUGovernor a; na_ManagedBy := na_ManagedBy a;
  na_SourceProfile := CurrentProfileOrDefault (get_str nodesByName (na_NodeName a));
  na_SourceDrain := na_SourceDrain a;
  na_Draining := false;
  na_State := AssignmentState (na_Profile a) false
|}.

(** ** Caps and governors *)

(** src/cmd/controller-manager/main.go:801-808 [runningMultiGPUPodOnNode] *)
Definition runningMultiGPUPodOnNode (cl : Cluster) (nodeName : string) : bool :=
  match cl_podsOn cl nodeName with None => false | Some pods => HasRunningMultiGPUPod pods end.

(** The profile a node runs at: a draining node keeps performance.
    src/cmd/controller-manager/main.go:445-448 [capProfile] *)
Definition capProfileOf (a : NodeAssignment) : string :=
  if na_Draining a then ProfilePerformance else na_Profile a.

(** src/cmd/controller-manager/main.go:455-457 [cpuCapsByProfile] *)
Definition cpuCapsByProfile (nh : NodeHW) : bool :=
  negb (0 <? nh_GPUCount nh)%Z || (cpuCapsOnUncappableGPUNodes (capOpts S) && agentReportsNoGPUControl nh).

(** The CPU cap of a node running at [capProfile]: watts and percentage.
    src/cmd/controller-manager/main.go:465-484 [CapWatts] *)
Definition cpuCap (hw : gmap string NodeHW) (nodeName capProfile : string) (pct0 : option float64)
    : float64 * option float64 :=
  let nh := default noHardware (hw !! nodeName) in
  let byProfileCaps := cpuCapsByProfile nh in
  let capWatts :=
    if String.eqb capProfile ProfilePerformance || negb byProfileCaps then perfCap S else ecoCap S in
  if byProfileCaps then
    if cpuWriteAbsolute S then
      (match hw !! nodeName with
       | None => capWatts
       | Some nh => default capWatts (computeAbsoluteCPUCap capProfile nh (hardwareCatalog S) (perfCap S) (ecoCap S))
       end, None)
    else (capWatts, Some (byProfile capProfile (cpuPerfCapPct S) (cpuEcoCapPct S)))
  else (capWatts, pct0).

(** src/cmd/controller-manager/main.go:444-506 [plan] *)
Definition capEntry (cl : Cluster) (nodeObjs : gmap string Node) (hw : gmap string NodeHW)
    (a : NodeAssignment) : NodeAssignment :=
  let capProfile := capProfileOf a in
  let name := na_NodeName a in
  let nh := default noHardware (hw !! name) in
  let '(watts, pct) := cpuCap hw name capProfile (na_CPUCapPctOfMax a) in
  let gpu :=
    match nodeObjs !! name with
    | Some n => computeGPUIntentForNodeWithHardware n capProfile (gpuPerfCapPct S) (gpuEcoCapPct S)
                  (gpuWriteAbsolute S) (gpuModelCaps S) (gpuProductLabelKeys S) nh (hardwareCatalog S)
    | None => na_GPU a
    end in
  let gpuProduct :=
    match nodeObjs !! name with
    | Some n => resolveGPUProduct (n_Labels n) (gpuProductLabelKeys S)
    | None => ""
    end in
  let '(cpuGov, gpuGov) :=
    governorIntents (govCfg S) capProfile (0 <? nh_GPUCount nh)%Z nh gpuProduct
      (Some (runningMultiGPUPodOnNode cl name)) in
  {| na_NodeName := name; na_Profile := na_Profile a; na_CapWatts := watts;
     na_CPUCapPctOfMax := pct; na_GPU := gpu; na_CPUGovernor := cpuGov; na_GPUGovernor := gpuGov;
     na_ManagedBy := na_ManagedBy a; na_SourceProfile := na_SourceProfile a;
     na_SourceDrain := na_SourceDrain a; na_Draining := na_Draining a; na_State := na_State a |}.

(** ** The reconcile *)

Inductive ReconcileOutcome :=
| ListNodesFailed
| NoEligibleNodes
| ListHardwareFailed
| Planned (plan : list NodeAssignment).

(** [None] is a panic.
    src/cmd/controller-manager/main.go:376-506 [reconcileWithCatalog] *)
Definition reconcilePlan (cl : Cluster) : option ReconcileOutcome :=
  match cl_nodes cl with
  | None => Some ListNodesFailed
  | Some nodes =>
      let eligible := eligibleNodes nodes in
      let nodesByName := profilesOf nodes in
      let nodeObjs := nodeObjsOf nodes in
      match eligible with
      | [] => Some NoEligibleNodes
      | _ =>
          match listNodeHardware (cl_hardware cl) (hardwareCatalog S) with
          | None => Some ListHardwareFailed
          | Some listed =>
              let hw := hardwareOf nodeObjs eligible listed in
              plan ← buildPlanByPolicy cl eligible hw nodesByName;
              let plan := initEntry nodesByName <$> plan in
              let plan := @ApplyDowngradeGuards (cacheNodeOps (cl_podsOn cl)) plan nodesByName in
              Some (Planned (capEntry cl nodeObjs hw <$> plan))
          end
      end
  end.

(** The estimated power of each rack, the plan's entries added in its order.
    src/cmd/controller-manager/main.go:517-539 [rackPowerEstimates] *)
Definition rackPowerEstimates (nodeObjs : gmap string Node) (hw : gmap string NodeHW)
    (plan : list NodeAssignment) : gmap string float64 :=
  foldl (fun m a =>
    match nodeObjs !! na_NodeName a with
    | None => m
    | Some n =>
        let rack := get_str (n_Labels n) "joulie.io/rack" in
        if String.eqb rack "" then m
        else
          let cpuPct := default (fofZ 100) (na_CPUCapPctOfMax a) in
          let gpuPct := default (fofZ 100) (g ← na_GPU a; gci_CapPctOfMax g) in
          let w := estimateNodePowerW (default noHardware (hw !! na_NodeName a)) cpuPct gpuPct in
          <[rack := fadd (default fzero (m !! rack)) w]> m
    end) ∅ plan.

(** The transition the metric counts for an entry, as a pair of states.
    src/cmd/controller-manager/main.go:657-667 [recordTransitionMetrics] *)
Definition recordTransitionMetrics (a : NodeAssignment) : option (string * string) :=
  let fromState := AssignmentState (na_SourceProfile a) (na_SourceDrain a) in
  let toState := na_State a in
  let toState := if String.eqb toState "" then AssignmentState (na_Profile a) (na_Draining a) else toState in
  if String.eqb fromState "Unknown" || String.eqb toState "Unknown" || String.eqb fromState toState then None
  else Some (fromState, toState).

(** The nodes and performance nodes of each family; Go counts in float64,
    exact for any plan.
    src/cmd/controller-manager/main.go:706-722 [recordFamilySplit] *)
Definition familySplit (plan : list NodeAssignment) (hw : gmap string NodeHW) : gmap string (Z * Z) :=
  foldl (fun m a =>
    let family := NodeFamily (na_NodeName a) (toHardwareInfoMap hw) in
    let '(n, p) := default (0, 0)%Z (m !! family) in
    <[family := (n + 1, if String.eqb (na_Profile a) ProfilePerformance then p + 1 else p)%Z]> m) ∅ plan.
End Reconcile.

(** ** The plan covers the eligible nodes *)

Section Facts.
Context `{QuantityOps} (S : Settings).

Lemma eligibleNodes_elem nodes name :
  name ∈ eligibleNodes S nodes <-> exists n, n ∈ nodes /\ n_Name n = name /\ isEligible S n = true.
Proof.
  unfold eligibleNodes, sort_strings. rewrite sort_slice_perm, list_elem_of_fmap.
  setoid_rewrite list_elem_of_filter. naive_solver.
Qed.

Lemma eligibleNodes_NoDup nodes : NoDup (n_Name <$> nodes) -> NoDup (eligibleNodes S nodes).
Proof.
  intros Hnd. unfold eligibleNodes, sort_strings. rewrite sort_slice_perm.
  induction nodes as [|n l IH]; [constructor|]. apply NoDup_cons in Hnd as [Hn Hnd]. rewrite filter_cons.
  destruct (decide _); [|by apply IH]. cbn. constructor; [|by apply IH].
  intros (m & Hm & [_ Hin]%list_elem_of_filter)%list_elem_of_fmap. apply Hn. rewrite Hm. by apply list_elem_of_fmap_2.
Qed.

Lemma eligibleNodes_length nodes : (length (eligibleNodes S nodes) <= length nodes)%nat.
Proof.
  unfold eligibleNodes, sort_strings. rewrite sort_slice_perm, length_fmap. apply length_filter.
Qed.

Lemma buildPlanByPolicy_over cl nodes hardware current :
  NoDup nodes -> (Z.of_nat (length nodes) <= 2 ^ 30)%Z ->
  exists plan, buildPlanByPolicy S cl nodes hardware current = Some plan /\ plansOver nodes plan.
Proof.
  intros Hnd Hlen. unfold buildPlanByPolicy.
  destruct (_ || _); [by apply BuildStaticPlan_over|].
  destruct (String.eqb _ _).
  { destruct (performancePodDemand cl); [by apply BuildQueueAwarePlan_over|by apply BuildStaticPlan_over]. }
  destruct (String.eqb _ _); [|by apply BuildStaticPlan_over].
  eexists. split; [reflexivity|]. apply BuildRuleSwapPlanAt_over.
Qed.

(** The steps every entry of the published plan went through. *)
Definition entrySteps (cl : Cluster) (nodes : list Node) (listed : gmap string NodeHW) (p : NodeAssignment)
    : NodeAssignment :=
  capEntry S cl (nodeObjsOf nodes) (hardwareOf S (nodeObjsOf nodes) (eligibleNodes S nodes) listed)
    (@guardEntry (cacheNodeOps (cl_podsOn cl)) (initEntry (profilesOf S nodes) p)).

Lemma entrySteps_name cl nodes listed p : na_NodeName (entrySteps cl nodes listed p) = na_NodeName p.
Proof.
  unfold entrySteps, capEntry. destruct (cpuCap _ _ _ _), (governorIntents _ _ _ _ _ _). cbn.
  unfold guardEntry. by repeat case_match.
Qed.

Lemma reconcilePlan_cases cl nodes :
  cl_nodes cl = Some nodes -> NoDup (n_Name <$> nodes) -> (Z.of_nat (length nodes) <= 2 ^ 30)%Z ->
  (eligibleNodes S nodes = [] /\ reconcilePlan S cl = Some NoEligibleNodes) \/
  (eligibleNodes S nodes <> [] /\ cl_hardware cl = ListFailed /\ reconcilePlan S cl = Some ListHardwareFailed) \/
  (eligibleNodes S nodes <> [] /\ exists listed plan,
     listNodeHardware (cl_hardware cl) (hardwareCatalog S) = Some listed /\
     plansOver (eligibleNodes S nodes) plan /\
     reconcilePlan S cl = Some (Planned (entrySteps cl nodes listed <$> plan))).
Proof.
  intros Hn Hnd Hlen. unfold reconcilePlan. rewrite Hn.
  destruct (eligibleNodes S nodes) as [|e l] eqn:E; [by left|right]. rewrite <- E in *.
  destruct (listNodeHardware _ _) as [listed|] eqn:Eh.
  - right. split; [by rewrite E|].
    destruct (buildPlanByPolicy_over cl (eligibleNodes S nodes)
      (hardwareOf S (nodeObjsOf nodes) (eligibleNodes S nodes) listed) (profilesOf S nodes)) as (plan & Hp & Ho).
    { by apply eligibleNodes_NoDup. }
    { pose proof (eligibleNodes_length nodes). lia. }
    exists listed, plan. split; [done|]. split; [done|]. rewrite Hp. cbn [mbind option_bind]. do 2 f_equal.
    unfold ApplyDowngradeGuards. by rewrite <- !list_fmap_compose.
  - left. split; [by rewrite E|]. unfold listNodeHardware in Eh. by destruct (cl_hardware cl).
Qed.

(** C26. A reconcile never panics, whatever the policy type, the pods and the
    hardware it reads: with eligible nodes and a readable cluster it plans
    exactly them, each once, in name order, at performance or eco, and a
    cordoned, reserved or unselected node is never planned. *)
Theorem reconcilePlan_covers cl nodes :
  cl_nodes cl = Some nodes -> NoDup (n_Name <$> nodes) -> (Z.of_nat (length nodes) <= 2 ^ 30)%Z ->
  exists out, reconcilePlan S cl = Some out /\
  match out with
  | ListNodesFailed => False
  | NoEligibleNodes => forall n, n ∈ nodes -> isEligible S n = false
  | ListHardwareFailed => cl_hardware cl = ListFailed
  | Planned plan =>
      na_NodeName <$> plan = eligibleNodes S nodes /\ NoDup (na_NodeName <$> plan) /\
      StronglySorted (not_after str_less) (na_NodeName <$> plan) /\
      (forall n, n ∈ nodes -> (n_Name n ∈ na_NodeName <$> plan <-> isEligible S n = true)) /\
      forall a, a ∈ plan -> na_Profile a = ProfilePerformance \/ na_Profile a = ProfileEco
  end.
Proof.
  intros Hn Hnd Hlen.
  destruct (reconcilePlan_cases cl nodes Hn Hnd Hlen) as [[He ->]|[(_ & Hf & ->)|(Hne & listed & plan & _ & [Hnames Hpl] & ->)]];
    (eexists; split; [reflexivity|cbv beta iota]); [|done|].
  - intros n Hin. apply not_true_iff_false. intros Hel.
    assert (n_Name n ∈ eligibleNodes S nodes) as H' by (apply eligibleNodes_elem; by exists n).
    rewrite He in H'. by apply not_elem_of_nil in H'.
  - assert (na_NodeName <$> (entrySteps cl nodes listed <$> plan) = eligibleNodes S nodes) as ->.
    { rewrite <- Hnames, <- list_fmap_compose. apply list_fmap_ext. intros i x _. apply entrySteps_name. }
    split; [done|]. split; [by apply eligibleNodes_NoDup|]. split; [apply sort_slice_sorted, _|]. split.
    + intros n Hin. rewrite eligibleNodes_elem. split; [|intros Hel; by exists n].
      intros (m & Hm & Hname & Hel). enough (m = n) as -> by done.
      apply list_elem_of_lookup in Hin as [i Hi], Hm as [j Hj].
      assert ((n_Name <$> nodes) !! i = Some (n_Name n)) as Hi' by by rewrite list_lookup_fmap, Hi.
      assert ((n_Name <$> nodes) !! j = Some (n_Name n)) as Hj' by by rewrite list_lookup_fmap, Hj, <- Hname.
      rewrite (NoDup_lookup _ _ _ _ Hnd Hi' Hj') in Hi. congruence.
    + intros a (p & -> & Hin)%list_elem_of_fmap. destruct (Hpl p Hin) as (nm & pr & c & m & -> & Hpr).
      unfold entrySteps, capEntry. destruct (cpuCap _ _ _ _), (governorIntents _ _ _ _ _ _). cbn.
      unfold guardEntry, ComputeDesiredLabels. cbn. by destruct Hpr as [-> | ->]; repeat case_match; auto.
Qed.

(** Whether the guard keeps a node planned at [profile] draining. *)
Definition keepsDraining (cl : Cluster) (name profile : string) : bool :=
  String.eqb profile ProfileEco &&
  match cl_podsOn cl name with Some pods => existsb runsPerformance pods | None => false end.

Lemma existsb_runsPerformance (pods : list Pod) :
  existsb runsPerformance pods = (0 <? CountPerformanceSensitivePods pods)%Z.
Proof.
  rewrite CountPerformanceSensitivePods_zsum. apply eq_iff_eq_true.
  rewrite existsb_exists, Z.ltb_lt, zsum_b2z_pos. by setoid_rewrite list_elem_of_In.
Qed.

Lemma guarded_entry cl prof n pr c m :
  pr = ProfilePerformance \/ pr = ProfileEco ->
  @guardEntry (cacheNodeOps (cl_podsOn cl)) (initEntry prof (assignment n pr c m)) =
  withLabels (initEntry prof (assignment n pr c m)) (pr, keepsDraining cl n pr).
Proof.
  intros Hpr. unfold guardEntry, keepsDraining. destruct Hpr as [-> | ->]; cbn; [done|].
  destruct (cl_podsOn cl n) as [pods|]; [|done]. by rewrite existsb_runsPerformance.
Qed.

(** The entry a policy plans for [n] at [pr], once published. *)
Lemma entrySteps_spec cl nodes listed n pr c m :
  pr = ProfilePerformance \/ pr = ProfileEco ->
  let out := entrySteps cl nodes listed (assignment n pr c m) in
  let objs := nodeObjsOf nodes in
  let hw := hardwareOf S objs (eligibleNodes S nodes) listed in
  let nh := default noHardware (hw !! n) in
  let drain := keepsDraining cl n pr in
  let run := if drain then ProfilePerformance else pr in
  na_Profile out = pr /\ na_Draining out = drain /\ na_State out = AssignmentState pr drain /\
  na_SourceDrain out = false /\
  na_SourceProfile out = CurrentProfileOrDefault (get_str (profilesOf S nodes) n) /\
  (na_CapWatts out, na_CPUCapPctOfMax out) = cpuCap S hw n run None /\
  na_GPU out = (o ← objs !! n; computeGPUIntentForNodeWithHardware o run (gpuPerfCapPct S) (gpuEcoCapPct S)
                  (gpuWriteAbsolute S) (gpuModelCaps S) (gpuProductLabelKeys S) nh (hardwareCatalog S)) /\
  exists product multi,
    (na_CPUGovernor out, na_GPUGovernor out) =
      governorIntents (govCfg S) run (0 <? nh_GPUCount nh)%Z nh product multi.
Proof.
  intros Hpr. cbv zeta. unfold entrySteps. rewrite guarded_entry by done. unfold capEntry. cbn -[governorIntents cpuCap].
  change (capProfileOf (withLabels (initEntry (profilesOf S nodes) (assignment n pr c m)) (pr, keepsDraining cl n pr)))
    with (if keepsDraining cl n pr then ProfilePerformance else pr).
  destruct (cpuCap _ _ _ _). cbn -[governorIntents].
  repeat (split; [done|]). eexists _, _. reflexivity.
Qed.

Lemma reconcilePlan_entry cl nodes plan a :
  cl_nodes cl = Some nodes -> NoDup (n_Name <$> nodes) -> (Z.of_nat (length nodes) <= 2 ^ 30)%Z ->
  reconcilePlan S cl = Some (Planned plan) -> a ∈ plan ->
  exists listed pr c m, listNodeHardware (cl_hardware cl) (hardwareCatalog S) = Some listed /\
    (pr = ProfilePerformance \/ pr = ProfileEco) /\ na_NodeName a ∈ eligibleNodes S nodes /\
    a = entrySteps cl nodes listed (assignment (na_NodeName a) pr c m).
Proof.
  intros Hn Hnd Hlen Hp Ha.
  destruct (reconcilePlan_cases cl nodes Hn Hnd Hlen) as [[_ E]|[(_ & _ & E)|(_ & listed & p & Hl & [Hnames Hpl] & E)]];
    rewrite E in Hp; [done|done|]. injection Hp as <-.
  apply list_elem_of_fmap in Ha as (q & -> & Hq). destruct (Hpl q Hq) as (n & pr & c & m & -> & Hpr).
  exists listed, pr, c, m. rewrite entrySteps_name. split; [done|]. split; [done|]. split; [|done].
  rewrite <- Hnames. change n with (na_NodeName (assignment n pr c m)). by apply list_elem_of_fmap_2.
Qed.

(** C4. A node that runs performance work is never capped or governed below its
    performance level: whatever the policy planned for it, its entry is
    labelled performance, or eco and draining, and carries the CPU cap, the
    GPU percentage and the governors of the performance profile. *)
Theorem reconcilePlan_protects_running_pods cl nodes listed plan a pods p :
  cl_nodes cl = Some nodes -> NoDup (n_Name <$> nodes) -> (Z.of_nat (length nodes) <= 2 ^ 30)%Z ->
  listNodeHardware (cl_hardware cl) (hardwareCatalog S) = Some listed ->
  reconcilePlan S cl = Some (Planned plan) -> a ∈ plan ->
  cl_podsOn cl (na_NodeName a) = Some pods -> p ∈ pods -> runsPerformance p = true ->
  let hw := hardwareOf S (nodeObjsOf nodes) (eligibleNodes S nodes) listed in
  let nh := default noHardware (hw !! na_NodeName a) in
  ((na_Profile a = ProfilePerformance /\ na_State a = StateActivePerformance) \/
   (na_Profile a = ProfileEco /\ na_Draining a = true /\ na_State a = StateDrainingPerformance)) /\
  (na_CapWatts a = perfCap S \/
   (cpuWriteAbsolute S = true /\
    computeAbsoluteCPUCap ProfilePerformance nh (hardwareCatalog S) (perfCap S) (ecoCap S) = Some (na_CapWatts a))) /\
  (na_CPUCapPctOfMax a = None \/ na_CPUCapPctOfMax a = Some (cpuPerfCapPct S)) /\
  (forall i, na_GPU a = Some i -> gci_CapPctOfMax i = Some (gpuPerfCapPct S)) /\
  exists product multi, (na_CPUGovernor a, na_GPUGovernor a) =
    governorIntents (govCfg S) ProfilePerformance (0 <? nh_GPUCount nh)%Z nh product multi.
Proof.
  intros Hn Hnd Hlen Hl Hp Ha Hpods Hin Hrun.
  destruct (reconcilePlan_entry cl nodes plan a Hn Hnd Hlen Hp Ha) as (listed' & pr & c & m & Hl' & Hpr & _ & Ea).
  rewrite Hl in Hl'. injection Hl' as <-. cbv zeta.
  assert (pr = ProfileEco -> keepsDraining cl (na_NodeName a) pr = true) as Hdrain.
  { intros ->. unfold keepsDraining. rewrite Hpods. apply existsb_exists. exists p. split; [|done].
    by apply list_elem_of_In. }
  assert ((if keepsDraining cl (na_NodeName a) pr then ProfilePerformance else pr) = ProfilePerformance) as Erun.
  { destruct Hpr as [-> | ->]; [by destruct (keepsDraining _ _ _)|]. by rewrite Hdrain. }
  pose proof (entrySteps_spec cl nodes listed (na_NodeName a) pr c m Hpr) as Hs. cbv zeta in Hs.
  rewrite <- Ea, Erun in Hs. destruct Hs as (Hprof & Hd & Hst & _ & _ & Hc & Hg & Hgov).
  split.
  { rewrite Hprof, Hd, Hst. destruct Hpr as [-> | ->]; [by left|right]. by rewrite Hdrain. }
  split; [|split; [|split; [|exact Hgov]]].
  - unfold cpuCap in Hc. cbn in Hc. destruct (cpuCapsByProfile S _), (cpuWriteAbsolute S); injection Hc as Hw _; try by left.
    destruct (_ !! na_NodeName a) as [nh|]; [|by left]. cbn [default from_option id] in *.
    destruct (computeAbsoluteCPUCap _ _ _ _ _) as [w|]; [|by left]. right. split; [done|]. by rewrite Hw.
  - unfold cpuCap in Hc. destruct (cpuCapsByProfile S _), (cpuWriteAbsolute S); injection Hc as _ Hpct; auto.
  - intros i Hi. rewrite Hi in Hg. destruct (nodeObjsOf nodes !! _) as [o|]; [|done]. cbn in Hg.
    unfold computeGPUIntentForNodeWithHardware in Hg.
    repeat (match type of Hg with context [if ?b then _ else _] => destruct b end; [done|]).
    destruct (negb _); [by injection Hg as ->|]. by destruct (computeInventoryGPUCap _ _ _ _ _); injection Hg as ->.
Qed.

(** A GPU node's CPU is left alone: whatever its profile, it carries no
    percentage cap and the performance watts, and no CPU governor unless
    CPU_GOVERNOR_ON_GPU_NODES asks for one; only a node whose agent reports
    GPUs it cannot cap may take the caps of its profile, and only where that
    is turned on. A node without GPUs gets no GPU governor. *)
Theorem reconcilePlan_gpu_nodes cl nodes listed plan a :
  cl_nodes cl = Some nodes -> NoDup (n_Name <$> nodes) -> (Z.of_nat (length nodes) <= 2 ^ 30)%Z ->
  listNodeHardware (cl_hardware cl) (hardwareCatalog S) = Some listed ->
  reconcilePlan S cl = Some (Planned plan) -> a ∈ plan ->
  let hw := hardwareOf S (nodeObjsOf nodes) (eligibleNodes S nodes) listed in
  let nh := default noHardware (hw !! na_NodeName a) in
  ((0 < nh_GPUCount nh)%Z ->
     cpuCapsOnUncappableGPUNodes (capOpts S) = false \/ nh_GPUReported nh = false \/ nh_GPUControlAvailable nh = true ->
     na_CapWatts a = perfCap S /\ na_CPUCapPctOfMax a = None) /\
  ((0 < nh_GPUCount nh)%Z -> cpuOnGPUNodes (govCfg S) = false -> na_CPUGovernor a = None) /\
  ((nh_GPUCount nh <= 0)%Z -> na_GPUGovernor a = None).
Proof.
  intros Hn Hnd Hlen Hl Hp Ha.
  destruct (reconcilePlan_entry cl nodes plan a Hn Hnd Hlen Hp Ha) as (listed' & pr & c & m & Hl' & Hpr & _ & Ea).
  rewrite Hl in Hl'. injection Hl' as <-. cbv zeta.
  pose proof (entrySteps_spec cl nodes listed (na_NodeName a) pr c m Hpr) as Hs. cbv zeta in Hs.
  rewrite <- Ea in Hs. destruct Hs as (_ & _ & _ & _ & _ & Hc & _ & product & multi & Hgov).
  injection Hgov as Hcpu Hgpu.
  set (nh := default noHardware _) in *. split; [|split].
  - intros Hg Hx. assert (cpuCapsByProfile S nh = false) as Hby.
    { unfold cpuCapsByProfile, agentReportsNoGPUControl. destruct (Z.ltb_spec 0 (nh_GPUCount nh)); [|lia].
      cbn. destruct Hx as [->|[->| ->]]; [done| |]; by rewrite ?andb_false_r. }
    unfold cpuCap in Hc. cbv zeta in Hc. fold nh in Hc. rewrite Hby, orb_true_r in Hc. by injection Hc as -> ->.
  - intros Hg Ho. rewrite Hcpu. apply eq_None_not_Some. intros [i Hi].
    apply cpuGovernorIntent_Some in Hi. cbv zeta in Hi. destruct Hi as (_ & Hi & _).
    rewrite Hi in Ho; [done|]. lia.
  - intros Hg. rewrite Hgpu. apply eq_None_not_Some. intros [i Hi].
    apply gpuGovernorIntent_Some in Hi. cbv zeta in Hi. destruct Hi as (_ & Hi & _). lia.
Qed.

(** The transition counter starts from the label alone, which says eco for a
    draining node too: it never counts a node leaving DrainingPerformance, and
    a node labelled eco that stays draining is counted as entering it in every
    reconcile. *)
Theorem reconcilePlan_transitions cl nodes plan a :
  cl_nodes cl = Some nodes -> NoDup (n_Name <$> nodes) -> (Z.of_nat (length nodes) <= 2 ^ 30)%Z ->
  reconcilePlan S cl = Some (Planned plan) -> a ∈ plan ->
  (forall to, recordTransitionMetrics a <> Some (StateDrainingPerformance, to)) /\
  (na_Draining a = true -> profilesOf S nodes !! na_NodeName a = Some ProfileEco ->
     recordTransitionMetrics a = Some (StateActiveEco, StateDrainingPerformance)).
Proof.
  intros Hn Hnd Hlen Hp Ha.
  destruct (reconcilePlan_entry cl nodes plan a Hn Hnd Hlen Hp Ha) as (listed & pr & c & m & _ & Hpr & _ & Ea).
  pose proof (entrySteps_spec cl nodes listed (na_NodeName a) pr c m Hpr) as Hs. cbv zeta in Hs.
  rewrite <- Ea in Hs. destruct Hs as (Hprof & Hd & Hst & Hsd & Hsp & _).
  unfold recordTransitionMetrics. rewrite Hst, Hsd. split.
  - intros to. assert (AssignmentState (na_SourceProfile a) false <> StateDrainingPerformance) as Hnd'.
    { unfold AssignmentState. by repeat case_match. }
    destruct (_ || _); [done|]. intros [= Hfrom _]. by apply Hnd'.
  - intros Hdr Hlab. rewrite Hdr in Hd. rewrite <- Hd, Hsp. unfold get_str. by rewrite Hlab.
Qed.
End Facts.

(** ** A reconcile *)

#[local] Existing Instance integer_quantity.

Definition sampleSettings : Settings := {|
  selector := fun _ => true; reservedLabel := "joulie.io/reserved"; profileLabel := PowerProfileLabelKey;
  interval := 60000000000; perfCap := fofZ 5000; ecoCap := fofZ 120; policyType := "static_partition";
  staticHPFrac := flit 1 2; queueHPBaseFrac := flit 6 10; queueHPMin := 1; queueHPMax := 1000000;
  queuePerfPerHPNode := 10; cpuPerfCapPct := fofZ 100; cpuEcoCapPct := fofZ 60; cpuWriteAbsolute := false;
  gpuPerfCapPct := fofZ 100; gpuEcoCapPct := fofZ 60; gpuWriteAbsolute := false; gpuModelCaps := ∅;
  gpuProductLabelKeys := []; hardwareCatalog := Some sampleCatalog; govCfg := sampleConfig;
  capOpts := {| cpuCapsOnUncappableGPUNodes := false |} |}.

Definition cpuNode (name label : string) (cordoned : bool) : Node := {|
  n_Name := name; n_Labels := {[PowerProfileLabelKey := label]}; n_Unschedulable := cordoned;
  n_Allocatable := ∅; n_Capacity := ∅ |}.

Definition perfPod : Pod := {|
  p_NodeName := "b"; p_Annotations := {[WorkloadClassAnnotation := "performance"]}; p_NodeSelector := ∅;
  p_RequiredTerms := None; p_Containers := []; p_InitContainers := []; p_DeletionTimestamp := None;
  p_Phase := PodRunning |}.

Definition sampleNodes : list Node :=
  [cpuNode "c" "performance" true; cpuNode "b" "eco" false; cpuNode "a" "performance" false; sampleNode].

Definition sampleCluster : Cluster := {|
  cl_nodes := Some sampleNodes; cl_hardware := NoCRD; cl_pods := Some [perfPod];
  cl_podsOn := fun n => if String.eqb n "b" then Some [perfPod] else Some []; cl_now := 0 |}.

Definition samplePlan : list NodeAssignment :=
  match reconcilePlan sampleSettings sampleCluster with Some (Planned plan) => plan | _ => [] end.

Example reconcilePlan_sample :
  (fun a => (na_NodeName a, na_Profile a, na_State a, recordTransitionMetrics a)) <$> samplePlan =
  [("a", "performance", "ActivePerformance", None);
   ("b", "eco", "DrainingPerformance", Some ("ActiveEco", "DrainingPerformance"));
   ("node.b", "performance", "ActivePerformance", None)].
Proof. vm_compute. reflexivity. Qed.

Lemma sample_planned : reconcilePlan sampleSettings sampleCluster = Some (Planned samplePlan).
Proof. vm_compute. reflexivity. Qed.

(** The entry of the plan at an index. *)
Definition sampleEntry (i : nat) : NodeAssignment := nth i samplePlan (assignment "" "" fzero "").

Lemma sampleEntry_elem i : (i < 3)%nat -> sampleEntry i ∈ samplePlan.
Proof.
  intros Hi. assert (length samplePlan = 3%nat) as Hl by (vm_compute; reflexivity).
  unfold sampleEntry. revert Hl. generalize samplePlan as l. intros l Hl.
  apply list_elem_of_In, nth_In. by rewrite Hl.
Qed.

Example reconcilePlan_covers_witness :
  exists out, reconcilePlan sampleSettings sampleCluster = Some out /\
    match out with Planned plan => NoDup (na_NodeName <$> plan) | _ => False end.
Proof.
  destruct (reconcilePlan_covers sampleSettings sampleCluster sampleNodes eq_refl) as (out & Ho & H).
  - by_decide.
  - vm_compute. discriminate.
  - exists out. split; [exact Ho|]. rewrite sample_planned in Ho. injection Ho as <-. apply H.
Defined.

Example reconcilePlan_protects_running_pods_witness :
  na_CPUCapPctOfMax (sampleEntry 1) = Some (fofZ 100) /\ na_Profile (sampleEntry 1) = ProfileEco /\
  na_Draining (sampleEntry 1) = true.
Proof.
  destruct (reconcilePlan_protects_running_pods sampleSettings sampleCluster sampleNodes ∅ samplePlan
    (sampleEntry 1) [perfPod] perfPod) as (_ & _ & Hpct & _ & _).
  - reflexivity.
  - by_decide.
  - vm_compute. discriminate.
  - reflexivity.
  - exact sample_planned.
  - apply sampleEntry_elem. lia.
  - vm_compute. reflexivity.
  - by left.
  - vm_compute. reflexivity.
  - split; [|split; vm_compute; reflexivity].
    destruct Hpct as [E|E]; [vm_compute in E; discriminate|exact E].
Defined.

Example reconcilePlan_gpu_nodes_witness :
  na_CapWatts (sampleEntry 2) = fofZ 5000 /\ na_CPUCapPctOfMax (sampleEntry 2) = None.
Proof.
  destruct (reconcilePlan_gpu_nodes sampleSettings sampleCluster sampleNodes ∅ samplePlan (sampleEntry 2))
    as [H _].
  - reflexivity.
  - by_decide.
  - vm_compute. discriminate.
  - reflexivity.
  - exact sample_planned.
  - apply sampleEntry_elem. lia.
  - apply H; [vm_compute; reflexivity|]. left. reflexivity.
Defined.

Example reconcilePlan_transitions_witness :
  recordTransitionMetrics (sampleEntry 1) = Some (StateActiveEco, StateDrainingPerformance).
Proof.
  destruct (reconcilePlan_transitions sampleSettings sampleCluster sampleNodes samplePlan (sampleEntry 1))
    as [_ H].
  - reflexivity.
  - by_decide.
  - vm_compute. discriminate.
  - exact sample_planned.
  - apply sampleEntry_elem. lia.
  - apply H; vm_compute; reflexivity.
Defined.
