(* ===== verification/Publish.v ===== *)
(** * Publishing the plan: cmd/controller-manager

    The NodeTwin specs and node labels a reconcile writes
    (twinstate.go, main.go), over the state of the API server: a write that
    would change nothing is not sent, and the first failed call ends the loop.
    Which calls fail is a parameter; so is [json.Marshal]. *)

From S2P Require Import Prelude GoString GoFloat Json Api Resources Policy Fsm Inventory.

#[local] Open Scope string_scope.

(** ** The API server *)

(** The specs of the NodeTwin objects, the labels of the nodes and the number
    of writes the server accepted. *)
Record World := {
  w_specs : gmap string json;
  w_labels : gmap string (gmap string string);
  w_writes : nat
}.

Inductive ApiCall := GetTwin (name : string) | CreateTwin (name : string) | UpdateTwin (name : string)
| GetNode (name : string) | PatchNode (name : string).

(** Code over the server: it may stop with the call that failed. *)
Definition M (A : Type) : Type := World -> World * (A + ApiCall).

#[global] Instance M_ret : MRet M := fun A x w => (w, inl x).
#[global] Instance M_bind : MBind M := fun A B f m w =>
  match m w with
  | (w', inl x) => f x w'
  | (w', inr e) => (w', inr e)
  end.

Definition get : M World := fun w => (w, inl w).
Definition put (w : World) : M unit := fun _ => (w, inl ()).

Definition setSpec (name : string) (spec : json) (w : World) : World :=
  {| w_specs := <[name := spec]> (w_specs w); w_labels := w_labels w; w_writes := Datatypes.S (w_writes w) |}.

Definition setLabel (node key value : string) (w : World) : World :=
  {| w_specs := w_specs w; w_labels := alter (insert key value) node (w_labels w);
     w_writes := Datatypes.S (w_writes w) |}.

Section Publish.
(** The calls the server answers, and [json.Marshal]. *)
Context (ok : ApiCall -> bool) (Marshal : json -> option string).

Definition call (c : ApiCall) : M unit := fun w => (w, if ok c then inl () else inr c).

(** ** The spec of a NodeTwin *)

(** src/cmd/controller-manager/twinstate.go:458-473 [cpu] *)
Definition cpuSpec (a : NodeAssignment) : list (string * json) :=
  (match na_CPUCapPctOfMax a with
   | Some pct => [("packagePowerCapPctOfMax", JNum pct)]
   | None => if flt fzero (na_CapWatts a) then [("packagePowerCapWatts", JNum (na_CapWatts a))] else []
   end) ++
  (match na_CPUGovernor a with
   | Some g => [("governor", JObj ([("preset", JStr (cgi_Preset g))] ++
       (if negb (String.eqb (cgi_Boost g) "") then [("boost", JStr (cgi_Boost g))] else [])))]
   | None => []
   end).

(** src/cmd/controller-manager/twinstate.go:474-496 [gpu] *)
Definition gpuSpec (a : NodeAssignment) : list (string * json) :=
  (match na_GPU a with
   | Some g => [("powerCap", JObj ([("scope", JStr "perGpu")] ++
       (match gci_CapWattsPerGPU g with Some w => [("capWattsPerGpu", JNum w)] | None => [] end) ++
       (match gci_CapPctOfMax g with Some p => [("capPctOfMax", JNum p)] | None => [] end)))]
   | None => []
   end) ++
  (match na_GPUGovernor a with
   | Some g => [("governor", JObj ([("preset", JStr (ggi_Preset g))] ++
       (match ggi_ComputeClockCeilingPctOfMax g with
        | Some c => [("computeClockCeilingPctOfMax", JNum c)]
        | None => []
        end)))]
   | None => []
   end).

(** The members in the order they are set.
    src/cmd/controller-manager/twinstate.go:448-497 [spec] *)
Definition specOf (a : NodeAssignment) : json :=
  JObj ([("nodeName", JStr (na_NodeName a)); ("profile", JStr (na_Profile a));
         ("policy", JObj [("name", JStr (na_ManagedBy a))]);
         ("scheduling", JObj [("draining", JBool (na_Draining a))]);
         ("cpu", JObj (cpuSpec a))] ++
        match gpuSpec a with [] => [] | gpu => [("gpu", JObj gpu)] end).

(** src/cmd/controller-manager/twinstate.go:539-546 [jsonEqual] *)
Definition jsonEqual (a b : json) : bool :=
  match Marshal a, Marshal b with
  | Some x, Some y => String.eqb x y
  | _, _ => false
  end.

(** ** The writes *)

(** src/cmd/controller-manager/twinstate.go:446-534 [upsertNodeTwinSpec] *)
Definition upsertNodeTwinSpec (a : NodeAssignment) : M unit :=
  let name := sanitizeName (na_NodeName a) in
  let spec := specOf a in
  call (GetTwin name);;
  w ← get;
  match w_specs w !! name with
  | None => call (CreateTwin name);; put (setSpec name spec w)
  | Some existing =>
      if jsonEqual existing spec then mret ()
      else call (UpdateTwin name);; put (setSpec name spec w)
  end.

(** A node the server does not have fails the get.
    src/cmd/controller-manager/main.go:1271-1296 [upsertNodeLabels] *)
Definition upsertNodeLabels (profileLabel : string) (a : NodeAssignment) : M unit :=
  let labelValue := na_Profile a in
  call (GetNode (na_NodeName a));;
  w ← get;
  match w_labels w !! na_NodeName a with
  | None => fun w => (w, inr (GetNode (na_NodeName a)))
  | Some labels =>
      let currentProfile := TrimSpace (get_str labels profileLabel) in
      if String.eqb currentProfile labelValue then mret ()
      else call (PatchNode (na_NodeName a));; put (setLabel (na_NodeName a) profileLabel labelValue w)
  end.

(** The loop over the plan; the twin status it also writes is in Twinstate,
    its errors only logged.
    src/cmd/controller-manager/main.go:542-548 [upsertNodeTwinSpec] *)
Fixpoint publishPlan (profileLabel : string) (plan : list NodeAssignment) : M unit :=
  match plan with
  | [] => mret ()
  | a :: rest => upsertNodeTwinSpec a;; upsertNodeLabels profileLabel a;; publishPlan profileLabel rest
  end.

(** ** What a reconcile leaves on the server *)

Context (key : string).

Definition specSynced (w : World) (a : NodeAssignment) : Prop :=
  exists j, w_specs w !! sanitizeName (na_NodeName a) = Some j /\ (j = specOf a \/ jsonEqual j (specOf a) = true).

Definition labelSynced (w : World) (a : NodeAssignment) : Prop :=
  exists labels, w_labels w !! na_NodeName a = Some labels /\ TrimSpace (get_str labels key) = na_Profile a.

(** Every failed call stops its operation with nothing written. *)
Lemma spec_step (a : NodeAssignment) (w : World) :
  let '(w', r) := upsertNodeTwinSpec a w in
  w_labels w' = w_labels w /\
  (forall n, n <> sanitizeName (na_NodeName a) -> w_specs w' !! n = w_specs w !! n) /\
  match r with inl _ => specSynced w' a | inr c => w' = w /\ ok c = false end.
Proof.
  unfold upsertNodeTwinSpec, call, get, put, mret, M_ret, mbind, M_bind. cbn beta iota.
  destruct (ok (GetTwin _)) eqn:E1; [|done].
  set (name := sanitizeName (na_NodeName a)). destruct (w_specs w !! name) as [j|] eqn:Ej.
  - destruct (jsonEqual j (specOf a)) eqn:Eq.
    { split; [done|]. split; [done|]. exists j. split; [done|]. by right. }
    cbn beta iota. destruct (ok (UpdateTwin name)) eqn:E2; [|done].
    split; [done|]. split; [intros n Hn; by apply lookup_insert_ne|].
    exists (specOf a). split; [apply lookup_insert_eq|by left].
  - cbn beta iota. destruct (ok (CreateTwin name)) eqn:E2; [|done].
    split; [done|]. split; [intros n Hn; by apply lookup_insert_ne|].
    exists (specOf a). split; [apply lookup_insert_eq|by left].
Qed.

Lemma label_step (a : NodeAssignment) (w : World) :
  TrimSpace (na_Profile a) = na_Profile a ->
  let '(w', r) := upsertNodeLabels key a w in
  w_specs w' = w_specs w /\
  (forall n, n <> na_NodeName a -> w_labels w' !! n = w_labels w !! n) /\
  match r with
  | inl _ => labelSynced w' a
  | inr c => w' = w /\ (ok c = false \/ (c = GetNode (na_NodeName a) /\ w_labels w !! na_NodeName a = None))
  end.
Proof.
  intros Ht. unfold upsertNodeLabels, call, get, put, mret, M_ret, mbind, M_bind. cbn beta iota.
  destruct (ok (GetNode _)) eqn:E1; [|by auto].
  destruct (w_labels w !! na_NodeName a) as [labels|] eqn:El; [|by auto 10].
  destruct (String.eqb _ _) eqn:Eq.
  { split; [done|]. split; [done|]. exists labels. by apply String.eqb_eq in Eq. }
  cbn beta iota. destruct (ok (PatchNode _)) eqn:E2; [|by auto].
  split; [done|]. split; [intros n Hn; by apply lookup_alter_ne|].
  exists (<[key := na_Profile a]> labels). split; [cbn; by rewrite lookup_alter_eq, El|].
  unfold get_str. by rewrite lookup_insert_eq.
Qed.

(** C27. The loop, entry by entry: the first [k] entries are published, spec and
    label; a failed call is the reason it stops before the end, and then the
    entry it failed on keeps its label and every later entry is untouched, as
    are all other objects and nodes. *)
Theorem publishPlan_correct (plan : list NodeAssignment) (w w' : World) r :
  NoDup (sanitizeName ∘ na_NodeName <$> plan) ->
  (forall a, a ∈ plan -> TrimSpace (na_Profile a) = na_Profile a) ->
  publishPlan key plan w = (w', r) ->
  exists k, (k <= length plan)%nat /\
    (forall a, a ∈ take k plan -> specSynced w' a /\ labelSynced w' a) /\
    (forall n, n ∉ (sanitizeName ∘ na_NodeName <$> take (Datatypes.S k) plan) -> w_specs w' !! n = w_specs w !! n) /\
    (forall n, n ∉ (na_NodeName <$> take k plan) -> w_labels w' !! n = w_labels w !! n) /\
    match r with
    | inl _ => k = length plan
    | inr c => (k < length plan)%nat /\
        (ok c = false \/ exists a, plan !! k = Some a /\ c = GetNode (na_NodeName a) /\ w_labels w !! na_NodeName a = None)
    end.
Proof.
  revert w. induction plan as [|a plan IH]; intros w Hnd Ht.
  { intros [= <- <-]. exists 0%nat. split; [done|]. split; [by intros a ?%not_elem_of_nil|]. done. }
  cbn [publishPlan]. unfold mbind, M_bind. cbn beta iota. cbn [fmap list_fmap] in Hnd. apply NoDup_cons in Hnd as [Hn Hnd].
  pose proof (spec_step a w) as H1. destruct (upsertNodeTwinSpec a w) as [w1 [u1|c1]].
  2:{ destruct H1 as (Hl1 & Hs1 & -> & Hc). intros [= <- <-]. exists 0%nat. cbn. split; [lia|].
      split; [by intros b ?%not_elem_of_nil|]. split; [done|]. split; [done|]. split; [lia|by left]. }
  destruct H1 as (Hl1 & Hs1 & Hsync1).
  pose proof (label_step a w1 (Ht a ltac:(by left))) as H2. destruct (upsertNodeLabels key a w1) as [w2 [u2|c2]].
  2:{ destruct H2 as (Hs2 & Hl2 & -> & Hc). intros [= <- <-]. exists 0%nat. cbn. split; [lia|].
      split; [by intros b ?%not_elem_of_nil|].
      split; [intros n Hnn; apply Hs1; intros ->; apply Hnn; by left|]. rewrite Hl1 in *. split; [done|].
      split; [lia|]. destruct Hc as [Hc|[-> Hc]]; [by left|right]. by exists a. }
  destruct H2 as (Hs2 & Hl2 & Hsync2). intros Hrun.
  destruct (IH w2 Hnd (fun b Hb => Ht b ltac:(by right)) Hrun) as (k & Hk & Hsync & Hspec & Hlab & Hr).
  assert (sanitizeName (na_NodeName a) ∉ (sanitizeName ∘ na_NodeName <$> take (Datatypes.S k) plan)) as Hna.
  { intros Hin. apply Hn. apply list_elem_of_fmap in Hin as (b & Eb & Hb).
    apply list_elem_of_fmap. exists b. split; [exact Eb|]. by apply elem_of_take in Hb as (i & ?%list_elem_of_lookup_2 & _). }
  assert (na_NodeName a ∉ (na_NodeName <$> take k plan)) as Hla.
  { intros Hin. apply Hn. apply list_elem_of_fmap in Hin as (b & Eb & Hb).
    apply list_elem_of_fmap. exists b. cbn. rewrite Eb. split; [done|].
    by apply elem_of_take in Hb as (i & ?%list_elem_of_lookup_2 & _). }
  exists (Datatypes.S k). cbn [length]. split; [lia|]. split; [|split; [|split]].
  - intros b Hb. cbn [take] in Hb. apply elem_of_cons in Hb as [->|Hb]; [|by apply Hsync].
    unfold specSynced, labelSynced. rewrite Hspec, Hlab, Hs2 by done. done.
  - intros n Hnn. cbn [take fmap list_fmap] in Hnn. apply not_elem_of_cons in Hnn as [Hne Hnn].
    rewrite Hspec by done. rewrite Hs2. by apply Hs1.
  - intros n Hnn. cbn [take fmap list_fmap] in Hnn. apply not_elem_of_cons in Hnn as [Hne Hnn].
    rewrite Hlab, Hl2 by done. by rewrite Hl1.
  - destruct r as [u|c]; [lia|]. destruct Hr as [Hlt Hr]. split; [lia|].
    destruct Hr as [Hc|(b & Hb & Hc & Hno)]; [by left|right]. exists b. cbn [lookup list_lookup].
    split; [done|]. split; [done|]. rewrite <- Hl1, <- Hl2; [done|]. intros Eb. apply Hn. cbn. rewrite <- Eb.
    apply list_elem_of_fmap. exists b. split; [done|]. by apply list_elem_of_lookup_2 in Hb.
Qed.

(** A published plan costs no write the next time: where specs and labels
    agree with the plan, the loop sends no update, so a steady cluster wakes
    no watcher. *)
Theorem publishPlan_idempotent (plan : list NodeAssignment) (w : World) :
  (forall a, a ∈ plan -> specSynced w a /\ labelSynced w a /\ is_Some (Marshal (specOf a)) /\
     ok (GetTwin (sanitizeName (na_NodeName a))) = true /\ ok (GetNode (na_NodeName a)) = true) ->
  publishPlan key plan w = (w, inl ()).
Proof.
  induction plan as [|a plan IH]; intros Hs; [done|].
  destruct (Hs a ltac:(by left)) as ((j & Hj & Heq) & (ls & Hls & Hp) & [m Hm] & Hg & Hn).
  assert (upsertNodeTwinSpec a w = (w, inl ())) as E1.
  { unfold upsertNodeTwinSpec, call, get, mret, M_ret, mbind, M_bind. cbn beta iota. rewrite Hg, Hj.
    assert (jsonEqual j (specOf a) = true) as ->; [|done].
    destruct Heq as [-> | ?]; [|done]. unfold jsonEqual. rewrite Hm. apply String.eqb_refl. }
  assert (upsertNodeLabels key a w = (w, inl ())) as E2.
  { unfold upsertNodeLabels, call, get, mret, M_ret, mbind, M_bind. cbn beta iota. rewrite Hn, Hls, Hp, String.eqb_refl. done. }
  cbn [publishPlan]. unfold mbind, M_bind. cbn beta iota. rewrite E1, E2. apply IH. intros b Hb. apply Hs. by right.
Qed.
End Publish.

(** ** A publication *)

(** An encoder for the examples: numbers by their whole part. *)
Fixpoint render (j : json) : string :=
  match j with
  | JNull => "null"
  | JBool b => if b then "true" else "false"
  | JNum x => Itoa (int_of_float x)
  | JInt n => Itoa n
  | JStr s => s
  | JArr l => "[" +:+ Join (render <$> l) "," +:+ "]"
  | JObj m => "{" +:+ Join ((fun kv => kv.1 +:+ ":" +:+ render kv.2) <$> m) "," +:+ "}"
  end.

Definition samplePlanOut : list NodeAssignment :=
  [withLabels (assignment "node-a" "performance" (fofZ 5000) "static-partition-v1") ("performance", false);
   withLabels (assignment "Node.B" "eco" (fofZ 120) "static-partition-v1") ("eco", true)].

Definition sampleWorld : World := {|
  w_specs := {["node-c" := JNull]};
  w_labels := {["node-a" := ∅; "Node.B" := {["joulie.io/power-profile" := "performance"]}]};
  w_writes := 0 |}.

Definition serverUp : ApiCall -> bool := fun _ => true.

(** The server refuses the update of the second label. *)
Definition patchRefused : ApiCall -> bool :=
  fun c => match c with PatchNode "Node.B" => false | _ => true end.

Definition publishedWorld : World :=
  (publishPlan serverUp (fun j => Some (render j)) "joulie.io/power-profile" samplePlanOut sampleWorld).1.

Example publishedWorld_writes : w_writes publishedWorld = 4%nat.
Proof. vm_compute. reflexivity. Qed.

Example publishPlan_correct_witness :
  exists w', publishPlan patchRefused (fun j => Some (render j)) "joulie.io/power-profile" samplePlanOut sampleWorld =
      (w', inr (PatchNode "Node.B")) /\
    exists k, (k < 2)%nat /\ w_specs w' !! "node-c" = Some JNull.
Proof.
  eexists. split; [vm_compute; reflexivity|].
  destruct (publishPlan_correct patchRefused (fun j => Some (render j)) "joulie.io/power-profile" samplePlanOut
    sampleWorld _ (inr (PatchNode "Node.B")) ltac:(by_decide)
    ltac:(intros a Ha; repeat (apply elem_of_cons in Ha as [->|Ha]; [vm_compute; reflexivity|]);
          by apply not_elem_of_nil in Ha)
    ltac:(vm_compute; reflexivity)) as (k & Hk & _ & Hs & _ & Hlt & _).
  exists k. split; [exact Hlt|]. rewrite Hs; [vm_compute; reflexivity|].
  intros Hin. apply list_elem_of_fmap in Hin as (a & Ea & Ha%elem_of_take).
  destruct Ha as (i & Hi & _). destruct i as [|[|i]]; cbn in Hi; [| |done]; injection Hi as <-;
    vm_compute in Ea; discriminate.
Defined.

Example publishPlan_idempotent_witness :
  publishPlan serverUp (fun j => Some (render j)) "joulie.io/power-profile" samplePlanOut publishedWorld =
  (publishedWorld, inl ()).
Proof.
  apply publishPlan_idempotent. intros a Ha.
  apply elem_of_cons in Ha as [->|Ha]; [|apply elem_of_cons in Ha as [->|Ha]; [|by apply not_elem_of_nil in Ha]].
  - split; [eexists; split; [vm_compute; reflexivity|left; vm_compute; reflexivity]|].
    split; [eexists; split; [vm_compute; reflexivity|vm_compute; reflexivity]|]. by eauto.
  - split; [eexists; split; [vm_compute; reflexivity|left; vm_compute; reflexivity]|].
    split; [eexists; split; [vm_compute; reflexivity|vm_compute; reflexivity]|]. by eauto.
Defined.
