(* ===== verification/TwinSpec.v ===== *)
(** * The NodeTwin the agent reads: cmd/agent/main.go, api/v1alpha1

    The spec of a NodeTwin as the typed client decodes it, the desired state
    the agent makes of it, and the telemetry configuration that says where
    its power reading and its commands go. [decodeTwinSpec] is the decoding
    of encoding/json along the field tags of nodetwin_types.go: a member that
    is absent leaves the field's zero value, one of another type is an
    error. *)

From S2P Require Import Prelude GoString GoFloat Json Api Resources Policy Fsm Inventory Env Publish Host HostFS Dvfs GpuDevices.

#[local] Open Scope string_scope.

(** ** The object *)

(** src/api/v1alpha1/nodetwin_types.go:22-33 [NodeTwinCPU] *)
Record NodeTwinCPU := mkTwinCPU {
  tc_PackagePowerCapWatts : option float64;
  tc_PackagePowerCapPctOfMax : option float64;
  tc_Governor : option CPUGovernorIntent
}.

(** The cap is a [GPUPowerCap] of the same fields.
    src/api/v1alpha1/nodetwin_types.go:53-58 [NodeTwinGPU] *)
Record NodeTwinGPU := mkTwinGPU { tg_PowerCap : option GPUPowerCap; tg_Governor : option GPUGovernorIntent }.

(** The scheduling hints are not read by the agent.
    src/api/v1alpha1/nodetwin_types.go:9-17 [NodeTwinSpec] *)
Record NodeTwinSpec := mkTwinSpec {
  tw_NodeName : string;
  tw_Profile : string;
  tw_CPU : option NodeTwinCPU;
  tw_GPU : option NodeTwinGPU;
  tw_Policy : option string
}.

(** The governor results of a controlStatus, when there is one.
    src/api/v1alpha1/nodetwin_types.go:175-182 [ControlStatus] *)
Record GovernorResults := mkResults { gr_CPU : option ControlResult; gr_GPU : option ControlResult }.

(** src/api/v1alpha1/nodetwin_types.go:215-223 [NodeTwin] *)
Record NodeTwin := mkTwin { nt_Name : string; nt_Spec : NodeTwinSpec; nt_ControlStatus : option GovernorResults }.

Section Decode.
Context {A : Type}.

(** A field of a struct, a pointer field, and the members of a struct. *)
Definition field (zero : A) (dec : json -> option A) (m : list (string * json)) (k : string) : option A :=
  match jget m k with None | Some JNull => Some zero | Some v => dec v end.
Definition pointer (dec : json -> option A) (m : list (string * json)) (k : string) : option (option A) :=
  match jget m k with None | Some JNull => Some None | Some v => Some <$> dec v end.
Definition struct (dec : list (string * json) -> option A) (v : json) : option A :=
  match v with JObj m => dec m | _ => None end.
End Decode.

Definition decStr (v : json) : option string := match v with JStr s => Some s | _ => None end.
Definition decNum (v : json) : option float64 := match v with JNum x => Some x | JInt n => Some (fofZ n) | _ => None end.

Definition decCPUGovernor := struct (fun m =>
  preset ← field "" decStr m "preset"; boost ← field "" decStr m "boost";
  Some {| cgi_Preset := preset; cgi_Boost := boost |}).

Definition decGPUGovernor := struct (fun m =>
  preset ← field "" decStr m "preset"; ceiling ← pointer decNum m "computeClockCeilingPctOfMax";
  Some {| ggi_Preset := preset; ggi_ComputeClockCeilingPctOfMax := ceiling |}).

Definition decPowerCap := struct (fun m =>
  scope ← field "" decStr m "scope"; watts ← pointer decNum m "capWattsPerGpu"; pct ← pointer decNum m "capPctOfMax";
  Some (mkPowerCap scope watts pct)).

Definition decTwinCPU := struct (fun m =>
  watts ← pointer decNum m "packagePowerCapWatts"; pct ← pointer decNum m "packagePowerCapPctOfMax";
  governor ← pointer decCPUGovernor m "governor"; Some (mkTwinCPU watts pct governor)).

Definition decTwinGPU := struct (fun m =>
  cap ← pointer decPowerCap m "powerCap"; governor ← pointer decGPUGovernor m "governor"; Some (mkTwinGPU cap governor)).

Definition decPolicy := struct (fun m => field "" decStr m "name").

(** src/api/v1alpha1/nodetwin_types.go:9-95 [NodeTwinSpec] *)
Definition decodeTwinSpec : json -> option NodeTwinSpec := struct (fun m =>
  nodeName ← field "" decStr m "nodeName"; profile ← field "" decStr m "profile";
  cpu ← pointer decTwinCPU m "cpu"; gpu ← pointer decTwinGPU m "gpu"; policy ← pointer decPolicy m "policy";
  Some (mkTwinSpec nodeName profile cpu gpu policy)).

(** ** What the agent makes of it *)

(** src/cmd/agent/main.go:129-143 [NodeTwinSpec] *)
Record AgentSpec := {
  as_Name : string;
  as_NodeName : string;
  as_Profile : string;
  as_PowerWatts : option float64;
  as_PowerPctOfMax : option float64;
  as_GPU : option GPUPowerCap;
  as_PolicyName : string;
  as_CPUGovernor : option CPUGovernorIntent;
  as_GPUGovernor : option GPUGovernorIntent;
  as_LastCPUGovernor : option ControlResult;
  as_LastGPUGovernor : option ControlResult
}.

(** A cap with neither value is no cap; a scope left empty is per GPU.
    src/cmd/agent/main.go:2006-2019 [gpu] *)
Definition gpuCapOf (pc : GPUPowerCap) : option GPUPowerCap :=
  let scope := TrimSpace (gpc_Scope pc) in
  match gpc_CapWattsPerGPU pc, gpc_CapPctOfMax pc with
  | None, None => None
  | w, p => Some (mkPowerCap (if String.eqb scope "" then "perGpu" else scope) w p)
  end.

(** src/cmd/agent/main.go:1976-2021 [nodeTwinSpecFromObject] *)
Definition nodeTwinSpecFromObject (nt : NodeTwin) : AgentSpec :=
  let spec := nt_Spec nt in
  {| as_Name := nt_Name nt;
     as_NodeName := tw_NodeName spec;
     as_Profile := tw_Profile spec;
     as_PowerWatts := cpu ← tw_CPU spec; tc_PackagePowerCapWatts cpu;
     as_PowerPctOfMax := cpu ← tw_CPU spec; tc_PackagePowerCapPctOfMax cpu;
     as_GPU := gpu ← tw_GPU spec; pc ← tg_PowerCap gpu; gpuCapOf pc;
     as_PolicyName := default "" (tw_Policy spec);
     as_CPUGovernor := cpu ← tw_CPU spec; tc_Governor cpu;
     as_GPUGovernor := gpu ← tw_GPU spec; tg_Governor gpu;
     as_LastCPUGovernor := cs ← nt_ControlStatus nt; gr_CPU cs;
     as_LastGPUGovernor := cs ← nt_ControlStatus nt; gr_GPU cs |}.

(** What reading the NodeTwin from the cache answers: the object, none of
    that name, or another error. *)
Inductive TwinRead := TwinFound (nt : NodeTwin) | TwinAbsent | TwinFailed (err : string).

(** src/cmd/agent/main.go:1956-1969 [getNodeTwinSpec] *)
Definition getNodeTwinSpec (read : string -> TwinRead) (nodeName : string) : string + option AgentSpec :=
  match read (sanitizeName nodeName) with
  | TwinAbsent => inr None
  | TwinFailed err => inl err
  | TwinFound nt =>
      let np := nodeTwinSpecFromObject nt in
      if negb (String.eqb (as_NodeName np) "") && negb (String.eqb (as_NodeName np) nodeName) then
        inl ("NodeTwin " +:+ nt_Name nt +:+ " belongs to node " +:+ Quote (as_NodeName np) +:+ ", not " +:+ Quote nodeName)
      else inr (Some np)
  end.

(** src/cmd/agent/main.go:112-127 [DesiredState] *)
Record DesiredState := {
  ds_Name : string;
  ds_PowerWatts : option float64;
  ds_PowerPctOfMax : option float64;
  ds_GPU : option GPUPowerCap;
  ds_CPUGovernor : option CPUGovernorIntent;
  ds_GPUGovernor : option GPUGovernorIntent;
  ds_LastCPUGovernor : option ControlResult;
  ds_LastGPUGovernor : option ControlResult
}.

(** src/cmd/agent/main.go:1929-1947 [resolveDesiredStateForNode] *)
Definition resolveDesiredStateForNode (read : string -> TwinRead) (nodeName : string) : string + (option DesiredState * string) :=
  match getNodeTwinSpec read nodeName with
  | inl err => inl ("get NodeTwin: " +:+ err)
  | inr None => inr (None, "")
  | inr (Some np) =>
      inr (Some {| ds_Name := as_Name np; ds_PowerWatts := as_PowerWatts np; ds_PowerPctOfMax := as_PowerPctOfMax np;
                   ds_GPU := as_GPU np; ds_CPUGovernor := as_CPUGovernor np; ds_GPUGovernor := as_GPUGovernor np;
                   ds_LastCPUGovernor := as_LastCPUGovernor np; ds_LastGPUGovernor := as_LastGPUGovernor np |}, "nodetwin")
  end.

(** ** Telemetry *)

(** The fields the environment sets; timeouts are the transport's.
    src/cmd/agent/main.go:151-166 [TelemetryConfig] *)
Record TelemetryConfig := mkTelemetry {
  tel_CPUSourceType : string;
  tel_HTTPEndpoint : string;
  tel_CPUControlType : string;
  tel_ControlHTTPEndpoint : string;
  tel_ControlMode : string;
  tel_GPUControlType : string;
  tel_GPUControlHTTPEndpoint : string;
  tel_GPUControlMode : string;
  tel_TimeoutSeconds : Z
}.

Definition word_env (env : Environ) (key : string) : string := ToLower (TrimSpace (Getenv env key)).

(** Every timeout is the one number.
    src/cmd/agent/main.go:2033-2062 [resolveTelemetryConfigFromEnv] *)
Definition resolveTelemetryConfigFromEnv (env : Environ) : option TelemetryConfig :=
  let cpuSource := word_env env "TELEMETRY_CPU_SOURCE" in
  let cpuControl := word_env env "TELEMETRY_CPU_CONTROL" in
  let gpuControl := word_env env "TELEMETRY_GPU_CONTROL" in
  if String.eqb cpuSource "" && String.eqb cpuControl "" && String.eqb gpuControl "" then None
  else
    let v := TrimSpace (Getenv env "TELEMETRY_HTTP_TIMEOUT_SECONDS") in
    Some {| tel_CPUSourceType := cpuSource;
            tel_HTTPEndpoint := TrimSpace (Getenv env "TELEMETRY_CPU_HTTP_ENDPOINT");
            tel_CPUControlType := cpuControl;
            tel_ControlHTTPEndpoint := TrimSpace (Getenv env "TELEMETRY_CPU_CONTROL_HTTP_ENDPOINT");
            tel_ControlMode := word_env env "TELEMETRY_CPU_CONTROL_MODE";
            tel_GPUControlType := gpuControl;
            tel_GPUControlHTTPEndpoint := TrimSpace (Getenv env "TELEMETRY_GPU_CONTROL_HTTP_ENDPOINT");
            tel_GPUControlMode := word_env env "TELEMETRY_GPU_CONTROL_MODE";
            tel_TimeoutSeconds := if String.eqb v "" then 0 else default 0%Z (Atoi v) |}.

(** Whether the controller's readings come from the endpoint.
    src/cmd/agent/main.go:1569-1587 [setDVFSPowerReaderForTelemetry] *)
Definition setDVFSPowerReaderForTelemetry (cfg : option TelemetryConfig) (d : Controller) : Controller :=
  match cfg with
  | None => set_PowerReader false d
  | Some cfg =>
      if String.eqb (tel_CPUSourceType cfg) "" || String.eqb (tel_CPUSourceType cfg) "host" then set_PowerReader false d
      else if negb (String.eqb (tel_CPUSourceType cfg) "http") || String.eqb (tel_HTTPEndpoint cfg) "" then set_PowerReader false d
      else set_PowerReader true d
  end.

(** src/cmd/agent/main.go:1589-1602 [controlClientFromTelemetry] *)
Definition controlClientFromTelemetry (cfg : option TelemetryConfig) (nodeName : string) : option HTTPControlClient :=
  cfg ← cfg;
  if negb (String.eqb (tel_CPUControlType cfg) "http") || String.eqb (tel_ControlHTTPEndpoint cfg) "" then None
  else Some (mkClient (tel_ControlHTTPEndpoint cfg) nodeName).

(** src/cmd/agent/main.go:1604-1617 [gpuControlClientFromTelemetry] *)
Definition gpuControlClientFromTelemetry (cfg : option TelemetryConfig) (nodeName : string) : option HTTPControlClient :=
  cfg ← cfg;
  if negb (String.eqb (tel_GPUControlType cfg) "http") || String.eqb (tel_GPUControlHTTPEndpoint cfg) "" then None
  else Some (mkClient (tel_GPUControlHTTPEndpoint cfg) nodeName).

(** ** The agent reads what the controller manager wrote *)

(** The cap and the governors an assignment asks its node for. *)
Definition askedWatts (a : NodeAssignment) : option float64 :=
  match na_CPUCapPctOfMax a with
  | Some _ => None
  | None => if flt fzero (na_CapWatts a) then Some (na_CapWatts a) else None
  end.

Definition askedGPU (a : NodeAssignment) : option GPUPowerCap :=
  g ← na_GPU a;
  match gci_CapWattsPerGPU g, gci_CapPctOfMax g with
  | None, None => None
  | w, p => Some (mkPowerCap "perGpu" w p)
  end.

Definition asked (a : NodeAssignment) (results : option GovernorResults) : DesiredState := {|
  ds_Name := sanitizeName (na_NodeName a);
  ds_PowerWatts := askedWatts a;
  ds_PowerPctOfMax := na_CPUCapPctOfMax a;
  ds_GPU := askedGPU a;
  ds_CPUGovernor := na_CPUGovernor a;
  ds_GPUGovernor := na_GPUGovernor a;
  ds_LastCPUGovernor := cs ← results; gr_CPU cs;
  ds_LastGPUGovernor := cs ← results; gr_GPU cs
|}.

(** The objects of the API server as the agent's cache reads them: the spec
    of each twin decoded, with the governor results of its status. *)
Definition readTwin (w : World) (results : string -> option GovernorResults) (name : string) : TwinRead :=
  match w_specs w !! name with
  | None => TwinAbsent
  | Some j =>
      match decodeTwinSpec j with
      | None => TwinFailed "decode"
      | Some spec => TwinFound (mkTwin name spec (results name))
      end
  end.

Lemma jget_app m m' k : jget (m ++ m') k = match jget m k with Some v => Some v | None => jget m' k end.
Proof. induction m as [|[k' v] m IH]; cbn; [done|]. by destruct (String.eqb k' k). Qed.

Lemma decCPUGovernor_spec g :
  decCPUGovernor (JObj (("preset", JStr (cgi_Preset g)) ::
    (if negb (String.eqb (cgi_Boost g) "") then [("boost", JStr (cgi_Boost g))] else []))) = Some g.
Proof. destruct g as [preset boost]. cbn. destruct (String.eqb_spec boost "") as [->|]; cbn; done. Qed.

Lemma decGPUGovernor_spec g :
  decGPUGovernor (JObj (("preset", JStr (ggi_Preset g)) ::
    (match ggi_ComputeClockCeilingPctOfMax g with Some c => [("computeClockCeilingPctOfMax", JNum c)] | None => [] end))) = Some g.
Proof. destruct g as [preset [c|]]; done. Qed.

Lemma decTwinCPU_spec a :
  decTwinCPU (JObj (cpuSpec a)) = Some (mkTwinCPU (askedWatts a) (na_CPUCapPctOfMax a) (na_CPUGovernor a)).
Proof.
  unfold cpuSpec, askedWatts. destruct (na_CPUGovernor a) as [g|].
  - pose proof (decCPUGovernor_spec g) as Hg. destruct (na_CPUCapPctOfMax a); [|destruct (flt fzero (na_CapWatts a))]; cbn [decTwinCPU struct app].
    all: unfold pointer; cbn [jget String.eqb Ascii.eqb Bool.eqb]; rewrite Hg; done.
  - by destruct (na_CPUCapPctOfMax a); [|destruct (flt fzero (na_CapWatts a))].
Qed.

Lemma decTwinGPU_spec a :
  exists cap, decTwinGPU (JObj (gpuSpec a)) = Some (mkTwinGPU cap (na_GPUGovernor a)) /\ (pc ← cap; gpuCapOf pc) = askedGPU a.
Proof.
  unfold gpuSpec, askedGPU. destruct (na_GPU a) as [[scope w p]|], (na_GPUGovernor a) as [g|].
  - pose proof (decGPUGovernor_spec g) as Hg. exists (Some (mkPowerCap "perGpu" w p)). destruct w, p.
    all: cbn [decTwinGPU struct app gci_CapWattsPerGPU gci_CapPctOfMax]; unfold pointer; cbn [jget String.eqb Ascii.eqb Bool.eqb]; rewrite Hg; done.
  - exists (Some (mkPowerCap "perGpu" w p)). by destruct w, p.
  - pose proof (decGPUGovernor_spec g) as Hg. exists None.
    cbn [decTwinGPU struct app]; unfold pointer; cbn [jget String.eqb Ascii.eqb Bool.eqb]; rewrite Hg; done.
  - by exists None.
Qed.

(** What the controller manager wrote for an assignment decodes to the
    assignment. *)
Lemma decodeTwinSpec_specOf a :
  exists spec, decodeTwinSpec (specOf a) = Some spec /\ tw_NodeName spec = na_NodeName a /\
    forall name results, nodeTwinSpecFromObject (mkTwin name spec results) = {|
      as_Name := name; as_NodeName := na_NodeName a; as_Profile := na_Profile a;
      as_PowerWatts := askedWatts a; as_PowerPctOfMax := na_CPUCapPctOfMax a; as_GPU := askedGPU a;
      as_PolicyName := na_ManagedBy a; as_CPUGovernor := na_CPUGovernor a; as_GPUGovernor := na_GPUGovernor a;
      as_LastCPUGovernor := cs ← results; gr_CPU cs; as_LastGPUGovernor := cs ← results; gr_GPU cs |}.
Proof.
  pose proof (decTwinCPU_spec a) as Hc. destruct (decTwinGPU_spec a) as (cap & Hg & Hcap). unfold decodeTwinSpec, specOf, struct.
  destruct (gpuSpec a) as [|m ms] eqn:Em.
  - cbn [app]. unfold field, pointer. cbn [jget String.eqb Ascii.eqb Bool.eqb decStr mbind option_bind]. rewrite Hc.
    eexists. split; [done|]. split; [done|]. intros name results. unfold nodeTwinSpecFromObject. cbn. f_equal.
    + rewrite <- Hcap. by injection Hg as <- _.
    + by injection Hg.
  - cbn [app]. unfold field, pointer. cbn [jget String.eqb Ascii.eqb Bool.eqb decStr mbind option_bind]. rewrite Hc, Hg.
    eexists. split; [done|]. split; [done|]. intros name results. unfold nodeTwinSpecFromObject. cbn. by f_equal.
Qed.

Section Reaches.
Context (ok : ApiCall -> bool) (Marshal : json -> option string) (key : string).

Notation synced := (specSynced Marshal).

Lemma publishPlan_synced plan w w' :
  NoDup (sanitizeName ∘ na_NodeName <$> plan) -> (forall a, a ∈ plan -> TrimSpace (na_Profile a) = na_Profile a) ->
  publishPlan ok Marshal key plan w = (w', inl ()) ->
  (forall a, a ∈ plan -> synced w' a) /\
  (forall n, n ∉ (sanitizeName ∘ na_NodeName <$> plan) -> w_specs w' !! n = w_specs w !! n).
Proof.
  revert w. induction plan as [|a plan IH]; intros w Hnd Ht.
  { intros [= <-]. split; [by intros a ?%elem_of_nil|done]. }
  cbn [publishPlan]. unfold mbind, M_bind. cbn beta iota. cbn [fmap list_fmap] in *. apply NoDup_cons in Hnd as [Hn Hnd].
  pose proof (spec_step ok Marshal a w) as H1. destruct (upsertNodeTwinSpec ok Marshal a w) as [w1 [u1|c1]]; [|done].
  destruct H1 as (_ & Hs1 & j & Hj & Heq). pose proof (label_step ok key a w1 (Ht a ltac:(by left))) as H2.
  destruct (upsertNodeLabels ok key a w1) as [w2 [u2|c2]]; [|done]. destruct H2 as (Hs2 & _). intros Hrun.
  destruct (IH w2 Hnd ltac:(intros; apply Ht; by right) Hrun) as [Hsync Hother]. split.
  - intros b [->|Hb]%elem_of_cons; [|by apply Hsync]. exists j. split; [|done]. by rewrite Hother, Hs2.
  - intros n Hnn. rewrite not_elem_of_cons in Hnn. destruct Hnn as [Hna Hnn]. rewrite Hother, Hs2 by done. by apply Hs1.
Qed.

(** What the controller manager decides is what every agent is asked: after
    a publication that went through, the agent of each planned node, reading
    its NodeTwin by name, finds the caps and the governors of its own
    assignment and of no other, with the results its own status carries. A
    twin the publication left as it was is one that encodes the same, so the
    decoder is asked no more than to depend on the encoding. *)
Theorem plan_reaches_agent plan w w' results a :
  NoDup (sanitizeName ∘ na_NodeName <$> plan) -> (forall b, b ∈ plan -> TrimSpace (na_Profile b) = na_Profile b) ->
  (forall x y t, Marshal x = Some t -> Marshal y = Some t -> decodeTwinSpec x = decodeTwinSpec y) ->
  publishPlan ok Marshal key plan w = (w', inl ()) -> a ∈ plan ->
  resolveDesiredStateForNode (readTwin w' results) (na_NodeName a) =
    inr (Some (asked a (results (sanitizeName (na_NodeName a)))), "nodetwin").
Proof.
  intros Hnd Ht Hdec Hrun Ha. destruct (publishPlan_synced plan w w' Hnd Ht Hrun) as [Hsync _].
  destruct (Hsync a Ha) as (j & Hj & Heq). destruct (decodeTwinSpec_specOf a) as (spec & Hs & Hname & Hspec).
  assert (decodeTwinSpec j = Some spec) as Hd.
  { destruct Heq as [->|Heq]; [done|]. unfold jsonEqual in Heq.
    destruct (Marshal j) as [t|] eqn:Ej, (Marshal (specOf a)) as [t'|] eqn:Es; try done.
    apply String.eqb_eq in Heq as ->. by rewrite (Hdec j (specOf a) t'). }
  unfold resolveDesiredStateForNode, getNodeTwinSpec, readTwin. rewrite Hj, Hd, Hspec. cbn [as_NodeName].
  rewrite String.eqb_refl, andb_false_r. done.
Qed.
End Reaches.

(** ** A plan of two nodes, one of them published before *)

#[local] Instance float_eq_dec : EqDecision float64.
Proof. solve_decision. Defined.

#[local] Instance json_eq_dec : EqDecision json.
Proof.
  refine (fix go a b := let _ : EqDecision json := @go in
    match a, b with
    | JNull, JNull => left eq_refl
    | JBool x, JBool y => cast_if (decide (x = y))
    | JNum x, JNum y => cast_if (decide (x = y))
    | JInt x, JInt y => cast_if (decide (x = y))
    | JStr x, JStr y => cast_if (decide (x = y))
    | JArr x, JArr y => cast_if (decide (x = y))
    | JObj x, JObj y => cast_if (decide (x = y))
    | _, _ => right _
    end); congruence.
Defined.

(** Texts for the specs of the plan, and none for any other value. *)
Definition sampleMarshal (plan : list NodeAssignment) (j : json) : option string :=
  (fun e => string_of_list_ascii (replicate e.1 "s"%char)) <$> list_find (fun a => j = specOf a) plan.

Definition sampleTwins : World := {|
  w_specs := list_to_map ((fun a => (sanitizeName (na_NodeName a), specOf a)) <$> take 1 samplePlanOut);
  w_labels := w_labels sampleWorld; w_writes := 0 |}.

Definition publishedTwins : World :=
  (publishPlan serverUp (sampleMarshal samplePlanOut) "joulie.io/power-profile" samplePlanOut sampleTwins).1.

Lemma sampleMarshal_inj plan x y t : sampleMarshal plan x = Some t -> sampleMarshal plan y = Some t -> x = y.
Proof.
  unfold sampleMarshal. destruct (list_find _ plan) as [[i a]|] eqn:Ex; [|done]. destruct (list_find (fun b => y = _) plan) as [[k b]|] eqn:Ey; [|done].
  cbn. intros [= <-] [= E]. apply list_find_Some in Ex as (Hi & -> & _), Ey as (Hk & -> & _).
  assert (k = i) as -> by (apply (f_equal (length ∘ list_ascii_of_string)) in E; cbn in E;
    by rewrite !list_ascii_of_string_of_list_ascii, !length_replicate in E). congruence.
Qed.

Lemma plan_reaches_agent_witness :
  w_writes publishedTwins = 3%nat /\
  resolveDesiredStateForNode (readTwin publishedTwins (fun _ => None)) "Node.B" =
    inr (Some {| ds_Name := sanitizeName "Node.B"; ds_PowerWatts := Some (fofZ 120); ds_PowerPctOfMax := None; ds_GPU := None;
      ds_CPUGovernor := None; ds_GPUGovernor := None; ds_LastCPUGovernor := None; ds_LastGPUGovernor := None |}, "nodetwin").
Proof.
  assert (publishPlan serverUp (sampleMarshal samplePlanOut) "joulie.io/power-profile" samplePlanOut sampleTwins =
    (publishedTwins, inl ())) as Hrun by (vm_compute; reflexivity).
  split; [vm_compute; reflexivity|].
  etransitivity; [apply (plan_reaches_agent serverUp (sampleMarshal samplePlanOut) "joulie.io/power-profile" samplePlanOut sampleTwins publishedTwins (fun _ => None)
    (withLabels (assignment "Node.B" "eco" (fofZ 120) "static-partition-v1") ("eco", true)))|vm_compute; reflexivity]; [..|exact Hrun|].
  - apply (bool_decide_unpack _). vm_compute. exact I.
  - apply Forall_forall. repeat constructor; vm_compute; reflexivity.
  - intros x y t Hx Hy. by rewrite (sampleMarshal_inj _ x y t Hx Hy).
  - right. left.
Defined.
