(* ===== verification/HardwareStatus.v ===== *)
(** * The NodeHardware object: from the agent's discovery to the controller manager

    The status the agent builds of what it found (cmd/agent/main.go
    [upsertNodeHardwareStatus], governor_discovery.go [addGovernorStatus]),
    the calls that store it, and the typed object the controller manager
    decodes of it along the field tags of api/v1alpha1. A governor block is
    encoded as the struct's tags say: an empty field is left out. *)

From S2P Require Import Prelude GoString GoFloat Json Api Crd Governor CpuGovernor GpuGovernor Kube Resources Hwinv.
From S2P Require Import Inventory Publish TwinSpec NvidiaDiscovery CpuDiscovery AmdControl GpuDevices GpuInventory.
From S2P Require Import GpuCap HostHardware GovernorLoop.

#[local] Open Scope string_scope.
#[local] Open Scope list_scope.

Notation members := (list (string * json)).

(** ** Encoding *)

(** Members of a struct whose tag says omitempty. *)
Definition optS (k s : string) : members := if String.eqb s "" then [] else [(k, JStr s)].
Definition optF (k : string) (x : float64) : members := if feq x fzero then [] else [(k, JNum x)].
Definition optL {A} (k : string) (enc : A -> json) (l : list A) : members := match l with [] => [] | _ => [(k, JArr (enc <$> l))] end.
Definition optP {A} (k : string) (enc : A -> members) (v : option A) : members := match v with None => [] | Some v => [(k, JObj (enc v))] end.

(** src/api/v1alpha1/nodehardware_types.go:102-107 [GovernorPresetSupport] *)
Definition encSupport (s : GovernorPresetSupport) : json :=
  JObj ([("preset", JStr (gps_Preset s))] ++ optS "result" (gps_Result s) ++ optS "native" (gps_Native s)).

(** src/api/v1alpha1/nodehardware_types.go:118-126 [CPUGovernorState] *)
Definition encCPUState (s : CPUGovernorState) : json :=
  JObj (optS "policies" (cs_Policies s) ++ optS "governor" (cs_Governor s) ++ optS "epp" (cs_EPP s) ++ optS "boost" (cs_Boost s)).

Definition encCPUBaseline (b : CPUGovernorBaseline) : members :=
  optL "groups" encCPUState (cb_Groups b) ++ optS "recordedAt" (cb_RecordedAt b).

(** src/api/v1alpha1/nodehardware_types.go:50-75 [CPUGovernorInventory] *)
Definition encCPUGovernor (i : CPUGovernorInventory) : members :=
  optS "driver" (ci_Driver i) ++ optS "driverMode" (ci_DriverMode i) ++ optS "current" (ci_Current i) ++
  optL "available" JStr (ci_Available i) ++
  optP "epp" (fun e => optS "current" e.1 ++ optL "available" JStr e.2) (ci_EPP i) ++
  optP "boost" (fun b => optS "state" b.1 ++ optS "scope" b.2) (ci_Boost i) ++
  optL "presets" encSupport (ci_Presets i) ++
  optP "baseline" encCPUBaseline (ci_Baseline i) ++
  [("writable", JBool (ci_Writable i))].

Definition encClockRange (r : ClockRangeMHz) : members := optF "min" (cr_Min r) ++ optF "max" (cr_Max r).

Definition encRanges (r : GPUClockRanges) : members :=
  optP "graphics" encClockRange (rg_Graphics r) ++ optP "memory" encClockRange (rg_Memory r) ++ optP "fabric" encClockRange (rg_Fabric r).

Definition encDevice (d : GPUGovernorDeviceState) : json := JObj ([("busId", JStr (ds_BusID d))] ++ optS "level" (ds_Level d)).

Definition encGPUBaseline (b : GPUGovernorBaseline) : members :=
  optL "devices" encDevice (gb_Devices b) ++ optS "recordedAt" (gb_RecordedAt b).

(** src/api/v1alpha1/nodehardware_types.go:171-194 [GPUGovernorInventory] *)
Definition encGPUGovernor (i : GPUGovernorInventory) : members :=
  optS "mechanism" (gi_Mechanism i) ++ optS "current" (gi_Current i) ++
  optL "presets" encSupport (gi_Presets i) ++
  optP "clockRangesMHz" encRanges (gi_ClockRangesMHz i) ++
  optP "baseline" encGPUBaseline (gi_Baseline i) ++
  [("writable", JBool (gi_Writable i)); ("uniform", JBool (gi_Uniform i))].

Definition encLandmarks (l : Landmarks) : members :=
  optF "minFreqMHz" (lm_MinMHz l) ++ optF "nominalFreqMHz" (lm_NominalMHz l) ++ optF "maxBoostMHz" (lm_MaxBoostMHz l).

(** ** The status *)

(** src/cmd/agent/main.go:2356-2365 [stringAnySlice] *)
Definition stringAnySlice (l : list string) : json := match l with [] => JNull | _ => JArr (JStr <$> l) end.

(** src/cmd/agent/main.go:2349-2354 [warningSlice] *)
Definition warningSlice (cond : bool) (warning : string) : list string := if cond then [warning] else [].

(** src/cmd/agent/main.go:2332-2337 [gpuCapDefaultWatts] *)
Definition gpuCapDefaultWatts (hw : HardwareInfo) : float64 :=
  let d := hi_GPUCapDefaultW hw in
  if flt fzero d && fle (hi_GPUCapMinWatts hw) d && fle d (hi_GPUCapMaxWatts hw) then d else hi_GPUCapMaxWatts hw.

(** src/cmd/agent/main.go:2339-2347 [overallQuality] *)
Definition overallQuality (hw : HardwareInfo) : string :=
  if negb (String.eqb (hi_CPUModel hw) "") && ((hi_GPUCount hw =? 0)%Z || negb (String.eqb (hi_GPUModel hw) "")) then "exact"
  else if negb (String.eqb (hi_CPURawModel hw) "") || negb (String.eqb (hi_GPURawModel hw) "") then "heuristic"
  else "unavailable".

(** src/cmd/agent/main.go:2267-2278 [exactnessCPU, exactnessGPU] *)
Definition exactness (model rawModel : string) : string :=
  if negb (String.eqb model "") then "exact" else if negb (String.eqb rawModel "") then "proxy" else "generic".

(** The CPU block with its landmarks and governor.
    src/cmd/agent/main.go:2204-2215 [cpu] *)
Definition cpuBlock (hw : HardwareInfo) (governor : option CPUGovernorInventory) : members :=
  [("rawModel", JStr (hi_CPURawModel hw)); ("model", JStr (hi_CPUModel hw)); ("vendor", JStr (hi_CPUVendor hw));
   ("sockets", JInt (hi_CPUSockets hw)); ("totalCores", JInt (hi_CPUTotalCores hw)); ("coresPerSocket", JInt (hi_CPUCoresPerSock hw));
   ("driverFamily", JStr (hi_CPUDriverFamily hw)); ("controlAvailable", JBool (hi_CPUControl hw));
   ("telemetryAvailable", JBool (hi_CPUTelemetry hw));
   ("warnings", stringAnySlice (warningSlice (String.eqb (hi_CPUModel hw) "" && negb (String.eqb (hi_CPURawModel hw) "")) "cpu model not recognized"))] ++
  (if hi_CPUCapKnown hw
   then [("capRange", JObj [("type", JStr "package"); ("minWattsPerSocket", JNum (hi_CPUCapMinWatts hw));
                            ("maxWattsPerSocket", JNum (hi_CPUCapMaxWatts hw))])] else []) ++
  match hi_CPULandmarks hw with Some l => [("landmarks", JObj (encLandmarks l))] | None => [] end ++
  match governor with Some g => [("governor", JObj (encCPUGovernor g))] | None => [] end.

(** Whether a GPU is present is said only with a range.
    src/cmd/agent/main.go:2216-2225 [gpu] *)
Definition gpuBlock (hw : HardwareInfo) (governor : option GPUGovernorInventory) : members :=
  [("rawModel", JStr (hi_GPURawModel hw)); ("model", JStr (hi_GPUModel hw)); ("vendor", JStr (hi_GPUVendor hw));
   ("count", JInt (hi_GPUCount hw)); ("currentCapWatts", JNum (hi_GPUCurrentCapW hw)); ("controlAvailable", JBool (hi_GPUControl hw));
   ("telemetryAvailable", JBool (hi_GPUTelemetry hw));
   ("warnings", stringAnySlice ((warningSlice ((0 <? hi_GPUCount hw)%Z && String.eqb (hi_GPUModel hw) "" && negb (String.eqb (hi_GPURawModel hw) ""))
      "gpu model not recognized" ++ hi_GPUWarnings hw) ++ gv_GPUWarnings (hi_Governors hw)))] ++
  (if hi_GPUCapKnown hw
   then [("present", JBool (0 <? hi_GPUCount hw)%Z);
         ("capRangePerGpu", JObj [("minWatts", JNum (hi_GPUCapMinWatts hw)); ("maxWatts", JNum (hi_GPUCapMaxWatts hw));
                                  ("defaultWatts", JNum (gpuCapDefaultWatts hw))])] else []) ++
  (if (0 <? hi_GPUPowerDomains hw)%Z && (hi_GPUPowerDomains hw <? hi_GPUCount hw)%Z
   then [("powerDomains", JInt (hi_GPUPowerDomains hw))] else []) ++
  match governor with Some g => [("governor", JObj (encGPUGovernor g))] | None => [] end.

(** The status but its time.
    src/cmd/agent/main.go:2203-2293 [status] *)
Definition statusOf (hw : HardwareInfo) (stored : StoredGovernors) : members :=
  let '(cpuGov, gpuGov) := governorBlocks (hi_Governors hw) stored in
  [("cpu", JObj (cpuBlock hw cpuGov)); ("gpu", JObj (gpuBlock hw gpuGov));
   ("capabilities", JObj [("cpuControl", JBool (hi_CPUControl hw)); ("gpuControl", JBool (hi_GPUControl hw));
      ("cpuTelemetry", JBool (hi_CPUTelemetry hw)); ("gpuTelemetry", JBool (hi_GPUTelemetry hw))]);
   ("quality", JObj [("overall", JStr (overallQuality hw)); ("warnings", stringAnySlice (hi_Warnings hw))]);
   ("inventoryResolution", JObj [
      ("hardwareCatalogKey", JObj [("cpu", JStr (hi_CPUModel hw)); ("gpu", JStr (hi_GPUModel hw))]);
      ("exactness", JObj [("cpu", JStr (exactness (hi_CPUModel hw) (hi_CPURawModel hw)));
                          ("gpu", JStr (exactness (hi_GPUModel hw) (hi_GPURawModel hw)))])])].

(** ** Decoding *)

Definition decBool (v : json) : option bool := match v with JBool b => Some b | _ => None end.
Definition decInt (v : json) : option Z := match v with JInt n => Some n | _ => None end.
Definition decList {A} (dec : json -> option A) (v : json) : option (list A) :=
  match v with JArr l => mapM dec l | _ => None end.
Notation decStrs := (decList decStr).

Definition decSupport := struct (fun m =>
  preset ← field "" decStr m "preset"; result ← field "" decStr m "result"; native ← field "" decStr m "native";
  Some (mkSupport preset result native)).

Definition decCPUState := struct (fun m =>
  policies ← field "" decStr m "policies"; governor ← field "" decStr m "governor"; epp ← field "" decStr m "epp";
  boost ← field "" decStr m "boost"; Some (mkCPUState policies governor epp boost)).

Definition decCPUBaseline := struct (fun m =>
  groups ← field [] (decList decCPUState) m "groups"; recorded ← field "" decStr m "recordedAt"; Some (mkCPUBaseline groups recorded)).

Definition decEPP := struct (fun m => current ← field "" decStr m "current"; available ← field [] decStrs m "available"; Some (current, available)).
Definition decBoost := struct (fun m => state ← field "" decStr m "state"; scope ← field "" decStr m "scope"; Some (state, scope)).

(** src/api/v1alpha1/nodehardware_types.go:50-75 [CPUGovernorInventory] *)
Definition decCPUGovernorBlock := struct (fun m =>
  driver ← field "" decStr m "driver"; mode ← field "" decStr m "driverMode"; current ← field "" decStr m "current";
  available ← field [] decStrs m "available"; epp ← pointer decEPP m "epp"; boost ← pointer decBoost m "boost";
  presets ← field [] (decList decSupport) m "presets"; base ← pointer decCPUBaseline m "baseline";
  writable ← field false decBool m "writable";
  Some {| ci_Driver := driver; ci_DriverMode := mode; ci_Current := current; ci_Available := available; ci_EPP := epp; ci_Boost := boost;
          ci_Presets := presets; ci_Baseline := base; ci_Writable := writable |}).

Definition decClockRange := struct (fun m =>
  lo ← field fzero decNum m "min"; hi ← field fzero decNum m "max"; Some (mkClockRange lo hi)).

Definition decRanges := struct (fun m =>
  graphics ← pointer decClockRange m "graphics"; memory ← pointer decClockRange m "memory"; fabric ← pointer decClockRange m "fabric";
  Some (mkRanges graphics memory fabric)).

Definition decDevice := struct (fun m => bus ← field "" decStr m "busId"; level ← field "" decStr m "level"; Some (mkDeviceState bus level)).

Definition decGPUBaseline := struct (fun m =>
  devices ← field [] (decList decDevice) m "devices"; recorded ← field "" decStr m "recordedAt"; Some (mkGPUBaseline devices recorded)).

(** src/api/v1alpha1/nodehardware_types.go:171-194 [GPUGovernorInventory] *)
Definition decGPUGovernorBlock := struct (fun m =>
  mechanism ← field "" decStr m "mechanism"; current ← field "" decStr m "current"; presets ← field [] (decList decSupport) m "presets";
  ranges ← pointer decRanges m "clockRangesMHz"; base ← pointer decGPUBaseline m "baseline";
  writable ← field false decBool m "writable"; uniform ← field false decBool m "uniform";
  Some {| gi_Mechanism := mechanism; gi_Current := current; gi_Presets := presets; gi_ClockRangesMHz := ranges; gi_Baseline := base;
          gi_Writable := writable; gi_Uniform := uniform |}).

(** ** The object as it is stored *)

(** The node it is of, and its status. *)
Record HwObject := mkHwObject { ho_nodeName : string; ho_status : members }.

(** src/cmd/agent/governor_discovery.go:466-483 [storedGovernors] *)
Definition storedGovernors (obj : HwObject) : StoredGovernors :=
  let blocks := (cpu ← pointer (struct (fun m => pointer decCPUGovernorBlock m "governor")) (ho_status obj) "cpu";
    gpu ← pointer (struct (fun m => pointer decGPUGovernorBlock m "governor")) (ho_status obj) "gpu"; Some (mkStored (mjoin cpu) (mjoin gpu))) in
  default (mkStored None None) blocks.

(** The calls of one publication. *)
Inductive HwCall := HwGet | HwCreate | HwGetAgain | HwUpdateStatus | HwUpdate.

Section Upsert.
Context (ok : HwCall -> bool) (Marshal : json -> option string) (stamp : string).

Definition newObject (nodeName : string) : HwObject := mkHwObject nodeName [].

(** The object, got or created; [raced] is one another run of the agent
    created in between.
    src/cmd/agent/main.go:2175-2202 [obj] *)
Definition objectOf (nodeName : string) (raced : option HwObject) (objs : gmap string HwObject) : option HwObject * gmap string HwObject :=
  let name := sanitizeName nodeName in
  if negb (ok HwGet) then (None, objs)
  else match objs !! name with
  | Some obj => (Some obj, objs)
  | None =>
      match raced with
      | Some other =>
          let objs := <[name := other]> objs in
          if ok HwCreate then (if ok HwGetAgain then Some other else None, objs) else (None, objs)
      | None => if ok HwCreate then (Some (newObject nodeName), <[name := newObject nodeName]> objs) else (None, objs)
      end
  end.

(** Whether it went through, the objects and the writes remembered. A status
    the API server refuses on the subresource is written with the object.
    src/cmd/agent/main.go:2172-2316 [upsertNodeHardwareStatus] *)
Definition upsertNodeHardwareStatus (nodeName : string) (hw : HardwareInfo) (raced : option HwObject) (now : Z)
    (objs : gmap string HwObject) (r : Reports) : bool * gmap string HwObject * Reports :=
  let name := sanitizeName nodeName in
  match objectOf nodeName raced objs with
  | (None, objs) => (false, objs, r)
  | (Some obj, objs) =>
      let status := statusOf hw (storedGovernors obj) in
      match Marshal (JObj status) with
      | None => (false, objs, r)
      | Some fingerprint =>
          let '(write, r) := shouldWrite ("nodeHardware|" +:+ name) fingerprint now r in
          if negb write then (true, objs, r)
          else
            let stored := mkHwObject (ho_nodeName obj) (status ++ [("updatedAt", JStr stamp)]) in
            if ok HwUpdateStatus || ok HwUpdate then (true, <[name := stored]> objs, r) else (false, objs, r)
      end
  end.
End Upsert.

(** ** What the controller manager decodes *)

(** The fields of a governor block the controller manager reads. *)
Definition readCPUGovernor (i : CPUGovernorInventory) : CrdGovernor := {|
  cg_Presets := gps_Preset <$> ci_Presets i; cg_Boost := bool_decide (is_Some (ci_Boost i)); cg_Mechanism := "";
  cg_Baseline := bool_decide (is_Some (ci_Baseline i)) |}.
Definition readGPUGovernor (i : GPUGovernorInventory) : CrdGovernor := {|
  cg_Presets := gps_Preset <$> gi_Presets i; cg_Boost := false; cg_Mechanism := gi_Mechanism i;
  cg_Baseline := bool_decide (is_Some (gi_Baseline i)) |}.

(** src/api/v1alpha1/nodehardware_types.go:129-134 [CPUCapRange] *)
Definition decCPURange := struct (fun m =>
  minW ← field fzero decNum m "minWattsPerSocket"; maxW ← field fzero decNum m "maxWattsPerSocket";
  Some {| ccr_MinWattsPerSocket := minW; ccr_MaxWattsPerSocket := maxW |}).

(** src/api/v1alpha1/nodehardware_types.go:229-237 [GPUCapRange] *)
Definition decGPURange := struct (fun m =>
  minW ← field fzero decNum m "minWatts"; maxW ← field fzero decNum m "maxWatts"; defaultW ← field fzero decNum m "defaultWatts";
  Some {| gcr_MinWatts := minW; gcr_MaxWatts := maxW; gcr_DefaultWatts := defaultW |}).

(** src/api/v1alpha1/nodehardware_types.go:30-46 [NodeHardwareCPU] *)
Definition decCPU := struct (fun m =>
  raw ← field "" decStr m "rawModel"; model ← field "" decStr m "model"; sockets ← field 0%Z decInt m "sockets";
  cores ← field 0%Z decInt m "totalCores"; range ← pointer decCPURange m "capRange";
  control ← field false decBool m "controlAvailable"; governor ← pointer decCPUGovernorBlock m "governor";
  Some {| cc_RawModel := raw; cc_Model := model; cc_Sockets := sockets; cc_TotalCores := cores; cc_CapRange := range;
          cc_ControlAvailable := control; cc_Governor := readCPUGovernor <$> governor |}).

(** src/api/v1alpha1/nodehardware_types.go:145-167 [NodeHardwareGPU] *)
Definition decGPU := struct (fun m =>
  present ← field false decBool m "present"; raw ← field "" decStr m "rawModel"; model ← field "" decStr m "model";
  vendor ← field "" decStr m "vendor"; count ← field 0%Z decInt m "count"; domains ← field 0%Z decInt m "powerDomains";
  range ← pointer decGPURange m "capRangePerGpu"; control ← field false decBool m "controlAvailable";
  governor ← pointer decGPUGovernorBlock m "governor";
  Some {| cgp_Present := present; cgp_RawModel := raw; cgp_Model := model; cgp_Vendor := vendor; cgp_Count := count;
          cgp_PowerDomains := domains; cgp_CapRangePerGPU := range; cgp_ControlAvailable := control; cgp_Governor := readGPUGovernor <$> governor |}).

(** src/api/v1alpha1/nodehardware_types.go:17-27 [NodeHardwareStatus] *)
Definition decodeNodeHardware (name : string) (obj : HwObject) : option CrdNodeHardware :=
  let m := ho_status obj in
  cpu ← pointer decCPU m "cpu"; gpu ← pointer decGPU m "gpu";
  memory ← pointer (struct (fun m => field 0%Z decInt m "totalBytes")) m "memory";
  quality ← pointer (struct (fun m => field [] decStrs m "warnings")) m "quality";
  updatedAt ← field "" decStr m "updatedAt";
  Some {| cnh_Name := name; cnh_NodeName := ho_nodeName obj; cnh_CPU := cpu; cnh_GPU := gpu; cnh_MemoryTotalBytes := memory;
          cnh_QualityWarnings := quality; cnh_UpdatedAt := updatedAt |}.

(** ** The controller manager reads what the agent found *)

Lemma decList_strings l : decList decStr (JArr (JStr <$> l)) = Some l.
Proof. cbn. induction l as [|s l IH]; cbn; [done|]. by rewrite IH. Qed.

Lemma decList_all {A} (enc : A -> json) dec l : (forall x, dec (enc x) = Some x) -> decList dec (JArr (enc <$> l)) = Some l.
Proof. intros H. cbn. induction l as [|x l IH]; cbn; [done|]. by rewrite H, IH. Qed.

Lemma decWarnings l k m : jget m k = Some (stringAnySlice l) -> field [] (decList decStr) m k = Some l.
Proof. unfold field. intros ->. destruct l as [|s l]; [done|]. unfold stringAnySlice. apply (decList_strings (s :: l)). Qed.

Lemma jget_optS k k' s : jget (optS k s) k' = if String.eqb k k' then (if String.eqb s "" then None else Some (JStr s)) else None.
Proof. unfold optS. destruct (String.eqb s ""), (String.eqb k k') eqn:E; cbn; rewrite ?E; done. Qed.

Lemma jget_optL {A} k k' (enc : A -> json) l :
  jget (optL k enc l) k' = if String.eqb k k' then (match l with [] => None | _ => Some (JArr (enc <$> l)) end) else None.
Proof. unfold optL. destruct l, (String.eqb k k') eqn:E; cbn; rewrite ?E; done. Qed.

Lemma jget_optP {A} k k' (enc : A -> members) v :
  jget (optP k enc v) k' = if String.eqb k k' then (match v with None => None | Some v => Some (JObj (enc v)) end) else None.
Proof. unfold optP. destruct v, (String.eqb k k') eqn:E; cbn; rewrite ?E; done. Qed.

Section Lookup.
Context {A : Type} (zero : A) (dec : json -> option A).

Lemma field_skip a b k : jget a k = None -> field zero dec (a ++ b) k = field zero dec b k.
Proof. unfold field. rewrite jget_app. by intros ->. Qed.
Lemma field_last a b k : jget b k = None -> field zero dec (a ++ b) k = field zero dec a k.
Proof. unfold field. rewrite jget_app. intros ->. by destruct (jget a k). Qed.
Lemma pointer_skip a b k : jget a k = None -> pointer dec (a ++ b) k = pointer dec b k.
Proof. unfold pointer. rewrite jget_app. by intros ->. Qed.
Lemma pointer_last a b k : jget b k = None -> pointer dec (a ++ b) k = pointer dec a k.
Proof. unfold pointer. rewrite jget_app. intros ->. by destruct (jget a k). Qed.
End Lookup.

Lemma field_optS k s : field "" decStr (optS k s) k = Some s.
Proof. unfold field. rewrite jget_optS, String.eqb_refl. by destruct (String.eqb_spec s "") as [->|]. Qed.

Lemma field_optL {A} k (enc : A -> json) dec l : (forall x, dec (enc x) = Some x) -> field [] (decList dec) (optL k enc l) k = Some l.
Proof. intros H. unfold field. rewrite jget_optL, String.eqb_refl. destruct l; [done|]. by apply decList_all. Qed.

Lemma pointer_optP {A} k (enc : A -> members) dec v :
  (forall x, dec (JObj (enc x)) = Some x) -> pointer dec (optP k enc v) k = Some v.
Proof. intros H. unfold pointer. rewrite jget_optP, String.eqb_refl. destruct v; [|done]. by rewrite H. Qed.

(** A key that none of the members before or after it has. *)
Ltac nokey := rewrite ?jget_app, ?jget_optS, ?jget_optL, ?jget_optP; reflexivity.
(** Fields looked up among the members of a struct. *)
Ltac tags := cbn [struct mbind option_bind];
  repeat first [rewrite field_skip by nokey | rewrite field_last by nokey | rewrite pointer_skip by nokey | rewrite pointer_last by nokey].

Lemma decSupport_enc s : decSupport (encSupport s) = Some s.
Proof.
  unfold decSupport, encSupport. tags. rewrite !field_optS. by destruct s.
Qed.

Lemma decCPUState_enc s : decCPUState (encCPUState s) = Some s.
Proof. unfold decCPUState, encCPUState. tags. rewrite !field_optS. by destruct s. Qed.

Lemma decCPUBaseline_enc b : decCPUBaseline (JObj (encCPUBaseline b)) = Some b.
Proof. unfold decCPUBaseline, encCPUBaseline. tags. rewrite field_optS, (field_optL _ _ _ _ decCPUState_enc). by destruct b. Qed.

(** A CPU governor block survives its storage. *)
Lemma decCPUGovernorBlock_enc i : decCPUGovernorBlock (JObj (encCPUGovernor i)) = Some i.
Proof.
  unfold decCPUGovernorBlock, encCPUGovernor. tags.
  rewrite !field_optS, !(field_optL _ JStr decStr), !(field_optL _ _ _ _ decSupport_enc), !(pointer_optP _ _ _ _ decCPUBaseline_enc) by done.
  rewrite !pointer_optP; [by destruct i|..].
  - intros [current available]. unfold decEPP. tags. by rewrite field_optS, (field_optL _ JStr decStr).
  - intros [state scope]. unfold decBoost. tags. by rewrite !field_optS.
Qed.

(** ** GPU blocks *)

(** A range is numbers as they are read: 0 where unknown, never its
    negative. *)
Definition plainRange (r : ClockRangeMHz) : Prop := cr_Min r <> S754_zero true /\ cr_Max r <> S754_zero true.
Definition plainRanges (r : GPUClockRanges) : Prop :=
  (forall x, rg_Graphics r = Some x -> plainRange x) /\ (forall x, rg_Memory r = Some x -> plainRange x) /\
  (forall x, rg_Fabric r = Some x -> plainRange x).

Lemma field_optF k x : x <> S754_zero true -> field fzero decNum (optF k x) k = Some x.
Proof.
  intros Hx. unfold field, optF. destruct (feq x fzero) eqn:E; cbn; rewrite ?String.eqb_refl; [|done].
  by destruct x as [[]|[]| |[]].
Qed.

Lemma jget_optF k k' x : jget (optF k x) k' = if String.eqb k k' then (if feq x fzero then None else Some (JNum x)) else None.
Proof. unfold optF. destruct (feq x fzero), (String.eqb k k') eqn:E; cbn; rewrite ?E; done. Qed.

Lemma pointer_optP' {A} k (enc : A -> members) dec v :
  (forall x, v = Some x -> dec (JObj (enc x)) = Some x) -> pointer dec (optP k enc v) k = Some v.
Proof. intros H. unfold pointer. rewrite jget_optP, String.eqb_refl. destruct v; [|done]. by rewrite H. Qed.

Lemma decClockRange_enc r : plainRange r -> decClockRange (JObj (encClockRange r)) = Some r.
Proof.
  intros [Hlo Hhi]. unfold decClockRange, encClockRange. cbn [struct].
  rewrite (field_last _ _ _ _ "min") by (by rewrite jget_optF). rewrite (field_skip _ _ _ _ "max") by (by rewrite jget_optF).
  rewrite !field_optF by done. by destruct r.
Qed.

Lemma decRanges_enc r : plainRanges r -> decRanges (JObj (encRanges r)) = Some r.
Proof.
  intros (Hg & Hm & Hf). unfold decRanges, encRanges. tags. rewrite !pointer_optP'; [by destruct r|..].
  all: intros x E; apply decClockRange_enc; auto.
Qed.

Lemma decDevice_enc d : decDevice (encDevice d) = Some d.
Proof.
  unfold decDevice, encDevice. tags. rewrite field_optS. by destruct d.
Qed.

Lemma decGPUBaseline_enc b : decGPUBaseline (JObj (encGPUBaseline b)) = Some b.
Proof. unfold decGPUBaseline, encGPUBaseline. tags. rewrite field_optS, (field_optL _ _ _ _ decDevice_enc). by destruct b. Qed.

Definition plainBlock (i : GPUGovernorInventory) : Prop := forall r, gi_ClockRangesMHz i = Some r -> plainRanges r.

(** So does a GPU one. *)
Lemma decGPUGovernorBlock_enc i : plainBlock i -> decGPUGovernorBlock (JObj (encGPUGovernor i)) = Some i.
Proof.
  intros Hi. unfold decGPUGovernorBlock, encGPUGovernor. tags.
  rewrite !field_optS, !(field_optL _ _ _ _ decSupport_enc), !(pointer_optP _ _ _ _ decGPUBaseline_enc).
  rewrite pointer_optP' by (intros r E; by apply decRanges_enc, Hi). by destruct i.
Qed.

(** What the controller manager should know of a node that was found to be
    [hw] and whose object stored [stored] before. *)
Definition reported (name nodeName : string) (hw : HardwareInfo) (stored : StoredGovernors) : NodeHW :=
  let blocks := governorBlocks (hi_Governors hw) stored in
  let named presets := governorPresetNames (gps_Preset <$> presets) in
  {| nh_Name := name; nh_NodeName := nodeName;
     nh_CPUModel := hi_CPUModel hw; nh_CPURawModel := hi_CPURawModel hw;
     nh_CPUSockets := hi_CPUSockets hw; nh_CPUTotalCores := hi_CPUTotalCores hw;
     nh_GPUModel := hi_GPUModel hw; nh_GPURawModel := hi_GPURawModel hw; nh_GPUCount := hi_GPUCount hw;
     nh_GPUPowerDomains := if (0 <? hi_GPUPowerDomains hw)%Z && (hi_GPUPowerDomains hw <? hi_GPUCount hw)%Z then hi_GPUPowerDomains hw else 0;
     nh_CPUCapMinWatts := if hi_CPUCapKnown hw then hi_CPUCapMinWatts hw else fzero;
     nh_CPUCapMaxWatts := if hi_CPUCapKnown hw then hi_CPUCapMaxWatts hw else fzero; nh_CPUCapKnown := hi_CPUCapKnown hw;
     nh_GPUCapMinWatts := if hi_GPUCapKnown hw then hi_GPUCapMinWatts hw else fzero;
     nh_GPUCapMaxWatts := if hi_GPUCapKnown hw then hi_GPUCapMaxWatts hw else fzero; nh_GPUCapKnown := hi_GPUCapKnown hw;
     nh_CPUControlAvailable := hi_CPUControl hw; nh_GPUControlAvailable := hi_GPUControl hw; nh_GPUReported := true;
     nh_Warnings := hi_Warnings hw;
     nh_CPUGovernorPresets := match blocks.1 with Some g => named (ci_Presets g) | None => [] end;
     nh_GPUGovernorPresets := match blocks.2 with Some g => named (gi_Presets g) | None => [] end;
     nh_CPUBoostAvailable := match blocks.1 with Some g => bool_decide (is_Some (ci_Boost g)) | None => false end;
     nh_GPUGovernorGap := match blocks.2 with Some g => String.eqb (gi_Mechanism g) "" && bool_decide (is_Some (gi_Baseline g)) | None => false end |}.

Ltac lookups := cbn [app struct]; unfold field, pointer; cbn [jget String.eqb Ascii.eqb Bool.eqb mbind option_bind decStr decInt decBool decNum struct].

Lemma decCPU_block hw g :
  decCPU (JObj (cpuBlock hw g)) = Some {|
    cc_RawModel := hi_CPURawModel hw; cc_Model := hi_CPUModel hw; cc_Sockets := hi_CPUSockets hw; cc_TotalCores := hi_CPUTotalCores hw;
    cc_CapRange := if hi_CPUCapKnown hw then Some {| ccr_MinWattsPerSocket := hi_CPUCapMinWatts hw; ccr_MaxWattsPerSocket := hi_CPUCapMaxWatts hw |} else None;
    cc_ControlAvailable := hi_CPUControl hw; cc_Governor := readCPUGovernor <$> g |}.
Proof.
  unfold decCPU, cpuBlock. destruct (hi_CPUCapKnown hw), (hi_CPULandmarks hw), g as [g|].
  all: try pose proof (decCPUGovernorBlock_enc g) as Hg; lookups; try rewrite Hg; done.
Qed.

Lemma decGPU_block hw g :
  (forall i, g = Some i -> plainBlock i) ->
  decGPU (JObj (gpuBlock hw g)) = Some {|
    cgp_Present := hi_GPUCapKnown hw && (0 <? hi_GPUCount hw)%Z; cgp_RawModel := hi_GPURawModel hw; cgp_Model := hi_GPUModel hw;
    cgp_Vendor := hi_GPUVendor hw; cgp_Count := hi_GPUCount hw;
    cgp_PowerDomains := if (0 <? hi_GPUPowerDomains hw)%Z && (hi_GPUPowerDomains hw <? hi_GPUCount hw)%Z then hi_GPUPowerDomains hw else 0%Z;
    cgp_CapRangePerGPU := if hi_GPUCapKnown hw then Some {| gcr_MinWatts := hi_GPUCapMinWatts hw; gcr_MaxWatts := hi_GPUCapMaxWatts hw;
      gcr_DefaultWatts := gpuCapDefaultWatts hw |} else None;
    cgp_ControlAvailable := hi_GPUControl hw; cgp_Governor := readGPUGovernor <$> g |}.
Proof.
  intros Hp. unfold decGPU, gpuBlock. destruct (hi_GPUCapKnown hw), ((0 <? hi_GPUPowerDomains hw)%Z && _), g as [g|].
  all: try pose proof (decGPUGovernorBlock_enc g (Hp g eq_refl)) as Hg; lookups; try rewrite Hg; done.
Qed.

Lemma decodeNodeHardware_status name nodeName hw stored stamp :
  (forall i, (governorBlocks (hi_Governors hw) stored).2 = Some i -> plainBlock i) ->
  exists crd, decodeNodeHardware name (mkHwObject nodeName (statusOf hw stored ++ [("updatedAt", JStr stamp)])) = Some crd /\
    parseNodeHardware crd = reported name nodeName hw stored.
Proof.
  intros Hp. unfold decodeNodeHardware, reported, statusOf. destruct (governorBlocks (hi_Governors hw) stored) as [c g]. cbn [snd fst] in *.
  pose proof (decCPU_block hw c) as Hc. pose proof (decGPU_block hw g Hp) as Hg. cbn [ho_status ho_nodeName].
  pose proof (decWarnings (hi_Warnings hw) "warnings" [("overall", JStr (overallQuality hw)); ("warnings", stringAnySlice (hi_Warnings hw))] eq_refl) as Hw.
  unfold pointer. cbn [app jget String.eqb Ascii.eqb Bool.eqb]. rewrite Hc, Hg. cbn [struct]. rewrite Hw.
  eexists. split; [reflexivity|]. unfold parseNodeHardware.
  cbn. f_equal. all: try by destruct (hi_CPUCapKnown hw). all: try by destruct (hi_GPUCapKnown hw). all: try by destruct c. all: by destruct g.
Qed.

(** C18. What the agent finds is what the controller manager plans with: after
    the first report of a run that went through, on whichever of the two
    calls, the object of the node decodes, and the controller manager reads
    from it the models, counts and ranges that were found, control where
    there is control, and for each governor the presets and the boost
    control that were published. *)
Theorem controller_reads_hardware ok Marshal stamp nodeName hw raced now objs objs' r r' obj objs1 :
  objectOf ok nodeName raced objs = (Some obj, objs1) ->
  (forall i, (governorBlocks (hi_Governors hw) (storedGovernors obj)).2 = Some i -> plainBlock i) ->
  r_lastWrites r !! ("nodeHardware|" +:+ sanitizeName nodeName) = None ->
  upsertNodeHardwareStatus ok Marshal stamp nodeName hw raced now objs r = (true, objs', r') ->
  exists obj' crd, objs' !! sanitizeName nodeName = Some obj' /\
    decodeNodeHardware (sanitizeName nodeName) obj' = Some crd /\
    parseNodeHardware crd = reported (sanitizeName nodeName) (ho_nodeName obj) hw (storedGovernors obj).
Proof.
  intros Ho Hp Hr. unfold upsertNodeHardwareStatus. rewrite Ho. destruct (Marshal _) as [fp|]; [|done].
  unfold shouldWrite. rewrite Hr. cbn [negb]. destruct (ok HwUpdateStatus || ok HwUpdate); [|done]. intros [= <- _].
  destruct (decodeNodeHardware_status (sanitizeName nodeName) (ho_nodeName obj) hw (storedGovernors obj) stamp Hp) as (crd & Hd & Hcrd).
  exists (mkHwObject (ho_nodeName obj) (statusOf hw (storedGovernors obj) ++ [("updatedAt", JStr stamp)])), crd.
  by rewrite lookup_insert_eq.
Qed.

(** ** A node with a GPU of each kind of fact *)

Definition noGovernors : governorDiscovery := {| gv_CPU := None; gv_GPU := None; gv_GPUWarnings := []; gv_GPUKept := None;
  gv_CPUBaseline := None; gv_GPUBaseline := None |}.

Definition sampleGPUs : list NvidiaGPU := [
  NvidiaDiscovery.mkGPU "00000000:17:00.0" (NvidiaFacts NVArchHopper [1980; 1965; 345]%Z [2619]%Z) (fofZ 1980) (fofZ 2619)].

Definition sampleHardware (governors : governorDiscovery) : HardwareInfo := {|
  hi_CPUVendor := "GenuineIntel"; hi_CPURawModel := "INTEL(R) XEON(R) GOLD 6530"; hi_CPUModel := "";
  hi_CPUSockets := 2; hi_CPUTotalCores := 64; hi_CPUCoresPerSock := 32; hi_CPUDriverFamily := "intel_pstate";
  hi_CPUCapMinWatts := fofZ 135; hi_CPUCapMaxWatts := fofZ 270; hi_CPUCapKnown := true; hi_CPUControl := true; hi_CPUTelemetry := true;
  hi_GPUVendors := ["nvidia"]; hi_GPUVendor := "nvidia"; hi_GPURawModel := "NVIDIA H100 80GB HBM3"; hi_GPUModel := "NVIDIA H100";
  hi_GPUCount := 1; hi_GPUPowerDomains := 0; hi_GPUCapMinWatts := fofZ 200; hi_GPUCapMaxWatts := fofZ 700; hi_GPUCapDefaultW := fofZ 700;
  hi_GPUCurrentCapW := fofZ 650; hi_GPUCapKnown := true; hi_GPUControl := true; hi_GPUTelemetry := true; hi_GPUWarnings := [];
  hi_Warnings := ["cpu model not recognized"]; hi_CPULandmarks := None; hi_Governors := governors; hi_GPUDevices := []; hi_GPUListErr := None |}.

Definition withGPUs : governorDiscovery := {| gv_CPU := None; gv_GPU := Some (nvidiaDiscovery sampleGPUs); gv_GPUWarnings := []; gv_GPUKept := None;
  gv_CPUBaseline := None; gv_GPUBaseline := None |}.

Lemma controller_reads_hardware_witness :
  let run := upsertNodeHardwareStatus (fun c => negb (match c with HwUpdateStatus => true | _ => false end)) (fun _ => Some "status") "2025-01-01T00:00:00Z"
    "gpu-1" (sampleHardware withGPUs) None 5 ∅ noReports in
  exists obj' crd, run.1.2 !! "gpu-1" = Some obj' /\ decodeNodeHardware "gpu-1" obj' = Some crd /\
    nh_GPUGovernorPresets (parseNodeHardware crd) = ["auto"; "sustained"; "efficient"; "low"; "peak"] /\
    nh_GPUCapMaxWatts (parseNodeHardware crd) = fofZ 700.
Proof.
  cbv zeta. set (run := upsertNodeHardwareStatus _ _ _ _ _ _ _ _ _).
  destruct (controller_reads_hardware (fun c => negb (match c with HwUpdateStatus => true | _ => false end)) (fun _ => Some "status") "2025-01-01T00:00:00Z"
    "gpu-1" (sampleHardware withGPUs) None 5 ∅ run.1.2 noReports run.2 (newObject "gpu-1") {["gpu-1" := newObject "gpu-1"]}) as (obj' & crd & Ho & Hd & Hp).
  - vm_compute. reflexivity.
  - intros i Hi. vm_compute in Hi. injection Hi as <-. intros r [= <-]. split_and!; intros x [= <-]; split; discriminate.
  - reflexivity.
  - vm_compute. reflexivity.
  - exists obj', crd. split; [exact Ho|]. split; [exact Hd|]. rewrite Hp. split; vm_compute; reflexivity.
Defined.
