(* ===== verification/GovernorContract.v ===== *)
(** * The governor contract between the controller manager and the agent

    The agent publishes the presets its node accepts; the controller manager
    asks only for presets a node lists. Composed: what is asked of a node is
    something its agent can plan, on every policy and every GPU, with the
    boost word and at the ceiling that come with it. *)

From S2P Require Import Prelude GoString GoFloat Json Api Governor CpuGovernor GpuGovernor Kube Resources Hwinv.
From S2P Require Import Inventory Env GovernorConfig GovernorLoop CpuDiscovery CpuControl NvidiaControl AmdControl.
From S2P Require Import GpuDevices NvidiaDiscovery GpuInventory HostHardware HardwareStatus.

#[local] Open Scope string_scope.

Lemma cpuPresetSupport_listed f p : p ∈ (gps_Preset <$> cpuPresetSupport f) -> p ∈ PresetsCPU f.
Proof.
  intros (s & -> & (q & Hq & Hs)%list_elem_of_omap)%list_elem_of_fmap. destruct (PlanCPU f q "") as [pl|]; [|done].
  destruct (String.eqb _ _); [done|]. by injection Hs as <-.
Qed.

(** A scope with a boost control. *)
Lemma boostScope_known files driver first :
  boostScope files driver first = "" \/ boostScope files driver first ∈ [CPUBoostScopeGlobal; CPUBoostScopeNoTurbo; CPUBoostScopePerCPU].
Proof. unfold boostScope. repeat case_match; (by left) || (right; by_decide). Qed.

Lemma discovered_facts access sys cpuinfo c :
  discoverCPUGovernor access sys cpuinfo = Some c ->
  cf_Policies (cd_Facts c) <> [] /\
  (cf_BoostScope (cd_Facts c) = "" \/ cf_BoostScope (cd_Facts c) ∈ [CPUBoostScopeGlobal; CPUBoostScopeNoTurbo; CPUBoostScopePerCPU]) /\
  ci_Presets (cd_Inventory c) = cpuPresetSupport (cd_Facts c) /\
  (is_Some (ci_Boost (cd_Inventory c)) -> cf_BoostScope (cd_Facts c) <> "").
Proof.
  unfold discoverCPUGovernor, ReadCPU. destruct (policyStates _ _) as [|s0 states]; [done|]. intros [= <-].
  cbn [cd_Facts cd_Inventory cpu_Facts cf_Policies cf_BoostScope ci_Presets ci_Boost]. split; [done|]. split; [apply boostScope_known|]. split; [done|].
  match goal with |- context [String.eqb ?scope ""] => destruct (String.eqb_spec scope "") end; [|done]. by intros [? ?].
Qed.

Definition ceilingOf (i : GPUGovernorIntent) : float64 := default DefaultCeilingPctOfMax (ggi_ComputeClockCeilingPctOfMax i).

Lemma resolveModels_presets catalog nh :
  let nh' := resolveModels catalog nh in
  nh_CPUGovernorPresets nh' = nh_CPUGovernorPresets nh /\ nh_GPUGovernorPresets nh' = nh_GPUGovernorPresets nh /\
  nh_CPUBoostAvailable nh' = nh_CPUBoostAvailable nh /\ nh_GPUGovernorGap nh' = nh_GPUGovernorGap nh.
Proof. unfold resolveModels. by destruct catalog. Qed.

Lemma governorPresetNames_sub presets p : p ∈ governorPresetNames presets -> p ∈ presets.
Proof. unfold governorPresetNames. rewrite list_elem_of_filter. tauto. Qed.

(** The intent a GPU gets names a schema preset with a ceiling that goes with
    it. *)
Lemma gpuIntent_checked c profile hasGPU nh product multi i :
  WellFormed c -> gpuGovernorIntent c profile hasGPU nh product multi = Some i ->
  (ggi_Preset i ∈ nh_GPUGovernorPresets nh \/ nh_GPUGovernorGap nh = true) /\ checkGPUPreset (ggi_Preset i) (ceilingOf i) = true.
Proof.
  intros W H. apply gpuGovernorIntent_Some in H. cbv zeta in H.
  destruct (gpuPresetFor_wf c profile [product; nh_GPUModel nh; nh_GPURawModel nh] W) as [Hp Hc].
  destruct H as (_ & _ & Hn & _ & Hl & ->). cbn [ggi_Preset]. unfold ceilingOf. cbn [ggi_ComputeClockCeilingPctOfMax].
  destruct (gpuPresetFor _ _ _) as [preset ceiling]. cbn [fst snd] in *. apply elem_of_cons in Hp as [->|Hp]; [done|]. split; [done|].
  unfold checkGPUPreset. rewrite (proj2 (str_mem_In _ _) Hp). cbn [negb].
  destruct (String.eqb preset GPUGovernorPresetEfficient); [|done]. cbn [default from_option id]. unfold validCeilingPct in Hc. by rewrite Hc.
Qed.

(** C19. What is asked of a node it can plan. For a node whose governors were
    discovered and published, and whatever the environment of the controller
    manager holds: the CPU intent has a plan on the facts of the node, boost
    word included; the GPU intent has one on every amdgpu device, or on every
    NVIDIA GPU, at the ceiling it carries; neither plan is refused as
    unsupported. *)
Theorem intents_plannable PF UM (env : Environ) profile hasGPU product multi catalog name nodeName hw stored
    access sys cpuinfo devices gpus :
  let g := hi_Governors hw in
  gv_CPU g = discoverCPUGovernor access sys cpuinfo ->
  gv_GPU g = discoverAMDGovernor access devices \/ gv_GPU g = Some (nvidiaDiscovery gpus) ->
  let nh := resolveModels catalog (reported name nodeName hw stored) in
  let '(cpu, gpu) := governorIntents (loadGovernorConfig PF UM env) profile hasGPU nh product multi in
  (forall i, cpu = Some i -> exists c, gv_CPU g = Some c /\ accepted (PlanCPU (cd_Facts c) (cgi_Preset i) (cgi_Boost i))) /\
  (forall i d, gpu = Some i -> gv_GPU g = Some d ->
     (gd_AMD d <> [] \/ gd_NVIDIA d <> []) /\
     Forall (fun f => accepted (PlanAMD f (ggi_Preset i) (ceilingOf i))) (gd_AMD d) /\
     Forall (fun f => accepted (PlanNvidia (ng_Facts f) (ng_BusID f) (ggi_Preset i) (ceilingOf i))) (gd_NVIDIA d)).
Proof.
  intros g Hcpu Hgpu nh. pose proof (loadGovernorConfig_wf PF UM env) as W. set (cfg := loadGovernorConfig PF UM env) in *. clearbody cfg.
  destruct (resolveModels_presets catalog (reported name nodeName hw stored)) as (E1 & E2 & E3 & E4). fold nh in E1, E2, E3, E4.
  unfold governorIntents. split.
  - intros i H. apply cpuGovernorIntent_Some in H. cbv zeta in H. destruct H as (_ & _ & _ & Hl & ->). cbn [cgi_Preset cgi_Boost].
    rewrite E1 in Hl. rewrite E3. cbn [reported nh_CPUGovernorPresets nh_CPUBoostAvailable] in *. fold g in Hl |- *.
    unfold governorBlocks in *. destruct (storedGovernorBaselines stored) as [sc sg]. cbn [fst] in *.
    destruct (gv_CPU g) as [c|] eqn:Ec; [|by apply elem_of_nil in Hl]. cbn [fmap option_fmap option_map] in *.
    exists c. split; [done|]. symmetry in Hcpu. destruct (discovered_facts _ _ _ _ Hcpu) as (Hn & Hs & Hpre & Hb).
    apply governorPresetNames_sub in Hl. cbn [withCPUBaseline ci_Presets ci_Boost] in *. rewrite Hpre in Hl.
    apply PlanCPU_boost; [by apply cpuPresetSupport_listed|].
    case_bool_decide as Hav; [|by left]. destruct (String.eqb profile ProfilePerformance); [by left|].
    pose proof (wf_boost cfg W) as [Hw|Hw]%elem_of_cons; [by left|]. right. split; [done|]. split; [|done].
    destruct Hs as [Hs|Hs]; [|done]. by destruct (Hb Hav).
  - intros i d H Hd. destruct (gpuIntent_checked cfg _ _ _ _ _ _ W H) as [Hl Hc]. rewrite E2, E4 in Hl.
    cbn [reported nh_GPUGovernorPresets nh_GPUGovernorGap] in Hl. fold g in Hl. unfold governorBlocks in Hl.
    destruct (storedGovernorBaselines stored) as [sc sg]. cbn [snd] in Hl. rewrite Hd in Hl. cbn [first_some foldr] in Hl.
    cbn [withGPUBaseline gi_Presets gi_Mechanism gi_Baseline] in Hl.
    assert (gi_Mechanism (gd_Inventory d) <> "") as Hm.
    { destruct Hgpu as [Hg|Hg]; rewrite Hd in Hg; [|by injection Hg as ->]. unfold discoverAMDGovernor in Hg. destruct devices; [done|]. by injection Hg as ->. }
    apply String.eqb_neq in Hm. rewrite Hm in Hl. destruct Hl as [Hl%governorPresetNames_sub|Hl]; [|done].
    destruct Hgpu as [Hg|Hg]; rewrite Hd in Hg.
    + unfold discoverAMDGovernor in Hg. destruct devices as [|dev devs]; [done|]. injection Hg as ->. cbn [gd_Inventory gi_Presets gd_AMD gd_NVIDIA] in *.
      apply gpuPresetSupport_accepted in Hl as (_ & _ & Hall). unfold amdPlans in Hall. rewrite Forall_fmap in Hall.
      split; [by left|]. split; [|constructor]. eapply Forall_impl; [exact Hall|]. intros f Hf. by apply PlanAMD_ceiling.
    + injection Hg as ->. cbn [nvidiaDiscovery gd_Inventory gi_Presets gd_AMD gd_NVIDIA] in *.
      apply gpuPresetSupport_accepted in Hl as (_ & Hne & Hall). unfold nvidiaPlans in Hall, Hne. rewrite Forall_fmap in Hall.
      split; [right; intros E; apply Hne; cbn in E |- *; by rewrite E|]. split; [constructor|]. eapply Forall_impl; [exact Hall|].
      intros f Hf. by apply PlanNvidia_ceiling.
Qed.

(** ** A node of two CPU policies and a Hopper GPU *)

Definition contractGovernors : governorDiscovery := {|
  gv_CPU := discoverCPUGovernor (fun _ => true) CpuControl.sampleSys None; gv_GPU := Some (nvidiaDiscovery sampleGPUs);
  gv_GPUWarnings := []; gv_GPUKept := None; gv_CPUBaseline := None; gv_GPUBaseline := None |}.

Definition contractEnv : Environ := list_to_map [("GOVERNOR_CONTROL", "all"); ("CPU_GOVERNOR_ON_GPU_NODES", "true"); ("CPU_GOVERNOR_ECO_BOOST", "off")].

Definition contractIntents : option CPUGovernorIntent * option GPUGovernorIntent :=
  governorIntents (loadGovernorConfig (fun _ => None) (fun _ => None) contractEnv) "eco" true
    (resolveModels None (reported "gpu-1" "gpu-1" (sampleHardware contractGovernors) (mkStored None None))) "" None.

Lemma intents_plannable_witness :
  contractIntents = (Some {| cgi_Preset := "efficiency"; cgi_Boost := "off" |},
    Some {| ggi_Preset := "efficient"; ggi_ComputeClockCeilingPctOfMax := Some (fofZ 80) |}) /\
  (exists c, gv_CPU contractGovernors = Some c /\ accepted (PlanCPU (cd_Facts c) "efficiency" "off")) /\
  Forall (fun f => accepted (PlanNvidia (ng_Facts f) (ng_BusID f) "efficient" (fofZ 80))) (gd_NVIDIA (nvidiaDiscovery sampleGPUs)).
Proof.
  assert (contractIntents = (Some {| cgi_Preset := "efficiency"; cgi_Boost := "off" |},
    Some {| ggi_Preset := "efficient"; ggi_ComputeClockCeilingPctOfMax := Some (fofZ 80) |})) as E by (vm_compute; reflexivity).
  split; [exact E|].
  pose proof (intents_plannable (fun _ => None) (fun _ => None) contractEnv "eco" true "" None None "gpu-1" "gpu-1" (sampleHardware contractGovernors)
    (mkStored None None) (fun _ => true) CpuControl.sampleSys None [] sampleGPUs eq_refl (or_intror eq_refl)) as H.
  cbv zeta in H. change (governorIntents _ _ _ _ _ _) with contractIntents in H. rewrite E in H. destruct H as [Hc Hg].
  split; [exact (Hc _ eq_refl)|]. exact (proj2 (proj2 (Hg _ _ eq_refl eq_refl))).
Defined.
