(* ===== verification/AgentReconcile.v ===== *)
(** * One tick of the agent: reconcileOnce of cmd/agent/main.go

    What one node's agent does every twenty seconds: it discovers the
    hardware, reads the spec the controller manager wrote, or gives up on one
    too old to trust, publishes what it found, reconciles the governors, and
    puts the caps in place with one of its backends: RAPL limits on the host
    or behind an HTTP endpoint, a frequency throttle where they cannot be
    had, the vendor's means on the GPUs. Every part is the model of its own
    file; here is how they are composed, and the pool mode that runs many
    nodes in one process.

    One tick reads one time. Texts that format numbers are rendered by
    arguments ([Texts]). Metrics and log lines are left out. *)

From S2P Require Import Prelude GoString GoFloat Json Api Hwinv Kube Resources Policy Fsm Inventory Env Governor.
From S2P Require Import Native Host CpuDiscovery NvidiaDiscovery GovernorLoop CpuControl NvidiaControl AmdControl.
From S2P Require Import HostFS Dvfs RaplCap GpuDevices GpuSysfs GpuInventory GovernorControl GovernorLimits GpuCap HostHardware.
From S2P Require Import Publish TwinSpec HardwareStatus.

#[local] Open Scope string_scope.

(** ** State *)

(** The zero time is [None].
    src/cmd/agent/main.go:240-256 [NodeController] *)
Record NodeController := mkNode {
  nc_nodeName : string;
  nc_dvfs : option Controller;
  nc_simulateOnly : bool;
  nc_lastRaplKey : string;
  nc_lastSuccessfulSpecRead : option Z;
  nc_specReadTimeout : Z;
  nc_capsRelaxed : bool;
  nc_governor : governorControl;
  nc_gpuFacts : option nvidiaFactsCache;
  nc_httpThrottleCleared : bool
}.

Definition nc_set_dvfs x n := mkNode (nc_nodeName n) x (nc_simulateOnly n) (nc_lastRaplKey n) (nc_lastSuccessfulSpecRead n) (nc_specReadTimeout n)
  (nc_capsRelaxed n) (nc_governor n) (nc_gpuFacts n) (nc_httpThrottleCleared n).
Definition nc_set_lastRaplKey x n := mkNode (nc_nodeName n) (nc_dvfs n) (nc_simulateOnly n) x (nc_lastSuccessfulSpecRead n) (nc_specReadTimeout n)
  (nc_capsRelaxed n) (nc_governor n) (nc_gpuFacts n) (nc_httpThrottleCleared n).
Definition nc_set_read (now : option Z) (relaxed : bool) n := mkNode (nc_nodeName n) (nc_dvfs n) (nc_simulateOnly n) (nc_lastRaplKey n) now
  (nc_specReadTimeout n) relaxed (nc_governor n) (nc_gpuFacts n) (nc_httpThrottleCleared n).
Definition nc_set_facts (facts : option nvidiaFactsCache) n := mkNode (nc_nodeName n) (nc_dvfs n) (nc_simulateOnly n) (nc_lastRaplKey n)
  (nc_lastSuccessfulSpecRead n) (nc_specReadTimeout n) (nc_capsRelaxed n) (nc_governor n) facts (nc_httpThrottleCleared n).
Definition nc_set_governor x n := mkNode (nc_nodeName n) (nc_dvfs n) (nc_simulateOnly n) (nc_lastRaplKey n) (nc_lastSuccessfulSpecRead n)
  (nc_specReadTimeout n) (nc_capsRelaxed n) x (nc_gpuFacts n) (nc_httpThrottleCleared n).
Definition nc_set_cleared x n := mkNode (nc_nodeName n) (nc_dvfs n) (nc_simulateOnly n) (nc_lastRaplKey n) (nc_lastSuccessfulSpecRead n)
  (nc_specReadTimeout n) (nc_capsRelaxed n) (nc_governor n) (nc_gpuFacts n) x.

(** src/cmd/agent/main.go:584-601 [newNodeController] *)
Definition newNodeController (nodeName : string) (simulateOnly : bool) (dvfsCtl : option Controller) (specReadTimeout now : Z) (env : Environ) : NodeController :=
  mkNode nodeName dvfsCtl simulateOnly "" (Some now) specReadTimeout false (newGovernorControl env) None false.

(** ** Reading the spec *)

(** The desired state and the controller after the read, or the error that
    ends the tick. A read that fails for longer than the timeout counts as no
    desired state.
    src/cmd/agent/main.go:652-676 [selected, source] *)
Definition selectDesired (read : string -> TwinRead) (now : Z) (n : NodeController) : string + (option DesiredState * NodeController) :=
  match resolveDesiredStateForNode read (nc_nodeName n) with
  | inl err =>
      match nc_lastSuccessfulSpecRead n with
      | Some last =>
          if (nc_specReadTimeout n <? tsub now last)%Z then inr (None, nc_set_read (Some last) true n) else inl err
      | None => inl err
      end
  | inr (Some s, _) => inr (Some s, nc_set_read (Some now) false n)
  | inr (None, _) => inr (None, nc_set_read (Some now) (nc_capsRelaxed n) n)
  end.

(** How the messages that format numbers are spelled. *)
Record Texts := mkTexts {
  tx_cap : CapMessage -> string;
  tx_gpu : GPUMessage -> string;
  tx_action : Action -> string;
  tx_watts : float64 -> string;
  tx_range : float64 -> float64 -> capSource -> string
}.

Section Tick.
Context {Q : QuantityOps} {H : Type} `{!HostFS H} `{!SysfsHost H} `{!Overdrive H} `{!NvidiaSmi H} `{!RocmSmi H} `{!PowerSource H}
  `{!ControlEndpoint H} {TF : ToolFailures H}.
Context (ParseFloat : string -> option float64) (FormatG FormatF1 FormatCeiling : float64 -> string) (texts : Texts) (catalog : option Catalog)
  (answer : nat -> PatchAnswer).

(** ** Statuses *)

(** src/cmd/agent/main.go:2100-2107 [updateNodeTwinControlStatus] *)
Definition updateNodeTwinControlStatus (component backend result message : string) (now : Z) (r : Reports) : Reports :=
  (patchNodeTwinControlStatus answer component (backend +:+ "|" +:+ result +:+ "|" +:+ message) (Some (mkStatus backend result message "")) now r).2.

(** src/cmd/agent/main.go:2065-2067 [updateTelemetryControlStatus] *)
Definition updateTelemetryControlStatus := updateNodeTwinControlStatus "cpu".

(** src/cmd/agent/main.go:2070-2072 [updateTelemetryGPUStatus] *)
Definition updateTelemetryGPUStatus := updateNodeTwinControlStatus "gpu".

(** ** The CPU cap *)

(** The cap in watts, the percentage it was resolved from ([fromPct]), and the
    note on a range that is not the node's own.
    src/cmd/agent/main.go:715-741 [cpuCapWatts, fromPct, appliedNote] *)
Definition cpuCapOf (s : DesiredState) (nodeLabels : gmap string string) (httpRAPL : bool) (h : H)
    : option float64 * option float64 * string :=
  let watts := match ds_PowerWatts s with Some w => if fle w fzero then None else Some w | None => None end in
  match watts, ds_PowerPctOfMax s with
  | None, Some pct =>
      match resolveCPUCapFromPct catalog pct nodeLabels httpRAPL h with
      | inl (w, r) => (Some w, Some pct, if cr_catalog r then tx_range texts w pct (cr_source r) else "")
      | inr _ => (None, None, "")
      end
  | watts, _ => (watts, None, "")
  end.

(** What a tick carries: the controller, the host and the reports; and the
    error it ends with. *)
Definition Out : Type := option string * NodeController * H * Reports.

(** src/cmd/agent/main.go:1007-1014 [applyCPUPercentFallback] *)
Definition applyCPUPercentFallback (pct : float64) (client : option HTTPControlClient) (now : Z) (n : NodeController) (h : H) (r : Reports) : Out :=
  let n := match client with Some _ => nc_set_cleared false n | None => n end in
  let '(st, d, h) := applyCPUPercentIntent pct client (nc_dvfs n) now h in
  (cst_err st, nc_set_dvfs d n, h,
   updateTelemetryControlStatus (cst_backend st) (cst_result st) (tx_cap texts (cst_msg st)) now r).

(** What follows a cap that RAPL took.
    src/cmd/agent/main.go:812-842 [appliedRapl] *)
Definition raplApplied (s : DesiredState) (watts : float64) (appliedNote : string) (client : option HTTPControlClient) (now : Z)
    (n : NodeController) (h : H) (r : Reports) : Out :=
  let r := updateTelemetryControlStatus "rapl" "applied" ("RAPL package cap applied" +:+ appliedNote) now r in
  let n := nc_set_lastRaplKey (ds_Name s +:+ "|rapl|" +:+ tx_watts texts watts) n in
  let n := nc_set_dvfs (set_Warned false <$> nc_dvfs n) n in
  let '(n, h) :=
    match client with
    | Some c =>
        if nc_httpThrottleCleared n then (n, h)
        else
          let '(err, h) := ApplyCPUControl c "dvfs.set_throttle_pct" fzero 0 h in
          (match err with None => nc_set_cleared true n | Some _ => n end, h)
    | None => (n, h)
    end in
  match nc_dvfs n with
  | Some d =>
      if Active d then let '(_, d, h) := RestoreAllMax d h in (None, nc_set_dvfs (Some d) n, h, r)
      else (None, n, h, r)
  | None => (None, n, h, r)
  end.

(** What follows a cap that RAPL did not take; [raplFiles] is how many files
    took it.
    src/cmd/agent/main.go:844-873 [dvfsCtl] *)
Definition dvfsFallback (watts : float64) (raplFiles : nat) (client : option HTTPControlClient) (now : Z) (n : NodeController) (h : H) (r : Reports) : Out :=
  let n := nc_set_lastRaplKey "" n in
  match nc_dvfs n with
  | None => (None, n, h, updateTelemetryControlStatus "none" "blocked" "RAPL unavailable and DVFS disabled" now r)
  | Some d =>
      if bool_decide (client = None) && negb (HasHostControl d)
      then (None, n, h, updateTelemetryControlStatus "none" "blocked" "RAPL unavailable, no cpufreq host control, and no HTTP control backend" now r)
      else
        let d := if (raplFiles =? 0)%nat && negb (d_Warned d) then set_Warned true d else d in
        let n := match client with Some _ => nc_set_cleared false n | None => n end in
        let '(out, d, h) := Reconcile watts client now d h in
        let n := nc_set_dvfs (Some d) n in
        match out with
        | inl err => (Some ("dvfs fallback failed: " +:+ err), n, h, updateTelemetryControlStatus "dvfs" "error" err now r)
        | inr action => (None, n, h, updateTelemetryControlStatus "dvfs" "applied" (tx_action texts action) now r)
        end
  end.
(** The CPU cap put in place, with what the spec asks and the vendor the
    hardware is of.
    src/cmd/agent/main.go:782-811 [appliedRapl, raplFiles] *)
Definition enforceCPU (s : DesiredState) (cap : option float64 * option float64 * string) (preferDVFS : bool) (client : option HTTPControlClient)
    (cpuVendor : string) (now : Z) (n : NodeController) (h : H) (r : Reports) : Out :=
  let '(watts, fromPct, appliedNote) := cap in
  match watts with
  | None =>
      match ds_PowerPctOfMax s with
      | Some pct => applyCPUPercentFallback pct client now n h r
      | None => (None, n, h, r)
      end
  | Some w =>
      if preferDVFS : bool then dvfsFallback w 0 client now n h r
      else match client with
      | Some c =>
          let '(err, h) := ApplyCPUControl c "rapl.set_power_cap_watts" w (-1) h in
          match err, fromPct with
          | None, _ => raplApplied s w appliedNote client now n h r
          | Some _, Some pct => applyCPUPercentFallback pct client now (nc_set_lastRaplKey "" n) h r
          | Some _, None => dvfsFallback w 0 client now n h r
          end
      | None =>
          let '(res, h) := applyRAPLPackageCap cpuVendor w h in
          match rr_Err res with
          | Some err => (Some err, n, h, r)
          | None => if rr_Applied res then raplApplied s w appliedNote client now n h r else dvfsFallback w (rr_Files res) client now n h r
          end
      end
  end.

(** ** The GPU cap *)

(** [applyGPUIntentFrom] returns no error.
    src/cmd/agent/main.go:766-780 [backend, result, msg, observed] *)
Definition enforceGPU (node : Kube.Node) (s : DesiredState) (client : option HTTPControlClient) (hw : HardwareInfo) (now : Z) (mem : CapMemory) (h : H)
    (r : Reports) : CapMemory * H * Reports :=
  match ds_GPU s with
  | Some intent =>
      let '(st, mem, h) := applyGPUIntentFrom ParseFloat FormatF1 (Some node) (Some intent) client
        (Some (mkInventory (hi_GPUVendor hw) (hi_GPUDevices hw) (hi_GPUListErr hw))) mem h in
      (mem, h, updateTelemetryGPUStatus (gs_backend st) (gs_result st) (tx_gpu texts (gs_msg st)) now r)
  | None =>
      (mem, h, updateTelemetryGPUStatus "none" "none"
        (if (0 <? hi_GPUCount hw)%Z then "no GPU cap intent for GPU node; leaving current GPU state unchanged" else "no GPU cap intent") now r)
  end.

(** ** The tick *)

(** What one tick is told: its time, the node, the twins and NodeHardware
    objects as they are read, the environment, and what the API server makes
    of the calls. *)
Record Told := mkTold {
  td_now : Z;
  td_stamp : string;
  td_node : string + Kube.Node;
  td_twin : string -> TwinRead;
  td_env : Environ;
  td_get : bool;
  td_ok : HwCall -> bool;
  td_raced : option HwObject;
  td_marshal : json -> option string
}.

(** Everything a tick may change: the controller, what the process remembers
    of AMD caps, the node, the NodeHardware objects, the reports. *)
Record World := mkWorld {
  wd_n : NodeController;
  wd_mem : CapMemory;
  wd_h : H;
  wd_objs : gmap string HwObject;
  wd_r : Reports
}.

Context (governorFiles : H -> GovernorFiles).

Definition readBaselines (t : Told) (nodeName : string) (objs : gmap string HwObject) : BaselineRead :=
  if td_get t then match objs !! sanitizeName nodeName with Some obj => ReadStored (storedGovernors obj) | None => ReadNone end else ReadFailed.

Definition withGovernors (d : governorDiscovery) (hw : HardwareInfo) : HardwareInfo := {|
  hi_CPUVendor := hi_CPUVendor hw; hi_CPURawModel := hi_CPURawModel hw; hi_CPUModel := hi_CPUModel hw; hi_CPUSockets := hi_CPUSockets hw;
  hi_CPUTotalCores := hi_CPUTotalCores hw; hi_CPUCoresPerSock := hi_CPUCoresPerSock hw; hi_CPUDriverFamily := hi_CPUDriverFamily hw;
  hi_CPUCapMinWatts := hi_CPUCapMinWatts hw; hi_CPUCapMaxWatts := hi_CPUCapMaxWatts hw; hi_CPUCapKnown := hi_CPUCapKnown hw;
  hi_CPUControl := hi_CPUControl hw; hi_CPUTelemetry := hi_CPUTelemetry hw; hi_GPUVendors := hi_GPUVendors hw; hi_GPUVendor := hi_GPUVendor hw;
  hi_GPURawModel := hi_GPURawModel hw; hi_GPUModel := hi_GPUModel hw; hi_GPUCount := hi_GPUCount hw; hi_GPUPowerDomains := hi_GPUPowerDomains hw;
  hi_GPUCapMinWatts := hi_GPUCapMinWatts hw; hi_GPUCapMaxWatts := hi_GPUCapMaxWatts hw; hi_GPUCapDefaultW := hi_GPUCapDefaultW hw;
  hi_GPUCurrentCapW := hi_GPUCurrentCapW hw; hi_GPUCapKnown := hi_GPUCapKnown hw; hi_GPUControl := hi_GPUControl hw;
  hi_GPUTelemetry := hi_GPUTelemetry hw; hi_GPUWarnings := hi_GPUWarnings hw; hi_Warnings := hi_Warnings hw; hi_CPULandmarks := hi_CPULandmarks hw;
  hi_Governors := d; hi_GPUDevices := hi_GPUDevices hw; hi_GPUListErr := hi_GPUListErr hw |}.

(** A tick's first half: what was found is published and the governors are
    reconciled.
    src/cmd/agent/main.go:682-702 [gov] *)
Definition reconcileGovernors (t : Told) (node : Kube.Node) (telemetry : option TelemetryConfig) (selected : option DesiredState) (hw : HardwareInfo)
    (w : World) : HardwareInfo * World :=
  let n := wd_n w in
  let control := controlClientFromTelemetry telemetry (nc_nodeName n) in
  let gpuControl := gpuControlClientFromTelemetry telemetry (nc_nodeName n) in
  let '(d, g) := prepare (readBaselines t (nc_nodeName n) (wd_objs w)) ((fun s => (ds_LastCPUGovernor s, ds_LastGPUGovernor s)) <$> selected)
    (td_stamp t) (hi_Governors hw) (nc_governor n) in
  let hw := withGovernors d hw in
  let '(_, objs, r) := upsertNodeHardwareStatus (td_ok t) (td_marshal t) (td_stamp t) (nc_nodeName n) hw (td_raced t) (td_now t) (wd_objs w) (wd_r w) in
  let n := nc_set_dvfs (setDVFSPowerReaderForTelemetry telemetry <$> nc_dvfs n) n in
  let env := mkGovernorEnv (nc_simulateOnly n) (bool_decide (is_Some control)) (bool_decide (is_Some gpuControl)) (n_Labels node) in
  let intents := match selected with Some s => (ds_CPUGovernor s, ds_GPUGovernor s) | None => (None, None) end in
  let '(g, h, r) := reconcile ParseFloat FormatG FormatCeiling answer env d (hi_GPUVendor hw) (hi_GPURawModel hw) intents (td_now t) g (wd_h w) r in
  (hw, mkWorld (nc_set_governor g n) (wd_mem w) h objs r).

(** The tick from there: without a desired state, in simulate-only mode, and
    with a cap to put in place.
    src/cmd/agent/main.go:704-780 [selected] *)
Definition enforce (t : Told) (node : Kube.Node) (telemetry : option TelemetryConfig) (selected : option DesiredState) (hw : HardwareInfo)
    (w : World) : option string * World :=
  let n := wd_n w in
  let now := td_now t in
  let report cpu gpu := mkWorld n (wd_mem w) (wd_h w) (wd_objs w) (gpu (cpu (wd_r w))) in
  match selected with
  | None =>
      let n := nc_set_lastRaplKey "" n in
      (None, mkWorld n (wd_mem w) (wd_h w) (wd_objs w)
        (updateTelemetryGPUStatus "none" "none" "no NodeTwin selected" now
          (updateTelemetryControlStatus "none" "none" "no NodeTwin selected" now (wd_r w))))
  | Some s =>
      let client := controlClientFromTelemetry telemetry (nc_nodeName n) in
      let gpuClient := gpuControlClientFromTelemetry telemetry (nc_nodeName n) in
      let preferDVFS := match telemetry with
        | Some tel => String.eqb (tel_CPUControlType tel) "http" && String.eqb (tel_ControlMode tel) "dvfs" | None => false end in
      let cap := cpuCapOf s (n_Labels node) (bool_decide (is_Some client) && negb preferDVFS) (wd_h w) in
      if nc_simulateOnly n then
        (None, report (updateTelemetryControlStatus "none" "applied" "simulate-only mode" now)
          (match ds_GPU s with
           | Some _ => updateTelemetryGPUStatus "none" "applied" "simulate-only mode" now
           | None => updateTelemetryGPUStatus "none" "none" "no GPU cap intent" now
           end))
      else
        let '(mem, h, r) := enforceGPU node s gpuClient hw now (wd_mem w) (wd_h w) (wd_r w) in
        let '(err, n, h, r) := enforceCPU s cap preferDVFS client (hi_CPUVendor hw) now n h r in
        (err, mkWorld n mem h (wd_objs w) r)
  end.

(** src/cmd/agent/main.go:633-711 [reconcileOnce] *)
Definition reconcileOnce (t : Told) (w : World) : option string * World :=
  let n := wd_n w in
  match td_node t with
  | inl err => (Some ("get node: " +:+ err), w)
  | inr node =>
      let found := discoverHardwareWith ParseFloat FormatG catalog governorFiles node (td_now t) (nc_gpuFacts n) (wd_mem w) (wd_h w) in
      let n := nc_set_facts (fd_facts found) n in
      let w := mkWorld n (fd_mem found) (fd_host found) (wd_objs w) (wd_r w) in
      match selectDesired (td_twin t) (td_now t) n with
      | inl err => (Some err, w)
      | inr (selected, n) =>
          let telemetry := resolveTelemetryConfigFromEnv (td_env t) in
          let '(hw, w) := reconcileGovernors t node telemetry selected (fd_hw found) (mkWorld n (wd_mem w) (wd_h w) (wd_objs w) (wd_r w)) in
          enforce t node telemetry selected hw w
      end
  end.

(** ** When a tick writes nothing *)

(** A governor component with nothing to write: the agent may not write, or
    has no intent and changed nothing. *)
Lemma release_silent {W} m restore now c (w : W) r :
  mayRestore m c = false \/ c_changed c = false -> (release answer m restore now c w r).1.2 = w.
Proof.
  intros Hno. unfold release.
  assert (c_changed (if c_contended c then c ▷ set_changed false ▷ set_contended false else c) && mayRestore m c = false) as ->.
  { destruct Hno as [-> | Hc]; [by rewrite andb_false_r|]. by destruct (c_contended c); cbn; rewrite ?Hc. }
  destruct (_ && _); [|done]. by destruct (updateNodeTwinGovernorStatus _ _ _ _ _).
Qed.

Definition silent (m : Mode) : Prop := md_simulateOnly m = true \/ md_remote m = true.

Lemma silent_mayRestore m c : silent m -> mayRestore m c = false.
Proof. unfold mayRestore. intros [-> | ->]; [done|by rewrite andb_false_r]. Qed.

Lemma silent_blocked m missing result : silent m -> blocked m missing result <> None.
Proof. unfold blocked. intros [-> | ->]; [done|]. by destruct (md_simulateOnly m), (md_writes m). Qed.

Lemma reconcileCPU_silent m d b intent now c (h : H) r :
  silent m \/ (intent = None /\ c_changed c = false) -> (reconcileCPU answer m d b intent now c h r).1.2 = h.
Proof.
  intros Hs. unfold reconcileCPU.
  assert ((release answer m ((fun f => restoreCPU f b) <$> d) now c h r).1.2 = h) as Hr
    by (apply release_silent; destruct Hs as [Hs|[_ Hc]]; [left; by apply silent_mayRestore|by right]).
  destruct intent as [i|]; [|done]. destruct Hs as [Hs|[? _]]; [|done]. destruct (restoreWritesOff m c); [done|].
  pose proof (silent_blocked m (match d with None => "no cpufreq governor on this node" | Some _ => "" end) GovernorResultUnsupported Hs) as Hb.
  destruct (blocked _ _ _) as [st|]; [|done]. by destruct (hold _ _ _ _ _).
Qed.

Lemma seedNvidia_changed gpus c : c_changed (seedNvidia gpus c) = c_changed c.
Proof. unfold seedNvidia. by destruct (c_nvSeed c). Qed.

Lemma reconcileGPU_silent m gov vendor model labels b intent now c (h : H) r :
  silent m \/ (intent = None /\ c_changed c = false) ->
  (reconcileGPU ParseFloat FormatG FormatCeiling answer m gov vendor model labels b intent now c h r).1.2 = h.
Proof.
  intros Hs. unfold reconcileGPU. set (c0 := match gv_GPU gov with Some d => _ | None => c end).
  assert (c_changed c0 = c_changed c) as E0.
  { subst c0. destruct (gv_GPU gov) as [d|]; [|done]. destruct (bool_decide _); [done|apply seedNvidia_changed]. }
  assert ((release answer m ((fun d c h => restoreGPU d b c h) <$> gv_GPU gov) now c0 h r).1.2 = h) as Hr
    by (apply release_silent; destruct Hs as [Hs|[_ Hc]]; [left; by apply silent_mayRestore|right; by rewrite E0]).
  destruct intent as [i|]; [|done]. destruct Hs as [Hs|[? _]]; [|done]. destruct (restoreWritesOff m c0); [done|].
  destruct (missingGPU gov vendor model labels) as [missing result].
  pose proof (silent_blocked m missing result Hs) as Hb.
  destruct (blocked _ _ _) as [st|]; [|done]. by destruct (hold _ _ _ _ _).
Qed.

Lemma reconcile_silent env gov vendor model intents now g (h : H) r :
  ge_simulateOnly env = true \/ gc_remote g = true \/
    (intents = (None, None) /\ c_changed (gc_cpu g) = false /\ c_changed (gc_gpu g) = false) ->
  (reconcile ParseFloat FormatG FormatCeiling answer env gov vendor model intents now g h r).1.2 = h.
Proof.
  intros Hs. unfold reconcile. destruct (gc_loaded g); [|done]. cbn [negb].
  assert (forall http, silent (modeOf g env http) \/ (intents = (None, None) /\ c_changed (gc_cpu g) = false /\ c_changed (gc_gpu g) = false)) as Hm
    by (intros http; unfold silent; destruct Hs as [?|[?|?]]; auto).
  pose proof (reconcileCPU_silent (modeOf g env (ge_cpuHTTP env)) (cd_Facts <$> gv_CPU gov) (gc_cpuBaseline g) intents.1 now (gc_cpu g) h r) as Hc.
  destruct (reconcileCPU _ _ _ _ _ _ _ _ _) as [[cpu h1] r1]. cbn [fst snd] in Hc.
  rewrite Hc by (destruct (Hm (ge_cpuHTTP env)) as [?|(-> & ? & _)]; auto). clear Hc h1.
  pose proof (reconcileGPU_silent (modeOf g env (ge_gpuHTTP env)) gov vendor model (ge_nodeLabels env) (gc_gpuBaseline g) intents.2 now (gc_gpu g) h r1) as Hg.
  destruct (reconcileGPU _ _ _ _ _ _ _ _ _ _ _ _ _ _ _) as [[gpu h2] r2]. cbn [fst snd] in Hg |- *.
  apply Hg. destruct (Hm (ge_gpuHTTP env)) as [?|(-> & _ & ?)]; auto.
Qed.

Lemma prepare_loaded read last now d g : gc_loaded g = true ->
  let g' := (prepare read last now d g).2 in gc_cpu g' = gc_cpu g /\ gc_gpu g' = gc_gpu g /\ gc_remote g' = gc_remote g.
Proof. intros Hl. unfold prepare, loadBaselines. by rewrite Hl. Qed.

Lemma reconcileGovernors_silent t node telemetry selected hw w :
  nc_simulateOnly (wd_n w) = true \/
    (gc_loaded (nc_governor (wd_n w)) = true /\ selected = None /\
     c_changed (gc_cpu (nc_governor (wd_n w))) = false /\ c_changed (gc_gpu (nc_governor (wd_n w))) = false) ->
  wd_h (reconcileGovernors t node telemetry selected hw w).2 = wd_h w.
Proof.
  intros Hs. unfold reconcileGovernors.
  match goal with |- context [prepare ?a ?b ?c ?d ?e] => pose proof (prepare_loaded a b c d e) as Hp; destruct (prepare a b c d e) as [d' g'] end.
  destruct (upsertNodeHardwareStatus _ _ _ _ _ _ _ _ _) as [[okp objs] r].
  match goal with |- context [reconcile ?a ?b ?c ?d ?e ?f ?g ?h ?i ?j ?k ?l ?m] =>
    pose proof (reconcile_silent e f g h i j k l m) as Hr; destruct (reconcile a b c d e f g h i j k l m) as [[g1 h1] r1] end.
  cbn [fst snd wd_h] in *. apply Hr. destruct Hs as [Hs|(Hl & -> & Hc & Hg)]; [left; exact Hs|].
  right; right. destruct (Hp Hl) as (-> & -> & _). done.
Qed.

Lemma reconcileGovernors_keeps t node telemetry selected hw w :
  let '(hw', w') := reconcileGovernors t node telemetry selected hw w in
  wd_mem w' = wd_mem w /\ d_ThrottlePct <$> nc_dvfs (wd_n w') = d_ThrottlePct <$> nc_dvfs (wd_n w) /\
  nc_simulateOnly (wd_n w') = nc_simulateOnly (wd_n w) /\ nc_capsRelaxed (wd_n w') = nc_capsRelaxed (wd_n w) /\
  nc_httpThrottleCleared (wd_n w') = nc_httpThrottleCleared (wd_n w) /\
  nc_lastSuccessfulSpecRead (wd_n w') = nc_lastSuccessfulSpecRead (wd_n w).
Proof.
  unfold reconcileGovernors. destruct (prepare _ _ _ _ _) as [d' g']. destruct (upsertNodeHardwareStatus _ _ _ _ _ _ _ _ _) as [[okp objs] r].
  destruct (reconcile _ _ _ _ _ _ _ _ _ _ _ _ _) as [[g1 h1] r1]. split_and!; try done. cbn.
  destruct (nc_dvfs (wd_n w)) as [d|]; [|done]. cbn. f_equal. unfold setDVFSPowerReaderForTelemetry. by repeat case_match.
Qed.

(** The node a tick leaves when it only looks. *)
Definition looked (t : Told) (node : Kube.Node) (w : World) : H :=
  fd_host (discoverHardwareWith ParseFloat FormatG catalog governorFiles node (td_now t) (nc_gpuFacts (wd_n w)) (wd_mem w) (wd_h w)).

(** A run of ticks. *)
Definition ticks (ts : list Told) (w : World) : World := foldl (fun w t => (reconcileOnce t w).2) w ts.

Lemma simulated_tick t w : nc_simulateOnly (wd_n w) = true ->
  let '(_, w') := reconcileOnce t w in
  wd_h w' = match td_node t with inl _ => wd_h w | inr node => looked t node w end /\
  d_ThrottlePct <$> nc_dvfs (wd_n w') = d_ThrottlePct <$> nc_dvfs (wd_n w) /\ nc_simulateOnly (wd_n w') = true.
Proof.
  intros Hsim. unfold reconcileOnce, looked. destruct (td_node t) as [err|node]; [done|]. set (found := discoverHardwareWith _ _ _ _ _ _ _ _ _).
  assert (forall sel n', selectDesired (td_twin t) (td_now t) (nc_set_facts (fd_facts found) (wd_n w)) = inr (sel, n') ->
    nc_simulateOnly n' = true /\ nc_dvfs n' = nc_dvfs (wd_n w)) as Hn.
  { unfold selectDesired. intros sel n'. by repeat case_match; intros [= <- <-]. }
  destruct (selectDesired _ _ _) as [err|[sel n']]; [done|]. destruct (Hn sel n' eq_refl) as [Hs Hd]. clear Hn.
  match goal with |- context [reconcileGovernors ?a ?b ?c ?d ?e ?f] =>
    pose proof (reconcileGovernors_silent a b c d e f (or_introl Hs)) as Hh;
    pose proof (reconcileGovernors_keeps a b c d e f) as Hk; destruct (reconcileGovernors a b c d e f) as [hw' w1] end.
  destruct Hk as (_ & Ht & Hs1 & _). cbn [fst snd wd_n wd_h] in *. rewrite Hs in Hs1. rewrite Hd in Ht. unfold enforce.
  destruct sel as [s|]; [rewrite Hs1|]; by split_and!.
Qed.

(** C21. The reconciles of an agent that only simulates write nothing: over
    any run of ticks, whatever the specs ask, caps, governors, or nothing
    over a change an earlier run made, and whatever fails, every tick leaves
    the node as its discovery left it, or as it was when the Node could not
    be read, no throttle moves, and the agent stays in that mode. It says
    nothing of the agent's exit, which may write in that mode
    ([restoreOnExit]). *)
Theorem simulate_only_writes_nothing ts t w0 : nc_simulateOnly (wd_n w0) = true ->
  let w := ticks ts w0 in
  let '(_, w') := reconcileOnce t w in
  wd_h w' = match td_node t with inl _ => wd_h w | inr node => looked t node w end /\
  d_ThrottlePct <$> nc_dvfs (wd_n w') = d_ThrottlePct <$> nc_dvfs (wd_n w0) /\ nc_simulateOnly (wd_n w') = true.
Proof.
  intros Hsim. cbv zeta.
  assert (d_ThrottlePct <$> nc_dvfs (wd_n (ticks ts w0)) = d_ThrottlePct <$> nc_dvfs (wd_n w0) /\ nc_simulateOnly (wd_n (ticks ts w0)) = true) as [Hd Hs].
  { induction ts as [|u ts IH] using rev_ind; [done|]. unfold ticks. rewrite foldl_snoc. fold (ticks ts w0). destruct IH as [IHd IHs].
    pose proof (simulated_tick u (ticks ts w0) IHs) as Hu. destruct (reconcileOnce u _) as [e w1]. destruct Hu as (_ & Hu & ?). cbn [snd].
    split; [congruence|done]. }
  pose proof (simulated_tick t (ticks ts w0) Hs) as Ht. destruct (reconcileOnce t _) as [e w']. destruct Ht as (? & Ht & ?). split; [done|]. split; [congruence|done].
Qed.

(** The governors put back: the CPU's, then the GPU's, whose locks a restart
    may have left to be recorded, from the baselines of this tick. *)
Definition governorsPutBack (t : Told) (n : NodeController) (d : governorDiscovery) (g : governorControl) (h : H) (g' : governorControl) (h' : H)
    : Prop :=
  let m := modeOf g (mkGovernorEnv (nc_simulateOnly n) false false ∅) false in
  let seeded c := match gv_GPU d with Some d => if bool_decide (gd_NVIDIA d = []) then c else seedNvidia (gd_NVIDIA d) c | None => c end in
  let cpuB := followCPU (td_stamp t) (gv_CPU d) (gc_cpu g) (gc_cpuBaseline g) in
  let gpuB := followGPU (td_stamp t) (gv_GPU d) (gc_gpu g) (gc_gpuBaseline g) in
  exists h1,
    putBackBy m ((fun d => restoreCPU (cd_Facts d) cpuB) <$> gv_CPU d) (td_now t) (gc_cpu g) h (gc_cpu g') h1 /\
    putBackBy m ((fun d => restoreGPU d gpuB) <$> gv_GPU d) (td_now t) (seeded (gc_gpu g)) h1 (gc_gpu g') h'.

Lemma publishedCPU_facts c d : cd_Facts (publishedCPU c d) = cd_Facts d.
Proof. unfold publishedCPU. by destruct (c_refused c). Qed.

(** Without a desired state the governor half is the two releases. *)
Lemma reconcileGovernors_release t node telemetry hw w :
  let '(_, w') := reconcileGovernors t node telemetry None hw w in
  match loadBaselines (readBaselines t (nc_nodeName (wd_n w)) (wd_objs w)) None (nc_governor (wd_n w)) with
  | None => wd_h w' = wd_h w
  | Some g => governorsPutBack t (wd_n w) (hi_Governors hw) g (wd_h w) (nc_governor (wd_n w')) (wd_h w')
  end.
Proof.
  unfold reconcileGovernors, prepare. cbn [fmap option_fmap option_map]. destruct (loadBaselines _ _ _) as [g|] eqn:El.
  2:{ destruct (upsertNodeHardwareStatus _ _ _ _ _ _ _ _ _) as [[okp objs] r].
      unfold loadBaselines in El. destruct (gc_loaded (nc_governor (wd_n w))) eqn:Hl; [done|]. unfold reconcile. by rewrite Hl. }
  assert (gc_loaded g = true) as Hl by (by apply loadBaselines_spec in El as [? _]).
  destruct (upsertNodeHardwareStatus _ _ _ _ _ _ _ _ _) as [[okp objs] r]. unfold reconcile. cbn [gc_loaded]. rewrite Hl. cbn [negb fst snd].
  unfold reconcileCPU, reconcileGPU. cbn [gv_CPU gv_GPU gc_cpu gc_gpu gc_cpuBaseline gc_gpuBaseline].
  match goal with |- context [release answer ?m ?f ?now ?c (wd_h w) r] =>
    pose proof (release_putBack answer m f now c (wd_h w) r) as H1; destruct (release answer m f now c (wd_h w) r) as [[cpu h1] r1] end.
  match goal with |- context [release answer ?m ?f ?now ?c h1 r1] =>
    pose proof (release_putBack answer m f now c h1 r1) as H2; destruct (release answer m f now c h1 r1) as [[gpu h2] r2] end.
  unfold governorsPutBack. exists h1. cbn [wd_n nc_governor nc_set_governor withComponents gc_cpu gc_gpu wd_h]. split.
  - destruct (gv_CPU (hi_Governors hw)) as [d|]; cbn [fmap option_fmap option_map] in H1 |- *; [|exact H1]. rewrite publishedCPU_facts in H1. exact H1.
  - destruct (gv_GPU (hi_Governors hw)) as [d|]; cbn [fmap option_fmap option_map] in H2 |- *; exact H2.
Qed.

(** Putting governors back leaves the node's power limits alone. *)
Lemma governorsPutBack_limits {PL : PowerLimits H} t n d g h g' h' :
  governorsPutBack t n d g h g' h' -> limitsOf h' = limitsOf h.
Proof.
  assert (forall m restore now c (h : H) c' h', (forall f, restore = Some f -> forall c h, limitsOf (f c h).2 = limitsOf h) ->
    putBackBy m restore now c h c' h' -> limitsOf h' = limitsOf h) as Hp.
  { intros m restore now c h0 c' h0' Hf. unfold putBackBy. destruct restore as [f|]; [|by intros ->]. destruct (_ && _); [|by intros ->].
    specialize (Hf f eq_refl c h0). destruct (f c h0) as [[out c1] h1]. cbn [snd] in Hf. by intros (-> & _). }
  intros (h1 & H1 & H2). etrans; [eapply Hp; [|exact H2]|eapply Hp; [|exact H1]].
  - intros f E c0 h0. destruct (gv_GPU d) as [gd|]; [|done]. injection E as <-. apply restoreGPU_limits.
  - intros f E c0 h0. destruct (gv_CPU d) as [cd|]; [|done]. injection E as <-. apply restoreCPU_limits.
Qed.

(** C22. A spec that could not be read for longer than the timeout puts the
    governors back and nothing else: the tick succeeds and marks the caps as
    relaxed, but leaves every power limit and the throttle as they are. A
    governor the agent changed, may write and does not wait to retry goes
    back to its baseline, with the outcome of that as its status, and is no
    longer the agent's once restored; one it gave up to another writer, may
    not write, or did not change is left alone. Until the timeout a failed
    read ends the tick with the error, and changes nothing. *)
Theorem stale_spec_keeps_caps {PL : PowerLimits H} t w node err last :
  td_node t = inr node -> resolveDesiredStateForNode (td_twin t) (nc_nodeName (wd_n w)) = inl err ->
  nc_lastSuccessfulSpecRead (wd_n w) = Some last ->
  let found := discoverHardwareWith ParseFloat FormatG catalog governorFiles node (td_now t) (nc_gpuFacts (wd_n w)) (wd_mem w) (wd_h w) in
  let '(e, w') := reconcileOnce t w in
  d_ThrottlePct <$> nc_dvfs (wd_n w') = d_ThrottlePct <$> nc_dvfs (wd_n w) /\ nc_lastSuccessfulSpecRead (wd_n w') = Some last /\
  limitsOf (wd_h w') = limitsOf (looked t node w) /\
  if (nc_specReadTimeout (wd_n w) <? tsub (td_now t) last)%Z then
    e = None /\ nc_capsRelaxed (wd_n w') = true /\
    match loadBaselines (readBaselines t (nc_nodeName (wd_n w)) (wd_objs w)) None (nc_governor (wd_n w)) with
    | None => wd_h w' = looked t node w
    | Some g => governorsPutBack t (wd_n w) (hi_Governors (fd_hw found)) g (looked t node w) (nc_governor (wd_n w')) (wd_h w')
    end
  else e = Some err /\ wd_h w' = looked t node w /\ nc_governor (wd_n w') = nc_governor (wd_n w) /\ wd_r w' = wd_r w /\ wd_objs w' = wd_objs w.
Proof.
  intros Hnode Hread Hlast. cbv zeta. unfold reconcileOnce, looked. rewrite Hnode. set (found := discoverHardwareWith _ _ _ _ _ _ _ _ _).
  unfold selectDesired. cbn [nc_set_facts nc_nodeName nc_lastSuccessfulSpecRead nc_specReadTimeout]. rewrite Hread, Hlast.
  destruct (_ <? _)%Z; [|by split_and!].
  match goal with |- context [reconcileGovernors ?a ?b ?c ?d ?e ?f] =>
    pose proof (reconcileGovernors_release a b c e f) as Hb;
    pose proof (reconcileGovernors_keeps a b c d e f) as Hk; destruct (reconcileGovernors a b c d e f) as [hw' w1] end.
  destruct Hk as (_ & Ht & _ & Hr & _ & Hl').
  cbn [enforce fst snd wd_n wd_h wd_objs nc_set_facts nc_set_read nc_set_lastRaplKey nc_dvfs nc_nodeName nc_governor nc_simulateOnly nc_capsRelaxed
    nc_lastSuccessfulSpecRead] in *.
  split; [done|]. split; [done|].
  destruct (loadBaselines _ _ _) as [g|]; [|by rewrite Hb].
  split; [|done]. by eapply governorsPutBack_limits.
Qed.
End Tick.

(** ** A watt cap and a throttle behind one endpoint *)

(** An endpoint that keeps a throttle beside the watt cap, as the simulator's
    does: a throttle command it accepts sets it, no other command does, and
    neither do the node's files or its power meter. *)
Class ThrottlingEndpoint (H : Type) `{!HostFS H} `{!PowerSource H} `{!ControlEndpoint H} := {
  throttleOf : H -> Z;
  throttle_file path value h : throttleOf (fs_write path value h).2 = throttleOf h;
  throttle_meter h : throttleOf (read_power h).2 = throttleOf h;
  throttle_command url node action watts pct h :
    let '(out, h') := http_post url (CPUCommand node action watts pct) h in
    if String.eqb action "dvfs.set_throttle_pct"
    then match out with inr resp => controlResponseError resp = None -> throttleOf h' = pct | inl _ => True end
    else throttleOf h' = throttleOf h
}.

Section Endpoint.
Context {H : Type} `{!HostFS H} `{!PowerSource H} `{!ControlEndpoint H} {T : ThrottlingEndpoint H}.

Lemma post_throttle c w pct (h : H) :
  (ApplyCPUControl c "dvfs.set_throttle_pct" w pct h).1 = None -> throttleOf (ApplyCPUControl c "dvfs.set_throttle_pct" w pct h).2 = pct.
Proof.
  unfold ApplyCPUControl, postCommand. destruct (marshalError w); [done|].
  pose proof (throttle_command (ReplaceAll (cl_Endpoint c) "{node}" (cl_NodeName c)) (cl_NodeName c) "dvfs.set_throttle_pct" w pct h) as Hc.
  destruct (http_post _ _ h) as [[err|resp] h1]; [done|]. exact Hc.
Qed.

Lemma post_watts c w pct (h : H) : throttleOf (ApplyCPUControl c "rapl.set_power_cap_watts" w pct h).2 = throttleOf h.
Proof.
  unfold ApplyCPUControl, postCommand. destruct (marshalError w); [done|].
  pose proof (throttle_command (ReplaceAll (cl_Endpoint c) "{node}" (cl_NodeName c)) (cl_NodeName c) "rapl.set_power_cap_watts" w pct h) as Hc.
  destruct (http_post _ _ h) as [[err|resp] h1]; exact Hc.
Qed.

Lemma capPackages_throttle uw files (h : H) : throttleOf (capPackages uw files h).2 = throttleOf h.
Proof.
  revert h. induction files as [|f files IH]; intros h; [done|]. cbn [capPackages].
  pose proof (throttle_file f (Itoa (packageCap uw f h)) h) as Hf. destruct (fs_write _ _ h) as [[err|] h1]; cbn [snd] in Hf;
    rewrite <- Hf, <- (IH h1); by destruct (capPackages uw files h1) as [[count failures] h2].
Qed.

Lemma applyRAPLPackageCap_throttle vendor w (h : H) : throttleOf (applyRAPLPackageCap vendor w h).2 = throttleOf h.
Proof.
  unfold applyRAPLPackageCap. destruct (_ && _); [done|]. destruct (fle w fzero); [done|]. destruct (RAPLCapFiles h) as [|f fs]; [done|].
  pose proof (capPackages_throttle (int_of_float (fmul w (fofZ 1000000))) (f :: fs) h) as Hc.
  destruct (capPackages _ _ h) as [[count failures] h1]. by destruct (count =? 0)%nat.
Qed.

Lemma writeTargets_throttle d pct i cpus written (h : H) : throttleOf (writeTargets d pct i cpus written h).2 = throttleOf h.
Proof.
  revert i written h. induction cpus as [|c cpus IH]; intros i written h; [done|]. cbn [writeTargets].
  pose proof (throttle_file (cpu_MaxFile c) (Itoa (target d pct i c)) h) as Hf.
  destruct (fs_write _ _ h) as [[err|] h1]; cbn [snd] in Hf; [done|]. by rewrite IH.
Qed.

Lemma applyThrottlePct_throttle d pct w (h : H) : throttleOf (applyThrottlePct pct None w d h).2 = throttleOf h.
Proof.
  unfold applyThrottlePct. destruct (_ || _); [done|]. destruct (_ =? 0)%nat; [done|]. apply writeTargets_throttle.
Qed.

Lemma RestoreAllMax_throttle d (h : H) : throttleOf (RestoreAllMax d h).2 = throttleOf h.
Proof.
  unfold RestoreAllMax. pose proof (applyThrottlePct_throttle d 0 fzero h) as Ha. destruct (applyThrottlePct _ _ _ _ h) as [a h1].
  by destruct (ap_Err a).
Qed.

Lemma readPowerWatts_throttle d now (h : H) : throttleOf (readPowerWatts d now h).2 = throttleOf h.
Proof.
  unfold readPowerWatts. destruct (d_PowerReader d).
  { pose proof (throttle_meter h) as Hm. by destruct (read_power h). }
  destruct (EnergyFiles h); [done|]. destruct (sampleCounters _ _ _ _ _ _) as [[samples total] count]. by destruct (count =? 0)%nat.
Qed.

Lemma control_throttle capWatts now powerW d (h : H) : throttleOf (control capWatts None now powerW d h).2 = throttleOf h.
Proof.
  unfold control. destruct (_ <? _)%Z; [done|]. set (d1 := countTrips _ _). cbv zeta.
  destruct (_ <=? _)%Z; [|destruct (_ <=? _)%Z; [|done]];
    match goal with |- context [applyThrottlePct ?p None ?w ?d h] =>
      pose proof (applyThrottlePct_throttle d p w h) as Ha; destruct (applyThrottlePct p None w d h) as [a h1] end; by destruct (ap_Err a).
Qed.

Lemma Reconcile_throttle capWatts now d (h : H) : throttleOf (Reconcile capWatts None now d h).2 = throttleOf h.
Proof.
  unfold Reconcile. destruct (fle _ _); [done|]. destruct (negb _); [done|]. pose proof (readPowerWatts_throttle d now h) as Hp.
  destruct (readPowerWatts d now h) as [[rd d1] h1]. cbn [snd] in Hp. rewrite <- Hp. destruct (pr_Err rd); [done|].
  destruct (negb _); [done|]. apply control_throttle.
Qed.

Lemma throttleHost_throttle pct t w d (h : H) : throttleOf (throttleHost pct t w d h).2 = throttleOf h.
Proof.
  unfold throttleHost. destruct d as [d|]; [|done]. destruct (negb _); [done|]. pose proof (applyThrottlePct_throttle d t w h) as Ha.
  destruct (applyThrottlePct _ _ _ _ h) as [a h1]. by destruct (ap_Err a).
Qed.

Lemma applyCPUPercentIntent_throttle pct d now (h : H) : throttleOf (applyCPUPercentIntent pct None d now h).2 = throttleOf h.
Proof.
  unfold applyCPUPercentIntent. destruct (fle _ _); [done|]. cbv zeta.
  assert (throttleOf (targetWattsOf (if flt (fofZ 100) pct then fofZ 100 else pct) d now h).2 = throttleOf h) as Ht.
  { unfold targetWattsOf. destruct d as [d|]; [|done]. pose proof (readPowerWatts_throttle d now h) as Hp.
    by destruct (readPowerWatts d now h) as [[rd d1] h1]. }
  destruct (targetWattsOf _ d now h) as [[w d1] h1]. cbn [snd] in Ht. rewrite <- Ht. apply throttleHost_throttle.
Qed.

Context (texts : Texts) (catalog : option Catalog) (answer : nat -> PatchAnswer).

(** What the flag promises. *)
Definition clearedTold (n : NodeController) (h : H) : Prop := nc_httpThrottleCleared n = true -> throttleOf h = 0%Z.

Definition outOf (o : option string * NodeController * H * Reports) : NodeController * H := (o.1.1.2, o.1.2).

Lemma fallback_cleared pct client now n (h : H) r : clearedTold n h ->
  let o := applyCPUPercentFallback texts answer pct client now n h r in clearedTold (outOf o).1 (outOf o).2.
Proof.
  intros Hc. unfold applyCPUPercentFallback. destruct client as [c|].
  - by destruct (applyCPUPercentIntent _ _ _ _ h) as [[st d] h1].
  - pose proof (applyCPUPercentIntent_throttle pct (nc_dvfs n) now h) as Hp. destruct (applyCPUPercentIntent _ _ _ _ h) as [[st d] h1].
    cbn in Hp |- *. unfold clearedTold. cbn. by rewrite Hp.
Qed.

Lemma dvfs_cleared w files client now n (h : H) r : clearedTold n h ->
  let o := dvfsFallback texts answer w files client now n h r in clearedTold (outOf o).1 (outOf o).2.
Proof.
  intros Hc. unfold dvfsFallback. cbn [nc_dvfs nc_set_lastRaplKey]. destruct (nc_dvfs n) as [d|]; [|done]. destruct (_ && _); [done|].
  cbv zeta. match goal with |- context [Reconcile w client now ?x h] => set (d0 := x) end. destruct client as [c|].
  - destruct (Reconcile w (Some c) now d0 h) as [[[err|a] d1] h1]; done.
  - pose proof (Reconcile_throttle w now d0 h) as Hr. destruct (Reconcile w None now d0 h) as [[[err|a] d1] h1]; cbn in Hr |- *;
      unfold clearedTold; cbn; by rewrite Hr.
Qed.

(** RAPL in place: the flag holds where it held, and when the backend takes
    the clearing the throttle is gone. *)
Lemma rapl_cleared s w note client now n (h : H) r : clearedTold n h ->
  let o := raplApplied texts answer s w note client now n h r in
  clearedTold (outOf o).1 (outOf o).2 /\
  (forall c, client = Some c -> nc_httpThrottleCleared n = true \/ (ApplyCPUControl c "dvfs.set_throttle_pct" fzero 0 h).1 = None ->
   throttleOf (outOf o).2 = 0%Z).
Proof.
  intros Hc. unfold raplApplied. cbv zeta. cbn [nc_httpThrottleCleared nc_set_dvfs nc_set_lastRaplKey].
  set (n1 := nc_set_dvfs _ _). assert (nc_httpThrottleCleared n1 = nc_httpThrottleCleared n) as En by done.
  match goal with |- context [let (_, _) := ?x in _] => set (sent := x) end.
  assert (clearedTold sent.1 sent.2 /\
    (forall c, client = Some c -> nc_httpThrottleCleared n = true \/ (ApplyCPUControl c "dvfs.set_throttle_pct" fzero 0 h).1 = None ->
     throttleOf sent.2 = 0%Z)) as [H1 H2].
  { subst sent. destruct client as [c|]; [|by split]. destruct (nc_httpThrottleCleared n) eqn:Ef.
    - split; [exact Hc|]. intros _ _ _. by apply Hc.
    - pose proof (post_throttle c fzero 0 h) as Hp. destruct (ApplyCPUControl c "dvfs.set_throttle_pct" fzero 0 h) as [[err|] h1] eqn:Ea; cbn [fst snd] in *.
      + split; [intros Hf; change (nc_httpThrottleCleared n = true) in Hf; congruence|]. intros c' [= <-] [?|Hx]; [done|by rewrite Ea in Hx].
      + split; [by intros _; apply Hp|]. intros _ _ _. by apply Hp. }
  clearbody sent. destruct sent as [n2 h2]. cbn [fst snd] in *. destruct (nc_dvfs n2) as [d|]; [|done]. destruct (Active d); [|done].
  pose proof (RestoreAllMax_throttle d h2) as Hr. destruct (RestoreAllMax d h2) as [[a d1] h3]. cbn [snd] in Hr.
  cbn [outOf fst snd]. unfold clearedTold in *. cbn. rewrite Hr. by split.
Qed.

Lemma enforceCPU_cleared s cap prefer client vendor now n (h : H) r : clearedTold n h ->
  let o := enforceCPU texts answer s cap prefer client vendor now n h r in clearedTold (outOf o).1 (outOf o).2.
Proof.
  intros Hc. unfold enforceCPU. destruct cap as [[[w|] fromPct] note].
  2:{ destruct (ds_PowerPctOfMax s); [by apply fallback_cleared|done]. }
  destruct prefer; [by apply dvfs_cleared|]. destruct client as [c|].
  - pose proof (post_watts c w (-1) h) as Hp. destruct (ApplyCPUControl _ _ _ _ h) as [[err|] h1]; cbn [snd] in Hp;
      assert (clearedTold n h1) as H1 by (unfold clearedTold; by rewrite Hp).
    + destruct fromPct; [by apply fallback_cleared|by apply dvfs_cleared].
    + by apply rapl_cleared.
  - pose proof (applyRAPLPackageCap_throttle vendor w h) as Hp. destruct (applyRAPLPackageCap vendor w h) as [res h1]. cbn [snd] in Hp.
    assert (clearedTold n h1) as H1 by (unfold clearedTold; by rewrite Hp).
    destruct (rr_Err res); [done|]. destruct (rr_Applied res); [by apply rapl_cleared|by apply dvfs_cleared].
Qed.

(** The CPU part of the ticks of one agent, from its start over whatever
    throttle an earlier run left; between two of them everything else may
    change, but not the flag and the endpoint's throttle. *)
Inductive capRuns : NodeController -> H -> Prop :=
| caps_new nodeName simulateOnly d timeout now env h : capRuns (newNodeController nodeName simulateOnly d timeout now env) h
| caps_else n h n' h' : capRuns n h -> nc_httpThrottleCleared n' = nc_httpThrottleCleared n -> throttleOf h' = throttleOf h -> capRuns n' h'
| caps_tick n h s cap prefer client vendor now r : capRuns n h ->
    capRuns (outOf (enforceCPU texts answer s cap prefer client vendor now n h r)).1
            (outOf (enforceCPU texts answer s cap prefer client vendor now n h r)).2.

(** C11. A watt cap and a throttle do not add up. Over every run of the agent,
    with any specs, modes, clients and refusals: when the agent holds that it
    has cleared the endpoint's throttle, the throttle is 0; and a tick whose
    watts the endpoint takes leaves a throttle of 0, whoever set one before,
    unless the endpoint refuses to clear it. *)
Theorem http_throttle_cleared n h :
  capRuns n h ->
  (nc_httpThrottleCleared n = true -> throttleOf h = 0%Z) /\
  forall s w fromPct note c vendor now r,
    let '(err, h1) := ApplyCPUControl c "rapl.set_power_cap_watts" w (-1) h in
    err = None -> nc_httpThrottleCleared n = true \/ (ApplyCPUControl c "dvfs.set_throttle_pct" fzero 0 h1).1 = None ->
    throttleOf (outOf (enforceCPU texts answer s (Some w, fromPct, note) false (Some c) vendor now n h r)).2 = 0%Z.
Proof.
  intros Hruns. assert (clearedTold n h) as Hc.
  { induction Hruns as [|n h n' h' _ IH En Eh|n h s cap prefer client vendor now r _ IH]; [done| |by apply enforceCPU_cleared].
    unfold clearedTold. by rewrite En, Eh. }
  split; [exact Hc|]. intros s w fromPct note c vendor now r. cbn [enforceCPU].
  pose proof (post_watts c w (-1) h) as Hp. destruct (ApplyCPUControl _ _ _ _ h) as [err h1]. intros -> Hsent. cbn [snd] in Hp.
  eapply rapl_cleared; [|done|exact Hsent]. unfold clearedTold. by rewrite Hp.
Qed.
End Endpoint.

(** ** From the plan to the package *)

(** The files of the throttle. *)
Definition throttleFiles (n : NodeController) : list string := match nc_dvfs n with Some d => cpu_MaxFile <$> d_Cpus d | None => [] end.

Lemma writeTargets_zones d pct i cpus written z p :
  p ∉ cpu_MaxFile <$> cpus -> zn_files (writeTargets d pct i cpus written z).2 !! p = zn_files z !! p.
Proof.
  revert i written z. induction cpus as [|c cpus IH]; intros i written z; [done|]. cbn [writeTargets fmap list_fmap].
  intros [Hne Hno]%not_elem_of_cons. cbn [fs_write zonesFS]. destruct (bool_decide _); [done|]. rewrite IH by done. cbn [zn_files].
  by rewrite lookup_insert_ne.
Qed.

Lemma RestoreAllMax_zones d z p :
  p ∉ cpu_MaxFile <$> d_Cpus d -> zn_files (RestoreAllMax d z).2 !! p = zn_files z !! p.
Proof.
  intros Hp. unfold RestoreAllMax, applyThrottlePct. cbn [Z.ltb orb Z.compare]. destruct (length (d_Cpus d) =? 0)%nat; [done|].
  pose proof (writeTargets_zones d 0 0 (d_Cpus d) 0 z p Hp) as Hw. destruct (writeTargets _ _ _ _ _ z) as [a z1]. by destruct (ap_Err a).
Qed.

Section Enforced.
Context (texts : Texts) (catalog : option Catalog) (answer : nat -> PatchAnswer).

(** After RAPL took a cap only the throttle's files are written. *)
Lemma raplApplied_zones s w note now n z r p :
  p ∉ throttleFiles n ->
  let '(err, _, z', _) := raplApplied texts answer s w note None now n z r in err = None /\ zn_files z' !! p = zn_files z !! p.
Proof.
  intros Hp. unfold raplApplied. cbn [nc_dvfs nc_set_dvfs nc_set_lastRaplKey]. unfold throttleFiles in Hp.
  destruct (nc_dvfs n) as [d|]; [|done]. cbn [fmap option_fmap option_map]. destruct (Active _); [|done].
  pose proof (RestoreAllMax_zones (set_Warned false d) z p Hp) as Hr. by destruct (RestoreAllMax _ z) as [[a d1] z1].
Qed.

(** The watts an assignment comes to on a node. *)
Definition plannedWatts (a : NodeAssignment) (z : Zones) : option float64 :=
  match na_CPUCapPctOfMax a with
  | Some pct =>
      if fle pct fzero then None
      else range ← readRAPLPackageCapRangeWatts z; if flt fzero range.1 then Some (CapForPctW pct range.2 range.1) else None
  | None => if flt fzero (na_CapWatts a) then Some (na_CapWatts a) else None
  end.

Lemma cpuCapOf_asked a results labels z w : plannedWatts a z = Some w ->
  exists fromPct note, cpuCapOf texts catalog (asked a results) labels false z = (Some w, fromPct, note).
Proof.
  unfold plannedWatts, cpuCapOf, asked, askedWatts. cbn [ds_PowerWatts ds_PowerPctOfMax].
  destruct (na_CPUCapPctOfMax a) as [pct|].
  - destruct (fle pct fzero) eqn:Ep; [done|]. unfold resolveCPUCapFromPct. rewrite Ep. cbn [negb andb].
    destruct (readRAPLPackageCapRangeWatts z) as [[maxW minW]|]; [|done]. cbn [mbind option_bind fst snd].
    destruct (flt fzero maxW); [|done]. intros [= <-]. by eexists _, _.
  - destruct (flt fzero (na_CapWatts a)) eqn:Ew; [|done]. intros [= <-].
    assert (fle (na_CapWatts a) fzero = false) as -> by (assert (is_nan fzero = false) by done; forder). by eexists _, _.
Qed.

(** C7. The controller manager's plan is what the packages get. After a
    publication that went through, the agent of each planned node reads back
    its own assignment, caps and governors, and no other's; and on a node it
    controls through RAPL, whatever throttle was in force, every package that
    takes a write ends at the watts the plan stands for there (a percentage
    within the node's own range), or at its own maximum when that is lower;
    no other file changes but the throttle's. *)
Theorem plan_enforced ok Marshal key plan w w' results a vendor labels now n z r watts :
  NoDup (sanitizeName ∘ na_NodeName <$> plan) -> (forall b, b ∈ plan -> TrimSpace (na_Profile b) = na_Profile b) ->
  (forall x y t, Marshal x = Some t -> Marshal y = Some t -> decodeTwinSpec x = decodeTwinSpec y) ->
  publishPlan ok Marshal key plan w = (w', inl ()) -> a ∈ plan ->
  let s := asked a (results (sanitizeName (na_NodeName a))) in
  resolveDesiredStateForNode (readTwin w' results) (na_NodeName a) = inr (Some s, "nodetwin") /\
  (plannedWatts a z = Some watts -> flt fzero watts = true -> vendor ∈ ["AuthenticAMD"; "GenuineIntel"] -> RAPLCapFiles z <> [] ->
   (forall f, f ∈ throttleFiles n -> ~ isCapFile f) ->
   let taken := filter (takes z) (RAPLCapFiles z) in
   let uw := int_of_float (fmul watts (fofZ 1000000)) in
   let '(err, _, z', _) := enforceCPU texts answer s (cpuCapOf texts catalog s labels false z) false None vendor now n z r in
   (err = None <-> taken <> []) /\
   (forall f, f ∈ taken -> zn_files z' !! f =
      Some (Itoa (match raplConstraintMaxUW f z with Some maxUW => Z.min uw maxUW | None => uw end))) /\
   (forall p, p ∉ taken -> p ∉ throttleFiles n -> zn_files z' !! p = zn_files z !! p)).
Proof.
  intros Hnd Htrim Hdec Hrun Ha s. split; [by apply (plan_reaches_agent ok Marshal key plan w)|].
  intros Hw Hpos Hv Hne Hfiles taken uw. destruct (cpuCapOf_asked a (results (sanitizeName (na_NodeName a))) labels z watts Hw) as (fromPct & note & Ecap).
  unfold s. rewrite Ecap. cbn [enforceCPU]. pose proof (applyRAPLPackageCap_reaches vendor watts z Hv Hpos Hne) as Hrapl.
  cbv zeta in Hrapl. fold taken uw in Hrapl.
  assert (forall f, f ∈ taken -> f ∉ throttleFiles n) as Hsep.
  { intros f [_ Hf]%list_elem_of_filter Ht. by apply (Hfiles f Ht), (RAPLCapFiles_in z). }
  clearbody taken uw. destruct (applyRAPLPackageCap vendor watts z) as [res z1].
  destruct Hrapl as (_ & Happ & Herr & Hin & Hout). destruct (rr_Err res) as [e|].
  { assert (taken = []) as Et by (destruct (decide (taken = [])) as [|Hn]; [done|by apply Herr in Hn]). 
    split; [by split|]. split; [intros f Hf; rewrite Et in Hf; by apply elem_of_nil in Hf|]. intros p Hp _. by apply Hout. }
  rewrite (proj2 Happ) by by apply Herr. set (s' := asked a _).
  pose proof (fun p => raplApplied_zones s' watts note now n z1 r p) as Hz.
  destruct (raplApplied texts answer s' watts note None now n z1 r) as [[[err n'] z'] r'].
  destruct taken as [|f0 rest] eqn:Et; [by destruct (proj1 Herr eq_refl)|]. split_and!.
  - split; [done|]. intros _. apply (Hz f0), Hsep. left.
  - intros f Hf. destruct (Hz f (Hsep f Hf)) as [_ ->]. by apply Hin.
  - intros p Hp Ht. destruct (Hz p Ht) as [_ ->]. by apply Hout.
Qed.
End Enforced.

(** ** Samples *)

Definition sampleTexts : Texts := mkTexts (fun _ => "") (fun _ => "") (fun _ => "") (fun _ => "") (fun _ _ _ => "").

Definition desired (watts pct : option float64) : DesiredState := {|
  ds_Name := "node-a"; ds_PowerWatts := watts; ds_PowerPctOfMax := pct; ds_GPU := None; ds_CPUGovernor := None; ds_GPUGovernor := None;
  ds_LastCPUGovernor := None; ds_LastGPUGovernor := None |}.

(** A backend that takes every command and keeps its throttle. *)
Record Backend := mkBackend { be_throttle : Z }.

#[local] Instance backendFS : HostFS Backend := {
  fs_read _ _ := None; fs_write _ _ b := (None, b); fs_walk _ := []; fs_resolve p _ := Some p; fs_readlink _ _ := None }.
#[local] Instance backendPower : PowerSource Backend := {| read_power b := (mkReading (fofZ 100) true None, b) |}.
#[local] Instance backendEndpoint : ControlEndpoint Backend := {| http_post _ cmd b :=
  (inr (mkResponse 200 true None "" ""), match cmd with
    | CPUCommand _ action _ pct => if String.eqb action "dvfs.set_throttle_pct" then mkBackend pct else b | _ => b end) |}.
#[local] Instance backendThrottle : ThrottlingEndpoint Backend.
Proof. refine {| throttleOf := be_throttle |}; try done. intros url node action watts pct b. cbn. by destruct (String.eqb action _). Defined.

Definition simulator : HTTPControlClient := mkClient "http://sim" "node-a".
Definition firstNode : NodeController := newNodeController "node-a" false None minute 0 ∅.

(** Half of the power as a throttle of 50%, then 200 W. *)
Definition afterPercent := outOf (enforceCPU sampleTexts (fun _ => Patched) (desired None (Some (fofZ 50))) (None, None, "") false (Some simulator)
  "GenuineIntel" 1 firstNode (mkBackend 20) noReports).
Definition afterWatts := outOf (enforceCPU sampleTexts (fun _ => Patched) (desired (Some (fofZ 200)) None) (Some (fofZ 200), None, "") false
  (Some simulator) "GenuineIntel" 2 afterPercent.1 afterPercent.2 noReports).

Example http_throttle_cleared_witness :
  be_throttle afterPercent.2 = 50%Z /\ nc_httpThrottleCleared afterPercent.1 = false /\ be_throttle afterWatts.2 = 0%Z.
Proof.
  split; [vm_compute; reflexivity|]. split; [vm_compute; reflexivity|].
  assert (capRuns sampleTexts (fun _ => Patched) afterPercent.1 afterPercent.2) as Hr by (apply caps_tick, caps_new).
  destruct (http_throttle_cleared sampleTexts (fun _ => Patched) _ _ Hr) as [_ Ht].
  specialize (Ht (desired (Some (fofZ 200)) None) (fofZ 200) None "" simulator "GenuineIntel" 2%Z noReports).
  exact (Ht eq_refl (or_intror eq_refl)).
Defined.

Example plan_enforced_witness :
  exists z', zn_files z' !! path_Join (pkg 0) limitName = Some "120000000" /\
    zn_files z' !! path_Join (pkg 0) maxName = zn_files threePackages !! path_Join (pkg 0) maxName.
Proof.
  assert (publishPlan serverUp (sampleMarshal samplePlanOut) "joulie.io/power-profile" samplePlanOut sampleTwins =
    (publishedTwins, inl ())) as Hrun by (vm_compute; reflexivity).
  assert (filter (takes threePackages) (RAPLCapFiles threePackages) = [path_Join (pkg 0) limitName; path_Join (pkg 1) limitName]) as E
    by (rewrite sampleFiles; vm_compute; reflexivity).
  destruct (plan_enforced sampleTexts None (fun _ => Patched) serverUp (sampleMarshal samplePlanOut) "joulie.io/power-profile" samplePlanOut
    sampleTwins publishedTwins (fun _ => None) (withLabels (assignment "Node.B" "eco" (fofZ 120) "static-partition-v1") ("eco", true))
    "GenuineIntel" ∅ 1 firstNode threePackages noReports (fofZ 120)) as [_ He].
  - apply (bool_decide_unpack _). vm_compute. exact I.
  - apply Forall_forall. repeat constructor; vm_compute; reflexivity.
  - intros x y t Hx Hy. by rewrite (sampleMarshal_inj _ x y t Hx Hy).
  - exact Hrun.
  - right. left.
  - assert (RAPLCapFiles threePackages <> []) as Hne by (rewrite sampleFiles; discriminate).
    assert (throttleFiles firstNode = []) as Ef by reflexivity.
    assert (forall f, f ∈ throttleFiles firstNode -> ~ isCapFile f) as Hf by (rewrite Ef; intros f []%elem_of_nil).
    assert ("GenuineIntel" ∈ ["AuthenticAMD"; "GenuineIntel"]) as Hv by (right; left).
    assert (flt fzero (fofZ 120) = true) as Hp by (vm_compute; reflexivity).
    specialize (He eq_refl Hp Hv Hne Hf). rewrite E in He. cbv zeta in He. destruct (enforceCPU _ _ _ _ _ _ _ _ _ _ _) as [[[err n'] z'] r']. destruct He as (_ & Hin & Hout).
    exists z'. split; [rewrite Hin by left; vm_compute; reflexivity|]. apply Hout; [|apply not_elem_of_nil].
    apply (bool_decide_unpack _). vm_compute. exact I.
Defined.

(** A node without files, whose nvidia-smi lists no GPU and holds a lock. *)
#[local] Instance toolFS : HostFS Tool := {
  fs_read _ _ := None; fs_write _ _ h := (Some "read-only file system", h); fs_walk _ := []; fs_resolve p _ := Some p; fs_readlink _ _ := None }.
#[local] Instance toolRocm : RocmSmi Tool := {| rocm_run _ h := (Some toolFailure, "", h) |}.
#[local] Instance toolPower : PowerSource Tool := {| read_power h := (mkReading fzero false None, h) |}.
#[local] Instance toolEndpoint : ControlEndpoint Tool := {| http_post _ _ h := (inl "connection refused", h) |}.
#[local] Instance toolFails : ToolFailures Tool := {| nvidiaToolFailures _ := 0%Z |}.
#[local] Existing Instance integer_quantity.

Definition bareNode : Kube.Node := {| n_Name := "node-a"; n_Labels := ∅; n_Unschedulable := false; n_Allocatable := ∅; n_Capacity := ∅ |}.
Definition noFiles (h : Tool) : GovernorFiles := {| gf_sys := mkSys ∅ []; gf_cpuinfo := None; gf_access _ := false; gf_driver _ := None; gf_pci := [] |}.

Definition told (now : Z) (read : TwinRead) : Told :=
  mkTold now "2026-01-01T00:00:00Z" (inr bareNode) (fun _ => read) ∅ true (fun _ => true) None (fun _ => Some "{}").

Definition twinOf (r : ControlResult) : NodeTwin :=
  mkTwin "node-a" (mkTwinSpec "node-a" "eco" None None None) (Some (mkResults None (Some r))).

Definition bench (simulateOnly : bool) : World :=
  mkWorld (newNodeController "node-a" simulateOnly None minute 0 writesOn) ∅ lockedTool ∅ noReports.

Definition tickBench := reconcileOnce sampleParse sampleFormat sampleFormat sampleFormat sampleTexts None (fun _ => Patched) noFiles.

(** Nothing is reset in simulate-only mode, though the status names the lock:
    a tick, and another after it. *)
Example simulate_only_writes_nothing_witness :
  let t now := told now (TwinFound (twinOf (leftApplied "-lgc 210,1080"))) in
  let w' := (tickBench (t 2%Z) (tickBench (t 1%Z) (bench true)).2).2 in
  c_changed (gc_gpu (nc_governor (wd_n w'))) = true /\ gpuLocks (wd_h w') "00000000:18:00.0" = (Some (210, 1080)%Z, None).
Proof.
  cbv zeta. split; [vm_compute; reflexivity|].
  pose proof (simulate_only_writes_nothing sampleParse sampleFormat sampleFormat sampleFormat sampleTexts None (fun _ => Patched) noFiles
    [told 1 (TwinFound (twinOf (leftApplied "-lgc 210,1080")))] (told 2 (TwinFound (twinOf (leftApplied "-lgc 210,1080")))) (bench true) eq_refl) as Ht.
  cbv zeta in Ht. cbn [ticks foldl] in Ht. unfold tickBench.
  destruct (reconcileOnce _ _ _ _ _ _ _ _ (told 2 _) _) as [err w']. destruct Ht as (Hh & _). cbn [snd]. rewrite Hh.
  vm_compute. reflexivity.
Defined.

(** ** A node of attributes and a power limit *)

Record Limited := mkLimited { lm_files : gmap string string; lm_watts : Z }.

#[local] Instance limitedFS : HostFS Limited := {
  fs_read _ _ := None; fs_write _ _ h := (Some "read-only file system", h); fs_walk _ := []; fs_resolve p _ := Some p; fs_readlink _ _ := None }.
#[local] Instance limitedHost : SysfsHost Limited := {|
  attr_write path v h := let '(err, files) := WriteAttr path v (lm_files h) in (err, mkLimited files (lm_watts h));
  attr_read h path := word (lm_files h) path |}.
#[local] Instance limitedOverdrive : Overdrive Limited := {| od_poll h := h; od_polls := 1 |}.
#[local] Instance limitedSmi : NvidiaSmi Limited := fun args h =>
  (None, "", match args with ["-i"; _; "-pl"; w] => mkLimited (lm_files h) (AtoiValue w) | _ => h end).
#[local] Instance limitedRocm : RocmSmi Limited := {| rocm_run _ h := (Some toolFailure, "", h) |}.
#[local] Instance limitedPower : PowerSource Limited := {| read_power h := (mkReading fzero false None, h) |}.
#[local] Instance limitedEndpoint : ControlEndpoint Limited := {| http_post _ _ h := (inl "connection refused", h) |}.
#[local] Instance limitedFails : ToolFailures Limited := {| nvidiaToolFailures _ := 0%Z |}.

#[local] Instance limitedLimits : PowerLimits Limited.
Proof.
  refine {| limitsOf := lm_watts |}; try done.
  - intros path value h _. cbn. by destruct (WriteAttr path value (lm_files h)).
  - intros bus command h Hno. cbn. unfold smi_run, limitedSmi. cbn [snd].
    destruct command as [|a [|b [|]]]; repeat case_match; simplify_eq; try done. destruct Hno. by left.
Defined.

Definition cpuFiles (h : Limited) : GovernorFiles := {| gf_sys := mkSys (lm_files h) ["policy1"; "boost"; "policy0"]; gf_cpuinfo := None;
  gf_access _ := true; gf_driver _ := None; gf_pci := [] |}.

(** An agent that applied the performance preset under a limit of 150 W. *)
Definition boostedControl : governorControl :=
  let g := newGovernorControl writesOn in
  mkControl (gc_cfg g) false true (Some sampleBaseline) None boosted.1.1 (gc_gpu g) (gc_last g) (gc_lastGPU g).
Definition boostedBench : World :=
  mkWorld (nc_set_governor boostedControl (newNodeController "node-a" false None minute 0 writesOn)) ∅ (mkLimited boosted.1.2 150) ∅ noReports.

Definition tickLimited := reconcileOnce sampleParse sampleFormat sampleFormat sampleFormat sampleTexts None (fun _ => Patched) cpuFiles.
Definition staleTick : Told := told (minute + 1) (TwinFailed "timeout").

(** A failed read past the timeout of a minute: the governor is back, the
    power limit where it was. *)
Example stale_spec_keeps_caps_witness :
  let '(e, w') := tickLimited staleTick boostedBench in
  e = None /\ nc_capsRelaxed (wd_n w') = true /\ lm_watts (wd_h w') = 150%Z /\
  word (lm_files (wd_h boostedBench)) (PolicyRelPath 0 PolicyGovernorFile) = "performance" /\
  word (lm_files (wd_h w')) (PolicyRelPath 0 PolicyGovernorFile) = "powersave".
Proof.
  pose proof (stale_spec_keeps_caps sampleParse sampleFormat sampleFormat sampleFormat sampleTexts None (fun _ => Patched) cpuFiles
    staleTick boostedBench bareNode "get NodeTwin: timeout" 0%Z eq_refl eq_refl eq_refl) as H. cbv zeta in H.
  assert (word (lm_files (wd_h (tickLimited staleTick boostedBench).2)) (PolicyRelPath 0 PolicyGovernorFile) = "powersave") as Hw
    by (vm_compute; reflexivity).
  unfold tickLimited in *. destruct (reconcileOnce _ _ _ _ _ _ _ _ _ _) as [e w']. destruct H as (_ & _ & Hl & H).
  change (nc_specReadTimeout (wd_n boostedBench) <? tsub (td_now staleTick) 0)%Z with true in H.
  destruct H as (-> & -> & _). split; [reflexivity|]. split; [reflexivity|].
  split; [etrans; [exact Hl|vm_compute; reflexivity]|]. split; [vm_compute; reflexivity|exact Hw].
Defined.
