(* ===== verification/AgentPool.v ===== *)
(** * The pool mode of the agent: runPoolMode of cmd/agent/main.go

    One process reconciles many nodes that it does not run on. The nodes are
    divided among the pool's processes by a hash of their names
    ([ownsNodeForShard]); each process keeps one controller per node it owns
    ([poolTick]), whose tick is the one of AgentReconcile.v, or any other. *)

From S2P Require Import Prelude GoString Env GovernorControl AgentReconcile.

#[local] Open Scope string_scope.

(** ** Shards *)

(** [fnv.New32a]: the hash of the standard library. *)
Definition fnvOffset32 : Z := 2166136261.
Definition fnvPrime32 : Z := 16777619.
Definition fnv32a (s : string) : Z :=
  foldl (fun h a => (Z.lxor h (Z.of_N (N_of_ascii a)) * fnvPrime32) `mod` 2 ^ 32)%Z fnvOffset32 (list_ascii_of_string s).

(** src/cmd/agent/main.go:607-614 [ownsNodeForShard] *)
Definition ownsNodeForShard (nodeName : string) (shards shardID : Z) : bool :=
  if (shards <=? 1)%Z then true else (fnv32a nodeName `mod` (shards `mod` 2 ^ 32) =? shardID)%Z.

(** The text after the last dash, if there is a dash with text after it. *)
Definition afterLastDash (s : string) : option string :=
  k ← LastIndex s "-"; if (String.length s <=? k + 1)%nat then None else Some (substring (k + 1) (String.length s - (k + 1)) s).

(** The shard a StatefulSet's pod is of, by the number at the end of its
    name.
    src/cmd/agent/main.go:477-496 [resolvePoolShardID] *)
Definition resolvePoolShardID (env : Environ) : Z :=
  let raw := TrimSpace (Getenv env "POOL_SHARD_ID") in
  match (if String.eqb raw "" then None else Atoi raw) with
  | Some v => v
  | None =>
      let podName := TrimSpace (Getenv env "POD_NAME") in
      match (if String.eqb podName "" then None else afterLastDash podName) with
      | Some n => default 0%Z (Atoi n)
      | None => 0%Z
      end
  end.

(** A pool's process refuses to start as a shard that is none.
    src/cmd/agent/main.go:412-419 [shards, shardID] *)
Definition poolShards (env : Environ) : option (Z * Z) :=
  let shards := intEnv env "POOL_SHARDS" 1 in
  let shardID := resolvePoolShardID env in
  if (shards <=? 0)%Z || (shardID <? 0)%Z || (shards <=? shardID)%Z then None else Some (shards, shardID).

(** ** The loop *)

(** A pool agent writes no governor.
    src/cmd/agent/main.go:453-456 [remote] *)
Definition setRemote (n : NodeController) : NodeController :=
  let g := nc_governor n in
  nc_set_governor (mkControl (gc_cfg g) true (gc_loaded g) (gc_cpuBaseline g) (gc_gpuBaseline g) (gc_cpu g) (gc_gpu g) (gc_last g) (gc_lastGPU g)) n.

Section Pool.
Context {C W : Type} (fresh : string -> C) (reconcile : C -> W -> C * W) (shards shardID : Z).

(** src/cmd/agent/main.go:441-463 [n] *)
Definition poolNode (n : string) (s : gset string * gmap string C * W) : gset string * gmap string C * W :=
  let '(active, controllers, w) := s in
  if negb (ownsNodeForShard n shards shardID) then s
  else
    let '(c, w) := reconcile (default (fresh n) (controllers !! n)) w in
    ({[n]} ∪ active, <[n := c]> controllers, w).

(** The nodes of one listing; [None] is a listing that failed.
    src/cmd/agent/main.go:431-473 [controllers] *)
Definition poolTick (nodes : option (list string)) (s : gmap string C * W) : gmap string C * W :=
  match nodes with
  | None => s
  | Some nodes =>
      let '(active, controllers, w) := foldl (fun s n => poolNode n s) (∅, s.1, s.2) nodes in
      (filter (fun nc => nc.1 ∈ active) controllers, w)
  end.

(** ** Every node has one agent *)

Lemma fnv32a_range s : (0 <= fnv32a s < 2 ^ 32)%Z.
Proof.
  unfold fnv32a. generalize (list_ascii_of_string s). intros l.
  destruct l as [|a l] using rev_ind; [by vm_compute|]. rewrite foldl_snoc. by apply Z.mod_pos_bound.
Qed.
End Pool.

Lemma ownsNodeForShard_hash n shards i : (1 < shards < 2 ^ 32)%Z -> ownsNodeForShard n shards i = (fnv32a n `mod` shards =? i)%Z.
Proof.
  intros Hs. unfold ownsNodeForShard. rewrite (Z.mod_small shards) by lia. by destruct (Z.leb_spec shards 1); [lia|].
Qed.

(** The shards divide the nodes: each node belongs to exactly one of a
    pool's shards, whatever its name. *)
Theorem shards_partition n shards :
  (1 <= shards < 2 ^ 32)%Z -> exists! i, (0 <= i < shards)%Z /\ ownsNodeForShard n shards i = true.
Proof.
  intros Hs. destruct (decide (shards = 1)%Z) as [->|Hne].
  - exists 0%Z. split; [by split; [lia|]|]. intros j [Hj _]. lia.
  - exists (fnv32a n `mod` shards)%Z. split.
    + split; [apply Z.mod_pos_bound; lia|]. rewrite ownsNodeForShard_hash by lia. apply Z.eqb_refl.
    + intros j [_ Hj]. rewrite ownsNodeForShard_hash in Hj by lia. by apply Z.eqb_eq in Hj.
Qed.

Section Ticks.
Context {C W : Type} (fresh : string -> C) (reconcile : C -> W -> C * W) (shards shardID : Z).

Notation owned n := (ownsNodeForShard n shards shardID = true).

Lemma poolNodes_spec nodes active controllers w :
  NoDup nodes ->
  let '(active', controllers', _) := foldl (fun s n => poolNode fresh reconcile shards shardID n s) (active, controllers, w) nodes in
  (forall n, n ∈ active' <-> n ∈ active \/ (n ∈ nodes /\ owned n)) /\
  (forall n, ~ (n ∈ nodes /\ owned n) -> controllers' !! n = controllers !! n) /\
  (forall n, n ∈ nodes -> owned n -> exists w0, controllers' !! n = Some (reconcile (default (fresh n) (controllers !! n)) w0).1).
Proof.
  revert active controllers w. induction nodes as [|m nodes IH]; intros active controllers w Hnd; cbn [foldl].
  { split; [intros n; rewrite elem_of_nil; tauto|]. split; [done|]. by intros n ?%elem_of_nil. }
  apply NoDup_cons in Hnd as [Hm Hnd]. unfold poolNode at 2. destruct (ownsNodeForShard m shards shardID) eqn:Eo; cbn [negb].
  - destruct (reconcile _ w) as [c w1] eqn:Er. specialize (IH ({[m]} ∪ active) (<[m := c]> controllers) w1 Hnd).
    destruct (foldl _ _ nodes) as [[active' controllers'] w']. destruct IH as (Ha & Hk & Hr). split; [|split].
    + intros n. rewrite Ha, elem_of_union, elem_of_singleton, elem_of_cons. split; [intros [[->|?]|[? ?]]|intros [?|[[->|?] ?]]]; auto.
    + intros n Hn. rewrite Hk.
      * apply lookup_insert_ne. intros ->. apply Hn. split; [left|done].
      * intros [Hin Ho]. apply Hn. split; [by right|done].
    + intros n Hin Ho. apply elem_of_cons in Hin as [->|Hin].
      * exists w. rewrite Hk by tauto. by rewrite lookup_insert_eq, Er.
      * destruct (Hr n Hin Ho) as [w0 E]. exists w0. rewrite E. rewrite lookup_insert_ne by by intros ->. done.
  - specialize (IH active controllers w Hnd). destruct (foldl _ _ nodes) as [[active' controllers'] w']. destruct IH as (Ha & Hk & Hr).
    split; [|split].
    + intros n. rewrite Ha, elem_of_cons. split; [intros [?|[? ?]]|intros [?|[[->|?] ?]]]; auto. congruence.
    + intros n Hn. apply Hk. intros [Hin Ho]. apply Hn. split; [by right|done].
    + intros n Hin Ho. apply elem_of_cons in Hin as [->|Hin]; [congruence|]. by apply Hr.
Qed.

(** A pool's process has, after each tick, a controller for exactly the
    nodes that were listed and are its own: one tick of the controller it
    had, or of a new one; a node that went away and came back starts anew. A
    listing that fails changes nothing. *)
Theorem poolTick_controllers nodes controllers w :
  NoDup nodes ->
  let '(controllers', _) := poolTick fresh reconcile shards shardID (Some nodes) (controllers, w) in
  (forall n, is_Some (controllers' !! n) <-> n ∈ nodes /\ owned n) /\
  (forall n c, controllers' !! n = Some c -> exists w0, c = (reconcile (default (fresh n) (controllers !! n)) w0).1) /\
  poolTick fresh reconcile shards shardID None (controllers, w) = (controllers, w).
Proof.
  intros Hnd. unfold poolTick. cbn [fst snd]. pose proof (poolNodes_spec nodes ∅ controllers w Hnd) as Hs.
  destruct (foldl _ _ nodes) as [[active controllers'] w']. destruct Hs as (Ha & Hk & Hr).
  assert (forall n c, filter (fun nc => nc.1 ∈ active) controllers' !! n = Some c <-> controllers' !! n = Some c /\ n ∈ nodes /\ owned n) as Hf.
  { intros n c. rewrite map_lookup_filter_Some. cbn [fst]. rewrite Ha. set_solver. }
  split; [|split; [|done]].
  - intros n. split; [intros [c Hc%Hf]; tauto|]. intros [Hin Ho]. destruct (Hr n Hin Ho) as [w0 E]. eexists. apply Hf. split; [exact E|done].
  - intros n c (E & Hin & Ho)%Hf. destruct (Hr n Hin Ho) as [w0 E']. exists w0. congruence.
Qed.
End Ticks.

(** ** Three shards *)

Example shards_partition_witness : exists! i, (0 <= i < 3)%Z /\ ownsNodeForShard "worker-17" 3 i = true.
Proof. apply (shards_partition "worker-17" 3). lia. Defined.

(** A controller that counts its ticks: one that stays, one that is new, one
    that left, one of another shard. *)
Definition sampleNodes : list string := ["node-a"; "node-b"; "node-c"].
Definition countTick (c w : nat) : nat * nat := (S c, S w).

Example poolTick_controllers_witness :
  (ownsNodeForShard "node-a" 2 0, ownsNodeForShard "node-b" 2 0, ownsNodeForShard "node-c" 2 0) = (false, true, false) /\
  exists controllers, (poolTick (fun _ => 0%nat) countTick 2 0 (Some sampleNodes) (<["gone" := 7%nat]> {["node-b" := 4%nat]}, 0%nat)).1 = controllers /\
    is_Some (controllers !! "node-b") /\ ~ is_Some (controllers !! "gone").
Proof.
  split; [vm_compute; reflexivity|]. eexists. split; [reflexivity|].
  pose proof (poolTick_controllers (fun _ => 0%nat) countTick 2 0 sampleNodes (<["gone" := 7%nat]> {["node-b" := 4%nat]}) 0%nat
    ltac:(apply (bool_decide_unpack _); vm_compute; exact I)) as Hp.
  destruct (poolTick _ _ _ _ _ _) as [controllers w]. destruct Hp as (Hd & _). cbn [fst]. split.
  - apply Hd. split; [right; left|vm_compute; reflexivity].
  - rewrite Hd. intros [Hin _]. revert Hin. apply (bool_decide_unpack _). vm_compute. exact I.
Defined.
