(* ===== verification/PromName.v ===== *)
(** * Prometheus names: pkg/otel/promname, the table of pkg/otel/semconv

    The spelling a Prometheus OTLP receiver gives a metric and an attribute
    under each translation strategy, and the entries of the semantic
    conventions the controller manager reads. *)

From S2P Require Import Prelude GoString NvidiaDiscovery.

#[local] Open Scope string_scope.

(** ** The table *)

(** src/pkg/otel/semconv/semconv.go:31-43 [Kind] *)
Inductive Kind := Counter | Gauge | UpDownCounter | Histogram.

(** The fields of a metric the translation reads.
    src/pkg/otel/semconv/semconv.go:89-94 [Metric] *)
Record Metric := { m_Name : string; m_Unit : string; m_Kind : Kind }.

(** src/pkg/otel/semconv/semconv.go:245-283 [AttrHwID] *)
Definition AttrHwID := "hw.id".
Definition AttrHwType := "hw.type".
Definition AttrK8sNodeName := "k8s.node.name".
Definition AttrServiceName := "service.name".
Definition AttrServiceNamespace := "service.namespace".
Definition AttrServiceInstanceID := "service.instance.id".
Definition AttrJoulieCoolingZoneName := "joulie.cooling_zone.name".
Definition AttrJoulieRackName := "joulie.rack.name".

(** src/pkg/otel/semconv/semconv.go:292-294 [HwTypeCPU] *)
Definition HwTypeCPU := "cpu".
Definition HwTypeGPU := "gpu".

(** src/pkg/otel/semconv/semconv.go:324-420 [HwHostEnergy] *)
Definition HwHostEnergy := {| m_Name := "hw.host.energy"; m_Unit := "J"; m_Kind := Counter |}.
Definition HwHostPower := {| m_Name := "hw.host.power"; m_Unit := "W"; m_Kind := Gauge |}.
Definition HwHostAmbientTemperature := {| m_Name := "hw.host.ambient_temperature"; m_Unit := "Cel"; m_Kind := Gauge |}.
Definition HwEnergy := {| m_Name := "hw.energy"; m_Unit := "J"; m_Kind := Counter |}.
Definition HwPower := {| m_Name := "hw.power"; m_Unit := "W"; m_Kind := Gauge |}.
Definition JoulieFacilityAmbientTemperature :=
  {| m_Name := "joulie.facility.ambient_temperature"; m_Unit := "Cel"; m_Kind := Gauge |}.
Definition JoulieFacilityITEnergy := {| m_Name := "joulie.facility.it.energy"; m_Unit := "J"; m_Kind := Counter |}.
Definition JoulieFacilityITPower := {| m_Name := "joulie.facility.it.power"; m_Unit := "W"; m_Kind := Gauge |}.
Definition JoulieFacilityCoolingEnergy :=
  {| m_Name := "joulie.facility.cooling.energy"; m_Unit := "J"; m_Kind := Counter |}.
Definition JoulieFacilityCoolingPower :=
  {| m_Name := "joulie.facility.cooling.power"; m_Unit := "W"; m_Kind := Gauge |}.
Definition JoulieCoolingZoneAmbientTemperature :=
  {| m_Name := "joulie.cooling_zone.ambient_temperature"; m_Unit := "Cel"; m_Kind := Gauge |}.
Definition JoulieRackEnergy := {| m_Name := "joulie.rack.energy"; m_Unit := "J"; m_Kind := Counter |}.
Definition JoulieRackPower := {| m_Name := "joulie.rack.power"; m_Unit := "W"; m_Kind := Gauge |}.

(** ** Strategies *)

(** src/pkg/otel/promname/promname.go:37-56 [Strategy] *)
Definition Strategy : Type := string.
Definition UnderscoreEscapingWithSuffixes : Strategy := "UnderscoreEscapingWithSuffixes".
Definition NoUTF8EscapingWithSuffixes : Strategy := "NoUTF8EscapingWithSuffixes".
Definition UnderscoreEscapingWithoutSuffixes : Strategy := "UnderscoreEscapingWithoutSuffixes".
Definition NoTranslation : Strategy := "NoTranslation".
Definition Default : Strategy := UnderscoreEscapingWithSuffixes.

(** src/pkg/otel/promname/promname.go:61-69 [TargetInfo] *)
Definition TargetInfo := "target_info".
Definition LabelJob := "job".
Definition LabelInstance := "instance".

(** src/pkg/otel/promname/promname.go:72-74 [Strategies] *)
Definition Strategies : list Strategy :=
  [UnderscoreEscapingWithSuffixes; NoUTF8EscapingWithSuffixes; UnderscoreEscapingWithoutSuffixes; NoTranslation].

(** No strategy for an error.
    src/pkg/otel/promname/promname.go:79-90 [ParseStrategy] *)
Definition ParseStrategy (s : string) : option Strategy := find (fun st => EqualFold s st) Strategies.

(** src/pkg/otel/promname/promname.go:95-101 [Escapes] *)
Definition Escapes (s : Strategy) : bool :=
  negb (String.eqb s NoUTF8EscapingWithSuffixes || String.eqb s NoTranslation).

(** src/pkg/otel/promname/promname.go:104-110 [suffixes] *)
Definition suffixes (s : Strategy) : bool :=
  negb (String.eqb s UnderscoreEscapingWithoutSuffixes || String.eqb s NoTranslation).

(** ** Characters and tokens *)

(** src/pkg/otel/promname/promname.go:365-367 [compliantMetricChar] *)
Definition compliantMetricChar (a : ascii) : bool :=
  is_lower a || is_upper a || is_digit a || Ascii.eqb a ":".

(** src/pkg/otel/promname/promname.go:369-371 [compliantLabelChar] *)
Definition compliantLabelChar (a : ascii) : bool := is_lower a || is_upper a || is_digit a.

Definition is_underscore (a : ascii) : bool := Ascii.eqb a "_".

(** [strings.Map] of a function on runes that replaces those it refuses, whole
    runes at a time, with an underscore. *)
Definition mapRunes (ok : ascii -> bool) (s : string) : string :=
  string_of_list_ascii
    ((fun r => match r with Some a => if ok a then a else "_"%char | None => "_"%char end)
       <$> runes (list_ascii_of_string s)).

(** src/pkg/otel/promname/promname.go:356-363 [sanitizeLabelName] *)
Definition sanitizeLabelName (name : string) : string := mapRunes compliantLabelChar name.

(** src/pkg/otel/promname/promname.go:335-351 [collapseUnderscores] *)
Fixpoint collapseFrom (prev : bool) (l : list ascii) : list ascii :=
  match l with
  | [] => []
  | a :: l =>
      if is_underscore a then if prev then collapseFrom true l else a :: collapseFrom true l
      else a :: collapseFrom false l
  end.
Definition collapseUnderscores (s : string) : string := string_of_list_ascii (collapseFrom false (list_ascii_of_string s)).

(** src/pkg/otel/promname/promname.go:325-333 [cleanUpUnit] *)
Definition cleanUpUnit (unit : string) : string :=
  TrimPrefix (collapseUnderscores (mapRunes compliantMetricChar unit)) "_".

(** src/pkg/otel/promname/promname.go:316-321 [trimSuffixAndDelimiter] *)
Definition trimSuffixAndDelimiter (name suffix : string) : string :=
  if HasSuffix name suffix && (S (String.length suffix) <? String.length name)%nat
  then String.substring 0 (String.length name - S (String.length suffix)) name
  else name.

(** src/pkg/otel/promname/promname.go:295-302 [containsToken] *)
Definition containsToken (tokens : list string) (v : string) : bool := existsb (fun t => String.eqb t v) tokens.

(** src/pkg/otel/promname/promname.go:304-312 [removeToken] *)
Definition removeToken (tokens : list string) (v : string) : list string :=
  List.filter (fun t => negb (String.eqb t v)) tokens.

(** src/pkg/otel/promname/promname.go:271-293 [addUnitTokens] *)
Definition addUnitTokens (tokens : list string) (main per : string) : list string :=
  let main := if containsToken tokens main then "" else main in
  let per :=
    if String.eqb per "per_" then ""
    else let per := TrimSuffix per "_" in if containsToken tokens per then "" else per in
  let main := if negb (String.eqb per "") then TrimSuffix main "_" else main in
  (tokens ++ (if negb (String.eqb main "") then [main] else []) ++ (if negb (String.eqb per "") then [per] else []))%list.

(** ** Units *)

(** src/pkg/otel/promname/promname.go:180-190 [unitWords] *)
Definition unitWords : gmap string string :=
  list_to_map
    [("d", "days"); ("h", "hours"); ("min", "minutes"); ("s", "seconds");
     ("ms", "milliseconds"); ("us", "microseconds"); ("ns", "nanoseconds");
     ("By", "bytes"); ("KiBy", "kibibytes"); ("MiBy", "mebibytes"); ("GiBy", "gibibytes"); ("TiBy", "tibibytes");
     ("KBy", "kilobytes"); ("MBy", "megabytes"); ("GBy", "gigabytes"); ("TBy", "terabytes");
     ("m", "meters"); ("V", "volts"); ("A", "amperes"); ("J", "joules"); ("W", "watts"); ("g", "grams");
     ("Cel", "celsius"); ("Hz", "hertz"); ("1", ""); ("%", "percent")].

(** src/pkg/otel/promname/promname.go:194-196 [perUnitWords] *)
Definition perUnitWords : gmap string string :=
  list_to_map [("s", "second"); ("m", "minute"); ("h", "hour"); ("d", "day"); ("w", "week"); ("mo", "month"); ("y", "year")].

(** [strings.ContainsAny(u, braces)]. *)
Definition hasBraces (u : string) : bool :=
  existsb (fun a => Ascii.eqb a "{" || Ascii.eqb a "}") (list_ascii_of_string u).

(** A part of a unit as a word, nothing when it is blank or an annotation. *)
Definition unitWord (words : gmap string string) (part : string) : string :=
  let u := TrimSpace part in
  if negb (String.eqb u "") && negb (hasBraces u) then default u (words !! u) else "".

(** src/pkg/otel/promname/promname.go:200-220 [unitSuffixes] *)
Definition unitSuffixes (unit : string) : string * string :=
  let '(first, rest, _) := Cut unit "/" in
  let main := unitWord unitWords first in
  let per := if negb (String.eqb rest "") then unitWord perUnitWords rest else "" in
  (main, if negb (String.eqb per "") then "per_" +:+ per else "").

(** ** Names *)

(** src/pkg/otel/promname/promname.go:224-249 [utf8MetricName] *)
Definition utf8MetricName (name unit : string) (counter gauge : bool) : string :=
  let '(main, per) := unitSuffixes unit in
  let ratio := String.eqb unit "1" && gauge in
  let name := if ratio then trimSuffixAndDelimiter name "ratio" else name in
  let name := if counter then trimSuffixAndDelimiter name "total" else name in
  let name := if negb (String.eqb per "") then trimSuffixAndDelimiter name per else name in
  let name := if negb (String.eqb main "") && negb (HasSuffix name main) then name +:+ "_" +:+ main else name in
  let name := if negb (String.eqb per "") then name +:+ "_" +:+ per else name in
  let name := if counter then name +:+ "_total" else name in
  if ratio then name +:+ "_ratio" else name.

(** A name that starts with a digit gets an underscore before it. *)
Definition guardDigit (guard out : string) : string :=
  match out with String a _ => if is_digit a then guard +:+ out else out | EmptyString => out end.

(** src/pkg/otel/promname/promname.go:254-269 [escapedMetricName] *)
Definition escapedMetricName (name unit : string) (counter gauge : bool) : string :=
  let tokens := FieldsFunc (fun a => negb (compliantMetricChar a)) name in
  let '(main, per) := unitSuffixes unit in
  let tokens := addUnitTokens tokens (cleanUpUnit main) (cleanUpUnit per) in
  let tokens := if counter then (removeToken tokens "total" ++ ["total"])%list else tokens in
  let tokens := if String.eqb unit "1" && gauge then (removeToken tokens "ratio" ++ ["ratio"])%list else tokens in
  guardDigit "_" (Join tokens "_").

Definition isCounter (k : Kind) : bool := match k with Counter => true | _ => false end.
Definition isGauge (k : Kind) : bool := match k with Gauge => true | _ => false end.

(** [strings.Trim(s, underscore)] of a name of underscores only. *)
Definition onlyUnderscores (s : string) : bool := forallb is_underscore (list_ascii_of_string s).

(** src/pkg/otel/promname/promname.go:122-146 [MetricName] *)
Definition MetricName (s : Strategy) (m : Metric) : string :=
  let counter := isCounter (m_Kind m) in
  let gauge := isGauge (m_Kind m) in
  if negb (Escapes s) then
    if negb (suffixes s) then m_Name m else utf8MetricName (m_Name m) (m_Unit m) counter gauge
  else
    let out :=
      if suffixes s then escapedMetricName (m_Name m) (m_Unit m) counter gauge
      else
        guardDigit "_" (Join (FieldsFunc (fun a => negb (compliantMetricChar a) && negb (is_underscore a)) (m_Name m)) "_") in
    if String.eqb out "" || negb (String.eqb out (m_Name m)) && onlyUnderscores out then "" else out.

(** src/pkg/otel/promname/promname.go:156-176 [LabelName] *)
Definition LabelName (s : Strategy) (attr : string) : string :=
  if String.eqb attr "" then ""
  else if negb (Escapes s) then if onlyUnderscores attr then "" else attr
  else
    let out := sanitizeLabelName attr in
    let out :=
      match out with
      | String a _ =>
          if is_digit a then "key_" +:+ out
          else if HasPrefix out "_" && negb (HasPrefix out "__") then "key" +:+ out
          else out
      | EmptyString => out
      end in
    if onlyUnderscores out then "" else out.
