(* ===== verification/PromQuery.v ===== *)
(** * The queries of the measured inputs: pkg/controller/inputs

    The specs of the node power and the facility queries, the PromQL they
    stand for under each preset and translation strategy (nodepower.go,
    facility.go, names.go), and the grid carbon intensity (carbon.go). Words
    a variable may set are strings, as in the code; an error is a
    constructor. *)

From S2P Require Import Prelude GoString GoFloat GoSlices Host HostFS NvidiaDiscovery PromName.

#[local] Open Scope string_scope.

(** ** The specs *)

(** src/pkg/controller/inputs/api.go:33-42 [DefaultWindow] *)
Definition DefaultWindow : Z := 5 * 60 * 1000000000.
Definition MinWindow : Z := 10 * 1000000000.
Definition NodePlaceholder := "{node}".

(** src/pkg/controller/inputs/api.go:46-60 [ResourceAttributes] *)
Definition ResourceAttributesAuto := "auto".
Definition ResourceAttributesLabels := "labels".
Definition ResourceAttributesTargetInfo := "target_info".

(** src/pkg/controller/inputs/api.go:63-84 [NodePowerPreset] *)
Definition NodePowerPresetOTel := "otel".
Definition NodePowerPresetKepler := "kepler".
Definition NodePowerPresetKeplerLegacy := "kepler-legacy".
Definition NodePowerPresetCustom := "custom".

(** src/pkg/controller/inputs/api.go:87-95 [Scope] *)
Definition ScopeComponents := "components".
Definition ScopeHost := "host".

(** src/pkg/controller/inputs/api.go:100-124 [FacilityInput] *)
Definition FacilityInput : Type := string.
Definition FacilityInputAmbientTemp : FacilityInput := "ambient_temp".
Definition FacilityInputITPower : FacilityInput := "it_power".
Definition FacilityInputCoolingPower : FacilityInput := "cooling_power".
Definition FacilityInputZoneAmbientTemp : FacilityInput := "zone_ambient_temp".
Definition FacilityInputRackPower : FacilityInput := "rack_power".
Definition FacilityInputNodeInletTemp : FacilityInput := "node_inlet_temp".
Definition FacilityInputCarbonIntensity : FacilityInput := "carbon_intensity".

(** src/pkg/controller/inputs/api.go:127-133 [FacilityInputs] *)
Definition FacilityInputs : list FacilityInput :=
  [FacilityInputAmbientTemp; FacilityInputITPower; FacilityInputCoolingPower;
   FacilityInputZoneAmbientTemp; FacilityInputRackPower; FacilityInputNodeInletTemp;
   FacilityInputCarbonIntensity].

(** src/pkg/controller/inputs/api.go:136-149 [FacilityPreset] *)
Definition FacilityPresetOTel := "otel".
Definition FacilityPresetLegacy := "legacy".
Definition FacilityPresetCustom := "custom".

(** src/pkg/controller/inputs/api.go:152-168 [NodePowerSpec] *)
Record NodePowerSpec := {
  np_Preset : string;
  np_Scope : string;
  np_Naming : Strategy;
  np_ResourceAttributes : string;
  np_Window : Z;
  np_NodeLabel : string;
  np_CustomQuery : string
}.

(** src/pkg/controller/inputs/api.go:175-178 [Query] *)
Record Query := { q_PromQL : string; q_GroupLabel : string; q_PerNode : bool }.

Definition noQuery : Query := {| q_PromQL := ""; q_GroupLabel := ""; q_PerNode := false |}.

(** src/pkg/controller/inputs/carbon.go:76-82 [CarbonIntensitySpec] *)
Record CarbonIntensitySpec := { cs_Unit : string; cs_Signal : string }.

(** src/pkg/controller/inputs/api.go:181-196 [FacilitySpec] *)
Record FacilitySpec := {
  fc_Preset : string;
  fc_Naming : Strategy;
  fc_Window : Z;
  fc_Overrides : gmap FacilityInput string;
  fc_CarbonIntensity : CarbonIntensitySpec
}.

(** What refuses a spec. *)
Inductive InputError :=
| UnknownPreset (preset : string)
| UnexpectedQuery
| MissingQuery
| UnknownScope (scope : string)
| NoHostScope
| UnknownMode (mode : string)
| UnknownStrategy (naming : string)
| BadWindow (d : Z)
| UnknownInput (input : FacilityInput)
| UnknownSignal (signal : string)
| UnknownUnit (unit : string)
| NotFiniteIntensity (v : float64)
| NegativeIntensity (v : float64).

(** ** Spelling PromQL *)

(** src/pkg/controller/inputs/names.go:30-43 [KeplerCPUJoules] *)
Definition KeplerCPUActiveJoules := "kepler_node_cpu_active_joules_total".
Definition KeplerCPUIdleJoules := "kepler_node_cpu_idle_joules_total".
Definition KeplerGPUJoules := "kepler_node_gpu_joules_total".
Definition KeplerNodeLabel := "node_name".
Definition KeplerZoneLabel := "zone".
Definition KeplerPackageZones := "package(-[0-9]+-die-[0-9]+)?".
Definition KeplerLegacyPackageJoules := "kepler_node_package_joules_total".
Definition KeplerLegacyPlatformJoules := "kepler_node_platform_joules_total".
Definition KeplerLegacyNodeLabel := "exported_instance".

(** src/pkg/controller/inputs/names.go:47-57 [legacyAmbientTemp] *)
Definition legacyAmbientTemp := "datacenter_ambient_temperature_celsius".
Definition legacyITPower := "datacenter_total_it_power_watts".
Definition legacyCoolingPower := "datacenter_cooling_power_watts".
Definition componentLabel := "joulie_component".

(** The two regular expressions: a first character, then any of a class.
    src/pkg/controller/inputs/names.go:59-62 [legacyLabelRE] *)
Definition startsThen (first rest : ascii -> bool) (s : string) : bool :=
  match list_ascii_of_string s with
  | a :: l => first a && forallb rest l
  | [] => false
  end.
Definition is_letter (a : ascii) : bool := is_lower a || is_upper a.
Definition legacyLabelRE : string -> bool :=
  startsThen (fun a => is_letter a || is_underscore a) (fun a => is_letter a || is_digit a || is_underscore a).
Definition legacyMetricRE : string -> bool :=
  startsThen (fun a => is_letter a || is_underscore a || Ascii.eqb a ":")
    (fun a => is_letter a || is_digit a || is_underscore a || Ascii.eqb a ":").

(** src/pkg/controller/inputs/names.go:66-66 [isBareMetricName] *)
Definition isBareMetricName (q : string) : bool := legacyMetricRE q.

(** src/pkg/controller/inputs/names.go:71-76 [labelName] *)
Definition labelName (name : string) : string := if legacyLabelRE name then name else Quote name.

(** src/pkg/controller/inputs/names.go:79-85 [labelList] *)
Definition labelList (names : list string) : string := "(" +:+ Join (labelName <$> names) ", " +:+ ")".

(** src/pkg/controller/inputs/names.go:88-90 [matcher] *)
Record matcher := { mt_label : string; mt_op : string; mt_value : string }.

(** src/pkg/controller/inputs/names.go:95-111 [selector] *)
Definition selector (metric : string) (ms : list matcher) : string :=
  let quoted := negb (legacyMetricRE metric) in
  let parts := ((if quoted then [Quote metric] else []) ++
                ((fun m => labelName (mt_label m) +:+ mt_op m +:+ Quote (mt_value m)) <$> ms))%list in
  if negb quoted then
    match parts with [] => metric | _ => metric +:+ "{" +:+ Join parts ", " +:+ "}" end
  else "{" +:+ Join parts ", " +:+ "}".

(** src/pkg/controller/inputs/names.go:114-116 [rate] *)
Definition rate (sel window : string) : string := "rate(" +:+ sel +:+ "[" +:+ window +:+ "])".

(** src/pkg/controller/inputs/names.go:130-135 [joinTargetInfo] *)
Definition joinTargetInfo (x nodeLabel : string) : string :=
  let on := labelList [LabelJob; LabelInstance] in
  x +:+ " * on " +:+ on +:+ " group_left " +:+ labelList [nodeLabel] +:+ " max by " +:+
  labelList [LabelJob; LabelInstance; nodeLabel] +:+ " (" +:+ TargetInfo +:+ " and on " +:+ on +:+ " " +:+ x +:+ ")".

(** src/pkg/controller/inputs/names.go:144-147 [labelledOrJoined] *)
Definition labelledOrJoined (metric nodeLabel : string) : string :=
  selector metric [{| mt_label := nodeLabel; mt_op := "!="; mt_value := "" |}] +:+ " or " +:+
  joinTargetInfo (selector metric [{| mt_label := nodeLabel; mt_op := "="; mt_value := "" |}]) nodeLabel.

(** src/pkg/controller/inputs/nodepower.go:187-196 [wrapAggregation] *)
Definition wrapAggregation (op label q : string) : string :=
  let close := if Contains q "#" then String "010" ")" else ")" in
  if String.eqb label "" then op +:+ "(" +:+ q +:+ close
  else op +:+ " by " +:+ labelList [label] +:+ " (" +:+ q +:+ close.

(** src/pkg/controller/inputs/facility.go:113-120 [energyOrPower] *)
Definition energyOrPower (key energy power window : string) : string :=
  let e := wrapAggregation "sum" key (rate (selector energy []) window) in
  let p := wrapAggregation "sum" key (selector power []) in
  if String.eqb key "" then e +:+ " or " +:+ p
  else e +:+ " or on " +:+ labelList [key] +:+ " " +:+ p.

(** src/pkg/controller/inputs/names.go:151-159 [otelNames] *)
Record otelNames := {
  on_node : string; on_hwType : string; on_hwID : string; on_zone : string; on_rack : string;
  on_energy : string; on_power : string; on_hostEnergy : string; on_hostPower : string; on_hostAmbient : string;
  on_facilityAmbient : string; on_facilityITEnergy : string; on_facilityITPower : string;
  on_facilityCoolingEnergy : string; on_facilityCoolingPower : string;
  on_zoneAmbient : string; on_rackEnergy : string; on_rackPower : string
}.

(** src/pkg/controller/inputs/names.go:161-184 [namesFor] *)
Definition namesFor (s : Strategy) : otelNames := {|
  on_node := LabelName s AttrK8sNodeName;
  on_hwType := LabelName s AttrHwType;
  on_hwID := LabelName s AttrHwID;
  on_zone := LabelName s AttrJoulieCoolingZoneName;
  on_rack := LabelName s AttrJoulieRackName;
  on_energy := MetricName s HwEnergy;
  on_power := MetricName s HwPower;
  on_hostEnergy := MetricName s HwHostEnergy;
  on_hostPower := MetricName s HwHostPower;
  on_hostAmbient := MetricName s HwHostAmbientTemperature;
  on_facilityAmbient := MetricName s JoulieFacilityAmbientTemperature;
  on_facilityITEnergy := MetricName s JoulieFacilityITEnergy;
  on_facilityITPower := MetricName s JoulieFacilityITPower;
  on_facilityCoolingEnergy := MetricName s JoulieFacilityCoolingEnergy;
  on_facilityCoolingPower := MetricName s JoulieFacilityCoolingPower;
  on_zoneAmbient := MetricName s JoulieCoolingZoneAmbientTemperature;
  on_rackEnergy := MetricName s JoulieRackEnergy;
  on_rackPower := MetricName s JoulieRackPower
|}.

(** src/pkg/controller/inputs/names.go:187-192 [parseNaming] *)
Definition parseNaming (s : Strategy) : InputError + Strategy :=
  if String.eqb s "" then inr Default
  else match ParseStrategy s with Some st => inr st | None => inl (UnknownStrategy s) end.

(** src/pkg/controller/inputs/prom.go:254-265 [PromDuration] *)
Definition PromDuration (d : Z) : InputError + string :=
  if (d <? MinWindow)%Z then inl (BadWindow d)
  else if (Z.rem d (60 * 1000000000) =? 0)%Z then inr (Itoa (Z.quot d (60 * 1000000000)) +:+ "m")
  else if (Z.rem d 1000000000 =? 0)%Z then inr (Itoa (Z.quot d 1000000000) +:+ "s")
  else inl (BadWindow d).

(** ** Node power *)

(** src/pkg/controller/inputs/nodepower.go:87-138 [WithDefaults] *)
Definition WithDefaults (s : NodePowerSpec) : InputError + NodePowerSpec :=
  let preset :=
    if String.eqb (np_Preset s) "" then
      if negb (String.eqb (np_CustomQuery s) "") then NodePowerPresetCustom else NodePowerPresetOTel
    else np_Preset s in
  let presetError :=
    if str_mem preset [NodePowerPresetOTel; NodePowerPresetKepler; NodePowerPresetKeplerLegacy] then
      if negb (String.eqb (np_CustomQuery s) "") then Some UnexpectedQuery else None
    else if String.eqb preset NodePowerPresetCustom then
      if String.eqb (TrimSpace (np_CustomQuery s)) "" then Some MissingQuery else None
    else Some (UnknownPreset preset) in
  match presetError with
  | Some e => inl e
  | None =>
      let scope := if String.eqb (np_Scope s) "" then ScopeComponents else np_Scope s in
      if negb (str_mem scope [ScopeComponents; ScopeHost]) then inl (UnknownScope scope)
      else if String.eqb preset NodePowerPresetKepler && String.eqb scope ScopeHost then inl NoHostScope
      else
        let mode := if String.eqb (np_ResourceAttributes s) "" then ResourceAttributesAuto else np_ResourceAttributes s in
        if negb (str_mem mode [ResourceAttributesAuto; ResourceAttributesLabels; ResourceAttributesTargetInfo])
        then inl (UnknownMode mode)
        else
          match parseNaming (np_Naming s) with
          | inl e => inl e
          | inr naming =>
              inr {| np_Preset := preset; np_Scope := scope; np_Naming := naming; np_ResourceAttributes := mode;
                     np_Window := if (np_Window s =? 0)%Z then DefaultWindow else np_Window s;
                     np_NodeLabel := np_NodeLabel s; np_CustomQuery := np_CustomQuery s |}
          end
  end.

(** src/pkg/controller/inputs/nodepower.go:147-165 [otelNodePower] *)
Definition otelNodePower (n : otelNames) (node scope window : string) (targetInfo : bool) : string :=
  let join x := if targetInfo then joinTargetInfo x node else x in
  if String.eqb scope ScopeHost then
    let key := labelList [node] in
    "max by " +:+ key +:+ " (" +:+ join (rate (selector (on_hostEnergy n) []) window) +:+ ") or on " +:+ key +:+
    " max by " +:+ key +:+ " (" +:+ join (selector (on_hostPower n) []) +:+ ")"
  else
    let components := [{| mt_label := on_hwType n; mt_op := "=~"; mt_value := HwTypeCPU +:+ "|" +:+ HwTypeGPU |}] in
    let key := labelList [node; on_hwType n; on_hwID n] in
    "sum by " +:+ labelList [node] +:+ " (max by " +:+ key +:+ " (" +:+
    join (rate (selector (on_energy n) components) window) +:+ ") or on " +:+ key +:+ " max by " +:+ key +:+ " (" +:+
    join (selector (on_power n) components) +:+ "))".

(** src/pkg/controller/inputs/nodepower.go:169-169 [keplerBranch] *)
Record keplerBranch := { kb_sel : string; kb_component : string }.

(** src/pkg/controller/inputs/nodepower.go:176-182 [keplerComponents] *)
Definition keplerComponents (node window : string) (branches : list keplerBranch) : string :=
  let parts := (fun b => "label_replace(" +:+ rate (kb_sel b) window +:+ ", " +:+ Quote componentLabel +:+ ", " +:+
                  Quote (kb_component b) +:+ ", " +:+ Quote "" +:+ ", " +:+ Quote "" +:+ ")") <$> branches in
  "sum by " +:+ labelList [node] +:+ " (" +:+ Join parts " or " +:+ ")".

(** src/pkg/controller/inputs/nodepower.go:20-82 [Query] *)
Definition nodePowerQuery (s : NodePowerSpec) : InputError + Query * Query :=
  match WithDefaults s with
  | inl e => inl e
  | inr s =>
      match PromDuration (np_Window s) with
      | inl e => inl e
      | inr window =>
          let labelOr def := if negb (String.eqb (np_NodeLabel s) "") then np_NodeLabel s else def in
          if String.eqb (np_Preset s) NodePowerPresetOTel then
            let n := namesFor (np_Naming s) in
            let node := labelOr (on_node n) in
            let labels := {| q_PromQL := otelNodePower n node (np_Scope s) window false; q_GroupLabel := node; q_PerNode := false |} in
            let targetInfo := {| q_PromQL := otelNodePower n node (np_Scope s) window true; q_GroupLabel := node; q_PerNode := false |} in
            if String.eqb (np_ResourceAttributes s) ResourceAttributesLabels then inr (labels, noQuery)
            else if String.eqb (np_ResourceAttributes s) ResourceAttributesTargetInfo then inr (targetInfo, noQuery)
            else inr (labels, targetInfo)
          else if String.eqb (np_Preset s) NodePowerPresetKepler then
            let node := labelOr KeplerNodeLabel in
            let zones := {| mt_label := KeplerZoneLabel; mt_op := "=~"; mt_value := KeplerPackageZones |} in
            inr ({| q_PromQL := keplerComponents node window
                      [{| kb_sel := selector KeplerCPUActiveJoules [zones]; kb_component := HwTypeCPU +:+ "_active" |};
                       {| kb_sel := selector KeplerCPUIdleJoules [zones]; kb_component := HwTypeCPU +:+ "_idle" |};
                       {| kb_sel := selector KeplerGPUJoules []; kb_component := HwTypeGPU |}];
                    q_GroupLabel := node; q_PerNode := false |}, noQuery)
          else if String.eqb (np_Preset s) NodePowerPresetKeplerLegacy then
            let node := labelOr KeplerLegacyNodeLabel in
            if String.eqb (np_Scope s) ScopeHost then
              inr ({| q_PromQL := "sum by " +:+ labelList [node] +:+ " (" +:+
                                  rate (selector KeplerLegacyPlatformJoules []) window +:+ ")";
                      q_GroupLabel := node; q_PerNode := false |}, noQuery)
            else
              inr ({| q_PromQL := keplerComponents node window
                        [{| kb_sel := selector KeplerLegacyPackageJoules []; kb_component := HwTypeCPU |};
                         {| kb_sel := selector KeplerGPUJoules []; kb_component := HwTypeGPU |}];
                      q_GroupLabel := node; q_PerNode := false |}, noQuery)
          else if Contains (np_CustomQuery s) NodePlaceholder then
            inr ({| q_PromQL := np_CustomQuery s; q_GroupLabel := ""; q_PerNode := true |}, noQuery)
          else
            let node := labelOr (on_node (namesFor (np_Naming s))) in
            inr ({| q_PromQL := wrapAggregation "sum" node (np_CustomQuery s); q_GroupLabel := node; q_PerNode := false |}, noQuery)
      end
  end.

(** ** Carbon intensity *)

(** src/pkg/controller/inputs/carbon.go:14-23 [CarbonSignal] *)
Definition CarbonSignalMarginal := "marginal".
Definition CarbonSignalAverage := "average".

(** src/pkg/controller/inputs/carbon.go:27-33 [ParseCarbonSignal] *)
Definition ParseCarbonSignal (s : string) : InputError + string :=
  let v := ToLower (TrimSpace s) in
  if str_mem v [CarbonSignalMarginal; CarbonSignalAverage] then inr v else inl (UnknownSignal s).

(** src/pkg/controller/inputs/carbon.go:41-44 [carbonUnitMassGrams] *)
Definition carbonUnitMassGrams : gmap string float64 :=
  list_to_map [("g", fone); ("kg", fofZ 1000); ("t", fofZ 1000000); ("lb", flit 45359237 100000); ("lbs", flit 45359237 100000)].
Definition carbonUnitEnergyKWh : gmap string float64 := list_to_map [("kwh", fone); ("mwh", fofZ 1000)].

(** src/pkg/controller/inputs/carbon.go:52-72 [CarbonUnitFactor] *)
Definition CarbonUnitFactor (unit : string) : InputError + float64 :=
  let u := ToLower (Join (Fields unit) "") in
  if String.eqb u "" then inr fone
  else
    let '(mass, energy, ok) := Cut u "/" in
    let unknown : InputError + float64 := inl (UnknownUnit unit) in
    if negb ok then unknown
    else
      let mass :=
        match find (fun gas => HasSuffix mass gas) ["co2eq"; "co2e"; "co2"] with
        | Some gas => TrimSuffix mass gas
        | None => mass
        end in
      match carbonUnitMassGrams !! mass, carbonUnitEnergyKWh !! energy with
      | Some g, Some kwh => inr (fdiv g kwh)
      | _, _ => unknown
      end.

(** src/pkg/controller/inputs/carbon.go:86-94 [Check] *)
Definition carbonCheck (s : CarbonIntensitySpec) : option InputError :=
  match CarbonUnitFactor (cs_Unit s), ParseCarbonSignal (cs_Signal s) with
  | inl e, _ => Some e
  | inr _, inl e => Some e
  | inr _, inr _ => None
  end.

(** src/pkg/controller/inputs/carbon.go:97-102 [CarbonIntensity] *)
Record CarbonIntensity := { ci_GramsPerKWh : float64; ci_Signal : string }.

(** src/pkg/controller/inputs/carbon.go:110-123 [Read] *)
Definition carbonRead (s : CarbonIntensitySpec) (v : float64) : InputError + CarbonIntensity :=
  match CarbonUnitFactor (cs_Unit s), ParseCarbonSignal (cs_Signal s) with
  | inl e, _ => inl e
  | inr _, inl e => inl e
  | inr factor, inr signal =>
      if negb (is_finite v) then inl (NotFiniteIntensity v)
      else if flt v fzero then inl (NegativeIntensity v)
      else inr {| ci_GramsPerKWh := fmul v factor; ci_Signal := signal |}
  end.

(** ** Facility *)

(** The key label of an input and the aggregation of a bare metric name.
    src/pkg/controller/inputs/facility.go:95-109 [facilityInputShape] *)
Definition facilityInputShape (input : FacilityInput) (n : otelNames) : option (string * string) :=
  if str_mem input [FacilityInputAmbientTemp; FacilityInputCarbonIntensity] then Some ("", "avg")
  else if str_mem input [FacilityInputITPower; FacilityInputCoolingPower] then Some ("", "sum")
  else if String.eqb input FacilityInputZoneAmbientTemp then Some (on_zone n, "avg")
  else if String.eqb input FacilityInputRackPower then Some (on_rack n, "sum")
  else if String.eqb input FacilityInputNodeInletTemp then Some (on_node n, "avg")
  else None.

(** The queries of a preset.
    src/pkg/controller/inputs/facility.go:48-66 [Queries] *)
Definition presetQueries (preset : string) (n : otelNames) (window : string) : gmap FacilityInput Query :=
  let single q := {| q_PromQL := q; q_GroupLabel := ""; q_PerNode := false |} in
  let keyed label q := {| q_PromQL := q; q_GroupLabel := label; q_PerNode := false |} in
  if String.eqb preset FacilityPresetOTel then
    list_to_map
      [(FacilityInputAmbientTemp, single (wrapAggregation "avg" "" (selector (on_facilityAmbient n) [])));
       (FacilityInputITPower, single (energyOrPower "" (on_facilityITEnergy n) (on_facilityITPower n) window));
       (FacilityInputCoolingPower, single (energyOrPower "" (on_facilityCoolingEnergy n) (on_facilityCoolingPower n) window));
       (FacilityInputZoneAmbientTemp, keyed (on_zone n) (wrapAggregation "avg" (on_zone n) (selector (on_zoneAmbient n) [])));
       (FacilityInputRackPower, keyed (on_rack n) (energyOrPower (on_rack n) (on_rackEnergy n) (on_rackPower n) window));
       (FacilityInputNodeInletTemp,
        keyed (on_node n) (wrapAggregation "max" (on_node n) (labelledOrJoined (on_hostAmbient n) (on_node n))))]
  else if String.eqb preset FacilityPresetLegacy then
    list_to_map
      [(FacilityInputAmbientTemp, single (wrapAggregation "avg" "" legacyAmbientTemp));
       (FacilityInputITPower, single (wrapAggregation "sum" "" legacyITPower));
       (FacilityInputCoolingPower, single (wrapAggregation "sum" "" legacyCoolingPower))]
  else ∅.

(** The queries with one override.
    src/pkg/controller/inputs/facility.go:68-87 [Queries] *)
Definition addOverride (s : FacilitySpec) (n : otelNames) (acc : InputError + gmap FacilityInput Query)
    (o : FacilityInput * string) : InputError + gmap FacilityInput Query :=
  let '(input, q) := o in
  match acc with
  | inl e => inl e
  | inr out =>
      if String.eqb (TrimSpace q) "" then inr out
      else
        match facilityInputShape input n with
        | None => inl (UnknownInput input)
        | Some (key, op) =>
            match (if String.eqb input FacilityInputCarbonIntensity then carbonCheck (fc_CarbonIntensity s) else None) with
            | Some e => inl e
            | None =>
                let q := if isBareMetricName q then wrapAggregation op key q else q in
                inr (<[input := {| q_PromQL := q; q_GroupLabel := key; q_PerNode := false |}]> out)
            end
        end
  end.

(** The order of the overrides only chooses which of two errors is told.
    src/pkg/controller/inputs/facility.go:26-89 [Queries] *)
Definition Queries (s : FacilitySpec) : InputError + gmap FacilityInput Query :=
  let preset := if String.eqb (fc_Preset s) "" then FacilityPresetOTel else fc_Preset s in
  if negb (str_mem preset [FacilityPresetOTel; FacilityPresetLegacy; FacilityPresetCustom]) then inl (UnknownPreset preset)
  else
    match parseNaming (fc_Naming s) with
    | inl e => inl e
    | inr naming =>
        match PromDuration (if (fc_Window s =? 0)%Z then DefaultWindow else fc_Window s) with
        | inl e => inl e
        | inr window =>
            let n := namesFor naming in
            fold_left (addOverride s n) (map_to_list (fc_Overrides s)) (inr (presetQueries preset n window))
        end
    end.

(** src/pkg/controller/inputs/names.go:200-238 [FacilityMetricNames] *)
Definition FacilityMetricNames (input : FacilityInput) : list string :=
  let under (s : Strategy) :=
    let n := namesFor s in
    if String.eqb input FacilityInputAmbientTemp then [on_facilityAmbient n]
    else if String.eqb input FacilityInputITPower then [on_facilityITEnergy n; on_facilityITPower n]
    else if String.eqb input FacilityInputCoolingPower then [on_facilityCoolingEnergy n; on_facilityCoolingPower n]
    else if String.eqb input FacilityInputZoneAmbientTemp then [on_zoneAmbient n]
    else if String.eqb input FacilityInputRackPower then [on_rackEnergy n; on_rackPower n]
    else if String.eqb input FacilityInputNodeInletTemp then [on_hostAmbient n]
    else [] in
  let legacy :=
    if String.eqb input FacilityInputAmbientTemp then [legacyAmbientTemp]
    else if String.eqb input FacilityInputITPower then [legacyITPower]
    else if String.eqb input FacilityInputCoolingPower then [legacyCoolingPower]
    else [] in
  let add out n := if negb (String.eqb n "") && negb (str_mem n out) then (out ++ [n])%list else out in
  fold_left add (concat (under <$> Strategies) ++ legacy)%list [].

(** ** What the queries read *)

Example otel_query :
  (nodePowerQuery {| np_Preset := ""; np_Scope := "host"; np_Naming := ""; np_ResourceAttributes := "labels";
                     np_Window := 0; np_NodeLabel := ""; np_CustomQuery := "" |}) =
  inr ({| q_PromQL := "max by (k8s_node_name) (rate(hw_host_energy_joules_total[5m])) or on (k8s_node_name) max by (k8s_node_name) (hw_host_power_watts)";
          q_GroupLabel := "k8s_node_name"; q_PerNode := false |}, noQuery).
Proof. vm_compute. reflexivity. Qed.

(** ** Escaped names need no quotes *)

Definition charsOf (P : ascii -> bool) (s : string) : Prop := Forall (fun a => P a = true) (list_ascii_of_string s).

Definition nameChar (a : ascii) : bool := compliantMetricChar a || is_underscore a.

Lemma charsOf_app P s t : charsOf P s -> charsOf P t -> charsOf P (s +:+ t).
Proof. unfold charsOf. rewrite list_ascii_app. intros H1 H2. by apply Forall_app. Qed.

Lemma charsOf_list P l : Forall (fun a => P a = true) l -> charsOf P (string_of_list_ascii l).
Proof. unfold charsOf. by rewrite list_ascii_of_string_of_list_ascii. Qed.

Lemma charsOf_substring P s i n : charsOf P s -> charsOf P (String.substring i n s).
Proof.
  unfold charsOf. revert i n. induction s as [|a s IH]; intros i n H; [by destruct i, n|].
  apply Forall_cons in H as [Ha Hs]. destruct i as [|i]; cbn; [|by apply IH].
  destruct n as [|n]; cbn; constructor; [done|by apply IH].
Qed.

Lemma charsOf_TrimPrefix P s p : charsOf P s -> charsOf P (TrimPrefix s p).
Proof. intros H. unfold TrimPrefix, drop_bytes. destruct (HasPrefix s p); [by apply charsOf_substring|done]. Qed.

Lemma charsOf_TrimSuffix P s p : charsOf P s -> charsOf P (TrimSuffix s p).
Proof. intros H. unfold TrimSuffix, CutSuffix. destruct (HasSuffix s p); [by apply charsOf_substring|done]. Qed.

Lemma charsOf_Join P l sep : charsOf P sep -> Forall (charsOf P) l -> charsOf P (Join l sep).
Proof.
  intros Hsep H. induction H as [|s l Hs Hl IH]; [constructor|]. destruct l as [|t l]; [done|].
  cbn [Join]. apply charsOf_app; [done|]. by apply charsOf_app.
Qed.

Lemma fields_by_chars (P : ascii -> bool) (l cur : list ascii) :
  Forall (fun a => P a = false) cur -> Forall (Forall (fun a => P a = false)) (fields_by P l cur).
Proof.
  revert cur. induction l as [|a l IH]; intros cur Hc; cbn.
  - destruct cur; constructor; [by apply Forall_rev|constructor].
  - destruct (P a) eqn:E; [|apply IH; by constructor].
    assert (Forall (Forall (fun a => P a = false)) (fields_by P l [])) as H by (apply IH; constructor).
    destruct cur; [done|]. constructor; [by apply Forall_rev|done].
Qed.

Lemma FieldsFunc_chars (P Q : ascii -> bool) (s : string) :
  (forall a, P a = false -> Q a = true) -> Forall (charsOf Q) (FieldsFunc P s).
Proof.
  intros HPQ. unfold FieldsFunc. apply Forall_fmap.
  eapply Forall_impl; [apply fields_by_chars; constructor|]. intros l Hl. cbn. apply charsOf_list.
  eapply Forall_impl; [exact Hl|]. exact HPQ.
Qed.

Lemma mapRunes_chars (P ok : ascii -> bool) (s : string) :
  (forall a, ok a = true -> P a = true) -> P "_"%char = true -> charsOf P (mapRunes ok s).
Proof.
  intros H1 H2. unfold mapRunes. apply charsOf_list, Forall_fmap, Forall_true. intros [a|]; cbn; [|done].
  destruct (ok a) eqn:E; auto.
Qed.

Lemma collapseFrom_chars (P : ascii -> bool) (l : list ascii) (prev : bool) :
  Forall (fun a => P a = true) l -> Forall (fun a => P a = true) (collapseFrom prev l).
Proof.
  intros H. revert prev. induction H as [|a l Ha Hl IH]; intros prev; cbn; [constructor|].
  destruct (is_underscore a); [destruct prev|]; try apply IH; constructor; auto.
Qed.

Lemma cleanUpUnit_chars (unit : string) : charsOf nameChar (cleanUpUnit unit).
Proof.
  unfold cleanUpUnit, collapseUnderscores. apply charsOf_TrimPrefix, charsOf_list, collapseFrom_chars.
  apply mapRunes_chars; [|done]. intros a Ha. unfold nameChar. by rewrite Ha.
Qed.

Lemma addUnitTokens_chars (tokens : list string) (main per : string) :
  Forall (charsOf nameChar) tokens -> charsOf nameChar main -> charsOf nameChar per ->
  Forall (charsOf nameChar) (addUnitTokens tokens main per).
Proof.
  intros Ht Hm Hp. unfold addUnitTokens.
  assert (forall (b : bool) s t, charsOf nameChar s -> charsOf nameChar t -> charsOf nameChar (if b then s else t)) as Hif
    by (by intros []).
  assert (charsOf nameChar "") as He by constructor.
  apply Forall_app; split; [done|]. apply Forall_app; split; case_match; repeat constructor.
  - apply Hif; [apply charsOf_TrimSuffix|]; by apply Hif.
  - apply Hif; [done|]. apply Hif; [done|]. by apply charsOf_TrimSuffix.
Qed.

Lemma forallb_of_Forall {A} (P : A -> bool) (l : list A) : Forall (fun a => P a = true) l -> forallb P l = true.
Proof. intros H. induction H as [|a l Ha Hl IH]; cbn; [done|]. by rewrite Ha. Qed.

Lemma startsThen_cons (first rest : ascii -> bool) (a : ascii) (s : string) :
  startsThen first rest (String a s) = first a && forallb rest (list_ascii_of_string s).
Proof. reflexivity. Qed.

Lemma guardDigit_legal (out : string) : charsOf nameChar out -> out <> "" -> legacyMetricRE (guardDigit "_" out) = true.
Proof.
  intros H Hne. destruct out as [|a out]; [done|]. apply Forall_cons in H as [Ha Hout].
  set (rest := fun b => is_letter b || is_digit b || is_underscore b || Ascii.eqb b ":").
  assert (forall b, nameChar b = true -> rest b = true) as Hc.
  { intros b. unfold rest, nameChar, compliantMetricChar, is_letter. lia. }
  assert (forallb rest (list_ascii_of_string out) = true) as Hl.
  { apply forallb_of_Forall. eapply Forall_impl; [exact Hout|]. exact Hc. }
  unfold guardDigit. destruct (is_digit a) eqn:Ed; rewrite ?app_cons_string, ?app_nil_string;
    unfold legacyMetricRE; rewrite startsThen_cons; fold rest.
  - change (list_ascii_of_string (String a out)) with (a :: list_ascii_of_string out). cbn [forallb].
    by rewrite Hl, (Hc a Ha).
  - rewrite Hl, andb_true_r. specialize (Hc a Ha). unfold rest in Hc. rewrite Ed in Hc. revert Hc. lia.
Qed.

Lemma escapedMetricName_chars (tokens : list string) (b : bool) (word : string) :
  Forall (charsOf nameChar) tokens -> charsOf nameChar word ->
  Forall (charsOf nameChar) (if b then (removeToken tokens word ++ [word])%list else tokens).
Proof.
  intros Ht Hw. destruct b; [|done]. apply Forall_app; split; [|by constructor].
  apply Forall_forall. intros t Ht'. rewrite Forall_forall in Ht. apply Ht. unfold removeToken in Ht'.
  apply list_elem_of_In, filter_In in Ht' as [Ht' _]. by apply list_elem_of_In.
Qed.

Lemma MetricName_legal (s : Strategy) (m : Metric) :
  Escapes s = true -> MetricName s m <> "" -> legacyMetricRE (MetricName s m) = true.
Proof.
  intros He. unfold MetricName. rewrite He. cbn [negb].
  set (out := if suffixes s then _ else _). intros Hne. destruct (_ || _) eqn:E in Hne |- *; [done|].
  assert (exists t, out = guardDigit "_" t /\ charsOf nameChar t) as (t & Eo & Ht).
  { unfold out. destruct (suffixes s).
    - unfold escapedMetricName. destruct (unitSuffixes _) as [main per]. eexists. split; [reflexivity|].
      apply charsOf_Join; [by repeat constructor|].
      do 2 (apply escapedMetricName_chars; [|by repeat constructor]).
      apply addUnitTokens_chars; [|apply cleanUpUnit_chars..]. apply FieldsFunc_chars.
      intros a Ha%negb_false_iff. unfold nameChar. by rewrite Ha.
    - eexists. split; [reflexivity|]. apply charsOf_Join; [by repeat constructor|]. apply FieldsFunc_chars.
      intros a Ha. unfold nameChar. lia. }
  rewrite Eo in *. apply guardDigit_legal; [done|]. intros ->. done.
Qed.

Lemma LabelName_legal (s : Strategy) (attr : string) :
  Escapes s = true -> LabelName s attr <> "" -> legacyLabelRE (LabelName s attr) = true.
Proof.
  intros He. unfold LabelName. destruct (String.eqb attr ""); [done|]. rewrite He. cbn [negb].
  set (P := fun a => is_letter a || is_digit a || is_underscore a).
  assert (charsOf P (sanitizeLabelName attr)) as Hc.
  { apply mapRunes_chars; [|done]. intros a. unfold P, compliantLabelChar, is_letter. lia. }
  destruct (sanitizeLabelName attr) as [|a out]; [done|].
  assert (forallb P (list_ascii_of_string (String a out)) = true) as Hl.
  { by apply forallb_of_Forall. }
  set (o := if is_digit a then _ else _). destruct (onlyUnderscores o); [done|]. intros _. unfold o, legacyLabelRE. fold P.
  assert (P a = true /\ forallb P (list_ascii_of_string out) = true) as [Ha Hl'] by (by apply andb_true_iff in Hl).
  destruct (is_digit a) eqn:Ed; [|destruct (_ && _)].
  - change ("key_" +:+ String a out) with (String "k" ("ey_" +:+ String a out)).
    rewrite startsThen_cons, list_ascii_app, forallb_app, Hl. reflexivity.
  - change ("key" +:+ String a out) with (String "k" ("ey" +:+ String a out)).
    rewrite startsThen_cons, list_ascii_app, forallb_app, Hl. reflexivity.
  - rewrite startsThen_cons, Hl', andb_true_r. unfold P in Ha. rewrite Ed in Ha. revert Ha. lia.
Qed.

Definition spelling (n : otelNames) : list string :=
  [on_node n; on_hwType n; on_hwID n; on_zone n; on_rack n; on_energy n; on_power n; on_hostEnergy n; on_hostPower n;
   on_hostAmbient n; on_facilityAmbient n; on_facilityITEnergy n; on_facilityITPower n; on_facilityCoolingEnergy n;
   on_facilityCoolingPower n; on_zoneAmbient n; on_rackEnergy n; on_rackPower n].

(** A strategy outside the four spells as the default does. *)
Lemma namesFor_strategies (s : Strategy) : exists s', s' ∈ Strategies /\ namesFor s = namesFor s'.
Proof.
  destruct (decide (s ∈ Strategies)) as [H|H]; [by exists s|]. exists Default. split; [by left|].
  unfold Strategies in H. rewrite !not_elem_of_cons in H. destruct H as (H1 & H2 & H3 & H4 & _).
  apply String.eqb_neq in H1, H2, H3, H4.
  assert (Escapes s = true) as He by (unfold Escapes; by rewrite H2, H4).
  assert (suffixes s = true) as Hs by (unfold suffixes; by rewrite H3, H4).
  assert (forall m, MetricName s m = MetricName Default m) as Hm by (intros m; unfold MetricName; by rewrite He, Hs).
  assert (forall a, LabelName s a = LabelName Default a) as Hl by (intros a; unfold LabelName; by rewrite He).
  unfold namesFor. by rewrite !Hm, !Hl.
Qed.

Lemma spelling_distinct (s : Strategy) : NoDup (spelling (namesFor s)) /\ "" ∉ spelling (namesFor s).
Proof.
  destruct (namesFor_strategies s) as (s' & Hs & ->).
  assert (forallb (fun s => bool_decide (NoDup (spelling (namesFor s))) && negb (str_mem "" (spelling (namesFor s))))
            Strategies = true) as H by (vm_compute; reflexivity).
  rewrite forallb_forall in H. apply list_elem_of_In in Hs. apply H, andb_true_iff in Hs as [H1 H2].
  apply bool_decide_eq_true in H1. split; [done|]. intros Hin. apply str_mem_In in Hin. by rewrite Hin in H2.
Qed.

(** The names the presets read are distinct and none is refused, under
    every strategy, known or not; and under a strategy that escapes, every
    name a receiver stores is a legal name of the old kind: a selector of the
    metric is the name itself and a list of the label the label itself, so
    no query needs a quoted name. *)
Theorem escaped_names_plain (s : Strategy) (m : Metric) (attr : string) :
  (NoDup (spelling (namesFor s)) /\ "" ∉ spelling (namesFor s)) /\
  (Escapes s = true ->
   (MetricName s m <> "" -> selector (MetricName s m) [] = MetricName s m /\ isBareMetricName (MetricName s m) = true) /\
   (LabelName s attr <> "" -> labelList [LabelName s attr] = "(" +:+ LabelName s attr +:+ ")")).
Proof.
  split; [apply spelling_distinct|]. intros He. split; intros Hne.
  - pose proof (MetricName_legal s m He Hne) as H. split; [|done]. unfold selector. by rewrite H.
  - unfold labelList, labelName. cbn. by rewrite (LabelName_legal s attr He Hne).
Qed.

Lemma escaped_names_plain_witness :
  selector (MetricName Default HwEnergy) [] = "hw_energy_joules_total" /\
  labelList [LabelName Default AttrK8sNodeName] = "(k8s_node_name)".
Proof.
  destruct (escaped_names_plain Default HwEnergy AttrK8sNodeName) as [_ H]. destruct (H eq_refl) as [H1 H2]. split.
  - exact (proj1 (H1 ltac:(vm_compute; discriminate))).
  - exact (H2 ltac:(vm_compute; discriminate)).
Defined.
