(* ===== verification/PromResult.v ===== *)
(** * Prometheus answers: pkg/controller/inputs/prom.go

    One instant query over the HTTP API and the readers of its result: by the
    value of a label, a single value, a sum. The transport is the interface
    [HTTPGet]; a body is read by [encoding/json], an argument; a sample's time
    is in milliseconds since 1970. Error texts are left out, except the
    message of a failed query. *)

From S2P Require Import Prelude GoString GoFloat FloatFacts Json PromQuery.

#[local] Open Scope string_scope.

(** ** Results *)

(** src/pkg/controller/inputs/api.go:218-222 [Sample] *)
Record Sample := { sm_Labels : gmap string string; sm_Value : float64; sm_TimeMs : Z }.

(** src/pkg/controller/inputs/api.go:209-213 [Result] *)
Record Result := { rs_Type : string; rs_Samples : list Sample; rs_Warnings : list string }.

(** src/pkg/controller/inputs/api.go:225-234 [Issues] *)
Record Issues := { is_Series : nat; is_MissingLabel : nat; is_NonFinite : nat; is_Duplicates : nat }.

(** What a query may fail with: [QueryFailed] is the code's [*Error].
    src/pkg/controller/inputs/api.go:236-252 [Error, ErrNoData] *)
Inductive QueryError :=
| QueryFailed (status : Z) (type message : string)
| NoAddress
| NoAnswer
| AnswerTooLong
| BadResult
| RepeatedLabel
| SeveralSeries
| NotFinite
| ErrNoData
| SkippedSeries.

(** ** Reading a body *)

(** src/pkg/controller/inputs/prom.go:21-25 [MaxResponseBytes] *)
Definition MaxResponseBytes : Z := 64 * 2 ^ 20.
Definition errorExcerptBytes : nat := 200.

(** [strings.ToValidUTF8(s, empty)]. *)
Fixpoint validUTF8 (fuel : nat) (l : list ascii) : list ascii :=
  match fuel, l with
  | S fuel, a :: _ =>
      let n := rune_len l in
      let rest := validUTF8 fuel (drop n l) in
      if (n =? 1)%nat && (128 <=? byte_of a)%N then rest else (take n l ++ rest)%list
  | _, _ => []
  end.

(** src/pkg/controller/inputs/prom.go:177-182 [excerpt] *)
Definition excerpt (body : string) : string :=
  let b := take errorExcerptBytes (list_ascii_of_string body) in
  TrimSpace (string_of_list_ascii (validUTF8 (length b) b)).

Section Bodies.
Variable Unmarshal : string -> option json.
Variable ParseFloat : string -> option float64.

(** A member decoded into a string, an array of strings, an object of
    strings: [null] and an absent member leave the zero value, no value for a
    member of another type. *)
Definition stringOf (v : option json) : option string :=
  match v with None | Some JNull => Some "" | Some (JStr s) => Some s | _ => None end.
Definition stringsOf (v : option json) : option (list string) :=
  match v with
  | None | Some JNull => Some []
  | Some (JArr l) => mapM (fun x => stringOf (Some x)) l
  | _ => None
  end.
Definition labelsOf (v : option json) : option (gmap string string) :=
  match v with
  | None | Some JNull => Some ∅
  | Some (JObj m) => list_to_map <$> mapM (fun '(k, x) => (fun s => (k, s)) <$> stringOf (Some x)) m
  | _ => None
  end.
Definition objectOf (v : option json) : option (list (string * json)) :=
  match v with None | Some JNull => Some [] | Some (JObj m) => Some m | _ => None end.

(** src/pkg/controller/inputs/prom.go:72-76 [Response] *)
Record Response := { re_ResultType : string; re_Result : option json; re_Warnings : list string }.

(** The envelope of an answer, no envelope for a body that does not decode.
    src/pkg/controller/inputs/prom.go:83-95 [DecodeResponse] *)
Definition envelope (body : string) : option (string * string * string * Response) :=
  doc ← Unmarshal body;
  m ← objectOf (Some doc);
  status ← stringOf (jget m "status");
  errorType ← stringOf (jget m "errorType");
  error ← stringOf (jget m "error");
  warnings ← stringsOf (jget m "warnings");
  data ← objectOf (jget m "data");
  resultType ← stringOf (jget data "resultType");
  Some (status, errorType, error,
        {| re_ResultType := resultType; re_Result := jget data "result"; re_Warnings := warnings |}).

(** src/pkg/controller/inputs/prom.go:82-104 [DecodeResponse] *)
Definition DecodeResponse (status : Z) (body : string) : QueryError + Response :=
  match envelope body with
  | None => inl (QueryFailed status "" (excerpt body))
  | Some (st, errorType, error, r) =>
      if String.eqb st "" then inl (QueryFailed status "" (excerpt body))
      else if ((status <? 200) || (299 <? status))%Z || negb (String.eqb st "success") then
        inl (QueryFailed status errorType (if String.eqb error "" then excerpt body else error))
      else inr r
  end.

(** src/pkg/controller/inputs/prom.go:156-174 [ParseSample] *)
Definition ParseSample (elems : list json) : option (Z * float64) :=
  match elems with
  | [t; v] =>
      ts ← (match t with JNum x => Some x | JNull => Some fzero | _ => None end);
      s ← stringOf (Some v);
      x ← ParseFloat s;
      Some (int_of_float (fround (fmul ts (fofZ 1000))), x)
  | _ => None
  end.

(** One element of a vector.
    src/pkg/controller/inputs/prom.go:122-136 [Instant] *)
Definition sampleOf (x : json) : option Sample :=
  m ← objectOf (Some x);
  labels ← labelsOf (jget m "metric");
  elems ← (match jget m "value" with None | Some JNull => Some [] | Some (JArr l) => Some l | _ => None end);
  '(t, v) ← ParseSample elems;
  Some {| sm_Labels := labels; sm_Value := v; sm_TimeMs := t |}.

(** src/pkg/controller/inputs/prom.go:118-151 [Instant] *)
Definition Instant (r : Response) : QueryError + Result :=
  let samples :=
    if String.eqb (re_ResultType r) "vector" then
      match re_Result r with
      | Some (JArr l) => mapM sampleOf l
      | Some JNull => Some []
      | _ => None
      end
    else if String.eqb (re_ResultType r) "scalar" then
      match re_Result r with
      | Some (JArr elems) =>
          '(t, v) ← ParseSample elems; Some [{| sm_Labels := ∅; sm_Value := v; sm_TimeMs := t |}]
      | _ => None
      end
    else None in
  match samples with
  | Some l => inr {| rs_Type := re_ResultType r; rs_Samples := l; rs_Warnings := re_Warnings r |}
  | None => inl BadResult
  end.

(** src/pkg/controller/inputs/prom.go:108-114 [ParseResponse] *)
Definition ParseResponse (status : Z) (body : string) : QueryError + Result :=
  match DecodeResponse status body with inl e => inl e | inr r => Instant r end.

(** ** The query *)

(** A GET: the status and the body of an answer, none when there is none. *)
Class HTTPGet (W : Type) := { http_get : string -> W -> option (Z * string) * W }.

Context {W : Type} `{!HTTPGet W}.

(** [url.QueryEscape] of a byte. *)
Definition escapeByte (a : ascii) : list ascii :=
  let upperHex (n : N) := ascii_of_N (if (n <? 10)%N then 48 + n else 55 + n)%N in
  if is_lower a || is_upper a || is_digit a || existsb (Ascii.eqb a) ["-"; "_"; "."; "~"]%char then [a]
  else if Ascii.eqb a " " then ["+"%char]
  else ["%"%char; upperHex (byte_of a / 16)%N; upperHex (byte_of a mod 16)%N].
Definition QueryEscape (s : string) : string :=
  string_of_list_ascii (concat (escapeByte <$> list_ascii_of_string s)).

(** [strings.TrimRight(s, slash)]. *)
Definition TrimRightSlash (s : string) : string :=
  string_of_list_ascii (rev (drop_while (fun a => Ascii.eqb a "/") (rev (list_ascii_of_string s)))).

(** src/pkg/controller/inputs/prom.go:33-56 [Client.Query] *)
Definition clientQuery (address q : string) (w : W) : (QueryError + Result) * W :=
  if String.eqb address "" then (inl NoAddress, w)
  else
    let u := TrimRightSlash address +:+ "/api/v1/query?query=" +:+ QueryEscape q in
    let '(answer, w) := http_get u w in
    match answer with
    | None => (inl NoAnswer, w)
    | Some (status, body) =>
        if (MaxResponseBytes <? Z.of_nat (String.length body))%Z then (inl AnswerTooLong, w)
        else (ParseResponse status body, w)
    end.

End Bodies.

(** ** The readers *)

(** The key a sample has, none when its label is missing or empty. *)
Definition keyOf (label : string) (s : Sample) : option string :=
  match sm_Labels s !! label with
  | Some key => if String.eqb key "" then None else Some key
  | None => None
  end.

Record labelled := { lb_out : gmap string float64; lb_missing : nat; lb_nonFinite : nat; lb_duplicates : nat }.

(** src/pkg/controller/inputs/prom.go:198-216 [ByLabel] *)
Definition addSample (label : string) (acc : labelled) (s : Sample) : labelled :=
  let '(Build_labelled out missing nonFinite duplicates) := acc in
  match keyOf label s with
  | None => Build_labelled out (S missing) nonFinite duplicates
  | Some key =>
      if negb (is_finite (sm_Value s)) then Build_labelled out missing (S nonFinite) duplicates
      else
        match out !! key with
        | Some _ => Build_labelled out missing nonFinite (S duplicates)
        | None => Build_labelled (<[key := sm_Value s]> out) missing nonFinite duplicates
        end
  end.

(** src/pkg/controller/inputs/prom.go:194-221 [ByLabel] *)
Definition ByLabel (r : Result) (label : string) : (QueryError + gmap string float64) * Issues :=
  let acc := fold_left (addSample label) (rs_Samples r) (Build_labelled ∅ 0 0 0) in
  let iss := {| is_Series := length (rs_Samples r); is_MissingLabel := lb_missing acc;
                is_NonFinite := lb_nonFinite acc; is_Duplicates := lb_duplicates acc |} in
  (if (0 <? lb_duplicates acc)%nat then inl RepeatedLabel else inr (lb_out acc), iss).

(** src/pkg/controller/inputs/prom.go:225-238 [Single] *)
Definition Single (r : Result) : QueryError + float64 :=
  match rs_Samples r with
  | [] => inl ErrNoData
  | [s] => if is_finite (sm_Value s) then inr (sm_Value s) else inl NotFinite
  | _ => inl SeveralSeries
  end.

(** src/pkg/controller/inputs/prom.go:241-249 [Sum] *)
Definition SumSamples (r : Result) : float64 :=
  fold_left (fun sum s => if is_finite (sm_Value s) then fadd sum (sm_Value s) else sum) (rs_Samples r) fzero.

(** ** What [ByLabel] answers *)

(** The samples a reader by label reads: a key and a finite value. *)
Definition readable (label : string) (l : list Sample) : list (string * float64) :=
  omap (fun s => match keyOf label s with
                 | Some key => if is_finite (sm_Value s) then Some (key, sm_Value s) else None
                 | None => None
                 end) l.

Definition withoutKey (label : string) (l : list Sample) : list Sample :=
  base.filter (fun s => keyOf label s = None) l.

Definition notFinite (label : string) (l : list Sample) : list Sample :=
  base.filter (fun s => is_Some (keyOf label s) /\ is_finite (sm_Value s) = false) l.

(** The first value of each key, and how many samples repeat one. *)
Fixpoint firsts (out : gmap string float64) (l : list (string * float64)) : gmap string float64 * nat :=
  match l with
  | [] => (out, 0)
  | (k, v) :: l =>
      match out !! k with
      | Some _ => let '(m, n) := firsts out l in (m, S n)
      | None => firsts (<[k := v]> out) l
      end
  end.

Lemma withoutKey_cons (label : string) (s : Sample) (l : list Sample) :
  length (withoutKey label (s :: l)) =
  ((match keyOf label s with None => 1 | Some _ => 0 end) + length (withoutKey label l))%nat.
Proof. unfold withoutKey. rewrite filter_cons. destruct (keyOf label s); [by rewrite decide_False|by rewrite decide_True]. Qed.

Lemma notFinite_cons (label : string) (s : Sample) (l : list Sample) :
  length (notFinite label (s :: l)) =
  ((match keyOf label s with Some _ => if is_finite (sm_Value s) then 0 else 1 | None => 0 end) +
   length (notFinite label l))%nat.
Proof.
  unfold notFinite. rewrite filter_cons. destruct (keyOf label s) as [k|]; [|rewrite decide_False; [done|]; by intros [[] _]].
  destruct (is_finite (sm_Value s)); [rewrite decide_False by naive_solver|rewrite decide_True by naive_solver]; done.
Qed.

Lemma readable_cons (label : string) (s : Sample) (l : list Sample) :
  readable label (s :: l) =
  match keyOf label s with
  | Some key => if is_finite (sm_Value s) then (key, sm_Value s) :: readable label l else readable label l
  | None => readable label l
  end.
Proof. unfold readable. cbn. destruct (keyOf label s); [|done]. by destruct (is_finite (sm_Value s)). Qed.

Lemma addSample_firsts (label : string) (l : list Sample) (acc : labelled) :
  let acc' := fold_left (addSample label) l acc in
  lb_out acc' = (firsts (lb_out acc) (readable label l)).1 /\
  lb_missing acc' = (lb_missing acc + length (withoutKey label l))%nat /\
  lb_nonFinite acc' = (lb_nonFinite acc + length (notFinite label l))%nat /\
  lb_duplicates acc' = (lb_duplicates acc + (firsts (lb_out acc) (readable label l)).2)%nat.
Proof.
  revert acc. induction l as [|s l IH]; intros [out m f d]; [cbn; repeat split; lia|].
  rewrite withoutKey_cons, notFinite_cons, readable_cons. cbn [fold_left].
  specialize (IH (addSample label (Build_labelled out m f d) s)). cbn zeta in *. unfold addSample in *.
  destruct (keyOf label s) as [k|]; [destruct (is_finite (sm_Value s))|]; cbn [negb] in *.
  - cbn [firsts lb_out lb_missing lb_nonFinite lb_duplicates] in *. destruct (out !! k) eqn:Eo.
    + cbn [lb_out lb_missing lb_nonFinite lb_duplicates] in *. destruct (firsts out _) as [m' n'].
      cbn [fst snd] in *. destruct IH as (-> & -> & -> & ->). repeat split; lia.
    + destruct IH as (-> & -> & -> & ->). cbn [lb_out lb_missing lb_nonFinite lb_duplicates]. repeat split; lia.
  - cbn [lb_out lb_missing lb_nonFinite lb_duplicates] in *. destruct IH as (-> & -> & -> & ->). repeat split; lia.
  - cbn [lb_out lb_missing lb_nonFinite lb_duplicates] in *. destruct IH as (-> & -> & -> & ->). repeat split; lia.
Qed.

Lemma firsts_fresh (out : gmap string float64) (l : list (string * float64)) :
  NoDup l.*1 -> (forall k, k ∈ l.*1 -> out !! k = None) ->
  (firsts out l).2 = 0 /\ forall k v, (firsts out l).1 !! k = Some v <-> out !! k = Some v \/ (k, v) ∈ l.
Proof.
  revert out. induction l as [|[k v] l IH]; intros out Hnd Hout; cbn.
  - split; [done|]. intros k v. rewrite elem_of_nil. naive_solver.
  - cbn in Hnd. apply NoDup_cons in Hnd as [Hk Hnd]. rewrite (Hout k) by (by left).
    destruct (IH (<[k := v]> out) Hnd) as [H1 H2].
    { intros k' Hk'. rewrite lookup_insert_ne by (by intros ->). apply Hout. by right. }
    split; [done|]. intros k' v'. rewrite H2, elem_of_cons, lookup_insert_Some.
    pose proof (Hout k ltac:(by left)). naive_solver.
Qed.

Lemma firsts_repeat (out : gmap string float64) (l : list (string * float64)) :
  (firsts out l).2 = 0 -> NoDup l.*1 /\ (forall k, k ∈ l.*1 -> out !! k = None).
Proof.
  revert out. induction l as [|[k v] l IH]; intros out; cbn.
  - intros _. split; [constructor|]. by intros k []%elem_of_nil.
  - destruct (out !! k) eqn:Eo; [by destruct (firsts out l)|]. intros [Hnd Hout]%IH. split.
    + apply NoDup_cons. split; [|done]. intros Hk. specialize (Hout k Hk). by rewrite lookup_insert_eq in Hout.
    + intros k' [-> | Hk']%elem_of_cons; [done|]. specialize (Hout k' Hk').
      apply lookup_insert_None in Hout as [? _]. done.
Qed.

(** Reading a result by a label answers with a map exactly when no two
    readable samples, those with a key and a finite value, share a key; the
    map then holds the value of every readable sample under its key and
    nothing else, and the counts of samples without the label, without a
    finite value and read add up to the samples of the result. *)
Theorem ByLabel_correct (r : Result) (label : string) :
  let '(out, iss) := ByLabel r label in
  let l := readable label (rs_Samples r) in
  is_MissingLabel iss = length (withoutKey label (rs_Samples r)) /\
  is_NonFinite iss = length (notFinite label (rs_Samples r)) /\
  is_Series iss = (is_MissingLabel iss + is_NonFinite iss + length l)%nat /\
  (NoDup l.*1 -> exists m, out = inr m /\ is_Duplicates iss = 0 /\ forall k v, m !! k = Some v <-> (k, v) ∈ l) /\
  (~ NoDup l.*1 -> out = inl RepeatedLabel /\ is_Duplicates iss > 0)%nat.
Proof.
  unfold ByLabel. pose proof (addSample_firsts label (rs_Samples r) (Build_labelled ∅ 0 0 0)) as (Ho & Hm & Hf & Hd).
  cbn [lb_out lb_missing lb_nonFinite lb_duplicates] in *. set (acc := fold_left _ _ _) in *. cbn.
  rewrite Hm, Hf, Hd, Ho. split; [done|]. split; [done|]. split; [|split].
  - clear. induction (rs_Samples r) as [|s l IH]; [done|]. rewrite withoutKey_cons, notFinite_cons, readable_cons.
    cbn [length]. destruct (keyOf label s); [destruct (is_finite (sm_Value s))|]; cbn [length]; lia.
  - intros Hnd. destruct (firsts_fresh ∅ _ Hnd) as [H0 Hl]; [intros; apply lookup_empty|]. rewrite H0. eexists.
    split; [reflexivity|]. split; [done|]. intros k v. rewrite Hl, lookup_empty. naive_solver.
  - intros Hnd. destruct (firsts ∅ _).2 as [|n] eqn:E; [destruct Hnd; by eapply firsts_repeat|]. cbn. split; [done|lia].
Qed.
