(* ===== verification/PowerReader.v ===== *)
(** * Reading power from telemetry: pkg/otel/otlpjson/power.go, types.go

    The power a node's OTLP metrics exports stand for. A reader keeps the last
    point of every cumulative energy series, per selector, and turns each new
    document into watts: energy as a rate over the producer's clock, the power
    gauge as the fallback, one value per component, then the sum. The agent
    reads its HTTP telemetry so, and the controller manager the power of a
    node. Decoding JSON into the structs is encoding/json's, an argument;
    [FormatFloat] writes a float the shortest way. *)

From S2P Require Import Prelude GoString GoFloat FloatFacts Json PromName.

#[local] Open Scope string_scope.

(** ** The documents *)

(** src/pkg/otel/otlpjson/types.go:246-252 [AnyValue] *)
Inductive AnyValue :=
  mkAnyValue (String_ : option string) (Bool_ : option bool) (Int_ : option Z) (Double_ : option float64)
    (Array_ : option (list AnyValue)).

(** src/pkg/otel/otlpjson/types.go:238-241 [KeyValue] *)
Record KeyValue := { kv_Key : string; kv_Value : AnyValue }.

(** src/pkg/otel/otlpjson/types.go:177-183 [NumberDataPoint] *)
Record NumberDataPoint := {
  dp_Attributes : list KeyValue;
  dp_StartTimeUnixNano : Z;
  dp_TimeUnixNano : Z;
  dp_AsDouble : option float64;
  dp_AsInt : option Z
}.

(** src/pkg/otel/otlpjson/types.go:158-162 [Sum] *)
Record Sum := { sum_DataPoints : list NumberDataPoint; sum_AggregationTemporality : Z; sum_IsMonotonic : bool }.

(** src/pkg/otel/otlpjson/types.go:165-167 [Gauge] *)
Record Gauge := { gauge_DataPoints : list NumberDataPoint }.

(** The fields of a metric that readers of power look at.
    src/pkg/otel/otlpjson/types.go:148-155 [Metric] *)
Record Metric := { m_Name : string; m_Sum : option Sum; m_Gauge : option Gauge }.

(** src/pkg/otel/otlpjson/types.go:134-138 [ScopeMetrics] *)
Record ScopeMetrics := { sm_Metrics : list Metric }.

(** src/pkg/otel/otlpjson/types.go:122-131 [ResourceMetrics] *)
Record ResourceMetrics := { rm_Attributes : list KeyValue; rm_ScopeMetrics : list ScopeMetrics }.

(** src/pkg/otel/otlpjson/types.go:105-107 [MetricsData] *)
Record MetricsData := { md_ResourceMetrics : list ResourceMetrics }.

(** src/pkg/otel/otlpjson/types.go:98-101 [AggregationTemporalityDelta] *)
Definition AggregationTemporalityDelta : Z := 1.

(** src/pkg/otel/otlpjson/types.go:186-194 [Float64] *)
Definition Float64 (p : NumberDataPoint) : option float64 :=
  match dp_AsDouble p, dp_AsInt p with
  | Some d, _ => Some d
  | None, Some i => Some (fofZ i)
  | None, None => None
  end.

(** ** Selectors and readings *)

(** src/pkg/otel/otlpjson/power.go:103-118 [Selector] *)
Record Selector := { sel_Node : string; sel_HwTypes : list string; sel_Host : bool }.

(** src/pkg/otel/otlpjson/power.go:123-123 [DefaultPowerMaxInterval] *)
Definition DefaultPowerMaxInterval : Z := 5 * 60 * 1000000000.

(** src/pkg/otel/otlpjson/power.go:145-151 [powerSeries] *)
Record powerSeries := {
  sr_start : Z;
  sr_time : Z;
  sr_energyJ : float64;
  sr_watts : float64;
  sr_hasWatts : bool;
  sr_kept : Z
}.

(** src/pkg/otel/otlpjson/power.go:156-156 [powerComponent] *)
Definition powerComponent : Type := string * string.

(** src/pkg/otel/otlpjson/power.go:159-165 [powerReading] *)
Record powerReading := {
  rd_energyW : float64;
  rd_energyOK : bool;
  rd_energyCold : bool;
  rd_gaugeW : float64;
  rd_gaugeOK : bool
}.

(** The zero value. *)
Definition noReading : powerReading := {|
  rd_energyW := fzero; rd_energyOK := false; rd_energyCold := false; rd_gaugeW := fzero; rd_gaugeOK := false |}.

(** src/pkg/otel/otlpjson/power.go:132-141 [PowerReader] *)
Record PowerReader := { pr_MaxInterval : Z; pr_series : gmap string (gmap string powerSeries) }.

(** The byte 0. *)
Definition NUL : string := String (ascii_of_nat 0) "".

(** [strconv.FormatBool]. *)
Definition FormatBool (b : bool) : string := if b then "true" else "false".

(** src/pkg/otel/otlpjson/power.go:339-343 [Selector.key] *)
Definition selectorKey (s : Selector) : string :=
  sel_Node s +:+ NUL +:+ FormatBool (sel_Host s) +:+ NUL +:+ Join (sort_strings (sel_HwTypes s)) NUL.

(** src/pkg/otel/otlpjson/power.go:347-355 [powerPoints] *)
Definition powerPoints (m : Metric) : list NumberDataPoint * bool :=
  match m_Sum m, m_Gauge m with
  | Some s, _ => (sum_DataPoints s, (sum_AggregationTemporality s =? AggregationTemporalityDelta)%Z)
  | None, Some g => (gauge_DataPoints g, false)
  | None, None => ([], false)
  end.

(** src/pkg/otel/otlpjson/power.go:371-377 [powerValue] *)
Definition powerValue (p : NumberDataPoint) : option float64 :=
  match Float64 p with
  | Some v => if negb (is_finite v) || flt v fzero then None else Some v
  | None => None
  end.

(** src/pkg/otel/otlpjson/power.go:379-379 [powerSeconds] *)
Definition powerSeconds (ns : Z) : float64 := fdiv (fofZ ns) (fofZ 1000000000).

(** ** One point *)

(** What becomes of the point kept of a series: [old] is the kept one, [cur]
    the one read, without a rate.
    src/pkg/otel/otlpjson/power.go:263-287 [Watts] *)
Definition advance (bound now : Z) (old : option powerSeries) (cur : powerSeries) : powerSeries :=
  match old with
  | None => cur
  | Some old =>
      if negb (sr_start old =? 0)%Z && negb (sr_start cur =? 0)%Z && negb (sr_start cur =? sr_start old)%Z then cur
      else if (sr_time cur <=? sr_time old)%Z then
        if (bound <? sat64 (now - sr_kept old))%Z then
          {| sr_start := sr_start old; sr_time := sr_time old; sr_energyJ := sr_energyJ old;
             sr_watts := fzero; sr_hasWatts := false; sr_kept := sr_kept old |}
        else old
      else if flt (sr_energyJ cur) (sr_energyJ old) then cur
      else if (bound <? sr_time cur - sr_time old)%Z then cur
      else
        {| sr_start := sr_start cur; sr_time := sr_time cur; sr_energyJ := sr_energyJ cur;
           sr_watts := fdiv (fsub (sr_energyJ cur) (sr_energyJ old)) (powerSeconds (sr_time cur - sr_time old));
           sr_hasWatts := true; sr_kept := sr_kept cur |}
  end.

(** [math.Max] into the energy of a reading, and into its gauge. *)
Definition withEnergy (rd : powerReading) (w : float64) : powerReading := {|
  rd_energyW := fmax (rd_energyW rd) w; rd_energyOK := true; rd_energyCold := rd_energyCold rd;
  rd_gaugeW := rd_gaugeW rd; rd_gaugeOK := rd_gaugeOK rd |}.
Definition withGauge (rd : powerReading) (v : float64) : powerReading := {|
  rd_energyW := rd_energyW rd; rd_energyOK := rd_energyOK rd; rd_energyCold := rd_energyCold rd;
  rd_gaugeW := fmax (rd_gaugeW rd) v; rd_gaugeOK := true |}.
Definition withCold (rd : powerReading) : powerReading := {|
  rd_energyW := rd_energyW rd; rd_energyOK := rd_energyOK rd; rd_energyCold := true;
  rd_gaugeW := rd_gaugeW rd; rd_gaugeOK := rd_gaugeOK rd |}.

(** The maps a document fills: the kept points, and the reading of each
    component. *)
Definition tally : Type := gmap string powerSeries * gmap powerComponent powerReading.

Section Documents.
Variable FormatFloat : float64 -> string.

(** src/pkg/otel/otlpjson/types.go:257-275 [Text] *)
Fixpoint Text (v : AnyValue) : string * bool :=
  match v with
  | mkAnyValue (Some s) _ _ _ _ => (s, true)
  | mkAnyValue None (Some b) _ _ _ => (FormatBool b, true)
  | mkAnyValue None None (Some i) _ _ => (Itoa i, true)
  | mkAnyValue None None None (Some d) _ => (FormatFloat d, true)
  | mkAnyValue None None None None (Some vs) => ("[" +:+ Join (map (fun e => (Text e).1) vs) "," +:+ "]", true)
  | mkAnyValue None None None None None => ("", false)
  end.

(** src/pkg/otel/otlpjson/power.go:383-391 [powerAttr] *)
Definition powerAttr (attrs : list KeyValue) (key : string) : option string :=
  match find (fun kv => String.eqb (kv_Key kv) key) attrs with
  | Some kv => Some (Text (kv_Value kv)).1
  | None => None
  end.

(** src/pkg/otel/otlpjson/power.go:394-402 [powerAttrsID] *)
Definition powerAttrsID (attrs : list KeyValue) : string :=
  Join (sort_strings (map (fun kv => kv_Key kv +:+ "=" +:+ (Text (kv_Value kv)).1) attrs)) NUL.

(** src/pkg/otel/otlpjson/power.go:360-367 [powerSelect] *)
Definition powerSelect (attrs : list KeyValue) (host : bool) (types : list string) : option powerComponent :=
  if host then Some ("", "")
  else
    let id := default "" (powerAttr attrs AttrHwID) in
    let t := default "" (powerAttr attrs AttrHwType) in
    if str_mem t types then Some (t, id) else None.

(** The names of the energy and of the power metric.
    src/pkg/otel/otlpjson/power.go:192-195 [Watts] *)
Definition energyName (s : Selector) : string := PromName.m_Name (if sel_Host s then HwHostEnergy else HwEnergy).
Definition powerName (s : Selector) : string := PromName.m_Name (if sel_Host s then HwHostPower else HwPower).

(** The start of a point's identity that its resource gives.
    src/pkg/otel/otlpjson/power.go:223-228 [Watts] *)
Definition resourceID (attrs : list KeyValue) : string :=
  fold_left (fun acc k => acc +:+ default "" (powerAttr attrs k) +:+ NUL)
    [AttrServiceNamespace; AttrServiceName; AttrServiceInstanceID] "".

(** src/pkg/otel/otlpjson/power.go:262-262 [Watts] *)
Definition seriesID (resID name : string) (p : NumberDataPoint) : string :=
  resID +:+ name +:+ NUL +:+ powerAttrsID (dp_Attributes p).

(** The point as it is kept, without a rate.
    src/pkg/otel/otlpjson/power.go:267-267 [Watts] *)
Definition pointOf (now : Z) (p : NumberDataPoint) (v : float64) : powerSeries := {|
  sr_start := dp_StartTimeUnixNano p; sr_time := dp_TimeUnixNano p; sr_energyJ := v;
  sr_watts := fzero; sr_hasWatts := false; sr_kept := now |}.

Section Read.
Context (s : Selector) (bound now : Z) (prev : gmap string powerSeries).

(** What a point of component [c] with value [v] adds to the maps.
    src/pkg/otel/otlpjson/power.go:249-294 [Watts] *)
Definition readValue (resID name : string) (delta : bool) (p : NumberDataPoint) (v : float64)
    (next : gmap string powerSeries) (rd : powerReading) : gmap string powerSeries * powerReading :=
  if String.eqb name (powerName s) then (next, withGauge rd v)
  else if delta then
    if (dp_StartTimeUnixNano p =? 0)%Z || (dp_TimeUnixNano p <=? dp_StartTimeUnixNano p)%Z then (next, rd)
    else (next, withEnergy rd (fdiv v (powerSeconds (dp_TimeUnixNano p - dp_StartTimeUnixNano p))))
  else if (dp_TimeUnixNano p =? 0)%Z then (next, rd)
  else
    let id := seriesID resID name p in
    let old := match next !! id with Some o => Some o | None => prev !! id end in
    let cur := advance bound now old (pointOf now p v) in
    (<[id := cur]> next, if sr_hasWatts cur then withEnergy rd (sr_watts cur) else withCold rd).

(** src/pkg/otel/otlpjson/power.go:235-295 [Watts] *)
Definition readPoint (resID name : string) (delta : bool) (acc : tally) (p : NumberDataPoint) : tally :=
  match powerSelect (dp_Attributes p) (sel_Host s) (sel_HwTypes s), powerValue p with
  | Some c, Some v =>
      let rd := default noReading (acc.2 !! c) in
      let '(next, rd') := readValue resID name delta p v acc.1 rd in
      (next, <[c := rd']> acc.2)
  | _, _ => acc
  end.

(** src/pkg/otel/otlpjson/power.go:230-296 [Watts] *)
Definition readMetric (resID : string) (acc : tally) (m : Metric) : tally :=
  if negb (String.eqb (m_Name m) (energyName s)) && negb (String.eqb (m_Name m) (powerName s)) then acc
  else
    let '(points, delta) := powerPoints m in
    fold_left (readPoint resID (m_Name m) delta) points acc.

(** src/pkg/otel/otlpjson/power.go:216-298 [Watts] *)
Definition readResource (acc : tally) (rm : ResourceMetrics) : tally :=
  let skip :=
    match powerAttr (rm_Attributes rm) AttrK8sNodeName with
    | Some node => negb (String.eqb node (sel_Node s))
    | None => false
    end in
  if skip then acc
  else
    let resID := resourceID (rm_Attributes rm) in
    fold_left (fun acc sm => fold_left (readMetric resID) (sm_Metrics sm) acc) (rm_ScopeMetrics rm) acc.

Definition readDocument (md : MetricsData) : tally := fold_left readResource (md_ResourceMetrics md) (∅, ∅).

End Read.

(** src/pkg/otel/otlpjson/power.go:313-318 [Watts] *)
Definition componentLess (a b : powerComponent) : bool :=
  if negb (String.eqb a.1 b.1) then str_less a.1 b.1 else str_less a.2 b.2.

(** The sum over the components, and how many have a reading; nothing when one
    is cold.
    src/pkg/otel/otlpjson/power.go:319-334 [Watts] *)
Fixpoint sumComponents (comps : gmap powerComponent powerReading) (keys : list powerComponent) (total : float64)
    (counted : nat) : float64 * bool :=
  match keys with
  | [] => (total, (0 <? counted)%nat)
  | c :: keys =>
      let rd := default noReading (comps !! c) in
      if rd_energyOK rd then sumComponents comps keys (fadd total (rd_energyW rd)) (S counted)
      else if rd_gaugeOK rd then sumComponents comps keys (fadd total (rd_gaugeW rd)) (S counted)
      else if rd_energyCold rd then (fzero, false)
      else sumComponents comps keys total counted
  end.

Definition powerBound (r : PowerReader) : Z :=
  if (pr_MaxInterval r <=? 0)%Z then DefaultPowerMaxInterval else pr_MaxInterval r.

(** src/pkg/otel/otlpjson/power.go:191-335 [Watts] *)
Definition Watts (r : PowerReader) (now : Z) (md : MetricsData) (s : Selector) : float64 * bool * PowerReader :=
  let key := selectorKey s in
  let '(next, comps) := readDocument s (powerBound r) now (default ∅ (pr_series r !! key)) md in
  let series := if decide (next = ∅) then delete key (pr_series r) else <[key := next]> (pr_series r) in
  let keys := sort_slice componentLess (map_to_list comps).*1 in
  (sumComponents comps keys fzero 0, {| pr_MaxInterval := pr_MaxInterval r; pr_series := series |}).

(** [PowerReader.Watts] and the legacy JSON, on a body that [encoding/json]
    reads as a value and, when it is a metrics export, as one. *)
Section Bodies.
Variable Unmarshal : string -> option json.
Variable UnmarshalMetrics : string -> option MetricsData.

(** src/pkg/otel/otlpjson/decode.go:54-61 [IsMetricsData] *)
Definition IsMetricsData (b : string) : bool :=
  match Unmarshal b with
  | Some (JObj m) => match jget m "resourceMetrics" with Some _ => true | None => false end
  | _ => false
  end.

(** [v, ok := doc[key].(float64); ok && v > 0]. *)
Definition positiveNumber (m : list (string * json)) (key : string) : option float64 :=
  match jget m key with
  | Some (JNum v) => if flt fzero v then Some v else None
  | _ => None
  end.

Inductive PowerError := NotTelemetry | BadMetrics.

Record PowerAnswer := { pa_watts : float64; pa_ok : bool; pa_legacy : bool; pa_err : option PowerError }.

(** src/pkg/otel/otlpjson/power.go:77-99 [ReadPower] *)
Definition ReadPower (body : string) (r : PowerReader) (now : Z) (s : Selector) : PowerAnswer * PowerReader :=
  if IsMetricsData body then
    match UnmarshalMetrics body with
    | None => ({| pa_watts := fzero; pa_ok := false; pa_legacy := false; pa_err := Some BadMetrics |}, r)
    | Some md =>
        let '(w, ok, r') := Watts r now md s in
        ({| pa_watts := w; pa_ok := ok; pa_legacy := false; pa_err := None |}, r')
    end
  else
    let doc := match Unmarshal body with Some (JObj m) => Some m | Some JNull => Some [] | _ => None end in
    match doc with
    | None => ({| pa_watts := fzero; pa_ok := false; pa_legacy := false; pa_err := Some NotTelemetry |}, r)
    | Some m =>
        match positiveNumber m "packagePowerWatts" with
        | Some v => ({| pa_watts := v; pa_ok := true; pa_legacy := true; pa_err := None |}, r)
        | None =>
            match jget m "cpu" with
            | Some (JObj cpu) =>
                match positiveNumber cpu "packagePowerWatts" with
                | Some v => ({| pa_watts := v; pa_ok := true; pa_legacy := true; pa_err := None |}, r)
                | None => ({| pa_watts := fzero; pa_ok := false; pa_legacy := true; pa_err := None |}, r)
                end
            | _ => ({| pa_watts := fzero; pa_ok := false; pa_legacy := true; pa_err := None |}, r)
            end
        end
    end.

End Bodies.
End Documents.

(** ** The points of a document, in one list *)

Record rawPoint := { rp_resID : string; rp_name : string; rp_delta : bool; rp_point : NumberDataPoint }.

Lemma fold_left_concat {A B C} (g : A -> C -> A) (h : B -> list C) (l : list B) (a : A) :
  fold_left (fun a x => fold_left g (h x) a) l a = fold_left g (concat (h <$> l)) a.
Proof. revert a. induction l as [|x l IH]; intros a; cbn; [done|]. by rewrite fold_left_app, IH. Qed.

Lemma fold_left_fmap {A B C} (g : A -> C -> A) (h : B -> C) (l : list B) (a : A) :
  fold_left g (h <$> l) a = fold_left (fun a x => g a (h x)) l a.
Proof. revert a. induction l as [|x l IH]; intros a; cbn; [done|]. apply IH. Qed.

Lemma fold_left_ext {A B} (g h : A -> B -> A) (l : list B) (a : A) :
  (forall a x, g a x = h a x) -> fold_left g l a = fold_left h l a.
Proof. intros E. revert a. induction l as [|x l IH]; intros a; cbn; [done|]. by rewrite E, IH. Qed.

Section Points.
Variable FormatFloat : float64 -> string.
Notation Watts := (Watts FormatFloat).

Definition metricPoints (s : Selector) (resID : string) (m : Metric) : list rawPoint :=
  if negb (String.eqb (m_Name m) (energyName s)) && negb (String.eqb (m_Name m) (powerName s)) then []
  else Build_rawPoint resID (m_Name m) (powerPoints m).2 <$> (powerPoints m).1.

Definition resourcePoints (s : Selector) (rm : ResourceMetrics) : list rawPoint :=
  let skip :=
    match powerAttr FormatFloat (rm_Attributes rm) AttrK8sNodeName with
    | Some node => negb (String.eqb node (sel_Node s))
    | None => false
    end in
  if skip then []
  else concat ((fun sm => concat (metricPoints s (resourceID FormatFloat (rm_Attributes rm)) <$> sm_Metrics sm))
                 <$> rm_ScopeMetrics rm).

(** The points of the metrics the selector reads, in the document's order. *)
Definition documentPoints (s : Selector) (md : MetricsData) : list rawPoint :=
  concat (resourcePoints s <$> md_ResourceMetrics md).

Definition readRaw (s : Selector) (bound now : Z) (prev : gmap string powerSeries) (acc : tally) (x : rawPoint) : tally :=
  readPoint FormatFloat s bound now prev (rp_resID x) (rp_name x) (rp_delta x) acc (rp_point x).

Lemma readDocument_points s bound now prev md :
  readDocument FormatFloat s bound now prev md = fold_left (readRaw s bound now prev) (documentPoints s md) (∅, ∅).
Proof.
  unfold readDocument, documentPoints. rewrite <- fold_left_concat. apply fold_left_ext. intros acc rm.
  unfold readResource, resourcePoints.
  destruct (match powerAttr _ _ _ with Some _ => _ | None => _ end); [done|].
  rewrite <- fold_left_concat. apply fold_left_ext. intros acc' sm.
  rewrite <- fold_left_concat. apply fold_left_ext. intros acc2 m.
  unfold readMetric, metricPoints. destruct (_ && _); [done|].
  destruct (powerPoints m) as [points delta]. cbn. by rewrite fold_left_fmap.
Qed.

(** ** What a point says *)

(** The component a point counts for, and its value. *)
Definition selectedAs (s : Selector) (x : rawPoint) : option (powerComponent * float64) :=
  match powerSelect FormatFloat (dp_Attributes (rp_point x)) (sel_Host s) (sel_HwTypes s), powerValue (rp_point x) with
  | Some c, Some v => Some (c, v)
  | _, _ => None
  end.

Definition isGauge (s : Selector) (x : rawPoint) : bool := String.eqb (rp_name x) (powerName s).

(** A delta over an interval of its own. *)
Definition isDelta (s : Selector) (x : rawPoint) : bool :=
  negb (isGauge s x) && rp_delta x &&
  negb ((dp_StartTimeUnixNano (rp_point x) =? 0)%Z ||
        (dp_TimeUnixNano (rp_point x) <=? dp_StartTimeUnixNano (rp_point x))%Z).

(** A timed point of a cumulative energy series. *)
Definition isCumulative (s : Selector) (x : rawPoint) : bool :=
  negb (isGauge s x) && negb (rp_delta x) && negb (dp_TimeUnixNano (rp_point x) =? 0)%Z.

Definition usable (s : Selector) (x : rawPoint) : bool := isGauge s x || isDelta s x || isCumulative s x.

(** The values of the power gauges of a component. *)
Definition gaugesOf (s : Selector) (c : powerComponent) (pts : list rawPoint) : list float64 :=
  omap (fun x => match selectedAs s x with
                 | Some (c', v) => if isGauge s x && bool_decide (c' = c) then Some v else None
                 | None => None
                 end) pts.

(** A point of an energy series, as a document carries it. *)
Record energyPoint := { ep_id : string; ep_start : Z; ep_time : Z; ep_energyJ : float64 }.

Definition energyPointOf (s : Selector) (x : rawPoint) : option energyPoint :=
  match selectedAs s x with
  | Some (_, v) =>
      if isCumulative s x then
        Some {| ep_id := seriesID FormatFloat (rp_resID x) (rp_name x) (rp_point x);
                ep_start := dp_StartTimeUnixNano (rp_point x); ep_time := dp_TimeUnixNano (rp_point x); ep_energyJ := v |}
      else None
  | None => None
  end.

Definition energyPoints (s : Selector) (md : MetricsData) : list energyPoint :=
  omap (energyPointOf s) (documentPoints s md).

(** [b] continues [a]: a later point of the same series and lifetime, no
    further than the bound, whose energy did not fall. *)
Definition follows (bound : Z) (a b : energyPoint) : Prop :=
  ep_id a = ep_id b /\ (ep_start a = 0 \/ ep_start b = 0 \/ ep_start a = ep_start b)%Z /\
  (ep_time a < ep_time b <= ep_time a + bound)%Z /\ flt (ep_energyJ b) (ep_energyJ a) = false.

(** The energy between them over the time between them. *)
Definition rateBetween (a b : energyPoint) : float64 :=
  fdiv (fsub (ep_energyJ b) (ep_energyJ a)) (powerSeconds (ep_time b - ep_time a)).

Definition keptOf (id : string) (sr : powerSeries) : energyPoint := {|
  ep_id := id; ep_start := sr_start sr; ep_time := sr_time sr; ep_energyJ := sr_energyJ sr |}.

(** A kept point is one that was read, and its rate was measured between it
    and an earlier point that was read. *)
Definition justified (bound : Z) (h : list energyPoint) (id : string) (sr : powerSeries) : Prop :=
  keptOf id sr ∈ h /\
  (sr_hasWatts sr = true ->
   exists a, a ∈ h /\ follows bound a (keptOf id sr) /\ sr_watts sr = rateBetween a (keptOf id sr)).

Lemma justified_mono bound h h' id sr : h ⊆ h' -> justified bound h id sr -> justified bound h' id sr.
Proof. intros Hs [H1 H2]. split; [by apply Hs|]. intros Hw. destruct (H2 Hw) as (a & Ha & H). exists a. eauto. Qed.

Lemma advance_justified bound now h id old cur :
  match old with Some o => justified bound h id o | None => True end ->
  keptOf id cur ∈ h -> sr_hasWatts cur = false ->
  justified bound h id (advance bound now old cur).
Proof.
  intros Ho Hc Hw. assert (justified bound h id cur) as Jc by (split; [done|congruence]).
  destruct old as [o|]; [|done]. cbn [advance]. repeat case_match; try done.
  - split; [apply Ho|done].
  - split; [done|]. intros _. exists (keptOf id o). split; [apply Ho|]. split; [|done].
    unfold follows; cbn. split; [done|]. split; [lia|]. split; [lia|done].
Qed.

(** ** What a document adds up to *)

(** An energy rate of a component: a delta over its own interval, or a rate
    between two points of one of its series. *)
Definition energyRate (s : Selector) (bound : Z) (h : list energyPoint) (pts : list rawPoint) (c : powerComponent)
    (w : float64) : Prop :=
  exists x v, x ∈ pts /\ selectedAs s x = Some (c, v) /\
    ((isDelta s x = true /\
      w = fdiv v (powerSeconds (dp_TimeUnixNano (rp_point x) - dp_StartTimeUnixNano (rp_point x)))) \/
     (isCumulative s x = true /\
      exists a b, a ∈ h /\ b ∈ h /\ ep_id b = seriesID FormatFloat (rp_resID x) (rp_name x) (rp_point x) /\
        follows bound a b /\ w = rateBetween a b)).

Definition is_nil {A} (l : list A) : bool := match l with [] => true | _ => false end.

(** The rates of a document, point by point: a delta gives one of its own,
    and a point of a cumulative series the one [advance] finds from the point
    kept of the series, in this document or in those before. *)
Section Rates.
Context (s : Selector) (bound now : Z) (prev : gmap string powerSeries).

Definition seriesOf (x : rawPoint) : string := seriesID FormatFloat (rp_resID x) (rp_name x) (rp_point x).

Definition keptPoint (next : gmap string powerSeries) (id : string) : option powerSeries :=
  match next !! id with Some o => Some o | None => prev !! id end.

Definition keepsNow (next : gmap string powerSeries) (x : rawPoint) (v : float64) : powerSeries :=
  advance bound now (keptPoint next (seriesOf x)) (pointOf now (rp_point x) v).

Definition rateOf (next : gmap string powerSeries) (x : rawPoint) (v : float64) : option float64 :=
  if isDelta s x then Some (fdiv v (powerSeconds (dp_TimeUnixNano (rp_point x) - dp_StartTimeUnixNano (rp_point x))))
  else if isCumulative s x then
    let cur := keepsNow next x v in if sr_hasWatts cur then Some (sr_watts cur) else None
  else None.

Definition keepsIn (next : gmap string powerSeries) (x : rawPoint) (v : float64) : gmap string powerSeries :=
  if isCumulative s x then <[seriesOf x := keepsNow next x v]> next else next.

Definition rateStep (acc : gmap string powerSeries * list (powerComponent * float64)) (x : rawPoint) :
    gmap string powerSeries * list (powerComponent * float64) :=
  match selectedAs s x with
  | Some (c, v) => (keepsIn acc.1 x v, (acc.2 ++ option_list (pair c <$> rateOf acc.1 x v))%list)
  | None => acc
  end.

Definition ratesAfter (pts : list rawPoint) : gmap string powerSeries * list (powerComponent * float64) :=
  foldl rateStep (∅, []) pts.

(** The energy rates of a component in a document. *)
Definition ratesOf (c : powerComponent) (pts : list rawPoint) : list float64 :=
  omap (fun '(c', w) => if bool_decide (c' = c) then Some w else None) (ratesAfter pts).2.

Lemma ratesAfter_snoc pts x : ratesAfter (pts ++ [x])%list = rateStep (ratesAfter pts) x.
Proof. unfold ratesAfter. by rewrite foldl_app. Qed.

Lemma ratesOf_snoc c pts x :
  ratesOf c (pts ++ [x])%list =
  (ratesOf c pts ++
    match selectedAs s x with
    | Some (c', v) => if bool_decide (c' = c) then option_list (rateOf (ratesAfter pts).1 x v) else []
    | None => []
    end)%list.
Proof.
  unfold ratesOf. rewrite ratesAfter_snoc. unfold rateStep. destruct (selectedAs s x) as [[c' v]|]; [|by rewrite app_nil_r].
  cbn [snd]. rewrite omap_app. f_equal. destruct (rateOf _ _ _); cbn; by case_bool_decide.
Qed.

Lemma ratesOf_app c pts pts' : exists l, ratesOf c (pts ++ pts')%list = (ratesOf c pts ++ l)%list.
Proof.
  induction pts' as [|x pts' [l IH]] using rev_ind; [exists []; by rewrite !app_nil_r|].
  rewrite app_assoc, ratesOf_snoc, IH, <- app_assoc. by eexists.
Qed.

(** What [readValue] does, in those terms. *)
Lemma readValue_eq x v next rd :
  readValue FormatFloat s bound now prev (rp_resID x) (rp_name x) (rp_delta x) (rp_point x) v next rd =
  (keepsIn next x v,
   if isGauge s x then withGauge rd v
   else match rateOf next x v with
        | Some w => withEnergy rd w
        | None => if isCumulative s x then withCold rd else rd
        end).
Proof.
  unfold readValue, keepsIn, rateOf, isDelta, isCumulative. fold (isGauge s x). destruct (isGauge s x); [done|]. cbn [negb andb].
  destruct (rp_delta x); cbn [negb andb].
  - by destruct (_ || _).
  - destruct (dp_TimeUnixNano (rp_point x) =? 0)%Z; [done|]. cbn [negb]. fold (seriesOf x).
    fold (keptPoint next (seriesOf x)). fold (keepsNow next x v). by destruct (sr_hasWatts _).
Qed.
End Rates.

(** What the reading of a component says of the points read. *)
Definition reads (s : Selector) (bound now : Z) (prev : gmap string powerSeries) (h : list energyPoint)
    (pts : list rawPoint) (c : powerComponent) (rd : powerReading) : Prop :=
  let rates := ratesOf s bound now prev c pts in
  rd_gaugeW rd = foldl fmax fzero (gaugesOf s c pts) /\
  rd_gaugeOK rd = negb (is_nil (gaugesOf s c pts)) /\
  (Forall (energyRate s bound h pts c) rates /\ rd_energyW rd = foldl fmax fzero rates /\
     rd_energyOK rd = negb (is_nil rates)) /\
  ((exists x v, x ∈ pts /\ selectedAs s x = Some (c, v) /\ usable s x = true) ->
   rd_energyOK rd || rd_gaugeOK rd || rd_energyCold rd = true).

Lemma energyRate_mono s bound h h' pts pts' c w :
  h ⊆ h' -> pts ⊆ pts' -> energyRate s bound h pts c w -> energyRate s bound h' pts' c w.
Proof.
  intros Hh Hp (x & v & Hx & Hs & H). exists x, v. split; [by apply Hp|]. split; [done|].
  destruct H as [H|(H1 & a & b & Ha & Hb & H2)]; [by left|right]. split; [done|]. exists a, b. eauto.
Qed.

Lemma gaugesOf_snoc s c pts x :
  gaugesOf s c (pts ++ [x])%list =
  (gaugesOf s c pts ++
    match selectedAs s x with
    | Some (c', v) => if isGauge s x && bool_decide (c' = c) then [v] else []
    | None => []
    end)%list.
Proof.
  unfold gaugesOf. rewrite omap_app. f_equal. cbn.
  destruct (selectedAs s x) as [[c' v]|]; [|done]. by destruct (isGauge s x && _).
Qed.

Lemma reads_none s bound now prev h c : reads s bound now prev h [] c noReading.
Proof. split; [done|]. split; [done|]. split; [done|]. by intros (x & v & []%elem_of_nil & _). Qed.

Lemma energyRates_mono s bound h pts x c ws :
  Forall (energyRate s bound h pts c) ws -> Forall (energyRate s bound h (pts ++ [x])%list c) ws.
Proof. intros Hf. eapply Forall_impl; [exact Hf|]. intros w. apply energyRate_mono; set_solver. Qed.

(** A point that is not of the component adds nothing to its reading. *)
Lemma reads_other s bound now prev h pts x c rd :
  (forall v, selectedAs s x <> Some (c, v)) -> reads s bound now prev h pts c rd ->
  reads s bound now prev h (pts ++ [x])%list c rd.
Proof.
  intros Hx (H1 & H2 & (Hf & H3) & H4).
  assert (gaugesOf s c (pts ++ [x])%list = gaugesOf s c pts /\ ratesOf s bound now prev c (pts ++ [x])%list = ratesOf s bound now prev c pts)
    as [Eg Er].
  { rewrite gaugesOf_snoc, ratesOf_snoc. destruct (selectedAs s x) as [[c' v]|]; [|by rewrite !app_nil_r].
    rewrite !bool_decide_false; [by rewrite andb_false_r, !app_nil_r|]. intros ->. by apply (Hx v). }
  unfold reads. rewrite Eg, Er. split; [done|]. split; [done|]. split; [split; [by apply energyRates_mono|done]|].
  intros (y & v & Hy & Hs & Hu). apply H4. exists y, v. split; [|done].
  apply elem_of_app in Hy as [Hy | ->%list_elem_of_singleton]; [done|]. by destruct (Hx v).
Qed.

Lemma foldl_snoc {A B} (f : A -> B -> A) (a : A) (l : list B) (x : B) : foldl f a (l ++ [x])%list = f (foldl f a l) x.
Proof. by rewrite foldl_app. Qed.

Lemma snoc_not_nil {A} (l : list A) (x : A) : is_nil (l ++ [x])%list = false.
Proof. by destruct l. Qed.

(** Every kept point is one that was read, its rate between two of them. *)
Definition allJustified (bound : Z) (h : list energyPoint) (m : gmap string powerSeries) : Prop :=
  forall id sr, m !! id = Some sr -> justified bound h id sr.

Lemma keepsNow_justified s bound now prev h x c v next :
  allJustified bound h next -> allJustified bound h prev ->
  selectedAs s x = Some (c, v) -> isCumulative s x = true -> (forall e, energyPointOf s x = Some e -> e ∈ h) ->
  justified bound h (seriesOf x) (keepsNow bound now prev next x v).
Proof.
  intros Hn Hp Hx Ec He. apply advance_justified; [|apply He; unfold energyPointOf; rewrite Hx, Ec; reflexivity|done].
  unfold keptPoint. destruct (next !! seriesOf x) eqn:En; [by apply Hn|]. destruct (prev !! seriesOf x) eqn:Ep; [by apply Hp|done].
Qed.

Lemma keepsIn_justified s bound now prev h x c v next :
  allJustified bound h next -> allJustified bound h prev ->
  selectedAs s x = Some (c, v) -> (forall e, energyPointOf s x = Some e -> e ∈ h) ->
  allJustified bound h (keepsIn s bound now prev next x v).
Proof.
  intros Hn Hp Hx He. unfold keepsIn. destruct (isCumulative s x) eqn:Ec; [|done].
  intros i sr. rewrite lookup_insert_Some. intros [[<- <-]|[_ Hi]]; [by eapply keepsNow_justified|by apply Hn].
Qed.

(** A rate of a point is a rate of its component. *)
Lemma rateOf_energyRate s bound now prev h pts x c v next w :
  allJustified bound h next -> allJustified bound h prev ->
  selectedAs s x = Some (c, v) -> (forall e, energyPointOf s x = Some e -> e ∈ h) -> x ∈ pts ->
  rateOf s bound now prev next x v = Some w -> energyRate s bound h pts c w.
Proof.
  intros Hn Hp Hx He Hin. unfold rateOf. intros Hw. exists x, v. split; [done|]. split; [done|].
  destruct (isDelta s x) eqn:Ed; [left; split; [done|congruence]|right].
  destruct (isCumulative s x) eqn:Ec; [|done]. cbv zeta in Hw.
  destruct (keepsNow_justified s bound now prev h x c v next Hn Hp Hx Ec He) as [Jk Jw].
  destruct (sr_hasWatts _); [|done]. injection Hw as <-. destruct (Jw eq_refl) as (a & Ha & Hfol & Hrate).
  split; [done|]. exists a, (keptOf (seriesOf x) (keepsNow bound now prev next x v)). done.
Qed.

(** One more point of the component: what [readValue] does to its reading. *)
Lemma reads_snoc s bound now prev h pts x c v rd :
  allJustified bound h (ratesAfter s bound now prev pts).1 -> allJustified bound h prev ->
  selectedAs s x = Some (c, v) -> (forall e, energyPointOf s x = Some e -> e ∈ h) ->
  reads s bound now prev h pts c rd ->
  reads s bound now prev h (pts ++ [x])%list c
    (readValue FormatFloat s bound now prev (rp_resID x) (rp_name x) (rp_delta x) (rp_point x) v (ratesAfter s bound now prev pts).1 rd).2.
Proof.
  intros Hn Hp Hx He (H1 & H2 & (Hf & H3 & H3') & H4). set (next := (ratesAfter _ _ _ _ _).1) in *. rewrite readValue_eq. cbn [snd].
  assert (forall rd', rd_energyOK rd' || rd_gaugeOK rd' || rd_energyCold rd' = rd_energyOK rd || rd_gaugeOK rd || rd_energyCold rd ->
    usable s x = false -> (exists y v, y ∈ (pts ++ [x])%list /\ selectedAs s y = Some (c, v) /\ usable s y = true) ->
    rd_energyOK rd' || rd_gaugeOK rd' || rd_energyCold rd' = true) as Hun.
  { intros rd' -> Eu (y & v' & Hy & Hs & Hu). apply H4. exists y, v'. split; [|done].
    apply elem_of_app in Hy as [Hy | ->%list_elem_of_singleton]; [done|congruence]. }
  pose proof (energyRates_mono s bound h pts x c _ Hf) as Hf'.
  unfold reads. rewrite gaugesOf_snoc, ratesOf_snoc, Hx, bool_decide_true, andb_true_r by done. fold next.
  destruct (isGauge s x) eqn:Eg.
  { assert (rateOf s bound now prev next x v = None) as -> by (unfold rateOf, isDelta, isCumulative; by rewrite Eg).
    cbn. rewrite !app_nil_r, foldl_snoc, snoc_not_nil, H1. split; [done|]. split; [done|]. split; [done|]. intros _. by rewrite orb_true_r. }
  rewrite app_nil_r. destruct (rateOf s bound now prev next x v) as [w|] eqn:Er; cbn [option_list].
  - cbn. rewrite foldl_snoc, snoc_not_nil, H3. split; [done|]. split; [done|]. split; [|done]. split; [|done].
    apply Forall_app. split; [done|]. constructor; [|constructor]. 
    apply (rateOf_energyRate s bound now prev h _ x c v next w Hn Hp Hx He); [set_solver|exact Er].
  - rewrite app_nil_r. destruct (isCumulative s x) eqn:Ec; (split; [done|]; split; [done|]; split; [done|]).
    + intros _. cbn. by rewrite orb_true_r.
    + apply Hun; [done|]. unfold usable. rewrite Eg, Ec. unfold rateOf in Er. by destruct (isDelta s x).
Qed.

(** The maps after the points [pts] of a document. *)
Definition tallied (s : Selector) (bound now : Z) (prev : gmap string powerSeries) (h : list energyPoint) (pts : list rawPoint)
    (acc : tally) : Prop :=
  acc.1 = (ratesAfter s bound now prev pts).1 /\ allJustified bound h acc.1 /\
  (forall c, reads s bound now prev h pts c (default noReading (acc.2 !! c))) /\
  (forall x c v, x ∈ pts -> selectedAs s x = Some (c, v) -> is_Some (acc.2 !! c)).

Lemma readRaw_tallied s bound now prev h pts x acc :
  allJustified bound h prev -> (forall e, energyPointOf s x = Some e -> e ∈ h) ->
  tallied s bound now prev h pts acc -> tallied s bound now prev h (pts ++ [x])%list (readRaw s bound now prev acc x).
Proof.
  intros Hp He (En & Hn & Hr & Hc). unfold readRaw, readPoint, tallied. rewrite ratesAfter_snoc. unfold rateStep.
  destruct (selectedAs s x) as [[c v]|] eqn:Hx; pose proof Hx as Hx'; unfold selectedAs in Hx'.
  2: { assert (readPoint FormatFloat s bound now prev (rp_resID x) (rp_name x) (rp_delta x) acc (rp_point x) = acc) as Ea.
       { unfold readPoint. destruct (powerSelect _ _ _ _); [|done]. by destruct (powerValue _). }
       unfold readPoint in Ea. rewrite Ea. split; [done|]. split; [done|]. split.
       - intros c. apply reads_other; [by rewrite Hx|apply Hr].
       - intros y c v [Hy | ->%list_elem_of_singleton]%elem_of_app Hs; [by eapply Hc|congruence]. }
  destruct (powerSelect _ _ _ _) as [c0|]; [|done]. destruct (powerValue _) as [v0|]; [|done]. injection Hx' as -> ->.
  rewrite En in Hn. pose proof (reads_snoc s bound now prev h pts x c v _ Hn Hp Hx He (Hr c)) as Hrd.
  rewrite En. rewrite readValue_eq in *. cbn [fst snd] in *. split; [done|].
  split; [by eapply keepsIn_justified|]. split.
  - intros c'. destruct (decide (c' = c)) as [->|Hne]; [by rewrite lookup_insert_eq|].
    rewrite lookup_insert_ne by done. apply reads_other; [|apply Hr]. rewrite Hx. intros v' [=]. done.
  - intros y c' v' [Hy | ->%list_elem_of_singleton]%elem_of_app Hs.
    + apply lookup_insert_is_Some'. right. by eapply Hc.
    + rewrite Hx in Hs. injection Hs as <- <-. rewrite lookup_insert_eq. done.
Qed.

Lemma readDocument_tallied s bound now prev h md :
  allJustified bound h prev -> energyPoints s md ⊆ h ->
  tallied s bound now prev h (documentPoints s md) (readDocument FormatFloat s bound now prev md).
Proof.
  intros Hp. rewrite readDocument_points. unfold energyPoints.
  enough (forall pts seen acc, omap (energyPointOf s) pts ⊆ h -> tallied s bound now prev h seen acc ->
            tallied s bound now prev h (seen ++ pts)%list (fold_left (readRaw s bound now prev) pts acc)) as H.
  { intros Hs. apply (H _ [] (∅, ∅) Hs). split; [done|]. split; [intros id sr; cbn [fst]; by rewrite lookup_empty|].
    split; [intros c; apply reads_none|]. by intros x c v []%elem_of_nil. }
  induction pts as [|x pts IH]; intros seen acc Hs Ht; cbn; [by rewrite app_nil_r|].
  change (x :: pts) with ([x] ++ pts)%list. rewrite app_assoc. apply IH.
  - intros e He. apply Hs. apply list_elem_of_omap in He as (y & Hy & Hye). apply list_elem_of_omap. exists y.
    split; [by right|done].
  - apply readRaw_tallied; [done| |done]. intros e He. apply Hs. apply list_elem_of_omap. exists x. split; [by left|done].
Qed.

Lemma advance_follows bound now id o cur :
  follows bound (keptOf id o) (keptOf id cur) ->
  sr_hasWatts (advance bound now (Some o) cur) = true /\
  sr_watts (advance bound now (Some o) cur) = rateBetween (keptOf id o) (keptOf id cur).
Proof.
  intros (_ & Hs & Ht & He). cbn in Hs, Ht, He. unfold advance. rewrite He.
  repeat case_match; try done; lia.
Qed.

(** A point that continues the one kept of its series, where that is a
    cumulative one, gives the rate between the two. *)
Lemma follows_rate s bound now prev p1 x p2 c v e o :
  selectedAs s x = Some (c, v) -> energyPointOf s x = Some e ->
  keptPoint prev (ratesAfter s bound now prev p1).1 (ep_id e) = Some o -> follows bound (keptOf (ep_id e) o) e ->
  rateBetween (keptOf (ep_id e) o) e ∈ ratesOf s bound now prev c (p1 ++ x :: p2)%list.
Proof.
  intros Hx He Ho Hf. unfold energyPointOf in He. rewrite Hx in He.
  destruct (isCumulative s x) eqn:Ec; [|done]. injection He as <-. cbn [ep_id] in *. change (seriesID _ _ _ _) with (seriesOf x) in *.
  change (x :: p2) with ([x] ++ p2)%list. rewrite app_assoc. destruct (ratesOf_app s bound now prev c (p1 ++ [x])%list p2) as [l ->].
  apply elem_of_app. left. rewrite ratesOf_snoc, Hx, bool_decide_true by done. apply elem_of_app. right.
  assert (isDelta s x = false) as Ed.
  { unfold isDelta, isCumulative in *. destruct (isGauge s x), (rp_delta x); done. }
  unfold rateOf, keepsNow. rewrite Ed, Ec, Ho. cbv zeta.
  destruct (advance_follows bound now (seriesOf x) o (pointOf now (rp_point x) v) Hf) as [-> ->]. by apply list_elem_of_singleton.
Qed.

(** ** The sum *)

Lemma componentLess_cases (a b : powerComponent) :
  componentLess a b = true <-> str_less a.1 b.1 = true \/ (a.1 = b.1 /\ str_less a.2 b.2 = true).
Proof.
  unfold componentLess. destruct (String.eqb_spec a.1 b.1) as [->|N]; cbn.
  - rewrite less_irrefl. naive_solver.
  - naive_solver.
Qed.

#[export] Instance componentLess_strict : StrictTotal componentLess.
Proof.
  split.
  - intros a. apply not_true_iff_false. rewrite componentLess_cases, !less_irrefl. naive_solver.
  - intros a b c. rewrite !componentLess_cases. intros [H1|[E1 H1]] [H2|[E2 H2]].
    + left. by eapply less_trans.
    + left. by rewrite <- E2.
    + left. by rewrite E1.
    + right. split; [congruence|]. by eapply less_trans.
  - intros [a b] [a' b'] H1 H2. apply not_true_iff_false in H1, H2. rewrite componentLess_cases in H1, H2. cbn in *.
    assert (a = a') as <-.
    { apply less_total; apply not_true_iff_false; naive_solver. }
    f_equal. apply less_total; apply not_true_iff_false; naive_solver.
Qed.

(** The power a reading gives its component. *)
Definition componentPower (rd : powerReading) : option float64 :=
  if rd_energyOK rd then Some (rd_energyW rd) else if rd_gaugeOK rd then Some (rd_gaugeW rd) else None.

Definition powers (comps : gmap powerComponent powerReading) (keys : list powerComponent) : list (powerComponent * float64) :=
  omap (fun c => (fun v => (c, v)) <$> componentPower (default noReading (comps !! c))) keys.

Lemma powers_cons comps c keys :
  powers comps (c :: keys) =
  match componentPower (default noReading (comps !! c)) with
  | Some v => (c, v) :: powers comps keys
  | None => powers comps keys
  end.
Proof. unfold powers. cbn. by destruct (componentPower _). Qed.

Lemma sumComponents_ok comps keys total counted w :
  sumComponents comps keys total counted = (w, true) ->
  w = foldl fadd total (powers comps keys).*2 /\ (counted + length (powers comps keys) > 0)%nat /\
  (forall c, c ∈ keys -> rd_energyCold (default noReading (comps !! c)) = true -> c ∈ (powers comps keys).*1).
Proof.
  revert total counted. induction keys as [|c keys IH]; intros total counted; [cbn|rewrite powers_cons; cbn [sumComponents]].
  - intros [= <- H]. split; [done|]. split; [by destruct counted; [|lia]|]. by intros c []%elem_of_nil.
  - unfold componentPower. set (rd := default noReading (comps !! c)).
    destruct (rd_energyOK rd) eqn:Ee; [|destruct (rd_gaugeOK rd) eqn:Eg; [|destruct (rd_energyCold rd) eqn:Ec; [done|]]];
      intros (Hw & Hn & Hc)%IH; cbn; (split; [done|]); (split; [lia|]); intros c' [-> | Hin]%elem_of_cons Hcold;
      try by left. 1,2: right; by apply Hc. all: fold rd in Hcold; try congruence. by apply Hc.
Qed.

Lemma powers_sorted comps keys :
  StronglySorted (not_after componentLess) keys -> StronglySorted (not_after componentLess) (powers comps keys).*1.
Proof.
  intros H. induction H as [|c keys Hs IH Hf]; [constructor|rewrite powers_cons].
  destruct (componentPower _) as [v|]; cbn; [|done]. constructor; [done|].
  apply Forall_forall. intros c' ((c2 & v') & -> & Hc)%list_elem_of_fmap. apply list_elem_of_omap in Hc as (k & Hk & E).
  destruct (componentPower _); [|done]. injection E as <- _. cbn. rewrite Forall_forall in Hf. by apply Hf.
Qed.

Lemma powers_NoDup comps keys : NoDup keys -> NoDup (powers comps keys).*1.
Proof.
  intros H. induction H as [|c keys Hc Hs IH]; [constructor|rewrite powers_cons].
  destruct (componentPower _) as [v|]; cbn; [|done]. constructor; [|done].
  intros ((c2 & v') & -> & Hin)%list_elem_of_fmap. apply list_elem_of_omap in Hin as (k & Hk & E).
  destruct (componentPower _); [|done]. injection E as <- _. done.
Qed.

(** ** Reading a node's documents one after another *)

(** A request: the clock, the document and what is selected. *)
Definition request : Type := Z * MetricsData * Selector.

Definition readAll (r : PowerReader) (l : list request) : PowerReader :=
  fold_left (fun r '(now, md, s) => (Watts r now md s).2) l r.

Definition readerJustified (r : PowerReader) (h : string -> list energyPoint) : Prop :=
  forall key m, pr_series r !! key = Some m -> allJustified (powerBound r) (h key) m.

(** The energy points read under a key. *)
Definition keyHistory (l : list request) (key : string) : list energyPoint :=
  concat ((fun '(_, md, s') => if String.eqb (selectorKey s') key then energyPoints s' md else []) <$> l).

Lemma keyHistory_snoc l now md s key :
  keyHistory (l ++ [(now, md, s)])%list key =
  (keyHistory l key ++ (if String.eqb (selectorKey s) key then energyPoints s md else []))%list.
Proof. unfold keyHistory. rewrite fmap_app, concat_app. cbn. by rewrite app_nil_r. Qed.

Lemma Watts_bound r now md s : powerBound (Watts r now md s).2 = powerBound r.
Proof. unfold Watts. by destruct (readDocument _ _ _ _ _ _). Qed.

(** What a reader keeps under the key of a selector. *)
Definition keptUnder (r : PowerReader) (s : Selector) : gmap string powerSeries := default ∅ (pr_series r !! selectorKey s).

Lemma keptUnder_justified r s h md : readerJustified r h ->
  allJustified (powerBound r) (h (selectorKey s) ++ energyPoints s md)%list (keptUnder r s).
Proof.
  intros Hr i sr Hi. unfold keptUnder in Hi. destruct (pr_series r !! selectorKey s) as [m'|] eqn:Em; cbn in Hi;
    [|apply lookup_empty_Some in Hi; done].
  eapply justified_mono; [|by eapply Hr]. set_solver.
Qed.

Lemma Watts_justified r now md s l :
  readerJustified r (keyHistory l) -> readerJustified (Watts r now md s).2 (keyHistory (l ++ [(now, md, s)])%list).
Proof.
  intros Hr key m Hm id sr. revert Hm. rewrite Watts_bound. rewrite keyHistory_snoc. unfold Watts. fold (keptUnder r s).
  pose proof (readDocument_tallied s (powerBound r) now (keptUnder r s)
    (keyHistory l (selectorKey s) ++ energyPoints s md)%list md) as Ht.
  destruct (readDocument _ _ _ _ _ _) as [next comps]. cbn [snd pr_series]. intros Hm Hid.
  destruct Ht as (_ & Hn & _); [by apply keptUnder_justified|set_solver|].
  destruct (decide (key = selectorKey s)) as [->|Hne].
  - rewrite String.eqb_refl. case_decide; [by rewrite lookup_delete_eq in Hm|].
    rewrite lookup_insert_eq in Hm. injection Hm as <-. by apply Hn.
  - assert (pr_series r !! key = Some m) as Hm' by (case_decide; simplify_map_eq; done).
    eapply justified_mono; [|by eapply Hr]. set_solver.
Qed.

Lemma readAll_bound r l : powerBound (readAll r l) = powerBound r.
Proof.
  revert r. induction l as [|[[now md] s] l IH]; intros r; [done|].
  change (powerBound (readAll (Watts r now md s).2 l) = powerBound r). rewrite IH. apply Watts_bound.
Qed.

Lemma readAll_justified maxInterval l :
  readerJustified (readAll {| pr_MaxInterval := maxInterval; pr_series := ∅ |} l) (keyHistory l).
Proof.
  induction l as [|[[now md] s] l IH] using rev_ind.
  - intros key m. cbn [readAll fold_left pr_series]. by rewrite lookup_empty.
  - unfold readAll in *. rewrite fold_left_app. cbn. by apply Watts_justified.
Qed.

(** What the answer of a reader in a state [h] justifies is made of. *)
Lemma Watts_answer r now md s l w r' :
  readerJustified r (keyHistory l) -> Watts r now md s = (w, true, r') ->
  let h := (keyHistory l (selectorKey s) ++ energyPoints s md)%list in
  let pts := documentPoints s md in
  let rates c := ratesOf s (powerBound r) now (keptUnder r s) c pts in
  exists vs : list (powerComponent * float64), vs <> [] /\ StronglySorted (not_after componentLess) vs.*1 /\ NoDup vs.*1 /\
    w = foldl fadd fzero vs.*2 /\
    (forall x c v, x ∈ pts -> selectedAs s x = Some (c, v) -> usable s x = true -> c ∈ vs.*1) /\
    (forall c v, (c, v) ∈ vs ->
       Forall (energyRate s (powerBound r) h pts c) (rates c) /\
       (if is_nil (rates c) then gaugesOf s c pts <> [] /\ v = foldl fmax fzero (gaugesOf s c pts)
        else v = foldl fmax fzero (rates c))).
Proof.
  intros Hr Hw h pts rates. unfold Watts in Hw. fold (keptUnder r s) in Hw.
  pose proof (readDocument_tallied s (powerBound r) now (keptUnder r s) h md) as Ht.
  destruct (readDocument _ _ _ _ _ _) as [next comps]. injection Hw as Hw _.
  destruct Ht as (_ & _ & Hreads & Hcomps); [by apply keptUnder_justified|set_solver|].
  cbn [snd] in *. set (keys := sort_slice componentLess (map_to_list comps).*1) in *.
  assert (forall c, is_Some (comps !! c) -> c ∈ keys) as Hkeys.
  { intros c [rd Hc]. unfold keys. rewrite sort_slice_perm. apply list_elem_of_fmap. exists (c, rd). split; [done|].
    by apply elem_of_map_to_list. }
  apply sumComponents_ok in Hw as (-> & Hn & Hcold). exists (powers comps keys).
  split; [intros E; rewrite E in Hn; cbn in Hn; lia|]. split; [apply powers_sorted, sort_slice_sorted, _|].
  split; [apply powers_NoDup; unfold keys; rewrite sort_slice_perm; apply NoDup_fst_map_to_list|]. split; [done|]. split.
  - intros x c v Hx Hs Hu. pose proof (Hkeys c (Hcomps x c v Hx Hs)) as Hk.
    destruct (Hreads c) as (_ & _ & _ & Hany).
    specialize (Hany (ex_intro _ x (ex_intro _ v (conj Hx (conj Hs Hu))))).
    destruct (componentPower (default noReading (comps !! c))) as [v'|] eqn:Ep.
    + apply list_elem_of_fmap. exists (c, v'). split; [done|]. apply list_elem_of_omap. exists c. by rewrite Ep.
    + apply Hcold; [done|]. unfold componentPower in Ep. repeat case_match; naive_solver.
  - intros c v (k & Hk & E)%list_elem_of_omap. destruct (componentPower _) as [v'|] eqn:Ep; [|done].
    injection E as -> ->. destruct (Hreads c) as (Hg & Hgok & (Hf & He & Hok) & _). fold pts in Hg, Hgok, Hf, He, Hok.
    fold (rates c) in Hf, He, Hok. split; [done|]. unfold componentPower in Ep. rewrite Hok, He, Hgok, Hg in Ep.
    destruct (is_nil (rates c)); cbn [negb] in Ep; [|by injection Ep as <-].
    destruct (gaugesOf s c pts); [done|]. by injection Ep as <-.
Qed.

(** C30. The power a reader answers with is explained by what it was sent: it
    is the sum, in a fixed order, over distinct components of the document,
    every component with a usable point among them, of the largest of the
    component's energy rates in the document or, only for a component without
    one, of its largest power gauge. An energy rate is a delta of this
    document over its own interval, or the energy between two points of one
    series and one lifetime, read under the same selector, whose times are no
    further apart than the window and whose energy did not fall; nothing else
    is ever in a rate, whatever the order, the repetition and the resets of
    the documents, and every point that so continues the point kept of its
    series does give its rate. *)
Theorem Watts_explained (maxInterval now : Z) (l : list request) (md : MetricsData) (s : Selector) (w : float64)
    (r' : PowerReader) :
  let r0 := {| pr_MaxInterval := maxInterval; pr_series := ∅ |} in
  Watts (readAll r0 l) now md s = (w, true, r') ->
  let h := (keyHistory l (selectorKey s) ++ energyPoints s md)%list in
  let pts := documentPoints s md in
  let bound := powerBound r0 in
  let prev := keptUnder (readAll r0 l) s in
  let rates c := ratesOf s bound now prev c pts in
  (exists vs : list (powerComponent * float64),
    vs <> [] /\ StronglySorted (not_after componentLess) vs.*1 /\ NoDup vs.*1 /\
    w = foldl fadd fzero vs.*2 /\
    (forall x c v, x ∈ pts -> selectedAs s x = Some (c, v) -> usable s x = true -> c ∈ vs.*1) /\
    (forall c v, (c, v) ∈ vs ->
       Forall (energyRate s bound h pts c) (rates c) /\
       (if is_nil (rates c) then gaugesOf s c pts <> [] /\ v = foldl fmax fzero (gaugesOf s c pts)
        else v = foldl fmax fzero (rates c)))) /\
  (forall p1 x p2 c v e o, pts = (p1 ++ x :: p2)%list -> selectedAs s x = Some (c, v) -> energyPointOf s x = Some e ->
     keptPoint prev (ratesAfter s bound now prev p1).1 (ep_id e) = Some o -> follows bound (keptOf (ep_id e) o) e ->
     rateBetween (keptOf (ep_id e) o) e ∈ rates c).
Proof.
  intros r0 Hw h pts bound prev rates. split.
  - unfold rates, bound. rewrite <- (readAll_bound r0 l). by eapply Watts_answer; [apply readAll_justified|].
  - intros p1 x p2 c v e o E. unfold rates. rewrite E. apply follows_rate.
Qed.

(** ** Warming up *)

(** The point as it is kept when it starts a series. *)
Definition firstKept (now : Z) (e : energyPoint) : powerSeries := {|
  sr_start := ep_start e; sr_time := ep_time e; sr_energyJ := ep_energyJ e;
  sr_watts := fzero; sr_hasWatts := false; sr_kept := now |}.

(** A document that names no series twice: each point meets the one kept from
    the documents before. *)
Definition once (s : Selector) (bound now : Z) (prev : gmap string powerSeries) (es : list energyPoint) (acc : tally) : Prop :=
  (forall id, is_Some (acc.1 !! id) -> id ∈ ep_id <$> es) /\
  (forall e, e ∈ es -> acc.1 !! ep_id e = Some (advance bound now (prev !! ep_id e) (firstKept now e))) /\
  (forall c, rd_energyCold (default noReading (acc.2 !! c)) = true ->
     exists e, e ∈ es /\ sr_hasWatts (advance bound now (prev !! ep_id e) (firstKept now e)) = false).

Lemma once_same s bound now prev es acc x :
  energyPointOf s x = None -> once s bound now prev es acc -> once s bound now prev es (readRaw s bound now prev acc x).
Proof.
  intros He (H1 & H2 & H3). unfold energyPointOf, selectedAs in He. unfold readRaw, readPoint.
  destruct (powerSelect _ _ _ _) as [c|]; [|done]. destruct (powerValue (rp_point x)) as [v|]; [|done].
  unfold readValue. unfold isCumulative, isGauge in He.
  assert (forall rd, rd_energyCold rd = rd_energyCold (default noReading (acc.2 !! c)) ->
            once s bound now prev es (acc.1, <[c := rd]> acc.2)) as Hsame.
  { intros rd Erd. split; [done|]. split; [done|]. intros c'. cbn. destruct (decide (c' = c)) as [->|Hne].
    - rewrite lookup_insert_eq. cbn. rewrite Erd. apply H3.
    - rewrite lookup_insert_ne by done. apply H3. }
  destruct (String.eqb (rp_name x) (powerName s)); [by apply Hsame|].
  destruct (rp_delta x).
  { destruct ((dp_StartTimeUnixNano (rp_point x) =? 0)%Z || _); by apply Hsame. }
  destruct (dp_TimeUnixNano (rp_point x) =? 0)%Z; [by apply Hsame|done].
Qed.

Lemma once_snoc s bound now prev es acc x e :
  energyPointOf s x = Some e -> ep_id e ∉ ep_id <$> es ->
  once s bound now prev es acc -> once s bound now prev (es ++ [e])%list (readRaw s bound now prev acc x).
Proof.
  intros He Hid (H1 & H2 & H3). unfold energyPointOf, selectedAs in He. unfold readRaw, readPoint.
  destruct (powerSelect _ _ _ _) as [c|]; [|done]. destruct (powerValue (rp_point x)) as [v|] eqn:Ev; [|done].
  destruct (isCumulative s x) eqn:Ec; [|done]. injection He as He.
  unfold isCumulative, isGauge in Ec. apply andb_true_iff in Ec as [[Eg Ed]%andb_true_iff Et].
  apply negb_true_iff in Eg, Ed, Et. unfold readValue. rewrite Eg, Ed, Et.
  set (id := seriesID _ _ _ _) in *. assert (ep_id e = id) as Eid by (by subst e).
  assert (acc.1 !! id = None) as En.
  { destruct (acc.1 !! id) eqn:E; [|done]. destruct Hid. rewrite Eid. apply H1. by eexists. }
  rewrite En. assert (pointOf now (rp_point x) v = firstKept now e) as -> by (by subst e).
  cbn beta iota zeta.
  rewrite <- Eid. clearbody id. clear He. set (cur := advance _ _ _ _).
  split; [|split]; cbn.
  - intros i. rewrite fmap_app. cbn. destruct (decide (i = ep_id e)) as [->|Hne]; [set_solver|].
    rewrite lookup_insert_ne by done. intros Hi. apply elem_of_app. left. by apply H1.
  - intros e' [Hin | ->%list_elem_of_singleton]%elem_of_app; [|by rewrite lookup_insert_eq].
    rewrite lookup_insert_ne; [by apply H2|]. intros E. destruct Hid. rewrite E. apply list_elem_of_fmap. by exists e'.
  - intros c'. destruct (decide (c' = c)) as [->|Hne].
    + rewrite lookup_insert_eq. cbn. destruct (sr_hasWatts cur) eqn:Ew; cbn.
      * intros (e' & He' & Hw)%H3. exists e'. split; [set_solver|done].
      * intros _. exists e. split; [set_solver|done].
    + rewrite lookup_insert_ne by done. intros (e' & He' & Hw)%H3. exists e'. split; [set_solver|done].
Qed.

Lemma readDocument_once s bound now prev md :
  NoDup (ep_id <$> energyPoints s md) ->
  once s bound now prev (energyPoints s md) (readDocument FormatFloat s bound now prev md).
Proof.
  rewrite readDocument_points. unfold energyPoints.
  enough (forall pts es acc, NoDup (ep_id <$> (es ++ omap (energyPointOf s) pts)%list) -> once s bound now prev es acc ->
            once s bound now prev (es ++ omap (energyPointOf s) pts)%list (fold_left (readRaw s bound now prev) pts acc)) as H.
  { intros Hnd. apply (H _ [] (∅, ∅) Hnd). split; [intros id; cbn [fst]; rewrite lookup_empty; by intros []|].
    split; [by intros e []%elem_of_nil|]. intros c Hc. done. }
  induction pts as [|x pts IH]; intros es acc Hnd Ho; [by rewrite app_nil_r|]. cbn [fold_left].
  cbn in *. destruct (energyPointOf s x) as [e|] eqn:He; [|apply IH; [done|by apply once_same]].
  change (e :: omap (energyPointOf s) pts) with ([e] ++ omap (energyPointOf s) pts)%list in *.
  rewrite app_assoc in *. apply IH; [done|]. apply once_snoc; [done| |done].
  rewrite !fmap_app in Hnd. cbn in Hnd. apply NoDup_app in Hnd as (Hnd & _). apply NoDup_app in Hnd as (_ & Hd & _).
  intros Hin. apply (Hd _ Hin). by left.
Qed.

Lemma follows_warm bound now id old e :
  follows bound (keptOf id old) e -> sr_hasWatts (advance bound now (Some old) (firstKept now e)) = true.
Proof.
  intros (_ & Hs & Ht & He). unfold advance. cbn in *.
  repeat case_match; try done; lia || congruence.
Qed.


Lemma sumComponents_warm comps keys total counted :
  (forall c, c ∈ keys -> rd_energyCold (default noReading (comps !! c)) = false) ->
  (counted > 0)%nat \/ (exists c, c ∈ keys /\ is_Some (componentPower (default noReading (comps !! c)))) ->
  (sumComponents comps keys total counted).2 = true.
Proof.
  revert total counted. induction keys as [|c keys IH]; intros total counted Hcold Hn.
  - cbn. destruct Hn as [H|(c & []%elem_of_nil & _)]. by destruct counted; [lia|].
  - cbn [sumComponents]. pose proof (Hcold c ltac:(by left)) as Hc.
    assert (forall c', c' ∈ keys -> rd_energyCold (default noReading (comps !! c')) = false) as Hcold'
      by (intros c' Hc'; apply Hcold; by right).
    destruct (rd_energyOK _) eqn:Ee; [apply IH; [done|left; lia]|].
    destruct (rd_gaugeOK _) eqn:Eg; [apply IH; [done|left; lia]|]. rewrite Hc. apply IH; [done|].
    destruct Hn as [H|(c' & [-> | Hin]%elem_of_cons & Hp)]; [by left| |right; by exists c'].
    unfold componentPower in Hp. rewrite Ee, Eg in Hp. by destruct Hp.
Qed.

(** A reader is warm at the second document: when a document names each
    of its energy series once and a second one continues each of them within
    the window, in the same lifetime and with no less energy, a reader that
    had read nothing under the selector answers the second request, whatever
    gauges there are, as long as something of the second document is
    selected. *)
Theorem reader_warms_up (r : PowerReader) (now1 now2 : Z) (md1 md2 : MetricsData) (s : Selector) :
  pr_series r !! selectorKey s = None ->
  NoDup (ep_id <$> energyPoints s md1) -> NoDup (ep_id <$> energyPoints s md2) ->
  (forall b, b ∈ energyPoints s md2 -> exists a, a ∈ energyPoints s md1 /\ follows (powerBound r) a b) ->
  (exists x c v, x ∈ documentPoints s md2 /\ selectedAs s x = Some (c, v) /\ usable s x = true) ->
  (Watts (Watts r now1 md1 s).2 now2 md2 s).1.2 = true.
Proof.
  intros Hr Hnd1 Hnd2 Hfol (x & c & v & Hx & Hs & Hu).
  pose proof (readDocument_once s (powerBound r) now1 ∅ md1 Hnd1) as (_ & Hkept & _).
  pose proof (readDocument_tallied s (powerBound r) now1 ∅ (energyPoints s md1) md1) as (_ & Hjust & _).
  { intros id sr. by rewrite lookup_empty. }
  { done. }
  assert (exists next1, default ∅ (pr_series (Watts r now1 md1 s).2 !! selectorKey s) = next1 /\
    (forall a, a ∈ energyPoints s md1 -> exists sr, next1 !! ep_id a = Some sr /\ keptOf (ep_id a) sr = a) /\
    (forall id sr, next1 !! id = Some sr -> justified (powerBound r) (energyPoints s md1) id sr)) as (next1 & E1 & Hnext & Hj).
  { eexists. split; [reflexivity|]. unfold Watts. rewrite Hr. cbn [from_option].
    destruct (readDocument _ _ _ _ _ _) as [next comps]. cbn [snd fst pr_series] in *. case_decide as Hd.
    - rewrite lookup_delete_eq. cbn [from_option]. subst next. split; [|intros id sr; by rewrite lookup_empty].
      intros a Ha. specialize (Hkept a Ha). by rewrite lookup_empty in Hkept.
    - rewrite lookup_insert_eq. cbn [from_option id]. split; [|done]. intros a Ha. exists (firstKept now1 a).
      split; [|by destruct a]. rewrite (Hkept a Ha). by rewrite lookup_empty. }
  unfold Watts at 1. rewrite Watts_bound, E1.
  pose proof (readDocument_once s (powerBound r) now2 next1 md2 Hnd2) as (_ & _ & Hcold).
  pose proof (readDocument_tallied s (powerBound r) now2 next1 (energyPoints s md1 ++ energyPoints s md2)%list md2) as (_ & _ & Hreads & Hcomps).
  { intros id sr Hi. eapply justified_mono; [|by apply Hj]. set_solver. }
  { set_solver. }
  destruct (readDocument FormatFloat s (powerBound r) now2 next1 md2) as [next comps]. cbn [snd fst] in *.
  assert (forall c, rd_energyCold (default noReading (comps !! c)) = false) as Hwarm.
  { intros c'. apply not_true_iff_false. intros (e & He & Hw)%Hcold. destruct (Hfol e He) as (a & Ha & Hf).
    destruct (Hnext a Ha) as (sr & Hsr & Hk). assert (ep_id e = ep_id a) as Eid by (symmetry; apply Hf).
    rewrite Eid, Hsr in Hw. rewrite <- Hk in Hf. by rewrite (follows_warm _ now2 _ _ _ Hf) in Hw. }
  apply sumComponents_warm; [done|]. right. exists c. split.
  - rewrite sort_slice_perm. apply list_elem_of_fmap. destruct (Hcomps x c v Hx Hs) as [rd Hrd]. exists (c, rd).
    split; [done|]. by apply elem_of_map_to_list.
  - destruct (Hreads c) as (_ & _ & _ & Hany). specialize (Hany (ex_intro _ x (ex_intro _ v (conj Hx (conj Hs Hu))))).
    rewrite Hwarm, orb_false_r in Hany. unfold componentPower. destruct (rd_energyOK _); [done|].
    cbn in Hany. by rewrite Hany.
Qed.

(** ** A power is a number *)

(** Nanoseconds, an unsigned 64-bit count, as a positive number of seconds. *)
Lemma powerSeconds_pos (ns : Z) : (0 < ns < 2 ^ 64)%Z -> flt fzero (powerSeconds ns) = true.
Proof.
  intros Hns. unfold powerSeconds. pose proof (pow2_pos scale ltac:(unfold scale; lia)) as Hp.
  pose proof (binary_normalize_Rounds ns 0 false ltac:(lia) ltac:(lia)) as Rn. fold (fofZ ns) in Rn.
  change (0 + scale)%Z with scale in Rn.
  assert (sval (fofZ (2 ^ 64)) = 2 ^ 64 * 2 ^ scale)%Z as Sh by (vm_compute; reflexivity).
  assert (nonneg (fofZ (2 ^ 64))) as Nh by (split; [|split]; vm_compute; reflexivity).
  assert (nonneg (fofZ ns)) as Nn.
  { apply (Rounds_nonneg _ _ _ (fofZ (2 ^ 64)) Rn); [|apply Nh]. apply (Rounds_le _ _ _ Rn); [apply Nh..|].
    rewrite Sh. nia. }
  assert (2 ^ scale <= sval (fofZ ns))%Z as Hs.
  { rewrite <- sval_one. assert (nonneg fone) as N1 by (split; [|split]; vm_compute; reflexivity).
    apply fle_sval; [apply N1|apply Nn|apply N1|apply Nn|]. apply (Rounds_ge _ _ _ Rn); [apply N1..|].
    rewrite sval_one. nia. }
  destruct (fofZ_exact 1000000000) as (Ng & Sg & _); [lia|].
  assert (0 < sval (fofZ 1000000000))%Z as Pg by (rewrite Sg; lia).
  pose proof (fdiv_Rounds _ _ Nn Ng Pg) as HR. rewrite Sg in HR.
  destruct (dyadic_double 1 30) as (z & Nz & Sz & _); [lia..|].
  pose proof (pow2_pos (scale - 30) ltac:(unfold scale; lia)) as Hq.
  assert (fle z (fdiv (fofZ ns) (fofZ 1000000000)) = true) as Hz.
  { apply (Rounds_ge _ _ _ HR); [apply Nz..|]. rewrite Sz.
    assert (2 ^ scale = 2 ^ 30 * 2 ^ (scale - 30))%Z as E by (rewrite <- pow2_split by (unfold scale; lia); f_equal).
    rewrite E in Hs |- *. nia. }
  assert (flt fzero z = true) as Hpos by (apply flt_sval; [done|apply Nz|done|apply Nz|]; rewrite Sz; change (sval fzero) with 0%Z; nia).
  forder.
Qed.

(** What decoding gives: doubles that are doubles, times that are unsigned
    64-bit counts. *)
Definition decoded (x : rawPoint) : Prop :=
  (forall d, dp_AsDouble (rp_point x) = Some d -> valid d) /\
  (0 <= dp_StartTimeUnixNano (rp_point x) < 2 ^ 64)%Z /\ (0 <= dp_TimeUnixNano (rp_point x) < 2 ^ 64)%Z.

Definition sound (e : energyPoint) : Prop := nonneg (ep_energyJ e) /\ (0 <= ep_time e < 2 ^ 64)%Z.

Lemma selectedAs_nonneg s x c v : decoded x -> selectedAs s x = Some (c, v) -> nonneg v.
Proof.
  intros (Hd & _) Hs. unfold selectedAs in Hs. destruct (powerSelect _ _ _ _); [|done].
  destruct (powerValue (rp_point x)) as [v'|] eqn:Ev; [|done]. injection Hs as _ ->.
  unfold powerValue, Float64 in Ev.
  assert (exists f, valid f /\ (if negb (is_finite f) || flt f fzero then None else Some f) = Some v) as (f & Vf & E).
  { destruct (dp_AsDouble (rp_point x)) as [d|] eqn:E; [exists d; split; [by apply Hd|done]|].
    destruct (dp_AsInt (rp_point x)) as [i|]; [|done]. exists (fofZ i). split; [apply fofZ_valid|done]. }
  destruct (is_finite f) eqn:Ef; [|done]. destruct (flt f fzero) eqn:El; [done|]. injection E as <-.
  pose proof (is_finite_not_nan f Ef) as Nf. assert (is_nan fzero = false) as N0 by done.
  split; [done|]. split; [done|]. clear -Nf N0 El. forder.
Qed.

Lemma energyPoints_sound s md : Forall decoded (documentPoints s md) -> Forall sound (energyPoints s md).
Proof.
  intros H. apply Forall_forall. intros e (x & Hx & He)%list_elem_of_omap. rewrite Forall_forall in H.
  specialize (H x Hx). unfold energyPointOf in He. destruct (selectedAs s x) as [[c v]|] eqn:Es; [|done].
  destruct (isCumulative s x); [|done]. injection He as <-. split; [by eapply selectedAs_nonneg|apply H].
Qed.

Lemma energyRate_nonneg s bound h pts c w :
  Forall sound h -> Forall decoded pts -> energyRate s bound h pts c w -> fle fzero w = true.
Proof.
  rewrite !Forall_forall. intros Hh Hp (x & v & Hx & Hs & [(Hd & ->)|(_ & a & b & Ha & Hb & _ & Hf & ->)]).
  - pose proof (selectedAs_nonneg s x c v (Hp x Hx) Hs) as (_ & Fv & Nv). apply fdiv_nonneg; [done..|].
    apply powerSeconds_pos. destruct (Hp x Hx) as (_ & H1 & H2). unfold isDelta in Hd. lia.
  - destruct (Hh a Ha) as [(Va & Fa & Na) Ta], (Hh b Hb) as [(Vb & Fb & Nb) Tb]. destruct Hf as (_ & _ & Ht & He).
    unfold rateBetween. pose proof (powerSeconds_pos (ep_time b - ep_time a) ltac:(lia)) as Hs'.
    assert (fle (ep_energyJ a) (ep_energyJ b) = true) as Hle.
    { pose proof (is_finite_not_nan _ Fa). pose proof (is_finite_not_nan _ Fb). forder. }
    assert (fle fzero (fsub (ep_energyJ b) (ep_energyJ a)) = true) as H0 by by apply fsub_nonneg.
    assert (fle (fsub (ep_energyJ b) (ep_energyJ a)) (ep_energyJ b) = true) as H1 by by apply fsub_le_l.
    apply fdiv_nonneg; [done| |done]. by eapply finite_between.
Qed.

Lemma foldl_fmax_nonneg (l : list float64) (a : float64) :
  fle fzero a = true -> Forall (fun x => fle fzero x = true) l -> fle fzero (foldl fmax a l) = true.
Proof.
  intros Ha H. revert a Ha. induction H as [|x l Hx Hl IH]; intros a Ha; cbn; [done|]. apply IH.
  assert (is_nan a = false /\ is_nan x = false) as [Na Nx] by forder. pose proof (fmax_ge_l a x Na Nx). forder.
Qed.

Lemma foldl_fadd_nonneg (l : list float64) (a : float64) :
  fle fzero a = true -> Forall (fun x => fle fzero x = true) l -> fle fzero (foldl fadd a l) = true.
Proof. intros Ha H. revert a Ha. induction H as [|x l Hx Hl IH]; intros a Ha; cbn; [done|]. apply IH. by apply fadd_nonneg. Qed.

(** Whatever documents a reader is sent, in whatever order and with
    whatever clocks, the power it answers with is a number that is not below
    zero: no difference of energies, no interval and no reset makes a rate
    negative or not a number. *)
Theorem Watts_nonneg (maxInterval now : Z) (l : list request) (md : MetricsData) (s : Selector) (w : float64) (r' : PowerReader) :
  Forall (fun '(_, md, s) => Forall decoded (documentPoints s md)) l -> Forall decoded (documentPoints s md) ->
  Watts (readAll {| pr_MaxInterval := maxInterval; pr_series := ∅ |} l) now md s = (w, true, r') ->
  fle fzero w = true.
Proof.
  intros Hl Hmd Hw. apply (Watts_answer _ now md s l) in Hw as (vs & _ & _ & _ & -> & _ & Hvs); [|apply readAll_justified].
  apply foldl_fadd_nonneg; [done|]. apply Forall_forall. intros v ((c & v') & -> & Hin)%list_elem_of_fmap. cbn.
  assert (Forall sound (keyHistory l (selectorKey s) ++ energyPoints s md)%list) as Hh.
  { apply Forall_app; split; [|by apply energyPoints_sound]. unfold keyHistory. apply Forall_concat, Forall_fmap.
    eapply Forall_impl; [exact Hl|]. intros [[now' md'] s'] H. cbn. case_match; [by apply energyPoints_sound|constructor]. }
  destruct (Hvs c v' Hin) as [Hf Hv]. destruct (is_nil _); [destruct Hv as [_ ->]|rewrite Hv]; apply foldl_fmax_nonneg; try done.
  2: { eapply Forall_impl; [exact Hf|]. intros w' Hw'. by eapply energyRate_nonneg. }
  - apply Forall_forall. intros g (x & Hx & Hg)%list_elem_of_omap.
    destruct (selectedAs s x) as [[c2 v2]|] eqn:Es; [|done]. destruct (_ && _); [|done]. injection Hg as <-.
    rewrite Forall_forall in Hmd. eapply (selectedAs_nonneg s x c2 v2 (Hmd x Hx)). done.
Qed.

End Points.

(** ** Samples *)

Definition textAttr (k v : string) : KeyValue := {| kv_Key := k; kv_Value := mkAnyValue (Some v) None None None None |}.

Definition partAttrs (type id : string) : list KeyValue := [textAttr AttrHwType type; textAttr AttrHwID id].

Definition samplePoint (attrs : list KeyValue) (time : Z) (value : Z) : NumberDataPoint := {|
  dp_Attributes := attrs; dp_StartTimeUnixNano := 5; dp_TimeUnixNano := time;
  dp_AsDouble := Some (fofZ value); dp_AsInt := None |}.

(** A node with a CPU that counts energy and a GPU that shows its power. *)
Definition sampleDocument (time joules : Z) : MetricsData := {|
  md_ResourceMetrics :=
    [{| rm_Attributes := [textAttr AttrK8sNodeName "n1"; textAttr AttrServiceInstanceID "a"];
        rm_ScopeMetrics :=
          [{| sm_Metrics :=
                [{| m_Name := "hw.energy";
                    m_Sum := Some {| sum_DataPoints := [samplePoint (partAttrs "cpu" "0") time joules];
                                     sum_AggregationTemporality := 2; sum_IsMonotonic := true |};
                    m_Gauge := None |};
                 {| m_Name := "hw.power"; m_Sum := None;
                    m_Gauge := Some {| gauge_DataPoints := [samplePoint (partAttrs "gpu" "0") time 70] |} |}] |}] |}] |}.

Definition sampleSelector : Selector := {| sel_Node := "n1"; sel_HwTypes := [HwTypeCPU; HwTypeGPU]; sel_Host := false |}.

Definition plainFormat (_ : float64) : string := "0".

Definition emptyReader : PowerReader := {| pr_MaxInterval := 0; pr_series := ∅ |}.

Definition second : Z := 1000000000.

(** The reader after documents at the given times with the given energies. *)
Definition sampleReads (l : list (Z * Z)) : PowerReader :=
  readAll plainFormat emptyReader ((fun '(t, e) => (t, sampleDocument t e, sampleSelector)) <$> l).

Definition sampleWatts (l : list (Z * Z)) (t e : Z) : float64 * bool :=
  (Watts plainFormat (sampleReads l) t (sampleDocument t e) sampleSelector).1.

(** Warming up, a rate of 100 W, a reset, and a silence longer than the window. *)
Example reader_cold : sampleWatts []%Z second 1000 = (fzero, false).
Proof. vm_compute. reflexivity. Qed.
Example reader_rate : sampleWatts [(second, 1000)]%Z (11 * second) 2000 = (fofZ 170, true).
Proof. vm_compute. reflexivity. Qed.
Example reader_reset : sampleWatts [(second, 1000); (11 * second, 2000)]%Z (21 * second) 50 = (fzero, false).
Proof. vm_compute. reflexivity. Qed.
Example reader_gap : sampleWatts [(second, 1000)]%Z (302 * second) 2000 = (fzero, false).
Proof. vm_compute. reflexivity. Qed.

Definition rateReader : PowerReader :=
  Eval vm_compute in (Watts plainFormat (sampleReads [(second, 1000%Z)]) (11 * second) (sampleDocument (11 * second) 2000)
                        sampleSelector).2.

Lemma Watts_explained_witness :
  exists vs : list (powerComponent * float64), NoDup vs.*1 /\ fofZ 170 = foldl fadd fzero vs.*2 /\ ("cpu", "0") ∈ vs.*1.
Proof.
  destruct (Watts_explained plainFormat 0 (11 * second) [(second, sampleDocument second 1000, sampleSelector)]
    (sampleDocument (11 * second) 2000) sampleSelector (fofZ 170) rateReader ltac:(vm_compute; reflexivity))
    as ((vs & _ & _ & Hnd & Hw & Hall & _) & _).
  exists vs. split; [exact Hnd|]. split; [exact Hw|].
  apply (Hall {| rp_resID := resourceID plainFormat [textAttr AttrK8sNodeName "n1"; textAttr AttrServiceInstanceID "a"];
                 rp_name := "hw.energy"; rp_delta := false; rp_point := samplePoint (partAttrs "cpu" "0") (11 * second) 2000 |}
              ("cpu", "0") (fofZ 2000)).
  - left.
  - vm_compute. reflexivity.
  - vm_compute. reflexivity.
Defined.

Lemma reader_warms_up_witness :
  (Watts plainFormat (Watts plainFormat emptyReader second (sampleDocument second 1000) sampleSelector).2 (11 * second)
     (sampleDocument (11 * second) 2000) sampleSelector).1.2 = true.
Proof.
  apply (reader_warms_up plainFormat).
  - reflexivity.
  - apply (bool_decide_unpack _). vm_compute. exact I.
  - apply (bool_decide_unpack _). vm_compute. exact I.
  - intros b Hb. exists {| ep_id := seriesID plainFormat (resourceID plainFormat [textAttr AttrK8sNodeName "n1"; textAttr AttrServiceInstanceID "a"])
                            "hw.energy" (samplePoint (partAttrs "cpu" "0") second 1000);
                          ep_start := 5; ep_time := second; ep_energyJ := fofZ 1000 |}.
    split; [left|]. vm_compute in Hb. apply list_elem_of_singleton in Hb as ->.
    split; [vm_compute; reflexivity|]. split; [right; right; reflexivity|]. split; [vm_compute; split; [reflexivity|discriminate]|].
    vm_compute. reflexivity.
  - exists {| rp_resID := resourceID plainFormat [textAttr AttrK8sNodeName "n1"; textAttr AttrServiceInstanceID "a"];
              rp_name := "hw.energy"; rp_delta := false; rp_point := samplePoint (partAttrs "cpu" "0") (11 * second) 2000 |},
      ("cpu", "0"), (fofZ 2000).
    split; [left|]. split; vm_compute; reflexivity.
Defined.

Lemma sample_decoded : Forall (fun '(_, md, s) => Forall (decoded) (documentPoints plainFormat s md))
  [(second, sampleDocument second 1000, sampleSelector); (11 * second, sampleDocument (11 * second) 2000, sampleSelector)]%Z.
Proof.
  apply Forall_forall. intros [[t md] s] Hin. apply Forall_forall. intros x Hx.
  assert (exists t e, x ∈ documentPoints plainFormat sampleSelector (sampleDocument t e) /\ (0 <= t < 2 ^ 64)%Z) as (t' & e & Hx' & Ht).
  { apply elem_of_cons in Hin as [E|[E|[]%elem_of_nil]%elem_of_cons]; injection E as -> -> ->.
    - exists second, 1000%Z. split; [done|]. by vm_compute.
    - exists (11 * second)%Z, 2000%Z. split; [done|]. by vm_compute. }
  clear Hx Hin. unfold documentPoints in Hx'. cbn -[fofZ] in Hx'.
  apply elem_of_cons in Hx' as [->|[->|[]%elem_of_nil]%elem_of_cons]; split; cbn -[fofZ]; try (split; lia);
    intros d [= <-]; first [apply fofZ_valid|vm_compute; reflexivity].
Qed.

Lemma Watts_nonneg_witness : fle fzero (fofZ 170) = true.
Proof.
  pose proof sample_decoded as H. apply Forall_cons in H as [H1 H2]. apply Forall_cons in H2 as [H2 _].
  apply (Watts_nonneg plainFormat 0 (11 * second) [(second, sampleDocument second 1000, sampleSelector)]
    (sampleDocument (11 * second) 2000) sampleSelector (fofZ 170) rateReader).
  - constructor; [exact H1|constructor].
  - exact H2.
  - vm_compute. reflexivity.
Defined.
