(* ===== verification/Telemetry.v ===== *)
(** * HTTP telemetry endpoints

    The two readers of a node's power over HTTP: the agent's
    (pkg/agent/control/http.go) and the controller manager's
    (cmd/controller-manager/nodepower_http.go). Each keeps one [PowerReader]
    per endpoint it has read, for the life of the process. Warnings about
    the legacy body are left out. *)

From S2P Require Import Prelude GoString GoFloat FloatFacts Json HostFS PromName PromQuery PromResult PowerReader.

#[local] Open Scope string_scope.

(** src/pkg/otel/otlpjson/power.go:30-30 [MaxTelemetryBody] *)
Definition MaxTelemetryBody : Z := 8 * 2 ^ 20.

Section Telemetry.
Variable FormatFloat : float64 -> string.
Variable Unmarshal : string -> option json.
Variable UnmarshalMetrics : string -> option MetricsData.
Context {W : Type} `{!HTTPGet W}.

(** The body of a 2xx answer that is not too long.
    src/pkg/otel/otlpjson/power.go:42-66 [FetchTelemetry] *)
Definition FetchTelemetry (url : string) (w : W) : option string * W :=
  let '(answer, w) := http_get url w in
  match answer with
  | None => (None, w)
  | Some (status, body) =>
      if ((status <? 200) || (299 <? status))%Z then (None, w)
      else if (MaxTelemetryBody <? Z.of_nat (String.length body))%Z then (None, w)
      else (Some body, w)
  end.

(** ** The agent's reader *)

(** The readers the process keeps, by endpoint and node.
    src/pkg/agent/control/http.go:50-62 [httpPowerStates] *)
Definition httpPowerStates : Type := gmap (string * string) PowerReader.

(** src/pkg/agent/control/http.go:64-71 [state] *)
Definition httpPowerState (states : httpPowerStates) (endpoint node : string) : PowerReader :=
  default {| pr_MaxInterval := 0; pr_series := ∅ |} (states !! (endpoint, node)).

(** The watts, whether they are a reading, and whether the read failed.
    src/pkg/agent/control/http.go:76-90 [ReadPowerWatts] *)
Definition ReadPowerWatts (endpoint node : string) (now : Z) (states : httpPowerStates) (w : W)
    : float64 * bool * bool * httpPowerStates * W :=
  let '(body, w) := FetchTelemetry (ReplaceAll endpoint "{node}" node) w in
  match body with
  | None => (fzero, false, true, states, w)
  | Some body =>
      let '(a, r) := ReadPower FormatFloat Unmarshal UnmarshalMetrics body (httpPowerState states endpoint node) now
                       {| sel_Node := node; sel_HwTypes := [HwTypeCPU]; sel_Host := false |} in
      (pa_watts a, pa_ok a, bool_decide (is_Some (pa_err a)), <[(endpoint, node) := r]> states, w)
  end.

(** ** The controller manager's reader *)

(** src/cmd/controller-manager/nodepower_http.go:28-37 [nodePowerHTTPReaders] *)
Definition nodePowerHTTPReaders : Type := gmap (string * Z) PowerReader.

(** src/cmd/controller-manager/nodepower_http.go:40-47 [nodePowerHTTPReader] *)
Definition nodePowerHTTPReader (readers : nodePowerHTTPReaders) (endpoint : string) (window : Z) : PowerReader :=
  default {| pr_MaxInterval := window; pr_series := ∅ |} (readers !! (endpoint, window)).

(** src/cmd/controller-manager/nodepower_http.go:53-58 [nodePowerHTTPSelector] *)
Definition nodePowerHTTPSelector (nodeName scope : string) : Selector :=
  if String.eqb scope ScopeHost then {| sel_Node := nodeName; sel_HwTypes := []; sel_Host := true |}
  else {| sel_Node := nodeName; sel_HwTypes := [HwTypeCPU; HwTypeGPU]; sel_Host := false |}.

(** No power for an error, 0 for an answer without a reading.
    src/cmd/controller-manager/nodepower_http.go:70-91 [queryNodePowerHTTP] *)
Definition queryNodePowerHTTP (endpoint : string) (spec : NodePowerSpec) (nodeName : string) (now : Z)
    (readers : nodePowerHTTPReaders) (w : W) : option float64 * nodePowerHTTPReaders * W :=
  let '(body, w) := FetchTelemetry (ReplaceAll endpoint "{node}" nodeName) w in
  match body with
  | None => (None, readers, w)
  | Some body =>
      let '(a, r) := ReadPower FormatFloat Unmarshal UnmarshalMetrics body (nodePowerHTTPReader readers endpoint (np_Window spec))
                       now (nodePowerHTTPSelector nodeName (np_Scope spec)) in
      let readers := <[(endpoint, np_Window spec) := r]> readers in
      match pa_err a with
      | Some _ => (None, readers, w)
      | None => (Some (if pa_ok a then pa_watts a else fzero), readers, w)
      end
  end.

(** ** What the readers keep *)

(** A reader that began empty and was sent these requests. *)
Definition sent (maxInterval : Z) (l : list request) : PowerReader :=
  readAll FormatFloat {| pr_MaxInterval := maxInterval; pr_series := ∅ |} l.

(** A reading of a body adds at most one request to what the reader was sent,
    and its power is that of the request, or of the legacy number. *)
Lemma ReadPower_sent (maxInterval : Z) (l : list request) (body : string) (now : Z) (s : Selector) :
  let '(a, r) := ReadPower FormatFloat Unmarshal UnmarshalMetrics body (sent maxInterval l) now s in
  (exists l', r = sent maxInterval (l ++ l')%list /\
     Forall (fun '(t, md, s') => t = now /\ s' = s /\ UnmarshalMetrics body = Some md) l') /\
  (pa_ok a = true ->
   (exists md, UnmarshalMetrics body = Some md /\ pa_legacy a = false /\
      (Watts FormatFloat (sent maxInterval l) now md s).1 = (pa_watts a, true)) \/
   (pa_legacy a = true /\ flt fzero (pa_watts a) = true)).
Proof.
  unfold ReadPower. destruct (IsMetricsData Unmarshal body).
  - destruct (UnmarshalMetrics body) as [md|] eqn:Em.
    + destruct (Watts FormatFloat (sent maxInterval l) now md s) as [[w ok] r'] eqn:Ew. cbn. split.
      * exists [(now, md, s)]. split; [|by repeat constructor]. unfold sent, readAll. rewrite fold_left_app.
        change (r' = (Watts FormatFloat (sent maxInterval l) now md s).2). by rewrite Ew.
      * intros ->. left. exists md. by rewrite Ew.
    + split; [exists []; rewrite app_nil_r; by split; [|constructor]|done].
  - assert (exists l', sent maxInterval l = sent maxInterval (l ++ l')%list /\
      Forall (fun '(t, md, s') => t = now /\ s' = s /\ UnmarshalMetrics body = Some md) l') as Hnil
      by (exists []; rewrite app_nil_r; by split; [|constructor]).
    assert (forall m k v, positiveNumber m k = Some v -> flt fzero v = true) as Hpos.
    { intros m k v. unfold positiveNumber. destruct (jget m k) as [[]|]; try done.
      destruct (flt fzero x) eqn:E; [|done]. by intros [= <-]. }
    repeat case_match; simplify_eq/=; (split; [exact Hnil|]); try done; intros _; right; eauto.
Qed.

(** What a body is decoded to: a document of doubles and 64-bit times. *)
Class DecodesMetrics : Prop :=
  metrics_decoded : forall body md s, UnmarshalMetrics body = Some md -> Forall decoded (documentPoints FormatFloat s md).

Definition requestDecoded (r : request) : Prop := let '(_, md, s) := r in Forall decoded (documentPoints FormatFloat s md).

(** The readings of a body by a reader that was only sent requests that hold. *)
Lemma ReadPower_readers `{!DecodesMetrics} (from : request -> Prop) (interval : Z) (l : list request) (body : string) (now : Z)
    (s : Selector) :
  (forall md, UnmarshalMetrics body = Some md -> from (now, md, s)) ->
  Forall from l -> (forall r, from r -> requestDecoded r) ->
  let '(a, r) := ReadPower FormatFloat Unmarshal UnmarshalMetrics body (sent interval l) now s in
  (exists l', r = sent interval l' /\ Forall from l') /\ (pa_ok a = true -> fle fzero (pa_watts a) = true).
Proof.
  intros Hbody Hl Hdec. pose proof (ReadPower_sent interval l body now s) as HP.
  destruct (ReadPower _ _ _ _ _ _ _) as [a r]. destruct HP as [(l' & -> & Hl') Hok]. split.
  - eexists. split; [reflexivity|]. apply Forall_app; split; [done|]. eapply Forall_impl; [exact Hl'|].
    intros [[t md] s'] (-> & -> & Hmd). by apply Hbody.
  - intros Ha. destruct (Hok Ha) as [(md & Hmd & _ & Hw)|[_ Hpos]]; [|by apply flt_fle].
    destruct (Watts _ _ _ _ _) as [[w ok] r'] eqn:Ew. cbn in Hw. injection Hw as -> ->.
    eapply Watts_nonneg; [|by eapply metrics_decoded|exact Ew]. eapply Forall_impl; [exact Hl|exact Hdec].
Qed.

(** ** What the readers of the controller manager were sent *)

(** A request decoded from a body that the endpoint sent, for a node, with
    the selector of that node. *)
Definition fromEndpoint (endpoint : string) (r : request) : Prop :=
  let '(_, md, s) := r in
  exists nodeName scope w w' body, FetchTelemetry (ReplaceAll endpoint "{node}" nodeName) w = (Some body, w') /\
    UnmarshalMetrics body = Some md /\ s = nodePowerHTTPSelector nodeName scope.

(** Every reader kept was only sent what its own endpoint sent. *)
Definition readersSent (readers : nodePowerHTTPReaders) : Prop :=
  forall endpoint window r, readers !! (endpoint, window) = Some r ->
  exists l, r = sent window l /\ Forall (fromEndpoint endpoint) l.

(** The power of a node over HTTP: what a reader of its endpoint's requests
    makes of the body the endpoint sends for it. *)
Definition readOver (endpoint : string) (spec : NodePowerSpec) (nodeName : string) (p : float64) : Prop :=
  exists l now w w' body, Forall (fromEndpoint endpoint) l /\
    FetchTelemetry (ReplaceAll endpoint "{node}" nodeName) w = (Some body, w') /\
    let a := (ReadPower FormatFloat Unmarshal UnmarshalMetrics body (sent (np_Window spec) l) now
                (nodePowerHTTPSelector nodeName (np_Scope spec))).1 in
    pa_err a = None /\ p = if pa_ok a then pa_watts a else fzero.

Lemma readersSent_get readers endpoint window : readersSent readers ->
  exists l, nodePowerHTTPReader readers endpoint window = sent window l /\ Forall (fromEndpoint endpoint) l.
Proof.
  intros Hr. unfold nodePowerHTTPReader. destruct (readers !! (endpoint, window)) as [r|] eqn:E; [by apply Hr|].
  exists []. split; [done|constructor].
Qed.

Lemma queryNodePowerHTTP_readers `{!DecodesMetrics} endpoint spec nodeName now readers w :
  readersSent readers ->
  let '(power, readers', w') := queryNodePowerHTTP endpoint spec nodeName now readers w in
  readersSent readers' /\ forall p, power = Some p -> fle fzero p = true /\ readOver endpoint spec nodeName p.
Proof.
  intros Hr. unfold queryNodePowerHTTP. destruct (FetchTelemetry _ w) as [[body|] w'] eqn:Ef; [|done].
  destruct (readersSent_get readers endpoint (np_Window spec) Hr) as (l & -> & Hl).
  set (s := nodePowerHTTPSelector nodeName (np_Scope spec)).
  pose proof (ReadPower_readers (fromEndpoint endpoint) (np_Window spec) l body now s) as Hread.
  destruct (ReadPower _ _ _ _ _ _ _) as [a r] eqn:Ea. destruct Hread as [Hs Hpos]; [|done| |].
  - intros md Hmd. exists nodeName, (np_Scope spec), w, w', body. done.
  - intros [[t md] s'] (n & sc & w1 & w2 & b & _ & Hb & _). by eapply metrics_decoded.
  - assert (readersSent (<[(endpoint, np_Window spec) := r]> readers)) as Hr'.
    { intros e' win' r' Hk. apply lookup_insert_Some in Hk as [[[= <- <-] <-]|[_ Hk']]; [done|by apply Hr]. }
    destruct (pa_err a) eqn:Eerr; [done|]. split; [done|]. intros p [= <-]. split; [destruct (pa_ok a); [by apply Hpos|done]|].
    exists l, now, w, w', body. split; [done|]. split; [done|]. fold s. cbv zeta. rewrite Ea. done.
Qed.

End Telemetry.
