(* ===== verification/NodePower.v ===== *)
(** * Measured node power: cmd/controller-manager/nodepower.go

    What the twins of a reconcile take as the measured power of their nodes:
    the value of the node in the answer to one grouped Prometheus query,
    shared by the reconcile, the sum of a query of its own, or the reading of
    the HTTP telemetry endpoint. The state is the round's answer, the form of
    the resource attributes that worked last, and the HTTP readers. Metrics,
    log lines and hints are left out. *)

From S2P Require Import Prelude GoString GoFloat FloatFacts Json HostFS PromName PromQuery PromResult PowerReader Telemetry.

#[local] Open Scope string_scope.

(** src/pkg/api/types.go:21-26 [PowerSourceStatic] *)
Definition PowerSourceStatic := "static".
Definition PowerSourcePrometheus := "prometheus".
Definition PowerSourcePrometheusNoData := "prometheus-no-data".
Definition PowerSourceHTTP := "http".
Definition PowerSourceHTTPError := "http-error".
Definition PowerSourceHTTPNoEndpoint := "http-no-endpoint".

(** src/cmd/controller-manager/inputs_config.go:18-22 [nodePowerSourceStatic] *)
Definition nodePowerSourceStatic := "static".
Definition nodePowerSourcePrometheus := "prometheus".
Definition nodePowerSourceHTTP := "http".

(** The node power settings, those [install] sets.
    src/cmd/controller-manager/inputs_config.go:36-43 [nodePowerConfig] *)
Record nodePowerConfig := {
  np_source : string;
  np_httpEndpoint : string;
  np_promAddress : string;
  np_spec : NodePowerSpec
}.

(** The result labels of joulie_twin_input_queries_total.
    src/cmd/controller-manager/input_metrics.go:20-31 [inputResultSuccess] *)
Definition inputResultSuccess := "success".
Definition inputResultPartial := "partial".
Definition inputResultNoData := "no_data".
Definition inputResultError := "error".

Section NodePower.
Variable FormatFloat : float64 -> string.
Variable Unmarshal : string -> option json.
Variable UnmarshalMetrics : string -> option MetricsData.
Variable ParseFloat : string -> option float64.
Context {W : Type} `{!HTTPGet W}.
Notation clientQuery := (clientQuery Unmarshal ParseFloat).

(** ** The grouped query *)

(** src/cmd/controller-manager/nodepower.go:171-175 [nodePowerRead] *)
Record nodePowerRead := { nr_values : gmap string float64; nr_issues : Issues; nr_err : option QueryError }.

Definition noIssues : Issues := {| is_Series := 0; is_MissingLabel := 0; is_NonFinite := 0; is_Duplicates := 0 |}.

(** src/cmd/controller-manager/nodepower.go:178-188 [result] *)
Definition readResult (r : nodePowerRead) : string :=
  if bool_decide (is_Some (nr_err r)) then inputResultError
  else if bool_decide (nr_values r = ∅) then inputResultNoData
  else if (0 <? is_MissingLabel (nr_issues r))%nat || (0 <? is_NonFinite (nr_issues r))%nat then inputResultPartial
  else inputResultSuccess.

(** src/cmd/controller-manager/nodepower.go:191-205 [runGroupedNodePower] *)
Definition runGroupedNodePower (address : string) (q : Query) (w : W) : nodePowerRead * W :=
  let '(res, w) := clientQuery address (q_PromQL q) w in
  match res with
  | inl e => ({| nr_values := ∅; nr_issues := noIssues; nr_err := Some e |}, w)
  | inr res =>
      let '(values, iss) := ByLabel res (q_GroupLabel q) in
      (match values with
       | inl e => {| nr_values := ∅; nr_issues := iss; nr_err := Some e |}
       | inr m => {| nr_values := m; nr_issues := iss; nr_err := None |}
       end, w)
  end.

(** src/cmd/controller-manager/nodepower.go:301-306 [autoFormWorks] *)
Definition autoFormWorks (form : string) (r : nodePowerRead) : bool :=
  if bool_decide (is_Some (nr_err r)) || bool_decide (nr_values r = ∅) then false
  else negb (String.eqb form ResourceAttributesLabels) || (is_MissingLabel (nr_issues r) =? 0)%nat.

(** The form that worked last is an argument and a result.
    src/cmd/controller-manager/nodepower.go:261-295 [groupedNodePower] *)
Definition groupedNodePower (address : string) (primary fallback : Query) (autoForm : string) (w : W)
    : gmap string float64 * string * W :=
  if String.eqb (q_PromQL fallback) "" then
    let '(r, w) := runGroupedNodePower address primary w in (nr_values r, autoForm, w)
  else
    let first := if String.eqb autoForm "" then ResourceAttributesLabels else autoForm in
    let '(second, firstQ, secondQ) :=
      if String.eqb first ResourceAttributesTargetInfo then (ResourceAttributesLabels, fallback, primary)
      else (ResourceAttributesTargetInfo, primary, fallback) in
    let '(r1, w) := runGroupedNodePower address firstQ w in
    if autoFormWorks first r1 then (nr_values r1, first, w)
    else
      let '(r2, w) := runGroupedNodePower address secondQ w in
      if autoFormWorks second r2 then (nr_values r2, second, w)
      else (if (size (nr_values r1) <? size (nr_values r2))%nat then nr_values r2 else nr_values r1, autoForm, w).

(** A query of the node's own: the sum of its finite series.
    src/cmd/controller-manager/nodepower.go:139-168 [perNodePower] *)
Definition perNodePower (address : string) (q : Query) (nodeName : string) (w : W) : option float64 * W :=
  let '(res, w) := clientQuery address (ReplaceAll (q_PromQL q) NodePlaceholder nodeName) w in
  match res with
  | inl _ => (None, w)
  | inr res =>
      (if existsb (fun s => is_finite (sm_Value s)) (rs_Samples res) then Some (SumSamples res) else None, w)
  end.

(** ** A reconcile's round *)

(** The round of the context: none, or one with its values once a node was
    read. *)
Inductive nodePowerRound := NoRound | Round (values : option (gmap string float64)).

Record npState := { ns_round : nodePowerRound; ns_autoForm : string; ns_readers : nodePowerHTTPReaders }.

(** src/cmd/controller-manager/nodepower.go:121-123 [withNodePowerRound] *)
Definition withNodePowerRound (st : npState) : npState := {|
  ns_round := Round None; ns_autoForm := ns_autoForm st; ns_readers := ns_readers st |}.

(** src/cmd/controller-manager/nodepower.go:127-134 [roundNodePower] *)
Definition roundNodePower (address : string) (primary fallback : Query) (st : npState) (w : W)
    : gmap string float64 * npState * W :=
  match ns_round st with
  | Round (Some values) => (values, st, w)
  | round =>
      let '(values, form, w) := groupedNodePower address primary fallback (ns_autoForm st) w in
      (values,
       {| ns_round := match round with NoRound => NoRound | Round _ => Round (Some values) end;
          ns_autoForm := form; ns_readers := ns_readers st |}, w)
  end.

(** src/cmd/controller-manager/nodepower.go:86-105 [prometheusNodePower] *)
Definition prometheusNodePower (cfg : nodePowerConfig) (nodeName : string) (st : npState) (w : W)
    : option float64 * npState * W :=
  match WithDefaults (np_spec cfg) with
  | inl _ => (None, st, w)
  | inr spec =>
      match nodePowerQuery spec with
      | inl _ => (None, st, w)
      | inr (primary, fallback) =>
          if q_PerNode primary then
            let '(v, w) := perNodePower (np_promAddress cfg) primary nodeName w in (v, st, w)
          else
            let '(values, st, w) := roundNodePower (np_promAddress cfg) primary fallback st w in
            (values !! nodeName, st, w)
      end
  end.

(** The measured power of a node and where it comes from.
    src/cmd/controller-manager/nodepower.go:60-82 [resolveNodePower] *)
Definition resolveNodePower (cfg : nodePowerConfig) (nodeName : string) (now : Z) (st : npState) (w : W)
    : float64 * string * npState * W :=
  if String.eqb (np_source cfg) nodePowerSourcePrometheus then
    let '(power, st, w) :=
      if negb (String.eqb (np_promAddress cfg) "") then prometheusNodePower cfg nodeName st w else (None, st, w) in
    match power with
    | Some p => if flt fzero p then (p, PowerSourcePrometheus, st, w) else (fzero, PowerSourcePrometheusNoData, st, w)
    | None => (fzero, PowerSourcePrometheusNoData, st, w)
    end
  else if String.eqb (np_source cfg) nodePowerSourceHTTP then
    if negb (String.eqb (np_httpEndpoint cfg) "") then
      let '(power, readers, w) :=
        queryNodePowerHTTP FormatFloat Unmarshal UnmarshalMetrics (np_httpEndpoint cfg) (np_spec cfg) nodeName now
          (ns_readers st) w in
      let st := {| ns_round := ns_round st; ns_autoForm := ns_autoForm st; ns_readers := readers |} in
      match power with
      | Some p => (p, PowerSourceHTTP, st, w)
      | None => (fzero, PowerSourceHTTPError, st, w)
      end
    else (fzero, PowerSourceHTTPNoEndpoint, st, w)
  else (fzero, PowerSourceStatic, st, w).

(** The nodes of a reconcile, one after another, each at its own time. *)
Fixpoint resolveNodes (cfg : nodePowerConfig) (nodes : list (string * Z)) (st : npState) (w : W)
    : list (float64 * string) * npState * W :=
  match nodes with
  | [] => ([], st, w)
  | (name, now) :: nodes =>
      let '(p, src, st, w) := resolveNodePower cfg name now st w in
      let '(l, st, w) := resolveNodes cfg nodes st w in
      ((p, src) :: l, st, w)
  end.

(** ** One read per reconcile *)

(** What a node is given of the round's values. *)
Definition readingOf (values : gmap string float64) (name : string) : float64 * string :=
  match values !! name with
  | Some p => if flt fzero p then (p, PowerSourcePrometheus) else (fzero, PowerSourcePrometheusNoData)
  | None => (fzero, PowerSourcePrometheusNoData)
  end.

Lemma resolveNodes_round cfg spec primary fallback values nodes st w :
  np_source cfg = nodePowerSourcePrometheus -> np_promAddress cfg <> "" ->
  WithDefaults (np_spec cfg) = inr spec -> nodePowerQuery spec = inr (primary, fallback) -> q_PerNode primary = false ->
  ns_round st = Round (Some values) ->
  resolveNodes cfg nodes st w = ((fun n => readingOf values n.1) <$> nodes, st, w).
Proof.
  intros Hs Ha Hd Hq Hp Hr. induction nodes as [|[name now] nodes IH]; [done|]. cbn [resolveNodes].
  assert (resolveNodePower cfg name now st w = (readingOf values name, st, w)) as ->.
  { unfold resolveNodePower. rewrite Hs. cbn [String.eqb]. rewrite String.eqb_refl.
    apply String.eqb_neq in Ha as ->. cbn [negb]. unfold prometheusNodePower. rewrite Hd, Hq, Hp.
    unfold roundNodePower. rewrite Hr. unfold readingOf. destruct (values !! name) as [p|]; [|done].
    by destruct (flt fzero p). }
  destruct (readingOf values name) as [p src] eqn:E. rewrite IH. cbn. by rewrite E.
Qed.

(** C31. A reconcile reads Prometheus once: whatever the number of its nodes,
    resolving them one after another sends what one read of the grouped query
    sends, and gives each node its value in that one answer, or no data. *)
Theorem round_reads_once (cfg : nodePowerConfig) (spec : NodePowerSpec) (primary fallback : Query)
    (nodes : list (string * Z)) (st : npState) (w : W) (values : gmap string float64) (form : string) (w' : W) :
  np_source cfg = nodePowerSourcePrometheus -> np_promAddress cfg <> "" ->
  WithDefaults (np_spec cfg) = inr spec -> nodePowerQuery spec = inr (primary, fallback) -> q_PerNode primary = false ->
  nodes <> [] ->
  groupedNodePower (np_promAddress cfg) primary fallback (ns_autoForm st) w = (values, form, w') ->
  resolveNodes cfg nodes (withNodePowerRound st) w =
  ((fun n => readingOf values n.1) <$> nodes,
   {| ns_round := Round (Some values); ns_autoForm := form; ns_readers := ns_readers st |}, w').
Proof.
  intros Hs Ha Hd Hq Hp Hne Hg. destruct nodes as [|[name now] nodes]; [done|]. cbn [resolveNodes].
  set (st' := Build_npState (Round (Some values)) form (ns_readers st)).
  assert (resolveNodePower cfg name now (withNodePowerRound st) w = (readingOf values name, st', w')) as ->.
  { unfold resolveNodePower. rewrite Hs, String.eqb_refl. pose proof Ha as Ha'. apply String.eqb_neq in Ha' as ->. cbn [negb].
    unfold prometheusNodePower. rewrite Hd, Hq, Hp. unfold roundNodePower. cbn [withNodePowerRound ns_round ns_autoForm ns_readers].
    rewrite Hg. unfold readingOf. destruct (values !! name) as [p|]; [|done]. by destruct (flt fzero p). }
  destruct (readingOf values name) as [p src] eqn:E.
  rewrite (resolveNodes_round cfg spec primary fallback values nodes st' w') by done. cbn. by rewrite E.
Qed.

(** ** Where a power comes from *)

(** Values that an answer to one of the queries named, each under one key. *)
Definition fromAnswer (address : string) (qs : list Query) (values : gmap string float64) : Prop :=
  forall name p, values !! name = Some p ->
  exists q wa wb res, q ∈ qs /\ clientQuery address (q_PromQL q) wa = (inr res, wb) /\
    NoDup (readable (q_GroupLabel q) (rs_Samples res)).*1 /\ (name, p) ∈ readable (q_GroupLabel q) (rs_Samples res).

Lemma runGrouped_answer address qs q w :
  q ∈ qs -> fromAnswer address qs (nr_values (runGroupedNodePower address q w).1).
Proof.
  intros Hq name p. unfold runGroupedNodePower. destruct (clientQuery address (q_PromQL q) w) as [[e|res] w'] eqn:Ec.
  - cbn. by rewrite lookup_empty.
  - pose proof (ByLabel_correct res (q_GroupLabel q)) as Hb. destruct (ByLabel res (q_GroupLabel q)) as [out iss].
    destruct Hb as (_ & _ & _ & Hok & Hdup).
    destruct (decide (NoDup (readable (q_GroupLabel q) (rs_Samples res)).*1)) as [Hnd|Hnd].
    + destruct (Hok Hnd) as (m & -> & _ & Hm). cbn. intros Hl. apply Hm in Hl. by exists q, w, w', res.
    + destruct (Hdup Hnd) as [-> _]. cbn. by rewrite lookup_empty.
Qed.

Lemma grouped_answer address primary fallback form w :
  fromAnswer address [primary; fallback] (groupedNodePower address primary fallback form w).1.1.
Proof.
  unfold groupedNodePower.
  destruct (String.eqb (q_PromQL fallback) "").
  { pose proof (runGrouped_answer address [primary; fallback] primary w ltac:(left)) as H.
    by destruct (runGroupedNodePower address primary w). }
  set (first := if String.eqb form "" then _ else _).
  assert (exists second q1 q2, (if String.eqb first ResourceAttributesTargetInfo
            then (ResourceAttributesLabels, fallback, primary) else (ResourceAttributesTargetInfo, primary, fallback)) = (second, q1, q2) /\
            q1 ∈ [primary; fallback] /\ q2 ∈ [primary; fallback]) as (second & q1 & q2 & -> & H1 & H2).
  { destruct (String.eqb first _); do 3 eexists; (split; [reflexivity|]); set_solver. }
  pose proof (runGrouped_answer address _ q1 w H1) as A1. destruct (runGroupedNodePower address q1 w) as [r1 w1].
  destruct (autoFormWorks first r1); [done|].
  pose proof (runGrouped_answer address _ q2 w1 H2) as A2. destruct (runGroupedNodePower address q2 w1) as [r2 w2].
  destruct (autoFormWorks second r2); [done|]. cbn [fst snd]. by destruct (size (nr_values r1) <? size (nr_values r2))%nat.
Qed.

(** The readings of a node under the settings. *)
Definition measuredBy (cfg : nodePowerConfig) (name : string) (p : float64) : Prop :=
  exists spec primary fallback, WithDefaults (np_spec cfg) = inr spec /\ nodePowerQuery spec = inr (primary, fallback) /\
    if q_PerNode primary then
      exists wa wb res, clientQuery (np_promAddress cfg) (ReplaceAll (q_PromQL primary) NodePlaceholder name) wa = (inr res, wb) /\
        p = SumSamples res
    else exists q wa wb res, q ∈ [primary; fallback] /\ clientQuery (np_promAddress cfg) (q_PromQL q) wa = (inr res, wb) /\
        NoDup (readable (q_GroupLabel q) (rs_Samples res)).*1 /\ (name, p) ∈ readable (q_GroupLabel q) (rs_Samples res).

(** The same over HTTP, from the endpoint of the settings. *)
Definition readOverHTTP (cfg : nodePowerConfig) (name : string) (p : float64) : Prop :=
  readOver FormatFloat Unmarshal UnmarshalMetrics (np_httpEndpoint cfg) (np_spec cfg) name p.

(** The state between the nodes of a reconcile: the round's values come from
    an answer, and each HTTP reader read only its endpoint. *)
Definition roundSound (cfg : nodePowerConfig) (st : npState) : Prop :=
  (forall values spec primary fallback, ns_round st = Round (Some values) ->
     WithDefaults (np_spec cfg) = inr spec -> nodePowerQuery spec = inr (primary, fallback) ->
     fromAnswer (np_promAddress cfg) [primary; fallback] values) /\
  readersSent FormatFloat UnmarshalMetrics (ns_readers st).

Context `{!DecodesMetrics FormatFloat UnmarshalMetrics}.

Lemma resolveNodePower_sound cfg name now st w :
  roundSound cfg st ->
  let '(p, src, st', w') := resolveNodePower cfg name now st w in
  roundSound cfg st' /\ fle fzero p = true /\
  (flt fzero p = true -> src = PowerSourcePrometheus \/ src = PowerSourceHTTP) /\
  (src = PowerSourcePrometheus -> flt fzero p = true /\ measuredBy cfg name p) /\
  (src = PowerSourceHTTP -> readOverHTTP cfg name p).
Proof.
  intros Hround. pose proof Hround as [Hr Hh]. unfold resolveNodePower.
  destruct (String.eqb (np_source cfg) nodePowerSourcePrometheus).
  - assert (let '(power, st', w') := if negb (String.eqb (np_promAddress cfg) "") then prometheusNodePower cfg name st w else (None, st, w) in
      roundSound cfg st' /\ forall p, power = Some p -> measuredBy cfg name p) as H.
    { destruct (negb _); [|done]. unfold prometheusNodePower.
      destruct (WithDefaults (np_spec cfg)) as [e|spec] eqn:Ed; [done|].
      destruct (nodePowerQuery spec) as [e|[primary fallback]] eqn:Eq; [done|].
      destruct (q_PerNode primary) eqn:Ep.
      - unfold perNodePower. destruct (clientQuery _ _ _) as [[e|res] w'] eqn:Ec; [done|].
        split; [done|]. intros p Hp. destruct (existsb _ _); [|done]. injection Hp as <-.
        exists spec, primary, fallback. rewrite Ep. split; [done|]. split; [done|]. by exists w, w', res.
      - assert (let '(values, st', w') := roundNodePower (np_promAddress cfg) primary fallback st w in
          roundSound cfg st' /\ fromAnswer (np_promAddress cfg) [primary; fallback] values) as H.
        { unfold roundNodePower. pose proof (grouped_answer (np_promAddress cfg) primary fallback (ns_autoForm st) w) as Hg.
          destruct (ns_round st) as [|[values|]] eqn:Er.
          - destruct (groupedNodePower _ _ _ _ _) as [[values form] w']. by split; [|done].
          - split; [done|]. by eapply Hr.
          - destruct (groupedNodePower _ _ _ _ _) as [[values form] w']. split; [|done]. split; [|done].
            cbn. intros values' spec' p' f' [= <-] Hd E. rewrite Ed in Hd. injection Hd as <-. rewrite Eq in E.
            injection E as <- <-. done. }
        destruct (roundNodePower _ _ _ _ _) as [[values st'] w']. destruct H as [Hst Hv]. split; [done|].
        intros p Hp. exists spec, primary, fallback. rewrite Ep. split; [done|]. split; [done|].
        destruct (Hv _ _ Hp) as (q & wa & wb & res & ? & ? & ? & ?). by exists q, wa, wb, res. }
    destruct (if negb _ then _ else _) as [[power st'] w']. destruct H as [Hst Hp]. destruct power as [p|]; [|done].
    destruct (flt fzero p) eqn:Ep; [|done]. split; [done|]. split; [by apply flt_fle|]. split; [by left|]. split; [|done]. intros _. split; [done|]. by apply Hp.
  - destruct (String.eqb (np_source cfg) nodePowerSourceHTTP); [|done]. destruct (negb _); [|done].
    pose proof (queryNodePowerHTTP_readers FormatFloat Unmarshal UnmarshalMetrics (np_httpEndpoint cfg) (np_spec cfg) name now
      (ns_readers st) w Hh) as H.
    destruct (queryNodePowerHTTP _ _ _ _ _ _ _ _ _) as [[power readers] w']. destruct H as [Hread Hp].
    destruct power as [p|]; [|done]. destruct (Hp p eq_refl) as [H1 H2]. split; [done|]. split; [done|]. split; [by right|done].
Qed.

(** What a node of the reconcile is told. *)
Definition toldSound (cfg : nodePowerConfig) (node : string * Z) (told : float64 * string) : Prop :=
  fle fzero told.1 = true /\
  (flt fzero told.1 = true -> told.2 = PowerSourcePrometheus \/ told.2 = PowerSourceHTTP) /\
  (told.2 = PowerSourcePrometheus -> flt fzero told.1 = true /\ measuredBy cfg node.1 told.1) /\
  (told.2 = PowerSourceHTTP -> readOverHTTP cfg node.1 told.1).

Lemma resolveNodes_sound cfg nodes st w :
  roundSound cfg st ->
  let '(l, st', w') := resolveNodes cfg nodes st w in
  roundSound cfg st' /\ Forall2 (toldSound cfg) nodes l.
Proof.
  revert st w. induction nodes as [|[name now] nodes IH]; intros st w Hst; [by split; [|constructor]|]. cbn [resolveNodes].
  pose proof (resolveNodePower_sound cfg name now st w Hst) as H.
  destruct (resolveNodePower cfg name now st w) as [[[p src] st1] w1]. destruct H as (Hst1 & H1).
  specialize (IH st1 w1 Hst1). destruct (resolveNodes cfg nodes st1 w1) as [[l st2] w2]. destruct IH as [Hst2 Hl].
  split; [done|]. by constructor.
Qed.

(** C32. The measured powers of a reconcile can be trusted: each is a number
    not below zero, a positive one is marked as measured, by Prometheus or
    over HTTP; one marked as Prometheus' is positive and is the node's
    value in an answer that names each node once, or the sum of the finite
    series of the node's own query; and one marked as read over HTTP is what
    the reader of the endpoint, which has been sent nothing but the endpoint's
    own answers, makes of the body the endpoint sends for the node. This
    holds whatever the endpoints answer, and for every setting, and each
    reader kept goes on holding only what its own endpoint sent. *)
Theorem node_power_sound (cfg : nodePowerConfig) (nodes : list (string * Z)) (st : npState) (w : W) :
  readersSent FormatFloat UnmarshalMetrics (ns_readers st) ->
  let '(l, st', w') := resolveNodes cfg nodes (withNodePowerRound st) w in
  Forall2 (toldSound cfg) nodes l /\ readersSent FormatFloat UnmarshalMetrics (ns_readers st').
Proof.
  intros Hh. assert (roundSound cfg (withNodePowerRound st)) as Hst by (split; [|done]; by intros ????[=]).
  pose proof (resolveNodes_sound cfg nodes _ w Hst) as H.
  destruct (resolveNodes cfg nodes (withNodePowerRound st) w) as [[l st'] w']. destruct H as [[_ H1] H2]. by split.
Qed.

(** ** The form of the resource attributes *)

(** C33. Auto settles: behind a Prometheus that does not promote the node
    attribute, where the labels form never works and the target_info form
    always does, the first reconcile reads the nodes through target_info,
    whichever form was kept before, and every later one sends that one query
    and no other. *)
Theorem auto_settles (alive : W -> Prop) (address : string) (primary fallback : Query) (form : string) (w : W) :
  q_PromQL fallback <> "" ->
  (forall q w, alive w -> alive (runGroupedNodePower address q w).2) ->
  (forall w, alive w -> autoFormWorks ResourceAttributesLabels (runGroupedNodePower address primary w).1 = false) ->
  (forall w, alive w -> autoFormWorks ResourceAttributesTargetInfo (runGroupedNodePower address fallback w).1 = true) ->
  form ∈ [""; ResourceAttributesLabels; ResourceAttributesTargetInfo] -> alive w ->
  let '(values, form', w') := groupedNodePower address primary fallback form w in
  form' = ResourceAttributesTargetInfo /\ alive w' /\ values <> ∅ /\
  forall w2, alive w2 ->
    let '(r, w3) := runGroupedNodePower address fallback w2 in
    groupedNodePower address primary fallback form' w2 = (nr_values r, form', w3) /\ alive w3.
Proof.
  intros Hf Hstep Hl Ht Hform Hw. apply String.eqb_neq in Hf.
  assert (forall w, alive w -> let '(r, w3) := runGroupedNodePower address fallback w in
    autoFormWorks ResourceAttributesTargetInfo r = true /\ nr_values r <> ∅ /\ alive w3) as Hinfo.
  { intros w0 H0. pose proof (Ht w0 H0) as H1. pose proof (Hstep fallback w0 H0) as H2.
    destruct (runGroupedNodePower address fallback w0) as [r w3]. split; [done|]. split; [|done].
    intros E. unfold autoFormWorks in H1. cbn [fst] in H1. rewrite E, (bool_decide_true _ eq_refl), orb_true_r in H1. done. }
  assert (forall w2, alive w2 ->
    let '(r, w3) := runGroupedNodePower address fallback w2 in
    groupedNodePower address primary fallback ResourceAttributesTargetInfo w2 = (nr_values r, ResourceAttributesTargetInfo, w3) /\
    alive w3 /\ nr_values r <> ∅) as Hkeep.
  { intros w2 H2. pose proof (Hinfo w2 H2) as H. unfold groupedNodePower. rewrite Hf. cbn [String.eqb].
    change (String.eqb ResourceAttributesTargetInfo "") with false. rewrite String.eqb_refl.
    destruct (runGroupedNodePower address fallback w2) as [r w3]. destruct H as (Hwk & Hv & Ha). by rewrite Hwk. }
  assert (form = ResourceAttributesTargetInfo \/
    (if String.eqb form "" then ResourceAttributesLabels else form) = ResourceAttributesLabels) as [->|E].
  { apply elem_of_cons in Hform as [->|[->|[->|[]%elem_of_nil]%elem_of_cons]%elem_of_cons]; [by right|by right|by left]. }
  - pose proof (Hkeep w Hw) as H. destruct (runGroupedNodePower address fallback w) as [r w3]. destruct H as (-> & Ha & Hv).
    do 3 (split; [done|]). intros w2 H2. specialize (Hkeep w2 H2). destruct (runGroupedNodePower address fallback w2). naive_solver.
  - unfold groupedNodePower at 1. rewrite Hf, E. change (String.eqb ResourceAttributesLabels ResourceAttributesTargetInfo) with false.
    cbn beta iota zeta. pose proof (Hl w Hw) as H1. pose proof (Hstep primary w Hw) as Hw1.
    destruct (runGroupedNodePower address primary w) as [r1 w1]. cbn [fst snd] in *. rewrite H1.
    pose proof (Hinfo w1 Hw1) as H. destruct (runGroupedNodePower address fallback w1) as [r2 w2']. destruct H as (-> & Hv & Ha).
    do 3 (split; [done|]). intros w2 H2. specialize (Hkeep w2 H2). destruct (runGroupedNodePower address fallback w2). naive_solver.
Qed.

End NodePower.

(** ** Samples: a Prometheus that does not promote the node attribute *)

(** The requests it was sent. *)
Definition Wire : Type := nat.

#[local] Instance wireHTTP : HTTPGet Wire := {|
  http_get url n := (Some (200%Z, if Contains url "target_info" then "joined" else "plain"), S n)
|}.

Definition vectorOf (labels : list (string * json)) : json :=
  JObj [("status", JStr "success");
        ("data", JObj [("resultType", JStr "vector");
                       ("result", JArr [JObj [("metric", JObj labels); ("value", JArr [JNum fone; JStr "500"])]])])].

Definition wireJSON (body : string) : option json :=
  Some (vectorOf (if String.eqb body "joined" then [("k8s_node_name", JStr "a")] else [])).

Definition wireFloat (s : string) : option float64 := if String.eqb s "500" then Some (fofZ 500) else None.

Definition noMetrics (body : string) : option MetricsData := None.

Definition autoSpec : NodePowerSpec := {|
  np_Preset := NodePowerPresetOTel; np_Scope := ScopeComponents; np_Naming := Default;
  np_ResourceAttributes := ResourceAttributesAuto; np_Window := DefaultWindow; np_NodeLabel := ""; np_CustomQuery := "" |}.

Definition autoConfig : nodePowerConfig := {|
  np_source := nodePowerSourcePrometheus; np_httpEndpoint := ""; np_promAddress := "http://prometheus:9090"; np_spec := autoSpec |}.

Definition autoPrimary : Query :=
  Eval vm_compute in match nodePowerQuery autoSpec with inr (q, _) => q | inl _ => noQuery end.
Definition autoFallback : Query :=
  Eval vm_compute in match nodePowerQuery autoSpec with inr (_, q) => q | inl _ => noQuery end.

Definition freshState : npState := {| ns_round := NoRound; ns_autoForm := ""; ns_readers := ∅ |}.

Lemma round_reads_once_witness :
  resolveNodes plainFormat wireJSON noMetrics wireFloat autoConfig [("a", 1%Z); ("b", 2%Z)] (withNodePowerRound freshState) 0 =
  ([(fofZ 500, PowerSourcePrometheus); (fzero, PowerSourcePrometheusNoData)],
   {| ns_round := Round (Some {["a" := fofZ 500]}); ns_autoForm := ResourceAttributesTargetInfo; ns_readers := ∅ |}, 2).
Proof.
  refine (round_reads_once plainFormat wireJSON noMetrics wireFloat autoConfig autoSpec autoPrimary autoFallback
    [("a", 1%Z); ("b", 2%Z)] freshState 0 {["a" := fofZ 500]} ResourceAttributesTargetInfo 2 eq_refl _ _ _ eq_refl _ _).
  - discriminate.
  - vm_compute. reflexivity.
  - vm_compute. reflexivity.
  - discriminate.
  - vm_compute. reflexivity.
Defined.

Lemma node_power_sound_witness :
  let '(l, _, _) :=
    resolveNodes plainFormat wireJSON noMetrics wireFloat autoConfig [("a", 1%Z); ("b", 2%Z)] (withNodePowerRound freshState) 0 in
  Forall2 (toldSound plainFormat wireJSON noMetrics wireFloat autoConfig) [("a", 1%Z); ("b", 2%Z)] l.
Proof.
  pose proof (node_power_sound plainFormat wireJSON noMetrics wireFloat (DecodesMetrics0 := ltac:(intros body md s [=])) autoConfig
    [("a", 1%Z); ("b", 2%Z)] freshState 0 ltac:(intros e win r Hk; discriminate Hk)) as H.
  destruct (resolveNodes _ _ _ _ _ _ _ _) as [[l st] w]. exact (proj1 H).
Defined.

Lemma auto_settles_witness :
  let '(values, form', w') :=
    groupedNodePower wireJSON wireFloat "http://prometheus:9090" autoPrimary autoFallback "" 0 in
  form' = ResourceAttributesTargetInfo /\ values <> ∅.
Proof.
  pose proof (auto_settles wireJSON wireFloat (fun _ : Wire => True) "http://prometheus:9090" autoPrimary autoFallback "" 0
    ltac:(discriminate) ltac:(done)
    ltac:(intros w _; change (autoFormWorks ResourceAttributesLabels
            (runGroupedNodePower wireJSON wireFloat "http://prometheus:9090" autoPrimary 0).1 = false); vm_compute; reflexivity)
    ltac:(intros w _; change (autoFormWorks ResourceAttributesTargetInfo
            (runGroupedNodePower wireJSON wireFloat "http://prometheus:9090" autoFallback 0).1 = true); vm_compute; reflexivity)
    ltac:(left) I) as H.
  destruct (groupedNodePower _ _ _ _ _ _ _) as [[values form'] w']. destruct H as (H1 & _ & H2 & _). split; [exact H1|exact H2].
Defined.
