(* ===== verification/Twinstate.v ===== *)
(** * The twin of each node: cmd/controller-manager/twinstate.go

    What one reconcile computes for a node's NodeTwin status: its topology and
    facility readings, the inventory completed from the catalog, the power
    trend of a rolling window, the twin's output, and the AgentReporting
    condition merged into the stored ones. The condition helpers of
    k8s.io/apimachinery are an interface, [ConditionOps], with the behaviour
    their documentation states, [ConditionLaws]. *)

From S2P Require Import Prelude GoString GoFloat FloatFacts Api Crd Hwinv Twin PromQuery.

#[local] Open Scope string_scope.

(** ** Topology and facility readings *)

(** src/cmd/controller-manager/facility.go:22-34 [facilitySnapshot] *)
Record facilitySnapshot := {
  fs_ambientC : float64;
  fs_ambientKnown : bool;
  fs_itPowerW : float64;
  fs_itKnown : bool;
  fs_coolingPowerW : float64;
  fs_coolingKnown : bool;
  fs_carbon : CarbonIntensity;
  fs_carbonKnown : bool;
  fs_zoneAmbientC : gmap string float64;
  fs_rackPowerW : gmap string float64;
  fs_nodeInletC : gmap string float64
}.

(** src/cmd/controller-manager/twinstate.go:37-48 [nodeTopology] *)
Record nodeTopology := {
  nt_rack : string;
  nt_coolingZone : string;
  nt_rackTotalPowerW : float64;
  nt_zoneAmbientC : float64;
  nt_zoneAmbientKnown : bool;
  nt_inletC : float64;
  nt_inletKnown : bool
}.

(** [v, ok := m[k]]. *)
Definition lookup_ok (m : gmap string float64) (k : string) : float64 * bool :=
  match m !! k with Some v => (v, true) | None => (fzero, false) end.

(** src/cmd/controller-manager/twinstate.go:54-70 [nodeTopologyFor] *)
Definition nodeTopologyFor (nodeName rack zone : string) (rackPowerEstimates : gmap string float64)
    (facility : facilitySnapshot) : option nodeTopology :=
  let rackW :=
    if negb (String.eqb rack "") then
      match fs_rackPowerW facility !! rack with
      | Some w => w
      | None => default fzero (rackPowerEstimates !! rack)
      end
    else fzero in
  let '(zoneC, zoneKnown) :=
    if negb (String.eqb zone "") then lookup_ok (fs_zoneAmbientC facility) zone else (fzero, false) in
  let '(inletC, inletKnown) := lookup_ok (fs_nodeInletC facility) nodeName in
  if String.eqb rack "" && String.eqb zone "" && negb inletKnown then None
  else Some {| nt_rack := rack; nt_coolingZone := zone; nt_rackTotalPowerW := rackW;
               nt_zoneAmbientC := zoneC; nt_zoneAmbientKnown := zoneKnown;
               nt_inletC := inletC; nt_inletKnown := inletKnown |}.

(** The ambient temperature of a node and whether it is known.
    src/cmd/controller-manager/twinstate.go:89-103 [outsideTempC] *)
Definition ambientFor (facility : facilitySnapshot) (topo : option nodeTopology) : float64 * bool :=
  match topo with
  | None => (fs_ambientC facility, fs_ambientKnown facility)
  | Some t =>
      if nt_inletKnown t then (nt_inletC t, true)
      else if nt_zoneAmbientKnown t then (nt_zoneAmbientC t, true)
      else (fs_ambientC facility, fs_ambientKnown facility)
  end.

(** ** The inventory *)

(** src/cmd/controller-manager/reader.go:109-140 [twinHardwareFromNodeHardware] *)
Definition twinHardwareFromNodeHardware (nodeName : string) (obj : CrdNodeHardware) : NodeHardware := {|
  hw_NodeName := nodeName;
  hw_CPU :=
    match cnh_CPU obj with
    | Some cpu =>
        {| cpu_RawModel := cc_RawModel cpu; cpu_Model := cc_Model cpu;
           cpu_Sockets := cc_Sockets cpu; cpu_TotalCores := cc_TotalCores cpu;
           cpu_CapRange :=
             match cc_CapRange cpu with
             | Some cr => {| MinWattsPerSocket := ccr_MinWattsPerSocket cr; MaxWattsPerSocket := ccr_MaxWattsPerSocket cr |}
             | None => {| MinWattsPerSocket := fzero; MaxWattsPerSocket := fzero |}
             end |}
    | None =>
        {| cpu_RawModel := ""; cpu_Model := ""; cpu_Sockets := 0; cpu_TotalCores := 0;
           cpu_CapRange := {| MinWattsPerSocket := fzero; MaxWattsPerSocket := fzero |} |}
    end;
  hw_GPU :=
    match cnh_GPU obj with
    | Some gpu =>
        {| gpu_Present := cgp_Present gpu; gpu_RawModel := cgp_RawModel gpu; gpu_Model := cgp_Model gpu;
           gpu_Count := cgp_Count gpu; gpu_PowerDomains := cgp_PowerDomains gpu;
           gpu_CapRange :=
             match cgp_CapRangePerGPU gpu with
             | Some cr => {| gcr_MinWatts := gcr_MinWatts cr; gcr_MaxWatts := gcr_MaxWatts cr; gcr_DefaultWatts := fzero |}
             | None => {| gcr_MinWatts := fzero; gcr_MaxWatts := fzero; gcr_DefaultWatts := fzero |}
             end;
           gpu_ControlAvailable := cgp_ControlAvailable gpu |}
    | None =>
        {| gpu_Present := false; gpu_RawModel := ""; gpu_Model := ""; gpu_Count := 0; gpu_PowerDomains := 0;
           gpu_CapRange := {| gcr_MinWatts := fzero; gcr_MaxWatts := fzero; gcr_DefaultWatts := fzero |};
           gpu_ControlAvailable := false |}
    end
|}.

(** The GPU half of the enrichment.
    src/cmd/controller-manager/twinstate.go:314-328 [hw.GPU] *)
Definition enrichGPU (c : Catalog) (gpu : NodeHardwareGPU) : NodeHardwareGPU :=
  if (0 <? gpu_Count gpu)%Z && fle (gcr_MaxWatts (gpu_CapRange gpu)) fzero then
    let gpuQuery := gpu_Model gpu in
    let gpuQuery := if String.eqb gpuQuery "" then gpu_RawModel gpu else gpuQuery in
    match MatchGPU (Some c) gpuQuery with
    | None => gpu
    | Some (_, spec) =>
        let o := gms_Official spec in
        {| gpu_Present := true; gpu_RawModel := gpu_RawModel gpu; gpu_Model := gpu_Model gpu;
           gpu_Count := gpu_Count gpu; gpu_PowerDomains := gpu_PowerDomains gpu;
           gpu_CapRange := {|
             gcr_MinWatts := if flt fzero (gos_MinBoardPowerW o) then gos_MinBoardPowerW o
                             else gcr_MinWatts (gpu_CapRange gpu);
             gcr_MaxWatts := gos_MaxBoardPowerW o;
             gcr_DefaultWatts := gcr_DefaultWatts (gpu_CapRange gpu) |};
           gpu_ControlAvailable := gpu_ControlAvailable gpu |}
    end
  else gpu.

Definition withCPURange (cpu : NodeHardwareCPU) (sockets : Z) (minW maxW : float64) : NodeHardwareCPU := {|
  cpu_RawModel := cpu_RawModel cpu; cpu_Model := cpu_Model cpu; cpu_Sockets := sockets;
  cpu_TotalCores := cpu_TotalCores cpu;
  cpu_CapRange := {| MinWattsPerSocket := minW; MaxWattsPerSocket := maxW |} |}.

(** The CPU half: the catalog's socket range, else five watts per core.
    src/cmd/controller-manager/twinstate.go:330-359 [hw.CPU] *)
Definition enrichCPU (c : Catalog) (cpu : NodeHardwareCPU) : NodeHardwareCPU :=
  if fle (MaxWattsPerSocket (cpu_CapRange cpu)) fzero then
    let cpuQuery := cpu_Model cpu in
    let cpuQuery := if String.eqb cpuQuery "" then cpu_RawModel cpu else cpuQuery in
    let cpu :=
      if negb (String.eqb cpuQuery "") then
        match MatchCPU (Some c) cpuQuery with
        | None => cpu
        | Some (_, spec) =>
            match SocketCapRangeW (cms_Official spec) with
            | (minW, maxW, true) => withCPURange cpu (cpu_Sockets cpu) minW maxW
            | (_, _, false) => cpu
            end
        end
      else cpu in
    if fle (MaxWattsPerSocket (cpu_CapRange cpu)) fzero && (0 <? cpu_TotalCores cpu)%Z then
      let sockets := if (cpu_Sockets cpu <=? 0)%Z then 1%Z else cpu_Sockets cpu in
      let coresPerSocket := Z.quot (cpu_TotalCores cpu) sockets in
      withCPURange cpu sockets (MinWattsPerSocket (cpu_CapRange cpu)) (fmul (fofZ coresPerSocket) (fofZ 5))
    else cpu
  else cpu.

(** [twinHardwareCatalog] is the installed catalog.
    src/cmd/controller-manager/twinstate.go:309-360 [enrichHardwareFromCatalog] *)
Definition enrichHardwareFromCatalog (twinHardwareCatalog : option Catalog) (hw : NodeHardware) : NodeHardware :=
  match twinHardwareCatalog with
  | None => hw
  | Some c => {| hw_NodeName := hw_NodeName hw; hw_CPU := enrichCPU c (hw_CPU hw); hw_GPU := enrichGPU c (hw_GPU hw) |}
  end.

(** src/cmd/controller-manager/twinstate.go:279-286 [twinHardware] *)
Definition twinHardware (twinHardwareCatalog : option Catalog) (nodeName : string) (obj : option CrdNodeHardware)
    : NodeHardware :=
  match obj with
  | None => twinHardwareFromNodeHardware nodeName
      {| cnh_Name := ""; cnh_NodeName := ""; cnh_CPU := None; cnh_GPU := None; cnh_MemoryTotalBytes := None;
         cnh_QualityWarnings := None; cnh_UpdatedAt := "" |}
  | Some obj => enrichHardwareFromCatalog twinHardwareCatalog (twinHardwareFromNodeHardware nodeName obj)
  end.

(** ** Measured power *)

(** src/cmd/controller-manager/twinstate.go:231-236 [implausibleNodePower] *)
Definition implausibleNodePower (measuredW nodeTdpW : float64) : bool :=
  if fle nodeTdpW fzero || fle measuredW fzero then false
  else flt (fmul (fofZ 2) nodeTdpW) measuredW.

(** src/cmd/controller-manager/twinstate.go:607-610 [powerSample] *)
Record powerSample := { ps_watts : float64; ps_at : Z }.

(** src/cmd/controller-manager/twinstate.go:612-612 [powerTrendWindow] *)
Definition powerTrendWindow : Z := 5 * 60 * 1000000000.

(** [time.Duration.Minutes]. *)
Definition durationMinutes (d : Z) : float64 :=
  fadd (fofZ (Z.quot d 60000000000)) (fdiv (fofZ (Z.rem d 60000000000)) (fofZ 60000000000)).

(** The index of the first sample after [cutoff], 0 when there is none.
    src/cmd/controller-manager/twinstate.go:626-632 [firstValid] *)
Definition firstValid (cutoff : Z) (samples : list powerSample) : nat :=
  match list_find (fun s => (cutoff < ps_at s)%Z) samples with
  | Some (i, _) => i
  | None => 0
  end.

(** The samples kept per node are the state; [now] is the time of the call.
    src/cmd/controller-manager/twinstate.go:616-647 [nodePowerTrend] *)
Definition nodePowerTrend (state : gmap string (list powerSample)) (now : Z) (nodeName : string)
    (currentPower : float64) : float64 * gmap string (list powerSample) :=
  let samples := (default [] (state !! nodeName) ++ [{| ps_watts := currentPower; ps_at := now |}])%list in
  let cutoff := (now - powerTrendWindow)%Z in
  let samples := drop (firstValid cutoff samples) samples in
  let state := <[nodeName := samples]> state in
  match samples, last samples with
  | oldest :: _ :: _, Some newest =>
      let elapsed := durationMinutes (sat64 (ps_at newest - ps_at oldest)) in
      if flt elapsed (flit 1 10) then (fzero, state)
      else (fdiv (fsub (ps_watts newest) (ps_watts oldest)) elapsed, state)
  | _, _ => (fzero, state)
  end.

(** ** Conditions *)

(** [metav1.Condition]; times in ns, 0 the zero time. *)
Record Condition := {
  c_Type : string;
  c_Status : string;
  c_Reason : string;
  c_Message : string;
  c_LastTransitionTime : Z
}.

(** The helpers of k8s.io/apimachinery/pkg/api/meta. *)
Class ConditionOps := {
  FindStatusCondition : list Condition -> string -> option Condition;
  SetStatusCondition : list Condition -> Condition -> list Condition
}.

(** What they document: find looks a type up; set replaces or appends the
    condition of its type, moves the transition time only when the status
    changes (and the new condition has one), and leaves other types alone. *)
Class ConditionLaws `{ConditionOps} : Prop := {
  find_type l t c : FindStatusCondition l t = Some c -> c_Type c = t;
  set_same l c : c_LastTransitionTime c <> 0%Z ->
    FindStatusCondition (SetStatusCondition l c) (c_Type c) =
    Some {| c_Type := c_Type c; c_Status := c_Status c; c_Reason := c_Reason c; c_Message := c_Message c;
            c_LastTransitionTime :=
              match FindStatusCondition l (c_Type c) with
              | Some prev => if String.eqb (c_Status prev) (c_Status c) then c_LastTransitionTime prev
                             else c_LastTransitionTime c
              | None => c_LastTransitionTime c
              end |};
  set_other l c t : t <> c_Type c ->
    FindStatusCondition (SetStatusCondition l c) t = FindStatusCondition l t
}.

(** src/pkg/api/conditions.go:13-32 [ConditionAgentReporting, ReasonNodeHardwareCurrent, ReasonNoNodeHardware, ReasonNodeHardwareStale, AgentReportingStaleAfter] *)
Definition ConditionAgentReporting : string := "AgentReporting".
Definition ReasonNodeHardwareCurrent : string := "NodeHardwareCurrent".
Definition ReasonNoNodeHardware : string := "NoNodeHardware".
Definition ReasonNodeHardwareStale : string := "NodeHardwareStale".
Definition AgentReportingStaleAfter : Z := 3 * (5 * 60 * 1000000000).

Definition ConditionTrue : string := "True".
Definition ConditionFalse : string := "False".

Definition agentCheck : string :=
  "check that the agent DaemonSet runs on the node: its tolerations (agent.tolerations), its node selector and the platforms of its image".

Section Conditions.
Context `{ConditionOps}.
(** [time.Parse(time.RFC3339, s)]. *)
Context (parseTime : string -> option Z).

(** src/cmd/controller-manager/twinstate.go:169-186 [agentReportingCondition] *)
Definition agentReportingCondition (obj : option CrdNodeHardware) (now : Z) : Condition :=
  let cond status reason message :=
    {| c_Type := ConditionAgentReporting; c_Status := status; c_Reason := reason; c_Message := message;
       c_LastTransitionTime := 0 |} in
  let current :=
    cond ConditionTrue ReasonNodeHardwareCurrent "an agent publishes NodeHardware for this node" in
  match obj with
  | None =>
      cond ConditionFalse ReasonNoNodeHardware
        ("no agent has published NodeHardware for this node, so the caps in spec are planned and not enforced; " +:+ agentCheck)
  | Some obj =>
      match parseTime (cnh_UpdatedAt obj) with
      | Some at_ =>
          if (AgentReportingStaleAfter <? sat64 (now - at_))%Z then
            cond ConditionFalse ReasonNodeHardwareStale
              ("the agent last wrote NodeHardware at " +:+ cnh_UpdatedAt obj +:+
               ", more than 15m0s ago, so the caps in spec are planned and not enforced; " +:+ agentCheck)
          else current
      | None => current
      end
  end.

Definition withTransition (c : Condition) (t : Z) : Condition := {|
  c_Type := c_Type c; c_Status := c_Status c; c_Reason := c_Reason c; c_Message := c_Message c;
  c_LastTransitionTime := t |}.

(** [now.UTC().Truncate(time.Second)]. *)
Definition truncateSecond (now : Z) : Z := now - now mod 1000000000.

(** src/cmd/controller-manager/twinstate.go:192-203 [mergeConditions] *)
Definition mergeConditions (existing desired : list Condition) (now : Z) : list Condition * list Condition :=
  foldl (fun '(out, changed) d =>
    let changed :=
      match FindStatusCondition out (c_Type d) with
      | Some prev => if String.eqb (c_Status prev) (c_Status d) then changed else (changed ++ [d])%list
      | None => (changed ++ [d])%list
      end in
    (SetStatusCondition out (withTransition d (truncateSecond now)), changed)) (existing, []) desired.

(** The label pairs of the gauge and the count of each.
    src/cmd/controller-manager/agent_metrics.go:20-41 [recordAgentReporting] *)
Definition agentReportingSeries : list (string * string) :=
  [("true", ReasonNodeHardwareCurrent); ("false", ReasonNoNodeHardware); ("false", ReasonNodeHardwareStale)].
Definition recordAgentReporting (conditions : list Condition) : list (string * string * Z) :=
  (fun s => (s, Z.of_nat (length (filter (fun c => ToLower (c_Status c) = s.1 /\ c_Reason c = s.2) conditions))))
    <$> agentReportingSeries.
End Conditions.

(** ** The twin of a node *)

(** What the cache answers for a node's NodeHardware: the object, none (not
    found, or no such kind), or a read error. *)
Inductive HardwareRead := HwFound (obj : CrdNodeHardware) | HwNone | HwError.

(** src/cmd/controller-manager/twinstate.go:264-274 [readNodeHardware] *)
Definition readNodeHardware (r : HardwareRead) : option CrdNodeHardware :=
  match r with HwFound obj => Some obj | HwNone | HwError => None end.

(** The status the controller manager writes.
    src/cmd/controller-manager/twinstate.go:129-160 [twinStatus] *)
Record TwinStatus := {
  ts_SchedulableClass : string;
  ts_PowerHeadroomScore : float64;
  ts_CoolingStressScore : float64;
  ts_PsuStressScore : float64;
  ts_EffectiveCapState : CapState;
  ts_EstimatedPUE : float64;
  ts_PowerMeasurement : PowerMeasurement;
  ts_LastUpdated : Z;
  ts_Conditions : list Condition
}.

Section Reconcile.
Context (parseTime : string -> option Z).

(** The measured power and its source come from [resolveNodePower], the GPU
    result from the stored NodeTwin; [now] is the twin's time.
    src/cmd/controller-manager/twinstate.go:84-163 [reconcileNodeTwin] *)
Definition reconcileNodeTwin (twinHardwareCatalog : option Catalog) (facility : facilitySnapshot)
    (read : HardwareRead) (gpuResult : option ControlResult) (measured : float64 * string)
    (samples : gmap string (list powerSample)) (now : Z)
    (nodeName profile : string) (cpuCapPct gpuCapPct : float64) (draining : bool) (topo : option nodeTopology)
    : option Condition * TwinStatus * gmap string (list powerSample) :=
  let hwObj := readNodeHardware read in
  let hw := twinHardware twinHardwareCatalog nodeName hwObj in
  let gpuCapNotApplied := negb (GPUCapApplies (hw_GPU hw) gpuResult) in
  let '(outsideTempC, outsideKnown) := ambientFor facility topo in
  let '(measuredPower, source) := measured in
  let '(trend, samples) := nodePowerTrend samples now nodeName measuredPower in
  let out := Compute {|
    in_NodeName := nodeName; in_Hardware := hw; in_Profile := profile;
    in_CPUCapPct := cpuCapPct; in_GPUCapPct := gpuCapPct; in_GPUCapNotApplied := gpuCapNotApplied;
    in_Draining := draining; in_MeasuredNodePowerW := measuredPower; in_PowerTrendWPerMin := trend;
    in_ClusterTotalPowerW := fs_itPowerW facility; in_OutsideTempC := outsideTempC;
    in_OutsideTempKnown := outsideKnown;
    in_Rack := match topo with Some t => nt_rack t | None => "" end;
    in_CoolingZone := match topo with Some t => nt_coolingZone t | None => "" end;
    in_RackTotalPowerW := match topo with Some t => nt_rackTotalPowerW t | None => fzero end |} in
  let o := out_PowerMeasurement out in
  let agent :=
    match read with HwError => None | _ => Some (agentReportingCondition parseTime hwObj now) end in
  (agent,
   {| ts_SchedulableClass := SchedulableClass out;
      ts_PowerHeadroomScore := PredictedPowerHeadroomScore out;
      ts_CoolingStressScore := PredictedCoolingStressScore out;
      ts_PsuStressScore := PredictedPsuStressScore out;
      ts_EffectiveCapState := EffectiveCapState out;
      ts_EstimatedPUE := EstimatedPUE out;
      ts_PowerMeasurement := {|
        pm_Source := source; pm_MeasuredNodePowerW := measuredPower;
        pm_CpuCappedPowerW := pmo_CpuCappedPowerW o; pm_GpuCappedPowerW := pmo_GpuCappedPowerW o;
        pm_NodeCappedPowerW := pmo_NodeCappedPowerW o; pm_CpuTdpW := pmo_CpuTdpW o;
        pm_GpuTdpW := pmo_GpuTdpW o; pm_NodeTdpW := pmo_NodeTdpW o; pm_PowerTrendWPerMin := trend |};
      ts_LastUpdated := now;
      ts_Conditions := match agent with Some c => [c] | None => [] end |},
   samples).
End Reconcile.

(** ** The power window *)

(** Calls in the order of their times, each on some node; the state each one
    leaves. *)
Inductive trendReach : gmap string (list powerSample) -> Z -> Prop :=
| trend_start t : trendReach ∅ t
| trend_step st t now name w :
    trendReach st t -> (t <= now)%Z -> trendReach (nodePowerTrend st now name w).2 now.

Definition inWindow (now : Z) (s : powerSample) : bool := (now - powerTrendWindow <? ps_at s)%Z.

(** The samples of one node, oldest first and none later than [t]. *)
Definition timely (t : Z) (l : list powerSample) : Prop :=
  StronglySorted (fun a b => (ps_at a <= ps_at b)%Z) l /\ Forall (fun s => (ps_at s <= t)%Z) l.

Lemma timely_snoc (t now : Z) (l : list powerSample) (w : float64) :
  timely t l -> (t <= now)%Z -> timely now (l ++ [{| ps_watts := w; ps_at := now |}])%list.
Proof.
  intros [Hs Hf] Hle. assert (Forall (fun s => (ps_at s <= now)%Z) l) as Hf'
    by (eapply Forall_impl; [exact Hf|cbn; lia]).
  split; [|apply Forall_app; split; [done|by repeat constructor]].
  induction l as [|a l IH]; cbn; [by repeat constructor|].
  inversion_clear Hs. inversion_clear Hf. inversion_clear Hf'. constructor; [by apply IH|].
  apply Forall_app. split; [done|]. by repeat constructor.
Qed.

(** Dropping up to the first sample in the window keeps exactly those in it. *)
Lemma drop_firstValid (now : Z) (l : list powerSample) (t : Z) :
  timely t l -> Exists (fun s => inWindow now s = true) l ->
  drop (firstValid (now - powerTrendWindow) l) l = filter (fun s => inWindow now s = true) l.
Proof.
  intros [Hs _] He. unfold firstValid. induction l as [|a l IH]; [by apply Exists_nil in He|].
  cbn [list_find]. rewrite filter_cons. inversion_clear Hs as [|? ? Hs' Hfa].
  destruct (decide (now - powerTrendWindow < ps_at a)%Z) as [Hlt|Hge].
  - cbn [drop]. rewrite decide_True by (unfold inWindow; lia). f_equal. symmetry.
    apply list_filter_id. intros b Hin. rewrite Forall_forall in Hfa. specialize (Hfa b Hin).
    unfold inWindow. apply Z.ltb_lt. lia.
  - rewrite decide_False by (unfold inWindow; lia).
    apply Exists_cons in He as [Hc|He]; [unfold inWindow in Hc; apply Z.ltb_lt in Hc; done|].
    rewrite <- IH by done. destruct (list_find _ l) as [[i s]|] eqn:E; [done|]. exfalso.
    apply list_find_None in E. apply Exists_exists in He as (b & Hb & Hw).
    rewrite Forall_forall in E. apply (E b Hb). unfold inWindow in Hw. by apply Z.ltb_lt in Hw.
Qed.

Lemma timely_filter (t : Z) (P : powerSample -> bool) (l : list powerSample) :
  timely t l -> timely t (filter (fun s => P s = true) l).
Proof.
  intros [Hs Hf]. induction l as [|a l IH]; [done|].
  inversion_clear Hs as [|? ? Hs' Ha]. inversion_clear Hf as [|? ? Hat Hf'].
  destruct (IH Hs' Hf') as [Hl Ht]. rewrite filter_cons. destruct (decide _); [|done].
  split; [|by constructor]. constructor; [done|]. rewrite Forall_forall in Ha.
  apply Forall_forall. intros b [_ Hb]%list_elem_of_filter. by apply Ha.
Qed.

Lemma nodePowerTrend_samples st t now name w :
  timely t (default [] (st !! name)) -> (t <= now)%Z ->
  (nodePowerTrend st now name w).2 =
  <[name := (filter (fun s => inWindow now s = true) (default [] (st !! name)) ++
             [{| ps_watts := w; ps_at := now |}])%list]> st.
Proof.
  intros Ht Hle. unfold nodePowerTrend. set (s := {| ps_watts := w; ps_at := now |}).
  pose proof (timely_snoc t now _ w Ht Hle) as Hs. fold s in Hs.
  assert (inWindow now s = true) as Hin by (unfold inWindow, powerTrendWindow; cbn; lia).
  rewrite (drop_firstValid now _ now Hs); [|apply Exists_app; right; by repeat constructor].
  rewrite filter_app, (filter_cons _ s), decide_True by done. cbn [filter list_filter].
  repeat case_match; done.
Qed.

Lemma trendReach_timely st t : trendReach st t -> forall name, timely t (default [] (st !! name)).
Proof.
  induction 1 as [t|st t now name w _ IH Hle]; intros n.
  { rewrite lookup_empty. by repeat constructor. }
  rewrite (nodePowerTrend_samples st t now name w (IH name) Hle).
  destruct (decide (n = name)) as [->|Hne].
  - rewrite lookup_insert_eq. cbn [default from_option id].
    eapply timely_snoc; [by apply timely_filter|done].
  - rewrite lookup_insert_ne by done. destruct (IH n) as [H1 H2]. split; [done|].
    eapply Forall_impl; [exact H2|cbn; lia].
Qed.

(** The power trend of a node, in any state calls at non-decreasing times can
    reach: the call keeps exactly the node's samples of the last five minutes
    and the new one, oldest first, and leaves other nodes alone; the trend is
    the watts gained since the oldest kept sample over the minutes since, and
    0 where that sample is missing or younger than a tenth of a minute. *)
Theorem nodePowerTrend_window st t now name w :
  trendReach st t -> (t <= now)%Z ->
  let kept := filter (fun s => inWindow now s = true) (default [] (st !! name)) in
  let '(trend, st') := nodePowerTrend st now name w in
  default [] (st' !! name) = (kept ++ [{| ps_watts := w; ps_at := now |}])%list /\
  (forall other, other <> name -> st' !! other = st !! other) /\
  StronglySorted (fun a b => (ps_at a <= ps_at b)%Z) (default [] (st' !! name)) /\
  Forall (fun s => (now - powerTrendWindow < ps_at s <= now)%Z) (default [] (st' !! name)) /\
  trend = match kept with
          | [] => fzero
          | oldest :: _ =>
              let minutes := durationMinutes (now - ps_at oldest) in
              if flt minutes (flit 1 10) then fzero else fdiv (fsub w (ps_watts oldest)) minutes
          end.
Proof.
  intros Hr Hle kept. pose proof (trendReach_timely st t Hr name) as Ht.
  pose proof (nodePowerTrend_samples st t now name w Ht Hle) as Hst.
  assert (timely now (kept ++ [{| ps_watts := w; ps_at := now |}])%list) as Hnew
    by (eapply timely_snoc; [by apply timely_filter|done]).
  assert ((nodePowerTrend st now name w).1 = match kept with
          | [] => fzero
          | oldest :: _ =>
              let minutes := durationMinutes (now - ps_at oldest) in
              if flt minutes (flit 1 10) then fzero else fdiv (fsub w (ps_watts oldest)) minutes
          end) as Htr.
  { unfold nodePowerTrend. set (s := {| ps_watts := w; ps_at := now |}) in *.
    pose proof (timely_snoc t now _ w Ht Hle) as Hall. fold s in Hall.
    rewrite (drop_firstValid now _ now Hall);
      [|apply Exists_app; right; constructor; unfold inWindow, powerTrendWindow; cbn; lia].
    fold s. rewrite filter_app, (filter_cons _ s), decide_True
      by (unfold inWindow, powerTrendWindow; cbn; lia). cbn [filter list_filter]. fold kept.
    destruct kept as [|o k] eqn:Ek; [done|]. cbn [app].
    assert (last (o :: k ++ [s])%list = Some s) as Hlast by (rewrite app_comm_cons; apply last_snoc).
    destruct (k ++ [s])%list as [|p l0] eqn:Ekl; [by destruct k|]. rewrite Hlast.
    assert (now - powerTrendWindow < ps_at o <= now)%Z as Ho.
    { assert (o ∈ kept) as Ho by (rewrite Ek; left). apply list_elem_of_filter in Ho as [Hw Hin].
      unfold inWindow in Hw. apply Z.ltb_lt in Hw. destruct Ht as [_ Hf].
      rewrite Forall_forall in Hf. specialize (Hf o Hin). lia. }
    assert (sat64 (ps_at s - ps_at o) = (now - ps_at o)%Z) as ->.
    { unfold sat64, int64_min, int64_max, powerTrendWindow in *. cbn. lia. }
    cbn [ps_watts s]. by destruct (flt _ _). }
  destruct (nodePowerTrend st now name w) as [trend st']. cbn [fst snd] in *. subst st'.
  rewrite lookup_insert_eq. cbn [default from_option id].
  split; [done|]. split; [intros o Ho; by apply lookup_insert_ne|]. split; [apply Hnew|].
  split; [|done]. apply Forall_forall. intros s Hs. destruct Hnew as [_ Hf].
  rewrite Forall_forall in Hf. split; [|by apply Hf].
  apply elem_of_app in Hs as [[Hw _]%list_elem_of_filter | ->%list_elem_of_singleton].
  - unfold inWindow in Hw. by apply Z.ltb_lt in Hw.
  - unfold powerTrendWindow. cbn. lia.
Qed.

(** ** Merged conditions *)

Section MergeFacts.
Context `{ConditionOps} `{!ConditionLaws}.

(** The condition a merge at [now] stores for [d]. *)
Definition merged (existing : list Condition) (now : Z) (d : Condition) : Condition :=
  withTransition d
    match FindStatusCondition existing (c_Type d) with
    | Some prev => if String.eqb (c_Status prev) (c_Status d) then c_LastTransitionTime prev else truncateSecond now
    | None => truncateSecond now
    end.

(** Whether [d] brings a status its type did not have. *)
Definition newStatus (existing : list Condition) (d : Condition) : bool :=
  match FindStatusCondition existing (c_Type d) with
  | Some prev => negb (String.eqb (c_Status prev) (c_Status d))
  | None => true
  end.

(** Each desired condition is stored as given, its transition time moved only
    where its status is new; the conditions of every other type stay as they
    were; and the changed ones are exactly those with a new status, in order. *)
Theorem mergeConditions_correct existing desired now :
  NoDup (c_Type <$> desired) -> truncateSecond now <> 0%Z ->
  let '(out, changed) := mergeConditions existing desired now in
  (forall d, d ∈ desired -> FindStatusCondition out (c_Type d) = Some (merged existing now d)) /\
  (forall t, t ∉ c_Type <$> desired -> FindStatusCondition out t = FindStatusCondition existing t) /\
  changed = filter (fun d => newStatus existing d = true) desired.
Proof.
  intros Hnd Hnow. unfold mergeConditions.
  assert (forall desired acc ch, NoDup (c_Type <$> desired) ->
    let '(out, changed) := foldl (fun '(out, changed) d =>
      (SetStatusCondition out (withTransition d (truncateSecond now)),
       match FindStatusCondition out (c_Type d) with
       | Some prev => if String.eqb (c_Status prev) (c_Status d) then changed else (changed ++ [d])%list
       | None => (changed ++ [d])%list
       end)) (acc, ch) desired in
    (forall d, d ∈ desired -> FindStatusCondition out (c_Type d) = Some (merged acc now d)) /\
    (forall t, t ∉ c_Type <$> desired -> FindStatusCondition out t = FindStatusCondition acc t) /\
    changed = (ch ++ filter (fun d => newStatus acc d = true) desired)%list) as Hgen.
  { clear desired Hnd existing. induction desired as [|d l IH]; intros acc ch Hnd; cbn [foldl].
    { split; [by intros d ?%not_elem_of_nil|]. split; [done|]. by rewrite app_nil_r. }
    cbn [fmap list_fmap] in Hnd. apply NoDup_cons in Hnd as [Hd Hnd].
    set (acc' := SetStatusCondition acc _).
    match goal with |- context [foldl _ (acc', ?c) l] => set (ch' := c) end.
    specialize (IH acc' ch' Hnd). destruct (foldl _ _ _) as [out changed]. destruct IH as (H1 & H2 & H3).
    assert (forall t, t <> c_Type d -> FindStatusCondition acc' t = FindStatusCondition acc t) as Hother
      by (intros t Ht; by apply set_other).
    assert (forall e, e ∈ l -> c_Type e <> c_Type d) as Hne.
    { intros e He E. apply Hd. rewrite <- E. by apply list_elem_of_fmap_2. }
    split; [|split].
    - intros e [->|He]%elem_of_cons.
      + rewrite H2 by done. unfold acc'. change (c_Type d) with (c_Type (withTransition d (truncateSecond now))).
        rewrite set_same by done. reflexivity.
      + rewrite H1 by done. unfold merged. by rewrite Hother by by apply Hne.
    - intros t Ht. cbn [fmap list_fmap] in Ht. apply not_elem_of_cons in Ht as [Hne' Ht].
      rewrite H2 by done. by apply Hother.
    - rewrite H3, filter_cons.
      assert (filter (fun e => newStatus acc' e = true) l = filter (fun e => newStatus acc e = true) l) as ->.
      { apply list_filter_ext'. intros e He. unfold newStatus. by rewrite Hother by by apply Hne. }
      unfold ch', newStatus. destruct (FindStatusCondition acc (c_Type d)) as [prev|] eqn:E; cbn.
      + destruct (String.eqb (c_Status prev) (c_Status d)); cbn; [done|]. by rewrite <- app_assoc.
      + by rewrite <- app_assoc. }
  exact (Hgen desired existing [] Hnd).
Qed.
End MergeFacts.

(** An implementation of the interface: a list with one condition per type. *)
Definition findIn (l : list Condition) (t : string) : option Condition :=
  snd <$> list_find (fun c => c_Type c = t) l.

Definition setOne (old c : Condition) : Condition :=
  withTransition c (if String.eqb (c_Status old) (c_Status c) then c_LastTransitionTime old else c_LastTransitionTime c).

Fixpoint setIn (l : list Condition) (c : Condition) : list Condition :=
  match l with
  | [] => [c]
  | old :: rest => if decide (c_Type old = c_Type c) then setOne old c :: rest else old :: setIn rest c
  end.

#[export] Instance listConditions : ConditionOps := {| FindStatusCondition := findIn; SetStatusCondition := setIn |}.

Lemma findIn_cons old rest t :
  findIn (old :: rest) t = if decide (c_Type old = t) then Some old else findIn rest t.
Proof. unfold findIn. cbn. destruct (decide _); [done|]. by destruct (list_find _ rest) as [[]|]. Qed.

#[export] Instance listConditions_laws : ConditionLaws.
Proof.
  split; cbn [FindStatusCondition SetStatusCondition listConditions].
  - intros l t c. induction l as [|old l IH]; [done|]. rewrite findIn_cons.
    destruct (decide _); [by intros [= <-]|done].
  - intros l c Hc. induction l as [|old l IH].
    { cbn [setIn]. rewrite findIn_cons, decide_True by done. by destruct c. }
    cbn [setIn]. rewrite (findIn_cons old l). destruct (decide (c_Type old = c_Type c)) as [E|E].
    + by rewrite findIn_cons, decide_True by done.
    + by rewrite findIn_cons, decide_False by done.
  - intros l c t Ht. induction l as [|old l IH].
    { cbn [setIn]. by rewrite findIn_cons, decide_False by done. }
    cbn [setIn]. destruct (decide (c_Type old = c_Type c)) as [E|E]; rewrite !findIn_cons.
    + rewrite !decide_False by (cbn; congruence). done.
    + by rewrite IH.
Qed.

(** ** The twin's CPU budget is the agent's *)

Lemma enrichCPU_reported c cpu :
  flt fzero (MaxWattsPerSocket (cpu_CapRange cpu)) = true -> enrichCPU c cpu = cpu.
Proof. intros Hm. unfold enrichCPU. destruct (fle _ fzero) eqn:E; [forder|done]. Qed.

(** ** Concrete states *)

Definition minute : Z := 60000000000.

Example nodePowerTrend_window_witness :
  (nodePowerTrend (nodePowerTrend ∅ minute "n" (fofZ 400)).2 (3 * minute) "n" (fofZ 500)).1 = fofZ 50 /\
  (nodePowerTrend (nodePowerTrend ∅ minute "n" (fofZ 400)).2 (3 * minute) "n" (fofZ 500)).2 !! "m" =
    @None (list powerSample).
Proof.
  split; [vm_compute; reflexivity|].
  pose proof (nodePowerTrend_window (nodePowerTrend ∅ minute "n" (fofZ 400)).2 minute (3 * minute) "n" (fofZ 500)) as H.
  destruct (nodePowerTrend _ (3 * minute) "n" (fofZ 500)) as [tr st']. destruct H as (_ & H & _).
  - eapply trend_step; [apply (trend_start 0)|by vm_compute].
  - by vm_compute.
  - cbn [snd]. rewrite H by done. vm_compute. reflexivity.
Defined.

Definition readyCondition (status : string) (t : Z) : Condition := {|
  c_Type := ConditionAgentReporting; c_Status := status; c_Reason := ""; c_Message := "";
  c_LastTransitionTime := t |}.

Example mergeConditions_correct_witness :
  FindStatusCondition
    (mergeConditions [readyCondition "True" 7] [agentReportingCondition (fun _ => None) None 0] (5 * minute + 42)).1
    ConditionAgentReporting =
  Some (withTransition (agentReportingCondition (fun _ => None) None 0) (5 * minute)).
Proof.
  pose proof (mergeConditions_correct [readyCondition "True" 7]
    [agentReportingCondition (fun _ => None) None 0] (5 * minute + 42)) as Hm.
  destruct (mergeConditions _ _ _) as [out changed]. destruct Hm as (Hm & _ & _).
  - by_decide.
  - vm_compute. discriminate.
  - cbn [fst]. change ConditionAgentReporting with (c_Type (agentReportingCondition (fun _ => None) None 0)).
    rewrite Hm by (by left). vm_compute. reflexivity.
Defined.
