(* ===== verification/TwinBudget.v ===== *)
(** * The CPU budget of the twin and the agent's cap

    One percentage cap goes to two programs: the agent resolves it to the
    watts it sends to the node's backend (cmd/agent/main.go
    [resolveCPUCapFromPct]), and the digital twin to the CPU budget it
    publishes (pkg/controller/twin). Neither tells the other the range it
    uses. Here the agent's discovery, the status it publishes, the controller
    manager's completion of it from its own copy of the catalog, and the twin
    are composed. *)

From S2P Require Import Prelude GoString GoFloat FloatFacts Json Api Crd Hwinv Twin Host Governor NvidiaDiscovery GpuDevices GpuInventory.
From S2P Require Import CpuDiscovery AmdControl Kube HostFS Dvfs RaplCap GpuCap HostHardware HardwareStatus NvidiaControl GovernorControl Twinstate.

#[local] Open Scope string_scope.

Section Budget.
Context {H : Type} `{!HostFS H} `{!SysfsHost H} `{!NvidiaSmi H} `{!RocmSmi H} `{QuantityOps}.
Context {TF : ToolFailures H}.
Context (ParseFloat : string -> option float64) (FormatG : float64 -> string) (governorFiles : H -> GovernorFiles).

(** What the discovery says of the CPU. *)
Lemma found_cpu ca node now facts mem (h : H) :
  let hw := fd_hw (discoverHardwareWith ParseFloat FormatG ca governorFiles node now facts mem h) in
  let range := readRAPLPackageCapRangeWatts h in
  hi_CPURawModel hw = discoverCPURawModel (n_Labels node) h /\
  hi_CPUSockets hw = discoverCPUSockets (n_Labels node) h /\
  hi_CPUModel hw = match MatchCPU ca (discoverCPURawModel (n_Labels node) h) with Some (key, _) => key | None => "" end /\
  hi_CPUCapKnown hw = bool_decide (is_Some range) /\
  (forall maxW minW, range = Some (maxW, minW) -> hi_CPUCapMinWatts hw = minW /\ hi_CPUCapMaxWatts hw = maxW).
Proof.
  cbv zeta. unfold discoverHardwareWith. destruct (gpuVendors _ _ _) as [[vendors mem1] h1]. destruct (detectGPUVendor _ _ _) as [[vendor mem2] h2].
  destruct (listGPUDevices _ _ _ _) as [[[devices err] mem3] h3]. destruct (discoverGovernors _ _ _ _ _ _ _ _ _ _) as [[gov facts'] h4].
  cbn [fd_hw hi_CPURawModel hi_CPUSockets hi_CPUModel hi_CPUCapKnown hi_CPUCapMinWatts hi_CPUCapMaxWatts].
  destruct (readRAPLPackageCapRangeWatts h) as [[maxW minW]|]; split_and!; try done. by intros ? ? [= <- <-].
Qed.

(** The twin's range for a CPU whose published range is [range]. *)
Definition publishedRange (range : option (float64 * float64)) : CPUCapRange :=
  match range with
  | Some (maxW, minW) => {| MinWattsPerSocket := minW; MaxWattsPerSocket := maxW |}
  | None => {| MinWattsPerSocket := fzero; MaxWattsPerSocket := fzero |}
  end.

(** The CPU the twin starts from is the one the agent published. *)
Lemma twin_cpu ca ct node now facts mem (h : H) g obj nodeName :
  let hw := fd_hw (discoverHardwareWith ParseFloat FormatG ca governorFiles node now facts mem h) in
  cnh_CPU obj = decCPU (JObj (cpuBlock hw g)) ->
  hw_CPU (twinHardware (Some ct) nodeName (Some obj)) = enrichCPU ct {|
    cpu_RawModel := hi_CPURawModel hw; cpu_Model := hi_CPUModel hw; cpu_Sockets := hi_CPUSockets hw;
    cpu_TotalCores := hi_CPUTotalCores hw; cpu_CapRange := publishedRange (readRAPLPackageCapRangeWatts h) |}.
Proof.
  cbv zeta. intros Hcpu. pose proof (found_cpu ca node now facts mem h) as (_ & _ & _ & Hk & Hr). cbv zeta in Hk, Hr.
  set (hw := fd_hw _) in *. rewrite decCPU_block in Hcpu.
  cbn [twinHardware enrichHardwareFromCatalog hw_CPU twinHardwareFromNodeHardware]. rewrite Hcpu.
  cbn [cc_RawModel cc_Model cc_Sockets cc_TotalCores cc_CapRange]. rewrite Hk.
  destruct (readRAPLPackageCapRangeWatts h) as [[maxW minW]|] eqn:E; cbn [bool_decide decide publishedRange].
  - rewrite bool_decide_true by done. destruct (Hr maxW minW eq_refl) as [-> ->]. done.
  - rewrite bool_decide_false by (by intros []). done.
Qed.

(** The same lookup of the same entries: the agent's by the raw model, the
    twin's by the key the agent published. *)
Lemma enrichCPU_catalog ca ca' ct raw cores sockets nr :
  sameEntries ca ct -> sameEntries ca ca' -> unambiguous cms_Aliases (CPUModels ca) ->
  NodeCPUCapRangeW (Some ca') raw sockets = inl nr ->
  let cpu := enrichCPU ct {|
    cpu_RawModel := raw; cpu_Model := match MatchCPU (Some ca) raw with Some (key, _) => key | None => "" end;
    cpu_Sockets := sockets; cpu_TotalCores := cores; cpu_CapRange := publishedRange None |} in
  (0 < sockets)%Z /\ cpu_Sockets cpu = sockets /\ ncr_Sockets nr = sockets /\
  MinWattsPerSocket (cpu_CapRange cpu) = ncr_SocketMinW nr /\ MaxWattsPerSocket (cpu_CapRange cpu) = ncr_SocketMaxW nr.
Proof.
  intros [Ht _] [Ha _] Hu Hnr. unfold NodeCPUCapRangeW in Hnr. cbn [MatchCPU] in *.
  rewrite (matchEntries_order cms_Aliases (CPUModels ca) (CPUModels ca') raw) by (done || (intros; by eapply Hu)).
  destruct (matchEntries cms_Aliases (CPUModels ca') raw) as [[key spec]|] eqn:Em; [|done].
  assert (matchEntries cms_Aliases (CPUModels ca) raw = Some (key, spec)) as Em0
    by (rewrite <- Em; apply matchEntries_order; [done|intros; by eapply Hu]).
  pose proof (matchEntries_key cms_Aliases (CPUModels ca) (CPUModels ct) raw (key, spec) Hu Ht Em0) as Ek. cbn [fst] in Ek.
  assert (key <> "") as Hne.
  { apply matchEntries_Some in Em0 as (Hin & _). intros ->. by destruct Hu as [_ Hk]; apply (Hk _ Hin). }
  unfold SocketCapRangeW in Hnr. destruct (fle (cos_TDPW (cms_Official spec)) fzero) eqn:Et; [done|].
  destruct (Z.leb_spec sockets 0) as [|Hs]; [done|]. injection Hnr as <-.
  unfold enrichCPU. cbn [publishedRange cpu_CapRange MaxWattsPerSocket cpu_Model cpu_RawModel cpu_Sockets cpu_TotalCores].
  change (fle fzero fzero) with true. cbn iota. apply String.eqb_neq in Hne. rewrite !Hne. cbn [negb MatchCPU]. rewrite Ek.
  unfold SocketCapRangeW. rewrite Et. cbn [withCPURange cpu_CapRange MaxWattsPerSocket]. rewrite Et. done.
Qed.

(** What the twin derives from a CPU whose sockets are known. *)
Lemma Compute_cpu input : (0 < cpu_Sockets (hw_CPU (in_Hardware input)))%Z -> fle (in_CPUCapPct input) fzero = false ->
  let cpu := hw_CPU (in_Hardware input) in
  let maxW := fmul (MaxWattsPerSocket (cpu_CapRange cpu)) (fofZ (cpu_Sockets cpu)) in
  let out := out_PowerMeasurement (Compute input) in
  pmo_CpuTdpW out = maxW /\
  pmo_CpuCappedPowerW out = CapForPctW (in_CPUCapPct input) (fmul (MinWattsPerSocket (cpu_CapRange cpu)) (fofZ (cpu_Sockets cpu))) maxW.
Proof.
  intros Hs Hp. cbv zeta. unfold Compute. rewrite Hp. cbn [out_PowerMeasurement pmo_CpuTdpW pmo_CpuCappedPowerW].
  destruct (Z.leb_spec (cpu_Sockets (hw_CPU (in_Hardware input))) 0); [lia|done].
Qed.

(** C40. One percentage cap means the same watts to the agent and to the
    twin. On a node with a RAPL endpoint, the agent resolves the cap to the
    watts it sends; the twin takes the CPU the agent published, completed by
    the controller manager from its own ranging over the same catalog, and
    publishes as CPU budget those watts, and as CPU maximum the top of the
    agent's range. It holds with the catalog's range, where no two of its
    entries are spelled alike and the labels the agent discovers the CPU
    from say the same model and sockets as those it resolves the cap from;
    and with the ranges of two or more RAPL packages, where there are as
    many as sockets. *)
Theorem twin_agent_same_budget ca ca' ct node now facts mem (h h' : H) g obj nodeName input w r :
  let hw := fd_hw (discoverHardwareWith ParseFloat FormatG (Some ca) governorFiles node now facts mem h) in
  sameEntries ca ct -> sameEntries ca ca' -> unambiguous cms_Aliases (CPUModels ca) ->
  readRAPLPackageCapRangeWatts h' = readRAPLPackageCapRangeWatts h ->
  cnh_CPU obj = decCPU (JObj (cpuBlock hw g)) ->
  in_Hardware input = twinHardware (Some ct) nodeName (Some obj) ->
  resolveCPUCapFromPct (Some ca') (in_CPUCapPct input) (n_Labels node) true h' = inl (w, r) ->
  (if cr_catalog r then SimulatedNodeCPU (n_Labels node) = (hi_CPURawModel hw, hi_CPUSockets hw)
   else (1 < length (RAPLPackageZones h'))%nat /\ hi_CPUSockets hw = Z.of_nat (length (RAPLPackageZones h'))) ->
  let out := out_PowerMeasurement (Compute input) in
  pmo_CpuCappedPowerW out = w /\ pmo_CpuTdpW out = cr_maxW r.
Proof.
  cbv zeta. intros Ht Ha Hu Hrange Hcpu Hin Hres Hnode.
  pose proof (twin_cpu (Some ca) ct node now facts mem h g obj nodeName Hcpu) as Htwin. rewrite <- Hin in Htwin.
  pose proof (found_cpu (Some ca) node now facts mem h) as (Hraw & _ & Hmodel & _). cbv zeta in Hraw, Hmodel.
  set (hw := fd_hw _) in *. rewrite <- Hraw in Hmodel. unfold resolveCPUCapFromPct in Hres. rewrite Hrange in Hres.
  destruct (fle (in_CPUCapPct input) fzero) eqn:Ep; [done|]. cbn [negb andb] in Hres.
  pose proof (Compute_cpu input) as Hout. rewrite Htwin in Hout.
  destruct (readRAPLPackageCapRangeWatts h) as [[maxW minW]|] eqn:Er.
  - destruct (readRange_max h maxW minW Er) as (_ & Hpos & _). rewrite Hpos in Hres.
    destruct (Nat.ltb_spec 1 (length (RAPLPackageZones h'))) as [Hn|Hn]; injection Hres as <- <-; cbn [cr_catalog] in Hnode; [|lia].
    destruct Hnode as [_ Hs]. rewrite enrichCPU_reported in Hout by exact Hpos.
    cbn [cpu_Sockets cpu_CapRange publishedRange MinWattsPerSocket MaxWattsPerSocket cr_minW cr_maxW] in *.
    destruct Hout as [-> ->]; [lia|done|]. by rewrite Hs.
  - destruct (cpuCapRangeFromCatalog (Some ca') (n_Labels node)) as [rng|err] eqn:Ec; [|done]. injection Hres as <- <-.
    unfold cpuCapRangeFromCatalog in Ec. destruct (SimulatedNodeCPU (n_Labels node)) as [model sockets].
    destruct (NodeCPUCapRangeW (Some ca') model sockets) as [nr|err] eqn:En; [|done]. injection Ec as <-. cbn [cr_catalog] in Hnode.
    injection Hnode as -> ->. rewrite Hmodel in Hout.
    destruct (enrichCPU_catalog ca ca' ct _ (hi_CPUTotalCores hw) _ nr Ht Ha Hu En) as (Hs & E1 & E2 & E3 & E4). cbv zeta in *.
    rewrite E1, E3, E4 in Hout. destruct Hout as [-> ->]; [done|done|].
    unfold ncr_MinW, ncr_MaxW in *. cbn [cr_minW cr_maxW]. unfold ncr_MinW, ncr_MaxW. by rewrite E2.
Qed.
End Budget.

(** ** A node with labels alone *)

#[local] Instance toolFS : HostFS Tool := {
  fs_read _ _ := None; fs_write _ _ h := (Some "read-only file system", h); fs_walk _ := []; fs_resolve p _ := Some p; fs_readlink _ _ := None }.
#[local] Instance toolRocm : RocmSmi Tool := {| rocm_run _ h := (Some toolFailure, "", h) |}.
#[local] Instance toolFails : ToolFailures Tool := {| nvidiaToolFailures _ := 0%Z |}.
#[local] Existing Instance integer_quantity.

Definition labelled : Kube.Node := {| n_Name := "n";
  n_Labels := {["joulie.io/hw.cpu-model" := "AMD EPYC 9654 96-Core Processor"; "joulie.io/hw.cpu-sockets" := "2"]};
  n_Unschedulable := false; n_Allocatable := ∅; n_Capacity := ∅ |}.
Definition noFiles (h : Tool) : GovernorFiles := {| gf_sys := mkSys ∅ []; gf_cpuinfo := None; gf_access _ := false; gf_driver _ := None; gf_pci := [] |}.
Definition noGPUs : Tool := mkTool ∅ [].

Definition budgetHw : HardwareInfo :=
  fd_hw (discoverHardwareWith (fun _ => None) (fun _ => "") (Some sampleCatalog) noFiles labelled 0 None ∅ noGPUs).

Definition budgetNode : CrdNodeHardware := {|
  cnh_Name := "n"; cnh_NodeName := "n"; cnh_CPU := decCPU (JObj (cpuBlock budgetHw None));
  cnh_GPU := None; cnh_MemoryTotalBytes := None; cnh_QualityWarnings := None; cnh_UpdatedAt := "" |}.

Definition budgetInput : Input := {|
  in_NodeName := "n"; in_Hardware := twinHardware (Some reversedCatalog) "n" (Some budgetNode);
  in_Profile := "eco"; in_CPUCapPct := fofZ 75; in_GPUCapPct := fofZ 100; in_GPUCapNotApplied := false;
  in_Draining := false; in_MeasuredNodePowerW := fzero; in_PowerTrendWPerMin := fzero;
  in_ClusterTotalPowerW := fzero; in_OutsideTempC := fzero; in_OutsideTempKnown := false;
  in_Rack := ""; in_CoolingZone := ""; in_RackTotalPowerW := fzero |}.

Lemma sample_unambiguous : unambiguous cms_Aliases (CPUModels sampleCatalog).
Proof.
  assert (forall e, e ∈ CPUModels sampleCatalog ->
    e = ("AMD_EPYC_9654", sampleCPU "AMD EPYC 9654 96-Core Processor" 360) \/ e = ("INTEL_XEON_6530", sampleCPU "Intel(R) Xeon(R) Gold 6530" 270)) as He.
  { intros e [->|[->|[]%elem_of_nil]%elem_of_cons]%elem_of_cons; auto. }
  split.
  - intros name e e' H1%He H2%He M1 M2. unfold entryMatches in M1, M2. apply orb_prop in M1, M2.
    destruct H1 as [->| ->], H2 as [->| ->]; try done; cbn [fst snd cms_Aliases sampleCPU existsb] in *;
      rewrite !orb_false_r in *; destruct M1 as [<-%String.eqb_eq|<-%String.eqb_eq], M2 as [M2%String.eqb_eq|M2%String.eqb_eq];
      vm_compute in M2; discriminate M2.
  - intros e [->| ->]%He E; vm_compute in E; discriminate E.
Qed.

Example twin_agent_same_budget_witness :
  exists w r, resolveCPUCapFromPct (Some reversedCatalog) (fofZ 75) (n_Labels labelled) true noGPUs = inl (w, r) /\ w = fofZ 540 /\
    pmo_CpuCappedPowerW (out_PowerMeasurement (Compute budgetInput)) = w /\
    pmo_CpuTdpW (out_PowerMeasurement (Compute budgetInput)) = fofZ 720.
Proof.
  destruct (resolveCPUCapFromPct (Some reversedCatalog) (fofZ 75) (n_Labels labelled) true noGPUs) as [[w r]|] eqn:E; [|vm_compute in E; discriminate E].
  assert (sameEntries sampleCatalog reversedCatalog) as Hs by (split; [apply Permutation_rev|done]).
  assert (w = fofZ 540 /\ cr_maxW r = fofZ 720 /\ cr_catalog r = true) as (Hw & Hm & Hc)
    by (vm_compute in E; injection E as <- <-; by vm_compute).
  assert (if cr_catalog r then SimulatedNodeCPU (n_Labels labelled) = (hi_CPURawModel budgetHw, hi_CPUSockets budgetHw)
    else (1 < length (RAPLPackageZones noGPUs))%nat /\ hi_CPUSockets budgetHw = Z.of_nat (length (RAPLPackageZones noGPUs))) as Hn
    by (rewrite Hc; vm_compute; reflexivity).
  exists w, r. split; [reflexivity|]. split; [exact Hw|]. rewrite <- Hm.
  exact (twin_agent_same_budget (fun _ => None) (fun _ => "") noFiles sampleCatalog reversedCatalog reversedCatalog labelled 0 None ∅ noGPUs noGPUs None
    budgetNode "n" budgetInput w r Hs Hs sample_unambiguous eq_refl eq_refl eq_refl E Hn).
Defined.
