(* ===== verification/Facility.v ===== *)
(** * Facility readings: cmd/controller-manager/facility.go

    One poll of the facility: a query per input, what each answer reads as,
    and the snapshot that replaces the last one; and the snapshot a
    reconcile's plan and twins read while polls go on beside it. Gauges, log
    lines and hints are left out. *)

From S2P Require Import Prelude GoString GoFloat FloatFacts Json PromName PromQuery PromResult NodePower Twinstate.

#[local] Open Scope string_scope.

(** ** The poll *)

(** src/cmd/controller-manager/facility.go:117-122 [facilityConfig] *)
Record facilityConfig := {
  fa_enabled : bool;
  fa_prometheusAddress : string;
  fa_pollInterval : Z;
  fa_spec : FacilitySpec
}.

(** The zero value of [facilitySnapshot]. *)
Definition noIntensity : CarbonIntensity := {| ci_GramsPerKWh := fzero; ci_Signal := "" |}.
Definition noSnapshot : facilitySnapshot := {|
  fs_ambientC := fzero; fs_ambientKnown := false; fs_itPowerW := fzero; fs_itKnown := false;
  fs_coolingPowerW := fzero; fs_coolingKnown := false; fs_carbon := noIntensity; fs_carbonKnown := false;
  fs_zoneAmbientC := ∅; fs_rackPowerW := ∅; fs_nodeInletC := ∅ |}.

(** src/cmd/controller-manager/facility.go:72-76 [facilityMetrics] *)
Record facilityMetrics := { fm_readings : facilitySnapshot; fm_lastUpdated : Z }.

(** src/cmd/controller-manager/facility.go:79-84 [store] *)
Definition store (s : facilitySnapshot) (now : Z) : facilityMetrics := {| fm_readings := s; fm_lastUpdated := now |}.

(** src/cmd/controller-manager/facility.go:260-268 [facilitySingleResult] *)
Definition facilitySingleResult (err : option QueryError) : string :=
  match err with
  | None => inputResultSuccess
  | Some ErrNoData => inputResultNoData
  | Some _ => inputResultError
  end.

(** The map a keyed input reads, the result label and the error.
    src/cmd/controller-manager/facility.go:271-288 [readFacilityKeyed] *)
Definition readFacilityKeyed (res : QueryError + Result) (label : string)
    : gmap string float64 * string * option QueryError :=
  match res with
  | inl e => (∅, inputResultError, Some e)
  | inr res =>
      let '(out, iss) := ByLabel res label in
      match out with
      | inl e => (∅, inputResultError, Some e)
      | inr m =>
          if bool_decide (m = ∅) then
            (∅, inputResultNoData, Some (if (0 <? is_Series iss)%nat then SkippedSeries else ErrNoData))
          else if (0 <? is_MissingLabel iss)%nat || (0 <? is_NonFinite iss)%nat then
            (m, inputResultPartial, Some SkippedSeries)
          else (m, inputResultSuccess, None)
      end
  end.

(** A field of the snapshot set by an input of a single value, and by a keyed
    one.
    src/cmd/controller-manager/facility.go:215-227 [fetchFacilityMetrics] *)
Definition setSingle (input : FacilityInput) (v : float64) (carbon : CarbonIntensity) (known : bool)
    (s : facilitySnapshot) : facilitySnapshot :=
  let '(Build_facilitySnapshot a ak i ik c ck g gk z r n) := s in
  if String.eqb input FacilityInputAmbientTemp then Build_facilitySnapshot v known i ik c ck g gk z r n
  else if String.eqb input FacilityInputITPower then Build_facilitySnapshot a ak v known c ck g gk z r n
  else if String.eqb input FacilityInputCoolingPower then Build_facilitySnapshot a ak i ik v known g gk z r n
  else if String.eqb input FacilityInputCarbonIntensity then Build_facilitySnapshot a ak i ik c ck carbon known z r n
  else s.

(** src/cmd/controller-manager/facility.go:234-241 [fetchFacilityMetrics] *)
Definition setKeyed (input : FacilityInput) (m : gmap string float64) (s : facilitySnapshot) : facilitySnapshot :=
  let '(Build_facilitySnapshot a ak i ik c ck g gk z r n) := s in
  if String.eqb input FacilityInputZoneAmbientTemp then Build_facilitySnapshot a ak i ik c ck g gk m r n
  else if String.eqb input FacilityInputRackPower then Build_facilitySnapshot a ak i ik c ck g gk z m n
  else if String.eqb input FacilityInputNodeInletTemp then Build_facilitySnapshot a ak i ik c ck g gk z r m
  else s.

Section Poll.
Variable Unmarshal : string -> option json.
Variable ParseFloat : string -> option float64.
Context {W : Type} `{!HTTPGet W}.
Notation clientQuery := (clientQuery Unmarshal ParseFloat).

(** src/cmd/controller-manager/facility.go:340-346 [queryPrometheusScalar] *)
Definition queryPrometheusScalar (address query : string) (w : W) : (QueryError + float64) * W :=
  let '(res, w) := clientQuery address query w in
  (match res with inl e => inl e | inr res => Single res end, w).

(** The carbon intensity of a reading, the zero value and no reading for an
    error. *)
Definition readIntensity (spec : CarbonIntensitySpec) (v : QueryError + float64) : CarbonIntensity * bool :=
  match v with
  | inl _ => (noIntensity, false)
  | inr v => match carbonRead spec v with inr c => (c, true) | inl _ => (noIntensity, false) end
  end.

(** One input of the poll.
    src/cmd/controller-manager/facility.go:200-242 [fetchFacilityMetrics] *)
Definition pollInput (cfg : facilityConfig) (queries : gmap FacilityInput Query) (acc : facilitySnapshot * W)
    (input : FacilityInput) : facilitySnapshot * W :=
  let '(s, w) := acc in
  match queries !! input with
  | None => (s, w)
  | Some q =>
      if String.eqb (q_GroupLabel q) "" then
        let '(v, w) := queryPrometheusScalar (fa_prometheusAddress cfg) (q_PromQL q) w in
        let '(carbon, carbonKnown) :=
          if String.eqb input FacilityInputCarbonIntensity then readIntensity (fc_CarbonIntensity (fa_spec cfg)) v
          else (noIntensity, match v with inr _ => true | inl _ => false end) in
        (setSingle input (match v with inr x => x | inl _ => fzero end) carbon carbonKnown s, w)
      else
        let '(res, w) := clientQuery (fa_prometheusAddress cfg) (q_PromQL q) w in
        let '(m, _, _) := readFacilityKeyed res (q_GroupLabel q) in
        (setKeyed input m s, w)
  end.

(** A poll at a time; the metrics stay as they are when the spec has no
    queries.
    src/cmd/controller-manager/facility.go:190-256 [fetchFacilityMetrics] *)
Definition fetchFacilityMetrics (cfg : facilityConfig) (now : Z) (fm : facilityMetrics) (w : W) : facilityMetrics * W :=
  match Queries (fa_spec cfg) with
  | inl _ => (fm, w)
  | inr queries =>
      let '(s, w) := fold_left (pollInput cfg queries) FacilityInputs (noSnapshot, w) in
      (store s now, w)
  end.

(** ** What a poll reads *)

(** A value some answer to the query read as a single one. *)
Definition answeredSingle (cfg : facilityConfig) (queries : gmap FacilityInput Query) (input : FacilityInput) (v : float64) : Prop :=
  exists q wa wb res, queries !! input = Some q /\
    clientQuery (fa_prometheusAddress cfg) (q_PromQL q) wa = (inr res, wb) /\ Single res = inr v.

(** Every entry is a sample of one answer to the query. *)
Definition answeredKeyed (cfg : facilityConfig) (queries : gmap FacilityInput Query) (input : FacilityInput)
    (m : gmap string float64) : Prop :=
  m = ∅ \/
  exists q wa wb res, queries !! input = Some q /\
    clientQuery (fa_prometheusAddress cfg) (q_PromQL q) wa = (inr res, wb) /\
    NoDup (readable (q_GroupLabel q) (rs_Samples res)).*1 /\
    forall k v, m !! k = Some v <-> (k, v) ∈ readable (q_GroupLabel q) (rs_Samples res).

(** A snapshot whose known readings are answers. *)
Definition fromPoll (cfg : facilityConfig) (queries : gmap FacilityInput Query) (s : facilitySnapshot) : Prop :=
  (fs_ambientKnown s = true -> answeredSingle cfg queries FacilityInputAmbientTemp (fs_ambientC s)) /\
  (fs_itKnown s = true -> answeredSingle cfg queries FacilityInputITPower (fs_itPowerW s)) /\
  (fs_coolingKnown s = true -> answeredSingle cfg queries FacilityInputCoolingPower (fs_coolingPowerW s)) /\
  (fs_carbonKnown s = true ->
   exists v, answeredSingle cfg queries FacilityInputCarbonIntensity v /\ carbonRead (fc_CarbonIntensity (fa_spec cfg)) v = inr (fs_carbon s)) /\
  answeredKeyed cfg queries FacilityInputZoneAmbientTemp (fs_zoneAmbientC s) /\
  answeredKeyed cfg queries FacilityInputRackPower (fs_rackPowerW s) /\
  answeredKeyed cfg queries FacilityInputNodeInletTemp (fs_nodeInletC s) /\
  (fs_ambientKnown s = false -> fs_ambientC s = fzero) /\
  (fs_itKnown s = false -> fs_itPowerW s = fzero) /\
  (fs_coolingKnown s = false -> fs_coolingPowerW s = fzero).

Lemma fromPoll_none cfg queries : fromPoll cfg queries noSnapshot.
Proof. unfold fromPoll, answeredKeyed. cbn. naive_solver. Qed.

Lemma readFacilityKeyed_answered cfg queries input q w :
  queries !! input = Some q ->
  let '(res, w') := clientQuery (fa_prometheusAddress cfg) (q_PromQL q) w in
  let '(m, _, _) := readFacilityKeyed res (q_GroupLabel q) in
  answeredKeyed cfg queries input m.
Proof.
  intros Hq. destruct (clientQuery _ _ w) as [res w'] eqn:Ec. unfold readFacilityKeyed.
  destruct res as [e|res]; [by left|]. pose proof (ByLabel_correct res (q_GroupLabel q)) as Hb.
  destruct (ByLabel res (q_GroupLabel q)) as [out iss]. destruct Hb as (_ & _ & _ & Hok & Hdup).
  destruct (decide (NoDup (readable (q_GroupLabel q) (rs_Samples res)).*1)) as [Hnd|Hnd].
  - destruct (Hok Hnd) as (m & -> & _ & Hm). case_bool_decide; [by left|].
    assert (answeredKeyed cfg queries input m) as H' by (right; by exists q, w, w', res).
    by destruct (_ || _).
  - destruct (Hdup Hnd) as [-> _]. by left.
Qed.

Lemma pollInput_fromPoll cfg queries s w input :
  fromPoll cfg queries s -> fromPoll cfg queries (pollInput cfg queries (s, w) input).1.
Proof.
  intros Hs. unfold pollInput. destruct (queries !! input) as [q|] eqn:Eq; [|done].
  destruct (String.eqb (q_GroupLabel q) "").
  - unfold queryPrometheusScalar. destruct (clientQuery _ _ w) as [res w'] eqn:Ec.
    set (v := match res with inl e => inl e | inr res => Single res end).
    assert (forall x, v = inr x -> answeredSingle cfg queries input x) as Hv.
    { intros x Hx. destruct res as [e|res]; [done|]. exists q, w, w', res. done. }
    assert (let '(carbon, known) := if String.eqb input FacilityInputCarbonIntensity
              then readIntensity (fc_CarbonIntensity (fa_spec cfg)) v
              else (noIntensity, match v with inr _ => true | inl _ => false end) in
            (String.eqb input FacilityInputCarbonIntensity = false -> known = match v with inr _ => true | inl _ => false end) /\
            (String.eqb input FacilityInputCarbonIntensity = true -> known = true ->
             exists x, answeredSingle cfg queries input x /\ carbonRead (fc_CarbonIntensity (fa_spec cfg)) x = inr carbon)) as Hc.
    { destruct (String.eqb input FacilityInputCarbonIntensity); [|done]. unfold readIntensity.
      destruct v as [e|x]; [done|]. destruct (carbonRead _ x) eqn:Er; [done|]. split; [done|]. intros _ _. exists x. by split; [apply Hv|]. }
    destruct (if String.eqb input _ then _ else _) as [carbon known]. destruct Hc as [Hc1 Hc2].
    clearbody v. destruct s as [a ak i ik c ck g gk z r n]. unfold fromPoll in *. cbn [fst setSingle] in *.
    destruct (String.eqb_spec input FacilityInputAmbientTemp) as [->|_];
      [cbn in *; rewrite (Hc1 eq_refl); destruct v; naive_solver|].
    destruct (String.eqb_spec input FacilityInputITPower) as [->|_];
      [cbn in *; rewrite (Hc1 eq_refl); destruct v; naive_solver|].
    destruct (String.eqb_spec input FacilityInputCoolingPower) as [->|_];
      [cbn in *; rewrite (Hc1 eq_refl); destruct v; naive_solver|].
    destruct (String.eqb_spec input FacilityInputCarbonIntensity) as [->|_]; [|done].
    cbn in *. destruct Hs as (H1 & H2 & H3 & _ & H5). do 3 (split; [done|]). split; [|done]. intros ->. by apply Hc2.
  - pose proof (readFacilityKeyed_answered cfg queries input q w Eq) as H.
    destruct (clientQuery _ _ w) as [res w']. destruct (readFacilityKeyed _ _) as [[m result] err].
    destruct s as [a ak i ik c ck g gk z r n]. unfold fromPoll in *. cbn [fst setKeyed] in *.
    destruct (String.eqb_spec input FacilityInputZoneAmbientTemp) as [->|_]; [cbn in *; naive_solver|].
    destruct (String.eqb_spec input FacilityInputRackPower) as [->|_]; [cbn in *; naive_solver|].
    destruct (String.eqb_spec input FacilityInputNodeInletTemp) as [->|_]; [cbn in *; naive_solver|done].
Qed.

(** What the facility is known to read is what this poll was answered:
    after a poll of a spec that has queries, whatever was known before, each
    reading marked known is a value an answer to the input's own query read
    as one finite value, each map holds the samples of one answer to the
    input's query, every key once, and a reading that is not known is 0 and
    not the value of an earlier poll. *)
Theorem poll_replaces (cfg : facilityConfig) (queries : gmap FacilityInput Query) (now : Z) (fm : facilityMetrics) (w : W) :
  Queries (fa_spec cfg) = inr queries ->
  let '(fm', w') := fetchFacilityMetrics cfg now fm w in
  fm_lastUpdated fm' = now /\ fromPoll cfg queries (fm_readings fm').
Proof.
  intros Hq. unfold fetchFacilityMetrics. rewrite Hq.
  assert (forall l s w, fromPoll cfg queries s -> fromPoll cfg queries (fold_left (pollInput cfg queries) l (s, w)).1) as H.
  { induction l as [|input l IH]; intros s w0 Hs; [done|]. cbn [fold_left].
    pose proof (pollInput_fromPoll cfg queries s w0 input Hs) as H1.
    destruct (pollInput cfg queries (s, w0) input) as [s1 w1]. by apply IH. }
  specialize (H FacilityInputs noSnapshot w (fromPoll_none cfg queries)).
  by destruct (fold_left _ _ _) as [s w'].
Qed.

End Poll.

(** ** One snapshot per reconcile *)

(** The readings as a policy gets them.
    src/pkg/controller/policy/facility.go:15-39 [Facility] *)
Record PolicyFacility := {
  pf_CarbonIntensity : CarbonIntensity; pf_CarbonIntensityKnown : bool;
  pf_AmbientC : float64; pf_AmbientKnown : bool;
  pf_ITPowerW : float64; pf_ITPowerKnown : bool;
  pf_CoolingPowerW : float64; pf_CoolingPowerKnown : bool;
  pf_ZoneAmbientC : gmap string float64; pf_RackPowerW : gmap string float64; pf_NodeInletC : gmap string float64
}.

(** src/cmd/controller-manager/facility.go:38-47 [forPolicy] *)
Definition forPolicy (s : facilitySnapshot) : PolicyFacility := {|
  pf_CarbonIntensity := fs_carbon s; pf_CarbonIntensityKnown := fs_carbonKnown s;
  pf_AmbientC := fs_ambientC s; pf_AmbientKnown := fs_ambientKnown s;
  pf_ITPowerW := fs_itPowerW s; pf_ITPowerKnown := fs_itKnown s;
  pf_CoolingPowerW := fs_coolingPowerW s; pf_CoolingPowerKnown := fs_coolingKnown s;
  pf_ZoneAmbientC := fs_zoneAmbientC s; pf_RackPowerW := fs_rackPowerW s; pf_NodeInletC := fs_nodeInletC s |}.

(** The poller and the reconcile share the last poll; the reconcile has the
    snapshot it took at its start.
    src/cmd/controller-manager/facility.go:96-99 [twinFacility] *)
Record shared := { sh_metrics : facilityMetrics; sh_twinFacility : facilitySnapshot }.

(** What the two goroutines do to it: a poll ends, a reconcile starts, the
    policy of the reconcile reads, the twin of a node reads. *)
Inductive event :=
| PollEnds (s : facilitySnapshot) (now : Z)
| ReconcileStarts
| PolicyReads (f : PolicyFacility)
| TwinReads (node : string) (s : facilitySnapshot).

(** src/cmd/controller-manager/facility.go:87-111 [snapshot, setTwinFacility, currentTwinFacility] *)
Inductive step : shared -> event -> shared -> Prop :=
| step_poll sh s now :
    step sh (PollEnds s now) {| sh_metrics := store s now; sh_twinFacility := sh_twinFacility sh |}
| step_start sh :
    step sh ReconcileStarts {| sh_metrics := sh_metrics sh; sh_twinFacility := fm_readings (sh_metrics sh) |}
| step_policy sh : step sh (PolicyReads (forPolicy (sh_twinFacility sh))) sh
| step_twin sh node : step sh (TwinReads node (sh_twinFacility sh)) sh.

Inductive steps : shared -> list event -> shared -> Prop :=
| steps_nil sh : steps sh [] sh
| steps_cons sh e sh1 l sh2 : step sh e sh1 -> steps sh1 l sh2 -> steps sh (e :: l) sh2.

Lemma steps_app sh l1 l2 sh' : steps sh (l1 ++ l2) sh' <-> exists sh1, steps sh l1 sh1 /\ steps sh1 l2 sh'.
Proof.
  revert sh. induction l1 as [|e l1 IH]; intros sh; cbn.
  - split; [intros H; exists sh; split; [constructor|done]|]. intros (sh1 & H1 & H2). by inversion H1; subst.
  - split.
    + intros H. inversion H; subst. apply IH in H5 as (sh2 & H6 & H7). exists sh2. split; [|done]. by econstructor.
    + intros (sh1 & H1 & H2). inversion H1; subst. econstructor; [done|]. apply IH. by exists sh1.
Qed.

(** Between two starts the snapshot stays. *)
Lemma steps_same sh l sh' : ReconcileStarts ∉ l -> steps sh l sh' -> sh_twinFacility sh' = sh_twinFacility sh.
Proof.
  intros Hl H. induction H as [|sh e sh1 l sh2 Hs Hr IH]; [done|]. apply not_elem_of_cons in Hl as [He Hl].
  rewrite (IH Hl). by inversion Hs; subst.
Qed.

(** However the polls fall between the steps of a reconcile, its policy
    and the twins of all its nodes read one and the same snapshot, that of
    the last poll that ended before the reconcile started. *)
Theorem reconcile_sees_one_poll (sh : shared) (before during : list event) (sh' : shared) :
  steps sh (before ++ ReconcileStarts :: during) sh' -> ReconcileStarts ∉ during ->
  exists sh1, steps sh before sh1 /\
    forall e, e ∈ during ->
      match e with
      | PolicyReads f => f = forPolicy (fm_readings (sh_metrics sh1))
      | TwinReads _ s => s = fm_readings (sh_metrics sh1)
      | _ => True
      end.
Proof.
  intros (sh1 & Hb & H)%steps_app Hd. exists sh1. split; [done|]. inversion H as [|? ? sh2 ? ? Hs Hr]; subst.
  inversion Hs; subst. intros e (i & He)%list_elem_of_lookup.
  apply take_drop_middle in He. rewrite <- He in Hr, Hd. apply steps_app in Hr as (sh3 & H3 & H4).
  rewrite not_elem_of_app in Hd. pose proof (steps_same _ _ _ (proj1 Hd) H3) as E. cbn in E.
  inversion H4 as [|? ? ? ? ? H5 H6]; subst. inversion H5; subst; [done|done|by rewrite E|by rewrite E].
Qed.

(** ** Samples *)

(** An IT power, one answer for every query, and another for zones. *)
#[local] Instance facilityHTTP : HTTPGet nat := {|
  http_get url n := (Some (200%Z, if Contains url "zone" then "zones" else "one"), S n)
|}.

Definition facilityJSON (body : string) : option json :=
  Some (if String.eqb body "zones"
        then JObj [("status", JStr "success");
                   ("data", JObj [("resultType", JStr "vector");
                                  ("result", JArr [JObj [("metric", JObj [("joulie_cooling_zone_name", JStr "hot")]);
                                                         ("value", JArr [JNum fone; JStr "500"])]])])]
        else vectorOf []).

Definition facilityPoll : facilityConfig := {|
  fa_enabled := true; fa_prometheusAddress := "http://prometheus"; fa_pollInterval := 30000000000;
  fa_spec := {| fc_Preset := "otel"; fc_Naming := ""; fc_Window := 0; fc_Overrides := ∅;
                fc_CarbonIntensity := {| cs_Unit := ""; cs_Signal := "" |} |} |}.

Definition facilityQueries : gmap FacilityInput Query :=
  match Queries (fa_spec facilityPoll) with inr q => q | inl _ => ∅ end.

Lemma poll_replaces_witness :
  let '(fm, w) := fetchFacilityMetrics facilityJSON wireFloat facilityPoll 7 {| fm_readings := noSnapshot; fm_lastUpdated := 0 |} 0 in
  fs_itKnown (fm_readings fm) = true /\ fs_zoneAmbientC (fm_readings fm) = {["hot" := fofZ 500]} /\
  answeredSingle facilityJSON wireFloat facilityPoll facilityQueries FacilityInputITPower (fofZ 500).
Proof.
  assert (Queries (fa_spec facilityPoll) = inr facilityQueries) as Hq by (vm_compute; reflexivity).
  pose proof (poll_replaces facilityJSON wireFloat facilityPoll facilityQueries 7
    {| fm_readings := noSnapshot; fm_lastUpdated := 0 |} 0 Hq) as H.
  assert (let '(fm, _) := fetchFacilityMetrics facilityJSON wireFloat facilityPoll 7 {| fm_readings := noSnapshot; fm_lastUpdated := 0 |} 0 in
    fs_itKnown (fm_readings fm) = true /\ fs_zoneAmbientC (fm_readings fm) = {["hot" := fofZ 500]} /\
    fs_itPowerW (fm_readings fm) = fofZ 500) as E by (vm_compute; split; [reflexivity|split; reflexivity]).
  destruct (fetchFacilityMetrics _ _ _ _ _ _) as [fm w]. destruct H as (_ & _ & Hit & _). destruct E as (E1 & E2 & E3).
  split; [exact E1|]. split; [exact E2|]. rewrite <- E3. exact (Hit E1).
Defined.

Lemma reconcile_sees_one_poll_witness :
  let hot := setSingle FacilityInputAmbientTemp (fofZ 40) noIntensity true noSnapshot in
  let sh := {| sh_metrics := store noSnapshot 1; sh_twinFacility := noSnapshot |} in
  exists sh1, steps sh [] sh1 /\
    forall e, e ∈ [TwinReads "a" noSnapshot; PollEnds hot 2; TwinReads "b" noSnapshot] ->
      match e with
      | PolicyReads f => f = forPolicy (fm_readings (sh_metrics sh1))
      | TwinReads _ s => s = fm_readings (sh_metrics sh1)
      | _ => True
      end.
Proof.
  intros hot sh.
  apply (reconcile_sees_one_poll sh [] [TwinReads "a" noSnapshot; PollEnds hot 2; TwinReads "b" noSnapshot]
    {| sh_metrics := store hot 2; sh_twinFacility := noSnapshot |}).
  - eapply steps_cons; [apply step_start|]. eapply steps_cons; [apply (step_twin {| sh_metrics := store noSnapshot 1; sh_twinFacility := noSnapshot |} "a")|].
    eapply steps_cons; [apply step_poll|]. eapply steps_cons; [|apply steps_nil].
    apply (step_twin {| sh_metrics := store hot 2; sh_twinFacility := noSnapshot |} "b").
  - intros Hin. repeat (apply elem_of_cons in Hin as [Hin|Hin]; [discriminate Hin|]). by apply elem_of_nil in Hin.
Defined.
