(* ===== verification/InputsConfig.v ===== *)
(** * The configuration of the measured inputs: cmd/controller-manager/inputs_config.go

    Every variable read and checked once at start: the node power source and
    query, the facility's preset, overrides and carbon intensity. The point
    of the check is that nothing it lets through fails later. Warnings are
    left out; [time.ParseDuration] is an argument. *)

From S2P Require Import Prelude GoString GoFloat Env NvidiaDiscovery Inventory PromName PromQuery PromResult NodePower Facility.

#[local] Open Scope string_scope.

(** src/cmd/controller-manager/inputs_config.go:26-32 [inputConfig] *)
Record inputConfig := {
  ic_prometheusAddress : string;
  ic_nodePower : nodePowerConfig;
  ic_facility : facilityConfig
}.

(** What stops the start. *)
Inductive ConfigError :=
| BadNaming
| BadRateWindow
| BadNodePower (e : InputError)
| BadPollInterval
| BadCarbon (e : InputError)
| BadFacility (e : InputError).

(** src/cmd/controller-manager/facility.go:125-136 [defaultFacilityConfig] *)
Definition defaultFacilityPrometheusAddress := "http://prometheus-operated.monitoring:9090".
Definition defaultPollInterval : Z := 30 * 1000000000.

(** src/cmd/controller-manager/inputs_config.go:163-165 [facilityQueryEnv] *)
Definition facilityQueryEnv (input : FacilityInput) : string := "FACILITY_" +:+ ToUpper input +:+ "_QUERY".

(** src/cmd/controller-manager/deprecated.go:20-24 [inputEnvAliases] *)
Definition inputEnvAliases : gmap string string :=
  list_to_map
    [("FACILITY_AMBIENT_TEMP_QUERY", "FACILITY_AMBIENT_TEMP_METRIC");
     ("FACILITY_IT_POWER_QUERY", "FACILITY_IT_POWER_METRIC");
     ("FACILITY_COOLING_POWER_QUERY", "FACILITY_COOLING_POWER_METRIC")].

(** src/cmd/controller-manager/deprecated.go:43-57 [envOrDeprecated] *)
Definition envOrDeprecated (env : Environ) (key def : string) : string :=
  let v := TrimSpace (Getenv env key) in
  if negb (String.eqb v "") then v
  else
    match inputEnvAliases !! key with
    | None => def
    | Some old => let v := TrimSpace (Getenv env old) in if String.eqb v "" then def else v
    end.

Section Load.
Variable ParseDuration : string -> option Z.

(** src/cmd/controller-manager/main.go:1304-1311 [durationEnv] *)
Definition durationEnv (env : Environ) (key : string) (def : Z) : Z :=
  let s := TrimSpace (Getenv env key) in
  if negb (String.eqb s "") then match ParseDuration s with Some d => d | None => def end else def.

(** The receiver's strategy and the rate window, shared by both inputs.
    src/cmd/controller-manager/inputs_config.go:74-92 [loadInputConfig] *)
Definition loadShared (env : Environ) : ConfigError + Strategy * Z :=
  let v := envOrDefault env "PROMETHEUS_NAME_TRANSLATION" "" in
  match (if negb (String.eqb v "") then ParseStrategy v else Some Default) with
  | None => inl BadNaming
  | Some naming =>
      let v := envOrDefault env "PROMETHEUS_RATE_WINDOW" "" in
      match (if negb (String.eqb v "") then ParseDuration v else Some DefaultWindow) with
      | None => inl BadRateWindow
      | Some window => match PromDuration window with inl _ => inl BadRateWindow | inr _ => inr (naming, window) end
      end
  end.

(** src/cmd/controller-manager/inputs_config.go:94-120 [loadInputConfig] *)
Definition loadNodePower (env : Environ) (address : string) (naming : Strategy) (window : Z) : ConfigError + nodePowerConfig :=
  let source := ToLower (envOrDefault env "NODE_POWER_SOURCE" nodePowerSourceStatic) in
  let source := if str_mem source [nodePowerSourceStatic; nodePowerSourcePrometheus; nodePowerSourceHTTP]
                then source else nodePowerSourceStatic in
  match WithDefaults
    {| np_Preset := ToLower (envOrDefault env "NODE_POWER_PRESET" "");
       np_Scope := ToLower (envOrDefault env "NODE_POWER_SCOPE" ScopeComponents);
       np_Naming := naming;
       np_ResourceAttributes := ToLower (envOrDefault env "PROMETHEUS_RESOURCE_ATTRIBUTES" ResourceAttributesAuto);
       np_Window := window;
       np_NodeLabel := envOrDefault env "NODE_POWER_NODE_LABEL" "";
       np_CustomQuery := envOrDefault env "NODE_POWER_PROMETHEUS_QUERY" "" |} with
  | inl e => inl (BadNodePower e)
  | inr spec =>
      match nodePowerQuery spec with
      | inl e => inl (BadNodePower e)
      | inr _ =>
          inr {| np_source := source;
                 np_httpEndpoint := envOrDefault env "NODE_POWER_HTTP_ENDPOINT" "";
                 np_promAddress := envOrDefault env "NODE_POWER_PROMETHEUS_ADDRESS" address;
                 np_spec := spec |}
      end
  end.

(** src/cmd/controller-manager/inputs_config.go:122-157 [loadInputConfig] *)
Definition loadFacility (env : Environ) (address : string) (naming : Strategy) (window : Z) : ConfigError + facilityConfig :=
  let interval := durationEnv env "FACILITY_POLL_INTERVAL" defaultPollInterval in
  if (interval <=? 0)%Z then inl BadPollInterval
  else
    let overrides : gmap FacilityInput string :=
      fold_left (fun m input =>
        let v := envOrDeprecated env (facilityQueryEnv input) "" in
        if negb (String.eqb v "") then <[input := v]> m else m) FacilityInputs ∅ in
    let carbon := {| cs_Unit := envOrDefault env "FACILITY_CARBON_INTENSITY_UNIT" "";
                     cs_Signal := ToLower (TrimSpace (envOrDefault env "FACILITY_CARBON_INTENSITY_SIGNAL" "")) |} in
    match (match overrides !! FacilityInputCarbonIntensity with Some _ => carbonCheck carbon | None => None end) with
    | Some e => inl (BadCarbon e)
    | None =>
        let spec := {| fc_Preset := ToLower (envOrDefault env "FACILITY_PRESET" FacilityPresetOTel);
                       fc_Naming := naming; fc_Window := window; fc_Overrides := overrides;
                       fc_CarbonIntensity := carbon |} in
        match Queries spec with
        | inl e => inl (BadFacility e)
        | inr _ =>
            inr {| fa_enabled := boolEnv env "ENABLE_FACILITY_METRICS" false;
                   fa_prometheusAddress :=
                     envOrDefault env "FACILITY_PROMETHEUS_ADDRESS" (firstNonEmpty [address; defaultFacilityPrometheusAddress]);
                   fa_pollInterval := interval; fa_spec := spec |}
        end
    end.

(** src/cmd/controller-manager/inputs_config.go:70-159 [loadInputConfig] *)
Definition loadInputConfig (env : Environ) : ConfigError + inputConfig :=
  let address := envOrDefault env "PROMETHEUS_ADDRESS" "" in
  match loadShared env with
  | inl e => inl e
  | inr (naming, window) =>
      match loadNodePower env address naming window with
      | inl e => inl e
      | inr np =>
          match loadFacility env address naming window with
          | inl e => inl e
          | inr fc => inr {| ic_prometheusAddress := address; ic_nodePower := np; ic_facility := fc |}
          end
      end
  end.

End Load.

(** ** Specs with their defaults *)

(** The words of a spec whose defaults are filled. *)
Definition filled (s : NodePowerSpec) : Prop :=
  np_Preset s ∈ [NodePowerPresetOTel; NodePowerPresetKepler; NodePowerPresetKeplerLegacy; NodePowerPresetCustom] /\
  np_Scope s ∈ [ScopeComponents; ScopeHost] /\
  np_ResourceAttributes s ∈ [ResourceAttributesAuto; ResourceAttributesLabels; ResourceAttributesTargetInfo] /\
  np_Naming s ∈ Strategies /\ np_Window s <> 0%Z /\
  (np_Preset s = NodePowerPresetKepler -> np_Scope s = ScopeComponents) /\
  (np_Preset s = NodePowerPresetCustom -> TrimSpace (np_CustomQuery s) <> "") /\
  (np_Preset s <> NodePowerPresetCustom -> np_CustomQuery s = "").

Lemma ParseStrategy_known (s st : string) : ParseStrategy s = Some st -> st ∈ Strategies.
Proof. unfold ParseStrategy. intros H%find_some. apply list_elem_of_In, H. Qed.

Lemma parseNaming_known (s st : string) : parseNaming s = inr st -> st ∈ Strategies.
Proof.
  unfold parseNaming. destruct (String.eqb s ""); [intros [= <-]; by left|].
  destruct (ParseStrategy s) eqn:E; [|done]. intros [= <-]. by eapply ParseStrategy_known.
Qed.

Lemma parseNaming_id (st : string) : st ∈ Strategies -> parseNaming st = inr st.
Proof.
  intros H. assert (forallb (fun st => match parseNaming st with inr s => String.eqb s st | inl _ => false end) Strategies = true)
    as Hall by (vm_compute; reflexivity).
  rewrite forallb_forall in Hall. apply list_elem_of_In, Hall in H. destruct (parseNaming st); [done|].
  by apply String.eqb_eq in H as ->.
Qed.

Lemma WithDefaults_filled (s s' : NodePowerSpec) : WithDefaults s = inr s' -> filled s'.
Proof.
  unfold WithDefaults. cbv zeta.
  set (preset := if String.eqb (np_Preset s) "" then _ else np_Preset s).
  destruct (if str_mem preset _ then _ else _) eqn:Ep; [done|].
  set (scope := if String.eqb (np_Scope s) "" then _ else _).
  destruct (negb (str_mem scope _)) eqn:Es; [done|]. apply negb_false_iff, str_mem_In in Es.
  destruct (_ && _) eqn:Eh; [done|].
  set (mode := if String.eqb (np_ResourceAttributes s) "" then _ else _).
  destruct (negb (str_mem mode _)) eqn:Em; [done|]. apply negb_false_iff, str_mem_In in Em.
  destruct (parseNaming (np_Naming s)) as [e|naming] eqn:En; [done|]. intros [= <-].
  unfold filled. cbn. split_and!; [|done|done|by eapply parseNaming_known| | | |].
  - destruct (str_mem preset _) eqn:E1 in Ep; [apply str_mem_In in E1; set_solver|].
    destruct (String.eqb preset NodePowerPresetCustom) eqn:E2; [|done]. apply String.eqb_eq in E2. rewrite E2. set_solver.
  - destruct (Z.eqb_spec (np_Window s) 0); [done|lia].
  - intros Hk. rewrite Hk in Eh. apply andb_false_iff in Eh as [Eh|Eh]; [done|].
    apply String.eqb_neq in Eh. set_solver.
  - intros Hc. rewrite Hc in Ep. cbn in Ep. by destruct (String.eqb_spec (TrimSpace (np_CustomQuery s)) "").
  - intros Hc. destruct (String.eqb_spec (np_CustomQuery s) "") as [|Hne]; [done|]. cbn in Ep.
    rewrite (proj2 (String.eqb_neq _ _) Hc) in Ep. by case_match.
Qed.

Lemma filled_id (s : NodePowerSpec) : filled s -> WithDefaults s = inr s.
Proof.
  destruct s as [preset scope naming mode window label custom]. unfold filled. cbn.
  intros (Hp & Hs & Hm & Hn & Hw & Hk & Hc & Hnc). unfold WithDefaults.
  cbn [np_Preset np_Scope np_Naming np_ResourceAttributes np_Window np_NodeLabel np_CustomQuery].
  assert (preset <> "" /\ scope <> "" /\ mode <> "") as (H1 & H2 & H3) by (split_and!; intros ->; set_solver).
  rewrite (proj2 (String.eqb_neq _ _) H1), (proj2 (String.eqb_neq _ _) H2), (proj2 (String.eqb_neq _ _) H3).
  rewrite (proj2 (str_mem_In scope [ScopeComponents; ScopeHost]) Hs).
  rewrite (proj2 (str_mem_In mode [ResourceAttributesAuto; ResourceAttributesLabels; ResourceAttributesTargetInfo]) Hm).
  rewrite parseNaming_id by done. rewrite (proj2 (Z.eqb_neq _ _) Hw).
  assert (String.eqb preset NodePowerPresetKepler && String.eqb scope ScopeHost = false) as ->.
  { destruct (String.eqb_spec preset NodePowerPresetKepler) as [E|]; [|done]. by rewrite (Hk E). }
  cbn [negb]. destruct (String.eqb_spec preset NodePowerPresetCustom) as [->|Hne].
  - cbn. destruct (String.eqb_spec (TrimSpace custom) ""); [by destruct (Hc eq_refl)|done].
  - rewrite (proj2 (str_mem_In preset [NodePowerPresetOTel; NodePowerPresetKepler; NodePowerPresetKeplerLegacy]))
      by set_solver.
    by rewrite (Hnc Hne).
Qed.

(** ** Queries of an accepted spec *)

Lemma names_nonempty (s : Strategy) : s ∈ Strategies ->
  on_node (namesFor s) <> "" /\ on_zone (namesFor s) <> "" /\ on_rack (namesFor s) <> "".
Proof. intros H. repeat (apply elem_of_cons in H as [->|H]); [..|by apply elem_of_nil in H]; vm_compute; done. Qed.

Lemma nodePowerQuery_label (s : NodePowerSpec) (q fallback : Query) :
  nodePowerQuery s = inr (q, fallback) -> q_PerNode q = true \/ q_GroupLabel q <> "".
Proof.
  unfold nodePowerQuery. destruct (WithDefaults s) as [e|s'] eqn:E; [done|].
  apply WithDefaults_filled in E as (_ & _ & _ & Hn & _). apply names_nonempty in Hn as (Hn & _ & _).
  destruct (PromDuration _) as [e|window]; [done|]. cbv zeta.
  assert (forall a b : Query, @inr InputError _ (a, b) = inr (q, fallback) -> (q_PerNode a = true \/ q_GroupLabel a <> "") ->
    q_PerNode q = true \/ q_GroupLabel q <> "") as Hq by (by intros a b [= <- _]).
  assert (forall def, def <> "" -> (if negb (String.eqb (np_NodeLabel s') "") then np_NodeLabel s' else def) <> "") as Hl.
  { intros def Hd. destruct (String.eqb_spec (np_NodeLabel s') ""); done. }
  repeat match goal with |- (if ?b then _ else _) = _ -> _ => destruct b end;
    intros H; apply (Hq _ _ H); first [left; reflexivity|right; apply Hl; first [exact Hn|discriminate]].
Qed.

(** Every query has the key label of its input. *)
Definition shaped (n : otelNames) (out : gmap FacilityInput Query) : Prop :=
  map_Forall (fun input q => exists op, facilityInputShape input n = Some (q_GroupLabel q, op)) out.

Lemma shaped_list n (l : list (FacilityInput * Query)) :
  Forall (fun o => exists op, facilityInputShape o.1 n = Some (q_GroupLabel o.2, op)) l -> shaped n (list_to_map l).
Proof. intros H input q Hq%elem_of_list_to_map_2. rewrite Forall_forall in H. apply (H (input, q) Hq). Qed.

Lemma presetQueries_shaped preset n window : shaped n (presetQueries preset n window).
Proof.
  unfold presetQueries. cbv zeta. destruct (String.eqb preset FacilityPresetOTel).
  { apply shaped_list. repeat apply Forall_cons_2; [..|apply Forall_nil_2]; eexists; reflexivity. }
  destruct (String.eqb preset FacilityPresetLegacy); [|apply map_Forall_empty].
  apply shaped_list. repeat apply Forall_cons_2; [..|apply Forall_nil_2]; eexists; reflexivity.
Qed.

Lemma overrides_shaped (s : FacilitySpec) n (l : list (FacilityInput * string)) (m out : gmap FacilityInput Query) :
  shaped n m -> fold_left (addOverride s n) l (inr m) = inr out -> shaped n out.
Proof.
  assert (forall l e, fold_left (addOverride s n) l (inl e) = inl e) as Herr by (intros l'; induction l' as [|[]]; done).
  revert m. induction l as [|[input q] l IH]; intros m Hm; cbn; [by intros [= <-]|].
  destruct (String.eqb (TrimSpace q) ""); [by apply IH|].
  destruct (facilityInputShape input n) as [[key op]|] eqn:E; [|by rewrite Herr].
  destruct (if String.eqb input _ then _ else _); [by rewrite Herr|]. apply IH.
  apply map_Forall_insert_2; [|done]. cbn. eauto.
Qed.

Lemma Queries_shaped (s : FacilitySpec) (out : gmap FacilityInput Query) :
  Queries s = inr out -> exists naming, parseNaming (fc_Naming s) = inr naming /\ shaped (namesFor naming) out.
Proof.
  unfold Queries. cbv zeta. destruct (negb _); [done|]. destruct (parseNaming _) as [e|naming]; [done|].
  destruct (PromDuration _) as [e|window]; [done|]. intros H. exists naming. split; [done|].
  by eapply overrides_shaped, H; apply presetQueries_shaped.
Qed.

(** The inputs that are one series per zone, rack or node. *)
Definition keyedInputs : list FacilityInput :=
  [FacilityInputZoneAmbientTemp; FacilityInputRackPower; FacilityInputNodeInletTemp].

Lemma shaped_keyed (naming : Strategy) (out : gmap FacilityInput Query) (input : FacilityInput) (q : Query) :
  naming ∈ Strategies -> shaped (namesFor naming) out -> out !! input = Some q ->
  input ∈ FacilityInputs /\ (input ∈ keyedInputs <-> q_GroupLabel q <> "").
Proof.
  intros Hn Hs Hq. destruct (Hs input q Hq) as [op Hshape]. apply names_nonempty in Hn as (Hnode & Hzone & Hrack).
  revert Hshape. unfold facilityInputShape.
  destruct (str_mem input [FacilityInputAmbientTemp; _]) eqn:E1.
  { intros [= <- _]. apply str_mem_In in E1. split; [set_solver|]. split; [|done]. intros H. exfalso.
    repeat (apply elem_of_cons in E1 as [->|E1]); try (by apply elem_of_nil in E1); set_solver. }
  destruct (str_mem input [FacilityInputITPower; _]) eqn:E2.
  { intros [= <- _]. apply str_mem_In in E2. split; [set_solver|]. split; [|done]. intros H. exfalso.
    repeat (apply elem_of_cons in E2 as [->|E2]); try (by apply elem_of_nil in E2); set_solver. }
  assert (forall label, label <> "" -> input ∈ keyedInputs -> Some (label, op) = Some (q_GroupLabel q, op) ->
    input ∈ FacilityInputs /\ (input ∈ keyedInputs <-> q_GroupLabel q <> "")) as Hkey.
  { intros label Hl Hin [= <-]. split; [|done]. unfold keyedInputs in Hin. unfold FacilityInputs. set_solver. }
  assert (forall a b : string, Some (a, b) = Some (q_GroupLabel q, op) -> Some (a, op) = Some (q_GroupLabel q, op)) as Hop
    by (by intros a b [= <- _]).
  destruct (String.eqb_spec input FacilityInputZoneAmbientTemp) as [E|_].
  { intros H. apply (Hkey _ Hzone); [rewrite E; set_solver|by eapply Hop]. }
  destruct (String.eqb_spec input FacilityInputRackPower) as [E|_].
  { intros H. apply (Hkey _ Hrack); [rewrite E; set_solver|by eapply Hop]. }
  destruct (String.eqb_spec input FacilityInputNodeInletTemp) as [E|_]; [|done].
  intros H. apply (Hkey _ Hnode); [rewrite E; set_solver|by eapply Hop].
Qed.

(** ** What an accepted configuration promises the readers *)

(** The node power half: a source the resolver knows, a spec that is its own
    default and whose query builds, read per node or per series of a label. *)
Definition nodePowerRuns (c : nodePowerConfig) : Prop :=
  np_source c ∈ [nodePowerSourceStatic; nodePowerSourcePrometheus; nodePowerSourceHTTP] /\
  WithDefaults (np_spec c) = inr (np_spec c) /\
  exists q fallback, nodePowerQuery (np_spec c) = inr (q, fallback) /\ (q_PerNode q = true \/ q_GroupLabel q <> "").

(** The facility half: a period that passes, queries that build with a key
    label exactly for the inputs read per key, and a carbon query only with a
    unit and a signal its values can be read in. *)
Definition facilityRuns (c : facilityConfig) : Prop :=
  (0 < fa_pollInterval c)%Z /\
  (exists out, Queries (fa_spec c) = inr out /\
     forall input q, out !! input = Some q ->
       input ∈ FacilityInputs /\ (input ∈ keyedInputs <-> q_GroupLabel q <> "")) /\
  (forall q v, fc_Overrides (fa_spec c) !! FacilityInputCarbonIntensity = Some q ->
     is_finite v = true -> flt v fzero = false -> exists ci, carbonRead (fc_CarbonIntensity (fa_spec c)) v = inr ci).

Lemma loadNodePower_runs env address naming window c :
  loadNodePower env address naming window = inr c -> nodePowerRuns c.
Proof.
  unfold loadNodePower. cbv zeta. destruct (WithDefaults _) as [e|spec] eqn:E; [done|].
  destruct (nodePowerQuery spec) as [e|[q fallback]] eqn:Eq; [done|]. intros [= <-]. unfold nodePowerRuns; cbn.
  split.
  { match goal with |- (if ?b then _ else _) ∈ _ => destruct b eqn:Es end; [|by left]. by apply str_mem_In. }
  split; [by eapply filled_id, WithDefaults_filled|]. exists q, fallback. split; [done|by eapply nodePowerQuery_label].
Qed.

Lemma carbonRead_checked s v :
  carbonCheck s = None -> is_finite v = true -> flt v fzero = false -> exists ci, carbonRead s v = inr ci.
Proof.
  unfold carbonCheck, carbonRead. intros H Hf Hn.
  destruct (CarbonUnitFactor (cs_Unit s)); [done|]. destruct (ParseCarbonSignal (cs_Signal s)); [done|].
  rewrite Hf, Hn. by eexists.
Qed.

Lemma loadFacility_runs ParseDuration env address naming window c :
  loadFacility ParseDuration env address naming window = inr c -> facilityRuns c.
Proof.
  unfold loadFacility. cbv zeta. destruct (Z.leb_spec (durationEnv ParseDuration env "FACILITY_POLL_INTERVAL" defaultPollInterval) 0); [done|].
  set (overrides := fold_left _ FacilityInputs ∅). set (carbon := {| cs_Unit := _ |}).
  destruct (match overrides !! _ with Some _ => _ | None => _ end) eqn:Ec; [done|].
  destruct (Queries _) as [e|out] eqn:Eq; [done|]. intros [= <-]. unfold facilityRuns.
  cbn [fa_pollInterval fa_spec fc_Overrides fc_CarbonIntensity]. split; [done|]. split.
  - exists out. split; [done|]. intros input q Hq. apply Queries_shaped in Eq as (st & Hst & Hs).
    apply parseNaming_known in Hst. by eapply shaped_keyed.
  - intros q v Hq. rewrite Hq in Ec. by apply carbonRead_checked.
Qed.

(** A configuration that is accepted at start never fails later: the
    node power source is one the resolver knows, its spec already has every
    default (so reading it again changes nothing) and its query builds, with
    a label to tell nodes apart unless it is asked node by node; the poll
    interval is positive, every facility query builds with a key label
    exactly when its input is read per zone, rack or node, and with a carbon
    query every finite intensity that is not negative can be converted.
    src/cmd/controller-manager/inputs_config.go:70-159 *)
Theorem loadInputConfig_runs (ParseDuration : string -> option Z) (env : Environ) (cfg : inputConfig) :
  loadInputConfig ParseDuration env = inr cfg ->
  nodePowerRuns (ic_nodePower cfg) /\ facilityRuns (ic_facility cfg).
Proof.
  unfold loadInputConfig. cbv zeta. destruct (loadShared _ _) as [e|[naming window]]; [done|].
  destruct (loadNodePower _ _ _ _) as [e|np] eqn:En; [done|].
  destruct (loadFacility _ _ _ _ _) as [e|fc] eqn:Ef; [done|]. intros [= <-]. cbn.
  split; [by eapply loadNodePower_runs|by eapply loadFacility_runs].
Qed.

Definition carbonEnv : Environ :=
  list_to_map [("FACILITY_CARBON_INTENSITY_QUERY", "carbon"); ("FACILITY_CARBON_INTENSITY_SIGNAL", "average")].

(** The environment that reads the carbon intensity and leaves everything
    else at its default. *)
Lemma loadInputConfig_runs_witness :
  match loadInputConfig (fun _ => None) carbonEnv with
  | inl _ => False
  | inr cfg => nodePowerRuns (ic_nodePower cfg) /\ facilityRuns (ic_facility cfg)
  end.
Proof.
  destruct (loadInputConfig (fun _ => None) carbonEnv) as [e|cfg] eqn:E.
  - vm_compute in E. discriminate E.
  - exact (loadInputConfig_runs (fun _ => None) carbonEnv cfg E).
Defined.
