(* ===== verification/Powerest.v ===== *)
(** * Marginal power of a pod: pkg/scheduler/powerest

    The resource demand read out of a pod spec as decoded JSON, its quantity
    parsers, and the estimate of the watts the pod would add to a node. The
    estimate's [Explanation] text is left out. *)

From Stdlib Require Import DecimalString.
From S2P Require Import Prelude GoString GoFloat FloatFacts Json Resources.

#[local] Open Scope string_scope.
#[local] Set Warnings "-register-all".

(** ** Types *)

(** src/pkg/scheduler/powerest/types.go:13-21 [PodDemand] *)
Record PodDemand := {
  CPUCores : float64;
  MemoryBytes : float64;
  GPUCount : float64;
  GPUVendor : string;
  WorkloadClass : string
}.

(** src/pkg/scheduler/powerest/types.go:23-37 [NodePowerProfile] *)
Record NodePowerProfile := {
  npp_CPUTotalCores : Z;
  npp_CPUSockets : Z;
  npp_CPUMaxWattsTotal : float64;
  npp_GPUCount : Z;
  npp_GPUMaxWattsPerGPU : float64;
  npp_HasGPU : bool
}.

(** src/pkg/scheduler/powerest/types.go:39-46 [MarginalEstimate] *)
Record MarginalEstimate := {
  DeltaCPUWatts : float64;
  DeltaGPUWatts : float64;
  DeltaTotalWatts : float64
}.

(** src/pkg/scheduler/powerest/types.go:48-70 [Coefficients] *)
Record Coefficients := {
  CPUUtilCoeff : float64;
  MemPowerCoeff : float64;
  MemPowerCap : float64;
  GPUUtilCoeffStandard : float64;
  GPUUtilCoeffPerformance : float64;
  CPUWattsPerCoreFallback : float64;
  GPUMaxWattsFallbackNVIDIA : float64;
  GPUMaxWattsFallbackAMD : float64;
  GPUMaxWattsFallbackGeneric : float64
}.

(** src/pkg/scheduler/powerest/types.go:72-86 [DefaultCoefficients] *)
Definition DefaultCoefficients : Coefficients := {|
  CPUUtilCoeff := flit 7 10;
  MemPowerCoeff := flit 1 100;
  MemPowerCap := flit 13 10;
  GPUUtilCoeffStandard := flit 65 100;
  GPUUtilCoeffPerformance := flit 85 100;
  CPUWattsPerCoreFallback := flit 35 10;
  GPUMaxWattsFallbackNVIDIA := fofZ 350;
  GPUMaxWattsFallbackAMD := fofZ 400;
  GPUMaxWattsFallbackGeneric := fofZ 350
|}.

(** ** Parsing quantities *)

(** The loop of [parseFloat]; [None] is the error.
    src/pkg/scheduler/powerest/extract.go:264-284 [result] *)
Fixpoint parseFloat_loop (cs : list (option ascii)) (result : float64) (decimal : bool) (divisor : float64)
    : option float64 :=
  match cs with
  | [] => Some result
  | c :: rest =>
      match c with
      | Some c =>
          if Ascii.eqb c "." then
            if decimal then None else parseFloat_loop rest result true divisor
          else if negb (is_digit c) then None
          else
            let d := fofZ (Z.of_N (byte_of c) - 48) in
            if decimal then
              let divisor := fmul divisor (fofZ 10) in
              parseFloat_loop rest (fadd result (fdiv d divisor)) decimal divisor
            else parseFloat_loop rest (fadd (fmul result (fofZ 10)) d) decimal divisor
      | None => None
      end
  end.

(** src/pkg/scheduler/powerest/extract.go:257-287 [parseFloat] *)
Definition parseFloat (s : string) : option float64 :=
  if String.eqb s "" then None
  else parseFloat_loop (runes (list_ascii_of_string s)) fzero false fone.

(** src/pkg/scheduler/powerest/extract.go:184-203 [parseQuantityString] *)
Definition parseQuantityString (s : string) : float64 :=
  let s := TrimSpace s in
  if String.eqb s "" then fzero
  else if HasSuffix s "m" then
    match parseFloat (TrimSuffix s "m") with
    | None => fzero
    | Some v => fdiv v (fofZ 1000)
    end
  else match parseFloat s with None => fzero | Some v => v end.

(** src/pkg/scheduler/powerest/extract.go:168-182 [parseQuantity] *)
Definition parseQuantity (raw : json) : float64 :=
  match raw with
  | JNum v => v
  | JInt v => fofZ v
  | JStr v => parseQuantityString v
  | _ => fzero
  end.

(** src/pkg/scheduler/powerest/extract.go:226-238 [multipliers] *)
Definition multipliers : list (string * float64) :=
  [("Ti", fofZ (1024 * 1024 * 1024 * 1024)); ("Gi", fofZ (1024 * 1024 * 1024)); ("Mi", fofZ (1024 * 1024));
   ("Ki", fofZ 1024); ("T", fofZ 1000000000000); ("G", fofZ 1000000000); ("M", fofZ 1000000); ("K", fofZ 1000)].

Fixpoint parseMemory_loop (ms : list (string * float64)) (s : string) : float64 :=
  match ms with
  | [] => match parseFloat s with None => fzero | Some v => v end
  | (suffix, mult) :: rest =>
      if HasSuffix s suffix then
        match parseFloat (TrimSuffix s suffix) with
        | None => fzero
        | Some v => fmul v mult
        end
      else parseMemory_loop rest s
  end.

(** src/pkg/scheduler/powerest/extract.go:221-255 [parseMemoryString] *)
Definition parseMemoryString (s : string) : float64 :=
  let s := TrimSpace s in
  if String.eqb s "" then fzero else parseMemory_loop multipliers s.

(** src/pkg/scheduler/powerest/extract.go:205-219 [parseMemoryQuantity] *)
Definition parseMemoryQuantity (raw : json) : float64 :=
  match raw with
  | JNum v => v
  | JInt v => fofZ v
  | JStr v => parseMemoryString v
  | _ => fzero
  end.

(** ** Reading a pod *)

(** Requests before limits: the first section whose value is positive. *)
Fixpoint firstPositive (parse : json -> float64) (resources : list (string * json)) (key : string)
    (sections : list string) : float64 :=
  match sections with
  | [] => fzero
  | section :: rest =>
      match asObj (jget resources section) with
      | None => firstPositive parse resources key rest
      | Some sec =>
          match jget sec key with
          | None => firstPositive parse resources key rest
          | Some raw =>
              let v := parse raw in
              if flt fzero v then v else firstPositive parse resources key rest
          end
      end
  end.

(** src/pkg/scheduler/powerest/extract.go:78-96 [extractQuantityCores] *)
Definition extractQuantityCores (resources : list (string * json)) (key : string) : float64 :=
  firstPositive parseQuantity resources key ["requests"; "limits"].

(** src/pkg/scheduler/powerest/extract.go:98-115 [extractQuantityBytes] *)
Definition extractQuantityBytes (resources : list (string * json)) (key : string) : float64 :=
  firstPositive parseMemoryQuantity resources key ["requests"; "limits"].

(** src/pkg/scheduler/powerest/extract.go:154-166 [vendorFromKey] *)
Definition vendorFromKey (key : string) : string :=
  if HasPrefix key "nvidia.com" then "nvidia"
  else if HasPrefix key "amd.com" then "amd"
  else if HasPrefix key "gpu.intel.com" then "intel"
  else "".

(** The loop over the sorted keys of one section.
    src/pkg/scheduler/powerest/extract.go:136-146 [share] *)
Fixpoint gpuOfKeys (sec : list (string * json)) (keys : list string) (gpus : float64) (vendor : string)
    : float64 * string :=
  match keys with
  | [] => (gpus, vendor)
  | key :: rest =>
      let share := GPUResourceShare key in
      let units := match jget sec key with Some v => parseQuantity v | None => fzero end in
      if fle share fzero || fle units fzero then gpuOfKeys sec rest gpus vendor
      else
        gpuOfKeys sec rest (fadd gpus (fmul units share))
          (if String.eqb vendor "" then vendorFromKey key else vendor)
  end.

Fixpoint gpuOfSections (resources : list (string * json)) (sections : list string) : float64 * string :=
  match sections with
  | [] => (fzero, "")
  | section :: rest =>
      match asObj (jget resources section) with
      | None => gpuOfSections resources rest
      | Some sec =>
          let '(gpus, vendor) := gpuOfKeys sec (sort_strings (sec.*1)) fzero "" in
          if flt fzero gpus then (gpus, vendor) else gpuOfSections resources rest
      end
  end.

(** src/pkg/scheduler/powerest/extract.go:117-152 [extractGPU] *)
Definition extractGPU (resources : list (string * json)) : float64 * string :=
  gpuOfSections resources ["requests"; "limits"].

(** src/pkg/scheduler/powerest/extract.go:69-76 [fallbackCPUCores] *)
Definition fallbackCPUCores (workloadClass : string) : float64 :=
  if String.eqb workloadClass "performance" then flit 5 10 else flit 25 100.

(** The resources of one element of a container list, if it has any. *)
Definition containerResources (c : json) : option (list (string * json)) :=
  cm ← asObj (Some c); asObj (jget cm "resources").

(** src/pkg/scheduler/powerest/extract.go:24-40 [containers] *)
Definition addContainer (d : PodDemand) (c : json) : PodDemand :=
  match containerResources c with
  | None => d
  | Some res =>
      let '(gpus, vendor) := extractGPU res in
      {| CPUCores := fadd (CPUCores d) (extractQuantityCores res "cpu");
         MemoryBytes := fadd (MemoryBytes d) (extractQuantityBytes res "memory");
         GPUCount := fadd (GPUCount d) gpus;
         GPUVendor := if negb (String.eqb vendor "") then vendor else GPUVendor d;
         WorkloadClass := WorkloadClass d |}
  end.

(** src/pkg/scheduler/powerest/extract.go:42-60 [initContainers] *)
Definition addInitContainer (d : PodDemand) (c : json) : PodDemand :=
  match containerResources c with
  | None => d
  | Some res =>
      let '(gpus, vendor) := extractGPU res in
      {| CPUCores := CPUCores d;
         MemoryBytes := MemoryBytes d;
         GPUCount := if flt (GPUCount d) gpus then gpus else GPUCount d;
         GPUVendor := if negb (String.eqb vendor "") && String.eqb (GPUVendor d) "" then vendor else GPUVendor d;
         WorkloadClass := WorkloadClass d |}
  end.

Definition withCPUCores (d : PodDemand) (c : float64) : PodDemand :=
  {| CPUCores := c; MemoryBytes := MemoryBytes d; GPUCount := GPUCount d; GPUVendor := GPUVendor d;
     WorkloadClass := WorkloadClass d |}.

(** src/pkg/scheduler/powerest/extract.go:11-67 [ExtractPodDemand] *)
Definition ExtractPodDemand (pod : list (string * json)) (workloadClass : string) : PodDemand :=
  let d := {| CPUCores := fzero; MemoryBytes := fzero; GPUCount := fzero; GPUVendor := "";
              WorkloadClass := workloadClass |} in
  match asObj (jget pod "spec") with
  | None => withCPUCores d (fallbackCPUCores workloadClass)
  | Some spec =>
      let d := foldl addContainer d (asArr (jget spec "containers")) in
      let d := foldl addInitContainer d (asArr (jget spec "initContainers")) in
      if fle (CPUCores d) fzero then withCPUCores d (fallbackCPUCores workloadClass) else d
  end.

(** ** The estimate *)

(** src/pkg/scheduler/powerest/extract.go:289-292 [clamp] *)
Definition clamp (v lo hi : float64) : float64 := fmax lo (fmin hi v).

(** src/pkg/scheduler/powerest/model.go:66-76 [gpuFallbackWatts] *)
Definition gpuFallbackWatts (vendor : string) (coeff : Coefficients) : float64 :=
  if String.eqb vendor "nvidia" then GPUMaxWattsFallbackNVIDIA coeff
  else if String.eqb vendor "amd" then GPUMaxWattsFallbackAMD coeff
  else GPUMaxWattsFallbackGeneric coeff.

(** src/pkg/scheduler/powerest/model.go:8-64 [EstimateMarginalImpact] *)
Definition EstimateMarginalImpact (demand : PodDemand) (node : option NodePowerProfile)
    (coeff : Coefficients) : MarginalEstimate :=
  match node with
  | None => {| DeltaCPUWatts := fzero; DeltaGPUWatts := fzero; DeltaTotalWatts := fzero |}
  | Some node =>
      let cpuMaxW := npp_CPUMaxWattsTotal node in
      let cpuMaxW :=
        if fle cpuMaxW fzero
        then fmax (fofZ 150) (fmul (fofZ (npp_CPUTotalCores node)) (CPUWattsPerCoreFallback coeff))
        else cpuMaxW in
      let totalCores := fofZ (npp_CPUTotalCores node) in
      let totalCores := if fle totalCores fzero then fone else totalCores in
      let utilShare := clamp (fdiv (CPUCores demand) totalCores) fzero fone in
      let deltaCPU := fmul (fmul cpuMaxW (CPUUtilCoeff coeff)) utilShare in
      let memGiB := fdiv (MemoryBytes demand) (fofZ (1024 * 1024 * 1024)) in
      let memMod := clamp (fadd fone (fmul memGiB (MemPowerCoeff coeff))) fone (MemPowerCap coeff) in
      let deltaCPU := fmul deltaCPU memMod in
      let deltaGPU :=
        if flt fzero (GPUCount demand) && npp_HasGPU node then
          let gpuMaxW := npp_GPUMaxWattsPerGPU node in
          let gpuMaxW := if fle gpuMaxW fzero then gpuFallbackWatts (GPUVendor demand) coeff else gpuMaxW in
          let utilCoeff :=
            if String.eqb (WorkloadClass demand) "performance"
            then GPUUtilCoeffPerformance coeff else GPUUtilCoeffStandard coeff in
          fmul (fmul (GPUCount demand) gpuMaxW) utilCoeff
        else fzero in
      {| DeltaCPUWatts := deltaCPU; DeltaGPUWatts := deltaGPU; DeltaTotalWatts := fadd deltaCPU deltaGPU |}
  end.

(** ** Demands are numbers of the right sign *)

Lemma firstPositive_nonneg parse res key sections :
  fle fzero (firstPositive parse res key sections) = true.
Proof.
  induction sections as [|s l IH]; cbn; [done|].
  destruct (asObj (jget res s)) as [sec|]; [|done]. destruct (jget sec key) as [raw|]; [|done].
  destruct (flt fzero (parse raw)) eqn:E; [by apply flt_fle|done].
Qed.

Lemma units_share_nonneg (units share : float64) :
  (share = fzero \/ unit_interval share = true) -> fle share fzero = false -> fle units fzero = false ->
  is_nan units = false -> fle fzero (fmul units share) = true.
Proof.
  intros [->|Hs] H1 H2 Hn; [done|]. unfold unit_interval in Hs. apply andb_true_iff in Hs as [H3 H4].
  apply fmul_nonneg; [|done|].
  - by destruct units as [|[]| |[]].
  - destruct share as [|[]| |]; done.
Qed.

(** A quantity a decoded document can hold: its numbers are not NaN. *)
Definition numeric (v : json) : bool := match v with JNum x => negb (is_nan x) | _ => true end.

Lemma digit_range (c : ascii) : is_digit c = true -> (0 <= Z.of_N (byte_of c) - 48 <= 9)%Z.
Proof. unfold is_digit. lia. Qed.

Lemma fmul_ten_nonneg (x : float64) : fle fzero x = true -> fle fzero (fmul x (fofZ 10)) = true.
Proof. intros H. by apply fmul_nonneg. Qed.

Lemma digit_finite (z : Z) : (0 <= z <= 9)%Z -> is_finite (fofZ z) = true.
Proof.
  intros Hz. assert (z ∈ seqZ 0 10)%Z as Hin by (apply elem_of_seqZ; lia). clear Hz.
  revert z Hin. apply Forall_forall. by_decide.
Qed.

Lemma fdiv_digit_nonneg (z : Z) (d : float64) :
  (0 <= z <= 9)%Z -> flt fzero d = true -> fle fzero (fdiv (fofZ z) d) = true.
Proof.
  intros Hz Hd. pose proof (digit_finite z Hz) as Hf. destruct (is_finite d) eqn:E.
  - apply fdiv_nonneg; [apply fofZ_nonneg; lia|done|done].
  - assert (d = S754_infinity false) as -> by by destruct d as [|[]| |].
    pose proof (fofZ_nonneg z ltac:(lia)) as Hn. by destruct (fofZ z) as [[]|[]| |[] ? ?].
Qed.

Lemma divisor_step (d : float64) :
  valid d -> flt fzero d = true -> valid (fmul d (fofZ 10)) /\ flt fzero (fmul d (fofZ 10)) = true.
Proof.
  intros Vd Hd. split; [by apply fmul_valid; [|apply fofZ_valid]|].
  destruct (is_finite d) eqn:E; [|by destruct d as [|[]| |[]]].
  assert (nonneg d) as Nd by by apply real_pos_nonneg.
  assert (fle d (fmul d (fofZ 10)) = true) as Hle.
  { apply (Rounds_ge _ _ _ (fmul_Rounds d (fofZ 10) Nd ltac:(by repeat split))); [done|done|].
    rewrite Z.mul_comm. apply Z.mul_le_mono_nonneg_l; [by apply nonneg_sval|]. apply Z.leb_le. by vm_compute. }
  destruct (flt fzero (fmul d (fofZ 10))) eqn:E2; [done|]. forder.
Qed.

Lemma parseFloat_loop_nonneg (cs : list (option ascii)) (r : float64) (dec : bool) (d v : float64) :
  fle fzero r = true -> valid d -> flt fzero d = true ->
  parseFloat_loop cs r dec d = Some v -> fle fzero v = true.
Proof.
  revert r dec d. induction cs as [|[c|] cs IH]; intros r dec d Hr Vd Hd; cbn [parseFloat_loop];
    [by intros [= <-]| |done].
  destruct (Ascii.eqb c "."); [destruct dec; [done|by apply IH]|].
  destruct (is_digit c) eqn:Ec; cbn [negb]; [|done]. pose proof (digit_range c Ec) as Hc.
  destruct dec.
  - destruct (divisor_step d Vd Hd) as [Vd' Hd']. apply IH; [|done|done].
    apply fadd_nonneg; [done|]. by apply fdiv_digit_nonneg.
  - apply IH; [|done|done]. apply fadd_nonneg; [by apply fmul_ten_nonneg|]. apply fofZ_nonneg. lia.
Qed.

Lemma parseFloat_nonneg (s : string) (v : float64) : parseFloat s = Some v -> fle fzero v = true.
Proof. unfold parseFloat. destruct (String.eqb s ""); [done|]. by apply parseFloat_loop_nonneg. Qed.

Lemma parseQuantity_number (v : json) : numeric v = true -> is_nan (parseQuantity v) = false.
Proof.
  destruct v as [|b|x|n|s|l|m]; cbn; try done; [by intros ?%negb_true_iff|intros _; apply fofZ_not_nan|].
  intros _. unfold parseQuantityString. destruct (String.eqb _ ""); [done|].
  destruct (HasSuffix _ "m").
  - destruct (parseFloat _) as [w|] eqn:E; [|done]. apply parseFloat_nonneg in E.
    apply fdiv_not_nan; [by destruct w|done|done].
  - destruct (parseFloat _) as [w|] eqn:E; [|done]. apply parseFloat_nonneg in E. by destruct w.
Qed.

(** Every quantity of a container's sections is a number. *)
Definition numericSection (sec : list (string * json)) : Prop :=
  forall k v, jget sec k = Some v -> numeric v = true.

Lemma gpuOfKeys_nonneg sec keys g vendor :
  numericSection sec -> fle fzero g = true -> fle fzero (gpuOfKeys sec keys g vendor).1 = true.
Proof.
  intros Hsec. revert g vendor. induction keys as [|k keys IH]; intros g vendor Hg; cbn [gpuOfKeys]; [done|].
  destruct (fle (GPUResourceShare k) fzero || fle _ fzero) eqn:E; [by apply IH|].
  apply orb_false_iff in E as [E1 E2]. apply IH. apply fadd_nonneg; [done|].
  apply units_share_nonneg; [apply GPUResourceShare_unit|done|done|].
  destruct (jget sec k) eqn:Ek; [|done]. apply parseQuantity_number. by eapply Hsec.
Qed.

(** A document without NaN, as every decoded JSON text is. *)
Fixpoint numericDoc (v : json) : bool :=
  match v with
  | JNum x => negb (is_nan x)
  | JArr l => forallb numericDoc l
  | JObj m => forallb (fun e => numericDoc e.2) m
  | _ => true
  end.

Lemma numericDoc_jget (m : list (string * json)) (k : string) (v : json) :
  numericDoc (JObj m) = true -> jget m k = Some v -> numericDoc v = true.
Proof.
  cbn. induction m as [|[k' w] m IH]; [done|]. cbn. intros [Hw Hm]%andb_true_iff.
  destruct (String.eqb k' k); [by intros [= <-]|by apply IH].
Qed.

Lemma numericDoc_numeric (v : json) : numericDoc v = true -> numeric v = true.
Proof. by destruct v. Qed.

Lemma asObj_doc (v : option json) (m : list (string * json)) :
  asObj v = Some m -> (forall w, v = Some w -> numericDoc w = true) -> numericDoc (JObj m) = true.
Proof. intros H Hv. destruct v as [[]|]; try done. injection H as ->. by apply Hv. Qed.

Lemma gpuOfSections_nonneg res sections :
  numericDoc (JObj res) = true -> fle fzero (gpuOfSections res sections).1 = true.
Proof.
  intros Hres. induction sections as [|s l IH]; cbn [gpuOfSections]; [done|].
  destruct (asObj (jget res s)) as [sec|] eqn:Es; [|done].
  destruct (gpuOfKeys sec _ fzero "") as [g v] eqn:Eg. destruct (flt fzero g); [|done].
  change g with ((g, v).1). rewrite <- Eg. apply gpuOfKeys_nonneg; [|done].
  intros k w Hk. apply numericDoc_numeric. eapply numericDoc_jget; [|done].
  eapply asObj_doc; [done|]. intros w' Hw'. by eapply numericDoc_jget.
Qed.

(** The vendors a demand names. *)
Definition vendors : list string := ["nvidia"; "amd"; "intel"; ""].

Lemma vendorFromKey_vendors (k : string) : vendorFromKey k ∈ vendors.
Proof. unfold vendorFromKey. repeat case_match; by_decide. Qed.

Lemma gpuOfKeys_vendor sec keys g v : v ∈ vendors -> (gpuOfKeys sec keys g v).2 ∈ vendors.
Proof.
  revert g v. induction keys as [|k keys IH]; intros g v Hv; cbn [gpuOfKeys]; [done|].
  destruct (fle _ fzero || fle _ fzero); [by apply IH|]. apply IH.
  destruct (String.eqb v ""); [apply vendorFromKey_vendors|done].
Qed.

Lemma gpuOfSections_vendor res sections : (gpuOfSections res sections).2 ∈ vendors.
Proof.
  induction sections as [|s l IH]; cbn [gpuOfSections]; [by_decide|].
  destruct (asObj (jget res s)) as [sec|]; [|done].
  pose proof (gpuOfKeys_vendor sec (sort_strings (sec.*1)) fzero "" ltac:(by_decide)) as Hv.
  destruct (gpuOfKeys sec _ fzero "") as [g v]. by destruct (flt fzero g).
Qed.

(** What holds of a demand while the containers are added up. *)
Definition demandInv (wc : string) (d : PodDemand) : Prop :=
  fle fzero (CPUCores d) = true /\ fle fzero (MemoryBytes d) = true /\ fle fzero (GPUCount d) = true /\
  GPUVendor d ∈ vendors /\ WorkloadClass d = wc.

Lemma containerResources_doc (c : json) res :
  numericDoc c = true -> containerResources c = Some res -> numericDoc (JObj res) = true.
Proof.
  intros Hc. unfold containerResources. intros (cm & Hm & Hr)%bind_Some.
  eapply asObj_doc; [done|]. intros w Hw. eapply numericDoc_jget; [|done].
  eapply asObj_doc; [done|]. by intros w' [= <-].
Qed.

Lemma addContainer_inv wc d c : numericDoc c = true -> demandInv wc d -> demandInv wc (addContainer d c).
Proof.
  intros Hc (H1 & H2 & H3 & H4 & H5). unfold addContainer.
  destruct (containerResources c) as [res|] eqn:Er; [|done].
  pose proof (gpuOfSections_nonneg res ["requests"; "limits"] (containerResources_doc c res Hc Er)) as Hg.
  pose proof (gpuOfSections_vendor res ["requests"; "limits"]) as Hv.
  unfold extractGPU. destruct (gpuOfSections res _) as [g v]. cbn in Hg, Hv.
  split; [apply fadd_nonneg; [done|apply firstPositive_nonneg]|].
  split; [apply fadd_nonneg; [done|apply firstPositive_nonneg]|].
  split; [by apply fadd_nonneg|]. split; [cbn; by destruct (negb (String.eqb v ""))|done].
Qed.

Lemma addInitContainer_inv wc d c : numericDoc c = true -> demandInv wc d -> demandInv wc (addInitContainer d c).
Proof.
  intros Hc (H1 & H2 & H3 & H4 & H5). unfold addInitContainer.
  destruct (containerResources c) as [res|] eqn:Er; [|done].
  pose proof (gpuOfSections_nonneg res ["requests"; "limits"] (containerResources_doc c res Hc Er)) as Hg.
  pose proof (gpuOfSections_vendor res ["requests"; "limits"]) as Hv.
  unfold extractGPU. destruct (gpuOfSections res _) as [g v]. cbn in Hg, Hv.
  split; [done|]. split; [done|].
  split; [cbn; by destruct (flt (GPUCount d) g)|].
  split; [cbn; by destruct (negb (String.eqb v "") && String.eqb (GPUVendor d) "")|done].
Qed.

Lemma fold_inv (f : PodDemand -> json -> PodDemand) wc (l : list json) (d : PodDemand) :
  (forall d c, numericDoc c = true -> demandInv wc d -> demandInv wc (f d c)) ->
  forallb numericDoc l = true -> demandInv wc d -> demandInv wc (foldl f d l).
Proof.
  intros Hf. revert d. induction l as [|c l IH]; intros d; cbn; [done|].
  intros [Hc Hl]%andb_true_iff Hd. apply IH; [done|]. by apply Hf.
Qed.

Lemma asArr_doc (m : list (string * json)) (k : string) :
  numericDoc (JObj m) = true -> forallb numericDoc (asArr (jget m k)) = true.
Proof.
  intros Hm. destruct (jget m k) as [[]|] eqn:E; try done. by apply (numericDoc_jget m k (JArr l)).
Qed.

(** Whatever a pod's spec holds, well-formed or not, the demand read from
    it is usable: the CPU cores are positive (a fallback stands in where
    nothing is requested or the spec is missing), memory and GPUs are not
    negative, the vendor is one the model knows or none, and the workload
    class is the caller's. *)
Theorem ExtractPodDemand_usable (pod : list (string * json)) (workloadClass : string) :
  numericDoc (JObj pod) = true ->
  let d := ExtractPodDemand pod workloadClass in
  flt fzero (CPUCores d) = true /\ fle fzero (MemoryBytes d) = true /\ fle fzero (GPUCount d) = true /\
  GPUVendor d ∈ vendors /\ WorkloadClass d = workloadClass.
Proof.
  intros Hpod. cbv zeta. unfold ExtractPodDemand.
  assert (flt fzero (fallbackCPUCores workloadClass) = true) as Hfb
    by (unfold fallbackCPUCores; destruct (String.eqb workloadClass "performance"); by vm_compute).
  destruct (asObj (jget pod "spec")) as [spec|] eqn:Es; cbn; [|repeat split; (done || by_decide)].
  assert (numericDoc (JObj spec) = true) as Hspec.
  { eapply asObj_doc; [done|]. intros w Hw. by eapply numericDoc_jget. }
  set (d0 := {| CPUCores := fzero; MemoryBytes := fzero; GPUCount := fzero; GPUVendor := "";
                WorkloadClass := workloadClass |}).
  assert (demandInv workloadClass d0) as Hd0 by (repeat split; (done || by_decide)).
  pose proof (fold_inv addContainer workloadClass _ d0 (addContainer_inv workloadClass)
    (asArr_doc spec "containers" Hspec) Hd0) as Hd1.
  pose proof (fold_inv addInitContainer workloadClass _ _ (addInitContainer_inv workloadClass)
    (asArr_doc spec "initContainers" Hspec) Hd1) as (H1 & H2 & H3 & H4 & H5).
  set (d := foldl addInitContainer _ _) in *.
  destruct (fle (CPUCores d) fzero) eqn:E; [by repeat split|].
  repeat split; try done. by destruct (CPUCores d) as [[]|[]| |[] ? ?].
Qed.

Definition samplePodSpec : list (string * json) :=
  [("spec", JObj [("containers", JArr [
     JObj [("resources", JObj [("requests", JObj [("cpu", JStr "500m"); ("memory", JStr "2Gi")]);
                               ("limits", JObj [("nvidia.com/mig-3g.47gb", JNum (fofZ 2))])])];
     JObj [("resources", JObj [("requests", JObj [("cpu", JNum (fofZ 2))])])]])])].

Example ExtractPodDemand_usable_witness :
  flt fzero (CPUCores (ExtractPodDemand samplePodSpec "performance")) = true /\
  CPUCores (ExtractPodDemand samplePodSpec "performance") = flit 25 10.
Proof.
  split; [|by vm_compute].
  refine (proj1 (ExtractPodDemand_usable samplePodSpec "performance" _)). by vm_compute.
Defined.

(** ** Whole quantities are read exactly *)

Lemma parse_digit (a : ascii) (k acc : Z) (rest : list (option ascii)) :
  is_digit a = true -> (Z.of_N (byte_of a) - 48 = k)%Z ->
  (0 <= acc)%Z -> exact_int (10 * acc + k) ->
  parseFloat_loop (Some a :: rest) (fofZ acc) false fone =
  parseFloat_loop rest (fofZ (10 * acc + k)) false fone.
Proof.
  intros Hd Hk Ha He. cbn [parseFloat_loop].
  assert (Ascii.eqb a "." = false) as -> by (destruct a as [[] [] [] [] [] [] [] []]; done).
  pose proof (digit_range a Hd) as Hr. rewrite Hd, Hk in *. cbn [negb].
  rewrite fmul_int by (unfold exact_int in *; lia).
  rewrite fadd_int by (unfold exact_int in *; lia). do 2 f_equal. lia.
Qed.

(** One digit of a symbolic number. *)
Ltac digit_step IH :=
  lazymatch goal with
  | He : exact_int (uval ?d ?n) |- parseFloat_loop (Some ?a :: _) (fofZ ?acc) _ _ = _ =>
      let k := eval vm_compute in (Z.of_N (byte_of a) - 48)%Z in
      replace n with (10 * acc + k)%Z in * by lia;
      pose proof (uval_ge d (10 * acc + k) ltac:(lia));
      rewrite (parse_digit a k acc) by (done || (unfold exact_int in *; lia));
      apply IH; [lia|exact He]
  end.

Lemma parse_digits (d : Decimal.uint) (acc : Z) :
  (0 <= acc)%Z -> exact_int (uval d acc) ->
  parseFloat_loop (Some <$> list_ascii_of_string (NilEmpty.string_of_uint d)) (fofZ acc) false fone =
  Some (fofZ (uval d acc)).
Proof.
  revert acc. induction d as [|d IH|d IH|d IH|d IH|d IH|d IH|d IH|d IH|d IH|d IH]; intros acc Ha He;
    cbn [NilEmpty.string_of_uint list_ascii_of_string fmap list_fmap uval] in *; [done|..]; digit_step IH.
Qed.

Lemma parseFloat_Itoa (n : Z) : exact_int n -> parseFloat (Itoa n) = Some (fofZ n).
Proof.
  intros Hn. destruct (Itoa_uval n) as (d & Hd & Hne & Hv); [unfold exact_int in Hn; lia|].
  unfold parseFloat. apply String.eqb_neq in Hne. rewrite Hne.
  rewrite runes_ascii by (apply digits_ascii, Itoa_digits; unfold exact_int in Hn; lia).
  rewrite Hd. change fzero with (fofZ 0). rewrite parse_digits; [by rewrite Hv|lia|by rewrite Hv].
Qed.

Lemma suffix_plain (n : Z) (u : string) :
  (0 <= n)%Z -> Forall plain_char (list_ascii_of_string u) -> TrimSpace (Itoa n +:+ u) = Itoa n +:+ u.
Proof.
  intros Hn Hu. apply TrimSpace_plain. rewrite list_ascii_app. apply Forall_app.
  split; [by apply digit_plain, Itoa_digits|done].
Qed.

Lemma Itoa_suffix_nonempty (n : Z) (u : string) : (0 <= n)%Z -> String.eqb (Itoa n +:+ u) "" = false.
Proof.
  intros Hn. destruct (Itoa_uval n Hn) as (_ & _ & Hne & _). destruct (Itoa n) as [|a s]; [done|].
  by rewrite app_cons_string.
Qed.

(** Each step of the multiplier table on a number with a suffix: the entries
    before the suffix's own do not match. *)
Ltac suffix_step :=
  first
  [ rewrite HasSuffix_self, TrimSuffix_app
  | rewrite HasSuffix_app_length by done; cbn [String.eqb Ascii.eqb Bool.eqb]
  | erewrite HasSuffix_last; [|rewrite list_ascii_app, last_app; done|done|done] ].

Lemma parseMemory_suffix (n : Z) (u : string) (k : Z) :
  exact_int n -> exact_int k -> exact_int (n * k) ->
  Forall plain_char (list_ascii_of_string u) ->
  parseMemory_loop multipliers (Itoa n +:+ u) =
    match parseFloat (Itoa n) with None => fzero | Some v => fmul v (fofZ k) end ->
  parseMemoryString (Itoa n +:+ u) = fofZ (n * k).
Proof.
  intros Hn Hk Hnk Hu Hl. unfold parseMemoryString.
  rewrite suffix_plain, Itoa_suffix_nonempty by (done || (unfold exact_int in *; lia)).
  rewrite Hl, parseFloat_Itoa by done. by apply fmul_int.
Qed.

(** The suffixes of a memory quantity and what they multiply by. *)
Definition memorySuffixes : list (string * Z) :=
  [("Ti", 2 ^ 40); ("Gi", 2 ^ 30); ("Mi", 2 ^ 20); ("Ki", 2 ^ 10);
   ("T", 10 ^ 12); ("G", 10 ^ 9); ("M", 10 ^ 6); ("K", 10 ^ 3)]%Z.

(** Whole quantities are read back exactly: a decimal number of cores, the
    same number of milli-cores as the quotient by 1000, a plain number of
    bytes, and a number with each binary or decimal memory suffix as the exact
    product, as long as the value is below 2^53. *)
Theorem parse_quantities_exact (n : Z) :
  exact_int n ->
  parseQuantityString (Itoa n) = fofZ n /\
  parseQuantityString (Itoa n +:+ "m") = fdiv (fofZ n) (fofZ 1000) /\
  parseMemoryString (Itoa n) = fofZ n /\
  forall suffix k, (suffix, k) ∈ memorySuffixes -> exact_int (n * k) ->
    parseMemoryString (Itoa n +:+ suffix) = fofZ (n * k).
Proof.
  intros Hn. assert (0 <= n)%Z as H0 by (unfold exact_int in Hn; lia).
  assert (TrimSpace (Itoa n) = Itoa n) as Ht by (by apply TrimSpace_plain, digit_plain, Itoa_digits).
  assert (String.eqb (Itoa n) "" = false) as He
    by (apply String.eqb_neq; by destruct (Itoa_uval n H0) as (_ & _ & ? & _)).
  split; [|split; [|split]].
  - unfold parseQuantityString. rewrite Ht, He. erewrite Itoa_not_suffix by done. by rewrite parseFloat_Itoa.
  - unfold parseQuantityString. rewrite suffix_plain, Itoa_suffix_nonempty by (done || by repeat constructor).
    by rewrite HasSuffix_self, TrimSuffix_app, parseFloat_Itoa.
  - unfold parseMemoryString. rewrite Ht, He. cbn [parseMemory_loop multipliers].
    do 8 (erewrite Itoa_not_suffix by done). by rewrite parseFloat_Itoa.
  - intros suffix k Hs Hk.
    assert (exact_int k) as Hek.
    { revert suffix k Hs Hk. intros s k Hs _. unfold memorySuffixes in Hs.
      repeat (apply elem_of_cons in Hs as [[= -> ->]|Hs]; [unfold exact_int; lia|]). by apply not_elem_of_nil in Hs. }
    unfold memorySuffixes in Hs.
    repeat (apply elem_of_cons in Hs as [[= -> ->]|Hs];
      [apply parseMemory_suffix; [done|done|done|by repeat constructor|];
       cbn [parseMemory_loop multipliers]; repeat suffix_step; reflexivity|]).
    by apply not_elem_of_nil in Hs.
Qed.

Example parse_quantities_exact_witness :
  parseQuantityString (Itoa 1500 +:+ "m") = fdiv (fofZ 1500) (fofZ 1000) /\
  parseMemoryString (Itoa 64 +:+ "Gi") = fofZ (64 * 2 ^ 30).
Proof.
  split.
  - refine (proj1 (proj2 (parse_quantities_exact 1500 _))). unfold exact_int; lia.
  - refine (proj2 (proj2 (proj2 (parse_quantities_exact 64 _))) "Gi" (2 ^ 30)%Z _ _).
    + unfold exact_int; lia.
    + by_decide.
    + unfold exact_int; lia.
Defined.

(** ** The estimate *)

(** Coefficients an operator may set: shares of the maximum at most 1,
    multipliers and fallbacks positive. *)
Record goodCoefficients (c : Coefficients) : Prop := {
  gc_cpu : nonneg (CPUUtilCoeff c) /\ fle (CPUUtilCoeff c) fone = true;
  gc_mem : nonneg (MemPowerCoeff c);
  gc_cap : real (MemPowerCap c) /\ fle fone (MemPowerCap c) = true;
  gc_std : real (GPUUtilCoeffStandard c) /\ flt fzero (GPUUtilCoeffStandard c) = true;
  gc_perf : real (GPUUtilCoeffPerformance c) /\ flt fzero (GPUUtilCoeffPerformance c) = true;
  gc_core : nonneg (CPUWattsPerCoreFallback c) /\ fle (CPUWattsPerCoreFallback c) (fofZ 1000) = true;
  gc_nvidia : real (GPUMaxWattsFallbackNVIDIA c) /\ flt fzero (GPUMaxWattsFallbackNVIDIA c) = true;
  gc_amd : real (GPUMaxWattsFallbackAMD c) /\ flt fzero (GPUMaxWattsFallbackAMD c) = true;
  gc_generic : real (GPUMaxWattsFallbackGeneric c) /\ flt fzero (GPUMaxWattsFallbackGeneric c) = true
}.

Lemma DefaultCoefficients_good : goodCoefficients DefaultCoefficients.
Proof. by split; repeat split; vm_compute. Qed.

(** The CPU power the estimate takes a share of. *)
Definition cpuMaxWatts (node : NodePowerProfile) (coeff : Coefficients) : float64 :=
  if fle (npp_CPUMaxWattsTotal node) fzero
  then fmax (fofZ 150) (fmul (fofZ (npp_CPUTotalCores node)) (CPUWattsPerCoreFallback coeff))
  else npp_CPUMaxWattsTotal node.

(** A node profile as the scheduler builds it. *)
Record goodProfile (node : NodePowerProfile) : Prop := {
  gp_cores : (0 <= npp_CPUTotalCores node < 2 ^ 40)%Z;
  gp_cpu : real (npp_CPUMaxWattsTotal node);
  gp_gpu : real (npp_GPUMaxWattsPerGPU node)
}.

Lemma clamp_unit (x lo hi : float64) :
  is_nan x = false -> valid x -> nonneg lo -> nonneg hi -> fle lo hi = true ->
  nonneg (clamp x lo hi) /\ fle lo (clamp x lo hi) = true /\ fle (clamp x lo hi) hi = true.
Proof.
  intros Hx Vx Hlo Hhi Hle. unfold clamp.
  assert (is_nan lo = false /\ is_nan hi = false) as [Nl Nh] by forder.
  assert (is_nan (fmin hi x) = false) as Nm by by apply fmin_not_nan.
  assert (fle lo (fmax lo (fmin hi x)) = true) as H1 by by apply fmax_ge_l.
  assert (fle (fmax lo (fmin hi x)) hi = true) as H2 by (apply fmax_lub; [done|by apply fmin_le_l]).
  split; [|done]. assert (fle fzero (fmax lo (fmin hi x)) = true) as H0
    by (eapply fle_trans; [apply Hlo|done]).
  split; [|split; [apply (finite_between _ fzero hi); [done|done|done|apply Hhi]|done]].
  apply fmax_valid; [apply Hlo|]. apply fmin_valid; [apply Hhi|done].
Qed.

Lemma positive_of_not_le (x : float64) : is_nan x = false -> fle x fzero = false -> flt fzero x = true.
Proof. by destruct x as [|[]| |[]]. Qed.

Lemma real_not_nan (x : float64) : real x -> is_nan x = false.
Proof. intros [_ H]. by destruct x. Qed.

Lemma cpuMaxWatts_nonneg node coeff :
  goodProfile node -> goodCoefficients coeff ->
  nonneg (cpuMaxWatts node coeff) /\ flt fzero (cpuMaxWatts node coeff) = true.
Proof.
  intros [Hc Hw _] Hg. unfold cpuMaxWatts. destruct (fle (npp_CPUMaxWattsTotal node) fzero) eqn:E.
  - destruct (gc_core _ Hg) as [Hk Hk1].
    destruct (fofZ_sval (npp_CPUTotalCores node)) as [Nc Sc]; [unfold exact_int; lia|].
    destruct (fofZ_sval (2 ^ 50)) as [Nz Sz]; [unfold exact_int; lia|].
    destruct (fofZ_sval 1000) as [N1 S1]; [unfold exact_int; lia|].
    assert (sval (CPUWattsPerCoreFallback coeff) <= 1000 * 2 ^ scale)%Z as Hs
      by (rewrite <- S1; apply fle_sval; [apply Hk|apply N1|apply Hk|apply N1|exact Hk1]).
    pose proof (nonneg_sval _ Hk) as Hs0. pose proof (pow2_pos scale ltac:(unfold scale; lia)) as Hp.
    destruct (fmul_le _ _ (fofZ (2 ^ 50)) Nc Hk Nz) as [Hm _].
    { rewrite Sc, Sz. transitivity (npp_CPUTotalCores node * 2 ^ scale * (1000 * 2 ^ scale))%Z.
      - apply Z.mul_le_mono_nonneg_l; [|done]. apply Z.mul_nonneg_nonneg; lia.
      - replace (_ * 2 ^ scale * (1000 * 2 ^ scale))%Z
          with (2 ^ scale * ((npp_CPUTotalCores node * 1000) * 2 ^ scale))%Z by ring.
        apply Z.mul_le_mono_nonneg_l; [lia|]. apply Z.mul_le_mono_nonneg_r; lia. }
    assert (fle (fofZ 150) (fmax (fofZ 150) (fmul (fofZ (npp_CPUTotalCores node)) (CPUWattsPerCoreFallback coeff))) = true) as H150.
    { apply fmax_ge_l; [done|]. apply real_not_nan, nonneg_real, Hm. }
    assert (flt fzero (fmax (fofZ 150) (fmul (fofZ (npp_CPUTotalCores node)) (CPUWattsPerCoreFallback coeff))) = true) as Hpos.
    { assert (flt fzero (fofZ 150) = true) as H0 by by vm_compute. forder. }
    split; [|done]. apply real_pos_nonneg; [|done]. destruct Hm as (V & F & _).
    split; [by apply fmax_valid|by apply fmax_finite].
  - assert (flt fzero (npp_CPUMaxWattsTotal node) = true) as Hp
      by (apply positive_of_not_le; [by apply real_not_nan|done]).
    split; [by apply real_pos_nonneg|done].
Qed.

Lemma div_nonneg_number (x y : float64) :
  fle fzero x = true -> nonneg y -> flt fzero y = true ->
  is_nan (fdiv x y) = false /\ fle fzero (fdiv x y) = true.
Proof.
  intros Hx Hy Hp. split; [|apply fdiv_nonneg_inf; [done|done|apply Hy]].
  apply fdiv_not_nan; [forder|apply Hy|forder].
Qed.

(** The cores a share is taken of. *)
Lemma totalCores_pos (n : Z) :
  (0 <= n < 2 ^ 40)%Z ->
  let t := if fle (fofZ n) fzero then fone else fofZ n in nonneg t /\ flt fzero t = true.
Proof.
  intros Hn. cbv zeta. destruct (fle (fofZ n) fzero) eqn:E; [by repeat split|].
  destruct (fofZ_sval n) as [Nn _]; [unfold exact_int; lia|]. split; [done|].
  apply positive_of_not_le; [apply fofZ_not_nan|done].
Qed.

(** The memory modifier lies between 1 and its cap, and is 1 without memory. *)
Definition memModifier (d : PodDemand) (coeff : Coefficients) : float64 :=
  clamp (fadd fone (fmul (fdiv (MemoryBytes d) (fofZ (1024 * 1024 * 1024))) (MemPowerCoeff coeff))) fone
    (MemPowerCap coeff).

Lemma memModifier_bounds (d : PodDemand) (coeff : Coefficients) :
  goodCoefficients coeff -> nonneg (MemoryBytes d) ->
  nonneg (memModifier d coeff) /\ (MemoryBytes d = fzero -> fle (memModifier d coeff) fone = true).
Proof.
  intros Hg Hm. destruct (gc_cap _ Hg) as [Rc Hc]. pose proof (gc_mem _ Hg) as Nk.
  assert (nonneg (MemPowerCap coeff)) as Ncap.
  { split; [apply Rc|]. split; [apply Rc|]. by apply (fle_trans _ fone). }
  set (g := fdiv (MemoryBytes d) (fofZ (1024 * 1024 * 1024))).
  assert (nonneg g) as Ng.
  { assert (nonneg (fofZ (1024 * 1024 * 1024))) as N1 by by repeat split.
    assert (2 ^ scale <= sval (fofZ (1024 * 1024 * 1024)))%Z as Hs by (apply Z.leb_le; by vm_compute).
    pose proof (pow2_pos scale ltac:(unfold scale; lia)) as Hp.
    pose proof (fdiv_Rounds _ _ Hm N1 ltac:(lia)) as HR.
    apply (Rounds_nonneg _ _ _ (MemoryBytes d) HR); [|apply Hm].
    apply (Rounds_le _ _ _ HR); [apply Hm|apply Hm|]. rewrite Z.mul_comm.
    apply Z.mul_le_mono_nonneg_r; [by apply nonneg_sval|done]. }
  assert (is_nan (fmul g (MemPowerCoeff coeff)) = false) as Hn by (apply fmul_not_nan_fin; [apply Ng|apply Nk]).
  destruct (clamp_unit (fadd fone (fmul g (MemPowerCoeff coeff))) fone (MemPowerCap coeff)) as (H1 & _ & _).
  - by apply fadd_not_nan.
  - apply fadd_valid; [done|]. apply fmul_valid; [apply Ng|apply Nk].
  - by repeat split.
  - done.
  - done.
  - split; [exact H1|]. intros H0. unfold memModifier, clamp. fold g.
    assert (g = fzero) as -> by (unfold g; rewrite H0; by vm_compute).
    assert (exists s, fmul fzero (MemPowerCoeff coeff) = S754_zero s) as [s ->].
    { destruct Nk as (_ & F & _). destruct (MemPowerCoeff coeff) as [s|s| |s m e]; try discriminate F; by eexists. }
    assert (fadd fone (S754_zero s) = fone) as -> by by destruct s.
    apply fmax_lub; [done|]. apply fmin_le_r; [by apply real_not_nan|done].
Qed.

(** The GPU part, where the pod wants GPUs and the node has them. *)
Lemma gpuWatts_nonneg (d : PodDemand) (node : NodePowerProfile) (coeff : Coefficients) :
  goodCoefficients coeff -> goodProfile node -> nonneg (GPUCount d) -> flt fzero (GPUCount d) = true ->
  let w := npp_GPUMaxWattsPerGPU node in
  let w := if fle w fzero then gpuFallbackWatts (GPUVendor d) coeff else w in
  let u := if String.eqb (WorkloadClass d) "performance" then GPUUtilCoeffPerformance coeff
           else GPUUtilCoeffStandard coeff in
  fle fzero (fmul (fmul (GPUCount d) w) u) = true.
Proof.
  intros Hg Hn Nc Pc. cbv zeta.
  assert (forall w, real w -> flt fzero w = true -> fle fzero (fmul (GPUCount d) w) = true) as H1.
  { intros w [_ F] P. apply fmul_nonneg; [apply Nc|done|done]. }
  assert (forall a, fle fzero a = true ->
    fle fzero (fmul a (if String.eqb (WorkloadClass d) "performance" then GPUUtilCoeffPerformance coeff
                       else GPUUtilCoeffStandard coeff)) = true) as H2.
  { intros a Ha. destruct (gc_perf _ Hg) as [[_ F1] P1], (gc_std _ Hg) as [[_ F2] P2].
    destruct (String.eqb _ _); by apply fmul_nonneg. }
  apply H2. destruct (fle (npp_GPUMaxWattsPerGPU node) fzero) eqn:E.
  - unfold gpuFallbackWatts. destruct (String.eqb _ "nvidia"); [apply H1; apply (gc_nvidia _ Hg)|].
    destruct (String.eqb _ "amd"); [apply H1; apply (gc_amd _ Hg)|apply H1; apply (gc_generic _ Hg)].
  - pose proof (gp_gpu _ Hn) as Rw. apply H1; [done|].
    apply positive_of_not_le; [by apply real_not_nan|done].
Qed.

(** The CPU part of an estimate. *)
Lemma estimate_cpu (d : PodDemand) (node : NodePowerProfile) (coeff : Coefficients) :
  goodCoefficients coeff -> goodProfile node -> nonneg (CPUCores d) -> nonneg (MemoryBytes d) ->
  let w := DeltaCPUWatts (EstimateMarginalImpact d (Some node) coeff) in
  valid w /\ fle fzero w = true /\ (MemoryBytes d = fzero -> fle w (cpuMaxWatts node coeff) = true).
Proof.
  intros Hg Hn Hc Hm. cbv zeta. cbn [EstimateMarginalImpact DeltaCPUWatts]. fold (cpuMaxWatts node coeff).
  destruct (cpuMaxWatts_nonneg node coeff Hn Hg) as [Nw Pw].
  destruct (totalCores_pos (npp_CPUTotalCores node) (gp_cores _ Hn)) as [Nt Pt].
  set (t := if fle (fofZ _) fzero then fone else _) in *.
  destruct (div_nonneg_number (CPUCores d) t (proj2 (proj2 Hc)) Nt Pt) as [Dn D0].
  destruct (clamp_unit (fdiv (CPUCores d) t) fzero fone) as (Su & Su0 & Su1);
    [done|apply fdiv_valid; [apply Hc|apply Nt]|by repeat split|by repeat split|done|].
  destruct (gc_cpu _ Hg) as [Nk Nk1].
  destruct (fmul_le_l (cpuMaxWatts node coeff) (CPUUtilCoeff coeff) Nw Nk Nk1) as [Na Na1].
  destruct (fmul_le_l _ _ Na Su Su1) as [Nb Nb1].
  destruct (memModifier_bounds d coeff Hg Hm) as [Nm Hm1]. fold (memModifier d coeff).
  pose proof (fmul_Rounds _ _ Nb Nm) as HR.
  split; [apply HR|]. split; [apply HR|]. intros H0. destruct (fmul_le_l _ _ Nb Nm (Hm1 H0)) as [_ Hle].
  apply (fle_trans _ _ _ Hle). by apply (fle_trans _ _ _ Nb1).
Qed.

Lemma estimate_gpu (d : PodDemand) (node : NodePowerProfile) (coeff : Coefficients) :
  goodCoefficients coeff -> goodProfile node -> nonneg (GPUCount d) ->
  let w := DeltaGPUWatts (EstimateMarginalImpact d (Some node) coeff) in
  fle fzero w = true /\ (flt fzero (GPUCount d) && npp_HasGPU node = false -> w = fzero).
Proof.
  intros Hg Hn Hgpu. cbv zeta. cbn [EstimateMarginalImpact DeltaGPUWatts].
  destruct (flt fzero (GPUCount d)) eqn:E, (npp_HasGPU node); cbn [andb]; try done.
  split; [by apply gpuWatts_nonneg|done].
Qed.

Lemma estimate_total (d : PodDemand) (node : NodePowerProfile) (coeff : Coefficients) :
  goodCoefficients coeff -> goodProfile node ->
  nonneg (CPUCores d) -> nonneg (MemoryBytes d) -> nonneg (GPUCount d) ->
  fle fzero (DeltaTotalWatts (EstimateMarginalImpact d (Some node) coeff)) = true.
Proof.
  intros Hg Hn Hc Hm Hgpu. change (DeltaTotalWatts ?e) with (fadd (DeltaCPUWatts e) (DeltaGPUWatts e)).
  apply fadd_nonneg; [by apply estimate_cpu|by apply estimate_gpu].
Qed.

Lemma estimate_valid (d : PodDemand) (node : NodePowerProfile) (coeff : Coefficients) :
  goodCoefficients coeff -> goodProfile node ->
  nonneg (CPUCores d) -> nonneg (MemoryBytes d) -> nonneg (GPUCount d) ->
  valid (DeltaTotalWatts (EstimateMarginalImpact d (Some node) coeff)).
Proof.
  intros Hg Hn Hc Hm Hgpu. change (DeltaTotalWatts ?e) with (fadd (DeltaCPUWatts e) (DeltaGPUWatts e)).
  apply fadd_valid; [by apply estimate_cpu|]. cbn [EstimateMarginalImpact DeltaGPUWatts].
  destruct (flt fzero (GPUCount d) && npp_HasGPU node); [|done].
  apply fmul_valid; [apply fmul_valid; [apply Hgpu|]|].
  - destruct (fle (npp_GPUMaxWattsPerGPU node) fzero); [|apply (gp_gpu _ Hn)].
    unfold gpuFallbackWatts. destruct (String.eqb _ "nvidia"); [apply (gc_nvidia _ Hg)|].
    destruct (String.eqb _ "amd"); [apply (gc_amd _ Hg)|apply (gc_generic _ Hg)].
  - destruct (String.eqb _ "performance"); [apply (gc_perf _ Hg)|apply (gc_std _ Hg)].
Qed.

(** The estimate has the signs and limits a cost has. Without hardware
    data it is zero; on a node it adds up its CPU and GPU part, the CPU part
    is never negative, and at most the CPU's maximum for a pod without memory;
    the GPU part is zero unless the pod wants GPUs and the node has them, and
    never negative. It holds for the default coefficients and any others of
    their kind, for every finite demand. *)
Theorem EstimateMarginalImpact_correct (d : PodDemand) (node : NodePowerProfile) (coeff : Coefficients) :
  goodCoefficients coeff -> goodProfile node ->
  nonneg (CPUCores d) -> nonneg (MemoryBytes d) -> nonneg (GPUCount d) ->
  let e := EstimateMarginalImpact d (Some node) coeff in
  EstimateMarginalImpact d None coeff = {| DeltaCPUWatts := fzero; DeltaGPUWatts := fzero; DeltaTotalWatts := fzero |} /\
  fle fzero (DeltaCPUWatts e) = true /\
  (MemoryBytes d = fzero -> fle (DeltaCPUWatts e) (cpuMaxWatts node coeff) = true) /\
  fle fzero (DeltaGPUWatts e) = true /\
  (flt fzero (GPUCount d) && npp_HasGPU node = false -> DeltaGPUWatts e = fzero) /\
  DeltaTotalWatts e = fadd (DeltaCPUWatts e) (DeltaGPUWatts e) /\ fle fzero (DeltaTotalWatts e) = true.
Proof.
  intros Hg Hn Hc Hm Hgpu. cbv zeta.
  destruct (estimate_cpu d node coeff Hg Hn Hc Hm) as (_ & H1 & H2).
  destruct (estimate_gpu d node coeff Hg Hn Hgpu) as [H3 H4].
  split; [done|]. split; [done|]. split; [done|]. split; [done|]. split; [done|].
  split; [done|by apply estimate_total].
Qed.

Example EstimateMarginalImpact_correct_witness :
  let d := ExtractPodDemand samplePodSpec "performance" in
  let node := {| npp_CPUTotalCores := 128; npp_CPUSockets := 2; npp_CPUMaxWattsTotal := fofZ 720;
                 npp_GPUCount := 4; npp_GPUMaxWattsPerGPU := fofZ 700; npp_HasGPU := true |} in
  fle fzero (DeltaTotalWatts (EstimateMarginalImpact d (Some node) DefaultCoefficients)) = true /\
  flt (fofZ 500) (DeltaGPUWatts (EstimateMarginalImpact d (Some node) DefaultCoefficients)) = true.
Proof.
  cbv zeta. split; [|by vm_compute].
  match goal with |- context [EstimateMarginalImpact ?d (Some ?n) _] =>
    refine (proj2 (proj2 (proj2 (proj2 (proj2 (proj2
      (EstimateMarginalImpact_correct d n DefaultCoefficients _ _ _ _ _))))))) end.
  - exact DefaultCoefficients_good.
  - split; [cbn; lia|by repeat split|by repeat split].
  - split; [by vm_compute|split; by vm_compute].
  - split; [by vm_compute|split; by vm_compute].
  - split; [by vm_compute|split; by vm_compute].
Defined.
