(* ===== verification/TtlCache.v ===== *)
(** * The scheduler's derived maps: a cache with a time to live

    [getNodeTwinStates] and [getNodeHardwareInfo] (cmd/scheduler/main.go) are
    one algorithm over two maps: check under the read lock, check again under
    the write lock, rebuild, store with the time. [get] is one undisturbed
    call; [step] interleaves any number of calls, whose two locked sections
    are its atomic steps. Times are nanoseconds of the monotonic clock,
    [time.Since] saturating as the code's [time.Duration] does. *)

From S2P Require Import Prelude.

Section TtlCache.
Context {V : Type} (TTL : Z).

(** The package variables of one map: the map ([None] for nil) and the time of
    its last rebuild.
    src/cmd/scheduler/main.go:63-71 [twinStateCache, nodeHWCache, lastCacheRefresh, lastNodeHWRefresh] *)
Record cache := { cached : option V; refreshedAt : Z }.

(** What listing from the informer gives. *)
Inductive listing :=
| NoReader
| ListError
| Listed (v : V).

(** [time.Since(last) < TTL && cache != nil], at [now]. *)
Definition fresh (c : cache) (now : Z) : bool :=
  (sat64 (now - refreshedAt c) <? TTL)%Z && match cached c with Some _ => true | None => false end.

(** The part under the write lock: [now] is read by the second check, [later]
    by the store. [None] is the empty map the caller gets without a listing.
    src/cmd/scheduler/main.go:747-777 [twinStateMu] *)
Definition rebuild (c : cache) (now later : Z) (answer : listing) : option V * cache :=
  if fresh c now then (cached c, c)
  else match answer with
       | NoReader | ListError => (None, c)
       | Listed v => (Some v, {| cached := Some v; refreshedAt := later |})
       end.

(** One call, the clock read at its check, its second check and its store.
    src/cmd/scheduler/main.go:737-778 [getNodeTwinStates] *)
Definition get (c : cache) (now now' later : Z) (answer : listing) : option V * cache :=
  if fresh c now then (cached c, c) else rebuild c now' later answer.

(** ** Interleavings *)

(** A call before its check, waiting for the write lock, and done. *)
Inductive call :=
| Start
| Missed
| Done (result : option V).

Record world := {
  store : cache;
  clock : Z;
  calls : list call;
  (** The times of the rebuilds, latest first. *)
  rebuilds : list Z
}.

Inductive step : world -> world -> Prop :=
| step_clock w t :
    (clock w <= t)%Z ->
    step w {| store := store w; clock := t; calls := calls w; rebuilds := rebuilds w |}
| step_arrive w :
    step w {| store := store w; clock := clock w; calls := calls w ++ [Start]; rebuilds := rebuilds w |}
| step_hit w i :
    calls w !! i = Some Start -> fresh (store w) (clock w) = true ->
    step w {| store := store w; clock := clock w;
              calls := <[i := Done (cached (store w))]> (calls w); rebuilds := rebuilds w |}
| step_miss w i :
    calls w !! i = Some Start -> fresh (store w) (clock w) = false ->
    step w {| store := store w; clock := clock w; calls := <[i := Missed]> (calls w); rebuilds := rebuilds w |}
| step_rebuild w i answer later :
    calls w !! i = Some Missed -> (clock w <= later)%Z ->
    step w {| store := (rebuild (store w) (clock w) later answer).2; clock := later;
              calls := <[i := Done (rebuild (store w) (clock w) later answer).1]> (calls w);
              rebuilds :=
                match fresh (store w) (clock w), answer with
                | false, Listed _ => later :: rebuilds w
                | _, _ => rebuilds w
                end |}.

Inductive reachable (w0 : world) : world -> Prop :=
| reach_refl : reachable w0 w0
| reach_step w w' : reachable w0 w -> step w w' -> reachable w0 w'.

(** The process at its start: no map, and no call. *)
Definition initial (now : Z) : world :=
  {| store := {| cached := None; refreshedAt := 0 |}; clock := now; calls := []; rebuilds := [] |}.

(** Any two consecutive times of a list, latest first, lie [TTL] apart. *)
Fixpoint spaced (l : list Z) : Prop :=
  match l with
  | t :: (t' :: _) as rest => (t' + TTL <= t)%Z /\ spaced rest
  | _ => True
  end.

(** What every reachable world satisfies. *)
Definition wf (w : world) : Prop :=
  (TTL <= int64_max)%Z /\
  spaced (rebuilds w) /\
  (refreshedAt (store w) <= clock w)%Z /\
  match rebuilds w with
  | [] => cached (store w) = None
  | t :: _ => refreshedAt (store w) = t /\ is_Some (cached (store w))
  end.

Lemma not_fresh_age (c : cache) (now : Z) :
  (TTL <= int64_max)%Z -> (refreshedAt c <= now)%Z -> fresh c now = false -> is_Some (cached c) ->
  (refreshedAt c + TTL <= now)%Z.
Proof.
  intros HT Hn Hf [v Hv]. unfold fresh in Hf. rewrite Hv, andb_true_r in Hf.
  unfold sat64, int64_min, int64_max in *. lia.
Qed.

Lemma wf_step (w w' : world) : wf w -> step w w' -> wf w'.
Proof.
  intros (HT & Hs & Hr & Hc) Hstep. destruct Hstep as [w t Ht|w|w i Hi Hf|w i Hi Hf|w i answer later Hi Hl];
    unfold wf; cbn; try (split; [done|]; split; [done|]; split; [lia|done]).
  unfold rebuild. destruct (fresh (store w) (clock w)) eqn:Ef; cbn.
  { split; [done|]. split; [done|]. split; [lia|done]. }
  destruct answer as [| |v]; cbn; try (split; [done|]; split; [done|]; split; [lia|done]).
  split; [done|]. split; [|split; [lia|by split; [|eexists]]].
  destruct (rebuilds w) as [|t ts]; [done|]. destruct Hc as [<- Hsome]. split; [|exact Hs].
  pose proof (not_fresh_age _ _ HT Hr Ef Hsome). lia.
Qed.

Lemma wf_reachable (now : Z) (w : world) :
  (TTL <= int64_max)%Z -> (0 <= now)%Z -> reachable (initial now) w -> wf w.
Proof.
  intros HT H0 Hr. induction Hr as [|w w' _ IH Hs]; [|by eapply wf_step].
  repeat split; cbn; done.
Qed.

(** However many requests arrive and however their locked sections
    interleave, the maps are rebuilt from the informer at most once per time
    to live: any two consecutive rebuilds lie at least [TTL] apart. And a
    request that is answered without a rebuild gets the map of the latest
    rebuild, which is younger than [TTL]. *)
Theorem rebuilds_spaced (now : Z) (w : world) :
  (TTL <= int64_max)%Z -> (0 <= now)%Z -> reachable (initial now) w ->
  spaced (rebuilds w) /\
  forall i, calls w !! i = Some Start -> fresh (store w) (clock w) = true ->
    exists t ts v, rebuilds w = t :: ts /\ cached (store w) = Some v /\ refreshedAt (store w) = t /\
      (clock w < t + TTL)%Z.
Proof.
  intros HT H0 Hr. pose proof (wf_reachable now w HT H0 Hr) as (_ & Hs & Hle & Hc).
  split; [done|]. intros i _ Hf. unfold fresh in Hf. apply andb_true_iff in Hf as [Ha Hb].
  destruct (rebuilds w) as [|t ts]; [by rewrite Hc in Hb|]. destruct Hc as [Ht [v Hv]].
  exists t, ts, v. repeat split; try done. rewrite <- Ht.
  unfold sat64, int64_min, int64_max in *. lia.
Qed.

(** One call alone: within the time to live it answers with the stored map
    and touches nothing; otherwise a listing is stored with the time and
    returned, and without one (no informer yet, or an error) the answer is the
    empty map and the stored map stays for the next call. *)
Theorem get_correct (c : cache) (now now' later : Z) (answer : listing) :
  (now <= now')%Z ->
  match fresh c now, answer with
  | true, _ => get c now now' later answer = (cached c, c)
  | false, Listed v =>
      get c now now' later answer = (Some v, {| cached := Some v; refreshedAt := later |})
  | false, _ => get c now now' later answer = (None, c)
  end.
Proof.
  intros Hle. unfold get, rebuild. destruct (fresh c now) eqn:E; [done|].
  assert (fresh c now' = false) as E'; [|rewrite E'; by destruct answer].
  unfold fresh in *. destruct (cached c); [|apply andb_false_r]. rewrite andb_true_r in *.
  unfold sat64, int64_min, int64_max in *. lia.
Qed.
End TtlCache.

(** Two requests that miss together: the second finds the first one's map. *)
Example rebuilds_spaced_witness :
  spaced 30 (rebuilds {| store := {| cached := Some 7%nat; refreshedAt := 105 |}; clock := 105;
                         calls := [Done (Some 7%nat); Done (Some 7%nat)]; rebuilds := [105%Z] |}).
Proof.
  refine (proj1 (rebuilds_spaced 30 100 _ _ _ _)); [by vm_compute|by vm_compute|].
  eapply reach_step; [eapply reach_step; [eapply reach_step; [eapply reach_step; [eapply reach_step;
    [eapply reach_step; [apply reach_refl|]|]|]|]|]|].
  - apply (step_arrive 30 (initial 100)).
  - apply step_arrive.
  - by apply (step_miss 30 _ 0).
  - by apply (step_miss 30 _ 1).
  - by apply (step_rebuild 30 _ 0 (Listed 7%nat) 105).
  - exact (step_rebuild 30 {| store := {| cached := Some 7%nat; refreshedAt := 105 |}; clock := 105;
      calls := [Done (Some 7%nat); Missed]; rebuilds := [105%Z] |} 1 NoReader 105 eq_refl (Z.le_refl _)).
Defined.

Example get_correct_witness :
  get 30 {| cached := Some 7%nat; refreshedAt := 100 |} 120 121 125 (Listed 8%nat) =
  (Some 7%nat, {| cached := Some 7%nat; refreshedAt := 100 |}).
Proof. refine (get_correct 30 {| cached := Some 7%nat; refreshedAt := 100 |} 120 121 125 (Listed 8%nat) _). lia. Defined.
