(* ===== verification/Scheduler.v ===== *)
(** * The scheduler extender: cmd/scheduler/main.go

    Filter and prioritize over the cached twin and hardware maps. A request is
    decoded JSON ([json] of Powerest); the HTTP layer, metrics and log lines
    are left out. A Go map is a [gmap]; a float sum over a map runs over the
    list of its values in the order of this run. [now] is the clock of the
    request and [parseTime] is [time.Parse(time.RFC3339, .)] in nanoseconds
    since the zero time, at which [IsZero] holds. *)

From S2P Require Import Prelude GoString GoFloat FloatFacts Json Api Crd Resources Powerest TtlCache.

#[local] Open Scope string_scope.

(** ** Types *)

(** src/cmd/scheduler/main.go:136-148 [nodeHWInfo] *)
Record nodeHWInfo := {
  hi_GPUPresent : bool;
  hi_GPUCount : Z;
  hi_CPUTotalCores : Z;
  hi_CPUSockets : Z;
  hi_CPUMaxWattsTotal : float64;
  hi_GPUMaxWattsPerGPU : float64;
  hi_CPUModel : string;
  hi_GPUModel : string;
  hi_GPUVendor : string;
  hi_MemoryBytes : Z
}.

(** The twin status fields the extender reads.
    src/pkg/api/types.go:200-222 [NodeTwinStatus] *)
Record NodeTwinStatus := {
  nts_SchedulableClass : string;
  nts_PowerMeasurement : option PowerMeasurement;
  nts_PowerHeadroomScore : float64;
  nts_CoolingStressScore : float64;
  nts_PsuStressScore : float64;
  nts_EffectiveCapState : CapState;
  nts_EstimatedPUE : float64;
  nts_LastUpdated : Z
}.

(** src/cmd/scheduler/main.go:162-171 [NodeItem, NodeMeta] *)
Record NodeItem := { ni_Name : string; ni_Labels : option (gmap string string) }.

(** src/cmd/scheduler/main.go:150-155 [ExtenderArgs] *)
Record ExtenderArgs := {
  ea_Pod : json;
  ea_Nodes : option (list NodeItem);
  ea_NodeNames : option (list string)
}.

(** src/cmd/scheduler/main.go:177-183 [ExtenderFilterResult] *)
Record ExtenderFilterResult := {
  fr_Nodes : option (list NodeItem);
  fr_NodeNames : option (list string);
  fr_FailedNodes : gmap string string
}.

(** src/cmd/scheduler/main.go:188-192 [HostPriority] *)
Record HostPriority := { hp_Host : string; hp_Score : Z }.

(** The process configuration read from the environment.
    src/cmd/scheduler/main.go:65-79 [twinStateCacheTTL, twinStalenessThreshold, marginalCoeff] *)
Record Config := {
  twinStateCacheTTL : Z;
  twinStalenessThreshold : Z;
  marginalCoeff : Coefficients
}.

(** ** The pod *)

(** The annotations a decoded pod has; a member that is not a string decodes
    to the empty one. *)
Definition podAnnotations (pod : json) : option (list (string * json)) :=
  m ← asObj (Some pod); md ← asObj (jget m "metadata"); asObj (jget md "annotations").

(** src/cmd/scheduler/main.go:520-529 [podWorkloadClass] *)
Definition podWorkloadClass (pod : json) : string :=
  match podAnnotations pod with
  | Some ann =>
      let v := asStr (jget ann "joulie.io/workload-class") in
      if negb (String.eqb v "") then v else "standard"
  | None => "standard"
  end.

(** ** Staleness *)

Section Staleness.
Context (cfg : Config) (now : Z).

(** src/cmd/scheduler/main.go:910-916 [isTwinStale] *)
Definition isTwinStale (ts : NodeTwinStatus) : bool :=
  if (nts_LastUpdated ts =? 0)%Z then true
  else (twinStalenessThreshold cfg <? sat64 (now - nts_LastUpdated ts))%Z.

(** src/cmd/scheduler/main.go:488-505 [shouldFilterNode] *)
Definition shouldFilterNode (nodeName : string) (states : gmap string NodeTwinStatus)
    (labels : option (gmap string string)) (isPerformance : bool) : string :=
  if negb isPerformance then ""
  else if match states !! nodeName with
          | Some state => String.eqb (nts_SchedulableClass state) "eco" ||
                          String.eqb (nts_SchedulableClass state) "draining"
          | None => false
          end then "joulie: performance pod rejected from eco/draining node"
  else if match labels with
          | Some labels => String.eqb (get_str labels "joulie.io/power-profile") "eco"
          | None => false
          end then "joulie: performance pod rejected from eco node (label fallback)"
  else "".

(** One candidate of the filter loop: passed, or failed with the reason. *)
Definition filterStep {A} (name : A -> string) (reason : A -> string)
    (acc : list A * gmap string string) (node : A) : list A * gmap string string :=
  let r := reason node in
  if negb (String.eqb r "") then (acc.1, <[name node := r]> acc.2) else (acc.1 ++ [node], acc.2)%list.

(** src/cmd/scheduler/main.go:437-486 [filterNodes] *)
Definition filterNodes (states : gmap string NodeTwinStatus) (args : ExtenderArgs) : ExtenderFilterResult :=
  let isPerformance := String.eqb (podWorkloadClass (ea_Pod args)) "performance" in
  match ea_Nodes args with
  | Some items =>
      let '(passed, failed) :=
        foldl (filterStep ni_Name (fun n => shouldFilterNode (ni_Name n) states (ni_Labels n) isPerformance))
          ([], ∅) items in
      {| fr_Nodes := Some passed; fr_NodeNames := None; fr_FailedNodes := failed |}
  | None =>
      match ea_NodeNames args with
      | Some names =>
          let '(passed, failed) :=
            foldl (filterStep id (fun n => shouldFilterNode n states None isPerformance)) ([], ∅) names in
          {| fr_Nodes := None; fr_NodeNames := Some passed; fr_FailedNodes := failed |}
      | None => {| fr_Nodes := None; fr_NodeNames := None; fr_FailedNodes := ∅ |}
      end
  end.

(** ** Scores *)

(** src/cmd/scheduler/main.go:584-586 [maxExtenderPriority] *)
Definition maxExtenderPriority : Z := 10.

(** Go's integer division truncates towards zero.
    src/cmd/scheduler/main.go:588-596 [extenderPriority] *)
Definition extenderPriority (score : Z) : Z :=
  Z.quot (wrap64 (wrap64 (score * maxExtenderPriority) + 50)) 100.

(** src/cmd/scheduler/main.go:598-616 [computeClusterTrend] *)
Definition computeClusterTrend (states : list NodeTwinStatus) : float64 :=
  let '(total, count) :=
    foldl (fun '(total, count) s =>
      if isTwinStale s then (total, count)
      else match nts_PowerMeasurement s with
           | Some pm => (fadd total (pm_PowerTrendWPerMin pm), fadd count fone)
           | None => (total, count)
           end) (fzero, fzero) states in
  if feq count fzero then fzero else total.

(** src/cmd/scheduler/main.go:618-632 [computePerfPressure] *)
Definition computePerfPressure (states : list NodeTwinStatus) : float64 :=
  let '(total, count) :=
    foldl (fun '(total, count) s =>
      if String.eqb (nts_SchedulableClass s) "performance" && negb (isTwinStale s)
      then (fadd total (fsub (fofZ 100) (nts_PowerHeadroomScore s)), fadd count fone)
      else (total, count)) (fzero, fzero) states in
  if feq count fzero then fzero else fdiv total count.

(** src/cmd/scheduler/main.go:719-733 [hwInfoToProfile] *)
Definition hwInfoToProfile (hw : nodeHWInfo) : NodePowerProfile := {|
  npp_CPUTotalCores := hi_CPUTotalCores hw;
  npp_CPUSockets := hi_CPUSockets hw;
  npp_CPUMaxWattsTotal := hi_CPUMaxWattsTotal hw;
  npp_GPUCount := hi_GPUCount hw;
  npp_GPUMaxWattsPerGPU := hi_GPUMaxWattsPerGPU hw;
  npp_HasGPU := hi_GPUPresent hw |}.

(** src/cmd/scheduler/main.go:681-691 [trendBonus] *)
Definition trendBonus (powerTrendWPerMin clusterTrend : float64) : float64 :=
  if negb (feq powerTrendWPerMin fzero) then
    let trendScale := if flt (fofZ 500) (fabs clusterTrend) then fofZ 2 else fofZ 6 in
    fneg (fmax (fofZ (-25)) (fmin (fofZ 25) (fdiv powerTrendWPerMin trendScale)))
  else fzero.

(** src/cmd/scheduler/main.go:657-666 [podMarginalW] *)
Definition podMarginal (nodeName : string) (hwInfo : gmap string nodeHWInfo) (podDemand : option PodDemand)
    : float64 :=
  match podDemand, hwInfo !! nodeName with
  | Some d, Some hw => DeltaTotalWatts (EstimateMarginalImpact d (Some (hwInfoToProfile hw)) (marginalCoeff cfg))
  | _, _ => fzero
  end.

(** src/cmd/scheduler/main.go:668-676 [headroomScore] *)
Definition headroomScore (state : NodeTwinStatus) (podMarginalW : float64) : float64 :=
  let measuredPowerW := match nts_PowerMeasurement state with Some pm => pm_MeasuredNodePowerW pm | None => fzero end in
  let cappedPowerW := match nts_PowerMeasurement state with Some pm => pm_NodeCappedPowerW pm | None => fzero end in
  if flt fzero cappedPowerW then
    let projectedPower := fadd measuredPowerW podMarginalW in
    fmin (fofZ 100) (fmul (fdiv (fsub cappedPowerW projectedPower) cappedPowerW) (fofZ 100))
  else nts_PowerHeadroomScore state.

(** The score before it is clamped.
    src/cmd/scheduler/main.go:693-704 [score] *)
Definition rawScore (state : NodeTwinStatus) (wpClass : string) (headroom trend perfPressure : float64) : float64 :=
  let score :=
    fadd (fadd (fmul headroom (flit 7 10)) (fmul (fsub (fofZ 100) (nts_CoolingStressScore state)) (flit 15 100))) trend in
  let score :=
    if String.eqb wpClass "standard" && String.eqb (nts_SchedulableClass state) "eco"
    then fadd score (fofZ 10) else score in
  if String.eqb wpClass "standard" && String.eqb (nts_SchedulableClass state) "performance"
  then fsub score (fmul perfPressure (flit 3 10)) else score.

(** src/cmd/scheduler/main.go:706-711 [score] *)
Definition clampScore (score : float64) : float64 :=
  let score := if flt score fzero then fzero else score in
  if flt (fofZ 100) score then fofZ 100 else score.

(** src/cmd/scheduler/main.go:634-717 [scoreNode] *)
Definition scoreNode (nodeName : string) (states : gmap string NodeTwinStatus) (hwInfo : gmap string nodeHWInfo)
    (wpClass : string) (perfPressure clusterTrend : float64) (podDemand : option PodDemand) : Z :=
  match states !! nodeName with
  | None => 50
  | Some state =>
      if isTwinStale state then 50
      else
        let powerTrendWPerMin :=
          match nts_PowerMeasurement state with Some pm => pm_PowerTrendWPerMin pm | None => fzero end in
        let headroom := headroomScore state (podMarginal nodeName hwInfo podDemand) in
        let score := rawScore state wpClass headroom (trendBonus powerTrendWPerMin clusterTrend) perfPressure in
        int_of_float (clampScore score)
  end.

(** The values of the twin map in the orders of its two [range] loops.
    src/cmd/scheduler/main.go:531-582 [prioritizeNodes] *)
Definition prioritizeNodes (states : gmap string NodeTwinStatus) (hwInfo : gmap string nodeHWInfo)
    (pressureOrder trendOrder : list NodeTwinStatus) (args : ExtenderArgs) : list HostPriority :=
  let wpClass := podWorkloadClass (ea_Pod args) in
  let podDemand :=
    match asObj (Some (ea_Pod args)) with
    | Some podRaw => Some (ExtractPodDemand podRaw wpClass)
    | None => None
    end in
  let perfPressure := computePerfPressure pressureOrder in
  let clusterTrend := computeClusterTrend trendOrder in
  let score name := {| hp_Host := name;
                       hp_Score := extenderPriority (scoreNode name states hwInfo wpClass perfPressure clusterTrend podDemand) |} in
  match ea_Nodes args with
  | Some items => (fun n => score (ni_Name n)) <$> items
  | None => match ea_NodeNames args with Some names => score <$> names | None => [] end
  end.
End Staleness.

(** ** The maps *)

Section Maps.
Context (parseTime : string -> option Z).

(** src/cmd/scheduler/main.go:780-817 [twinStatusFromObject] *)
Definition twinStatusFromObject (nt : CrdNodeTwin) : string * NodeTwinStatus :=
  (cnt_NodeName nt,
   {| nts_SchedulableClass := cnt_SchedulableClass nt;
      nts_PowerMeasurement := cnt_PowerMeasurement nt;
      nts_PowerHeadroomScore := cnt_PowerHeadroomScore nt;
      nts_CoolingStressScore := cnt_CoolingStressScore nt;
      nts_PsuStressScore := cnt_PsuStressScore nt;
      nts_EffectiveCapState :=
        match cnt_EffectiveCapState nt with Some cs => cs | None => {| CPUPct := fzero; GPUPct := fzero |} end;
      nts_EstimatedPUE := cnt_EstimatedPUE nt;
      nts_LastUpdated :=
        if negb (String.eqb (cnt_LastUpdated nt) "")
        then match parseTime (cnt_LastUpdated nt) with Some t => t | None => 0%Z end else 0%Z |}).

(** src/cmd/scheduler/main.go:863-908 [hwInfoFromObject] *)
Definition hwInfoFromObject (nh : CrdNodeHardware) : string * nodeHWInfo :=
  let cpuMax :=
    match cnh_CPU nh with
    | Some cpu =>
        match cc_CapRange cpu with
        | Some cr =>
            let sockets := if (cc_Sockets cpu <=? 0)%Z then 1%Z else cc_Sockets cpu in
            fmul (ccr_MaxWattsPerSocket cr) (fofZ sockets)
        | None => fzero
        end
    | None => fzero
    end in
  let gpuMax :=
    match cnh_GPU nh with
    | Some gpu =>
        match cgp_CapRangePerGPU gpu with
        | Some cr =>
            let d := GPUPowerDomains (cgp_Count gpu) (cgp_PowerDomains gpu) in
            if (d <? cgp_Count gpu)%Z
            then fdiv (fmul (gcr_MaxWatts cr) (fofZ d)) (fofZ (cgp_Count gpu))
            else gcr_MaxWatts cr
        | None => fzero
        end
    | None => fzero
    end in
  (cnh_NodeName nh,
   {| hi_GPUPresent :=
        match cnh_GPU nh with Some gpu => cgp_Present gpu || (0 <? cgp_Count gpu)%Z | None => false end;
      hi_GPUCount := match cnh_GPU nh with Some gpu => cgp_Count gpu | None => 0%Z end;
      hi_CPUTotalCores := match cnh_CPU nh with Some cpu => cc_TotalCores cpu | None => 0%Z end;
      hi_CPUSockets := match cnh_CPU nh with Some cpu => cc_Sockets cpu | None => 0%Z end;
      hi_CPUMaxWattsTotal := cpuMax;
      hi_GPUMaxWattsPerGPU := gpuMax;
      hi_CPUModel := match cnh_CPU nh with Some cpu => cc_Model cpu | None => "" end;
      hi_GPUModel := match cnh_GPU nh with Some gpu => cgp_Model gpu | None => "" end;
      hi_GPUVendor := match cnh_GPU nh with Some gpu => cgp_Vendor gpu | None => "" end;
      hi_MemoryBytes := default 0%Z (cnh_MemoryTotalBytes nh) |}).

(** The map a listing is turned into: objects without a node name are
    skipped, and a later object of a node replaces an earlier one. *)
Definition mapFromObjects {A B} (from : A -> string * B) (items : list A) : gmap string B :=
  foldl (fun m a => let '(name, b) := from a in if String.eqb name "" then m else <[name := b]> m) ∅ items.

(** src/cmd/scheduler/main.go:735-778 [getNodeTwinStates] *)
Definition getNodeTwinStates (cfg : Config) (c : cache) (now now' later : Z) (answer : listing)
    : gmap string NodeTwinStatus * cache :=
  let answer' := match answer with
                 | NoReader => NoReader
                 | ListError => ListError
                 | Listed items => Listed (mapFromObjects twinStatusFromObject items)
                 end in
  let '(r, c') := TtlCache.get (twinStateCacheTTL cfg) c now now' later answer' in
  (default ∅ r, c').

(** src/cmd/scheduler/main.go:819-861 [getNodeHardwareInfo] *)
Definition getNodeHardwareInfo (cfg : Config) (c : cache) (now now' later : Z) (answer : listing)
    : gmap string nodeHWInfo * cache :=
  let answer' := match answer with
                 | NoReader => NoReader
                 | ListError => ListError
                 | Listed items => Listed (mapFromObjects hwInfoFromObject items)
                 end in
  let '(r, c') := TtlCache.get (twinStateCacheTTL cfg) c now now' later answer' in
  (default ∅ r, c').
End Maps.

(** ** The filter *)

#[local] Open Scope list_scope.

Lemma filterStep_fold {A} (name reason : A -> string) (l : list A) (passed : list A) (failed : gmap string string) :
  let r := foldl (filterStep name reason) (passed, failed) l in
  r.1 = passed ++ base.filter (fun n => reason n = "") l /\
  (forall k, is_Some (r.2 !! k) <-> is_Some (failed !! k) \/ exists n, n ∈ l /\ name n = k /\ reason n <> "").
Proof.
  cbv zeta. revert passed failed. induction l as [|n l IH]; intros passed failed; cbn [foldl].
  - rewrite app_nil_r. split; [done|]. intros k. split; [by left|]. intros [|(n & ?%not_elem_of_nil & _)]; done.
  - unfold filterStep at 2 4. rewrite filter_cons. cbn [fst snd].
    destruct (String.eqb_spec (reason n) "") as [Hr|Hr]; cbn [negb].
    + destruct (IH (passed ++ [n])%list failed) as [-> H2]. rewrite decide_True, <- app_assoc by done.
      split; [done|]. intros k. rewrite H2. apply or_iff_compat_l. split.
      * intros (m & Hm & Hk). exists m. split; [by right|done].
      * intros (m & [->|Hm]%elem_of_cons & Hk); [by destruct Hk|]. by exists m.
    + destruct (IH passed (<[name n := reason n]> failed)) as [-> H2]. rewrite decide_False by done.
      split; [done|]. intros k. rewrite H2. split.
      * intros [[r Hk]|(m & Hm & Hk)]; [|right; exists m; split; [by right|done]].
        apply lookup_insert_Some in Hk as [[<- <-]|[_ Hk]]; [|left; by exists r].
        right. exists n. split; [by left|done].
      * intros [[r Hk]|(m & [->|Hm]%elem_of_cons & Hk & Hne)]; [| |right; by exists m].
        -- left. destruct (decide (name n = k)) as [->|]; [by rewrite lookup_insert_eq; eexists|].
           rewrite lookup_insert_ne by done. by exists r.
        -- left. rewrite <- Hk, lookup_insert_eq. by eexists.
Qed.

(** The candidates a performance pod may not run on. *)
Definition rejected (states : gmap string NodeTwinStatus) (n : NodeItem) : Prop :=
  (exists s, states !! ni_Name n = Some s /\
     (nts_SchedulableClass s = "eco" \/ nts_SchedulableClass s = "draining")) \/
  (exists l, ni_Labels n = Some l /\ get_str l "joulie.io/power-profile" = "eco").

#[export] Instance rejected_dec (states : gmap string NodeTwinStatus) (n : NodeItem) : Decision (rejected states n).
Proof.
  unfold rejected. apply or_dec.
  - destruct (states !! ni_Name n) as [s|]; [|right; by intros (? & ? & _)].
    destruct (decide (nts_SchedulableClass s = "eco" \/ nts_SchedulableClass s = "draining")) as [H|H].
    + left. by exists s.
    + right. by intros (? & [= <-] & ?).
  - destruct (ni_Labels n) as [l|]; [|right; by intros (? & ? & _)].
    destruct (decide (get_str l "joulie.io/power-profile" = "eco")) as [H|H].
    + left. by exists l.
    + right. by intros (? & [= <-] & ?).
Defined.

Lemma shouldFilterNode_spec (states : gmap string NodeTwinStatus) (n : NodeItem) (perf : bool) :
  shouldFilterNode (ni_Name n) states (ni_Labels n) perf = "" <-> perf = false \/ ~ rejected states n.
Proof.
  unfold shouldFilterNode, rejected. destruct perf; cbn [negb]; [|split; [by left|done]].
  destruct (states !! ni_Name n) as [s|] eqn:Es.
  - destruct (String.eqb_spec (nts_SchedulableClass s) "eco") as [H1|H1];
      destruct (String.eqb_spec (nts_SchedulableClass s) "draining") as [H2|H2]; cbn [orb].
    1-3: split; [done|]; intros [|H]; [done|]; exfalso; apply H; left; exists s; auto.
    destruct (ni_Labels n) as [l|]; [destruct (String.eqb_spec (get_str l "joulie.io/power-profile") "eco") as [H3|H3]|].
    + split; [done|]. intros [|H]; [done|]. exfalso. apply H. right. by exists l.
    + split; [intros _|done]. right. intros [(s' & [= <-] & [|])|(l' & [= <-] & ?)]; done.
    + split; [intros _|done]. right. intros [(s' & [= <-] & [|])|(l' & ? & ?)]; done.
  - destruct (ni_Labels n) as [l|]; [destruct (String.eqb_spec (get_str l "joulie.io/power-profile") "eco") as [H3|H3]|].
    + split; [done|]. intros [|H]; [done|]. exfalso. apply H. right. by exists l.
    + split; [intros _|done]. right. intros [(s' & ? & [|])|(l' & [= <-] & ?)]; done.
    + split; [intros _|done]. right. intros [(s' & ? & [|])|(l' & ? & ?)]; done.
Qed.

(** C29. The filter over a node list. A pod that is not a performance pod
    passes every candidate; for a performance pod exactly those candidates
    fail whose twin says eco or draining or whose label says eco, whether or
    not the twin is stale; the others pass in the order they came, and the
    failed map names the failed candidates and no other. *)
Theorem filterNodes_correct (states : gmap string NodeTwinStatus) (args : ExtenderArgs) (items : list NodeItem) :
  ea_Nodes args = Some items ->
  let perf := String.eqb (podWorkloadClass (ea_Pod args)) "performance" in
  let r := filterNodes states args in
  exists passed, fr_Nodes r = Some passed /\ sublist passed items /\
    (forall n, n ∈ passed <-> n ∈ items /\ (perf = false \/ ~ rejected states n)) /\
    (forall k, is_Some (fr_FailedNodes r !! k) <->
       perf = true /\ exists n, n ∈ items /\ ni_Name n = k /\ rejected states n).
Proof.
  intros Hn. cbv zeta. unfold filterNodes. rewrite Hn.
  set (perf := String.eqb (podWorkloadClass (ea_Pod args)) "performance").
  set (reason := fun n => shouldFilterNode (ni_Name n) states (ni_Labels n) perf).
  destruct (filterStep_fold ni_Name reason items [] ∅) as [H1 H2]. cbv zeta in *.
  destruct (foldl _ _ items) as [passed failed]. cbn [fst snd fr_Nodes fr_FailedNodes app] in *. subst passed.
  eexists. split; [done|]. split; [apply sublist_filter|]. split.
  - intros n. rewrite list_elem_of_filter. unfold reason. rewrite shouldFilterNode_spec. tauto.
  - intros k. rewrite H2, lookup_empty. split.
    + intros [[? ?]|(n & Hin & Hk & Hr)]; [done|]. unfold reason in Hr. rewrite shouldFilterNode_spec in Hr.
      assert (perf = true) as Hp by (destruct perf; [done|]; exfalso; apply Hr; by left).
      split; [done|]. exists n. split; [done|]. split; [done|]. apply dec_stable. intros H. apply Hr. by right.
    + intros [Hp (n & Hin & Hk & Hr)]. right. exists n. split; [done|]. split; [done|].
      unfold reason. rewrite shouldFilterNode_spec. intros [|H]; [congruence|done].
Qed.

Definition sampleState (class : string) (headroom : Z) (updated : Z) : NodeTwinStatus := {|
  nts_SchedulableClass := class;
  nts_PowerMeasurement := Some {|
    pm_Source := "static"; pm_MeasuredNodePowerW := fofZ 300; pm_CpuCappedPowerW := fofZ 400;
    pm_GpuCappedPowerW := fzero; pm_NodeCappedPowerW := fofZ 400; pm_CpuTdpW := fofZ 700; pm_GpuTdpW := fzero;
    pm_NodeTdpW := fofZ 700; pm_PowerTrendWPerMin := fofZ 100 |};
  nts_PowerHeadroomScore := fofZ headroom; nts_CoolingStressScore := fofZ 40; nts_PsuStressScore := fzero;
  nts_EffectiveCapState := {| CPUPct := fofZ 60; GPUPct := fofZ 100 |};
  nts_EstimatedPUE := fone; nts_LastUpdated := updated |}.

Definition sampleStates : gmap string NodeTwinStatus :=
  {["n1" := sampleState "eco" 50 1000; "n2" := sampleState "performance" 25 1000]}.

Definition samplePerfPod : json :=
  JObj [("metadata", JObj [("annotations", JObj [("joulie.io/workload-class", JStr "performance")])]);
        ("spec", JObj [("containers", JArr [])])].

Definition sampleArgs : ExtenderArgs := {|
  ea_Pod := samplePerfPod;
  ea_Nodes := Some [{| ni_Name := "n1"; ni_Labels := None |}; {| ni_Name := "n2"; ni_Labels := Some ∅ |};
                    {| ni_Name := "n3"; ni_Labels := Some {["joulie.io/power-profile" := "eco"]} |}];
  ea_NodeNames := None |}.

Example filterNodes_correct_witness :
  is_Some (fr_FailedNodes (filterNodes sampleStates sampleArgs) !! "n3").
Proof.
  destruct (filterNodes_correct sampleStates sampleArgs _ eq_refl) as (passed & _ & _ & _ & H).
  apply H. split; [by vm_compute|]. exists {| ni_Name := "n3"; ni_Labels := Some {["joulie.io/power-profile" := "eco"]} |}.
  split; [do 2 right; left|]. split; [done|]. right. eexists. split; [done|]. by vm_compute.
Defined.

(** ** The score *)

(** The extender's scale: a node score from 0 to 100 becomes the nearest
    priority from 0 to 10, and a better score never gets a worse priority. *)
Theorem extenderPriority_correct (s s' : Z) :
  (0 <= s)%Z -> (s <= s')%Z -> (s' <= 100)%Z ->
  (0 <= extenderPriority s <= maxExtenderPriority)%Z /\
  (Z.abs (10 * extenderPriority s - s) <= 5)%Z /\
  (extenderPriority s <= extenderPriority s')%Z.
Proof.
  intros H0 Hle H1.
  assert (forall z, 0 <= z <= 100 -> extenderPriority z = (z * 10 + 50) / 100)%Z as He.
  { intros z Hz. unfold extenderPriority, maxExtenderPriority.
    rewrite (wrap64_id (z * 10)), wrap64_id by (unfold in_int64, int64_min, int64_max; lia).
    apply Z.quot_div_nonneg; lia. }
  unfold maxExtenderPriority. rewrite (He s), (He s') by lia.
  pose proof (Z.div_mod (s * 10 + 50) 100 ltac:(lia)). pose proof (Z.mod_pos_bound (s * 10 + 50) 100 ltac:(lia)).
  split; [lia|].
  split; [lia|apply Z.div_le_mono; lia].
Qed.

Example extenderPriority_correct_witness : (extenderPriority 44 <= extenderPriority 45)%Z /\ extenderPriority 45 = 5%Z.
Proof. split; [apply extenderPriority_correct; lia|by vm_compute]. Defined.

(** A twin status as the controller manager publishes it: the scores in their
    ranges, the readings finite. *)
Record published (s : NodeTwinStatus) : Prop := {
  pb_headroom : at_most 100 (nts_PowerHeadroomScore s);
  pb_cooling : nonneg (nts_CoolingStressScore s) /\ fle (nts_CoolingStressScore s) (fofZ 100) = true;
  pb_power pm : nts_PowerMeasurement s = Some pm ->
    nonneg (pm_MeasuredNodePowerW pm) /\ real (pm_NodeCappedPowerW pm) /\ real (pm_PowerTrendWPerMin pm)
}.

Lemma trendBonus_bounds (trend cluster : float64) :
  real trend ->
  real (trendBonus trend cluster) /\ fle (fofZ (-25)) (trendBonus trend cluster) = true /\
  at_most 25 (trendBonus trend cluster).
Proof.
  intros [V F]. unfold trendBonus, at_most. destruct (negb (feq trend fzero)); [|by repeat split].
  set (sc := if flt _ _ then fofZ 2 else fofZ 6).
  assert (is_finite sc = true /\ feq sc fzero = false /\ valid sc) as (Fs & Zs & Vs) by (unfold sc; by destruct (flt _ _)).
  assert (is_nan (fdiv trend sc) = false) as Hn by (apply fdiv_not_nan; [by destruct trend|done|done]).
  assert (valid (fdiv trend sc)) as Vd by by apply fdiv_valid.
  set (v := fmax (fofZ (-25)) (fmin (fofZ 25) (fdiv trend sc))).
  assert (valid v) as Vv by (apply fmax_valid; [done|]; by apply fmin_valid).
  assert (fle (fofZ (-25)) v = true) as Hlo by (apply fmax_ge_l; [done|]; by apply fmin_not_nan).
  assert (fle v (fofZ 25) = true) as Hhi by (apply fmax_lub; [done|]; by apply fmin_le_l).
  assert (is_finite v = true) as Fv by by apply (finite_between v (fofZ (-25)) (fofZ 25)).
  assert (valid (fneg v) /\ is_finite (fneg v) = true) as [Vn Fn] by (by destruct v).
  split; [done|]. change (fofZ (-25)) with (fneg (fofZ 25)) in *.
  pose proof fneg_le as Hneg.
  split; [apply Hneg; [by destruct v|done|done]|]. split; [done|].
  change (fofZ 25) with (fneg (fneg (fofZ 25))). apply Hneg; [done|by destruct v|done].
Qed.

Lemma cooling_term (c : float64) :
  nonneg c -> fle c (fofZ 100) = true -> at_most 16 (fmul (fsub (fofZ 100) c) (flit 15 100)).
Proof.
  intros Nc Hc. assert (nonneg (fofZ 100)) as N100 by by repeat split.
  apply (fmul_at_most 100 16); [by unfold exact_int|by unfold exact_int| |by repeat split|done|].
  - split; [apply fsub_valid; [done|apply Nc]|]. apply fsub_le_l; [by repeat split|done|done].
  - apply Z.leb_le. by vm_compute.
Qed.

Lemma headroomScore_at_most (state : NodeTwinStatus) (w : float64) :
  published state -> valid w -> fle fzero w = true -> at_most 100 (headroomScore state w).
Proof.
  intros Hs Vw Hw. unfold headroomScore. destruct (nts_PowerMeasurement state) as [pm|] eqn:Epm; [|apply Hs].
  destruct (pb_power _ Hs pm Epm) as (Nm & [Vc Fc] & _).
  destruct (flt fzero (pm_NodeCappedPowerW pm)) eqn:Ec; [|apply Hs].
  assert (is_nan w = false) as Wn by by destruct w.
  assert (is_nan (fadd (pm_MeasuredNodePowerW pm) w) = false) as Hp.
  { apply fadd_not_nan; [by apply real_not_nan, nonneg_real|done|]. destruct Nm as (_ & -> & _). done. }
  assert (is_nan (fsub (pm_NodeCappedPowerW pm) (fadd (pm_MeasuredNodePowerW pm) w)) = false) as Hd.
  { apply fsub_not_nan; [by destruct (pm_NodeCappedPowerW pm)|done|by rewrite Fc]. }
  assert (is_nan (fmul (fdiv (fsub (pm_NodeCappedPowerW pm) (fadd (pm_MeasuredNodePowerW pm) w))
    (pm_NodeCappedPowerW pm)) (fofZ 100)) = false) as Hx.
  { apply fmul_not_nan; [|done|done]. apply fdiv_not_nan; [done|done|forder]. }
  split; [|by apply fmin_le_l]. apply fmin_valid; [done|]. apply fmul_valid; [|done].
  apply fdiv_valid; [|done]. apply fsub_valid; [done|]. apply fadd_valid; [apply Nm|done].
Qed.

Lemma clampScore_range (x : float64) :
  valid x -> is_nan x = false -> (0 <= int_of_float (clampScore x) <= 100)%Z.
Proof.
  intros Vx Hx. unfold clampScore.
  assert (exact_int 100) as E by by unfold exact_int.
  set (y := if flt x fzero then fzero else x).
  assert (valid y /\ fle fzero y = true) as [Vy Py].
  { unfold y. destruct (flt x fzero) eqn:El; [done|]. split; [done|]. by apply flt_not_fle. }
  destruct (flt (fofZ 100) y) eqn:Eh; [by rewrite int_of_float_int|].
  assert (fle y (fofZ 100) = true) as Hy by (apply flt_not_fle; [done|forder|done]).
  apply int_of_float_spec; [|done|done]. split; [done|]. split; [|done].
  by apply (finite_between y fzero (fofZ 100)).
Qed.

(** The loop of [computePerfPressure]: a non-negative total and a count that
    is an exact integer. *)
Lemma pressure_fold (cfg : Config) (now : Z) (l : list NodeTwinStatus) (total : float64) (k : Z) :
  (forall s, s ∈ l -> published s) -> valid total -> fle fzero total = true ->
  (0 <= k)%Z -> (k + Z.of_nat (length l) < 2 ^ 53)%Z ->
  exists total' k',
    foldl (fun '(total, count) s =>
      if String.eqb (nts_SchedulableClass s) "performance" && negb (isTwinStale cfg now s)
      then (fadd total (fsub (fofZ 100) (nts_PowerHeadroomScore s)), fadd count fone)
      else (total, count)) (total, fofZ k) l = (total', fofZ k') /\
    valid total' /\ fle fzero total' = true /\ (0 <= k' < 2 ^ 53)%Z.
Proof.
  revert total k. induction l as [|s l IH]; intros total k Hl Vt Ht Hk Hlen; cbn [foldl length] in *.
  - exists total, k. split; [done|]. split; [done|]. split; [done|lia].
  - assert (forall s, s ∈ l -> published s) as Hl' by (intros; apply Hl; by right).
    destruct (String.eqb (nts_SchedulableClass s) "performance" && negb (isTwinStale cfg now s)).
    + change fone with (fofZ 1). rewrite fadd_int by (unfold exact_int; lia).
      assert (exact_int 100) as E100 by by unfold exact_int.
      destruct (Hl s ltac:(left)) as [Hh _ _].
      apply IH; [done| | |lia|lia].
      * apply fadd_valid; [done|]. apply fsub_valid; [done|apply Hh].
      * apply fadd_nonneg; [done|]. destruct (at_most_cases 100 _ E100 Hh) as [->|[V F]]; [done|].
        apply fsub_nonneg; [done|done|done|done|apply Hh].
    + apply IH; [done|done|done|lia|lia].
Qed.

Lemma computePerfPressure_nonneg (cfg : Config) (now : Z) (l : list NodeTwinStatus) :
  (forall s, s ∈ l -> published s) -> (Z.of_nat (length l) < 2 ^ 53)%Z ->
  valid (computePerfPressure cfg now l) /\ fle fzero (computePerfPressure cfg now l) = true.
Proof.
  intros Hl Hn. unfold computePerfPressure.
  destruct (pressure_fold cfg now l fzero 0 Hl) as (total & k & He & Vt & Ht & Hk); [done|done|lia|lia|].
  change (fzero, fofZ 0) with (fzero, fzero) in He. rewrite He.
  destruct (feq (fofZ k) fzero) eqn:E; [done|].
  destruct (fofZ_sval k Hk) as [Nk _]. split; [apply fdiv_valid; [done|apply Nk]|].
  apply fdiv_nonneg_inf; [done| |apply Nk].
  destruct Nk as (_ & F & P). by destruct (fofZ k) as [|[]| |[]].
Qed.

(** The combined score never becomes a NaN. *)
Lemma rawScore_number (state : NodeTwinStatus) (wpClass : string) (headroom trend pressure : float64) :
  published state -> at_most 100 headroom -> real trend -> at_most 25 trend ->
  valid pressure -> fle fzero pressure = true ->
  valid (rawScore state wpClass headroom trend pressure) /\
  is_nan (rawScore state wpClass headroom trend pressure) = false.
Proof.
  intros Hs Hh Rt Ht Vp Pp. unfold rawScore.
  assert (at_most 71 (fmul headroom (flit 7 10))) as H1.
  { apply (fmul_at_most 100 71); [by unfold exact_int|by unfold exact_int|done|by repeat split|done|].
    apply Z.leb_le. by vm_compute. }
  destruct (pb_cooling _ Hs) as [Nc Hc]. pose proof (cooling_term _ Nc Hc) as H2.
  pose proof (fadd_at_most 71 16 _ _ ltac:(by unfold exact_int) ltac:(by unfold exact_int) ltac:(by unfold exact_int) H1 H2) as H3.
  pose proof (fadd_at_most 87 25 _ _ ltac:(by unfold exact_int) ltac:(by unfold exact_int) ltac:(by unfold exact_int) H3 Ht) as H4.
  set (s1 := fadd (fadd _ _) trend) in *.
  assert (at_most 122 (if String.eqb wpClass "standard" && String.eqb (nts_SchedulableClass state) "eco"
                       then fadd s1 (fofZ 10) else s1)) as H5.
  { destruct (_ && _); [|by apply (at_most_mono 112 122)].
    apply (fadd_at_most 112 10); [by unfold exact_int..|done|by split]. }
  set (s2 := if String.eqb wpClass "standard" && String.eqb _ "eco" then _ else s1) in *.
  assert (valid (fmul pressure (flit 3 10))) as Vq by by apply fmul_valid.
  destruct (_ && String.eqb _ "performance"); [|split; [apply H5|by eapply at_most_not_nan]].
  split; [apply fsub_valid; [apply H5|done]|].
  assert (fle fzero (fmul pressure (flit 3 10)) = true) as Hq by by apply fmul_nonneg.
  assert (exact_int 122) as E by by unfold exact_int.
  destruct (at_most_cases 122 s2 E H5) as [->|[_ F]].
  - by destruct (fmul pressure (flit 3 10)) as [|[]| |].
  - apply fsub_not_nan; [by destruct s2|by destruct (fmul pressure (flit 3 10))|by rewrite F].
Qed.

(** What a request's inputs satisfy: published twins, sane hardware facts and
    coefficients, a finite demand. *)
Record goodRequest (cfg : Config) (states : gmap string NodeTwinStatus) (hwInfo : gmap string nodeHWInfo)
    (podDemand : option PodDemand) : Prop := {
  gr_states n s : states !! n = Some s -> published s;
  gr_hw n hw : hwInfo !! n = Some hw -> goodProfile (hwInfoToProfile hw);
  gr_coeff : goodCoefficients (marginalCoeff cfg);
  gr_demand d : podDemand = Some d -> nonneg (CPUCores d) /\ nonneg (MemoryBytes d) /\ nonneg (GPUCount d)
}.

Lemma podMarginal_nonneg cfg states hwInfo podDemand (n : string) :
  goodRequest cfg states hwInfo podDemand ->
  valid (podMarginal cfg n hwInfo podDemand) /\ fle fzero (podMarginal cfg n hwInfo podDemand) = true.
Proof.
  intros Hg. unfold podMarginal. destruct podDemand as [d|] eqn:Ed; [|done].
  destruct (hwInfo !! n) as [hw|] eqn:Eh; [|done].
  destruct (gr_demand _ _ _ _ Hg d eq_refl) as (H1 & H2 & H3).
  pose proof (gr_hw _ _ _ _ Hg n hw Eh) as Hp. pose proof (gr_coeff _ _ _ _ Hg) as Hc.
  split; [by apply estimate_valid|by apply estimate_total].
Qed.

Lemma scoreNode_range cfg now states hwInfo podDemand (n wpClass : string) (pressure cluster : float64) :
  goodRequest cfg states hwInfo podDemand -> valid pressure -> fle fzero pressure = true ->
  (0 <= scoreNode cfg now n states hwInfo wpClass pressure cluster podDemand <= 100)%Z.
Proof.
  intros Hg Vp Pp. unfold scoreNode. destruct (states !! n) as [s|] eqn:Es; [|lia].
  destruct (isTwinStale cfg now s); [lia|]. pose proof (gr_states _ _ _ _ Hg n s Es) as Hs.
  destruct (podMarginal_nonneg cfg states hwInfo podDemand n Hg) as [Vw Pw].
  set (t := match nts_PowerMeasurement s with Some pm => pm_PowerTrendWPerMin pm | None => fzero end).
  assert (real t) as Rt.
  { unfold t. destruct (nts_PowerMeasurement s) eqn:E; [|done]. by apply (pb_power _ Hs p E). }
  destruct (trendBonus_bounds t cluster Rt) as (Rb & _ & Hb).
  destruct (rawScore_number s wpClass (headroomScore s (podMarginal cfg n hwInfo podDemand)) (trendBonus t cluster) pressure)
    as [Vr Nr]; try done; [by apply headroomScore_at_most|]. by apply clampScore_range.
Qed.

Lemma extenderPriority_range (s : Z) : (0 <= s <= 100)%Z -> (0 <= extenderPriority s <= 10)%Z.
Proof.
  intros Hs. unfold extenderPriority, maxExtenderPriority.
  rewrite (wrap64_id (s * 10)), wrap64_id by (unfold in_int64, int64_min, int64_max; lia).
  rewrite Z.quot_div_nonneg by lia.
  pose proof (Z.div_mod (s * 10 + 50) 100 ltac:(lia)). pose proof (Z.mod_pos_bound (s * 10 + 50) 100 ltac:(lia)). lia.
Qed.

(** C28. Prioritize over a node list answers every candidate, in order, with a
    priority the extender API allows, 0 to 10, whatever the orders in which
    the run visits the twin map: no reading, demand or congestion makes a
    score leave its range or become a NaN. A candidate without a twin, or with
    a stale one, gets the neutral 5, however the pod looks. *)
Theorem prioritizeNodes_range (cfg : Config) (now : Z) (states : gmap string NodeTwinStatus)
    (hwInfo : gmap string nodeHWInfo) (pressureOrder trendOrder : list NodeTwinStatus)
    (args : ExtenderArgs) (items : list NodeItem) :
  ea_Nodes args = Some items ->
  (forall s, s ∈ pressureOrder -> published s) -> (Z.of_nat (length pressureOrder) < 2 ^ 53)%Z ->
  (forall podRaw, ea_Pod args = JObj podRaw ->
     goodRequest cfg states hwInfo (Some (ExtractPodDemand podRaw (podWorkloadClass (ea_Pod args))))) ->
  goodRequest cfg states hwInfo None ->
  let r := prioritizeNodes cfg now states hwInfo pressureOrder trendOrder args in
  hp_Host <$> r = ni_Name <$> items /\
  (forall h, h ∈ r -> (0 <= hp_Score h <= maxExtenderPriority)%Z) /\
  (forall h, h ∈ r ->
     match states !! hp_Host h with Some s => isTwinStale cfg now s = true | None => True end ->
     hp_Score h = 5%Z).
Proof.
  intros Hn Hpub Hlen Hpod Hnone. cbv zeta. unfold prioritizeNodes. rewrite Hn.
  destruct (computePerfPressure_nonneg cfg now pressureOrder Hpub Hlen) as [Vp Pp].
  split; [|split].
  - by rewrite <- list_fmap_compose.
  - intros h (n & -> & _)%list_elem_of_fmap. cbn [hp_Score]. apply extenderPriority_range.
    destruct (ea_Pod args) as [| | | | | |m] eqn:Ep; cbn [asObj]; apply scoreNode_range; try done. by apply Hpod.
  - intros h (n & -> & _)%list_elem_of_fmap. cbn [hp_Host hp_Score]. unfold scoreNode.
    destruct (states !! ni_Name n) as [s|]; [intros ->|intros _]; by vm_compute.
Qed.

Lemma sampleState_published (class : string) (h t : Z) :
  (0 <= h <= 100)%Z -> published (sampleState class h t).
Proof.
  intros Hh. destruct (fofZ_sval h) as [(V & F & N) S]; [unfold exact_int; lia|].
  destruct (fofZ_sval 100) as [(V1 & F1 & N1) S1]; [unfold exact_int; lia|].
  split; [|by split|intros pm [= <-]; by repeat split].
  split; [done|]. apply fle_sval; [done|done|done|done|]. cbn [nts_PowerHeadroomScore sampleState].
  rewrite S, S1. apply Z.mul_le_mono_nonneg_r; [by apply Z.pow_nonneg|lia].
Qed.

Definition sampleConfig : Config := {|
  twinStateCacheTTL := 30; twinStalenessThreshold := 300; marginalCoeff := DefaultCoefficients |}.

Lemma sampleRequest_good (d : option PodDemand) :
  (forall d', d = Some d' -> nonneg (CPUCores d') /\ nonneg (MemoryBytes d') /\ nonneg (GPUCount d')) ->
  goodRequest sampleConfig sampleStates ∅ d.
Proof.
  intros Hd. split; [|by intros n hw ?%lookup_empty_Some|exact DefaultCoefficients_good|exact Hd].
  unfold sampleStates. intros n s H.
  apply lookup_insert_Some in H as [[_ <-]|[_ H]]; [by apply sampleState_published|].
  apply lookup_singleton_Some in H as [_ <-]. by apply sampleState_published.
Qed.

Example prioritizeNodes_range_witness :
  Forall (fun h => 0 <= hp_Score h <= maxExtenderPriority)%Z
    (prioritizeNodes sampleConfig 1100 sampleStates ∅ [sampleState "performance" 25 1000] [] sampleArgs) /\
  hp_Score <$> prioritizeNodes sampleConfig 1100 sampleStates ∅ [sampleState "performance" 25 1000] [] sampleArgs
    = [1; 1; 5]%Z.
Proof.
  split; [|by vm_compute]. apply Forall_forall.
  refine (proj1 (proj2 (prioritizeNodes_range sampleConfig 1100 sampleStates ∅ [sampleState "performance" 25 1000] []
    sampleArgs _ eq_refl _ _ _ _))).
  - intros s ->%list_elem_of_singleton. by apply sampleState_published.
  - by vm_compute.
  - intros m [= <-]. apply sampleRequest_good. intros d' [= <-].
    split; [|split]; (split; [by vm_compute|split; by vm_compute]).
  - by apply sampleRequest_good.
Defined.

(** [computeClusterTrend] is documented as the average of the per-node trends;
    two fresh nodes that each rise by 100 W/min give 200. *)
Example computeClusterTrend_is_sum :
  computeClusterTrend sampleConfig 1100 [sampleState "eco" 50 1000; sampleState "performance" 25 1000] = fofZ 200.
Proof. by vm_compute. Qed.

(** [computePerfPressure] is documented as 0 to 100; a performance node over
    its budget has a negative headroom score and takes it above 100. *)
Example computePerfPressure_above_100 :
  computePerfPressure sampleConfig 1100 [sampleState "performance" (-50) 1000] = fofZ 150.
Proof. by vm_compute. Qed.
