(* ===== verification/SimGovernor.v ===== *)
(** * The simulated cpufreq governors: simulator/pkg/phys/governor.go

    The frequency a kernel governor would request for one policy at one
    step, as the simulator computes it: the resolution of a request against
    a frequency table, the limits of a policy, and the rule of every
    governor. Frequencies are in kHz; arithmetic that can leave int64 is
    wrapped. *)

From S2P Require Import Prelude GoFloat FloatFacts.

#[local] Open Scope string_scope.
#[local] Open Scope list_scope.
#[local] Open Scope Z_scope.

(** ** Data *)

(** src/simulator/pkg/phys/clock_types.go:65-69 [GovernorTunables] *)
Record GovernorTunables := {
  SchedutilRateLimitUS : Z;
  OndemandUpThreshold : Z; OndemandSamplingRateUS : Z;
  ConservativeFreqStep : Z; ConservativeUpThreshold : Z; ConservativeDownThreshold : Z
}.

(** src/simulator/pkg/phys/clock_types.go:29-60 [GovernorInput] *)
Record GovernorInput := {
  in_Governor : string;
  in_HWP : bool;
  in_EPP : Z;
  in_Util : float64;
  in_MinKHz : Z; in_MaxKHz : Z;
  in_TableKHz : list Z;
  in_CurKHz : Z;
  in_PeriodS : float64;
  in_Tunables : GovernorTunables;
  in_EPPGain : float64; in_EPPCeilingDrop : float64
}.

(** src/simulator/pkg/phys/governor.go:14-36 [defaultOndemandUpThreshold] *)
Definition defaultOndemandUpThreshold : Z := 95.
Definition defaultConservativeUpThreshold : Z := 80.
Definition defaultConservativeDownThreshold : Z := 20.
Definition defaultConservativeFreqStep : Z := 5.
Definition conservativeMinStepKHz : Z := 5.
Definition defaultDBSSamplingUS : Z := 2000.
Definition maxGovernorPeriods : Z := 100000.

(** src/simulator/pkg/phys/governor.go:53-59 [freqRelation] *)
Inductive freqRelation := relationLow | relationHigh | relationClosest.

(** ** The table *)

(** What the loop over the table keeps: the least and the greatest entry, the
    highest entry at or below the request and the lowest at or above it. *)
Record scan := { sc_lo : Z; sc_hi : Z; sc_below : option Z; sc_above : option Z }.

(** src/simulator/pkg/phys/governor.go:73-81 [resolveTableKHz] *)
Definition scanEntry (v : Z) (s : scan) (f : Z) : scan := {|
  sc_lo := Z.min (sc_lo s) f;
  sc_hi := Z.max (sc_hi s) f;
  sc_below :=
    if (f <=? v) && match sc_below s with None => true | Some below => below <? f end then Some f else sc_below s;
  sc_above :=
    if (v <=? f) && match sc_above s with None => true | Some above => f <? above end then Some f else sc_above s
|}.

(** src/simulator/pkg/phys/governor.go:66-98 [resolveTableKHz] *)
Definition resolveTableKHz (table : list Z) (v : Z) (rel : freqRelation) : Z :=
  match table with
  | [] => v
  | f0 :: _ =>
      let s := fold_left (scanEntry v) table {| sc_lo := f0; sc_hi := f0; sc_below := None; sc_above := None |} in
      match sc_below s, sc_above s with
      | None, _ => sc_lo s
      | _, None => sc_hi s
      | Some below, Some above =>
          match rel with
          | relationLow => above
          | relationHigh => below
          | relationClosest => if wrap64 (above - v) <? wrap64 (v - below) then above else below
          end
      end
  end.

(** ** The limits of a policy *)

(** src/simulator/pkg/phys/governor.go:104-107 [policyRange] *)
Record policyRange := { pr_table : list Z; pr_lo : Z; pr_hi : Z }.

(** src/simulator/pkg/phys/governor.go:109-120 [newPolicyRange] *)
Definition newPolicyRange (i : GovernorInput) : option policyRange :=
  let lo := in_MinKHz i in
  let hi := in_MaxKHz i in
  if (hi <=? 0) && (lo <=? 0) then None
  else
    let lo := Z.max lo 0 in
    let hi := Z.max hi lo in
    let hi' := resolveTableKHz (in_TableKHz i) hi relationHigh in
    Some {| pr_table := in_TableKHz i; pr_lo := Z.min (resolveTableKHz (in_TableKHz i) lo relationLow) hi'; pr_hi := hi' |}.

(** src/simulator/pkg/phys/governor.go:124-126 [target] *)
Definition target (r : policyRange) (v : Z) (rel : freqRelation) : Z :=
  resolveTableKHz (pr_table r) (Z.min (Z.max v (pr_lo r)) (pr_hi r)) rel.

(** ** The rules *)

(** src/simulator/pkg/phys/model.go:209-217 [clamp01] *)
Definition clamp01 (v : float64) : float64 :=
  if flt v fzero then fzero else if flt fone v then fone else v.

(** src/simulator/pkg/phys/governor.go:362-367 [tunableOr] *)
Definition tunableOr (v def : Z) : Z := if 0 <? v then v else def.

(** src/simulator/pkg/phys/governor.go:358-360 [loadPercent] *)
Definition loadPercent (share : float64) : Z :=
  int_of_float (ffloor (fadd (fmul (clamp01 share) (fofZ 100)) (flit 1 1000000000))).

(** src/simulator/pkg/phys/governor.go:217-222 [ranKHz] *)
Definition ranKHz (i : GovernorInput) : float64 :=
  if in_CurKHz i <=? 0 then fofZ (Z.max (in_MaxKHz i) (in_MinKHz i)) else fofZ (in_CurKHz i).

(** src/simulator/pkg/phys/governor.go:234-237 [schedutilKHz] *)
Definition schedutilKHz (i : GovernorInput) (r : policyRange) (util : float64) : Z :=
  let raw := int_of_float (fmul (fmul (flit 5 4) (ranKHz i)) util) in
  target r raw relationLow.

(** src/simulator/pkg/phys/governor.go:248-257 [ondemandKHz] *)
Definition ondemandKHz (i : GovernorInput) (r : policyRange) (util : float64) : Z :=
  let up := tunableOr (OndemandUpThreshold (in_Tunables i)) defaultOndemandUpThreshold in
  let load := loadPercent util in
  if up <? load then target r (pr_hi r) relationHigh
  else
    let lo := Z.max (in_MinKHz i) 0 in
    let hi := Z.max (in_MaxKHz i) (in_MinKHz i) in
    let next := wrap64 (lo + Z.quot (wrap64 (load * wrap64 (hi - lo))) 100) in
    target r next relationClosest.

(** src/simulator/pkg/phys/governor.go:329-336 [conservativePeriods] *)
Definition conservativePeriods (i : GovernorInput) : Z :=
  if fle (in_PeriodS i) fzero then 1
  else
    let samplingUS := tunableOr (OndemandSamplingRateUS (in_Tunables i)) defaultDBSSamplingUS in
    let n := ffloor (fdiv (fmul (in_PeriodS i) (fofZ 1000000)) (fofZ samplingUS)) in
    int_of_float (fmin (fmax n fone) (fofZ maxGovernorPeriods)).

(** One sampling period; [None] when nothing moves.
    src/simulator/pkg/phys/governor.go:308-322 [conservativeKHz] *)
Definition conservativePeriod (r : policyRange) (up down step : Z) (saturated : bool) (demand : float64)
    (st : Z * Z) : option (Z * Z) :=
  let '(request, tgt) := st in
  let load := if negb saturated && (0 <? tgt) then Z.min (loadPercent (fdiv demand (fofZ tgt))) 100 else 100 in
  if (up <? load) && (request <? pr_hi r) then
    let request := Z.min (wrap64 (request + step)) (pr_hi r) in
    Some (request, target r request relationHigh)
  else if (load <? down) && (pr_lo r <? request) then
    let request := Z.max (wrap64 (request - step)) (pr_lo r) in
    Some (request, target r request relationLow)
  else None.

(** src/simulator/pkg/phys/governor.go:307-324 [conservativeKHz] *)
Fixpoint conservativeLoop (r : policyRange) (up down step : Z) (saturated : bool) (demand : float64)
    (periods : nat) (st : Z * Z) : Z * Z :=
  match periods with
  | O => st
  | S periods =>
      match conservativePeriod r up down step saturated demand st with
      | None => st
      | Some st => conservativeLoop r up down step saturated demand periods st
      end
  end.

(** src/simulator/pkg/phys/governor.go:280-325 [conservativeKHz] *)
Definition conservativeKHz (i : GovernorInput) (r : policyRange) (util : float64) (prevKHz : Z) : Z * Z :=
  let up := tunableOr (ConservativeUpThreshold (in_Tunables i)) defaultConservativeUpThreshold in
  let down := tunableOr (ConservativeDownThreshold (in_Tunables i)) defaultConservativeDownThreshold in
  let step := Z.quot (wrap64 (tunableOr (ConservativeFreqStep (in_Tunables i)) defaultConservativeFreqStep * pr_hi r)) 100 in
  let step := if step <=? 0 then conservativeMinStepKHz else step in
  let cur := if prevKHz <=? 0 then in_CurKHz i else prevKHz in
  let cur := if cur <=? 0 then pr_hi r else cur in
  let cur := target r cur relationHigh in
  let request := in_CurKHz i in
  let request := if (request <=? 0) || (pr_hi r <? request) || (request <? pr_lo r) then cur else request in
  let demand := fmul util (fofZ cur) in
  let saturated := fle fone util in
  conservativeLoop r up down step saturated demand (Z.to_nat (conservativePeriods i)) (request, cur).

(** src/simulator/pkg/phys/governor.go:347-353 [hwpPowersaveKHz] *)
Definition hwpPowersaveKHz (i : GovernorInput) (r : policyRange) (util : float64) : Z :=
  let epp := fofZ (Z.min (Z.max (in_EPP i) 0) 255) in
  let gain := fmax fzero (in_EPPGain i) in
  let ceiling := fmin fone (fmax (flit 1 2)
    (fsub fone (fdiv (fmul (fmax fzero (in_EPPCeilingDrop i)) epp) (fofZ 128)))) in
  let x := fmin fone (fmul util (fadd fone (fdiv (fmul gain (fsub (fofZ 255) epp)) (fofZ 255)))) in
  wrap64 (pr_lo r + int_of_float (fround (fmul (fmul (fofZ (wrap64 (pr_hi r - pr_lo r))) ceiling) x))).

(** src/simulator/pkg/phys/governor.go:172-209 [GovernorStep, governorStep] *)
Definition GovernorStep (i : GovernorInput) (prevTargetKHz : Z) : Z * Z :=
  match newPolicyRange i with
  | None => (0, 0)
  | Some r =>
      let util := clamp01 (in_Util i) in
      let both t := (t, t) in
      if String.eqb (in_Governor i) "powersave" then
        if in_HWP i then both (target r (hwpPowersaveKHz i r util) relationLow) else both (target r (pr_lo r) relationLow)
      else if String.eqb (in_Governor i) "schedutil" then both (schedutilKHz i r util)
      else if String.eqb (in_Governor i) "ondemand" then both (ondemandKHz i r util)
      else if String.eqb (in_Governor i) "conservative" then conservativeKHz i r util prevTargetKHz
      else if String.eqb (in_Governor i) "userspace" then
        let setspeed := if in_CurKHz i <=? 0 then pr_hi r else in_CurKHz i in
        both (target r setspeed relationLow)
      else both (target r (pr_hi r) relationHigh)
  end.

Definition sampleInput (governor : string) (util : float64) (cur : Z) : GovernorInput := {|
  in_Governor := governor; in_HWP := false; in_EPP := 128; in_Util := util;
  in_MinKHz := 800000; in_MaxKHz := 3500000;
  in_TableKHz := [800000; 1200000; 1600000; 2000000; 2400000; 2800000; 3200000];
  in_CurKHz := cur; in_PeriodS := flit 1 10;
  in_Tunables := {| SchedutilRateLimitUS := 0; OndemandUpThreshold := 0; OndemandSamplingRateUS := 10000;
                    ConservativeFreqStep := 0; ConservativeUpThreshold := 0; ConservativeDownThreshold := 0 |};
  in_EPPGain := fone; in_EPPCeilingDrop := flit 1 5
|}.

(** Half a load at 2.4 GHz asks for 1.5 GHz, which the table rounds up. *)
Example schedutil_half : GovernorStep (sampleInput "schedutil" (flit 1 2) 2400000) 0 = (1600000, 1600000).
Proof. vm_compute. reflexivity. Qed.

(** Ten periods of an idle CPU lower conservative's request by ten steps of
    5 %, and the policy runs at the entry above it. *)
Example conservative_idle : GovernorStep (sampleInput "conservative" fzero 3200000) 3200000 = (1600000, 1600000).
Proof. vm_compute. reflexivity. Qed.

Example conservative_busy : GovernorStep (sampleInput "conservative" fone 800000) 800000 = (2400000, 2400000).
Proof. vm_compute. reflexivity. Qed.

(** ** Resolving a request *)

(** What the scan knows of the entries seen. *)
Definition scanned (v : Z) (seen : list Z) (s : scan) : Prop :=
  (sc_lo s ∈ seen /\ forall f, f ∈ seen -> sc_lo s <= f) /\
  (sc_hi s ∈ seen /\ forall f, f ∈ seen -> f <= sc_hi s) /\
  match sc_below s with
  | None => forall f, f ∈ seen -> v < f
  | Some b => b ∈ seen /\ b <= v /\ forall f, f ∈ seen -> f <= v -> f <= b
  end /\
  match sc_above s with
  | None => forall f, f ∈ seen -> f < v
  | Some a => a ∈ seen /\ v <= a /\ forall f, f ∈ seen -> v <= f -> a <= f
  end.

Lemma scanned_step v seen s f : scanned v seen s -> scanned v (seen ++ [f]) (scanEntry v s f).
Proof.
  intros ([Hl Hl'] & [Hh Hh'] & Hb & Ha). unfold scanned, scanEntry; cbn.
  assert (forall x, x ∈ seen ++ [f] <-> x ∈ seen \/ x = f) as E by (intros x; rewrite elem_of_app, list_elem_of_singleton; done).
  assert (f ∈ seen ++ [f]) as Ef by (apply E; by right).
  assert (forall x, x ∈ seen -> x ∈ seen ++ [f]) as Es by (intros x Hx; apply E; by left).
  split; [split|split; [split|split]].
  - destruct (Z.min_spec (sc_lo s) f) as [[_ ->]|[_ ->]]; auto.
  - intros x [Hx| ->]%E; [specialize (Hl' x Hx)|]; lia.
  - destruct (Z.max_spec (sc_hi s) f) as [[_ ->]|[_ ->]]; auto.
  - intros x [Hx| ->]%E; [specialize (Hh' x Hx)|]; lia.
  - destruct (sc_below s) as [b|]; [destruct Hb as (Hb & Hv & Hm); destruct ((f <=? v) && (b <? f)) eqn:C
      |destruct (Z.leb_spec f v); cbn]; [split_and!; [auto|lia|]..|];
      intros x [Hx| ->]%E; try (intros Hxv; try specialize (Hm x Hx Hxv)); try specialize (Hb x Hx); lia.
  - destruct (sc_above s) as [c|]; [destruct Ha as (Ha & Hv & Hm); destruct ((v <=? f) && (f <? c)) eqn:C
      |destruct (Z.leb_spec v f); cbn]; [split_and!; [auto|lia|]..|];
      intros x [Hx| ->]%E; try (intros Hxv; try specialize (Hm x Hx Hxv)); try specialize (Ha x Hx); lia.
Qed.

Lemma scanned_fold v l seen s : scanned v seen s -> scanned v (seen ++ l) (fold_left (scanEntry v) l s).
Proof.
  revert seen s. induction l as [|f l IH]; intros seen s H; cbn; [by rewrite app_nil_r|].
  replace (seen ++ f :: l)%list with ((seen ++ [f]) ++ l)%list by by rewrite <- app_assoc. by apply IH, scanned_step.
Qed.

Lemma scanned_first v f0 :
  scanned v [f0] (scanEntry v {| sc_lo := f0; sc_hi := f0; sc_below := None; sc_above := None |} f0).
Proof.
  unfold scanned, scanEntry; cbn. rewrite Z.min_id, Z.max_id, !andb_true_r.
  split_and!; try (intros f ->%list_elem_of_singleton; lia); try (by left).
  - destruct (Z.leb_spec f0 v); [split_and!; [by left|done|by intros f ->%list_elem_of_singleton]|].
    intros f ->%list_elem_of_singleton; lia.
  - destruct (Z.leb_spec v f0); [split_and!; [by left|done|by intros f ->%list_elem_of_singleton]|].
    intros f ->%list_elem_of_singleton; lia.
Qed.

Lemma scan_table v f0 table :
  scanned v (f0 :: table) (fold_left (scanEntry v) (f0 :: table) {| sc_lo := f0; sc_hi := f0; sc_below := None; sc_above := None |}).
Proof. cbn [fold_left]. change (f0 :: table) with ([f0] ++ table)%list. apply scanned_fold, scanned_first. Qed.

Definition chosen (v : Z) (rel : freqRelation) (s : scan) : Z :=
  match sc_below s, sc_above s with
  | None, _ => sc_lo s
  | _, None => sc_hi s
  | Some below, Some above =>
      match rel with
      | relationLow => above
      | relationHigh => below
      | relationClosest => if wrap64 (above - v) <? wrap64 (v - below) then above else below
      end
  end.

Lemma resolve_chosen table v rel :
  table <> [] -> exists s, scanned v table s /\ resolveTableKHz table v rel = chosen v rel s.
Proof. destruct table as [|f0 table]; [done|]. intros _. eexists. split; [apply scan_table|reflexivity]. Qed.

Lemma resolve_mem table v rel : table <> [] -> resolveTableKHz table v rel ∈ table.
Proof.
  intros H. destruct (resolve_chosen table v rel H) as (s & ([Hl _] & [Hh _] & Hb & Ha) & ->). unfold chosen.
  destruct (sc_below s) as [b|], (sc_above s) as [a|]; try done. destruct Hb as [Hb _], Ha as [Ha _].
  destruct rel; [done|done|]. by destruct (_ <? _).
Qed.

(** A request between two entries is resolved between them. *)
Lemma resolve_between table v rel a b :
  a ∈ table -> b ∈ table -> a <= v <= b -> a <= resolveTableKHz table v rel <= b.
Proof.
  intros Ha Hb Hv. destruct (resolve_chosen table v rel) as (s & (_ & _ & Hbelow & Habove) & ->).
  { intros ->. by apply elem_of_nil in Ha. }
  unfold chosen. destruct (sc_below s) as [x|]; [|specialize (Hbelow a Ha); lia].
  destruct (sc_above s) as [y|]; [|specialize (Habove b Hb); lia].
  destruct Hbelow as (_ & Hx & Hx'), Habove as (_ & Hy & Hy'). specialize (Hx' a Ha ltac:(lia)). specialize (Hy' b Hb ltac:(lia)).
  destruct rel; [lia|lia|]. destruct (_ <? _); lia.
Qed.

(** An entry is its own resolution. *)
Lemma resolve_entry table v rel : v ∈ table -> resolveTableKHz table v rel = v.
Proof. intros H. pose proof (resolve_between table v rel v v H H ltac:(lia)). lia. Qed.

(** *** The limits *)

(** The range the governors work in: both ends entries of the table, if any. *)
Definition wellRanged (r : policyRange) : Prop :=
  pr_lo r <= pr_hi r /\ (pr_table r <> [] -> pr_lo r ∈ pr_table r /\ pr_hi r ∈ pr_table r).

Lemma newPolicyRange_ranged i r : newPolicyRange i = Some r -> wellRanged r.
Proof.
  unfold newPolicyRange. destruct (_ && _); [done|]. intros [= <-]. unfold wellRanged; cbn. split; [lia|].
  intros H. destruct (Z.min_spec (resolveTableKHz (in_TableKHz i) (Z.max (in_MinKHz i) 0) relationLow)
    (resolveTableKHz (in_TableKHz i) (Z.max (in_MaxKHz i) (Z.max (in_MinKHz i) 0)) relationHigh)) as [[_ ->]|[_ ->]];
    split; by apply resolve_mem.
Qed.

(** Entries of a real table, and limits, are far from the ends of int64. *)
Definition plausible (f : Z) : Prop := 0 <= f <= 2 ^ 50.

Definition plausibleInput (i : GovernorInput) : Prop :=
  Forall plausible (in_TableKHz i) /\ in_MinKHz i <= 2 ^ 50 /\ in_MaxKHz i <= 2 ^ 50.

Lemma newPolicyRange_plausible i r :
  newPolicyRange i = Some r -> plausibleInput i -> plausible (pr_lo r) /\ plausible (pr_hi r).
Proof.
  unfold newPolicyRange. destruct (_ && _); [done|]. intros [= <-] (Ht & H1 & H2). cbn.
  assert (forall v rel, plausible v -> plausible (resolveTableKHz (in_TableKHz i) v rel)) as H.
  { intros v rel Hv. destruct (in_TableKHz i) as [|f0 t]; [done|]. rewrite Forall_forall in Ht.
    apply Ht. by apply resolve_mem. }
  split; [|apply H; unfold plausible; lia].
  pose proof (H (Z.max (in_MinKHz i) 0) relationLow ltac:(unfold plausible; lia)).
  pose proof (H (Z.max (in_MaxKHz i) (Z.max (in_MinKHz i) 0)) relationHigh ltac:(unfold plausible; lia)).
  unfold plausible in *. lia.
Qed.

Lemma target_within r v rel :
  wellRanged r -> pr_lo r <= target r v rel <= pr_hi r /\ (pr_table r <> [] -> target r v rel ∈ pr_table r).
Proof.
  intros [Hr Ht]. unfold target. destruct (pr_table r) as [|f0 t]; [cbn; split; [lia|done]|].
  destruct Ht as [Hl Hh]; [done|]. split; [apply resolve_between; auto; lia|]. intros _. by apply resolve_mem.
Qed.

(** A limit of the range is a frequency the policy can run at. *)
Lemma target_limit r v rel : wellRanged r -> v = pr_lo r \/ v = pr_hi r -> target r v rel = v.
Proof.
  intros [Hr Ht] Hv. unfold target. replace (Z.min (Z.max v (pr_lo r)) (pr_hi r)) with v by lia.
  destruct (pr_table r) as [|f0 t]; [done|]. destruct Ht as [Hl Hh]; [done|].
  apply resolve_entry. by destruct Hv as [->| ->].
Qed.

(** A frequency the policy may be told to run at. *)
Definition allowed (r : policyRange) (t : Z) : Prop :=
  pr_lo r <= t <= pr_hi r /\ (pr_table r <> [] -> t ∈ pr_table r).

Lemma target_allowed r v rel : wellRanged r -> allowed r (target r v rel).
Proof. apply target_within. Qed.

Lemma wrap64_within lo hi v : lo <= v <= hi -> - 2 ^ 62 <= lo -> hi <= 2 ^ 62 -> wrap64 v = v.
Proof. intros. apply wrap64_id. unfold in_int64, int64_min, int64_max. lia. Qed.

(** ** The conservative governor *)

Lemma conservativePeriod_allowed r up down step saturated demand request tgt request' tgt' :
  wellRanged r -> plausible (pr_lo r) -> plausible (pr_hi r) -> 0 < step <= 2 ^ 61 ->
  pr_lo r <= request <= pr_hi r ->
  conservativePeriod r up down step saturated demand (request, tgt) = Some (request', tgt') ->
  pr_lo r <= request' <= pr_hi r /\ request' <> request /\ allowed r tgt'.
Proof.
  intros Hr Hl Hh Hs Hq. unfold conservativePeriod. cbv zeta. unfold plausible in *.
  rewrite (wrap64_within (- 2 ^ 62) (2 ^ 62) (request + step)) by lia.
  rewrite (wrap64_within (- 2 ^ 62) (2 ^ 62) (request - step)) by lia.
  set (load := if negb saturated && _ then _ else _).
  destruct ((up <? load) && (request <? pr_hi r)) eqn:Eu.
  { intros [= <- <-]. split_and!; [lia..|]. by apply target_allowed. }
  destruct ((load <? down) && (pr_lo r <? request)) eqn:Ed; [|done].
  intros [= <- <-]. split_and!; [lia..|]. by apply target_allowed.
Qed.

Lemma conservativeLoop_allowed r up down step saturated demand periods st :
  wellRanged r -> plausible (pr_lo r) -> plausible (pr_hi r) -> 0 < step <= 2 ^ 61 ->
  pr_lo r <= st.1 <= pr_hi r -> allowed r st.2 ->
  let st' := conservativeLoop r up down step saturated demand periods st in
  pr_lo r <= st'.1 <= pr_hi r /\ allowed r st'.2.
Proof.
  intros Hr Hl Hh Hs. revert st. induction periods as [|periods IH]; intros [request tgt] Hq Ht; cbv zeta;
    cbn [conservativeLoop]; [done|].
  destruct (conservativePeriod r up down step saturated demand (request, tgt)) as [[request' tgt']|] eqn:E; [|done].
  eapply conservativePeriod_allowed in E as (? & _ & ?); [by apply IH|done..].
Qed.

(** The step of the request is at least one kHz, whatever the tunable. *)
Lemma step_bounds x :
  let step := Z.quot (wrap64 x) 100 in
  0 < (if step <=? 0 then conservativeMinStepKHz else step) <= 2 ^ 61.
Proof.
  cbv zeta. pose proof (wrap64_in x) as H. unfold in_int64, int64_min, int64_max in H. unfold conservativeMinStepKHz.
  destruct (Z.leb_spec (Z.quot (wrap64 x) 100) 0); [lia|]. split; [lia|].
  destruct (Z.le_gt_cases 0 (wrap64 x)).
  - rewrite Z.quot_div_nonneg by lia. transitivity ((2 ^ 63 - 1) / 100); [apply Z.div_le_mono; lia|]. done.
  - assert (Z.quot (wrap64 x) 100 <= 0); [|lia]. rewrite <- (Z.opp_involutive (wrap64 x)), Z.quot_opp_l by lia.
    pose proof (Z.quot_pos (- wrap64 x) 100). lia.
Qed.

Lemma conservativeKHz_allowed i r util prev :
  wellRanged r -> plausible (pr_lo r) -> plausible (pr_hi r) ->
  let '(request, t) := conservativeKHz i r util prev in pr_lo r <= request <= pr_hi r /\ allowed r t.
Proof.
  intros Hr Hl Hh. unfold conservativeKHz. cbv zeta.
  set (cur := target r _ relationHigh). set (st := (if _ || _ || _ then cur else _, cur)).
  set (step := if _ <=? 0 then conservativeMinStepKHz else _).
  assert (allowed r cur) as Hc by by apply target_allowed.
  assert (0 < step <= 2 ^ 61) as Hstep by apply step_bounds.
  assert (pr_lo r <= st.1 <= pr_hi r) as Hst.
  { cbn. destruct (_ || _) eqn:E; [apply Hc|lia]. }
  rewrite (surjective_pairing (conservativeLoop _ _ _ _ _ _ _ st)). by apply conservativeLoop_allowed.
Qed.

(** C38. A step of any simulated governor stays within its policy. With
    limits and a table far from the ends of int64, the request it keeps and
    the frequency it sets are between the resolved scaling_min_freq and
    scaling_max_freq, and the frequency is an entry of the table when the
    policy has one; powersave without HWP sets the minimum, performance (and
    any unknown word) the maximum, ondemand the maximum once the load is
    above its threshold. A policy without frequencies gets 0.
    src/simulator/pkg/phys/governor.go:66-367 *)
Theorem GovernorStep_within (i : GovernorInput) (prev : Z) :
  plausibleInput i ->
  let '(request, t) := GovernorStep i prev in
  match newPolicyRange i with
  | None => request = 0 /\ t = 0
  | Some r =>
      pr_lo r <= request <= pr_hi r /\ allowed r t /\
      (in_Governor i = "powersave" -> in_HWP i = false -> t = pr_lo r) /\
      (in_Governor i ∉ ["powersave"; "schedutil"; "ondemand"; "conservative"; "userspace"] -> t = pr_hi r) /\
      (in_Governor i = "ondemand" ->
       tunableOr (OndemandUpThreshold (in_Tunables i)) defaultOndemandUpThreshold < loadPercent (clamp01 (in_Util i)) ->
       t = pr_hi r)
  end.
Proof.
  intros Hi. unfold GovernorStep. destruct (newPolicyRange i) as [r|] eqn:E; [|done].
  pose proof (newPolicyRange_ranged i r E) as Hr. destruct (newPolicyRange_plausible i r E Hi) as [Hl Hh]. cbv zeta.
  assert (forall v rel, pr_lo r <= target r v rel <= pr_hi r /\ allowed r (target r v rel)) as Ht.
  { intros v rel. pose proof (target_allowed r v rel Hr) as H. split; [apply H|done]. }
  assert (forall v rel (P : Z -> Prop), P (target r v rel) ->
    pr_lo r <= target r v rel <= pr_hi r /\ allowed r (target r v rel) /\ P (target r v rel)) as Hboth.
  { intros v rel P HP. destruct (Ht v rel). done. }
  destruct (String.eqb_spec (in_Governor i) "powersave") as [->|Np].
  { destruct (in_HWP i) eqn:EH; apply Hboth with (P := fun t => (_ -> _ -> t = _) /\ _).
    - split; [done|split; [set_solver|done]].
    - split; [intros _ _; apply target_limit; auto|split; [set_solver|done]]. }
  destruct (String.eqb_spec (in_Governor i) "schedutil") as [->|Ns].
  { apply Hboth with (P := fun t => (_ -> _ -> t = _) /\ _). split; [done|split; [set_solver|done]]. }
  destruct (String.eqb_spec (in_Governor i) "ondemand") as [->|No].
  { unfold ondemandKHz; cbv zeta.
    destruct (Z.ltb_spec (tunableOr (OndemandUpThreshold (in_Tunables i)) defaultOndemandUpThreshold)
      (loadPercent (clamp01 (in_Util i)))).
    - apply Hboth with (P := fun t => (_ -> _ -> t = _) /\ (_ -> t = _) /\ (_ -> _ -> t = _)).
      split; [done|split; [set_solver|intros _ _; apply target_limit; auto]].
    - apply Hboth with (P := fun t => (_ -> _ -> t = _) /\ _). split; [done|split; [set_solver|intros _; lia]]. }
  destruct (String.eqb_spec (in_Governor i) "conservative") as [->|Nc].
  { pose proof (conservativeKHz_allowed i r (clamp01 (in_Util i)) prev Hr Hl Hh) as H.
    destruct (conservativeKHz _ _ _ _) as [request t]. destruct H as [H1 H2].
    split; [done|split; [done|split; [done|split; [set_solver|done]]]]. }
  destruct (String.eqb_spec (in_Governor i) "userspace") as [->|Nu].
  { apply Hboth with (P := fun t => (_ -> _ -> t = _) /\ _). split; [done|split; [set_solver|done]]. }
  apply Hboth with (P := fun t => (_ -> _ -> t = _) /\ (_ -> t = _) /\ _).
  split; [done|split; [intros _; apply target_limit; auto|done]].
Qed.

Lemma GovernorStep_within_witness :
  let i := sampleInput "ondemand" fone 800000 in
  plausibleInput i /\ GovernorStep i 0 = (3200000, 3200000) /\
  let '(request, t) := GovernorStep i 0 in
  match newPolicyRange i with
  | None => request = 0 /\ t = 0
  | Some r => allowed r t
  end.
Proof.
  set (i := sampleInput "ondemand" fone 800000).
  assert (plausibleInput i) as H by (repeat constructor; vm_compute; congruence).
  split; [exact H|split; [vm_compute; reflexivity|]].
  pose proof (GovernorStep_within i 0 H) as Hw. destruct (GovernorStep i 0), (newPolicyRange i); [apply Hw|exact Hw].
Defined.
