(* ===== verification/GpuSlots.v ===== *)
(** * GPU units of a simulated node: simulator/pkg/workload/gpuslots.go

    Which units of a node's GPUs each running job occupies, the way a device
    plugin assigns them, and what follows for the devices: their utilization
    and a job's share of their time. *)

From S2P Require Import Prelude GoFloat FloatFacts GoSlices.

#[local] Open Scope string_scope.
#[local] Open Scope list_scope.

(** ** Data *)

(** src/simulator/pkg/workload/gpuslots.go:10-23 [Sharing] *)
Inductive Sharing := SharingNone | SharingWhole | SharingMIG | SharingTimeslice.

(** src/simulator/pkg/workload/gpuslots.go:27-37 [SharingOf] *)
Definition SharingOf (exposure : string) : Sharing :=
  if String.eqb exposure "whole" then SharingWhole
  else if HasPrefix exposure "mig-" then SharingMIG
  else if HasPrefix exposure "timeslice-" then SharingTimeslice
  else SharingNone.

(** src/simulator/pkg/workload/gpuslots.go:40-43 [DeviceUse] *)
Record DeviceUse := { du_Device : Z; du_Units : Z }.

(** The empty name owns the free units.
    src/simulator/pkg/workload/gpuslots.go:61-67 [GPUSlots] *)
Record GPUSlots := {
  gs_sharing : Sharing;
  gs_perDev : Z;
  gs_unitJob : list string;
  gs_jobUtil : gmap string float64;
  gs_jobUnits : gmap string (list nat)
}.

(** src/simulator/pkg/workload/gpuslots.go:73-85 [NewGPUSlots] *)
Definition NewGPUSlots (devices : Z) (exposure : string) (unitsPerDevice : Z) : GPUSlots :=
  let sharing := SharingOf exposure in
  let perDev := match sharing with SharingNone => 0%Z | SharingWhole => 1%Z | SharingMIG | SharingTimeslice => unitsPerDevice end in
  {| gs_sharing := sharing; gs_perDev := perDev;
     gs_unitJob := if ((0 <? devices) && (0 <? perDev))%Z then replicate (Z.to_nat (devices * perDev)) "" else [];
     gs_jobUtil := ∅; gs_jobUnits := ∅ |}.

(** src/simulator/pkg/workload/gpuslots.go:88-88 [Units] *)
Definition Units (s : GPUSlots) : Z := Z.of_nat (length (gs_unitJob s)).

(** src/simulator/pkg/workload/gpuslots.go:93-93 [UnitsPerDevice] *)
Definition UnitsPerDevice (s : GPUSlots) : Z := gs_perDev s.

(** src/simulator/pkg/workload/gpuslots.go:96-101 [Devices] *)
Definition Devices (s : GPUSlots) : Z :=
  if (gs_perDev s =? 0)%Z then 0%Z else Z.quot (Units s) (gs_perDev s).

(** src/simulator/pkg/workload/rates.go:135-143 [clamp01] *)
Definition clamp01 (v : float64) : float64 :=
  if flt v fzero then fzero else if flt fone v then fone else v.

(** ** Units of a job *)

(** The list being built, its last element first.
    src/simulator/pkg/workload/gpuslots.go:148-155 [Uses] *)
Definition addUse (perDev : Z) (out : list DeviceUse) (k : nat) : list DeviceUse :=
  let d := Z.quot (Z.of_nat k) perDev in
  match out with
  | u :: rest =>
      if (du_Device u =? d)%Z then {| du_Device := d; du_Units := du_Units u + 1 |} :: rest
      else {| du_Device := d; du_Units := 1 |} :: out
  | [] => [{| du_Device := d; du_Units := 1 |}]
  end.

(** src/simulator/pkg/workload/gpuslots.go:146-157 [Uses] *)
Definition Uses (s : GPUSlots) (job : string) : list DeviceUse :=
  rev (fold_left (addUse (gs_perDev s)) (default [] (gs_jobUnits s !! job)) []).

(** src/simulator/pkg/workload/gpuslots.go:159-166 [devicesOf] *)
Definition devicesOf (s : GPUSlots) (job : string) : list Z := sort_ints (du_Device <$> Uses s job).

(** The lowest free units, at most [want].
    src/simulator/pkg/workload/gpuslots.go:115-123 [Assign] *)
Fixpoint freeFrom (k : nat) (unitJob : list string) (want : nat) : list nat :=
  match want, unitJob with
  | S rest, owner :: unitJob =>
      if String.eqb owner "" then k :: freeFrom (S k) unitJob rest else freeFrom (S k) unitJob want
  | _, _ => []
  end.

Definition setAll (ks : list nat) (job : string) (unitJob : list string) : list string :=
  fold_left (fun l k => <[k := job]> l) ks unitJob.

(** src/simulator/pkg/workload/gpuslots.go:108-133 [Assign] *)
Definition Assign (s : GPUSlots) (job : string) (units : Z) (util : float64) : list Z * bool * GPUSlots :=
  match gs_jobUnits s !! job with
  | Some _ => (devicesOf s job, true, s)
  | None =>
      if (units <=? 0)%Z then ([], false, s)
      else
        let free := freeFrom 0 (gs_unitJob s) (Z.to_nat units) in
        if (Z.of_nat (length free) <? units)%Z then ([], false, s)
        else
          let s := {| gs_sharing := gs_sharing s; gs_perDev := gs_perDev s;
                      gs_unitJob := setAll free job (gs_unitJob s);
                      gs_jobUtil := <[job := clamp01 util]> (gs_jobUtil s);
                      gs_jobUnits := <[job := free]> (gs_jobUnits s) |} in
          (devicesOf s job, true, s)
  end.

(** src/simulator/pkg/workload/gpuslots.go:136-142 [Release] *)
Definition Release (s : GPUSlots) (job : string) : GPUSlots := {|
  gs_sharing := gs_sharing s; gs_perDev := gs_perDev s;
  gs_unitJob := setAll (default [] (gs_jobUnits s !! job)) "" (gs_unitJob s);
  gs_jobUtil := delete job (gs_jobUtil s);
  gs_jobUnits := delete job (gs_jobUnits s)
|}.

(** ** Utilization *)

(** The units of a device are on the node.
    src/simulator/pkg/workload/gpuslots.go:169-177 [deviceSum] *)
Definition deviceSum (s : GPUSlots) (d : Z) : float64 :=
  fold_left (fun sum k =>
    match gs_unitJob s !! k with
    | Some job => if String.eqb job "" then sum else fadd sum (default fzero (gs_jobUtil s !! job))
    | None => sum
    end) (seq (Z.to_nat (d * gs_perDev s)) (Z.to_nat (gs_perDev s))) fzero.

(** src/simulator/pkg/workload/gpuslots.go:180-192 [DeviceUtil] *)
Definition DeviceUtil (s : GPUSlots) : list float64 :=
  (fun d =>
    let sum := deviceSum s (Z.of_nat d) in
    match gs_sharing s with
    | SharingMIG => fdiv sum (fofZ (gs_perDev s))
    | _ => fmin fone sum
    end) <$> seq 0 (Z.to_nat (Devices s)).

(** src/simulator/pkg/workload/gpuslots.go:197-208 [Share] *)
Definition Share (s : GPUSlots) (job : string) : float64 :=
  match gs_sharing s with
  | SharingTimeslice =>
      fold_left (fun share u =>
        let sum := deviceSum s (du_Device u) in
        if flt fone sum then fmin share (fdiv fone sum) else share) (Uses s job) fone
  | _ => fone
  end.

(** ** Slots that are consistent *)

(** The two views of who holds what agree: a job's units are in ascending
    order and its own, and a held unit is among its job's. *)
Record consistent (s : GPUSlots) : Prop := {
  cs_units job ks : gs_jobUnits s !! job = Some ks ->
    job <> "" /\ ks <> [] /\ StronglySorted lt ks /\ (forall k, k ∈ ks <-> gs_unitJob s !! k = Some job);
  cs_held k job : gs_unitJob s !! k = Some job -> job <> "" -> is_Some (gs_jobUnits s !! job);
  cs_util job : is_Some (gs_jobUtil s !! job) <-> is_Some (gs_jobUnits s !! job);
  cs_range job u : gs_jobUtil s !! job = Some u -> nonneg u /\ fle u fone = true
}.

Lemma setAll_length ks job l : length (setAll ks job l) = length l.
Proof. unfold setAll. revert l. induction ks as [|k ks IH]; intros l; cbn; [done|]. rewrite IH. apply length_insert. Qed.

Lemma setAll_lookup ks job l k :
  setAll ks job l !! k = if bool_decide (k ∈ ks) then (fun _ => job) <$> l !! k else l !! k.
Proof.
  unfold setAll. revert l. induction ks as [|k' ks IH]; intros l; cbn [fold_left]; [by rewrite bool_decide_false by apply not_elem_of_nil|].
  rewrite IH. destruct (decide (k = k')) as [->|Hne].
  - rewrite (bool_decide_true (k' ∈ k' :: ks)) by by left.
    destruct (decide (k' < length l)%nat) as [Hlt|Hge].
    + rewrite list_lookup_insert_eq by done. destruct (lookup_lt_is_Some_2 l k' Hlt) as [x ->]. by destruct (bool_decide _).
    + rewrite list_insert_ge by lia. rewrite lookup_ge_None_2 by lia. by destruct (bool_decide _).
  - rewrite list_lookup_insert_ne by done.
    assert (bool_decide (k ∈ k' :: ks) = bool_decide (k ∈ ks)) as ->; [|done].
    apply bool_decide_ext. rewrite elem_of_cons. naive_solver.
Qed.

(** The units picked are free, ascending, and no free unit below them is left. *)
Lemma freeFrom_spec k l want :
  let ks := freeFrom k l want in
  StronglySorted lt ks /\ (length ks <= want)%nat /\
  (forall i, i ∈ ks -> (k <= i)%nat /\ l !! (i - k)%nat = Some "") /\
  (forall i, l !! i = Some "" -> (k + i)%nat ∈ ks \/ (length ks = want /\ forall j, j ∈ ks -> (j < k + i)%nat)).
Proof.
  revert k want. induction l as [|owner l IH]; intros k want.
  { destruct want; cbn; (split_and!; [constructor|lia|by intros i Hi%elem_of_nil|done]). }
  destruct want as [|want]; cbn [freeFrom].
  { split_and!; [constructor|done|by intros i Hi%elem_of_nil|]. intros i _. right. split; [done|]. by intros j Hj%elem_of_nil. }
  destruct (String.eqb_spec owner "") as [->|Hne].
  - destruct (IH (S k) want) as (Hs & Hlen & Hin & Hout). split_and!.
    + constructor; [done|]. apply Forall_forall. intros i Hi. apply Hin in Hi. lia.
    + cbn. lia.
    + intros i [->|Hi]%elem_of_cons; [by rewrite Nat.sub_diag|]. destruct (Hin i Hi) as [Hle Hl]. split; [lia|].
      by replace (i - k)%nat with (S (i - S k)) by lia.
    + intros [|i] Hi; [left; rewrite Nat.add_0_r; by left|]. destruct (Hout i Hi) as [H|[He H]].
      * left. right. by replace (k + S i)%nat with (S k + i)%nat by lia.
      * right. cbn [length]. split; [by rewrite He|]. intros j [->|Hj]%elem_of_cons; [lia|]. specialize (H j Hj). lia.
  - destruct (IH (S k) (S want)) as (Hs & Hlen & Hin & Hout). split_and!; [done|done| |].
    + intros i Hi. destruct (Hin i Hi) as [Hle Hl]. split; [lia|]. by replace (i - k)%nat with (S (i - S k)) by lia.
    + intros [|i] Hi; [by injection Hi as ->|]. destruct (Hout i Hi) as [H|[He H]].
      * left. by replace (k + S i)%nat with (S k + i)%nat by lia.
      * right. split; [done|]. intros j Hj. specialize (H j Hj). lia.
Qed.

(** What is known of the utilization a caller gives. *)
Definition number (x : float64) : Prop := valid x /\ is_nan x = false.

Lemma clamp01_unit (x : float64) : number x -> nonneg (clamp01 x) /\ fle (clamp01 x) fone = true.
Proof.
  intros [V N]. unfold clamp01. destruct (flt x fzero) eqn:E1; [done|]. destruct (flt fone x) eqn:E2; [done|].
  assert (is_nan fone = false) as N1 by done. assert (is_nan fzero = false) as N0 by done.
  assert (fle fzero x = true) as H0 by forder. assert (fle x fone = true) as H1 by forder.
  split; [|done]. split; [done|]. split; [|done]. by apply (finite_between x fzero fone).
Qed.

Lemma New_consistent devices exposure unitsPerDevice : consistent (NewGPUSlots devices exposure unitsPerDevice).
Proof.
  split; cbn.
  - intros job ks. by rewrite lookup_empty.
  - intros k job. destruct (_ && _)%Z; [|by rewrite lookup_nil]. intros [-> _]%lookup_replicate. done.
  - intros job. rewrite !lookup_empty. done.
  - intros job u. by rewrite lookup_empty.
Qed.

(** What an assignment does when it is not the job's first or there is room. *)
Lemma Assign_cases s job units util ds ok s' :
  Assign s job units util = (ds, ok, s') ->
  (is_Some (gs_jobUnits s !! job) /\ ok = true /\ ds = devicesOf s job /\ s' = s) \/
  (gs_jobUnits s !! job = None /\ ok = false /\ ds = [] /\ s' = s /\
    let free := freeFrom 0 (gs_unitJob s) (Z.to_nat units) in (units <= 0 \/ Z.of_nat (length free) < units)%Z) \/
  (gs_jobUnits s !! job = None /\ ok = true /\ ds = devicesOf s' job /\ (0 < units)%Z /\
    let free := freeFrom 0 (gs_unitJob s) (Z.to_nat units) in
    Z.of_nat (length free) = units /\
    s' = {| gs_sharing := gs_sharing s; gs_perDev := gs_perDev s; gs_unitJob := setAll free job (gs_unitJob s);
            gs_jobUtil := <[job := clamp01 util]> (gs_jobUtil s); gs_jobUnits := <[job := free]> (gs_jobUnits s) |}).
Proof.
  unfold Assign. destruct (gs_jobUnits s !! job) as [ks|] eqn:E; [intros [= <- <- <-]; left; split_and!; [by eexists|done..]|].
  intros H; right; revert H.
  destruct (Z.leb_spec units 0); [intros [= <- <- <-]; left; split_and!; auto|]. cbv zeta.
  destruct (Z.ltb_spec (Z.of_nat (length (freeFrom 0 (gs_unitJob s) (Z.to_nat units)))) units);
    intros [= <- <- <-]; [left; split_and!; auto|]. right. split_and!; try done.
  destruct (freeFrom_spec 0 (gs_unitJob s) (Z.to_nat units)) as (_ & Hlen & _). lia.
Qed.

Lemma Assign_consistent s job units util ds ok s' :
  consistent s -> job <> "" -> number util -> Assign s job units util = (ds, ok, s') -> consistent s'.
Proof.
  intros Hs Hj Hu H. apply Assign_cases in H as [(_ & _ & _ & ->)|[(_ & _ & _ & -> & _)|(Hn & _ & _ & H0 & Hl & ->)]]; [done..|].
  destruct (freeFrom_spec 0 (gs_unitJob s) (Z.to_nat units)) as (Hsort & _ & Hfree & _).
  set (free := freeFrom 0 (gs_unitJob s) (Z.to_nat units)) in *.
  assert (forall k, k ∈ free -> gs_unitJob s !! k = Some "") as Hf.
  { intros k Hk. destruct (Hfree k Hk) as [_ H]. by rewrite Nat.sub_0_r in H. }
  assert (forall k, setAll free job (gs_unitJob s) !! k = if bool_decide (k ∈ free) then Some job else gs_unitJob s !! k) as HL.
  { intros k. rewrite setAll_lookup. destruct (bool_decide_reflect (k ∈ free)) as [Hk|]; [|done]. by rewrite (Hf k Hk). }
  split; cbn.
  - intros job' ks. destruct (decide (job' = job)) as [->|Hne].
    + rewrite lookup_insert_eq. intros [= <-]. split_and!; [done|by intros ->; cbn in Hl; lia|done|].
      intros k. rewrite HL. destruct (bool_decide_reflect (k ∈ free)) as [|Hk]; [done|]. split; [done|].
      intros Hk'. destruct (cs_held s Hs k job Hk' Hj) as [x Hx]. congruence.
    + rewrite lookup_insert_ne by done. intros Hk. destruct (cs_units s Hs job' ks Hk) as (? & ? & ? & Hiff).
      split_and!; [done..|]. intros k. rewrite HL, Hiff. destruct (bool_decide_reflect (k ∈ free)) as [Hin|]; [|done].
      rewrite (Hf k Hin). split; intros [= ?]; congruence.
  - intros k job'. rewrite HL. destruct (bool_decide_reflect (k ∈ free)).
    + intros [= <-] _. rewrite lookup_insert_eq. done.
    + intros Hk Hne. apply lookup_insert_is_Some'. right. by eapply cs_held.
  - intros job'. rewrite !lookup_insert_is_Some'. pose proof (cs_util s Hs job') as HU. rewrite HU. tauto.
  - intros job' u. destruct (decide (job' = job)) as [->|Hne].
    + rewrite lookup_insert_eq. intros [= <-]. by apply clamp01_unit.
    + rewrite lookup_insert_ne by done. by apply cs_range.
Qed.

Lemma Release_consistent s job : consistent s -> consistent (Release s job).
Proof.
  intros Hs. unfold Release. set (ks := default [] (gs_jobUnits s !! job)).
  assert (forall k, k ∈ ks -> gs_unitJob s !! k = Some job /\ job <> "") as Hks.
  { intros k. unfold ks. destruct (gs_jobUnits s !! job) as [l|] eqn:E; cbn; [|by intros ?%elem_of_nil].
    destruct (cs_units s Hs job l E) as (? & _ & _ & Hiff). intros Hk. split; [by apply Hiff|done]. }
  assert (forall k, setAll ks "" (gs_unitJob s) !! k = if bool_decide (k ∈ ks) then Some "" else gs_unitJob s !! k) as HL.
  { intros k. rewrite setAll_lookup. destruct (bool_decide_reflect (k ∈ ks)) as [Hk|]; [|done]. by destruct (Hks k Hk) as [-> _]. }
  assert (forall k, gs_unitJob s !! k = Some job -> job <> "" -> k ∈ ks) as Hin.
  { intros k Hk Hne. destruct (cs_held s Hs k job Hk Hne) as [l El]. unfold ks. rewrite El. cbn. by apply (cs_units s Hs job l El). }
  split; cbn.
  - intros job' l. destruct (decide (job' = job)) as [->|Hne]; [by rewrite lookup_delete_eq|].
    rewrite lookup_delete_ne by done. intros El. destruct (cs_units s Hs job' l El) as (? & ? & ? & Hiff).
    split_and!; [done..|]. intros k. rewrite HL, Hiff. destruct (bool_decide_reflect (k ∈ ks)) as [Hk|]; [|done].
    destruct (Hks k Hk) as [-> _]. split; intros [= ?]; congruence.
  - intros k job'. rewrite HL. destruct (bool_decide_reflect (k ∈ ks)) as [|Hk]; [by intros [= <-]|]. intros El Hne.
    destruct (decide (job' = job)) as [->|Hne']; [by destruct Hk; apply Hin|]. rewrite lookup_delete_ne by done. by eapply cs_held.
  - intros job'. rewrite !lookup_delete_is_Some. pose proof (cs_util s Hs job') as HU. rewrite HU. tauto.
  - intros job' u. rewrite lookup_delete_Some. intros [_ H]. by eapply cs_range.
Qed.

(** ** Sums of utilizations *)

(** A sum of [n] terms of the unit interval. *)
Definition within (n : Z) (x : float64) : Prop := nonneg x /\ at_most n x.

Lemma within_add a x y :
  exact_int a -> exact_int (a + 1) -> within a x -> nonneg y -> fle y fone = true -> within (a + 1) (fadd x y).
Proof.
  intros Ea Ea1 [Nx Ax] Ny Hy.
  assert (at_most (a + 1) (fadd x y)) as Has by (apply fadd_at_most; [done|done|done|done|split; [apply Ny|done]]).
  split; [|done]. eapply Rounds_nonneg; [by apply fadd_Rounds|apply Has|].
  destruct (fofZ_sval (a + 1) Ea1) as [N _]. apply N.
Qed.

Lemma within_mono a b x : exact_int a -> exact_int b -> (a <= b)%Z -> within a x -> within b x.
Proof.
  intros Ea Eb Hab [Nx [Vx Ax]]. split; [done|]. split; [done|]. eapply fle_trans; [exact Ax|].
  destruct (fofZ_sval a Ea) as [Na Sa], (fofZ_sval b Eb) as [Nb Sb].
  apply fle_sval; try first [apply Na|apply Nb]. rewrite Sa, Sb. pose proof (pow2_pos scale ltac:(unfold scale; lia)). nia.
Qed.

Lemma deviceSum_within s d : consistent s -> exact_int (gs_perDev s) -> within (gs_perDev s) (deviceSum s d).
Proof.
  intros Hs He. unfold deviceSum. set (start := Z.to_nat (d * gs_perDev s)).
  assert (forall n start a sum, within a sum -> exact_int a -> exact_int (a + Z.of_nat n) ->
    within (a + Z.of_nat n) (fold_left (fun sum k =>
      match gs_unitJob s !! k with
      | Some job => if String.eqb job "" then sum else fadd sum (default fzero (gs_jobUtil s !! job))
      | None => sum
      end) (seq start n) sum)) as H.
  { induction n as [|n IH]; intros st a sum Hw Ea En; cbn [seq fold_left]; [by rewrite Z.add_0_r|].
    assert (exact_int (a + 1)) as E1 by (unfold exact_int in *; lia).
    replace (a + Z.of_nat (S n))%Z with (a + 1 + Z.of_nat n)%Z in * by lia. apply IH; [|done|done].
    destruct (gs_unitJob s !! st) as [job|]; [|by eapply within_mono; [exact Ea|done|lia|]].
    destruct (String.eqb job ""); [by eapply within_mono; [exact Ea|done|lia|]|].
    destruct (gs_jobUtil s !! job) as [u|] eqn:Eu; cbn.
    - destruct (cs_range s Hs job u Eu). by apply within_add.
    - apply within_add; done. }
  specialize (H (Z.to_nat (gs_perDev s)) start 0%Z fzero). unfold exact_int in *. rewrite Z2Nat.id, Z.add_0_l in H by lia.
  by apply H.
Qed.

(** The share of a device whose units ask for more than all of it. *)
Lemma share_of_sum n x :
  exact_int n -> within n x -> flt fone x = true -> flt fzero (fdiv fone x) = true /\ nonneg (fdiv fone x) /\ fle (fdiv fone x) fone = true.
Proof.
  intros En [Nx [Vx Ax]] Hx. assert (nonneg fone) as N1 by done.
  assert (flt fzero x = true) as H0 by (assert (flt fzero fone = true) by done; forder).
  destruct (fdiv_le_one fone x N1 Nx H0 (flt_fle _ _ Hx)) as [Nd Hd]. split; [|done].
  assert (0 < sval x)%Z as Hp by (change 0%Z with (sval fzero); apply flt_sval; try done; apply Nx).
  destruct (fofZ_sval n En) as [Nn Sn].
  assert (sval x <= n * 2 ^ scale)%Z as Hs by (rewrite <- Sn; apply fle_sval; try done; first [apply Nx|apply Nn]).
  set (z := S754_finite false (2 ^ 52) (-105)).
  assert (fle z (fdiv fone x) = true) as Hz.
  { apply (Rounds_ge _ _ _ (fdiv_Rounds fone x N1 Nx Hp)); [done|done|].
    assert (sval z = 2 ^ (scale - 53))%Z as -> by (vm_compute; reflexivity). rewrite sval_one.
    transitivity (2 ^ 53 * 2 ^ scale * 2 ^ (scale - 53))%Z.
    - apply Z.mul_le_mono_nonneg_r; [apply Z.pow_nonneg; lia|]. etrans; [exact Hs|].
      apply Z.mul_le_mono_nonneg_r; [apply Z.pow_nonneg; lia|]. unfold exact_int in En. lia.
    - rewrite <- Z.pow_add_r by (unfold scale; lia). rewrite <- !Z.pow_add_r by (unfold scale; lia).
      apply Z.pow_le_mono_r; unfold scale; lia. }
  assert (flt fzero z = true) by done. forder.
Qed.

(** ** A node's slots over time *)

Inductive slotOp :=
| Starts (job : string) (units : Z) (util : float64)
| Ends (job : string).

Definition runOp (s : GPUSlots) (o : slotOp) : GPUSlots :=
  match o with
  | Starts job units util => (Assign s job units util).2
  | Ends job => Release s job
  end.

(** A job has a name, and its utilization is a number. *)
Definition opOk (o : slotOp) : Prop :=
  match o with Starts job _ util => job <> "" /\ number util | Ends _ => True end.

Lemma runOp_kept s o : gs_perDev (runOp s o) = gs_perDev s /\ length (gs_unitJob (runOp s o)) = length (gs_unitJob s).
Proof.
  destruct o as [job units util|job]; cbn; [|by rewrite setAll_length].
  unfold Assign. destruct (gs_jobUnits s !! job); [done|]. destruct (_ <=? _)%Z; [done|]. cbv zeta.
  destruct (_ <? _)%Z; [done|]. cbn. by rewrite setAll_length.
Qed.

Lemma runOps_consistent s ops : consistent s -> Forall opOk ops ->
  consistent (fold_left runOp ops s) /\ gs_perDev (fold_left runOp ops s) = gs_perDev s.
Proof.
  intros Hs Hops. revert s Hs. induction Hops as [|o ops Ho Hops IH]; intros s Hs; cbn [fold_left]; [done|].
  destruct (runOp_kept s o) as [Hp _]. rewrite <- Hp. apply IH. destruct o as [job units util|job]; [|by apply Release_consistent].
  destruct Ho as [Hj Hu]. cbn. destruct (Assign s job units util) as [[ds ok] s'] eqn:E. by eapply Assign_consistent.
Qed.

Lemma DeviceUtil_unit s u : consistent s -> (gs_perDev s < 2 ^ 53)%Z -> u ∈ DeviceUtil s -> nonneg u /\ fle u fone = true.
Proof.
  intros Hs Hp. unfold DeviceUtil. intros (d & -> & Hd)%list_elem_of_fmap. apply list_elem_of_In, in_seq in Hd.
  assert (0 < gs_perDev s)%Z as H0.
  { unfold Devices, Units in Hd. destruct (Z.eqb_spec (gs_perDev s) 0); [cbn in Hd; lia|].
    destruct (Z.lt_ge_cases 0 (gs_perDev s)); [done|]. exfalso.
    pose proof (Z.quot_opp_r (Z.of_nat (length (gs_unitJob s))) (- gs_perDev s) ltac:(lia)) as Hq.
    rewrite Z.opp_involutive in Hq. rewrite Hq in Hd.
    pose proof (Z.quot_pos (Z.of_nat (length (gs_unitJob s))) (- gs_perDev s) ltac:(lia) ltac:(lia)). lia. }
  assert (exact_int (gs_perDev s)) as He by (unfold exact_int; lia).
  pose proof (deviceSum_within s (Z.of_nat d) Hs He) as [Nx [Vx Ax]].
  assert (nonneg (fmin fone (deviceSum s (Z.of_nat d))) /\ fle (fmin fone (deviceSum s (Z.of_nat d))) fone = true) as Hmin.
  { assert (is_nan (deviceSum s (Z.of_nat d)) = false) as Nn by (apply is_finite_not_nan, Nx).
    assert (fle (fmin fone (deviceSum s (Z.of_nat d))) fone = true) as H1 by by apply fmin_le_l.
    split; [|done]. split; [apply fmin_valid; [done|apply Nx]|].
    assert (fle fzero (fmin fone (deviceSum s (Z.of_nat d))) = true) as H2 by (apply fmin_glb; [done|apply Nx]).
    split; [by apply (finite_between _ fzero fone)|done]. }
  destruct (gs_sharing s); try done. destruct (fofZ_exact (gs_perDev s)) as (Nn & Sn & _); [unfold exact_int in He; lia|].
  apply fdiv_le_one; [done|done| |done].
  apply flt_sval; try done; first [apply Nn|rewrite Sn]. change (sval fzero) with 0%Z.
  pose proof (pow2_pos scale ltac:(unfold scale; lia)). nia.
Qed.

Lemma fmin_pos x y : flt fzero x = true -> flt fzero y = true -> flt fzero (fmin x y) = true.
Proof.
  intros Hx Hy. unfold fmin. destruct (is_ninf x || is_ninf y) eqn:E1.
  { apply orb_true_iff in E1 as [E|E]; [by destruct x as [|[]| |]|by destruct y as [|[]| |]]. }
  destruct (is_nan x || is_nan y) eqn:E2; [apply orb_true_iff in E2 as [E|E]; [by destruct x|by destruct y]|].
  repeat case_match; done.
Qed.

Lemma Share_unit s job : consistent s -> (gs_perDev s < 2 ^ 53)%Z ->
  flt fzero (Share s job) = true /\ fle (Share s job) fone = true.
Proof.
  intros Hs Hp. unfold Share. destruct (gs_sharing s); try done.
  assert (forall d, (0 < gs_perDev s)%Z \/ deviceSum s d = fzero) as Hsum.
  { intros d. destruct (Z.lt_ge_cases 0 (gs_perDev s)); [by left|right]. unfold deviceSum. by rewrite (Z2Nat.nonpos (gs_perDev s)) by lia. }
  assert (forall share u, number share -> flt fzero share = true -> fle share fone = true ->
    let share' := if flt fone (deviceSum s (du_Device u)) then fmin share (fdiv fone (deviceSum s (du_Device u))) else share in
    number share' /\ flt fzero share' = true /\ fle share' fone = true) as Hstep.
  { intros share u [V N] H0 H1. cbv zeta. destruct (flt fone _) eqn:E; [|done].
    destruct (Hsum (du_Device u)) as [Hpos|E0]; [|by rewrite E0 in E].
    assert (exact_int (gs_perDev s)) as He by (unfold exact_int; lia).
    destruct (share_of_sum _ _ He (deviceSum_within s (du_Device u) Hs He) E) as (Hd & Nd & Ld).
    set (q := fdiv fone _) in *. assert (is_nan q = false) as Nq by (apply is_finite_not_nan, Nd).
    split; [split; [apply fmin_valid; [done|apply Nd]|by apply fmin_not_nan]|].
    pose proof (fmin_le_l share q N Nq). pose proof (fmin_not_nan share q N Nq). split; [by apply fmin_pos|forder]. }
  assert (forall l share, number share -> flt fzero share = true -> fle share fone = true ->
    let share' := fold_left (fun share u => if flt fone (deviceSum s (du_Device u))
      then fmin share (fdiv fone (deviceSum s (du_Device u))) else share) l share in
    flt fzero share' = true /\ fle share' fone = true) as Hfold; [|by apply Hfold].
  induction l as [|u l IH]; intros share Hn H0 H1; cbn [fold_left]; [done|].
  destruct (Hstep share u Hn H0 H1) as (? & ? & ?). by apply IH.
Qed.

(** C35. Whatever jobs start and end on a node, its GPU slots stay
    consistent: a unit has at most one job, a job's units are its own and in
    ascending order, and exactly the jobs with units have a utilization.
    Every device then runs between 0 and 1, sliced or not, and a job's share
    of its devices' time is positive and at most 1.
    src/simulator/pkg/workload/gpuslots.go:73-208 *)
Theorem gpu_slots_sound (devices : Z) (exposure : string) (unitsPerDevice : Z) (ops : list slotOp) :
  (unitsPerDevice < 2 ^ 53)%Z -> Forall opOk ops ->
  let s := fold_left runOp ops (NewGPUSlots devices exposure unitsPerDevice) in
  consistent s /\
  (forall u, u ∈ DeviceUtil s -> fle fzero u = true /\ fle u fone = true) /\
  (forall job, flt fzero (Share s job) = true /\ fle (Share s job) fone = true).
Proof.
  intros Hd Hops. cbv zeta.
  destruct (runOps_consistent _ ops (New_consistent devices exposure unitsPerDevice) Hops) as [Hs Hp].
  assert (gs_perDev (fold_left runOp ops (NewGPUSlots devices exposure unitsPerDevice)) < 2 ^ 53)%Z as Hlt.
  { rewrite Hp. cbn. destruct (SharingOf exposure); lia. }
  split; [done|]. split; [|intros job; by apply Share_unit].
  intros u Hu. destruct (DeviceUtil_unit _ u Hs Hlt Hu) as [(_ & _ & H0) H1]. done.
Qed.

(** Two jobs on time-sliced GPUs of two units, and one that ends. *)
Lemma gpu_slots_sound_witness :
  let ops := [Starts "a" 3 fone; Starts "b" 1 fone; Ends "c"] in
  let s := fold_left runOp ops (NewGPUSlots 2 "timeslice-rename" 2) in
  Forall opOk ops /\ Uses s "a" = [{| du_Device := 0; du_Units := 2 |}; {| du_Device := 1; du_Units := 1 |}] /\
  Share s "b" = flit 1 2 /\ consistent s.
Proof.
  set (ops := [Starts "a" 3 fone; Starts "b" 1 fone; Ends "c"]).
  assert (Forall opOk ops) as H by (repeat constructor; done).
  split; [exact H|split; [vm_compute; reflexivity|split; [vm_compute; reflexivity|]]].
  exact (proj1 (gpu_slots_sound 2 "timeslice-rename" 2 ops eq_refl H)).
Defined.

Lemma filter_ext_in {A} (P Q : A -> Prop) `{forall x, Decision (P x)} `{forall x, Decision (Q x)} (l : list A) :
  (forall x, x ∈ l -> P x <-> Q x) -> filter P l = filter Q l.
Proof.
  induction l as [|x l IH]; intros Hl; [done|]. rewrite !filter_cons, IH by (intros y Hy; apply Hl; by right).
  assert (P x <-> Q x) as E by (apply Hl; by left). destruct (decide (P x)), (decide (Q x)); tauto.
Qed.

(** The free units of a node, lowest first. *)
Definition freeUnits (l : list string) : list nat := filter (fun k => l !! k = Some "") (seq 0 (length l)).

Lemma freeFrom_take l k want :
  freeFrom k l want = take want (filter (fun i => l !! (i - k)%nat = Some "") (seq k (length l))).
Proof.
  revert k want. induction l as [|owner l IH]; intros k want; [by destruct want|].
  destruct want as [|want]; [done|]. cbn [freeFrom length seq]. rewrite filter_cons, Nat.sub_diag. cbn [lookup list_lookup].
  assert (filter (fun i => (owner :: l) !! (i - k)%nat = Some "") (seq (S k) (length l)) =
          filter (fun i => l !! (i - S k)%nat = Some "") (seq (S k) (length l))) as E.
  { apply filter_ext_in. intros i Hi%list_elem_of_In%in_seq. by replace (i - k)%nat with (S (i - S k)) by lia. }
  destruct (String.eqb_spec owner "") as [->|Hne].
  - rewrite decide_True by done. cbn [take]. by rewrite IH, E.
  - rewrite decide_False by by intros [= ?]. by rewrite IH, E.
Qed.

Lemma freeFrom_lowest l want : freeFrom 0 l want = take want (freeUnits l).
Proof.
  rewrite freeFrom_take. unfold freeUnits. f_equal. apply filter_ext_in. intros i _. by rewrite Nat.sub_0_r.
Qed.

Lemma Release_Assign s job ks u :
  consistent s -> gs_jobUnits s !! job = None -> (forall k, k ∈ ks -> gs_unitJob s !! k = Some "") ->
  Release {| gs_sharing := gs_sharing s; gs_perDev := gs_perDev s; gs_unitJob := setAll ks job (gs_unitJob s);
             gs_jobUtil := <[job := u]> (gs_jobUtil s); gs_jobUnits := <[job := ks]> (gs_jobUnits s) |} job = s.
Proof.
  intros Hs Hn Hf. unfold Release; cbn [gs_sharing gs_perDev gs_unitJob gs_jobUtil gs_jobUnits].
  rewrite lookup_insert_eq. cbn [from_option id].
  assert (gs_jobUtil s !! job = None) as Hu.
  { apply eq_None_not_Some. rewrite (cs_util s Hs). rewrite Hn. by intros []. }
  rewrite !delete_insert_id by done.
  assert (setAll ks "" (setAll ks job (gs_unitJob s)) = gs_unitJob s) as ->; [|by destruct s].
  apply list_eq. intros k. rewrite !setAll_lookup. destruct (bool_decide_reflect (k ∈ ks)) as [Hk|]; [|done].
  by rewrite (Hf k Hk).
Qed.

Lemma Release_absent s job : consistent s -> gs_jobUnits s !! job = None -> Release s job = s.
Proof.
  intros Hs Hn. unfold Release. rewrite Hn. cbn. rewrite !delete_id by (first [done|apply eq_None_not_Some;
    rewrite (cs_util s Hs), Hn; by intros []]). by destruct s.
Qed.

(** A job that starts takes the lowest free units, all or none: it is
    refused exactly when fewer are free than it asks for, and a refusal
    changes nothing; when the job ends, the slots are as they were before it
    started. src/simulator/pkg/workload/gpuslots.go:108-142 *)
Theorem gpu_assign_release (s : GPUSlots) (job : string) (units : Z) (util : float64) :
  consistent s -> gs_jobUnits s !! job = None -> (0 < units)%Z ->
  let '(devices, ok, s') := Assign s job units util in
  (ok = true <-> (units <= Z.of_nat (length (freeUnits (gs_unitJob s))))%Z) /\
  (ok = true -> gs_jobUnits s' !! job = Some (take (Z.to_nat units) (freeUnits (gs_unitJob s))) /\
    devices = devicesOf s' job) /\
  (ok = false -> devices = [] /\ s' = s) /\
  Release s' job = s.
Proof.
  intros Hs Hn H0. destruct (Assign s job units util) as [[ds ok] s'] eqn:E.
  apply Assign_cases in E as [(Hsome & _)|[(_ & -> & -> & -> & Hno)|(_ & -> & -> & _ & Hlen & ->)]].
  - rewrite Hn in Hsome. by destruct Hsome.
  - cbv zeta in Hno. rewrite freeFrom_lowest, length_take in Hno.
    split; [split; [done|lia]|]. split; [done|]. split; [done|]. by apply Release_absent.
  - rewrite freeFrom_lowest, length_take in Hlen. split; [split; [lia|done]|]. split; [|split; [done|]].
    + intros _. cbn. by rewrite lookup_insert_eq, freeFrom_lowest.
    + apply Release_Assign; [done|done|]. intros k Hk.
      destruct (freeFrom_spec 0 (gs_unitJob s) (Z.to_nat units)) as (_ & _ & Hfree & _).
      destruct (Hfree k Hk) as [_ H]. by rewrite Nat.sub_0_r in H.
Qed.

Lemma gpu_assign_release_witness :
  let s := NewGPUSlots 2 "mig-single" 7 in
  consistent s /\ let '(devices, ok, s') := Assign s "a" 8 fone in ok = true /\ devices = [0%Z; 1%Z] /\ Release s' "a" = s.
Proof.
  set (s := NewGPUSlots 2 "mig-single" 7). pose proof (New_consistent 2 "mig-single" 7 : consistent s) as Hs.
  split; [exact Hs|]. pose proof (gpu_assign_release s "a" 8 fone Hs eq_refl eq_refl) as H.
  destruct (Assign s "a" 8 fone) as [[ds ok] s'] eqn:E. destruct H as (_ & _ & _ & H).
  assert (ok = true /\ ds = [0%Z; 1%Z]) as [H1 H2].
  { assert ((Assign s "a" 8 fone).1 = (ds, ok)) as E' by (rewrite E; reflexivity). vm_compute in E'. injection E' as <- <-. split; reflexivity. }
  split; [exact H1|split; [exact H2|exact H]].
Defined.
