(* ===== verification/SimNames.v ===== *)
(** * Object names of a simulated run: simulator/pkg/workload/names.go

    The key of a group of trace jobs and the Kubernetes name of the object it
    becomes, with the FNV-64a hash that tells apart keys that sanitize to the
    same text. [strconv.FormatFloat] is an argument. *)

From S2P Require Import Prelude GoString GoFloat Host PromQuery.

#[local] Open Scope string_scope.
#[local] Open Scope list_scope.

(** src/simulator/pkg/workload/names.go:17-21 [NamePrefix] *)
Definition NamePrefix := "sim-".
Definition MaxNameKeyLen : nat := 37.
Definition MaxObjectNameLen : nat := 50.

(** [hash/fnv.New64a]: every byte is xored in, then the hash multiplied. *)
Definition fnvOffset64 : N := 14695981039346656037.
Definition fnvPrime64 : N := 1099511628211.

Definition fnvWrite (h : N) (s : string) : N :=
  fold_left (fun h a => (N.lxor h (byte_of a) * fnvPrime64) mod 2 ^ 64)%N (list_ascii_of_string s) h.

(** The verb [%08x] on a number of 32 bits. *)
Definition hex8 (n : N) : string :=
  string_of_list_ascii ((fun i => hexDigit (N.shiftr n (4 * i) mod 16)%N) <$> [7; 6; 5; 4; 3; 2; 1; 0]%N).

(** [strings.TrimRight] with a set of ASCII characters. *)
Definition trim_right (P : ascii -> bool) (l : list ascii) : list ascii := rev (drop_while P (rev l)).

Definition nameRune (a : ascii) : bool := is_lower a || is_digit a || is_dash a.

(** src/simulator/pkg/workload/names.go:50-68 [sanitizeName] *)
Definition sanitizeName (in_ : string) (max : nat) : string :=
  let in_ := ToLower (TrimSpace in_) in
  let b := (fun r => match r with Some a => if nameRune a then a else "-"%char | None => "-"%char end)
             <$> runes (list_ascii_of_string in_) in
  let out := trim_list is_dash b in
  let out := if (max <? length out)%nat then trim_right is_dash (take max out) else out in
  match out with [] => "job" | _ => string_of_list_ascii out end.

(** src/simulator/pkg/workload/names.go:72-77 [labelValue] *)
Definition labelValue (in_ : string) : string :=
  if String.eqb (TrimSpace in_) "" then "" else sanitizeName in_ 63.

(** src/simulator/pkg/workload/names.go:25-33 [ObjectName] *)
Definition ObjectName (runID groupKey : string) : string :=
  let h := fnvWrite (fnvWrite (fnvWrite fnvOffset64 runID) (String "000" "")) groupKey in
  NamePrefix +:+ sanitizeName groupKey MaxNameKeyLen +:+ "-" +:+ hex8 (N.shiftr h 32).

(** src/simulator/pkg/workload/names.go:39-44 [GroupKey] *)
Definition GroupKey (FormatFloat : float64 -> string) (jobID workloadID podRole : string) (submitOffsetSec : float64) : string :=
  if String.eqb workloadID "" then jobID
  else workloadID +:+ "/" +:+ podRole +:+ "@" +:+ FormatFloat submitOffsetSec.

(** The published test vectors of FNV-64a. *)
Example fnv_vectors :
  fnvWrite fnvOffset64 "a" = 0xaf63dc4c8601ec8c%N /\ fnvWrite fnvOffset64 "foobar" = 0x85944171f73967e8%N.
Proof. vm_compute. split; reflexivity. Qed.

Example name_of_group : sanitizeName " GPU/Train_Worker@3.5" MaxNameKeyLen = "gpu-train-worker-3-5".
Proof. vm_compute. reflexivity. Qed.

(** ** Names are DNS labels *)

Definition alnum (a : ascii) : bool := is_lower a || is_digit a.

(** RFC 1123: letters, digits and dashes, with a letter or digit at each
    end, at most 63 characters. *)
Definition dnsLabel (s : string) : Prop :=
  let l := list_ascii_of_string s in
  Forall (fun a => nameRune a = true) l /\ (1 <= length l <= 63)%nat /\
  (exists a, head l = Some a /\ alnum a = true) /\ (exists a, last l = Some a /\ alnum a = true).

Lemma drop_while_head P l a : head (drop_while P l) = Some a -> P a = false.
Proof. induction l as [|b l IH]; [done|]. cbn. destruct (P b) eqn:E; [done|]. by intros [= <-]. Qed.

Lemma trim_right_prefix P l : exists post, l = trim_right P l ++ post.
Proof.
  unfold trim_right. destruct (drop_while_suffix P (rev l)) as [pre E]. exists (rev pre).
  rewrite <- rev_app_distr, <- E. by rewrite rev_involutive.
Qed.

Lemma trim_right_last P l a : last (trim_right P l) = Some a -> P a = false.
Proof.
  unfold trim_right. destruct (drop_while P (rev l)) as [|b l'] eqn:E; [done|]. cbn [rev]. rewrite last_snoc.
  intros [= <-]. apply (drop_while_head P (rev l)). by rewrite E.
Qed.

(** A text of name characters without a dash at either end. *)
Definition trimmedName (l : list ascii) : Prop :=
  Forall (fun a => nameRune a = true) l /\ (forall a, head l = Some a -> is_dash a = false) /\
  (forall a, last l = Some a -> is_dash a = false).

Lemma trim_list_eq P l : trim_list P l = trim_right P (drop_while P l).
Proof. reflexivity. Qed.

Lemma head_prefix {A} (l post : list A) a : head l = Some a -> head (l ++ post) = Some a.
Proof. by destruct l. Qed.

Lemma trim_right_name l :
  Forall (fun a => nameRune a = true) l -> (forall a, head l = Some a -> is_dash a = false) -> trimmedName (trim_right is_dash l).
Proof.
  intros Hc Hh. destruct (trim_right_prefix is_dash l) as [post E]. split; [|split; [|apply trim_right_last]].
  - rewrite E in Hc. by apply Forall_app in Hc as [? _].
  - intros a Ha. apply Hh. rewrite E. by apply head_prefix.
Qed.

Lemma trim_list_name l : Forall (fun a => nameRune a = true) l -> trimmedName (trim_list is_dash l).
Proof.
  intros Hc. rewrite trim_list_eq. apply trim_right_name; [|apply drop_while_head].
  destruct (drop_while_suffix is_dash l) as [pre E]. rewrite E in Hc. by apply Forall_app in Hc as [_ ?].
Qed.

Lemma nameRune_alnum a : nameRune a = true -> is_dash a = false -> alnum a = true.
Proof. unfold nameRune, alnum. intros H Hd. by rewrite Hd, orb_false_r in H. Qed.

Lemma trimmedName_ends l : trimmedName l -> l <> [] ->
  (exists a, head l = Some a /\ alnum a = true) /\ (exists a, last l = Some a /\ alnum a = true).
Proof.
  intros (Hc & Hh & Hl) Hne. rewrite Forall_forall in Hc. split.
  - destruct l as [|a l]; [done|]. exists a. split; [done|]. apply nameRune_alnum; [apply Hc; by left|by apply Hh].
  - destruct (last l) as [a|] eqn:E; [|by apply last_None in E]. exists a. split; [done|].
    apply nameRune_alnum; [apply Hc; by apply last_Some_elem_of|by apply Hl].
Qed.

Lemma sanitizeName_label in_ max :
  (0 < max)%nat ->
  let l := list_ascii_of_string (sanitizeName in_ max) in
  trimmedName l /\ l <> [] /\ (length l <= Nat.max max 3)%nat.
Proof.
  intros Hmax. unfold sanitizeName. cbv zeta. set (b := _ <$> runes _).
  assert (Forall (fun a => nameRune a = true) b) as Hb.
  { unfold b. apply Forall_fmap, Forall_true. intros [a|]; cbn; [|done]. by destruct (nameRune a) eqn:E. }
  set (out := trim_list is_dash b). assert (trimmedName out) as Ho by by apply trim_list_name.
  set (out' := if (max <? length out)%nat then _ else out).
  assert (trimmedName out' /\ (length out' <= max)%nat) as [Ho' Hl].
  { unfold out'. destruct (Nat.ltb_spec max (length out)); [|done]. destruct Ho as (Hc & Hh & _). split.
    - apply trim_right_name; [by apply Forall_take|]. intros a Ha. apply Hh. destruct max; [lia|]. by destruct out.
    - destruct (trim_right_prefix is_dash (take max out)) as [post E].
      apply (f_equal length) in E. rewrite length_app, length_take in E. lia. }
  destruct out' as [|a l]; [|rewrite list_ascii_of_string_of_list_ascii; split; [done|split; [done|lia]]].
  split; [|split; [done|cbn; lia]]. split; [by repeat constructor|]. split; intros a; cbn; intros [= <-]; done.
Qed.

Lemma hexDigit_alnum n : (n < 16)%N -> alnum (hexDigit n) = true.
Proof.
  intros H. assert (forallb (fun n => alnum (hexDigit n)) (N.of_nat <$> seq 0 16) = true) as Hall by (vm_compute; reflexivity).
  rewrite forallb_forall in Hall. apply Hall, list_elem_of_In, list_elem_of_fmap. exists (N.to_nat n).
  split; [by rewrite N2Nat.id|]. apply list_elem_of_In, in_seq. lia.
Qed.

Lemma hex8_alnum n : Forall (fun a => alnum a = true) (list_ascii_of_string (hex8 n)) /\ length (list_ascii_of_string (hex8 n)) = 8.
Proof.
  unfold hex8. rewrite list_ascii_of_string_of_list_ascii. split; [|done].
  apply Forall_fmap, Forall_true. intros i. cbn [compose]. apply hexDigit_alnum, N.mod_lt. done.
Qed.

Lemma alnum_nameRune a : alnum a = true -> nameRune a = true.
Proof. unfold alnum, nameRune. by intros ->. Qed.

(** Every object of a run has a name Kubernetes accepts: whatever the
    run id and the key, it is a DNS label (letters, digits and dashes, a
    letter or digit at each end) of at most 50 characters, so the hostname
    of an indexed pod still fits the 63 of a label; and a label value made
    of a trace's word is empty or such a label.
    src/simulator/pkg/workload/names.go:17-77 *)
Theorem ObjectName_label (runID groupKey in_ : string) :
  dnsLabel (ObjectName runID groupKey) /\
  (String.length (ObjectName runID groupKey) <= MaxObjectNameLen)%nat /\
  (labelValue in_ = "" \/ dnsLabel (labelValue in_)).
Proof.
  set (n := N.shiftr (fnvWrite (fnvWrite (fnvWrite fnvOffset64 runID) (String "000" "")) groupKey) 32).
  destruct (sanitizeName_label groupKey MaxNameKeyLen) as ((Hc & _ & _) & _ & Hlen); [unfold MaxNameKeyLen; lia|].
  destruct (hex8_alnum n) as [Hh H8].
  assert (list_ascii_of_string (ObjectName runID groupKey) =
    list_ascii_of_string NamePrefix ++ list_ascii_of_string (sanitizeName groupKey MaxNameKeyLen) ++
    "-"%char :: list_ascii_of_string (hex8 n))%list as E by (unfold ObjectName; fold n; by rewrite !list_ascii_app).
  assert (length (list_ascii_of_string (ObjectName runID groupKey)) <= 50)%nat as Hle.
  { rewrite E, !length_app. cbn [length]. rewrite H8. change (length (list_ascii_of_string NamePrefix)) with 4.
    change (Nat.max MaxNameKeyLen 3) with 37 in Hlen. lia. }
  split; [|split; [by rewrite <- length_list_ascii|]].
  - unfold dnsLabel. rewrite E. split; [|split; [|split]].
    + repeat apply Forall_app_2; [by repeat constructor|done|]. constructor; [done|].
      eapply Forall_impl; [exact Hh|]. apply alnum_nameRune.
    + rewrite <- E. split; [|lia]. rewrite E, length_app. cbn. lia.
    + exists "s"%char. done.
    + destruct (list_ascii_of_string (hex8 n)) as [|a l] eqn:El using rev_ind; [done|]. exists a.
      rewrite app_assoc, app_comm_cons, app_assoc. rewrite last_snoc. split; [done|].
      apply Forall_app in Hh as [_ Hh]. by apply Forall_cons in Hh as [? _].
  - unfold labelValue. destruct (String.eqb (TrimSpace in_) ""); [by left|]. right.
    destruct (sanitizeName_label in_ 63) as (Ht & Hne & Hlen'); [lia|]. unfold dnsLabel.
    destruct (trimmedName_ends _ Ht Hne) as [H1 H2]. split; [apply Ht|]. split; [|done].
    destruct (list_ascii_of_string (sanitizeName in_ 63)); [done|]. cbn [length] in *. lia.
Qed.
