(* ===== verification/SimPlacement.v ===== *)
(** * Where a simulated workload may run: simulator/pkg/workload/placement.go

    The placement of a trace job merged with the run's options, and the
    intent of a performance pod merged into its node affinity. Pod affinities
    and preferred terms are carried as they are; matching two tolerations is
    the API library's. *)

From S2P Require Import Prelude GoString Kube Api Fsm.

#[local] Open Scope string_scope.
#[local] Open Scope list_scope.

(** ** Data *)

(** src/simulator/pkg/workload/keys.go:108-112 [ClassPerformance] *)
Definition ClassPerformance := "performance".
Definition ClassStandard := "standard".
Definition ClassIdle := "idle".

(** src/simulator/pkg/workload/keys.go:40-53 [Intent] *)
Definition IntentAnnotation := "annotation".
Definition IntentAffinity := "affinity".
Definition IntentBoth := "both".
Definition IntentNone := "none".

(** src/simulator/pkg/workload/placement.go:15-15 [profileEco] *)
Definition profileEco := "eco".

(** src/simulator/pkg/workload/keys.go:131-131 [LabelPowerProfile] *)
Definition LabelPowerProfile := "joulie.io/power-profile".

(** A term of a node selector: requirements on labels and on fields. *)
Record SelectorTerm := { t_Expressions : list NodeSelectorRequirement; t_Fields : list NodeSelectorRequirement }.

Record Toleration := {
  tl_Key : string; tl_Operator : string; tl_Value : string; tl_Effect : string; tl_Seconds : option Z
}.

(** src/simulator/pkg/clusterspec/types.go:29-47 [LabelCluster] *)
Definition LabelCluster := "sim.joulie.io/cluster".
Definition LabelPool := "sim.joulie.io/pool".
Definition AnnotationProfile := "sim.joulie.io/profile".
Definition LabelRack := "joulie.io/rack".
Definition LabelCoolingZone := "joulie.io/cooling-zone".
Definition KWOKAnnotation := "kwok.x-k8s.io/node".
Definition KWOKTaintKey := "kwok.x-k8s.io/node".
Definition KWOKValue := "fake".

Section Affinity.
Context {Preferred PodAffinity PodAntiAffinity : Type}.

(** [corev1.NodeAffinity] and [corev1.Affinity]. *)
Record NodeAffinity := { na_Required : option (list SelectorTerm); na_Preferred : list Preferred }.
Record Affinity := { af_Node : option NodeAffinity; af_Pod : option PodAffinity; af_PodAnti : option PodAntiAffinity }.

Definition noAffinity : Affinity := {| af_Node := None; af_Pod := None; af_PodAnti := None |}.
Definition noNodeAffinity : NodeAffinity := {| na_Required := None; na_Preferred := [] |}.

(** src/simulator/pkg/workload/placement.go:20-24 [Placement] *)
Record Placement := {
  pl_Affinity : option Affinity;
  pl_NodeSelector : gmap string string;
  pl_Tolerations : list Toleration
}.

(** ** The intent *)

(** src/simulator/pkg/workload/placement.go:97-99 [notInEco] *)
Definition notInEco : NodeSelectorRequirement :=
  {| nsr_Key := LabelPowerProfile; nsr_Operator := OpNotIn; nsr_Values := [profileEco] |}.

(** src/simulator/pkg/workload/placement.go:101-113 [termExcludesEco] *)
Definition termExcludesEco (term : SelectorTerm) : bool :=
  existsb (fun e => String.eqb (nsr_Key e) LabelPowerProfile && String.eqb (nsr_Operator e) OpNotIn &&
    existsb (fun v => String.eqb v profileEco) (nsr_Values e)) (t_Expressions term).

(** One required term.
    src/simulator/pkg/workload/placement.go:84-93 [MergeIntent] *)
Definition excludeEco (term : SelectorTerm) : SelectorTerm :=
  match t_Expressions term, t_Fields term with
  | [], [] => term
  | _, _ =>
      if termExcludesEco term then term
      else {| t_Expressions := t_Expressions term ++ [notInEco]; t_Fields := t_Fields term |}
  end.

(** src/simulator/pkg/workload/placement.go:66-95 [MergeIntent] *)
Definition MergeIntent (aff : option Affinity) (class intent : string) : option Affinity :=
  if negb (String.eqb class ClassPerformance) || (negb (String.eqb intent IntentAffinity) && negb (String.eqb intent IntentBoth))
  then aff
  else
    let out := default noAffinity aff in
    let node := default noNodeAffinity (af_Node out) in
    let required :=
      match na_Required node with
      | None | Some [] => [{| t_Expressions := [notInEco]; t_Fields := [] |}]
      | Some terms => excludeEco <$> terms
      end in
    Some {| af_Node := Some {| na_Required := Some required; na_Preferred := na_Preferred node |};
            af_Pod := af_Pod out; af_PodAnti := af_PodAnti out |}.

(** ** The merge *)

(** src/simulator/pkg/workload/placement.go:118-123 [DefaultNodeSelector] *)
Definition DefaultNodeSelector (cluster : string) : gmap string string :=
  if String.eqb cluster "" then ∅ else {[LabelCluster := cluster]}.

(** src/simulator/pkg/workload/placement.go:128-135 [KWOKToleration] *)
Definition KWOKToleration : Toleration := {|
  tl_Key := KWOKTaintKey; tl_Operator := "Equal"; tl_Value := KWOKValue; tl_Effect := "NoSchedule"; tl_Seconds := None
|}.

Variable MatchToleration : Toleration -> Toleration -> bool.

(** src/simulator/pkg/workload/placement.go:173-178 [ptrEqual] *)
Definition ptrEqual (a b : option Z) : bool :=
  match a, b with None, None => true | Some a, Some b => (a =? b)%Z | _, _ => false end.

(** src/simulator/pkg/workload/placement.go:164-171 [hasToleration] *)
Definition hasToleration (l : list Toleration) (t : Toleration) : bool :=
  existsb (fun x => MatchToleration x t && ptrEqual (tl_Seconds x) (tl_Seconds t)) l.

(** The options a placement is merged with.
    src/simulator/pkg/workload/placement.go:142-162 [mergePlacement] *)
Definition mergePlacement (p : Placement) (class intent : string) (selector : gmap string string)
    (tolerations : list Toleration) : Placement := {|
  pl_Affinity := MergeIntent (pl_Affinity p) class intent;
  pl_NodeSelector := map_fold (fun k v m => <[k := v]> m) (map_fold (fun k v m => <[k := v]> m) ∅ selector) (pl_NodeSelector p);
  pl_Tolerations := fold_left (fun out t => if hasToleration out t then out else out ++ [t]) tolerations (pl_Tolerations p)
|}.

End Affinity.

Arguments NodeAffinity : clear implicits.
Arguments Affinity : clear implicits.
Arguments Placement : clear implicits.

(** ** What the scheduler makes of it *)

Section Scheduling.
Context {Preferred PodAffinity PodAntiAffinity : Type}.
Notation Aff := (Affinity Preferred PodAffinity PodAntiAffinity).

(** Kubernetes' documented matching: a requirement on labels, with the
    operator NotIn read out and the others left to the library; a term
    matches when it has a requirement and all of them hold; required terms
    are alternatives. *)
Variable other : NodeSelectorRequirement -> gmap string string -> bool.
Variable fieldHolds : NodeSelectorRequirement -> bool.

Definition holds (r : NodeSelectorRequirement) (labels : gmap string string) : bool :=
  if String.eqb (nsr_Operator r) OpNotIn then
    match labels !! nsr_Key r with None => true | Some v => negb (existsb (fun x => String.eqb x v) (nsr_Values r)) end
  else other r labels.

Definition termMatches (t : SelectorTerm) (labels : gmap string string) : bool :=
  match t_Expressions t, t_Fields t with
  | [], [] => false
  | es, fs => forallb (fun e => holds e labels) es && forallb fieldHolds fs
  end.

Definition requiredTerms (aff : option Aff) : option (list SelectorTerm) :=
  match aff with Some a => match af_Node a with Some n => na_Required n | None => None end | None => None end.

Definition admits (aff : option Aff) (labels : gmap string string) : bool :=
  match requiredTerms aff with
  | None => true
  | Some terms => existsb (fun t => termMatches t labels) terms
  end.

Definition isEco (labels : gmap string string) : bool :=
  match labels !! LabelPowerProfile with Some v => String.eqb v profileEco | None => false end.

Lemma holds_notInEco labels : holds notInEco labels = negb (isEco labels).
Proof.
  unfold holds, isEco. cbn [nsr_Operator notInEco nsr_Key nsr_Values existsb]. rewrite String.eqb_refl.
  destruct (labels !! LabelPowerProfile) as [v|]; [|done]. rewrite orb_false_r. by rewrite String.eqb_sym.
Qed.

Lemma termExcludesEco_spec t labels : termExcludesEco t = true -> isEco labels = true -> forallb (fun e => holds e labels) (t_Expressions t) = false.
Proof.
  unfold termExcludesEco. intros H He. apply existsb_exists in H as (e & Hin & Hb).
  apply andb_true_iff in Hb as [[Hk Ho]%andb_true_iff Hv]. apply String.eqb_eq in Hk, Ho.
  destruct (forallb _ _) eqn:E; [|done]. rewrite forallb_forall in E. specialize (E e Hin). unfold holds in E.
  rewrite Ho, Hk, String.eqb_refl in E. unfold isEco in He. destruct (labels !! LabelPowerProfile) as [v|]; [|done].
  apply String.eqb_eq in He as ->. by rewrite Hv in E.
Qed.

Lemma termMatches_nonempty t labels :
  (t_Expressions t <> [] \/ t_Fields t <> []) ->
  termMatches t labels = forallb (fun e => holds e labels) (t_Expressions t) && forallb fieldHolds (t_Fields t).
Proof. unfold termMatches. destruct (t_Expressions t), (t_Fields t); try done. by intros [?|?]. Qed.

Lemma excludeEco_nonempty t :
  (t_Expressions t <> [] \/ t_Fields t <> []) ->
  excludeEco t = if termExcludesEco t then t else {| t_Expressions := t_Expressions t ++ [notInEco]; t_Fields := t_Fields t |}.
Proof. unfold excludeEco. destruct (t_Expressions t) eqn:E1, (t_Fields t) eqn:E2; try done. by intros [?|?]. Qed.

Lemma excludeEco_matches t labels : termMatches (excludeEco t) labels = termMatches t labels && negb (isEco labels).
Proof.
  assert ((t_Expressions t = [] /\ t_Fields t = []) \/ (t_Expressions t <> [] \/ t_Fields t <> [])) as [[E1 E2]|Hne].
  { destruct (t_Expressions t); [|right; by left]. destruct (t_Fields t); [by left|right; by right]. }
  { unfold excludeEco. rewrite E1, E2. unfold termMatches. by rewrite E1, E2. }
  rewrite excludeEco_nonempty, (termMatches_nonempty t) by done. destruct (termExcludesEco t) eqn:E.
  - rewrite termMatches_nonempty by done. destruct (isEco labels) eqn:Ei; [|by rewrite andb_true_r].
    by rewrite (termExcludesEco_spec t labels E Ei).
  - rewrite termMatches_nonempty by (left; cbn; by destruct (t_Expressions t)). cbn [t_Expressions t_Fields].
    rewrite forallb_app. cbn [forallb]. rewrite holds_notInEco.
    by destruct (forallb _ (t_Expressions t)), (forallb _ (t_Fields t)), (isEco labels).
Qed.

(** C37. A performance pod that declares its class by affinity never runs on
    an eco node, and reaches every other node it could reach before: the
    requirement is added to each required term, not as one of its own, and
    an empty term, which matches nothing, stays empty. A pod of another
    class, or with another intent, keeps its affinity.
    src/simulator/pkg/workload/placement.go:66-113 *)
Theorem MergeIntent_avoids_eco (aff : option Aff) (class intent : string) (labels : gmap string string) :
  requiredTerms aff <> Some [] ->
  let aff' := MergeIntent aff class intent in
  if String.eqb class ClassPerformance && (String.eqb intent IntentAffinity || String.eqb intent IntentBoth)
  then admits aff' labels = admits aff labels && negb (isEco labels)
  else aff' = aff.
Proof.
  intros Hne. cbv zeta. unfold MergeIntent.
  destruct (String.eqb class ClassPerformance); [|done]. destruct (String.eqb intent IntentAffinity || String.eqb intent IntentBoth) eqn:Ei;
    [|by apply orb_false_iff in Ei as [-> ->]].
  assert (negb (String.eqb intent IntentAffinity) && negb (String.eqb intent IntentBoth) = false) as ->.
  { by destruct (String.eqb intent IntentAffinity), (String.eqb intent IntentBoth). }
  cbn [negb orb andb]. unfold admits. cbn [requiredTerms af_Node na_Required].
  assert (forall terms, terms <> [] -> (match terms with [] => [{| t_Expressions := [notInEco]; t_Fields := [] |}] | _ => excludeEco <$> terms end) = excludeEco <$> terms)
    as Hterms by by intros [].
  assert (forall terms, existsb (fun t => termMatches t labels) (excludeEco <$> terms) =
    existsb (fun t => termMatches t labels) terms && negb (isEco labels)) as Hex.
  { induction terms as [|t terms IH]; [done|]. cbn [fmap list_fmap existsb]. rewrite excludeEco_matches, IH.
    by destruct (termMatches t labels), (isEco labels), (existsb _ terms). }
  assert (existsb (fun t => termMatches t labels) [{| t_Expressions := [notInEco]; t_Fields := [] |}] = negb (isEco labels)) as Hone.
  { cbn [existsb termMatches t_Expressions t_Fields forallb]. rewrite holds_notInEco. by destruct (isEco labels). }
  destruct aff as [[[[[[|t terms]|] prefs]|] pa paa]|]; try (cbn in Hne; done); try exact Hone.
  cbn [default from_option id af_Node na_Required requiredTerms]. apply Hex.
Qed.

End Scheduling.

(** A pod pinned to two zones, each a term. *)
Definition zoneTerm (zone : string) : SelectorTerm := {|
  t_Expressions := [{| nsr_Key := "zone"; nsr_Operator := OpIn; nsr_Values := [zone] |}]; t_Fields := []
|}.

Definition zonesAffinity : Affinity unit unit unit := {|
  af_Node := Some {| na_Required := Some [zoneTerm "a"; zoneTerm "b"]; na_Preferred := [] |}; af_Pod := None; af_PodAnti := None
|}.

Definition holdsIn (r : NodeSelectorRequirement) (labels : gmap string string) : bool :=
  match labels !! nsr_Key r with Some v => str_mem v (nsr_Values r) | None => false end.

Lemma MergeIntent_avoids_eco_witness :
  let eco := {["zone" := "b"; LabelPowerProfile := "eco"]} : gmap string string in
  let aff' := MergeIntent (Some zonesAffinity) "performance" "affinity" in
  requiredTerms (Some zonesAffinity) <> Some [] /\
  admits holdsIn (fun _ => true) (Some zonesAffinity) eco = true /\ admits holdsIn (fun _ => true) aff' eco = false /\
  admits holdsIn (fun _ => true) aff' {["zone" := "b"]} = true.
Proof.
  set (eco := {["zone" := "b"; LabelPowerProfile := "eco"]} : gmap string string).
  assert (requiredTerms (Some zonesAffinity) <> Some []) as Hne by discriminate.
  assert (admits holdsIn (fun _ => true) (Some zonesAffinity) eco = true) as He by (vm_compute; reflexivity).
  split; [exact Hne|split; [exact He|split]].
  - etrans; [exact (MergeIntent_avoids_eco holdsIn (fun _ => true) (Some zonesAffinity) "performance" "affinity" eco Hne)|].
    rewrite He. vm_compute. reflexivity.
  - vm_compute. reflexivity.
Defined.

(** ** The trace's placement wins *)

Section Merge.
Context {Preferred PodAffinity PodAntiAffinity : Type} (MatchToleration : Toleration -> Toleration -> bool).
Notation Place := (Placement Preferred PodAffinity PodAntiAffinity).

Lemma fold_insert_union (m acc : gmap string string) : map_fold (fun k v m => <[k := v]> m) acc m = m ∪ acc.
Proof.
  induction m as [|k v m Hk Hfirst IH] using map_first_key_ind; [by rewrite map_fold_empty, (left_id_L ∅ (∪))|].
  rewrite map_fold_insert_first_key by done. rewrite IH. by rewrite insert_union_l.
Qed.

Lemma mergePlacement_selector (p : Place) class intent selector tolerations k :
  pl_NodeSelector (mergePlacement MatchToleration p class intent selector tolerations) !! k =
  match pl_NodeSelector p !! k with Some v => Some v | None => selector !! k end.
Proof.
  cbn [pl_NodeSelector mergePlacement]. rewrite !fold_insert_union, (right_id_L ∅ (∪)), lookup_union.
  destruct (pl_NodeSelector p !! k), (selector !! k); done.
Qed.

End Merge.
