(* ===== verification/SimBuild.v ===== *)
(** * The objects of a simulated run: simulator/pkg/workload/build.go

    Trace jobs gathered into groups, one Job object per group, and the
    objects built of them. Quantities are the API library's, as are the
    equality of two pod templates ([SemanticEqual]) and of two tolerations;
    the formatting of floats and the hash behind a run's label are
    arguments. *)

From S2P Require Import Prelude GoString GoFloat GoSlices Kube SimNames SimPlacement GpuSlots.

#[local] Open Scope string_scope.
#[local] Open Scope list_scope.

Section Build.
Context `{QuantityOps} {Preferred PodAffinity PodAntiAffinity : Type}.
Notation Place := (Placement Preferred PodAffinity PodAntiAffinity).

(** ** Data *)

(** src/simulator/pkg/workload/build.go:18-23 [Profile] *)
Record Profile := { pf_CPUUtil : float64; pf_GPUUtil : float64; pf_MemoryIntensity : float64; pf_IOIntensity : float64 }.

(** src/simulator/pkg/workload/build.go:28-39 [Template] *)
Record Template := {
  tp_Namespace : string; tp_WorkloadID : string; tp_WorkloadType : string; tp_PodRole : string;
  tp_Class : string; tp_Gang : bool; tp_SubmitOffsetSec : float64;
  tp_Requests : gmap string Quantity; tp_Placement : Place; tp_Profile : Profile
}.

(** src/simulator/pkg/workload/build.go:42-45 [JobSpec] *)
Record JobSpec := { js_JobID : string; js_Template : Template }.

(** src/simulator/pkg/workload/build.go:50-54 [Group] *)
Record Group := { g_Key : string; g_Template : Template; g_JobIDs : list string }.

(** ** Groups *)

(** [strconv.FormatFloat] in the format f, with the precision given. *)
Variable FormatFloat : float64 -> Z -> string.
Variable SemanticEqual : Template -> Template -> bool.

(** The key of a job, and whether it has no workload.
    src/simulator/pkg/workload/build.go:67-70 [partKey] *)
Definition partKey : Type := string * bool.

(** src/simulator/pkg/workload/build.go:75-76 [GroupJobs] *)
Definition partOf (j : JobSpec) : partKey :=
  let t := js_Template j in
  (GroupKey (fun x => FormatFloat x (-1)) (js_JobID j) (tp_WorkloadID t) (tp_PodRole t) (tp_SubmitOffsetSec t),
   String.eqb (tp_WorkloadID t) "").

(** The variables of the loop.
    src/simulator/pkg/workload/build.go:71-73 [GroupJobs] *)
Record grouping := {
  gr_groups : list Group;
  gr_parts : gmap partKey (list nat);
  gr_used : gset string;
  gr_split : gset string
}.

(** The next key that is free, [None] should the fuel run out.
    src/simulator/pkg/workload/build.go:93-95 [GroupJobs] *)
Fixpoint freeKey (fuel : nat) (used : gset string) (key gkey : string) (i : Z) : option string :=
  if bool_decide (gkey ∈ used) then
    match fuel with
    | O => None
    | S fuel => freeKey fuel used key (key +:+ "#" +:+ Itoa i) (i + 1)
    end
  else Some gkey.

(** The group of a part whose pods equal the job's.
    src/simulator/pkg/workload/build.go:78-84 [GroupJobs] *)
Definition placeIn (groups : list Group) (part : list nat) (j : JobSpec) : option nat :=
  head (filter (fun gi =>
    match groups !! gi with Some g => SemanticEqual (g_Template g) (js_Template j) | None => false end = true) part).

(** One job.
    src/simulator/pkg/workload/build.go:74-99 [GroupJobs] *)
Definition groupJob (st : grouping) (j : JobSpec) : option grouping :=
  let pk := partOf j in
  let part := default [] (gr_parts st !! pk) in
  match placeIn (gr_groups st) part j with
  | Some gi =>
      Some {| gr_groups := alter (fun g => {| g_Key := g_Key g; g_Template := g_Template g; g_JobIDs := g_JobIDs g ++ [js_JobID j] |}) gi (gr_groups st);
              gr_parts := gr_parts st; gr_used := gr_used st; gr_split := gr_split st |}
  | None =>
      let n := Z.of_nat (length part) in
      let gkey := if (0 <? n)%Z then pk.1 +:+ "#" +:+ Itoa (n + 1) else pk.1 in
      let split := if (0 <? n)%Z then {[pk.1]} ∪ gr_split st else gr_split st in
      match freeKey (S (size (gr_used st))) (gr_used st) pk.1 gkey (n + 2) with
      | None => None
      | Some gkey =>
          Some {| gr_groups := gr_groups st ++ [{| g_Key := gkey; g_Template := js_Template j; g_JobIDs := [js_JobID j] |}];
                  gr_parts := <[pk := part ++ [length (gr_groups st)]]> (gr_parts st);
                  gr_used := {[gkey]} ∪ gr_used st; gr_split := split |}
      end
  end.

Fixpoint groupAll (st : grouping) (jobs : list JobSpec) : option grouping :=
  match jobs with
  | [] => Some st
  | j :: jobs => match groupJob st j with Some st => groupAll st jobs | None => None end
  end.

Definition noGroups : grouping := {| gr_groups := []; gr_parts := ∅; gr_used := ∅; gr_split := ∅ |}.

(** src/simulator/pkg/workload/build.go:66-105 [GroupJobs] *)
Definition GroupJobs (jobs : list JobSpec) : option (list Group * list string) :=
  match groupAll noGroups jobs with
  | Some st => Some (gr_groups st, sort_strings (elements (gr_split st)))
  | None => None
  end.

(** ** Free keys *)

Lemma Itoa_inj_nonneg a b : (0 <= a)%Z -> (0 <= b)%Z -> Itoa a = Itoa b -> a = b.
Proof.
  intros Ha Hb E. pose proof (uint_Itoa a Ha) as H1. rewrite E, uint_Itoa in H1 by done.
  injection H1 as H1. apply DecimalN.Unsigned.to_uint_inj in H1. lia.
Qed.

Definition suffixed (key : string) (n : Z) : string := key +:+ "#" +:+ Itoa n.

Lemma suffixed_inj key a b : (0 <= a)%Z -> (0 <= b)%Z -> suffixed key a = suffixed key b -> a = b.
Proof. unfold suffixed. intros Ha Hb E. apply app_string_inj_l, app_string_inj_l in E. by apply Itoa_inj_nonneg. Qed.

(** A search that runs out of fuel has found every key it tried in use. *)
Lemma freeKey_tried fuel used key gkey i :
  freeKey fuel used key gkey i = None ->
  forall m, (m < fuel)%nat -> suffixed key (i + Z.of_nat m) ∈ used.
Proof.
  revert gkey i. induction fuel as [|fuel IH]; intros gkey i; cbn [freeKey]; [lia|].
  destruct (bool_decide_reflect (gkey ∈ used)); [|done]. intros Hf m Hm. specialize (IH _ _ Hf).
  destruct m as [|m]; [|specialize (IH m ltac:(lia)); by replace (i + Z.of_nat (S m))%Z with (i + 1 + Z.of_nat m)%Z by lia].
  rewrite Z.add_0_r. destruct fuel as [|fuel]; cbn [freeKey] in Hf;
    destruct (bool_decide_reflect (key +:+ "#" +:+ Itoa i ∈ used)); done.
Qed.

Lemma freeKey_found fuel used key gkey i :
  (0 <= i)%Z -> (size used < fuel)%nat -> exists k, freeKey fuel used key gkey i = Some k.
Proof.
  intros Hi Hs. destruct (freeKey fuel used key gkey i) as [k|] eqn:E; [by exists k|]. exfalso.
  pose proof (freeKey_tried _ _ _ _ _ E) as Hin.
  set (tried := (fun m => suffixed key (i + Z.of_nat m)) <$> seq 0 fuel).
  assert (NoDup tried) as Hnd.
  { apply NoDup_fmap_2_strong; [|apply NoDup_ListNoDup, seq_NoDup]. intros a b _ _ Hab. apply suffixed_inj in Hab; lia. }
  assert (list_to_set tried ⊆ used) as Hsub.
  { intros k Hk. apply elem_of_list_to_set, list_elem_of_fmap in Hk as (m & -> & Hm).
    apply Hin. apply list_elem_of_In, in_seq in Hm. lia. }
  apply subseteq_size in Hsub. rewrite size_list_to_set in Hsub by done. unfold tried in Hsub.
  rewrite length_fmap, length_seq in Hsub. lia.
Qed.

Lemma freeKey_free fuel used key gkey i k : freeKey fuel used key gkey i = Some k -> k ∉ used.
Proof.
  revert gkey i. induction fuel as [|fuel IH]; intros gkey i; cbn [freeKey];
    destruct (bool_decide_reflect (gkey ∈ used)); try done; [by intros [= <-]|apply IH|by intros [= <-]].
Qed.

(** ** What the groups are *)

(** Two jobs that share a group: the same part, and pods that are equal. *)
Definition sameGroup (a b : JobSpec) : bool := bool_decide (partOf a = partOf b) && SemanticEqual (js_Template a) (js_Template b).

(** The library's equality is an equivalence. *)
Class EqualLaws : Prop := {
  equal_refl t : SemanticEqual t t = true;
  equal_sym t u : SemanticEqual t u = true -> SemanticEqual u t = true;
  equal_trans t u v : SemanticEqual t u = true -> SemanticEqual u v = true -> SemanticEqual t v = true
}.
Context `{!EqualLaws}.

Lemma sameGroup_true a b : sameGroup a b = true <-> partOf a = partOf b /\ SemanticEqual (js_Template a) (js_Template b) = true.
Proof. unfold sameGroup. by rewrite andb_true_iff, bool_decide_eq_true. Qed.

Lemma sameGroup_refl a : sameGroup a a = true.
Proof. apply sameGroup_true. split; [done|apply equal_refl]. Qed.

Lemma sameGroup_sym a b : sameGroup a b = true -> sameGroup b a = true.
Proof. rewrite !sameGroup_true. intros [-> H1]. split; [done|by apply equal_sym]. Qed.

Lemma sameGroup_trans a b c : sameGroup a b = true -> sameGroup b c = true -> sameGroup a c = true.
Proof. rewrite !sameGroup_true. intros [-> H1] [-> H2]. split; [done|by eapply equal_trans]. Qed.

(** The ids of a job's group among [l], in order. *)
Definition members (a : JobSpec) (l : list JobSpec) : list string := js_JobID <$> filter (fun b => sameGroup a b = true) l.

Lemma members_snoc a l j : members a (l ++ [j]) = members a l ++ (if sameGroup a j then [js_JobID j] else []).
Proof.
  unfold members. rewrite filter_app, fmap_app. f_equal. rewrite filter_cons, filter_nil.
  destruct (sameGroup a j) eqn:E; [by rewrite decide_True|by rewrite decide_False by congruence].
Qed.

Lemma members_none a l : (forall b, b ∈ l -> sameGroup a b = false) -> members a l = [].
Proof.
  intros Ha. unfold members. induction l as [|b l IH]; [done|]. rewrite filter_cons, decide_False by (rewrite Ha; [done|by left]).
  apply IH. intros c Hc. apply Ha. by right.
Qed.

(** The state after the jobs [l]; [reps] are the jobs that opened the groups. *)
Record grouped (l : list JobSpec) (st : grouping) (reps : list JobSpec) : Prop := {
  gd_groups i : (fun g => (g_Template g, g_JobIDs g)) <$> gr_groups st !! i = (fun a => (js_Template a, members a l)) <$> reps !! i;
  gd_parts pk : default [] (gr_parts st !! pk) = filter (fun i => partOf <$> reps !! i = Some pk) (seq 0 (length reps));
  gd_keys : NoDup (g_Key <$> gr_groups st) /\ gr_used st = list_to_set (g_Key <$> gr_groups st);
  gd_apart i k a b : reps !! i = Some a -> reps !! k = Some b -> sameGroup a b = true -> i = k;
  gd_reps a : a ∈ reps -> a ∈ l;
  gd_all j : j ∈ l -> exists a, a ∈ reps /\ sameGroup a j = true
}.

Lemma grouped_length l st reps : grouped l st reps -> length (gr_groups st) = length reps.
Proof.
  intros Hg. apply Nat.le_antisymm; apply Nat.nlt_ge; intros Hlt.
  - apply lookup_lt_is_Some_2 in Hlt as [g Eg]. pose proof (gd_groups _ _ _ Hg (length reps)) as E.
    by rewrite Eg, lookup_ge_None_2 in E.
  - apply lookup_lt_is_Some_2 in Hlt as [a Ea]. pose proof (gd_groups _ _ _ Hg (length (gr_groups st))) as E.
    by rewrite Ea, (lookup_ge_None_2 (gr_groups st)) in E.
Qed.

Lemma placeIn_spec l st reps j :
  grouped l st reps ->
  match placeIn (gr_groups st) (default [] (gr_parts st !! partOf j)) j with
  | Some gi => exists a, reps !! gi = Some a /\ sameGroup a j = true
  | None => forall a, a ∈ reps -> sameGroup a j = false
  end.
Proof.
  intros Hg. unfold placeIn. rewrite (gd_parts _ _ _ Hg).
  set (P := fun gi => match gr_groups st !! gi with Some g => SemanticEqual (g_Template g) (js_Template j) | None => false end = true).
  set (part := filter _ (seq 0 (length reps))).
  assert (forall gi, gi ∈ filter P part <-> exists a, reps !! gi = Some a /\ sameGroup a j = true) as Hiff.
  { intros gi. unfold part. rewrite !list_elem_of_filter. unfold P. pose proof (gd_groups _ _ _ Hg gi) as E. split.
    - intros (Hse & Hpk & _). apply fmap_Some in Hpk as (a & Ea & Hpk). rewrite Ea in E |- *.
      destruct (gr_groups st !! gi) as [g|]; [|discriminate Hse]. injection E as Et _. exists a. split; [done|].
      apply sameGroup_true. split; [done|]. by rewrite <- Et.
    - intros (a & Ea & [Hpk Hse]%sameGroup_true). rewrite Ea in E |- *. destruct (gr_groups st !! gi) as [g|]; [|discriminate E].
      injection E as Et _. split; [by rewrite Et|]. split; [cbn; by f_equal|].
      apply list_elem_of_In, in_seq. apply lookup_lt_Some in Ea. lia. }
  destruct (filter P part) as [|gi rest] eqn:E; cbn.
  - intros a (gi & Ea)%list_elem_of_lookup. destruct (sameGroup a j) eqn:Es; [|done].
    exfalso. apply (not_elem_of_nil gi), Hiff. by exists a.
  - apply Hiff. by left.
Qed.

(** A job that joins a group. *)
Lemma grouped_join l st reps j gi a :
  grouped l st reps -> reps !! gi = Some a -> sameGroup a j = true ->
  grouped (l ++ [j])
    {| gr_groups := alter (fun g => {| g_Key := g_Key g; g_Template := g_Template g; g_JobIDs := g_JobIDs g ++ [js_JobID j] |}) gi (gr_groups st);
       gr_parts := gr_parts st; gr_used := gr_used st; gr_split := gr_split st |} reps.
Proof.
  intros Hg Ha Hs. split; cbn.
  - intros i. pose proof (gd_groups _ _ _ Hg i) as E. destruct (decide (i = gi)) as [->|Hne].
    + rewrite list_lookup_alter_eq. rewrite Ha in E |- *. destruct (gr_groups st !! gi) as [g|]; [|discriminate E].
      cbn in E |- *. injection E as -> ->. by rewrite members_snoc, Hs.
    + rewrite list_lookup_alter_ne by done. rewrite E. destruct (reps !! i) as [b|] eqn:Eb; [|done]. cbn.
      rewrite members_snoc. destruct (sameGroup b j) eqn:Es; [|by rewrite app_nil_r]. exfalso. apply Hne.
      apply (gd_apart _ _ _ Hg i gi b a Eb Ha). eapply sameGroup_trans; [exact Es|by apply sameGroup_sym].
  - apply (gd_parts _ _ _ Hg).
  - assert (g_Key <$> alter (fun g => {| g_Key := g_Key g; g_Template := g_Template g; g_JobIDs := g_JobIDs g ++ [js_JobID j] |}) gi (gr_groups st) =
      g_Key <$> gr_groups st) as ->; [|apply (gd_keys _ _ _ Hg)].
    apply list_eq. intros i. rewrite !list_lookup_fmap. destruct (decide (i = gi)) as [->|Hne].
    + rewrite list_lookup_alter_eq. by destruct (gr_groups st !! gi).
    + by rewrite list_lookup_alter_ne.
  - apply (gd_apart _ _ _ Hg).
  - intros b Hb. apply elem_of_app. left. by apply (gd_reps _ _ _ Hg).
  - intros k [Hk|Hk%list_elem_of_singleton]%elem_of_app; [by apply (gd_all _ _ _ Hg)|]. subst k.
    exists a. split; [by eapply list_elem_of_lookup_2|done].
Qed.

(** A job that opens a group. *)
Lemma grouped_open l st reps j gkey split :
  grouped l st reps -> (forall a, a ∈ reps -> sameGroup a j = false) -> gkey ∉ gr_used st ->
  grouped (l ++ [j])
    {| gr_groups := gr_groups st ++ [{| g_Key := gkey; g_Template := js_Template j; g_JobIDs := [js_JobID j] |}];
       gr_parts := <[partOf j := default [] (gr_parts st !! partOf j) ++ [length (gr_groups st)]]> (gr_parts st);
       gr_used := {[gkey]} ∪ gr_used st; gr_split := split |} (reps ++ [j]).
Proof.
  intros Hg Hno Hfree. pose proof (grouped_length _ _ _ Hg) as Hlen.
  assert (forall b, b ∈ l -> sameGroup j b = false) as Hl.
  { intros b Hb. destruct (sameGroup j b) eqn:E; [|done]. destruct (gd_all _ _ _ Hg b Hb) as (a & Ha & Hab).
    enough (sameGroup a j = true) by (rewrite Hno in *; done).
    eapply sameGroup_trans; [exact Hab|by apply sameGroup_sym]. }
  split; cbn.
  - intros i. destruct (decide (i < length reps)%nat) as [Hi|Hi].
    + rewrite !lookup_app_l by lia. rewrite (gd_groups _ _ _ Hg i). destruct (reps !! i) as [b|] eqn:Eb; [|done]. cbn.
      rewrite members_snoc, Hno by (by eapply list_elem_of_lookup_2). by rewrite app_nil_r.
    + rewrite !lookup_app_r by lia. rewrite Hlen. destruct (i - length reps)%nat as [|m]; [|done]. cbn.
      by rewrite members_snoc, sameGroup_refl, members_none.
  - intros pk. rewrite length_app, seq_app, filter_app. cbn [length seq plus].
    assert (filter (fun i => partOf <$> (reps ++ [j]) !! i = Some pk) (seq 0 (length reps)) =
            filter (fun i => partOf <$> reps !! i = Some pk) (seq 0 (length reps))) as ->.
    { apply filter_ext_in. intros i Hi%list_elem_of_In%in_seq. by rewrite lookup_app_l by lia. }
    rewrite <- (gd_parts _ _ _ Hg pk). rewrite filter_cons, filter_nil.
    rewrite lookup_app_r, Nat.sub_diag by lia. cbn. destruct (decide (partOf j = pk)) as [<-|Hne].
    + rewrite lookup_insert_eq, decide_True by done. cbn. by rewrite Hlen.
    + rewrite lookup_insert_ne, decide_False by (done || congruence). by rewrite app_nil_r.
  - destruct (gd_keys _ _ _ Hg) as [Hnd Hu]. rewrite fmap_app. cbn. split.
    + apply NoDup_app. split; [done|]. split; [|apply NoDup_singleton].
      intros k Hk ->%list_elem_of_singleton. apply Hfree. rewrite Hu. by apply elem_of_list_to_set.
    + rewrite Hu, list_to_set_app_L. set_solver.
  - assert (forall i a, (reps ++ [j]) !! i = Some a -> reps !! i = Some a \/ (i = length reps /\ a = j)) as Hcase.
    { intros i a [Ha|[Hi Ha]]%lookup_app_Some; [by left|]. right. apply list_lookup_singleton_Some in Ha as [? ->]. split; [lia|done]. }
    intros i k a b [Ha|[-> ->]]%Hcase [Hb|[-> ->]]%Hcase Hab; [by eapply gd_apart| | |done].
    + rewrite Hno in Hab by (by eapply list_elem_of_lookup_2). done.
    + apply sameGroup_sym in Hab. rewrite Hno in Hab by (by eapply list_elem_of_lookup_2). done.
  - intros a [Ha|Ha%list_elem_of_singleton]%elem_of_app; apply elem_of_app; [left; by apply (gd_reps _ _ _ Hg)|right; set_solver].
  - intros k [Hk|Hk%list_elem_of_singleton]%elem_of_app.
    + destruct (gd_all _ _ _ Hg k Hk) as (a & Ha & Hak). exists a. split; [apply elem_of_app; by left|done].
    + subst k. exists j. split; [apply elem_of_app; right; by left|apply sameGroup_refl].
Qed.

Lemma groupJob_grouped l st reps j : grouped l st reps -> exists st' reps', groupJob st j = Some st' /\ grouped (l ++ [j]) st' reps'.
Proof.
  intros Hg. unfold groupJob. cbv zeta. pose proof (placeIn_spec l st reps j Hg) as Hp.
  destruct (placeIn _ _ j) as [gi|].
  { destruct Hp as (a & Ha & Hs). eexists _, reps. split; [reflexivity|]. by eapply grouped_join. }
  set (part := default [] (gr_parts st !! partOf j)) in *.
  destruct (freeKey_found (S (size (gr_used st))) (gr_used st) (partOf j).1
    (if (0 <? Z.of_nat (length part))%Z then (partOf j).1 +:+ "#" +:+ Itoa (Z.of_nat (length part) + 1) else (partOf j).1)
    (Z.of_nat (length part) + 2)) as [gkey E]; [lia|lia|]. rewrite E.
  eexists _, (reps ++ [j]). split; [reflexivity|]. apply grouped_open; [done|done|by eapply freeKey_free].
Qed.

Lemma noGroups_grouped : grouped [] noGroups [].
Proof.
  split; cbn.
  - done.
  - intros pk. by rewrite lookup_empty.
  - split; [constructor|done].
  - intros i k a b Ha. by rewrite lookup_nil in Ha.
  - done.
  - by intros j Hj%elem_of_nil.
Qed.

Lemma groupAll_grouped jobs l st reps :
  grouped l st reps -> exists st' reps', groupAll st jobs = Some st' /\ grouped (l ++ jobs) st' reps'.
Proof.
  revert l st reps. induction jobs as [|j jobs IH]; intros l st reps Hg; cbn [groupAll].
  { exists st, reps. by rewrite app_nil_r. }
  destruct (groupJob_grouped l st reps j Hg) as (st1 & reps1 & -> & H1).
  destruct (IH _ _ _ H1) as (st2 & reps2 & -> & H2). exists st2, reps2. split; [done|]. by rewrite <- app_assoc in H2.
Qed.

(** C34. Grouping ends (the search for a free key tries at most one key more
    than there are in use) and yields exactly the classes of jobs that share
    a key and a pod: each group has the template of a job of the trace and
    holds the ids of the jobs of its class, in the trace's order; no class
    has two groups, every job is in one, and no two groups share a key.
    src/simulator/pkg/workload/build.go:66-105 *)
Theorem GroupJobs_classes (jobs : list JobSpec) :
  exists groups split reps,
    GroupJobs jobs = Some (groups, split) /\ NoDup (g_Key <$> groups) /\ length groups = length reps /\
    (forall i g a, groups !! i = Some g -> reps !! i = Some a ->
      a ∈ jobs /\ g_Template g = js_Template a /\ g_JobIDs g = members a jobs) /\
    (forall i k a b, reps !! i = Some a -> reps !! k = Some b -> sameGroup a b = true -> i = k) /\
    (forall j, j ∈ jobs -> exists a, a ∈ reps /\ sameGroup a j = true /\ js_JobID j ∈ members a jobs).
Proof.
  destruct (groupAll_grouped jobs [] noGroups [] noGroups_grouped) as (st & reps & E & Hg).
  exists (gr_groups st), (sort_strings (elements (gr_split st))), reps. unfold GroupJobs. rewrite E. split; [done|].
  split; [apply (gd_keys _ _ _ Hg)|]. split; [by eapply grouped_length|]. split; [|split; [apply (gd_apart _ _ _ Hg)|]].
  - intros i g a Hgi Ha. pose proof (gd_groups _ _ _ Hg i) as Ei. rewrite Hgi, Ha in Ei. injection Ei as E1 E2.
    split; [|done]. apply (gd_reps _ _ _ Hg). by eapply list_elem_of_lookup_2.
  - intros j Hj. destruct (gd_all _ _ _ Hg j Hj) as (a & Ha & Hs). exists a. split; [done|]. split; [done|].
    apply list_elem_of_fmap. exists j. split; [done|]. by apply list_elem_of_filter.
Qed.
End Build.

(** ** An example *)

Definition sampleTemplate `{QuantityOps} (workload class : string) : Template (Preferred := unit) (PodAffinity := unit) (PodAntiAffinity := unit) := {|
  tp_Namespace := ""; tp_WorkloadID := workload; tp_WorkloadType := ""; tp_PodRole := "worker"; tp_Class := class; tp_Gang := false;
  tp_SubmitOffsetSec := fzero; tp_Requests := ∅;
  tp_Placement := {| pl_Affinity := None; pl_NodeSelector := ∅; pl_Tolerations := [] |};
  tp_Profile := {| pf_CPUUtil := fone; pf_GPUUtil := fzero; pf_MemoryIntensity := fzero; pf_IOIntensity := fzero |}
|}.

(** A workload of two kinds of pod, and a job of its own whose id reads like
    the key of the workload's second group. *)
Definition sampleJobs `{QuantityOps} : list JobSpec := [
  {| js_JobID := "a"; js_Template := sampleTemplate "w" "performance" |};
  {| js_JobID := "w/worker@0#2"; js_Template := sampleTemplate "" "standard" |};
  {| js_JobID := "b"; js_Template := sampleTemplate "w" "standard" |};
  {| js_JobID := "c"; js_Template := sampleTemplate "w" "performance" |}
].

Definition zeroFormat (_ : float64) (_ : Z) : string := "0".

Definition sameClass `{QuantityOps} (t u : Template (Preferred := unit) (PodAffinity := unit) (PodAntiAffinity := unit)) : bool :=
  String.eqb (tp_Class t) (tp_Class u).

Lemma GroupJobs_classes_witness :
  (fun r : list (Group (H := integer_quantity)) * list string => ((fun g => (g_Key g, g_JobIDs g)) <$> r.1, r.2)) <$> GroupJobs zeroFormat sameClass sampleJobs =
    Some ([("w/worker@0", ["a"; "c"]); ("w/worker@0#2", ["w/worker@0#2"]); ("w/worker@0#3", ["b"])], ["w/worker@0"]) /\
  exists groups split reps, GroupJobs zeroFormat sameClass (sampleJobs (H := integer_quantity)) = Some (groups, split) /\ NoDup (g_Key <$> groups) /\
    length groups = length (reps : list (JobSpec (H := integer_quantity) (Preferred := unit) (PodAffinity := unit) (PodAntiAffinity := unit))).
Proof.
  split; [vm_compute; reflexivity|].
  assert (EqualLaws (H := integer_quantity) sameClass) as HL.
  { split; unfold sameClass; [intros t; apply String.eqb_refl|intros t u; rewrite !String.eqb_eq; congruence|
      intros t u v; rewrite !String.eqb_eq; congruence]. }
  destruct (GroupJobs_classes (H := integer_quantity) zeroFormat sameClass sampleJobs) as (groups & split & reps & H1 & H2 & H3 & _).
  exists groups, split, reps. split; [exact H1|split; [exact H2|exact H3]].
Defined.
