(* ===== verification/SimObjects.v ===== *)
(** * The pods and Job objects of a simulated run: simulator/pkg/workload/build.go

    The Kubernetes objects a group of trace jobs becomes, with the intent a
    performance pod declares, and what the controller manager makes of that
    declaration. The run's label, a hash, is an argument. *)

From S2P Require Import Prelude GoString GoFloat GoSlices Kube Api Policy Fsm SimNames SimPlacement SimBuild.

#[local] Open Scope string_scope.
#[local] Open Scope list_scope.

(** src/simulator/pkg/workload/keys.go:117-132 [LabelPartOf] *)
Definition LabelPartOf := "app.kubernetes.io/part-of".
Definition PartOfWorkload := "joulie-sim-workload".
Definition LabelRunID := "sim.joulie.io/run-id".
Definition LabelWorkloadType := "sim.joulie.io/workload-type".
Definition LabelPodRole := "sim.joulie.io/pod-role".

(** src/simulator/pkg/workload/keys.go:135-166 [AnnotationRun] *)
Definition AnnotationRun := "sim.joulie.io/run".
Definition AnnotationJobIDs := "sim.joulie.io/job-ids".
Definition AnnotationGroup := "sim.joulie.io/group".
Definition AnnotationJobID := "sim.joulie.io/jobId".
Definition AnnotationCPUUtilPct := "sim.joulie.io/cpu-util-pct".
Definition AnnotationGPUUtilPct := "sim.joulie.io/gpu-util-pct".
Definition AnnotationMemoryPressurePct := "sim.joulie.io/memory-pressure-pct".
Definition AnnotationIOIntensity := "sim.joulie.io/io-intensity".
Definition AnnotationWorkloadClass := "joulie.io/workload-class".

(** src/simulator/pkg/workload/keys.go:169-178 [ContainerName] *)
Definition ContainerName := "work".
Definition DefaultImage := "registry.k8s.io/pause:3.9".

(** src/simulator/pkg/workload/keys.go:274-274 [DefaultIntent] *)
Definition DefaultIntent := IntentAnnotation.

(** [int32(n)]. *)
Definition wrap32 (n : Z) : Z := ((n + 2 ^ 31) mod 2 ^ 32 - 2 ^ 31)%Z.

Section Objects.
Context `{QuantityOps} {Preferred PodAffinity PodAntiAffinity : Type}.
Notation Place := (Placement Preferred PodAffinity PodAntiAffinity).
Notation Tpl := (Template (Preferred := Preferred) (PodAffinity := PodAffinity) (PodAntiAffinity := PodAntiAffinity)).
Variable FormatFloat : float64 -> Z -> string.
Variable MatchToleration : Toleration -> Toleration -> bool.
Variable RunLabelValue : string -> string.

(** src/simulator/pkg/workload/build.go:108-125 [BuildOptions] *)
Record BuildOptions := {
  bo_RunID : string; bo_Intent : string; bo_Image : string; bo_Namespace : string;
  bo_NodeSelector : gmap string string; bo_Tolerations : list Toleration; bo_JobTTL : Z
}.

(** src/simulator/pkg/workload/build.go:127-132 [intent] *)
Definition intentOf (o : BuildOptions) : string := if String.eqb (bo_Intent o) "" then DefaultIntent else bo_Intent o.

(** src/simulator/pkg/workload/build.go:180-188 [namespace] *)
Definition namespaceOf (t : Tpl) (o : BuildOptions) : string :=
  if negb (String.eqb (bo_Namespace o) "") then bo_Namespace o
  else if negb (String.eqb (TrimSpace (tp_Namespace t)) "") then tp_Namespace t
  else "default".

(** src/simulator/pkg/workload/build.go:191-203 [objectLabels] *)
Definition objectLabels (t : Tpl) (o : BuildOptions) : gmap string string :=
  let l := <[LabelRunID := RunLabelValue (bo_RunID o)]> {[LabelPartOf := PartOfWorkload]} in
  let v := labelValue (tp_WorkloadType t) in
  let l := if negb (String.eqb v "") then <[LabelWorkloadType := v]> l else l in
  let v := labelValue (tp_PodRole t) in
  if negb (String.eqb v "") then <[LabelPodRole := v]> l else l.

(** src/simulator/pkg/workload/build.go:249-257 [isExtendedResource] *)
Definition isExtendedResource (name : string) : bool :=
  let '(domain, _, qualified) := Cut name "/" in
  qualified && (negb (String.eqb domain "kubernetes.io") && negb (HasSuffix domain ".kubernetes.io")).

(** The pod template: metadata, the one container and the placement. *)
Record PodTemplate := {
  pt_Labels : gmap string string; pt_Annotations : gmap string string;
  pt_Image : string; pt_Requests : gmap string Quantity; pt_Limits : gmap string Quantity;
  pt_Placement : Place
}.

(** The limits hold the requests of extended resources.
    src/simulator/pkg/workload/build.go:221-229 [podTemplate] *)
Definition limitsOf (requests : gmap string Quantity) : gmap string Quantity :=
  filter (fun r => isExtendedResource r.1 = true) requests.

(** src/simulator/pkg/workload/build.go:210-245 [podTemplate] *)
Definition podTemplate (t : Tpl) (groupKey : string) (o : BuildOptions) : PodTemplate :=
  let p := tp_Profile t in
  let pct x := FormatFloat (fmul x (fofZ 100)) 1 in
  let ann : gmap string string := list_to_map
    [(AnnotationGroup, groupKey); (AnnotationCPUUtilPct, pct (pf_CPUUtil p)); (AnnotationGPUUtilPct, pct (pf_GPUUtil p));
     (AnnotationMemoryPressurePct, pct (pf_MemoryIntensity p)); (AnnotationIOIntensity, FormatFloat (pf_IOIntensity p) 2)] in
  let ann := if String.eqb (intentOf o) IntentAnnotation || String.eqb (intentOf o) IntentBoth
             then <[AnnotationWorkloadClass := tp_Class t]> ann else ann in
  {| pt_Labels := objectLabels t o; pt_Annotations := ann;
     pt_Image := if String.eqb (bo_Image o) "" then DefaultImage else bo_Image o;
     pt_Requests := tp_Requests t; pt_Limits := limitsOf (tp_Requests t);
     pt_Placement := mergePlacement MatchToleration (tp_Placement t) (tp_Class t) (intentOf o) (bo_NodeSelector o) (bo_Tolerations o) |}.

(** The Job object of a group. *)
Record Job := {
  jb_Name : string; jb_Namespace : string; jb_Labels : gmap string string; jb_Annotations : gmap string string;
  jb_Parallelism : Z; jb_Completions : Z; jb_Indexed : bool; jb_BackoffLimit : Z;
  jb_TTLSecondsAfterFinished : option Z; jb_Template : PodTemplate
}.

(** src/simulator/pkg/workload/build.go:137-166 [BuildJob] *)
Definition BuildJob (g : Group (Preferred := Preferred) (PodAffinity := PodAffinity) (PodAntiAffinity := PodAntiAffinity))
    (o : BuildOptions) : Job :=
  let n := wrap32 (Z.of_nat (length (g_JobIDs g))) in
  let secs := wrap32 (Z.quot (bo_JobTTL o) 1000000000) in
  {| jb_Name := ObjectName (bo_RunID o) (g_Key g); jb_Namespace := namespaceOf (g_Template g) o;
     jb_Labels := objectLabels (g_Template g) o;
     jb_Annotations := <[AnnotationRun := bo_RunID o]> {[AnnotationJobIDs := Join (g_JobIDs g) ","]};
     jb_Parallelism := n; jb_Completions := n; jb_Indexed := (1 <? n)%Z; jb_BackoffLimit := 0;
     jb_TTLSecondsAfterFinished := if (0 <? secs)%Z then Some secs else None;
     jb_Template := podTemplate (g_Template g) (g_Key g) o |}.

(** A bare pod: its name, its namespace and its template.
    src/simulator/pkg/workload/build.go:171-178 [BuildPod] *)
Definition BuildPod (j : JobSpec (Preferred := Preferred) (PodAffinity := PodAffinity) (PodAntiAffinity := PodAntiAffinity))
    (o : BuildOptions) : string * string * PodTemplate :=
  let t := js_Template j in
  let tpl := podTemplate t (GroupKey (fun x => FormatFloat x (-1)) (js_JobID j) (tp_WorkloadID t) (tp_PodRole t) (tp_SubmitOffsetSec t)) o in
  (ObjectName (bo_RunID o) (js_JobID j), namespaceOf t o,
   {| pt_Labels := pt_Labels tpl;
      pt_Annotations := <[AnnotationRun := bo_RunID o]> (<[AnnotationJobID := js_JobID j]> (pt_Annotations tpl));
      pt_Image := pt_Image tpl; pt_Requests := pt_Requests tpl; pt_Limits := pt_Limits tpl; pt_Placement := pt_Placement tpl |}).

(** ** What the controller manager reads *)

(** A pod of a template, as the API server shows it to the controller. *)
Definition seenPod (annotations selector : gmap string string) (aff : option (Affinity Preferred PodAffinity PodAntiAffinity))
    (node phase : string) : Pod := {|
  p_NodeName := node; p_Annotations := annotations; p_NodeSelector := selector;
  p_RequiredTerms := option_map (map t_Expressions) (requiredTerms aff);
  p_Containers := []; p_InitContainers := []; p_DeletionTimestamp := None; p_Phase := phase
|}.

Definition podOf (t : PodTemplate) (node phase : string) : Pod :=
  seenPod (pt_Annotations t) (pl_NodeSelector (pt_Placement t)) (pl_Affinity (pt_Placement t)) node phase.

(** A performance pod says so unless its intent is none, or is only by an
    affinity all of whose terms are empty, so that it can run nowhere. *)
Definition reachable (aff : option (Affinity Preferred PodAffinity PodAntiAffinity)) : bool :=
  match requiredTerms aff with
  | None | Some [] => true
  | Some terms => existsb (fun t => match t_Expressions t, t_Fields t with [], [] => false | _, _ => true end) terms
  end.

Definition declares (t : Tpl) (o : BuildOptions) : bool :=
  String.eqb (tp_Class t) ClassPerformance &&
  ((String.eqb (intentOf o) IntentAnnotation || String.eqb (intentOf o) IntentBoth) ||
   (String.eqb (intentOf o) IntentAffinity && reachable (pl_Affinity (tp_Placement t)))).

Lemma exprExcludesEco_notInEco : exprExcludesEco notInEco = true.
Proof. vm_compute. reflexivity. Qed.

Lemma termExcludesEco_controller t : termExcludesEco t = true -> existsb exprExcludesEco (t_Expressions t) = true.
Proof.
  unfold termExcludesEco. intros H1. apply existsb_exists in H1 as (e & He & [[Hk Ho]%andb_true_iff Hv]%andb_true_iff).
  apply existsb_exists. exists e. split; [done|]. unfold exprExcludesEco. apply String.eqb_eq in Hk, Ho. rewrite Hk, Ho.
  apply existsb_exists in Hv as (v & Hin & ->%String.eqb_eq). change (String.eqb LabelPowerProfile PowerProfileLabelKey) with true.
  change (String.eqb OpNotIn OpNotIn) with true. cbn [andb]. unfold containsString. apply existsb_exists. by exists profileEco.
Qed.

Lemma excludeEco_controller t :
  existsb exprExcludesEco (t_Expressions (excludeEco t)) =
  existsb exprExcludesEco (t_Expressions t) || match t_Expressions t, t_Fields t with [], [] => false | _, _ => true end.
Proof.
  assert ((t_Expressions t = [] /\ t_Fields t = []) \/ (t_Expressions t <> [] \/ t_Fields t <> [])) as [[E1 E2]|Hne].
  { destruct (t_Expressions t); [|right; by left]. destruct (t_Fields t); [by left|right; by right]. }
  { unfold excludeEco. by rewrite E1, E2, E1. }
  assert (match t_Expressions t, t_Fields t with [], [] => false | _, _ => true end = true) as ->.
  { destruct (t_Expressions t), (t_Fields t); try done. by destruct Hne. }
  rewrite orb_true_r, excludeEco_nonempty by done. destruct (termExcludesEco t) eqn:E; [by apply termExcludesEco_controller|].
  cbn [t_Expressions]. rewrite existsb_app. cbn [existsb]. rewrite exprExcludesEco_notInEco. by rewrite orb_true_r.
Qed.

(** The terms a placement's affinity shows the controller. *)
Definition shownExcludes (aff : option (Affinity Preferred PodAffinity PodAntiAffinity)) : bool :=
  match requiredTerms aff with None => false | Some terms => existsb (fun t => existsb exprExcludesEco (t_Expressions t)) terms end.

Lemma MergeIntent_shown aff class intent :
  shownExcludes (MergeIntent aff class intent) =
  shownExcludes aff || (String.eqb class ClassPerformance && (String.eqb intent IntentAffinity || String.eqb intent IntentBoth) && reachable aff).
Proof.
  unfold MergeIntent. destruct (String.eqb class ClassPerformance); [|by rewrite orb_false_r].
  destruct (String.eqb intent IntentAffinity || String.eqb intent IntentBoth) eqn:Ei.
  2: { apply orb_false_iff in Ei as [-> ->]. by rewrite orb_false_r. }
  assert (negb (String.eqb intent IntentAffinity) && negb (String.eqb intent IntentBoth) = false) as ->.
  { by destruct (String.eqb intent IntentAffinity), (String.eqb intent IntentBoth). }
  cbn [negb orb andb].
  assert (existsb (fun t => existsb exprExcludesEco (t_Expressions t)) [{| t_Expressions := [notInEco]; t_Fields := [] |}] = true) as Hone
    by (vm_compute; reflexivity).
  assert (forall terms, existsb (fun t => existsb exprExcludesEco (t_Expressions t)) (excludeEco <$> terms) =
    existsb (fun t => existsb exprExcludesEco (t_Expressions t)) terms ||
    existsb (fun t => match t_Expressions t, t_Fields t with [], [] => false | _, _ => true end) terms) as Hex.
  { induction terms as [|t terms IH]; [done|]. cbn [fmap list_fmap existsb]. rewrite excludeEco_controller, IH.
    repeat match goal with |- context [existsb ?p ?l] => destruct (existsb p l) end;
      by destruct (match t_Expressions t, t_Fields t with [], [] => false | _, _ => true end). }
  destruct aff as [[[[[[|t terms]|] prefs]|] pa paa]|]; try exact Hone. apply (Hex (t :: terms)).
Qed.

Lemma PodExcludesEco_seen annotations selector aff node phase :
  PodExcludesEco (seenPod annotations selector aff node phase) =
  String.eqb (TrimSpace (get_str annotations WorkloadClassAnnotation)) ProfilePerformance ||
  String.eqb (TrimSpace (get_str selector PowerProfileLabelKey)) ProfilePerformance || shownExcludes aff.
Proof.
  unfold PodExcludesEco, shownExcludes, seenPod. cbn [p_Annotations p_NodeSelector p_RequiredTerms].
  destruct (String.eqb (TrimSpace (get_str annotations _)) _); [done|].
  destruct (String.eqb (TrimSpace (get_str selector _)) _); [done|]. cbn [orb].
  destruct (requiredTerms aff) as [terms|]; [|done]. cbn [option_map].
  induction terms as [|t terms IH]; [done|]. cbn. by rewrite IH.
Qed.

(** The run's own node selector, SIM_WORKLOAD_NODE_SELECTOR, asks for the
    performance profile, and the trace's selector says nothing of profiles. *)
Definition selectedByRun (t : Tpl) (o : BuildOptions) : bool :=
  match pl_NodeSelector (tp_Placement t) !! PowerProfileLabelKey with
  | Some _ => false
  | None => String.eqb (TrimSpace (get_str (bo_NodeSelector o) PowerProfileLabelKey)) ProfilePerformance
  end.

(** C36. The controller manager counts a simulated pod as performance
    sensitive exactly when the trace declares it, by the annotation or by
    affinity, or the trace's own node selector or affinity says so without
    the simulator, or the run's own node selector asks for the performance
    profile where the trace's names none. A performance pod declares itself
    unless its intent is none, or is by affinity alone over required terms
    that are all empty, which match no node; nothing else the simulator adds
    to the pod counts.
    src/simulator/pkg/workload/build.go:210-245 *)
Theorem intent_recognised (t : Tpl) (groupKey : string) (o : BuildOptions) (node phase : string) :
  tp_Class t ∈ [ClassPerformance; ClassStandard] ->
  IsPerformanceSensitivePod (podOf (podTemplate t groupKey o) node phase) =
  declares t o ||
  IsPerformanceSensitivePod (seenPod ∅ (pl_NodeSelector (tp_Placement t)) (pl_Affinity (tp_Placement t)) node phase) ||
  selectedByRun t o.
Proof.
  intros Hc. unfold IsPerformanceSensitivePod, podOf. rewrite !PodExcludesEco_seen.
  change (pl_Affinity (pt_Placement (podTemplate t groupKey o))) with (MergeIntent (pl_Affinity (tp_Placement t)) (tp_Class t) (intentOf o)).
  rewrite MergeIntent_shown.
  assert (String.eqb (TrimSpace (get_str (pl_NodeSelector (pt_Placement (podTemplate t groupKey o))) PowerProfileLabelKey)) ProfilePerformance =
    String.eqb (TrimSpace (get_str (pl_NodeSelector (tp_Placement t)) PowerProfileLabelKey)) ProfilePerformance || selectedByRun t o) as ->.
  { unfold selectedByRun, get_str. cbn [pt_Placement podTemplate]. rewrite mergePlacement_selector.
    destruct (pl_NodeSelector (tp_Placement t) !! PowerProfileLabelKey); [by rewrite orb_false_r|done]. }
  set (own := String.eqb (TrimSpace (get_str (pl_NodeSelector (tp_Placement t)) _)) _). set (run := selectedByRun t o).
  set (shown := shownExcludes (pl_Affinity (tp_Placement t))).
  assert (String.eqb (TrimSpace (get_str (pt_Annotations (podTemplate t groupKey o)) WorkloadClassAnnotation)) ProfilePerformance =
    (String.eqb (intentOf o) IntentAnnotation || String.eqb (intentOf o) IntentBoth) && String.eqb (tp_Class t) ClassPerformance) as ->.
  { unfold podTemplate. cbn [pt_Annotations]. unfold get_str.
    destruct (String.eqb (intentOf o) IntentAnnotation || String.eqb (intentOf o) IntentBoth).
    - rewrite lookup_insert_eq. cbn [from_option id andb].
      apply elem_of_cons in Hc as [->| ->%list_elem_of_singleton]; vm_compute; reflexivity.
    - rewrite (not_elem_of_list_to_map_1 (M := gmap string)); [vm_compute; reflexivity|]. cbn. set_solver. }
  change (String.eqb (TrimSpace (get_str ∅ WorkloadClassAnnotation)) ProfilePerformance) with false. cbn [orb].
  unfold declares. destruct (String.eqb (tp_Class t) ClassPerformance), (String.eqb (intentOf o) IntentAnnotation),
    (String.eqb (intentOf o) IntentBoth), (String.eqb (intentOf o) IntentAffinity), own, run, shown, (reachable _); done.
Qed.

End Objects.

Definition sampleOptions (intent : string) : BuildOptions := {|
  bo_RunID := "run-1"; bo_Intent := intent; bo_Image := ""; bo_Namespace := ""; bo_NodeSelector := DefaultNodeSelector "c1";
  bo_Tolerations := [KWOKToleration]; bo_JobTTL := 600000000000
|}.

Definition sampleObject (class intent : string) : PodTemplate (H := integer_quantity) :=
  podTemplate zeroFormat (fun _ _ => false) (fun r => r) (sampleTemplate (H := integer_quantity) "w" class) "w/worker@0" (sampleOptions intent).

Lemma intent_recognised_witness :
  let t := sampleTemplate (H := integer_quantity) "w" ClassPerformance in
  tp_Class t ∈ [ClassPerformance; ClassStandard] /\
  IsPerformanceSensitivePod (podOf (sampleObject ClassPerformance "affinity") "n1" PodRunning) = true /\
  IsPerformanceSensitivePod (podOf (sampleObject ClassPerformance "none") "n1" PodRunning) = false.
Proof.
  set (t := sampleTemplate (H := integer_quantity) "w" ClassPerformance).
  assert (tp_Class t ∈ [ClassPerformance; ClassStandard]) as Hc by (by left).
  split; [exact Hc|split].
  - etrans; [exact (intent_recognised zeroFormat (fun _ _ => false) (fun r => r) t "w/worker@0" (sampleOptions "affinity") "n1" PodRunning Hc)|].
    vm_compute. reflexivity.
  - vm_compute. reflexivity.
Defined.

(** A job of three pods is indexed, and its GPU requests are limits too. *)
Example extended_resources :
  isExtendedResource "nvidia.com/gpu" = true /\ isExtendedResource "cpu" = false /\ isExtendedResource "requests.kubernetes.io/x" = false.
Proof. vm_compute. repeat split. Qed.
