(* ===== verification/SimEnergy.v ===== *)
(** * Simulator: the energy counters of an emulated node

    The counter behind an emulated [energy_uj] file and its resumption after
    a restart (simulator/pkg/hwemu/counter.go), and what the agent's power
    meter (Dvfs.v) makes of it: over an interval in which the 32-bit
    register does not come round to where it was, the meter counts the joules
    the node used, up to three counts of the register, the roundings of the
    emulator's floating point included. *)

From S2P Require Import Prelude GoString GoFloat FloatFacts Native Governor Host HostFS Dvfs.

#[local] Open Scope string_scope.

(** ** The register *)

(** src/simulator/pkg/hwemu/counter.go:8-8 [nodeCounterSpan] *)
Definition nodeCounterSpan : Z := 2 ^ 32.

(** src/simulator/pkg/hwemu/counter.go:15-18 [nodeCounter] *)
Record nodeCounter := mkCounter { nc_unitNJ : Z; nc_seed : Z }.

(** [uint64(x)] of a float that is not negative; out of range the language
    leaves the result to the machine, which on amd64 is [2^63]. *)
Definition uint64_of_float (x : float64) : Z :=
  match x with
  | S754_zero _ => 0
  | S754_finite false m e => let n := floor_mag m e in if (n <? 2 ^ 64)%Z then n else (2 ^ 63)%Z
  | _ => (2 ^ 63)%Z
  end.

(** src/simulator/pkg/hwemu/types.go:780-782 [MaxEnergyRangeUJ] *)
Definition MaxEnergyRangeUJ (unitNJ : Z) : Z := Z.quot (wrap64 ((2 ^ 32 - 1) * unitNJ)) 1000.

(** The counter of a file that shows [energyUJ]. A unit of zero, which no
    profile has, would divide by zero.
    src/simulator/pkg/hwemu/counter.go:25-34 [nodeNewCounter] *)
Definition nodeNewCounter (unitNJ energyUJ : Z) : nodeCounter :=
  let energyUJ := if (energyUJ <? 0)%Z then 0%Z else energyUJ in
  let energyUJ := Z.rem energyUJ (Z.quot (wrap64 (nodeCounterSpan * unitNJ)) 1000) in
  let seed := Z.quot (wrap64 (wrap64 (energyUJ * 1000) + unitNJ - 1)) unitNJ in
  mkCounter unitNJ (seed mod nodeCounterSpan).

(** The whole counts of an energy.
    src/simulator/pkg/hwemu/counter.go:38-41 [counts] *)
Definition countsOf (c : nodeCounter) (joules : float64) : Z :=
  if flt fzero joules then uint64_of_float (ffloor (fdiv (fmul joules (fofZ 1000000000)) (fofZ (nc_unitNJ c)))) else 0.

(** The file's value after [joules] more than at the seed. The sum is of
    64 bits, which the remainder by a smaller power of two does not see.
    src/simulator/pkg/hwemu/counter.go:37-44 [energyUJ] *)
Definition energyUJ (c : nodeCounter) (joules : float64) : Z :=
  let raw := ((nc_seed c + countsOf c joules) mod nodeCounterSpan)%Z in
  Z.quot (wrap64 (raw * nc_unitNJ c)) 1000.

(** src/simulator/pkg/hwemu/counter.go:50-52 [nodeUnitFromRange] *)
Definition nodeUnitFromRange (rangeUJ : Z) : Z :=
  int_of_float (fround (fdiv (fmul (fofZ rangeUJ) (fofZ 1000)) (fofZ (nodeCounterSpan - 1)))).

(** src/simulator/pkg/hwemu/counter.go:55-60 [nodeMilliJoules] *)
Definition nodeMilliJoules (seedMJ : Z) (joules : float64) : Z :=
  if fle joules fzero then seedMJ else wrap64 (seedMJ + int_of_float (ffloor (fmul joules (fofZ 1000)))).

(** src/simulator/pkg/hwemu/counter.go:66-71 [nodeMicroJoules] *)
Definition nodeMicroJoules (seedUJ : Z) (joules : float64) : Z :=
  if fle joules fzero then seedUJ else wrap64 (seedUJ + int_of_float (ffloor (fmul joules (fofZ 1000000)))).

(** The powers of two the kernel derives its units from.
    src/simulator/pkg/hwemu/counter.go:46-49 [nodeUnitFromRange] *)
Definition derivedUnits : list Z := (fun esu => Z.shiftr 1000000000 (Z.of_nat esu)) <$> seq 0 30.

Example derivedUnits_inverse : (fun u => nodeUnitFromRange (MaxEnergyRangeUJ u)) <$> derivedUnits = derivedUnits.
Proof. vm_compute. reflexivity. Qed.

(** With a unit below a microjoule the range's last value folds to zero, so a
    restart moves the file back; no processor has such a unit. *)
Example small_unit_goes_back : energyUJ (nodeNewCounter 1 (MaxEnergyRangeUJ 1)) fzero = 0%Z.
Proof. vm_compute. reflexivity. Qed.

(** ** What a register shows *)

(** A unit of at least a microjoule whose register does not overflow an int64
    in nanojoules. *)
Definition usable (unitNJ : Z) : Prop := (1000 <= unitNJ < 2 ^ 31)%Z.

(** Microjoules of a raw count. *)
Definition shows (unitNJ raw : Z) : Z := (raw * unitNJ / 1000)%Z.

Lemma raw_fits unitNJ raw : usable unitNJ -> (0 <= raw <= 2 ^ 32)%Z -> (0 <= raw * unitNJ <= 2 ^ 63 - 2 ^ 32)%Z.
Proof. unfold usable. nia. Qed.

Lemma wrap_raw unitNJ raw : usable unitNJ -> (0 <= raw <= 2 ^ 32)%Z -> wrap64 (raw * unitNJ) = (raw * unitNJ)%Z.
Proof. intros Hu Hr. pose proof (raw_fits _ _ Hu Hr). apply wrap64_id. unfold in_int64, int64_min, int64_max. lia. Qed.

Lemma MaxEnergyRangeUJ_shows unitNJ : usable unitNJ -> MaxEnergyRangeUJ unitNJ = shows unitNJ (2 ^ 32 - 1).
Proof.
  intros Hu. unfold MaxEnergyRangeUJ, shows. rewrite wrap_raw by (done || lia).
  pose proof (raw_fits unitNJ (2 ^ 32 - 1) Hu). apply Z.quot_div_nonneg; lia.
Qed.

Lemma energyUJ_shows c joules : usable (nc_unitNJ c) ->
  energyUJ c joules = shows (nc_unitNJ c) ((nc_seed c + countsOf c joules) mod nodeCounterSpan).
Proof.
  intros Hu. unfold energyUJ, shows. cbv zeta. pose proof (Z.mod_pos_bound (nc_seed c + countsOf c joules) nodeCounterSpan) as Hm.
  unfold nodeCounterSpan in *. rewrite wrap_raw by (done || lia).
  apply Z.quot_div_nonneg; [|lia]. apply raw_fits; [done|lia].
Qed.

Lemma shows_bounds unitNJ raw : (1000 * shows unitNJ raw <= raw * unitNJ < 1000 * shows unitNJ raw + 1000)%Z.
Proof. unfold shows. pose proof (Z.div_mod (raw * unitNJ) 1000). pose proof (Z.mod_pos_bound (raw * unitNJ) 1000). lia. Qed.

Lemma shows_mono unitNJ a b : usable unitNJ -> (a <= b)%Z -> (shows unitNJ a <= shows unitNJ b)%Z.
Proof. intros Hu Hab. unfold shows, usable in *. apply Z.div_le_mono; nia. Qed.

(** What a register that shows at least [e] can lose by starting over: the
    seed is the smallest raw count that shows [e] or more. *)
Lemma nodeNewCounter_seed unitNJ e : usable unitNJ -> (0 <= e <= shows unitNJ (2 ^ 32 - 1))%Z ->
  let s := nc_seed (nodeNewCounter unitNJ e) in
  (0 <= s < 2 ^ 32)%Z /\ (e * 1000 <= s * unitNJ < e * 1000 + unitNJ)%Z.
Proof.
  intros Hu He. pose proof Hu as Hu'. unfold usable in Hu'. cbv zeta. unfold nodeNewCounter. cbn [nc_seed].
  destruct (Z.ltb_spec e 0); [lia|]. unfold nodeCounterSpan.
  rewrite (wrap_raw unitNJ (2 ^ 32)) by (done || lia). pose proof (raw_fits unitNJ (2 ^ 32) Hu) as Hf.
  pose proof (shows_bounds unitNJ (2 ^ 32 - 1)) as Hs.
  assert (e < 2 ^ 32 * unitNJ / 1000)%Z as Hmod.
  { apply Z.lt_le_trans with (e + 1)%Z; [lia|]. apply Z.div_le_lower_bound; lia. }
  rewrite (Z.quot_div_nonneg (2 ^ 32 * unitNJ)), (Z.rem_small e) by lia.
  assert (e * 1000 + unitNJ - 1 <= 2 ^ 63 - 2 ^ 32 + 2 ^ 31)%Z as Hle by lia.
  rewrite (wrap64_id (e * 1000)), wrap64_id by (unfold in_int64, int64_min, int64_max; lia).
  rewrite Z.quot_div_nonneg by lia.
  pose proof (Z.div_mod (e * 1000 + unitNJ - 1) unitNJ) as Hdm. pose proof (Z.mod_pos_bound (e * 1000 + unitNJ - 1) unitNJ) as Hb.
  set (q := ((e * 1000 + unitNJ - 1) / unitNJ)%Z) in *.
  assert (0 <= q < 2 ^ 32)%Z by nia.
  rewrite Z.mod_small by done. nia.
Qed.

Lemma nodeNewCounter_unit unitNJ e : nc_unitNJ (nodeNewCounter unitNJ e) = unitNJ.
Proof. done. Qed.

(** A counter at its seed. *)
Lemma energyUJ_start unitNJ e : usable unitNJ -> (0 <= e <= shows unitNJ (2 ^ 32 - 1))%Z ->
  energyUJ (nodeNewCounter unitNJ e) fzero = shows unitNJ (nc_seed (nodeNewCounter unitNJ e)).
Proof.
  intros Hu He. pose proof (nodeNewCounter_seed unitNJ e Hu He) as [Hs _].
  rewrite energyUJ_shows by (by rewrite nodeNewCounter_unit). rewrite nodeNewCounter_unit.
  change (countsOf _ fzero) with 0%Z. rewrite Z.add_0_r. unfold nodeCounterSpan. by rewrite Z.mod_small.
Qed.

(** Restarting the emulator over a live tree does not move an energy
    file: a file that shows what a counter showed goes on from exactly there,
    and one that shows any other value in the register's range does not move
    back, and forward by less than one count, so the agent's meter never
    takes a restart for a wrap of the register. *)
Theorem restart_resumes unitNJ : usable unitNJ ->
  (forall c joules, nc_unitNJ c = unitNJ ->
    energyUJ (nodeNewCounter unitNJ (energyUJ c joules)) fzero = energyUJ c joules) /\
  (forall e, (0 <= e <= MaxEnergyRangeUJ unitNJ)%Z ->
    let e' := energyUJ (nodeNewCounter unitNJ e) fzero in (e <= e' /\ 1000 * e' < 1000 * e + unitNJ)%Z).
Proof.
  intros Hu. split.
  - intros c joules Hc. rewrite (energyUJ_shows c) by (by rewrite Hc). rewrite Hc. unfold nodeCounterSpan.
    set (raw := ((nc_seed c + countsOf c joules) mod 2 ^ 32)%Z).
    assert (0 <= raw < 2 ^ 32)%Z as Hr by (apply Z.mod_pos_bound; lia).
    assert (0 <= shows unitNJ raw <= shows unitNJ (2 ^ 32 - 1))%Z as He.
    { split; [|apply shows_mono; [done|lia]]. unfold shows, usable in *. apply Z.div_pos; nia. }
    rewrite energyUJ_start by done. destruct (nodeNewCounter_seed _ _ Hu He) as [Hs1 Hs2].
    set (s := nc_seed (nodeNewCounter _ _)) in *. pose proof (shows_bounds unitNJ raw). pose proof (shows_bounds unitNJ s).
    assert (s <= raw)%Z.
    { assert (s * unitNJ < (raw + 1) * unitNJ)%Z as Hlt by lia. apply Z.mul_lt_mono_pos_r in Hlt; [lia|unfold usable in Hu; lia]. }
    pose proof (shows_mono unitNJ s raw Hu). lia.
  - intros e He. rewrite MaxEnergyRangeUJ_shows in He by done. cbv zeta. rewrite energyUJ_start by done.
    destruct (nodeNewCounter_seed _ _ Hu He) as [Hs1 Hs2]. pose proof (shows_bounds unitNJ (nc_seed (nodeNewCounter unitNJ e))). lia.
Qed.

(** ** The agent's meter over emulated counters *)

(** What the meter makes of two readings [k] counts apart, when the register
    has not come round more than once. *)
Lemma shown_delta unitNJ a k : usable unitNJ -> (0 <= a < 2 ^ 32)%Z -> (0 <= k < 2 ^ 32)%Z ->
  let last := shows unitNJ a in
  let d := wrap64 (shows unitNJ ((a + k) mod 2 ^ 32) - last) in
  let d := if (d <? 0)%Z && (0 <? MaxEnergyRangeUJ unitNJ)%Z then wrap64 (d + MaxEnergyRangeUJ unitNJ) else d in
  (0 <= d /\ k * unitNJ - unitNJ - 2000 < 1000 * d < k * unitNJ + 1000)%Z.
Proof.
  intros Hu Ha Hk. cbv zeta. rewrite MaxEnergyRangeUJ_shows by done.
  assert (forall r, (0 <= r <= 2 ^ 32)%Z -> (0 <= shows unitNJ r < 2 ^ 62)%Z) as Hr.
  { intros r Hr. pose proof (raw_fits unitNJ r Hu Hr). pose proof (shows_bounds unitNJ r). lia. }
  pose proof (Z.mod_pos_bound (a + k) (2 ^ 32) ltac:(lia)) as Hb.
  pose proof (Hr a ltac:(lia)). pose proof (Hr ((a + k) mod 2 ^ 32)%Z ltac:(lia)). pose proof (Hr (2 ^ 32 - 1)%Z ltac:(lia)).
  rewrite (wrap64_id (_ - _)) by (unfold in_int64, int64_min, int64_max; lia).
  pose proof (shows_bounds unitNJ a). pose proof (shows_bounds unitNJ ((a + k) mod 2 ^ 32)). pose proof (shows_bounds unitNJ (2 ^ 32 - 1)).
  pose proof (shows_mono unitNJ a (2 ^ 32 - 1) Hu ltac:(lia)).
  destruct (decide (a + k < 2 ^ 32)%Z) as [Hs|Hs].
  - rewrite (Z.mod_small (a + k)) in * by lia. pose proof (shows_mono unitNJ a (a + k) Hu ltac:(lia)).
    destruct (Z.ltb_spec (shows unitNJ (a + k) - shows unitNJ a) 0); [lia|]. cbn [andb]. unfold usable in Hu. nia.
  - assert ((a + k) mod 2 ^ 32 = a + k - 2 ^ 32)%Z as E by (symmetry; apply (Z.mod_unique _ _ 1); lia).
    rewrite E in *. pose proof (shows_mono unitNJ (a + k - 2 ^ 32) a Hu ltac:(lia)).
    destruct (Z.ltb_spec (shows unitNJ (a + k - 2 ^ 32) - shows unitNJ a) 0) as [Hn|Hn].
    + destruct (Z.ltb_spec 0 (shows unitNJ (2 ^ 32 - 1))) as [Hp|Hp]; cbn [andb].
      * rewrite wrap64_id by (unfold in_int64, int64_min, int64_max; lia). unfold usable in Hu. nia.
      * unfold usable in Hu. nia.
    + assert ((2 ^ 32 - k) * unitNJ >= 1000)%Z by (unfold usable in Hu; nia). lia.
Qed.

(** The emulator's files of one package: the energy its counter shows, and
    the range of the register. *)
Definition emulates {H : Type} `{!HostFS H} (c : string -> nodeCounter) (joules : string -> float64) (files : list string) (h : H) : Prop :=
  Forall (fun f => readInt64 f h = Some (energyUJ (c f) (joules f)) /\
    readInt64 (path_Join (path_Dir f) "max_energy_range_uj") h = Some (MaxEnergyRangeUJ (nc_unitNJ (c f)))) files.

(** ** What a counter counts of the energy used *)

(** The nanojoules of an energy, in units of [2^-scale] nJ. *)
Definition nanojoules (joules : float64) : Z := (sval joules * 1000000000)%Z.

(** An energy below [2^32] J: five hundred watts for a hundred days. *)
Definition metrable (joules : float64) : Prop := nonneg joules /\ (sval joules < 2 ^ 32 * 2 ^ scale)%Z.

Lemma uint64_of_float_int n : exact_int n -> uint64_of_float (fofZ n) = n.
Proof.
  intros Hn. destruct (fofZ_sval n Hn) as [(V & F & P) Sn]. pose proof (pow2_pos scale ltac:(unfold scale; lia)) as Hp.
  destruct (fofZ n) as [s|s| |[] m e] eqn:E; try done.
  - change (sval (S754_zero s)) with 0%Z in Sn. unfold uint64_of_float. nia.
  - apply valid_range in V as [He _]. cbn [uint64_of_float]. rewrite floor_mag_sval by lia. cbn [sval cond_Zopp] in Sn.
    rewrite Sn, Z.div_mul by lia. unfold exact_int in Hn. destruct (Z.ltb_spec n (2 ^ 64)); lia.
Qed.

Lemma uint64_floor x : nonneg x -> (sval x < 2 ^ 53 * 2 ^ scale)%Z ->
  uint64_of_float (ffloor x) = (sval x / 2 ^ scale)%Z.
Proof.
  intros Hx Hlt. destruct (ffloor_int x Hx Hlt) as [->|[s ->]]; [|done].
  apply uint64_of_float_int. pose proof (nonneg_sval x Hx). pose proof (pow2_pos scale ltac:(unfold scale; lia)).
  unfold exact_int. split; [apply Z.div_pos; lia|]. apply Z.div_lt_upper_bound; lia.
Qed.

(** The product and the quotient round, and the floor cuts: less than one
    count and 512 nJ in all. *)
Lemma countsOf_close c joules : usable (nc_unitNJ c) -> metrable joules ->
  let off := ((nc_unitNJ c + 512) * 2 ^ scale)%Z in
  (0 <= countsOf c joules /\ nanojoules joules - off < countsOf c joules * nc_unitNJ c * 2 ^ scale < nanojoules joules + off)%Z.
Proof.
  intros Hu [Hj Hlt]. cbv zeta. unfold nanojoules, countsOf. set (u := nc_unitNJ c) in *. pose proof Hu as Hu'. unfold usable in Hu'.
  pose proof (pow2_pos scale ltac:(unfold scale; lia)) as Hp. pose proof (nonneg_sval joules Hj) as H0.
  destruct (flt fzero joules) eqn:Epos.
  2: { assert (sval joules = 0)%Z as ->; [|lia]. apply not_true_iff_false in Epos.
       rewrite flt_sval in Epos by (first [apply Hj|done]). change (sval fzero) with 0%Z in Epos. lia. }
  destruct (fofZ_sval 1000000000) as [N9 S9]; [unfold exact_int; lia|].
  destruct (fofZ_sval u) as [Nu Su]; [unfold exact_int; lia|].
  pose proof (fmul_Rounds _ _ Hj N9) as Ry. set (y := fmul joules (fofZ 1000000000)) in *. rewrite S9 in Ry.
  assert (2 ^ (scale + 9) = 512 * 2 ^ scale)%Z as E9 by (rewrite pow2_split by (unfold scale; lia); lia).
  assert (0 <= sval joules * (1000000000 * 2 ^ scale) < 2 ^ scale * ((2 ^ 53 - 1) * 2 ^ (scale + 9)))%Z as HV.
  { rewrite E9. set (S := (2 ^ scale)%Z) in *. assert (sval joules * 1000000000 < (2 ^ 53 - 1) * (512 * S))%Z by lia. nia. }
  destruct (Rounds_close _ _ 9 y Hp ltac:(lia) HV Ry) as (Ny & Hy & _). rewrite E9 in Hy. clear HV E9 Ry.
  set (S := (2 ^ scale)%Z) in *.
  assert (sval joules * 1000000000 - 512 * S < sval y < sval joules * 1000000000 + 512 * S)%Z as By.
  { split; apply (Z.mul_lt_mono_pos_l S); lia. }
  clear Hy. pose proof (nonneg_sval y Ny) as Hy0.
  pose proof (fdiv_Rounds _ _ Ny Nu ltac:(nia)) as Rz. set (z := fdiv y (fofZ u)) in *. fold S in Rz. rewrite Su in Rz.
  assert (0 < u * S)%Z as HuS by nia. pose proof (Rounds_close (sval y * S) (u * S) 0 z HuS ltac:(lia)) as Hz.
  rewrite Z.add_0_r in Hz. fold S in Hz. destruct Hz as (Nz & Hz & Hfl); [|exact Rz|].
  { assert (sval y < u * ((2 ^ 53 - 1) * S))%Z by nia. nia. }
  assert (u * sval z < sval y + u * S)%Z as Hz' by nia.
  rewrite Z.div_mul_cancel_r in Hfl by nia.
  assert (sval z < 2 ^ 53 * S)%Z as Hz53 by nia.
  rewrite uint64_floor by done. fold S. set (q := (sval y / (u * S))%Z) in *. set (n := (sval z / S)%Z).
  pose proof (Z.div_mod (sval y) (u * S) ltac:(lia)) as Dy. pose proof (Z.mod_pos_bound (sval y) (u * S) HuS) as My. fold q in Dy.
  pose proof (Z.div_mod (sval z) S ltac:(lia)) as Dz. pose proof (Z.mod_pos_bound (sval z) S Hp) as Mz. fold n in Dz.
  assert (q <= n)%Z as Hqn by (apply Z.div_le_lower_bound; lia).
  assert (0 <= q)%Z by (apply Z.div_pos; lia).
  assert (q * (u * S) <= n * (u * S))%Z by (apply Z.mul_le_mono_nonneg_r; lia).
  assert (u * (S * n) <= u * sval z)%Z by (apply Z.mul_le_mono_nonneg_l; lia).
  split; [lia|]. nia.
Qed.

(** Nothing used between two readings, or at least three counts of the
    register and not so many that it comes round to where it was. *)
Definition within_register (c : nodeCounter) (j0 j1 : float64) : Prop :=
  usable (nc_unitNJ c) /\ metrable j0 /\ metrable j1 /\
  (j0 = j1 \/ 3 * nc_unitNJ c * 2 ^ scale <= nanojoules j1 - nanojoules j0 <= (2 ^ 32 - 4) * nc_unitNJ c * 2 ^ scale)%Z.

(** The meter's microjoules of one package, and how far they may be off what
    the package used: three counts of the register and four microjoules. *)
Definition metered (c : nodeCounter) (j0 j1 : float64) (d : Z) : Prop :=
  let used := (nanojoules j1 - nanojoules j0)%Z in
  let off := ((3 * nc_unitNJ c + 4000) * 2 ^ scale)%Z in
  (0 <= d /\ used - off < 1000 * d * 2 ^ scale < used + off)%Z.

Lemma within_register_counts c j0 j1 : within_register c j0 j1 -> (0 <= countsOf c j1 - countsOf c j0 < 2 ^ 32)%Z.
Proof.
  intros (Hu & H0 & H1 & [->|Hd]); [lia|].
  pose proof (countsOf_close c j0 Hu H0) as [_ B0]. pose proof (countsOf_close c j1 Hu H1) as [_ B1].
  pose proof (pow2_pos scale ltac:(unfold scale; lia)) as Hp. unfold usable in Hu. set (S := (2 ^ scale)%Z) in *.
  set (u := nc_unitNJ c) in *. set (k := (countsOf c j1 - countsOf c j0)%Z).
  assert (k * u * S = countsOf c j1 * u * S - countsOf c j0 * u * S)%Z as Ek by (unfold k; ring).
  assert (0 < u * S)%Z by nia. assert (1024 * S < 2 * (u * S))%Z by nia.
  assert (-1 * (u * S) < k * (u * S) < 2 ^ 32 * (u * S))%Z as [L1 L2] by (split; nia).
  apply Z.mul_lt_mono_pos_r in L1, L2; lia.
Qed.

Lemma counts_metered c j0 j1 d : within_register c j0 j1 ->
  (0 <= d)%Z -> let nJ := ((countsOf c j1 - countsOf c j0) * nc_unitNJ c)%Z in
  (nJ - nc_unitNJ c - 2000 < 1000 * d < nJ + 1000)%Z -> metered c j0 j1 d.
Proof.
  intros (Hu & H0 & H1 & _) Hd. cbv zeta. intros B. unfold metered. cbv zeta. split; [done|].
  pose proof (countsOf_close c j0 Hu H0) as [_ B0]. pose proof (countsOf_close c j1 Hu H1) as [_ B1].
  pose proof (pow2_pos scale ltac:(unfold scale; lia)) as Hp. unfold usable in Hu. set (S := (2 ^ scale)%Z) in *.
  set (u := nc_unitNJ c) in *. set (k := (countsOf c j1 - countsOf c j0)%Z) in *.
  assert (k * u * S = countsOf c j1 * u * S - countsOf c j0 * u * S)%Z as Ek by (unfold k; ring).
  assert ((k * u - u - 2000) * S < 1000 * d * S)%Z by (apply Z.mul_lt_mono_pos_r; lia).
  assert (1000 * d * S < (k * u + 1000) * S)%Z by (apply Z.mul_lt_mono_pos_r; lia).
  assert (0 < u * S)%Z by nia. split; nia.
Qed.

Lemma foldl_ext_in {A B} (g k : A -> B -> A) (l : list B) (a : A) :
  (forall b x, b ∈ l -> g x b = k x b) -> foldl g a l = foldl k a l.
Proof.
  revert a. induction l as [|b l IH]; intros a E; [done|]. cbn [foldl]. rewrite E by set_solver. apply IH. set_solver.
Qed.

Section Meter.
Context {H : Type} `{!HostFS H} `{!PowerSource H}.
Variables (c : string -> nodeCounter) (j0 j1 : string -> float64) (t0 t1 : Z).
Hypothesis later : (t0 < t1 <= t0 + int64_max)%Z.

Definition firstSample (f : string) : energySample :=
  mkSample (energyUJ (c f) (j0 f)) t0 (MaxEnergyRangeUJ (nc_unitNJ (c f))).

Lemma first_samples (h : H) fs samples w n :
  emulates c j0 fs h -> NoDup fs -> (forall f, f ∈ fs -> samples !! f = None) ->
  exists samples', sampleCounters t0 fs h samples w n = (samples', w, n) /\
    (forall f, f ∈ fs -> samples' !! f = Some (firstSample f)) /\ (forall f, f ∉ fs -> samples' !! f = samples !! f).
Proof.
  revert samples. induction fs as [|f fs IH]; intros samples He Hnd Hnone; cbn [sampleCounters].
  { exists samples. split; [done|]. split; [by intros f ?%elem_of_nil|done]. }
  apply Forall_cons in He as [[E1 E2] He]. apply NoDup_cons in Hnd as [Hnf Hnd].
  assert (sampleCounter t0 f h samples = (<[f := firstSample f]> samples, None)) as ->.
  { unfold sampleCounter. rewrite E1, (Hnone f) by set_solver. by rewrite E2. }
  destruct (IH (<[f := firstSample f]> samples) He Hnd) as (samples' & -> & Hin & Hout).
  { intros g Hg. rewrite lookup_insert_ne by (intros ->; done). apply Hnone. set_solver. }
  exists samples'. split; [done|]. split.
  - intros g [->|Hg]%elem_of_cons; [|by apply Hin]. by rewrite Hout, lookup_insert_eq.
  - intros g [Hg1 Hg2]%not_elem_of_cons. rewrite Hout by done. by rewrite lookup_insert_ne.
Qed.

Lemma next_sample (h : H) f samples :
  emulates c j1 [f] h -> within_register (c f) (j0 f) (j1 f) -> samples !! f = Some (firstSample f) ->
  exists s d, sampleCounter t1 f h samples = (<[f := s]> samples, Some (wattsOf d (duration_seconds (t1 - t0)))) /\
    metered (c f) (j0 f) (j1 f) d.
Proof.
  intros [[E1 _] _]%Forall_cons Hw Hs. pose proof (within_register_counts _ _ _ Hw) as Hk. destruct (Hw) as [Hu _]. unfold sampleCounter. rewrite E1, Hs. unfold firstSample. cbn [es_LastUJ es_RangeUJ es_LastTime].
  rewrite !energyUJ_shows by done.
  pose proof (shown_delta (nc_unitNJ (c f)) ((nc_seed (c f) + countsOf (c f) (j0 f)) mod nodeCounterSpan)
    (countsOf (c f) (j1 f) - countsOf (c f) (j0 f)) Hu) as Hd.
  unfold nodeCounterSpan in *. specialize (Hd ltac:(apply Z.mod_pos_bound; lia) Hk). cbv zeta in Hd.
  rewrite Zplus_mod_idemp_l in Hd.
  replace (nc_seed (c f) + countsOf (c f) (j0 f) + (countsOf (c f) (j1 f) - countsOf (c f) (j0 f)))%Z
    with (nc_seed (c f) + countsOf (c f) (j1 f))%Z in Hd by lia.
  set (d := if _ && _ then _ else _) in *. unfold duration_since.
  assert (sat64 (t1 - t0) = t1 - t0)%Z as -> by (unfold sat64, int64_min, int64_max in *; lia).
  rewrite duration_seconds_pos by lia. destruct (Z.ltb_spec d 0); [lia|]. cbn [orb].
  eexists _, d. split; [done|]. apply counts_metered; [done|apply Hd..].
Qed.

Lemma next_samples (h : H) fs samples w n :
  emulates c j1 fs h -> NoDup fs -> Forall (fun f => within_register (c f) (j0 f) (j1 f)) fs ->
  (forall f, f ∈ fs -> samples !! f = Some (firstSample f)) ->
  exists samples' d, sampleCounters t1 fs h samples w n =
      (samples', foldl (fun w f => fadd w (wattsOf (d f) (duration_seconds (t1 - t0)))) w fs, (n + length fs)%nat) /\
    Forall (fun f => metered (c f) (j0 f) (j1 f) (d f)) fs.
Proof.
  revert samples w n. induction fs as [|f fs IH]; intros samples w n He Hnd Hw Hin; cbn [sampleCounters].
  { exists samples, (fun _ => 0%Z). cbn. by rewrite Nat.add_0_r. }
  apply Forall_cons in He as [Ef He], Hw as [Hwf Hw]. apply NoDup_cons in Hnd as [Hnf Hnd].
  destruct (next_sample h f samples) as (s & d0 & -> & Hd0); [by apply Forall_singleton|done|apply Hin; set_solver|].
  destruct (IH (<[f := s]> samples) (fadd w (wattsOf d0 (duration_seconds (t1 - t0)))) (S n)) as (samples' & d & -> & Hd); [done..| |].
  { intros g Hg. rewrite lookup_insert_ne by (intros ->; done). apply Hin. set_solver. }
  exists samples', (fun g => if decide (g = f) then d0 else d g). cbn [length foldl]. rewrite decide_True, Nat.add_succ_r by done.
  split; [f_equal; f_equal; apply foldl_ext_in|].
  - intros g a Hg. rewrite decide_False; [done|by intros ->].
  - constructor; [by rewrite decide_True|]. apply Forall_forall. intros g Hg. rewrite decide_False by (by intros ->).
    by apply (proj1 (Forall_forall _ _) Hd).
Qed.
End Meter.

(** C14. The agent's power meter over an emulated node: the first two
    readings of a meter give, for each package, the joules the emulator's
    energies [j0] and [j1] are apart, to within three counts of its register
    and four microjoules, also when the 32-bit register has wrapped around in
    between, and every package counts once. Each package has used nothing, or
    at least three counts and four fewer than the register has, of energies
    below [2^32] J, and a unit of at least a microjoule. *)
Theorem meter_counts_emulated {H : Type} `{!HostFS H} `{!PowerSource H} (c : string -> nodeCounter) (j0 j1 : string -> float64)
    (t0 t1 : Z) (d : Controller) (h0 h1 : H) :
  (t0 < t1 <= t0 + int64_max)%Z -> d_PowerReader d = false -> d_Samples d = ∅ ->
  EnergyFiles h0 <> [] -> EnergyFiles h1 = EnergyFiles h0 ->
  emulates c j0 (EnergyFiles h0) h0 -> emulates c j1 (EnergyFiles h0) h1 ->
  Forall (fun f => within_register (c f) (j0 f) (j1 f)) (EnergyFiles h0) ->
  exists e, (readPowerWatts (readPowerWatts d t0 h0).1.2 t1 h1).1.1 =
      mkReading (foldl (fun w f => fadd w (wattsOf (e f) (duration_seconds (t1 - t0)))) fzero (EnergyFiles h0)) true None /\
    Forall (fun f => metered (c f) (j0 f) (j1 f) (e f)) (EnergyFiles h0).
Proof.
  intros Ht Hr Hs Hne E1 He0 He1 Hw. pose proof (EnergyFiles_NoDup h0) as Hnd.
  unfold readPowerWatts at 2. rewrite Hr.
  destruct (first_samples c j0 j1 t0 t1 Ht h0 (EnergyFiles h0) (d_Samples d) fzero 0 He0 Hnd) as (samples & E0 & Hin & _).
  { intros f _. by rewrite Hs, lookup_empty. }
  destruct (next_samples c j0 j1 t0 t1 Ht h1 (EnergyFiles h0) samples fzero 0 He1 Hnd Hw Hin) as (samples' & e & E2 & Hm).
  destruct (EnergyFiles h0) as [|f fs] eqn:Ef; [done|]. rewrite E0. cbn [Nat.eqb fst snd].
  exists e. split; [|done]. unfold readPowerWatts. cbn [d_PowerReader set_Samples]. rewrite Hr, E1.
  cbn [d_Samples set_Samples]. rewrite E2. done.
Qed.

(** ** Two packages, one of them about to wrap around *)

#[local] Instance noPower : PowerSource Tree := {| read_power t := (mkReading fzero false None, t) |}.

Definition package0 : string := zoneFile "intel-rapl:0" "energy_uj".
Definition package1 : string := zoneFile "intel-rapl:1" "energy_uj".
Definition twoCounters (f : string) : nodeCounter :=
  if String.eqb f package0 then mkCounter 61035 (2 ^ 32 - 100000) else mkCounter 15258 7.
Definition atStart (f : string) : float64 := fzero.
Definition after150J (f : string) : float64 := fofZ 150.
Definition emulatedTree (joules : string -> float64) : Tree :=
  let shown f := (f, Itoa (energyUJ (twoCounters f) (joules f))) in
  let range f := (path_Join (path_Dir f) "max_energy_range_uj", Itoa (MaxEnergyRangeUJ (nc_unitNJ (twoCounters f)))) in
  let entries := shown <$> [package0; package1] in
  let entries := (entries ++ (range <$> [package0; package1]))%list in
  mkTree (list_to_map entries) (fst <$> entries).

Lemma emulatedTree_start : EnergyFiles (emulatedTree atStart) = [package0; package1].
Proof. vm_compute. reflexivity. Qed.

Lemma emulatedTree_after : EnergyFiles (emulatedTree after150J) = [package0; package1].
Proof. vm_compute. reflexivity. Qed.

(** 150 J a package in a second are 300 W, across a wrap of the first. *)
Example meter_counts_emulated_witness :
  exists e, (readPowerWatts (readPowerWatts fresh second (emulatedTree atStart)).1.2 (2 * second) (emulatedTree after150J)).1.1 =
      mkReading (foldl (fun w f => fadd w (wattsOf (e f) (duration_seconds (2 * second - second)))) fzero [package0; package1]) true None /\
    Forall (fun f => metered (twoCounters f) (atStart f) (after150J f) (e f)) [package0; package1].
Proof.
  pose proof (meter_counts_emulated twoCounters atStart after150J second (2 * second) fresh (emulatedTree atStart) (emulatedTree after150J)) as Hm.
  rewrite emulatedTree_start, emulatedTree_after in Hm. apply Hm; clear Hm.
  - split; [apply Z.ltb_lt|apply Z.leb_le]; vm_compute; reflexivity.
  - vm_compute. reflexivity.
  - vm_compute. reflexivity.
  - discriminate.
  - reflexivity.
  - repeat constructor; vm_compute; reflexivity.
  - repeat constructor; vm_compute; reflexivity.
  - repeat constructor; try (apply Z.leb_le; vm_compute; reflexivity); apply Z.ltb_lt; vm_compute; reflexivity.
Defined.

Example restart_resumes_witness :
  usable 61035 /\ energyUJ (nodeNewCounter 61035 (energyUJ (twoCounters package0) (fofZ 150))) fzero = energyUJ (twoCounters package0) (fofZ 150).
Proof.
  assert (usable 61035) as Hu by (split; reflexivity || (apply Z.leb_le; reflexivity)).
  split; [exact Hu|]. apply (proj1 (restart_resumes 61035 Hu)). vm_compute. reflexivity.
Defined.
