(* ===== verification/SimLedger.v ===== *)
(** * Simulator: the energy ledgers of the emulator

    The counters an emulated node exports (simulator/pkg/emulate/ledger.go):
    how a tick adds a runner's counters to a ledger, writes it and only then
    shows it (tick.go, [stepMember], [accrue], [reading], [tickFacility]),
    and how a restarted emulator goes on from the file (emulator.go). The
    runner, the facility's readings and whether a write succeeds are inputs
    of a tick; a write replaces the file whole or leaves it. *)

From S2P Require Import Prelude GoString GoFloat FloatFacts Native Governor Host PromName.

#[local] Open Scope string_scope.
#[local] Open Scope list_scope.

(** ** Accruing *)

(** The total and the base after a reading, and whether the counter went
    back.
    src/simulator/pkg/emulate/ledger.go:285-296 [ledgerAccrue] *)
Definition ledgerAccrue (total base v : float64) : float64 * float64 * bool :=
  if negb (is_finite v) then (total, base, false)
  else
    let d := fsub v base in
    if flt d fzero then (total, v, true) else (fadd total d, v, false).

(** src/simulator/pkg/emulate/ledger.go:302-310 [ledgerAccrueBytes] *)
Definition ledgerAccrueBytes (total base v : Z) : Z * Z * bool :=
  let d := ((v - base) mod 2 ^ 64)%Z in
  let wentBack := (v <? base)%Z in
  (if wentBack then total else ((total + d) mod 2 ^ 64)%Z, v, wentBack).

(** src/simulator/pkg/emulate/ledger.go:314-319 [ledgerFinite] *)
Definition ledgerFinite (v : float64) : float64 := if negb (is_finite v) || flt v fzero then fzero else v.

(** ** The ledgers *)

(** src/simulator/pkg/emulate/ledger.go:52-55 [gpuIOLedger] *)
Record gpuIOLedger := mkIO { io_PeerRxBytes : Z; io_PeerTxBytes : Z }.
Definition noIO : gpuIOLedger := mkIO 0 0.

(** src/simulator/pkg/emulate/ledger.go:39-48 [nodeLedger] *)
Record nodeLedger := mkLedger {
  nl_SchemaVersion : Z; nl_Node : string; nl_StartTime : Z; nl_HostJ : float64;
  nl_ComponentsJ : gmap string float64; nl_GPUIO : gmap string gpuIOLedger; nl_ioBase : gmap string gpuIOLedger
}.

Definition set_HostJ v l := mkLedger (nl_SchemaVersion l) (nl_Node l) (nl_StartTime l) v (nl_ComponentsJ l) (nl_GPUIO l) (nl_ioBase l).
Definition set_ComponentsJ v l := mkLedger (nl_SchemaVersion l) (nl_Node l) (nl_StartTime l) (nl_HostJ l) v (nl_GPUIO l) (nl_ioBase l).
Definition set_IO io base l := mkLedger (nl_SchemaVersion l) (nl_Node l) (nl_StartTime l) (nl_HostJ l) (nl_ComponentsJ l) io base.

(** src/simulator/pkg/emulate/ledger.go:60-72 [accrueGPUIO] *)
Definition accrueGPUIO (id : string) (rx tx : Z) (l : nodeLedger) : nodeLedger * bool :=
  let total := default noIO (nl_GPUIO l !! id) in
  let base := default noIO (nl_ioBase l !! id) in
  let '(trx, brx, rxBack) := ledgerAccrueBytes (io_PeerRxBytes total) (io_PeerRxBytes base) rx in
  let '(ttx, btx, txBack) := ledgerAccrueBytes (io_PeerTxBytes total) (io_PeerTxBytes base) tx in
  (set_IO (<[id := mkIO trx ttx]> (nl_GPUIO l)) (<[id := mkIO brx btx]> (nl_ioBase l)) l, rxBack || txBack).

(** A ledger's file: none, one that cannot be read, with the error, or one
    that holds a ledger. The file has no [ioBase]. *)
Inductive Disk := Missing | Unreadable (err : string) | Holds (l : nodeLedger).

(** src/simulator/pkg/emulate/ledger.go:19-19 [ledgerSchemaVersion] *)
Definition ledgerSchemaVersion : Z := 1.

Definition freshLedger (node : string) (start : Z) : nodeLedger := mkLedger ledgerSchemaVersion node start fzero ∅ ∅ ∅.

(** src/simulator/pkg/emulate/ledger.go:99-118 [loadNodeLedger] *)
Definition loadNodeLedger (d : Disk) (path node : string) (start : Z) : string + nodeLedger :=
  match d with
  | Unreadable err => inl err
  | Missing => inr (freshLedger node start)
  | Holds l =>
      if negb (nl_SchemaVersion l =? ledgerSchemaVersion)%Z
      then inl ("ledger " +:+ path +:+ ": schemaVersion " +:+ Itoa (nl_SchemaVersion l) +:+ ", want " +:+ Itoa ledgerSchemaVersion)
      else if negb (String.eqb (nl_Node l) node)
      then inl ("ledger " +:+ path +:+ " belongs to node " +:+ Quote (nl_Node l) +:+ ", not " +:+ Quote node)
      else inr (set_IO (nl_GPUIO l) ∅ l)
  end.

(** src/simulator/pkg/emulate/ledger.go:78-85 [facilityLedger] *)
Record facilityLedger := mkFac { fl_SchemaVersion : Z; fl_Cluster : string; fl_StartTime : Z; fl_ITJ : float64; fl_CoolingJ : float64; fl_RacksJ : gmap string float64 }.

Inductive FacDisk := FacMissing | FacUnreadable (err : string) | FacHolds (l : facilityLedger).

Definition freshFacility (cluster : string) (start : Z) : facilityLedger := mkFac ledgerSchemaVersion cluster start fzero fzero ∅.

(** src/simulator/pkg/emulate/ledger.go:124-145 [loadFacilityLedger] *)
Definition loadFacilityLedger (d : FacDisk) (path cluster : string) (start : Z) : string + facilityLedger :=
  match d with
  | FacUnreadable err => inl err
  | FacMissing => inr (freshFacility cluster start)
  | FacHolds l =>
      if negb (fl_SchemaVersion l =? ledgerSchemaVersion)%Z
      then inl ("ledger " +:+ path +:+ ": schemaVersion " +:+ Itoa (fl_SchemaVersion l) +:+ ", want " +:+ Itoa ledgerSchemaVersion)
      else if negb (String.eqb (fl_Cluster l) cluster) then inr (freshFacility cluster start)
      else inr l
  end.

(** ** One node *)

(** src/simulator/pkg/hwemu/types.go:683-686 [GovernorState] *)
Record GovernorState := mkGov { gs_Native : string; gs_Preset : string }.
#[export] Instance GovernorState_eq_dec : EqDecision GovernorState.
Proof. solve_decision. Defined.

(** The fields a ledger, or the governor states left, are told from.
    src/simulator/pkg/hwemu/types.go:650-678 [ComponentState] *)
Record ComponentState := mkComp {
  cs_ID : string; cs_Type : string; cs_PowerW : float64; cs_EnergyJ : float64; cs_Governor : GovernorState; cs_PeerRxBytes : Z; cs_PeerTxBytes : Z
}.

(** src/simulator/pkg/hwemu/types.go:697-702 [HostState] *)
Record HostState := mkHost { hs_Measured : bool; hs_PowerW : float64; hs_EnergyJ : float64; hs_OtherW : float64 }.

(** What a runner says of its node. *)
Record RunnerState := mkRunner { rs_Host : HostState; rs_Components : list ComponentState }.

(** A node's readings, less what the facility fills in and what does not
    change.
    src/simulator/pkg/emulate/types.go:39-58 [NodeSnapshot] *)
Record NodeSnapshot := mkNode {
  ns_Name : string; ns_Rack : string; ns_StartTime : Z; ns_Started : bool; ns_Host : HostState;
  ns_Components : list ComponentState; ns_PreviousGovernors : gmap string GovernorState; ns_Err : string
}.

(** src/simulator/pkg/emulate/emulator.go:168-191 [member] *)
Record member := mkMember {
  m_name : string; m_rack : string; m_ledger : nodeLedger; m_disk : Disk; m_hostBase : float64; m_compBase : gmap string float64;
  m_published : bool; m_last : NodeSnapshot; m_snap : NodeSnapshot; m_hostDelta : float64; m_err : option string
}.

(** One component's counters added to the ledger.
    src/simulator/pkg/emulate/tick.go:120-130 [c] *)
Definition accrueComponent (lb : nodeLedger * gmap string float64) (c : ComponentState) : nodeLedger * gmap string float64 :=
  let '(l, compBase) := lb in
  let '(total, base, _) := ledgerAccrue (default fzero (nl_ComponentsJ l !! cs_ID c)) (default fzero (compBase !! cs_ID c)) (cs_EnergyJ c) in
  let l := set_ComponentsJ (<[cs_ID c := total]> (nl_ComponentsJ l)) l in
  let l := if String.eqb (cs_Type c) HwTypeGPU then (accrueGPUIO (cs_ID c) (cs_PeerRxBytes c) (cs_PeerTxBytes c) l).1 else l in
  (l, <[cs_ID c := base]> compBase).

(** src/simulator/pkg/emulate/tick.go:116-131 [accrue] *)
Definition accrue (st : RunnerState) (l : nodeLedger) (hostBase : float64) (compBase : gmap string float64)
    : nodeLedger * float64 * gmap string float64 :=
  let '(total, hostBase, _) := ledgerAccrue (nl_HostJ l) hostBase (hs_EnergyJ (rs_Host st)) in
  let '(l, compBase) := fold_left accrueComponent (rs_Components st) (set_HostJ total l, compBase) in
  (l, hostBase, compBase).

Definition noGovernor : GovernorState := mkGov "" "".

(** The governor state a component left last, by id.
    src/simulator/pkg/emulate/tick.go:163-183 [readingPreviousGovernors] *)
Definition readingPreviousGovernors (last : NodeSnapshot) (comps : list ComponentState) : gmap string GovernorState :=
  let was := fold_left (fun m c => <[cs_ID c := cs_Governor c]> m) (ns_Components last) (∅ : gmap string GovernorState) in
  fold_left (fun out c =>
    let prev := default noGovernor (was !! cs_ID c) in
    let left_ := if bool_decide (prev <> cs_Governor c) && bool_decide (prev <> noGovernor) then Some prev else ns_PreviousGovernors last !! cs_ID c in
    match left_ with
    | Some g => if bool_decide (g <> cs_Governor c) then <[cs_ID c := g]> out else out
    | None => out
    end) comps (∅ : gmap string GovernorState).

(** A component as it is read, with the counters of the ledger.
    src/simulator/pkg/emulate/tick.go:147-152 [c] *)
Definition readComponent (l : nodeLedger) (c : ComponentState) : ComponentState :=
  let io := default noIO (nl_GPUIO l !! cs_ID c) in
  mkComp (cs_ID c) (cs_Type c) (cs_PowerW c) (default fzero (nl_ComponentsJ l !! cs_ID c)) (cs_Governor c) (io_PeerRxBytes io) (io_PeerTxBytes io).

(** src/simulator/pkg/emulate/tick.go:136-155 [reading] *)
Definition reading (st : RunnerState) (l : nodeLedger) (last : NodeSnapshot) : NodeSnapshot :=
  let h := rs_Host st in
  let comps := readComponent l <$> rs_Components st in
  mkNode (ns_Name last) (ns_Rack last) (ns_StartTime last) false (mkHost (hs_Measured h) (hs_PowerW h) (nl_HostJ l) (hs_OtherW h))
    comps (readingPreviousGovernors last comps) "".

(** What a tick meets at a member: the error of the runner's step, if any,
    the runner's state, and the error of the write, if one is made. *)
Record StepInput := mkStep { si_advance : option string; si_state : RunnerState; si_write : option string }.

(** What a ledger's file holds: the ledger without its byte bases. *)
Definition persisted (l : nodeLedger) : nodeLedger := set_IO (nl_GPUIO l) ∅ l.

(** src/simulator/pkg/emulate/tick.go:74-111 [stepMember] *)
Definition stepMember (i : StepInput) (m : member) : member :=
  let '(l, hostBase, compBase, disk, err) :=
    match si_advance i with
    | Some e => (m_ledger m, m_hostBase m, m_compBase m, m_disk m, Some e)
    | None =>
        let '(l, hostBase, compBase) := accrue (si_state i) (m_ledger m) (m_hostBase m) (m_compBase m) in
        match si_write i with
        | Some e => (l, hostBase, compBase, m_disk m, Some ("persist the ledger: " +:+ e))
        | None => (l, hostBase, compBase, Holds (persisted l), None)
        end
    end in
  let prevHostJ := hs_EnergyJ (ns_Host (m_last m)) in
  let last := match err with None => reading (si_state i) l (m_last m) | Some _ => m_last m end in
  let snap := mkNode (ns_Name last) (ns_Rack last) (ns_StartTime last) (if m_published m then ns_Started last else true) (ns_Host last)
    (ns_Components last) (ns_PreviousGovernors last) (default (ns_Err last) err) in
  mkMember (m_name m) (m_rack m) l disk hostBase compBase true last snap (fsub (hs_EnergyJ (ns_Host snap)) prevHostJ) err.

(** The member of a started emulator.
    src/simulator/pkg/emulate/emulator.go:369-412 [startMember] *)
Definition startMember (name rack path : string) (start : Z) (d : Disk) : string + member :=
  match loadNodeLedger d path name start with
  | inl err => inl err
  | inr l =>
      let last := mkNode name rack (nl_StartTime l) false (mkHost false fzero (nl_HostJ l) fzero) [] ∅ "" in
      inr (mkMember name rack l d fzero ∅ false last last fzero None)
  end.

(** ** The emulator *)

(** src/simulator/pkg/facility/facility.go:25-30 [Values] *)
Record Values := mkValues { v_AmbientC : float64; v_ITPowerW : float64; v_PUE : float64; v_CoolingPowerW : float64 }.

(** src/simulator/pkg/emulate/types.go:121-125 [RackReading] *)
Record RackReading := mkRack { rr_Name : string; rr_PowerW : float64; rr_EnergyJ : float64 }.

(** Its zones' temperatures left out.
    src/simulator/pkg/emulate/types.go:101-111 [FacilitySnapshot] *)
Record FacilitySnapshot := mkFacility {
  fs_StartTime : Z; fs_Values : Values; fs_ITEnergyJ : float64; fs_CoolingEnergyJ : float64; fs_Racks : list RackReading
}.

(** src/simulator/pkg/emulate/types.go:17-23 [Snapshot] *)
Record Snapshot := mkSnapshot { sn_Seq : Z; sn_Time : Z; sn_Nodes : list NodeSnapshot; sn_Facility : FacilitySnapshot }.

(** src/simulator/pkg/emulate/emulator.go:131-164 [Emulator] *)
Record Emulator := mkEmulator {
  e_members : list member; e_closed : bool; e_seq : Z; e_lastTick : Z; e_latest : option Snapshot;
  e_facLedger : facilityLedger; e_facPublished : facilityLedger; e_facDisk : FacDisk
}.

Definition addTo (m : gmap string float64) (k : string) (v : float64) : gmap string float64 := <[k := fadd (default fzero (m !! k)) v]> m.

(** The power of the hosts, the increase of their energies, and both by rack.
    src/simulator/pkg/emulate/tick.go:190-201 [rackDeltaJ] *)
Definition sumMembers (ms : list member) : float64 * float64 * gmap string float64 * gmap string float64 :=
  fold_left (fun '(specITW, hostDeltaJ, rackW, rackDeltaJ) m =>
    let d := ledgerFinite (m_hostDelta m) in
    let w := hs_PowerW (ns_Host (m_snap m)) in
    let '(rackW, rackDeltaJ) := if String.eqb (m_rack m) "" then (rackW, rackDeltaJ) else (addTo rackW (m_rack m) w, addTo rackDeltaJ (m_rack m) d) in
    (fadd specITW w, fadd hostDeltaJ d, rackW, rackDeltaJ)) ms (fzero, fzero, ∅, ∅).

(** The facility's ledger after a tick of [dt] seconds.
    src/simulator/pkg/emulate/tick.go:210-215 [facLedger] *)
Definition accrueFacility (v : Values) (dt specITW hostDeltaJ : float64) (rackDeltaJ : gmap string float64) (l : facilityLedger) : facilityLedger :=
  let legacyW := fmax fzero (fsub (v_ITPowerW v) specITW) in
  mkFac (fl_SchemaVersion l) (fl_Cluster l) (fl_StartTime l)
    (fadd (fl_ITJ l) (fadd hostDeltaJ (ledgerFinite (fmul legacyW dt))))
    (fadd (fl_CoolingJ l) (ledgerFinite (fmul (v_CoolingPowerW v) dt)))
    (merge (fun a d => match a, d with Some a, Some d => Some (fadd a d) | None, Some d => Some (fadd fzero d) | a, None => a end)
       (fl_RacksJ l) rackDeltaJ).

(** The racks' names in order, with their readings.
    src/simulator/pkg/emulate/tick.go:242-250 [racks] *)
Definition rackReadings (rackW : gmap string float64) (published : facilityLedger) : list RackReading :=
  (fun r => mkRack r (default fzero (rackW !! r)) (default fzero (fl_RacksJ published !! r))) <$> sort_strings (fst <$> map_to_list rackW).

(** src/simulator/pkg/emulate/tick.go:189-265 [tickFacility] *)
Definition tickFacility (now : Z) (fac : float64 -> Z -> Values) (werr : option string) (e : Emulator) : FacilitySnapshot * option string * Emulator :=
  let '(specITW, hostDeltaJ, rackW, rackDeltaJ) := sumMembers (e_members e) in
  let v := fac specITW now in
  let dt := duration_seconds (sat64 (now - e_lastTick e)) in
  let l := accrueFacility v dt specITW hostDeltaJ rackDeltaJ (e_facLedger e) in
  let '(published, disk, err) :=
    match werr with
    | Some w => (e_facPublished e, e_facDisk e, Some ("emulate: persist the facility ledger: " +:+ w))
    | None => (l, FacHolds l, None)
    end in
  (mkFacility (fl_StartTime published) v (fl_ITJ published) (fl_CoolingJ published) (rackReadings rackW published), err,
   mkEmulator (e_members e) (e_closed e) (e_seq e) (e_lastTick e) (e_latest e) l published disk).

(** What a tick meets: its members' inputs, the facility, and the error of
    the write of its ledger. *)
Record TickInput := mkTick { ti_steps : list StepInput; ti_fac : float64 -> Z -> Values; ti_write : option string }.

Inductive TickError := ErrClosed | ErrBefore (now lastTick : Z).

(** The errors of the members, named, then the facility's.
    src/simulator/pkg/emulate/tick.go:53-64 [errs] *)
Definition tickErrors (ms : list member) (facErr : option string) : list string :=
  omap (fun m => (fun err => "emulate: node " +:+ m_name m +:+ ": " +:+ err) <$> m_err m) ms ++ match facErr with Some err => [err] | None => [] end.

(** src/simulator/pkg/emulate/tick.go:34-72 [Tick] *)
Definition Tick (now : Z) (i : TickInput) (e : Emulator) : (TickError + Snapshot * list string) * Emulator :=
  if e_closed e then (inl ErrClosed, e)
  else if (now <? e_lastTick e)%Z then (inl (ErrBefore now (e_lastTick e)), e)
  else
    let ms := zip_with stepMember (ti_steps i) (e_members e) in
    let '(fac, facErr, e') := tickFacility now (ti_fac i) (ti_write i)
      (mkEmulator ms (e_closed e) (e_seq e) (e_lastTick e) (e_latest e) (e_facLedger e) (e_facPublished e) (e_facDisk e)) in
    let seq := ((e_seq e + 1) mod 2 ^ 64)%Z in
    let snap := mkSnapshot seq now (m_snap <$> ms) fac in
    (inr (snap, tickErrors ms facErr),
     mkEmulator ms (e_closed e) seq now (Some snap) (e_facLedger e') (e_facPublished e') (e_facDisk e')).

Fixpoint startMembers (start : Z) (specs : list (string * string * string * Disk)) : string + list member :=
  match specs with
  | [] => inr []
  | (name, rack, path, d) :: rest =>
      match startMember name rack path start d, startMembers start rest with
      | inl err, _ | _, inl err => inl err
      | inr m, inr ms => inr (m :: ms)
      end
  end.

(** A new emulator over the ledgers left on disk, its members in the order
    of their names.
    src/simulator/pkg/emulate/emulator.go:270-300 [New] *)
Definition New (cluster facPath : string) (start : Z) (specs : list (string * string * string * Disk)) (fd : FacDisk) : string + Emulator :=
  match startMembers start specs, loadFacilityLedger fd facPath cluster start with
  | inl err, _ | _, inl err => inl err
  | inr ms, inr fl => inr (mkEmulator ms false 0 start None fl fl fd)
  end.

(** ** Energies only grow *)

(** A counter in joules: a number that is not negative, and the infinity a
    sum may overflow to. *)
Definition counter (x : float64) : Prop := valid x /\ fle fzero x = true.

Lemma counter_zero : counter fzero.
Proof. by split. Qed.

Lemma counter_not_nan x : counter x -> is_nan x = false.
Proof. intros [_ Hx]. by destruct x. Qed.

Lemma counter_refl x : counter x -> fle x x = true.
Proof. intros Hx. by apply fle_refl, counter_not_nan. Qed.

Lemma counter_cases x : counter x -> x = S754_infinity false \/ nonneg x.
Proof. intros [Hv Hx]. destruct x as [s|[]| |s m e]; try done; [right|by left|right]; by split. Qed.

Lemma fadd_grows x y : counter x -> counter y -> counter (fadd x y) /\ fle x (fadd x y) = true.
Proof.
  intros Hx Hy. assert (counter (fadd x y)) as Hs.
  { split; [apply fadd_valid; [apply Hx|apply Hy]|]. apply fadd_nonneg; [apply Hx|apply Hy]. }
  split; [done|]. destruct (counter_cases x Hx) as [->|Hx'].
  - destruct (counter_cases y Hy) as [->|(_ & Hf & _)]; [done|]. by destruct y.
  - destruct (counter_cases y Hy) as [->|Hy']; [|by apply fadd_ge_l].
    destruct Hx' as (_ & Hf & _). by destruct x as [[]|[]| |[] m e].
Qed.

Lemma ledgerAccrue_grows total base v : counter total -> real base -> valid v ->
  let '(total', base', _) := ledgerAccrue total base v in counter total' /\ fle total total' = true /\ real base'.
Proof.
  intros Ht Hb Hv. unfold ledgerAccrue. destruct (is_finite v) eqn:Hf; cbn [negb].
  2:{ split; [done|]. split; [by apply counter_refl|done]. }
  assert (is_nan (fsub v base) = false) as Hn.
  { apply fsub_not_nan; [by apply is_finite_not_nan|by apply is_finite_not_nan, Hb|by rewrite Hf]. }
  destruct (flt (fsub v base) fzero) eqn:E.
  - split; [done|]. split; [by apply counter_refl|by split].
  - destruct (fadd_grows total (fsub v base) Ht) as [H1 H2]; [|by split_and!].
    split; [apply fsub_valid; [done|apply Hb]|]. by apply flt_not_fle.
Qed.

Lemma ledgerFinite_counter v : valid v -> counter (ledgerFinite v).
Proof.
  intros Hv. unfold ledgerFinite. destruct (is_finite v) eqn:Hf; [|done]. cbn [negb orb].
  destruct (flt v fzero) eqn:E; [done|]. split; [done|]. by apply flt_not_fle; [apply is_finite_not_nan|..].
Qed.

Definition at_ (m : gmap string float64) (k : string) : float64 := default fzero (m !! k).

Definition counters (m : gmap string float64) : Prop := forall k, counter (at_ m k).
Definition grows (m m' : gmap string float64) : Prop := forall k, fle (at_ m k) (at_ m' k) = true.

#[export] Instance grows_trans : Transitive grows.
Proof. intros a b c H1 H2 k. eapply fle_trans; [apply H1|apply H2]. Qed.

Lemma grows_refl m : counters m -> grows m m.
Proof. intros H k. apply counter_refl, H. Qed.

Lemma at_insert m k v j : at_ (<[k := v]> m) j = if decide (k = j) then v else at_ m j.
Proof. unfold at_. destruct (decide (k = j)) as [->|Hne]; [by rewrite lookup_insert_eq|by rewrite lookup_insert_ne]. Qed.

Lemma counters_insert m k v : counters m -> counter v -> counters (<[k := v]> m).
Proof. intros Hm Hv j. rewrite at_insert. by destruct (decide _). Qed.

Lemma grows_insert m k v : counters m -> fle (at_ m k) v = true -> grows m (<[k := v]> m).
Proof. intros Hm Hv j. rewrite at_insert. destruct (decide _) as [->|_]; [done|]. apply counter_refl, Hm. Qed.

(** ** A node's ledger *)

Definition counts (l : nodeLedger) : Prop := counter (nl_HostJ l) /\ counters (nl_ComponentsJ l).
Definition ledgerLe (l l' : nodeLedger) : Prop := fle (nl_HostJ l) (nl_HostJ l') = true /\ grows (nl_ComponentsJ l) (nl_ComponentsJ l').

#[export] Instance ledgerLe_trans : Transitive ledgerLe.
Proof. intros a b c [H1 H2] [H3 H4]. split; [by eapply fle_trans|by etrans]. Qed.

Lemma ledgerLe_refl l : counts l -> ledgerLe l l.
Proof. intros [H1 H2]. split; [by apply counter_refl|by apply grows_refl]. Qed.

(** Readings that are float64s. *)
Definition readable (st : RunnerState) : Prop :=
  valid (hs_EnergyJ (rs_Host st)) /\ valid (hs_PowerW (rs_Host st)) /\ Forall (fun c => valid (cs_EnergyJ c)) (rs_Components st).

Definition reals (m : gmap string float64) : Prop := forall k, real (at_ m k).

Lemma accrueComponent_effect l b c :
  let '(l1, b1) := accrueComponent (l, b) c in
  let '(t, b0, _) := ledgerAccrue (at_ (nl_ComponentsJ l) (cs_ID c)) (at_ b (cs_ID c)) (cs_EnergyJ c) in
  nl_HostJ l1 = nl_HostJ l /\ nl_ComponentsJ l1 = <[cs_ID c := t]> (nl_ComponentsJ l) /\ b1 = <[cs_ID c := b0]> b.
Proof.
  unfold accrueComponent. fold (at_ (nl_ComponentsJ l) (cs_ID c)) (at_ b (cs_ID c)). destruct (ledgerAccrue _ _ _) as [[t b0] back].
  destruct (String.eqb _ _); [|done]. unfold accrueGPUIO.
  by destruct (ledgerAccrueBytes _ _ _) as [[]], (ledgerAccrueBytes _ _ _) as [[]].
Qed.

Lemma accrueComponents_grow cs l b :
  Forall (fun c => valid (cs_EnergyJ c)) cs -> counters (nl_ComponentsJ l) -> reals b ->
  let '(l', b') := fold_left accrueComponent cs (l, b) in
  nl_HostJ l' = nl_HostJ l /\ counters (nl_ComponentsJ l') /\ grows (nl_ComponentsJ l) (nl_ComponentsJ l') /\ reals b'.
Proof.
  revert l b. induction cs as [|c cs IH]; intros l b Hv Hl Hb; cbn [fold_left].
  { split; [done|]. split; [done|]. split; [by apply grows_refl|done]. }
  apply Forall_cons in Hv as [Hc Hv]. destruct (accrueComponent (l, b) c) as [l1 b1] eqn:E.
  assert (nl_HostJ l1 = nl_HostJ l /\ counters (nl_ComponentsJ l1) /\ grows (nl_ComponentsJ l) (nl_ComponentsJ l1) /\ reals b1) as (H1 & H2 & H3 & H4).
  { pose proof (accrueComponent_effect l b c) as He. rewrite E in He.
    pose proof (ledgerAccrue_grows (at_ (nl_ComponentsJ l) (cs_ID c)) (at_ b (cs_ID c)) (cs_EnergyJ c) (Hl _) (Hb _) Hc) as Hg.
    destruct (ledgerAccrue _ _ _) as [[t b0] back]. destruct Hg as (G1 & G2 & G3), He as (-> & -> & ->).
    split; [done|]. split; [by apply counters_insert|]. split; [by apply grows_insert|].
    intros k. rewrite at_insert. by destruct (decide _). }
  specialize (IH l1 b1 Hv H2 H4). destruct (fold_left accrueComponent cs (l1, b1)) as [l' b'].
  destruct IH as (I1 & I2 & I3 & I4). split; [by rewrite I1|]. split; [done|]. split; [by etrans|done].
Qed.

Lemma accrue_grows st l hb cb : readable st -> counts l -> real hb -> reals cb ->
  let '(l', hb', cb') := accrue st l hb cb in counts l' /\ ledgerLe l l' /\ real hb' /\ reals cb'.
Proof.
  intros (V1 & _ & V2) [C1 C2] Hh Hc. unfold accrue. pose proof (ledgerAccrue_grows (nl_HostJ l) hb (hs_EnergyJ (rs_Host st)) C1 Hh V1) as Hg.
  destruct (ledgerAccrue _ _ _) as [[t hb'] back]. destruct Hg as (G1 & G2 & G3).
  pose proof (accrueComponents_grow (rs_Components st) (set_HostJ t l) cb V2 C2 Hc) as Hf.
  destruct (fold_left _ _ _) as [l' cb']. destruct Hf as (F1 & F2 & F3 & F4).
  split; [split; [by rewrite F1|done]|]. split; [|done]. split; [by rewrite F1|done].
Qed.

(** ** What is shown is what is on disk *)

(** What a ledger's file goes on from: nothing at all without one. *)
Definition onDisk (d : Disk) : nodeLedger := match d with Holds l => l | _ => freshLedger "" 0 end.
Definition onFacDisk (d : FacDisk) : facilityLedger := match d with FacHolds l => l | _ => freshFacility "" 0 end.

(** Readings that show a ledger, and that a ledger has caught up with. *)
Definition shows (s : NodeSnapshot) (l : nodeLedger) : Prop :=
  hs_EnergyJ (ns_Host s) = nl_HostJ l /\ Forall (fun c => cs_EnergyJ c = at_ (nl_ComponentsJ l) (cs_ID c)) (ns_Components s).
Definition under (s : NodeSnapshot) (l : nodeLedger) : Prop :=
  fle (hs_EnergyJ (ns_Host s)) (nl_HostJ l) = true /\ Forall (fun c => fle (cs_EnergyJ c) (at_ (nl_ComponentsJ l) (cs_ID c)) = true) (ns_Components s).

Lemma shows_under s l : counts l -> shows s l -> under s l.
Proof.
  intros [C1 C2] [S1 S2]. split; [rewrite S1; by apply counter_refl|].
  eapply Forall_impl; [exact S2|]. intros c ->. apply counter_refl, C2.
Qed.

Lemma under_mono s l l' : under s l -> ledgerLe l l' -> under s l'.
Proof.
  intros [U1 U2] [L1 L2]. split; [by eapply fle_trans|].
  eapply Forall_impl; [exact U2|]. intros c Hc. eapply fle_trans; [exact Hc|apply L2].
Qed.

(** A member between ticks. *)
Record Kept (m : member) : Prop := {
  k_ledger : counts (m_ledger m);
  k_disk : counts (onDisk (m_disk m));
  k_behind : ledgerLe (onDisk (m_disk m)) (m_ledger m);
  k_hostBase : real (m_hostBase m);
  k_compBase : reals (m_compBase m);
  k_shown : shows (m_last m) (onDisk (m_disk m));
  k_power : valid (hs_PowerW (ns_Host (m_last m)))
}.

Lemma reading_shows st l last : shows (reading st l last) l.
Proof. split; [done|]. apply Forall_fmap, Forall_true. done. Qed.

Lemma stepMember_kept i m : readable (si_state i) -> Kept m ->
  let m' := stepMember i m in
  Kept m' /\ ledgerLe (onDisk (m_disk m)) (onDisk (m_disk m')) /\ shows (m_snap m') (onDisk (m_disk m')) /\
  valid (m_hostDelta m') /\ valid (hs_PowerW (ns_Host (m_snap m'))).
Proof.
  intros Hr [K1 K2 K3 K4 K5 K6 K7]. cbv zeta. unfold stepMember. destruct (si_advance i) as [e|].
  { split; [by split|]. split; [by apply ledgerLe_refl|]. split; [done|]. split; [|done].
    apply fsub_valid; cbn [hs_EnergyJ ns_Host]; rewrite (proj1 K6); apply K2. }
  pose proof (accrue_grows (si_state i) (m_ledger m) (m_hostBase m) (m_compBase m) Hr K1 K4 K5) as Hg.
  destruct (accrue _ _ _ _) as [[l hb] cb]. destruct Hg as (G1 & G2 & G3 & G4). destruct (si_write i) as [e|].
  - split; [split; try done; by etrans|]. split; [by apply ledgerLe_refl|]. split; [done|]. split; [|done].
    apply fsub_valid; cbn [hs_EnergyJ ns_Host]; rewrite (proj1 K6); apply K2.
  - split; [split; try done|].
    + exact (ledgerLe_refl l G1).
    + exact (reading_shows _ l _).
    + apply Hr.
    + split; [exact (transitivity K3 G2)|]. split; [exact (reading_shows _ l _)|]. split; [|apply Hr].
      apply fsub_valid; [apply G1|]. cbn [hs_EnergyJ ns_Host]. rewrite (proj1 K6). apply K2.
Qed.

Lemma startMember_kept name rack path start d m : counts (onDisk d) -> startMember name rack path start d = inr m ->
  Kept m /\ m_disk m = d.
Proof.
  intros Hd. unfold startMember. destruct (loadNodeLedger d path name start) as [|l] eqn:E; [done|]. intros [= <-].
  assert (nl_HostJ l = nl_HostJ (onDisk d) /\ nl_ComponentsJ l = nl_ComponentsJ (onDisk d)) as [E1 E2].
  { revert E. unfold loadNodeLedger. destruct d as [|err|l0]; [by intros [= <-]|done|].
    destruct (negb (_ =? _)%Z); [done|]. destruct (negb (String.eqb _ _)); [done|]. by intros [= <-]. }
  assert (counts l) as Hl by (unfold counts; by rewrite E1, E2).
  split; [|done]. split; cbn [m_ledger m_disk m_hostBase m_compBase m_last]; try done.
  - unfold ledgerLe. rewrite E1, E2. by apply ledgerLe_refl.
Qed.

(** ** The facility's ledger *)

Definition facCounts (l : facilityLedger) : Prop := counter (fl_ITJ l) /\ counter (fl_CoolingJ l) /\ counters (fl_RacksJ l).
Definition facLe (l l' : facilityLedger) : Prop :=
  fle (fl_ITJ l) (fl_ITJ l') = true /\ fle (fl_CoolingJ l) (fl_CoolingJ l') = true /\ grows (fl_RacksJ l) (fl_RacksJ l').

#[export] Instance facLe_trans : Transitive facLe.
Proof. intros a b c (H1 & H2 & H3) (H4 & H5 & H6). split; [by eapply fle_trans|]. split; [by eapply fle_trans|by etrans]. Qed.

Lemma facLe_refl l : facCounts l -> facLe l l.
Proof. intros (H1 & H2 & H3). split; [by apply counter_refl|]. split; [by apply counter_refl|by apply grows_refl]. Qed.

Definition facReadings (v : Values) : Prop := valid (v_ITPowerW v) /\ valid (v_CoolingPowerW v).

Lemma sumMembers_counters ms :
  Forall (fun m => valid (m_hostDelta m) /\ valid (hs_PowerW (ns_Host (m_snap m)))) ms ->
  let '(specITW, hostDeltaJ, _, rackDeltaJ) := sumMembers ms in valid specITW /\ counter hostDeltaJ /\ counters rackDeltaJ.
Proof.
  intros Hms. unfold sumMembers.
  enough (forall a b (c d : gmap string float64), valid a -> counter b -> counters d ->
    let '(specITW, hostDeltaJ, _, rackDeltaJ) := fold_left (fun '(specITW, hostDeltaJ, rackW, rackDeltaJ) m =>
      let d := ledgerFinite (m_hostDelta m) in
      let w := hs_PowerW (ns_Host (m_snap m)) in
      let '(rackW, rackDeltaJ) := if String.eqb (m_rack m) "" then (rackW, rackDeltaJ) else (addTo rackW (m_rack m) w, addTo rackDeltaJ (m_rack m) d) in
      (fadd specITW w, fadd hostDeltaJ d, rackW, rackDeltaJ)) ms (a, b, c, d) in
    valid specITW /\ counter hostDeltaJ /\ counters rackDeltaJ) as Hg.
  { apply Hg; [done|apply counter_zero|]. intros k. unfold at_. rewrite lookup_empty. apply counter_zero. }
  induction Hms as [|m ms [V1 V2] _ IH]; intros a b c d Ha Hb Hd; [done|]. cbn [fold_left]. cbv zeta.
  pose proof (ledgerFinite_counter (m_hostDelta m) V1) as Hc.
  destruct (String.eqb (m_rack m) ""); (apply IH; [by apply fadd_valid|by apply fadd_grows|]); [done|].
  unfold addTo. apply counters_insert; [done|]. apply fadd_grows; [apply Hd|done].
Qed.

Lemma accrueFacility_grows v dt specITW hostDeltaJ rackDeltaJ l :
  facReadings v -> valid dt -> valid specITW -> counter hostDeltaJ -> counters rackDeltaJ -> facCounts l ->
  let l' := accrueFacility v dt specITW hostDeltaJ rackDeltaJ l in facCounts l' /\ facLe l l'.
Proof.
  intros [V1 V2] Hdt Hs Hh Hr (C1 & C2 & C3). cbv zeta. unfold accrueFacility, facCounts, facLe. cbn [fl_ITJ fl_CoolingJ fl_RacksJ].
  assert (counter (fadd hostDeltaJ (ledgerFinite (fmul (fmax fzero (fsub (v_ITPowerW v) specITW)) dt)))) as H1.
  { apply fadd_grows; [done|]. apply ledgerFinite_counter, fmul_valid; [|done]. apply fmax_valid; [done|]. by apply fsub_valid. }
  assert (counter (ledgerFinite (fmul (v_CoolingPowerW v) dt))) as H2 by (by apply ledgerFinite_counter, fmul_valid).
  pose proof (fadd_grows _ _ C1 H1) as [G1 G2]. pose proof (fadd_grows _ _ C2 H2) as [G3 G4].
  assert (forall k, counter (at_ (merge (fun a d => match a, d with Some a, Some d => Some (fadd a d) | None, Some d => Some (fadd fzero d) | a, None => a end)
       (fl_RacksJ l) rackDeltaJ) k) /\ fle (at_ (fl_RacksJ l) k) (at_ (merge (fun a d => match a, d with Some a, Some d => Some (fadd a d) | None, Some d => Some (fadd fzero d) | a, None => a end)
       (fl_RacksJ l) rackDeltaJ) k) = true) as Hk.
  { intros k. specialize (C3 k). specialize (Hr k). unfold at_ in *. rewrite lookup_merge. unfold diag_None.
    destruct (fl_RacksJ l !! k) as [a|], (rackDeltaJ !! k) as [d|]; cbn [default from_option id] in *; try (by apply fadd_grows);
      split; (done || by apply counter_refl). }
  split; [split; [done|]; split; [done|intros k; apply Hk]|]. split; [done|]. split; [done|]. intros k. apply Hk.
Qed.

(** ** The emulator over its life *)

Definition shownRack (l : facilityLedger) (r : RackReading) : Prop := rr_EnergyJ r = at_ (fl_RacksJ l) (rr_Name r).
Definition facShows (s : FacilitySnapshot) (l : facilityLedger) : Prop :=
  fs_ITEnergyJ s = fl_ITJ l /\ fs_CoolingEnergyJ s = fl_CoolingJ l /\ Forall (shownRack l) (fs_Racks s).
Definition facUnder (s : FacilitySnapshot) (l : facilityLedger) : Prop :=
  fle (fs_ITEnergyJ s) (fl_ITJ l) = true /\ fle (fs_CoolingEnergyJ s) (fl_CoolingJ l) = true /\
  Forall (fun r => fle (rr_EnergyJ r) (at_ (fl_RacksJ l) (rr_Name r)) = true) (fs_Racks s).

Lemma facShows_under s l : facCounts l -> facShows s l -> facUnder s l.
Proof.
  intros (C1 & C2 & C3) (S1 & S2 & S3). unfold facUnder. rewrite S1, S2. split; [by apply counter_refl|]. split; [by apply counter_refl|].
  eapply Forall_impl; [exact S3|]. intros r ->. apply counter_refl, C3.
Qed.

Lemma facUnder_mono s l l' : facUnder s l -> facLe l l' -> facUnder s l'.
Proof.
  intros (U1 & U2 & U3) (L1 & L2 & L3). split; [by eapply fle_trans|]. split; [by eapply fle_trans|].
  eapply Forall_impl; [exact U3|]. intros r Hr. eapply fle_trans; [exact Hr|apply L3].
Qed.

Record FacKept (cluster : string) (e : Emulator) : Prop := {
  f_ledger : facCounts (e_facLedger e);
  f_published : facCounts (e_facPublished e);
  f_behind : facLe (e_facPublished e) (e_facLedger e);
  f_header : fl_Cluster (e_facLedger e) = cluster;
  f_loads : forall path start l, loadFacilityLedger (e_facDisk e) path cluster start = inr l -> facCounts l /\ facLe (e_facPublished e) l
}.

Lemma duration_seconds_valid d : valid (duration_seconds d).
Proof. unfold duration_seconds. apply fadd_valid; [apply fofZ_valid|]. apply fdiv_valid; apply fofZ_valid. Qed.

Lemma rackReadings_shown rackW l : Forall (shownRack l) (rackReadings rackW l).
Proof. apply Forall_fmap, Forall_true. done. Qed.

Lemma tickFacility_kept cluster now fac werr e :
  FacKept cluster e -> (forall w t, valid w -> facReadings (fac w t)) ->
  Forall (fun m => valid (m_hostDelta m) /\ valid (hs_PowerW (ns_Host (m_snap m)))) (e_members e) ->
  let '(s, _, e') := tickFacility now fac werr e in
  FacKept cluster e' /\ facLe (e_facPublished e) (e_facPublished e') /\ facShows s (e_facPublished e').
Proof.
  intros [F1 F2 F3 F4 F5] Hfac Hms. unfold tickFacility. pose proof (sumMembers_counters _ Hms) as Hs.
  destruct (sumMembers (e_members e)) as [[[w d] rackW] rackD]. destruct Hs as (S1 & S2 & S3).
  set (dt := duration_seconds _). pose proof (accrueFacility_grows (fac w now) dt w d rackD (e_facLedger e)
    (Hfac w now S1) (duration_seconds_valid _) S1 S2 S3 F1) as [G1 G2]. set (l := accrueFacility _ _ _ _ _ _) in *.
  assert (fl_Cluster l = cluster) as Hl by done.
  destruct werr as [err|]; cbn [e_facPublished e_facLedger e_facDisk fs_ITEnergyJ fs_CoolingEnergyJ fs_Racks].
  - split; [split; try done; by etrans|]. split; [by apply facLe_refl|]. split; [done|]. split; [done|]. apply rackReadings_shown.
  - split; [split; try done|].
    + by apply facLe_refl.
    + intros path start l'. cbn [e_facDisk loadFacilityLedger e_facPublished]. destruct (negb (_ =? _)%Z); [done|].
      rewrite Hl, String.eqb_refl. cbn [negb]. intros [= <-]. split; [done|by apply facLe_refl].
    + split; [by etrans|]. split; [done|]. split; [done|]. apply rackReadings_shown.
Qed.

(** Snapshots, newest first, an emulator and the ones before it on the same
    files published: ticks, of which any member's step or write may fail,
    and restarts. *)
Definition readableInput (i : TickInput) : Prop :=
  Forall (fun s => readable (si_state s)) (ti_steps i) /\ forall w t, valid w -> facReadings (ti_fac i w t).

Inductive history (cluster : string) : Emulator -> list Snapshot -> Prop :=
| History_new facPath start specs fd e :
    New cluster facPath start specs fd = inr e -> Forall (fun d => counts (onDisk d)) specs.*2 -> facCounts (onFacDisk fd) ->
    history cluster e []
| History_tick e l now i s errs e' :
    history cluster e l -> readableInput i -> length (ti_steps i) = length (e_members e) ->
    Tick now i e = (inr (s, errs), e') -> history cluster e' (s :: l)
| History_restart e l facPath start specs e' :
    history cluster e l -> specs.*2 = m_disk <$> e_members e -> New cluster facPath start specs (e_facDisk e) = inr e' ->
    history cluster e' l.

Definition nodeLe (a b : NodeSnapshot) : Prop :=
  fle (hs_EnergyJ (ns_Host a)) (hs_EnergyJ (ns_Host b)) = true /\
  forall c c', c ∈ ns_Components a -> c' ∈ ns_Components b -> cs_ID c = cs_ID c' -> fle (cs_EnergyJ c) (cs_EnergyJ c') = true.

Definition facilityLe (a b : FacilitySnapshot) : Prop :=
  fle (fs_ITEnergyJ a) (fs_ITEnergyJ b) = true /\ fle (fs_CoolingEnergyJ a) (fs_CoolingEnergyJ b) = true /\
  forall r r', r ∈ fs_Racks a -> r' ∈ fs_Racks b -> rr_Name r = rr_Name r' -> fle (rr_EnergyJ r) (rr_EnergyJ r') = true.

Lemma under_shows_le a b l : under a l -> shows b l -> nodeLe a b.
Proof.
  intros [U1 U2] [S1 S2]. split; [by rewrite S1|]. intros c c' Hc Hc' Hid.
  rewrite (proj1 (Forall_forall _ _) S2 c' Hc'), <- Hid. by apply (proj1 (Forall_forall _ _) U2).
Qed.

Lemma facUnder_shows_le a b l : facUnder a l -> facShows b l -> facilityLe a b.
Proof.
  intros (U1 & U2 & U3) (S1 & S2 & S3). split; [by rewrite S1|]. split; [by rewrite S2|]. intros r r' Hr Hr' Hn.
  rewrite (proj1 (Forall_forall _ _) S3 r' Hr'), <- Hn. by apply (proj1 (Forall_forall _ _) U3).
Qed.

Definition caughtUp (e : Emulator) (s : Snapshot) : Prop :=
  Forall2 (fun n m => under n (onDisk (m_disk m))) (sn_Nodes s) (e_members e) /\ facUnder (sn_Facility s) (e_facPublished e).

Record Running (cluster : string) (e : Emulator) (l : list Snapshot) : Prop := {
  r_members : Forall Kept (e_members e);
  r_facility : FacKept cluster e;
  r_caught : Forall (caughtUp e) l
}.

Lemma startMembers_kept start specs ms : Forall (fun d => counts (onDisk d)) specs.*2 -> startMembers start specs = inr ms ->
  Forall Kept ms /\ m_disk <$> ms = specs.*2.
Proof.
  revert ms. induction specs as [|[[[name rack] path] d] specs IH]; intros ms Hd; cbn [startMembers].
  { by intros [= <-]. }
  cbn [fmap list_fmap snd] in Hd. apply Forall_cons in Hd as [Hd Hds].
  destruct (startMember name rack path start d) as [|m] eqn:Em; [done|].
  destruct (startMembers start specs) as [|ms'] eqn:Es; [done|]. intros [= <-].
  destruct (startMember_kept _ _ _ _ _ _ Hd Em) as [Hk Hdk]. destruct (IH ms' Hds eq_refl) as [H1 H2].
  split; [by constructor|]. cbn. by rewrite Hdk, H2.
Qed.

Lemma steps_kept ins ms : Forall (fun s => readable (si_state s)) ins -> Forall Kept ms ->
  let ms' := zip_with stepMember ins ms in
  Forall Kept ms' /\ Forall (fun m => valid (m_hostDelta m) /\ valid (hs_PowerW (ns_Host (m_snap m)))) ms'.
Proof.
  intros Hr Hk. revert ins Hr. induction Hk as [|m ms Hm _ IH]; intros ins Hr; destruct Hr as [|i ins Hi Hr]; try by split.
  cbn [zip_with]. destruct (stepMember_kept i m Hi Hm) as (H1 & _ & _ & H4 & H5). destruct (IH ins Hr) as [I1 I2].
  by split; constructor.
Qed.

Lemma steps_under ins ms ns : Forall (fun s => readable (si_state s)) ins -> Forall Kept ms -> length ins = length ms ->
  Forall2 (fun n m => under n (onDisk (m_disk m))) ns ms ->
  Forall2 (fun n m => under n (onDisk (m_disk m))) ns (zip_with stepMember ins ms) /\
  Forall2 nodeLe ns (m_snap <$> zip_with stepMember ins ms).
Proof.
  intros Hr Hk. revert ins ns Hr. induction Hk as [|m ms Hm _ IH]; intros ins ns Hr Hlen Hu; destruct Hr as [|i ins Hi Hr]; try done.
  { apply Forall2_nil_inv_r in Hu as ->. by split; constructor. }
  apply Forall2_cons_inv_r in Hu as (n & ns' & Hn & Hns & ->). cbn [zip_with fmap list_fmap].
  destruct (stepMember_kept i m Hi Hm) as (H1 & H2 & H3 & _). destruct (IH ins ns' Hr ltac:(cbn in Hlen; lia) Hns) as [I1 I2].
  pose proof (under_mono n _ _ Hn H2) as Hn'. split; constructor; try done. by eapply under_shows_le.
Qed.

Lemma steps_shown ins ms : Forall (fun s => readable (si_state s)) ins -> Forall Kept ms ->
  Forall2 (fun n m => under n (onDisk (m_disk m))) (m_snap <$> zip_with stepMember ins ms) (zip_with stepMember ins ms).
Proof.
  intros Hr Hk. revert ins Hr. induction Hk as [|m ms Hm _ IH]; intros ins Hr; destruct Hr as [|i ins Hi Hr]; try by constructor.
  cbn [zip_with fmap list_fmap]. destruct (stepMember_kept i m Hi Hm) as (H1 & _ & H3 & _).
  constructor; [|by apply IH]. apply shows_under; [apply H1|done].
Qed.

Lemma FacKept_fields cluster e e' : e_facLedger e' = e_facLedger e -> e_facPublished e' = e_facPublished e -> e_facDisk e' = e_facDisk e ->
  FacKept cluster e -> FacKept cluster e'.
Proof. intros E1 E2 E3 []. split; rewrite ?E1, ?E2, ?E3; done. Qed.

(** A tick: the invariant, the snapshot beside the ones before it. *)
Lemma Tick_running cluster now i e l s errs e' :
  Running cluster e l -> readableInput i -> length (ti_steps i) = length (e_members e) ->
  Tick now i e = (inr (s, errs), e') ->
  Running cluster e' (s :: l) /\
  Forall (fun s0 => Forall2 nodeLe (sn_Nodes s0) (sn_Nodes s) /\ facilityLe (sn_Facility s0) (sn_Facility s)) l.
Proof.
  intros [R1 R2 R3] [Hi1 Hi2] Hlen. unfold Tick. destruct (e_closed e); [done|]. destruct (now <? e_lastTick e)%Z; [done|].
  destruct (steps_kept (ti_steps i) (e_members e) Hi1 R1) as [K1 K2].
  pose proof (steps_shown (ti_steps i) (e_members e) Hi1 R1) as K3.
  pose proof (fun ns => steps_under (ti_steps i) (e_members e) ns Hi1 R1 Hlen) as K4.
  set (ms := zip_with _ _ _) in *. set (e1 := mkEmulator ms _ _ _ _ _ _ _).
  pose proof (tickFacility_kept cluster now (ti_fac i) (ti_write i) e1 (FacKept_fields cluster e e1 eq_refl eq_refl eq_refl R2) Hi2 K2) as Hf.
  destruct (tickFacility _ _ _ _) as [[f ferr] e2]. destruct Hf as (F1 & F2 & F3). intros [= <- _ <-]. split.
  - split; [done|by eapply FacKept_fields, F1|]. constructor.
    + split; [done|]. apply facShows_under; [apply F1|done].
    + eapply Forall_impl; [exact R3|]. intros s0 [U1 U2]. split; [by apply K4|by eapply facUnder_mono].
  - eapply Forall_impl; [exact R3|]. intros s0 [U1 U2]. split; [by apply K4|].
    eapply facUnder_shows_le; [by eapply facUnder_mono|done].
Qed.

Lemma New_running cluster facPath start specs fd e :
  New cluster facPath start specs fd = inr e -> Forall (fun d => counts (onDisk d)) specs.*2 ->
  (forall l, loadFacilityLedger fd facPath cluster start = inr l -> facCounts l) ->
  Forall Kept (e_members e) /\ m_disk <$> e_members e = specs.*2 /\ FacKept cluster e /\
  loadFacilityLedger fd facPath cluster start = inr (e_facPublished e).
Proof.
  unfold New. intros HN Hd Hf. destruct (startMembers start specs) as [|ms] eqn:Em; [done|].
  destruct (loadFacilityLedger fd facPath cluster start) as [|fl] eqn:Ef; [done|]. injection HN as <-.
  destruct (startMembers_kept _ _ _ Hd Em) as [K1 K2]. pose proof (Hf fl eq_refl) as Hc.
  assert (fl_Cluster fl = cluster /\ forall path start' l, loadFacilityLedger fd path cluster start' = inr l ->
    fl_ITJ l = fl_ITJ fl /\ fl_CoolingJ l = fl_CoolingJ fl /\ fl_RacksJ l = fl_RacksJ fl) as [Hcl Hl].
  { revert Ef. unfold loadFacilityLedger. destruct fd as [|err|l0]; [|done|].
    - intros [= <-]. split; [done|]. by intros path start' l [= <-].
    - destruct (negb (fl_SchemaVersion l0 =? _)%Z); [done|]. destruct (String.eqb_spec (fl_Cluster l0) cluster); cbn [negb]; intros [= <-].
      + split; [done|]. by intros path start' l [= <-].
      + split; [done|]. by intros path start' l [= <-]. }
  split; [done|]. split; [done|]. split; [|done]. split; cbn [e_facLedger e_facPublished e_facDisk]; try done; [by apply facLe_refl|].
  intros path start' l E%Hl. destruct E as (E1 & E2 & E3). unfold facCounts, facLe. rewrite E1, E2, E3. split; [done|by apply facLe_refl].
Qed.

Lemma history_running cluster e l : history cluster e l -> Running cluster e l.
Proof.
  induction 1 as [facPath start specs fd e HN Hd Hf|e l now i s errs e' _ IH Hi Hlen E|e l facPath start specs e' _ IH Hs HN].
  - destruct (New_running _ _ _ _ _ _ HN Hd) as (K1 & _ & K2 & _); [|by split].
    intros fl. unfold loadFacilityLedger. destruct fd as [|err|l0]; [by intros [= <-]|done|].
    destruct (negb (_ =? _)%Z); [done|]. destruct (negb (String.eqb _ _)); by intros [= <-].
  - by destruct (Tick_running _ _ _ _ _ _ _ _ IH Hi Hlen E).
  - destruct IH as [R1 R2 R3]. destruct (New_running _ _ _ _ _ _ HN) as (K1 & K2 & K3 & K4).
    + rewrite Hs. apply Forall_fmap. eapply Forall_impl; [exact R1|]. by intros m [].
    + intros fl Hfl. by apply (f_loads _ _ R2 _ _ _ Hfl).
    + split; [done|done|]. eapply Forall_impl; [exact R3|]. intros s [U1 U2]. split.
      * rewrite Hs in K2. revert U1. generalize (sn_Nodes s). revert K2. generalize (e_members e). generalize (e_members e').
        induction l0 as [|m' ms' IHm]; intros [|m ms] E ns Hu; try discriminate; [exact Hu|]. cbn in E. injection E as E1 E2.
        apply Forall2_cons_inv_r in Hu as (n & ns' & Hn & Hns & ->). constructor; [by rewrite E1|by eapply IHm].
      * eapply facUnder_mono; [exact U2|]. by apply (f_loads _ _ R2 _ _ _ K4).
Qed.

(** C15. The counters an emulated cluster exports never go back: whatever
    ticks and restarts there are, and whichever steps and writes fail, no
    snapshot shows a node, a component, a rack or the facility with less
    energy than a snapshot before it. *)
Theorem counters_never_decrease cluster e l s s0 : history cluster e (s :: l) -> s0 ∈ l ->
  Forall2 nodeLe (sn_Nodes s0) (sn_Nodes s) /\ facilityLe (sn_Facility s0) (sn_Facility s).
Proof.
  intros Hh Hin. remember (s :: l) as sl eqn:Esl. revert s l Esl Hin.
  induction Hh as [|e l' now i s' errs e' Hh IH Hi Hlen E|e l' facPath start specs e' Hh IH Hs HN]; intros s l Esl Hin.
  - done.
  - injection Esl as -> ->. destruct (Tick_running _ _ _ _ _ _ _ _ (history_running _ _ _ Hh) Hi Hlen E) as [_ Hall].
    exact (proj1 (Forall_forall _ _) Hall s0 Hin).
  - by apply (IH s l).
Qed.

(** ** A node that fails, and is started again *)

Definition watt (w : Z) : float64 := fofZ w.
Definition runnerAt (hostJ cpuJ gpuJ : Z) (rx : Z) : RunnerState :=
  let gov := mkGov "powersave" "eco" in
  mkRunner (mkHost true (watt 300) (fofZ hostJ) (watt 20))
    [mkComp "cpu0" "cpu" (watt 100) (fofZ cpuJ) gov 0 0; mkComp "gpu0" "gpu" (watt 180) (fofZ gpuJ) noGovernor rx 0].
Definition facilityAt (itW : float64) (now : Z) : Values := mkValues (watt 20) itW (flit 11 10) (watt 30).
Definition goodTick (st : RunnerState) : TickInput := mkTick [mkStep None st None] facilityAt None.
Definition failedTick (st : RunnerState) : TickInput := mkTick [mkStep (Some "read sys/class/powercap: no such file") st None] facilityAt (Some "disk full").
Definition sec (n : Z) : Z := (n * 1000000000)%Z.

Definition newOn (start : Z) (d : Disk) (fd : FacDisk) : string + Emulator :=
  New "lab" "/sim/facility-ledger.json" start [("n1", "r1", "/sim/n1/state/ledger.json", d)] fd.
Definition orDefault (e : string + Emulator) : Emulator :=
  match e with inr e => e | inl _ => mkEmulator [] true 0 0 None (freshFacility "lab" 0) (freshFacility "lab" 0) FacMissing end.
Definition snapOf (r : (TickError + Snapshot * list string) * Emulator) : Snapshot :=
  match r.1 with inr (s, _) => s | inl _ => mkSnapshot 0 0 [] (mkFacility 0 (facilityAt fzero 0) fzero fzero []) end.

Definition em0 : Emulator := orDefault (newOn 0 Missing FacMissing).
Definition run1 := Tick (sec 1) (goodTick (runnerAt 300 100 180 5000)) em0.
Definition run2 := Tick (sec 2) (failedTick (runnerAt 600 200 360 9000)) run1.2.
Definition em2 : Emulator := orDefault (newOn (sec 60) (match e_members run2.2 with m :: _ => m_disk m | [] => Missing end) (e_facDisk run2.2)).
Definition run3 := Tick (sec 61) (goodTick (runnerAt 30 10 18 100)) em2.

Example ledger_goes_on :
  (fun n => (hs_EnergyJ (ns_Host n), (fun c => (cs_EnergyJ c, cs_PeerRxBytes c)) <$> ns_Components n)) <$> sn_Nodes (snapOf run3) =
    [(fofZ 330, [(fofZ 110, 0%Z); (fofZ 198, 5100%Z)])] /\
  rr_EnergyJ <$> fs_Racks (sn_Facility (snapOf run3)) = [fofZ 330].
Proof. split; vm_compute; reflexivity. Qed.

Lemma runnerAt_readable a b c r : readable (runnerAt a b c r).
Proof. split; [apply fofZ_valid|]. split; [apply fofZ_valid|]. by repeat constructor; apply fofZ_valid. Qed.

Lemma facilityAt_readings w t : valid w -> facReadings (facilityAt w t).
Proof. intros Hw. split; [exact Hw|apply fofZ_valid]. Qed.

Example counters_never_decrease_witness :
  let e3 := run3.2 in history "lab" e3 [snapOf run3; snapOf run2; snapOf run1] /\
  Forall2 nodeLe (sn_Nodes (snapOf run1)) (sn_Nodes (snapOf run3)) /\ facilityLe (sn_Facility (snapOf run1)) (sn_Facility (snapOf run3)).
Proof.
  cbv zeta. assert (history "lab" em0 []) as H0.
  { apply (History_new "lab" "/sim/facility-ledger.json" 0 [("n1", "r1", "/sim/n1/state/ledger.json", Missing)] FacMissing).
    - vm_compute. reflexivity.
    - constructor; [|constructor]. split; [split; reflexivity|]. intros k. unfold at_. cbn. rewrite lookup_empty. split; reflexivity.
    - split; [split; reflexivity|]. split; [split; reflexivity|]. intros k. unfold at_. cbn. rewrite lookup_empty. split; reflexivity. }
  assert (forall st, readable st -> readableInput (goodTick st) /\ readableInput (failedTick st)) as Hi.
  { intros st Hst. split; (split; [apply Forall_singleton; exact Hst|apply facilityAt_readings]). }
  assert (history "lab" run1.2 [snapOf run1]) as H1.
  { apply (History_tick "lab" em0 [] (sec 1) (goodTick (runnerAt 300 100 180 5000)) (snapOf run1) [] run1.2 H0).
    - apply Hi, runnerAt_readable.
    - vm_compute. reflexivity.
    - vm_compute. reflexivity. }
  assert (history "lab" run2.2 [snapOf run2; snapOf run1]) as H2.
  { apply (History_tick "lab" run1.2 [snapOf run1] (sec 2) (failedTick (runnerAt 600 200 360 9000)) (snapOf run2)
      ["emulate: node n1: read sys/class/powercap: no such file"; "emulate: persist the facility ledger: disk full"] run2.2 H1).
    - apply Hi, runnerAt_readable.
    - vm_compute. reflexivity.
    - vm_compute. reflexivity. }
  assert (history "lab" em2 [snapOf run2; snapOf run1]) as H3.
  { apply (History_restart "lab" run2.2 [snapOf run2; snapOf run1] "/sim/facility-ledger.json" (sec 60)
      [("n1", "r1", "/sim/n1/state/ledger.json", match e_members run2.2 with m :: _ => m_disk m | [] => Missing end)] em2 H2).
    - vm_compute. reflexivity.
    - vm_compute. reflexivity. }
  assert (history "lab" run3.2 [snapOf run3; snapOf run2; snapOf run1]) as H4.
  { apply (History_tick "lab" em2 [snapOf run2; snapOf run1] (sec 61) (goodTick (runnerAt 30 10 18 100)) (snapOf run3) [] run3.2 H3).
    - apply Hi, runnerAt_readable.
    - vm_compute. reflexivity.
    - vm_compute. reflexivity. }
  split; [exact H4|]. apply (counters_never_decrease "lab" run3.2 [snapOf run2; snapOf run1] (snapOf run3) (snapOf run1) H4).
  apply list_elem_of_further, list_elem_of_here.
Defined.
