(* ===== verification/SimCpuFreq.v ===== *)
(** * Simulator: the emulated cpufreq and intel_pstate files

    What a write to a governor file of an emulated node does
    (simulator/pkg/hwemu/node_governor.go, readback.go, physics.go and
    reject.go): the parsing of the kernel's store functions, the state each
    handler keeps, the errno of a refused write and what every file shows
    afterwards. The node is past its start, so the seeding of its state from
    a tree is left out, and so are the uncore domains, which no agent
    writes. An emulated node is a host of the agent ([SysfsHost]). *)

From S2P Require Import Prelude GoString GoFloat GoSlices NvidiaDiscovery Api Governor CpuGovernor Host CpuDiscovery.

#[local] Open Scope string_scope.

(** ** The kernel's numbers *)

Definition digitOf (a : ascii) : option Z :=
  let n := Z.of_N (byte_of a) in
  if ((48 <=? n) && (n <=? 57))%Z then Some (n - 48)%Z
  else if ((97 <=? n) && (n <=? 102))%Z then Some (n - 87)%Z
  else if ((65 <=? n) && (n <=? 70))%Z then Some (n - 55)%Z
  else None.

(** [strconv.ParseUint] of digits of the base and nothing else. *)
Definition parseDigits (base bits : Z) (s : string) : option Z :=
  match list_ascii_of_string s with
  | [] => None
  | l =>
      v ← fold_left (fun acc a => v ← acc; d ← digitOf a; if (d <? base)%Z then Some (v * base + d)%Z else None) l (Some 0%Z);
      if (v <? 2 ^ bits)%Z then Some v else None
  end.

(** src/simulator/pkg/hwemu/readback.go:365-380 [nodeKstrtou] *)
Definition nodeKstrtou (v : string) (base bits : Z) : option Z :=
  let v := TrimPrefix v "+" in
  if (base =? 0)%Z then
    match v with
    | String "0" (String "x" (String _ _ as r)) | String "0" (String "X" (String _ _ as r)) => parseDigits 16 bits r
    | String "0" (String _ _) => parseDigits 8 bits v
    | _ => parseDigits 10 bits v
    end
  else parseDigits base bits v.

(** The kernel's [isspace] of ASCII: the space, and tab to carriage return. *)
Definition isSpace (a : ascii) : bool := let n := byte_of a in ((n =? 32) || ((9 <=? n) && (n <=? 13)))%N.

Fixpoint leadingDigits (l : list ascii) : list ascii :=
  match l with a :: l => if is_digit a then a :: leadingDigits l else [] | [] => [] end.

(** src/simulator/pkg/hwemu/readback.go:386-397 [nodeSscanfU] *)
Definition nodeSscanfU (v : string) : option Z :=
  match leadingDigits (drop_while isSpace (list_ascii_of_string v)) with
  | [] => None
  | ds => parseDigits 10 32 (string_of_list_ascii ds)
  end.

Definition oneOf (a : ascii) (l : string) : bool := existsb (Ascii.eqb a) (list_ascii_of_string l).

(** src/simulator/pkg/hwemu/readback.go:403-423 [nodeKstrtobool] *)
Definition nodeKstrtobool (v : string) : option Z :=
  match v with
  | "" => None
  | String a r =>
      if oneOf a "yYtTeE1" then Some 1%Z
      else if oneOf a "nNfFdD0" then Some 0%Z
      else if oneOf a "oO" then
        match r with
        | "" => None
        | String b _ => if oneOf b "nN" then Some 1%Z else if oneOf b "fF" then Some 0%Z else None
        end
      else None
  end.

(** src/simulator/pkg/hwemu/readback.go:426-429 [nodeParseInt] *)
Definition nodeParseInt (v : string) : option Z := Atoi v.

(** ** The state *)

(** A policy with its governor state ([nodeGovPolicy]), less the CPUs and the
    frequencies the physics keeps but [curKHz].
    src/simulator/pkg/hwemu/physics.go:123-154 [nodePolicy] *)
Record emuPolicy := mkPol {
  ep_minKHz : Z; ep_maxKHz : Z; ep_table : list Z; ep_governors : list string; ep_governor : string; ep_epp : string;
  ep_reqMinKHz : Z; ep_reqMaxKHz : Z; ep_curKHz : float64;
  ep_hasEPP : bool; ep_userMaxKHz : Z; ep_boost : Z; ep_boostShown : Z; ep_setspeedKHz : Z; ep_eppSaved : string
}.

Definition set_governor x p := mkPol (ep_minKHz p) (ep_maxKHz p) (ep_table p) (ep_governors p) x (ep_epp p) (ep_reqMinKHz p) (ep_reqMaxKHz p)
  (ep_curKHz p) (ep_hasEPP p) (ep_userMaxKHz p) (ep_boost p) (ep_boostShown p) (ep_setspeedKHz p) (ep_eppSaved p).
Definition set_epp x p := mkPol (ep_minKHz p) (ep_maxKHz p) (ep_table p) (ep_governors p) (ep_governor p) x (ep_reqMinKHz p) (ep_reqMaxKHz p)
  (ep_curKHz p) (ep_hasEPP p) (ep_userMaxKHz p) (ep_boost p) (ep_boostShown p) (ep_setspeedKHz p) (ep_eppSaved p).
Definition set_reqMin x p := mkPol (ep_minKHz p) (ep_maxKHz p) (ep_table p) (ep_governors p) (ep_governor p) (ep_epp p) x (ep_reqMaxKHz p)
  (ep_curKHz p) (ep_hasEPP p) (ep_userMaxKHz p) (ep_boost p) (ep_boostShown p) (ep_setspeedKHz p) (ep_eppSaved p).
Definition set_reqMax x p := mkPol (ep_minKHz p) (ep_maxKHz p) (ep_table p) (ep_governors p) (ep_governor p) (ep_epp p) (ep_reqMinKHz p) x
  (ep_curKHz p) (ep_hasEPP p) (ep_userMaxKHz p) (ep_boost p) (ep_boostShown p) (ep_setspeedKHz p) (ep_eppSaved p).
Definition set_userMax x p := mkPol (ep_minKHz p) (ep_maxKHz p) (ep_table p) (ep_governors p) (ep_governor p) (ep_epp p) (ep_reqMinKHz p) (ep_reqMaxKHz p)
  (ep_curKHz p) (ep_hasEPP p) x (ep_boost p) (ep_boostShown p) (ep_setspeedKHz p) (ep_eppSaved p).
Definition set_boosts x y p := mkPol (ep_minKHz p) (ep_maxKHz p) (ep_table p) (ep_governors p) (ep_governor p) (ep_epp p) (ep_reqMinKHz p) (ep_reqMaxKHz p)
  (ep_curKHz p) (ep_hasEPP p) (ep_userMaxKHz p) x y (ep_setspeedKHz p) (ep_eppSaved p).
Definition set_setspeed x p := mkPol (ep_minKHz p) (ep_maxKHz p) (ep_table p) (ep_governors p) (ep_governor p) (ep_epp p) (ep_reqMinKHz p) (ep_reqMaxKHz p)
  (ep_curKHz p) (ep_hasEPP p) (ep_userMaxKHz p) (ep_boost p) (ep_boostShown p) x (ep_eppSaved p).
Definition set_eppSaved x p := mkPol (ep_minKHz p) (ep_maxKHz p) (ep_table p) (ep_governors p) (ep_governor p) (ep_epp p) (ep_reqMinKHz p) (ep_reqMaxKHz p)
  (ep_curKHz p) (ep_hasEPP p) (ep_userMaxKHz p) (ep_boost p) (ep_boostShown p) (ep_setspeedKHz p) x.

(** The node's governor state; [ec_boost] is the global boost, which every
    policy shares where the driver has no [set_boost], and [ec_readOnly] the
    files the agent reads and cannot write.
    src/simulator/pkg/hwemu/node_governor.go:57-87 [nodeCPUGovernor] *)
Record emuCPU := mkCPU {
  ec_driver : string; ec_baseKHz : Z; ec_turboKHz : Z; ec_setBoost : bool; ec_boostFile : bool; ec_boost : Z;
  ec_eppWords : list string; ec_eppDefault : string; ec_pols : gmap Z emuPolicy;
  ec_noTurbo : Z; ec_maxPerfPct : Z; ec_minPerfPct : Z; ec_minPerfPctMin : Z; ec_hwpBoost : Z;
  ec_tunables : list (string * string * Z); ec_readOnly : gmap string string
}.

Definition set_pols x n := mkCPU (ec_driver n) (ec_baseKHz n) (ec_turboKHz n) (ec_setBoost n) (ec_boostFile n) (ec_boost n) (ec_eppWords n) (ec_eppDefault n)
  x (ec_noTurbo n) (ec_maxPerfPct n) (ec_minPerfPct n) (ec_minPerfPctMin n) (ec_hwpBoost n) (ec_tunables n) (ec_readOnly n).
Definition set_boost x n := mkCPU (ec_driver n) (ec_baseKHz n) (ec_turboKHz n) (ec_setBoost n) (ec_boostFile n) x (ec_eppWords n) (ec_eppDefault n)
  (ec_pols n) (ec_noTurbo n) (ec_maxPerfPct n) (ec_minPerfPct n) (ec_minPerfPctMin n) (ec_hwpBoost n) (ec_tunables n) (ec_readOnly n).
Definition set_turbo x y n := mkCPU (ec_driver n) (ec_baseKHz n) (ec_turboKHz n) (ec_setBoost n) (ec_boostFile n) (ec_boost n) (ec_eppWords n) (ec_eppDefault n)
  (ec_pols n) x (ec_maxPerfPct n) y (ec_minPerfPctMin n) (ec_hwpBoost n) (ec_tunables n) (ec_readOnly n).
Definition set_perfPct x y n := mkCPU (ec_driver n) (ec_baseKHz n) (ec_turboKHz n) (ec_setBoost n) (ec_boostFile n) (ec_boost n) (ec_eppWords n) (ec_eppDefault n)
  (ec_pols n) (ec_noTurbo n) x y (ec_minPerfPctMin n) (ec_hwpBoost n) (ec_tunables n) (ec_readOnly n).
Definition set_hwpBoost x n := mkCPU (ec_driver n) (ec_baseKHz n) (ec_turboKHz n) (ec_setBoost n) (ec_boostFile n) (ec_boost n) (ec_eppWords n) (ec_eppDefault n)
  (ec_pols n) (ec_noTurbo n) (ec_maxPerfPct n) (ec_minPerfPct n) (ec_minPerfPctMin n) x (ec_tunables n) (ec_readOnly n).
Definition set_tunables x n := mkCPU (ec_driver n) (ec_baseKHz n) (ec_turboKHz n) (ec_setBoost n) (ec_boostFile n) (ec_boost n) (ec_eppWords n) (ec_eppDefault n)
  (ec_pols n) (ec_noTurbo n) (ec_maxPerfPct n) (ec_minPerfPct n) (ec_minPerfPctMin n) (ec_hwpBoost n) x (ec_readOnly n).

(** src/simulator/pkg/hwemu/profile_governor.go:83-83 [cpuGovIntel] *)
Definition cpuGovIntel (driver : string) : bool := String.eqb driver "intel_pstate" || String.eqb driver "intel_cpufreq".

(** src/simulator/pkg/hwemu/render_cpufreq.go:17-17 [renderSetpolicyDrivers] *)
Definition renderSetpolicyDrivers : list string := ["intel_pstate"; "amd-pstate-epp"].

Definition active (n : emuCPU) : bool := str_mem (ec_driver n) renderSetpolicyDrivers.
Definition intel (n : emuCPU) : bool := cpuGovIntel (ec_driver n).

(** src/simulator/pkg/hwemu/profile_governor.go:117-125 [cpuGovDriverBoostScope] *)
Definition cpuGovDriverBoostScope (driver : string) : string :=
  if cpuGovIntel driver then CPUBoostScopeNoTurbo
  else if String.eqb driver "amd-pstate" || String.eqb driver "amd-pstate-epp" then CPUBoostScopePerCPU
  else CPUBoostScopeGlobal.

Definition scope (n : emuCPU) : string := cpuGovDriverBoostScope (ec_driver n).

(** A word the table lacks is 0, as in a Go map.
    src/simulator/pkg/hwemu/profile_governor.go:60-60 [cpuGovEPPValues] *)
Definition cpuGovEPPValues : list (string * Z) := [("performance", 0); ("balance_performance", 128); ("balance_power", 192); ("power", 255)]%Z.
Definition eppValue (w : string) : Z := default 0%Z (snd <$> find (fun e => String.eqb e.1 w) cpuGovEPPValues).

(** ** Frequencies of a policy *)

(** src/simulator/pkg/hwemu/physics.go:156-164 [clampKHz] *)
Definition clampKHz (p : emuPolicy) (v : Z) : Z :=
  let v := if (0 <? ep_maxKHz p)%Z && (ep_maxKHz p <? v)%Z then ep_maxKHz p else v in
  if (v <? ep_minKHz p)%Z then ep_minKHz p else v.

(** The best entry so far, and whether one qualifies.
    src/simulator/pkg/hwemu/physics.go:173-181 [best] *)
Definition bestEntry (high : bool) (v : Z) (table : list Z) : option Z :=
  fold_left (fun best f =>
    if (if high then f <=? v else v <=? f)%Z && match best with None => true | Some b => if high then (b <? f)%Z else (f <? b)%Z end
    then Some f else best) table None.

(** src/simulator/pkg/hwemu/physics.go:169-189 [resolveKHz] *)
Definition resolveKHz (p : emuPolicy) (v : Z) (high : bool) : Z :=
  match ep_table p with
  | [] => v
  | f0 :: _ =>
      match bestEntry high v (ep_table p) with
      | Some best => best
      | None => fold_left (fun best f => if (if high then f <? best else best <? f)%Z then f else best) (ep_table p) f0
      end
  end.

(** src/simulator/pkg/hwemu/physics.go:191-191 [effMaxKHz] *)
Definition effMaxKHz (p : emuPolicy) : Z := resolveKHz p (clampKHz p (ep_reqMaxKHz p)) true.

(** src/simulator/pkg/hwemu/physics.go:213-215 [effMinKHz] *)
Definition effMinKHz (p : emuPolicy) : Z := Z.min (resolveKHz p (clampKHz p (ep_reqMinKHz p)) false) (effMaxKHz p).

(** The boost a policy runs with: its own where the driver has [set_boost].
    src/simulator/pkg/hwemu/physics.go:198-211 [ceilingKHz] *)
Definition ceilingKHz (n : emuCPU) (p : emuPolicy) : Z :=
  let hi := effMaxKHz p in
  let boost := if ec_setBoost n then ep_boost p else ec_boost n in
  match ep_table p with
  | [] => hi
  | top :: _ =>
      if negb (boost =? 1)%Z || (ep_maxKHz p <=? hi)%Z then hi
      else if (fold_left Z.max (ep_table p) top <=? hi)%Z then ep_maxKHz p else hi
  end.

(** src/simulator/pkg/hwemu/node_governor.go:290-298 [turboOff] *)
Definition turboOff (n : emuCPU) (p : emuPolicy) : bool :=
  if String.eqb (scope n) CPUBoostScopeNoTurbo then (ec_noTurbo n =? 1)%Z
  else if String.eqb (scope n) CPUBoostScopePerCPU then (ep_boost p =? 0)%Z
  else false.

(** src/simulator/pkg/hwemu/node_governor.go:302-308 [applyTurbo] *)
Definition applyTurbo (n : emuCPU) (p : emuPolicy) : emuPolicy :=
  let limit := if turboOff n p && (0 <? ec_baseKHz n)%Z then Z.min (ep_userMaxKHz p) (ec_baseKHz n) else ep_userMaxKHz p in
  set_reqMax limit p.

(** ** What a write comes to *)

(** src/simulator/pkg/hwemu/types.go:745-755 [EventAccepted] *)
Inductive EventKind := EventAccepted | EventQuantized | EventResolved | EventClamped | EventRevertedOutOfRange | EventParseError | EventRejected.
#[export] Instance EventKind_eq_dec : EqDecision EventKind.
Proof. solve_decision. Defined.

(** The kind, the value in effect, and the errno [rejectWrite] records. *)
Record Handled := mkHandled { hd_kind : EventKind; hd_eff : string; hd_errno : option Errno }.

Definition did (k : EventKind) (eff : string) : Handled := mkHandled k eff None.

(** src/simulator/pkg/hwemu/reject.go:53-59 [rejectWrite] *)
Definition rejectWrite (errno : Errno) (eff : string) : Handled := mkHandled EventRejected eff (Some errno).

(** ** The handlers of a policy's files *)

(** src/simulator/pkg/hwemu/readback.go:573-604 [freqHandler] *)
Definition freqHandler (high : bool) (v : string) (p : emuPolicy) : Handled * emuPolicy :=
  let eff p := if high then effMaxKHz p else effMinKHz p in
  match nodeKstrtou v 0 64 with
  | None => (did EventParseError (Itoa (eff p)), p)
  | Some u =>
      let written := Z.min u int64_max in
      let p := if high then set_reqMax written p else set_reqMin written p in
      let clamped := clampKHz p written in
      let resolved := resolveKHz p clamped high in
      let got := eff p in
      let kind := if (got =? written)%Z then EventAccepted
                  else if (got =? resolved)%Z && negb (resolved =? clamped)%Z then EventResolved
                  else EventClamped in
      (did kind (Itoa got), p)
  end.

(** src/simulator/pkg/hwemu/node_governor.go:317-335 [policyMaxHandler] *)
Definition policyMaxHandler (n : emuCPU) (v : string) (p : emuPolicy) : Handled * emuPolicy :=
  let '(h, p) := freqHandler true v p in
  if bool_decide (hd_kind h = EventParseError) then (h, p)
  else
    let p := applyTurbo n (set_userMax (ep_reqMaxKHz p) p) in
    let got := Itoa (effMaxKHz p) in
    (if negb (String.eqb got (hd_eff h)) then did EventClamped got else h, p).

(** src/simulator/pkg/hwemu/readback.go:477-491 [nodeEnumHandler] *)
Definition governorEnum (v : string) (p : emuPolicy) : Handled * emuPolicy :=
  match Fields v with
  | [] => (did EventParseError (ep_governor p), p)
  | w :: _ =>
      if (0 <? length (ep_governors p))%nat && negb (str_mem w (ep_governors p)) then (rejectWrite EINVAL (ep_governor p), p)
      else (did EventAccepted w, set_governor w p)
  end.

(** What entering or leaving a governor does to the preference.
    src/simulator/pkg/hwemu/node_governor.go:356-364 [policyGovernorHandler] *)
Definition switchEPP (n : emuCPU) (old : string) (p : emuPolicy) : emuPolicy :=
  if ep_hasEPP p && active n then
    if String.eqb (ep_governor p) "performance" then set_epp "performance" (set_eppSaved (ep_epp p) p)
    else if String.eqb old "performance" && intel n && String.eqb (ep_epp p) "performance" && negb (String.eqb (ep_eppSaved p) "")
    then set_epp (ep_eppSaved p) p
    else p
  else p.

(** src/simulator/pkg/hwemu/node_governor.go:342-367 [policyGovernorHandler] *)
Definition policyGovernorHandler (n : emuCPU) (v : string) (p : emuPolicy) : Handled * emuPolicy :=
  let old := ep_governor p in
  let '(h, p) := governorEnum v p in
  if String.eqb (ep_governor p) old then (h, p)
  else
    let p := if String.eqb (ep_governor p) "userspace" then set_setspeed (resolveKHz p (clampKHz p (int_of_float (fround (ep_curKHz p)))) false) p
             else if String.eqb old "userspace" then set_setspeed 0 p else p in
    (h, switchEPP n old p).

(** src/simulator/pkg/hwemu/node_governor.go:376-378 [shown] *)
Definition setspeedShown (p : emuPolicy) : Z := resolveKHz p (Z.min (Z.max (ep_setspeedKHz p) (effMinKHz p)) (effMaxKHz p)) false.

(** src/simulator/pkg/hwemu/node_governor.go:374-401 [setspeedHandler] *)
Definition setspeedHandler (v : string) (p : emuPolicy) : Handled * emuPolicy :=
  if negb (String.eqb (ep_governor p) "userspace") then
    (did (if String.eqb v "" then EventParseError else EventRevertedOutOfRange) "<unsupported>", p)
  else
    match nodeSscanfU v with
    | None => (did EventParseError (Itoa (setspeedShown p)), p)
    | Some u =>
        let p := set_setspeed u p in
        if negb (setspeedShown p =? u)%Z then (did EventClamped (Itoa (setspeedShown p)), p) else (did EventAccepted v, p)
    end.

Definition setspeedCurrent (p : emuPolicy) : string :=
  if String.eqb (ep_governor p) "userspace" then Itoa (setspeedShown p) else "<unsupported>".

(** src/simulator/pkg/hwemu/node_governor.go:444-451 [nodeEPPWord] *)
Definition nodeEPPWord (epp : Z) : string := default (Itoa epp) (fst <$> find (fun e => e.2 =? epp)%Z cpuGovEPPValues).

(** The word and the number a write asks for.
    src/simulator/pkg/hwemu/node_governor.go:417-429 [policyEPPHandler] *)
Definition askedEPP (n : emuCPU) (w : string) : option (string * Z) :=
  if String.eqb w "default" && str_mem w (ec_eppWords n) then Some (ec_eppDefault n, eppValue (ec_eppDefault n))
  else if str_mem w (ec_eppWords n) then Some (w, eppValue w)
  else if intel n then
    u ← parseDigits 10 32 w; if (u <=? 255)%Z then Some (nodeEPPWord u, u) else None
  else None.

(** src/simulator/pkg/hwemu/node_governor.go:410-440 [policyEPPHandler] *)
Definition policyEPPHandler (n : emuCPU) (v : string) (p : emuPolicy) : Handled * emuPolicy :=
  match Fields v with
  | [] => (did EventParseError (ep_epp p), p)
  | w :: _ =>
      match askedEPP n w with
      | None => (rejectWrite EINVAL (ep_epp p), p)
      | Some (w, epp) =>
          if active n && String.eqb (ep_governor p) "performance" && (0 <? epp)%Z then (rejectWrite EBUSY (ep_epp p), p)
          else (did EventAccepted w, set_epp w p)
      end
  end.

(** src/simulator/pkg/hwemu/node_governor.go:465-491 [policyBoostHandler] *)
Definition policyBoostHandler (n : emuCPU) (v : string) (p : emuPolicy) : Handled * emuPolicy :=
  match nodeKstrtobool v with
  | None => (did EventParseError (Itoa (ep_boostShown p)), p)
  | Some b =>
      if ec_setBoost n && (ec_boost n =? 0)%Z then (rejectWrite EINVAL (Itoa (ep_boostShown p)), p)
      else if (b =? ep_boostShown p)%Z then (did EventAccepted (Itoa b), p)
      else (did EventAccepted (Itoa b), applyTurbo n (set_boosts b b p))
  end.

(** ** The handlers of the node's files *)

(** The global boost of a driver without [set_boost].
    src/simulator/pkg/hwemu/readback.go:436-447 [nodeBoolHandler] *)
Definition boolBoostHandler (v : string) (n : emuCPU) : Handled * emuCPU :=
  if String.eqb v "0" || String.eqb v "1" then (did EventAccepted v, set_boost (if String.eqb v "1" then 1 else 0) n)
  else match nodeParseInt v with
       | Some _ => (did EventRevertedOutOfRange (Itoa (ec_boost n)), n)
       | None => (did EventParseError (Itoa (ec_boost n)), n)
       end.

(** src/simulator/pkg/hwemu/node_governor.go:498-514 [globalBoostHandler] *)
Definition globalBoostHandler (v : string) (n : emuCPU) : Handled * emuCPU :=
  match nodeKstrtobool v with
  | None => (did EventParseError (Itoa (ec_boost n)), n)
  | Some b =>
      let pols := if negb (b =? ec_boost n)%Z then (fun p => applyTurbo n (set_boosts b b p)) <$> ec_pols n else ec_pols n in
      (did EventAccepted (Itoa b), set_boost b (set_pols pols n))
  end.

(** src/simulator/pkg/hwemu/node_governor.go:518-538 [noTurboHandler] *)
Definition noTurboHandler (v : string) (n : emuCPU) : Handled * emuCPU :=
  match nodeSscanfU v with
  | None => (did EventParseError (Itoa (ec_noTurbo n)), n)
  | Some u =>
      let now := Z.min u 1 in
      let minPct := if (now =? 1)%Z && (ec_noTurbo n =? 0)%Z && (0 <? ec_baseKHz n)%Z && (0 <? ec_turboKHz n)%Z
                    then Z.min (ec_minPerfPct n) (Z.quot (wrap64 (ec_baseKHz n * 100)) (ec_turboKHz n)) else ec_minPerfPct n in
      let n := set_turbo now minPct n in
      let n := set_pols (applyTurbo n <$> ec_pols n) n in
      (did (if (1 <? u)%Z then EventClamped else EventAccepted) (Itoa now), n)
  end.

(** src/simulator/pkg/hwemu/node_governor.go:545-563 [perfPctHandler] *)
Definition perfPctHandler (high : bool) (v : string) (n : emuCPU) : Handled * emuCPU :=
  match nodeSscanfU v with
  | None => (did EventParseError (Itoa (if high then ec_maxPerfPct n else ec_minPerfPct n)), n)
  | Some u =>
      let x := Z.min u (2 ^ 31 - 1) in
      let dst := if high then Z.min (Z.max x (ec_minPerfPct n)) 100 else Z.min (Z.max x (ec_minPerfPctMin n)) (ec_maxPerfPct n) in
      (did (if (dst =? x)%Z then EventAccepted else EventClamped) (Itoa dst),
       if high then set_perfPct dst (ec_minPerfPct n) n else set_perfPct (ec_maxPerfPct n) dst n)
  end.

(** [hwp_dynamic_boost].
    src/simulator/pkg/hwemu/readback.go:453-469 [nodeFlagHandler] *)
Definition hwpBoostHandler (v : string) (n : emuCPU) : Handled * emuCPU :=
  match nodeKstrtou v 10 32 with
  | None => (did EventParseError (Itoa (ec_hwpBoost n)), n)
  | Some u =>
      let b := if (u =? 0)%Z then 0%Z else 1%Z in
      (did (if (1 <? u)%Z then EventClamped else EventAccepted) (Itoa b), set_hwpBoost b n)
  end.

(** src/simulator/pkg/hwemu/profile_governor.go:65-65 [cpuGovMinSamplingUS] *)
Definition cpuGovMinSamplingUS : Z := 2000.

(** src/simulator/pkg/hwemu/profile_governor.go:261-275 [cpuGovTunableCheck] *)
Definition cpuGovTunableCheck (gov name : string) (v up down : Z) : Z * bool :=
  let key := gov +:+ "/" +:+ name in
  if String.eqb key "ondemand/up_threshold" then (v, (1 <=? v)%Z && (v <=? 100)%Z)
  else if String.eqb key "ondemand/sampling_rate" then (v, (cpuGovMinSamplingUS <=? v)%Z)
  else if String.eqb key "conservative/freq_step" then (Z.min v 100, true)
  else if String.eqb key "conservative/up_threshold" then (v, (v <=? 100)%Z && (down <? v)%Z)
  else if String.eqb key "conservative/down_threshold" then (v, (1 <=? v)%Z && (v <? up)%Z)
  else (v, (v <=? 2 ^ 32 - 1)%Z).

(** The value of a tunable, zero for one the node does not have. *)
Definition tunable (n : emuCPU) (gov name : string) : Z :=
  default 0%Z (snd <$> find (fun t => String.eqb t.1.1 gov && String.eqb t.1.2 name) (ec_tunables n)).

(** src/simulator/pkg/hwemu/node_governor.go:568-591 [tunableHandler] *)
Definition tunableHandler (gov name : string) (v : string) (n : emuCPU) : Handled * emuCPU :=
  match (if String.eqb gov "schedutil" then nodeKstrtou v 10 32 else nodeSscanfU v) with
  | None => (did EventParseError (Itoa (tunable n gov name)), n)
  | Some u =>
      let '(x, ok) := cpuGovTunableCheck gov name u (tunable n "conservative" "up_threshold") (tunable n "conservative" "down_threshold") in
      if negb ok then (did EventRevertedOutOfRange (Itoa (tunable n gov name)), n)
      else (did (if (x =? u)%Z then EventAccepted else EventClamped) (Itoa x),
            set_tunables ((fun t => if String.eqb t.1.1 gov && String.eqb t.1.2 name then (gov, name, x) else t) <$> ec_tunables n) n)
  end.

(** ** The files *)

(** The agent-writable files of the emulation. *)
Inductive AFile :=
| MaxFreq (i : Z) | MinFreq (i : Z) | GovernorOf (i : Z) | SetSpeed (i : Z) | EPPOf (i : Z) | BoostOf (i : Z)
| GlobalBoost | NoTurbo | MaxPerfPct | MinPerfPct | HWPDynamicBoost | Tunable (gov name : string).
#[export] Instance AFile_eq_dec : EqDecision AFile.
Proof. solve_decision. Defined.

Definition PolicyMaxFile : string := "scaling_max_freq".
Definition PolicyMinFile : string := "scaling_min_freq".
Definition PolicySetspeedFile : string := "scaling_setspeed".

(** Paths relative to sys, as the agent names them.
    src/simulator/pkg/hwemu/node_governor.go:155-165 [dir] *)
Definition afilePath (a : AFile) : string :=
  match a with
  | MaxFreq i => PolicyRelPath i PolicyMaxFile
  | MinFreq i => PolicyRelPath i PolicyMinFile
  | GovernorOf i => PolicyRelPath i PolicyGovernorFile
  | SetSpeed i => PolicyRelPath i PolicySetspeedFile
  | EPPOf i => PolicyRelPath i PolicyEPPFile
  | BoostOf i => PolicyRelPath i PolicyBoostFile
  | GlobalBoost => GlobalBoostRelPath
  | NoTurbo => NoTurboRelPath
  | MaxPerfPct => IntelPstateRelDir +:+ "/max_perf_pct"
  | MinPerfPct => IntelPstateRelDir +:+ "/min_perf_pct"
  | HWPDynamicBoost => IntelPstateRelDir +:+ "/hwp_dynamic_boost"
  | Tunable gov name => CPUFreqRelDir +:+ "/" +:+ gov +:+ "/" +:+ name
  end.

(** The files of one policy.
    src/simulator/pkg/hwemu/node_governor.go:181-222 [afiles] *)
Definition policyAFiles (n : emuCPU) (ip : Z * emuPolicy) : list AFile :=
  let '(i, p) := ip in
  ([MaxFreq i; MinFreq i; GovernorOf i; SetSpeed i] ++ (if ep_hasEPP p then [EPPOf i] else []) ++
   (if String.eqb (scope n) CPUBoostScopePerCPU || ec_setBoost n then [BoostOf i] else []))%list.

(** Every file, the node's and each policy's.
    src/simulator/pkg/hwemu/node_governor.go:155-237 [buildCPUGovernor] *)
Definition afiles (n : emuCPU) : list AFile :=
  ((if ec_boostFile n then [GlobalBoost] else []) ++
   concat (policyAFiles n <$> map_to_list (ec_pols n)) ++
   (if intel n then [NoTurbo; MaxPerfPct; MinPerfPct; HWPDynamicBoost] else []) ++
   ((fun t => Tunable t.1.1 t.1.2) <$> ec_tunables n))%list.

(** src/simulator/pkg/hwemu/reject.go:160-167 [afileAt] *)
Definition afileAt (n : emuCPU) (path : string) : option AFile := find (fun a => String.eqb (afilePath a) path) (afiles n).

(** A policy's handler run on the node; every file of the table has its
    policy. *)
Definition onPolicy (i : Z) (f : string -> emuPolicy -> Handled * emuPolicy) (v : string) (n : emuCPU) : Handled * emuCPU :=
  match ec_pols n !! i with
  | None => (did EventParseError "", n)
  | Some p => let '(h, p) := f v p in (h, set_pols (<[i := p]> (ec_pols n)) n)
  end.

(** src/simulator/pkg/hwemu/node_governor.go:155-237 [handle] *)
Definition handle (a : AFile) (v : string) (n : emuCPU) : Handled * emuCPU :=
  match a with
  | MaxFreq i => onPolicy i (policyMaxHandler n) v n
  | MinFreq i => onPolicy i (freqHandler false) v n
  | GovernorOf i => onPolicy i (policyGovernorHandler n) v n
  | SetSpeed i => onPolicy i setspeedHandler v n
  | EPPOf i => onPolicy i (policyEPPHandler n) v n
  | BoostOf i => onPolicy i (policyBoostHandler n) v n
  | GlobalBoost => if ec_setBoost n then globalBoostHandler v n else boolBoostHandler v n
  | NoTurbo => noTurboHandler v n
  | MaxPerfPct => perfPctHandler true v n
  | MinPerfPct => perfPctHandler false v n
  | HWPDynamicBoost => hwpBoostHandler v n
  | Tunable gov name => tunableHandler gov name v n
  end.

(** What a file shows, less the newline it ends with.
    src/simulator/pkg/hwemu/node_governor.go:155-237 [current] *)
Definition current (a : AFile) (n : emuCPU) : string :=
  let ofPolicy i f := default "" (f <$> ec_pols n !! i) in
  match a with
  | MaxFreq i => ofPolicy i (fun p => Itoa (effMaxKHz p))
  | MinFreq i => ofPolicy i (fun p => Itoa (effMinKHz p))
  | GovernorOf i => ofPolicy i ep_governor
  | SetSpeed i => ofPolicy i setspeedCurrent
  | EPPOf i => ofPolicy i ep_epp
  | BoostOf i => ofPolicy i (fun p => Itoa (ep_boostShown p))
  | GlobalBoost => Itoa (ec_boost n)
  | NoTurbo => Itoa (ec_noTurbo n)
  | MaxPerfPct => Itoa (ec_maxPerfPct n)
  | MinPerfPct => Itoa (ec_minPerfPct n)
  | HWPDynamicBoost => Itoa (ec_hwpBoost n)
  | Tunable gov name => Itoa (tunable n gov name)
  end.

(** ** Writing, as the kernel answers it *)

(** The errno of a refused value, if it is, and the node after it. A
    rejection without an errno, which no handler makes, would be EIO.
    src/simulator/pkg/hwemu/reject.go:138-157 [applyWrite] *)
Definition applyWrite (a : AFile) (value : string) (n : emuCPU) : option Errno * emuCPU :=
  let '(h, n) := handle a (TrimSuffix value (String newline "")) n in
  match hd_kind h with
  | EventRejected => (Some (default OtherErrno (hd_errno h)), n)
  | EventParseError | EventRevertedOutOfRange => (Some EINVAL, n)
  | _ => (None, n)
  end.

(** A read-only file refuses writes; a missing one is never created; a write
    of no bytes reaches no handler.
    src/simulator/pkg/hwemu/reject.go:98-130 [CheckWrite] *)
Definition CheckWrite (path value : string) (n : emuCPU) : option Errno * emuCPU :=
  match afileAt n path with
  | Some a => if String.eqb value "" then (None, n) else applyWrite a value n
  | None => (Some (if bool_decide (is_Some (ec_readOnly n !! path)) then EACCES else OtherErrno), n)
  end.

Definition writeError (e : Errno) : WriteError :=
  {| we_errno := Some e; we_notFound := false; we_exitCode := None; we_text := errnoName e |}.

(** An emulated node as the agent's host. *)
#[export] Instance emuHost : SysfsHost emuCPU := {|
  attr_write path value n :=
    let '(err, n) := CheckWrite path value n in (writeError <$> err, n);
  attr_read n path :=
    match afileAt n path with
    | Some a => TrimSpace (current a n)
    | None => TrimSpace (default "" (ec_readOnly n !! path))
    end
|}.

(** A word has no newline to take off. *)
Lemma TrimSuffix_newline v : plain v -> TrimSuffix v (String newline "") = v.
Proof.
  intros Hp. unfold TrimSuffix, CutSuffix. destruct (HasSuffix v (String newline "")) eqn:E; [|done].
  apply HasSuffix_app in E as [pre ->]. exfalso. unfold plain in Hp. rewrite list_ascii_app in Hp.
  apply Forall_app in Hp as [_ Hp]. apply Forall_cons in Hp as [Hp _]. destruct Hp as [Hp _]. exact (Hp eq_refl).
Qed.

(** ** What holds of every node *)

Definition refused (k : EventKind) : bool :=
  match k with EventRejected | EventParseError | EventRevertedOutOfRange => true | _ => false end.

Definition keeps {A} (r : Handled * A) (a : A) : Prop := refused (hd_kind r.1) = true -> r.2 = a.

Ltac handled := unfold keeps; repeat (case_match; simplify_eq/=); try done.

Lemma onPolicy_keeps i f v n : (forall p, keeps (f v p) p) -> keeps (onPolicy i f v n) n.
Proof.
  intros Hf. unfold onPolicy, keeps. destruct (ec_pols n !! i) as [p|] eqn:E; [|done]. specialize (Hf p). unfold keeps in Hf.
  destruct (f v p) as [h p']. cbn in *. intros Hk. rewrite (Hf Hk), insert_id by done. by destruct n.
Qed.

Lemma freqHandler_keeps high v p : keeps (freqHandler high v p) p.
Proof. unfold freqHandler. handled. Qed.

Lemma governorEnum_keeps v p : keeps (governorEnum v p) p.
Proof. unfold governorEnum. handled. Qed.

(** A refused value changes nothing. *)
Lemma handle_keeps a v n : keeps (handle a v n) n.
Proof.
  destruct a; cbn [handle]; try (apply onPolicy_keeps; intros p).
  - unfold policyMaxHandler. pose proof (freqHandler_keeps true v p) as Hk. unfold keeps in Hk.
    destruct (freqHandler true v p) as [h p'] eqn:E. cbn in Hk. case_bool_decide as Hp; [done|].
    unfold keeps. destruct (negb _); [done|]. cbn. intros Hr. exfalso.
    revert E Hr Hp. unfold freqHandler. repeat (case_match; simplify_eq/=); intros; simplify_eq/=; done.
  - apply freqHandler_keeps.
  - unfold policyGovernorHandler. pose proof (governorEnum_keeps v p) as Hk. unfold keeps in Hk.
    destruct (governorEnum v p) as [h p'] eqn:E. cbn in Hk. destruct (String.eqb_spec (ep_governor p') (ep_governor p)) as [|Hne]; [done|].
    unfold keeps. cbn. intros Hr. by rewrite (Hk Hr) in Hne.
  - unfold setspeedHandler. handled.
  - unfold policyEPPHandler. handled.
  - unfold policyBoostHandler. handled.
  - destruct (ec_setBoost n); [unfold globalBoostHandler|unfold boolBoostHandler]; handled.
  - unfold noTurboHandler. handled.
  - unfold perfPctHandler. handled.
  - unfold perfPctHandler. handled.
  - unfold hwpBoostHandler. handled.
  - unfold tunableHandler. handled.
Qed.

Lemma CheckWrite_refused path v n e n' : CheckWrite path v n = (Some e, n') -> n' = n.
Proof.
  unfold CheckWrite. destruct (afileAt n path) as [a|]; [|by intros [= _ <-]]. destruct (String.eqb v ""); [done|].
  unfold applyWrite. pose proof (handle_keeps a (TrimSuffix v (String newline "")) n) as Hk. unfold keeps in Hk.
  destruct (handle a _ n) as [h n1]. cbn in Hk. destruct (hd_kind h); intros [= _ <-]; by apply Hk.
Qed.

(** ** Well-formed nodes *)

(** The tunables a profile may have.
    src/simulator/pkg/hwemu/profile_governor.go:233-240 [all] *)
Definition tunableNames : list (string * string) := [
  ("conservative", "down_threshold"); ("conservative", "freq_step"); ("conservative", "up_threshold");
  ("ondemand", "sampling_rate"); ("ondemand", "up_threshold"); ("schedutil", "rate_limit_us")].

Definition bit (b : Z) : Prop := b = 0%Z \/ b = 1%Z.

(** A policy as a profile's checks leave it: a governor it lists, a positive
    frequency range with every entry of its table in it, and switches that
    are 0 or 1; under the performance policy of a setpolicy driver the
    preference is one of EPP 0. The limits written are not bounded here: what
    a policy shows and runs with is ([shownWithin]).
    src/simulator/pkg/hwemu/profile.go:769-788 [fail] *)
Record wfPolicy (n : emuCPU) (p : emuPolicy) : Prop := {
  wp_governor : ep_governors p = [] \/ ep_governor p ∈ ep_governors p;
  wp_words : Forall (fun w => plain w /\ w <> "") (ep_governors p);
  wp_range : (0 < ep_minKHz p <= ep_maxKHz p)%Z;
  wp_table : Forall (fun f => ep_minKHz p <= f <= ep_maxKHz p)%Z (ep_table p);
  wp_boost : bit (ep_boost p) /\ bit (ep_boostShown p);
  wp_epp0 : ep_hasEPP p = true -> active n = true -> ep_governor p = "performance" -> eppValue (ep_epp p) = 0%Z
}.

Record wf (n : emuCPU) : Prop := {
  wn_pols : map_Forall (fun i p => isID i /\ wfPolicy n p) (ec_pols n);
  wn_setBoost : ec_setBoost n = true -> ec_boostFile n = true /\ intel n = false;
  wn_bits : bit (ec_boost n) /\ bit (ec_noTurbo n);
  wn_tunables : Forall (fun t => t.1 ∈ tunableNames) (ec_tunables n);
  wn_epp : Forall (fun w => plain w /\ w <> "") (ec_eppWords n) /\ ec_eppDefault n <> "" /\ plain (ec_eppDefault n)
}.

(** ** Finding a file *)

(** A file's name under its policy, or a path of its own. *)
Definition afileShape (a : AFile) : (Z * string) + string :=
  match a with
  | MaxFreq i => inl (i, PolicyMaxFile) | MinFreq i => inl (i, PolicyMinFile) | GovernorOf i => inl (i, PolicyGovernorFile)
  | SetSpeed i => inl (i, PolicySetspeedFile) | EPPOf i => inl (i, PolicyEPPFile) | BoostOf i => inl (i, PolicyBoostFile)
  | a => inr (afilePath a)
  end.

Definition okFile (a : AFile) : Prop :=
  match a with
  | MaxFreq i | MinFreq i | GovernorOf i | SetSpeed i | EPPOf i | BoostOf i => isID i
  | Tunable gov name => (gov, name) ∈ tunableNames
  | _ => True
  end.

Definition ownPaths : list string :=
  afilePath <$> ([GlobalBoost; NoTurbo; MaxPerfPct; MinPerfPct; HWPDynamicBoost] ++ ((fun t => Tunable t.1 t.2) <$> tunableNames))%list.

Lemma isID_int64 i : isID i -> in_int64 i.
Proof. unfold isID, in_int64, int64_min. lia. Qed.

Lemma policy_not_own i f s : s ∈ ownPaths -> PolicyRelPath i f <> s.
Proof.
  intros Hs. unfold ownPaths in Hs. cbn in Hs. unfold PolicyRelPath, CPUFreqRelDir.
  unfold GlobalBoostRelPath, NoTurboRelPath, IntelPstateRelDir, CPUFreqRelDir in Hs.
  repeat (apply elem_of_cons in Hs as [->|Hs]; [cbn [String.append]; discriminate|]). by apply not_elem_of_nil in Hs.
Qed.

Lemma own_shape a : okFile a -> (exists i f, isID i /\ afilePath a = PolicyRelPath i f /\ afileShape a = inl (i, f)) \/
  (afilePath a ∈ ownPaths /\ afileShape a = inr (afilePath a)).
Proof.
  intros Ha. destruct a as [i|i|i|i|i|i| | | | | |gov name]; try (left; eauto; fail).
  1-5: right; split; [apply (bool_decide_unpack _); vm_compute; exact I|done].
  right. split; [|done]. cbn [okFile] in Ha. unfold ownPaths. rewrite fmap_app. apply elem_of_app. right.
  rewrite <- list_fmap_compose. apply list_elem_of_fmap. by exists (gov, name).
Qed.

Lemma tunablePaths_distinct :
  Forall (fun t => Forall (fun t' => afilePath (Tunable t.1 t.2) = afilePath (Tunable t'.1 t'.2) -> t = t') tunableNames /\
    afilePath (Tunable t.1 t.2) <> afilePath GlobalBoost) tunableNames.
Proof. apply (bool_decide_unpack _). vm_compute. exact I. Qed.

Lemma afileShape_inj a b : okFile a -> okFile b -> afileShape a = afileShape b -> a = b.
Proof.
  intros Ha Hb. pose proof (proj1 (Forall_forall _ _) tunablePaths_distinct) as Hd.
  destruct a, b; cbn [afileShape]; try (intros [= ->]; done); try (intros [=]; done); intros E; apply (inj inr) in E.
  - by destruct (proj2 (Hd _ Hb)).
  - by destruct (proj2 (Hd _ Ha)).
  - pose proof (proj1 (Forall_forall _ _) (proj1 (Hd _ Ha)) _ Hb E) as [= -> ->]. done.
Qed.

Lemma afilePath_inj a b : okFile a -> okFile b -> afilePath a = afilePath b -> a = b.
Proof.
  intros Ha Hb E. apply afileShape_inj; [done..|].
  destruct (own_shape a Ha) as [(i & f & Hi & Ea & ->)|[Ea ->]], (own_shape b Hb) as [(j & g & Hj & Eb & ->)|[Eb ->]].
  - rewrite Ea, Eb in E. apply PolicyRelPath_inj in E as [-> ->]; [done|by apply isID_int64..].
  - rewrite Ea in E. by apply policy_not_own in E.
  - rewrite Eb in E. symmetry in E. by apply policy_not_own in E.
  - by rewrite E.
Qed.

Lemma afiles_ok n a : wf n -> a ∈ afiles n -> okFile a.
Proof.
  intros Hn Ha. unfold afiles in Ha. rewrite !elem_of_app in Ha. destruct Ha as [Ha|[Ha|[Ha|Ha]]].
  - destruct (ec_boostFile n); [|by apply not_elem_of_nil in Ha]. by apply list_elem_of_singleton in Ha as ->.
  - apply list_elem_of_In, in_concat in Ha as (l & Hl%list_elem_of_In & Ha%list_elem_of_In).
    apply list_elem_of_fmap in Hl as ([i p] & -> & Hip%elem_of_map_to_list).
    pose proof (wn_pols n Hn i p Hip) as [Hi _]. unfold policyAFiles in Ha. rewrite !elem_of_app in Ha.
    destruct Ha as [Ha|[Ha|Ha]]; [|destruct (ep_hasEPP p)|destruct (_ || _)];
      repeat (apply elem_of_cons in Ha as [->|Ha]; [done|]); by apply not_elem_of_nil in Ha.
  - destruct (intel n); repeat (apply elem_of_cons in Ha as [->|Ha]; [done|]); by apply not_elem_of_nil in Ha.
  - apply list_elem_of_fmap in Ha as (t & -> & Ht). pose proof (proj1 (Forall_forall _ _) (wn_tunables n Hn) t Ht) as Hin.
    cbn [okFile]. by destruct t as [[g x] v].
Qed.

Lemma afileAt_found n a : wf n -> a ∈ afiles n -> afileAt n (afilePath a) = Some a.
Proof.
  intros Hn Ha. unfold afileAt. destruct (find _ _) as [b|] eqn:E.
  - apply find_some in E as [Hb%list_elem_of_In E%String.eqb_eq]. f_equal. apply afilePath_inj; [by eapply afiles_ok..|done].
  - pose proof (find_none _ _ E a (proj1 (list_elem_of_In _ _) Ha)) as Hf. cbn in Hf. by rewrite String.eqb_refl in Hf.
Qed.

Lemma policyFile_in n i p a : ec_pols n !! i = Some p -> a ∈ policyAFiles n (i, p) -> a ∈ afiles n.
Proof.
  intros Hp Ha. unfold afiles. rewrite !elem_of_app. right. left. apply list_elem_of_In, in_concat.
  exists (policyAFiles n (i, p)). split; [|by apply list_elem_of_In]. apply list_elem_of_In, list_elem_of_fmap.
  exists (i, p). split; [done|]. by apply elem_of_map_to_list.
Qed.

(** ** Writes keep a node well formed *)

Lemma digitOf_nonneg a d : digitOf a = Some d -> (0 <= d)%Z.
Proof.
  unfold digitOf. set (n := Z.of_N (byte_of a)). intros H.
  destruct ((48 <=? n) && (n <=? 57))%Z eqn:E1; [injection H as <-; lia|].
  destruct ((97 <=? n) && (n <=? 102))%Z eqn:E2; [injection H as <-; lia|].
  destruct ((65 <=? n) && (n <=? 70))%Z eqn:E3; [injection H as <-; lia|done].
Qed.

Lemma parseDigits_nonneg base bits s v : (0 <= base)%Z -> parseDigits base bits s = Some v -> (0 <= v < 2 ^ bits)%Z.
Proof.
  intros Hb. unfold parseDigits. destruct (list_ascii_of_string s) as [|a l]; [done|].
  assert (forall l acc v, (forall u, acc = Some u -> (0 <= u)%Z) ->
    fold_left (fun acc a => v ← acc; d ← digitOf a; if (d <? base)%Z then Some (v * base + d)%Z else None) l acc = Some v -> (0 <= v)%Z) as Hf.
  { clear -Hb. induction l as [|a l IH]; intros acc v Hacc; cbn [fold_left]; [by apply Hacc|]. apply IH.
    intros u Hu. destruct acc as [w|]; [|done]. specialize (Hacc w eq_refl). cbn in Hu.
    destruct (digitOf a) as [d|] eqn:Ed; [|done]. cbn in Hu. destruct (d <? base)%Z; [|done]. injection Hu as <-.
    assert (0 <= d)%Z by (by eapply digitOf_nonneg). nia. }
  destruct (fold_left _ _ _) as [u|] eqn:E; [|done]. cbn. destruct (Z.ltb_spec u (2 ^ bits)); [|done]. intros [= <-].
  split; [|done]. eapply Hf; [|exact E]. intros w [= <-]. lia.
Qed.

Lemma nodeSscanfU_nonneg v u : nodeSscanfU v = Some u -> (0 <= u)%Z.
Proof. unfold nodeSscanfU. destruct (leadingDigits _); [done|]. intros H%parseDigits_nonneg; lia. Qed.

Lemma nodeKstrtobool_bit v b : nodeKstrtobool v = Some b -> bit b.
Proof. unfold nodeKstrtobool, bit. repeat case_match; intros [= <-]; auto. Qed.

Lemma eppValue_nonneg w : (0 <= eppValue w)%Z.
Proof.
  unfold eppValue. destruct (find _ _) as [e|] eqn:E; [|done]. apply find_some in E as [Hin _].
  unfold cpuGovEPPValues in Hin. repeat destruct Hin as [<-|Hin]; try done; destruct Hin.
Qed.

Lemma nodeEPPWord_zero : nodeEPPWord 0 = "performance".
Proof. reflexivity. Qed.

(** What a policy's handler keeps. *)
Lemma wfPolicy_freq n p q : wfPolicy n p -> ep_governors q = ep_governors p -> ep_governor q = ep_governor p -> ep_minKHz q = ep_minKHz p ->
  ep_maxKHz q = ep_maxKHz p -> ep_table q = ep_table p -> bit (ep_boost q) -> bit (ep_boostShown q) -> ep_epp q = ep_epp p -> ep_hasEPP q = ep_hasEPP p -> wfPolicy n q.
Proof. intros [W1 W2 W3 W4 W5 W6] E1 E2 E3 E4 Et Hb Hs E5 E6. split; rewrite ?E1, ?E2, ?E3, ?E4, ?Et, ?E5, ?E6; done. Qed.

Lemma applyTurbo_wf n p : wfPolicy n p -> wfPolicy n (applyTurbo n p).
Proof. intros W. eapply wfPolicy_freq; [exact W|try reflexivity..]; apply W. Qed.

Lemma boosts_wf n b p : bit b -> wfPolicy n p -> wfPolicy n (set_boosts b b p).
Proof. intros Hb W. eapply wfPolicy_freq; [exact W|try reflexivity..]; done. Qed.

Lemma freqHandler_wf n high v p : wfPolicy n p -> wfPolicy n (freqHandler high v p).2.
Proof.
  intros W. unfold freqHandler. destruct (nodeKstrtou v 0 64); [|done].
  destruct high; (eapply wfPolicy_freq; [exact W|try reflexivity..]; apply W).
Qed.

Lemma policyMax_wf n v p : wfPolicy n p -> wfPolicy n (policyMaxHandler n v p).2.
Proof.
  intros W. unfold policyMaxHandler. pose proof (freqHandler_wf n true v p W) as W1. destruct (freqHandler true v p) as [h q].
  case_bool_decide; [done|]. apply applyTurbo_wf. eapply wfPolicy_freq; [exact W1|try reflexivity..]; apply W1.
Qed.

Lemma governorEnum_spec v p :
  governorEnum v p = (did EventParseError (ep_governor p), p) \/ governorEnum v p = (rejectWrite EINVAL (ep_governor p), p) \/
  exists w, governorEnum v p = (did EventAccepted w, set_governor w p) /\ (ep_governors p = [] \/ w ∈ ep_governors p).
Proof.
  unfold governorEnum. destruct (Fields v) as [|w ws]; [by left|]. right. destruct (ep_governors p) as [|g gs] eqn:Eg.
  { right. exists w. cbn. by split; [|left]. }
  cbn [length Nat.ltb Nat.leb andb]. destruct (str_mem w (g :: gs)) eqn:Em; cbn [negb]; [right; exists w|by left].
  split; [done|right]. by apply str_mem_In in Em.
Qed.

Lemma switchEPP_fields n old p : let q := switchEPP n old p in
  ep_governors q = ep_governors p /\ ep_governor q = ep_governor p /\ ep_minKHz q = ep_minKHz p /\ ep_maxKHz q = ep_maxKHz p /\
  ep_boost q = ep_boost p /\ ep_boostShown q = ep_boostShown p /\ ep_hasEPP q = ep_hasEPP p /\ ep_reqMaxKHz q = ep_reqMaxKHz p /\
  ep_table q = ep_table p.
Proof. unfold switchEPP. repeat case_match; done. Qed.

Lemma policyGovernor_wf n v p : wfPolicy n p -> wfPolicy n (policyGovernorHandler n v p).2.
Proof.
  intros W. unfold policyGovernorHandler. destruct (governorEnum_spec v p) as [-> | [-> | (w & -> & Hw)]];
    cbn [ep_governor]; rewrite ?String.eqb_refl; [done..|].
  destruct (String.eqb_spec (ep_governor (set_governor w p)) (ep_governor p)) as [E|Hne]; cbn [snd].
  { assert (set_governor w p = p) as -> by (destruct p; cbn in E; by subst). done. }
  set (q := if String.eqb (ep_governor (set_governor w p)) "userspace" then _ else _).
  assert (ep_governors q = ep_governors p /\ ep_governor q = w /\ ep_minKHz q = ep_minKHz p /\ ep_maxKHz q = ep_maxKHz p /\
    ep_boost q = ep_boost p /\ ep_boostShown q = ep_boostShown p /\ ep_hasEPP q = ep_hasEPP p /\ ep_table q = ep_table p)
    as (E1 & E2 & E3 & E4 & E5 & E6 & E7 & E8).
  { unfold q. repeat case_match; done. }
  destruct (switchEPP_fields n (ep_governor p) q) as (F1 & F2 & F3 & F4 & F5 & F6 & F7 & _ & F8).
  destruct W as [W1 W2 W3 Wt W4 W5]. split; rewrite ?F1, ?F2, ?F3, ?F4, ?F5, ?F6, ?F7, ?F8, ?E1, ?E2, ?E3, ?E4, ?E5, ?E6, ?E7, ?E8; try done.
  intros Hh Ha Hg. unfold switchEPP. rewrite E7, Hh, Ha, E2, Hg. reflexivity.
Qed.

Lemma askedEPP_value n w w' epp : askedEPP n w = Some (w', epp) -> (epp <= 0)%Z -> eppValue w' = 0%Z.
Proof.
  unfold askedEPP. intros H Hle. pose proof (eppValue_nonneg w'). repeat case_match; simplify_eq; try lia.
  destruct (parseDigits 10 32 w) as [u|] eqn:Eu; [|done]. cbn in H. destruct (u <=? 255)%Z; [|done]. injection H as <- <-.
  apply parseDigits_nonneg in Eu; [|lia]. by replace u with 0%Z by lia.
Qed.

Lemma policyEPP_wf n v p : wfPolicy n p -> wfPolicy n (policyEPPHandler n v p).2.
Proof.
  intros W. unfold policyEPPHandler. destruct (Fields v) as [|w ws]; [done|]. destruct (askedEPP n w) as [[w' epp]|] eqn:E; [|done].
  destruct (active n && String.eqb (ep_governor p) "performance" && (0 <? epp)%Z) eqn:Eb; [done|].
  destruct W as [W1 W2 W3 Wt W4 W5]. split; try done. intros Hh Ha Hg. change (ep_governor p = "performance") in Hg.
  rewrite Ha, Hg, String.eqb_refl in Eb. cbn [andb] in Eb. apply (askedEPP_value _ _ _ _ E). lia.
Qed.

Lemma policyBoost_wf n v p : wfPolicy n p -> wfPolicy n (policyBoostHandler n v p).2.
Proof.
  intros W. unfold policyBoostHandler. destruct (nodeKstrtobool v) as [b|] eqn:E; [|done]. apply nodeKstrtobool_bit in E.
  destruct (_ && _); [done|]. destruct (_ =? _)%Z; [done|]. by apply applyTurbo_wf, boosts_wf.
Qed.

Lemma setspeed_wf n v p : wfPolicy n p -> wfPolicy n (setspeedHandler v p).2.
Proof.
  intros W. unfold setspeedHandler. repeat case_match; try done; (eapply wfPolicy_freq; [exact W|try reflexivity..]; apply W).
Qed.

Lemma wfPolicy_driver n m p : ec_driver m = ec_driver n -> wfPolicy n p -> wfPolicy m p.
Proof. intros E [W1 W2 W3 Wt W4 W5]. split; try done. unfold active in *. by rewrite E. Qed.

(** The policies and the bits a handler moves. *)
Lemma wf_with n m : wf n -> ec_driver m = ec_driver n -> ec_setBoost m = ec_setBoost n -> ec_boostFile m = ec_boostFile n ->
  ec_eppWords m = ec_eppWords n -> ec_eppDefault m = ec_eppDefault n ->
  map_Forall (fun i p => isID i /\ wfPolicy n p) (ec_pols m) -> bit (ec_boost m) -> bit (ec_noTurbo m) ->
  Forall (fun t => t.1 ∈ tunableNames) (ec_tunables m) -> wf m.
Proof.
  intros [W1 W2 W3 W4 W5] E1 E2 E3 E4 E5 Hp Hb Ht Hu. split; try done.
  - intros i p Hip. destruct (Hp i p Hip). split; [done|]. by eapply wfPolicy_driver.
  - rewrite E2, E3. unfold intel. by rewrite E1.
  - by rewrite E4, E5.
Qed.

Lemma wf_pols n ps : wf n -> map_Forall (fun i p => isID i /\ wfPolicy n p) ps -> wf (set_pols ps n).
Proof. intros W Hp. eapply wf_with; [exact W|try reflexivity..|done| | |]; apply W. Qed.

Lemma onPolicy_wf i f v n : wf n -> (forall p, wfPolicy n p -> wfPolicy n (f v p).2) -> wf (onPolicy i f v n).2.
Proof.
  intros W Hf. unfold onPolicy. destruct (ec_pols n !! i) as [p|] eqn:E; [|done]. destruct (wn_pols n W i p E) as [Hi Hp].
  specialize (Hf p Hp). destruct (f v p) as [h q]. apply wf_pols; [done|]. apply map_Forall_insert_2; [done|apply W].
Qed.

Lemma pols_fmap_wf n f : wf n -> (forall p, wfPolicy n p -> wfPolicy n (f p)) -> map_Forall (fun i p => isID i /\ wfPolicy n p) (f <$> ec_pols n).
Proof.
  intros W Hf i p Hp. rewrite lookup_fmap in Hp. apply fmap_Some in Hp as (q & Hq & ->). destruct (wn_pols n W i q Hq). auto.
Qed.

Lemma tunables_wf n gov name x : wf n ->
  wf (set_tunables ((fun t => if String.eqb t.1.1 gov && String.eqb t.1.2 name then (gov, name, x) else t) <$> ec_tunables n) n).
Proof.
  intros W. eapply wf_with; [exact W|try reflexivity..|apply W|apply W|apply W|].
  cbn [ec_tunables set_tunables]. apply Forall_fmap. eapply Forall_impl; [apply W|]. intros [[g y] v] Ht. cbn [compose fst snd].
  destruct (String.eqb_spec g gov) as [<-|]; [|done]. by destruct (String.eqb_spec y name) as [<-|].
Qed.

Lemma handle_wf (a : AFile) (value : string) (n : emuCPU) : wf n -> wf (handle a value n).2.
Proof.
  intros W. destruct a; cbn [handle].
  - apply onPolicy_wf; [done|]. apply policyMax_wf.
  - apply onPolicy_wf; [done|]. apply freqHandler_wf.
  - apply onPolicy_wf; [done|]. apply policyGovernor_wf.
  - apply onPolicy_wf; [done|]. apply setspeed_wf.
  - apply onPolicy_wf; [done|]. apply policyEPP_wf.
  - apply onPolicy_wf; [done|]. apply policyBoost_wf.
  - destruct (ec_setBoost n).
    + unfold globalBoostHandler. destruct (nodeKstrtobool value) as [b|] eqn:E; [|done]. apply nodeKstrtobool_bit in E.
      eapply wf_with; [exact W|try reflexivity..| |done|apply W|apply W]. cbn [ec_pols set_boost set_pols snd].
      destruct (negb _); [|apply W]. apply pols_fmap_wf; [done|]. intros p Hp. by apply applyTurbo_wf, boosts_wf.
    + unfold boolBoostHandler. repeat case_match; try done; (eapply wf_with; [exact W|try reflexivity..|apply W| |apply W|apply W]; unfold bit; cbn; auto).
  - unfold noTurboHandler. destruct (nodeSscanfU value) as [u|] eqn:E; [|done]. apply nodeSscanfU_nonneg in E.
    cbn [snd]. set (m := set_turbo _ _ n). assert (wf m) as Wm.
    { eapply wf_with; [exact W|try reflexivity..|apply W|apply W| |apply W]. unfold bit. cbn. lia. }
    apply wf_pols; [done|]. apply (pols_fmap_wf m); [done|]. intros p. apply applyTurbo_wf.
  - unfold perfPctHandler. destruct (nodeSscanfU value); [|done]. cbn [snd]. eapply wf_with; [exact W|try reflexivity..|apply W|apply W|apply W|apply W].
  - unfold perfPctHandler. destruct (nodeSscanfU value); [|done]. cbn [snd]. eapply wf_with; [exact W|try reflexivity..|apply W|apply W|apply W|apply W].
  - unfold hwpBoostHandler. destruct (nodeKstrtou value 10 32); [|done]. cbn [snd]. eapply wf_with; [exact W|try reflexivity..|apply W|apply W|apply W|apply W].
  - pose proof (fun x => tunables_wf n gov name x W) as Hx. unfold tunableHandler. repeat case_match; try done; cbn [snd]; apply Hx.
Qed.

(** ** What a policy shows *)

(** The frequencies a policy shows and runs with: its limits, its speed under
    the userspace governor and its ceiling with boost. *)
Definition shownWithin (n : emuCPU) (p : emuPolicy) : Prop :=
  (ep_minKHz p <= effMinKHz p /\ effMinKHz p <= setspeedShown p /\ setspeedShown p <= effMaxKHz p /\
   effMaxKHz p <= ceilingKHz n p /\ ceilingKHz n p <= ep_maxKHz p)%Z.

Lemma bestEntry_spec high v table :
  match bestEntry high v table with
  | Some b => b ∈ table /\ (if high then b <= v else v <= b)%Z /\
      forall f, f ∈ table -> (if high then f <= v else v <= f)%Z -> (if high then f <= b else b <= f)%Z
  | None => forall f, f ∈ table -> (if high then v < f else f < v)%Z
  end.
Proof.
  unfold bestEntry. induction table as [|f l IH] using rev_ind; [by intros f ?%not_elem_of_nil|]. rewrite fold_left_app. cbn [fold_left].
  destruct (fold_left _ l None) as [b|].
  - destruct IH as (Hb & Hq & Hall). destruct high; destruct (_ && _) eqn:E; (split; [|split]); try (set_solver || lia);
      intros g [Hg| ->%list_elem_of_singleton]%elem_of_app Hgq; try specialize (Hall g Hg Hgq); lia.
  - destruct high; destruct (_ && _) eqn:E; cbn [andb] in E; try (split; [set_solver|split]; [lia|]);
      intros g [Hg| ->%list_elem_of_singleton]%elem_of_app; try specialize (IH g Hg); lia.
Qed.

Lemma resolveKHz_spec p v high :
  (ep_table p = [] /\ resolveKHz p v high = v) \/
  (resolveKHz p v high ∈ ep_table p /\
   forall f, f ∈ ep_table p -> if high then (v < f \/ f <= resolveKHz p v high)%Z /\ (f <= v -> resolveKHz p v high <= v)%Z
                               else (f < v \/ resolveKHz p v high <= f)%Z /\ (v <= f -> v <= resolveKHz p v high)%Z).
Proof.
  unfold resolveKHz. destruct (ep_table p) as [|f0 l]; [by left|right]. pose proof (bestEntry_spec high v (f0 :: l)) as Hs.
  destruct (bestEntry high v (f0 :: l)) as [b|].
  - destruct Hs as (Hb & Hq & Hall). split; [done|]. intros f Hf. specialize (Hall f Hf). destruct high; lia.
  - set (end_ := fold_left _ (f0 :: l) f0).
    assert (end_ ∈ f0 :: l) as Hin.
    { assert (forall l acc, fold_left (fun best f => if (if high then f <? best else best <? f)%Z then f else best) l acc ∈ acc :: l) as Hf.
      { clear. induction l as [|g l IH]; intros acc; cbn [fold_left]; [by left|].
        specialize (IH (if (if high then g <? acc else acc <? g)%Z then g else acc)).
        apply elem_of_cons in IH as [->|IH]; [destruct (if high then _ else _); [right; by left|by left]|right; by right]. }
      specialize (Hf (f0 :: l) f0). fold end_ in Hf. apply elem_of_cons in Hf as [->|Hf]; [by left|done]. }
    split; [done|]. intros f Hf. specialize (Hs f Hf). destruct high; lia.
Qed.

Lemma clampKHz_within p v : (0 < ep_minKHz p <= ep_maxKHz p)%Z -> (ep_minKHz p <= clampKHz p v <= ep_maxKHz p)%Z.
Proof.
  intros Hr. unfold clampKHz. cbv zeta. destruct (Z.ltb_spec 0 (ep_maxKHz p)), (Z.ltb_spec (ep_maxKHz p) v); cbn [andb];
    match goal with |- context [(?a <? ?b)%Z] => destruct (Z.ltb_spec a b) end; lia.
Qed.

(** A value in the policy's range resolves within it, and to itself without
    a table. *)
Lemma resolveKHz_within n p v high : wfPolicy n p -> (ep_minKHz p <= v <= ep_maxKHz p)%Z ->
  (ep_minKHz p <= resolveKHz p v high <= ep_maxKHz p)%Z.
Proof.
  intros W Hv. destruct (resolveKHz_spec p v high) as [[_ ->]|[Hin _]]; [done|].
  exact (proj1 (Forall_forall _ _) (wp_table n p W) _ Hin).
Qed.

Lemma shown_within n p : wfPolicy n p -> shownWithin n p.
Proof.
  intros W. pose proof (wp_range n p W) as Hr.
  pose proof (resolveKHz_within n p _ true W (clampKHz_within p (ep_reqMaxKHz p) Hr)) as Hmax.
  pose proof (resolveKHz_within n p _ false W (clampKHz_within p (ep_reqMinKHz p) Hr)) as Hmin.
  fold (effMaxKHz p) in Hmax. unfold shownWithin.
  assert (ep_minKHz p <= effMinKHz p <= effMaxKHz p)%Z as He by (unfold effMinKHz; lia).
  split; [lia|]. set (v := Z.min (Z.max (ep_setspeedKHz p) (effMinKHz p)) (effMaxKHz p)).
  assert (effMinKHz p <= v <= effMaxKHz p)%Z as Hv by lia.
  assert (effMinKHz p <= setspeedShown p <= effMaxKHz p)%Z as [H1 H2].
  { unfold setspeedShown. fold v. destruct (resolveKHz_spec p v false) as [[_ ->]|[Hin Hall]]; [done|].
    destruct (resolveKHz_spec p (clampKHz p (ep_reqMaxKHz p)) true) as [[E _]|[Htop _]]; [rewrite E in Hin; by apply not_elem_of_nil in Hin|].
    fold (effMaxKHz p) in Htop. destruct (Hall _ Htop) as [Hle Hge]. specialize (Hge ltac:(lia)). lia. }
  split; [lia|]. split; [lia|]. unfold ceilingKHz. destruct (ep_table p); [lia|]. repeat case_match; lia.
Qed.

(** C16. Whatever is written to whichever file, an emulated node stays one a
    kernel could show: every policy runs a governor it lists, its switches
    are 0 or 1, under the performance policy of a setpolicy driver the
    preference is one of EPP 0; and whatever limits and speed were asked for,
    what the policy shows and runs with is ordered and inside its range: its
    minimum, then its userspace speed, then its maximum, then its ceiling
    with boost, between the hardware's lowest and highest frequency. A value
    the driver refuses changes nothing at all. *)
Theorem handle_wellformed (a : AFile) (value : string) (n : emuCPU) : wf n ->
  let '(h, n') := handle a value n in
  wf n' /\ (forall i p, ec_pols n' !! i = Some p -> shownWithin n' p) /\ (refused (hd_kind h) = true -> n' = n).
Proof.
  intros W. pose proof (handle_wf a value n W) as W'. pose proof (handle_keeps a value n) as Hk. unfold keeps in Hk.
  destruct (handle a value n) as [h n']. split; [done|]. split; [|done]. intros i p Hp. apply shown_within. by destruct (wn_pols n' W' i p Hp).
Qed.


(** ** A node of two policies *)

Definition twoPolicy : emuPolicy :=
  mkPol 1500000 3700000 [] ["performance"; "powersave"] "performance" "performance" 1500000 3700000 (fofZ 1500000) true 3700000 0 0 0 "".

(** An amd-pstate-epp node with the driver's boost off. *)
Definition eppNode : emuCPU :=
  mkCPU "amd-pstate-epp" 2000000 0 true true 0 ["performance"; "balance_performance"; "balance_power"; "power"] "balance_performance"
    (list_to_map [(0%Z, twoPolicy); (1%Z, twoPolicy)]) 0 0 0 0 0 [] ∅.

Lemma eppNode_policy i p : ec_pols eppNode !! i = Some p -> p = twoPolicy /\ isID i.
Proof.
  cbn. intros [[<- <-]|[_ [[<- <-]|[_ ?]]%lookup_insert_Some]]%lookup_insert_Some; [split; [done|by_decide]..|done].
Qed.

Lemma eppNode_wf : wf eppNode.
Proof.
  split; try done.
  - intros i p [-> Hi]%eppNode_policy. split; [done|]. split; try done; [right; by_decide| |by split; left].
    repeat constructor; try done; cbv; discriminate.
  - by split; left.
  - split; [|split; [done|]]; repeat constructor; try done; cbv; discriminate.
Qed.

(** A limit far above the range is taken and shown as the base frequency,
    boost being off. *)
Lemma handle_wellformed_witness : wf eppNode /\ current (MaxFreq 0) (handle (MaxFreq 0) "9000000" eppNode).2 = "2000000" /\
  forall p, ec_pols (handle (MaxFreq 0) "9000000" eppNode).2 !! 0%Z = Some p -> (effMaxKHz p <= 3700000)%Z.
Proof.
  split; [exact eppNode_wf|]. split; [vm_compute; reflexivity|]. intros p Hp.
  pose proof (handle_wellformed (MaxFreq 0) "9000000" eppNode eppNode_wf) as H.
  assert (ep_maxKHz p = 3700000%Z) as Hm by (vm_compute in Hp; injection Hp as <-; reflexivity).
  destruct (handle (MaxFreq 0) "9000000" eppNode) as [h n']. cbn [snd] in Hp. destruct H as (_ & H & _).
  destruct (H 0%Z p Hp) as (_ & _ & _ & H1 & H2). rewrite <- Hm. lia.
Defined.
