(* ===== verification/SimApply.v ===== *)
(** * The agent's CPU governor on an emulated node

    The agent's apply (CpuControl.v) with an emulated node (SimCpuFreq.v) as
    its host: whether a node that its facts describe takes a plan, and what
    its files then read. *)

From S2P Require Import Prelude GoString GoFloat GoSlices NvidiaDiscovery Api Governor CpuGovernor Host CpuDiscovery GovernorLoop CpuControl SimCpuFreq.

#[local] Open Scope string_scope.

(** ** Writing a file of several policies *)

(** The policies after a change of those listed. *)
Definition changeAll (ns : list Z) (f : emuPolicy -> emuPolicy) (ps : gmap Z emuPolicy) : gmap Z emuPolicy :=
  foldl (fun ps i => alter f i ps) ps ns.

Lemma changeAll_lookup ns f ps i : NoDup ns -> changeAll ns f ps !! i = if decide (i ∈ ns) then f <$> ps !! i else ps !! i.
Proof.
  unfold changeAll. intros Hnd. revert ps. induction Hnd as [|j ns Hj _ IH]; intros ps; cbn [foldl].
  { by rewrite decide_False by apply not_elem_of_nil. }
  rewrite IH. destruct (decide (i = j)) as [->|Hne].
  - rewrite decide_False, decide_True by (done || set_solver). apply lookup_alter_eq.
  - rewrite lookup_alter_ne by done. by destruct (decide (i ∈ ns)), (decide (i ∈ j :: ns)); set_solver.
Qed.

Definition okWord (v : string) : Prop := plain v /\ v <> "".

Lemma okWord_trims v : okWord v -> TrimSpace v = v /\ TrimSuffix v (String newline "") = v /\ Fields v = [v].
Proof. intros [Hp Hne]. split; [by apply TrimSpace_plain|]. split; [by apply TrimSuffix_newline|by apply Fields_last]. Qed.

Lemma Classify_readback v : Classify None v v = (GovernorResultApplied, "").
Proof. unfold Classify. by rewrite String.eqb_refl. Qed.

Lemma writeVerified_app {H} `{!SysfsHost H} (a b : list Write) (h h1 : H) :
  writeVerified a h = (length a, a, ("", ""), h1) ->
  writeVerified (a ++ b) h = let '(wrote, taken, failure, h2) := writeVerified b h1 in ((length a + wrote)%nat, (a ++ taken)%list, failure, h2).
Proof.
  revert h. induction a as [|w a IH]; intros h; cbn [app writeVerified length].
  { intros [= <-]. by destruct (writeVerified b h) as [[[]]]. }
  destruct (attr_write _ _ h) as [[e|] h'].
  { destruct (Classify _ _ _). by intros [=]. }
  destruct (Classify None (w_Value w) (attr_read h' (w_RelPath w))) as [r m]. destruct (negb (String.eqb r GovernorResultApplied)).
  { by intros [=]. }
  destruct (writeVerified a h') as [[[wr tk] fl] h2] eqn:E. intros [= -> -> -> ->]. rewrite (IH h' E).
  by destruct (writeVerified b h1) as [[[]]].
Qed.

Section Phase.
Variables (A : Z -> AFile) (file : string) (f : emuCPU -> string -> emuPolicy -> Handled * emuPolicy) (cur : emuPolicy -> string).
Hypothesis A_path : forall i, afilePath (A i) = PolicyRelPath i file.
Hypothesis A_handle : forall i v n, handle (A i) v n = onPolicy i (f n) v n.
Hypothesis A_current : forall i n, current (A i) n = default "" (cur <$> ec_pols n !! i).
Hypothesis f_pols : forall n ps, f (set_pols ps n) = f n.

(** A policy that has the file and takes the value. *)
Definition takes (n : emuCPU) (v : string) (i : Z) : Prop :=
  exists p, ec_pols n !! i = Some p /\ A i ∈ policyAFiles n (i, p) /\ A i ∈ policyAFiles n (i, (f n v p).2) /\
    refused (hd_kind (f n v p).1) = false /\ cur (f n v p).2 = v.

Definition taken (n : emuCPU) (v : string) (ns : list Z) : emuCPU := set_pols (changeAll ns (fun p => (f n v p).2) (ec_pols n)) n.

Lemma write_one n v i : wf n -> okWord v -> takes n v i ->
  attr_write (PolicyRelPath i file) v n = (None, taken n v [i]) /\ wf (taken n v [i]) /\
  attr_read (taken n v [i]) (PolicyRelPath i file) = v.
Proof.
  intros W Hv (p & Hp & Hin & Hin' & Hk & Hc). destruct (okWord_trims v Hv) as (Ht & Hs & _).
  assert (A i ∈ afiles n) as Ha by (by eapply policyFile_in).
  pose proof (handle_wf (A i) v n W) as Ww. rewrite A_handle in Ww. unfold onPolicy in Ww. rewrite Hp in Ww.
  assert (set_pols (<[i := (f n v p).2]> (ec_pols n)) n = taken n v [i]) as E.
  { unfold taken, changeAll. cbn [foldl]. f_equal. apply map_eq. intros j. destruct (decide (j = i)) as [->|Hne].
    - by rewrite lookup_insert_eq, lookup_alter_eq, Hp.
    - by rewrite lookup_insert_ne, lookup_alter_ne by done. }
  rewrite <- (A_path i). cbn [attr_write attr_read emuHost]. unfold CheckWrite. rewrite (afileAt_found n (A i) W Ha).
  destruct (String.eqb_spec v "") as [->|_]; [by destruct Hv|]. unfold applyWrite. rewrite Hs, A_handle. unfold onPolicy. rewrite Hp.
  destruct (f n v p) as [h p'] eqn:Ef. cbn [fst snd] in *. rewrite <- E. split; [by destruct (hd_kind h)|]. split; [done|].
  rewrite (afileAt_found _ (A i) Ww).
  - rewrite A_current. cbn [ec_pols set_pols]. rewrite lookup_insert_eq. cbn. by rewrite Hc.
  - eapply policyFile_in; [cbn; apply lookup_insert_eq|exact Hin'].
Qed.

Lemma taken_cons n v i ns : taken (taken n v [i]) v ns = taken n v (i :: ns).
Proof. unfold taken. rewrite f_pols. reflexivity. Qed.

Lemma takes_after n v i j : i <> j -> takes n v j -> takes (taken n v [i]) v j.
Proof.
  intros Hne (p & Hp & H). exists p. unfold taken. rewrite f_pols. split; [|exact H]. cbn [ec_pols set_pols changeAll foldl].
  by rewrite lookup_alter_ne.
Qed.

Lemma write_all n v ns : wf n -> okWord v -> NoDup ns -> Forall (takes n v) ns ->
  writeVerified (policyWrites file v ns) n = (length ns, policyWrites file v ns, ("", ""), taken n v ns) /\ wf (taken n v ns).
Proof.
  intros W Hv Hnd. revert n W. induction Hnd as [|i ns Hi _ IH]; intros n W Ht.
  { split; [|by destruct n]. by destruct n. }
  apply Forall_cons in Ht as [Hti Ht]. destruct (write_one n v i W Hv Hti) as (E1 & W1 & E2).
  destruct (IH (taken n v [i]) W1) as [I1 I2].
  { apply Forall_forall. intros j Hj. apply takes_after; [by intros ->|]. by apply (proj1 (Forall_forall _ _) Ht). }
  rewrite taken_cons in I1, I2. split; [|done].
  unfold policyWrites in *. cbn [fmap list_fmap writeVerified w_RelPath w_Value]. rewrite E1, E2, Classify_readback.
  cbn [String.eqb negb]. rewrite String.eqb_refl. cbn [negb]. by rewrite I1.
Qed.
End Phase.

(** ** The node of some facts *)

(** A node after writes: the same drivers and files, each policy with the
    same governors to choose from. *)
Record follows (n m : emuCPU) : Prop := {
  fo_driver : ec_driver m = ec_driver n;
  fo_setBoost : ec_setBoost m = ec_setBoost n;
  fo_boostFile : ec_boostFile m = ec_boostFile n;
  fo_eppWords : ec_eppWords m = ec_eppWords n;
  fo_pols : forall i p, ec_pols n !! i = Some p -> exists q, ec_pols m !! i = Some q /\ ep_hasEPP q = ep_hasEPP p /\ ep_governors q = ep_governors p
}.

#[export] Instance follows_refl : Reflexive follows.
Proof. intros n. split; try done. intros i p E. by exists p. Qed.

#[export] Instance follows_trans : Transitive follows.
Proof.
  intros a b c [A1 A2 A3 A4 A5] [B1 B2 B3 B4 B5]. split; try congruence.
  intros i p (q & Hq & E1 & E2)%A5. destruct (B5 i q Hq) as (r & Hr & E3 & E4). exists r. split; [done|]. split; congruence.
Qed.

(** What discovery reads of a node's driver, policies and words. *)
Record describes (f : CPUFacts) (n : emuCPU) : Prop := {
  de_driver : cf_Driver f = ec_driver n;
  de_policies : forall i, i ∈ cf_Policies f -> exists p, ec_pols n !! i = Some p /\
    (forall g, g ∈ cf_Governors f -> g ∈ ep_governors p) /\ (cf_EPPs f <> [] -> ep_hasEPP p = true);
  de_epps : forall w, w ∈ cf_EPPs f -> w ∈ ec_eppWords n;
  de_global : cf_BoostScope f = CPUBoostScopeGlobal -> ec_boostFile n = true;
  de_noTurbo : cf_BoostScope f = CPUBoostScopeNoTurbo -> intel n = true;
  de_perCPU : cf_BoostScope f = CPUBoostScopePerCPU -> scope n = CPUBoostScopePerCPU \/ ec_setBoost n = true
}.

Lemma describes_follows f n m : describes f n -> follows n m -> describes f m.
Proof.
  intros [D1 D2 D3 D4 D5 D6] [F1 F2 F3 F4 F5]. split; unfold intel, scope in *; rewrite ?F1, ?F2, ?F3, ?F4; try done.
  intros i Hi. destruct (D2 i Hi) as (p & Hp & Hg & He). destruct (F5 i p Hp) as (q & Hq & E1 & E2).
  exists q. split; [done|]. by rewrite E1, E2.
Qed.

(** The governor and preference words of the policies stay. *)
Definition keepsWords (n m : emuCPU) : Prop :=
  forall i p, ec_pols n !! i = Some p -> exists q, ec_pols m !! i = Some q /\ ep_governor q = ep_governor p /\ ep_epp q = ep_epp p.

Lemma taken_lookup f n v ns i : NoDup ns ->
  ec_pols (taken f n v ns) !! i = if decide (i ∈ ns) then (fun p => (f n v p).2) <$> ec_pols n !! i else ec_pols n !! i.
Proof. intros Hnd. unfold taken. cbn [ec_pols set_pols]. by rewrite changeAll_lookup. Qed.

Lemma taken_follows f n v ns : NoDup ns ->
  (forall p, ep_hasEPP (f n v p).2 = ep_hasEPP p /\ ep_governors (f n v p).2 = ep_governors p) -> follows n (taken f n v ns).
Proof.
  intros Hnd Hf. split; try done. intros i p Hp. rewrite taken_lookup, Hp by done.
  destruct (decide (i ∈ ns)); eexists; (split; [reflexivity|]); [apply Hf|done].
Qed.

(** ** Reading the words *)

Lemma plain_TrimSpace v : plain v -> TrimSpace v = v.
Proof. apply TrimSpace_plain. Qed.

Lemma read_governor n i p : wf n -> ec_pols n !! i = Some p -> attr_read n (PolicyRelPath i PolicyGovernorFile) = TrimSpace (ep_governor p).
Proof.
  intros W Hp. change (PolicyRelPath i PolicyGovernorFile) with (afilePath (GovernorOf i)). cbn [attr_read emuHost]. rewrite (afileAt_found n (GovernorOf i) W).
  - cbn [current]. by rewrite Hp.
  - eapply policyFile_in; [exact Hp|]. cbn. set_solver.
Qed.

Lemma read_epp n i p : wf n -> ec_pols n !! i = Some p -> ep_hasEPP p = true ->
  attr_read n (PolicyRelPath i PolicyEPPFile) = TrimSpace (ep_epp p).
Proof.
  intros W Hp He. change (PolicyRelPath i PolicyEPPFile) with (afilePath (EPPOf i)). cbn [attr_read emuHost]. rewrite (afileAt_found n (EPPOf i) W).
  - cbn [current]. by rewrite Hp.
  - eapply policyFile_in; [exact Hp|]. unfold policyAFiles. rewrite He. set_solver.
Qed.

(** ** The phases of a plan *)

Lemma governor_effect n g p : okWord g -> g ∈ ep_governors p ->
  let r := policyGovernorHandler n g p in
  refused (hd_kind r.1) = false /\ ep_governor r.2 = g /\ ep_hasEPP r.2 = ep_hasEPP p /\ ep_governors r.2 = ep_governors p.
Proof.
  intros Hg Hin. cbv zeta. destruct (okWord_trims g Hg) as (_ & _ & Hf). unfold policyGovernorHandler, governorEnum. rewrite Hf.
  rewrite (proj2 (str_mem_In g (ep_governors p)) Hin). cbn [negb]. rewrite andb_false_r.
  destruct (String.eqb_spec (ep_governor (set_governor g p)) (ep_governor p)) as [E|]; [done|].
  set (q := if String.eqb (ep_governor (set_governor g p)) "userspace" then _ else _).
  assert (ep_governor q = g /\ ep_hasEPP q = ep_hasEPP p /\ ep_governors q = ep_governors p) as (E1 & E2 & E3) by (unfold q; repeat case_match; done).
  destruct (switchEPP_fields n (ep_governor p) q) as (F1 & F2 & _ & _ & _ & _ & F7 & _).
  cbn [fst snd]. rewrite F1, F2, F7. done.
Qed.

Lemma epp_effect n w p : okWord w -> w <> "default" -> w ∈ ec_eppWords n -> (active n = true -> ep_governor p <> "performance") ->
  let r := policyEPPHandler n w p in
  refused (hd_kind r.1) = false /\ r.2 = set_epp w p.
Proof.
  intros Hw Hd Hin Ha. cbv zeta. destruct (okWord_trims w Hw) as (_ & _ & Hf). unfold policyEPPHandler, askedEPP. rewrite Hf.
  rewrite (proj2 (String.eqb_neq w "default") Hd), (proj2 (str_mem_In w (ec_eppWords n)) Hin). cbn [andb].
  destruct (active n); [|done]. rewrite (proj2 (String.eqb_neq _ _) (Ha eq_refl)). done.
Qed.

Lemma governor_phase f n g : wf n -> describes f n -> okWord g -> g ∈ cf_Governors f ->
  let ns := sortedPolicies (cf_Policies f) in
  exists m, writeVerified (policyWrites PolicyGovernorFile g ns) n = (length ns, policyWrites PolicyGovernorFile g ns, ("", ""), m) /\
    wf m /\ follows n m /\ ec_boost m = ec_boost n /\ (forall i, i ∈ ns -> exists p, ec_pols m !! i = Some p /\ ep_governor p = g).
Proof.
  intros W D Hg Hin. cbv zeta. set (ns := sortedPolicies _).
  assert (NoDup ns) as Hnd by apply increasing_NoDup, sorted_distinct_increasing.
  assert (forall i, i ∈ ns -> exists p, ec_pols n !! i = Some p /\ g ∈ ep_governors p) as Hp.
  { intros i Hi. assert (i ∈ cf_Policies f) as Hi' by (by apply elem_of_sorted_distinct). destruct (de_policies f n D i Hi') as (p & Hp & Hgs & _). exists p. auto. }
  exists (taken policyGovernorHandler n g ns).
  assert (Forall (takes GovernorOf policyGovernorHandler ep_governor n g) ns) as Ht.
  { apply Forall_forall. intros i Hi. destruct (Hp i Hi) as (p & Ep & Hgp). destruct (governor_effect n g p Hg Hgp) as (H1 & H2 & _).
    exists p. split; [done|]. split; [cbn; set_solver|]. split; [cbn; set_solver|]. done. }
  destruct (write_all GovernorOf PolicyGovernorFile policyGovernorHandler ep_governor ltac:(done) ltac:(done) ltac:(done) ltac:(done)
    n g ns W Hg Hnd Ht) as [E Wm].
  split; [done|]. split; [done|]. split.
  - split; try done. intros i p Ep. rewrite taken_lookup, Ep by done. destruct (decide (i ∈ ns)) as [Hi|]; [|by exists p].
    destruct (Hp i Hi) as (p' & Ep' & Hgp). rewrite Ep in Ep'. injection Ep' as <-.
    destruct (governor_effect n g p Hg Hgp) as (_ & _ & H3 & H4). by eexists.
  - split; [done|]. intros i Hi. destruct (Hp i Hi) as (p & Ep & Hgp). rewrite taken_lookup, Ep, decide_True by done.
    eexists. split; [reflexivity|]. apply (governor_effect n g p Hg Hgp).
Qed.

Lemma epp_phase f n g w : wf n -> describes f n -> okWord w -> w <> "default" -> w ∈ cf_EPPs f -> (active n = true -> g <> "performance") ->
  let ns := sortedPolicies (cf_Policies f) in
  (forall i, i ∈ ns -> exists p, ec_pols n !! i = Some p /\ ep_governor p = g) ->
  exists m, writeVerified (policyWrites PolicyEPPFile w ns) n = (length ns, policyWrites PolicyEPPFile w ns, ("", ""), m) /\
    wf m /\ follows n m /\ ec_boost m = ec_boost n /\
    (forall i, i ∈ ns -> exists p, ec_pols m !! i = Some p /\ ep_governor p = g /\ ep_epp p = w /\ ep_hasEPP p = true).
Proof.
  intros W D Hw Hd Hin Hact. cbv zeta. set (ns := sortedPolicies _). intros Hgov.
  assert (NoDup ns) as Hnd by apply increasing_NoDup, sorted_distinct_increasing.
  assert (forall i, i ∈ ns -> exists p, ec_pols n !! i = Some p /\ ep_governor p = g /\ ep_hasEPP p = true /\
    refused (hd_kind (policyEPPHandler n w p).1) = false /\ (policyEPPHandler n w p).2 = set_epp w p) as Hp.
  { intros i Hi. destruct (Hgov i Hi) as (p & Ep & Eg). assert (i ∈ cf_Policies f) as Hi' by (by apply elem_of_sorted_distinct).
    destruct (de_policies f n D i Hi') as (p' & Ep' & _ & He). rewrite Ep in Ep'. injection Ep' as <-.
    exists p. split; [done|]. split; [done|]. split; [apply He; by intros E; rewrite E in Hin; apply not_elem_of_nil in Hin|].
    apply epp_effect; [done|done|by apply (de_epps f n D)|]. rewrite Eg. done. }
  exists (taken policyEPPHandler n w ns).
  assert (Forall (takes EPPOf policyEPPHandler ep_epp n w) ns) as Ht.
  { apply Forall_forall. intros i Hi. destruct (Hp i Hi) as (p & Ep & _ & He & Hk & E).
    exists p. split; [done|]. unfold policyAFiles. rewrite E. cbn [ep_hasEPP set_epp]. rewrite He. split; [set_solver|]. split; [set_solver|]. done. }
  destruct (write_all EPPOf PolicyEPPFile policyEPPHandler ep_epp ltac:(done) ltac:(done) ltac:(done) ltac:(done) n w ns W Hw Hnd Ht) as [E Wm].
  split; [done|]. split; [done|]. split.
  - split; try done. intros i p Ep. rewrite taken_lookup, Ep by done. destruct (decide (i ∈ ns)) as [Hi|]; [|by exists p].
    destruct (Hp i Hi) as (p' & Ep' & _ & _ & _ & E'). rewrite Ep in Ep'. injection Ep' as <-. cbn. rewrite E'. by eexists.
  - split; [done|]. intros i Hi. destruct (Hp i Hi) as (p & Ep & Eg & He & _ & E'). rewrite taken_lookup, Ep, decide_True by done.
    cbn. rewrite E'. by eexists.
Qed.

(** ** The switches *)

Lemma boost_bit_word b : bit b -> TrimSpace (Itoa b) = Itoa b.
Proof. by intros [-> | ->]. Qed.

Lemma globalBoost_in n : ec_boostFile n = true -> GlobalBoost ∈ afiles n.
Proof. intros E. unfold afiles. rewrite E. set_solver. Qed.

Lemma noTurbo_in n : intel n = true -> NoTurbo ∈ afiles n.
Proof. intros E. unfold afiles. rewrite E. set_solver. Qed.

Lemma read_global n : wf n -> ec_boostFile n = true -> attr_read n GlobalBoostRelPath = Itoa (ec_boost n).
Proof.
  intros W E. change GlobalBoostRelPath with (afilePath GlobalBoost). cbn [attr_read emuHost].
  rewrite (afileAt_found n GlobalBoost W (globalBoost_in n E)). apply boost_bit_word, W.
Qed.

Lemma applyTurbo_words n p : let q := applyTurbo n p in
  ep_governor q = ep_governor p /\ ep_epp q = ep_epp p /\ ep_hasEPP q = ep_hasEPP p /\ ep_governors q = ep_governors p /\ ep_boostShown q = ep_boostShown p.
Proof. done. Qed.

(** A change of every policy that leaves its words. *)
Lemma fmap_follows n m (f : emuPolicy -> emuPolicy) : ec_driver m = ec_driver n -> ec_setBoost m = ec_setBoost n ->
  ec_boostFile m = ec_boostFile n -> ec_eppWords m = ec_eppWords n -> ec_pols m = f <$> ec_pols n ->
  (forall p, ep_governor (f p) = ep_governor p /\ ep_epp (f p) = ep_epp p /\ ep_hasEPP (f p) = ep_hasEPP p /\ ep_governors (f p) = ep_governors p) ->
  follows n m /\ keepsWords n m.
Proof.
  intros E1 E2 E3 E4 E5 Hf. split; [split; try done|]; intros i p Hp; exists (f p); rewrite E5, lookup_fmap, Hp;
    (split; [done|]); destruct (Hf p) as (H1 & H2 & H3 & H4); done.
Qed.

Lemma global_write n v : wf n -> ec_boostFile n = true -> v = "0" \/ v = "1" ->
  exists m, attr_write GlobalBoostRelPath v n = (None, m) /\ wf m /\ follows n m /\ keepsWords n m /\
    attr_read m GlobalBoostRelPath = v /\ ec_boost m = (if String.eqb v "1" then 1 else 0)%Z.
Proof.
  intros W E Hv. pose proof (handle_wf GlobalBoost v n W) as Wm.
  set (b := if String.eqb v "1" then 1%Z else 0%Z). exists (handle GlobalBoost v n).2.
  assert (nodeKstrtobool v = Some b /\ Itoa b = v /\ TrimSuffix v (String newline "") = v /\ v <> "") as (Eb & Ei & Et & Hne)
    by (by destruct Hv as [-> | ->]).
  assert (hd_kind (handle GlobalBoost v n).1 = EventAccepted /\ ec_boost (handle GlobalBoost v n).2 = b) as [Ek Eboost].
  { cbn [handle]. destruct (ec_setBoost n); [unfold globalBoostHandler; rewrite Eb; done|]. unfold boolBoostHandler.
    by destruct Hv as [-> | ->]. }
  assert (follows n (handle GlobalBoost v n).2 /\ keepsWords n (handle GlobalBoost v n).2) as [F K].
  { cbn [handle]. destruct (ec_setBoost n) eqn:Es.
    - unfold globalBoostHandler. rewrite Eb. destruct (negb (b =? ec_boost n)%Z).
      + eapply fmap_follows; try reflexivity; try done.
      + eapply (fmap_follows _ _ id); try reflexivity; try done. cbn. by rewrite map_fmap_id.
    - unfold boolBoostHandler. destruct Hv as [-> | ->]; eapply (fmap_follows _ _ id); try reflexivity; try done; cbn; by rewrite map_fmap_id. }
  split; [|split; [done|]; split; [done|]; split; [done|]; split; [|done]].
  - change GlobalBoostRelPath with (afilePath GlobalBoost). cbn [attr_write emuHost]. unfold CheckWrite.
    rewrite (afileAt_found n GlobalBoost W (globalBoost_in n E)), (proj2 (String.eqb_neq v "") Hne). unfold applyWrite. rewrite Et.
    destruct (handle GlobalBoost v n) as [h m]. cbn in Ek. by rewrite Ek.
  - rewrite read_global by (done || by rewrite (fo_boostFile _ _ F)). by rewrite Eboost.
Qed.

Lemma noTurbo_write n v : wf n -> intel n = true -> v = "0" \/ v = "1" ->
  exists m, attr_write NoTurboRelPath v n = (None, m) /\ wf m /\ follows n m /\ keepsWords n m /\ attr_read m NoTurboRelPath = v.
Proof.
  intros W E Hv. pose proof (handle_wf NoTurbo v n W) as Wm.
  exists (handle NoTurbo v n).2.
  assert (nodeSscanfU v = Some (if String.eqb v "1" then 1 else 0)%Z /\ TrimSuffix v (String newline "") = v /\ v <> "") as (Eb & Et & Hne)
    by (by destruct Hv as [-> | ->]).
  assert (hd_kind (handle NoTurbo v n).1 = EventAccepted /\ Itoa (ec_noTurbo (handle NoTurbo v n).2) = v) as [Ek En].
  { cbn [handle]. unfold noTurboHandler. rewrite Eb. by destruct Hv as [-> | ->]. }
  assert (follows n (handle NoTurbo v n).2 /\ keepsWords n (handle NoTurbo v n).2) as [F K].
  { cbn [handle]. unfold noTurboHandler. rewrite Eb. eapply fmap_follows; try reflexivity; try done. }
  split; [|split; [done|]; split; [done|]; split; [done|]].
  - change NoTurboRelPath with (afilePath NoTurbo). cbn [attr_write emuHost]. unfold CheckWrite.
    rewrite (afileAt_found n NoTurbo W (noTurbo_in n E)), (proj2 (String.eqb_neq v "") Hne). unfold applyWrite. rewrite Et.
    destruct (handle NoTurbo v n) as [h m]. cbn in Ek. by rewrite Ek.
  - change NoTurboRelPath with (afilePath NoTurbo). cbn [attr_read emuHost].
    rewrite (afileAt_found _ NoTurbo Wm) by (apply noTurbo_in; unfold intel; by rewrite (fo_driver _ _ F)).
    change (current NoTurbo (handle NoTurbo v n).2) with (Itoa (ec_noTurbo (handle NoTurbo v n).2)). rewrite En. by destruct Hv as [-> | ->].
Qed.

(** A policy's boost takes a write unless the driver's global one is off. *)
Lemma boost_effect n v p : v = "0" \/ v = "1" -> ec_setBoost n = false \/ ec_boost n <> 0%Z ->
  let r := policyBoostHandler n v p in
  refused (hd_kind r.1) = false /\ Itoa (ep_boostShown r.2) = v /\ ep_governor r.2 = ep_governor p /\ ep_epp r.2 = ep_epp p /\
  ep_hasEPP r.2 = ep_hasEPP p /\ ep_governors r.2 = ep_governors p.
Proof.
  intros Hv Hb. cbv zeta. unfold policyBoostHandler.
  assert (nodeKstrtobool v = Some (if String.eqb v "1" then 1 else 0)%Z) as -> by (by destruct Hv as [-> | ->]).
  assert (ec_setBoost n && (ec_boost n =? 0)%Z = false) as ->.
  { destruct Hb as [-> |Hb%Z.eqb_neq]; [done|]. by rewrite Hb, andb_false_r. }
  destruct (Z.eqb_spec (if String.eqb v "1" then 1 else 0)%Z (ep_boostShown p)) as [E|E]; cbn [fst snd].
  - split; [done|]. rewrite <- E. by destruct Hv as [-> | ->].
  - split; [done|]. by destruct Hv as [-> | ->].
Qed.

Lemma perCPU_phase f n v : wf n -> describes f n -> v = "0" \/ v = "1" -> ec_setBoost n = false \/ ec_boost n <> 0%Z ->
  cf_BoostScope f = CPUBoostScopePerCPU ->
  let ns := sortedPolicies (cf_Policies f) in
  exists m, writeVerified (policyWrites PolicyBoostFile v ns) n = (length ns, policyWrites PolicyBoostFile v ns, ("", ""), m) /\
    wf m /\ follows n m /\ keepsWords n m /\ ec_boost m = ec_boost n /\
    (forall i, i ∈ ns -> attr_read m (PolicyRelPath i PolicyBoostFile) = v).
Proof.
  intros W D Hv Hb Hsc. cbv zeta. set (ns := sortedPolicies _).
  assert (NoDup ns) as Hnd by apply increasing_NoDup, sorted_distinct_increasing.
  assert (okWord v) as Hw by (destruct Hv as [-> | ->]; split; [repeat constructor|done|repeat constructor|done]; cbv; discriminate).
  assert (String.eqb (scope n) CPUBoostScopePerCPU || ec_setBoost n = true) as Hfile.
  { destruct (de_perCPU f n D Hsc) as [-> | ->]; [by rewrite String.eqb_refl|by rewrite orb_true_r]. }
  assert (forall i p, BoostOf i ∈ policyAFiles n (i, p)) as Hin by (intros i p; unfold policyAFiles; rewrite Hfile; set_solver).
  exists (taken policyBoostHandler n v ns).
  assert (Forall (takes BoostOf policyBoostHandler (fun p => Itoa (ep_boostShown p)) n v) ns) as Ht.
  { apply Forall_forall. intros i Hi. assert (i ∈ cf_Policies f) as Hi' by (by apply elem_of_sorted_distinct).
    destruct (de_policies f n D i Hi') as (p & Ep & _). destruct (boost_effect n v p Hv Hb) as (H1 & H2 & _).
    exists p. split; [done|]. split; [apply Hin|]. split; [apply Hin|]. done. }
  destruct (write_all BoostOf PolicyBoostFile policyBoostHandler (fun p => Itoa (ep_boostShown p)) ltac:(done) ltac:(done) ltac:(done) ltac:(done)
    n v ns W Hw Hnd Ht) as [E Wm].
  split; [done|]. split; [done|]. split; [apply taken_follows; [done|intros p; split; apply (boost_effect n v p Hv Hb)]|]. split; [|split; [done|]].
  - intros i p Ep. rewrite taken_lookup, Ep by done. destruct (decide (i ∈ ns)); [|by exists p].
    eexists. split; [reflexivity|]. destruct (boost_effect n v p Hv Hb) as (_ & _ & H3 & H4 & _). done.
  - intros i Hi. assert (i ∈ cf_Policies f) as Hi' by (by apply elem_of_sorted_distinct). destruct (de_policies f n D i Hi') as (p & Ep & _).
    assert (ec_pols (taken policyBoostHandler n v ns) !! i = Some (policyBoostHandler n v p).2) as El by (by rewrite taken_lookup, Ep, decide_True).
    change (PolicyRelPath i PolicyBoostFile) with (afilePath (BoostOf i)). cbn [attr_read emuHost].
    rewrite (afileAt_found _ (BoostOf i) Wm) by (eapply policyFile_in; [exact El|apply Hin]).
    cbn [current]. rewrite El. cbn [fmap option_fmap option_map default from_option id].
    destruct (boost_effect n v p Hv Hb) as (_ & -> & _). by destruct Hv as [-> | ->].
Qed.

Definition switchable (f : CPUFacts) (n : emuCPU) : Prop :=
  cf_BoostScope f = CPUBoostScopePerCPU -> ec_setBoost n = false \/ ec_boost n <> 0%Z.

Lemma boostBit_cases boost inv : boostBit boost inv = "0" \/ boostBit boost inv = "1".
Proof. unfold boostBit. destruct (xorb _ _); auto. Qed.

Lemma length_policyWrites file v l : length (policyWrites file v l) = length l.
Proof. apply length_fmap. Qed.

Lemma switch_phase f boost ws n : wf n -> describes f n -> switchable f n ->
  CPUBoostWrites f (sortedPolicies (cf_Policies f)) boost = Some ws ->
  exists m, writeVerified ws n = (length ws, ws, ("", ""), m) /\ wf m /\ follows n m /\ keepsWords n m /\
    (forall w, w ∈ ws -> attr_read m (w_RelPath w) = w_Value w) /\ (cf_BoostScope f = CPUBoostScopePerCPU -> ec_boost m = ec_boost n).
Proof.
  intros W D Hsw. unfold CPUBoostWrites.
  destruct (String.eqb_spec (cf_BoostScope f) CPUBoostScopeGlobal) as [E1|_]; [intros [= <-]|].
  { destruct (global_write n (boostBit boost false) W (de_global f n D E1) (boostBit_cases _ _)) as (m & Hw & Wm & F & K & Hr & _).
    exists m. cbn [writeVerified w_RelPath w_Value]. rewrite Hw, Hr, Classify_readback. split; [done|]. split; [done|]. split; [done|].
    split; [done|]. split; [by intros w ->%list_elem_of_singleton|]. by rewrite E1. }
  destruct (String.eqb_spec (cf_BoostScope f) CPUBoostScopeNoTurbo) as [E2|_]; [intros [= <-]|].
  { destruct (noTurbo_write n (boostBit boost true) W (de_noTurbo f n D E2) (boostBit_cases _ _)) as (m & Hw & Wm & F & K & Hr).
    exists m. cbn [writeVerified w_RelPath w_Value]. rewrite Hw, Hr, Classify_readback. split; [done|]. split; [done|]. split; [done|].
    split; [done|]. split; [by intros w ->%list_elem_of_singleton|]. by rewrite E2. }
  destruct (String.eqb_spec (cf_BoostScope f) CPUBoostScopePerCPU) as [E3|_]; [|done].
  destruct (perCPU_phase f n (boostBit boost false) W D (boostBit_cases _ _) (Hsw E3) E3) as (m & Hw & Wm & F & K & Hb & Hr).
  rewrite <- (length_policyWrites PolicyBoostFile (boostBit boost false)) in Hw. destruct (sortedPolicies (cf_Policies f)) as [|i ns]; [done|]. intros [= <-]. exists m. split; [exact Hw|].
  split; [done|]. split; [done|]. split; [done|]. split; [|done]. intros w Hin.
  change (w ∈ policyWrites PolicyBoostFile (boostBit boost false) (i :: ns)) in Hin. apply list_elem_of_fmap in Hin as (j & -> & Hj). by apply Hr.
Qed.

Lemma checkWrites_all {H} `{!SysfsHost H} ws (h : H) : (forall w, w ∈ ws -> attr_read h (w_RelPath w) = w_Value w) -> checkWrites ws h = (true, "").
Proof.
  induction ws as [|w ws IH]; intros Hw; [done|]. cbn [checkWrites]. rewrite Hw by set_solver. rewrite String.eqb_refl. cbn [negb]. apply IH. set_solver.
Qed.

Lemma cpuWord_ok g : cpuWord g -> okWord g.
Proof.
  unfold cpuWord. intros H. repeat (apply elem_of_cons in H as [->|H]; [split; [repeat constructor; cbv; discriminate|done]|]).
  by apply not_elem_of_nil in H.
Qed.

Lemma eppWord_ok preset : cpuEPPWord preset <> "" -> okWord (cpuEPPWord preset) /\ cpuEPPWord preset <> "default".
Proof.
  unfold cpuEPPWord. repeat case_match; [..|done]; intros _; (split; [split; [repeat constructor; cbv; discriminate|done]|done]).
Qed.

Lemma active_driver n : active n = cpuActiveDriver (ec_driver n).
Proof. unfold active, str_mem, renderSetpolicyDrivers, cpuActiveDriver. cbn [existsb]. by rewrite orb_false_r. Qed.

(** What a node comes to under a plan. *)
Record obeys (f : CPUFacts) (plan : Plan) (m : emuCPU) : Prop := {
  ob_wf : wf m;
  ob_governor : forall i, i ∈ cf_Policies f -> exists p, ec_pols m !! i = Some p /\ ep_governor p = st_Governor (p_State plan) /\
    (st_EPP (p_State plan) <> "" -> ep_epp p = st_EPP (p_State plan));
  ob_reads : forall w, w ∈ p_Writes plan -> attr_read m (w_RelPath w) = w_Value w
}.

(** The governor and preference writes of a plan. *)
Definition wordWrites (f : CPUFacts) (preset : string) : list Write :=
  let c := chooseCPU f preset in let ns := sortedPolicies (cf_Policies f) in
  (policyWrites PolicyGovernorFile (cc_governor c) ns ++ if String.eqb (cc_epp c) "" then [] else policyWrites PolicyEPPFile (cc_epp c) ns)%list.

Definition hasWords (f : CPUFacts) (preset : string) (m : emuCPU) : Prop :=
  let c := chooseCPU f preset in
  forall i, i ∈ cf_Policies f -> exists p, ec_pols m !! i = Some p /\ ep_governor p = cc_governor c /\
    (cc_epp c <> "" -> ep_epp p = cc_epp c /\ ep_hasEPP p = true).

Lemma words_run f preset n : wf n -> describes f n -> cc_result (chooseCPU f preset) <> GovernorResultUnsupported ->
  exists m, writeVerified (wordWrites f preset) n = (length (wordWrites f preset), wordWrites f preset, ("", ""), m) /\
    wf m /\ follows n m /\ ec_boost m = ec_boost n /\ hasWords f preset m.
Proof.
  intros W D Hc. destruct (chooseCPU_supported f preset Hc) as (_ & Hg & Hgl & He). unfold wordWrites, hasWords.
  set (c := chooseCPU f preset) in *. set (ns := sortedPolicies (cf_Policies f)) in *.
  assert (forall i, i ∈ cf_Policies f -> i ∈ ns) as Hns by (intros i; apply elem_of_sorted_distinct).
  apply str_mem_In in Hgl. assert (okWord (cc_governor c)) as Hgw.
  { apply cpuWord_ok. exact (proj1 (Forall_forall _ _) (cpuGovernorWords_words (cf_Driver f) preset) _ Hg). }
  destruct (governor_phase f n (cc_governor c) W D Hgw Hgl) as (n1 & V1 & W1 & F1 & B1 & G1). fold ns in V1, G1.
  pose proof (describes_follows f n n1 D F1) as D1.
  destruct (String.eqb_spec (cc_epp c) "") as [E|E].
  { exists n1. rewrite app_nil_r, length_policyWrites. split; [done|]. split; [done|]. split; [done|]. split; [done|].
    intros i Hi. destruct (G1 i (Hns i Hi)) as (p & Hp & Eg). exists p. done. }
  destruct He as [He|(He & _ & Hel)]; [done|]. apply str_mem_In in Hel.
  destruct (eppWord_ok preset ltac:(by rewrite <- He)) as [Hew Hed]. rewrite <- He in Hew, Hed.
  destruct (epp_phase f n1 (cc_governor c) (cc_epp c) W1 D1 Hew Hed Hel) as (n2 & V2 & W2 & F2 & B2 & G2).
  { rewrite active_driver, <- (de_driver f n1 D1). intros Ha. revert Hg. unfold cpuGovernorWords.
    destruct (String.eqb_spec preset CPUGovernorPresetPerformance) as [Ep|_].
    { rewrite He, Ep in E. by destruct E. }
    rewrite Ha. by intros ->%list_elem_of_singleton. }
  { exact G1. }
  fold ns in V2, G2. exists n2. rewrite length_app, !length_policyWrites. split.
  { rewrite (writeVerified_app _ _ n n1) by (by rewrite V1, length_policyWrites). by rewrite V2, length_policyWrites. }
  split; [done|]. split; [by etrans|]. split; [by rewrite B2|].
  intros i Hi. destruct (G2 i (Hns i Hi)) as (p & Hp & Eg & Ee & Eh). exists p. done.
Qed.

(** What the governor and preference files read, however the switches moved. *)
Lemma words_read f preset n2 m w : wf m -> follows n2 m -> keepsWords n2 m -> hasWords f preset n2 ->
  cc_result (chooseCPU f preset) <> GovernorResultUnsupported -> w ∈ wordWrites f preset -> attr_read m (w_RelPath w) = w_Value w.
Proof.
  intros Wm F K G Hc Hw. destruct (chooseCPU_supported f preset Hc) as (_ & Hg & _ & He). unfold wordWrites, hasWords in *.
  set (c := chooseCPU f preset) in *. set (ns := sortedPolicies (cf_Policies f)) in *.
  assert (forall i, i ∈ ns -> i ∈ cf_Policies f) as Hns by (intros i; apply elem_of_sorted_distinct).
  apply elem_of_app in Hw as [Hw|Hw].
  - apply list_elem_of_fmap in Hw as (i & -> & Hi). destruct (G i (Hns i Hi)) as (p & Hp & Eg & _). destruct (K i p Hp) as (q & Hq & E1 & _).
    cbn [w_RelPath w_Value]. rewrite (read_governor m i q Wm Hq), E1, Eg. apply okWord_trims, cpuWord_ok.
    exact (proj1 (Forall_forall _ _) (cpuGovernorWords_words (cf_Driver f) preset) _ Hg).
  - destruct (String.eqb_spec (cc_epp c) "") as [E|E]; [by apply not_elem_of_nil in Hw|].
    apply list_elem_of_fmap in Hw as (i & -> & Hi). destruct (G i (Hns i Hi)) as (p & Hp & _ & Ee). destruct (Ee E) as [E1 E2].
    destruct (K i p Hp) as (q & Hq & _ & Eq). destruct (fo_pols _ _ F i p Hp) as (q' & Hq' & Eh & _). rewrite Hq in Hq'. injection Hq' as <-.
    cbn [w_RelPath w_Value]. rewrite (read_epp m i q Wm Hq) by (by rewrite Eh). rewrite Eq, E1.
    destruct He as [He|(He & _ & _)]; [done|]. rewrite He in E |- *. apply okWord_trims, (eppWord_ok preset E).
Qed.

(** A supported plan is its words, then its switches. *)
Lemma plan_parts f preset boost plan : PlanCPU f preset boost = Some plan -> p_Result plan <> GovernorResultUnsupported ->
  cc_result (chooseCPU f preset) <> GovernorResultUnsupported /\
  st_Governor (p_State plan) = cc_governor (chooseCPU f preset) /\ st_EPP (p_State plan) = cc_epp (chooseCPU f preset) /\
  exists ws, p_Writes plan = (wordWrites f preset ++ ws)%list /\
    (boost = "" /\ ws = [] \/ boost <> "" /\ CPUBoostWrites f (sortedPolicies (cf_Policies f)) boost = Some ws).
Proof.
  intros HP HR. destruct (PlanCPU_shape f preset boost plan HP HR) as (_ & Hc & ws & Hws & _ & Hst & _ & _ & Hb).
  split; [done|]. rewrite Hst. split; [done|]. split; [done|]. exists ws. unfold wordWrites. rewrite <- app_assoc. split; [done|].
  destruct Hb as [Hb|[Hv Hb]]; [by left|right]. split; [|done]. intros ->. revert Hv. by_decide.
Qed.

Lemma plan_run f preset boost plan n : wf n -> describes f n -> (boost <> "" -> switchable f n) ->
  PlanCPU f preset boost = Some plan -> p_Result plan <> GovernorResultUnsupported ->
  exists m, writeVerified (p_Writes plan) n = (length (p_Writes plan), p_Writes plan, ("", ""), m) /\ obeys f plan m /\ follows n m /\
    (cf_BoostScope f = CPUBoostScopePerCPU -> ec_boost m = ec_boost n).
Proof.
  intros W D Hsw HP HR. destruct (plan_parts f preset boost plan HP HR) as (Hc & Eg & Ee & ws & Hws & Hb).
  destruct (words_run f preset n W D Hc) as (n2 & V2 & W2 & F2 & B2 & G2). pose proof (describes_follows f n n2 D F2) as D2.
  assert (exists n3, writeVerified ws n2 = (length ws, ws, ("", ""), n3) /\ wf n3 /\ follows n2 n3 /\ keepsWords n2 n3 /\
    (forall w, w ∈ ws -> attr_read n3 (w_RelPath w) = w_Value w) /\ (cf_BoostScope f = CPUBoostScopePerCPU -> ec_boost n3 = ec_boost n2))
    as (n3 & V3 & W3 & F3 & K3 & R3 & B3).
  { destruct Hb as [[_ ->]|[Hv Hb]].
    - exists n2. split; [done|]. split; [done|]. split; [done|]. split; [intros i p Hp; by exists p|]. split; [by intros w ?%not_elem_of_nil|done].
    - apply (switch_phase f boost ws n2 W2 D2); [|done]. intros E. rewrite (fo_setBoost _ _ F2), B2. by apply Hsw. }
  exists n3. split; [|split; [split; [done| |]|split]].
  - rewrite Hws, (writeVerified_app _ _ n n2 V2), V3. by rewrite !length_app.
  - intros i Hi. destruct (G2 i Hi) as (p & Hp & E1 & E2). destruct (K3 i p Hp) as (q & Hq & E3 & E4).
    exists q. rewrite Eg, Ee, E3, E4. split; [done|]. split; [done|]. intros Hne. by apply E2.
  - intros w Hw. rewrite Hws in Hw. apply elem_of_app in Hw as [Hw|Hw]; [|by apply R3]. by eapply words_read.
  - by etrans.
  - intros E. by rewrite (B3 E), B2.
Qed.

(** ** The agent's apply *)

(** The one switch an emulated driver, as the kernel, refuses: a policy's
    boost while the driver's global boost is off. The agent turns the global
    one on first, so only turning a policy's boost off meets the refusal. *)
Definition refusesSwitch (f : CPUFacts) (boost : string) (n : emuCPU) : Prop :=
  boost = CPUGovernorBoostOff /\ cf_BoostScope f = CPUBoostScopePerCPU /\ ec_setBoost n = true /\ ec_boost n = 0%Z.

Lemma globalBoost_notin n : ec_boostFile n = false -> GlobalBoost ∉ afiles n.
Proof.
  intros E Hin. unfold afiles in Hin. rewrite E, !elem_of_app in Hin. destruct Hin as [Hin|[Hin|[Hin|Hin]]].
  - by apply not_elem_of_nil in Hin.
  - apply list_elem_of_In, in_concat in Hin as (l & Hl%list_elem_of_In & Ha%list_elem_of_In).
    apply list_elem_of_fmap in Hl as ([i p] & -> & _). unfold policyAFiles in Ha. rewrite !elem_of_app in Ha.
    destruct Ha as [Ha|[Ha|Ha]]; [|destruct (ep_hasEPP p)|destruct (_ || _)]; set_solver.
  - destruct (intel n); set_solver.
  - by apply list_elem_of_fmap in Hin as (t & ? & _).
Qed.

Lemma applyCPU_run f b intent c n m plan writes :
  PlanCPU f (cgi_Preset intent) (cgi_Boost intent) = Some plan -> p_Result plan <> GovernorResultUnsupported ->
  (cpuWrites f b (cgi_Boost intent) (p_Writes plan) c n).1 = writes ->
  writeVerified writes n = (length writes, writes, ("", ""), m) ->
  let '(o, c', n') := applyCPU f b intent c n in
  out_status o = mkStatus GovernorBackendCPUFreq (p_Result plan) "" (p_Native plan) /\ n' = m /\ c_expect c' = writes.
Proof.
  intros HP HR HW HV. unfold applyCPU. rewrite HP, (proj2 (String.eqb_neq _ _) HR). destruct (cpuWrites _ _ _ _ _ _) as [ws c0].
  cbn in HW. subst ws. rewrite HV. rewrite String.eqb_refl. cbn [negb]. done.
Qed.

(** C2. A node takes the plan the agent makes for it: for every supported
    plan, of a preset and of a boost state other than the switch a driver
    refuses ([refusesSwitch]: off for a policy while the global boost is off
    already), where the intent leaves no boost of the agent's own to be put
    back and the global boost file, if it is there, can be written, the
    kernel accepts every write (the governors first, so that no preference
    meets the performance policy that would refuse it; the global boost
    before a policy's), each file reads back as written, so the agent reports
    the plan's own result, every policy runs the plan's governor and
    preference, and a later check finds nothing changed. *)
Theorem node_takes_plan (f : CPUFacts) (b : option CPUGovernorBaseline) (intent : CPUGovernorIntent) (c : governorComponent)
    (n : emuCPU) (plan : Plan) :
  wf n -> describes f n -> ec_boostFile n = true \/ ec_readOnly n !! GlobalBoostRelPath = None ->
  PlanCPU f (cgi_Preset intent) (cgi_Boost intent) = Some plan -> p_Result plan <> GovernorResultUnsupported ->
  (cgi_Boost intent = "" -> c_boostWritten c = false) -> ~ refusesSwitch f (cgi_Boost intent) n ->
  let '(o, c', n') := applyCPU f b intent c n in
  out_status o = mkStatus GovernorBackendCPUFreq (p_Result plan) "" (p_Native plan) /\
  obeys f plan n' /\ checkWrites (c_expect c') n' = (true, "").
Proof.
  intros W D Hro HP HR Hc Hns.
  assert (exists writes m, (cpuWrites f b (cgi_Boost intent) (p_Writes plan) c n).1 = writes /\
    writeVerified writes n = (length writes, writes, ("", ""), m) /\ obeys f plan m /\ checkWrites writes m = (true, ""))
    as (writes & m & E1 & E2 & E3 & E4).
  { assert (forall n0, wf n0 -> describes f n0 -> (cgi_Boost intent <> "" -> switchable f n0) -> exists m, writeVerified (p_Writes plan) n0 =
      (length (p_Writes plan), p_Writes plan, ("", ""), m) /\ obeys f plan m /\ follows n0 m /\
      (cf_BoostScope f = CPUBoostScopePerCPU -> ec_boost m = ec_boost n0) /\ checkWrites (p_Writes plan) m = (true, "")) as Hrun.
    { intros n0 W0 D0 S0. destruct (plan_run f _ _ plan n0 W0 D0 S0 HP HR) as (m & V & O & F & B). exists m.
      repeat (split; [done|]). apply checkWrites_all, O. }
    assert (String.eqb (cgi_Boost intent) "" && c_boostWritten c = false) as Hback
      by (destruct (String.eqb_spec (cgi_Boost intent) "") as [E|]; [exact (Hc E)|done]).
    unfold cpuWrites. rewrite Hback.
    assert (cgi_Boost intent = CPUGovernorBoostOn /\ cf_BoostScope f = CPUBoostScopePerCPU /\ attr_read n GlobalBoostRelPath = "0" \/
      (cgi_Boost intent <> "" -> switchable f n) /\ ~ (cgi_Boost intent = CPUGovernorBoostOn /\ cf_BoostScope f = CPUBoostScopePerCPU /\ attr_read n GlobalBoostRelPath = "0"))
      as [(Eon & Esc & Erd)|[Hsw Hne]].
    { destruct (decide (cgi_Boost intent = CPUGovernorBoostOn /\ cf_BoostScope f = CPUBoostScopePerCPU /\ attr_read n GlobalBoostRelPath = "0")) as [|Hne]; [by left|].
      right. split; [|done]. intros Hb Esc. destruct (ec_setBoost n) eqn:Es; [right|by left]. intros Eb.
      destruct (PlanCPU_shape _ _ _ plan HP HR) as (_ & _ & ws & _ & _ & _ & _ & _ & [[? _]|[Hv _]]); [done|].
      unfold CPUGovernorBoostValues in Hv. apply elem_of_cons in Hv as [Eon|Hv%list_elem_of_singleton].
      - apply Hne. split; [done|]. split; [done|]. rewrite read_global; [by rewrite Eb|done|by apply (wn_setBoost n W)].
      - apply Hns. by split. }
    - rewrite Eon, Esc, Erd, !String.eqb_refl. cbn [andb fst].
      assert (ec_boostFile n = true) as Hf.
      { destruct Hro as [|Hro]; [done|]. destruct (ec_boostFile n) eqn:Ef; [done|]. exfalso. revert Erd. cbn [attr_read emuHost].
        destruct (afileAt n GlobalBoostRelPath) as [a|] eqn:Ea.
        - unfold afileAt in Ea. apply find_some in Ea as [Ha%list_elem_of_In Hp%String.eqb_eq].
          assert (a = GlobalBoost) as -> by (apply afilePath_inj; [by eapply afiles_ok|done|done]).
          exfalso. revert Ha. by apply globalBoost_notin.
        - by rewrite Hro. }
      destruct (global_write n "1" W Hf ltac:(by right)) as (n0 & V0 & W0 & F0 & _ & R0 & B0).
      destruct (Hrun n0 W0 (describes_follows f n n0 D F0)) as (m & V & O & F & B & K).
      { intros _ _. right. by rewrite B0. }
      eexists _, m. split; [reflexivity|]. split; [|split; [done|]].
      + cbn [writeVerified w_RelPath w_Value length]. rewrite V0, R0, Classify_readback. rewrite String.eqb_refl. cbn [negb]. by rewrite V.
      + cbn [checkWrites w_RelPath w_Value]. rewrite read_global; [|apply O|by rewrite (fo_boostFile _ _ F), (fo_boostFile _ _ F0)].
        rewrite (B Esc), B0. cbn [String.eqb]. exact K.
    - destruct (Hrun n W D Hsw) as (m & V & O & F & B & K). exists (p_Writes plan), m. split; [|by split].
      destruct (String.eqb_spec (cgi_Boost intent) CPUGovernorBoostOn) as [E1|_], (String.eqb_spec (cf_BoostScope f) CPUBoostScopePerCPU) as [E2|_]; cbn [andb]; try done.
      destruct (String.eqb_spec (attr_read n GlobalBoostRelPath) "0") as [E3|_]; [|done]. by destruct Hne. }
  pose proof (applyCPU_run f b intent c n m plan writes HP HR E1 E2) as Ha.
  destruct (applyCPU f b intent c n) as [[o c'] n']. destruct Ha as (A1 & -> & ->). done.
Qed.

(** ** The switch a node refuses *)

Lemma boost_refused n i v p : wf n -> ec_pols n !! i = Some p -> String.eqb (scope n) CPUBoostScopePerCPU || ec_setBoost n = true ->
  ec_setBoost n = true -> ec_boost n = 0%Z -> v = "0" \/ v = "1" ->
  attr_write (PolicyRelPath i PolicyBoostFile) v n = (Some (writeError EINVAL), n).
Proof.
  intros W Hp Hfile Hs Hb Hv. change (PolicyRelPath i PolicyBoostFile) with (afilePath (BoostOf i)).
  cbn [attr_write emuHost]. unfold CheckWrite. rewrite (afileAt_found n (BoostOf i) W).
  2: { eapply policyFile_in; [exact Hp|]. unfold policyAFiles. rewrite Hfile. set_solver. }
  assert (String.eqb v "" = false /\ TrimSuffix v (String newline "") = v) as [-> Ht] by (by destruct Hv as [-> | ->]).
  unfold applyWrite. rewrite Ht. cbn [handle]. unfold onPolicy. rewrite Hp. unfold policyBoostHandler.
  assert (nodeKstrtobool v = Some (if String.eqb v "1" then 1 else 0)%Z) as -> by (by destruct Hv as [-> | ->]).
  rewrite Hs, Hb. cbn [andb Z.eqb hd_kind rejectWrite hd_errno default from_option id fmap option_fmap option_map].
  rewrite insert_id by done. by destruct n.
Qed.

(** C17. A policy's boost cannot be turned off while the driver's global
    boost already is: the driver refuses every write to it with EINVAL. Asked
    for boost off on such a node, where boost is off, the agent reports the
    whole intent unsupported, although every governor and preference of the
    plan was taken. *)
Theorem boost_off_refused (f : CPUFacts) (b : option CPUGovernorBaseline) (intent : CPUGovernorIntent) (c : governorComponent)
    (n : emuCPU) (plan : Plan) :
  wf n -> describes f n -> PlanCPU f (cgi_Preset intent) (cgi_Boost intent) = Some plan -> p_Result plan <> GovernorResultUnsupported ->
  refusesSwitch f (cgi_Boost intent) n ->
  let '(o, _, n') := applyCPU f b intent c n in
  gst_result (out_status o) = GovernorResultUnsupported /\ out_wrote o = length (wordWrites f (cgi_Preset intent)) /\
  hasWords f (cgi_Preset intent) n' /\ ec_boost n' = 0%Z.
Proof.
  intros W D HP HR (Eo & Esc & Es & Eb).
  destruct (plan_parts _ _ _ plan HP HR) as (Hc & _ & _ & ws & Hws & Hb). destruct Hb as [[E _]|[_ Hb]]; [by rewrite E in Eo|].
  destruct (words_run f (cgi_Preset intent) n W D Hc) as (m & V & Wm & F & B & G). rewrite Eo in Hb.
  unfold CPUBoostWrites in Hb. rewrite Esc in Hb. change (policyWrites PolicyBoostFile (boostBit CPUGovernorBoostOff false)) with (policyWrites PolicyBoostFile "0") in Hb.
  cbn [String.eqb Ascii.eqb Bool.eqb CPUBoostScopePerCPU CPUBoostScopeGlobal CPUBoostScopeNoTurbo] in Hb.
  destruct (sortedPolicies (cf_Policies f)) as [|i ns] eqn:Ens; [done|]. injection Hb as Hb.
  assert (i ∈ cf_Policies f) as Hi by (apply elem_of_sorted_distinct; unfold sortedPolicies in Ens; rewrite Ens; set_solver).
  destruct (G i Hi) as (p & Hp & _).
  pose proof (boost_refused m i "0" p Wm Hp) as Hr. rewrite (fo_setBoost _ _ F), Es, orb_true_r, B in Hr.
  specialize (Hr eq_refl eq_refl Eb ltac:(by left)).
  assert (writeVerified (p_Writes plan) n =
    (length (wordWrites f (cgi_Preset intent)), wordWrites f (cgi_Preset intent), Classify (Some (writeError EINVAL)) "0" "", m)) as HV.
  { rewrite Hws, (writeVerified_app _ _ n m V), <- Hb. cbn [policyWrites fmap list_fmap writeVerified w_RelPath w_Value].
    change (boostBit CPUGovernorBoostOff false) with "0". rewrite Hr. by rewrite Nat.add_0_r, app_nil_r. }
  unfold applyCPU. rewrite HP, (proj2 (String.eqb_neq _ _) HR). unfold cpuWrites. rewrite Eo.
  cbn [String.eqb Ascii.eqb Bool.eqb CPUGovernorBoostOff CPUGovernorBoostOn andb]. rewrite HV.
  cbn [Classify writeError we_errno]. cbn [String.eqb Ascii.eqb Bool.eqb GovernorResultUnsupported negb].
  split; [done|]. split; [done|]. split; [done|]. by rewrite B.
Qed.

(** ** A plan for the node of two policies *)

Definition eppFacts : CPUFacts := {|
  cf_Driver := "amd-pstate-epp"; cf_DriverMode := "active"; cf_HWP := false; cf_Governors := ["performance"; "powersave"];
  cf_EPPs := ["balance_performance"; "balance_power"]; cf_BoostScope := CPUBoostScopePerCPU; cf_Policies := [0; 1]%Z
|}.

Lemma eppNode_described : describes eppFacts eppNode.
Proof.
  split; try done.
  - intros i Hi. exists twoPolicy. split; [|done]. cbn in Hi. apply elem_of_cons in Hi as [-> | ->%list_elem_of_singleton]; reflexivity.
  - intros w. cbn. set_solver.
  - by left.
Qed.

Definition eppOn : CPUGovernorIntent := {| cgi_Preset := CPUGovernorPresetEfficiency; cgi_Boost := CPUGovernorBoostOn |}.
Definition eppOff : CPUGovernorIntent := {| cgi_Preset := CPUGovernorPresetEfficiency; cgi_Boost := CPUGovernorBoostOff |}.
Definition planOf (intent : CPUGovernorIntent) : Plan := default unsupportedPlan (PlanCPU eppFacts (cgi_Preset intent) (cgi_Boost intent)).

Lemma node_takes_plan_witness :
  let '(o, c', n') := applyCPU eppFacts None eppOn (newComponent "cpuGovernor") eppNode in
  out_status o = mkStatus GovernorBackendCPUFreq (p_Result (planOf eppOn)) "" (p_Native (planOf eppOn)) /\
  obeys eppFacts (planOf eppOn) n' /\ checkWrites (c_expect c') n' = (true, "").
Proof.
  assert (PlanCPU eppFacts (cgi_Preset eppOn) (cgi_Boost eppOn) = Some (planOf eppOn)) as HP by (vm_compute; reflexivity).
  assert (p_Result (planOf eppOn) <> GovernorResultUnsupported) as HR by (vm_compute; discriminate).
  assert (~ refusesSwitch eppFacts (cgi_Boost eppOn) eppNode) as Hs by (intros [E _]; discriminate).
  exact (node_takes_plan eppFacts None eppOn (newComponent "cpuGovernor") eppNode (planOf eppOn)
    eppNode_wf eppNode_described (or_introl eq_refl) HP HR (fun _ => eq_refl) Hs).
Defined.

Lemma boost_off_refused_witness :
  let '(o, _, n') := applyCPU eppFacts None eppOff (newComponent "cpuGovernor") eppNode in
  gst_result (out_status o) = GovernorResultUnsupported /\ out_wrote o = length (wordWrites eppFacts (cgi_Preset eppOff)) /\
  hasWords eppFacts (cgi_Preset eppOff) n' /\ ec_boost n' = 0%Z.
Proof.
  assert (PlanCPU eppFacts (cgi_Preset eppOff) (cgi_Boost eppOff) = Some (planOf eppOff)) as HP by (vm_compute; reflexivity).
  assert (p_Result (planOf eppOff) <> GovernorResultUnsupported) as HR by (vm_compute; discriminate).
  assert (refusesSwitch eppFacts (cgi_Boost eppOff) eppNode) as Hs by (split; [reflexivity|]; split; [reflexivity|]; split; reflexivity).
  exact (boost_off_refused eppFacts None eppOff (newComponent "cpuGovernor") eppNode (planOf eppOff) eppNode_wf eppNode_described HP HR Hs).
Defined.
