(* ===== verification/SimRapl.v ===== *)
(** * Simulator: the emulated powercap tree, and the agent's cap on it

    The RAPL zones of an emulated node: how a profile's control types become
    zones and files (simulator/pkg/hwemu/render_powercap.go, layout.go,
    node.go [buildPowercap]), what a write to a limit, a time window or an
    enabled file does (readback.go, physics.go), and the node as the host of
    the agent's package cap (RaplCap.v): what every package's limit is after
    the agent caps the node. The seeded energy of a zone is an input, the
    extra files of a captured profile and the physics are left out. *)

From Stdlib Require Import DecimalString.
From S2P Require Import Prelude GoString GoFloat GoSlices NvidiaDiscovery Native Governor Host HostFS Dvfs RaplCap SimEnergy SimCpuFreq.

#[local] Open Scope string_scope.

(** ** What a profile says of the zones *)

(** src/simulator/pkg/hwemu/types.go:15-18 [Fact] *)
Record Fact (T : Type) := mkFact { fact_V : T; fact_Src : string }.
Arguments mkFact {T}. Arguments fact_V {T}. Arguments fact_Src {T}.

(** A fact with a source was given. *)
Definition given {T} (f : Fact T) : bool := negb (String.eqb (fact_Src f) "").

(** src/simulator/pkg/hwemu/types.go:131-137 [ConstraintSpec] *)
Record ConstraintSpec := mkConstraintSpec {
  cs_Name : string; cs_PowerLimitUW : Fact Z; cs_MaxPowerUW : Fact Z; cs_TimeWindowUS : Fact Z; cs_RejectWrites : Fact string
}.

(** Less the extra files.
    src/simulator/pkg/hwemu/types.go:116-127 [ZoneSpec] *)
Inductive ZoneSpec := mkZoneSpec {
  zs_Repeat : string; zs_NameFormat : string; zs_Enabled : Fact Z; zs_EnergyUnitNJ : Fact Z; zs_PowerUnitUW : Fact Z;
  zs_LimitBits : Fact Z; zs_MaxEnergyRangeUJ : option (Fact Z); zs_Constraints : list ConstraintSpec; zs_Children : list ZoneSpec
}.

(** src/simulator/pkg/hwemu/types.go:104-107 [ControlTypeSpec] *)
Record ControlTypeSpec := mkControlType { ct_Name : string; ct_Zones : list ZoneSpec }.

(** ** Names *)

(** The digits of [strconv.FormatInt(n, 16)] of a number below [16^fuel]. *)
Fixpoint hexDigits (fuel : nat) (n : Z) (acc : string) : string :=
  match fuel with
  | O => acc
  | S fuel =>
      let d := default "0"%char (list_ascii_of_string "0123456789abcdef" !! Z.to_nat (n mod 16)) in
      if (n <? 16)%Z then String d acc else hexDigits fuel (n / 16) (String d acc)
  end.

(** The class name of a zone under its parent's.
    src/simulator/pkg/hwemu/layout/layout.go:113-121 [PowercapZoneDir] *)
Definition zoneClass (parent : string) (i : nat) : string := parent +:+ ":" +:+ hexDigits 16 (Z.of_nat i) "".

(** src/simulator/pkg/hwemu/render_powercap.go:75-97 [renderZoneName] *)
Fixpoint renderZoneName (format : string) (args : list Z) : string :=
  match format with
  | "" => ""
  | String "%" (String "d" r) =>
      match args with a :: args => Itoa a +:+ renderZoneName r args | [] => renderZoneName r [] end
  | String "%" (String "%" r) => String "%" (renderZoneName r args)
  | String a r => String a (renderZoneName r args)
  end.

(** [strings.Count(format, "%d")]. *)
Fixpoint countVerbs (format : string) : nat :=
  match format with
  | "" => 0
  | String "%" (String "d" r) => S (countVerbs r)
  | String _ r => countVerbs r
  end.

(** src/simulator/pkg/hwemu/node.go:718-732 [nodeZoneName] *)
Definition nodeZoneName (format : string) (args : list Z) : string :=
  if (countVerbs format =? 0)%nat then format
  else renderZoneName format (take (countVerbs format) (args ++ repeat 0%Z (countVerbs format))).

(** The number a run of digits is; no other text is one. *)
Definition digits (s : string) : option Z := if forallb is_digit (list_ascii_of_string s) then Atoi s else None.

(** src/simulator/pkg/hwemu/layout/layout.go:86-107 [RAPLPackageZone] *)
Definition RAPLPackageZone (name : string) : option (Z * Z) :=
  if negb (HasPrefix name "package-") then None
  else
    let '(s, die, found) := Cut (TrimPrefix name "package-") "-die-" in
    s ← digits s;
    if found : bool then d ← digits die; Some (s, d) else Some (s, (-1)%Z).

(** src/simulator/pkg/hwemu/physics.go:22-29 [nodeRolePackage] *)
Inductive nodeRole := RolePackage | RoleDie | RolePsys | RoleDRAM | RoleCore | RoleOther.
#[export] Instance nodeRole_eq_dec : EqDecision nodeRole.
Proof. solve_decision. Defined.

(** src/simulator/pkg/hwemu/node.go:735-753 [nodeRoleOf] *)
Definition nodeRoleOf (name : string) : nodeRole * Z :=
  match RAPLPackageZone name with
  | Some (s, die) => (if (die <? 0)%Z then RolePackage else RoleDie, s)
  | None =>
      (if String.eqb name "psys" then RolePsys else if String.eqb name "dram" then RoleDRAM
       else if String.eqb name "core" then RoleCore else RoleOther, 0%Z)
  end.

(** src/simulator/pkg/hwemu/physics.go:32-37 [nodePL1] *)
Inductive constraintKind := PL1 | PL2 | PL4 | PLOther.

(** src/simulator/pkg/hwemu/node.go:755-765 [nodeConstraintKind] *)
Definition nodeConstraintKind (name : string) : constraintKind :=
  if String.eqb name "long_term" then PL1 else if String.eqb name "short_term" then PL2
  else if String.eqb name "peak_power" then PL4 else PLOther.

(** ** The state *)

(** A constraint with the files it has; [nc_maxUW] is 0 without a maximum.
    src/simulator/pkg/hwemu/physics.go:51-59 [nodeConstraint] *)
Record nodeConstraint := mkConstraint {
  nc_name : string; nc_kind : constraintKind; nc_limitUW : Z; nc_mask : Z; nc_maxUW : Z; nc_windowUS : Z; nc_rejectWrites : string;
  nc_hasLimit : bool; nc_hasWindow : bool; nc_hasMax : bool
}.

Definition set_limitUW x c := mkConstraint (nc_name c) (nc_kind c) x (nc_mask c) (nc_maxUW c) (nc_windowUS c) (nc_rejectWrites c)
  (nc_hasLimit c) (nc_hasWindow c) (nc_hasMax c).
Definition set_windowUS x c := mkConstraint (nc_name c) (nc_kind c) (nc_limitUW c) (nc_mask c) (nc_maxUW c) x (nc_rejectWrites c)
  (nc_hasLimit c) (nc_hasWindow c) (nc_hasMax c).

(** A zone by its class name, with its text name and the energy used.
    src/simulator/pkg/hwemu/physics.go:100-113 [nodeZone] *)
Record nodeZone := mkZone {
  nz_class : string; nz_name : string; nz_role : nodeRole; nz_socket : Z; nz_enabled : Z; nz_hasEnabled : bool; nz_powerUnitUW : Z;
  nz_counter : nodeCounter; nz_rangeUJ : Z; nz_joules : float64; nz_constraints : list nodeConstraint
}.

Definition set_enabled x z := mkZone (nz_class z) (nz_name z) (nz_role z) (nz_socket z) x (nz_hasEnabled z) (nz_powerUnitUW z)
  (nz_counter z) (nz_rangeUJ z) (nz_joules z) (nz_constraints z).
Definition set_constraints x z := mkZone (nz_class z) (nz_name z) (nz_role z) (nz_socket z) (nz_enabled z) (nz_hasEnabled z) (nz_powerUnitUW z)
  (nz_counter z) (nz_rangeUJ z) (nz_joules z) x.

(** The control types with their enabled switch, and every zone. *)
Record emuPowercap := mkPowercap { pc_types : list (string * Z); pc_zones : list nodeZone }.

(** src/simulator/pkg/hwemu/physics.go:66-70 [nodeLimitMask15, nodeLimitMaskPsys, nodeLimitMaskPL4] *)
Definition nodeLimitMask15 : Z := 0x7fff.
Definition nodeLimitMaskPsys : Z := 0x1ffff.
Definition nodeLimitMaskPL4 : Z := 0x1fff.

(** src/simulator/pkg/hwemu/physics.go:75-85 [nodeLimitMask] *)
Definition nodeLimitMask (role : nodeRole) (kind : constraintKind) (bits : Fact Z) : Z :=
  if given bits && (0 <? fact_V bits)%Z && (fact_V bits <? 63)%Z then (Z.shiftl 1 (fact_V bits) - 1)%Z
  else match kind with
       | PL4 => nodeLimitMaskPL4
       | _ => if bool_decide (role = RolePsys) then nodeLimitMaskPsys else nodeLimitMask15
       end.

(** src/simulator/pkg/hwemu/physics.go:89-94 [enforcedUW] *)
Definition enforcedUW (c : nodeConstraint) : Z :=
  if (0 <? nc_maxUW c)%Z && (nc_maxUW c <? nc_limitUW c)%Z then nc_maxUW c else nc_limitUW c.

(** src/simulator/pkg/hwemu/physics.go:118-120 [enforces] *)
Definition enforces (z : nodeZone) (c : nodeConstraint) : bool := (nz_enabled z =? 1)%Z && negb (String.eqb (nc_rejectWrites c) "disabled").

(** ** What a write comes to *)

(** [u] and the result are a uint64 and an int64 that hold their numbers.
    src/simulator/pkg/hwemu/readback.go:534-543 [nodeRAPLLimitUW] *)
Definition nodeRAPLLimitUW (u unitUW mask : Z) : Z :=
  if (unitUW <=? 0)%Z then Z.min u int64_max
  else
    let raw := (u / unitUW)%Z in
    let raw := if (0 <? mask)%Z then Z.land raw mask else raw in
    (Z.min raw (int64_max / unitUW) * unitUW)%Z.

(** src/simulator/pkg/hwemu/readback.go:503-528 [limitHandler] *)
Definition limitHandler (seeding : bool) (unitUW : Z) (v : string) (c : nodeConstraint) : EventKind * nodeConstraint :=
  match nodeKstrtou v 10 64 with
  | None => (EventParseError, c)
  | Some u =>
      if negb (String.eqb (nc_rejectWrites c) "") then
        if seeding then (EventAccepted, set_limitUW (Z.min u int64_max) c) else (EventRejected, c)
      else
        let c := set_limitUW (nodeRAPLLimitUW u unitUW (nc_mask c)) c in
        let kind := if negb (nc_limitUW c =? u)%Z then EventQuantized else EventAccepted in
        (if negb (enforcedUW c =? nc_limitUW c)%Z then EventClamped else kind, c)
  end.

(** src/simulator/pkg/hwemu/readback.go:549-566 [windowHandler] *)
Definition windowHandler (seeding : bool) (v : string) (c : nodeConstraint) : EventKind * nodeConstraint :=
  match nodeKstrtou v 10 63 with
  | None => (EventParseError, c)
  | Some u =>
      if negb (String.eqb (nc_rejectWrites c) "") && negb seeding then (EventRejected, c)
      else if (u =? 0)%Z then (EventRevertedOutOfRange, c)
      else (EventAccepted, set_windowUS u c)
  end.

(** The new value of a switch, if the write takes.
    src/simulator/pkg/hwemu/readback.go:436-447 [nodeBoolHandler] *)
Definition nodeBoolHandler (v : string) (dst : Z) : EventKind * Z :=
  if String.eqb v "0" then (EventAccepted, 0%Z)
  else if String.eqb v "1" then (EventAccepted, 1%Z)
  else match nodeParseInt v with Some _ => (EventRevertedOutOfRange, dst) | None => (EventParseError, dst) end.

(** ** From a profile to the zones *)

(** A constraint seeded from the files rendered for it.
    src/simulator/pkg/hwemu/node.go:798-819 [c] *)
Definition buildConstraint (role : nodeRole) (bits : Fact Z) (unitUW : Z) (cs : ConstraintSpec) : nodeConstraint :=
  let kind := nodeConstraintKind (cs_Name cs) in
  let hasLimit := given (cs_PowerLimitUW cs) || negb (String.eqb (fact_V (cs_RejectWrites cs)) "") in
  let c := mkConstraint (cs_Name cs) kind (fact_V (cs_PowerLimitUW cs)) (nodeLimitMask role kind bits) (fact_V (cs_MaxPowerUW cs))
    (fact_V (cs_TimeWindowUS cs)) (fact_V (cs_RejectWrites cs)) hasLimit (given (cs_TimeWindowUS cs)) (given (cs_MaxPowerUW cs)) in
  let c := if hasLimit then (limitHandler true unitUW (Itoa (fact_V (cs_PowerLimitUW cs))) c).2 else c in
  if given (cs_TimeWindowUS cs) then (windowHandler true (Itoa (fact_V (cs_TimeWindowUS cs))) c).2 else c.

(** src/simulator/pkg/hwemu/render_powercap.go:120-123 [rangeUJ] *)
Definition zoneRangeUJ (zs : ZoneSpec) : Z :=
  match zs_MaxEnergyRangeUJ zs with Some r => fact_V r | None => MaxEnergyRangeUJ (fact_V (zs_EnergyUnitNJ zs)) end.

(** The profile's unit, or the one its range stands for; a valid profile has
    one of them.
    src/simulator/pkg/hwemu/node.go:784-791 [unit] *)
Definition zoneUnitNJ (zs : ZoneSpec) : Z :=
  if (0 <? fact_V (zs_EnergyUnitNJ zs))%Z then fact_V (zs_EnergyUnitNJ zs)
  else if (0 <? zoneRangeUJ zs)%Z then nodeUnitFromRange (zoneRangeUJ zs)
  else fact_V (zs_EnergyUnitNJ zs).

(** A zone and its children, from the energy each file is seeded with.
    src/simulator/pkg/hwemu/node.go:767-828 [buildZone] *)
Fixpoint buildZone (seedUJ : string -> Z) (class : string) (role : nodeRole) (socket : Z) (name : string) (zs : ZoneSpec) : list nodeZone :=
  mkZone class name role socket (fact_V (zs_Enabled zs)) (given (zs_Enabled zs)) (fact_V (zs_PowerUnitUW zs))
    (nodeNewCounter (zoneUnitNJ zs) (seedUJ class)) (zoneRangeUJ zs) fzero
    (buildConstraint role (zs_LimitBits zs) (fact_V (zs_PowerUnitUW zs)) <$> zs_Constraints zs) ::
  (fix children (j : nat) (l : list ZoneSpec) : list nodeZone :=
     match l with
     | [] => []
     | c :: l =>
         (buildZone seedUJ (zoneClass class j) (nodeRoleOf (nodeZoneName (zs_NameFormat c) [socket])).1 socket
            (renderZoneName (zs_NameFormat c) []) c ++ children (S j) l)%list
     end) 0%nat (zs_Children zs).

(** The copies of a top-level zone: its role, socket and name.
    src/simulator/pkg/hwemu/node.go:651-682 [buildPowercap] *)
Definition zoneInstances (sockets dies : nat) (zs : ZoneSpec) : list (nodeRole * Z * string) :=
  let sockets := Z.of_nat <$> seq 0 sockets in
  if String.eqb (zs_Repeat zs) "per-package" then (fun x => (RolePackage, x, renderZoneName (zs_NameFormat zs) [x])) <$> sockets
  else if String.eqb (zs_Repeat zs) "per-die" then
    concat ((fun x => (fun y => (RoleDie, x, renderZoneName (zs_NameFormat zs) [x; y])) <$> (Z.of_nat <$> seq 0 dies)) <$> sockets)
  else let '(role, socket) := nodeRoleOf (nodeZoneName (zs_NameFormat zs) [0%Z]) in [(role, socket, renderZoneName (zs_NameFormat zs) [])].

(** src/simulator/pkg/hwemu/render_powercap.go:23-53 [renderPowercap] *)
Definition buildPowercap (seedUJ : string -> Z) (sockets dies : nat) (types : list ControlTypeSpec) : emuPowercap :=
  mkPowercap ((fun ct => (ct_Name ct, 1%Z)) <$> types)
    (concat ((fun ct =>
       concat (imap (fun idx '(zs, (role, socket, name)) => buildZone seedUJ (zoneClass (ct_Name ct) idx) role socket name zs)
         (concat ((fun zs => (fun i => (zs, i)) <$> zoneInstances sockets dies zs) <$> ct_Zones ct)))) <$> types)).

(** ** The files *)

Definition line (s : string) : string := s +:+ String newline "".

Definition conFile (i : nat) (name : string) : string := "constraint_" +:+ Itoa (Z.of_nat i) +:+ "_" +:+ name.

(** src/simulator/pkg/hwemu/render_powercap.go:137-149 [entries] *)
Definition constraintEntries (i : nat) (c : nodeConstraint) : list (string * string) :=
  ([(conFile i "name", line (nc_name c))] ++
   (if nc_hasLimit c then [(conFile i "power_limit_uw", line (Itoa (nc_limitUW c)))] else []) ++
   (if nc_hasWindow c then [(conFile i "time_window_us", line (Itoa (nc_windowUS c)))] else []) ++
   (if nc_hasMax c then [(conFile i "max_power_uw", line (Itoa (nc_maxUW c)))] else []))%list.

(** Every file of a zone with what it shows.
    src/simulator/pkg/hwemu/render_powercap.go:109-149 [renderZone] *)
Definition zoneEntries (z : nodeZone) : list (string * string) :=
  ([("name", line (nz_name z))] ++
   (if nz_hasEnabled z then [("enabled", line (Itoa (nz_enabled z)))] else []) ++
   [("energy_uj", line (Itoa (energyUJ (nz_counter z) (nz_joules z)))); ("max_energy_range_uj", line (Itoa (nz_rangeUJ z)))] ++
   concat (imap constraintEntries (nz_constraints z)))%list.

(** src/simulator/pkg/hwemu/render_powercap.go:114-119 [writable] *)
Definition writable (z : nodeZone) : bool := existsb (fun c => String.eqb (nc_rejectWrites c) "") (nz_constraints z).

(** ** Writing, as the kernel answers it *)

Inductive WriteErr := NoData | Invalid | Denied | NoFile.
Definition errText (e : WriteErr) : string :=
  match e with NoData => "no data available" | Invalid => "invalid argument" | Denied => "permission denied" | NoFile => "no such file or directory" end.

(** ENODATA is the errno of every powercap rejection.
    src/simulator/pkg/hwemu/reject.go:138-157 [applyWrite] *)
Definition answer (k : EventKind) : option WriteErr :=
  match k with EventRejected => Some NoData | EventParseError | EventRevertedOutOfRange => Some Invalid | _ => None end.

(** A write to a limit or a window, if the file is one of a constraint. *)
Fixpoint writeConstraint (unitUW : Z) (file v : string) (i : nat) (cs : list nodeConstraint) : option (EventKind * list nodeConstraint) :=
  match cs with
  | [] => None
  | c :: cs =>
      if nc_hasLimit c && String.eqb file (conFile i "power_limit_uw") then let '(k, c) := limitHandler false unitUW v c in Some (k, c :: cs)
      else if nc_hasWindow c && String.eqb file (conFile i "time_window_us") then let '(k, c) := windowHandler false v c in Some (k, c :: cs)
      else '(k, cs) ← writeConstraint unitUW file v (S i) cs; Some (k, c :: cs)
  end.

(** A write of [v], not empty, to a file of a zone: an [enabled] file that no
    constraint makes writable takes it and changes nothing.
    src/simulator/pkg/hwemu/reject.go:98-130 [CheckWrite] *)
Definition zoneWrite (file v : string) (z : nodeZone) : option WriteErr * nodeZone :=
  if negb (str_mem file (fst <$> zoneEntries z)) then (Some NoFile, z)
  else if String.eqb file "enabled" then
    if writable z then let '(k, x) := nodeBoolHandler v (nz_enabled z) in (answer k, set_enabled x z) else (None, z)
  else match writeConstraint (nz_powerUnitUW z) file v 0 (nz_constraints z) with
       | Some (k, cs) => (answer k, set_constraints cs z)
       | None => (Some Denied, z)
       end.

Definition zonePath (z : nodeZone) : string := path_Join PowercapRoot (nz_class z).
Definition typePath (ct : string * Z) : string := path_Join PowercapRoot ct.1.

(** The write reaches the zone whose class entry is the file's directory, or
    the switch of a control type. *)
Definition powercapWrite (path v : string) (s : emuPowercap) : option WriteErr * emuPowercap :=
  let dir := path_Dir path in
  match find (fun z => String.eqb (zonePath z) dir) (pc_zones s) with
  | Some z =>
      let '(err, z') := zoneWrite (path_Base path) (TrimSuffix v (String newline "")) z in
      (err, mkPowercap (pc_types s) ((fun x => if String.eqb (zonePath x) dir then z' else x) <$> pc_zones s))
  | None =>
      match find (fun ct => String.eqb (path_Join (typePath ct) "enabled") path) (pc_types s) with
      | Some ct =>
          let '(k, x) := nodeBoolHandler (TrimSuffix v (String newline "")) ct.2 in
          (answer k, mkPowercap ((fun t => if String.eqb t.1 ct.1 then (t.1, x) else t) <$> pc_types s) (pc_zones s))
      | None => (Some NoFile, s)
      end
  end.

Definition powercapRead (path : string) (s : emuPowercap) : option string :=
  match find (fun z => String.eqb (zonePath z) (path_Dir path)) (pc_zones s) with
  | Some z => snd <$> find (fun e => String.eqb e.1 (path_Base path)) (zoneEntries z)
  | None => (fun ct => line (Itoa ct.2)) <$> find (fun ct => String.eqb (path_Join (typePath ct) "enabled") path) (pc_types s)
  end.

Definition zonePaths (z : nodeZone) : list string := zonePath z :: ((fun e => path_Join (zonePath z) e.1) <$> zoneEntries z).

(** The node as the agent's host: the class entries, through which the agent
    finds every zone. *)
#[export] Instance emuPowercapFS : HostFS emuPowercap := {
  fs_read := powercapRead;
  fs_write path v s :=
    let '(err, s) := powercapWrite path v s in ((fun e => "write " +:+ path +:+ ": " +:+ errText e) <$> err, s);
  fs_walk s :=
    (PowercapRoot :: concat ((fun ct => [typePath ct; path_Join (typePath ct) "enabled"]) <$> pc_types s) ++
     concat (zonePaths <$> pc_zones s))%list;
  fs_resolve path _ := Some path;
  fs_readlink _ _ := None
}.

(** ** Numbers and names *)

Lemma TrimSpace_line s : plain s -> s <> "" -> TrimSpace (line s) = s.
Proof.
  intros Hp Hne. unfold TrimSpace, line. rewrite list_ascii_app. cbn [list_ascii_of_string].
  assert (exists a l, list_ascii_of_string s = a :: l) as (a & l & E).
  { destruct s as [|a s]; [done|]. by eexists _, _. }
  assert (forall ps x m, Forall (fun p => match p with b :: _ => (b < 33 \/ 128 <= b)%N | [] => False end) ps -> plain_char x ->
    strip_any ps (x :: m) = None) as Hs.
  { intros ps x m Hps Hx. induction Hps as [|p ps Hb _ IH]; [done|]. cbn [strip_any]. destruct p as [|b p]; [done|]. cbn [strip_prefix].
    unfold plain_char in Hx. destruct (N.eqb_spec (byte_of x) b); [lia|exact IH]. }
  unfold plain in Hp. assert (plain_char a) as Ha by (rewrite E in Hp; by apply Forall_cons in Hp as [? _]).
  unfold trim_left_bytes. rewrite E. cbn [app length trim_with]. rewrite Hs; [|repeat (constructor; [cbn; lia|]); constructor|done].
  rewrite app_comm_cons, <- E. unfold trim_right_bytes. rewrite rev_app_distr. cbn [rev app].
  rewrite length_app, Nat.add_comm. cbn [length Nat.add trim_with].
  assert (strip_any (map (@rev N) space_prefixes) (newline :: rev (list_ascii_of_string s)) = Some (rev (list_ascii_of_string s))) as -> by reflexivity.
  rewrite trim_with_plain; [by rewrite rev_involutive, string_of_list_ascii_of_string| |by apply List.Forall_rev].
  repeat (constructor; [cbn; lia|]). constructor.
Qed.

Lemma parseDigits_uint d v : (0 <= v)%Z ->
  fold_left (fun acc a => v ← acc; x ← digitOf a; if (x <? 10)%Z then Some (v * 10 + x)%Z else None)
    (list_ascii_of_string (NilEmpty.string_of_uint d)) (Some v) = Some (uval d v).
Proof.
  revert v. induction d as [|d IH|d IH|d IH|d IH|d IH|d IH|d IH|d IH|d IH|d IH]; intros v Hv; [done|..];
    cbn [NilEmpty.string_of_uint list_ascii_of_string fold_left uval];
    match goal with |- context [digitOf ?a] => let x := eval vm_compute in (digitOf a) in change (digitOf a) with x end;
    cbn [mbind option_bind]; rewrite Z.mul_comm, ?Z.add_0_r; apply IH; lia.
Qed.

Lemma nodeKstrtou_Itoa n bits : (0 <= n < 2 ^ bits)%Z -> nodeKstrtou (Itoa n) 10 bits = Some n.
Proof.
  intros Hn. unfold nodeKstrtou. assert (TrimPrefix (Itoa n) "+" = Itoa n) as ->.
  { destruct (digit_head (Itoa n) (Itoa_digits n ltac:(lia)) (Itoa_nonempty n)) as (a & r & -> & Ha).
    unfold TrimPrefix, HasPrefix. cbn [String.prefix]. destruct (ascii_dec "+" a) as [<-|]; done. }
  change (10 =? 0)%Z with false. cbv iota. unfold parseDigits. destruct (Itoa_uval n ltac:(lia)) as (d & Ed & Hne & Hv).
  rewrite Ed. pose proof (parseDigits_uint d 0 ltac:(lia)) as Hd. destruct (list_ascii_of_string (NilEmpty.string_of_uint d)) as [|a l] eqn:El.
  { by destruct (Itoa n). }
  rewrite Hd, Hv. cbn. by destruct (Z.ltb_spec n (2 ^ bits)); [|lia].
Qed.

Lemma digits_split (l1 l2 r1 r2 : list ascii) (b : ascii) : Forall (fun a => is_digit a = true) l1 -> Forall (fun a => is_digit a = true) l2 ->
  is_digit b = false -> (l1 ++ b :: r1 = l2 ++ b :: r2)%list -> l1 = l2 /\ r1 = r2.
Proof.
  intros H1. revert l2. induction H1 as [|a l1 Ha _ IH]; intros l2 H2 Hb E.
  - destruct H2 as [|c l2 Hc _]; [by injection E|]. cbn in E. injection E as -> _. congruence.
  - destruct H2 as [|c l2 Hc H2]; cbn in E; injection E as -> E; [congruence|]. by destruct (IH l2 H2 Hb E) as [-> ->].
Qed.

Lemma conFile_inj i j a b : conFile i a = conFile j b -> i = j /\ a = b.
Proof.
  unfold conFile. intros E%app_string_inj_l. apply (f_equal list_ascii_of_string) in E. rewrite !list_ascii_app in E.
  cbn [list_ascii_of_string app] in E. change (String "_" "" +:+ a) with (String "_" a) in E. change (String "_" "" +:+ b) with (String "_" b) in E.
  cbn [list_ascii_of_string] in E. apply digits_split in E as [E1 E2]; [|by apply Itoa_digits; lia..|done].
  apply list_ascii_inj in E1. split; [|by apply list_ascii_inj].
  pose proof (Z.pow_gt_lin_r 2 (Z.of_nat i + Z.of_nat j)) as Hp.
  pose proof (nodeKstrtou_Itoa (Z.of_nat i) (Z.of_nat i + Z.of_nat j) ltac:(lia)) as Hi.
  pose proof (nodeKstrtou_Itoa (Z.of_nat j) (Z.of_nat i + Z.of_nat j) ltac:(lia)) as Hj.
  rewrite E1, Hj in Hi. injection Hi. lia.
Qed.

(** ** A limit that fits its register *)

(** A constraint whose register field is some number of ones and whose
    maximum, if it has one, is a positive number of microwatts. *)
Record okConstraint (c : nodeConstraint) : Prop := {
  oc_mask : exists k, (0 <= k)%Z /\ nc_mask c = Z.ones k;
  oc_max : (0 <= nc_maxUW c <= int64_max)%Z;
  oc_noMax : nc_hasMax c = false -> nc_maxUW c = 0%Z
}.

Record wfZone (z : nodeZone) : Prop := {
  wz_class : noSlash (nz_class z) /\ nz_class z <> "";
  wz_name : plain (nz_name z) /\ nz_name z <> "";
  wz_constraints : Forall okConstraint (nz_constraints z)
}.

Record wfPowercap (s : emuPowercap) : Prop := {
  wp_zones : Forall wfZone (pc_zones s);
  wp_types : Forall (fun ct => ct.1 ∈ ["intel-rapl"; "intel-rapl-mmio"]) (pc_types s);
  wp_distinct : NoDup ((fst <$> pc_types s) ++ (nz_class <$> pc_zones s))
}.

Lemma nodeLimitMask_ones role kind bits : exists k, (0 <= k)%Z /\ nodeLimitMask role kind bits = Z.ones k.
Proof.
  unfold nodeLimitMask. destruct (given bits && (0 <? fact_V bits)%Z && (fact_V bits <? 63)%Z) eqn:E.
  { exists (fact_V bits). split; [lia|]. by rewrite Z.ones_equiv, Z.shiftl_1_l, Z.sub_1_r. }
  destruct kind; [destruct (bool_decide _)|destruct (bool_decide _)| |destruct (bool_decide _)];
    first [by exists 17%Z|by exists 15%Z|by exists 13%Z].
Qed.

(** The cap wanted of a package: at most its maximum. *)
Definition capWanted (uw : Z) (c : nodeConstraint) : Z := if (0 <? nc_maxUW c)%Z then Z.min uw (nc_maxUW c) else uw.

(** A limit that fits the register's field is kept but for less than one
    unit. *)
Lemma nodeRAPLLimitUW_fits u unitUW k : (0 <= u <= int64_max)%Z -> (0 < unitUW)%Z -> (0 <= k)%Z -> (u / unitUW < 2 ^ k)%Z ->
  let l := nodeRAPLLimitUW u unitUW (Z.ones k) in l = (u / unitUW * unitUW)%Z /\ (u - unitUW < l <= u)%Z.
Proof.
  intros Hu Hn Hk Hf. cbv zeta. pose proof (Z.div_mod u unitUW ltac:(lia)) as Hdm. pose proof (Z.mod_pos_bound u unitUW Hn) as Hm.
  assert (nodeRAPLLimitUW u unitUW (Z.ones k) = u / unitUW * unitUW)%Z as ->; [|split; [done|nia]].
  unfold nodeRAPLLimitUW. destruct (Z.leb_spec unitUW 0); [lia|].
  assert (0 <= u / unitUW)%Z by (apply Z.div_pos; lia).
  assert ((if 0 <? Z.ones k then Z.land (u / unitUW) (Z.ones k) else u / unitUW) = u / unitUW)%Z as ->.
  { destruct (0 <? Z.ones k)%Z; [|done]. rewrite Z.land_ones by done. by apply Z.mod_small. }
  f_equal. apply Z.min_l. by apply Z.div_le_mono; lia.
Qed.

(** ** One package under a write of its limit *)

Definition takesLimit (c : nodeConstraint) : bool := nc_hasLimit c && String.eqb (nc_rejectWrites c) "".

(** The first constraint of a zone, whose limit the agent writes, under a
    number of microwatts. *)
Definition capLimit (unitUW u : Z) (c : nodeConstraint) : nodeConstraint :=
  if takesLimit c then set_limitUW (nodeRAPLLimitUW u unitUW (nc_mask c)) c else c.

Definition isPackage (z : nodeZone) : bool := HasPrefix (nz_name z) "package-".
Definition hasLimit (z : nodeZone) : bool := match nz_constraints z with c :: _ => nc_hasLimit c | [] => false end.
Definition takesCap (z : nodeZone) : bool := match nz_constraints z with c :: _ => takesLimit c | [] => false end.

Definition capZone (uw : Z) (z : nodeZone) : nodeZone :=
  match nz_constraints z with
  | c :: cs => set_constraints (capLimit (nz_powerUnitUW z) (capWanted uw c) c :: cs) z
  | [] => z
  end.

Lemma conFile_limit : conFile 0 "power_limit_uw" = limitName.
Proof. reflexivity. Qed.

Lemma conFile_max : conFile 0 "max_power_uw" = maxName.
Proof. reflexivity. Qed.

(** What a file shows among entries. *)
Definition shown (f : string) (l : list (string * string)) : option string := snd <$> find (fun e => String.eqb e.1 f) l.

Lemma shown_app f l1 l2 : shown f (l1 ++ l2) = match shown f l1 with Some v => Some v | None => shown f l2 end.
Proof. unfold shown. induction l1 as [|e l1 IH]; [done|]. cbn [app find]. by destruct (String.eqb e.1 f). Qed.

Lemma shown_none f l : Forall (fun e => e.1 <> f) l -> shown f l = None.
Proof. unfold shown. induction 1 as [|e l He _ IH]; [done|]. cbn [find]. by rewrite (proj2 (String.eqb_neq _ _) He). Qed.

Lemma shown_mem f l : str_mem f (fst <$> l) = bool_decide (is_Some (shown f l)).
Proof.
  unfold shown, str_mem. induction l as [|e l IH]; [done|]. cbn [fmap list_fmap existsb find]. rewrite String.eqb_sym.
  destruct (String.eqb e.1 f); [done|exact IH].
Qed.

Lemma constraintEntries_names i c : Forall (fun e => exists n, e.1 = conFile i n) (constraintEntries i c).
Proof.
  unfold constraintEntries. rewrite !Forall_app. split; [by constructor; [eexists|]|].
  split; [|split]; case_match; constructor; try constructor; by eexists.
Qed.

Lemma shown_others n i cs : (0 < i)%nat -> shown (conFile 0 n) (concat (imap (fun j => constraintEntries (i + j)) cs)) = None.
Proof.
  intros Hi. apply shown_none. revert i Hi. induction cs as [|c cs IH]; intros i Hi; cbn [imap concat]; [constructor|].
  apply Forall_app. split.
  - eapply Forall_impl; [apply constraintEntries_names|]. intros e [m ->] [E _]%conFile_inj. lia.
  - rewrite (imap_ext _ (fun j => constraintEntries (S i + j)) cs); [apply IH; lia|]. intros j c' _. unfold compose. by rewrite Nat.add_succ_r.
Qed.

Lemma shown_first (c : nodeConstraint) :
  shown limitName (constraintEntries 0 c) = (if nc_hasLimit c then Some (line (Itoa (nc_limitUW c))) else None) /\
  shown maxName (constraintEntries 0 c) = (if nc_hasMax c then Some (line (Itoa (nc_maxUW c))) else None).
Proof.
  unfold constraintEntries. generalize (line (nc_name c)), (line (Itoa (nc_limitUW c))), (line (Itoa (nc_windowUS c))), (line (Itoa (nc_maxUW c))).
  intros a b d e. destruct (nc_hasLimit c), (nc_hasWindow c), (nc_hasMax c); split; reflexivity.
Qed.

(** The files the agent's cap reads and writes. *)
Lemma zone_shows z : shown "name" (zoneEntries z) = Some (line (nz_name z)) /\
  shown limitName (zoneEntries z) = match nz_constraints z with c :: _ => if nc_hasLimit c then Some (line (Itoa (nc_limitUW c))) else None | [] => None end /\
  shown maxName (zoneEntries z) = match nz_constraints z with c :: _ => if nc_hasMax c then Some (line (Itoa (nc_maxUW c))) else None | [] => None end.
Proof.
  split; [done|]. unfold zoneEntries.
  generalize (line (nz_name z)), (line (Itoa (nz_enabled z))), (line (Itoa (energyUJ (nz_counter z) (nz_joules z)))), (line (Itoa (nz_rangeUJ z))).
  intros a b d e. assert (forall f l, f = limitName \/ f = maxName ->
    shown f ([("name", a)] ++ (if nz_hasEnabled z then [("enabled", b)] else []) ++ [("energy_uj", d); ("max_energy_range_uj", e)] ++ l)%list = shown f l) as Hs.
  { intros f l Hf. rewrite !app_assoc, shown_app. assert (shown f (([("name", a)] ++ (if nz_hasEnabled z then [("enabled", b)] else [])) ++
      [("energy_uj", d); ("max_energy_range_uj", e)])%list = None) as ->; [|done].
    destruct Hf as [-> | ->]; by destruct (nz_hasEnabled z). }
  rewrite !Hs by auto. destruct (nz_constraints z) as [|c cs]; [done|]. cbn [imap concat]. rewrite !shown_app.
  destruct (shown_first c) as [-> ->].
  pose proof (shown_others "power_limit_uw" 1 cs ltac:(lia)) as H1. pose proof (shown_others "max_power_uw" 1 cs ltac:(lia)) as H2.
  rewrite conFile_limit in H1. rewrite conFile_max in H2.
  split; [destruct (nc_hasLimit c)|destruct (nc_hasMax c)]; done.
Qed.

(** A write to the limit file of a zone. *)
Lemma zoneWrite_limit z u : (0 <= u <= int64_max)%Z -> hasLimit z = true ->
  exists k z', zoneWrite limitName (Itoa u) z = (answer k, z') /\ (answer k = None <-> takesCap z = true) /\
    match nz_constraints z with
    | c :: cs => z' = if takesCap z then set_constraints (capLimit (nz_powerUnitUW z) u c :: cs) z else z
    | [] => z' = z
    end.
Proof.
  intros Hu Hl. unfold zoneWrite. rewrite shown_mem. destruct (zone_shows z) as (_ & -> & _). unfold hasLimit, takesCap in *.
  destruct (nz_constraints z) as [|c cs] eqn:Ec; [done|]. rewrite Hl. cbn [negb bool_decide]. rewrite bool_decide_true by done. cbn [negb].
  change (String.eqb limitName "enabled") with false. cbv iota. cbn [writeConstraint]. rewrite Hl, conFile_limit, String.eqb_refl. cbn [andb].
  unfold limitHandler. rewrite nodeKstrtou_Itoa by (unfold int64_max in Hu; lia). unfold capLimit, takesLimit. rewrite Hl. cbn [andb].
  destruct (String.eqb (nc_rejectWrites c) ""); cbn [negb].
  - eexists _, _. split; [reflexivity|]. split; [|done]. split; [done|]. intros _. by repeat case_match.
  - eexists EventRejected, _. split; [reflexivity|]. split; [by split|]. rewrite <- Ec. by destruct z.
Qed.

(** ** The node as the agent's host *)

Definition limitPath (z : nodeZone) : string := path_Join (zonePath z) limitName.

Lemma path_Join_inj d a b : path_Join d a = path_Join d b -> a = b.
Proof. unfold path_Join. intros E%app_string_inj_l. by apply app_string_inj_l in E. Qed.

Lemma zonePath_nonempty z : zonePath z <> "".
Proof. done. Qed.

Lemma zones_distinct s : wfPowercap s -> NoDup (nz_class <$> pc_zones s).
Proof. intros [_ _ H]. by apply NoDup_app in H as (_ & _ & H). Qed.

Lemma class_inj s x z : wfPowercap s -> x ∈ pc_zones s -> z ∈ pc_zones s -> nz_class x = nz_class z -> x = z.
Proof.
  intros W%zones_distinct Hx Hz E. apply list_elem_of_lookup in Hx as [i Hi], Hz as [j Hj].
  assert (i = j) as ->; [|congruence]. eapply NoDup_lookup; [exact W|rewrite list_lookup_fmap, Hi; reflexivity|]. rewrite list_lookup_fmap, Hj. cbn. by rewrite E.
Qed.

Lemma find_zone s z : wfPowercap s -> z ∈ pc_zones s -> find (fun x => String.eqb (zonePath x) (zonePath z)) (pc_zones s) = Some z.
Proof.
  intros W Hz. destruct (find _ _) as [x|] eqn:E.
  - apply find_some in E as [Hx%list_elem_of_In E%String.eqb_eq]. f_equal. apply (class_inj s); [done..|]. by apply path_Join_inj in E.
  - pose proof (find_none _ _ E z (proj1 (list_elem_of_In _ _) Hz)) as H. cbn in H. by rewrite String.eqb_refl in H.
Qed.

Lemma read_zone s z f : wfPowercap s -> z ∈ pc_zones s -> noSlash f -> f <> "" -> fs_read (path_Join (zonePath z) f) s = shown f (zoneEntries z).
Proof.
  intros W Hz Hf Hne. cbn [fs_read emuPowercapFS]. unfold powercapRead. rewrite path_Dir_join, path_Base_join by done.
  by rewrite find_zone.
Qed.

Lemma limitName_noSlash : noSlash limitName /\ noSlash maxName.
Proof. split; repeat constructor. Qed.

Lemma plain_readInt n : (0 <= n <= int64_max)%Z -> Atoi (TrimSpace (line (Itoa n))) = Some n.
Proof.
  intros Hn. rewrite TrimSpace_line by (apply plain_Itoa || apply Itoa_nonempty). apply Atoi_Itoa. unfold in_int64, int64_min, int64_max in *. lia.
Qed.

(** What the agent asks of a package. *)
Lemma packageCap_wanted s z c cs uw : wfPowercap s -> z ∈ pc_zones s -> nz_constraints z = c :: cs ->
  packageCap uw (limitPath z) s = capWanted uw c.
Proof.
  intros W Hz Ec. pose proof (proj1 (Forall_forall _ _) (wp_zones s W) z Hz) as Wz.
  pose proof (wz_constraints z Wz) as Hc. rewrite Ec in Hc. apply Forall_cons in Hc as [[_ Hm Hn] _].
  unfold packageCap, limitPath. rewrite raplConstraintMaxUW_cap by done. unfold readInt64.
  rewrite read_zone by (done || apply limitName_noSlash). destruct (zone_shows z) as (_ & _ & ->). rewrite Ec. unfold capWanted.
  destruct (nc_hasMax c) eqn:E.
  - cbn [mbind option_bind]. rewrite plain_readInt by done. cbn [mbind option_bind].
    destruct (Z.leb_spec (nc_maxUW c) 0), (Z.ltb_spec 0 (nc_maxUW c)); try lia.
    destruct (Z.ltb_spec (nc_maxUW c) uw); lia.
  - rewrite (Hn eq_refl). done.
Qed.

Lemma capWanted_range uw c : (0 <= uw <= int64_max)%Z -> (0 <= nc_maxUW c)%Z -> (0 <= capWanted uw c <= int64_max)%Z.
Proof. unfold capWanted. intros. destruct (0 <? nc_maxUW c)%Z; lia. Qed.

(** The node after the packages of some zones were capped. *)
Definition capAll (uw : Z) (zs : list nodeZone) (s : emuPowercap) : emuPowercap :=
  mkPowercap (pc_types s) ((fun z => if decide (nz_class z ∈ nz_class <$> zs) then capZone uw z else z) <$> pc_zones s).

Lemma capZone_class uw z : nz_class (capZone uw z) = nz_class z.
Proof. unfold capZone. by destruct (nz_constraints z). Qed.

Lemma capZone_wf uw z : wfZone z -> wfZone (capZone uw z).
Proof.
  intros [W1 W2 W3]. unfold capZone. destruct (nz_constraints z) as [|c cs] eqn:E; [by split; rewrite ?E|].
  split; [done..|]. cbn [nz_constraints set_constraints]. apply Forall_cons in W3 as [Hc Hcs]. constructor; [|done].
  unfold capLimit. destruct (takesLimit c); [|done]. by destruct Hc as [? ? ?].
Qed.

Lemma capAll_wf uw zs s : wfPowercap s -> wfPowercap (capAll uw zs s).
Proof.
  intros [W1 W2 W3]. split; cbn [pc_zones pc_types capAll]; [|done|].
  - apply Forall_fmap. eapply Forall_impl; [exact W1|]. intros z Hz. unfold compose. case_decide; [by apply capZone_wf|done].
  - rewrite <- list_fmap_compose. rewrite (list_fmap_ext (nz_class ∘ _) nz_class (pc_zones s)); [done|].
    intros i z _. unfold compose. case_decide; [apply capZone_class|done].
Qed.

Lemma write_limit s z u : wfPowercap s -> z ∈ pc_zones s -> hasLimit z = true -> (0 <= u <= int64_max)%Z ->
  exists err, powercapWrite (limitPath z) (Itoa u) s = (err, mkPowercap (pc_types s)
      ((fun x => if decide (nz_class x = nz_class z) then
         match nz_constraints x with c :: cs => if takesCap x then set_constraints (capLimit (nz_powerUnitUW x) u c :: cs) x else x | [] => x end
       else x) <$> pc_zones s)) /\
    (err = None <-> takesCap z = true).
Proof.
  intros W Hz Hl Hu. unfold powercapWrite, limitPath. rewrite path_Dir_join, path_Base_join by (done || apply limitName_noSlash).
  rewrite find_zone by done. rewrite TrimSuffix_newline by apply plain_Itoa.
  destruct (zoneWrite_limit z u Hu Hl) as (k & z' & -> & Hk & Hz'). exists (answer k). split; [|done]. do 2 f_equal.
  apply list_fmap_ext. intros i x Hx. apply list_elem_of_lookup_2 in Hx. case_decide as Hd.
  - assert (x = z) as -> by (by apply (class_inj s)). rewrite String.eqb_refl. by destruct (nz_constraints z).
  - rewrite (proj2 (String.eqb_neq _ _)); [done|]. by intros E%path_Join_inj.
Qed.

Lemma capPackages_emulated uw zs s : wfPowercap s -> (0 <= uw <= int64_max)%Z -> NoDup (nz_class <$> zs) ->
  Forall (fun z => z ∈ pc_zones s /\ hasLimit z = true) zs ->
  exists failures, capPackages uw (limitPath <$> zs) s = (length (filter (fun z => takesCap z = true) zs), failures, capAll uw zs s).
Proof.
  intros W Hu. revert s W. induction zs as [|z zs IH]; intros s W Hnd Hin.
  { exists []. cbn [fmap list_fmap capPackages filter list_filter length]. do 2 f_equal. unfold capAll. destruct s as [ts ps]. cbn [pc_types pc_zones]. f_equal.
    rewrite <- (list_fmap_id ps) at 1. apply list_fmap_ext. intros i x _. cbn. by rewrite decide_False by apply not_elem_of_nil. }
  cbn [fmap list_fmap capPackages]. apply NoDup_cons in Hnd as [Hnz Hnd]. apply Forall_cons in Hin as [[Hz Hl] Hin].
  assert (exists c cs, nz_constraints z = c :: cs) as (c & cs & Ec) by (unfold hasLimit in Hl; destruct (nz_constraints z); [done|by eexists _, _]).
  assert (0 <= nc_maxUW c)%Z as Hm.
  { pose proof (proj1 (Forall_forall _ _) (wp_zones s W) z Hz) as [_ _ Hc]. rewrite Ec in Hc. apply Forall_cons in Hc as [[_ H _] _]. lia. }
  rewrite (packageCap_wanted s z c cs uw W Hz Ec).
  destruct (write_limit s z (capWanted uw c) W Hz Hl (capWanted_range uw c Hu Hm)) as (err & Ew & Herr).
  cbn [fs_write emuPowercapFS]. rewrite Ew. set (s1 := mkPowercap (pc_types s) _).
  assert (s1 = capAll uw [z] s) as E1.
  { unfold s1, capAll. f_equal. apply list_fmap_ext. intros i x Hx. apply list_elem_of_lookup_2 in Hx. cbn [fmap list_fmap].
    case_decide as Hd; [|by rewrite decide_False by (by intros ?%list_elem_of_singleton)].
    assert (x = z) as -> by (by apply (class_inj s)). rewrite decide_True by (by left). unfold capZone. rewrite Ec.
    destruct (takesCap z) eqn:Et; [done|]. unfold capLimit. unfold takesCap in Et. rewrite Ec in Et. rewrite Et. rewrite <- Ec. by destruct z. }
  destruct (IH s1) as (failures & EI); [rewrite E1; by apply capAll_wf|done| |].
  { apply Forall_forall. intros x Hx. pose proof (proj1 (Forall_forall _ _) Hin x Hx) as [Hxs Hxl]. split; [|done].
    rewrite E1. apply list_elem_of_fmap. exists x. rewrite decide_False; [done|]. cbn. intros Hc%list_elem_of_singleton.
    apply Hnz, list_elem_of_fmap. by exists x. }
  assert (capAll uw zs s1 = capAll uw (z :: zs) s) as E2.
  { rewrite E1. unfold capAll. cbn [pc_types pc_zones]. f_equal. rewrite <- list_fmap_compose. apply list_fmap_ext.
    intros i x _. unfold compose. cbn [fmap list_fmap]. destruct (decide (nz_class x ∈ [nz_class z])) as [Hx|Hx].
    - pose proof Hx as Ex. apply list_elem_of_singleton in Ex. rewrite capZone_class, Ex, decide_False, decide_True by (done || by left). done.
    - destruct (decide (nz_class x ∈ nz_class <$> zs)) as [Hy|Hy]; [by rewrite decide_True by (by right)|].
      rewrite decide_False; [done|]. intros [Ex|]%elem_of_cons; [|done]. apply Hx. rewrite Ex. by left. }
  rewrite E2 in EI. rewrite filter_cons. destruct err as [e|]; cbn [fmap option_fmap option_map]; rewrite EI.
  - eexists. rewrite decide_False; [reflexivity|]. intros Ht. by apply Herr in Ht.
  - eexists. rewrite decide_True by (by apply Herr). reflexivity.
Qed.

(** ** The packages the agent finds *)

Lemma globMatch_prefix l pat s : Forall (fun a => Ascii.eqb a "*" = false) l -> globMatch (l ++ pat) (l ++ s) = globMatch pat s.
Proof. induction 1 as [|a l Ha _ IH]; [done|]. cbn [app globMatch]. by rewrite Ha, Ascii.eqb_refl, IH. Qed.

Lemma globMatch_star s : globMatch ["*"%char] s = forallb (fun a => negb (is_slash a)) s.
Proof.
  cbn [globMatch]. rewrite Ascii.eqb_refl. induction s as [|a s IH]; [done|]. cbn [forallb]. rewrite <- IH. unfold is_slash. by rewrite Ascii.eqb_sym.
Qed.

(** The entries of the class directory, and nothing below them. *)
Definition classEntry (path : string) : Prop := globMatch (list_ascii_of_string (PowercapRoot +:+ "/*")) (list_ascii_of_string path) = true.

Lemma classEntry_join x : classEntry (path_Join PowercapRoot x) <-> noSlash x.
Proof.
  unfold classEntry, path_Join. change (PowercapRoot +:+ "/*") with ((PowercapRoot +:+ "/") +:+ "*").
  change (PowercapRoot +:+ "/" +:+ x) with ((PowercapRoot +:+ "/") +:+ x). rewrite !list_ascii_app.
  rewrite globMatch_prefix by (repeat (constructor; [reflexivity|]); constructor).
  change (list_ascii_of_string "*") with ["*"%char]. rewrite globMatch_star. unfold noSlash. rewrite forallb_forall, Forall_forall.
  split; intros Hx a Ha; specialize (Hx a); [apply list_elem_of_In in Ha|apply list_elem_of_In in Ha]; specialize (Hx Ha); by destruct (is_slash a).
Qed.

Lemma file_not_entry d f : ~ classEntry (path_Join (path_Join PowercapRoot d) f).
Proof.
  assert (path_Join (path_Join PowercapRoot d) f = path_Join PowercapRoot (path_Join d f)) as ->.
  { unfold path_Join. by rewrite !app_assoc_string. }
  rewrite classEntry_join. unfold noSlash, path_Join. rewrite list_ascii_app. intros [_ H]%Forall_app. by apply Forall_cons in H as [? _].
Qed.

(** No element passes. *)
Lemma filter_nil {A} (P : A -> Prop) `{!forall x, Decision (P x)} l : Forall (fun x => ~ P x) l -> filter P l = [].
Proof. induction 1 as [|x l Hx _ IH]; [done|]. by rewrite filter_cons, decide_False. Qed.

Definition named {H} `{!HostFS H} (h : H) (dir : string) : bool :=
  match fs_read (path_Join dir "name") h with Some raw => HasPrefix (TrimSpace raw) "package-" | None => false end.
Definition hasName {H} `{!HostFS H} (h : H) (dir : string) : bool := bool_decide (is_Some (fs_read (path_Join dir "name") h)).

Lemma scan_named {H} `{!HostFS H} (h : H) entries n f sw : exists f',
  foldl (scanZone h) (n, f, sw) entries = ((n ++ filter (fun d => named h d = true) entries)%list, f', sw || existsb (hasName h) entries).
Proof.
  revert n f sw. induction entries as [|d entries IH]; intros n f sw; cbn [foldl existsb].
  { exists f. by rewrite app_nil_r, orb_false_r. }
  assert (exists f1, scanZone h (n, f, sw) d = ((n ++ if named h d then [d] else [])%list, f1, sw || hasName h d)) as [f1 ->].
  { unfold scanZone, named, hasName. destruct (fs_read _ h) as [raw|]; [|eexists; by rewrite app_nil_r, orb_false_r].
    eexists. rewrite bool_decide_true by done. rewrite orb_true_r. by destruct (HasPrefix _ _); rewrite ?app_nil_r. }
  destruct (IH (n ++ if named h d then [d] else [])%list f1 (sw || hasName h d)) as [f' ->]. exists f'.
  rewrite filter_cons, <- app_assoc, orb_assoc. by destruct (named h d).
Qed.

Definition packages (s : emuPowercap) : list nodeZone := filter (fun z => isPackage z = true) (pc_zones s).

Lemma conFile_noSlash i n : noSlash n -> noSlash (conFile i n).
Proof.
  intros Hn. unfold noSlash, conFile. rewrite !list_ascii_app. apply Forall_app. split; [repeat constructor|]. apply Forall_app. split.
  - eapply Forall_impl; [apply (Itoa_digits (Z.of_nat i)); lia|]. intros a Ha. unfold is_digit, is_slash in *. destruct (Ascii.eqb_spec a "/") as [->|]; [done|done].
  - cbn. constructor; [done|exact Hn].
Qed.

Lemma entries_noSlash z : Forall (fun e => noSlash e.1) (zoneEntries z).
Proof.
  unfold zoneEntries. rewrite !Forall_app. split; [by repeat constructor|]. split; [destruct (nz_hasEnabled z); by repeat constructor|].
  split; [by repeat constructor|]. apply Forall_concat, Forall_forall. intros l Hl. apply elem_of_lookup_imap in Hl as (i & c & -> & _).
  assert (forall n v (b : bool), noSlash n -> Forall (fun e : string * string => noSlash e.1) (if b then [(conFile i n, v)] else [])) as Hn.
  { intros n v b Hn. destruct b; [|apply Forall_nil; done]. apply Forall_singleton. by apply conFile_noSlash. }
  unfold constraintEntries. rewrite !Forall_app.
  split; [apply (Hn "name" _ true)|split; [|split]; apply Hn]; repeat constructor.
Qed.

Lemma type_ok s ct : wfPowercap s -> ct ∈ pc_types s -> noSlash ct.1 /\ CountByte ct.1 ":" = 0%nat.
Proof.
  intros W Hct. pose proof (proj1 (Forall_forall _ _) (wp_types s W) ct Hct) as H.
  apply elem_of_cons in H as [-> | H%list_elem_of_singleton]; [|rewrite H]; (split; [repeat constructor|reflexivity]).
Qed.

Lemma type_not_zone s ct z : wfPowercap s -> ct ∈ pc_types s -> z ∈ pc_zones s -> nz_class z <> ct.1.
Proof.
  intros [_ _ W] Hct Hz E. apply NoDup_app in W as (_ & W & _). apply (W ct.1); [by apply list_elem_of_fmap; exists ct|].
  rewrite <- E. by apply list_elem_of_fmap; exists z.
Qed.

Lemma type_unnamed s ct : wfPowercap s -> ct ∈ pc_types s -> fs_read (path_Join (typePath ct) "name") s = None.
Proof.
  intros W Hct. cbn [fs_read emuPowercapFS]. unfold powercapRead. rewrite path_Dir_join by (done || by repeat constructor).
  destruct (find _ _) as [z|] eqn:E.
  { apply find_some in E as [Hz%list_elem_of_In E%String.eqb_eq]. apply path_Join_inj in E. by apply (type_not_zone s ct z W) in Hct. }
  destruct (find _ (pc_types s)) as [t|] eqn:Et; [|done]. apply find_some in Et as [_ Et%String.eqb_eq].
  apply (f_equal path_Base) in Et. rewrite !path_Base_join in Et; [done|done|repeat constructor|done|repeat constructor].
Qed.

Lemma zone_named s z : wfPowercap s -> z ∈ pc_zones s -> named s (zonePath z) = isPackage z /\ hasName s (zonePath z) = true.
Proof.
  intros W Hz. unfold named, hasName. rewrite read_zone by (done || by repeat constructor). destruct (zone_shows z) as (-> & _).
  destruct (wz_name z (proj1 (Forall_forall _ _) (wp_zones s W) z Hz)). by rewrite TrimSpace_line.
Qed.

(** The class entries of the tree. *)
Lemma entries_classes s : wfPowercap s ->
  filter classEntry (fs_walk s) = ((typePath <$> pc_types s) ++ (zonePath <$> pc_zones s))%list.
Proof.
  intros W. cbn [fs_walk emuPowercapFS]. rewrite filter_cons, decide_False by (unfold classEntry; vm_compute; discriminate).
  rewrite filter_app. f_equal.
  - pose proof (fun ct => type_ok s ct W) as Ht. induction (pc_types s) as [|ct l IH]; [done|]. cbn [fmap list_fmap concat].
    rewrite filter_app, IH by (intros; apply Ht; by right). rewrite !filter_cons, decide_True, decide_False; [done|apply file_not_entry|].
    apply classEntry_join, Ht. by left.
  - pose proof (wp_zones s W) as Hz. induction Hz as [|z l Hz _ IH]; [done|]. cbn [fmap list_fmap concat].
    rewrite filter_app, IH. unfold zonePaths at 1. rewrite filter_cons, decide_True by (apply classEntry_join, Hz).
    rewrite filter_nil; [done|]. apply Forall_fmap, Forall_forall. intros e _. apply file_not_entry.
Qed.

(** The zones whose limit the agent writes. *)
Definition capped (z : nodeZone) : bool := isPackage z && hasLimit z.
Definition cappedZones (s : emuPowercap) : list nodeZone := filter (fun z => capped z = true) (pc_zones s).

Lemma limit_walk s z : wfPowercap s -> z ∈ pc_zones s -> fileExists (limitPath z) s = hasLimit z.
Proof.
  intros W Hz. unfold fileExists. destruct (zone_shows z) as (_ & Hs & _).
  assert (hasLimit z = str_mem limitName (fst <$> zoneEntries z)) as ->.
  { rewrite shown_mem, Hs. unfold hasLimit. destruct (nz_constraints z) as [|c cs]; [done|]. by destruct (nc_hasLimit c). }
  destruct (str_mem limitName (fst <$> zoneEntries z)) eqn:E.
  - apply bool_decide_eq_true. cbn [fs_walk emuPowercapFS]. right. apply elem_of_app. right.
    apply list_elem_of_In, in_concat. exists (zonePaths z). split; apply list_elem_of_In; [by apply list_elem_of_fmap; exists z|].
    apply str_mem_In, list_elem_of_fmap in E as (e & Ee & He). right. apply list_elem_of_fmap. exists e. by rewrite <- Ee.
  - apply bool_decide_eq_false. cbn [fs_walk emuPowercapFS]. unfold limitPath. intros Hin.
    assert (path_Dir (path_Join (zonePath z) limitName) = zonePath z) as Hd by (apply path_Dir_join; [done|apply limitName_noSlash]).
    assert (path_Base (path_Join (zonePath z) limitName) = limitName) as Hb by (apply path_Base_join; [done|apply limitName_noSlash]).
    apply elem_of_cons in Hin as [Hr|Hin]; [rewrite Hr in Hb; vm_compute in Hb; discriminate|].
    apply elem_of_app in Hin as [Hin|Hin]; apply list_elem_of_In, in_concat in Hin as (l & Hl%list_elem_of_In & Hin%list_elem_of_In).
    + apply list_elem_of_fmap in Hl as (ct & -> & Hct). destruct (type_ok s ct W Hct) as [Hn _].
      apply elem_of_cons in Hin as [Hp|Hp%list_elem_of_singleton]; rewrite Hp in Hd, Hb.
      * unfold typePath in Hd. rewrite path_Dir_join in Hd by done. apply (f_equal String.length) in Hd.
        unfold zonePath, path_Join in Hd. rewrite !length_app_string in Hd. cbn in Hd. lia.
      * rewrite path_Base_join in Hb; [done|done|repeat constructor].
    + apply list_elem_of_fmap in Hl as (x & -> & Hx). pose proof (proj1 (Forall_forall _ _) (wp_zones s W) x Hx) as Wx. unfold zonePaths in Hin.
      apply elem_of_cons in Hin as [Hp|Hp]; [|apply list_elem_of_fmap in Hp as (e & Hp & He)]; rewrite Hp in Hd, Hb.
      * unfold zonePath in Hd. rewrite path_Dir_join in Hd by (done || apply Wx). apply (f_equal String.length) in Hd.
        unfold path_Join in Hd. rewrite !length_app_string in Hd. cbn in Hd. lia.
      * pose proof (proj1 (Forall_forall _ _) (entries_noSlash x) e He) as Hn. rewrite path_Dir_join in Hd by done.
        apply path_Join_inj in Hd. assert (x = z) as -> by (by apply (class_inj s)).
        apply path_Join_inj in Hp. apply not_true_iff_false in E. apply E, str_mem_In. rewrite Hp. apply list_elem_of_fmap. by exists e.
Qed.

Lemma filter_filter_and {A} (P Q : A -> bool) (l : list A) :
  filter (fun x => P x = true) (filter (fun x => Q x = true) l) = filter (fun x => Q x && P x = true) l.
Proof.
  induction l as [|x l IH]; [done|]. rewrite !filter_cons. destruct (Q x) eqn:E; cbn [andb].
  - rewrite decide_True by done. rewrite filter_cons, IH. by destruct (P x).
  - by rewrite decide_False.
Qed.

Lemma filter_named s : wfPowercap s ->
  filter (fun d => named s d = true) ((typePath <$> pc_types s) ++ (zonePath <$> pc_zones s))%list = zonePath <$> packages s.
Proof.
  intros W. rewrite filter_app. rewrite filter_nil.
  2:{ apply Forall_fmap, Forall_forall. intros ct Hct. unfold compose, named. by rewrite (type_unnamed s ct W Hct). }
  cbn [app]. unfold packages. pose proof (fun z => zone_named s z W) as Hn. induction (pc_zones s) as [|z l IH]; [done|]. cbn [fmap list_fmap].
  rewrite !filter_cons. destruct (Hn z) as [-> _]; [by left|]. rewrite IH by (intros; apply Hn; by right). by destruct (isPackage z).
Qed.

(** A tree without zones has no limit to write. *)
Lemma no_zones s d : wfPowercap s -> pc_zones s = [] -> fileExists (path_Join d limitName) s = false.
Proof.
  intros W E. apply bool_decide_eq_false. cbn [fs_walk emuPowercapFS]. rewrite E. cbn [fmap list_fmap concat]. rewrite app_nil_r. intros Hf.
  assert (path_Base (path_Join d limitName) = limitName) as Hb by (apply path_Base_join; [done|apply limitName_noSlash]).
  apply elem_of_cons in Hf as [Hr|Hf]; [rewrite Hr in Hb; vm_compute in Hb; discriminate|].
  apply list_elem_of_In, in_concat in Hf as (l & Hl%list_elem_of_In & Hf%list_elem_of_In).
  apply list_elem_of_fmap in Hl as (ct & -> & Hct). pose proof (proj1 (Forall_forall _ _) (wp_types s W) ct Hct) as Ht.
  apply elem_of_cons in Hf as [Hp|Hp%list_elem_of_singleton]; rewrite Hp in Hb; apply elem_of_cons in Ht as [Ht|Ht%list_elem_of_singleton];
    unfold typePath in Hb; rewrite Ht in Hb; vm_compute in Hb; discriminate.
Qed.

(** The agent finds the packages of the tree by their names. *)
Lemma RAPLPackageZones_emulated s : wfPowercap s -> pc_zones s = [] \/ RAPLPackageZones s ≡ₚ zonePath <$> packages s.
Proof.
  intros W. unfold RAPLPackageZones, Glob. fold classEntry. set (entries := sort_strings _).
  assert (entries ≡ₚ (typePath <$> pc_types s) ++ (zonePath <$> pc_zones s)) as He.
  { unfold entries, sort_strings. rewrite sort_slice_perm. rewrite <- entries_classes by done. reflexivity. }
  destruct (scan_named s entries [] [] false) as [f' ->]. cbn [app orb].
  destruct (existsb (hasName s) entries) eqn:Ex.
  - right. rewrite He. by rewrite filter_named.
  - left. destruct (pc_zones s) as [|z l] eqn:Ez; [done|]. exfalso. apply not_true_iff_false in Ex. apply Ex, existsb_exists.
    exists (zonePath z). assert (z ∈ pc_zones s) as Hz by (rewrite Ez; by left). split; [|by apply zone_named].
    apply list_elem_of_In. rewrite He. apply elem_of_app. right. by left.
Qed.

(** It writes the limits of those that have one. *)
Lemma RAPLCapFiles_emulated s : wfPowercap s -> RAPLCapFiles s ≡ₚ limitPath <$> cappedZones s.
Proof.
  intros W. unfold RAPLCapFiles, sort_strings. rewrite sort_slice_perm.
  destruct (RAPLPackageZones_emulated s W) as [E|Hp].
  - unfold cappedZones. rewrite E. cbn [filter list_filter fmap list_fmap]. rewrite filter_nil; [done|].
    apply Forall_fmap, Forall_forall. intros d _. unfold compose. change (fileExists (path_Join d limitName) s <> true). by rewrite (no_zones s d W E).
  - rewrite Hp. unfold cappedZones, packages, capped. rewrite <- filter_filter_and.
    assert (forall z, z ∈ filter (fun z => isPackage z = true) (pc_zones s) -> z ∈ pc_zones s) as Hin by (intros z [_ ?]%list_elem_of_filter; done).
    induction (filter (fun z => isPackage z = true) (pc_zones s)) as [|z l IH]; [done|]. cbn [fmap list_fmap]. rewrite !filter_cons.
    change (path_Join (zonePath z) "constraint_0_power_limit_uw") with (limitPath z). rewrite (limit_walk s z W) by (apply Hin; by left).
    specialize (IH ltac:(intros; apply Hin; by right)). destruct (hasLimit z); [|rewrite !decide_False by done; exact IH].
    rewrite !decide_True by done. cbn [fmap list_fmap]. by constructor.
Qed.

(** ** The agent's cap *)

(** The limit a constraint puts on its zone's power: none while the zone is
    disabled, or the firmware disabled the constraint. *)
Definition limitOf (z : nodeZone) (c : nodeConstraint) : option Z := if enforces z c then Some (enforcedUW c) else None.

(** What the agent's cap does to a zone: nothing unless it is a package with
    a limit that takes writes. There the limit's register gets the cap, or
    the package's own maximum below it, rounded down to the unit. An enabled
    package then draws at most what was wanted, and its limit is less than a
    unit below that if the number fits the register's field, which otherwise
    drops its high bits; a disabled one is under no limit. *)
Definition emulatedCap (uw : Z) (z z' : nodeZone) : Prop :=
  match nz_constraints z with
  | c :: cs =>
      if isPackage z && takesLimit c then
        let wanted := capWanted uw c in
        let unitUW := nz_powerUnitUW z in
        let c' := set_limitUW (nodeRAPLLimitUW wanted unitUW (nc_mask c)) c in
        z' = set_constraints (c' :: cs) z /\
        match limitOf z' c' with
        | Some l =>
            nz_enabled z = 1%Z /\ (l <= wanted)%Z /\
            ((0 < unitUW -> wanted / unitUW <= nc_mask c)%Z -> (wanted - Z.max 1 unitUW < l)%Z)
        | None => nz_enabled z <> 1%Z
        end
      else z' = z
  | [] => z' = z
  end.

(** A register never holds more than was written. *)
Lemma nodeRAPLLimitUW_le u unitUW mask : (0 <= u <= int64_max)%Z -> (nodeRAPLLimitUW u unitUW mask <= u)%Z.
Proof.
  intros Hu. unfold nodeRAPLLimitUW. destruct (Z.leb_spec unitUW 0); [lia|].
  assert (0 <= u / unitUW)%Z as Hq by (apply Z.div_pos; lia).
  set (raw := (if 0 <? mask then Z.land (u / unitUW) mask else u / unitUW)%Z).
  assert (raw <= u / unitUW)%Z as Hr.
  { unfold raw. destruct (Z.ltb_spec 0 mask); [|lia]. apply Z.ldiff_le; [done|]. apply Z.bits_inj'. intros i Hi.
    rewrite Z.ldiff_spec, Z.land_spec, Z.bits_0. by destruct (Z.testbit _ i), (Z.testbit _ i). }
  pose proof (Z.mul_div_le u unitUW ltac:(lia)). nia.
Qed.

Lemma enforcedUW_min c : (nc_maxUW c <= 0 \/ nc_limitUW c <= nc_maxUW c)%Z -> enforcedUW c = nc_limitUW c.
Proof. intros Hc. unfold enforcedUW. destruct (Z.ltb_spec 0 (nc_maxUW c)), (Z.ltb_spec (nc_maxUW c) (nc_limitUW c)); cbn [andb]; lia. Qed.

Lemma emulatedCap_limit uw z c cs : (0 <= uw <= int64_max)%Z -> wfZone z -> nz_constraints z = c :: cs -> takesLimit c = true ->
  let wanted := capWanted uw c in
  let c' := set_limitUW (nodeRAPLLimitUW wanted (nz_powerUnitUW z) (nc_mask c)) c in
  match limitOf (set_constraints (c' :: cs) z) c' with
  | Some l =>
      nz_enabled z = 1%Z /\ (l <= wanted)%Z /\
      ((0 < nz_powerUnitUW z -> wanted / nz_powerUnitUW z <= nc_mask c)%Z -> (wanted - Z.max 1 (nz_powerUnitUW z) < l)%Z)
  | None => nz_enabled z <> 1%Z
  end.
Proof.
  intros Hu [_ _ W] Ec Ht. cbv zeta. rewrite Ec in W. apply Forall_cons in W as [[(k & Hk & Em) Hm _] _].
  pose proof (capWanted_range uw c Hu ltac:(lia)) as Hw. set (wanted := capWanted uw c) in *.
  pose proof (nodeRAPLLimitUW_le wanted (nz_powerUnitUW z) (nc_mask c) Hw) as Hle.
  unfold takesLimit in Ht. apply andb_true_iff in Ht as [_ Hr%String.eqb_eq].
  unfold limitOf, enforces. cbn [nz_enabled set_constraints nc_rejectWrites set_limitUW]. rewrite Hr. cbn [String.eqb negb andb].
  destruct (Z.eqb_spec (nz_enabled z) 1) as [He|He]; cbn [andb]; [|done]. split; [done|].
  rewrite enforcedUW_min; cbn [nc_limitUW nc_maxUW set_limitUW].
  2:{ unfold wanted, capWanted in *. destruct (Z.ltb_spec 0 (nc_maxUW c)); [right|left]; lia. }
  split; [done|]. intros Hf. rewrite Em in *. destruct (Z.leb_spec (nz_powerUnitUW z) 0) as [Hn|Hn].
  - unfold nodeRAPLLimitUW. destruct (Z.leb_spec (nz_powerUnitUW z) 0); lia.
  - specialize (Hf Hn). rewrite Z.ones_equiv in Hf. pose proof (nodeRAPLLimitUW_fits wanted (nz_powerUnitUW z) k Hw Hn Hk ltac:(lia)) as [_ Hl]. lia.
Qed.

Lemma emulatedCap_capAll uw s z : wfPowercap s -> (0 <= uw <= int64_max)%Z -> z ∈ pc_zones s ->
  emulatedCap uw z (if decide (nz_class z ∈ nz_class <$> cappedZones s) then capZone uw z else z).
Proof.
  intros W Hu Hz. pose proof (proj1 (Forall_forall _ _) (wp_zones s W) z Hz) as Wz.
  assert (nz_class z ∈ nz_class <$> cappedZones s <-> capped z = true) as Hc.
  { split.
    - intros (x & Ex & [Hx Hxs]%list_elem_of_filter)%list_elem_of_fmap. by rewrite (class_inj s z x W Hz Hxs Ex).
    - intros Hc. apply list_elem_of_fmap. exists z. split; [done|]. by apply list_elem_of_filter. }
  unfold emulatedCap, capZone. destruct (nz_constraints z) as [|c cs] eqn:Ec; [by case_decide|].
  assert (capped z = isPackage z && nc_hasLimit c) as Ecap by (unfold capped, hasLimit; by rewrite Ec).
  destruct (isPackage z && takesLimit c) eqn:E.
  - apply andb_true_iff in E as [Ep Et]. unfold capLimit. rewrite Et. pose proof Et as Etl. unfold takesLimit in Et. apply andb_true_iff in Et as [Eh _].
    rewrite decide_True by (apply Hc; by rewrite Ecap, Ep, Eh). split; [done|]. by apply emulatedCap_limit.
  - case_decide as Hd; [|done]. apply Hc in Hd. rewrite Ecap in Hd. apply andb_true_iff in Hd as [Ep _]. rewrite Ep in E. cbn [andb] in E.
    unfold capLimit. rewrite E, <- Ec. by destruct z.
Qed.

Lemma int_of_float_max x : (int_of_float x <= int64_max)%Z.
Proof. unfold int_of_float, int64_min, int64_max. repeat case_match; lia. Qed.


(** ** A node of two packages *)

Definition fact {T} (v : T) : Fact T := mkFact v "assumed:example".
Definition unset {T} (v : T) : Fact T := mkFact v "".

Definition longTerm (limitW maxW : Z) (reject : string) : ConstraintSpec :=
  mkConstraintSpec "long_term" (fact (limitW * 1000000)%Z) (fact (maxW * 1000000)%Z) (fact 999424%Z) (fact reject).
Definition dramSpec : ZoneSpec :=
  mkZoneSpec "" "dram" (fact 0%Z) (fact 15300%Z) (fact 125000%Z) (unset 0%Z) None [longTerm 0 47 "locked"] [].
Definition packageSpec : ZoneSpec :=
  mkZoneSpec "per-package" "package-%d" (fact 1%Z) (fact 61035%Z) (fact 125000%Z) (unset 0%Z) None
    [longTerm 165 165 ""; mkConstraintSpec "short_term" (fact 198000000%Z) (unset 0%Z) (fact 976%Z) (unset "")] [dramSpec].
Definition psysSpec : ZoneSpec :=
  mkZoneSpec "once" "psys" (fact 0%Z) (fact 61035%Z) (fact 125000%Z) (unset 0%Z) None [longTerm 300 600 ""] [].

Definition twoPackages : emuPowercap := buildPowercap (fun _ => 0%Z) 2 1 [mkControlType "intel-rapl" [packageSpec; psysSpec]].

(** The tree the kernel lays out, psys after the packages, the DRAM below
    each. *)
Example twoPackages_tree :
  (fun z => (nz_class z, nz_name z)) <$> pc_zones twoPackages =
    [("intel-rapl:0", "package-0"); ("intel-rapl:0:0", "dram"); ("intel-rapl:1", "package-1"); ("intel-rapl:1:0", "dram"); ("intel-rapl:2", "psys")] /\
  (fun c => (nc_limitUW c, nc_mask c)) <$> concat (nz_constraints <$> pc_zones twoPackages) =
    [(165000000, 32767); (198000000, 32767); (0, 32767); (165000000, 32767); (198000000, 32767); (0, 32767); (300000000, 131071)]%Z.
Proof. vm_compute. by split. Qed.

Lemma buildConstraint_ok role bits unitUW cs :
  (0 <= fact_V (cs_MaxPowerUW cs) <= int64_max)%Z -> (given (cs_MaxPowerUW cs) = false -> fact_V (cs_MaxPowerUW cs) = 0%Z) ->
  okConstraint (buildConstraint role bits unitUW cs).
Proof.
  intros Hm Hn. pose proof (nodeLimitMask_ones role (nodeConstraintKind (cs_Name cs)) bits) as Hk. unfold buildConstraint. cbv zeta.
  assert (forall c, okConstraint c -> forall v, okConstraint (limitHandler true unitUW v c).2) as Hl.
  { intros c [H1 H2 H3] v. unfold limitHandler. repeat case_match; split; done. }
  assert (forall c, okConstraint c -> forall v, okConstraint (windowHandler true v c).2) as Hw.
  { intros c [H1 H2 H3] v. unfold windowHandler. repeat case_match; split; done. }
  repeat case_match; repeat first [apply Hw|apply Hl]; by split.
Qed.

Lemma twoPackages_wf : wfPowercap twoPackages.
Proof.
  assert (forall z, nz_constraints z = buildConstraint (nz_role z) (unset 0%Z) 125000 <$> zs_Constraints packageSpec \/
      nz_constraints z = buildConstraint (nz_role z) (unset 0%Z) 125000 <$> zs_Constraints dramSpec \/
      nz_constraints z = buildConstraint (nz_role z) (unset 0%Z) 125000 <$> zs_Constraints psysSpec -> Forall okConstraint (nz_constraints z)) as Hc.
  { intros z [-> | [-> | ->]]; apply Forall_fmap; repeat constructor; apply buildConstraint_ok; done. }
  split.
  - unfold twoPackages, buildPowercap. cbn [pc_zones fmap list_fmap concat ct_Zones ct_Name zoneInstances app imap].
    repeat (constructor; [split; [split; [repeat constructor|discriminate]|split; [repeat constructor; cbv; discriminate|discriminate]|apply Hc; cbn; tauto]|]).
    constructor.
  - repeat constructor.
  - apply (bool_decide_unpack _). vm_compute. exact I.
Qed.


(** A package whose zone is disabled takes the cap, and the agent reports it
    applied, but it limits nothing: the agent never writes [enabled]. *)
Definition disabledSpec : ZoneSpec :=
  mkZoneSpec "per-package" "package-%d" (fact 0%Z) (fact 61035%Z) (fact 125000%Z) (unset 0%Z) None [longTerm 165 165 ""] [].
Definition disabledNode : emuPowercap := buildPowercap (fun _ => 0%Z) 1 1 [mkControlType "intel-rapl" [disabledSpec]].

Example disabled_zone_applied :
  let '(r, s') := applyRAPLPackageCap "GenuineIntel" (fofZ 100) disabledNode in
  rr_Applied r = true /\ (fun z => (nz_enabled z, existsb (enforces z) (nz_constraints z))) <$> pc_zones s' = [(0%Z, false)].
Proof. vm_compute. by split. Qed.

(** Without a maximum, a cap past the register's field wraps around: 4100 W
    in 15 bits of 1/8 W are 4 W. *)
Example cap_wraps : nodeRAPLLimitUW 4100000000 125000 nodeLimitMask15 = 4000000%Z.
Proof. reflexivity. Qed.
