(* ===== verification/SimNvidia.v ===== *)
(** * Simulator: the emulated nvidia-smi

    The NVML state of an emulated node and the tool over it
    (simulator/pkg/hwemu/smi: devices.go, nvidia.go, runner.go): the option
    syntax and the errors of a command, the queries, the power limit,
    persistence mode and the clock locks, run as the agent runs them
    (cmd/agent/main.go [runCommand]). The theorems: on every well-formed node
    the tool is what the agent's lock loop relies on (NvidiaControl.v
    [LockingSmi]); a lock is in force as soon as the lock file holds it.
    [strconv.ParseFloat], the two-decimal print and the clock on the wall are
    parameters; the system's texts of a missing file are left out. *)

From Stdlib Require Import DecimalString.
From S2P Require Import Prelude GoString GoFloat GoSlices Api Governor GpuGovernor Native Host NvidiaDiscovery CpuDiscovery NvidiaControl.

#[local] Open Scope string_scope.

(** ** The NVML state *)

(** The files of one GPU's directory, by name, as [os.ReadFile] gives them. *)
Notation gpuDir := (gmap string string).

(** The state the tool reads: the directories of [state/nvml], if there is
    one, the driver's version file, who runs the tool, and its variant.
    src/simulator/pkg/hwemu/smi/env.go:27-32 [Env] *)
Record nvNode := mkNode {
  nn_dirs : option (gmap string gpuDir); nn_driver : option string; nn_Unprivileged : bool; nn_variant : string
}.

(** src/simulator/pkg/hwemu/layout/layout.go:180-188 [NVMLPersistenceModeFile, NVMLLockedGPUClocksFile, NVMLLockedMemClocksFile] *)
Definition NVMLPersistenceModeFile := "persistence_mode".
Definition NVMLLockedGPUClocksFile := "locked_gpu_clocks".
Definition NVMLLockedMemClocksFile := "locked_mem_clocks".

(** src/simulator/pkg/hwemu/smi/devices.go:56-59 [nvGPU] *)
Record nvGPU := mkNvGPU { nvg_Index : Z; nvg_Dir : string }.

(** [strings.TrimRight(s, "\n")]. *)
Definition isNewline (a : ascii) : bool := Ascii.eqb a newline.
Definition TrimNewlines (s : string) : string :=
  string_of_list_ascii (rev (drop_while isNewline (rev (list_ascii_of_string s)))).

(** What a file of a GPU holds. *)
Definition content (n : nvNode) (g : nvGPU) (file : string) : option string :=
  dirs ← nn_dirs n; dir ← dirs !! nvg_Dir g; dir !! file.

(** src/simulator/pkg/hwemu/smi/devices.go:18-24 [readAttr] src/simulator/pkg/hwemu/smi/devices.go:89-91 [field] *)
Definition field (n : nvNode) (g : nvGPU) (file : string) : option string := TrimNewlines <$> content n g file.

(** [None] when the file cannot be opened, as it is never created.
    src/simulator/pkg/hwemu/smi/devices.go:40-50 [writeAttr] *)
Definition writeAttr (n : nvNode) (g : nvGPU) (file value : string) : option nvNode :=
  match field n g file with
  | None => None
  | Some _ => Some (mkNode (alter (insert file value) (nvg_Dir g) <$> nn_dirs n) (nn_driver n) (nn_Unprivileged n) (nn_variant n))
  end.

(** The index a directory is named after.
    src/simulator/pkg/hwemu/smi/devices.go:74-79 [nvmlGPUs] *)
Definition gpuIndex (name : string) : option Z :=
  let '(d, ok) := CutPrefix name "gpu" in
  if negb ok then None
  else i ← Atoi d; if (i <? 0)%Z || negb (String.eqb ("gpu" +:+ Itoa i) name) then None else Some i.

Definition nvLess (a b : nvGPU) : bool := (nvg_Index a <? nvg_Index b)%Z.

(** [None] when there is no NVML state.
    src/simulator/pkg/hwemu/smi/devices.go:63-83 [nvmlGPUs] *)
Definition nvmlGPUs (n : nvNode) : option (list nvGPU) :=
  dirs ← nn_dirs n;
  Some (sort_slice nvLess (omap (fun name => i ← gpuIndex name; Some (mkNvGPU i name)) (map_to_list dirs).*1)).

(** ** What the tool answers *)

(** src/simulator/pkg/hwemu/smi/nvidia.go:18-27 [nvExitInvalidArgument, nvVariantDefault] *)
Definition nvExitInvalidArgument := 2%Z.
Definition nvExitNotAvailable := 3%Z.
Definition nvExitNoPermission := 4%Z.
Definition nvExitNotFound := 6%Z.
Definition nvExitDriver := 9%Z.
Definition nvExitOther := 255%Z.
Definition nvVariantDefault := "default".

(** The exit code and everything printed, on stdout or stderr. *)
Definition reply : Type := Z * string.

Definition line (s : string) : string := s +:+ String newline "".
Definition quoted (s : string) : string := String quoteMark "" +:+ s +:+ String quoteMark "".

(** src/simulator/pkg/hwemu/smi/smi.go:175-186 [unknownVariant, notEmulated] *)
Definition unknownVariant (variant : string) : reply :=
  (2%Z, line ("fakesmi: nvidia-smi variant " +:+ Quote variant +:+ " is not emulated")).
Definition notEmulated (what : string) : reply := (2%Z, line ("fakesmi: nvidia-smi " +:+ what +:+ " is not emulated")).

Definition invalidCombination : string :=
  line "Invalid combination of input arguments. Please run 'nvidia-smi -h' for help.".

(** src/simulator/pkg/hwemu/smi/nvidia.go:342-345 [nvUnknownOption] *)
Definition nvUnknownOption : reply := (nvExitOther, invalidCombination).

(** src/simulator/pkg/hwemu/smi/nvidia.go:349-352 [nvInvalidArguments] *)
Definition nvInvalidArguments : reply := (nvExitInvalidArgument, invalidCombination).

(** Less the system's text of the error.
    src/simulator/pkg/hwemu/smi/nvidia.go:358-361 [nvStateError] *)
Definition nvStateError : reply := (nvExitOther, line "fakesmi: incomplete NVML state").

Definition terminating : string := line "Terminating early due to previous errors.".
Definition movingOn : string := line "Treating as warning and moving on.".

(** src/simulator/pkg/hwemu/smi/nvidia.go:613-617 [nvNoPermission] *)
Definition nvNoPermission (action bus : string) : reply :=
  (nvExitNoPermission, line (action +:+ " for GPU " +:+ bus +:+ " failed: Insufficient Permissions") +:+ terminating).

(** ** Options *)

(** The name an option goes by, and whether it takes a value.
    src/simulator/pkg/hwemu/smi/nvidia.go:145-182 [runNvidiaSMI] *)
Definition optionOf (name : string) : option (string * bool) :=
  let named l := str_mem name l in
  if named ["-h"; "--help"] then Some ("help", false)
  else if named ["-L"; "--list-gpus"] then Some ("list", false)
  else if named ["-i"; "--id"] then Some ("ids", true)
  else if named ["--query-gpu"] then Some ("query", true)
  else if named ["--format"] then Some ("format", true)
  else if named ["-q"; "--query"] then Some ("q", false)
  else if named ["-d"; "--display"] then Some ("display", true)
  else if named ["-pl"; "--power-limit"] then Some ("limit", true)
  else if named ["-pm"; "--persistence-mode"] then Some ("pm", true)
  else if named ["-lgc"; "--lock-gpu-clocks"] then Some ("lgc", true)
  else if named ["-m"; "--mode"] then Some ("mode", true)
  else if named ["-rgc"; "--reset-gpu-clocks"] then Some ("rgc", false)
  else if named ["-lmc"; "--lock-memory-clocks"] then Some ("lmc", true)
  else if named ["-rmc"; "--reset-memory-clocks"] then Some ("rmc", false)
  else if named ["-ac"; "--applications-clocks"] then Some ("ac", true)
  else if named ["-rac"; "--reset-applications-clocks"] then Some ("rac", false)
  else if named ["-eow"; "--error-on-warning"] then Some ("eow", false)
  else None.

(** The options seen, the last first, with their values. *)
Notation nvOpts := (list (string * string)).

Definition seen (o : nvOpts) (key : string) : bool := existsb (fun kv => String.eqb kv.1 key) o.
Definition valueOf (o : nvOpts) (key : string) : string :=
  match find (fun kv => String.eqb kv.1 key) o with Some (_, v) => v | None => "" end.

(** src/simulator/pkg/hwemu/smi/nvidia.go:123-186 [runNvidiaSMI] *)
Fixpoint nvOptions (args : list string) (o : nvOpts) : reply + nvOpts :=
  match args with
  | [] => inr o
  | arg :: rest =>
      let '(name, val, hasVal) := if HasPrefix arg "--" then Cut arg "=" else (arg, "", false) in
      match optionOf name with
      | None => inl nvUnknownOption
      | Some (key, false) => if hasVal : bool then inl nvInvalidArguments else nvOptions rest ((key, "") :: o)
      | Some (key, true) =>
          if hasVal then nvOptions rest ((key, val) :: o)
          else match rest with
               | [] => inl nvInvalidArguments
               | val :: rest => nvOptions rest ((key, val) :: o)
               end
      end
  end.

Definition actionKeys : list string := ["list"; "query"; "q"; "limit"; "pm"; "lgc"; "rgc"; "lmc"; "rmc"; "ac"; "rac"].

(** A bad combination, or a use that is not emulated.
    src/simulator/pkg/hwemu/smi/nvidia.go:191-217 [runNvidiaSMI] *)
Definition badCombination (o : nvOpts) : option reply :=
  let has := seen o in
  let actions := length (filter (fun k => has k = true) actionKeys) in
  if (actions =? 0)%nat && negb (has "format") && negb (has "mode") && negb (has "display")
  then Some (notEmulated "without -L, --query-gpu, -q, -pl, -pm, -lgc, -rgc, -lmc, -rmc, -ac or -rac")
  else if negb (actions =? 1)%nat || xorb (has "query") (has "format") || (has "mode" && negb (has "lgc")) || (has "display" && negb (has "q"))
  then Some nvInvalidArguments
  else if has "mode" && negb (str_mem (valueOf o "mode") ["0"; "1"]) then Some nvInvalidArguments
  else if has "q" then
    if negb (has "display") then Some (notEmulated "-q without -d SUPPORTED_CLOCKS")
    else if forallb (fun d => String.eqb (TrimSpace d) "SUPPORTED_CLOCKS") (Split (valueOf o "display") ",") then None
    else Some (notEmulated ("-q -d " +:+ valueOf o "display"))
  else None.

(** ** Fields and requests *)

(** src/simulator/pkg/hwemu/smi/nvidia.go:30-44 [nvValue, nvField] *)
Inductive nvValue := nvIndex | nvText | nvWatts | nvPercent | nvMHz.
Record nvField := mkField { nf_file : string; nf_kind : nvValue }.

(** src/simulator/pkg/hwemu/smi/nvidia.go:89-97 [nvClockSMFile, nvClockMemFile, nvClockMaxSMFile, nvClockMaxMemFile, nvClockSupportedFile, nvLockNone, nvTokenNA] *)
Definition nvClockSMFile := "clocks_sm_mhz".
Definition nvClockMemFile := "clocks_mem_mhz".
Definition nvClockMaxSMFile := "clocks_max_sm_mhz".
Definition nvClockMaxMemFile := "clocks_max_mem_mhz".
Definition nvClockSupportedFile := "supported_clocks".
Definition nvLockNone := "none".
Definition nvTokenNA := "[N/A]".

(** src/simulator/pkg/hwemu/smi/nvidia.go:57-81 [nvFields] *)
Definition nvFields : list (string * nvField) := [
  ("index", mkField "" nvIndex);
  ("name", mkField "name" nvText);
  ("uuid", mkField "uuid" nvText);
  ("pci.bus_id", mkField "pci_bus_id" nvText);
  ("power.draw", mkField "power_draw_mw" nvWatts);
  ("power.limit", mkField "power_limit_mw" nvWatts);
  ("enforced.power.limit", mkField "enforced_power_limit_mw" nvWatts);
  ("power.default_limit", mkField "power_default_limit_mw" nvWatts);
  ("power.min_limit", mkField "power_min_limit_mw" nvWatts);
  ("power.max_limit", mkField "power_max_limit_mw" nvWatts);
  ("utilization.gpu", mkField "utilization_gpu_pct" nvPercent);
  ("persistence_mode", mkField NVMLPersistenceModeFile nvText);
  ("clocks.sm", mkField nvClockSMFile nvMHz);
  ("clocks.current.sm", mkField nvClockSMFile nvMHz);
  ("clocks.mem", mkField nvClockMemFile nvMHz);
  ("clocks.current.memory", mkField nvClockMemFile nvMHz);
  ("clocks.max.sm", mkField nvClockMaxSMFile nvMHz);
  ("clocks.max.mem", mkField nvClockMaxMemFile nvMHz);
  ("clocks.max.memory", mkField nvClockMaxMemFile nvMHz);
  ("pstate", mkField "pstate" nvText);
  ("clocks_event_reasons.active", mkField "clocks_event_reasons" nvText);
  ("clocks_throttle_reasons.active", mkField "clocks_event_reasons" nvText)].

(** A lookup in a literal map. *)
Definition assoc {A} (k : string) (l : list (string * A)) : option A := snd <$> find (fun kv => String.eqb kv.1 k) l.

(** src/simulator/pkg/hwemu/smi/nvidia.go:473-478 [nvCanonical] *)
Definition nvCanonical : list (string * string) := [
  ("clocks.sm", "clocks.current.sm"); ("clocks.mem", "clocks.current.memory"); ("clocks.max.mem", "clocks.max.memory");
  ("clocks_throttle_reasons.active", "clocks_event_reasons.active")].

(** src/simulator/pkg/hwemu/smi/nvidia.go:102-102 [nvPersistenceWords] *)
Definition nvPersistenceWords : list (string * string) :=
  [("0", "Disabled"); ("1", "Enabled"); ("DISABLED", "Disabled"); ("ENABLED", "Enabled")].

(** What is printed for a GPU whose lock is written, of the lock's bounds and
    the bus id.
    src/simulator/pkg/hwemu/smi/nvidia.go:623-626 [nvLockCmd] *)
Record nvLockCmd := mkLockCmd { lc_file : string; lc_action : string; lc_done : Z -> Z -> string -> string; lc_lo : Z; lc_hi : Z }.

(** src/simulator/pkg/hwemu/smi/nvidia.go:630-641 [nvParseClocks] *)
Definition nvParseClocks (v : string) : option (Z * Z) :=
  let '(a, b, both) := Cut v "," in
  let b := if both : bool then b else a in
  match Atoi (TrimSpace a), Atoi (TrimSpace b) with
  | Some lo, Some hi => if (lo <=? 0)%Z || (hi <? lo)%Z then None else Some (lo, hi)
  | _, _ => None
  end.

Definition clocksSet (what min max : string) (lo hi : Z) (bus : string) : string :=
  what +:+ " clocks set to " +:+ quoted ("(" +:+ min +:+ " " +:+ Itoa lo +:+ ", " +:+ max +:+ " " +:+ Itoa hi +:+ ")") +:+ " for GPU " +:+ bus.
Definition clocksReset (what : string) (_ _ : Z) (bus : string) : string := what +:+ " clocks reset to default for GPU " +:+ bus.

(** src/simulator/pkg/hwemu/smi/nvidia.go:259-276 [runNvidiaSMI] *)
Definition lgcCmd (lo hi : Z) := mkLockCmd NVMLLockedGPUClocksFile "Setting locked GPU clocks" (clocksSet "GPU" "gpuClkMin" "gpuClkMax") lo hi.
Definition lmcCmd (lo hi : Z) := mkLockCmd NVMLLockedMemClocksFile "Setting locked memory clocks" (clocksSet "Memory" "memClkMin" "memClkMax") lo hi.
Definition rgcCmd := mkLockCmd NVMLLockedGPUClocksFile "Resetting locked GPU clocks" (clocksReset "GPU") 0 0.
Definition rmcCmd := mkLockCmd NVMLLockedMemClocksFile "Resetting locked memory clocks" (clocksReset "Memory") 0 0.

(** What a valid call asks for. *)
Inductive nvRequest :=
| RList
| RQuery (fields : list string) (header units : bool)
| RClocks
| RPowerLimit (watts : float64)
| RPersistence (word : string)
| RLock (cmd : nvLockCmd)
| RApplications (reset : bool).

Section Tool.
Context (ParseFloat : string -> option float64) (Format2 : float64 -> string) (timestamp : string).

(** The header and the units of a query's format; [None] when it is not CSV
    or holds another word.
    src/simulator/pkg/hwemu/smi/nvidia.go:222-237 [runNvidiaSMI] *)
Definition readFormat (format : string) : option (bool * bool) :=
  let words := TrimSpace <$> Split format "," in
  if forallb (fun w => str_mem w ["csv"; "noheader"; "nounits"]) words && str_mem "csv" words
  then Some (negb (str_mem "noheader" words), negb (str_mem "nounits" words)) else None.

(** src/simulator/pkg/hwemu/smi/nvidia.go:238-245 [runNvidiaSMI] *)
Definition readFields (query : string) : reply + list string :=
  let fields := TrimSpace <$> Split query "," in
  match find (fun f => negb (bool_decide (is_Some (assoc f nvFields)))) fields with
  | Some f => inl (nvExitInvalidArgument, line ("Field " +:+ quoted f +:+ " is not a valid field to query."))
  | None => inr fields
  end.

(** src/simulator/pkg/hwemu/smi/nvidia.go:219-286 [runNvidiaSMI] *)
Definition requestOf (o : nvOpts) : reply + nvRequest :=
  let bad := inl nvInvalidArguments in
  if seen o "list" then inr RList
  else if seen o "query" then
    match readFormat (valueOf o "format") with
    | None => bad
    | Some (header, units) =>
        match readFields (valueOf o "query") with
        | inl r => inl r
        | inr fields => inr (RQuery fields header units)
        end
    end
  else if seen o "q" then inr RClocks
  else if seen o "limit" then
    match ParseFloat (TrimSpace (valueOf o "limit")) with
    | Some w => if negb (is_finite w) || flt w fzero then bad else inr (RPowerLimit w)
    | None => bad
    end
  else if seen o "pm" then
    match assoc (valueOf o "pm") nvPersistenceWords with Some w => inr (RPersistence w) | None => bad end
  else if seen o "lgc" then
    match nvParseClocks (valueOf o "lgc") with Some (lo, hi) => inr (RLock (lgcCmd lo hi)) | None => bad end
  else if seen o "lmc" then
    match nvParseClocks (valueOf o "lmc") with Some (lo, hi) => inr (RLock (lmcCmd lo hi)) | None => bad end
  else if seen o "rgc" then inr (RLock rgcCmd)
  else if seen o "rmc" then inr (RLock rmcCmd)
  else if seen o "ac" then
    let '(m, g, both) := Cut (valueOf o "ac") "," in
    if (both : bool) && bool_decide (is_Some (nvParseClocks m)) && bool_decide (is_Some (nvParseClocks g))
    then inr (RApplications false) else bad
  else inr (RApplications true).

(** ** GPUs named with -i *)

(** The first GPU an id names; [None] when a file is missing. Ids are ASCII,
    so folding is that of ASCII letters.
    src/simulator/pkg/hwemu/smi/nvidia.go:371-390 [nvSelect] *)
Fixpoint findGPU (n : nvNode) (id : string) (gpus : list nvGPU) : option (option nvGPU) :=
  match gpus with
  | [] => Some None
  | g :: gpus =>
      match Atoi id with
      | Some i => if (i =? nvg_Index g)%Z then Some (Some g) else findGPU n id gpus
      | None =>
          uuid ← field n g "uuid";
          bus ← field n g "pci_bus_id";
          if EqualFold id uuid || EqualFold id bus then Some (Some g) else findGPU n id gpus
      end
  end.

(** The GPUs the ids name in turn, or none when one names no GPU.
    src/simulator/pkg/hwemu/smi/nvidia.go:367-396 [nvSelect] *)
Fixpoint selectIds (n : nvNode) (gpus : list nvGPU) (ids : list string) (out : list nvGPU) : option (list nvGPU) :=
  match ids with
  | [] => Some out
  | id :: ids =>
      found ← findGPU n (TrimSpace id) gpus;
      match found with
      | None => Some []
      | Some g => selectIds n gpus ids (out ++ [g])
      end
  end.

Definition nvSelect (n : nvNode) (gpus : list nvGPU) (ids : string) : option (list nvGPU) := selectIds n gpus (Split ids ",") [].

(** ** Queries *)

(** src/simulator/pkg/hwemu/smi/nvidia.go:310-323 [runNvidiaSMI] *)
Definition nvList (n : nvNode) (gpus : list nvGPU) : reply :=
  match mapM (fun g =>
    name ← field n g "name"; uuid ← field n g "uuid";
    Some (line ("GPU " +:+ Itoa (nvg_Index g) +:+ ": " +:+ name +:+ " (UUID: " +:+ uuid +:+ ")"))) gpus with
  | Some lines => (0%Z, Join lines "")
  | None => nvStateError
  end.

Definition kindOf (f : string) : nvValue := nf_kind (default (mkField "" nvIndex) (assoc f nvFields)).

(** src/simulator/pkg/hwemu/smi/nvidia.go:409-428 [nvQuery] *)
Definition headerName (units : bool) (f : string) : string :=
  default f (assoc f nvCanonical) +:+
  (if units then match kindOf f with nvWatts => " [W]" | nvPercent => " [%]" | nvMHz => " [MHz]" | _ => "" end else "").

(** A value of a field, as it prints.
    src/simulator/pkg/hwemu/smi/nvidia.go:432-461 [nvQuery] *)
Definition queryValue (n : nvNode) (units : bool) (g : nvGPU) (f : string) : option string :=
  let spec := default (mkField "" nvIndex) (assoc f nvFields) in
  let unit u := if units then u else "" in
  match nf_kind spec with
  | nvIndex => Some (Itoa (nvg_Index g))
  | kind =>
      s ← field n g (nf_file spec);
      Some match ParseFloat (TrimSpace s), kind with
           | Some v, nvWatts => Format2 (fdiv v (fofZ 1000)) +:+ unit " W"
           | Some v, nvPercent => Itoa (int_of_float v) +:+ unit " %"
           | Some v, nvMHz => Itoa (int_of_float v) +:+ unit " MHz"
           | _, _ => s
           end
  end.

(** src/simulator/pkg/hwemu/smi/nvidia.go:407-467 [nvQuery] *)
Definition nvQuery (n : nvNode) (gpus : list nvGPU) (fields : list string) (header units : bool) : reply :=
  match mapM (fun g => vals ← mapM (queryValue n units g) fields; Some (line (Join vals ", "))) gpus with
  | Some rows => (0%Z, (if header then line (Join (headerName units <$> fields) ", ") else "") +:+ Join rows "")
  | None => nvStateError
  end.

(** A line of [-q]: the key, indented and padded to 55 columns.
    src/simulator/pkg/hwemu/smi/nvidia.go:797-799 [nvLogLine] *)
Definition nvLogLine (indent : nat) (key value : string) : string :=
  let k := string_of_list_ascii (replicate indent " "%char) +:+ key in
  line (k +:+ string_of_list_ascii (replicate (55 - String.length k) " "%char) +:+ ": " +:+ value).

(** The lists seen last and the ceilings.
    src/simulator/pkg/hwemu/smi/nvidia.go:807-833 [nvParseSupported] *)
Definition supportedLine (acc : option (list Z * list Z * gmap Z Z)) (ln : string) : option (list Z * list Z * gmap Z Z) :=
  '(mem, graphics, ceil) ← acc;
  match GoSlices.Fields ln with
  | [] => Some (mem, graphics, ceil)
  | key :: words =>
      vals ← mapM Atoi words;
      if String.eqb key "memory" then Some (vals, graphics, ceil)
      else if String.eqb key "graphics" then Some (mem, vals, ceil)
      else if String.eqb key "graphics-max" then
        match vals with [m; g] => Some (mem, graphics, <[m := g]> ceil) | _ => None end
      else None
  end.

(** src/simulator/pkg/hwemu/smi/nvidia.go:805-838 [nvParseSupported] *)
Definition nvParseSupported (s : string) : option (list Z * list Z * gmap Z Z) :=
  '(mem, graphics, ceil) ← foldl supportedLine (Some ([], [], ∅)) (Split s newline);
  if (length mem =? 0)%nat || (length graphics =? 0)%nat then None else Some (mem, graphics, ceil).

(** src/simulator/pkg/hwemu/smi/nvidia.go:766-790 [nvSupportedClocks] *)
Definition supportedOf (n : nvNode) (g : nvGPU) : option string :=
  bus ← field n g "pci_bus_id";
  s ← field n g nvClockSupportedFile;
  '(mem, graphics, ceil) ← nvParseSupported s;
  Some (line ("GPU " +:+ bus) +:+ line "    Supported Clocks" +:+
        Join ((fun m =>
          nvLogLine 8 "Memory" (Itoa m +:+ " MHz") +:+
          Join ((fun gr => nvLogLine 12 "Graphics" (Itoa gr +:+ " MHz")) <$>
                filter (fun gr => match ceil !! m with Some top => (gr <=? top)%Z | None => true end = true) graphics) "") <$> mem) "" +:+
        line "").

(** src/simulator/pkg/hwemu/smi/nvidia.go:755-793 [nvSupportedClocks] *)
Definition nvSupportedClocks (n : nvNode) (attached : nat) (gpus : list nvGPU) : reply :=
  match nn_driver n, mapM (supportedOf n) gpus with
  | Some driver, Some sections =>
      (0%Z, line "" +:+ line "==============NVSMI LOG==============" +:+ line "" +:+
            nvLogLine 0 "Timestamp" timestamp +:+ nvLogLine 0 "Driver Version" (TrimNewlines driver) +:+ line "" +:+
            nvLogLine 0 "Attached GPUs" (Itoa (Z.of_nat attached)) +:+ Join sections "")
  | _, _ => nvStateError
  end.

(** ** Changes *)

(** Each GPU's bus id, and whether the state holds what a command needs of it:
    the reply that ends the call, or the pairs.
    src/simulator/pkg/hwemu/smi/nvidia.go:669-690 [nvSetLock] *)
Fixpoint lockable (n : nvNode) (cmd : nvLockCmd) (eow : bool) (gpus : list nvGPU) : reply + list (nvGPU * string * bool) :=
  match gpus with
  | [] => inr []
  | g :: gpus =>
      match field n g "pci_bus_id", field n g (lc_file cmd) with
      | Some bus, Some cur =>
          let na := String.eqb (TrimSpace cur) nvTokenNA in
          if na && eow then
            inl (nvExitNotAvailable, line (lc_action cmd +:+ " is not supported for GPU " +:+ bus +:+ ".") +:+ terminating)
          else match lockable n cmd eow gpus with inl r => inl r | inr l => inr ((g, bus, negb na) :: l) end
      | _, _ => inl nvStateError
      end
  end.

(** The writes in order, with what was printed before.
    src/simulator/pkg/hwemu/smi/nvidia.go:699-718 [nvSetLock] *)
Fixpoint writeLocks (cmd : nvLockCmd) (value out : string) (gpus : list (nvGPU * string * bool)) (n : nvNode) : reply * nvNode :=
  match gpus with
  | [] => ((0%Z, out +:+ line "All done."), n)
  | (g, bus, false) :: gpus =>
      writeLocks cmd value (out +:+ line (lc_action cmd +:+ " is not supported for GPU " +:+ bus +:+ ".") +:+ movingOn) gpus n
  | (g, bus, true) :: gpus =>
      match writeAttr n g (lc_file cmd) (line value) with
      | None => ((nvExitOther, line ("fakesmi: " +:+ lc_action cmd +:+ " for GPU " +:+ bus)), n)
      | Some n => writeLocks cmd value (out +:+ line (lc_done cmd (lc_lo cmd) (lc_hi cmd) bus)) gpus n
      end
  end.

(** src/simulator/pkg/hwemu/smi/nvidia.go:695-698 [nvSetLock] *)
Definition lockValue (cmd : nvLockCmd) : string :=
  if (0 <? lc_hi cmd)%Z then lockArg (lc_lo cmd, lc_hi cmd) else nvLockNone.

(** src/simulator/pkg/hwemu/smi/nvidia.go:665-719 [nvSetLock] *)
Definition nvSetLock (n : nvNode) (gpus : list nvGPU) (cmd : nvLockCmd) (eow : bool) : reply * nvNode :=
  match lockable n cmd eow gpus with
  | inl r => (r, n)
  | inr l =>
      match find snd l with
      | Some (_, bus, _) =>
          if nn_Unprivileged n then (nvNoPermission (lc_action cmd) bus, n) else writeLocks cmd (lockValue cmd) "" l n
      | None => writeLocks cmd (lockValue cmd) "" l n
      end
  end.

(** src/simulator/pkg/hwemu/smi/nvidia.go:594-603 [nvSetPersistenceMode] *)
Fixpoint writeModes (word out : string) (gpus : list (nvGPU * string)) (n : nvNode) : reply * nvNode :=
  match gpus with
  | [] => ((0%Z, out +:+ line "All done."), n)
  | (g, bus) :: gpus =>
      match writeAttr n g NVMLPersistenceModeFile (line word) with
      | None => ((nvExitOther, line ("fakesmi: set persistence mode for GPU " +:+ bus)), n)
      | Some n => writeModes word (out +:+ line (word +:+ " persistence mode for GPU " +:+ bus +:+ ".")) gpus n
      end
  end.

(** src/simulator/pkg/hwemu/smi/nvidia.go:579-605 [nvSetPersistenceMode] *)
Definition nvSetPersistenceMode (n : nvNode) (gpus : list nvGPU) (word : string) : reply * nvNode :=
  match mapM (fun g => bus ← field n g "pci_bus_id"; _ ← field n g NVMLPersistenceModeFile; Some (g, bus)) gpus with
  | None => (nvStateError, n)
  | Some l =>
      if nn_Unprivileged n
      then (nvNoPermission "Changing persistence mode" (match l with (_, bus) :: _ => bus | [] => "" end), n)
      else writeModes word "" l n
  end.

(** Whether the three limits are numbers.
    src/simulator/pkg/hwemu/smi/nvidia.go:549-553 [nvLimits] *)
Record nvLimits := mkLimits { nl_bus : string; nl_old : float64; nl_lo : float64; nl_hi : float64; nl_supported : bool }.

(** A value that is not a number reads as zero.
    src/simulator/pkg/hwemu/smi/devices.go:95-102 [number] *)
Definition number (n : nvNode) (g : nvGPU) (file : string) : option (float64 * bool) :=
  s ← field n g file;
  Some match ParseFloat (TrimSpace s) with Some v => (v, true) | None => (fzero, false) end.

(** src/simulator/pkg/hwemu/smi/nvidia.go:555-572 [limits] *)
Definition limits (n : nvNode) (g : nvGPU) : option nvLimits :=
  bus ← field n g "pci_bus_id";
  '(old, ok1) ← number n g "power_limit_mw";
  '(lo, ok2) ← number n g "power_min_limit_mw";
  '(hi, ok3) ← number n g "power_max_limit_mw";
  Some (mkLimits bus old lo hi (ok1 && ok2 && ok3)).

(** src/simulator/pkg/hwemu/smi/nvidia.go:545-545 [nvPowerLimitNotSupported] *)
Definition nvPowerLimitNotSupported (bus : string) : string :=
  line ("Changing power management limit is not supported for GPU: " +:+ bus +:+ ".").

Definition wattsText (mw : float64) : string := Format2 (fdiv mw (fofZ 1000)).

(** src/simulator/pkg/hwemu/smi/nvidia.go:501-523 [nvSetPowerLimit] *)
Fixpoint settable (n : nvNode) (mw : float64) (eow : bool) (gpus : list nvGPU) : reply + list (nvGPU * nvLimits) :=
  match gpus with
  | [] => inr []
  | g :: gpus =>
      match limits n g with
      | None => inl nvStateError
      | Some l =>
          if negb (nl_supported l) && eow then inl (nvExitNotAvailable, nvPowerLimitNotSupported (nl_bus l) +:+ terminating)
          else if nl_supported l && (flt mw (nl_lo l) || flt (nl_hi l) mw) then
            inl (nvExitInvalidArgument,
                 line ("Provided power limit " +:+ wattsText mw +:+ " W is not a valid power limit which should be between " +:+
                       wattsText (nl_lo l) +:+ " W and " +:+ wattsText (nl_hi l) +:+ " W for GPU " +:+ nl_bus l) +:+ terminating)
          else match settable n mw eow gpus with inl r => inl r | inr ls => inr ((g, l) :: ls) end
      end
  end.

(** src/simulator/pkg/hwemu/smi/nvidia.go:527-540 [nvSetPowerLimit] *)
Fixpoint writeLimits (mw : float64) (out : string) (gpus : list (nvGPU * nvLimits)) (n : nvNode) : reply * nvNode :=
  match gpus with
  | [] => ((0%Z, out +:+ line "All done."), n)
  | (g, l) :: gpus =>
      if nl_supported l then
        match writeAttr n g "power_limit_mw" (line (Itoa (int_of_float mw))) with
        | None => ((nvExitOther, out +:+ line ("fakesmi: set power limit for GPU " +:+ nl_bus l)), n)
        | Some n =>
            writeLimits mw (out +:+ line ("Power limit for GPU " +:+ nl_bus l +:+ " was set to " +:+ wattsText mw +:+ " W from " +:+
                                          wattsText (nl_old l) +:+ " W.")) gpus n
        end
      else writeLimits mw (out +:+ nvPowerLimitNotSupported (nl_bus l) +:+ movingOn) gpus n
  end.

(** src/simulator/pkg/hwemu/smi/nvidia.go:497-541 [nvSetPowerLimit] *)
Definition nvSetPowerLimit (n : nvNode) (gpus : list nvGPU) (watts : float64) (eow : bool) : reply * nvNode :=
  let mw := fround (fmul watts (fofZ 1000)) in
  match settable n mw eow gpus with
  | inl r => (r, n)
  | inr l =>
      match find (fun gl => nl_supported gl.2) l with
      | Some (_, lim) =>
          if nn_Unprivileged n then (nvNoPermission "Changing power management limit" (nl_bus lim), n) else writeLimits mw "" l n
      | None => writeLimits mw "" l n
      end
  end.

(** src/simulator/pkg/hwemu/smi/nvidia.go:730-742 [nvApplicationsClocks] *)
Definition nvApplicationsClocks (n : nvNode) (gpus : list nvGPU) (reset : bool) : reply :=
  match g ← head gpus; field n g "pci_bus_id" with
  | None => nvStateError
  | Some bus =>
      (nvExitNotAvailable,
       line ((if reset then "Resetting applications clocks" else "Setting applications clocks") +:+ " is not supported for GPU " +:+ bus +:+
             ": Requested functionality has been deprecated") +:+ terminating)
  end.

(** ** A call *)

(** src/simulator/pkg/hwemu/smi/nvidia.go:309-336 [runNvidiaSMI] *)
Definition answerRequest (n : nvNode) (attached : nat) (gpus : list nvGPU) (req : nvRequest) (eow : bool) : reply * nvNode :=
  match req with
  | RList => (nvList n gpus, n)
  | RQuery fields header units => (nvQuery n gpus fields header units, n)
  | RClocks => (nvSupportedClocks n attached gpus, n)
  | RPersistence word => nvSetPersistenceMode n gpus word
  | RLock cmd => nvSetLock n gpus cmd eow
  | RApplications reset => (nvApplicationsClocks n gpus reset, n)
  | RPowerLimit watts => nvSetPowerLimit n gpus watts eow
  end.

Definition helpText : string :=
  line "nvidia-smi emulated by fakesmi. Options: -L, --query-gpu=FIELDS --format=csv[,noheader][,nounits], -q -d SUPPORTED_CLOCKS, -pl WATTS, -pm 0|1, -lgc MIN[,MAX] [-m 0|1], -rgc, -lmc MIN[,MAX], -rmc, -ac MEM,GRAPHICS, -rac, -i ID, -eow".

Definition noDriver : reply :=
  (nvExitDriver, line "NVIDIA-SMI has failed because it couldn't communicate with the NVIDIA driver. Make sure that the latest NVIDIA driver is installed and running.").

(** The GPUs of a call, then its answer.
    src/simulator/pkg/hwemu/smi/nvidia.go:288-307 [runNvidiaSMI] *)
Definition runRequest (n : nvNode) (o : nvOpts) (req : nvRequest) : reply * nvNode :=
  match nvmlGPUs n with
  | None => (noDriver, n)
  | Some all =>
      match (if seen o "ids" then nvSelect n all (valueOf o "ids") else Some all) with
      | None => (nvStateError, n)
      | Some [] => ((nvExitNotFound, line "No devices were found"), n)
      | Some gpus => answerRequest n (length all) gpus req (seen o "eow")
      end
  end.

(** src/simulator/pkg/hwemu/smi/nvidia.go:113-337 [runNvidiaSMI] *)
Definition runNvidiaSMI (args : list string) (n : nvNode) : reply * nvNode :=
  if negb (String.eqb (nn_variant n) nvVariantDefault) then (unknownVariant (nn_variant n), n)
  else
    match nvOptions args [] with
    | inl r => (r, n)
    | inr o =>
        if seen o "help" then ((0%Z, helpText), n)
        else
          match badCombination o with
          | Some r => (r, n)
          | None =>
              match requestOf o with
              | inl r => (r, n)
              | inr req => runRequest n o req
              end
          end
    end.

(** The tool as the agent runs it: its output, or the error that holds it.
    src/cmd/agent/main.go:1514-1526 [runCommand] *)
Definition runCommand (args : list string) (n : nvNode) : option WriteError * string * nvNode :=
  let '((code, out), n) := runNvidiaSMI args n in
  if (code =? 0)%Z then (None, out, n)
  else (Some {| we_errno := None; we_notFound := false; we_exitCode := Some code;
                we_text := "nvidia-smi " +:+ Join args " " +:+ " failed: exit status " +:+ Itoa code +:+ " (" +:+ TrimSpace out +:+ ")" |},
        "", n).
End Tool.

(** ** Text *)

(** No letter p right after another: text that says nothing is not supported. *)
Definition isP (a : ascii) : bool := Ascii.eqb (lower_ascii a) "p".

Fixpoint noPP (l : list ascii) : bool :=
  match l with
  | a :: (b :: _) as r => negb (isP a && isP b) && noPP r
  | _ => true
  end.

Definition endsFree (l : list ascii) : bool := match last l with Some a => negb (isP a) | None => true end.

Lemma noPP_cons a l : noPP (a :: l) = true -> noPP l = true.
Proof. destruct l; [done|]. cbn [noPP]. by intros [_ ?]%andb_true_iff. Qed.

Lemma noPP_app l r : noPP l = true -> noPP r = true -> endsFree l = true -> noPP (l ++ r) = true.
Proof.
  induction l as [|a [|b l] IH]; intros Hl Hr He; [done| |].
  - destruct r as [|b r]; [done|]. change (noPP ([a] ++ b :: r)) with (negb (isP a && isP b) && noPP (b :: r)). rewrite Hr, andb_true_r.
    unfold endsFree in He. cbn [last] in He. by apply negb_true_iff in He as ->.
  - change (noPP ((a :: b :: l) ++ r)) with (negb (isP a && isP b) && noPP ((b :: l) ++ r)).
    change (noPP (a :: b :: l)) with (negb (isP a && isP b) && noPP (b :: l)) in Hl. apply andb_true_iff in Hl as [-> Hl].
    rewrite IH; [done..|exact He].
Qed.

Lemma noPP_free l : Forall (fun a => isP a = false) l -> noPP l = true /\ endsFree l = true.
Proof.
  intros H. split.
  - induction H as [|a l Ha Hl IH]; [done|]. destruct l; [done|]. cbn [noPP] in *. by rewrite Ha.
  - unfold endsFree. destruct (last l) as [a|] eqn:E; [|done]. apply last_Some_elem_of in E. rewrite Forall_forall in H. by rewrite H.
Qed.

Definition quiet (s : string) : Prop := noPP (list_ascii_of_string s) = true.
Definition quietEnd (s : string) : Prop := quiet s /\ endsFree (list_ascii_of_string s) = true.

Lemma quiet_app s t : quietEnd s -> quiet t -> quiet (s +:+ t).
Proof. intros [H1 H2] H3. unfold quiet. rewrite list_ascii_app. by apply noPP_app. Qed.

Lemma substring_quiet i k s : quiet s -> quiet (String.substring i k s).
Proof.
  unfold quiet. revert i k. induction s as [|a s IH]; intros i k Hs; [by destruct i, k|].
  pose proof (noPP_cons _ _ Hs) as Ht. destruct i as [|i]; cbn [String.substring]; [|by apply IH]. destruct k as [|k]; [done|].
  specialize (IH 0%nat k Ht). cbn [list_ascii_of_string]. destruct k as [|k]; [by destruct s|]. destruct s as [|b s]; [done|].
  cbn [String.substring list_ascii_of_string noPP] in *. apply andb_true_iff in Hs as [-> _]. by rewrite IH.
Qed.

Lemma isP_lower a : isP (lower_ascii a) = isP a.
Proof. by destruct a as [[] [] [] [] [] [] [] []]. Qed.

Lemma quiet_lower s : quiet s -> quiet (ToLower s).
Proof.
  unfold quiet, ToLower. rewrite list_ascii_of_string_of_list_ascii. generalize (list_ascii_of_string s). clear s.
  induction l as [|a [|b l] IH]; intros H; [done..|].
  change (noPP (map lower_ascii (a :: b :: l))) with
    (negb (isP (lower_ascii a) && isP (lower_ascii b)) && noPP (map lower_ascii (b :: l))).
  cbn [noPP] in H. apply andb_true_iff in H as [H1 H2]. by rewrite !isP_lower, H1, IH.
Qed.

Lemma quiet_supported s : quiet s -> Contains (ToLower s) "not supported" = false.
Proof.
  intros H%quiet_lower. unfold Contains. destruct (String.index 0 _ (ToLower s)) as [m|] eqn:E; [|done].
  apply String.index_correct1 in E. apply (substring_quiet m (String.length "not supported")) in H. rewrite E in H. done.
Qed.

(** The lines of quiet text are quiet. *)
Lemma split_byte_quiet sep l : noPP l = true ->
  Forall (fun w => noPP w = true) (split_byte sep l) /\ exists w ws, split_byte sep l = w :: ws /\ head w = (if bool_decide (head l = Some sep) then None else head l).
Proof.
  induction l as [|a l IH]; intros Hl; [cbn; split; [by repeat constructor|by exists [], []]|].
  destruct (IH (noPP_cons _ _ Hl)) as [IHq (w & ws & E & Eh)]. cbn [split_byte]. rewrite E in *. destruct (Ascii.eqb_spec a sep) as [->|Hne].
  - split; [by constructor|]. exists [], (w :: ws). split; [done|]. by rewrite bool_decide_true.
  - apply Forall_cons in IHq as [Hw Hws]. split; [constructor; [|done]|].
    + destruct w as [|b w]; [done|]. change (noPP (a :: b :: w)) with (negb (isP a && isP b) && noPP (b :: w)).
      rewrite Hw, andb_true_r. destruct l as [|c l]; [by destruct (bool_decide _)|].
      cbn [head] in Eh. destruct (bool_decide _); [done|]. injection Eh as ->. cbn [noPP] in Hl. by apply andb_true_iff in Hl as [-> _].
    + exists (a :: w), ws. split; [done|]. cbn [head]. by rewrite bool_decide_false by congruence.
Qed.

Lemma quiet_run cmd out : quiet out -> ClassifyRun cmd None out = (GovernorResultApplied, "").
Proof.
  intros H. unfold ClassifyRun. destruct (find _ _) as [ln|] eqn:E; [|done]. exfalso.
  apply find_some in E as [Hin Hc]. apply list_elem_of_In in Hin. unfold Split in Hin. apply list_elem_of_fmap in Hin as (l & -> & Hl).
  destruct (split_byte_quiet newline _ H) as [Hq _]. rewrite Forall_forall in Hq. specialize (Hq l Hl).
  rewrite quiet_supported in Hc; [done|]. unfold quiet. by rewrite list_ascii_of_string_of_list_ascii.
Qed.

Lemma index_app s t u : t <> "" -> String.index 0 t (s +:+ (t +:+ u)) <> None.
Proof.
  intros Hne E. apply (String.index_correct3 0 (String.length s) t) in E; [|done|lia]. apply E. clear E Hne.
  induction s as [|a s IH]; [|exact IH]. change (String.substring 0 (String.length t) (t +:+ u) = t).
  induction t as [|b t IH]; [by destruct u|]. change (String b (String.substring 0 (String.length t) (t +:+ u)) = String b t). by rewrite IH.
Qed.

Lemma ToLower_app s t : ToLower (s +:+ t) = ToLower s +:+ ToLower t.
Proof. unfold ToLower. rewrite list_ascii_app, map_app. apply string_of_app. Qed.

(** A line that says so makes a run unsupported. *)
Lemma loud_run cmd s t rest : Forall (fun a => a <> newline) (list_ascii_of_string (s +:+ " is not supported" +:+ t)) ->
  (ClassifyRun cmd None (line (s +:+ " is not supported" +:+ t) +:+ rest)).1 = GovernorResultUnsupported.
Proof.
  intros Hf. set (m := s +:+ " is not supported" +:+ t) in *. assert (Contains (ToLower m) "not supported" = true) as Hc.
  { unfold m, Contains. rewrite !ToLower_app. change (ToLower " is not supported") with (" is " +:+ "not supported").
    pose proof (index_app (ToLower s +:+ " is ") "not supported" (ToLower t)) as H. rewrite !app_assoc_string in *.
    destruct (String.index _ _ _); [done|]. by destruct H. }
  clearbody m. unfold ClassifyRun, Split, line. rewrite list_ascii_app, (list_ascii_app m), <- app_assoc.
  cbn [list_ascii_of_string app]. rewrite split_byte_app by done. cbn [fmap list_fmap find].
  rewrite string_of_list_ascii_of_string. by rewrite Hc.
Qed.

(** ** Bus ids *)

Lemma bus_plain a : busChar a = true -> plain_char a /\ a <> ","%char /\ a <> newline /\ isP a = false.
Proof. unfold plain_char. by destruct a as [[] [] [] [] [] [] [] []]; intros [=]; vm_compute. Qed.

Lemma isBus_all bus (P : ascii -> Prop) : (forall a, busChar a = true -> P a) -> isBus bus -> Forall P (list_ascii_of_string bus).
Proof. intros H [Hb _]. eapply Forall_impl; [exact Hb|]. exact H. Qed.

Lemma isBus_TrimSpace bus : isBus bus -> TrimSpace bus = bus.
Proof. intros H. apply TrimSpace_plain, (isBus_all bus _); [|done]. intros a Ha. by apply bus_plain. Qed.

Lemma Split_isBus bus : isBus bus -> Split bus "," = [bus].
Proof.
  intros H. unfold Split. rewrite split_byte_free.
  - cbn. by rewrite string_of_list_ascii_of_string.
  - apply (isBus_all bus _); [|done]. intros a Ha. by apply bus_plain.
Qed.

Lemma uint_of_string_digits s u : NilEmpty.uint_of_string s = Some u -> is_digit_string s.
Proof.
  revert u. induction s as [|a s IH]; intros u; [by constructor|]. cbn [NilEmpty.uint_of_string].
  destruct (NilEmpty.uint_of_string s) as [v|] eqn:E; [|by destruct a as [[] [] [] [] [] [] [] []]].
  intros H. constructor; [|by apply (IH v)]. by destruct a as [[] [] [] [] [] [] [] []].
Qed.

Lemma Atoi_isBus bus : isBus bus -> Atoi bus = None.
Proof.
  intros [Hb Hc]. assert (NilZero.uint_of_string bus = None) as Hu.
  { destruct bus as [|a r]; [done|]. destruct (NilZero.uint_of_string _) as [u|] eqn:E; [|done].
    change (NilEmpty.uint_of_string (String a r) = Some u) in E. apply uint_of_string_digits in E.
    unfold is_digit_string in E. rewrite Forall_forall in E. by apply E in Hc. }
  destruct bus as [|a r]; [done|]. apply Forall_cons in Hb as [Ha _].
  by destruct a as [[] [] [] [] [] [] [] []]; try done; unfold Atoi; rewrite Hu.
Qed.

Definition busUpper (a : ascii) : ascii :=
  if ((97 <=? byte_of a) && (byte_of a <=? 102))%N then ascii_of_N (byte_of a - 32) else a.

Lemma busUpper_lower a : busChar a = true -> busUpper (lower_ascii a) = a.
Proof. by destruct a as [[] [] [] [] [] [] [] []]; intros [=]; vm_compute. Qed.

Lemma EqualFold_isBus a b : isBus a -> isBus b -> EqualFold a b = String.eqb a b.
Proof.
  intros [Ha _] [Hb _]. destruct (String.eqb_spec a b) as [->|Hne]; [apply String.eqb_refl|]. apply String.eqb_neq.
  intros E. apply Hne. clear Hne. apply list_ascii_inj.
  apply (f_equal (fun s => busUpper <$> list_ascii_of_string s)) in E. unfold ToLower in E.
  rewrite !list_ascii_of_string_of_list_ascii in E. rewrite <- !list_fmap_compose in E.
  assert (forall l, Forall (fun a => busChar a = true) l -> busUpper ∘ lower_ascii <$> l = l) as Hid.
  { induction 1 as [|x l Hx _ IH]; [done|]. cbn. by rewrite busUpper_lower, IH. }
  by rewrite !Hid in E.
Qed.

Lemma EqualFold_uuid bus uuid : isBus bus -> ":"%char ∉ list_ascii_of_string uuid -> EqualFold bus uuid = false.
Proof.
  intros [_ Hc] Hu. apply String.eqb_neq. intros E. apply Hu.
  apply (f_equal list_ascii_of_string) in E. unfold ToLower in E. rewrite !list_ascii_of_string_of_list_ascii in E.
  assert (":"%char ∈ lower_ascii <$> list_ascii_of_string bus) as H by (apply list_elem_of_fmap; by exists ":"%char).
  change (map lower_ascii) with (fmap (M := list) lower_ascii) in E. rewrite E in H. apply list_elem_of_fmap in H as (a & Ea & Ha).
  by destruct a as [[] [] [] [] [] [] [] []]; try discriminate Ea.
Qed.

(** ** Nodes *)

Lemma content_writeAttr n g file value n' g' file' : writeAttr n g file value = Some n' ->
  content n' g' file' = (if decide (nvg_Dir g' = nvg_Dir g /\ file' = file) then Some value else content n g' file').
Proof.
  unfold writeAttr, field. destruct (content n g file) as [old|] eqn:E; [|done]. intros [= <-]. unfold content in *. cbn [nn_dirs].
  destruct (nn_dirs n) as [dirs|]; [|done]. cbn [mbind option_bind fmap option_fmap option_map] in *.
  destruct (dirs !! nvg_Dir g) as [dir|] eqn:Ed; [|done]. cbn [mbind option_bind] in E.
  destruct (decide (nvg_Dir g' = nvg_Dir g)) as [->|Hne].
  - rewrite lookup_alter_eq, Ed. cbn. destruct (decide (file' = file)) as [->|Hf].
    + rewrite decide_True by done. by rewrite lookup_insert_eq.
    + rewrite decide_False by (by intros [_ ?]). by rewrite lookup_insert_ne.
  - rewrite decide_False by (by intros [? _]). by rewrite lookup_alter_ne.
Qed.

Lemma field_writeAttr n g file value n' g' file' : writeAttr n g file value = Some n' ->
  field n' g' file' = (if decide (nvg_Dir g' = nvg_Dir g /\ file' = file) then Some (TrimNewlines value) else field n g' file').
Proof. intros H. unfold field. rewrite (content_writeAttr _ _ _ _ _ g' file' H). by destruct (decide _). Qed.

Definition dirAt (n : nvNode) (name : string) : option gpuDir := dirs ← nn_dirs n; dirs !! name.

Lemma writeAttr_dirs n g file value n' name : writeAttr n g file value = Some n' ->
  is_Some (dirAt n' name) <-> is_Some (dirAt n name).
Proof.
  unfold writeAttr. destruct (field n g file); [|done]. intros [= <-]. unfold dirAt. cbn [nn_dirs].
  destruct (nn_dirs n) as [dirs|]; [|done]. cbn [mbind option_bind fmap option_fmap option_map].
  destruct (decide (name = nvg_Dir g)) as [->|Hne]; [|by rewrite lookup_alter_ne].
  rewrite lookup_alter_eq. by rewrite fmap_is_Some.
Qed.

Definition isGPU (n : nvNode) (g : nvGPU) : Prop := gpuIndex (nvg_Dir g) = Some (nvg_Index g) /\ is_Some (dirAt n (nvg_Dir g)).

Lemma nvmlGPUs_elem n gpus g : nvmlGPUs n = Some gpus -> g ∈ gpus <-> isGPU n g.
Proof.
  unfold nvmlGPUs, isGPU, dirAt. destruct (nn_dirs n) as [dirs|]; [|done]. cbn [mbind option_bind]. intros [= <-].
  rewrite sort_slice_perm, list_elem_of_omap. split.
  - intros (name & Hin & E). apply list_elem_of_fmap in Hin as ([k dir] & -> & Hd%elem_of_map_to_list).
    cbn [fst] in E. destruct (gpuIndex k) as [i|] eqn:Ei; [|done]. injection E as <-. cbn [nvg_Dir nvg_Index fst] in *. eauto.
  - intros [Hi [dir Hd]]. exists (nvg_Dir g). split.
    + apply list_elem_of_fmap. exists (nvg_Dir g, dir). split; [done|]. by apply elem_of_map_to_list.
    + rewrite Hi. by destruct g.
Qed.

(** What a lock file holds: no lock, a GPU without the lock, or its bounds. *)
Definition lockFiles : list string := [NVMLLockedGPUClocksFile; NVMLLockedMemClocksFile].
Definition lockText (s : string) : Prop :=
  s = nvLockNone \/ s = nvTokenNA \/ exists lo hi, (0 < lo <= hi)%Z /\ in_int64 hi /\ s = lockArg (lo, hi).

(** A rendered node: every GPU has a bus id of its own and a UUID, which holds
    no colon, and its lock files hold locks. *)
Definition wfNode (n : nvNode) : Prop :=
  (forall g, isGPU n g -> exists uuid bus, field n g "uuid" = Some uuid /\ ":"%char ∉ list_ascii_of_string uuid /\
     field n g "pci_bus_id" = Some bus /\ isBus bus) /\
  (forall g g', isGPU n g -> isGPU n g' -> field n g "pci_bus_id" = field n g' "pci_bus_id" -> g = g') /\
  (forall g file raw, isGPU n g -> file ∈ lockFiles -> content n g file = Some raw -> exists s, raw = line s /\ lockText s).

(** What a command writes. *)
Definition agentWrite (file value : string) : Prop :=
  file ∈ ["power_limit_mw"; NVMLPersistenceModeFile] \/ (file ∈ lockFiles /\ exists s, value = line s /\ lockText s).

Lemma lockFiles_apart file : file ∈ lockFiles -> file ∉ ["power_limit_mw"; NVMLPersistenceModeFile].
Proof. unfold lockFiles. intros [-> |[-> |[]%not_elem_of_nil]%elem_of_cons]%elem_of_cons; by_decide. Qed.

Lemma agentWrite_identity file value : agentWrite file value -> file <> "uuid" /\ file <> "pci_bus_id".
Proof. intros H. split; intros ->; revert H; unfold agentWrite, lockFiles; (intros [H|[H _]]; revert H; by_decide). Qed.

Lemma isGPU_writeAttr n g file value n' g' : writeAttr n g file value = Some n' -> isGPU n' g' <-> isGPU n g'.
Proof. intros H. unfold isGPU. by rewrite (writeAttr_dirs _ _ _ _ _ (nvg_Dir g') H). Qed.

Lemma writeAttr_wf n g file value n' : agentWrite file value -> wfNode n -> writeAttr n g file value = Some n' -> wfNode n'.
Proof.
  intros Ha (H1 & H2 & H3) Hw. destruct (agentWrite_identity file value Ha) as [Hu Hb].
  assert (forall g' f, f <> file -> field n' g' f = field n g' f) as Hf.
  { intros g' f Hne. rewrite (field_writeAttr _ _ _ _ _ g' f Hw), decide_False; [done|]. by intros [_ ?]. }
  split_and!.
  - intros g' Hg'%(isGPU_writeAttr _ _ _ _ _ g' Hw). rewrite !Hf by done. by apply H1.
  - intros g1 g2 Hg1%(isGPU_writeAttr _ _ _ _ _ g1 Hw) Hg2%(isGPU_writeAttr _ _ _ _ _ g2 Hw). rewrite !Hf by done. by apply H2.
  - intros g' f raw Hg'%(isGPU_writeAttr _ _ _ _ _ g' Hw) Hin. rewrite (content_writeAttr _ _ _ _ _ g' f Hw).
    destruct (decide _) as [[_ ->]|_]; [|by apply H3]. intros [= <-]. destruct Ha as [Ha|[_ Hs]]; [|done].
    by apply lockFiles_apart in Hin.
Qed.

(** The GPU with a bus id, and the locks its files hold. *)
Definition gpuAt (n : nvNode) (bus : string) : option nvGPU :=
  find (fun g => bool_decide (field n g "pci_bus_id" = Some bus)) (default [] (nvmlGPUs n)).

Definition fileLock (n : nvNode) (g : nvGPU) (file : string) : option (Z * Z) := s ← field n g file; parseLockArg s.

Definition nodeLocks (n : nvNode) (bus : string) : option (Z * Z) * option (Z * Z) :=
  match gpuAt n bus with
  | Some g => (fileLock n g NVMLLockedGPUClocksFile, fileLock n g NVMLLockedMemClocksFile)
  | None => (None, None)
  end.

Lemma gpuAt_spec n bus g : wfNode n -> gpuAt n bus = Some g <-> isGPU n g /\ field n g "pci_bus_id" = Some bus.
Proof.
  intros (_ & Hwf & _). unfold gpuAt. destruct (nvmlGPUs n) as [gpus|] eqn:E.
  - cbn [default from_option id]. assert (forall g, g ∈ gpus <-> isGPU n g) as Hg by (intros; by apply nvmlGPUs_elem). split.
    + intros [Hin Hb]%find_some. apply bool_decide_eq_true in Hb. split; [|done]. by apply Hg, list_elem_of_In.
    + intros [Hi Hb]. apply find_unique; [by apply Hg|by apply bool_decide_eq_true|].
      intros g' Hg'%Hg Hb'%bool_decide_eq_true. apply Hwf; [done..|]. congruence.
  - cbn. split; [done|]. intros [[_ Hd] _]. unfold nvmlGPUs, dirAt in *. destruct (nn_dirs n); [done|]. by destruct Hd.
Qed.

Lemma gpuAt_keeps n n' bus : wfNode n -> wfNode n' -> (forall g, isGPU n' g <-> isGPU n g) ->
  (forall g, field n' g "pci_bus_id" = field n g "pci_bus_id") -> gpuAt n' bus = gpuAt n bus.
Proof.
  intros H H' Hi Hf. apply option_eq. intros g. by rewrite !gpuAt_spec, Hi, Hf by done.
Qed.

(** ** A lock command on a bus id *)

Lemma findGPU_bus n bus gpus : wfNode n -> isBus bus -> (forall g, g ∈ gpus -> isGPU n g) ->
  findGPU n bus gpus = Some (find (fun g => bool_decide (field n g "pci_bus_id" = Some bus)) gpus).
Proof.
  intros (Hwf & _) Hb. induction gpus as [|g gpus IH]; intros Hg; [done|]. cbn [findGPU find]. rewrite (Atoi_isBus bus) by done.
  destruct (Hwf g) as (uuid & bus' & -> & Hu & -> & Hb'); [apply Hg; left|]. cbn [mbind option_bind].
  rewrite EqualFold_uuid, EqualFold_isBus by done. cbn [orb]. destruct (String.eqb_spec bus bus') as [->|Hne].
  - by rewrite bool_decide_true.
  - rewrite bool_decide_false by congruence. apply IH. intros g' Hin. apply Hg. by right.
Qed.

Lemma nvSelect_bus n all bus : wfNode n -> isBus bus -> nvmlGPUs n = Some all ->
  nvSelect n all bus = Some (match gpuAt n bus with Some g => [g] | None => [] end).
Proof.
  intros Hwf Hb Hall. unfold nvSelect. rewrite Split_isBus by done. cbn [selectIds]. rewrite isBus_TrimSpace by done.
  rewrite findGPU_bus by (try done; intros g; by rewrite (nvmlGPUs_elem n all g Hall)). cbn [mbind option_bind].
  unfold gpuAt. rewrite Hall. cbn [default from_option id]. by destruct (find _ all).
Qed.

Lemma quietEnd_app s t : quietEnd s -> quietEnd t -> quietEnd (s +:+ t).
Proof.
  intros Hs [Ht Et]. split; [by apply quiet_app|]. destruct Hs as [_ Es]. unfold endsFree in *. rewrite list_ascii_app, last_app.
  by destruct (last (list_ascii_of_string t)).
Qed.

Lemma quietEnd_free s : Forall (fun a => isP a = false) (list_ascii_of_string s) -> quietEnd s.
Proof. apply noPP_free. Qed.

Lemma quietEnd_line s : quietEnd s -> quietEnd (line s).
Proof. intros H. apply quietEnd_app; [done|by split]. Qed.

Lemma quietEnd_Itoa z : quietEnd (Itoa z).
Proof.
  apply quietEnd_free. pose proof (plain_Itoa z) as Hp. unfold Itoa. destruct (Z.to_int z) as [d|d].
  - eapply Forall_impl; [apply NilZero_string_digits|]. intros a. by destruct a as [[] [] [] [] [] [] [] []].
  - cbn. constructor; [done|]. eapply Forall_impl; [apply NilZero_string_digits|]. intros a. by destruct a as [[] [] [] [] [] [] [] []].
Qed.

Lemma quietEnd_bus bus : isBus bus -> quietEnd bus.
Proof. intros H. apply quietEnd_free, (isBus_all bus _); [|done]. intros a Ha. by apply bus_plain. Qed.

(** The commands the agent runs, and what is printed for them. *)
Definition lockCmd (cmd : nvLockCmd) : Prop :=
  (exists lo hi, ((0 < lo <= hi)%Z /\ in_int64 hi) /\ (cmd = lgcCmd lo hi \/ cmd = lmcCmd lo hi)) \/ cmd = rgcCmd \/ cmd = rmcCmd.

Ltac quiet := repeat (apply quietEnd_app); try apply quietEnd_Itoa; try (by apply quietEnd_bus); try (by split).

Lemma lockCmd_quiet cmd bus : lockCmd cmd -> isBus bus -> quietEnd (lc_done cmd (lc_lo cmd) (lc_hi cmd) bus).
Proof.
  intros [(lo & hi & _ & [-> | ->])|[-> | ->]] Hb; cbn [lc_done lc_lo lc_hi lgcCmd lmcCmd rgcCmd rmcCmd]; unfold clocksSet, clocksReset, quoted;
    rewrite ?app_assoc_string; quiet.
Qed.

Lemma lockCmd_action cmd bus : lockCmd cmd -> isBus bus ->
  Forall (fun a => a <> newline) (list_ascii_of_string (lc_action cmd +:+ " is not supported" +:+ (" for GPU " +:+ bus +:+ "."))).
Proof.
  intros Hc Hb. rewrite !list_ascii_app, !Forall_app. split_and!; try by_decide.
  - destruct Hc as [(lo & hi & _ & [-> | ->])|[-> | ->]]; cbn [lc_action lgcCmd lmcCmd rgcCmd rmcCmd]; by_decide.
  - apply (isBus_all bus _); [|done]. intros a Ha. by apply bus_plain.
Qed.

Lemma lockCmd_file cmd : lockCmd cmd -> lc_file cmd ∈ lockFiles.
Proof. unfold lockFiles. intros [(lo & hi & _ & [-> | ->])|[-> | ->]]; by_decide. Qed.

Lemma lockCmd_text cmd : lockCmd cmd -> lockText (lockValue cmd).
Proof.
  unfold lockValue, lockText. intros [(lo & hi & Hr & Hc)|[-> | ->]]; [|by left..]. right. right. exists lo, hi.
  destruct Hc as [-> | ->]; cbn [lc_lo lc_hi lgcCmd lmcCmd]; (destruct (Z.ltb_spec 0 hi); [|lia]); (split; [lia|]); by split; [apply Hr|].
Qed.

Lemma lockCmd_write cmd : lockCmd cmd -> agentWrite (lc_file cmd) (line (lockValue cmd)).
Proof. intros H. right. split; [by apply lockCmd_file|]. exists (lockValue cmd). split; [done|by apply lockCmd_text]. Qed.

(** The lock of one GPU: written and reported, or refused with the state as it
    was. *)
Lemma nvSetLock_one n g bus cmd : lockCmd cmd -> isBus bus -> field n g "pci_bus_id" = Some bus ->
  let '((code, out), n') := nvSetLock n [g] cmd false in
  (code = 0%Z /\ quiet out /\ writeAttr n g (lc_file cmd) (line (lockValue cmd)) = Some n') \/
  (n' = n /\ (code <> 0%Z \/ forall c, (ClassifyRun c None out).1 = GovernorResultUnsupported)).
Proof.
  intros Hc Hb Hbus. unfold nvSetLock. cbn [lockable]. rewrite Hbus. destruct (field n g (lc_file cmd)) as [cur|] eqn:Ef; [|right; by split; [|left]].
  rewrite andb_false_r. destruct (String.eqb (TrimSpace cur) nvTokenNA); cbn [negb find snd].
  - right. cbn [writeLocks]. split; [done|]. right. intros c. cbn [String.append].
    pose proof (loud_run c (lc_action cmd) (" for GPU " +:+ bus +:+ ".") (movingOn +:+ line "All done.") (lockCmd_action cmd bus Hc Hb)) as H.
    rewrite <- H. do 2 f_equal. rewrite !app_assoc_string. done.
  - destruct (nn_Unprivileged n); [right; split; [done|by left]|]. cbn [writeLocks].
    destruct (writeAttr n g (lc_file cmd) (line (lockValue cmd))) as [n'|] eqn:Ew.
    + left. split; [done|]. split; [|done]. cbn [String.append]. apply quiet_app; [by apply quietEnd_line, lockCmd_quiet|done].
    + unfold writeAttr in Ew. by rewrite Ef in Ew.
Qed.

Lemma runRequest_lock {P F T} n o cmd bus : wfNode n -> isBus bus -> lockCmd cmd -> seen o "ids" = true -> valueOf o "ids" = bus -> seen o "eow" = false ->
  let '((code, out), n') := runRequest P F T n o (RLock cmd) in
  (code = 0%Z /\ quiet out /\ exists g, gpuAt n bus = Some g /\ writeAttr n g (lc_file cmd) (line (lockValue cmd)) = Some n') \/
  (n' = n /\ (code <> 0%Z \/ forall c, (ClassifyRun c None out).1 = GovernorResultUnsupported)).
Proof.
  intros Hwf Hb Hc Hi Hv He. unfold runRequest. destruct (nvmlGPUs n) as [all|] eqn:Hall; [|right; by split; [|left]].
  rewrite Hi, Hv, (nvSelect_bus n all bus Hwf Hb Hall). destruct (gpuAt n bus) as [g|] eqn:Eg; [|right; by split; [|left]].
  cbn [answerRequest]. rewrite He. apply (gpuAt_spec n bus g Hwf) in Eg as [Hg Hbus].
  pose proof (nvSetLock_one n g bus cmd Hc Hb Hbus) as H. destruct (nvSetLock n [g] cmd false) as [[code out] n'].
  destruct H as [(H1 & H2 & H3)|H]; [left|by right]. eauto.
Qed.

(** ** Every call *)

Section Calls.
Context (ParseFloat : string -> option float64) (Format2 : float64 -> string) (timestamp : string).
Notation run := (runNvidiaSMI ParseFloat Format2 timestamp).

(** What the agent's writes keep, a call keeps. *)
Lemma writeLocks_kept (K : nvNode -> Prop) cmd value out l n :
  (forall n g n', K n -> writeAttr n g (lc_file cmd) (line value) = Some n' -> K n') -> K n -> K (writeLocks cmd value out l n).2.
Proof.
  intros Hw. revert out n. induction l as [|[[g bus] []] l IH]; intros out n Hn; cbn [writeLocks]; [done| |by apply IH].
  destruct (writeAttr n g _ _) as [n'|] eqn:E; [|done]. apply IH. by apply (Hw n g).
Qed.

Lemma answerRequest_kept (K : nvNode -> Prop) n attached gpus req eow :
  (forall n g file value n', agentWrite file value -> K n -> writeAttr n g file value = Some n' -> K n') ->
  (forall cmd, req = RLock cmd -> lockCmd cmd) ->
  K n -> K (answerRequest ParseFloat Format2 timestamp n attached gpus req eow).2.
Proof.
  intros Hw Hcmd Hn. destruct req as [|fields header units| |watts|word|cmd|reset]; cbn [answerRequest]; try done.
  - unfold nvSetPowerLimit. destruct (settable _ _ _ _ _ _) as [r|l]; [done|].
    assert (forall mw out n, K n -> K (writeLimits Format2 mw out l n).2) as Hl.
    { clear n Hn. induction l as [|[g lim] l IH]; intros mw out n Hn; cbn [writeLimits]; [done|]. destruct (nl_supported lim); [|by apply IH].
      destruct (writeAttr n g _ _) as [n'|] eqn:E; [|done]. apply IH. eapply (Hw n g); [|done|done]. left. by_decide. }
    destruct (find _ _) as [[g lim]|]; [destruct (nn_Unprivileged n); [done|]|]; by apply Hl.
  - unfold nvSetPersistenceMode. destruct (mapM _ gpus) as [l|]; [|done]. destruct (nn_Unprivileged n); [done|].
    generalize "". revert n Hn. induction l as [|[g bus] l IH]; intros n Hn out; cbn [writeModes]; [done|].
    destruct (writeAttr n g _ _) as [n'|] eqn:E; [|done]. apply IH. eapply (Hw n g); [|done|done]. left. by_decide.
  - pose proof (lockCmd_write cmd (Hcmd cmd eq_refl)) as Hf. unfold nvSetLock. destruct (lockable _ _ _ _) as [r|l]; [done|].
    destruct (find _ _) as [[[g bus] b]|]; [destruct (nn_Unprivileged n); [done|]|]; apply writeLocks_kept; eauto.
Qed.

Lemma nvParseClocks_range v lo hi : nvParseClocks v = Some (lo, hi) -> (0 < lo <= hi)%Z /\ in_int64 hi.
Proof.
  unfold nvParseClocks. destruct (Cut v ",") as [[a b] both]. destruct (Atoi (TrimSpace a)); [|done].
  destruct (Atoi _) as [h|] eqn:E; [|done]. destruct ((_ <=? 0)%Z || _) eqn:Er; [done|]. intros [= <- <-].
  apply Atoi_in in E. apply orb_false_iff in Er as [?%Z.leb_gt ?%Z.ltb_ge]. by split; [lia|].
Qed.

Lemma requestOf_lock o cmd : requestOf ParseFloat o = inr (RLock cmd) -> lockCmd cmd.
Proof.
  unfold requestOf, lockCmd. intros H. repeat (case_match; simplify_eq); auto; left;
    match goal with H : nvParseClocks _ = Some (?a, ?b) |- _ => exists a, b; split; [by apply nvParseClocks_range in H|by auto] end.
Qed.

Lemma run_kept (K : nvNode -> Prop) args n :
  (forall n g file value n', agentWrite file value -> K n -> writeAttr n g file value = Some n' -> K n') -> K n -> K (run args n).2.
Proof.
  intros Hw Hn. unfold runNvidiaSMI. destruct (negb _); [done|]. destruct (nvOptions args []) as [r|o]; [done|].
  destruct (seen o "help"); [done|]. destruct (badCombination o); [done|]. destruct (requestOf ParseFloat o) as [r|req] eqn:Er; [done|].
  unfold runRequest. destruct (nvmlGPUs n) as [all|]; [|done].
  destruct (if seen o "ids" then _ else _) as [[|g gpus]|]; [done| |done]. apply answerRequest_kept; [done| |done].
  intros cmd ->. by apply (requestOf_lock o).
Qed.

Lemma run_wf args n : wfNode n -> wfNode (run args n).2.
Proof. apply run_kept. intros n1 g file value n' Hf Hwf Hw. by apply (writeAttr_wf n1 g file value). Qed.

(** *** Queries *)

Lemma nvOptions_seen args o o' key : nvOptions args o = inr o' -> seen o key = true -> seen o' key = true.
Proof.
  assert (forall k v o, seen o key = true -> seen ((k, v) :: o) key = true) as Hc.
  { intros k v o1 H. unfold seen in *. cbn [existsb]. by rewrite H, orb_true_r. }
  remember (length args) as len eqn:El. revert args El o. induction (lt_wf len) as [len _ IH]. intros args -> o.
  destruct args as [|arg rest]; cbn [nvOptions]; [by intros [= ->]|].
  destruct (if HasPrefix arg "--" then _ else _) as [[name val] hasVal]. destruct (optionOf name) as [[k []]|]; [|..|done].
  - destruct hasVal; [intros H1 H2; eapply (IH (length rest)); [cbn; lia|done|exact H1|by apply Hc]|].
    destruct rest as [|v rest]; [done|]. intros H1 H2. eapply (IH (length rest)); [cbn; lia|done|exact H1|by apply Hc].
  - destruct hasVal; [done|]. intros H1 H2. eapply (IH (length rest)); [cbn; lia|done|exact H1|by apply Hc].
Qed.

Lemma one_action o a b : badCombination o = None -> a ∈ actionKeys -> b ∈ actionKeys -> seen o a = true -> seen o b = true -> a = b.
Proof.
  unfold badCombination. intros H Ha Hb Sa Sb.
  set (l := filter (fun k => seen o k = true) actionKeys) in *.
  assert (a ∈ l /\ b ∈ l) as [La Lb] by (split; by apply list_elem_of_filter).
  assert (length l = 1%nat) as El.
  { destruct (length l) as [|[|k]] eqn:E; [by destruct l; [apply not_elem_of_nil in La|]|done|].
    cbn [Nat.eqb andb negb orb] in H. done. }
  destruct l as [|x [|y l]]; [done| |done]. apply list_elem_of_singleton in La, Lb. congruence.
Qed.

Lemma query_request o req : badCombination o = None -> seen o "query" = true \/ seen o "q" = true ->
  requestOf ParseFloat o = inr req -> (exists fields header units, req = RQuery fields header units) \/ req = RClocks.
Proof.
  intros Hbad Hq. assert (exists k, (k = "query" \/ k = "q") /\ seen o k = true) as (k & Hk & Sk) by (destruct Hq; eauto).
  assert (k ∈ actionKeys) as Ik by (destruct Hk as [-> | ->]; by_decide).
  assert (forall b, b ∈ actionKeys -> b <> k -> seen o b = false) as Hno.
  { intros b Ib Hne. destruct (seen o b) eqn:Eb; [|done]. by destruct Hne; apply (one_action o b k). }
  unfold requestOf. rewrite (Hno "list") by (destruct Hk as [-> | ->]; by_decide).
  destruct Hk as [-> | ->].
  - rewrite Sk. repeat case_match; intros; simplify_eq; eauto.
  - rewrite (Hno "query"), Sk by by_decide. intros [= <-]. by right.
Qed.

Lemma query_options args o : isQuery args = true -> nvOptions args [] = inr o -> seen o "query" = true \/ seen o "q" = true.
Proof.
  destruct args as [|a rest]; [done|]. cbn [isQuery]. intros [Hp|Hq]%orb_true_iff H.
  - left. assert (exists r, a = "--query-gpu=" +:+ r) as [r ->].
    { unfold HasPrefix in Hp. clear H. revert Hp. generalize "--query-gpu=". intros p. revert a.
      induction p as [|c p IH]; intros a Hp; [by exists a|]. destruct a as [|d a]; [done|]. cbn in Hp.
      destruct (ascii_dec c d) as [->|]; [|done]. destruct (IH a Hp) as [r ->]. by exists r. }
    cbn [nvOptions] in H. change (HasPrefix ("--query-gpu=" +:+ r) "--") with true in H. cbv iota in H.
    change ("--query-gpu=" +:+ r) with ("--query-gpu" +:+ String "=" r) in H.
    rewrite (Cut_eq "--query-gpu" r) in H by by_decide. change (optionOf "--query-gpu") with (Some ("query", true)) in H. cbv iota beta in H.
    by apply (nvOptions_seen rest _ o "query") in H.
  - right. apply String.eqb_eq in Hq as ->. cbn [nvOptions] in H. change (HasPrefix "-q" "--") with false in H. cbv iota in H.
    change (optionOf "-q") with (Some ("q", false)) in H. cbv iota beta in H. by apply (nvOptions_seen rest _ o "q") in H.
Qed.

Lemma run_query args n : isQuery args = true -> (run args n).2 = n.
Proof.
  intros Hq. unfold runNvidiaSMI. destruct (negb _); [done|]. destruct (nvOptions args []) as [r|o] eqn:Eo; [done|].
  destruct (seen o "help"); [done|]. destruct (badCombination o) eqn:Eb; [done|]. destruct (requestOf ParseFloat o) as [r|req] eqn:Er; [done|].
  apply (query_request o req Eb (query_options args o Hq Eo)) in Er. unfold runRequest. destruct (nvmlGPUs n) as [all|]; [|done].
  destruct (if seen o "ids" then _ else _) as [[|g gpus]|]; [done| |done]. by destruct Er as [(f & h & u & ->)| ->].
Qed.

(** *** Lock commands *)

Lemma parseClocks_lockArg a b : lock64 (Some (a, b)) ->
  nvParseClocks (lockArg (a, b)) = (if (a <=? 0)%Z || (b <? a)%Z then None else Some (a, b)).
Proof.
  intros [Ha Hb]. unfold nvParseClocks. rewrite lockArg_cut. rewrite !TrimSpace_plain by apply plain_Itoa. by rewrite !Atoi_Itoa.
Qed.

(** A call that changes nothing and does not count as applied. *)
Definition refused (n : nvNode) (r : reply * nvNode) : Prop :=
  r.2 = n /\ (r.1.1 <> 0%Z \/ forall c, (ClassifyRun c None r.1.2).1 = GovernorResultUnsupported).

(** The command behind the words of the agent. *)
Definition cmdOf (args : list string) : option nvLockCmd :=
  match args with
  | [_; _; flag] => Some (if String.eqb flag "-rgc" then rgcCmd else rmcCmd)
  | [_; _; flag; v] => '(lo, hi) ← nvParseClocks v; Some (if String.eqb flag "-lgc" then lgcCmd lo hi else lmcCmd lo hi)
  | _ => None
  end.

Definition ran (n : nvNode) (bus : string) (args : list string) (r : reply * nvNode) : Prop :=
  exists cmd g, cmdOf args = Some cmd /\ lockCmd cmd /\ gpuAt n bus = Some g /\
    writeAttr n g (lc_file cmd) (line (lockValue cmd)) = Some r.2 /\ r.1.1 = 0%Z /\ quiet r.1.2.

Lemma run_request bus args n o cmd : wfNode n -> isBus bus -> lockCmd cmd -> seen o "ids" = true -> valueOf o "ids" = bus -> seen o "eow" = false ->
  cmdOf args = Some cmd -> let r := runRequest ParseFloat Format2 timestamp n o (RLock cmd) in refused n r \/ ran n bus args r.
Proof.
  intros Hwf Hb Hc H1 H2 H3 E. cbv zeta.
  pose proof (runRequest_lock (P := ParseFloat) (F := Format2) (T := timestamp) n o cmd bus Hwf Hb Hc H1 H2 H3) as H.
  destruct (runRequest _ _ _ n o (RLock cmd)) as [[code out] n']. destruct H as [(Hcode & Hq & g & Hg & Hw)|H]; [|by left].
  right. exists cmd, g. done.
Qed.

(** The words of a lock, up to the request. *)
Lemma run_set bus flag v n (mk : Z -> Z -> nvLockCmd) :
  (flag = "-lgc" /\ mk = lgcCmd) \/ (flag = "-lmc" /\ mk = lmcCmd) -> exists o,
  seen o "ids" = true /\ valueOf o "ids" = bus /\ seen o "eow" = false /\
  run ["-i"; bus; flag; v] n =
    (if negb (String.eqb (nn_variant n) nvVariantDefault) then (unknownVariant (nn_variant n), n)
     else match nvParseClocks v with
          | Some (lo, hi) => runRequest ParseFloat Format2 timestamp n o (RLock (mk lo hi))
          | None => (nvInvalidArguments, n)
          end).
Proof.
  intros [[-> ->]|[-> ->]]; [exists [("lgc", v); ("ids", bus)]|exists [("lmc", v); ("ids", bus)]]; (split_and!; [done..|]);
    unfold runNvidiaSMI; (destruct (negb _); [done|]).
  - change (nvOptions ["-i"; bus; "-lgc"; v] []) with (inr (A := reply) [("lgc", v); ("ids", bus)]). cbv iota beta.
    change (requestOf ParseFloat [("lgc", v); ("ids", bus)]) with
      (match nvParseClocks v with Some (lo, hi) => inr (RLock (lgcCmd lo hi)) | None => inl nvInvalidArguments end).
    by destruct (nvParseClocks v) as [[lo hi]|].
  - change (nvOptions ["-i"; bus; "-lmc"; v] []) with (inr (A := reply) [("lmc", v); ("ids", bus)]). cbv iota beta.
    change (requestOf ParseFloat [("lmc", v); ("ids", bus)]) with
      (match nvParseClocks v with Some (lo, hi) => inr (RLock (lmcCmd lo hi)) | None => inl nvInvalidArguments end).
    by destruct (nvParseClocks v) as [[lo hi]|].
Qed.

Lemma run_reset bus flag n cmd : (flag = "-rgc" /\ cmd = rgcCmd) \/ (flag = "-rmc" /\ cmd = rmcCmd) -> exists o,
  seen o "ids" = true /\ valueOf o "ids" = bus /\ seen o "eow" = false /\
  run ["-i"; bus; flag] n =
    (if negb (String.eqb (nn_variant n) nvVariantDefault) then (unknownVariant (nn_variant n), n)
     else runRequest ParseFloat Format2 timestamp n o (RLock cmd)).
Proof.
  intros [[-> ->]|[-> ->]]; [exists [("rgc", ""); ("ids", bus)]|exists [("rmc", ""); ("ids", bus)]]; done.
Qed.

Lemma run_lock bus st args n : wfNode n -> isBus bus -> lockCommand bus st args -> refused n (run args n) \/ ran n bus args (run args n).
Proof.
  intros Hwf Hb Hcmd.
  assert (forall flag a b mk, (flag = "-lgc" /\ mk = lgcCmd) \/ (flag = "-lmc" /\ mk = lmcCmd) -> lock64 (Some (a, b)) ->
    refused n (run ["-i"; bus; flag; lockArg (a, b)] n) \/
    ran n bus ["-i"; bus; flag; lockArg (a, b)] (run ["-i"; bus; flag; lockArg (a, b)] n)) as Hset.
  { intros flag a b mk Hf H64. destruct (run_set bus flag (lockArg (a, b)) n mk Hf) as (o & H1 & H2 & H3 & ->).
    destruct (negb _); [left; split; [done|by left]|]. rewrite parseClocks_lockArg by done.
    destruct ((a <=? 0)%Z || (b <? a)%Z) eqn:Er; [left; split; [done|by left]|].
    apply run_request; [done..| | | | |]; [|done..|].
    - apply orb_false_iff in Er as [Ea%Z.leb_gt Eb%Z.ltb_ge]. left. exists a, b. split; [split; [lia|apply H64]|].
      destruct Hf as [[_ ->]|[_ ->]]; auto.
    - cbn [cmdOf]. rewrite parseClocks_lockArg, Er by done. by destruct Hf as [[-> ->]|[-> ->]]. }
  assert (forall flag cmd, (flag = "-rgc" /\ cmd = rgcCmd) \/ (flag = "-rmc" /\ cmd = rmcCmd) ->
    refused n (run ["-i"; bus; flag] n) \/ ran n bus ["-i"; bus; flag] (run ["-i"; bus; flag] n)) as Hreset.
  { intros flag cmd Hf. destruct (run_reset bus flag n cmd Hf) as (o & H1 & H2 & H3 & ->).
    destruct (negb _); [left; split; [done|by left]|]. apply run_request; [done..| | | | |]; [|done..|].
    - right. destruct Hf as [[_ ->]|[_ ->]]; auto.
    - by destruct Hf as [[-> ->]|[-> ->]]. }
  destruct Hcmd as [[a b] Hl H64|[a b] Hl H64| |]; eauto.
Qed.

(** *** The locks after a command *)

Lemma TrimNewlines_line s : Forall (fun a => a <> newline) (list_ascii_of_string s) -> TrimNewlines (line s) = s.
Proof.
  intros H. unfold TrimNewlines, line. rewrite list_ascii_app, rev_app_distr. cbn [list_ascii_of_string rev app drop_while].
  change (isNewline newline) with true. cbv iota.
  assert (drop_while isNewline (rev (list_ascii_of_string s)) = rev (list_ascii_of_string s)) as ->.
  { apply List.Forall_rev in H. destruct (rev (list_ascii_of_string s)) as [|a l]; [done|]. apply Forall_cons in H as [Ha _].
    cbn [drop_while]. unfold isNewline. by destruct (Ascii.eqb_spec a newline). }
  by rewrite rev_involutive, string_of_list_ascii_of_string.
Qed.

Lemma lockValue_no_newline cmd : Forall (fun a => a <> newline) (list_ascii_of_string (lockValue cmd)).
Proof.
  unfold lockValue. destruct (0 <? lc_hi cmd)%Z; [|by_decide]. destruct (lockArg_plain (lc_lo cmd) (lc_hi cmd)) as [Hp _].
  eapply Forall_impl; [exact Hp|]. intros a [Ha _] ->. vm_compute in Ha. by destruct Ha.
Qed.

Lemma textRun_cmd bus st args cmd g m : lockCommand bus st args -> cmdOf args = Some cmd ->
  textRun args (g, m) = (if String.eqb (lc_file cmd) NVMLLockedGPUClocksFile then (parseLockArg (lockValue cmd), m)
                         else (g, parseLockArg (lockValue cmd))) /\
  lc_file cmd ∈ lockFiles.
Proof.
  intros [[a b] Hl H64|[a b] Hl H64| |]; cbn [cmdOf].
  1,2: rewrite parseClocks_lockArg by done; destruct ((a <=? 0)%Z || (b <? a)%Z) eqn:Er; [done|]; intros [= <-];
    apply orb_false_iff in Er as [Ea%Z.leb_gt Eb%Z.ltb_ge]; cbn [textRun lgcCmd lmcCmd lc_file]; unfold lockValue; cbn [lc_hi lc_lo lgcCmd lmcCmd];
    (destruct (Z.ltb_spec 0 b); [|lia]); split; [done|by_decide].
  all: intros [= <-]; split; [done|by_decide].
Qed.

Lemma nodeLocks_write n bus g file value n' : wfNode n -> file ∈ lockFiles -> lockText value ->
  gpuAt n bus = Some g -> Forall (fun a => a <> newline) (list_ascii_of_string value) -> writeAttr n g file (line value) = Some n' ->
  nodeLocks n' bus = (if String.eqb file NVMLLockedGPUClocksFile then (parseLockArg value, (nodeLocks n bus).2)
                      else ((nodeLocks n bus).1, parseLockArg value)) /\
  forall bus', bus' <> bus -> nodeLocks n' bus' = nodeLocks n bus'.
Proof.
  intros Hwf Hfile Ht Hg Hv Hw. assert (agentWrite file (line value)) as Ha by (right; eauto).
  assert (wfNode n') as Hwf' by by apply (writeAttr_wf n g file (line value)).
  assert (forall b, gpuAt n' b = gpuAt n b) as Hat.
  { intros b. apply gpuAt_keeps; [done..| |].
    - intros g'. apply (isGPU_writeAttr _ _ _ _ _ g' Hw).
    - intros g'. rewrite (field_writeAttr _ _ _ _ _ g' _ Hw), decide_False; [done|]. intros [_ E]. by destruct (agentWrite_identity file _ Ha). }
  assert (forall g' f, fileLock n' g' f = if decide (nvg_Dir g' = nvg_Dir g /\ f = file) then parseLockArg value else fileLock n g' f) as Hf.
  { intros g' f. unfold fileLock. rewrite (field_writeAttr _ _ _ _ _ g' f Hw). destruct (decide _); [|done]. cbn. by rewrite TrimNewlines_line. }
  split.
  - unfold nodeLocks. rewrite Hat, Hg, !Hf. apply elem_of_cons in Hfile as [-> |Hfile]; [|apply list_elem_of_singleton in Hfile as ->].
    + rewrite decide_True by done. rewrite decide_False by (by intros [_ ?]). done.
    + rewrite decide_False by (by intros [_ ?]). rewrite decide_True by done. done.
  - intros bus' Hne. unfold nodeLocks. rewrite Hat. destruct (gpuAt n bus') as [g'|] eqn:Eg; [|done]. rewrite !Hf.
    assert (nvg_Dir g' <> nvg_Dir g) as Hd.
    { intros E. apply (gpuAt_spec n bus' g' Hwf) in Eg as [[Hi' _] Hb']. apply (gpuAt_spec n bus g Hwf) in Hg as [[Hi _] Hb].
      apply Hne. unfold field, content in *. rewrite E in Hb'. congruence. }
    rewrite !decide_False by (by intros [? _]). done.
Qed.
End Calls.

(** ** The tool the agent relies on *)

(** A node as the emulator keeps it. *)
Record emuNode := mkEmu { emu_node : nvNode; emu_wf : wfNode emu_node }.

Section Emulated.
Context (ParseFloat : string -> option float64) (Format2 : float64 -> string) (timestamp : string).

Lemma runCommand_eq args n : runCommand ParseFloat Format2 timestamp args n =
  let r := runNvidiaSMI ParseFloat Format2 timestamp args n in
  ((runCommand ParseFloat Format2 timestamp args n).1, r.2).
Proof. unfold runCommand. destruct (runNvidiaSMI _ _ _ args n) as [[code out] n']. by destruct (code =? 0)%Z. Qed.

Lemma runCommand_wf args n : wfNode n -> wfNode (runCommand ParseFloat Format2 timestamp args n).2.
Proof. intros H. rewrite runCommand_eq. by apply run_wf. Qed.

#[export] Instance emuSmi : NvidiaSmi emuNode := fun args w =>
  let r := runCommand ParseFloat Format2 timestamp args (emu_node w) in
  (r.1, mkEmu r.2 (runCommand_wf args (emu_node w) (emu_wf w))).

#[export] Instance emuLocking : LockingSmi emuNode.
Proof.
  refine {| gpuLocks := fun w => nodeLocks (emu_node w) |}.
  - intros bus st args [n Hwf] Hb Hcmd. unfold smi_run, emuSmi. cbn [emu_node emu_wf].
    pose proof (run_lock ParseFloat Format2 timestamp bus st args n Hwf Hb Hcmd) as H. rewrite runCommand_eq. cbn [fst snd emu_node].
    unfold runCommand. destruct (runNvidiaSMI _ _ _ args n) as [[code out] n']. cbn [fst snd]. destruct H as [[Hn H]|H]; cbn [fst snd] in *.
    + subst n'. destruct (Z.eqb_spec code 0) as [->|Hc]; cbn [fst]; (split; [|done]).
      * destruct H as [|H]; [done|]. by rewrite H.
      * match goal with |- context [ClassifyRun "" (Some ?e) ""] => pose proof (Classify_applied (Some e) "" "") as [Hno _];
          destruct (String.eqb_spec (ClassifyRun "" (Some e) "").1 GovernorResultApplied) as [E|]; [by destruct (Hno E)|done] end.
    + destruct H as (cmd & g & Ecmd & Hc & Hg & Hw & Hcode & Hq). cbn [fst snd] in *. rewrite Hcode, Z.eqb_refl. cbn [fst].
      rewrite quiet_run by done. change (String.eqb (GovernorResultApplied, "").1 GovernorResultApplied) with true. cbv iota.
      destruct (nodeLocks n bus) as [lg lm] eqn:El. destruct (textRun_cmd bus st args cmd lg lm Hcmd Ecmd) as [-> Hf].
      pose proof (nodeLocks_write n bus g (lc_file cmd) (lockValue cmd) n' Hwf Hf (lockCmd_text cmd Hc) Hg (lockValue_no_newline cmd) Hw) as [Hl Ho].
      rewrite El in Hl. by split.
  - intros args [n Hwf] Hq bus. unfold smi_run, emuSmi. cbn [emu_node snd]. rewrite runCommand_eq. cbn [snd]. by rewrite run_query.
Defined.
End Emulated.
