(* ===== verification/SimNvClock.v ===== *)
(** * Simulator: NVIDIA clocks on an emulated node

    The clock model of an emulated NVIDIA GPU (simulator/pkg/hwemu:
    profile_nvclock.go, node_nvclock.go, render_nvml.go): what a profile says
    of the clocks and the checks on it, the files rendered of it, the lock
    files as the node reads them back, and the clocks, the preset and the
    native text of every load. The theorem joins it with the agent: the locks
    an apply reports are the locks the node runs under. The facts' sources are
    left out, clocks are whole MHz far below where [float64] stops counting,
    and whether a power cap binds is an input (the physics). *)

From S2P Require Import Prelude GoString GoFloat FloatFacts GoSlices Api Governor GpuGovernor Native Host NvidiaDiscovery CpuDiscovery GovernorLoop NvidiaControl SimCpuFreq SimNvidia.

#[local] Open Scope string_scope.

(** ** The profile *)

(** The values of the facts; [None] where the profile says nothing.
    src/simulator/pkg/hwemu/types.go:422-450 [NVClocksSpec, NVClockCeilingSpec] *)
Record NVClocksSpec := mkNVClocks {
  nvs_SMMin : Z; nvs_SMMax : Z; nvs_SMIdle : Z; nvs_SMSustained : Z;
  nvs_MemMin : Z; nvs_MemMax : Z; nvs_MemIdle : Z; nvs_RuntimeLock : bool;
  nvs_IdlePState : string;
  nvs_SMMHz : list Z; nvs_MemMHz : list Z; nvs_SMMaxByMem : list (Z * Z);
  nvs_LockFloorAtIdle : option bool; nvs_LocksResetOnDeinit : option bool
}.

(** src/simulator/pkg/hwemu/profile_nvclock.go:65-67 [nvclockLockFloorAtIdle] *)
Definition nvclockLockFloorAtIdle (c : NVClocksSpec) : bool := default true (nvs_LockFloorAtIdle c).

(** src/simulator/pkg/hwemu/profile_nvclock.go:71-73 [nvclockLocksResetOnDeinit] *)
Definition nvclockLocksResetOnDeinit (c : NVClocksSpec) : bool := default false (nvs_LocksResetOnDeinit c).

(** Highest memory clock first, ties as they stood.
    src/simulator/pkg/hwemu/profile_nvclock.go:134-141 [nvclockCeilings] *)
Definition nvclockCeilings (c : NVClocksSpec) : list (Z * Z) := sort_slice (fun a b => (b.1 <? a.1)%Z) (nvs_SMMaxByMem c).

(** [^P(\[0-9\]|1\[0-5\])$].
    src/simulator/pkg/hwemu/profile_nvclock.go:56-56 [renderPStateRegex] *)
Definition isPState (s : string) : bool := existsb (fun i => String.eqb s ("P" +:+ Itoa (Z.of_nat i))) (seq 0 16).

(** A domain without a problem.
    src/simulator/pkg/hwemu/profile_nvclock.go:94-111 [domain] *)
Definition domainOK (minMHz idleMHz maxMHz : Z) (supported : list Z) : bool :=
  let sorted := sort_ints supported in
  ((0 <? minMHz) && (minMHz <=? idleMHz) && (idleMHz <=? maxMHz))%Z &&
  negb (length supported =? 0)%nat && (length (Compact Z.eqb sorted) =? length supported)%nat &&
  (lowest sorted =? minMHz)%Z && (highest sorted =? maxMHz)%Z.

(** Each pair is of supported clocks, and no lower memory clock has a higher
    ceiling.
    src/simulator/pkg/hwemu/profile_nvclock.go:120-128 [renderValidateNVClock] *)
Fixpoint ceilingsOK (c : NVClocksSpec) (before : option (Z * Z)) (pairs : list (Z * Z)) : bool :=
  match pairs with
  | [] => true
  | (m, g) :: rest =>
      bool_decide (m ∈ nvs_MemMHz c) && bool_decide (g ∈ nvs_SMMHz c) &&
      match before with Some (m', g') => negb (m =? m')%Z && (g <=? g')%Z | None => true end &&
      ceilingsOK c (Some (m, g)) rest
  end.

(** A profile of an NVIDIA GPU whose clocks have no problem.
    src/simulator/pkg/hwemu/profile_nvclock.go:82-130 [renderValidateNVClock] *)
Definition renderValidateNVClock (c : NVClocksSpec) : bool :=
  domainOK (nvs_SMMin c) (nvs_SMIdle c) (nvs_SMMax c) (nvs_SMMHz c) &&
  domainOK (nvs_MemMin c) (nvs_MemIdle c) (nvs_MemMax c) (nvs_MemMHz c) &&
  ((nvs_SMMin c <=? nvs_SMSustained c) && (nvs_SMSustained c <=? nvs_SMMax c))%Z &&
  isPState (nvs_IdlePState c) && ceilingsOK c None (nvclockCeilings c).

(** The ceiling of the highest supported memory clock at or below one, zero
    for none.
    src/simulator/pkg/hwemu/profile_nvclock.go:147-163 [nvclockSMCeilMHz] *)
Definition nvclockSMCeilMHz (c : NVClocksSpec) (memMHz : Z) : Z :=
  match nvs_SMMaxByMem c, nvs_MemMHz c with
  | [], _ | _, [] => 0%Z
  | pairs, m :: ms =>
      let level := foldl (fun level m => if ((m <=? memMHz) && (level <? m))%Z then m else level) (foldl Z.min m ms) (m :: ms) in
      match find (fun p => (p.1 =? level)%Z) pairs with Some p => p.2 | None => 0%Z end
  end.

(** src/simulator/pkg/hwemu/profile_nvclock.go:219-228 [nvclockMHzList] *)
Definition nvclockMHzList (mhz : list Z) : string := Join (Itoa <$> rev (sort_ints mhz)) " ".

(** src/simulator/pkg/hwemu/profile_nvclock.go:173-179 [nvclockSupportedText] *)
Definition nvclockSupportedText (c : NVClocksSpec) : string :=
  line ("memory " +:+ nvclockMHzList (nvs_MemMHz c)) +:+ line ("graphics " +:+ nvclockMHzList (nvs_SMMHz c)) +:+
  Join ((fun p => line ("graphics-max " +:+ Itoa p.1 +:+ " " +:+ Itoa p.2)) <$> nvclockCeilings c) "".

(** ** Locks *)

(** src/simulator/pkg/hwemu/profile_nvclock.go:26-54 [nvclockUnlocked, nvclockNotSupported, nvclockReasonGPUIdle, nvclockReasonApplicationsSetting, nvclockReasonSWPowerCap] *)
Definition nvclockUnlocked := "none".
Definition nvclockNotSupported := "[N/A]".
Definition nvclockReasonGPUIdle := 1%Z.
Definition nvclockReasonApplicationsSetting := 2%Z.
Definition nvclockReasonSWPowerCap := 4%Z.

(** src/simulator/pkg/hwemu/node_nvclock.go:40-43 [nvclockLock] *)
Record nvclockLock := mkLock { nvl_set : bool; nvl_min : Z; nvl_max : Z }.
Definition noLock : nvclockLock := mkLock false 0 0.

(** src/simulator/pkg/hwemu/node_nvclock.go:47-52 [lock] *)
Definition lock (l : nvclockLock) : option (Z * Z) := if nvl_set l then Some (nvl_min l, nvl_max l) else None.

(** src/simulator/pkg/hwemu/node_nvclock.go:64-69 [text] *)
Definition lockTextOf (l : nvclockLock) : string :=
  if nvl_set l then Itoa (nvl_min l) +:+ "," +:+ Itoa (nvl_max l) else nvclockUnlocked.

(** What a lock file does with a text: the event, what the file shows, and the
    lock.
    src/simulator/pkg/hwemu/node_nvclock.go:128-147 [nvclockLockHandler] *)
Definition nvclockLockHandler (v : string) (l : nvclockLock) : EventKind * string * nvclockLock :=
  if String.eqb v nvclockUnlocked then (EventAccepted, v, noLock)
  else
    let '(lo, hi, ok) := Cut v "," in
    match nodeParseInt lo, nodeParseInt hi with
    | Some a, Some b =>
        if negb ok then (EventParseError, lockTextOf l, l)
        else if ((a <=? 0) || (b <? a))%Z then (EventRevertedOutOfRange, lockTextOf l, l)
        else (EventAccepted, lockTextOf (mkLock true a b), mkLock true a b)
    | _, _ => (EventParseError, lockTextOf l, l)
    end.

(** ** Clocks *)

(** src/simulator/pkg/hwemu/node_nvclock.go:234-248 [nvclockRun] *)
Definition nvclockRun (l : nvclockLock) (busy floor : bool) (lo idle top : Z) : Z :=
  let v := if busy then (if nvl_set l then Z.min top (nvl_max l) else top)
           else if nvl_set l && floor then Z.min (Z.max idle (nvl_min l)) (nvl_max l)
           else if nvl_set l then Z.min idle (nvl_max l) else idle in
  Z.max lo (Z.min v top).

(** src/simulator/pkg/hwemu/node_nvclock.go:221-226 [nvclockMemBound] *)
Definition nvclockMemBound (c : NVClocksSpec) (mem sm : Z) : Z :=
  let ceil := nvclockSMCeilMHz c mem in
  if (0 <? ceil)%Z then Z.max (nvs_SMMin c) (Z.min sm ceil) else sm.

(** Zero on both sides without a lock.
    src/simulator/pkg/hwemu/node_nvclock.go:266-271 [nvclockBounds] *)
Definition nvclockBounds (l : nvclockLock) : Z * Z := if nvl_set l then (nvl_min l, nvl_max l) else (0, 0)%Z.

(** src/simulator/pkg/hwemu/node_nvclock.go:276-288 [nvclockNative] *)
Definition nvclockNative (gpu mem : nvclockLock) : string :=
  let parts := ((if nvl_set gpu then ["lgc=" +:+ lockTextOf gpu] else []) ++ (if nvl_set mem then ["lmc=" +:+ lockTextOf mem] else []))%list in
  if (length parts =? 0)%nat then GovernorStateUnlocked else Join parts " ".

Inductive DataPath := DataPathMax | DataPathMid | DataPathMin.

(** What the derive leaves of a GPU: the text and the preset of its locks, the
    bounds on the compute and memory clocks, the clocks and the highest ones
    in effect, and what the state files show. *)
Record gpuClock := mkClock {
  gk_native : string; gk_preset : string; gk_computeFloor : Z; gk_computeCeil : Z; gk_memFloor : Z; gk_memCeil : Z;
  gk_dataPathAuto : bool; gk_dataPath : DataPath; gk_sm : Z; gk_smTop : Z; gk_mem : Z; gk_memTop : Z; gk_pstate : string; gk_reasons : Z
}.

(** src/simulator/pkg/hwemu/node_nvclock.go:171-173 [deriveGPUNVClock] *)
Definition memClock (c : NVClocksSpec) (mem : nvclockLock) (busy : bool) : Z :=
  nvclockRun mem busy (nvclockLockFloorAtIdle c) (nvs_MemMin c) (nvs_MemIdle c) (nvs_MemMax c).
Definition smClock (c : NVClocksSpec) (gpu mem : nvclockLock) (busy : bool) : Z :=
  nvclockMemBound c (memClock c mem busy) (nvclockRun gpu busy (nvclockLockFloorAtIdle c) (nvs_SMMin c) (nvs_SMIdle c) (nvs_SMSustained c)).

(** Whether the GPU's cap holds its power below what its load would draw is
    [capBinds].
    src/simulator/pkg/hwemu/node_nvclock.go:167-216 [deriveGPUNVClock] *)
Definition deriveGPUNVClock (c : NVClocksSpec) (facts : NVFacts) (busy capBinds : bool) (gpu mem : nvclockLock) : gpuClock :=
  let memMHz := memClock c mem busy in
  let sm := smClock c gpu mem busy in
  let memTop := memClock c mem true in
  let '(floor, ceil) := nvclockBounds gpu in
  let top := nvclockSMCeilMHz c memTop in
  let '(floor, ceil) :=
    if ((0 <? top) && ((ceil =? 0) || (top <? ceil)))%Z
    then (Z.min floor (Z.max top (nvs_SMMin c)), Z.max top (nvs_SMMin c)) else (floor, ceil) in
  {| gk_native := nvclockNative gpu mem;
     gk_preset := default "" (ReverseNvidia facts (lock gpu) (lock mem));
     gk_computeFloor := floor; gk_computeCeil := ceil;
     gk_memFloor := (nvclockBounds mem).1; gk_memCeil := (nvclockBounds mem).2;
     gk_dataPathAuto := negb (nvl_set mem) && (nvs_MemMin c <? nvs_MemMax c)%Z;
     gk_dataPath := if (nvs_MemMax c <=? memMHz)%Z then DataPathMax else if (memMHz <=? nvs_MemMin c)%Z then DataPathMin else DataPathMid;
     gk_sm := sm; gk_smTop := smClock c gpu mem true; gk_mem := memMHz; gk_memTop := memTop;
     gk_pstate := if busy || (nvs_SMIdle c <? sm)%Z || (nvs_MemIdle c <? memMHz)%Z then "P0" else nvs_IdlePState c;
     gk_reasons := if negb busy then nvclockReasonGPUIdle
                   else Z.lor (if nvl_set gpu && (nvl_max gpu <? nvs_SMSustained c)%Z then nvclockReasonApplicationsSetting else 0)
                              (if capBinds then nvclockReasonSWPowerCap else 0) |}.

(** The clock facts the agent discovers of such a GPU.
    src/simulator/pkg/hwemu/node_nvclock.go:98-99 [buildNVClock] *)
Definition profileFacts (arch : string) (c : NVClocksSpec) : NVFacts := NvidiaFacts arch (nvs_SMMHz c) (nvs_MemMHz c).

(** The locks a GPU loses when the driver lets go of it: persistence mode off,
    no load, and a profile that says so.
    src/simulator/pkg/hwemu/node_nvclock.go:305-312 [writeNVClock] *)
Definition deinitLocks (c : NVClocksSpec) (persistence : string) (busy : bool) (gpu mem : nvclockLock) : nvclockLock * nvclockLock :=
  if String.eqb persistence "Disabled" && negb busy && nvclockLocksResetOnDeinit c && (nvl_set gpu || nvl_set mem)
  then (noLock, noLock) else (gpu, mem).

(** ** The rendered state *)

(** What [renderNVML] reads of a profile: [np_CurrentW] is [None] without a
    limit of its own.
    src/simulator/pkg/hwemu/types.go:247-269 [GPUSpec] *)
Record nvProfile := mkProfile {
  np_Count : nat; np_Product : string; np_MinW : float64; np_MaxW : float64; np_DefaultW : float64; np_CurrentW : option float64;
  np_IdleW : float64; np_PersistenceMode : string; np_FieldSupport : gmap string string; np_Clocks : option NVClocksSpec
}.

(** src/simulator/pkg/hwemu/render.go:338-340 [renderUint] *)
Definition renderUint (v : Z) : string := line (Itoa v).

(** src/simulator/pkg/hwemu/render_nvml.go:55-55 [renderNVML] *)
Definition milliwatts (w : float64) : string := renderUint (int_of_float (fround (fmul w (fofZ 1000)))).

(** src/simulator/pkg/hwemu/render_nvml.go:103-108 [persistModeText] *)
Definition persistModeText (mode : string) : string := if String.eqb mode "disabled" then "Disabled" else "Enabled".

(** src/simulator/pkg/hwemu/render_nvml.go:22-33 [renderNVMLFields] *)
Definition renderNVMLFields : list (string * string) := [
  ("name", "name"); ("uuid", "uuid"); ("pci.bus_id", "pci_bus_id"); ("power.min_limit", "power_min_limit_mw");
  ("power.max_limit", "power_max_limit_mw"); ("power.default_limit", "power_default_limit_mw"); ("power.limit", "power_limit_mw");
  ("enforced.power.limit", "enforced_power_limit_mw"); ("power.draw", "power_draw_mw"); ("utilization.gpu", "utilization_gpu_pct")].

(** The digits of [%02X] of a number of at most four digits. *)
Definition upperHex (n : N) : ascii := ascii_of_N (if (n <? 10)%N then 48 + n else 55 + n)%N.
Definition hex2 (n : N) : string :=
  string_of_list_ascii
    ((if (4096 <=? n)%N then [upperHex (n / 4096 mod 16)] else []) ++ (if (256 <=? n)%N then [upperHex (n / 256 mod 16)] else []) ++
     [upperHex (n / 16 mod 16); upperHex (n mod 16)]).

(** src/simulator/pkg/hwemu/render_nvml.go:64-64 [renderNVML] *)
Definition gpuBus (i : nat) : string := "00000000:" +:+ hex2 (16 + N.of_nat i) +:+ ":00.0".

Section Render.
(** [hex.EncodeToString(sha256.Sum256(...)\[:16\])]. *)
Context (hexSum : string -> string).

(** src/simulator/pkg/hwemu/render_nvml.go:112-116 [renderGPUUUID] *)
Definition renderGPUUUID (node : string) (i : nat) : string :=
  let h := hexSum (node +:+ "/" +:+ Itoa (Z.of_nat i)) in
  "GPU-" +:+ String.substring 0 8 h +:+ "-" +:+ String.substring 8 4 h +:+ "-" +:+ String.substring 12 4 h +:+ "-" +:+
  String.substring 16 4 h +:+ "-" +:+ String.substring 20 12 h.

(** The token of a field that is not supported replaces its file's content;
    each file has one field at most, so the order of the map does not matter.
    src/simulator/pkg/hwemu/render_nvml.go:75-86 [renderNVML] *)
Definition supportedContent (p : nvProfile) (entry : string * string) : string :=
  match find (fun kv => String.eqb kv.2 entry.1) renderNVMLFields with
  | Some (f, _) => match np_FieldSupport p !! f with Some token => line token | None => entry.2 end
  | None => entry.2
  end.

(** src/simulator/pkg/hwemu/render_nvml.go:61-74 [renderNVML] *)
Definition nvmlEntries (p : nvProfile) (node : string) (i : nat) : list (string * string) :=
  let current := milliwatts (default (np_DefaultW p) (np_CurrentW p)) in [
  ("name", line (np_Product p));
  ("uuid", line (renderGPUUUID node i));
  ("pci_bus_id", line (gpuBus i));
  ("power_min_limit_mw", milliwatts (np_MinW p));
  ("power_max_limit_mw", milliwatts (np_MaxW p));
  ("power_default_limit_mw", milliwatts (np_DefaultW p));
  ("power_limit_mw", current);
  ("enforced_power_limit_mw", current);
  ("power_draw_mw", milliwatts (np_IdleW p));
  ("total_energy_mj", line "0");
  ("utilization_gpu_pct", line "0");
  (NVMLPersistenceModeFile, line (persistModeText (np_PersistenceMode p)))].

(** The event reasons of an idle GPU are spelled [0x%016X].
    src/simulator/pkg/hwemu/profile_nvclock.go:188-216 [renderNVClock] *)
Definition nvclockEntries (c : NVClocksSpec) : list (string * string) := [
  (nvClockSMFile, renderUint (nvs_SMIdle c));
  (nvClockMemFile, renderUint (nvs_MemIdle c));
  ("pstate", line (nvs_IdlePState c));
  ("clocks_event_reasons", line "0x0000000000000001");
  (nvClockMaxSMFile, renderUint (nvs_SMMax c));
  (nvClockMaxMemFile, renderUint (nvs_MemMax c));
  (nvClockSupportedFile, nvclockSupportedText c);
  (NVMLLockedGPUClocksFile, line nvclockUnlocked);
  (NVMLLockedMemClocksFile, line (if nvs_RuntimeLock c then nvclockUnlocked else nvclockNotSupported))].

Definition gpuEntries (p : nvProfile) (node : string) (i : nat) : list (string * string) :=
  (((fun e => (e.1, supportedContent p e)) <$> nvmlEntries p node i) ++ match np_Clocks p with Some c => nvclockEntries c | None => [] end)%list.

(** The NVML state of a node.
    src/simulator/pkg/hwemu/render_nvml.go:46-92 [renderNVML] *)
Definition renderNVML (p : nvProfile) (node : string) (unprivileged : bool) : nvNode := {|
  nn_dirs := Some (list_to_map ((fun i => ("gpu" +:+ Itoa (Z.of_nat i), list_to_map (gpuEntries p node i))) <$> seq 0 (np_Count p)));
  nn_driver := Some (line "590.48.01");
  nn_Unprivileged := unprivileged;
  nn_variant := nvVariantDefault
|}.

(** *** A rendered node is well formed *)

Lemma gpuEntries_names p node i : (gpuEntries p node i).*1 =
  ((nvmlEntries p node i).*1 ++ match np_Clocks p with Some c => (nvclockEntries c).*1 | None => [] end)%list.
Proof.
  unfold gpuEntries. rewrite fmap_app, <- list_fmap_compose. f_equal. by destruct (np_Clocks p).
Qed.

Lemma gpuEntries_NoDup p node i : NoDup (gpuEntries p node i).*1.
Proof. rewrite gpuEntries_names. cbn [nvmlEntries fmap list_fmap fst]. destruct (np_Clocks p); cbn [nvclockEntries fmap list_fmap fst app]; by_decide. Qed.

Lemma gpuFile p node i k v : (k, v) ∈ gpuEntries p node i -> (list_to_map (gpuEntries p node i) : gpuDir) !! k = Some v.
Proof. apply elem_of_list_to_map_1, gpuEntries_NoDup. Qed.

Lemma rendered_dir p node u name : dirAt (renderNVML p node u) name <> None ->
  exists i, (i < np_Count p)%nat /\ name = "gpu" +:+ Itoa (Z.of_nat i) /\ dirAt (renderNVML p node u) name = Some (list_to_map (gpuEntries p node i)).
Proof.
  unfold dirAt. cbn [nn_dirs renderNVML mbind option_bind]. intros H.
  destruct (list_to_map _ !! name) as [d|] eqn:E; [|done]. pose proof E as E'. apply elem_of_list_to_map_2 in E.
  apply list_elem_of_fmap in E as (i & [= -> ->] & Hi%elem_of_seq). exists i. split; [lia|done].
Qed.

Lemma content_dirAt n g file : content n g file = dir ← dirAt n (nvg_Dir g); dir !! file.
Proof. unfold content, dirAt. by destruct (nn_dirs n). Qed.

Lemma gpuIndex_Itoa i : in_int64 (Z.of_nat i) -> gpuIndex ("gpu" +:+ Itoa (Z.of_nat i)) = Some (Z.of_nat i).
Proof.
  intros H. unfold gpuIndex. rewrite CutPrefix_app, Atoi_Itoa by done. cbn [negb mbind option_bind].
  destruct (Z.ltb_spec (Z.of_nat i) 0); [lia|]. cbn [orb]. by rewrite String.eqb_refl.
Qed.

Lemma gpuBuses : NoDup (gpuBus <$> seq 0 240) /\
  forallb (fun i => forallb busChar (list_ascii_of_string (gpuBus i))) (seq 0 240) = true.
Proof. split; [by_decide|by vm_compute]. Qed.

Lemma gpuBus_good i : (i < 240)%nat -> isBus (gpuBus i) /\ TrimNewlines (line (gpuBus i)) = gpuBus i.
Proof.
  intros Hi. destruct gpuBuses as [_ H]. rewrite forallb_forall in H. specialize (H i ltac:(apply in_seq; lia)).
  assert (isBus (gpuBus i)) as Hb.
  { split; [apply Forall_forall; intros a Ha; rewrite forallb_forall in H; apply H; by apply list_elem_of_In|].
    unfold gpuBus. rewrite list_ascii_app. apply elem_of_app. left. by_decide. }
  split; [done|]. apply TrimNewlines_line, (isBus_all _ _); [|done]. intros a Ha. by apply bus_plain.
Qed.

Lemma gpuBus_inj i j : (i < 240)%nat -> (j < 240)%nat -> gpuBus i = gpuBus j -> i = j.
Proof.
  intros Hi Hj E. destruct gpuBuses as [H _]. apply (NoDup_lookup _ i j (gpuBus i) H).
  - rewrite list_lookup_fmap, lookup_seq_lt by done. done.
  - rewrite list_lookup_fmap, lookup_seq_lt by done. by rewrite E.
Qed.

Lemma substring_chars (P : ascii -> Prop) i k s : Forall P (list_ascii_of_string s) -> Forall P (list_ascii_of_string (String.substring i k s)).
Proof.
  revert i k. induction s as [|a s IH]; intros i k H; [by destruct i, k|]. apply Forall_cons in H as [Ha H].
  destruct i as [|i]; cbn [String.substring]; [|by apply IH]. destruct k as [|k]; [constructor|]. cbn. constructor; [done|by apply IH].
Qed.

Context (Hhex : forall s, Forall (fun a => a <> ":"%char /\ a <> newline) (list_ascii_of_string (hexSum s))).

Lemma renderGPUUUID_chars node i : Forall (fun a => a <> ":"%char /\ a <> newline) (list_ascii_of_string (renderGPUUUID node i)).
Proof.
  unfold renderGPUUUID. rewrite !list_ascii_app, !Forall_app. split_and!; first [by_decide|apply substring_chars, Hhex].
Qed.

Lemma rendered_GPU p node u g : isGPU (renderNVML p node u) g ->
  exists i, (i < np_Count p)%nat /\ nvg_Dir g = "gpu" +:+ Itoa (Z.of_nat i) /\
    forall k v, (k, v) ∈ gpuEntries p node i -> content (renderNVML p node u) g k = Some v.
Proof.
  intros [_ [d Hd]]. destruct (rendered_dir p node u (nvg_Dir g)) as (i & Hi & E & Ed); [by rewrite Hd|].
  exists i. split; [done|]. split; [done|]. intros k v Hk. rewrite content_dirAt, Ed. cbn. by apply gpuFile.
Qed.

(** Nothing is locked on a rendered node. *)
Lemma rendered_lock p node u g file raw : file ∈ lockFiles -> content (renderNVML p node u) g file = Some raw ->
  raw = line nvclockUnlocked \/ raw = line nvclockNotSupported.
Proof.
  intros Hfile Hc. rewrite content_dirAt in Hc. destruct (dirAt _ _) as [d|] eqn:Ed0; [|done].
  destruct (rendered_dir p node u (nvg_Dir g)) as (i & _ & _ & Ed); [by rewrite Ed0|]. rewrite Ed in Ed0. apply (inj Some) in Ed0.
  cbn [mbind option_bind] in Hc. rewrite <- Ed0 in Hc. apply elem_of_list_to_map_2 in Hc. unfold gpuEntries in Hc.
  apply elem_of_app in Hc as [(e & [= -> ->] & He)%list_elem_of_fmap|Hr].
  - exfalso. apply (list_elem_of_fmap_2 fst) in He. cbn [nvmlEntries fmap list_fmap fst] in He. revert Hfile He. unfold lockFiles.
    intros [-> |[-> |[]%not_elem_of_nil]%elem_of_cons]%elem_of_cons; by_decide.
  - destruct (np_Clocks p) as [c|]; [|by apply not_elem_of_nil in Hr]. unfold nvclockEntries in Hr. revert Hfile Hr. unfold lockFiles.
    intros [-> |[-> |[]%not_elem_of_nil]%elem_of_cons]%elem_of_cons Hr;
      repeat (apply elem_of_cons in Hr as [Hr|Hr]; [try discriminate Hr; injection Hr as ->|]); try (by apply not_elem_of_nil in Hr);
      [by left|destruct (nvs_RuntimeLock c); [by left|by right]].
Qed.

Lemma rendered_unlocked p node u bus : nodeLocks (renderNVML p node u) bus = (None, None).
Proof.
  unfold nodeLocks. destruct (gpuAt _ bus) as [g|]; [|done]. assert (forall file, file ∈ lockFiles -> fileLock (renderNVML p node u) g file = None) as Hf.
  { intros file Hfile. unfold fileLock, field. destruct (content _ g file) as [raw|] eqn:E; [|done].
    by destruct (rendered_lock p node u g file raw Hfile E) as [-> | ->]. }
  rewrite !Hf by (unfold lockFiles; by_decide). done.
Qed.

(** Every profile of at most 240 GPUs that leaves the identity of a GPU
    readable renders a well-formed node. *)
Lemma renderNVML_wf p node u : (np_Count p <= 240)%nat ->
  np_FieldSupport p !! "uuid" = None -> np_FieldSupport p !! "pci.bus_id" = None -> wfNode (renderNVML p node u).
Proof.
  intros Hc Hu Hb.
  assert (forall i, ("uuid", line (renderGPUUUID node i)) ∈ gpuEntries p node i /\ ("pci_bus_id", line (gpuBus i)) ∈ gpuEntries p node i) as Hid.
  { intros i. unfold gpuEntries. split; apply elem_of_app; left; apply list_elem_of_fmap.
    - exists ("uuid", line (renderGPUUUID node i)). split; [|do 1 right; left]. unfold supportedContent. cbn [find renderNVMLFields fst snd String.eqb Ascii.eqb Bool.eqb].
      by rewrite Hu.
    - exists ("pci_bus_id", line (gpuBus i)). split; [|do 2 right; left]. unfold supportedContent. cbn [find renderNVMLFields fst snd String.eqb Ascii.eqb Bool.eqb].
      by rewrite Hb. }
  split_and!.
  - intros g Hg. destruct (rendered_GPU p node u g Hg) as (i & Hi & _ & Hf). destruct (Hid i) as [H1 H2].
    destruct (gpuBus_good i ltac:(lia)) as [Hbus Et]. exists (renderGPUUUID node i), (gpuBus i). unfold field.
    rewrite (Hf _ _ H1), (Hf _ _ H2). cbn [fmap option_fmap option_map]. rewrite Et. pose proof (renderGPUUUID_chars node i) as Hch.
    split_and!; try done.
    + f_equal. apply TrimNewlines_line. eapply Forall_impl; [exact Hch|]. by intros a [_ ?].
    + intros Hin. rewrite Forall_forall in Hch. by apply Hch in Hin as [? _].
  - intros g g' Hg Hg' E. destruct (rendered_GPU p node u g Hg) as (i & Hi & Ei & Hf). destruct (rendered_GPU p node u g' Hg') as (j & Hj & Ej & Hf').
    unfold field in E. rewrite (Hf _ _ (proj2 (Hid i))), (Hf' _ _ (proj2 (Hid j))) in E. cbn [fmap option_fmap option_map] in E.
    rewrite (proj2 (gpuBus_good i ltac:(lia))), (proj2 (gpuBus_good j ltac:(lia))) in E. apply (inj Some), gpuBus_inj in E; [|lia..]. subst j.
    destruct Hg as [Hg _], Hg' as [Hg' _], g as [x d], g' as [x' d']. cbn in *. rewrite <- Ej in Ei. subst d'. congruence.
  - intros g file raw _ Hfile Hr. destruct (rendered_lock p node u g file raw Hfile Hr) as [-> | ->]; eexists; (split; [done|]);
      [by left|by right; left].
Qed.
End Render.

(** ** What a successful apply leaves *)

Lemma chooseNvidia_record c n preset pct : chooseNvidia (nvidiaFacts c n) preset pct = chooseNvidia (ng_Facts n) preset pct.
Proof. unfold nvidiaFacts. by destruct (c_nv c !! _). Qed.

Lemma planNvidias_plans FormatG c gpus preset ceiling plans order natives result plans' order' natives' result' :
  NoDup (ng_BusID <$> gpus) ->
  planNvidias FormatG c gpus preset ceiling plans order natives result = inr (plans', order', natives', result') ->
  order' = (order ++ (ng_BusID <$> gpus))%list /\
  (forall n, n ∈ gpus -> exists plan, plans' !! ng_BusID n = Some plan /\
     PlanNvidia (nvidiaFacts c n) (ng_BusID n) preset ceiling = Some plan /\ p_Result plan <> GovernorResultUnsupported) /\
  (forall bus, bus ∉ ng_BusID <$> gpus -> plans' !! bus = plans !! bus).
Proof.
  revert plans order natives result. induction gpus as [|n gpus IH]; intros plans order natives result Hnd; cbn [planNvidias].
  { intros [= <- <- <- <-]. cbn. rewrite app_nil_r. split; [done|]. split; [|done]. by intros n ?%not_elem_of_nil. }
  apply NoDup_cons in Hnd as [Hn Hnd]. destruct (PlanNvidia _ _ _ _) as [plan|] eqn:EP; [|done].
  destruct (String.eqb_spec (p_Result plan) GovernorResultUnsupported) as [|Hr]; [done|]. intros E.
  destruct (IH _ _ _ _ Hnd E) as (-> & Hp & Ho). split; [by rewrite <- app_assoc|]. split.
  - intros m [-> |Hm]%elem_of_cons; [|by apply Hp]. exists plan. rewrite Ho by done. by rewrite lookup_insert_eq.
  - intros bus Hb. rewrite fmap_cons, not_elem_of_cons in Hb. destruct Hb as [Hne Hb]. rewrite Ho by done. by rewrite lookup_insert_ne.
Qed.

Lemma runRecord_other plan bus c bus' : bus' <> bus -> recordOf (runRecord plan bus c) bus' = recordOf c bus'.
Proof.
  intros Hne. unfold runRecord. generalize (p_Args plan). intros l. revert c. induction l as [|a l IH]; intros c; [done|].
  cbn [foldl]. rewrite IH, recordOf_recordNvidia. by rewrite decide_False.
Qed.

Lemma runRecord_self plan bus c : lockPlan bus plan ->
  let r := recordOf c bus in let r' := recordOf (runRecord plan bus c) bus in
  (nr_gpu r', nr_mem r') = foldl (fun locks args => textRun args locks) (nr_gpu r, nr_mem r) (p_Args plan).
Proof.
  intros [Hb Hargs]. cbv zeta. unfold runRecord. revert c. induction Hargs as [|args rest Hcmd _ IH]; intros c; [done|].
  cbn [foldl]. rewrite IH, recordOf_recordNvidia, decide_True by done. by rewrite (recordArgs_command bus plan args _ Hb Hcmd).
Qed.

Lemma runRecords_self (plans : gmap string Plan) order c bus plan : NoDup order -> bus ∈ order -> plans !! bus = Some plan -> lockPlan bus plan ->
  let r := recordOf c bus in
  let r' := recordOf (foldl (fun c bus => runRecord (default noPlan (plans !! bus)) bus c) c order) bus in
  (nr_gpu r', nr_mem r') = foldl (fun locks args => textRun args locks) (nr_gpu r, nr_mem r) (p_Args plan).
Proof.
  intros Hnd Hin Hp Hl. cbv zeta. revert c. induction Hnd as [|b order Hb Hnd IH]; intros c; [by apply not_elem_of_nil in Hin|].
  cbn [foldl]. destruct (decide (b = bus)) as [->|Hne].
  - rewrite Hp. cbn [default from_option id]. rewrite <- (runRecord_self plan bus c Hl). cbv zeta.
    assert (forall order c, bus ∉ order ->
      recordOf (foldl (fun c bus => runRecord (default noPlan (plans !! bus)) bus c) c order) bus = recordOf c bus) as Hrest; [|by rewrite Hrest].
    clear. induction order as [|b order IH]; intros c Hb; [done|]. cbn [foldl]. apply not_elem_of_cons in Hb as [Hne Hb].
    rewrite IH by done. by apply runRecord_other.
  - apply elem_of_cons in Hin as [->|Hin]; [done|]. rewrite (IH Hin). by rewrite !runRecord_other by congruence.
Qed.

(** A run of plans with a failure never reports that it was applied. *)
Lemma runNvidiaPlans_failure {W} `{!NvidiaSmi W} plans order natives c (w : W) :
  let '(_, (res, _, _), _, _) := runNvidiaPlans plans order natives c w in
  res <> "" -> res ∈ writeResults /\ res <> GovernorResultApplied.
Proof.
  assert (forall bus plan todo dn c (w : W), match (runArgs bus plan todo dn c w).1.1.2 with
    | Some (res, _, _) => res ∈ writeResults /\ res <> GovernorResultApplied | None => True end) as Hargs.
  { intros bus plan todo. induction todo as [|args rest IH]; intros dn c0 w0; cbn [runArgs]; [done|].
    destruct (smi_run args w0) as [[err out] w1]. pose proof (ClassifyRun_values ("nvidia-smi " +:+ Join args " ") err out) as Hv.
    destruct (ClassifyRun _ err out) as [res msg]. cbn [fst] in Hv. destruct (String.eqb_spec res GovernorResultApplied) as [|Hne]; [|done].
    cbn [negb]. specialize (IH (dn ++ [args])%list (recordNvidia bus args plan c0) w1).
    by destruct (runArgs bus plan rest _ _ _) as [[[issued failure] c2] w2]. }
  revert natives c w. induction order as [|bus rest IH]; intros natives c w; cbn [runNvidiaPlans]; [done|].
  specialize (Hargs bus (default noPlan (plans !! bus)) (p_Args (default noPlan (plans !! bus))) [] c w).
  destruct (runArgs _ _ _ _ _ _) as [[[issued failure] c1] w1]. cbn [fst snd] in Hargs. destruct failure as [[[res msg] dn]|].
  - destruct (undoNvidiaLocks _ _ _ _) as [[[[undone kept] note] c2] w2]. by intros _.
  - specialize (IH (natives ++ [p_Native (default noPlan (plans !! bus))])%list c1 w1).
    by destruct (runNvidiaPlans _ rest _ _ _) as [[[issued' [[res msg] inForce]] c2] w2].
Qed.

(** The results of an apply that set what it was told. *)
Definition setResults : list string := [GovernorResultApplied; GovernorResultAppliedUnverified; GovernorResultEquivalent].

Lemma planNvidias_refuses FormatG c gpus preset ceiling plans order natives result o :
  planNvidias FormatG c gpus preset ceiling plans order natives result = inl o -> gst_result (out_status o) ∉ setResults.
Proof.
  revert plans order natives result. induction gpus as [|n gpus IH]; intros plans order natives result; cbn [planNvidias]; [done|].
  destruct (PlanNvidia _ _ _ _) as [plan|]; [|intros [= <-]; cbn; by_decide].
  destruct (String.eqb _ _); [intros [= <-]; cbn; by_decide|]. apply IH.
Qed.

Lemma applyNvidia_records {W} `{!NvidiaSmi W} FormatG gpus preset ceiling c (w : W) out c' w' :
  Forall clocksOf gpus -> NoDup (ng_BusID <$> gpus) ->
  (forall n, n ∈ gpus -> nvMemLockable (ng_Facts n) = false -> nr_mem (recordOf c (ng_BusID n)) = None) ->
  applyNvidia FormatG gpus preset ceiling c w = (out, c', w') -> gst_result (out_status out) ∈ setResults ->
  forall n, n ∈ gpus ->
    let ch := chooseNvidia (ng_Facts n) preset ceiling in
    preset ∈ GPUGovernorPresetValues /\ nv_result ch <> GovernorResultUnsupported /\
    nr_gpu (recordOf c' (ng_BusID n)) = nv_gpu ch /\ nr_mem (recordOf c' (ng_BusID n)) = nv_mem ch.
Proof.
  intros Hg Hnd Hmem Happ Hres n Hn. unfold applyNvidia in Happ.
  destruct (planNvidias FormatG c gpus preset ceiling ∅ [] [] GovernorResultApplied) as [o|[[[plans order] natives] result]] eqn:EP.
  { exfalso. injection Happ as <- <- <-. by apply planNvidias_refuses in EP. }
  destruct (planNvidias_plans _ _ _ _ _ _ _ _ _ _ _ _ _ Hnd EP) as (-> & Hplans & _). cbn [app] in *.
  pose proof (runNvidiaPlans_success plans (ng_BusID <$> gpus) [] c w) as Hs.
  pose proof (runNvidiaPlans_failure plans (ng_BusID <$> gpus) [] c w) as Hf.
  destruct (runNvidiaPlans plans _ [] c w) as [[[issued [[res msg] inForce]] c1] w1]. destruct (String.eqb_spec res "") as [E|Hne]; cbn [negb] in Happ.
  2:{ exfalso. injection Happ as <- <- <-. cbn in Hres. specialize (Hf Hne) as [Hf1 Hf2]. revert Hf1 Hf2 Hres. unfold writeResults, setResults.
      intros Hf1. repeat (apply elem_of_cons in Hf1 as [-> |Hf1]; [by_decide|]). by apply not_elem_of_nil in Hf1. }
  injection Happ as _ <- _. destruct Hs as [Hs _]. rewrite (Hs E). destruct (Hplans n Hn) as (plan & Hp & EPl & Hr).
  rewrite Forall_forall in Hg. pose proof (PlanNvidia_lockPlan c n preset ceiling plan (Hg n Hn) EPl) as Hlp.
  pose proof (runRecords_self plans (ng_BusID <$> gpus) c (ng_BusID n) plan Hnd ltac:(apply list_elem_of_fmap; eauto) Hp Hlp) as Hrec.
  cbv zeta in Hrec. set (r' := recordOf _ (ng_BusID n)) in *. clearbody r'.
  destruct (nvidiaFacts_same c n) as (E1 & E2 & E3). destruct (Hg n Hn) as (_ & Hsm & Hme). rewrite <- E1 in Hsm. rewrite <- E2 in Hme.
  destruct (PlanNvidia_locks (nvidiaFacts c n) (ng_BusID n) preset ceiling plan (nr_gpu (recordOf c (ng_BusID n))) (nr_mem (recordOf c (ng_BusID n)))
    Hsm Hme EPl Hr) as [Hl _]. cbn [smi textSmi] in Hl. rewrite Hl in Hrec. apply pair_equal_spec in Hrec as [Hg' Hm'].
  assert (p_State plan = mkState "" "" "" "" 0 (nv_gpu (chooseNvidia (ng_Facts n) preset ceiling)) (nv_mem (chooseNvidia (ng_Facts n) preset ceiling)) /\
    preset ∈ GPUGovernorPresetValues /\ nv_result (chooseNvidia (ng_Facts n) preset ceiling) <> GovernorResultUnsupported) as (Est & Hpre & Hch).
  { unfold PlanNvidia in EPl. destruct (checkGPUPreset preset ceiling) eqn:Ec; [|done]. destruct (String.eqb _ ""); [done|]. cbn [negb] in EPl.
    apply checkGPUPreset_true in Ec as [Ec _]. rewrite !chooseNvidia_record in EPl.
    destruct (String.eqb_spec (nv_result (chooseNvidia (ng_Facts n) preset ceiling)) GovernorResultUnsupported) as [Eu|Hu];
      [injection EPl as <-; by destruct Hr|]. injection EPl as <-. done. }
  rewrite Est in *. cbn [st_GPULockMHz st_MemLockMHz] in *. split; [done|]. split; [done|]. rewrite Hg', Hm'. clear Hl Hg' Hm' Est.
  specialize (Hmem n Hn). unfold nvidiaFacts, recordOf in *.
  destruct (nv_gpu _) as [l|], (nv_mem _) as [l'|]; (split; [try done|try done]);
    destruct (c_nv c !! ng_BusID n) as [[rg rm]|]; cbn [default from_option id nr_gpu nr_mem nf_LockedGPU nf_LockedMem noRecord] in *;
    try (by destruct rg); try (by destruct (nf_LockedGPU _)); try (by destruct (nf_LockedMem _ && _));
    (destruct rm; [|done]; rewrite E3 in *; destruct (nvMemLockable (ng_Facts n)); [done|]; by specialize (Hmem eq_refl)).
Qed.

(** ** The node under the agent's locks *)

(** A valid lock file as the node reads it: the lock it holds, and the text as
    it was; a GPU without the lock never had one. *)
Lemma lockText_handled v l : lockText v -> (v = nvTokenNA -> l = noLock) ->
  let '(event, shown, l') := nvclockLockHandler v l in
  lock l' = parseLockArg v /\ (v <> nvTokenNA -> event = EventAccepted /\ shown = v).
Proof.
  intros [-> |[-> |(lo & hi & Hr & Hi & ->)]] Hna.
  - done.
  - rewrite Hna by done. done.
  - unfold nvclockLockHandler. assert (String.eqb (lockArg (lo, hi)) nvclockUnlocked = false) as -> by (by apply lockArg_not_flag).
    rewrite lockArg_cut. unfold nodeParseInt. assert (in_int64 lo) as Hlo by (unfold in_int64, int64_min, int64_max in *; lia).
    rewrite !Atoi_Itoa by done. cbn [negb]. assert ((lo <=? 0)%Z || (hi <? lo)%Z = false) as -> by lia.
    rewrite parseLockArg_lockArg by done. done.
Qed.

Lemma lock_set l lo hi : lock l = Some (lo, hi) -> nvl_set l = true /\ nvl_min l = lo /\ nvl_max l = hi.
Proof. unfold lock. destruct (nvl_set l); [by intros [= <- <-]|done]. Qed.

(** A clock never leaves its lock, nor the range of its domain. *)
Lemma nvclockRun_within l busy floor min idle top lo hi : lock l = Some (lo, hi) -> (min <= hi)%Z ->
  (nvclockRun l busy floor min idle top <= hi)%Z.
Proof. intros (Hs & <- & <-)%lock_set. unfold nvclockRun. rewrite Hs. destruct busy, floor; cbn [andb]; lia. Qed.

Lemma nvclockRun_range l busy floor min idle top : (min <= top)%Z -> (min <= nvclockRun l busy floor min idle top <= top)%Z.
Proof. unfold nvclockRun. lia. Qed.

Lemma memClock_pinned c mem p : lock mem = Some (p, p) -> (nvs_MemMin c <= p <= nvs_MemMax c)%Z -> memClock c mem true = p.
Proof. intros (Hs & E1 & E2)%lock_set Hp. unfold memClock, nvclockRun. rewrite Hs, E2. lia. Qed.

Lemma smClock_within c gpu mem busy lo hi : lock gpu = Some (lo, hi) -> (nvs_SMMin c <= hi)%Z -> (smClock c gpu mem busy <= hi)%Z.
Proof.
  intros Hl Hm. unfold smClock, nvclockMemBound. pose proof (nvclockRun_within gpu busy (nvclockLockFloorAtIdle c) (nvs_SMMin c) (nvs_SMIdle c) (nvs_SMSustained c) lo hi Hl Hm).
  destruct (0 <? _)%Z; lia.
Qed.

Lemma sorted_bounds l x : StronglySorted (not_after Z.ltb) l -> x ∈ l -> (lowest l <= x <= highest l)%Z.
Proof.
  intros Hs Hx. split.
  - destruct Hs as [|a l _ Ha]; [by apply not_elem_of_nil in Hx|]. unfold lowest. cbn [head default from_option id].
    apply elem_of_cons in Hx as [->|Hx]; [lia|]. rewrite Forall_forall in Ha. specialize (Ha x Hx). unfold not_after in Ha. lia.
  - revert x Hx. induction Hs as [|a l Hs IH Ha]; intros x Hx; [by apply not_elem_of_nil in Hx|]. unfold highest in *. destruct l as [|b l].
    + apply list_elem_of_singleton in Hx as ->. cbn. lia.
    + rewrite last_cons_cons. apply elem_of_cons in Hx as [->|Hx]; [|by apply IH].
      specialize (IH b ltac:(by left)). apply Forall_cons in Ha as [Ha _]. unfold not_after in Ha. lia.
Qed.

Lemma domainOK_bounds lo idle hi l x : domainOK lo idle hi l = true -> x ∈ l -> (lo <= x <= hi)%Z.
Proof.
  unfold domainOK. rewrite !andb_true_iff. intros [[_ E1%Z.eqb_eq] E2%Z.eqb_eq] Hx. rewrite <- E1, <- E2.
  apply sorted_bounds; [apply sort_slice_sorted; apply _|]. unfold sort_ints. by rewrite sort_slice_perm.
Qed.

(** A lock file of a well-formed node, as the node reads it. *)
Lemma read_lock n g file v l : wfNode n -> isGPU n g -> file ∈ lockFiles -> field n g file = Some v -> (v = nvTokenNA -> l = noLock) ->
  lock (nvclockLockHandler v l).2 = parseLockArg v.
Proof.
  intros (_ & _ & Hl) Hg Hf Hv Hna. unfold field in Hv. destruct (content n g file) as [raw|] eqn:E; [|done]. injection Hv as Hv.
  destruct (Hl g file raw Hg Hf E) as (s & -> & Hs). assert (TrimNewlines (line s) = s) as Et.
  { apply TrimNewlines_line. destruct Hs as [-> |[-> |(lo & hi & _ & _ & ->)]]; [by_decide..|].
    eapply Forall_impl; [apply lockArg_plain|]. intros a [Ha _] ->. vm_compute in Ha. by destruct Ha. }
  rewrite Et in Hv. subst s. pose proof (lockText_handled v l Hs Hna) as H. destruct (nvclockLockHandler v l) as [[event shown] l']. apply H.
Qed.

(** The clocks and the preset under the locks of a plan. *)
Lemma derive_follows spec arch preset ceiling gpu mem busy capBinds :
  let facts := profileFacts arch spec in
  let ch := chooseNvidia facts preset ceiling in
  renderValidateNVClock spec = true -> preset ∈ GPUGovernorPresetValues -> nv_result ch <> GovernorResultUnsupported ->
  lock gpu = nv_gpu ch -> lock mem = nv_mem ch ->
  let k := deriveGPUNVClock spec facts busy capBinds gpu mem in
  (forall lo hi, nv_gpu ch = Some (lo, hi) -> (gk_sm k <= hi /\ gk_smTop k <= hi)%Z) /\
  (forall lo hi, nv_mem ch = Some (lo, hi) -> (gk_mem k <= hi)%Z /\ gk_memTop k = hi) /\
  gk_preset k ∈ GPUGovernorPresetValues /\
  let ch' := chooseNvidia facts (gk_preset k) ceiling in
  nv_result ch' <> GovernorResultUnsupported /\ nv_gpu ch' = nv_gpu ch /\ nv_mem ch' = nv_mem ch.
Proof.
  cbv zeta. set (facts := profileFacts arch spec). set (ch := chooseNvidia facts preset ceiling). intros Hv Hp Hr El Em.
  unfold renderValidateNVClock in Hv. rewrite !andb_true_iff in Hv. destruct Hv as [[[[Hsm Hme] [_ _]] _] _].
  destruct (chooseNvidia_locks facts preset ceiling) as [Hgl Hml]. fold ch in Hgl, Hml.
  assert (forall x, x ∈ distinctMHz (nf_SupportedSMMHz facts) -> (nvs_SMMin spec <= x)%Z) as Hs
    by (intros x [Hx _]%elem_of_distinctMHz; by apply (domainOK_bounds _ _ _ _ x Hsm)).
  assert (forall x, x ∈ distinctMHz (nf_SupportedMemMHz facts) -> (nvs_MemMin spec <= x <= nvs_MemMax spec)%Z) as Hm
    by (intros x [Hx _]%elem_of_distinctMHz; by apply (domainOK_bounds _ _ _ _ x Hme)).
  set (k := deriveGPUNVClock spec facts busy capBinds gpu mem).
  assert (gk_sm k = smClock spec gpu mem busy /\ gk_smTop k = smClock spec gpu mem true /\ gk_mem k = memClock spec mem busy /\
    gk_memTop k = memClock spec mem true /\ gk_preset k = default "" (ReverseNvidia facts (lock gpu) (lock mem))) as (-> & -> & -> & -> & ->).
  { unfold k, deriveGPUNVClock. destruct (nvclockBounds gpu) as [f ce]. by destruct ((0 <? _)%Z && _). }
  split; [|split].
  - intros lo hi E. destruct (Hgl lo hi E) as (_ & Hhi & _). rewrite E in El. split; apply (smClock_within _ _ _ _ lo hi El); by apply Hs.
  - intros lo hi E. destruct (Hml lo hi E) as (Hlo & -> & _). rewrite E in Em. specialize (Hm lo Hlo). split; [|by apply memClock_pinned].
    apply (nvclockRun_within mem busy _ _ _ _ lo lo Em). lia.
  - destruct (ReverseNvidia_reads_back facts preset ceiling Hp Hr) as (q & Hq & Hin & Hsame). fold ch in Hq, Hsame.
    rewrite El, Em, Hq. cbn [default from_option id]. done.
Qed.

Section Followed.
Context (ParseFloat : string -> option float64) (Format2 FormatG : float64 -> string) (timestamp : string).
#[local] Existing Instance emuSmi.
#[local] Existing Instance emuLocking.
Notation apply := (applyNvidia (W := emuNode) (NvidiaSmi0 := emuSmi ParseFloat Format2 timestamp) FormatG).
Notation accounted0 := (accounted (W := emuNode) (NvidiaSmi0 := emuSmi ParseFloat Format2 timestamp)
  (LockingSmi0 := emuLocking ParseFloat Format2 timestamp) (fun _ => (None, None))).

(** C6. An apply the agent reports as set is what the emulated GPUs run
    under. On a node whose locks are all in the agent's record, after it the
    node reads back of the lock files exactly the locks the planner chose, a
    refused or unsupported lock never standing in for one; under any load no
    clock exceeds its lock and a busy memory clock is the locked one; and the
    preset the node names sets the very same locks at the same ceiling. *)
Theorem locks_followed spec arch gpus preset ceiling c (w : emuNode) out c' w' :
  renderValidateNVClock spec = true -> Forall clocksOf gpus -> NoDup (ng_BusID <$> gpus) ->
  (forall n, n ∈ gpus -> ng_Facts n = profileFacts arch spec) ->
  accounted0 c w -> (nvMemLockable (profileFacts arch spec) = false -> forall bus, nr_mem (recordOf c bus) = None) ->
  apply gpus preset ceiling c w = (out, c', w') -> gst_result (out_status out) ∈ setResults ->
  forall n g vg vm lg lm, n ∈ gpus -> gpuAt (emu_node w') (ng_BusID n) = Some g ->
    field (emu_node w') g NVMLLockedGPUClocksFile = Some vg -> (vg = nvTokenNA -> lg = noLock) ->
    field (emu_node w') g NVMLLockedMemClocksFile = Some vm -> (vm = nvTokenNA -> lm = noLock) ->
    let facts := profileFacts arch spec in
    let ch := chooseNvidia facts preset ceiling in
    let gpu := (nvclockLockHandler vg lg).2 in
    let mem := (nvclockLockHandler vm lm).2 in
    lock gpu = nv_gpu ch /\ lock mem = nv_mem ch /\
    forall busy capBinds, let k := deriveGPUNVClock spec facts busy capBinds gpu mem in
      (forall lo hi, nv_gpu ch = Some (lo, hi) -> (gk_sm k <= hi /\ gk_smTop k <= hi)%Z) /\
      (forall lo hi, nv_mem ch = Some (lo, hi) -> (gk_mem k <= hi)%Z /\ gk_memTop k = hi) /\
      gk_preset k ∈ GPUGovernorPresetValues /\
      let ch' := chooseNvidia facts (gk_preset k) ceiling in
      nv_result ch' <> GovernorResultUnsupported /\ nv_gpu ch' = nv_gpu ch /\ nv_mem ch' = nv_mem ch.
Proof.
  intros Hv Hg Hnd Hfacts Hacc Hmem Happ Hres n g vg vm lg lm Hn Hat Hvg Hlg Hvm Hlm. cbv zeta.
  assert (forall n, n ∈ gpus -> nvMemLockable (ng_Facts n) = false -> nr_mem (recordOf c (ng_BusID n)) = None) as Hmem'
    by (intros m Hm; rewrite (Hfacts m Hm); intros E; by apply Hmem).
  destruct (applyNvidia_records FormatG gpus preset ceiling c w out c' w' Hg Hnd Hmem' Happ Hres n Hn) as (Hpre & Hch & Hrg & Hrm).
  rewrite (Hfacts n Hn) in *. set (facts := profileFacts arch spec) in *. set (ch := chooseNvidia facts preset ceiling) in *.
  pose proof (applyNvidia_accounted FormatG (fun _ => (None, None)) gpus preset ceiling c w Hg Hacc) as Ha. rewrite Happ in Ha.
  specialize (Ha (ng_BusID n)). rewrite Hrg, Hrm in Ha. cbn [gpuLocks emuLocking fst snd] in Ha.
  unfold nodeLocks, fileLock in Ha. rewrite Hat, Hvg, Hvm in Ha. cbn [mbind option_bind fst snd] in Ha.
  destruct (gpuAt_spec (emu_node w') (ng_BusID n) g (emu_wf w')) as [Hgpu _]. destruct (Hgpu Hat) as [Hg' _].
  assert (lock (nvclockLockHandler vg lg).2 = nv_gpu ch /\ lock (nvclockLockHandler vm lm).2 = nv_mem ch) as [El Em].
  { split.
    - rewrite (read_lock (emu_node w') g NVMLLockedGPUClocksFile vg lg) by (first [apply emu_wf|done|unfold lockFiles; by_decide]).
      destruct Ha as [Ha _]. unfold told in Ha. destruct (nv_gpu ch); [done|by destruct Ha].
    - rewrite (read_lock (emu_node w') g NVMLLockedMemClocksFile vm lm) by (first [apply emu_wf|done|unfold lockFiles; by_decide]).
      destruct Ha as [_ Ha]. unfold told in Ha. destruct (nv_mem ch); [done|by destruct Ha]. }
  split; [done|]. split; [done|]. intros busy capBinds. by apply (derive_follows spec arch preset ceiling).
Qed.
End Followed.

(** ** A node of two GPUs *)

Definition sampleClocks : NVClocksSpec := mkNVClocks 210 1410 210 1410 1215 1593 1215 true "P8" [1410; 1095; 1080; 210]%Z [1593; 1215]%Z [(1215, 1095)%Z] None None.
Definition sampleProfile : nvProfile := mkProfile 2 "NVIDIA A100-SXM4-40GB" (fofZ 100) (fofZ 400) (fofZ 400) None (fofZ 50) "enabled" ∅ (Some sampleClocks).
Definition sampleHex (_ : string) : string := "0123456789abcdef0123456789abcdef".

Lemma sampleHex_chars s : Forall (fun a => a <> ":"%char /\ a <> newline) (list_ascii_of_string (sampleHex s)).
Proof. by_decide. Qed.

Definition sampleNode : emuNode := mkEmu (renderNVML sampleHex sampleProfile "n1" false)
  (renderNVML_wf sampleHex sampleHex_chars sampleProfile "n1" false ltac:(cbn; lia) eq_refl eq_refl).

Definition gpuOf (bus : string) : nvidiaGovernorFacts := {| ng_BusID := bus; ng_Facts := profileFacts NVArchAmpere sampleClocks |}.

Definition sampleApply : governorOutcome * governorComponent * emuNode :=
  applyNvidia (NvidiaSmi0 := emuSmi (fun _ => None) (fun _ => "") "now") (fun _ => "") [gpuOf "00000000:10:00.0"; gpuOf "00000000:11:00.0"]
    GPUGovernorPresetEfficient (fofZ 77) (newComponent "gpuGovernor") sampleNode.

Example locks_followed_witness :
  renderValidateNVClock sampleClocks = true /\ gst_result (out_status sampleApply.1.1) = GovernorResultAppliedUnverified /\
  lock (nvclockLockHandler "210,1080" noLock).2 = Some (210, 1080)%Z /\
  (gk_sm (deriveGPUNVClock sampleClocks (profileFacts NVArchAmpere sampleClocks) true false (mkLock true 210 1080) noLock) <= 1080)%Z.
Proof.
  assert (renderValidateNVClock sampleClocks = true) as Hv by (vm_compute; reflexivity).
  assert (gst_result (out_status sampleApply.1.1) = GovernorResultAppliedUnverified) as Hr by (vm_compute; reflexivity).
  split; [exact Hv|]. split; [exact Hr|]. split; [reflexivity|].
  assert (forall b, b ∈ ["00000000:10:00.0"; "00000000:11:00.0"] -> clocksOf (gpuOf b)) as Hcl.
  { intros b Hb. split; [|split; apply Forall_forall; intros n Hn; apply list_elem_of_In in Hn; cbn in Hn; unfold clock; lia].
    cbn [ng_BusID gpuOf]. unfold isBus. apply elem_of_cons in Hb as [-> |Hb]; [by_decide|apply list_elem_of_singleton in Hb as ->; by_decide]. }
  destruct (locks_followed (fun _ => None) (fun _ => "") (fun _ => "") "now" sampleClocks NVArchAmpere
    [gpuOf "00000000:10:00.0"; gpuOf "00000000:11:00.0"] GPUGovernorPresetEfficient (fofZ 77) (newComponent "gpuGovernor") sampleNode
    sampleApply.1.1 sampleApply.1.2 sampleApply.2 Hv) with (n := gpuOf "00000000:11:00.0") (g := mkNvGPU 1 "gpu1") (vg := "210,1080") (vm := "none")
    (lg := noLock) (lm := noLock) as (_ & _ & H).
  - constructor; [apply (Hcl "00000000:10:00.0"); by_decide|constructor; [apply (Hcl "00000000:11:00.0"); by_decide|constructor]].
  - by_decide.
  - intros n [-> |[-> |[]%not_elem_of_nil]%elem_of_cons]%elem_of_cons; reflexivity.
  - intros bus. cbn [gpuLocks emuLocking emu_node sampleNode]. rewrite rendered_unlocked. unfold recordOf. cbn [c_nv newComponent].
    rewrite lookup_empty. cbn. auto.
  - discriminate.
  - unfold sampleApply. apply triple_eta.
  - rewrite Hr. by_decide.
  - right; left.
  - vm_compute. reflexivity.
  - vm_compute. reflexivity.
  - discriminate.
  - vm_compute. reflexivity.
  - discriminate.
  - destruct (H true false) as [Hsm _]. destruct (Hsm 210%Z 1080%Z) as [Hk _]; [vm_compute; reflexivity|]. exact Hk.
Defined.
